(* ===== verification/_CoqProject ===== *)
-Q . S2P
Prelude.v
Bits.v
Clock.v
Bytes.v
BytesProps.v
Boot.v
Sort.v
SortProps.v
WordArray.v
Ksym.v
Queue.v
Stdio.v
Ktable.v
Thread.v
ThreadMap.v
ThreadTree.v
Sched.v
Softirq.v
Ktimer.v
Tickless.v
Mempool.v
Fpage.v
FpageChain.v
Memory.v
AddressSpace.v
MemoryProps.v
MpuSetup.v
Kernel.v
Ipc.v
IpcProps.v
KernelProps.v
DebugUart.v
Breakpoint.v
BreakpointProps.v
Kprobes.v
KprobesProps.v
Sampling.v
SamplingProps.v
Elf.v
ElfProps.v
Gpio.v
GpioProps.v
Nvic.v
DebugDevice.v
UserLib.v
UserLibProps.v
UserCalls.v
RootThread.v
RootProps.v
RootKernel.v
UserKip.v
UserString.v
UserStringProps.v
UserBuffers.v
RootRun.v
Atomic.v
BitBand.v
Start.v
Entry.v
KernelPage.v
UserThread.v
Kdb.v
Console.v
Loader.v
L4test.v
L4testProps.v
