(* ===== verification/Prelude.v ===== *)
(** * A verification of the F9 microkernel

    F9 is an L4-style microkernel for ARM Cortex-M processors.  This library models its C
    code as functions in the state and error monad [M] and proves what they do.  Every
    definition follows one function, loop, type or macro of the source under [src/]; the
    names of the source are kept.

    ** The program and the files

    The kernel keeps threads in a tree and in a map sorted by number, schedules them by
    slots, and switches to the one that runs next by programming the memory protection
    unit.  Threads exchange messages by system calls; interrupts schedule soft interrupts,
    which a kernel thread executes, among them the events of the kernel timer.  Memory is
    divided into pools and given to address spaces as flexible pages, the regions of the
    protection unit.  A loader, a library of C functions, drivers and debugging aids
    surround the kernel.

    - [Prelude]: machine integers with their wrap-around, the monad [M] with its results
      [Done], [Panic], [Fault] and [OutOfFuel], the interface [Part] by which a component's
      operations run on a larger state, the rules of [wp], lemmas on bits, lists and arrays.
    - [Bits]: fields of words, shared by the registers of devices and the user library.
    - [Clock]: the set-up of the clock ([platform/stm32f4/rcc.c]).
    - [Bytes], [BytesProps]: [memcpy], [memset], [strcmp] ([kernel/lib]) on a memory of
      bytes, with aligned words.
    - [Boot]: the init hooks ([kernel/init.c]) and the segments of the start
      ([kernel/start.c]).
    - [Sort], [SortProps], [WordArray], [Ksym]: heap sort, also on arrays of words, binary
      search and the kernel's symbols ([kernel/lib/sort.c], [kernel/lib/bsearch.c],
      [kernel/ksym.c]).
    - [Queue], [Stdio]: the byte queue and formatted output ([kernel/lib/queue.c],
      [kernel/lib/stdio.c]).
    - [Ktable]: bitmaps and the tables from which kernel objects are allocated
      ([kernel/lib/ktable.c], [include/lib/bitmap.h]).
    - [Thread], [ThreadMap], [ThreadTree]: the dispatcher ([kernel/thread.c]): blocks,
      sorted map, tree and selection of threads.
    - [Sched], [Softirq], [Ktimer]: [kernel/sched.c], [kernel/softirq.c],
      [kernel/ktimer.c].
    - [Tickless]: the account of time of a sleep without ticks, and its verification
      ([kernel/tickless-verify.c], [platform/stm32f4/hwtimer.c]).
    - [Mempool], [Fpage], [FpageChain], [Memory], [AddressSpace], [MemoryProps],
      [MpuSetup]: [kernel/memory.c], [kernel/fpage.c], [platform/stm32f4/mpu.c].
    - [Kernel], [Ipc], [IpcProps], [KernelProps]: the kernel as a whole: contexts and their
      switch ([include/platform/irq.h], [platform/irq.c]), system threads
      ([kernel/systhread.c]), messages ([kernel/ipc.c]) and system calls
      ([kernel/syscall.c]).
    - [DebugUart], [DebugDevice]: the driver of the serial line, the debug devices and the
      dispatch of the debugger ([platform/debug_uart.c], [platform/debug_device.c],
      [platform/debug_ram.c], [kernel/debug.c], [kernel/kdb.c]).
    - [Breakpoint], [BreakpointProps], [Kprobes], [KprobesProps]: breakpoints and kernel
      probes ([platform/breakpoint*.c], [kernel/kprobes.c], [platform/kprobes-arch.c]).
    - [Sampling], [SamplingProps]: the sampling profiler ([kernel/sampling.c],
      [kernel/sampling-kdb.c]).
    - [Elf], [ElfProps]: the loader of the kernel image ([loader/elf], [loader/entry.c]).
    - [Gpio], [GpioProps], [Nvic]: pins, the set-up of the serial line and the priorities of
      interrupts ([platform/stm32f4/gpio.c], [platform/stm32f4/usart.c],
      [platform/stm32f4/nvic.c]).
    - [UserLib], [UserLibProps]: types, virtual registers and messages of the user library
      ([user/include/l4/types.h], [user/include/l4/platform/vregs.h],
      [user/include/l4/message.h]).
    - [UserString], [UserStringProps], [UserBuffers]: strings of several items, in messages and
      in the buffers for receiving them ([user/include/l4/message.h]), and the groups of buffer
      registers ([user/include/l4/platform/vregs.h]).
    - [UserCalls], [UserKip]: thread control registers, system calls and their derived
      functions, and the kernel interface page in the user library
      ([user/lib/l4/platform/syscalls.c], [user/include/l4/ipc.h], [user/include/l4/thread.h],
      [user/include/l4/kip.h], [user/lib/io/l4io.c]).
    - [RootThread], [RootProps], [RootKernel]: the root thread and a program
      ([user/root_thread.c], [user/apps/pingpong/main.c]), the system calls they make and what
      the kernel does with them; [RootRun]: the calls that start a program as one run of the
      kernel.
    - [Atomic], [BitBand]: the atomic operations and spin locks, instruction by instruction
      ([platform/bitops.c], [platform/spinlock.c]), and bitmaps in the bit-band region
      ([include/lib/bitmap.h]).
    - [Start], [Entry], [KernelPage]: [main] up to the first thread ([kernel/start.c]), the
      table of vectors, the entry of the debug exception and the context of the floating point
      unit ([kernel/init.c], [platform/hw_debug.c], [include/platform/irq.h]), and the kernel
      interface page ([kernel/kip.c]).
    - [Console], [Loader]: the console of the board, with its set-up
      ([board/discoveryf4/board.c], [dbg_uart_init]), and [main] of the loader with the remapping
      of memory ([loader/entry.c], [include/platform/stm32f4/syscfg.h]).
    - [L4test], [L4testProps]: the test program ([user/apps/l4test]).
    - [UserThread]: the user library's functions over calls without an implementation
      ([user/include/l4/thread.h], [user/include/l4/schedule.h], [user/include/l4/space.h],
      [user/include/l4/misc.h]), against the interface [Calls].
    - [Kdb]: the dumps of the debugger ([kernel/thread.c], [kernel/ktimer.c],
      [kernel/memory.c], [kernel/lib/ktable.c], [kernel/error.c]).

    ** State and errors

    A component's state is a record of its variables.  Objects of the kernel's tables are
    in heaps keyed by their addresses, and keep their contents when they are freed, as the
    static arrays do; a pointer is a [Z].  [Panic] is a call of [panic] or a failed
    [assert]; [Fault] is an access the C program may not make: a null pointer, an address
    without an object, an index out of range, an unaligned word.  A theorem that a function
    ends in [Done] therefore says that it returns and makes no such access.

    Code that is not part of a function is a parameter: the handlers of the scheduler, of
    soft interrupts, of timer events and of probes, the addresses of the linker, what the
    hardware does while the processor sleeps or waits for the clock, the kernel for the user's
    programs (it may answer anything, see [RootProps]), the values of uninitialised variables.  What a
    theorem needs of them is a hypothesis of it, and a witness next to the theorem shows that
    it can be met.

    ** Fuel

    A loop over a linked structure, or one without a bound in the code, has fuel and ends in
    [OutOfFuel] when it is used up.  The fuel is the number of objects of the heap
    ([queue_fuel], [fp_fuel], [probes_fuel], twice the number for the tree, [tree_fuel]), of
    words or bytes of a region or of memory, the length of the range and one for the search of the thread
    map, or 32 for the searches of [bsearch] and [fp_addr_log2] and for the loop of
    [L4_TimePeriod], which halve a word; each is enough, since the theorems prove that the
    result is [Done] or exact.  Where the number of turns is
    not bounded by the code (a wait for the hardware in [Clock] and [DebugUart], soft interrupts that are scheduled
    again, handlers that change the list of probes) the fuel is a parameter.

    ** What is proved

    - Isolation: after [as_setup_mpu] and after a switch of contexts the protection unit admits
      only pages of the thread's address space ([as_setup_mpu_isolates],
      [context_switch_isolates]); what is written to a region is what is read back
      ([mpu_setup_region_addr_in_mpu]), and a fault on a page of the space is served.
    - Memory: a chain of pages tiles its range exactly ([create_fpage_chain_tiles]); the list of
      pages of a space stays sorted.
    - Threads: creation and destruction keep the invariant of table, map and tree
      ([thread_create_adds_child], [thread_destroy_removes]); selection returns the first
      runnable thread in preorder; the map's search is the lower bound (its comment says the upper
      bound).
    - Tables: first fit, and the set of live elements ([ktable_alloc_first_fit],
      [ktable_alloc_free_live]); no bit is set by two agents, under each interleaving
      ([test_and_set_bit_exclusive]); the bit-band bitmap is equivalent to the bitmap of words
      ([bitband_equivalent]).
    - Time: a scheduled event is inserted at its due time, and what this does to the due times of
      the events behind it ([ktimer_event_schedule_deadlines]); due events are run in order, freed
      or scheduled again ([ktimer_event_handler_fires]); the timer fires on time
      ([ktimer_fires_on_time]); a sleep without ticks keeps the deadline, but for an interrupt at the
      very end of a tick ([tickless_keeps_deadline]); soft interrupts are served until none is
      scheduled ([softirq_execute_serves]).
    - Messages: a transfer delivers the words and wakes the receiver ([do_ipc_transfers]); a
      sender and a receiver that wait for each other meet ([ipc_deliver_rendezvous]); what the
      sender puts in a message object the receiver gets from its own ([message_end_to_end]); the
      test of messages of the test program passes exactly when they arrive as sent
      ([ipc_test_verdict]), and it passes on this kernel ([ipc_test_passes]).
    - Strings: the walks over items end in every memory ([EndOfString_ends]); strings are joined,
      extended and appended to messages as lists of items ([AddSubstringTo_joins],
      [AddSubstringAddressTo_adds], [MsgAppendStringItem_appends]); strings appended to a buffer
      reach the buffer registers in order ([strings_accepted]).
    - Root thread: it makes exactly the calls of its plan, and the memory it hands out does not
      overlap if the sizes of the pages are whole ([root_thread_requests]); the kernel starts the threads and maps the memory as
      asked, call by call ([root_calls_served]), when the work on memory succeeds also as the run that
      makes a program's first thread runnable at its entry ([root_starts_program]); a program with two
      threads starts both with memory of their own ([pingpong_main_requests]); the free memory is the one the kernel announces
      ([kernel_free_base]), and what [printf] sends is printed ([printf_logged]).
    - Library: [memcpy] is the copy of bytes, [memset] fills exactly its region, [sort] sorts,
      [bsearch] finds, the queue is first-in first-out as long as it is not full
      ([queue_refines_fifo]), [vprintf] prints the format language.
    - Start and load: the segments are loaded ([l4_start_loads], [elf_loadFile_loads]), each
      hook runs once ([run_init_hook_once]); the loader sets up the console, loads the image, prints
      what it does and calls the entry ([loader_hands_over]); the processor runs on the phase-locked loop that
      the external oscillator drives ([sys_clock_init_selects]); [main] creates the system threads,
      enables the interrupts and goes on as the kernel thread ([kernel_starts]); the descriptors of memory in the interface page are read back by
      the user library ([descriptors_read_back]).
    - Debugging aids: the profiler reports each sampled symbol once, the most frequent first, with its
      number of samples, those of the last two symbols of the table excepted ([sampling_report]); the verification of the timer suggests the
      smallest compensation ([tickless_verify_stat_suggests]); the dumps list exactly the threads,
      elements, events and pages there are ([kdb_dump_threads_lists], [kdb_dump_ktable_marks],
      [kdb_dump_events_lists], [kdb_dump_as_lists]).
    - Floating point: each thread that uses the unit has registers of its own
      ([fp_context_private]).
    - Drivers: bytes leave the serial line once each and in order, as long as no interrupt comes
      within a call and the queue is not full ([uart_output_in_order]); a panic sends what waits first
      ([uart_panic_flushes]); a pin reads back as configured
      ([gpio_config_configures]); the set-up of the devices makes the console work
      ([console_starts]); a comparator watches an address exactly when a registered
      probe is there ([kprobes_armed]).
    - Defects: theorems and lemmas on concrete states show behaviour the code does not intend,
      such as the sleep that is never woken ([sys_ipc_short_sleep_lost]) and the soft interrupt
      that is lost ([softirq_execute_loses_reschedule]), the byte that is overtaken
      ([uart_putchar_race]), the push that empties a full queue ([queue_push_never_overflows]), and the string that is not handed to the
      caller ([MsgGetStringItem_not_copied]), the spin lock that is never obtained
      ([spinlock_lock_spins]) and the element that is allocated twice ([bitband_alloc_wraps]).

    ** What is not modelled

    Texts that are only printed (the layout of the rows of a dump, the menu of the debugger),
    register definitions that no modelled function uses, the one line that enables the coprocessor, the functions for C++ of the user library and its types for another
    architecture, test programs that are not built, and the configuration tool of the build, which is
    third-party code that does not run on the device. *)

From Stdlib Require Export ZArith Lia.
From stdpp Require Export base tactics numbers gmap list.

#[global] Open Scope Z_scope.

(** ** Machine integers

    A C value of type [uint32_t], [size_t], [ptr_t], [memptr_t] or a pointer is a
    [Z] in [0, 2^32); the operations that can leave that range are written with
    the wrap-around of the type. *)

Declare Scope u32_scope.
Delimit Scope u32_scope with u32.

Definition u32_modulus : Z := 4294967296.
Definition wrap32 (x : Z) : Z := x mod u32_modulus.
Definition add32 (x y : Z) : Z := wrap32 (x + y).
Definition sub32 (x y : Z) : Z := wrap32 (x - y).
Definition mul32 (x y : Z) : Z := wrap32 (x * y).
Definition shl32 (x n : Z) : Z := wrap32 (Z.shiftl x n).
Definition not32 (x : Z) : Z := Z.lxor x 4294967295.

(** The value of a 32-bit word read as a signed [int]. *)
Definition s32 (x : Z) : Z :=
  if 2147483648 <=? wrap32 x then wrap32 x - u32_modulus else wrap32 x.

Definition is_u32 (x : Z) : Prop := 0 <= x < u32_modulus.

Notation "x +w y" := (add32 x y) (at level 50, left associativity) : u32_scope.
Notation "x -w y" := (sub32 x y) (at level 50, left associativity) : u32_scope.
Notation "x *w y" := (mul32 x y) (at level 40, left associativity) : u32_scope.
#[global] Open Scope u32_scope.

(** A truth value used as a C [int], and the truth value of an integer. *)
Definition b2z (b : bool) : Z := if b then 1 else 0.
Definition truth (x : Z) : bool := negb (x =? 0).

(** The null pointer ([NULL] of [types.h]). *)
Definition NULL : Z := 0.

(** ** Results

    [Done] is normal termination. [Panic] is a call of [panic] or a failed
    [assert]. [Fault] is an access the C program may not make: a dereference
    of [NULL] or of an address that holds no object of the type, or an array
    access out of bounds. [OutOfFuel] is only produced by a loop whose fuel is
    used up. *)
Inductive res (A : Type) : Type :=
| Done (a : A)
| Panic
| Fault
| OutOfFuel.
Arguments Done {A} _.
Arguments Panic {A}.
Arguments Fault {A}.
Arguments OutOfFuel {A}.

(** The state and error monad the kernel code is written in. *)
Definition M (S A : Type) : Type := S -> res (A * S).

#[global] Instance M_ret {S} : MRet (M S) := fun A a s => Done (a, s).
#[global] Instance M_bind {S} : MBind (M S) := fun A B f m s =>
  match m s with
  | Done (a, s') => f a s'
  | Panic => Panic
  | Fault => Fault
  | OutOfFuel => OutOfFuel
  end.

Section operations.
Context {S : Type}.

Definition gets {A} (f : S -> A) : M S A := fun s => Done (f s, s).
Definition modify (f : S -> S) : M S unit := fun s => Done (tt, f s).
Definition panic {A} : M S A := fun _ => Panic.
Definition fault {A} : M S A := fun _ => Fault.
Definition fuel_out {A} : M S A := fun _ => OutOfFuel.
Definition lift_opt {A} (o : option A) : M S A :=
  match o with Some a => mret a | None => fault end.

(** [assert(c)]. *)
Definition assert (c : bool) : M S unit := if c then mret tt else panic.

(** [if (c) m;] *)
Definition when (c : bool) (m : M S unit) : M S unit := if c then m else mret tt.
End operations.

(** Running a computation of a component on the state that contains the
    component's: [get] and [put] select the part. *)
Definition zoom {S T A} (get : T -> S) (put : S -> T -> T) (m : M S A) : M T A :=
  fun t => match m (get t) with
           | Done (a, s') => Done (a, put s' t)
           | Panic => Panic
           | Fault => Fault
           | OutOfFuel => OutOfFuel
           end.

(** The interface between a component and the state that contains it: [S] has a
    part of type [P], which can be read and replaced. *)
Class Part (P S : Type) := {
  get_part : S -> P;
  put_part : P -> S -> S;
}.
Class PartLaws (P S : Type) `{Part P S} : Prop := {
  get_put p s : get_part (put_part p s) = p;
  put_get s : put_part (get_part s) s = s;
  put_put p q s : put_part p (put_part q s) = put_part p s;
}.

(** An operation of the component, on the whole state. *)
Definition on {P S A} `{Part P S} : M P A -> M S A := zoom get_part put_part.

Lemma on_Done {P S A} `{!Part P S} (m : M P A) s a p :
  m (get_part s) = Done (a, p) -> on m s = Done (a, put_part p s).
Proof. intros E. unfold on, zoom. by rewrite E. Qed.

(** Two parts that do not overlap. *)
Class Disjoint_parts (P Q S : Type) `{Part P S} `{Part Q S} : Prop := {
  get_put_other (q : Q) (s : S) : get_part (put_part q s) = get_part (P := P) s;
}.

(** Array access with a C index: out of range is a fault. *)
Definition zlookup {A} (l : list A) (i : Z) : option A :=
  if decide (0 <= i) then l !! Z.to_nat i else None.
Definition zinsert {A} (i : Z) (x : A) (l : list A) : option (list A) :=
  if decide (0 <= i < Z.of_nat (length l)) then Some (<[Z.to_nat i := x]> l) else None.

(** ** Total correctness

    [wp m Q s]: run from [s], [m] terminates normally, and its result and final
    state satisfy [Q]. *)
Definition wp {S A} (m : M S A) (Q : A -> S -> Prop) (s : S) : Prop :=
  match m s with Done (a, s') => Q a s' | _ => False end.

Section wp_rules.
Context {S : Type}.

Lemma wp_intro {A} (m : M S A) (Q : A -> S -> Prop) s a s' :
  m s = Done (a, s') -> Q a s' -> wp m Q s.
Proof. unfold wp. by intros ->. Qed.

Lemma wp_elim {A} (m : M S A) (Q : A -> S -> Prop) s :
  wp m Q s -> exists a s', m s = Done (a, s') /\ Q a s'.
Proof. unfold wp. destruct (m s) as [[a s']| | |]; [eauto|done..]. Qed.

Lemma wp_ret {A} (a : A) (Q : A -> S -> Prop) s : Q a s -> wp (mret a) Q s.
Proof. done. Qed.

Lemma wp_bind {A B} (m : M S A) (f : A -> M S B) (Q : B -> S -> Prop) s :
  wp m (fun a s' => wp (f a) Q s') s -> wp (m ≫= f) Q s.
Proof. unfold wp, mbind, M_bind. by destruct (m s) as [[a s']| | |]. Qed.

Lemma wp_gets {A} (f : S -> A) (Q : A -> S -> Prop) s : Q (f s) s -> wp (gets f) Q s.
Proof. done. Qed.

Lemma wp_modify (f : S -> S) (Q : unit -> S -> Prop) s : Q tt (f s) -> wp (modify f) Q s.
Proof. done. Qed.

Lemma wp_lift_opt {A} (o : option A) (a : A) (Q : A -> S -> Prop) s :
  o = Some a -> Q a s -> wp (lift_opt o) Q s.
Proof. by intros ->. Qed.

Lemma wp_assert (c : bool) (Q : unit -> S -> Prop) s :
  c = true -> Q tt s -> wp (assert c) Q s.
Proof. by intros ->. Qed.

Lemma wp_mono {A} (m : M S A) (P Q : A -> S -> Prop) s :
  wp m P s -> (forall a s', P a s' -> Q a s') -> wp m Q s.
Proof. unfold wp. destruct (m s) as [[a s']| | |]; eauto. Qed.
End wp_rules.

(** Running a computation whose first part has a known result. *)
Lemma bind_Done {S A B} (m : M S A) (k : A -> M S B) s a s' :
  m s = Done (a, s') -> (m ≫= k) s = k a s'.
Proof. intros E. unfold mbind, M_bind. by rewrite E. Qed.

Lemma wp_zoom {S T A} (get : T -> S) (put : S -> T -> T) (m : M S A) Q t :
  wp m (fun a s' => Q a (put s' t)) (get t) -> wp (zoom get put m) Q t.
Proof. unfold wp, zoom. by destruct (m (get t)) as [[a s']| | |]. Qed.

(** ** Generic lemmas: machine integers *)

Lemma wrap32_small x : is_u32 x -> wrap32 x = x.
Proof. unfold is_u32, wrap32. apply Z.mod_small. Qed.

Lemma wrap32_range x : is_u32 (wrap32 x).
Proof. apply Z.mod_pos_bound. done. Qed.

Lemma s32_small x : 0 <= x < 2147483648 -> s32 x = x.
Proof.
  intros H. unfold s32. rewrite wrap32_small by (unfold is_u32, u32_modulus; lia).
  destruct (Z.leb_spec 2147483648 x); lia.
Qed.

Lemma s32_id x : -2147483648 <= x < 2147483648 -> s32 x = x.
Proof.
  intros H. unfold s32, wrap32, u32_modulus. destruct (Z.leb_spec 2147483648 (x mod 4294967296)) as [E|E];
    pose proof (Z.div_mod x 4294967296); pose proof (Z.mod_pos_bound x 4294967296); lia.
Qed.

Lemma testbit_u32_high w j : is_u32 w -> 32 <= j -> Z.testbit w j = false.
Proof.
  intros Hw Hj. rewrite <- (Z.mod_small w (2 ^ 32)) by exact Hw.
  apply Z.mod_pow2_bits_high. lia.
Qed.

Lemma u32_of_bits w :
  0 <= w -> (forall j, 32 <= j -> Z.testbit w j = false) -> is_u32 w.
Proof.
  intros H0 Hb. split; [done|].
  destruct (decide (w = 0)) as [->|]; [done|].
  change u32_modulus with (2 ^ 32). apply Z.log2_lt_pow2; [lia|].
  destruct (Z.lt_ge_cases (Z.log2 w) 32) as [|Hge]; [done|].
  apply Hb in Hge. rewrite Z.bit_log2 in Hge by lia. done.
Qed.

Lemma testbit_not32 x j :
  is_u32 x -> 0 <= j < 32 -> Z.testbit (not32 x) j = negb (Z.testbit x j).
Proof.
  intros Hx Hj. unfold not32. rewrite Z.lxor_spec.
  change 4294967295 with (Z.ones 32). rewrite Z.ones_spec_low by lia.
  by destruct (Z.testbit x j).
Qed.

Lemma land_u32 x y : is_u32 x -> is_u32 (Z.land x y).
Proof.
  intros Hx. apply u32_of_bits.
  - apply Z.land_nonneg. left. apply Hx.
  - intros j Hj. by rewrite Z.land_spec, (testbit_u32_high x) by done.
Qed.

Lemma lor_u32 x y : is_u32 x -> is_u32 y -> is_u32 (Z.lor x y).
Proof.
  intros Hx Hy. apply u32_of_bits.
  - apply Z.lor_nonneg. split; [apply Hx|apply Hy].
  - intros j Hj. by rewrite Z.lor_spec, !testbit_u32_high by done.
Qed.

Lemma testbit_pow2_mask i j : 0 <= i -> Z.testbit (Z.shiftl 1 i) j = (i =? j).
Proof.
  intros Hi. rewrite Z.shiftl_1_l.
  destruct (Z.eqb_spec i j) as [->|]; [by apply Z.pow2_bits_true|apply Z.pow2_bits_false; lia].
Qed.

Lemma pow2_mask_u32 i : 0 <= i < 32 -> is_u32 (Z.shiftl 1 i).
Proof.
  intros Hi. rewrite Z.shiftl_1_l. split; [lia|].
  change u32_modulus with (2 ^ 32). apply Z.pow_lt_mono_r; lia.
Qed.

Lemma land_pow2_mask w i : 0 <= i -> (Z.land w (Z.shiftl 1 i) =? 0) = negb (Z.testbit w i).
Proof.
  intros Hi. destruct (Z.testbit w i) eqn:E; simpl.
  - apply Z.eqb_neq. intros H0. apply (f_equal (fun z => Z.testbit z i)) in H0.
    rewrite Z.land_spec, testbit_pow2_mask, E, Z.eqb_refl, Z.bits_0 in H0 by done. done.
  - apply Z.eqb_eq. apply Z.bits_inj. intros j.
    rewrite Z.land_spec, testbit_pow2_mask, Z.bits_0 by done.
    destruct (Z.eqb_spec i j) as [<-|]; [by rewrite E|by rewrite andb_false_r].
Qed.

Lemma shiftr_land_1 w i : 0 <= i -> Z.land (Z.shiftr w i) 1 = b2z (Z.testbit w i).
Proof.
  intros Hi. change 1 with (Z.ones 1) at 1. rewrite Z.land_ones by lia.
  change (2 ^ 1) with 2. rewrite <- Z.bit0_mod, Z.shiftr_spec, Z.add_0_l by lia.
  by destruct (Z.testbit w i).
Qed.

(** ** Generic lemmas: arrays *)

Lemma zlookup_nat {A} (l : list A) (i : nat) : zlookup l (Z.of_nat i) = l !! i.
Proof. unfold zlookup. rewrite decide_True by lia. by rewrite Nat2Z.id. Qed.

Lemma zlookup_is_Some {A} (l : list A) i :
  is_Some (zlookup l i) <-> 0 <= i < Z.of_nat (length l).
Proof.
  unfold zlookup. case_decide.
  - rewrite lookup_lt_is_Some. lia.
  - split; [by intros []|lia].
Qed.

Lemma zlookup_Some_range {A} (l : list A) i x :
  zlookup l i = Some x -> 0 <= i < Z.of_nat (length l).
Proof. intros H. apply zlookup_is_Some. eauto. Qed.

Lemma zinsert_Some {A} (l : list A) i x :
  0 <= i < Z.of_nat (length l) -> zinsert i x l = Some (<[Z.to_nat i := x]> l).
Proof. intros. unfold zinsert. by rewrite decide_True. Qed.

Lemma zlookup_insert_eq {A} (l : list A) i x :
  0 <= i < Z.of_nat (length l) -> zlookup (<[Z.to_nat i := x]> l) i = Some x.
Proof.
  intros. unfold zlookup. rewrite decide_True by lia.
  apply list_lookup_insert_eq. lia.
Qed.

Lemma zlookup_insert_ne {A} (l : list A) i j x :
  0 <= i -> i <> j -> zlookup (<[Z.to_nat i := x]> l) j = zlookup l j.
Proof.
  intros. unfold zlookup. case_decide; [|done].
  apply list_lookup_insert_ne. lia.
Qed.

(** [arr] with the entries from [i] on replaced by those of [l]. *)
Definition fill {A} (arr : list A) (i : nat) (l : list A) : list A := take i arr ++ l ++ drop (i + length l) arr.

Lemma fill_nil {A} (arr : list A) i : fill arr i [] = arr.
Proof. unfold fill. simpl. rewrite Nat.add_0_r. apply take_drop. Qed.

Lemma fill_cons {A} (arr : list A) i p l : (i + S (length l) <= length arr)%nat -> fill (<[i := p]> arr) (S i) l = fill arr i (p :: l).
Proof.
  intros H. unfold fill. rewrite (take_S_r _ _ p) by (apply list_lookup_insert_eq; lia).
  rewrite take_insert_ge by lia. rewrite drop_insert_lt by lia. rewrite <- app_assoc. simpl. by rewrite Nat.add_succ_r.
Qed.

Lemma length_fill {A} (arr : list A) i l : (i + length l <= length arr)%nat -> length (fill arr i l) = length arr.
Proof. intros H. unfold fill. rewrite !length_app, length_take, length_drop. lia. Qed.

Lemma fill_lookup {A} (arr : list A) i l k : (i + length l <= length arr)%nat -> (k < length l)%nat -> fill arr i l !! (i + k)%nat = l !! k.
Proof.
  intros H Hk. unfold fill. rewrite lookup_app_r by (rewrite length_take; lia). rewrite length_take.
  replace (i + k - i `min` length arr)%nat with k by lia. by rewrite lookup_app_l.
Qed.

Lemma fill_take {A} (arr : list A) i l k : (k <= i)%nat -> (i <= length arr)%nat -> take k (fill arr i l) = take k arr.
Proof. intros Hk Hi. unfold fill. rewrite take_app_le by (rewrite length_take; lia). rewrite take_take. f_equal. lia. Qed.

Create HintDb f9.
#[export] Hint Resolve wp_ret wp_gets wp_modify : f9.
