(* ===== verification/Bits.v ===== *)
(** * Fields of words

    Reading and changing some of the bits of a 32-bit word: registers of devices and the
    bit-fields of structures. *)

From S2P Require Import Prelude.

(** [n] bits of [w] from bit [sh] on, and their change. *)
Definition field (w sh n : Z) : Z := Z.land (Z.shiftr w sh) (Z.ones n).
Definition set_field (w sh n v : Z) : Z := Z.lor (Z.land w (not32 (shl32 (Z.ones n) sh))) (shl32 v sh).

Lemma testbit_shl32 x sh j : 0 <= j -> 0 <= sh -> Z.testbit (shl32 x sh) j = (j <? 32) && Z.testbit x (j - sh).
Proof.
  intros Hj Hs. unfold shl32, wrap32. change u32_modulus with (2 ^ 32). destruct (Z.ltb_spec j 32); cbn [andb].
  - rewrite Z.mod_pow2_bits_low by lia. by apply Z.shiftl_spec.
  - apply Z.mod_pow2_bits_high. lia.
Qed.

Lemma shl32_u32 x sh : is_u32 (shl32 x sh).
Proof. unfold shl32, wrap32. apply Z.mod_pos_bound. done. Qed.

Lemma testbit_ones n j : 0 <= n -> 0 <= j -> Z.testbit (Z.ones n) j = (j <? n).
Proof. intros Hn Hj. destruct (Z.ltb_spec j n); [apply Z.ones_spec_low; lia|apply Z.ones_spec_high; lia]. Qed.

Lemma testbit_small v n j : 0 <= v < 2 ^ n -> 0 <= n <= j -> Z.testbit v j = false.
Proof. intros Hv Hj. rewrite <- (Z.mod_small v (2 ^ n)) by lia. apply Z.mod_pow2_bits_high. lia. Qed.

Lemma testbit_set_field w sh n v j : is_u32 w -> 0 <= sh -> 0 <= n -> sh + n <= 32 -> 0 <= v < 2 ^ n -> 0 <= j ->
  Z.testbit (set_field w sh n v) j = if decide (sh <= j < sh + n) then Z.testbit v (j - sh) else Z.testbit w j.
Proof.
  intros Hw Hs Hn Hm Hv Hj. unfold set_field. rewrite Z.lor_spec, Z.land_spec, (testbit_shl32 v) by done. destruct (Z.ltb_spec j 32) as [Hj32|Hj32]; cbn [andb].
  - rewrite testbit_not32 by (apply shl32_u32 || lia). rewrite testbit_shl32 by done. destruct (Z.ltb_spec j 32); [|lia]. cbn [andb].
    destruct (Z.lt_ge_cases j sh) as [Hlt|Hge].
    + rewrite !(Z.testbit_neg_r _ (j - sh)) by lia. cbn [negb]. rewrite andb_true_r, orb_false_r, decide_False by lia. done.
    + rewrite testbit_ones by lia. destruct (Z.ltb_spec (j - sh) n); cbn [negb].
      * by rewrite andb_false_r, decide_True by lia.
      * by rewrite andb_true_r, (testbit_small v n), orb_false_r, decide_False by lia.
  - rewrite (testbit_u32_high w j) by done. rewrite decide_False by lia. done.
Qed.

Lemma testbit_field w sh n j : 0 <= sh -> 0 <= n -> 0 <= j -> Z.testbit (field w sh n) j = (j <? n) && Z.testbit w (j + sh).
Proof. intros Hs Hn Hj. unfold field. rewrite Z.land_spec, Z.shiftr_spec, testbit_ones by done. apply andb_comm. Qed.

Lemma field_set_same w sh n v : is_u32 w -> 0 <= sh -> 0 <= n -> sh + n <= 32 -> 0 <= v < 2 ^ n -> field (set_field w sh n v) sh n = v.
Proof.
  intros Hw Hs Hn Hm Hv. apply Z.bits_inj'. intros j Hj. rewrite testbit_field by done. destruct (Z.ltb_spec j n); cbn [andb].
  - rewrite testbit_set_field by (done || lia). rewrite decide_True by lia. f_equal. lia.
  - rewrite (testbit_small v n) by lia. done.
Qed.

Lemma field_set_other w sh n v sh' n' : is_u32 w -> 0 <= sh -> 0 <= n -> sh + n <= 32 -> 0 <= v < 2 ^ n -> 0 <= sh' -> 0 <= n' ->
  sh' + n' <= sh \/ sh + n <= sh' -> field (set_field w sh n v) sh' n' = field w sh' n'.
Proof.
  intros Hw Hs Hn Hm Hv Hs' Hn' Hd. apply Z.bits_inj'. intros j Hj. rewrite !testbit_field by done. destruct (Z.ltb_spec j n'); cbn [andb]; [|done].
  rewrite testbit_set_field by (done || lia). by rewrite decide_False by lia.
Qed.

Lemma set_field_u32 w sh n v : is_u32 w -> is_u32 (set_field w sh n v).
Proof. intros Hw. apply lor_u32; [by apply land_u32|apply shl32_u32]. Qed.

