(* ===== verification/Clock.v ===== *)
(** * The set-up of the clock

    Models [platform/stm32f4/rcc.c]: [sys_clock_init] starts the external oscillator, sets the
    dividers and the phase-locked loop, and switches the processor to it.

    The registers are a function of their names.  A loop that waits reads a register again and
    again; what the hardware does to the registers before the [n]th of these reads is the
    parameter [hw].  The first loop ends by itself; the number of turns of the two others is not bounded by
    the code, so their fuel is a parameter. *)

From S2P Require Import Prelude Bits.

Inductive clock_register :=
| CPACR | FPCCR | CR | CFGR | PLLCFGR | CIR | APB1ENR | PWRCR | ACR | AHB1ENR | SHCSR.

#[export] Instance clock_register_eq : EqDecision clock_register.
Proof. solve_decision. Defined.

Abbreviation clock_regs := (clock_register -> Z).

(** The registers, and the number of reads in loops that wait. *)
Record clockstate := mk_clock {
  c_regs : clock_regs;
  c_polls : nat;
}.

Definition set_reg (r : clock_register) (v : Z) (s : clockstate) : clockstate :=
  mk_clock (fun r' => if decide (r = r') then v else c_regs s r') (c_polls s).
Definition rd (r : clock_register) : M clockstate Z := gets (fun s => c_regs s r).
Definition wr (r : clock_register) (v : Z) : M clockstate unit := modify (set_reg r v).
(** [*r |= v] and [*r &= v]. *)
Definition or_clock (r : clock_register) (v : Z) : M clockstate unit := x ← rd r; wr r (Z.lor x v).
Definition and_clock (r : clock_register) (v : Z) : M clockstate unit := x ← rd r; wr r (Z.land x v).

Definition HSE_STARTUP_TIMEOUT : Z := 1280.
Definition PLL_M : Z := 8.
Definition PLL_N : Z := 336.
Definition PLL_P : Z := 2.
Definition PLL_Q : Z := 7.

Definition RCC_CR_HSEON : Z := 65536.
Definition RCC_CR_HSERDY : Z := 131072.
Definition RCC_CR_PLLON : Z := 16777216.
Definition RCC_CR_PLLRDY : Z := 33554432.
Definition RCC_APB1ENR_PWREN : Z := 268435456.
Definition PWR_CR_VOS : Z := 16384.
Definition RCC_CFGR_HPRE_DIV1 : Z := 0.
Definition RCC_CFGR_PPRE2_DIV2 : Z := 32768.
Definition RCC_CFGR_PPRE1_DIV4 : Z := 5120.
Definition RCC_PLLCFGR_PLLSRC_HSE : Z := 4194304.
Definition FLASH_ACR_LATENCY (n : Z) : Z := n.
Definition RCC_CFGR_SW_M : Z := 3.
Definition RCC_CFGR_SW_PLL : Z := 2.
Definition RCC_CFGR_SWS_M : Z := 12.
Definition RCC_CFGR_SWS_PLL : Z := 8.
Definition FPU_CCR_ASPEN : Z := 2147483648.
Definition SCB_SHCSR_BUSFAULTENA : Z := 131072.
Definition SCB_SHCSR_USEFAULTENA : Z := 262144.

Section clock.
Variable hw : nat -> clock_regs -> clock_regs.

(** A read of a register the hardware may have changed. *)
Definition poll (r : clock_register) : M clockstate Z :=
  modify (fun s => mk_clock (hw (c_polls s) (c_regs s)) (S (c_polls s)));; rd r.

(** The [do]-[while] loop, with [k] turns until [startup_count] reaches the limit. *)
Fixpoint wait_hse (k : nat) : M clockstate unit :=
  match k with
  | O => mret tt
  | S k => status ← poll CR; if Z.land status RCC_CR_HSERDY =? 0 then wait_hse k else mret tt
  end.

(** [while (( *r & mask) != value);], and [while (( *r & mask) == 0);] for a mask of one bit and the
    same [value]. *)
Fixpoint wait_field (fuel : nat) (r : clock_register) (mask value : Z) : M clockstate unit :=
  match fuel with
  | O => fuel_out
  | S fuel => x ← poll r; if Z.land x mask =? value then mret tt else wait_field fuel r mask value
  end.

(** The part for an oscillator that runs. *)
Definition start_pll (fuel : nat) : M clockstate unit :=
  or_clock APB1ENR RCC_APB1ENR_PWREN;;
  or_clock PWRCR PWR_CR_VOS;;
  or_clock CFGR RCC_CFGR_HPRE_DIV1;;
  or_clock CFGR RCC_CFGR_PPRE2_DIV2;;
  or_clock CFGR RCC_CFGR_PPRE1_DIV4;;
  wr PLLCFGR (Z.lor (Z.lor (Z.lor (Z.lor PLL_M (Z.shiftl PLL_N 6)) (Z.shiftl (Z.shiftr PLL_P 1 - 1) 16)) RCC_PLLCFGR_PLLSRC_HSE) (Z.shiftl PLL_Q 24));;
  or_clock CR RCC_CR_PLLON;;
  wait_field fuel CR RCC_CR_PLLRDY RCC_CR_PLLRDY;;
  wr ACR (FLASH_ACR_LATENCY 5);;
  and_clock CFGR (not32 RCC_CFGR_SW_M);;
  or_clock CFGR RCC_CFGR_SW_PLL;;
  wait_field fuel CFGR RCC_CFGR_SWS_M RCC_CFGR_SWS_PLL.

Definition sys_clock_init (fuel : nat) : M clockstate unit :=
  or_clock CPACR (Z.shiftl 0xf 20);;
  or_clock FPCCR FPU_CCR_ASPEN;;
  or_clock CR 1;;
  wr CFGR 0;;
  and_clock CR 0xFEF6FFFF;;
  wr PLLCFGR 0x24003010;;
  and_clock CR 0xFFFBFFFF;;
  wr CIR 0;;
  or_clock CR RCC_CR_HSEON;;
  wait_hse (Z.to_nat HSE_STARTUP_TIMEOUT);;
  status ← poll CR;
  (if negb (Z.land status RCC_CR_HSERDY =? 0) then start_pll fuel else panic);;
  or_clock AHB1ENR (Z.shiftl 1 20);;
  or_clock SHCSR SCB_SHCSR_BUSFAULTENA;;
  or_clock SHCSR SCB_SHCSR_USEFAULTENA.
End clock.

(** ** The frequency *)

(** The frequency of the processor for an internal oscillator of [hsi] Hz and an external one of
    [hse] Hz, as the reference manual of the processor has it: SWS of [RCC_CFGR] is the clock in use;
    that of the phase-locked loop follows from the bit of its source and the fields M, N and P of
    [RCC_PLLCFGR]. *)
Definition pll_input (hsi hse : Z) (r : clock_regs) : Z := if Z.testbit (r PLLCFGR) 22 then hse else hsi.
Definition pll_output (hsi hse : Z) (r : clock_regs) : Z :=
  pll_input hsi hse r / field (r PLLCFGR) 0 6 * field (r PLLCFGR) 6 9 / (2 * (field (r PLLCFGR) 16 2 + 1)).
Definition system_frequency (hsi hse : Z) (r : clock_regs) : option Z :=
  let sws := field (r CFGR) 2 2 in
  if sws =? 0 then Some hsi else if sws =? 1 then Some hse else if sws =? 2 then Some (pll_output hsi hse r) else None.

(** ** Correctness *)

(** The bits the hardware sets: the ready bits and the calibration of [RCC_CR], the clock in use in
    [RCC_CFGR]. *)
Definition status_bits (r : clock_register) : Z := match r with CR => 0x0A02FF02 | CFGR => 12 | _ => 0 end.

(** What the reference manual says of the hardware: it changes only the status bits; the oscillator,
    when it is on, is ready from read [th] on, the phase-locked loop from read [tp] on, and the
    clock in use is the selected one from read [ts] on. *)
Record hardware (hw : nat -> clock_regs -> clock_regs) (th tp ts : nat) : Prop := {
  hw_status : forall j s r b, Z.testbit (status_bits r) b = false -> Z.testbit (hw j s r) b = Z.testbit (s r) b;
  hw_hse : forall j s, Z.testbit (hw j s CR) 17 = (th <=? j)%nat && Z.testbit (s CR) 16;
  hw_pll : forall j s, Z.testbit (hw j s CR) 25 = (tp <=? j)%nat && Z.testbit (s CR) 24;
  hw_sws : forall j s, (ts <= j)%nat -> field (hw j s CFGR) 2 2 = field (s CFGR) 0 2;
}.

(** The bits the code controls are the same. *)
Definition same_control (s s' : clockstate) : Prop :=
  forall r b, Z.testbit (status_bits r) b = false -> Z.testbit (c_regs s' r) b = Z.testbit (c_regs s r) b.

Lemma same_control_refl s : same_control s s.
Proof. done. Qed.
Lemma same_control_trans s1 s2 s3 : same_control s1 s2 -> same_control s2 s3 -> same_control s1 s3.
Proof. intros H1 H2 r b Hb. by rewrite H2, H1. Qed.

(** A register without status bits. *)
Lemma same_control_reg s s' r : same_control s s' -> status_bits r = 0 -> c_regs s' r = c_regs s r.
Proof. intros H E. apply Z.bits_inj. intros b. apply H. by rewrite E, Z.bits_0. Qed.

Lemma land_bit x i : 0 <= i -> (Z.land x (Z.shiftl 1 i) =? 0) = negb (Z.testbit x i).
Proof. apply land_pow2_mask. Qed.

Section hardware_facts.
Variables (hw : nat -> clock_regs -> clock_regs) (th tp ts : nat).
Hypothesis Hhw : hardware hw th tp ts.

Definition polled (s : clockstate) : clockstate := mk_clock (hw (c_polls s) (c_regs s)) (S (c_polls s)).

Lemma poll_ok r s : poll hw r s = Done (c_regs (polled s) r, polled s).
Proof. done. Qed.

Lemma polled_control s : same_control s (polled s).
Proof. intros r b Hb. apply (hw_status _ _ _ _ Hhw). done. Qed.

Lemma wait_hse_ok k : forall s, Z.testbit (c_regs s CR) 16 = true -> (th < c_polls s + k)%nat -> (c_polls s <= th)%nat ->
  exists s', wait_hse hw k s = Done (tt, s') /\ same_control s s' /\ (th < c_polls s')%nat.
Proof.
  induction k as [|k IH]; intros s Hon Hk Hp; [lia|]. cbn [wait_hse]. rewrite (bind_Done _ _ _ _ _ (poll_ok CR s)).
  change RCC_CR_HSERDY with (Z.shiftl 1 17). rewrite land_bit by lia. cbn [polled c_regs]. rewrite (hw_hse _ _ _ _ Hhw), Hon, andb_true_r.
  destruct (Nat.leb_spec th (c_polls s)); cbn [negb].
  - exists (polled s). split; [done|]. split; [apply polled_control|cbn; lia].
  - destruct (IH (polled s)) as (s' & E & Hc & Hp'); [by rewrite (polled_control s CR 16 eq_refl)|cbn; lia|cbn; lia|].
    exists s'. split; [exact E|]. split; [|done]. eapply same_control_trans; [apply polled_control|exact Hc].
Qed.

Lemma wait_field_ok r mask value T fuel : forall s, (forall s1, same_control s s1 -> (T <= c_polls s1)%nat -> Z.land (c_regs (polled s1) r) mask = value) ->
  (T < c_polls s + fuel)%nat -> (0 < fuel)%nat -> exists s', wait_field hw fuel r mask value s = Done (tt, s') /\ same_control s s' /\ (c_polls s <= c_polls s')%nat /\
    Z.land (c_regs s' r) mask = value.
Proof.
  induction fuel as [|fuel IH]; intros s Hv Hf H0; [lia|]. cbn [wait_field]. rewrite (bind_Done _ _ _ _ _ (poll_ok r s)).
  destruct (Z.eqb_spec (Z.land (c_regs (polled s) r) mask) value) as [E|E]; [exists (polled s); split; [done|]; split; [apply polled_control|]; split; [cbn; lia|exact E]|].
  destruct (decide (T <= c_polls s)%nat) as [HT|HT]; [by destruct E; apply Hv|].
  destruct (IH (polled s)) as (s' & E' & Hc & Hp' & Hval); [|cbn; lia|lia|].
  - intros s1 Hs1. apply Hv. eapply same_control_trans; [apply polled_control|exact Hs1].
  - exists s'. split; [exact E'|]. split; [|split; [cbn in Hp'; lia|exact Hval]]. eapply same_control_trans; [apply polled_control|exact Hc].
Qed.
End hardware_facts.

(** *** Fields *)

Lemma field_lor x y sh n : field (Z.lor x y) sh n = Z.lor (field x sh n) (field y sh n).
Proof. unfold field. by rewrite Z.shiftr_lor, Z.land_lor_distr_l. Qed.
Lemma field_land x y sh n : field (Z.land x y) sh n = Z.land (field x sh n) (field y sh n).
Proof.
  unfold field. rewrite Z.shiftr_land. apply Z.bits_inj. intros b. rewrite !Z.land_spec. destruct (Z.testbit (Z.ones n) b); by rewrite ?andb_true_r, ?andb_false_r.
Qed.

Lemma field_control s s' r sh n : same_control s s' -> 0 <= sh -> 0 <= n -> field (status_bits r) sh n = 0 -> field (c_regs s' r) sh n = field (c_regs s r) sh n.
Proof.
  intros H Hs Hn Hz. unfold field in *. apply Z.bits_inj'. intros b Hb. rewrite !Z.land_spec, !Z.shiftr_spec by done.
  destruct (Z.testbit (Z.ones n) b) eqn:E; [|by rewrite !andb_false_r]. rewrite !andb_true_r. apply H.
  apply (f_equal (fun z => Z.testbit z b)) in Hz. rewrite Z.land_spec, Z.shiftr_spec, E, andb_true_r, Z.bits_0 in Hz by done. done.
Qed.

(** *** The blocks without loops *)

Lemma or_clock_ok r v s : or_clock r v s = Done (tt, set_reg r (Z.lor (c_regs s r) v) s).
Proof. done. Qed.
Lemma and_clock_ok r v s : and_clock r v s = Done (tt, set_reg r (Z.land (c_regs s r) v) s).
Proof. done. Qed.
Lemma wr_ok r v s : wr r v s = Done (tt, set_reg r v s).
Proof. done. Qed.

Ltac clock_step := first [rewrite (bind_Done _ _ _ _ _ (or_clock_ok _ _ _)) | rewrite (bind_Done _ _ _ _ _ (and_clock_ok _ _ _)) | rewrite (bind_Done _ _ _ _ _ (wr_ok _ _ _))].

(** What [start_pll] leaves: the dividers, the loop, the wait states and the selected clock. *)
Record pll_selected (s : clockstate) : Prop := {
  ps_sw : field (c_regs s CFGR) 0 2 = 2;
  ps_sws : field (c_regs s CFGR) 2 2 = 2;
  ps_hpre : field (c_regs s CFGR) 4 4 = 0;
  ps_ppre1 : field (c_regs s CFGR) 10 3 = 5;
  ps_ppre2 : field (c_regs s CFGR) 13 3 = 4;
  ps_pll : c_regs s PLLCFGR = 121656328;
  ps_acr : c_regs s ACR = 5;
}.

Lemma set_reg_eq r v s : c_regs (set_reg r v s) r = v.
Proof. cbn. by rewrite decide_True. Qed.
Lemma set_reg_ne r r' v s : r <> r' -> c_regs (set_reg r v s) r' = c_regs s r'.
Proof. intros H. cbn. by rewrite decide_False. Qed.

(** The loops that wait, for the bit of one register and for the clock in use. *)
Lemma pll_ready hw th tp ts s : hardware hw th tp ts -> Z.testbit (c_regs s CR) 24 = true -> (tp <= c_polls s)%nat -> Z.land (c_regs (polled hw s) CR) RCC_CR_PLLRDY = RCC_CR_PLLRDY.
Proof.
  intros Hhw Hon Hp. change RCC_CR_PLLRDY with (Z.shiftl 1 25). apply Z.bits_inj. intros b. rewrite Z.land_spec, testbit_pow2_mask by lia.
  destruct (Z.eqb_spec 25 b) as [<-|]; [|apply andb_false_r]. cbn [polled c_regs]. by rewrite (hw_pll _ _ _ _ Hhw), Hon, (proj2 (Nat.leb_le _ _) Hp).
Qed.

Lemma pll_in_use hw th tp ts s : hardware hw th tp ts -> field (c_regs s CFGR) 0 2 = 2 -> (ts <= c_polls s)%nat -> Z.land (c_regs (polled hw s) CFGR) RCC_CFGR_SWS_M = RCC_CFGR_SWS_PLL.
Proof.
  intros Hhw Hsw Hp. pose proof (hw_sws _ _ _ _ Hhw (c_polls s) (c_regs s) Hp) as H. rewrite Hsw in H. cbn [polled c_regs]. set (x := hw _ _ _) in *. unfold field in H.
  change RCC_CFGR_SWS_M with (Z.shiftl (Z.ones 2) 2). transitivity (Z.shiftl (Z.land (Z.shiftr x 2) (Z.ones 2)) 2); [|by rewrite H]. apply Z.bits_inj'. intros b Hb.
  rewrite Z.shiftl_spec, !Z.land_spec, !Z.shiftl_spec by done. destruct (Z.lt_ge_cases b 2).
  - by rewrite !(Z.testbit_neg_r _ (b - 2)), andb_false_r by lia.
  - rewrite Z.shiftr_spec by lia. by replace (b - 2 + 2) with b by lia.
Qed.

Lemma sws_field x : Z.land x RCC_CFGR_SWS_M = RCC_CFGR_SWS_PLL -> field x 2 2 = 2.
Proof.
  intros H. apply (f_equal (fun y => Z.shiftr y 2)) in H. rewrite Z.shiftr_land in H. exact H.
Qed.

Lemma start_pll_ok hw th tp ts fuel s : hardware hw th tp ts -> (tp < c_polls s + fuel)%nat -> (ts < c_polls s + fuel)%nat -> (0 < fuel)%nat ->
  field (c_regs s CFGR) 4 4 = 0 -> field (c_regs s CFGR) 10 3 = 0 -> field (c_regs s CFGR) 13 3 = 0 ->
  exists s', start_pll hw fuel s = Done (tt, s') /\ pll_selected s' /\ c_regs s' CPACR = c_regs s CPACR.
Proof.
  intros Hhw Htp Hts H0 F4 F10 F13. unfold start_pll. do 7 clock_step. set (s1 := set_reg CR _ _).
  destruct (wait_field_ok hw th tp ts Hhw CR RCC_CR_PLLRDY RCC_CR_PLLRDY tp fuel s1) as (s2 & E2 & C2 & P2 & _); [|done|done|].
  { intros s0 Hs0 Hp. apply (pll_ready hw th tp ts); [done| |done]. rewrite (Hs0 CR 24 eq_refl). unfold s1. rewrite set_reg_eq, Z.lor_spec.
    change (Z.testbit RCC_CR_PLLON 24) with true. apply orb_true_r. }
  rewrite (bind_Done _ _ _ _ _ E2). do 3 clock_step. set (s3 := set_reg CFGR _ _).
  assert (Hsw : field (c_regs s3 CFGR) 0 2 = 2).
  { unfold s3. rewrite set_reg_eq, field_lor, set_reg_eq, field_land. change (field (not32 RCC_CFGR_SW_M) 0 2) with 0. by rewrite Z.land_0_r. }
  assert (Hp3 : c_polls s3 = c_polls s2) by done. change (c_polls s1) with (c_polls s) in P2.
  destruct (wait_field_ok hw th tp ts Hhw CFGR RCC_CFGR_SWS_M RCC_CFGR_SWS_PLL ts fuel s3) as (s4 & E4 & C4 & _ & W4); [|lia|done|].
  { intros s0 Hs0 Hp. apply (pll_in_use hw th tp ts); [done| |done]. by rewrite (field_control s3 s0 CFGR 0 2 Hs0). }
  exists s4. split; [exact E4|].
  assert (Hf : forall sh n, 0 <= sh -> 0 <= n -> field (status_bits CFGR) sh n = 0 -> field RCC_CFGR_SW_PLL sh n = 0 -> Z.land (Z.ones n) (field (not32 RCC_CFGR_SW_M) sh n) = Z.ones n ->
    field (c_regs s CFGR) sh n = 0 -> field (c_regs s4 CFGR) sh n = Z.lor (field RCC_CFGR_PPRE2_DIV2 sh n) (field RCC_CFGR_PPRE1_DIV4 sh n)).
  { intros sh n Hsh Hn Hst Hsw2 Hm Hz. rewrite (field_control s3 s4 CFGR sh n C4 Hsh Hn Hst). unfold s3. rewrite set_reg_eq, field_lor, Hsw2, Z.lor_0_r, set_reg_eq, field_land.
    rewrite set_reg_ne by done. rewrite (field_control s1 s2 CFGR sh n C2 Hsh Hn Hst). unfold s1. rewrite set_reg_ne by done. rewrite set_reg_ne by done.
    rewrite set_reg_eq, field_lor, set_reg_eq, field_lor, set_reg_eq, field_lor. rewrite !set_reg_ne by done. rewrite Hz. change (field RCC_CFGR_HPRE_DIV1 sh n) with (field 0 sh n).
    replace (field 0 sh n) with 0 by (unfold field; by rewrite Z.shiftr_0_l). rewrite !Z.lor_0_l.
    set (y := Z.lor _ _). assert (Hy : Z.land y (Z.ones n) = y) by (unfold y, field; rewrite <- Z.land_lor_distr_l, <- Z.land_assoc, Z.land_diag; done).
    rewrite <- Hy at 1. rewrite <- Z.land_assoc, Hm. exact Hy. }
  split; [|rewrite (same_control_reg s3 s4 CPACR C4 eq_refl); unfold s3; rewrite !set_reg_ne by done; rewrite (same_control_reg s1 s2 CPACR C2 eq_refl); unfold s1; by rewrite !set_reg_ne by done].
  split.
  - by rewrite (field_control s3 s4 CFGR 0 2 C4).
  - by apply sws_field.
  - rewrite Hf by done. done.
  - rewrite Hf by done. done.
  - rewrite Hf by done. done.
  - rewrite (same_control_reg s3 s4 PLLCFGR C4 eq_refl). unfold s3. rewrite !set_reg_ne by done. rewrite (same_control_reg s1 s2 PLLCFGR C2 eq_refl). unfold s1. rewrite set_reg_ne, set_reg_eq by done. done.
  - rewrite (same_control_reg s3 s4 ACR C4 eq_refl). unfold s3. rewrite !set_reg_ne by done. by rewrite set_reg_eq.
Qed.

(** The loop that waits for an oscillator that never starts ends. *)
Lemma wait_hse_never hw k : (forall j s, Z.testbit (hw j s CR) 17 = false) -> forall s, exists s', wait_hse hw k s = Done (tt, s').
Proof.
  intros H. induction k as [|k IH]; intros s; cbn [wait_hse]; [by exists s|]. rewrite (bind_Done _ _ _ _ _ (poll_ok hw CR s)).
  change RCC_CR_HSERDY with (Z.shiftl 1 17). rewrite land_bit by lia. cbn [polled c_regs]. rewrite H. cbn [negb]. apply IH.
Qed.

(** All bits of a field are set. *)
Lemma field_low x sh n : 0 <= n -> Z.land (field x sh n) (Z.ones n) = field x sh n.
Proof. intros H. unfold field. by rewrite <- Z.land_assoc, Z.land_diag. Qed.
Lemma lor_ones x n : Z.land x (Z.ones n) = x -> Z.lor x (Z.ones n) = Z.ones n.
Proof.
  intros H. rewrite <- H. apply Z.bits_inj'. intros b Hb. rewrite Z.lor_spec, Z.land_spec. destruct (Z.testbit (Z.ones n) b); by rewrite ?andb_true_r, ?andb_false_r, ?orb_true_r.
Qed.

(** ** Properties *)

(** C31. [sys_clock_init], on hardware that does what its manual says, with an oscillator that is
    ready within the 1280 reads the code allows: it returns with the processor on the
    phase-locked loop (the clock in use, not only the selected one), which the external oscillator
    drives, at 168 MHz for one of 8 MHz, five wait states of the flash, the
    dividers 1, 4 and 2 of the buses, the floating-point unit and the bus and usage faults
    enabled; when the oscillator never starts, it ends in a panic. *)
Theorem sys_clock_init_selects (hw : nat -> clock_regs -> clock_regs) (fuel : nat) (s : clockstate) (Hs : c_polls s = 0%nat) :
  (forall th tp ts, hardware hw th tp ts -> (th < Z.to_nat HSE_STARTUP_TIMEOUT)%nat -> (tp < fuel)%nat -> (ts < fuel)%nat ->
    exists s', sys_clock_init hw fuel s = Done (tt, s') /\
      field (c_regs s' CFGR) 0 2 = 2 /\ field (c_regs s' CFGR) 2 2 = 2 /\ field (c_regs s' CFGR) 4 4 = 0 /\ field (c_regs s' CFGR) 10 3 = 5 /\ field (c_regs s' CFGR) 13 3 = 4 /\
      (forall hsi, system_frequency hsi 8000000 (c_regs s') = Some 168000000) /\ c_regs s' ACR = 5 /\ Z.testbit (c_regs s' AHB1ENR) 20 = true /\ field (c_regs s' CPACR) 20 4 = 15 /\ field (c_regs s' SHCSR) 17 2 = 3) /\
  ((forall j r, Z.testbit (hw j r CR) 17 = false) -> sys_clock_init hw fuel s = Panic).
Proof.
  split.
  - intros th tp ts Hhw Hth Htp Hts. unfold sys_clock_init. do 9 clock_step. set (s1 := set_reg CR _ _).
    assert (Hon : Z.testbit (c_regs s1 CR) 16 = true) by (unfold s1; rewrite set_reg_eq, Z.lor_spec; change (Z.testbit RCC_CR_HSEON 16) with true; apply orb_true_r).
    assert (Hp1 : c_polls s1 = 0%nat) by exact Hs.
    destruct (wait_hse_ok hw th tp ts Hhw (Z.to_nat HSE_STARTUP_TIMEOUT) s1 Hon) as (s2 & E2 & C2 & P2); [lia|lia|]. rewrite (bind_Done _ _ _ _ _ E2).
    rewrite (bind_Done _ _ _ _ _ (poll_ok hw CR s2)). change RCC_CR_HSERDY with (Z.shiftl 1 17) at 1. rewrite land_bit by lia. cbn [polled c_regs].
    rewrite (hw_hse _ _ _ _ Hhw), (C2 CR 16 eq_refl), Hon, (proj2 (Nat.leb_le _ _)) by lia. cbn [andb negb].
    assert (C3 : same_control s1 (polled hw s2)) by (eapply same_control_trans; [exact C2|by apply (polled_control hw th tp ts)]).
    assert (Hz : forall sh n, 0 <= sh -> 0 <= n -> field (status_bits CFGR) sh n = 0 -> field (c_regs (polled hw s2) CFGR) sh n = field 0 sh n).
    { intros sh n H1 H2 H3. rewrite (field_control s1 _ CFGR sh n C3 H1 H2 H3). unfold s1. rewrite !set_reg_ne by done. by rewrite set_reg_eq. }
    destruct (start_pll_ok hw th tp ts fuel (polled hw s2) Hhw) as (s4 & E4 & [F1 F0 F2 F3 F4 F5 F6] & F7); [cbn; lia|cbn; lia|lia|by rewrite Hz|by rewrite Hz|by rewrite Hz|].
    rewrite (bind_Done _ _ _ _ _ E4). do 2 clock_step. rewrite or_clock_ok. eexists. split; [reflexivity|]. rewrite !(set_reg_ne SHCSR) by done. rewrite !(set_reg_ne AHB1ENR) by done.
    rewrite !set_reg_eq. split; [done|]. split; [done|]. split; [done|]. split; [done|]. split; [done|]. split; [|split; [done|split]].
    + intros hsi. unfold system_frequency, pll_output, pll_input. rewrite !set_reg_ne by done. by rewrite F0, F5.
    + rewrite !(set_reg_ne SHCSR), set_reg_eq by done. rewrite Z.lor_spec. change (Z.testbit (Z.shiftl 1 20) 20) with true. apply orb_true_r.
    + split; [rewrite !set_reg_ne by done; rewrite F7, (same_control_reg s1 _ CPACR C3 eq_refl); unfold s1; rewrite !set_reg_ne by done; rewrite set_reg_eq, field_lor; apply (lor_ones _ 4), field_low; lia|].
      rewrite !field_lor. change (field SCB_SHCSR_USEFAULTENA 17 2) with 2. change (field SCB_SHCSR_BUSFAULTENA 17 2) with 1. rewrite <- Z.lor_assoc. change (Z.lor 1 2) with (Z.ones 2).
      unfold field. apply Z.bits_inj'. intros b Hb. rewrite Z.lor_spec, Z.land_spec. change 3 with (Z.ones 2).
      destruct (Z.testbit (Z.ones 2) b); by rewrite ?andb_true_r, ?andb_false_r, ?orb_true_r.
  - intros Hno. unfold sys_clock_init. do 9 clock_step. set (s1 := set_reg CR _ _).
    destruct (wait_hse_never hw (Z.to_nat HSE_STARTUP_TIMEOUT) Hno s1) as (s2 & E2). rewrite (bind_Done _ _ _ _ _ E2).
    rewrite (bind_Done _ _ _ _ _ (poll_ok hw CR s2)). change RCC_CR_HSERDY with (Z.shiftl 1 17) at 1. rewrite land_bit by lia. cbn [polled c_regs]. by rewrite Hno.
Qed.

(** *** A witness *)

(** [n] bits of any number, from bit [sh] on, replaced. *)
Definition put_field (x sh n v : Z) : Z := Z.lor (Z.ldiff x (Z.shiftl (Z.ones n) sh)) (Z.shiftl v sh).

Lemma testbit_put_field x sh n v b : 0 <= sh -> 0 <= n -> 0 <= v < 2 ^ n ->
  Z.testbit (put_field x sh n v) b = if decide (sh <= b < sh + n) then Z.testbit v (b - sh) else Z.testbit x b.
Proof.
  intros Hs Hn Hv. destruct (Z.lt_ge_cases b 0); [rewrite !(Z.testbit_neg_r _ b) by done; by case_decide; [lia|]|].
  unfold put_field. rewrite Z.lor_spec, Z.ldiff_spec, !Z.shiftl_spec by done. case_decide.
  - rewrite Z.ones_spec_low by lia. by rewrite andb_false_r.
  - destruct (Z.lt_ge_cases b sh).
    + by rewrite !(Z.testbit_neg_r _ (b - sh)), andb_true_r, orb_false_r by lia.
    + rewrite Z.ones_spec_high, (testbit_small v n) by lia. by rewrite andb_true_r, orb_false_r.
Qed.

(** Hardware that is ready at once. *)
Definition ready_hw (j : nat) (s : clock_regs) (r : clock_register) : Z :=
  match r with
  | CR => put_field (put_field (s CR) 17 1 (b2z (Z.testbit (s CR) 16))) 25 1 (b2z (Z.testbit (s CR) 24))
  | CFGR => put_field (s CFGR) 2 2 (field (s CFGR) 0 2)
  | _ => s r
  end.

Lemma b2z_range b : 0 <= b2z b < 2 ^ 1.
Proof. destruct b; cbn; lia. Qed.

Lemma ready_hw_hardware : hardware ready_hw 0 0 0.
Proof.
  assert (Hf : forall x, 0 <= field x 0 2 < 2 ^ 2) by (intros x; unfold field; rewrite Z.land_ones by lia; apply Z.mod_pos_bound; lia). split.
  - intros j s r b Hb. destruct r; try done; cbn [ready_hw]; rewrite !testbit_put_field by (apply b2z_range || apply Hf || lia).
    + assert (b <> 17 /\ b <> 25) by (split; intros ->; done). by rewrite !decide_False by lia.
    + assert (b <> 2 /\ b <> 3) by (split; intros ->; done). by rewrite decide_False by lia.
  - intros j s. cbn [ready_hw]. rewrite !testbit_put_field by (apply b2z_range || lia). rewrite decide_False, decide_True by lia. rewrite (proj2 (Nat.leb_le 0 j)) by lia. by destruct (Z.testbit (s CR) 16).
  - intros j s. cbn [ready_hw]. rewrite !testbit_put_field by (apply b2z_range || lia). rewrite decide_True by lia. rewrite (proj2 (Nat.leb_le 0 j)) by lia. by destruct (Z.testbit (s CR) 24).
  - intros j s _. cbn [ready_hw]. unfold field at 1. apply Z.bits_inj'. intros b Hb. rewrite Z.land_spec, Z.shiftr_spec, testbit_put_field by (apply Hf || lia).
    destruct (Z.lt_ge_cases b 2).
    + rewrite decide_True, Z.ones_spec_low, andb_true_r by lia. f_equal. lia.
    + rewrite Z.ones_spec_high, andb_false_r by lia. symmetry. apply (testbit_small _ 2); [apply Hf|lia].
Qed.

Lemma sys_clock_init_selects_witness :
  (exists s', sys_clock_init ready_hw 10 (mk_clock (fun _ => 0) 0) = Done (tt, s') /\ system_frequency 16000000 8000000 (c_regs s') = Some 168000000) /\
  sys_clock_init (fun _ _ _ => 0) 10 (mk_clock (fun _ => 0) 0) = Panic.
Proof.
  split.
  - destruct (proj1 (sys_clock_init_selects ready_hw 10 (mk_clock (fun _ => 0) 0) eq_refl) 0%nat 0%nat 0%nat ready_hw_hardware) as (s' & E & _ & _ & _ & _ & _ & H & _);
      [unfold HSE_STARTUP_TIMEOUT; lia|lia|lia|]. exists s'. split; [exact E|exact (H 16000000)].
  - apply (proj2 (sys_clock_init_selects (fun _ _ _ => 0) 10 (mk_clock (fun _ => 0) 0) eq_refl)). done.
Defined.
