(* ===== verification/Bytes.v ===== *)
(** * Copying and filling memory

    Models [kernel/lib/memcpy.c], [kernel/lib/memset.c] and [kernel/lib/strcmp.c].
    Memory is a map from addresses to bytes; an access to an address that is not in
    the map, and an access to a word that is not aligned, is a fault.  Words are
    little endian.  A pointer into an object does not leave the address range, so
    pointers are added without wrap-around. *)

From S2P Require Import Prelude.

Abbreviation bytes := (gmap Z Z).

Definition read8 (p : Z) : M bytes Z := fun m => match m !! p with Some b => Done (b, m) | None => Fault end.
Definition write8 (p b : Z) : M bytes unit := fun m =>
  match m !! p with Some _ => Done (tt, <[p := b mod 256]> m) | None => Fault end.

(** The word of four bytes. *)
Definition word (b0 b1 b2 b3 : Z) : Z := b0 + 256 * b1 + 65536 * b2 + 16777216 * b3.

Definition read32 (p : Z) : M bytes Z :=
  if p mod 4 =? 0 then
    b0 ← read8 p; b1 ← read8 (p + 1); b2 ← read8 (p + 2); b3 ← read8 (p + 3); mret (word b0 b1 b2 b3)
  else fault.
Definition write32 (p w : Z) : M bytes unit :=
  if p mod 4 =? 0 then
    write8 p w;; write8 (p + 1) (Z.shiftr w 8);; write8 (p + 2) (Z.shiftr w 16);; write8 (p + 3) (Z.shiftr w 24)
  else fault.
Definition write64 (p w : Z) : M bytes unit :=
  if p mod 8 =? 0 then write32 p w;; write32 (p + 4) (Z.shiftr w 32) else fault.

(** ** [memcpy] *)

(** [*d++ = *s++;], [k] times. *)
Fixpoint copy_bytes (k : nat) (d s : Z) : M bytes unit :=
  match k with
  | O => mret tt
  | S k' => b ← read8 s; write8 d b;; copy_bytes k' (d + 1) (s + 1)
  end.

(** [*(u32 * )d = *(u32 * )s;] for [k] consecutive words. *)
Fixpoint copy_words (k : nat) (d s : Z) : M bytes unit :=
  match k with
  | O => mret tt
  | S k' => w ← read32 s; write32 d w;; copy_words k' (d + 4) (s + 4)
  end.

(** [for (; (uintptr_t) s % 4 && n; n--) *d++ = *s++;]: the new [d], [s] and [n].  Three
    turns are enough. *)
Fixpoint memcpy_head (fuel : nat) (d s n : Z) : M bytes (Z * Z * Z) :=
  if truth (s mod 4) && truth n then
    match fuel with
    | O => fuel_out
    | S fuel' => copy_bytes 1 d s;; memcpy_head fuel' (d + 1) (s + 1) (n - 1)
    end
  else mret (d, s, n).

(** [for (; n >= 16; s += 16, d += 16, n -= 16)] *)
Fixpoint memcpy_aligned (fuel : nat) (d s n : Z) : M bytes (Z * Z * Z) :=
  if n >=? 16 then
    match fuel with
    | O => fuel_out
    | S fuel' => copy_words 4 d s;; memcpy_aligned fuel' (d + 16) (s + 16) (n - 16)
    end
  else mret (d, s, n).

(** The word at the destination: the last [c] bytes of [w] and the first of [x]. *)
Definition join_words (c w x : Z) : Z := Z.lor (Z.shiftr w (32 - 8 * c)) (shl32 x (8 * c)).

(** The loop of [case c] for a destination that is [c] bytes off a word. *)
Fixpoint memcpy_shifted (fuel : nat) (c w d s n : Z) : M bytes (Z * Z * Z) :=
  if n >=? 16 + c then
    match fuel with
    | O => fuel_out
    | S fuel' =>
        x ← read32 (s + c);
        write32 (d + 0) (join_words c w x);;
        w ← read32 (s + c + 4);
        write32 (d + 4) (join_words c x w);;
        x ← read32 (s + c + 8);
        write32 (d + 8) (join_words c w x);;
        w ← read32 (s + c + 12);
        write32 (d + 12) (join_words c x w);;
        memcpy_shifted fuel' c w (d + 16) (s + 16) (n - 16)
    end
  else mret (d, s, n).

(** [if (n & k) { *d++ = *s++; ... }], [k] bytes. *)
Definition copy_if (k n d s : Z) : M bytes (Z * Z) :=
  if truth (Z.land n k) then copy_bytes (Z.to_nat k) d s;; mret (d + k, s + k) else mret (d, s).

(** The rest of a destination that is aligned. *)
Definition memcpy_rest_aligned (d s n : Z) : M bytes unit :=
  ds ← (if truth (Z.land n 8) then copy_words 2 d s;; mret (d + 8, s + 8) else mret (d, s));
  ds ← (if truth (Z.land n 4) then copy_words 1 ds.1 ds.2;; mret (ds.1 + 4, ds.2 + 4) else mret (ds.1, ds.2));
  ds ← copy_if 2 n ds.1 ds.2;
  copy_if 1 n ds.1 ds.2;;
  mret tt.

Definition memcpy_rest (d s n : Z) : M bytes unit :=
  ds ← copy_if 16 n d s;
  ds ← copy_if 8 n ds.1 ds.2;
  ds ← copy_if 4 n ds.1 ds.2;
  ds ← copy_if 2 n ds.1 ds.2;
  copy_if 1 n ds.1 ds.2;;
  mret tt.

Definition memcpy (dest src n : Z) : M bytes Z :=
  dsn ← memcpy_head 3 dest src n;
  let '(d, s, n) := dsn in
  if d mod 4 =? 0 then
    dsn ← memcpy_aligned (Z.to_nat (n / 16)) d s n;
    let '(d, s, n) := dsn in
    memcpy_rest_aligned d s n;;
    mret dest
  else
    dsn ← (if n >=? 32 then
             let c := d mod 4 in
             w ← read32 s;
             copy_bytes (Z.to_nat (4 - c)) d s;;
             memcpy_shifted (Z.to_nat (n / 16)) c w (d + (4 - c)) (s + (4 - c)) (n - (4 - c))
           else mret (d, s, n));
    let '(d, s, n) := dsn in
    memcpy_rest d s n;;
    mret dest.

(** ** [memset] *)

(** The stores of the loop [for (; n >= 32; n -= 32, s += 32)]. *)
Fixpoint memset_loop (fuel : nat) (s n c64 : Z) : M bytes unit :=
  if n >=? 32 then
    match fuel with
    | O => fuel_out
    | S fuel' =>
        write64 (s + 0) c64;; write64 (s + 8) c64;; write64 (s + 16) c64;; write64 (s + 24) c64;;
        memset_loop fuel' (s + 32) (n - 32) c64
    end
  else mret tt.

(** The stores of words, after the ends are filled and [s] is aligned. *)
Definition memset_words (s n c : Z) : M bytes unit :=
  let c32 := mul32 (4294967295 / 255) (c mod 256) in
  write32 (s + 0) c32;;
  write32 (s + n - 4) c32;;
  if n <=? 8 then mret tt
  else
    write32 (s + 4) c32;;
    write32 (s + 8) c32;;
    write32 (s + n - 12) c32;;
    write32 (s + n - 8) c32;;
    if n <=? 24 then mret tt
    else
      write32 (s + 12) c32;;
      write32 (s + 16) c32;;
      write32 (s + 20) c32;;
      write32 (s + 24) c32;;
      write32 (s + n - 28) c32;;
      write32 (s + n - 24) c32;;
      write32 (s + n - 20) c32;;
      write32 (s + n - 16) c32;;
      let k := 24 + Z.land s 4 in
      memset_loop (Z.to_nat (n / 32)) (s + k) (n - k) (Z.lor c32 (Z.shiftl c32 32)).

Definition memset (dest c n : Z) : M bytes Z :=
  let s := dest in
  if n =? 0 then mret dest
  else
    write8 (s + n - 1) c;; write8 (s + 0) c;;
    if n <=? 2 then mret dest
    else
      write8 (s + n - 2) c;; write8 (s + 1) c;;
      write8 (s + n - 3) c;; write8 (s + 2) c;;
      if n <=? 6 then mret dest
      else
        write8 (s + n - 4) c;; write8 (s + 3) c;;
        if n <=? 8 then mret dest
        else
          let k := Z.land (- s) 3 in
          memset_words (s + k) (Z.land (n - k) (-4)) c;;
          mret dest.

(** ** [strcmp] *)

(** The loop stops at the first difference or at the end of both strings; [fuel] bounds
    the length. *)
Fixpoint strcmp (fuel : nat) (l r : Z) : M bytes Z :=
  match fuel with
  | O => fuel_out
  | S fuel' =>
      a ← read8 l;
      b ← read8 r;
      if (a =? b) && truth a && truth b then strcmp fuel' (l + 1) (r + 1) else mret (a - b)
  end.

Example memcpy_shifts :
  let m := list_to_map (zip (seqZ 96 80) (seqZ 1 80)) : bytes in
  match memcpy 137 98 35 m with
  | Done (r, m') => r = 137 /\ (fun i => m' !! (137 + i)) <$> seqZ 0 35 = (fun i => m !! (98 + i)) <$> seqZ 0 35
  | _ => False
  end.
Proof. vm_compute. done. Qed.

Example memset_example :
  let m := list_to_map (zip (seqZ 96 180) (replicate 180 0)) : bytes in
  match memset 101 7 121 m with
  | Done (r, m') => forallb (fun a => bool_decide (m' !! a = Some (if (101 <=? a) && (a <? 222) then 7 else 0))) (seqZ 96 180) = true
  | _ => False
  end.
Proof. vm_compute. done. Qed.
