(* ===== verification/BytesProps.v ===== *)
(** * Copying and filling memory: theorems

    [memcpy] and [memset] do what the loops over single bytes would do, for every
    alignment of their arguments, and stay inside the regions they are given. *)

From S2P Require Import Prelude Bytes.

Definition is_byte (b : Z) : Prop := 0 <= b < 256.

(** ** Words *)

Lemma word_bytes b0 b1 b2 b3 (w := word b0 b1 b2 b3) :
  is_byte b0 -> is_byte b1 -> is_byte b2 -> is_byte b3 ->
  is_u32 w /\ w mod 256 = b0 /\ Z.shiftr w 8 mod 256 = b1 /\ Z.shiftr w 16 mod 256 = b2 /\ Z.shiftr w 24 mod 256 = b3.
Proof.
  unfold w, word, is_byte, is_u32, u32_modulus. intros. rewrite !Z.shiftr_div_pow2 by lia.
  change (2 ^ 8) with 256. change (2 ^ 16) with 65536. change (2 ^ 24) with 16777216.
  split; [lia|]. split; [|split; [|split]].
  - symmetry. apply (Z.mod_unique _ _ (b1 + 256 * b2 + 65536 * b3)); lia.
  - replace ((b0 + 256 * b1 + 65536 * b2 + 16777216 * b3) / 256) with (b1 + 256 * b2 + 65536 * b3).
    + symmetry. apply (Z.mod_unique _ _ (b2 + 256 * b3)); lia.
    + apply (Z.div_unique _ _ _ b0); lia.
  - replace ((b0 + 256 * b1 + 65536 * b2 + 16777216 * b3) / 65536) with (b2 + 256 * b3).
    + symmetry. apply (Z.mod_unique _ _ b3); lia.
    + apply (Z.div_unique _ _ _ (b0 + 256 * b1)); lia.
  - replace ((b0 + 256 * b1 + 65536 * b2 + 16777216 * b3) / 16777216) with b3.
    + apply Z.mod_small. lia.
    + apply (Z.div_unique _ _ _ (b0 + 256 * b1 + 65536 * b2)); lia.
Qed.

Lemma lor_high a b k : 0 <= k -> 0 <= a < 2 ^ k -> 0 <= b -> Z.lor a (b * 2 ^ k) = a + b * 2 ^ k.
Proof.
  intros Hk Ha Hb. rewrite <- Z.add_lor_land, Z.add_comm.
  assert (Z.land a (b * 2 ^ k) = 0) as ->; [|lia]. apply Z.bits_inj. intros j. rewrite Z.land_spec, Z.bits_0.
  destruct (Z.lt_ge_cases j k) as [Hj|Hj].
  - destruct (Z.lt_ge_cases j 0); [by rewrite Z.testbit_neg_r|]. rewrite Z.mul_pow2_bits_low by done. apply andb_false_r.
  - destruct (decide (a = 0)) as [->|]; [by rewrite Z.bits_0|].
    rewrite (Z.bits_above_log2 a j); [done|lia|]. apply Z.log2_lt_pow2; [lia|].
    assert (2 ^ k <= 2 ^ j) by (apply Z.pow_le_mono_r; lia). lia.
Qed.

(** [join_words] takes the last [c] bytes of the first word and the first of the second. *)
Lemma join_words_1 a0 a1 a2 a3 b0 b1 b2 b3 :
  is_byte a0 -> is_byte a1 -> is_byte a2 -> is_byte a3 -> is_byte b0 -> is_byte b1 -> is_byte b2 -> is_byte b3 ->
  join_words 1 (word a0 a1 a2 a3) (word b0 b1 b2 b3) = word a3 b0 b1 b2.
Proof.
  unfold join_words, shl32, wrap32, word, is_byte, u32_modulus. intros. rewrite Z.shiftr_div_pow2, Z.shiftl_mul_pow2 by lia.
  change (2 ^ (32 - 8 * 1)) with 16777216. change (2 ^ (8 * 1)) with 256.
  replace ((a0 + 256 * a1 + 65536 * a2 + 16777216 * a3) / 16777216) with a3
    by (apply (Z.div_unique _ _ _ (a0 + 256 * a1 + 65536 * a2)); lia).
  replace (((b0 + 256 * b1 + 65536 * b2 + 16777216 * b3) * 256) mod 4294967296) with ((b0 + 256 * b1 + 65536 * b2) * 2 ^ 8)
    by (apply (Z.mod_unique _ _ b3); lia).
  rewrite lor_high by lia. lia.
Qed.

Lemma join_words_2 a0 a1 a2 a3 b0 b1 b2 b3 :
  is_byte a0 -> is_byte a1 -> is_byte a2 -> is_byte a3 -> is_byte b0 -> is_byte b1 -> is_byte b2 -> is_byte b3 ->
  join_words 2 (word a0 a1 a2 a3) (word b0 b1 b2 b3) = word a2 a3 b0 b1.
Proof.
  unfold join_words, shl32, wrap32, word, is_byte, u32_modulus. intros. rewrite Z.shiftr_div_pow2, Z.shiftl_mul_pow2 by lia.
  change (2 ^ (32 - 8 * 2)) with 65536. change (2 ^ (8 * 2)) with 65536.
  replace ((a0 + 256 * a1 + 65536 * a2 + 16777216 * a3) / 65536) with (a2 + 256 * a3)
    by (apply (Z.div_unique _ _ _ (a0 + 256 * a1)); lia).
  replace (((b0 + 256 * b1 + 65536 * b2 + 16777216 * b3) * 65536) mod 4294967296) with ((b0 + 256 * b1) * 2 ^ 16)
    by (apply (Z.mod_unique _ _ (b2 + 256 * b3)); lia).
  rewrite lor_high by lia. lia.
Qed.

Lemma join_words_3 a0 a1 a2 a3 b0 b1 b2 b3 :
  is_byte a0 -> is_byte a1 -> is_byte a2 -> is_byte a3 -> is_byte b0 -> is_byte b1 -> is_byte b2 -> is_byte b3 ->
  join_words 3 (word a0 a1 a2 a3) (word b0 b1 b2 b3) = word a1 a2 a3 b0.
Proof.
  unfold join_words, shl32, wrap32, word, is_byte, u32_modulus. intros. rewrite Z.shiftr_div_pow2, Z.shiftl_mul_pow2 by lia.
  change (2 ^ (32 - 8 * 3)) with 256. change (2 ^ (8 * 3)) with 16777216.
  replace ((a0 + 256 * a1 + 65536 * a2 + 16777216 * a3) / 256) with (a1 + 256 * a2 + 65536 * a3)
    by (apply (Z.div_unique _ _ _ a0); lia).
  replace (((b0 + 256 * b1 + 65536 * b2 + 16777216 * b3) * 16777216) mod 4294967296) with (b0 * 2 ^ 24)
    by (apply (Z.mod_unique _ _ (b1 + 256 * b2 + 65536 * b3)); lia).
  rewrite lor_high by lia. lia.
Qed.

Lemma write8_ok p b m : is_Some (m !! p) -> write8 p b m = Done (tt, <[p := b mod 256]> m).
Proof. intros [x Hx]. unfold write8. by rewrite Hx. Qed.

Lemma read8_ok p b (m : bytes) : m !! p = Some b -> read8 p m = Done (b, m).
Proof. unfold read8. by intros ->. Qed.

(** Writing a word is writing its bytes. *)
Lemma write32_ok p w m :
  p mod 4 = 0 -> (forall i, 0 <= i < 4 -> is_Some (m !! (p + i))) ->
  write32 p w m = Done (tt, <[p + 3 := Z.shiftr w 24 mod 256]> (<[p + 2 := Z.shiftr w 16 mod 256]>
    (<[p + 1 := Z.shiftr w 8 mod 256]> (<[p := w mod 256]> m)))).
Proof.
  intros Hp Hm. unfold write32. rewrite Hp. cbn [Z.eqb].
  pose proof (Hm 0 ltac:(lia)) as H0. rewrite Z.add_0_r in H0.
  rewrite (bind_Done _ _ _ _ _ (write8_ok p w m H0)).
  rewrite (bind_Done _ _ _ _ _ (write8_ok (p + 1) _ (<[p := w mod 256]> m)
    ltac:(rewrite lookup_insert_ne by lia; apply Hm; lia))).
  rewrite (bind_Done _ _ _ _ _ (write8_ok (p + 2) _ (<[p + 1 := Z.shiftr w 8 mod 256]> (<[p := w mod 256]> m))
    ltac:(rewrite !lookup_insert_ne by lia; apply Hm; lia))).
  apply write8_ok. rewrite !lookup_insert_ne by lia. apply Hm. lia.
Qed.

(** ** [memcpy] *)

Section memcpy.
Variable m0 : bytes.
Variables D S N : Z.
(** The source holds bytes, the destination is mapped, and they do not overlap. *)
Hypothesis src_mapped : forall i, 0 <= i < N -> exists b, m0 !! (S + i) = Some b /\ is_byte b.
Hypothesis dst_mapped : forall i, 0 <= i < N -> is_Some (m0 !! (D + i)).
Hypothesis disjoint : D + N <= S \/ S + N <= D.

(** The first [k] bytes are copied. *)
Definition copied (k : Z) (m : bytes) : Prop :=
  forall a, m !! a = if decide (D <= a < D + k) then m0 !! (S + (a - D)) else m0 !! a.

Definition src (i : Z) : Z := default 0 (m0 !! (S + i)).
Definition src_word (i : Z) : Z := word (src i) (src (i + 1)) (src (i + 2)) (src (i + 3)).

Lemma src_byte i : 0 <= i < N -> m0 !! (S + i) = Some (src i) /\ is_byte (src i).
Proof. intros Hi. unfold src. destruct (src_mapped i Hi) as (b & Hb & Hr). by rewrite Hb. Qed.

Lemma copied_0 : copied 0 m0.
Proof. intros a. by rewrite decide_False by lia. Qed.

Lemma copied_src k m i : copied k m -> 0 <= k <= N -> 0 <= i < N -> m !! (S + i) = Some (src i).
Proof. intros Hc Hk Hi. rewrite (Hc (S + i)), decide_False by lia. by apply src_byte. Qed.

Lemma copied_dst k m i : copied k m -> 0 <= k <= N -> 0 <= i < N -> is_Some (m !! (D + i)).
Proof.
  intros Hc Hk Hi. rewrite (Hc (D + i)). case_decide; [|by apply dst_mapped].
  replace (S + (D + i - D)) with (S + i) by lia. exists (src i). by apply src_byte.
Qed.

Lemma copied_step k m : copied k m -> 0 <= k < N -> copied (k + 1) (<[D + k := src k]> m).
Proof.
  intros Hc Hk a. rewrite lookup_insert. case_decide as E.
  - subst a. rewrite decide_True by lia. replace (S + (D + k - D)) with (S + k) by lia. symmetry. by apply src_byte.
  - rewrite (Hc a). repeat case_decide; try lia; done.
Qed.

Lemma copy_bytes_ok n k m : copied k m -> 0 <= k -> k + Z.of_nat n <= N ->
  exists m', copy_bytes n (D + k) (S + k) m = Done (tt, m') /\ copied (k + Z.of_nat n) m'.
Proof.
  revert k m. induction n as [|n IH]; intros k m Hc Hk Hn; cbn [copy_bytes].
  { exists m. by replace (k + Z.of_nat 0) with k by lia. }
  rewrite (bind_Done _ _ _ _ _ (read8_ok _ _ _ (copied_src k m k Hc ltac:(lia) ltac:(lia)))).
  rewrite (bind_Done _ _ _ _ _ (write8_ok _ (src k) m (copied_dst k m k Hc ltac:(lia) ltac:(lia)))).
  rewrite (Z.mod_small (src k)) by (apply src_byte; lia).
  destruct (IH (k + 1) (<[D + k := src k]> m)) as (m' & Hr & Hc'); [apply copied_step; [done|lia]|lia|lia|].
  exists m'. replace (D + k + 1) with (D + (k + 1)) by lia. replace (S + k + 1) with (S + (k + 1)) by lia.
  rewrite Hr. split; [done|]. by replace (k + Z.of_nat (Datatypes.S n)) with (k + 1 + Z.of_nat n) by lia.
Qed.

Lemma read32_src k m i : copied k m -> 0 <= k <= N -> 0 <= i -> i + 4 <= N -> (S + i) mod 4 = 0 ->
  read32 (S + i) m = Done (src_word i, m).
Proof.
  intros Hc Hk Hi HN Ha. unfold read32. rewrite Ha. cbn [Z.eqb].
  rewrite (bind_Done _ _ _ _ _ (read8_ok _ _ _ (copied_src k m i Hc Hk ltac:(lia)))).
  replace (S + i + 1) with (S + (i + 1)) by lia. rewrite (bind_Done _ _ _ _ _ (read8_ok _ _ _ (copied_src k m (i + 1) Hc Hk ltac:(lia)))).
  replace (S + i + 2) with (S + (i + 2)) by lia. rewrite (bind_Done _ _ _ _ _ (read8_ok _ _ _ (copied_src k m (i + 2) Hc Hk ltac:(lia)))).
  replace (S + i + 3) with (S + (i + 3)) by lia. rewrite (bind_Done _ _ _ _ _ (read8_ok _ _ _ (copied_src k m (i + 3) Hc Hk ltac:(lia)))).
  done.
Qed.

Lemma write32_dst k m : copied k m -> 0 <= k -> k + 4 <= N -> (D + k) mod 4 = 0 ->
  exists m', write32 (D + k) (src_word k) m = Done (tt, m') /\ copied (k + 4) m'.
Proof.
  intros Hc Hk HN Ha. rewrite write32_ok; [|done|].
  2: { intros i Hi. rewrite <- Z.add_assoc. apply (copied_dst k m); [done|lia|lia]. }
  destruct (word_bytes (src k) (src (k + 1)) (src (k + 2)) (src (k + 3))) as (_ & H0 & H1 & H2 & H3);
    [apply src_byte; lia..|]. fold (src_word k) in H0, H1, H2, H3. rewrite H0, H1, H2, H3.
  eexists. split; [reflexivity|]. replace (k + 4) with (k + 1 + 1 + 1 + 1) by lia.
  replace (D + k + 3) with (D + (k + 1 + 1 + 1)) by lia. replace (k + 3) with (k + 1 + 1 + 1) by lia.
  apply copied_step; [|lia]. replace (D + k + 2) with (D + (k + 1 + 1)) by lia. replace (k + 2) with (k + 1 + 1) by lia.
  apply copied_step; [|lia]. replace (D + k + 1) with (D + (k + 1)) by lia.
  apply copied_step; [|lia]. by apply copied_step; [|lia].
Qed.

Lemma copy_words_ok n k m : copied k m -> 0 <= k -> k + 4 * Z.of_nat n <= N -> (D + k) mod 4 = 0 -> (S + k) mod 4 = 0 ->
  exists m', copy_words n (D + k) (S + k) m = Done (tt, m') /\ copied (k + 4 * Z.of_nat n) m'.
Proof.
  revert k m. induction n as [|n IH]; intros k m Hc Hk Hn Hd Hs; cbn [copy_words].
  { exists m. by replace (k + 4 * Z.of_nat 0) with k by lia. }
  rewrite (bind_Done _ _ _ _ _ (read32_src k m k Hc ltac:(lia) ltac:(lia) ltac:(lia) Hs)).
  destruct (write32_dst k m Hc Hk ltac:(lia) Hd) as (m1 & Hw & Hc1). rewrite (bind_Done _ _ _ _ _ Hw).
  destruct (IH (k + 4) m1) as (m' & Hr & Hc'); [done|lia|lia| | |].
  { replace (D + (k + 4)) with (D + k + 1 * 4) by lia. by rewrite Z.mod_add. }
  { replace (S + (k + 4)) with (S + k + 1 * 4) by lia. by rewrite Z.mod_add. }
  exists m'. replace (D + k + 4) with (D + (k + 4)) by lia. replace (S + k + 4) with (S + (k + 4)) by lia.
  rewrite Hr. split; [done|]. by replace (k + 4 * Z.of_nat (Datatypes.S n)) with (k + 4 + 4 * Z.of_nat n) by lia.
Qed.

Lemma memcpy_head_ok fuel k m : copied k m -> 0 <= k <= N -> (S + k) mod 4 = 0 \/ 4 - (S + k) mod 4 <= Z.of_nat fuel ->
  exists k' m', memcpy_head fuel (D + k) (S + k) (N - k) m = Done ((D + k', S + k', N - k'), m') /\ copied k' m' /\
    k <= k' <= N /\ ((S + k') mod 4 = 0 \/ k' = N).
Proof.
  revert k m. induction fuel as [|fuel IH]; intros k m Hc Hk Hf; cbn [memcpy_head]; unfold truth;
    destruct (Z.eqb_spec ((S + k) mod 4) 0) as [E|E]; cbn [negb andb];
    try (exists k, m; split; [done|]; split; [done|]; split; [lia|by left]);
    destruct (Z.eqb_spec (N - k) 0) as [E0|E0]; cbn [negb andb];
    try (exists k, m; split; [done|]; split; [done|]; split; [lia|right; lia]).
  - pose proof (Z.mod_pos_bound (S + k) 4 ltac:(lia)). lia.
  - destruct (copy_bytes_ok 1 k m Hc ltac:(lia) ltac:(lia)) as (m1 & Hr & Hc1). rewrite (bind_Done _ _ _ _ _ Hr).
    pose proof (Z.mod_pos_bound (S + k) 4 ltac:(lia)) as Hb.
    destruct (IH (k + 1) m1 Hc1 ltac:(lia)) as (k' & m' & Hr' & Hc' & Hk' & Hal).
    { destruct Hf as [|Hf]; [done|]. destruct (decide ((S + k) mod 4 = 3)) as [E3|E3].
      - left. replace (S + (k + 1)) with (S + k + 1) by lia. rewrite Z.add_mod, E3 by lia. done.
      - right. replace (S + (k + 1)) with (S + k + 1) by lia. rewrite Z.add_mod, (Z.mod_small 1), (Z.mod_small ((S + k) mod 4 + 1)) by lia. lia. }
    exists k', m'. replace (D + k + 1) with (D + (k + 1)) by lia. replace (S + k + 1) with (S + (k + 1)) by lia.
    replace (N - k - 1) with (N - (k + 1)) by lia. split; [done|]. split; [done|]. split; [lia|done].
Qed.

Lemma memcpy_aligned_ok fuel k m : copied k m -> 0 <= k <= N -> (D + k) mod 4 = 0 -> (S + k) mod 4 = 0 \/ k = N ->
  (N - k) / 16 <= Z.of_nat fuel ->
  exists k' m', memcpy_aligned fuel (D + k) (S + k) (N - k) m = Done ((D + k', S + k', N - k'), m') /\ copied k' m' /\
    k <= k' <= N /\ N - k' < 16 /\ (D + k') mod 4 = 0 /\ ((S + k') mod 4 = 0 \/ k' = N).
Proof.
  revert k m. induction fuel as [|fuel IH]; intros k m Hc Hk Hd Hs Hf; cbn [memcpy_aligned].
  - destruct (Z.geb_spec (N - k) 16); [|exists k, m; by repeat (split; [done || lia|])].
    assert (1 <= (N - k) / 16) by (apply Z.div_le_lower_bound; lia). lia.
  - destruct (Z.geb_spec (N - k) 16) as [H16|]; [|exists k, m; by repeat (split; [done || lia|])].
    destruct Hs as [Hs|]; [|lia].
    destruct (copy_words_ok 4 k m Hc ltac:(lia) ltac:(lia) Hd Hs) as (m1 & Hr & Hc1). rewrite (bind_Done _ _ _ _ _ Hr).
    destruct (IH (k + 16) m1) as (k' & m' & Hr' & Hc' & Hk' & H'); [done|lia| | | |].
    { replace (D + (k + 16)) with (D + k + 4 * 4) by lia. by rewrite Z.mod_add. }
    { left. replace (S + (k + 16)) with (S + k + 4 * 4) by lia. by rewrite Z.mod_add. }
    { replace (N - (k + 16)) with (N - k + (-1) * 16) by lia. rewrite Z.div_add by lia. lia. }
    exists k', m'. replace (D + k + 16) with (D + (k + 16)) by lia. replace (S + k + 16) with (S + (k + 16)) by lia.
    replace (N - k - 16) with (N - (k + 16)) by lia. split; [done|]. split; [done|]. split; [lia|done].
Qed.

Lemma join_src c i : 1 <= c <= 3 -> 0 <= i -> i + 8 <= N -> join_words c (src_word i) (src_word (i + 4)) = src_word (i + 4 - c).
Proof.
  intros Hc Hi HN. assert (Hb : forall j, 0 <= j < 8 -> is_byte (src (i + j))) by (intros j Hj; apply src_byte; lia).
  unfold src_word. assert (E : forall a b, src (i + a + b) = src (i + (a + b))) by (intros; f_equal; lia).
  pose proof (Hb 0 ltac:(lia)) as H0. rewrite Z.add_0_r in H0.
  assert (c = 1 \/ c = 2 \/ c = 3) as [->|[->| ->]] by lia.
  - rewrite join_words_1; rewrite ?E; try (apply Hb; lia); [|done]. f_equal; f_equal; lia.
  - rewrite join_words_2; rewrite ?E; try (apply Hb; lia); [|done]. f_equal; f_equal; lia.
  - rewrite join_words_3; rewrite ?E; try (apply Hb; lia); [|done]. f_equal; f_equal; lia.
Qed.

(** One store of the shifted loop: the word read before is [w], and [x] is read. *)
Lemma shifted_step c k m :
  copied k m -> 1 <= c <= 3 -> 4 - c <= k -> k + c + 4 <= N -> (D + k) mod 4 = 0 -> (S + k + c) mod 4 = 0 ->
  exists m', copied (k + 4) m' /\ forall A (cont : Z -> M bytes A) p q, p = S + k + c -> q = D + k ->
    (x ← read32 p; write32 q (join_words c (src_word (k + c - 4)) x);; cont x) m = cont (src_word (k + 4 + c - 4)) m'.
Proof.
  intros Hcp Hc Hk HN Hd Hs. replace (S + k + c) with (S + (k + c)) in * by lia.
  destruct (write32_dst k m Hcp ltac:(lia) ltac:(lia) Hd) as (m' & Hw & Hc'). exists m'. split; [done|].
  intros A cont p q -> ->.
  rewrite (bind_Done _ _ _ _ _ (read32_src k m (k + c) Hcp ltac:(lia) ltac:(lia) ltac:(lia) Hs)).
  pose proof (join_src c (k + c - 4) Hc ltac:(lia) ltac:(lia)) as Hj.
  replace (k + c - 4 + 4) with (k + c) in Hj by lia. replace (k + c - c) with k in Hj by lia. rewrite Hj.
  rewrite (bind_Done _ _ _ _ _ Hw). by replace (k + 4 + c - 4) with (k + c) by lia.
Qed.

Lemma add_mod4 a k j : (a + k) mod 4 = 0 -> (a + (k + 4 * j)) mod 4 = 0.
Proof. intros H. replace (a + (k + 4 * j)) with (a + k + j * 4) by lia. by rewrite Z.mod_add. Qed.

Lemma memcpy_shifted_ok fuel c k m : copied k m -> 1 <= c <= 3 -> 4 - c <= k <= N ->
  (D + k) mod 4 = 0 -> (S + k + c) mod 4 = 0 -> (N - k) / 16 <= Z.of_nat fuel ->
  exists k' m', memcpy_shifted fuel c (src_word (k + c - 4)) (D + k) (S + k) (N - k) m = Done ((D + k', S + k', N - k'), m') /\
    copied k' m' /\ k <= k' <= N /\ N - k' < 16 + c.
Proof.
  intros Hcp Hc. revert k m Hcp. induction fuel as [|fuel IH]; intros k m Hcp Hk Hd Hs Hf; cbn [memcpy_shifted];
    destruct (Z.geb_spec (N - k) (16 + c)) as [H16|]; try (exists k, m; by repeat (split; [done || lia|])).
  - assert (1 <= (N - k) / 16) by (apply Z.div_le_lower_bound; lia). lia.
  - assert (Hs4 : forall j, (S + (k + 4 * j) + c) mod 4 = 0).
    { intros j. replace (S + (k + 4 * j) + c) with (S + k + c + j * 4) by lia. by rewrite Z.mod_add. }
    destruct (shifted_step c k m) as (m1 & Hc1 & E1); [done|done|lia|lia|done|done|].
    rewrite E1 by lia.
    destruct (shifted_step c (k + 4) m1) as (m2 & Hc2 & E2); [done|done|lia|lia|exact (add_mod4 D k 1 Hd)|exact (Hs4 1)|].
    rewrite E2 by lia.
    destruct (shifted_step c (k + 4 + 4) m2) as (m3 & Hc3 & E3); [done|done|lia|lia| | |].
    { pose proof (add_mod4 D k 2 Hd). by replace (k + 4 + 4) with (k + 4 * 2) by lia. }
    { pose proof (Hs4 2). by replace (k + 4 + 4) with (k + 4 * 2) by lia. }
    rewrite E3 by lia. destruct (shifted_step c (k + 4 + 4 + 4) m3) as (m4 & Hc4 & E4); [done|done|lia|lia| | |].
    { pose proof (add_mod4 D k 3 Hd). by replace (k + 4 + 4 + 4) with (k + 4 * 3) by lia. }
    { pose proof (Hs4 3). by replace (k + 4 + 4 + 4) with (k + 4 * 3) by lia. }
    rewrite E4 by lia. replace (k + 4 + 4 + 4 + 4) with (k + 16) in * by lia.
    destruct (IH (k + 16) m4) as (k' & m' & Hr & Hc' & Hk' & Hn'); [done|lia|exact (add_mod4 D k 4 Hd)| | |].
    { pose proof (Hs4 4). by replace (k + 16) with (k + 4 * 4) by lia. }
    { replace (N - (k + 16)) with (N - k + (-1) * 16) by lia. rewrite Z.div_add by lia. lia. }
    exists k', m'. replace (D + k + 16) with (D + (k + 16)) by lia. replace (S + k + 16) with (S + (k + 16)) by lia.
    replace (N - k - 16) with (N - (k + 16)) by lia. split; [done|]. split; [done|]. split; [lia|done].
Qed.

(** The part of the bit [p] in [n]. *)
Definition part (p n : Z) : Z := if truth (Z.land n p) then p else 0.

Lemma parts_sum n : 0 <= n < 32 -> part 16 n + part 8 n + part 4 n + part 2 n + part 1 n = n.
Proof.
  intros Hn. assert (H : forallb (fun n => part 16 n + part 8 n + part 4 n + part 2 n + part 1 n =? n) (seqZ 0 32) = true) by reflexivity.
  rewrite forallb_forall in H. apply Z.eqb_eq, H, list_elem_of_In, elem_of_seqZ. lia.
Qed.

Lemma part_range p n : 0 <= p -> 0 <= part p n <= p.
Proof. intros. unfold part. destruct (truth (Z.land n p)); lia. Qed.

Lemma copy_if_ok p n k m : copied k m -> 0 <= k -> 0 <= p -> k + part p n <= N ->
  exists m', copy_if p n (D + k) (S + k) m = Done ((D + (k + part p n), S + (k + part p n)), m') /\ copied (k + part p n) m'.
Proof.
  intros Hc Hk Hp Hn. unfold copy_if, part in *. destruct (truth (Z.land n p)).
  - destruct (copy_bytes_ok (Z.to_nat p) k m Hc Hk ltac:(lia)) as (m' & Hr & Hc'). rewrite (bind_Done _ _ _ _ _ Hr).
    exists m'. rewrite Z2Nat.id in Hc' by done. rewrite !Z.add_assoc. by split.
  - exists m. by rewrite Z.add_0_r.
Qed.

Lemma copy_words_if_ok p j n k m : copied k m -> 0 <= k -> p = 4 * Z.of_nat j -> k + part p n <= N ->
  (D + k) mod 4 = 0 -> (S + k) mod 4 = 0 \/ part p n = 0 ->
  exists m', ((if truth (Z.land n p) then copy_words j (D + k) (S + k);; mret (D + k + p, S + k + p) else mret (D + k, S + k)) : M bytes (Z * Z)) m =
    Done ((D + (k + part p n), S + (k + part p n)), m') /\ copied (k + part p n) m'.
Proof.
  intros Hc Hk Hp Hn Hd Hs. unfold part in *. destruct (truth (Z.land n p)).
  - destruct (decide (p = 0)) as [E|].
    { assert (j = 0%nat) as -> by lia. exists m. rewrite E, !Z.add_0_r. by split. }
    destruct Hs as [Hs|]; [|lia]. destruct (copy_words_ok j k m Hc Hk ltac:(lia) Hd Hs) as (m' & Hr & Hc'). rewrite (bind_Done _ _ _ _ _ Hr).
    exists m'. rewrite <- Hp in Hc'. rewrite !Z.add_assoc. by split.
  - exists m. by rewrite Z.add_0_r.
Qed.

Lemma memcpy_rest_aligned_ok k m : copied k m -> 0 <= k <= N -> N - k < 16 -> (D + k) mod 4 = 0 -> (S + k) mod 4 = 0 \/ k = N ->
  exists m', memcpy_rest_aligned (D + k) (S + k) (N - k) m = Done (tt, m') /\ copied N m'.
Proof.
  intros Hc Hk Hn Hd Hs. set (n := N - k) in *. pose proof (parts_sum n ltac:(lia)) as Hsum.
  assert (H16 : part 16 n = 0).
  { unfold part. assert (H : forallb (fun n => negb (truth (Z.land n 16))) (seqZ 0 16) = true) by reflexivity.
    rewrite forallb_forall in H. specialize (H n). rewrite <- list_elem_of_In, elem_of_seqZ in H. specialize (H ltac:(lia)).
    by destruct (truth (Z.land n 16)). }
  pose proof (part_range 4 n ltac:(lia)). pose proof (part_range 2 n ltac:(lia)). pose proof (part_range 1 n ltac:(lia)).
  assert (H8 : part 8 n = 0 \/ part 8 n = 8) by (unfold part; destruct (truth _); auto).
  assert (Hmul : exists j, k + part 8 n = k + 4 * j) by (destruct H8 as [->| ->]; [exists 0|exists 2]; lia).
  destruct Hmul as [j Hj]. unfold memcpy_rest_aligned.
  destruct (copy_words_if_ok 8 2 n k m) as (m1 & Hr1 & Hc1); [done|lia|done|lia|done|destruct Hs; [by left|right; lia]|].
  rewrite (bind_Done _ _ _ _ _ Hr1). cbn [fst snd].
  destruct (copy_words_if_ok 4 1 n (k + part 8 n) m1) as (m2 & Hr2 & Hc2); [done|lia|done|lia|rewrite Hj; by apply add_mod4| |].
  { destruct Hs; [left; rewrite Hj; by apply add_mod4|right; lia]. }
  rewrite (bind_Done _ _ _ _ _ Hr2). cbn [fst snd].
  destruct (copy_if_ok 2 n (k + part 8 n + part 4 n) m2) as (m3 & Hr3 & Hc3); [done|lia|lia|lia|].
  rewrite (bind_Done _ _ _ _ _ Hr3). cbn [fst snd].
  destruct (copy_if_ok 1 n (k + part 8 n + part 4 n + part 2 n) m3) as (m4 & Hr4 & Hc4); [done|lia|lia|lia|].
  rewrite (bind_Done _ _ _ _ _ Hr4). exists m4. split; [done|].
  by replace N with (k + part 8 n + part 4 n + part 2 n + part 1 n) by lia.
Qed.

Lemma memcpy_rest_ok k m : copied k m -> 0 <= k <= N -> N - k < 32 ->
  exists m', memcpy_rest (D + k) (S + k) (N - k) m = Done (tt, m') /\ copied N m'.
Proof.
  intros Hc Hk Hn. set (n := N - k) in *. pose proof (parts_sum n ltac:(lia)) as Hsum.
  pose proof (part_range 16 n ltac:(lia)). pose proof (part_range 8 n ltac:(lia)).
  pose proof (part_range 4 n ltac:(lia)). pose proof (part_range 2 n ltac:(lia)). pose proof (part_range 1 n ltac:(lia)).
  unfold memcpy_rest.
  destruct (copy_if_ok 16 n k m) as (m1 & Hr1 & Hc1); [done|lia|lia|lia|]. rewrite (bind_Done _ _ _ _ _ Hr1). cbn [fst snd].
  destruct (copy_if_ok 8 n (k + part 16 n) m1) as (m2 & Hr2 & Hc2); [done|lia|lia|lia|]. rewrite (bind_Done _ _ _ _ _ Hr2). cbn [fst snd].
  destruct (copy_if_ok 4 n (k + part 16 n + part 8 n) m2) as (m3 & Hr3 & Hc3); [done|lia|lia|lia|]. rewrite (bind_Done _ _ _ _ _ Hr3). cbn [fst snd].
  destruct (copy_if_ok 2 n (k + part 16 n + part 8 n + part 4 n) m3) as (m4 & Hr4 & Hc4); [done|lia|lia|lia|].
  rewrite (bind_Done _ _ _ _ _ Hr4). cbn [fst snd].
  destruct (copy_if_ok 1 n (k + part 16 n + part 8 n + part 4 n + part 2 n) m4) as (m5 & Hr5 & Hc5); [done|lia|lia|lia|].
  rewrite (bind_Done _ _ _ _ _ Hr5). exists m5. split; [done|].
  by replace N with (k + part 16 n + part 8 n + part 4 n + part 2 n + part 1 n) by lia.
Qed.

Lemma memcpy_ok : 0 <= N -> exists m', memcpy D S N m0 = Done (D, m') /\ copied N m'.
Proof.
  intros HN. unfold memcpy. destruct (memcpy_head_ok 3 0 m0 copied_0 ltac:(lia)) as (k & m1 & Hr & Hc1 & Hk & Hs).
  { pose proof (Z.mod_pos_bound (S + 0) 4 ltac:(lia)). lia. }
  rewrite !Z.add_0_r, Z.sub_0_r in Hr. rewrite (bind_Done _ _ _ _ _ Hr). cbv beta iota zeta.
  destruct (Z.eqb_spec ((D + k) mod 4) 0) as [Hd|Hd].
  - destruct (memcpy_aligned_ok (Z.to_nat ((N - k) / 16)) k m1) as (k2 & m2 & Hr2 & Hc2 & Hk2 & Hn2 & Hd2 & Hs2); [done|lia|done|done| |].
    { rewrite Z2Nat.id; [done|]. apply Z.div_pos; lia. }
    rewrite (bind_Done _ _ _ _ _ Hr2). cbv beta iota zeta.
    destruct (memcpy_rest_aligned_ok k2 m2 Hc2 ltac:(lia) Hn2 Hd2 Hs2) as (m' & Hr3 & Hc3). rewrite (bind_Done _ _ _ _ _ Hr3). by exists m'.
  - pose proof (Z.mod_pos_bound (D + k) 4 ltac:(lia)) as Hb. set (c := (D + k) mod 4) in *.
    assert (Hmid : exists k2 m2, ((if N - k >=? 32 then
        w ← read32 (S + k); copy_bytes (Z.to_nat (4 - c)) (D + k) (S + k);;
        memcpy_shifted (Z.to_nat ((N - k) / 16)) c w (D + k + (4 - c)) (S + k + (4 - c)) (N - k - (4 - c))
      else mret (D + k, S + k, N - k)) : M bytes (Z * Z * Z)) m1 = Done ((D + k2, S + k2, N - k2), m2) /\ copied k2 m2 /\ k <= k2 <= N /\ N - k2 < 32).
    { destruct (Z.geb_spec (N - k) 32) as [H32|]; [|exists k, m1; by repeat (split; [done || lia|])].
      destruct Hs as [Hs|]; [|lia]. rewrite (bind_Done _ _ _ _ _ (read32_src k m1 k Hc1 ltac:(lia) ltac:(lia) ltac:(lia) Hs)).
      destruct (copy_bytes_ok (Z.to_nat (4 - c)) k m1 Hc1 ltac:(lia) ltac:(lia)) as (m2 & Hr2 & Hc2). rewrite (bind_Done _ _ _ _ _ Hr2).
      rewrite Z2Nat.id in Hc2 by lia.
      destruct (memcpy_shifted_ok (Z.to_nat ((N - k) / 16)) c (k + (4 - c)) m2) as (k3 & m3 & Hr3 & Hc3 & Hk3 & Hn3); [done|lia|lia| | | |].
      - replace (D + (k + (4 - c))) with ((D + k - c) + 1 * 4) by lia. rewrite Z.mod_add by lia. unfold c. rewrite Zminus_mod_idemp_r.
        by rewrite Z.sub_diag.
      - replace (S + (k + (4 - c)) + c) with (S + k + 1 * 4) by lia. by rewrite Z.mod_add.
      - rewrite Z2Nat.id by (apply Z.div_pos; lia). apply Z.div_le_mono; lia.
      - replace (k + (4 - c) + c - 4) with k in Hr3 by lia.
        replace (D + k + (4 - c)) with (D + (k + (4 - c))) by lia. replace (S + k + (4 - c)) with (S + (k + (4 - c))) by lia.
        replace (N - k - (4 - c)) with (N - (k + (4 - c))) by lia. exists k3, m3. split; [done|]. split; [done|]. lia. }
    destruct Hmid as (k2 & m2 & Hr2 & Hc2 & Hk2 & Hn2). rewrite (bind_Done _ _ _ _ _ Hr2). cbv beta iota zeta.
    destruct (memcpy_rest_ok k2 m2 Hc2 ltac:(lia) Hn2) as (m' & Hr3 & Hc3). rewrite (bind_Done _ _ _ _ _ Hr3). by exists m'.
Qed.
End memcpy.

(** ** [memset] *)

(** The addresses from [a] up to [a + n] hold bytes. *)
Definition is_bytes (m : bytes) (a n : Z) : Prop := forall x, a <= x < a + n -> exists b, m !! x = Some b /\ is_byte b.

(** For a concrete memory it is evaluated. *)
Lemma is_bytes_check m a n :
  forallb (fun x => match m !! x with Some b => (0 <=? b) && (b <? 256) | None => false end) (seqZ a n) = true -> is_bytes m a n.
Proof.
  intros H x Hx. rewrite forallb_forall in H. specialize (H x). destruct (m !! x) as [b|].
  - exists b. split; [done|]. unfold is_byte. apply andb_true_iff in H; [lia|]. apply list_elem_of_In, elem_of_seqZ. lia.
  - exfalso. assert (false = true) by (apply H, list_elem_of_In, elem_of_seqZ; lia). done.
Qed.

(** The byte at an address and the word of the four bytes from it on, when there are some. *)
Definition byte_at (m : bytes) (x : Z) : Z := default 0 (m !! x).
Definition word_at (m : bytes) (p : Z) : Z := word (byte_at m p) (byte_at m (p + 1)) (byte_at m (p + 2)) (byte_at m (p + 3)).

Lemma byte_at_ok m a n x : is_bytes m a n -> a <= x < a + n -> m !! x = Some (byte_at m x) /\ is_byte (byte_at m x).
Proof. intros H Hx. unfold byte_at. destruct (H x Hx) as (b & E & Hb). by rewrite E. Qed.

Lemma read32_ok p m b0 b1 b2 b3 : p mod 4 = 0 -> m !! p = Some b0 -> m !! (p + 1) = Some b1 -> m !! (p + 2) = Some b2 -> m !! (p + 3) = Some b3 ->
  read32 p m = Done (word b0 b1 b2 b3, m).
Proof.
  intros Hp H0 H1 H2 H3. unfold read32. rewrite Hp. cbn [Z.eqb].
  rewrite (bind_Done _ _ _ _ _ (read8_ok _ _ _ H0)), (bind_Done _ _ _ _ _ (read8_ok _ _ _ H1)),
    (bind_Done _ _ _ _ _ (read8_ok _ _ _ H2)), (bind_Done _ _ _ _ _ (read8_ok _ _ _ H3)). done.
Qed.

(** A write of a word. *)
Lemma write32_word p m b0 b1 b2 b3 : p mod 4 = 0 -> is_bytes m p 4 -> is_byte b0 -> is_byte b1 -> is_byte b2 -> is_byte b3 ->
  write32 p (word b0 b1 b2 b3) m = Done (tt, <[p + 3 := b3]> (<[p + 2 := b2]> (<[p + 1 := b1]> (<[p := b0]> m)))).
Proof.
  intros Hp Hm H0 H1 H2 H3. destruct (word_bytes b0 b1 b2 b3 H0 H1 H2 H3) as (_ & E0 & E1 & E2 & E3).
  rewrite write32_ok; [by rewrite E0, E1, E2, E3|done|]. intros i Hi. destruct (Hm (p + i)) as (b & Hb & _); [lia|]. by exists b.
Qed.

Lemma aligned_add d p k : 0 < d -> p mod d = 0 -> (p + d * k) mod d = 0.
Proof. intros Hd H. rewrite Z.mul_comm, Z.mod_add; [done|lia]. Qed.

(** The offset of the first double word. *)
Lemma memset_start s : s mod 4 = 0 -> let k := 24 + Z.land s 4 in (k = 24 \/ k = 28) /\ (s + k) mod 8 = 0.
Proof.
  intros Hs k. apply Z.mod_divide in Hs as [q ->]; [|lia].
  assert (E : Z.land (q * 4) 4 = 4 * (q mod 2)).
  { replace (Z.land (q * 4) 4) with (Z.land (Z.shiftl q 2) (Z.shiftl 1 2)) by (by rewrite Z.shiftl_mul_pow2).
    rewrite <- Z.shiftl_land. change 1 with (Z.ones 1) at 1. rewrite Z.land_ones, Z.shiftl_mul_pow2 by lia. change (2 ^ 1) with 2. lia. }
  unfold k. rewrite E. pose proof (Z.div_mod q 2 ltac:(lia)) as Hd. pose proof (Z.mod_pos_bound q 2 ltac:(lia)).
  split; [lia|]. symmetry. apply (Z.mod_unique _ _ (q / 2 + 3 + q mod 2)); lia.
Qed.

Section memset.
Variable m0 : bytes.
Variable c : Z.

(** The bytes in [P] are set, the others are as before. *)
Definition painted (P : Z -> Prop) (m : bytes) : Prop :=
  forall a, (P a -> m !! a = Some (c mod 256)) /\ (~ P a -> m !! a = m0 !! a).

Variables D N : Z.
Hypothesis mapped : forall a, D <= a < D + N -> is_Some (m0 !! a).

Definition inside (P : Z -> Prop) : Prop := forall a, P a -> D <= a < D + N.
Definition interval (p k a : Z) : Prop := p <= a < p + k.

(** Memory in which part of the region is painted. *)
Definition paint (P : Z -> Prop) (m : bytes) : Prop := painted P m /\ inside P /\ forall a, D <= a < D + N -> is_Some (m !! a).

Lemma paint_0 : paint (fun _ => False) m0.
Proof. split; [by intros a; split; [done|]|]. split; [by intros a|done]. Qed.

Lemma paint_insert P m p v : paint P m -> D <= p < D + N -> v = c mod 256 -> paint (fun a => P a \/ interval p 1 a) (<[p := v]> m).
Proof.
  intros (Hp & Hi & Hm) Hr ->. split; [|split].
  - intros a. rewrite lookup_insert. unfold interval. case_decide as E; [split; [done|intros H; exfalso; apply H; right; lia]|].
    destruct (Hp a) as [H1 H2]. split; [intros [H|H]; [by apply H1|lia]|intros H; apply H2; tauto].
  - intros a [H|H]; [by apply Hi|unfold interval in H; lia].
  - intros a Ha. rewrite lookup_insert. case_decide; [by eexists|by apply Hm].
Qed.

Lemma paint_ext P Q m : paint P m -> (forall a, P a <-> Q a) -> paint Q m.
Proof.
  intros (Hp & Hi & Hm) HE. split; [|split; [|done]].
  - intros a. destruct (Hp a) as [H1 H2]. rewrite <- HE. by split.
  - intros a Ha. apply Hi. by apply HE.
Qed.

Lemma paint_write8 {A} P m p (k : M bytes A) : paint P m -> D <= p < D + N ->
  exists m', (write8 p c;; k) m = k m' /\ paint (fun a => P a \/ interval p 1 a) m'.
Proof.
  intros HP Hr. exists (<[p := c mod 256]> m). split; [|by apply paint_insert].
  refine (bind_Done (write8 p c) (fun _ => k) m tt _ (write8_ok p c m _)). destruct HP as (_ & _ & Hm). by apply Hm.
Qed.

(** The word and the double word of four and eight equal bytes. *)
Definition c32 : Z := mul32 (4294967295 / 255) (c mod 256).

Lemma c32_word : c32 = word (c mod 256) (c mod 256) (c mod 256) (c mod 256).
Proof.
  unfold c32, mul32, wrap32, u32_modulus, word. change (4294967295 / 255) with 16843009.
  pose proof (Z.mod_pos_bound c 256 ltac:(lia)). rewrite Z.mod_small by lia. lia.
Qed.

Lemma paint_write32_word P m p w : paint P m -> D <= p -> p + 4 <= D + N -> p mod 4 = 0 ->
  w mod 256 = c mod 256 -> Z.shiftr w 8 mod 256 = c mod 256 -> Z.shiftr w 16 mod 256 = c mod 256 -> Z.shiftr w 24 mod 256 = c mod 256 ->
  exists m', write32 p w m = Done (tt, m') /\ paint (fun a => P a \/ interval p 4 a) m'.
Proof.
  intros HP Hr1 Hr2 Hal H0 H1 H2 H3. rewrite write32_ok; [|done|].
  2: { intros i Hi. destruct HP as (_ & _ & Hm). apply Hm. lia. }
  eexists. split; [reflexivity|]. rewrite H0, H1, H2, H3. eapply paint_ext.
  - apply paint_insert; [|lia|done]. apply paint_insert; [|lia|done]. apply paint_insert; [|lia|done].
    apply paint_insert; [exact HP|lia|done].
  - intros a. unfold interval. intuition lia.
Qed.

Lemma paint_write32 {A} P m p (k : M bytes A) : paint P m -> D <= p -> p + 4 <= D + N -> p mod 4 = 0 ->
  exists m', (write32 p c32;; k) m = k m' /\ paint (fun a => P a \/ interval p 4 a) m'.
Proof.
  intros HP Hr1 Hr2 Hal. pose proof (Z.mod_pos_bound c 256 ltac:(lia)) as Hb.
  destruct (word_bytes (c mod 256) (c mod 256) (c mod 256) (c mod 256)) as (_ & H0 & H1 & H2 & H3); [done..|].
  rewrite <- c32_word in H0, H1, H2, H3.
  destruct (paint_write32_word P m p c32) as (m' & Hw & HP'); [done..|]. exists m'. split; [exact (bind_Done _ (fun _ => k) m tt m' Hw)|done].
Qed.

(** The double word of eight equal bytes. *)
Definition c64 : Z := Z.lor c32 (Z.shiftl c32 32).

Lemma c64_bytes : let b := c mod 256 in
  c64 mod 256 = b /\ Z.shiftr c64 8 mod 256 = b /\ Z.shiftr c64 16 mod 256 = b /\ Z.shiftr c64 24 mod 256 = b /\ Z.shiftr c64 32 = c32.
Proof.
  intros b. pose proof (Z.mod_pos_bound c 256 ltac:(lia)) as Hb. fold b in Hb.
  assert (E : c64 = b + 256 * b + 65536 * b + 16777216 * b + 4294967296 * (b + 256 * b + 65536 * b + 16777216 * b)).
  { unfold c64. rewrite Z.shiftl_mul_pow2, lor_high by (rewrite ?c32_word; unfold word; fold b; lia).
    rewrite c32_word. unfold word. fold b. lia. }
  rewrite !Z.shiftr_div_pow2 by lia. change (2 ^ 8) with 256. change (2 ^ 16) with 65536. change (2 ^ 24) with 16777216. change (2 ^ 32) with 4294967296.
  set (h := b + 256 * b + 65536 * b + 16777216 * b) in *. assert (Eh : h = 16843009 * b) by lia.
  split; [|split; [|split; [|split]]].
  - symmetry. apply (Z.mod_unique _ _ (b + 256 * b + 65536 * b + 16777216 * h)); lia.
  - replace (c64 / 256) with (b + 256 * b + 65536 * b + 16777216 * h) by (apply (Z.div_unique _ _ _ b); lia).
    symmetry. apply (Z.mod_unique _ _ (b + 256 * b + 65536 * h)); lia.
  - replace (c64 / 65536) with (b + 256 * b + 65536 * h) by (apply (Z.div_unique _ _ _ (b + 256 * b)); lia).
    symmetry. apply (Z.mod_unique _ _ (b + 256 * h)); lia.
  - replace (c64 / 16777216) with (b + 256 * h) by (apply (Z.div_unique _ _ _ (b + 256 * b + 65536 * b)); lia).
    symmetry. apply (Z.mod_unique _ _ h); lia.
  - rewrite c32_word. unfold word. fold b. symmetry. apply (Z.div_unique _ _ _ h); lia.
Qed.

Lemma paint_write64 {A} P m p (k : M bytes A) : paint P m -> D <= p -> p + 8 <= D + N -> p mod 8 = 0 ->
  exists m', (write64 p c64;; k) m = k m' /\ paint (fun a => P a \/ interval p 8 a) m'.
Proof.
  intros HP Hr1 Hr2 Hal. assert (Hal4 : p mod 4 = 0).
  { apply Z.mod_divide; [lia|]. apply Z.mod_divide in Hal as [j ->]; [|lia]. exists (2 * j). lia. }
  destruct c64_bytes as (H0 & H1 & H2 & H3 & H4).
  destruct (paint_write32_word P m p c64) as (m1 & Hw & HP1); [done|lia|lia|done..|].
  destruct (paint_write32 _ m1 (p + 4) (mret tt : M bytes unit) HP1) as (m2 & Hw2 & HP2); [lia|lia| |].
  { replace (p + 4) with (p + 1 * 4) by lia. by rewrite Z.mod_add. }
  exists m2. split.
  - assert (E : write64 p c64 m = Done (tt, m2)); [|exact (bind_Done _ (fun _ => k) m tt m2 E)].
    unfold write64. rewrite Hal. cbn [Z.eqb]. rewrite (bind_Done _ _ _ _ _ Hw), H4.
    unfold mbind, M_bind in Hw2. destruct (write32 (p + 4) c32 m1) as [[[] x]| | |]; [|done..]. exact Hw2.
  - eapply paint_ext; [exact HP2|]. intros a. unfold interval. intuition lia.
Qed.

(** The first [i] and the last [j] bytes of the region. *)
Definition ends (i j a : Z) : Prop := D <= a < D + i \/ D + N - j <= a < D + N.

(** A store that touches the painted front extends it, one at the back likewise. *)
Lemma front8 {A} i j m p (k : M bytes A) : paint (ends i j) m -> 0 <= i -> p = D + i -> D <= p < D + N ->
  exists m', (write8 p c;; k) m = k m' /\ paint (ends (i + 1) j) m'.
Proof.
  intros HP Hi Hp Hr. destruct (paint_write8 _ m p k HP Hr) as (m' & E & HP'). exists m'. split; [done|].
  eapply paint_ext; [exact HP'|]. intros a. unfold ends, interval. lia.
Qed.

Lemma back8 {A} i j m p (k : M bytes A) : paint (ends i j) m -> 0 <= j -> p = D + N - j - 1 -> D <= p < D + N ->
  exists m', (write8 p c;; k) m = k m' /\ paint (ends i (j + 1)) m'.
Proof.
  intros HP Hj Hp Hr. destruct (paint_write8 _ m p k HP Hr) as (m' & E & HP'). exists m'. split; [done|].
  eapply paint_ext; [exact HP'|]. intros a. unfold ends, interval. lia.
Qed.

Lemma front32 {A} i j m p (k : M bytes A) : paint (ends i j) m -> D <= p <= D + i -> D + i <= p + 4 -> p + 4 <= D + N -> p mod 4 = 0 ->
  exists m', (write32 p c32;; k) m = k m' /\ paint (ends (p + 4 - D) j) m'.
Proof.
  intros HP Hp Hi Hr Hal. destruct (paint_write32 _ m p k HP ltac:(lia) Hr Hal) as (m' & E & HP'). exists m'. split; [done|].
  eapply paint_ext; [exact HP'|]. intros a. unfold ends, interval. lia.
Qed.

Lemma front32_4 {A} i j m p q1 q2 q3 (k : M bytes A) : paint (ends i j) m -> q1 = p + 4 -> q2 = p + 8 -> q3 = p + 12 -> D <= p -> p = D + i ->
  p + 16 <= D + N -> p mod 4 = 0 ->
  exists m', (write32 p c32;; write32 q1 c32;; write32 q2 c32;; write32 q3 c32;; k) m = k m' /\ paint (ends (p + 16 - D) j) m'.
Proof.
  intros HP -> -> -> Hp Hi Hr Hal.
  destruct (front32 _ j m p (write32 (p + 4) c32;; write32 (p + 8) c32;; write32 (p + 12) c32;; k) HP) as (m1 & E1 & HP1); [lia..|].
  destruct (front32 _ j m1 (p + 4) (write32 (p + 8) c32;; write32 (p + 12) c32;; k) HP1) as (m2 & E2 & HP2); [lia..|by apply (aligned_add 4 p 1)|].
  destruct (front32 _ j m2 (p + 8) (write32 (p + 12) c32;; k) HP2) as (m3 & E3 & HP3); [lia..|by apply (aligned_add 4 p 2)|].
  destruct (front32 _ j m3 (p + 12) k HP3) as (m4 & E4 & HP4); [lia..|by apply (aligned_add 4 p 3)|].
  exists m4. rewrite E1, E2, E3. split; [done|]. eapply paint_ext; [exact HP4|]. intros a. unfold ends. lia.
Qed.

(** A word at the painted back. *)
Lemma back32_1 {A} i j m p (k : M bytes A) : paint (ends i j) m -> D <= p -> p <= D + N - j <= p + 4 -> p + 4 <= D + N -> p mod 4 = 0 ->
  exists m', (write32 p c32;; k) m = k m' /\ paint (ends i (D + N - p)) m'.
Proof.
  intros HP Hp Hj Hr Hal. destruct (paint_write32 _ m p k HP Hp Hr Hal) as (m' & E & HP'). exists m'. split; [done|].
  eapply paint_ext; [exact HP'|]. intros a. unfold ends, interval. lia.
Qed.

(** Two words, and four, stored upwards, that end at the painted back. *)
Lemma back32_2 {A} i j m p q (k : M bytes A) : paint (ends i j) m -> q = p + 4 -> D <= p -> p <= D + N - j <= p + 8 -> p + 8 <= D + N -> p mod 4 = 0 ->
  exists m', (write32 p c32;; write32 q c32;; k) m = k m' /\ paint (ends i (D + N - p)) m'.
Proof.
  intros HP -> Hp Hj Hr Hal.
  destruct (paint_write32 _ m p (write32 (p + 4) c32;; k) HP) as (m1 & E1 & HP1); [lia..|].
  destruct (paint_write32 _ m1 (p + 4) k HP1) as (m2 & E2 & HP2); [lia|lia|by apply (aligned_add 4 p 1)|].
  exists m2. rewrite E1. split; [done|]. eapply paint_ext; [exact HP2|]. intros a. unfold ends, interval. lia.
Qed.

Lemma back32_4 {A} i j m p q1 q2 q3 (k : M bytes A) : paint (ends i j) m -> q1 = p + 4 -> q2 = p + 8 -> q3 = p + 12 -> D <= p -> p + 8 <= D + N - j <= p + 16 ->
  p + 16 <= D + N -> p mod 4 = 0 ->
  exists m', (write32 p c32;; write32 q1 c32;; write32 q2 c32;; write32 q3 c32;; k) m = k m' /\ paint (ends i (D + N - p)) m'.
Proof.
  intros HP -> -> -> Hp Hj Hr Hal.
  destruct (paint_write32 _ m p (write32 (p + 4) c32;; write32 (p + 8) c32;; write32 (p + 12) c32;; k) HP) as (m1 & E1 & HP1); [lia..|].
  destruct (paint_write32 _ m1 (p + 4) (write32 (p + 8) c32;; write32 (p + 12) c32;; k) HP1) as (m2 & E2 & HP2); [lia|lia|by apply (aligned_add 4 p 1)|].
  destruct (paint_write32 _ m2 (p + 8) (write32 (p + 12) c32;; k) HP2) as (m3 & E3 & HP3); [lia|lia|by apply (aligned_add 4 p 2)|].
  destruct (paint_write32 _ m3 (p + 12) k HP3) as (m4 & E4 & HP4); [lia|lia|by apply (aligned_add 4 p 3)|].
  exists m4. rewrite E1, E2, E3. split; [done|]. eapply paint_ext; [exact HP4|]. intros a. unfold ends, interval. lia.
Qed.

(** Thirty-two bytes of the loop. *)
Lemma front256 {A} i j m p (k : M bytes A) : paint (ends i j) m -> D <= p <= D + i -> D + i <= p + 32 -> p + 32 <= D + N -> p mod 8 = 0 ->
  exists m', (write64 (p + 0) c64;; write64 (p + 8) c64;; write64 (p + 16) c64;; write64 (p + 24) c64;; k) m = k m' /\
             paint (ends (p + 32 - D) j) m'.
Proof.
  intros HP Hp Hi Hr Hal.
  destruct (paint_write64 _ m (p + 0) (write64 (p + 8) c64;; write64 (p + 16) c64;; write64 (p + 24) c64;; k) HP) as (m1 & E1 & HP1); [lia|lia|by apply (aligned_add 8 p 0)|].
  destruct (paint_write64 _ m1 (p + 8) (write64 (p + 16) c64;; write64 (p + 24) c64;; k) HP1) as (m2 & E2 & HP2); [lia|lia|by apply (aligned_add 8 p 1)|].
  destruct (paint_write64 _ m2 (p + 16) (write64 (p + 24) c64;; k) HP2) as (m3 & E3 & HP3); [lia|lia|by apply (aligned_add 8 p 2)|].
  destruct (paint_write64 _ m3 (p + 24) k HP3) as (m4 & E4 & HP4); [lia|lia|by apply (aligned_add 8 p 3)|].
  exists m4. rewrite E1, E2, E3. split; [done|]. eapply paint_ext; [exact HP4|]. intros a. unfold ends, interval. lia.
Qed.

(** The loop leaves at most 28 bytes of its region unpainted. *)
Lemma memset_loop_ok fuel : forall i j m s n, paint (ends i j) m -> D <= s <= D + i -> s + n <= D + N -> 0 <= n -> s mod 8 = 0 -> n mod 4 = 0 ->
  D + i <= s + 28 -> n / 32 <= Z.of_nat fuel ->
  exists m' i', memset_loop fuel s n c64 m = Done (tt, m') /\ paint (ends i' j) m' /\ i <= i' /\ s + n - 28 <= D + i'.
Proof.
  induction fuel as [|fuel IH]; intros i j m s n HP Hs Hn H0 Hal Hn4 Hi Hf; cbn [memset_loop].
  - destruct (Z.geb_spec n 32).
    + assert (1 <= n / 32) by (apply Z.div_le_lower_bound; lia). lia.
    + exists m, i. split; [done|]. split; [done|]. split; [lia|]. apply Z.mod_divide in Hn4 as [q ->]; [|lia]. lia.
  - destruct (Z.geb_spec n 32).
    + destruct (front256 i j m s (memset_loop fuel (s + 32) (n - 32) c64) HP) as (m1 & E1 & HP1); [lia..|]. rewrite E1.
      destruct (IH (s + 32 - D) j m1 (s + 32) (n - 32)) as (m' & i' & E' & HP' & Hii & Hfin); [done|lia|lia|lia|..].
      * replace (s + 32) with (s + 4 * 8) by lia. by rewrite Z.mod_add.
      * replace (n - 32) with (n + (-8) * 4) by lia. by rewrite Z.mod_add.
      * lia.
      * replace (n - 32) with (n + (-1) * 32) by lia. rewrite Z.div_add by lia. lia.
      * exists m', i'. split; [done|]. split; [done|]. lia.
    + exists m, i. split; [done|]. split; [done|]. split; [lia|]. apply Z.mod_divide in Hn4 as [q ->]; [|lia]. lia.
Qed.

(** The ends meet. *)
Lemma ends_meet i j m : paint (ends i j) m -> N <= i + j -> paint (interval D N) m.
Proof.
  intros HP Hm. eapply paint_ext; [exact HP|]. intros a. split.
  - intros Ha. destruct HP as (_ & Hi & _). specialize (Hi a Ha). unfold interval. lia.
  - unfold interval, ends. lia.
Qed.

(** [x] returns [r] with the whole region painted. *)
Definition fills {A} (x : M bytes A) (r : A) (m : bytes) : Prop := exists m', x m = Done (r, m') /\ paint (interval D N) m'.

Lemma fills_then {A} (x k : M bytes A) r m (P : bytes -> Prop) :
  (exists m', x m = k m' /\ P m') -> (forall m', P m' -> fills k r m') -> fills x r m.
Proof. intros (m1 & E & HP) HF. destruct (HF m1 HP) as (m' & E' & HP'). exists m'. by rewrite E. Qed.

Lemma fills_ret {A} i j m (r : A) : paint (ends i j) m -> N <= i + j -> fills (mret r) r m.
Proof. intros HP H. exists m. split; [done|]. by eapply ends_meet. Qed.

(** The words of an aligned part of the region that begins and ends within the bytes that
    are painted already. *)
Lemma memset_words_ok i j m s n : paint (ends i j) m -> s mod 4 = 0 -> n mod 4 = 0 -> 4 <= n -> 0 <= i -> 0 <= j ->
  D <= s <= D + i -> D + i <= s + 4 -> s + n <= D + N -> s + n - 4 <= D + N - j <= s + n ->
  fills (memset_words s n c) tt m.
Proof.
  intros HP Hs Hn Hn4 Hi Hj Hs1 Hs2 Hn1 Hn2. unfold memset_words. cbv zeta. fold c32. fold c64.
  pose proof Hn as Hq. apply Z.mod_divide in Hq as [q Hq]; [|lia].
  assert (Al : forall p t, p = s + 4 * t -> p mod 4 = 0) by (intros p t ->; by apply aligned_add).
  eapply fills_then; [eapply (front32 i j m (s + 0)); [exact HP|lia..|apply (Al _ 0); lia]|]. intros m1 HP1.
  eapply fills_then; [eapply (back32_1 (s + 0 + 4 - D) j m1 (s + n - 4)); [exact HP1|lia..|apply (Al _ (q - 1)); lia]|]. intros m2 HP2.
  destruct (Z.leb_spec n 8); [eapply fills_ret; [exact HP2|lia]|].
  eapply fills_then; [eapply (front32 (s + 0 + 4 - D) (D + N - (s + n - 4)) m2 (s + 4)); [exact HP2|lia..|apply (Al _ 1); lia]|]. intros m3 HP3.
  eapply fills_then; [eapply (front32 (s + 4 + 4 - D) (D + N - (s + n - 4)) m3 (s + 8)); [exact HP3|lia..|apply (Al _ 2); lia]|]. intros m4 HP4.
  eapply fills_then; [eapply (back32_2 (s + 8 + 4 - D) (D + N - (s + n - 4)) m4 (s + n - 12) (s + n - 8)); [exact HP4|lia..|apply (Al _ (q - 3)); lia]|]. intros m5 HP5.
  destruct (Z.leb_spec n 24); [eapply fills_ret; [exact HP5|lia]|].
  eapply fills_then; [eapply (front32_4 (s + 8 + 4 - D) (D + N - (s + n - 12)) m5 (s + 12) (s + 16) (s + 20) (s + 24)); [exact HP5|lia..|apply (Al _ 3); lia]|]. intros m6 HP6.
  eapply fills_then; [eapply (back32_4 (s + 12 + 16 - D) (D + N - (s + n - 12)) m6 (s + n - 28) (s + n - 24) (s + n - 20) (s + n - 16)); [exact HP6|lia..|apply (Al _ (q - 7)); lia]|]. intros m7 HP7.
  destruct (memset_start s Hs) as (Hk & Hk8).
  set (k := 24 + Z.land s 4) in *.
  destruct (memset_loop_ok (Z.to_nat (n / 32)) (s + 12 + 16 - D) (D + N - (s + n - 28)) m7 (s + k) (n - k)) as (m' & i' & E & HP' & Hi' & Hfin);
    [exact HP7|lia|lia|lia|done|..].
  - assert (exists t, n - k = n + 4 * t) as [t ->] by (destruct Hk; [exists (-6)|exists (-7)]; lia). by apply aligned_add.
  - lia.
  - rewrite Z2Nat.id by (apply Z.div_pos; lia). apply Z.div_le_mono; lia.
  - exists m'. split; [exact E|]. eapply ends_meet; [exact HP'|]. lia.
Qed.

(** The aligned part. *)
Lemma memset_align : let k := Z.land (- D) 3 in let n := Z.land (N - k) (-4) in
  0 <= k <= 3 /\ (D + k) mod 4 = 0 /\ n mod 4 = 0 /\ N - 3 <= n + k <= N.
Proof.
  intros k n. assert (Ek : k = (- D) mod 4) by (unfold k; change 3 with (Z.ones 2); by rewrite Z.land_ones by lia).
  assert (En : n = (N - k) - (N - k) mod 4).
  { unfold n. change (-4) with (Z.lnot (Z.ones 2)). rewrite <- Z.ldiff_land, Z.ldiff_ones_r by lia.
    rewrite (Z.mod_eq _ 4) by lia. rewrite Z.shiftr_div_pow2, Z.shiftl_mul_pow2 by lia. change (2 ^ 2) with 4. lia. }
  pose proof (Z.mod_pos_bound (- D) 4 ltac:(lia)). pose proof (Z.mod_pos_bound (N - k) 4 ltac:(lia)).
  split; [lia|]. split; [|split; [|lia]].
  - rewrite Ek. rewrite Zplus_mod_idemp_r. by rewrite Z.add_opp_diag_r.
  - rewrite En. rewrite Zminus_mod_idemp_r. by rewrite Z.sub_diag.
Qed.

Lemma memset_ok : 0 <= N -> fills (memset D c N) D m0.
Proof.
  intros H0. unfold memset. cbv zeta.
  assert (HP : paint (ends 0 0) m0) by (eapply paint_ext; [apply paint_0|]; intros a; unfold ends; lia).
  destruct (Z.eqb_spec N 0); [eapply fills_ret; [exact HP|lia]|].
  eapply fills_then; [eapply (back8 0 0); [exact HP|lia..]|]. intros m1 HP1.
  eapply fills_then; [eapply (front8 0 _); [exact HP1|lia..]|]. intros m2 HP2.
  destruct (Z.leb_spec N 2); [eapply fills_ret; [exact HP2|lia]|].
  eapply fills_then; [eapply (back8 (0 + 1) (0 + 1)); [exact HP2|lia..]|]. intros m3 HP3.
  eapply fills_then; [eapply (front8 (0 + 1) _); [exact HP3|lia..]|]. intros m4 HP4.
  eapply fills_then; [eapply (back8 _ (0 + 1 + 1)); [exact HP4|lia..]|]. intros m5 HP5.
  eapply fills_then; [eapply (front8 (0 + 1 + 1) _); [exact HP5|lia..]|]. intros m6 HP6.
  destruct (Z.leb_spec N 6); [eapply fills_ret; [exact HP6|lia]|].
  eapply fills_then; [eapply (back8 _ (0 + 1 + 1 + 1)); [exact HP6|lia..]|]. intros m7 HP7.
  eapply fills_then; [eapply (front8 (0 + 1 + 1 + 1) _); [exact HP7|lia..]|]. intros m8 HP8.
  destruct (Z.leb_spec N 8); [eapply fills_ret; [exact HP8|lia]|].
  destruct memset_align as (Hk & Hs & Hn & Hn'). 
  set (k := Z.land (- D) 3) in *. set (n' := Z.land (N - k) (-4)) in *.
  assert (4 <= n') by (apply Z.mod_divide in Hn as [q Hq]; lia).
  destruct (memset_words_ok _ _ m8 (D + k) n' HP8) as (m' & E & HP'); [done|done|lia..|].
  exists m'. split; [exact (bind_Done _ (fun _ => mret D) m8 tt m' E)|done].
Qed.

End memset.

(** ** Properties *)

(** C32. [memcpy] of [n] bytes between regions that do not overlap returns and is the copy of
    the bytes: whatever the alignments of the two pointers (a copy by words, or by words
    that are put together from two words of the source), no access is unaligned or outside
    the two regions, byte [i] of the destination is byte [i] of the source, and no other
    byte of the memory changes. *)
Theorem memcpy_copies dest src n m :
  0 <= n ->
  (forall i, 0 <= i < n -> exists b, m !! (src + i) = Some b /\ is_byte b) ->
  (forall i, 0 <= i < n -> is_Some (m !! (dest + i))) ->
  dest + n <= src \/ src + n <= dest ->
  exists m', memcpy dest src n m = Done (dest, m') /\
             forall a, m' !! a = if decide (dest <= a < dest + n) then m !! (src + (a - dest)) else m !! a.
Proof. intros Hn Hs Hd Hdis. exact (memcpy_ok m dest src n Hs Hd Hdis Hn). Qed.

(** C33. [memset] returns and sets each byte of the region to the low byte of its argument
    and no other byte: the stores at the two ends, the words and the double words of the
    loop are aligned, stay in the region and leave no gap, for each length and alignment. *)
Theorem memset_fills dest c n m :
  0 <= n -> (forall a, dest <= a < dest + n -> is_Some (m !! a)) ->
  exists m', memset dest c n m = Done (dest, m') /\
             forall a, m' !! a = if decide (dest <= a < dest + n) then Some (c mod 256) else m !! a.
Proof.
  intros Hn Hm. destruct (memset_ok m c dest n Hm Hn) as (m' & E & (HP & _)). exists m'. split; [done|].
  intros a. destruct (HP a) as [H1 H2]. case_decide; [by apply H1|by apply H2].
Qed.

Definition witness_memory : bytes := list_to_map (zip (seqZ 96 80) (seqZ 1 80)).

Lemma witness_memory_byte a : 96 <= a < 176 -> exists b, witness_memory !! a = Some b /\ is_byte b.
Proof.
  intros Ha.
  assert (H : Forall (fun a => Is_true match witness_memory !! a with Some b => (0 <=? b) && (b <? 256) | None => false end) (seqZ 96 80)).
  { apply (bool_decide_unpack _). vm_compute. exact I. }
  rewrite Forall_forall in H. specialize (H a ltac:(apply elem_of_seqZ; lia)).
  destruct (witness_memory !! a) as [b|]; [|done]. exists b. split; [done|]. unfold is_byte. apply Is_true_true_1 in H. lia.
Qed.

Lemma memcpy_copies_witness :
  exists m', memcpy 137 98 35 witness_memory = Done (137, m') /\ m' !! 140 = witness_memory !! 101 /\ m' !! 172 = witness_memory !! 172.
Proof.
  destruct (memcpy_copies 137 98 35 witness_memory) as (m' & E & H); [lia|..|lia|].
  - intros i Hi. apply witness_memory_byte. lia.
  - intros i Hi. destruct (witness_memory_byte (137 + i)) as (b & -> & _); [lia|done].
  - exists m'. split; [exact E|]. clear E. split; rewrite H; [by rewrite decide_True by lia|by rewrite decide_False by lia].
Defined.

Lemma memset_fills_witness :
  exists m', memset 97 300 70 witness_memory = Done (97, m') /\ m' !! 97 = Some 44 /\ m' !! 166 = Some 44 /\ m' !! 167 = witness_memory !! 167.
Proof.
  destruct (memset_fills 97 300 70 witness_memory) as (m' & E & H); [lia|..].
  - intros a Ha. destruct (witness_memory_byte a) as (b & -> & _); [lia|done].
  - exists m'. split; [exact E|]. clear E. split; [|split]; rewrite H; [by rewrite decide_True by lia..|by rewrite decide_False by lia].
Defined.
