(* ===== verification/Boot.v ===== *)
(** * Start of the system

    Models the segments of [kernel/start.c] and the hooks of [kernel/init.c]: the copy of
    the data from read-only memory, the zeroing of the uninitialised data, and
    [run_init_hook], which hook_calls the functions that the files of the kernel register with
    [INIT_HOOK].  The hooks are functions of the whole state, given by [call]; the part of
    the state the file keeps is [last_level]. *)

From S2P Require Import Prelude Bytes BytesProps.

(** ** Hooks *)

Definition INIT_LEVEL_EARLIEST : Z := 1.
Definition INIT_LEVEL_PLATFORM_EARLY : Z := 4096.
Definition INIT_LEVEL_PLATFORM : Z := 8192.
Definition INIT_LEVEL_KERNEL_EARLY : Z := 12288.
Definition INIT_LEVEL_KERNEL : Z := 16384.
Definition INIT_LEVEL_LAST : Z := 4294967295.

Record init_struct := mk_init {
  level : Z;
  hook : Z;
}.

(** [last_level] *)
Record init_state := mk_last { last_level : Z }.

Section hooks.
Context {S : Type} `{!Part init_state S}.
Variable call : Z -> M S unit.

(** The loop over the table from [ptr] on, with [max_called_level]. *)
Fixpoint hook_loop (table : list init_struct) (lvl max_called_level : Z) : M S Z :=
  match table with
  | [] => mret max_called_level
  | ptr :: table =>
      last ← on (gets last_level);
      if (level ptr >? last) && (level ptr <=? lvl) then
        call (hook ptr);;
        hook_loop table lvl (Z.max max_called_level (level ptr))
      else hook_loop table lvl max_called_level
  end.

Definition run_init_hook (table : list init_struct) (lvl : Z) : M S Z :=
  last ← on (gets last_level);
  m ← hook_loop table lvl last;
  on (modify (fun _ => mk_last m));;
  mret m.

(** The calls of [run_init_hook] of [main]. *)
Fixpoint run_levels (table : list init_struct) (levels : list Z) : M S unit :=
  match levels with
  | [] => mret tt
  | l :: levels => run_init_hook table l;; run_levels table levels
  end.

Definition main_levels : list Z :=
  [INIT_LEVEL_PLATFORM_EARLY; INIT_LEVEL_PLATFORM; INIT_LEVEL_KERNEL_EARLY; INIT_LEVEL_KERNEL; INIT_LEVEL_LAST].
End hooks.

(** ** Segments *)

(** [while (dst < dst_end) *dst++ = 0;] *)
Fixpoint zero_loop (fuel : nat) (dst dst_end : Z) : M bytes unit :=
  if dst <? dst_end then
    match fuel with
    | O => fuel_out
    | S fuel' => write32 dst 0;; zero_loop fuel' (dst + 4) dst_end
    end
  else mret tt.

(** [while (dst < dst_end) *dst++ = *src++;] *)
Fixpoint copy_loop (fuel : nat) (src dst dst_end : Z) : M bytes unit :=
  if dst <? dst_end then
    match fuel with
    | O => fuel_out
    | S fuel' => w ← read32 src; write32 dst w;; copy_loop fuel' (src + 4) (dst + 4) dst_end
    end
  else mret tt.

(** As many turns as there are words. *)
Definition turns (dst dst_end : Z) : nat := Z.to_nat ((dst_end - dst + 3) / 4).

Definition init_zero_seg (dst dst_end : Z) : M bytes unit := zero_loop (turns dst dst_end) dst dst_end.
Definition init_copy_seg (src dst dst_end : Z) : M bytes unit := copy_loop (turns dst dst_end) src dst dst_end.

(** The symbols of the linker. *)
Record image := mk_image {
  kernel_text_end : Z;
  kernel_data_start : Z;
  kernel_data_end : Z;
  user_text_flash_start : Z;
  user_text_flash_end : Z;
  user_text_start : Z;
  user_text_end : Z;
  user_data_start : Z;
  user_data_end : Z;
  bss_start : Z;
  bss_end : Z;
  kernel_ahb_start : Z;
  kernel_ahb_end : Z;
  user_bss_start : Z;
  user_bss_end : Z;
}.

(** [__l4_start] between the first hooks and [sys_clock_init]. *)
Definition l4_start_segments (i : image) : M bytes unit :=
  init_copy_seg (kernel_text_end i) (kernel_data_start i) (kernel_data_end i);;
  init_copy_seg (user_text_flash_start i) (user_text_start i) (user_text_end i);;
  init_copy_seg (user_text_flash_end i) (user_data_start i) (user_data_end i);;
  init_zero_seg (bss_start i) (bss_end i);;
  init_zero_seg (kernel_ahb_start i) (kernel_ahb_end i);;
  init_zero_seg (user_bss_start i) (user_bss_end i).

(** ** Hooks: lemmas *)

Lemma filter_ext_elem {A} (P Q : A -> Prop) `{!forall x, Decision (P x)} `{!forall x, Decision (Q x)} (l : list A) :
  (forall x, x ∈ l -> P x <-> Q x) -> filter P l = filter Q l.
Proof.
  induction l as [|x l IH]; intros HE; [done|]. rewrite !filter_cons. rewrite IH by (intros y Hy; apply HE; by right).
  specialize (HE x ltac:(left)). case_decide; case_decide; tauto.
Qed.

Section hook_lemmas.
Context {S : Type} `{!Part init_state S} `{!PartLaws init_state S}.
Variable call : Z -> M S unit.

(** The calls of some hooks, one after the other. *)
Fixpoint hook_calls (hooks : list init_struct) : M S unit :=
  match hooks with
  | [] => mret tt
  | h :: hooks => call (hook h);; hook_calls hooks
  end.

(** Each hook returns, and neither reads nor writes [last_level]. *)
Hypothesis hooks_return : forall h s, exists s', call h s = Done (tt, s').
Hypothesis hooks_frame : forall h s s' (p : init_state), call h s = Done (tt, s') -> call h (put_part p s) = Done (tt, put_part p s').

Lemma hook_keeps_last h s s' : call h s = Done (tt, s') -> get_part (P := init_state) s' = get_part s.
Proof.
  intros E. pose proof (hooks_frame h s s' (get_part s) E) as F. rewrite put_get, E in F. injection F as F. rewrite F. apply get_put.
Qed.

(** The hooks of the table that a call at level [l] runs when the last one was [last]. *)
Definition hooks_due (last l : Z) (table : list init_struct) : list init_struct :=
  filter (fun h => last < level h <= l) table.

(** The highest level called. *)
Definition highest (last : Z) (hooks : list init_struct) : Z := foldl (fun m h => Z.max m (level h)) last hooks.

Lemma calls_return hooks : forall s, exists s', hook_calls hooks s = Done (tt, s').
Proof.
  induction hooks as [|h hooks IH]; intros s; [by exists s|]. cbn [hook_calls]. destruct (hooks_return (hook h) s) as (s1 & E1).
  destruct (IH s1) as (s2 & E2). exists s2. by rewrite (bind_Done _ _ _ _ _ E1).
Qed.

Lemma calls_frame hooks (p : init_state) : forall s s', hook_calls hooks s = Done (tt, s') -> hook_calls hooks (put_part p s) = Done (tt, put_part p s').
Proof.
  induction hooks as [|h hooks IH]; intros s s' E; cbn [hook_calls] in *; [by injection E as <-|].
  destruct (hooks_return (hook h) s) as (s1 & E1). rewrite (bind_Done _ _ _ _ _ E1) in E.
  rewrite (bind_Done _ _ _ _ _ (hooks_frame _ _ _ p E1)). by apply IH.
Qed.

Lemma calls_app h1 h2 s s' : hook_calls h1 s = Done (tt, s') -> hook_calls (h1 ++ h2) s = hook_calls h2 s'.
Proof.
  revert s. induction h1 as [|h h1 IH]; intros s E; cbn [hook_calls app] in *; [by injection E as <-|].
  destruct (hooks_return (hook h) s) as (s1 & E1). rewrite (bind_Done _ _ _ _ _ E1) in E. rewrite (bind_Done _ _ _ _ _ E1). by apply IH.
Qed.

Lemma get_last s : on (P := init_state) (gets last_level) s = Done (last_level (get_part s), s).
Proof. unfold on, zoom, gets. by rewrite put_get. Qed.

Lemma hook_loop_ok table : forall l m s s', hook_calls (hooks_due (last_level (get_part s)) l table) s = Done (tt, s') ->
  hook_loop call table l m s = Done (highest m (hooks_due (last_level (get_part s)) l table), s').
Proof.
  induction table as [|h table IH]; intros l m s s' E; cbn [hook_loop].
  - by injection E as <-.
  - rewrite (bind_Done _ _ _ _ _ (get_last s)). unfold hooks_due in *. rewrite filter_cons in E |- *. set (last := last_level (get_part s)) in *.
    destruct (Z.gtb_spec (level h) last), (Z.leb_spec (level h) l); cbn [andb]; case_decide; try lia; [|by apply IH..].
    cbn [hook_calls] in E. destruct (hooks_return (hook h) s) as (s1 & E1). rewrite (bind_Done _ _ _ _ _ E1) in E. rewrite (bind_Done _ _ _ _ _ E1).
    assert (Hl : last = last_level (get_part s1)) by (unfold last; by rewrite (hook_keeps_last _ _ _ E1)). rewrite Hl in E |- *.
    exact (IH l (Z.max m (level h)) s1 s' E).
Qed.

Lemma highest_bound hooks l : forall m, m <= l -> Forall (fun h => level h <= l) hooks -> m <= highest m hooks <= l /\ Forall (fun h => level h <= highest m hooks) hooks.
Proof.
  induction hooks as [|h hooks IH]; intros m Hm Hh; [by split; [simpl; lia|constructor]|]. apply Forall_cons in Hh as [Hh Hhs].
  unfold highest. cbn [foldl]. fold (highest (Z.max m (level h)) hooks). destruct (IH (Z.max m (level h)) ltac:(lia) Hhs) as [H1 H2].
  split; [lia|]. constructor; [lia|done].
Qed.

(** [run_init_hook] runs the hooks that are due in the order of the table. *)
Lemma run_init_hook_ok table l s : last_level (get_part s) <= l ->
  exists s', hook_calls (hooks_due (last_level (get_part s)) l table) s = Done (tt, s') /\
             run_init_hook call table l s =
               Done (highest (last_level (get_part s)) (hooks_due (last_level (get_part s)) l table),
                     put_part (mk_last (highest (last_level (get_part s)) (hooks_due (last_level (get_part s)) l table))) s').
Proof.
  intros Hl. destruct (calls_return (hooks_due (last_level (get_part s)) l table) s) as (s' & E). exists s'. split; [done|].
  unfold run_init_hook. rewrite (bind_Done _ _ _ _ _ (get_last s)), (bind_Done _ _ _ _ _ (hook_loop_ok table l _ s s' E)). done.
Qed.

(** Between the highest level called and the level of the call there is no hook. *)
Lemma due_highest table last l l' : last <= l -> l <= l' -> hooks_due (highest last (hooks_due last l table)) l' table = hooks_due l l' table.
Proof.
  intros H1 H2. set (hs := hooks_due last l table).
  assert (Hf : Forall (fun h => level h <= l) hs) by (apply Forall_forall; intros h Hh; apply list_elem_of_filter in Hh; lia).
  destruct (highest_bound hs l last H1 Hf) as [Hb Hall]. unfold hooks_due. apply filter_ext_elem. intros h Hh.
  destruct (Z.lt_ge_cases l (level h)) as [|Hle]; [lia|]. split; [|lia]. intros [Hgt _].
  assert (Hin : h ∈ hs) by (apply list_elem_of_filter; split; [lia|done]). rewrite Forall_forall in Hall. specialize (Hall h Hin). lia.
Qed.

(** The hooks of a sequence of calls at ascending levels. *)
Fixpoint stages (last : Z) (levels : list Z) (table : list init_struct) : list init_struct :=
  match levels with
  | [] => []
  | l :: levels => hooks_due last l table ++ stages l levels table
  end.

Fixpoint ascending (last : Z) (levels : list Z) : Prop :=
  match levels with [] => True | l :: levels => last <= l /\ ascending l levels end.

(** Two levels between which no hook of the table lies. *)
Definition same_stage (table : list init_struct) (a b : Z) : Prop := a <= b /\ forall l, b <= l -> hooks_due a l table = hooks_due b l table.

Lemma run_levels_ok table levels : forall last s s1, same_stage table (last_level (get_part s)) last -> ascending last levels ->
  hook_calls (stages last levels table) s = Done (tt, s1) -> exists p, run_levels call table levels s = Done (tt, put_part (P := init_state) p s1).
Proof.
  induction levels as [|l levels IH]; intros last s s1 [Hle Hsame] Hasc E; cbn [run_levels stages ascending] in *.
  - injection E as <-. exists (get_part s). by rewrite put_get.
  - destruct Hasc as [Hl Hasc]. rewrite <- Hsame in E by done. set (a := last_level (get_part s)) in *.
    destruct (run_init_hook_ok table l s ltac:(lia)) as (s2 & E2 & Er). fold a in E2, Er. rewrite (bind_Done _ _ _ _ _ Er).
    rewrite (calls_app _ _ _ _ E2) in E. set (q := mk_last (highest a (hooks_due a l table))) in *.
    destruct (IH l (put_part q s2) (put_part q s1)) as (p & Ep).
    + rewrite get_put. split; [|intros l' Hl'; cbn [last_level q]; apply due_highest; lia].
      cbn [last_level q]. apply highest_bound; [lia|]. apply Forall_forall. intros h Hh. apply list_elem_of_filter in Hh. lia.
    + done.
    + by apply calls_frame.
    + exists p. rewrite Ep. by rewrite put_put.
Qed.

(** The last level of the calls. *)
Definition final (last : Z) (levels : list Z) : Z := foldl (fun _ l => l) last levels.

Lemma ascending_final levels : forall last, ascending last levels -> last <= final last levels.
Proof. induction levels as [|l levels IH]; intros last H; cbn [ascending] in *; [done|]. unfold final. cbn [foldl]. specialize (IH l ltac:(apply H)). unfold final in IH. lia. Qed.

Lemma hooks_due_split table a b c : a <= b <= c -> hooks_due a b table ++ hooks_due b c table ≡ₚ hooks_due a c table.
Proof.
  intros H. unfold hooks_due. induction table as [|h table IH]; [done|]. rewrite !filter_cons.
  destruct (decide (a < level h <= b)), (decide (b < level h <= c)), (decide (a < level h <= c)); try lia;
    cbn [app]; rewrite <- ?Permutation_middle; by rewrite IH.
Qed.

(** Each hook up to the last level is in exactly one stage. *)
Lemma stages_perm table levels : forall last, ascending last levels -> stages last levels table ≡ₚ hooks_due last (final last levels) table.
Proof.
  induction levels as [|l levels IH]; intros last Hasc; cbn [stages ascending] in *.
  - unfold hooks_due, final. cbn [foldl]. induction table as [|h table IH]; [done|]. rewrite filter_cons_False by lia. done.
  - destruct Hasc as [Hl Hasc]. rewrite IH by done. unfold final. cbn [foldl]. apply hooks_due_split.
    pose proof (ascending_final levels l Hasc). unfold final in *. lia.
Qed.
End hook_lemmas.

(** ** Segments: lemmas *)

Lemma turns_words k dst : 0 <= k -> turns dst (dst + 4 * k) = Z.to_nat k.
Proof. intros Hk. unfold turns. f_equal. symmetry. apply (Z.div_unique _ _ _ 3); lia. Qed.

Lemma zero_loop_ok k : forall m dst, is_bytes m dst (4 * Z.of_nat k) -> dst mod 4 = 0 ->
  exists m', zero_loop k dst (dst + 4 * Z.of_nat k) m = Done (tt, m') /\
             forall a, m' !! a = if decide (dst <= a < dst + 4 * Z.of_nat k) then Some 0 else m !! a.
Proof.
  induction k as [|k IH]; intros m dst Hm Hal; cbn [zero_loop].
  - destruct (Z.ltb_spec dst (dst + 4 * Z.of_nat 0)); [lia|]. exists m. split; [done|]. intros a. by rewrite decide_False by lia.
  - destruct (Z.ltb_spec dst (dst + 4 * Z.of_nat (S k))); [|lia].
    rewrite (bind_Done _ _ _ _ _ (write32_word dst m 0 0 0 0 Hal ltac:(intros x Hx; apply Hm; lia) ltac:(done) ltac:(done) ltac:(done) ltac:(done))).
    set (m1 := <[dst + 3 := 0]> _). destruct (IH m1 (dst + 4)) as (m' & E & H').
    + intros x Hx. unfold m1. rewrite !lookup_insert_ne by lia. apply Hm. lia.
    + by apply (aligned_add 4 dst 1).
    + exists m'. replace (dst + 4 * Z.of_nat (S k)) with (dst + 4 + 4 * Z.of_nat k) by lia. split; [done|]. intros a. rewrite H'. unfold m1.
      rewrite !lookup_insert. repeat case_decide; try lia; done.
Qed.

(** What is in [ROM] at [src] is at [dst], and nothing else changes. *)
Definition loaded (src dst n : Z) (m m' : bytes) : Prop :=
  forall a, m' !! a = if decide (dst <= a < dst + n) then m !! (src + (a - dst)) else m !! a.

Lemma copy_loop_ok k : forall m src dst, is_bytes m src (4 * Z.of_nat k) -> is_bytes m dst (4 * Z.of_nat k) ->
  src mod 4 = 0 -> dst mod 4 = 0 -> dst + 4 * Z.of_nat k <= src \/ src + 4 * Z.of_nat k <= dst ->
  exists m', copy_loop k src dst (dst + 4 * Z.of_nat k) m = Done (tt, m') /\ loaded src dst (4 * Z.of_nat k) m m'.
Proof.
  induction k as [|k IH]; intros m src dst Hs Hd Hals Hald Hdis; cbn [copy_loop].
  - destruct (Z.ltb_spec dst (dst + 4 * Z.of_nat 0)); [lia|]. exists m. split; [done|]. intros a. by rewrite decide_False by lia.
  - destruct (Z.ltb_spec dst (dst + 4 * Z.of_nat (S k))); [|lia].
    destruct (Hs src ltac:(lia)) as (b0 & B0 & ?), (Hs (src + 1) ltac:(lia)) as (b1 & B1 & ?), (Hs (src + 2) ltac:(lia)) as (b2 & B2 & ?), (Hs (src + 3) ltac:(lia)) as (b3 & B3 & ?).
    rewrite (bind_Done _ _ _ _ _ (read32_ok src m _ _ _ _ Hals B0 B1 B2 B3)).
    rewrite (bind_Done _ _ _ _ _ (write32_word dst m b0 b1 b2 b3 Hald ltac:(intros x Hx; apply Hd; lia) ltac:(done) ltac:(done) ltac:(done) ltac:(done))).
    set (m1 := <[dst + 3 := b3]> _). destruct (IH m1 (src + 4) (dst + 4)) as (m' & E & H').
    + intros x Hx. unfold m1. rewrite !lookup_insert_ne by lia. apply Hs. lia.
    + intros x Hx. unfold m1. rewrite !lookup_insert_ne by lia. apply Hd. lia.
    + by apply (aligned_add 4 src 1).
    + by apply (aligned_add 4 dst 1).
    + lia.
    + exists m'. replace (dst + 4 * Z.of_nat (S k)) with (dst + 4 + 4 * Z.of_nat k) by lia. split; [done|]. intros a. rewrite H'. unfold m1.
      rewrite !lookup_insert. repeat case_decide; try lia; rewrite <- ?B0, <- ?B1, <- ?B2, <- ?B3; f_equal; lia.
Qed.

(** A segment of whole, aligned words that holds bytes. *)
Definition segment (m : bytes) (a b : Z) : Prop := a mod 4 = 0 /\ (b - a) mod 4 = 0 /\ a <= b /\ is_bytes m a (b - a).

Lemma segment_words m a b : segment m a b -> exists k, b = a + 4 * Z.of_nat k /\ a mod 4 = 0 /\ is_bytes m a (4 * Z.of_nat k) /\ turns a b = k.
Proof.
  intros (Ha & Hn & Hle & Hm). apply Z.mod_divide in Hn as [q Hq]; [|lia]. exists (Z.to_nat q).
  assert (b = a + 4 * q) as -> by lia. rewrite Z2Nat.id by lia. split; [done|]. split; [done|].
  split; [by replace (a + 4 * q - a) with (4 * q) in Hm by lia|]. apply turns_words. lia.
Qed.

(** Changes that keep bytes. *)
Lemma segment_kept m m' a b : (forall x, m' !! x = m !! x \/ exists y, is_byte y /\ m' !! x = Some y) -> segment m a b -> segment m' a b.
Proof.
  intros H (Ha & Hn & Hle & Hm). split_and!; [done..|]. intros x Hx. destruct (H x) as [->|(y & Hy & ->)]; [by apply Hm|by exists y].
Qed.

Lemma init_zero_seg_ok m a b : segment m a b ->
  exists m', init_zero_seg a b m = Done (tt, m') /\ (forall x, m' !! x = if decide (a <= x < b) then Some 0 else m !! x) /\
             forall c d, segment m c d -> segment m' c d.
Proof.
  intros Hs. destruct (segment_words _ _ _ Hs) as (k & -> & Hal & Hm & Ht). destruct (zero_loop_ok k m a Hm Hal) as (m' & E & H').
  exists m'. unfold init_zero_seg. rewrite Ht. split; [done|]. split; [done|]. intros c d. apply segment_kept.
  intros x. rewrite H'. case_decide; [right; by exists 0|by left].
Qed.

Lemma init_copy_seg_ok m src a b : segment m a b -> segment m src (src + (b - a)) -> b <= src \/ src + (b - a) <= a ->
  exists m', init_copy_seg src a b m = Done (tt, m') /\ loaded src a (b - a) m m' /\ forall c d, segment m c d -> segment m' c d.
Proof.
  intros Hs Hsrc Hd. destruct (segment_words _ _ _ Hs) as (k & -> & Hal & Hm & Ht).
  replace (a + 4 * Z.of_nat k - a) with (4 * Z.of_nat k) in * by lia. destruct Hsrc as (Hal' & _ & _ & Hm').
  replace (src + 4 * Z.of_nat k - src) with (4 * Z.of_nat k) in * by lia.
  destruct (copy_loop_ok k m src a Hm' Hm Hal' Hal ltac:(lia)) as (m' & E & H'). exists m'. unfold init_copy_seg. rewrite Ht. split; [done|].
  split; [done|]. intros c d. apply segment_kept. intros x. rewrite H'. case_decide; [|by left].
  destruct (Hm' (src + (x - a)) ltac:(lia)) as (y & -> & Hy). right. by exists y.
Qed.

(** Regions of which no two overlap. *)
Fixpoint separate (rs : list (Z * Z)) : Prop :=
  match rs with
  | [] => True
  | (a, b) :: rs => foldr (fun r P => (b <= r.1 \/ r.2 <= a) /\ P) True rs /\ separate rs
  end.

(** The regions in read-only memory and in memory. *)
Definition rom_regions (i : image) : list (Z * Z) :=
  [(kernel_text_end i, kernel_text_end i + (kernel_data_end i - kernel_data_start i));
   (user_text_flash_start i, user_text_flash_start i + (user_text_end i - user_text_start i));
   (user_text_flash_end i, user_text_flash_end i + (user_data_end i - user_data_start i))].
Definition ram_regions (i : image) : list (Z * Z) :=
  [(kernel_data_start i, kernel_data_end i); (user_text_start i, user_text_end i); (user_data_start i, user_data_end i);
   (bss_start i, bss_end i); (kernel_ahb_start i, kernel_ahb_end i); (user_bss_start i, user_bss_end i)].

(** The memory a program expects at [main]. *)
Definition started (i : image) (m : bytes) (a : Z) : option Z :=
  if decide (kernel_data_start i <= a < kernel_data_end i) then m !! (kernel_text_end i + (a - kernel_data_start i))
  else if decide (user_text_start i <= a < user_text_end i) then m !! (user_text_flash_start i + (a - user_text_start i))
  else if decide (user_data_start i <= a < user_data_end i) then m !! (user_text_flash_end i + (a - user_data_start i))
  else if decide (bss_start i <= a < bss_end i \/ kernel_ahb_start i <= a < kernel_ahb_end i \/ user_bss_start i <= a < user_bss_end i) then Some 0
  else m !! a.

(** ** Properties *)

(** C28. The start-up code loads the image: the initialised data of the kernel and the text
    and data of the user programs are those of the read-only memory, the three regions of
    uninitialised data are zero, and nothing else changes, for an image whose regions are
    whole aligned words and do not overlap. *)
Theorem l4_start_loads i m :
  separate (rom_regions i ++ ram_regions i) -> Forall (fun r => segment m r.1 r.2) (rom_regions i ++ ram_regions i) ->
  exists m', l4_start_segments i m = Done (tt, m') /\ forall a, m' !! a = started i m a.
Proof.
  intros Hsep Hseg. cbn in Hsep. unfold rom_regions, ram_regions in Hseg. cbn [app] in Hseg. rewrite !Forall_cons in Hseg. cbn [fst snd] in Hseg.
  destruct Hseg as (R1 & R2 & R3 & K & T & D & B & A & U & _).
  destruct Hsep as ((R1R2 & R1R3 & R1K & R1T & R1D & R1B & R1A & R1U & _) & (R2R3 & R2K & R2T & R2D & R2B & R2A & R2U & _) & (R3K & R3T & R3D & R3B & R3A & R3U & _) & (KT & KD & KB & KA & KU & _) & (TD & TB & TA & TU & _) & (DB & DA & DU & _) & (BA & BU & _) & (AU & _) & _).
  unfold l4_start_segments.
  destruct (init_copy_seg_ok m _ _ _ K R1 ltac:(clear -R1K; lia)) as (m1 & E1 & L1 & S1). rewrite (bind_Done _ _ _ _ _ E1).
  destruct (init_copy_seg_ok m1 _ _ _ (S1 _ _ T) (S1 _ _ R2) ltac:(clear -R2T; lia)) as (m2 & E2 & L2 & S2). rewrite (bind_Done _ _ _ _ _ E2).
  destruct (init_copy_seg_ok m2 _ _ _ (S2 _ _ (S1 _ _ D)) (S2 _ _ (S1 _ _ R3)) ltac:(clear -R3D; lia)) as (m3 & E3 & L3 & S3). rewrite (bind_Done _ _ _ _ _ E3).
  destruct (init_zero_seg_ok m3 _ _ (S3 _ _ (S2 _ _ (S1 _ _ B)))) as (m4 & E4 & L4 & S4). rewrite (bind_Done _ _ _ _ _ E4).
  destruct (init_zero_seg_ok m4 _ _ (S4 _ _ (S3 _ _ (S2 _ _ (S1 _ _ A))))) as (m5 & E5 & L5 & S5). rewrite (bind_Done _ _ _ _ _ E5).
  destruct (init_zero_seg_ok m5 _ _ (S5 _ _ (S4 _ _ (S3 _ _ (S2 _ _ (S1 _ _ U)))))) as (m6 & E6 & L6 & _). exists m6. split; [exact E6|].
  clear E1 E2 E3 E4 E5 E6 S1 S2 S3 S4 S5. intros a. rewrite L6, L5, L4, L3. unfold started.
  replace (user_data_start i + (user_data_end i - user_data_start i)) with (user_data_end i) by (clear; lia).
  destruct (decide (kernel_data_start i <= a < kernel_data_end i)) as [Ha|HK].
  { rewrite !(decide_False (P := _ <= a < _)) by (clear -Ha KT KD KB KA KU; lia). rewrite L2, decide_False by (clear -Ha KT; lia).
    by rewrite L1, decide_True by (clear -Ha; lia). }
  destruct (decide (user_text_start i <= a < user_text_end i)) as [Ha|HT].
  { rewrite !(decide_False (P := _ <= a < _)) by (clear -Ha KT TD TB TA TU; lia). rewrite L2, decide_True by (clear -Ha; lia).
    by rewrite L1, decide_False by (clear -Ha R2K; lia). }
  destruct (decide (user_data_start i <= a < user_data_end i)) as [Ha|HD].
  { rewrite !(decide_False (P := _ <= a < _)) by (clear -Ha KD TD DB DA DU; lia). rewrite L2, decide_False by (clear -Ha R3T; lia).
    by rewrite L1, decide_False by (clear -Ha R3K; lia). }
  assert (H2 : m2 !! a = m !! a).
  { rewrite L2, decide_False by (clear -HT; lia). by rewrite L1, decide_False by (clear -HK; lia). }
  rewrite H2. clear -HD. repeat case_decide; try done; exfalso; lia.
Qed.

(** At ascending levels from [last_level] on, [run_init_hook] calls each hook of the
    table up to the last level exactly once: one stage after the other and within a stage
    in the order of the table. *)
Theorem run_init_hook_once {S} `{!Part init_state S} `{!PartLaws init_state S} (call : Z -> M S unit) table levels s :
  (forall h s, exists s', call h s = Done (tt, s')) ->
  (forall h s s' (p : init_state), call h s = Done (tt, s') -> call h (put_part p s) = Done (tt, put_part p s')) ->
  ascending (last_level (get_part s)) levels ->
  exists s1 p, hook_calls call (stages (last_level (get_part s)) levels table) s = Done (tt, s1) /\
               run_levels call table levels s = Done (tt, put_part (P := init_state) p s1) /\
               stages (last_level (get_part s)) levels table ≡ₚ
                 filter (fun h => last_level (get_part s) < level h <= final (last_level (get_part s)) levels) table.
Proof.
  intros Hr Hf Ha. destruct (calls_return call Hr (stages (last_level (get_part s)) levels table) s) as (s1 & E).
  destruct (run_levels_ok call Hr Hf table levels _ s s1 ltac:(by split) Ha E) as (p & Ep). exists s1, p. split; [done|]. split; [done|].
  by apply stages_perm.
Qed.

(** *** Witnesses *)

(** Hooks that log themselves. *)
Definition witness_hooks : Type := init_state * list Z.
#[global] Instance witness_hooks_part : Part init_state witness_hooks := {| get_part s := s.1; put_part p s := (p, s.2) |}.
#[global] Instance witness_hooks_laws : PartLaws init_state witness_hooks.
Proof. split; [done|by intros [??]|done]. Qed.
Definition log_hook (h : Z) : M witness_hooks unit := modify (fun s => (s.1, s.2 ++ [h])).

Definition witness_hooks_table : list init_struct :=
  [mk_init INIT_LEVEL_PLATFORM 1; mk_init INIT_LEVEL_KERNEL 2; mk_init INIT_LEVEL_KERNEL_EARLY 3; mk_init INIT_LEVEL_KERNEL 4].

Lemma run_init_hook_once_witness :
  exists s1 p, hook_calls log_hook (stages 0 main_levels witness_hooks_table) (mk_last 0, []) = Done (tt, s1) /\
               run_levels log_hook witness_hooks_table main_levels (mk_last 0, []) = Done (tt, put_part (P := init_state) p s1) /\ s1.2 = [1; 3; 2; 4].
Proof.
  destruct (run_init_hook_once log_hook witness_hooks_table main_levels (mk_last 0, [])) as (s1 & p & E1 & E2 & _).
  - intros h s. by eexists.
  - intros h s s' p E. injection E as <-. done.
  - simpl. unfold INIT_LEVEL_PLATFORM_EARLY, INIT_LEVEL_PLATFORM, INIT_LEVEL_KERNEL_EARLY, INIT_LEVEL_KERNEL, INIT_LEVEL_LAST. lia.
  - exists s1, p. split; [exact E1|]. split; [exact E2|]. change (stages _ _ _) with [mk_init INIT_LEVEL_PLATFORM 1; mk_init INIT_LEVEL_KERNEL_EARLY 3; mk_init INIT_LEVEL_KERNEL 2; mk_init INIT_LEVEL_KERNEL 4] in E1.
    injection E1 as <-. done.
Defined.

Definition witness_image : image := mk_image 100 200 208 108 116 208 216 216 224 224 232 232 232 232 236.
Definition witness_rom : bytes := list_to_map (zip (seqZ 100 140) (seqZ 1 140)).

Lemma l4_start_loads_witness :
  exists m', l4_start_segments witness_image witness_rom = Done (tt, m') /\ m' !! 203 = Some 4 /\ m' !! 217 = Some 18 /\ m' !! 230 = Some 0.
Proof.
  destruct (l4_start_loads witness_image witness_rom) as (m' & E & H).
  - cbn. lia.
  - assert (Hb : forall a n, 100 <= a -> a + n <= 240 -> is_bytes witness_rom a n).
    { intros a n Ha Hn x Hx. exists (x - 99). unfold is_byte. split; [|lia]. apply elem_of_list_to_map_1'; [intros y Hy|].
      - apply list_elem_of_lookup in Hy as [j Hj]. apply lookup_zip_with_Some in Hj as (u & v & E & Hu & Hv).
        apply lookup_seqZ in Hu as [-> _], Hv as [-> _]. injection E as E1 E2. lia.
      - apply list_elem_of_lookup. exists (Z.to_nat (x - 100)). apply lookup_zip_with_Some. exists x, (x - 99).
        split; [done|]. split; apply lookup_seqZ; lia. }
    unfold rom_regions, ram_regions. cbn [app]. rewrite !Forall_cons. split_and!; try (split_and!; [reflexivity|reflexivity|cbn; lia|apply Hb; cbn; lia]). constructor.
  - exists m'. split; [exact E|]. clear E. rewrite !H. split_and!; reflexivity.
Defined.
