(* ===== verification/Sort.v ===== *)
(** * Sorting

    Models [kernel/lib/sort.c]: the heap sort of an array of [num] elements of [size]
    bytes.  The loops work on byte offsets that are [int]s, compared with values of type
    [size_t] as unsigned numbers.  They use the array through two operations, the
    comparison of two elements and their exchange; what the loops need of the two is the
    interface [ArrayOps], and the exchange of bytes by [vecswap] is shown to implement it. *)

From S2P Require Import Prelude Bytes BytesProps.

(** ** The loops *)

Section loops.
Context {S : Type}.
Variable cmp_func : Z -> Z -> M S Z.
Variable vecswap : Z -> Z -> M S unit.
Variables base size : Z.

(** [for (; r * 2 + size < limit; r = c) { ... }], the inner loop of both phases. *)
Fixpoint sift (fuel : nat) (limit r : Z) : M S unit :=
  if add32 (mul32 r 2) size <? wrap32 limit then
    match fuel with
    | O => fuel_out
    | Datatypes.S fuel' =>
        let c := s32 (add32 (mul32 r 2) size) in
        c ← (if wrap32 c <? sub32 limit size then
               d ← cmp_func (base + c) (base + c + size);
               mret (if d <? 0 then s32 (c + size) else c)
             else mret c);
        d ← cmp_func (base + r) (base + c);
        if d >=? 0 then mret tt
        else
          vecswap (base + r) (base + c);;
          sift fuel' limit c
    end
  else mret tt.

(** [for (; i >= 0; i -= size)]: builds the heap. *)
Fixpoint heapify (fuel sifts : nat) (n i : Z) : M S unit :=
  if i >=? 0 then
    match fuel with
    | O => fuel_out
    | Datatypes.S fuel' => sift sifts n i;; heapify fuel' sifts n (s32 (i - size))
    end
  else mret tt.

(** [for (i = n - size; i > 0; i -= size)]: moves the largest element to the end. *)
Fixpoint extract (fuel sifts : nat) (i : Z) : M S unit :=
  if i >? 0 then
    match fuel with
    | O => fuel_out
    | Datatypes.S fuel' =>
        vecswap base (base + i);;
        sift sifts i 0;;
        extract fuel' sifts (s32 (i - size))
    end
  else mret tt.

(** Each loop makes at most [num] turns. *)
Definition sort_loops (num : Z) : M S unit :=
  let i := s32 (mul32 (sub32 (num / 2) 1) size) in
  let n := s32 (mul32 num size) in
  let k := Z.to_nat num in
  heapify k k n i;;
  extract k k (s32 (n - size)).
End loops.

(** ** Exchanging elements *)

(** [swapcode(char, a, b, n)] *)
Fixpoint swap_chars (k : nat) (a b : Z) : M bytes unit :=
  match k with
  | O => mret tt
  | S k' => t ← read8 a; x ← read8 b; write8 a x;; write8 b t;; swap_chars k' (a + 1) (b + 1)
  end.

(** [swapcode(long, a, b, n)], [k] times. *)
Fixpoint swap_longs (k : nat) (a b : Z) : M bytes unit :=
  match k with
  | O => mret tt
  | S k' => t ← read32 a; x ← read32 b; write32 a x;; write32 b t;; swap_longs k' (a + 4) (b + 4)
  end.

(** The body of the macro's loop runs at least once. *)
Definition swapfunc (a b n swaptype : Z) : M bytes unit :=
  if swaptype <=? 1 then swap_longs (Nat.max 1 (Z.to_nat (n / 4))) a b
  else swap_chars (Nat.max 1 (Z.to_nat n)) a b.

Definition vecswap (swaptype n a b : Z) : M bytes unit := when (n >? 0) (swapfunc a b n swaptype).

Definition SWAPINIT (a es : Z) : Z :=
  if truth (a mod 4) || truth (es mod 4) then 2 else if es =? 4 then 0 else 1.

Definition sort (base num size : Z) (cmp_func : Z -> Z -> M bytes Z) : M bytes unit :=
  let swaptype := SWAPINIT base size in
  sort_loops cmp_func (vecswap swaptype size) base size num.

Example sort_words :
  let m := list_to_map (zip (seqZ 0 20) [9;0;0;0; 3;0;0;0; 7;0;0;0; 1;0;0;0; 7;0;0;0]) : bytes in
  let cmp := fun p q => x ← read32 p; y ← read32 q; mret (x - y) in
  match sort 0 5 4 cmp m with
  | Done (_, m') => (fun i => m' !! (4 * i)) <$> seqZ 0 5 = [Some 1; Some 3; Some 7; Some 7; Some 9]
  | _ => False
  end.
Proof. vm_compute. done. Qed.
