(* ===== verification/SortProps.v ===== *)
(** * Sorting: correctness

    Heaps in lists, the loops of [sort] against the interface of an array, and the
    exchange of bytes as an implementation of it. *)

From S2P Require Import Prelude Bytes BytesProps Sort.

Open Scope nat_scope.

(** ** Heaps *)

Section heaps.
Context {A : Type} `{!Inhabited A}.

Definition swap (i j : nat) (l : list A) : list A := <[j := l !!! i]> (<[i := l !!! j]> l).

Lemma length_swap i j l : length (swap i j l) = length l.
Proof. unfold swap. by rewrite !length_insert. Qed.

Lemma swap_left i j l : i < length l -> i <> j -> swap i j l !!! i = l !!! j.
Proof. intros Hi Hj. unfold swap. rewrite list_lookup_total_insert_ne by done. by apply list_lookup_total_insert_eq. Qed.

Lemma swap_right i j l : j < length l -> swap i j l !!! j = l !!! i.
Proof. intros Hj. unfold swap. apply list_lookup_total_insert_eq. by rewrite length_insert. Qed.

Lemma swap_other i j k l : k <> i -> k <> j -> swap i j l !!! k = l !!! k.
Proof. intros Hi Hj. unfold swap. by rewrite !list_lookup_total_insert_ne by done. Qed.

Lemma lookup_lookup_total' (l : list A) i : i < length l -> l !! i = Some (l !!! i).
Proof. intros H. by apply list_lookup_lookup_total_lt. Qed.

Lemma swap_perm i j l : i < length l -> j < length l -> swap i j l ≡ₚ l.
Proof. intros Hi Hj. unfold swap. apply Permutation_insert_swap; by apply lookup_lookup_total'. Qed.

Lemma swap_take n i j l : i < n -> j < n -> n <= length l -> take n (swap i j l) = swap i j (take n l).
Proof.
  intros Hi Hj Hn. unfold swap. rewrite !take_insert_lt by done. by rewrite !lookup_total_take_lt by done.
Qed.

Lemma swap_drop n i j l : i < n -> j < n -> drop n (swap i j l) = drop n l.
Proof. intros Hi Hj. unfold swap. by rewrite !drop_insert_lt by done. Qed.

(** [l'] is [l] with its first [n] elements rearranged. *)
Definition rearranged (n : nat) (l l' : list A) : Prop := take n l' ≡ₚ take n l /\ drop n l' = drop n l.

Lemma rearranged_refl n l : rearranged n l l.
Proof. done. Qed.

Lemma rearranged_trans n l1 l2 l3 : rearranged n l1 l2 -> rearranged n l2 l3 -> rearranged n l1 l3.
Proof. intros [H1 H2] [H3 H4]. split; [by rewrite H3|by rewrite H4]. Qed.

Lemma rearranged_swap n i j l : i < n -> j < n -> n <= length l -> rearranged n l (swap i j l).
Proof.
  intros Hi Hj Hn. split; [|by apply swap_drop]. rewrite swap_take by done. apply swap_perm; rewrite length_take; lia.
Qed.

Lemma rearranged_perm n l l' : rearranged n l l' -> l' ≡ₚ l.
Proof. intros [H1 H2]. by rewrite <- (take_drop n l'), H1, H2, take_drop. Qed.

Lemma rearranged_length n l l' : rearranged n l l' -> length l' = length l.
Proof. intros H. apply rearranged_perm in H. by rewrite H. Qed.

Lemma rearranged_high n l l' i : rearranged n l l' -> n <= i -> l' !!! i = l !!! i.
Proof.
  intros [_ H] Hi. replace i with (n + (i - n)) by lia. by rewrite <- !lookup_total_drop, H.
Qed.

Lemma rearranged_low n l l' i : rearranged n l l' -> n <= length l -> i < n -> exists j, j < n /\ l' !!! i = l !!! j.
Proof.
  intros H Hn Hi. pose proof (rearranged_length _ _ _ H) as Hlen. destruct H as [H _].
  assert (Hin : (l' !!! i) ∈ take n l).
  { rewrite <- H. apply list_elem_of_lookup. exists i. rewrite lookup_take_lt by done. apply lookup_lookup_total'. lia. }
  apply list_elem_of_lookup in Hin as [j Hj]. apply lookup_take_Some in Hj as [Hj Hjn]. exists j. split; [done|].
  symmetry. by apply list_lookup_total_correct.
Qed.

Variable ge : A -> A -> Prop.
Hypothesis ge_trans : forall x y z, ge x y -> ge y z -> ge x z.
Hypothesis ge_refl : forall x, ge x x.

Definition child (i j : nat) : Prop := j = 2 * i + 1 \/ j = 2 * i + 2.

(** The parents from [k] on are not smaller than their children below [n]. *)
Definition heap (k n : nat) (l : list A) : Prop := forall i j, k <= i -> child i j -> j < n -> ge (l !!! i) (l !!! j).

(** The same with the exception of the element [r], whose parent is not smaller than its
    children. *)
Definition heap_but (k n r : nat) (l : list A) : Prop :=
  (forall i j, k <= i -> i <> r -> child i j -> j < n -> ge (l !!! i) (l !!! j)) /\
  (forall q j, k <= q -> child q r -> child r j -> j < n -> ge (l !!! q) (l !!! j)).

Lemma heap_but_heap k n r l : heap_but k n r l -> (forall j, child r j -> j < n -> ge (l !!! r) (l !!! j)) -> heap k n l.
Proof. intros [H1 _] H2 i j Hk Hc Hj. destruct (decide (i = r)) as [->|]; [by apply H2|by apply H1]. Qed.

Lemma heap_but_swap k n r c l : heap_but k n r l -> child r c -> c < n -> n <= length l -> ge (l !!! c) (l !!! r) ->
  (forall j, child r j -> j < n -> ge (l !!! c) (l !!! j)) -> heap_but k n c (swap r c l).
Proof.
  unfold heap_but, child. intros [H1 H2] Hc Hcn Hn Hge Hbig. split.
  - intros i j Hk Hi Hij Hj. destruct (decide (i = r)) as [->|Hir].
    + rewrite swap_left by lia. destruct (decide (j = c)) as [->|Hjc]; [by rewrite swap_right by lia|].
      rewrite swap_other by lia. by apply Hbig.
    + rewrite (swap_other r c i) by done. destruct (decide (j = r)) as [->|Hjr].
      * rewrite swap_left by lia. by apply H2.
      * rewrite swap_other by lia. by apply H1.
  - intros q j Hk Hq Hcj Hj. assert (q = r) as -> by lia. rewrite swap_left, swap_other by lia. apply H1; [lia|lia|done|done].
Qed.

Lemma heap_root n l j : heap 0 n l -> j < n -> ge (l !!! 0) (l !!! j).
Proof.
  intros H. induction j as [j IH] using lt_wf_ind. intros Hj. destruct j as [|j]; [apply ge_refl|].
  apply (ge_trans _ (l !!! (j / 2))).
  - apply IH; pose proof (Nat.Div0.div_le_upper_bound j 2 j); lia.
  - apply H; [lia| |done]. pose proof (Nat.div_mod j 2). pose proof (Nat.mod_upper_bound j 2). unfold child. lia.
Qed.

(** From the index [i] on, each element is not smaller than those before it. *)
Definition sorted_from (i : nat) (l : list A) : Prop := forall a b, a < b -> b < length l -> i <= b -> ge (l !!! b) (l !!! a).

(** One turn of the second phase. *)
Lemma heap_but_exchange i l : heap 0 (S i) l -> i < length l -> heap_but 0 i 0 (swap 0 i l).
Proof.
  unfold heap, heap_but, child. intros H Hi. split; [|lia]. intros p j _ Hp Hc Hj. rewrite !swap_other by lia. apply H; lia.
Qed.

Lemma sorted_from_exchange i l : heap 0 (S i) l -> sorted_from (S i) l -> i < length l -> sorted_from i (swap 0 i l).
Proof.
  intros Hh Hs Hi a b Hab Hb Hib. rewrite length_swap in Hb. destruct (decide (b = i)) as [->|Hbi].
  - rewrite swap_right by done. destruct (decide (a = 0)) as [->|Ha].
    + rewrite swap_left by lia. apply (heap_root (S i)); [done|lia].
    + rewrite swap_other by lia. apply (heap_root (S i)); [done|lia].
  - rewrite (swap_other 0 i b) by lia. destruct (decide (a = i)) as [->|Hai]; [rewrite swap_right by done; apply Hs; lia|].
    destruct (decide (a = 0)) as [->|Ha]; [|rewrite swap_other by done; apply Hs; lia].
    rewrite swap_left by lia. apply Hs; lia.
Qed.

Lemma sorted_from_rearranged i l l' : rearranged i l l' -> i <= length l -> sorted_from i l -> sorted_from i l'.
Proof.
  intros Hr Hi Hs a b Hab Hb Hib. rewrite (rearranged_length _ _ _ Hr) in Hb. rewrite (rearranged_high _ _ _ b Hr Hib).
  destruct (decide (i <= a)); [rewrite (rearranged_high _ _ _ a Hr) by done; by apply Hs|].
  destruct (rearranged_low _ _ _ a Hr Hi ltac:(lia)) as (a' & Ha' & ->). apply Hs; lia.
Qed.
End heaps.

(** ** The loops *)

(** What the loops need of an array of [num] elements at [base]: the elements, an invariant
    of the state, a comparison that changes nothing and an exchange. *)
Class ArrayOps {S A : Type} `{!Inhabited A} (view : S -> list A) (inv : S -> Prop) (order : A -> A -> Z)
    (cmp_func : Z -> Z -> M S Z) (vecswap : Z -> Z -> M S unit) (base size : Z) (num : nat) : Prop := {
  view_length s : inv s -> length (view s) = num;
  cmp_ok s (i j : nat) : inv s -> i < num -> j < num ->
    cmp_func (base + Z.of_nat i * size)%Z (base + Z.of_nat j * size)%Z s = Done (order (view s !!! i) (view s !!! j), s);
  swap_ok s (i j : nat) : inv s -> i < num -> j < num -> i <> j ->
    exists s', vecswap (base + Z.of_nat i * size)%Z (base + Z.of_nat j * size)%Z s = Done (tt, s') /\ inv s' /\ view s' = swap i j (view s);
}.

Definition not_less {A} (order : A -> A -> Z) (x y : A) : Prop := (0 <= order x y)%Z.

(** The comparison is a total preorder. *)
Class Preorder_cmp {A} (order : A -> A -> Z) : Prop := {
  not_less_trans x y z : not_less order x y -> not_less order y z -> not_less order x z;
  not_less_total x y : (order x y < 0)%Z -> not_less order y x;
}.

Section loops.
Context {S A : Type} `{!Inhabited A} (view : S -> list A) (inv : S -> Prop) (order : A -> A -> Z)
  (cmp_func : Z -> Z -> M S Z) (vecswap : Z -> Z -> M S unit) (base size : Z) (num : nat)
  `{!ArrayOps view inv order cmp_func vecswap base size num}.

Context `{!Preorder_cmp order}.
Abbreviation not_less := (not_less order).

Lemma not_less_refl x : not_less x x.
Proof. destruct (Z.lt_ge_cases (order x x) 0); [by apply not_less_total|done]. Qed.

Hypothesis size_pos : (0 < size < 1073741824)%Z.
Hypothesis fits : (Z.of_nat num * size < 1073741824)%Z.

(** The offset of an element. *)
Definition off (i : nat) : Z := (Z.of_nat i * size)%Z.

Lemma off_lt i j : i < j <-> (off i < off j)%Z.
Proof. unfold off. rewrite <- Z.mul_lt_mono_pos_r by lia. lia. Qed.

Lemma off_bound i : i <= num -> (0 <= off i < 1073741824)%Z.
Proof. intros H. unfold off. split; [lia|]. apply (Z.le_lt_trans _ (Z.of_nat num * size)); [|done]. apply Z.mul_le_mono_nonneg_r; lia. Qed.

Lemma off_s32 i : i <= num -> s32 (off i) = off i.
Proof. intros H. apply s32_small. pose proof (off_bound i H). lia. Qed.

Lemma off_wrap i : i <= 2 * num + 1 -> 0 < num -> wrap32 (off i) = off i.
Proof.
  intros H Hn. apply wrap32_small. unfold is_u32, u32_modulus. split; [unfold off; lia|].
  assert (off i <= off (2 * num + 1))%Z by (unfold off; apply Z.mul_le_mono_nonneg_r; lia).
  assert (off (2 * num + 1) <= 3 * off num)%Z by (unfold off; rewrite Z.mul_assoc; apply Z.mul_le_mono_nonneg_r; lia).
  pose proof (off_bound num). lia.
Qed.

(** The test of the inner loop, and the offset of the first child. *)
Lemma first_child r : r < num -> add32 (mul32 (off r) 2) size = off (2 * r + 1).
Proof.
  intros Hr. rewrite <- (off_wrap (2 * r + 1)) by lia. unfold add32, mul32, wrap32. rewrite Zplus_mod_idemp_l. f_equal. unfold off. lia.
Qed.

(** The larger child. *)
Lemma larger_child s n c : inv s -> c < n -> n <= num ->
  exists d, (if (wrap32 (off c) <? sub32 (off n) size)%Z
             then e ← cmp_func (base + off c)%Z (base + off c + size)%Z; mret (if (e <? 0)%Z then s32 (off c + size)%Z else off c)
             else mret (off c)) s = Done (off d, s) /\
            (d = c \/ d = Datatypes.S c) /\ d < n /\ not_less (view s !!! d) (view s !!! c) /\
            (Datatypes.S c < n -> not_less (view s !!! d) (view s !!! Datatypes.S c)).
Proof.
  intros Hi Hc Hn. rewrite off_wrap by lia.
  assert (Hsub : sub32 (off n) size = off (n - 1)).
  { rewrite <- (off_wrap (n - 1)) by lia. unfold sub32. f_equal. unfold off. rewrite Nat2Z.inj_sub by lia. lia. }
  rewrite Hsub. destruct (Z.ltb_spec (off c) (off (n - 1))) as [Hlt|Hge].
  - apply off_lt in Hlt. replace (off c + size)%Z with (off (Datatypes.S c)) by (unfold off; lia).
    replace (base + off c + size)%Z with (base + off (Datatypes.S c))%Z by (unfold off; lia).
    rewrite (bind_Done _ _ _ _ _ (cmp_ok s c (Datatypes.S c) Hi ltac:(lia) ltac:(lia))).
    destruct (Z.ltb_spec (order (view s !!! c) (view s !!! Datatypes.S c)) 0) as [Hl|Hl].
    + exists (Datatypes.S c). rewrite off_s32 by lia. split; [done|]. split; [by right|]. split; [lia|].
      split; [by apply not_less_total|]. intros _. apply not_less_refl.
    + exists c. split; [done|]. split; [by left|]. split; [lia|]. split; [apply not_less_refl|done].
  - exists c. split; [done|]. split; [by left|]. split; [done|]. split; [apply not_less_refl|].
    intros H. assert (off c < off (n - 1))%Z by (apply off_lt; lia). lia.
Qed.

Lemma sift_ok fuel : forall s k n r, inv s -> r < num -> n <= num -> k <= r -> heap_but not_less k n r (view s) -> n <= fuel + r ->
  exists s', sift cmp_func vecswap base size fuel (off n) (off r) s = Done (tt, s') /\ inv s' /\
             rearranged n (view s) (view s') /\ heap not_less k n (view s').
Proof.
  induction fuel as [|fuel IH]; intros s k n r Hi Hr Hn Hk Hh Hf; cbn [sift]; rewrite first_child, (off_wrap n) by lia;
    destruct (Z.ltb_spec (off (2 * r + 1)) (off n)) as [Hlt|Hge]; try (apply off_lt in Hlt; lia).
  1, 3: exists s; split; [done|]; split; [done|]; split; [done|]; apply (heap_but_heap _ _ _ r); [done|];
    intros j Hc Hj; assert (off (2 * r + 1) < off n)%Z by (apply off_lt; unfold child in Hc; lia); lia.
  apply off_lt in Hlt. rewrite off_s32 by lia.
  destruct (larger_child s n (2 * r + 1) Hi Hlt Hn) as (c & E & Hc & Hcn & Hbig1 & Hbig2). rewrite (bind_Done _ _ _ _ _ E).
  assert (Hchild : child r c) by (unfold child; lia).
  assert (Hbig : forall j, child r j -> j < n -> not_less (view s !!! c) (view s !!! j)).
  { intros j [->| ->] Hj; [done|]. replace (2 * r + 2) with (Datatypes.S (2 * r + 1)) by lia. apply Hbig2. lia. }
  rewrite (bind_Done _ _ _ _ _ (cmp_ok s r c Hi ltac:(lia) ltac:(lia))).
  destruct (Z.geb_spec (order (view s !!! r) (view s !!! c)) 0) as [Hge|Hl].
  - exists s. split; [done|]. split; [done|]. split; [done|]. apply (heap_but_heap _ _ _ r); [done|].
    intros j Hj Hjn. apply (not_less_trans _ (view s !!! c)); [unfold not_less; lia|by apply Hbig].
  - destruct (swap_ok s r c Hi) as (s1 & E1 & Hi1 & Hv1); [lia..|]. rewrite (bind_Done _ _ _ _ _ E1).
    destruct (IH s1 k n c) as (s2 & E2 & Hi2 & Hr2 & Hh2); [done|lia|done|lia| |lia|].
    + rewrite Hv1. apply heap_but_swap; [done|done|done|by rewrite view_length|by apply not_less_total|done].
    + exists s2. split; [exact E2|]. split; [done|]. split; [|done]. eapply rearranged_trans; [|exact Hr2].
      rewrite Hv1. apply rearranged_swap; [lia|done|by rewrite view_length].
Qed.

Lemma heapify_ok fuel : forall s k, inv s -> 2 * k <= num -> heap not_less k num (view s) -> k <= fuel ->
  exists s', heapify cmp_func vecswap base size fuel num (off num) (off k - size) s = Done (tt, s') /\ inv s' /\
             view s' ≡ₚ view s /\ heap not_less 0 num (view s').
Proof.
  induction fuel as [|fuel IH]; intros s k Hi Hk Hh Hf; cbn [heapify];
    destruct (Z.geb_spec (off k - size) 0) as [Hge|Hl].
  - assert (k = 0) as -> by lia. unfold off in Hge. lia.
  - assert (k = 0) as -> by lia. exists s. done.
  - destruct k as [|k]; [unfold off in Hge; lia|]. replace (off (Datatypes.S k) - size)%Z with (off k) by (unfold off; lia).
    destruct (sift_ok num s k num k) as (s1 & E1 & Hi1 & Hr1 & Hh1); [done|lia|lia|lia| |lia|].
    + split; [|unfold child; lia]. intros i j Hki Hik Hc Hj. apply Hh; [lia|done|done].
    + rewrite (bind_Done _ _ _ _ _ E1). rewrite s32_id by (pose proof (off_bound k ltac:(lia)); pose proof (off_bound 1 ltac:(lia)); unfold off in *; lia).
      destruct (IH s1 k) as (s2 & E2 & Hi2 & Hp2 & Hh2); [done|lia|done|lia|]. exists s2. split; [exact E2|]. split; [done|]. split; [|done].
      rewrite Hp2. by eapply rearranged_perm.
  - destruct k as [|k]; [exists s; done|]. pose proof (off_bound k ltac:(lia)). unfold off in *. lia.
Qed.

Lemma extract_ok fuel : forall s i, inv s -> i < num -> heap not_less 0 (Datatypes.S i) (view s) -> sorted_from not_less (Datatypes.S i) (view s) -> i <= fuel ->
  exists s', extract cmp_func vecswap base size fuel num (off i) s = Done (tt, s') /\ inv s' /\
             view s' ≡ₚ view s /\ sorted_from not_less 1 (view s').
Proof.
  induction fuel as [|fuel IH]; intros s i Hi Hn Hh Hs Hf; cbn [extract].
  - assert (i = 0) as -> by lia. exists s. done.
  - destruct i as [|i]; [exists s; done|]. pose proof (proj1 (off_lt 0 (Datatypes.S i)) ltac:(lia)) as Hpos.
    destruct (Z.gtb_spec (off (Datatypes.S i)) 0) as [_|]; [|unfold off in *; lia].
    pose proof (swap_ok s 0 (Datatypes.S i) Hi ltac:(lia) ltac:(lia) ltac:(lia)) as Hsw.
    replace (base + Z.of_nat 0 * size)%Z with base in Hsw by lia. destruct Hsw as (s1 & E1 & Hi1 & Hv1). rewrite (bind_Done _ _ _ _ _ E1).
    pose proof (view_length s Hi) as Hlen.
    destruct (sift_ok num s1 0 (Datatypes.S i) 0) as (s2 & E2 & Hi2 & Hr2 & Hh2); [done|lia|lia|lia|rewrite Hv1; apply heap_but_exchange; [done|lia]|lia|].
    rewrite (bind_Done (sift _ _ _ _ _ _ 0%Z) _ _ _ _ E2).
    rewrite s32_id by (pose proof (off_bound (Datatypes.S i) ltac:(lia)); pose proof (off_bound 1 ltac:(lia)); unfold off in *; lia).
    replace (off (Datatypes.S i) - size)%Z with (off i) by (unfold off; lia).
    destruct (IH s2 i) as (s3 & E3 & Hi3 & Hp3 & Hs3); [done|lia|done| |lia|].
    + eapply sorted_from_rearranged; [exact Hr2|rewrite view_length by done; lia|]. rewrite Hv1.
      apply sorted_from_exchange; [apply not_less_trans|apply not_less_refl|done|done|lia].
    + exists s3. split; [exact E3|]. split; [done|]. split; [|done]. rewrite Hp3, (rearranged_perm _ _ _ Hr2), Hv1. apply swap_perm; lia.
Qed.

Lemma sort_loops_ok s : inv s ->
  exists s', sort_loops cmp_func vecswap base size (Z.of_nat num) s = Done (tt, s') /\ inv s' /\
             view s' ≡ₚ view s /\ sorted_from not_less 1 (view s').
Proof.
  intros Hi. unfold sort_loops. rewrite Nat2Z.id.
  assert (En : s32 (mul32 (Z.of_nat num) size) = off num).
  { unfold mul32. change (Z.of_nat num * size)%Z with (off num). pose proof (off_bound num ltac:(lia)).
    rewrite wrap32_small by (unfold is_u32, u32_modulus; lia). by apply off_s32. }
  rewrite En. assert (Ei : s32 (mul32 (sub32 (Z.of_nat num / 2) 1) size) = (off (num / 2) - size)%Z).
  { unfold mul32, sub32, wrap32, s32, wrap32. rewrite Zmult_mod_idemp_l, Zmod_mod.
    replace ((Z.of_nat num / 2 - 1) * size)%Z with (off (num / 2) - size)%Z by (unfold off; rewrite Nat2Z.inj_div; change (Z.of_nat 2) with 2%Z; lia).
    pose proof (off_bound (num / 2) ltac:(apply Nat.Div0.div_le_upper_bound; lia)). apply s32_id. lia. }
  rewrite Ei. assert (Hhalf : 2 * (num / 2) <= num /\ num < 2 * (num / 2) + 2).
  { pose proof (Nat.div_mod num 2 ltac:(lia)). pose proof (Nat.mod_upper_bound num 2 ltac:(lia)). lia. }
  destruct (heapify_ok num s (num / 2) Hi ltac:(lia)) as (s1 & E1 & Hi1 & Hp1 & Hh1); [unfold heap, child; lia|lia|].
  rewrite (bind_Done _ _ _ _ _ E1). rewrite s32_id by (pose proof (off_bound num ltac:(lia)); lia).
  destruct (decide (num = 0)) as [E0|E0].
  - exists s1. split; [|split; [done|split; [done|]]].
    + assert (Hneg : (off num - size <= 0)%Z) by (rewrite E0; unfold off; lia).
      generalize dependent (off num - size)%Z. intros i Hneg. destruct num; cbn [extract]; by destruct (Z.gtb_spec i 0); [lia|].
    + intros a b Hab Hb _. rewrite view_length in Hb by done. lia.
  - replace (off num - size)%Z with (off (num - 1)) by (unfold off; rewrite Nat2Z.inj_sub by lia; lia).
    destruct (extract_ok num s1 (num - 1)) as (s2 & E2 & Hi2 & Hp2 & Hs2); [done|lia|by replace (Datatypes.S (num - 1)) with num by lia| |lia|].
    + intros a b Hab Hb Hkb. rewrite view_length in Hb by done. lia.
    + exists s2. split; [exact E2|]. split; [done|]. split; [by rewrite Hp2|done].
Qed.
End loops.

Open Scope Z_scope.

(** ** Exchanging bytes *)

(** [m'] is [m] with the [n] bytes at [a] and at [b] exchanged. *)
Definition exchanged (a b n : Z) (m m' : bytes) : Prop :=
  forall x, m' !! x = if decide (a <= x < a + n) then m !! (b + (x - a))
                      else if decide (b <= x < b + n) then m !! (a + (x - b)) else m !! x.

Definition apart (a b n : Z) : Prop := a + n <= b \/ b + n <= a.

Lemma exchanged_0 a b m : exchanged a b 0 m m.
Proof. intros x. rewrite !decide_False by lia. done. Qed.

Lemma exchanged_app a b i j m m1 m2 : 0 <= i -> 0 <= j -> apart a b (i + j) ->
  exchanged a b i m m1 -> exchanged (a + i) (b + i) j m1 m2 -> exchanged a b (i + j) m m2.
Proof.
  unfold apart. intros Hi Hj Hd H1 H2 x. rewrite H2. repeat case_decide; try lia; rewrite H1; repeat case_decide; try lia; f_equal; lia.
Qed.

Lemma exchanged_bytes a b n c k m m' : exchanged a b n m m' -> is_bytes m a n -> is_bytes m b n -> is_bytes m c k -> is_bytes m' c k.
Proof.
  intros H Ha Hb Hc x Hx. rewrite H. repeat case_decide; [apply Hb; lia|apply Ha; lia|by apply Hc].
Qed.

Lemma swap_char_ok a b m : is_bytes m a 1 -> is_bytes m b 1 -> a <> b ->
  exists m', (forall A (k : M bytes A), (t ← read8 a; x ← read8 b; write8 a x;; write8 b t;; k) m = k m') /\ exchanged a b 1 m m'.
Proof.
  intros Ha Hb Hd. destruct (Ha a ltac:(lia)) as (t & Et & Ht). destruct (Hb b ltac:(lia)) as (x & Ex & Hx).
  exists (<[b := t]> (<[a := x]> m)). split.
  - intros A k. rewrite (bind_Done _ _ _ _ _ (read8_ok _ _ _ Et)), (bind_Done _ _ _ _ _ (read8_ok _ _ _ Ex)).
    rewrite (bind_Done _ _ _ _ _ (write8_ok a x m ltac:(by eexists))).
    rewrite (bind_Done _ _ _ _ _ (write8_ok b t _ ltac:(rewrite lookup_insert_ne by done; by eexists))).
    unfold is_byte in *. by rewrite !Z.mod_small by lia.
  - intros y. rewrite !lookup_insert. repeat case_decide; subst; try lia; (try congruence); rewrite <- ?Et, <- ?Ex; f_equal; lia.
Qed.

Lemma swap_chars_ok k : forall a b m, is_bytes m a (Z.of_nat k) -> is_bytes m b (Z.of_nat k) -> apart a b (Z.of_nat k) ->
  exists m', swap_chars k a b m = Done (tt, m') /\ exchanged a b (Z.of_nat k) m m'.
Proof.
  induction k as [|k IH]; intros a b m Ha Hb Hd; [exists m; split; [done|apply exchanged_0]|].
  assert (Ha1 : is_bytes m a 1) by (intros x Hx; apply Ha; lia). assert (Hb1 : is_bytes m b 1) by (intros x Hx; apply Hb; lia).
  destruct (swap_char_ok a b m Ha1 Hb1) as (m1 & E1 & H1); [unfold apart in Hd; lia|]. cbn [swap_chars]. rewrite E1.
  destruct (IH (a + 1) (b + 1) m1) as (m2 & E2 & H2).
  - eapply exchanged_bytes; [exact H1|done|done|]. intros x Hx. apply Ha. lia.
  - eapply exchanged_bytes; [exact H1|done|done|]. intros x Hx. apply Hb. lia.
  - unfold apart in *. lia.
  - exists m2. split; [done|]. replace (Z.of_nat (S k)) with (1 + Z.of_nat k) in * by lia. by eapply exchanged_app; [lia|lia| |..].
Qed.

Lemma swap_long_ok a b m : is_bytes m a 4 -> is_bytes m b 4 -> apart a b 4 -> a mod 4 = 0 -> b mod 4 = 0 ->
  exists m', (forall A (k : M bytes A), (t ← read32 a; x ← read32 b; write32 a x;; write32 b t;; k) m = k m') /\ exchanged a b 4 m m'.
Proof.
  unfold apart. intros Ha Hb Hd Hal Hbl.
  destruct (Ha a ltac:(lia)) as (a0 & A0 & ?), (Ha (a + 1) ltac:(lia)) as (a1 & A1 & ?), (Ha (a + 2) ltac:(lia)) as (a2 & A2 & ?), (Ha (a + 3) ltac:(lia)) as (a3 & A3 & ?).
  destruct (Hb b ltac:(lia)) as (b0 & B0 & ?), (Hb (b + 1) ltac:(lia)) as (b1 & B1 & ?), (Hb (b + 2) ltac:(lia)) as (b2 & B2 & ?), (Hb (b + 3) ltac:(lia)) as (b3 & B3 & ?).
  set (m1 := <[a + 3 := b3]> (<[a + 2 := b2]> (<[a + 1 := b1]> (<[a := b0]> m)))).
  exists (<[b + 3 := a3]> (<[b + 2 := a2]> (<[b + 1 := a1]> (<[b := a0]> m1)))). split.
  - intros A k. rewrite (bind_Done _ _ _ _ _ (read32_ok a m _ _ _ _ Hal A0 A1 A2 A3)), (bind_Done _ _ _ _ _ (read32_ok b m _ _ _ _ Hbl B0 B1 B2 B3)).
    rewrite (bind_Done (write32 a _) _ m tt m1) by (by apply write32_word).
    erewrite bind_Done; [reflexivity|]. apply write32_word; [done| |done..].
    intros x Hx. unfold m1. rewrite !lookup_insert_ne by lia. by apply Hb.
  - intros x. unfold m1. rewrite !lookup_insert. repeat case_decide; subst; try lia;
      rewrite <- ?A0, <- ?A1, <- ?A2, <- ?A3, <- ?B0, <- ?B1, <- ?B2, <- ?B3; f_equal; lia.
Qed.

Lemma swap_longs_ok k : forall a b m, is_bytes m a (4 * Z.of_nat k) -> is_bytes m b (4 * Z.of_nat k) -> apart a b (4 * Z.of_nat k) ->
  a mod 4 = 0 -> b mod 4 = 0 -> exists m', swap_longs k a b m = Done (tt, m') /\ exchanged a b (4 * Z.of_nat k) m m'.
Proof.
  induction k as [|k IH]; intros a b m Ha Hb Hd Hal Hbl; [exists m; split; [done|apply exchanged_0]|].
  assert (Ha1 : is_bytes m a 4) by (intros x Hx; apply Ha; lia). assert (Hb1 : is_bytes m b 4) by (intros x Hx; apply Hb; lia).
  destruct (swap_long_ok a b m Ha1 Hb1) as (m1 & E1 & H1); [unfold apart in *; lia|done|done|]. cbn [swap_longs]. rewrite E1.
  destruct (IH (a + 4) (b + 4) m1) as (m2 & E2 & H2).
  - eapply exchanged_bytes; [exact H1|done|done|]. intros x Hx. apply Ha. lia.
  - eapply exchanged_bytes; [exact H1|done|done|]. intros x Hx. apply Hb. lia.
  - unfold apart in *. lia.
  - by apply (aligned_add 4 a 1).
  - by apply (aligned_add 4 b 1).
  - exists m2. split; [done|]. replace (4 * Z.of_nat (S k)) with (4 + 4 * Z.of_nat k) in * by lia. by eapply exchanged_app; [lia|lia| |..].
Qed.

(** ** The array of [sort] *)

Section array.
Variable m0 : bytes.
Variables base size : Z.
Variable num : nat.
Hypothesis size_pos : 0 < size.

(** The bytes of an element, and the elements. *)
Definition elem (m : bytes) (p : Z) : list Z := (fun k => default 0 (m !! (p + k))) <$> seqZ 0 size.
Definition elems (m : bytes) : list (list Z) := (fun i => elem m (base + Z.of_nat i * size)) <$> seq 0 num.

(** The array holds the bytes of the elements it had, and the rest of the memory is as it
    was. *)
Definition array_inv (m : bytes) : Prop :=
  is_bytes m base (Z.of_nat num * size) /\ (forall x, ~ base <= x < base + Z.of_nat num * size -> m !! x = m0 !! x) /\
  elems m ≡ₚ elems m0.

Lemma elems_lookup m (i : nat) : (i < num)%nat -> elems m !!! i = elem m (base + Z.of_nat i * size).
Proof. intros H. apply list_lookup_total_correct. unfold elems. rewrite list_lookup_fmap, lookup_seq_lt by lia. done. Qed.

(** Two elements are apart. *)
Lemma elements_apart (i j : nat) : i <> j -> apart (base + Z.of_nat i * size) (base + Z.of_nat j * size) size.
Proof.
  intros H. unfold apart. destruct (Nat.lt_total i j) as [Hl|[->|Hl]]; [left|done|right];
    [assert (Z.of_nat (i + 1) * size <= Z.of_nat j * size) by (apply Z.mul_le_mono_nonneg_r; lia)
    |assert (Z.of_nat (j + 1) * size <= Z.of_nat i * size) by (apply Z.mul_le_mono_nonneg_r; lia)]; lia.
Qed.

Lemma element_inside (i : nat) : (i < num)%nat -> base <= base + Z.of_nat i * size /\ base + Z.of_nat i * size + size <= base + Z.of_nat num * size.
Proof. intros H. assert (Z.of_nat (i + 1) * size <= Z.of_nat num * size) by (apply Z.mul_le_mono_nonneg_r; lia). lia. Qed.

Lemma element_bytes m (i : nat) : array_inv m -> (i < num)%nat -> is_bytes m (base + Z.of_nat i * size) size.
Proof. intros [H _] Hi x Hx. apply H. pose proof (element_inside i Hi). lia. Qed.

Lemma vecswap_exchanges m a b (i j : nat) : a = base + Z.of_nat i * size -> b = base + Z.of_nat j * size ->
  is_bytes m a size -> is_bytes m b size -> apart a b size ->
  exists m', vecswap (SWAPINIT base size) size a b m = Done (tt, m') /\ exchanged a b size m m'.
Proof.
  intros -> -> Ha Hb Hd. unfold vecswap. destruct (Z.gtb_spec size 0); [|lia]. cbn [when]. unfold swapfunc, SWAPINIT, truth.
  destruct (Z.eqb_spec (base mod 4) 0) as [Hal|]; cbn [negb orb]; [destruct (Z.eqb_spec (size mod 4) 0) as [Hsz|]; cbn [negb]|].
  2, 3: change (2 <=? 1) with false; cbn [negb]; replace (Nat.max 1 (Z.to_nat size)) with (Z.to_nat size) by lia;
    rewrite <- (Z2Nat.id size) in Ha, Hb, Hd by lia; destruct (swap_chars_ok _ _ _ m Ha Hb Hd) as (m' & E & H');
    exists m'; rewrite Z2Nat.id in * by lia; done.
  replace ((if size =? 4 then 0 else 1) <=? 1) with true by (by destruct (size =? 4)).
  apply Z.mod_divide in Hsz as [q Hq]; [|lia]. assert (Hlong : forall t, (base + Z.of_nat t * size) mod 4 = 0).
  { intros t. replace (Z.of_nat t * size) with (4 * (Z.of_nat t * q)) by (rewrite Hq; lia). by apply aligned_add. }
  assert (Hn : 4 * Z.of_nat (Z.to_nat (size / 4)) = size) by (rewrite Hq, Z.div_mul by lia; lia).
  replace (Nat.max 1 (Z.to_nat (size / 4))) with (Z.to_nat (size / 4)) by lia.
  rewrite <- Hn in Ha at 2. rewrite <- Hn in Hb at 2. rewrite <- Hn in Hd at 3.
  destruct (swap_longs_ok _ _ _ m Ha Hb Hd (Hlong i) (Hlong j)) as (m' & E & H'). exists m'. split; [done|]. by rewrite Hn in H'.
Qed.

(** An exchange of bytes is an exchange of elements. *)
Lemma exchanged_elems m m' (i j : nat) : (i < num)%nat -> (j < num)%nat -> i <> j ->
  exchanged (base + Z.of_nat i * size) (base + Z.of_nat j * size) size m m' -> elems m' = swap i j (elems m).
Proof.
  intros Hi Hj Hij H. assert (Hlen : forall m, length (elems m) = num) by (intros; unfold elems; by rewrite length_fmap, length_seq).
  assert (He : forall p q, (forall k, 0 <= k < size -> m' !! (p + k) = m !! (q + k)) -> elem m' p = elem m q).
  { intros p q Hk. unfold elem. apply list_fmap_ext. intros ? k Hl. apply lookup_seqZ in Hl as [-> Hl]. by rewrite Hk by lia. }
  pose proof (elements_apart i j Hij) as Hd. unfold apart in Hd.
  apply (list_eq_same_length _ _ num); [by rewrite length_swap, Hlen|done|]. intros t x y Ht Hx Hy.
  apply list_lookup_total_correct in Hx, Hy. subst x y. rewrite elems_lookup by done.
  destruct (decide (t = i)) as [->|Hti]; [rewrite swap_left by (rewrite ?Hlen; done)|destruct (decide (t = j)) as [->|Htj];
    [rewrite swap_right by (by rewrite Hlen)|rewrite swap_other by done]]; rewrite elems_lookup by done; apply He; intros k Hk; rewrite H.
  - rewrite decide_True by lia. f_equal. lia.
  - rewrite decide_False, decide_True by lia. f_equal. lia.
  - pose proof (elements_apart t i Hti) as H1. pose proof (elements_apart t j Htj) as H2. unfold apart in *. by rewrite !decide_False by lia.
Qed.

Lemma exchanged_inv m m' (i j : nat) : (i < num)%nat -> (j < num)%nat -> i <> j -> array_inv m ->
  exchanged (base + Z.of_nat i * size) (base + Z.of_nat j * size) size m m' -> array_inv m'.
Proof.
  intros Hi Hj Hij HI H. pose proof (element_bytes m i HI Hi) as Hbi. pose proof (element_bytes m j HI Hj) as Hbj.
  pose proof (element_inside i Hi). pose proof (element_inside j Hj). destruct HI as (HI & HO & HP). split; [by eapply exchanged_bytes|]. split.
  - intros x Hx. rewrite H, !decide_False by lia. by apply HO.
  - rewrite (exchanged_elems m m' i j Hi Hj Hij H), <- HP. apply swap_perm; unfold elems; by rewrite length_fmap, length_seq.
Qed.

(** The comparison of two elements of the array changes nothing. *)
Variable order : list Z -> list Z -> Z.
Variable cmp_func : Z -> Z -> M bytes Z.
Hypothesis cmp_reads : forall m (i j : nat) (p := base + Z.of_nat i * size) (q := base + Z.of_nat j * size), array_inv m -> (i < num)%nat -> (j < num)%nat ->
  cmp_func p q m = Done (order (elem m p) (elem m q), m).

#[local] Instance bytes_array : ArrayOps elems array_inv order cmp_func (vecswap (SWAPINIT base size) size) base size num.
Proof.
  split.
  - intros m _. unfold elems. by rewrite length_fmap, length_seq.
  - intros m i j HI Hi Hj. rewrite !elems_lookup by done. by apply cmp_reads.
  - intros m i j HI Hi Hj Hij.
    destruct (vecswap_exchanges m _ _ i j eq_refl eq_refl) as (m' & E & H); [by apply element_bytes|by apply element_bytes|by apply elements_apart|].
    exists m'. split; [done|]. split; [exact (exchanged_inv m m' i j Hi Hj Hij HI H)|by apply exchanged_elems].
Qed.

Lemma sort_ok m `{!Preorder_cmp order} : size < 1073741824 -> Z.of_nat num * size < 1073741824 -> array_inv m ->
  exists m', sort base (Z.of_nat num) size cmp_func m = Done (tt, m') /\ array_inv m' /\
             elems m' ≡ₚ elems m /\ sorted_from (not_less order) 1 (elems m').
Proof. intros Hs Hf HI. unfold sort. exact (sort_loops_ok elems array_inv order cmp_func _ base size num (conj size_pos Hs) Hf m HI). Qed.
End array.

(** ** Properties *)

(** C34. [sort] returns and leaves the array sorted: its elements are a permutation of the
    ones it had, none is smaller than the one before it, and no byte outside the array
    changes.  This holds for every element size and alignment (elements are exchanged by
    words or by bytes) and every comparison that is a total preorder of the elements'
    bytes, for arrays of less than 2^30 bytes. *)
Theorem sort_sorts base num size order cmp_func m :
  0 < size < 1073741824 -> Z.of_nat num * size < 1073741824 ->
  is_bytes m base (Z.of_nat num * size) -> Preorder_cmp order ->
  (forall m p q, is_bytes m p size -> is_bytes m q size -> cmp_func p q m = Done (order (elem size m p) (elem size m q), m)) ->
  exists m', sort base (Z.of_nat num) size cmp_func m = Done (tt, m') /\
             elems base size num m' ≡ₚ elems base size num m /\
             (forall i j x y, (i < j)%nat -> elems base size num m' !! i = Some x -> elems base size num m' !! j = Some y -> 0 <= order y x) /\
             (forall x, ~ base <= x < base + Z.of_nat num * size -> m' !! x = m !! x).
Proof.
  intros Hs Hf Hm Hp Hc. assert (Hcmp : forall m1 (i j : nat), array_inv m base size num m1 -> (i < num)%nat -> (j < num)%nat ->
    cmp_func (base + Z.of_nat i * size) (base + Z.of_nat j * size) m1 =
    Done (order (elem size m1 (base + Z.of_nat i * size)) (elem size m1 (base + Z.of_nat j * size)), m1)).
  { intros m1 i j HI Hi Hj. apply Hc; by apply (element_bytes m base size num ltac:(lia)). }
  destruct (sort_ok m base size num ltac:(lia) order cmp_func Hcmp m ltac:(lia) Hf) as (m' & E & HI & Hperm & Hsort); [done|].
  exists m'. split; [done|]. split; [done|]. split; [|apply HI]. intros i j x y Hij Hx Hy.
  pose proof (lookup_lt_Some _ _ _ Hy). apply list_lookup_total_correct in Hx, Hy. subst x y. apply Hsort; lia.
Qed.

(** The comparison of [sampling.c] for the sampled addresses: the difference of two
    [int]s, here for bytes. *)
Definition first_byte (l : list Z) : Z := match l with b :: _ => b | [] => 0 end.

#[global] Instance first_byte_preorder : Preorder_cmp (fun x y => first_byte x - first_byte y).
Proof. split; unfold not_less; lia. Qed.

Lemma sort_sorts_witness :
  exists m', sort 3 (Z.of_nat 4) 1 (fun p q => x ← read8 p; y ← read8 q; mret (x - y)) (list_to_map (zip (seqZ 3 4) [7; 5; 9; 1])) = Done (tt, m') /\
             elems 3 1 4 m' ≡ₚ elems 3 1 4 (list_to_map (zip (seqZ 3 4) [7; 5; 9; 1])).
Proof.
  destruct (sort_sorts 3 4 1 (fun x y => first_byte x - first_byte y) (fun p q => x ← read8 p; y ← read8 q; mret (x - y))
    (list_to_map (zip (seqZ 3 4) [7; 5; 9; 1]))) as (m' & E & Hp & _); [lia|lia| |apply first_byte_preorder| |].
  - intros x Hx. assert (x = 3 \/ x = 4 \/ x = 5 \/ x = 6) as [-> |[-> |[-> | ->]]] by lia;
      [exists 7|exists 5|exists 9|exists 1]; (split; [reflexivity|unfold is_byte; lia]).
  - intros m p q Hp Hq. destruct (Hp p ltac:(lia)) as (b & Eb & _), (Hq q ltac:(lia)) as (c & Ec & _).
    rewrite (bind_Done _ _ _ _ _ (read8_ok _ _ _ Eb)), (bind_Done _ _ _ _ _ (read8_ok _ _ _ Ec)).
    unfold elem. change (seqZ 0 1) with [0]. cbn [fmap list_fmap first_byte]. by rewrite !Z.add_0_r, Eb, Ec.
  - exists m'. split; [exact E|exact Hp].
Defined.
