(* ===== verification/WordArray.v ===== *)
(** * Arrays of words in a memory of bytes

    A representation predicate between a memory of bytes and the list of the words of an array,
    the reading and writing of an element, and [sort] on such an array. *)

From S2P Require Import Prelude Bytes BytesProps Sort SortProps.

(** ** Words *)

Lemma is_bytes_sub m a n b k : is_bytes m a n -> a <= b -> b + k <= a + n -> is_bytes m b k.
Proof. intros H H1 H2 x Hx. apply H. lia. Qed.

Lemma is_bytes_frame m m' a n : is_bytes m a n -> (forall x, a <= x < a + n -> m' !! x = m !! x) -> is_bytes m' a n.
Proof. intros H Hf x Hx. rewrite Hf by done. by apply H. Qed.

Lemma word_at_frame m m' p : (forall x, p <= x < p + 4 -> m' !! x = m !! x) -> word_at m' p = word_at m p.
Proof. intros H. unfold word_at, byte_at. by rewrite !H by lia. Qed.

Lemma read32_word p m : p mod 4 = 0 -> is_bytes m p 4 -> read32 p m = Done (word_at m p, m).
Proof.
  intros Ha Hb. unfold read32. rewrite Ha. cbn [Z.eqb].
  do 4 (match goal with |- context [read8 ?q] => rewrite (bind_Done _ _ _ _ _ (read8_ok q _ _ (proj1 (byte_at_ok m p 4 q Hb ltac:(lia))))) end). done.
Qed.

Lemma word_at_u32 p m : is_bytes m p 4 -> is_u32 (word_at m p).
Proof. intros Hb. apply word_bytes; apply (byte_at_ok m p 4); (done || lia). Qed.

Lemma split_word w : word (w mod 256) (Z.shiftr w 8 mod 256) (Z.shiftr w 16 mod 256) (Z.shiftr w 24 mod 256) = wrap32 w.
Proof.
  unfold word, wrap32, u32_modulus. rewrite !Z.shiftr_div_pow2 by lia.
  change (2 ^ 8) with 256. change (2 ^ 16) with 65536. change (2 ^ 24) with 16777216. Z.div_mod_to_equations. lia.
Qed.

Lemma write32_at p w m : p mod 4 = 0 -> is_bytes m p 4 ->
  exists m', write32 p w m = Done (tt, m') /\ is_bytes m' p 4 /\ word_at m' p = wrap32 w /\ forall x, ~ p <= x < p + 4 -> m' !! x = m !! x.
Proof.
  intros Ha Hb. eexists. split; [apply write32_ok; [done|]; intros i Hi; destruct (Hb (p + i) ltac:(lia)) as (b & E & _); by exists b|].
  set (m' := <[p + 3 := _]> _). assert (E0 : m' !! p = Some (w mod 256)) by (unfold m'; by rewrite !lookup_insert_ne, lookup_insert_eq by lia).
  assert (E1 : m' !! (p + 1) = Some (Z.shiftr w 8 mod 256)) by (unfold m'; by rewrite !lookup_insert_ne, lookup_insert_eq by lia).
  assert (E2 : m' !! (p + 2) = Some (Z.shiftr w 16 mod 256)) by (unfold m'; by rewrite lookup_insert_ne, lookup_insert_eq by lia).
  assert (E3 : m' !! (p + 3) = Some (Z.shiftr w 24 mod 256)) by (unfold m'; by rewrite lookup_insert_eq).
  split; [|split].
  - intros x Hx. assert (x = p \/ x = p + 1 \/ x = p + 2 \/ x = p + 3) as [-> |[-> |[-> | ->]]] by lia; eexists; (split; [eassumption|]); apply Z.mod_pos_bound; lia.
  - unfold word_at, byte_at. rewrite E0, E1, E2, E3. apply split_word.
  - intros x Hx. unfold m'. by rewrite !lookup_insert_ne by lia.
Qed.

(** ** Arrays *)

(** The array at [a] holds the words [l]. *)
Definition warray (m : bytes) (a : Z) (l : list Z) : Prop :=
  a mod 4 = 0 /\ is_bytes m a (Z.of_nat (length l) * 4) /\ forall (i : nat) w, l !! i = Some w -> word_at m (a + Z.of_nat i * 4) = w.

(** For a concrete memory it is evaluated. *)
Lemma warray_check m a l : a mod 4 = 0 ->
  forallb (fun x => match m !! x with Some b => (0 <=? b) && (b <? 256) | None => false end) (seqZ a (Z.of_nat (length l) * 4)) = true ->
  (fun i => word_at m (a + Z.of_nat i * 4)) <$> seq 0 (length l) = l -> warray m a l.
Proof.
  intros Ha Hb Hl. split; [done|]. split; [by apply is_bytes_check|]. intros i w Hi. pose proof (lookup_lt_Some _ _ _ Hi). rewrite <- Hl in Hi.
  rewrite list_lookup_fmap, lookup_seq_lt in Hi by done. by injection Hi as <-.
Qed.

(** Memory outside of the [n] words at [a] is the same. *)
Definition same_outside (a : Z) (n : nat) (m m' : bytes) : Prop := forall x, ~ a <= x < a + Z.of_nat n * 4 -> m' !! x = m !! x.

Lemma same_outside_refl a n m : same_outside a n m m.
Proof. done. Qed.
Lemma same_outside_trans a n m1 m2 m3 : same_outside a n m1 m2 -> same_outside a n m2 m3 -> same_outside a n m1 m3.
Proof. intros H1 H2 x Hx. by rewrite H2, H1. Qed.

Lemma aligned_word a (i : nat) : a mod 4 = 0 -> (a + Z.of_nat i * 4) mod 4 = 0.
Proof. intros H. by rewrite Z.mod_add. Qed.

Lemma warray_bytes m a l (i : nat) : warray m a l -> (i < length l)%nat -> is_bytes m (a + Z.of_nat i * 4) 4.
Proof. intros (_ & Hb & _) Hi. apply (is_bytes_sub m a _ _ _ Hb); lia. Qed.

Lemma warray_read m a l (i : nat) w : warray m a l -> l !! i = Some w -> read32 (a + Z.of_nat i * 4) m = Done (w, m).
Proof.
  intros H Hi. pose proof (lookup_lt_Some _ _ _ Hi). rewrite read32_word; [|apply aligned_word, H|by apply (warray_bytes m a l)].
  destruct H as (_ & _ & H). by rewrite (H i w Hi).
Qed.

Lemma warray_u32 m a l (i : nat) w : warray m a l -> l !! i = Some w -> is_u32 w.
Proof.
  intros H Hi. pose proof (lookup_lt_Some _ _ _ Hi). pose proof (warray_bytes m a l i H ltac:(lia)) as Hb. destruct H as (_ & _ & H).
  rewrite <- (H i w Hi). by apply word_at_u32.
Qed.

Lemma warray_frame m m' a l : warray m a l -> (forall x, a <= x < a + Z.of_nat (length l) * 4 -> m' !! x = m !! x) -> warray m' a l.
Proof.
  intros (Ha & Hb & Hw) Hf. split; [done|]. split; [by eapply is_bytes_frame|]. intros i w Hi. pose proof (lookup_lt_Some _ _ _ Hi).
  rewrite (word_at_frame m m'); [by apply Hw|]. intros x Hx. apply Hf. lia.
Qed.

(** The array is apart from the [n] words at [b]. *)
Definition words_apart (a : Z) (k : nat) (b : Z) (n : nat) : Prop := a + Z.of_nat k * 4 <= b \/ b + Z.of_nat n * 4 <= a.

Lemma words_apart_sym a k b n : words_apart a k b n -> words_apart b n a k.
Proof. unfold words_apart. lia. Qed.

Lemma warray_outside m m' a l b n : warray m a l -> same_outside b n m m' -> words_apart a (length l) b n -> warray m' a l.
Proof. intros H Hs Ha. apply (warray_frame m); [done|]. intros x Hx. apply Hs. unfold words_apart in Ha. lia. Qed.

Lemma warray_write m a l (i : nat) w : warray m a l -> (i < length l)%nat ->
  exists m', write32 (a + Z.of_nat i * 4) w m = Done (tt, m') /\ warray m' a (<[i := wrap32 w]> l) /\ same_outside a (length l) m m'.
Proof.
  intros H Hi. destruct (write32_at (a + Z.of_nat i * 4) w m) as (m' & E & Hb & Hw & Hf); [apply aligned_word, H|by apply (warray_bytes m a l)|].
  exists m'. split; [done|]. split; [|intros x Hx; apply Hf; lia]. destruct H as (Ha & Hb0 & Hw0). split; [done|]. split.
  - rewrite length_insert. intros x Hx. destruct (decide (a + Z.of_nat i * 4 <= x < a + Z.of_nat i * 4 + 4)) as [Hd|Hd]; [by apply Hb|].
    rewrite Hf by done. by apply Hb0.
  - intros j v Hj. destruct (decide (i = j)) as [<-|Hij].
    + rewrite list_lookup_insert_eq in Hj by done. by injection Hj as <-.
    + rewrite list_lookup_insert_ne in Hj by done. rewrite (word_at_frame m m'); [by apply Hw0|]. intros x Hx. apply Hf. lia.
Qed.

Lemma warray_app m a l1 l2 : warray m a (l1 ++ l2) <-> warray m a l1 /\ warray m (a + Z.of_nat (length l1) * 4) l2.
Proof.
  unfold warray. rewrite length_app. split.
  - intros (Ha & Hb & Hw). split; (split; [done || by apply aligned_word|]); (split; [apply (is_bytes_sub m a _ _ _ Hb); lia|]).
    + intros i w Hi. apply Hw. by apply lookup_app_l_Some.
    + intros i w Hi. rewrite <- (Hw (length l1 + i)%nat w) by (rewrite lookup_app_r by lia; by replace (length l1 + i - length l1)%nat with i by lia). f_equal. lia.
  - intros ((Ha & Hb & Hw) & (Ha' & Hb' & Hw')). split; [done|]. split.
    + intros x Hx. destruct (Z.lt_ge_cases x (a + Z.of_nat (length l1) * 4)); [apply Hb; lia|apply Hb'; lia].
    + intros i w Hi. apply lookup_app_Some in Hi as [Hi|[Hi1 Hi]]; [by apply Hw|]. rewrite <- (Hw' _ _ Hi). f_equal. lia.
Qed.

(** ** Sorting words *)

(** The word of four bytes of an element. *)
Definition elem_word (l : list Z) : Z := match l with [b0; b1; b2; b3] => word b0 b1 b2 b3 | _ => 0 end.

Lemma elem_word_at m p : elem_word (elem 4 m p) = word_at m p.
Proof. unfold elem, word_at, byte_at. change (seqZ 0 4) with [0; 1; 2; 3]. cbn [fmap list_fmap elem_word]. by rewrite Z.add_0_r. Qed.

Lemma warray_elems m a l : warray m a l -> elem_word <$> elems a 4 (length l) m = l.
Proof.
  intros (_ & _ & H). apply list_eq. intros i. unfold elems. rewrite !list_lookup_fmap. destruct (decide (i < length l)%nat) as [Hi|Hi].
  - rewrite lookup_seq_lt by done. cbn [fmap option_fmap option_map]. rewrite elem_word_at. destruct (lookup_lt_is_Some_2 l i Hi) as [w Hw].
    rewrite Hw. f_equal. by rewrite Nat.add_0_l, (H i w).
  - rewrite lookup_seq_ge by lia. symmetry. apply lookup_ge_None. lia.
Qed.

Lemma elems_warray m a n : a mod 4 = 0 -> is_bytes m a (Z.of_nat n * 4) -> warray m a (elem_word <$> elems a 4 n m).
Proof.
  intros Ha Hb. split; [done|]. split; [unfold elems; by rewrite !length_fmap, length_seq|].
  intros i w. unfold elems. rewrite !list_lookup_fmap. intros H. destruct (seq 0 n !! i) as [j|] eqn:E; [|done]. apply lookup_seq in E as [-> _].
  apply (inj Some) in H. rewrite <- H. symmetry. apply elem_word_at.
Qed.

Section sort_words.
Variables (m0 : bytes) (a : Z) (l0 : list Z) (order : Z -> Z -> Z) (cmp : Z -> Z -> M bytes Z).
Hypothesis Harr : warray m0 a l0.
Hypothesis Hlen : Z.of_nat (length l0) * 4 < 1073741824.
Context `{!Preorder_cmp order}.
(** The comparison of elements, while the array is permuted. *)
Hypothesis Hcmp : forall m l (i j : nat) x y, warray m a l -> l ≡ₚ l0 -> same_outside a (length l0) m0 m -> l !! i = Some x -> l !! j = Some y ->
  cmp (a + Z.of_nat i * 4) (a + Z.of_nat j * 4) m = Done (order x y, m).

#[local] Instance word_order_preorder : Preorder_cmp (fun x y => order (elem_word x) (elem_word y)).
Proof. split; intros; [by eapply (not_less_trans (order := order))|by apply (not_less_total (order := order))]. Qed.

Lemma sort_words_ok : exists m l, sort a (Z.of_nat (length l0)) 4 cmp m0 = Done (tt, m) /\ warray m a l /\ l ≡ₚ l0 /\ same_outside a (length l0) m0 m /\
  forall (i j : nat) x y, (i < j)%nat -> l !! i = Some x -> l !! j = Some y -> 0 <= order y x.
Proof.
  assert (Hperm : forall m, array_inv m0 a 4 (length l0) m -> elem_word <$> elems a 4 (length l0) m ≡ₚ l0).
  { intros m (_ & _ & HP). rewrite HP. by rewrite (warray_elems m0 a l0 Harr). }
  assert (Hc : forall m (i j : nat), array_inv m0 a 4 (length l0) m -> (i < length l0)%nat -> (j < length l0)%nat ->
    cmp (a + Z.of_nat i * 4) (a + Z.of_nat j * 4) m = Done (order (elem_word (elem 4 m (a + Z.of_nat i * 4))) (elem_word (elem 4 m (a + Z.of_nat j * 4))), m)).
  { intros m i j HI Hi Hj. apply (Hcmp m (elem_word <$> elems a 4 (length l0) m)); [apply elems_warray; [apply Harr|apply HI]|by apply Hperm|exact (proj1 (proj2 HI))|..];
      unfold elems; rewrite !list_lookup_fmap, lookup_seq_lt by done; done. }
  destruct (sort_ok m0 a 4 (length l0) ltac:(lia) (fun x y => order (elem_word x) (elem_word y)) cmp Hc m0 ltac:(lia) Hlen) as (m & E & HI & HP & Hs).
  { split; [apply Harr|done]. }
  exists m, (elem_word <$> elems a 4 (length l0) m). split; [done|]. split; [apply elems_warray; [apply Harr|apply HI]|]. split; [by apply Hperm|]. split; [exact (proj1 (proj2 HI))|].
  intros i j x y Hij Hx Hy. rewrite list_lookup_fmap in Hx, Hy.
  destruct (elems a 4 (length l0) m !! i) as [x'|] eqn:Ex; [|done]. destruct (elems a 4 (length l0) m !! j) as [y'|] eqn:Ey; [|done].
  injection Hx as <-. injection Hy as <-. pose proof (lookup_lt_Some _ _ _ Ey). apply list_lookup_total_correct in Ex, Ey. subst x' y'. apply Hs; lia.
Qed.
End sort_words.
