(* ===== verification/Ksym.v ===== *)
(** * Binary search and the kernel's symbol table

    Models [kernel/lib/bsearch.c] and [kernel/ksym.c].  [bsearch] is a function of the
    comparison of the key with the element at an address.  The symbol table is a list of
    addresses and string indices at the address [tbl] of memory; a pointer into the
    table is an address. *)

From S2P Require Import Prelude.

(** ** [bsearch] *)

Section bsearch.
Context {S : Type}.
(** [( *compar)(key, p)] for the key of the search. *)
Variable compar : Z -> M S Z.
Variable size : Z.

Fixpoint bsearch_loop (fuel : nat) (base lim : Z) : M S Z :=
  if negb (lim =? 0) then
    match fuel with
    | O => fuel_out
    | Datatypes.S fuel' =>
        let p := base + Z.shiftr lim 1 * size in
        cmp ← compar p;
        if cmp =? 0 then mret p
        else if cmp >? 0 then bsearch_loop fuel' (p + size) (Z.shiftr (lim - 1) 1)
        else bsearch_loop fuel' base (Z.shiftr lim 1)
    end
  else mret NULL.

(** [lim] has 32 bits and is halved by each turn. *)
Definition bsearch (base0 nmemb : Z) : M S Z := bsearch_loop 32 base0 nmemb.
End bsearch.

(** ** The symbol table *)

Definition KSYM_MAGIC : Z := 41675.

(** Memory of words, and the variables of the file. *)
Record ksyms := mk_ksyms {
  words : gmap Z Z;
  ksym_count : Z;
  ksym_tbl : Z;
  ksym_strings : Z;
  prev_index : Z;
}.

Definition load (p : Z) : M ksyms Z := fun k => match words k !! p with Some w => Done (w, k) | None => Fault end.
Definition set_table (count tbl strings : Z) : M ksyms unit :=
  modify (fun k => mk_ksyms (words k) count tbl strings (prev_index k)).
Definition set_prev (i : Z) : M ksyms unit :=
  modify (fun k => mk_ksyms (words k) (ksym_count k) (ksym_tbl k) (ksym_strings k) i).

(** [sizeof(ksym_t)] and the fields of the symbol at [p]. *)
Definition sizeof_ksym : Z := 8.
Definition sym_addr (p : Z) : M ksyms Z := load p.
Definition sym_strid (p : Z) : M ksyms Z := load (p + 4).

(** [symtab_start] is a symbol of the linker; [_sym_tbl] and [_sym_strings] are the static
    arrays of the file. *)
Definition ksym_init (symtab_start _sym_tbl _sym_strings : Z) : M ksyms unit :=
  magic ← load symtab_start;
  if magic =? KSYM_MAGIC then
    count ← load (symtab_start + 4);
    set_table (s32 count) (symtab_start + 8) (symtab_start + 8 + s32 count * sizeof_ksym)
  else set_table 1 _sym_tbl _sym_strings.

Definition ksym_total : M ksyms Z := gets ksym_count.

Definition cmp_key (addr p1 : Z) : M ksyms Z :=
  tbl ← gets ksym_tbl;
  total ← ksym_total;
  if p1 =? tbl + (total - 1) * sizeof_ksym then mret 0
  else
    a ← sym_addr p1;
    hit ← (if addr >=? a then (b ← sym_addr (p1 + sizeof_ksym); mret (addr <? b)) else mret false);
    if (hit : bool) then mret 0
    else mret (s32 (addr - a)).

Definition ksym_lookup (addr : Z) : M ksyms Z :=
  tbl ← gets ksym_tbl;
  count ← ksym_total;
  prev ← gets prev_index;
  a ← sym_addr (tbl + prev * sizeof_ksym);
  found ← (if a <? addr then
             bsearch (cmp_key addr) sizeof_ksym (tbl + prev * sizeof_ksym) (count - prev)
           else bsearch (cmp_key addr) sizeof_ksym tbl count);
  if found =? NULL then mret (-1)
  else
    let i := (found - tbl) / sizeof_ksym in
    set_prev i;;
    mret i.

(** The address of the name. *)
Definition ksym_id2name (symid : Z) : M ksyms Z :=
  tbl ← gets ksym_tbl;
  strings ← gets ksym_strings;
  strid ← sym_strid (tbl + symid * sizeof_ksym);
  mret (strings + s32 strid).

Definition ksym_id2addr (symid : Z) : M ksyms Z :=
  tbl ← gets ksym_tbl; sym_addr (tbl + symid * sizeof_ksym).

(** ** [bsearch]: correctness *)

(** The first element that is compared is equal to the key. *)
Lemma bsearch_loop_hit {S} (compar : Z -> M S Z) size fuel base lim s : lim <> 0 ->
  compar (base + Z.shiftr lim 1 * size) s = Done (0, s) ->
  bsearch_loop compar size (Datatypes.S fuel) base lim s = Done (base + Z.shiftr lim 1 * size, s).
Proof.
  intros Hl Hc. cbn [bsearch_loop]. destruct (Z.eqb_spec lim 0); [done|]. cbn [negb]. by rewrite (bind_Done _ _ _ _ _ Hc).
Qed.

Lemma bsearch_loop_left {S} (compar : Z -> M S Z) size fuel base lim c s : lim <> 0 ->
  compar (base + Z.shiftr lim 1 * size) s = Done (c, s) -> c < 0 ->
  bsearch_loop compar size (Datatypes.S fuel) base lim s = bsearch_loop compar size fuel base (Z.shiftr lim 1) s.
Proof.
  intros Hl Hc Hn. cbn [bsearch_loop]. destruct (Z.eqb_spec lim 0); [done|]. cbn [negb]. rewrite (bind_Done _ _ _ _ _ Hc).
  destruct (Z.eqb_spec c 0); [lia|]. by destruct (Z.gtb_spec c 0); [lia|].
Qed.

Section bsearch_props.
Context {S : Type}.
Variable compar : Z -> M S Z.
Variable size : Z.
Variable base0 : Z.
Variable s : S.

(** The comparison with element [i] is [c i]. *)
Variable c : Z -> Z.
Variable n : Z.
Hypothesis compar_ok : forall i, 0 <= i < n -> compar (base0 + i * size) s = Done (c i, s).
Hypothesis fits : n < u32_modulus.

Lemma shiftr1 x : Z.shiftr x 1 = x / 2.
Proof. rewrite Z.shiftr_div_pow2 by lia. done. Qed.

(** The loop looks at elements [lo] to [lo + lim]: it finds one that is equal to the key,
    or none, when all to the left are smaller and all to the right larger, or when the
    elements that were compared say so. *)
Lemma bsearch_loop_ok (P : Z -> Prop) fuel : forall lo lim, 0 <= lo -> 0 <= lim -> lo + lim <= n -> lim < 2 ^ Z.of_nat fuel ->
  (forall i, P i -> lo <= i < lo + lim) ->
  (forall i j, lo <= i < lo + lim -> P j -> c i > 0 -> i < j) ->
  (forall i j, lo <= i < lo + lim -> P j -> c i < 0 -> j < i) ->
  (exists i, bsearch_loop compar size fuel (base0 + lo * size) lim s = Done (base0 + i * size, s) /\ lo <= i < lo + lim /\ c i = 0) \/
  (bsearch_loop compar size fuel (base0 + lo * size) lim s = Done (NULL, s) /\ forall i, ~ P i).
Proof.
  induction fuel as [|fuel IH]; intros lo lim Hlo Hlim Hn Hf HP Hgt Hlt; cbn [bsearch_loop].
  - assert (lim = 0) as -> by (simpl in Hf; lia). right. split; [done|]. intros i Hi. specialize (HP i Hi). lia.
  - destruct (Z.eqb_spec lim 0) as [->|Hl]; cbn [negb]; [right; split; [done|]; intros i Hi; specialize (HP i Hi); lia|].
    rewrite !shiftr1. pose proof (Z.div_mod lim 2 ltac:(lia)) as Hd. pose proof (Z.mod_pos_bound lim 2 ltac:(lia)) as Hm.
    rewrite Nat2Z.inj_succ, Z.pow_succ_r in Hf by lia.
    set (h := lim / 2) in *. replace (base0 + lo * size + h * size) with (base0 + (lo + h) * size) by lia.
    rewrite (bind_Done _ _ _ _ _ (compar_ok (lo + h) ltac:(lia))).
    destruct (Z.eqb_spec (c (lo + h)) 0) as [Hz|Hz]; [left; exists (lo + h); split; [done|split; [lia|done]]|].
    destruct (Z.gtb_spec (c (lo + h)) 0) as [Hg|Hg].
    + assert (Hh : (lim - 1) / 2 = lim - 1 - h).
      { pose proof (Z.div_mod (lim - 1) 2 ltac:(lia)). pose proof (Z.mod_pos_bound (lim - 1) 2 ltac:(lia)). lia. }
      replace (base0 + (lo + h) * size + size) with (base0 + (lo + h + 1) * size) by lia. rewrite Hh.
      destruct (IH (lo + h + 1) (lim - 1 - h)) as [(i & E & Hi & Hc)|[E Hno]]; [lia|lia|lia|lia|..].
      * intros i Hi. pose proof (HP i Hi). pose proof (Hgt (lo + h) i ltac:(lia) Hi ltac:(lia)). lia.
      * intros i j Hi. apply Hgt. lia.
      * intros i j Hi. apply Hlt. lia.
      * left. exists i. split; [done|split; [lia|done]].
      * by right.
    + destruct (IH lo h) as [(i & E & Hi & Hc)|[E Hno]]; [lia|lia|lia|lia|..].
      * intros i Hi. pose proof (HP i Hi). pose proof (Hlt (lo + h) i ltac:(lia) Hi ltac:(lia)). lia.
      * intros i j Hi. apply Hgt. lia.
      * intros i j Hi. apply Hlt. lia.
      * left. exists i. split; [done|split; [lia|done]].
      * by right.
Qed.
End bsearch_props.

(** ** The symbol table: correctness *)

(** The table holds [n] symbols at the addresses [t 0], [t 1], ..., in ascending order and in
    the lower half of the address space. *)
Record table_ok (k : ksyms) (t : Z -> Z) (n : Z) : Prop := {
  t_count : ksym_count k = n;
  t_size : 0 < n < 536870912;
  t_tbl : 0 < ksym_tbl k;
  t_words : forall i, 0 <= i < n -> words k !! (ksym_tbl k + i * sizeof_ksym) = Some (t i);
  t_sorted : forall i j, 0 <= i -> i < j -> j < n -> t i < t j;
  t_range : forall i, 0 <= i < n -> 0 <= t i < 2147483648;
}.

(** What [cmp_key] returns for the symbol [i]. *)
Definition key_order (t : Z -> Z) (n addr i : Z) : Z :=
  if i =? n - 1 then 0 else if (t i <=? addr) && (addr <? t (i + 1)) then 0 else addr - t i.

Section table.
Variables (k : ksyms) (t : Z -> Z) (n addr : Z).
Hypothesis Hk : table_ok k t n.
Hypothesis Haddr : 0 <= addr < 2147483648.

Lemma cmp_key_ok i : 0 <= i < n -> cmp_key addr (ksym_tbl k + i * sizeof_ksym) k = Done (key_order t n addr i, k).
Proof.
  intros Hi. destruct Hk as [Hc Hs Ht Hw Ho Hr]. unfold cmp_key, key_order.
  rewrite (bind_Done (gets ksym_tbl) _ k _ k eq_refl), (bind_Done ksym_total _ k _ k eq_refl), Hc.
  replace (ksym_tbl k + i * sizeof_ksym =? ksym_tbl k + (n - 1) * sizeof_ksym) with (i =? n - 1)
    by (unfold sizeof_ksym; destruct (Z.eqb_spec i (n - 1)), (Z.eqb_spec (ksym_tbl k + i * 8) (ksym_tbl k + (n - 1) * 8)); lia).
  destruct (Z.eqb_spec i (n - 1)); [done|].
  assert (El : forall j, 0 <= j < n -> sym_addr (ksym_tbl k + j * sizeof_ksym) k = Done (t j, k)) by (intros j Hj; unfold sym_addr, load; by rewrite Hw).
  rewrite (bind_Done _ _ _ _ _ (El i Hi)). replace (addr >=? t i) with (t i <=? addr) by (by rewrite Z.geb_leb).
  assert (Hs32 : s32 (addr - t i) = addr - t i) by (specialize (Hr i Hi); apply s32_id; lia).
  destruct (Z.leb_spec (t i) addr); cbn [andb].
  - replace (ksym_tbl k + i * sizeof_ksym + sizeof_ksym) with (ksym_tbl k + (i + 1) * sizeof_ksym) by (unfold sizeof_ksym; lia).
    rewrite (bind_Done _ _ k (addr <? t (i + 1)) k) by (by rewrite (bind_Done _ _ _ _ _ (El (i + 1) ltac:(lia)))).
    rewrite Hs32. by destruct (addr <? t (i + 1)).
  - rewrite (bind_Done (mret false) _ k false k eq_refl). by rewrite Hs32.
Qed.

(** The symbol of the address. *)
Definition symbol_of (i : Z) : Prop := 0 <= i < n /\ t i <= addr /\ (i < n - 1 -> addr < t (i + 1)).

Lemma sorted_le i j : 0 <= i -> i <= j -> j < n -> t i <= t j.
Proof. intros H1 H2 H3. destruct (Z.eq_dec i j) as [->|]; [lia|]. pose proof (t_sorted _ _ _ Hk i j). lia. Qed.

Lemma key_order_gt i j : 0 <= i < n -> symbol_of j -> key_order t n addr i > 0 -> i < j.
Proof.
  intros Hi (Hj & Hle & Hlt). unfold key_order. destruct (Z.eqb_spec i (n - 1)); [lia|].
  destruct (Z.leb_spec (t i) addr), (Z.ltb_spec addr (t (i + 1))); cbn [andb]; try lia. intros _.
  destruct (Z.lt_ge_cases i j) as [|Hge]; [done|]. pose proof (sorted_le (j + 1) (i + 1)). lia.
Qed.

Lemma key_order_lt i j : 0 <= i < n -> symbol_of j -> key_order t n addr i < 0 -> j < i.
Proof.
  intros Hi (Hj & Hle & Hlt). unfold key_order. destruct (Z.eqb_spec i (n - 1)); [lia|].
  destruct (Z.leb_spec (t i) addr), (Z.ltb_spec addr (t (i + 1))); cbn [andb]; try lia; intros _;
  (destruct (Z.lt_ge_cases j i) as [|Hge]; [done|]; pose proof (sorted_le i j); lia).
Qed.

Lemma key_order_zero i : 0 <= i < n -> key_order t n addr i = 0 -> i = n - 1 \/ symbol_of i.
Proof.
  intros Hi. unfold key_order. destruct (Z.eqb_spec i (n - 1)); [by left|]. right.
  destruct (Z.leb_spec (t i) addr), (Z.ltb_spec addr (t (i + 1))); cbn [andb] in *; [by split|..]; 
    (assert (addr = t i) by lia; pose proof (t_sorted _ _ _ Hk i (i + 1)); lia).
Qed.

(** An address that is not below the first of the symbols from [lo] on has its symbol there. *)
Lemma symbol_exists m : forall lo, Z.of_nat m = n - lo -> 0 <= lo < n -> t lo <= addr -> exists j, lo <= j /\ symbol_of j.
Proof.
  induction m as [|m IH]; intros lo Hm Hlo Ht; [lia|]. destruct (Z.eq_dec lo (n - 1)) as [E|E].
  - exists lo. split; [lia|]. split; [done|]. split; [done|lia].
  - destruct (Z.lt_ge_cases addr (t (lo + 1))) as [Hlt|Hge].
    + exists lo. split; [lia|]. by split.
    + destruct (IH (lo + 1)) as (j & Hj & Hs); [lia|lia|done|]. exists j. split; [lia|done].
Qed.

Lemma symbol_unique i j : symbol_of i -> symbol_of j -> i = j.
Proof.
  intros (Hi & Hi1 & Hi2) (Hj & Hj1 & Hj2). destruct (Z.lt_total i j) as [H|[H|H]]; [|done|];
    [pose proof (sorted_le (i + 1) j)|pose proof (sorted_le (j + 1) i)]; lia.
Qed.

(** The search among [lim] symbols from [lo] on, the symbol [j] of the address among them: it
    is found, but when it is the last but one of the table the last one may be met first. *)
Lemma ksym_loop_exact j fuel : symbol_of j -> forall lo lim, 0 <= lo -> lo + lim <= n -> lim < 2 ^ Z.of_nat fuel -> lo <= j < lo + lim ->
  exists i, bsearch_loop (cmp_key addr) sizeof_ksym fuel (ksym_tbl k + lo * sizeof_ksym) lim k = Done (ksym_tbl k + i * sizeof_ksym, k) /\
            (i = j \/ i = n - 1 /\ j = n - 2).
Proof.
  intros Hj. induction fuel as [|fuel IH]; intros lo lim Hlo Hn Hf Hr; [cbn in Hf; lia|].
  cbn [bsearch_loop]. destruct (Z.eqb_spec lim 0); [lia|]. cbn [negb]. rewrite !shiftr1.
  pose proof (Z.div_mod lim 2 ltac:(lia)). pose proof (Z.mod_pos_bound lim 2 ltac:(lia)). rewrite Nat2Z.inj_succ, Z.pow_succ_r in Hf by lia.
  set (h := lim / 2) in *. replace (ksym_tbl k + lo * sizeof_ksym + h * sizeof_ksym) with (ksym_tbl k + (lo + h) * sizeof_ksym) by lia.
  rewrite (bind_Done _ _ _ _ _ (cmp_key_ok (lo + h) ltac:(lia))). destruct (Z.eqb_spec (key_order t n addr (lo + h)) 0) as [Hz|Hz].
  - exists (lo + h). split; [done|]. destruct (key_order_zero (lo + h) ltac:(lia) Hz) as [E|Hs]; [destruct Hj as (? & _); lia|].
    left. by apply symbol_unique.
  - destruct (Z.gtb_spec (key_order t n addr (lo + h)) 0) as [Hg|Hg].
    + pose proof (key_order_gt (lo + h) j ltac:(lia) Hj ltac:(lia)).
      assert ((lim - 1) / 2 = lim - 1 - h) as -> by (pose proof (Z.div_mod (lim - 1) 2 ltac:(lia)); pose proof (Z.mod_pos_bound (lim - 1) 2 ltac:(lia)); lia).
      replace (ksym_tbl k + (lo + h) * sizeof_ksym + sizeof_ksym) with (ksym_tbl k + (lo + h + 1) * sizeof_ksym) by lia. apply IH; lia.
    + pose proof (key_order_lt (lo + h) j ltac:(lia) Hj ltac:(lia)). apply IH; lia.
Qed.

(** The search for an address below the first of at least three symbols fails. *)
Lemma ksym_search_below : 3 <= n -> addr < t 0 -> bsearch (cmp_key addr) sizeof_ksym (ksym_tbl k) n k = Done (NULL, k).
Proof.
  intros Hn Ha. assert (Hneg : forall i, 0 <= i < n - 1 -> key_order t n addr i < 0).
  { intros i Hi. pose proof (sorted_le 0 i). unfold key_order. destruct (Z.eqb_spec i (n - 1)); [lia|].
    destruct (Z.leb_spec (t i) addr); cbn [andb]; lia. }
  unfold bsearch. set (h := n / 2). pose proof (Z.div_mod n 2 ltac:(lia)). pose proof (Z.mod_pos_bound n 2 ltac:(lia)). pose proof (t_size _ _ _ Hk).
  assert (E : bsearch_loop (cmp_key addr) sizeof_ksym 32 (ksym_tbl k) n k = bsearch_loop (cmp_key addr) sizeof_ksym 31 (ksym_tbl k) h k).
  { pose proof (bsearch_loop_left (cmp_key addr) sizeof_ksym 31 (ksym_tbl k) n (key_order t n addr h) k ltac:(lia)) as E.
    rewrite shiftr1 in E. apply E; [apply cmp_key_ok; fold h; lia|apply Hneg; lia]. }
  rewrite E. destruct (bsearch_loop_ok (cmp_key addr) sizeof_ksym (ksym_tbl k) k (key_order t n addr) n cmp_key_ok (fun _ => False) 31 0 h)
    as [(i & _ & Hi & Hz)|[E' _]]; [lia|lia|lia|change (2 ^ Z.of_nat 31) with 2147483648; lia|done|done|done| |by rewrite Z.mul_0_l, Z.add_0_r in E'].
  pose proof (Hneg i ltac:(lia)). lia.
Qed.

(** What a look-up of the index [i] leaves. *)
Definition looked_up (i : Z) : ksyms := mk_ksyms (words k) (ksym_count k) (ksym_tbl k) (ksym_strings k) i.

Lemma looked_up_ok i : table_ok (looked_up i) t n.
Proof. by destruct Hk. Qed.

Lemma ksym_lookup_found i : 0 <= prev_index k < n ->
  (if t (prev_index k) <? addr then bsearch (cmp_key addr) sizeof_ksym (ksym_tbl k + prev_index k * sizeof_ksym) (n - prev_index k)
   else bsearch (cmp_key addr) sizeof_ksym (ksym_tbl k) n) k = Done (ksym_tbl k + i * sizeof_ksym, k) -> 0 <= i ->
  ksym_lookup addr k = Done (i, looked_up i).
Proof.
  intros Hp E Hi. pose proof Hk as [Hc Hz Ht Hw Ho Hr]. unfold ksym_lookup.
  rewrite (bind_Done (gets ksym_tbl) _ k _ k eq_refl), (bind_Done ksym_total _ k _ k eq_refl), (bind_Done (gets prev_index) _ k _ k eq_refl).
  rewrite (bind_Done (sym_addr _) _ k (t (prev_index k)) k) by (unfold sym_addr, load; by rewrite Hw). rewrite Hc.
  rewrite (bind_Done _ _ _ _ _ E). destruct (Z.eqb_spec (ksym_tbl k + i * sizeof_ksym) NULL); [unfold NULL, sizeof_ksym in *; lia|].
  replace ((ksym_tbl k + i * sizeof_ksym - ksym_tbl k) / sizeof_ksym) with i; [done|].
  replace (ksym_tbl k + i * sizeof_ksym - ksym_tbl k) with (i * sizeof_ksym) by lia. by rewrite Z.div_mul.
Qed.

Lemma ksym_lookup_ok : 0 <= prev_index k < n -> t 0 <= addr ->
  exists i j, ksym_lookup addr k = Done (i, looked_up i) /\ symbol_of j /\ (i = j \/ i = n - 1 /\ j = n - 2).
Proof.
  intros Hp Ha. pose proof (t_size _ _ _ Hk) as Hs. destruct (Z.ltb_spec (t (prev_index k)) addr) as [Hl|Hl].
  - destruct (symbol_exists (Z.to_nat (n - prev_index k)) (prev_index k)) as (j & Hj & Hsym); [lia|lia|lia|]. pose proof Hsym as (? & _).
    destruct (ksym_loop_exact j 32 Hsym (prev_index k) (n - prev_index k)) as (i & E & Hi); [lia|lia|change (2 ^ Z.of_nat 32) with 4294967296; lia|lia|].
    exists i, j. split; [|done]. apply ksym_lookup_found; [done| |lia]. by rewrite (proj2 (Z.ltb_lt _ _) Hl).
  - destruct (symbol_exists (Z.to_nat n) 0) as (j & Hj & Hsym); [lia|lia|lia|]. pose proof Hsym as (? & _).
    destruct (ksym_loop_exact j 32 Hsym 0 n) as (i & E & Hi); [lia|lia|change (2 ^ Z.of_nat 32) with 4294967296; lia|lia|].
    exists i, j. split; [|done]. rewrite Z.mul_0_l, Z.add_0_r in E. apply ksym_lookup_found; [done| |lia]. by rewrite (proj2 (Z.ltb_ge _ _) Hl).
Qed.

Lemma ksym_lookup_below : 3 <= n -> 0 <= prev_index k < n -> addr < t 0 -> ksym_lookup addr k = Done (-1, k).
Proof.
  intros Hn Hp Ha. pose proof Hk as [Hc Hz Ht Hw Ho Hr]. pose proof (sorted_le 0 (prev_index k)). unfold ksym_lookup.
  rewrite (bind_Done (gets ksym_tbl) _ k _ k eq_refl), (bind_Done ksym_total _ k _ k eq_refl), (bind_Done (gets prev_index) _ k _ k eq_refl).
  rewrite (bind_Done (sym_addr _) _ k (t (prev_index k)) k) by (unfold sym_addr, load; by rewrite Hw). rewrite Hc.
  destruct (Z.ltb_spec (t (prev_index k)) addr); [lia|]. by rewrite (bind_Done _ _ _ _ _ (ksym_search_below Hn Ha)).
Qed.
End table.

(** ** Properties *)

(** C38. [bsearch] returns, and it finds the key exactly when the array has it: for an array in
    which the elements smaller than the key come before the ones equal to it and these
    before the larger ones, the result is the address of an element that is equal to the
    key, or [NULL] when there is none. *)
Theorem bsearch_finds {S} compar size base (s : S) c n :
  (forall i, 0 <= i < n -> compar (base + i * size) s = Done (c i, s)) ->
  0 <= n < u32_modulus ->
  (forall i j, 0 <= i < n -> 0 <= j < n -> c j = 0 -> c i > 0 -> i < j) ->
  (forall i j, 0 <= i < n -> 0 <= j < n -> c j = 0 -> c i < 0 -> j < i) ->
  (exists i, 0 <= i < n /\ c i = 0 /\ bsearch compar size base n s = Done (base + i * size, s)) \/
  ((forall i, 0 <= i < n -> c i <> 0) /\ bsearch compar size base n s = Done (NULL, s)).
Proof.
  intros Hc Hn Hgt Hlt. unfold bsearch.
  destruct (bsearch_loop_ok compar size base s c n Hc (fun i => 0 <= i < n /\ c i = 0) 32 0 n) as [(i & E & Hi & Hz)|[E Hno]];
    [lia|lia|lia|change (2 ^ Z.of_nat 32) with u32_modulus; lia|intros i [? _]; lia|
     intros i j Hi [Hj Hz]; by apply Hgt|intros i j Hi [Hj Hz]; by apply Hlt|..]; rewrite Z.mul_0_l, Z.add_0_r in E.
  - left. by exists i.
  - right. split; [|done]. intros i Hi Hz. by apply (Hno i).
Qed.

(** For an address that is not below the first symbol, [ksym_lookup] finds the symbol that
    contains the address, whichever index the last look-up left in [prev_index]; only when that
    symbol is the last but one of the table can the result be the last one instead. *)
Theorem ksym_lookup_finds k t n addr :
  table_ok k t n -> 0 <= prev_index k < n -> t 0 <= addr < 2147483648 ->
  exists i k', ksym_lookup addr k = Done (i, k') /\ table_ok k' t n /\ prev_index k' = i /\ 0 <= i < n /\
               (symbol_of t n addr i \/ i = n - 1 /\ symbol_of t n addr (n - 2)).
Proof.
  intros Hk Hp Ha. pose proof (t_range _ _ _ Hk 0 ltac:(lia)). destruct (ksym_lookup_ok k t n addr Hk ltac:(lia) Hp ltac:(lia)) as (i & j & E & Hj & Hi).
  exists i, (looked_up k i). split; [done|]. split; [by apply looked_up_ok|]. split; [done|]. pose proof Hj as (? & _).
  destruct Hi as [->|[-> ->]]; [split; [done|by left]|split; [lia|by right]].
Qed.

(** [cmp_key] takes the last symbol to contain each address it is asked about: in a
    table of two symbols, an address of the first symbol is attributed to the second. *)
Theorem ksym_lookup_last_symbol k t addr :
  table_ok k t 2 -> prev_index k = 0 -> t 0 <= addr < t 1 ->
  exists k', ksym_lookup addr k = Done (1, k').
Proof.
  intros Hk Hp Ha. pose proof Hk as [Hc Hz Ht Hw Ho Hr]. pose proof (Hr 0 ltac:(lia)). pose proof (Hr 1 ltac:(lia)).
  exists (mk_ksyms (words k) (ksym_count k) (ksym_tbl k) (ksym_strings k) 1).
  assert (E : bsearch (cmp_key addr) sizeof_ksym (ksym_tbl k) 2 k = Done (ksym_tbl k + 1 * sizeof_ksym, k)).
  { apply (bsearch_loop_hit (cmp_key addr) sizeof_ksym 31 (ksym_tbl k) 2 k); [done|].
    exact (cmp_key_ok k t 2 addr Hk ltac:(lia) 1 ltac:(lia)). }
  unfold ksym_lookup. rewrite (bind_Done (gets ksym_tbl) _ k _ k eq_refl), (bind_Done ksym_total _ k _ k eq_refl), (bind_Done (gets prev_index) _ k _ k eq_refl).
  rewrite Hp, Hc, (bind_Done (sym_addr _) _ k (t 0) k) by (unfold sym_addr, load; by rewrite Hw).
  rewrite (bind_Done _ _ k (ksym_tbl k + 1 * sizeof_ksym) k).
  2: { rewrite Z.mul_0_l, Z.add_0_r, Z.sub_0_r. destruct (t 0 <? addr); exact E. }
  destruct (Z.eqb_spec (ksym_tbl k + 1 * sizeof_ksym) NULL); [unfold NULL, sizeof_ksym in *; lia|].
  replace ((ksym_tbl k + 1 * sizeof_ksym - ksym_tbl k) / sizeof_ksym) with 1; [by rewrite <- Hc|].
  replace (ksym_tbl k + 1 * sizeof_ksym - ksym_tbl k) with 8 by (unfold sizeof_ksym; lia). done.
Qed.

(** *** Witnesses *)

Definition witness_ksyms (n : Z) : ksyms :=
  mk_ksyms (list_to_map ((fun i => (1000 + i * 8, 100 * (i + 1))) <$> seqZ 0 6)) n 1000 5000 0.

Lemma witness_table n : 0 < n <= 6 -> table_ok (witness_ksyms n) (fun i => 100 * (i + 1)) n.
Proof.
  intros Hn. split; [done|lia|done| |intros; lia|intros; lia]. intros i Hi.
  assert (i = 0 \/ i = 1 \/ i = 2 \/ i = 3 \/ i = 4 \/ i = 5) as [-> |[-> |[-> |[-> |[-> | ->]]]]] by lia; reflexivity.
Qed.

Lemma bsearch_finds_witness :
  (exists i, 0 <= i < 5 /\ 7 - (2 * i + 1) = 0 /\ bsearch (fun p => mret (7 - p) : M unit Z) 2 1 5 tt = Done (1 + i * 2, tt)) \/
  ((forall i, 0 <= i < 5 -> 7 - (2 * i + 1) <> 0) /\ bsearch (fun p => mret (7 - p) : M unit Z) 2 1 5 tt = Done (NULL, tt)).
Proof.
  apply (bsearch_finds (fun p => mret (7 - p) : M unit Z) 2 1 tt (fun i => 7 - (2 * i + 1)) 5);
    [intros i Hi; unfold mret, M_ret; do 2 f_equal; lia|unfold u32_modulus; lia|intros; lia|intros; lia].
Defined.

Lemma ksym_lookup_finds_witness :
  exists i k', ksym_lookup 299 (witness_ksyms 5) = Done (i, k') /\ (symbol_of (fun i => 100 * (i + 1)) 5 299 i \/ i = 4 /\ symbol_of (fun i => 100 * (i + 1)) 5 299 3).
Proof.
  destruct (ksym_lookup_finds (witness_ksyms 5) (fun i => 100 * (i + 1)) 5 299) as (i & k' & E & _ & _ & _ & H);
    [apply witness_table; lia|simpl; lia|lia|]. exists i, k'. split; [exact E|exact H].
Defined.

Lemma ksym_lookup_last_symbol_witness : exists k', ksym_lookup 150 (witness_ksyms 2) = Done (1, k').
Proof. apply (ksym_lookup_last_symbol (witness_ksyms 2) (fun i => 100 * (i + 1)) 150); [apply witness_table; lia|done|lia]. Defined.
