(* ===== verification/Queue.v ===== *)
(** * The byte queue

    Models [kernel/lib/queue.c] and [include/lib/queue.h]: the queue of the debug
    port's driver.  The control block keeps the buffer, the index [top] of the slot
    popped last, the index [end] of the slot pushed last and the size of the buffer.
    The abstract queue is a list; the ring has [size - 1] slots and tells
    [size - 2] elements from none. *)

From S2P Require Import Prelude.

(** ** Data *)

Definition QUEUE_OK : Z := 0.
Definition QUEUE_OVERFLOW : Z := 1.
Definition QUEUE_EMPTY : Z := 2.

Record queue_t := Queue {
  data : list Z;
  top : Z;
  end_ : Z;
  size : Z;
}.

(** ** Operations *)

Definition queue_length (q : queue_t) : Z :=
  if end_ q >=? top q then sub32 (end_ q) (top q) else sub32 (add32 (size q) (top q)) (end_ q).

Definition queue_init (addr : list Z) (sz : Z) : M queue_t Z := fun _ => Done (QUEUE_OK, Queue addr 0 0 sz).

(** [++x; if (x == size - 1) x = 0;] *)
Definition advance (q : queue_t) (x : Z) : Z :=
  let x := add32 x 1 in if x =? sub32 (size q) 1 then 0 else x.

Definition queue_push (element : Z) : M queue_t Z := fun q =>
  if queue_length q =? size q then Done (QUEUE_OVERFLOW, q)
  else
    let e := advance q (end_ q) in
    match zinsert e element (data q) with
    | Some d => Done (QUEUE_OK, Queue d (top q) e (size q))
    | None => Fault
    end.

Definition queue_is_empty : M queue_t bool := fun q => Done (queue_length q =? 0, q).

(** The result and, unless the queue is empty, the element stored through the pointer. *)
Definition queue_pop : M queue_t (Z * option Z) := fun q =>
  if queue_length q =? 0 then Done (QUEUE_EMPTY, None, q)
  else
    let t := advance q (top q) in
    match zlookup (data q) t with
    | Some e => Done (QUEUE_OK, Some e, Queue (data q) t (end_ q) (size q))
    | None => Fault
    end.

(** ** The abstract queue *)

(** The slot [i] places after slot [t] of a ring of [r] slots. *)
Definition slot (r t i : Z) : Z := (t + i) mod r.

(** The elements, the oldest first. *)
Record holds (q : queue_t) (l : list Z) : Prop := {
  h_size : 2 <= size q < 2147483648;
  h_data : Z.of_nat (length (data q)) = size q;
  h_top : 0 <= top q < size q - 1;
  h_room : Z.of_nat (length l) <= size q - 2;
  h_end : end_ q = slot (size q - 1) (top q) (Z.of_nat (length l));
  h_elems : forall i x, l !! i = Some x -> zlookup (data q) (slot (size q - 1) (top q) (Z.of_nat i + 1)) = Some x;
}.

(** ** Lemmas *)

Lemma slot_range r t i : 0 < r -> 0 <= slot r t i < r.
Proof. intros H. by apply Z.mod_pos_bound. Qed.

Lemma slot_cases r t i : 0 <= t < r -> 0 <= i < r -> slot r t i = if t + i <? r then t + i else t + i - r.
Proof.
  intros Ht Hi. unfold slot. destruct (Z.ltb_spec (t + i) r); [apply Z.mod_small; lia|].
  symmetry. apply (Z.mod_unique _ _ 1); lia.
Qed.

Lemma slot_slot r t i j : slot r (slot r t i) j = slot r t (i + j).
Proof. unfold slot. rewrite Zplus_mod_idemp_l. f_equal. lia. Qed.

Lemma slot_inj r t i j : 0 <= t < r -> 0 <= i < r -> 0 <= j < r -> slot r t i = slot r t j -> i = j.
Proof.
  intros Ht Hi Hj. rewrite !slot_cases by done. destruct (Z.ltb_spec (t + i) r), (Z.ltb_spec (t + j) r); lia.
Qed.

Lemma advance_slot q x : 2 <= size q < u32_modulus -> 0 <= x < size q - 1 -> advance q x = slot (size q - 1) x 1.
Proof.
  intros Hs Hx. unfold advance, add32, sub32. rewrite !wrap32_small by (unfold is_u32; lia).
  destruct (Z.eq_dec (size q) 2) as [E|E].
  - assert (x = 0) as -> by lia. rewrite E. done.
  - rewrite slot_cases by lia. destruct (Z.eqb_spec (x + 1) (size q - 1)), (Z.ltb_spec (x + 1) (size q - 1)); lia.
Qed.

(** The computed length is the number of elements, or larger than the buffer when the
    elements wrap around its end. *)
Lemma queue_length_ok q l : holds q l ->
  queue_length q = Z.of_nat (length l) \/ (size q < queue_length q /\ l <> []).
Proof.
  intros [Hs Hd Ht Hr He Hl]. unfold queue_length, sub32, add32. rewrite slot_cases in He by lia.
  destruct (Z.ltb_spec (top q + Z.of_nat (length l)) (size q - 1)).
  - left. destruct (Z.geb_spec (end_ q) (top q)); [|lia]. rewrite wrap32_small; unfold is_u32, u32_modulus; lia.
  - right. destruct (Z.geb_spec (end_ q) (top q)); [lia|].
    rewrite (wrap32_small (size q + top q)) by (unfold is_u32, u32_modulus; lia).
    rewrite wrap32_small by (unfold is_u32, u32_modulus; lia). split; [lia|]. intros ->. simpl in *. lia.
Qed.

Lemma queue_length_empty q l : holds q l -> (queue_length q =? 0) = bool_decide (l = []).
Proof.
  intros H. pose proof (queue_length_ok q l H) as Hq. pose proof (h_size _ _ H).
  case_bool_decide as E; [apply Z.eqb_eq; subst; simpl in Hq; naive_solver|]. apply Z.eqb_neq.
  destruct l as [|x l]; [done|]. simpl in Hq. lia.
Qed.

Lemma queue_length_size q l : holds q l -> (queue_length q =? size q) = false.
Proof. intros H. pose proof (queue_length_ok q l H). destruct H. apply Z.eqb_neq. lia. Qed.

Lemma queue_init_holds addr sz q : 2 <= sz < 2147483648 -> Z.of_nat (length addr) = sz ->
  exists q', queue_init addr sz q = Done (QUEUE_OK, q') /\ holds q' [] /\ size q' = sz.
Proof. intros Hs Hl. eexists. split; [reflexivity|]. split; [|done]. split; simpl; [done|done|lia|lia| |by intros]. unfold slot. rewrite Z.mod_small; lia. Qed.

Lemma queue_push_holds q l e : holds q l -> Z.of_nat (length l) < size q - 2 ->
  exists q', queue_push e q = Done (QUEUE_OK, q') /\ holds q' (l ++ [e]) /\ size q' = size q.
Proof.
  intros H Hroom. pose proof H as [Hs Hd Ht Hr He Hl]. unfold queue_push. rewrite (queue_length_size _ _ H).
  rewrite advance_slot by (unfold u32_modulus; rewrite ?He; pose proof (slot_range (size q - 1) (top q) (Z.of_nat (length l))); lia).
  rewrite He, slot_slot. pose proof (slot_range (size q - 1) (top q) (Z.of_nat (length l) + 1) ltac:(lia)) as Hsl.
  rewrite zinsert_Some by lia. eexists. split; [reflexivity|]. split; [|done].
  split; simpl; [done|by rewrite length_insert|done|rewrite length_app; simpl; lia|rewrite length_app; simpl; f_equal; lia|].
  intros i x Hx. apply lookup_app_Some in Hx as [Hx|[Hge Hx]].
  - rewrite zlookup_insert_ne; [by apply Hl|lia|]. apply lookup_lt_Some in Hx. intros E. apply slot_inj in E; lia.
  - apply list_lookup_singleton_Some in Hx as [E <-]. replace i with (length l) by lia. apply zlookup_insert_eq. lia.
Qed.

Lemma queue_pop_holds q x l : holds q (x :: l) ->
  exists q', queue_pop q = Done (QUEUE_OK, Some x, q') /\ holds q' l /\ size q' = size q.
Proof.
  intros H. pose proof H as [Hs Hd Ht Hr He Hl]. unfold queue_pop. rewrite (queue_length_empty _ _ H), bool_decide_eq_false_2 by done.
  rewrite advance_slot by (unfold u32_modulus; lia). pose proof (Hl 0%nat x eq_refl) as Hx. simpl in Hr, He. change (Z.of_nat 0 + 1) with 1 in Hx. rewrite Hx.
  eexists. split; [reflexivity|]. split; [|done]. pose proof (slot_range (size q - 1) (top q) 1 ltac:(lia)).
  split; simpl; [done|done|done|lia|rewrite slot_slot, He; f_equal; lia|].
  intros i y Hy. rewrite slot_slot. rewrite <- (Hl (S i) y Hy). f_equal. f_equal. lia.
Qed.

Lemma queue_pop_empty q : holds q [] -> queue_pop q = Done (QUEUE_EMPTY, None, q).
Proof. intros H. unfold queue_pop. by rewrite (queue_length_empty _ _ H). Qed.

(** A push to the full ring. *)
Lemma queue_push_full q l e : holds q l -> Z.of_nat (length l) = size q - 2 ->
  exists q', queue_push e q = Done (QUEUE_OK, q') /\ holds q' [] /\ size q' = size q.
Proof.
  intros H Hfull. pose proof H as [Hs Hd Ht Hr He Hl]. unfold queue_push. rewrite (queue_length_size _ _ H).
  rewrite advance_slot by (unfold u32_modulus; rewrite ?He; pose proof (slot_range (size q - 1) (top q) (Z.of_nat (length l))); lia).
  rewrite He, slot_slot, Hfull. pose proof (slot_range (size q - 1) (top q) (size q - 2 + 1) ltac:(lia)).
  rewrite zinsert_Some by lia. eexists. split; [reflexivity|]. split; [|done].
  split; simpl; [done|by rewrite length_insert|done|lia| |by intros].
  unfold slot. replace (top q + (size q - 2 + 1)) with (top q + 0 + 1 * (size q - 1)) by lia. rewrite Z.mod_add by lia. rewrite (Z.mod_small (top q + 0)) by lia. rewrite Z.mod_small; lia.
Qed.

(** ** Refinement *)

Inductive op := Push (e : Z) | Pop.

(** One call, and the calls of a program: what each returns. *)
Definition call (o : op) : M queue_t (Z * option Z) :=
  match o with
  | Push e => r ← queue_push e; mret (r, None)
  | Pop => queue_pop
  end.

Fixpoint calls (os : list op) : M queue_t (list (Z * option Z)) :=
  match os with
  | [] => mret []
  | o :: os => r ← call o; rs ← calls os; mret (r :: rs)
  end.

(** The abstract queue of capacity [n], which refuses a push when it is full. *)
Definition spec_call (n : Z) (o : op) (l : list Z) : option ((Z * option Z) * list Z) :=
  match o, l with
  | Push e, _ => if Z.of_nat (length l) <? n then Some ((QUEUE_OK, None), l ++ [e]) else None
  | Pop, [] => Some ((QUEUE_EMPTY, None), [])
  | Pop, x :: l => Some ((QUEUE_OK, Some x), l)
  end.

(** The results of the calls while no push finds the abstract queue full. *)
Fixpoint spec_calls (n : Z) (os : list op) (l : list Z) : option (list (Z * option Z) * list Z) :=
  match os with
  | [] => Some ([], l)
  | o :: os => match spec_call n o l with
               | Some (r, l) => match spec_calls n os l with Some (rs, l) => Some (r :: rs, l) | None => None end
               | None => None
               end
  end.

Lemma call_refines q l o r l' : holds q l -> spec_call (size q - 2) o l = Some (r, l') ->
  exists q', call o q = Done (r, q') /\ holds q' l' /\ size q' = size q.
Proof.
  intros H Hs. destruct o as [e|]; simpl in Hs.
  - destruct (Z.ltb_spec (Z.of_nat (length l)) (size q - 2)); [|done]. simplify_eq.
    destruct (queue_push_holds q l e H ltac:(lia)) as (q' & E & H'). exists q'. split; [|done]. unfold call. by rewrite (bind_Done _ _ _ _ _ E).
  - destruct l as [|x l]; simplify_eq.
    + exists q. split; [by apply queue_pop_empty|done].
    + by apply queue_pop_holds.
Qed.

Lemma calls_refines os : forall q l rs l', holds q l -> spec_calls (size q - 2) os l = Some (rs, l') ->
  exists q', calls os q = Done (rs, q') /\ holds q' l' /\ size q' = size q.
Proof.
  induction os as [|o os IH]; intros q l rs l' H Hs; cbn [spec_calls] in Hs; [simplify_eq; by exists q|].
  destruct (spec_call (size q - 2) o l) as [[r l1]|] eqn:E1; [|done].
  destruct (call_refines q l o r l1 H E1) as (q1 & C1 & H1 & Hz1). rewrite <- Hz1 in Hs.
  destruct (spec_calls (size q1 - 2) os l1) as [[rs1 l2]|] eqn:E2; [|done]. simplify_eq.
  destruct (IH q1 l1 rs1 l' H1 E2) as (q2 & C2 & H2 & Hz2). exists q2. split; [|split; [done|congruence]].
  cbn [calls]. rewrite (bind_Done _ _ _ _ _ C1). by rewrite (bind_Done _ _ _ _ _ C2).
Qed.

(** ** Properties *)

(** The queue over a buffer of [sz] bytes, initialised by [queue_init], implements the
    first-in first-out queue of capacity [sz - 2]: for each sequence of calls in which no
    push finds the abstract queue full, each call returns what the abstract queue does (the
    result code and the popped byte), and no index leaves the buffer. *)
Theorem queue_refines_fifo addr sz q0 os rs l :
  2 <= sz < 2147483648 -> Z.of_nat (length addr) = sz ->
  spec_calls (sz - 2) os [] = Some (rs, l) ->
  exists q, (queue_init addr sz;; calls os) q0 = Done (rs, q) /\ holds q l.
Proof.
  intros Hs Hl Hc. destruct (queue_init_holds addr sz q0 Hs Hl) as (q1 & E & H & Hz).
  rewrite (bind_Done _ _ _ _ _ E). rewrite <- Hz in Hc.
  destruct (calls_refines os q1 [] rs l H Hc) as (q & Eq & Hq & _). by exists q.
Qed.

(** [queue_push] does not report an overflow.  A push to the queue that holds
    [size - 2] bytes returns [QUEUE_OK] and leaves the queue empty: the bytes it held and
    the pushed one are lost, although the interface promises [QUEUE_OVERFLOW]. *)
Theorem queue_push_never_overflows q l e :
  holds q l ->
  exists q', queue_push e q = Done (QUEUE_OK, q') /\
             holds q' (if Z.of_nat (length l) <? size q - 2 then l ++ [e] else []).
Proof.
  intros H. pose proof (h_room _ _ H). destruct (Z.ltb_spec (Z.of_nat (length l)) (size q - 2)).
  - destruct (queue_push_holds q l e H ltac:(lia)) as (q' & E & H' & _). by exists q'.
  - destruct (queue_push_full q l e H ltac:(lia)) as (q' & E & H' & _). by exists q'.
Qed.

Lemma queue_refines_fifo_witness :
  exists q, (queue_init [0; 0; 0; 0] 4;; calls [Push 7; Push 8; Pop; Push 9; Pop; Pop; Pop]) (Queue [] 9 9 9) =
            Done ([(0, None); (0, None); (0, Some 7); (0, None); (0, Some 8); (0, Some 9); (2, None)], q) /\ holds q [].
Proof. apply (queue_refines_fifo _ 4 _ _ _ []); [lia|reflexivity|reflexivity]. Defined.

Lemma queue_push_never_overflows_witness :
  exists q', queue_push 9 (Queue [0; 7; 8; 0] 0 2 4) = Done (QUEUE_OK, q') /\ holds q' [].
Proof.
  apply (queue_push_never_overflows (Queue [0; 7; 8; 0] 0 2 4) [7; 8] 9). split; simpl; [lia|done|lia|lia|done|].
  intros i x Hi. destruct i as [|[|i]]; simplify_eq/=; done.
Defined.
