(* ===== verification/Stdio.v ===== *)
(** * Formatted output

    Models [kernel/lib/stdio.c].  The state is the sequence of bytes given to
    [__l4_putchar].  A string is the list of its bytes without the final zero; [char] is
    unsigned.  The variable arguments are a list of 32-bit and 64-bit values; [strings] is
    the string at an address. *)

From S2P Require Import Prelude.

Abbreviation output := (list Z).

(** Characters. *)
Definition chr_nl : Z := 10.
Definition chr_cr : Z := 13.
Definition chr_space : Z := 32.
Definition chr_percent : Z := 37.
Definition chr_0 : Z := 48.
Definition chr_9 : Z := 57.

Definition putchar (c : Z) : M output unit := modify (fun o => o ++ [c mod 256]).

(** ** Strings *)

Fixpoint l4_puts (str : list Z) : M output unit :=
  match str with
  | [] => mret tt
  | c :: str => when (c =? chr_nl) (putchar chr_cr);; putchar c;; l4_puts str
  end.

(** [n] times [__l4_putchar(c)] *)
Fixpoint repeat_char (n : nat) (c : Z) : M output unit :=
  match n with
  | O => mret tt
  | S n => putchar c;; repeat_char n c
  end.

Fixpoint l4_puts_x (str : list Z) (width pad : Z) : M output unit :=
  match str with
  | [] => repeat_char (Z.to_nat width) pad
  | c :: str => when (c =? chr_nl) (putchar chr_cr);; putchar c;; l4_puts_x str (width - 1) pad
  end.

(** ** Numbers *)

Definition hexchars (x : Z) : Z := if x <? 10 then 48 + x else 97 + (x - 10).

(** The first loop of [__l4_put_hex]: the number of digits.  The shift by 32 of the last test
    gives 0 on this processor. *)
Fixpoint hex_width (fuel : nat) (val nwidth : Z) : Z :=
  match fuel with
  | O => nwidth
  | S fuel => if truth (Z.shiftr val (4 * nwidth)) && (nwidth <? 8) then hex_width fuel val (nwidth + 1) else nwidth
  end.

(** [for (i = 4 * (nwidth - 1); i >= 0; i -= 4) __l4_putchar(hexchars((val >> i) & 0xF));], the
    last [k] turns. *)
Fixpoint hex_digits (k : nat) (val : Z) : M output unit :=
  match k with
  | O => mret tt
  | S k => putchar (hexchars (Z.land (Z.shiftr val (4 * Z.of_nat k)) 15));; hex_digits k val
  end.

Definition l4_put_hex (val width pad : Z) : M output Z :=
  let nwidth := hex_width 9 val 0 in
  let nwidth := if nwidth =? 0 then 1 else nwidth in
  let width := if (width =? 0) && (width <? nwidth) then nwidth else width in
  repeat_char (Z.to_nat (width - nwidth)) pad;;
  hex_digits (Z.to_nat nwidth) val;;
  mret (Z.max 0 (width - nwidth) + nwidth).

(** The first loop of [__l4_put_dec]: the divisor and the number of digits. *)
Fixpoint dec_digits (fuel : nat) (val divisor digits : Z) : Z * Z :=
  match fuel with
  | O => (divisor, digits)
  | S fuel => if val / divisor >=? 10 then dec_digits fuel val (mul32 divisor 10) (digits + 1) else (divisor, digits)
  end.

(** [do { ... } while (divisor /= 10);] *)
Fixpoint put_digits (fuel : nat) (val divisor : Z) : M output unit :=
  match fuel with
  | O => fuel_out
  | S fuel =>
      putchar ((val / divisor) mod 10 + chr_0);;
      if truth (divisor / 10) then put_digits fuel val (divisor / 10) else mret tt
  end.

(** A 32-bit number has at most ten digits. *)
Definition l4_put_dec (val width pad : Z) : M output unit :=
  let '(divisor, digits) := dec_digits 10 val 1 1 in
  repeat_char (Z.to_nat (width - digits)) pad;;
  put_digits 10 val divisor.

(** ** [__l4_vprintf] *)

(** An argument of the call. *)
Inductive va_t := U32 (x : Z) | U64 (x : Z).

Record spec := mk_spec {
  mode : bool;
  width : Z;
  pad : Z;
  size : Z;
  va : list va_t;
}.

Section vprintf.
Variable strings : Z -> list Z.

Definition va_arg32 (va : list va_t) : M output (Z * list va_t) :=
  match va with U32 x :: va => mret (x, va) | _ => fault end.
Definition va_arg64 (va : list va_t) : M output (Z * list va_t) :=
  match va with U64 x :: va => mret (x, va) | _ => fault end.

(** [(size == 32) ? va_arg(va, uint32_t) : va_arg(va, uint64_t)], converted to the type of
    the parameter. *)
Definition va_number (s : spec) : M output (Z * list va_t) :=
  if size s =? 32 then va_arg32 (va s)
  else r ← va_arg64 (va s); mret (wrap32 r.1, r.2).

(** The cases of the [switch], by the code of the character. *)
Definition specifier (c : Z) (s : spec) : M output spec :=
  if c =? 99 (* c *) then
    r ← va_arg32 (va s); putchar r.1;; mret (mk_spec false (width s) (pad s) (size s) r.2)
  else if c =? 115 (* s *) then
    r ← va_arg32 (va s); l4_puts_x (strings r.1) (width s) (pad s);; mret (mk_spec false (width s) (pad s) (size s) r.2)
  else if (c =? 108) || (c =? 76) (* l L *) then mret (mk_spec (mode s) (width s) (pad s) 64 (va s))
  else if (c =? 100) || (c =? 68) (* d D *) then
    r ← va_number s; l4_put_dec r.1 (width s) (pad s);; mret (mk_spec false (width s) (pad s) (size s) r.2)
  else if (c =? 112) || (c =? 116) (* p t *) then
    r ← va_arg32 (va s); l4_put_hex r.1 8 chr_0;; mret (mk_spec false 8 chr_0 32 r.2)
  else if (c =? 120) || (c =? 88) (* x X *) then
    r ← va_number s; l4_put_hex r.1 (width s) (pad s);; mret (mk_spec false (width s) (pad s) (size s) r.2)
  else if c =? chr_percent then putchar chr_percent;; mret (mk_spec false (width s) (pad s) (size s) (va s))
  else if c =? chr_0 then mret (if width s =? 0 then mk_spec (mode s) (width s) chr_0 (size s) (va s) else s)
  else if c =? chr_space then mret (mk_spec (mode s) (width s) chr_space (size s) (va s))
  else mret s.

(** One turn of the loop. *)
Definition vprintf_char (c : Z) (s : spec) : M output spec :=
  if c =? chr_percent then mret (mk_spec true 0 chr_space 32 (va s))
  else if negb (mode s) then when (c =? chr_nl) (putchar chr_cr);; putchar c;; mret s
  else
    s ← specifier c s;
    mret (if (chr_0 <=? c) && (c <=? chr_9) then mk_spec (mode s) (s32 (width s * 10 + (c - chr_0))) (pad s) (size s) (va s) else s).

Fixpoint vprintf_loop (fmt : list Z) (s : spec) : M output unit :=
  match fmt with
  | [] => mret tt
  | c :: fmt => s ← vprintf_char c s; vprintf_loop fmt s
  end.

Definition l4_vprintf (fmt : list Z) (va : list va_t) : M output unit :=
  vprintf_loop fmt (mk_spec false 0 chr_space 16 va).
End vprintf.

(** [%08x and %3d] *)
Example vprintf_example :
  l4_vprintf (fun _ => []) [37; 48; 56; 120; 32; 37; 51; 100; 10] [U32 48879; U32 7] [] =
  Done (tt, [48; 48; 48; 48; 98; 101; 101; 102; 32; 32; 32; 55; 13; 10]).
Proof. reflexivity. Qed.

(** ** Lemmas *)

Definition is_char (c : Z) : Prop := 0 <= c < 256.

Lemma putchar_ok {A} c o (k : M output A) : is_char c -> (putchar c;; k) o = k (o ++ [c]).
Proof. intros H. unfold putchar, modify, mbind, M_bind. by rewrite Z.mod_small. Qed.

Lemma repeat_char_ok c n : is_char c -> forall o, repeat_char n c o = Done (tt, o ++ replicate n c).
Proof.
  intros Hc. induction n as [|n IH]; intros o; cbn [repeat_char replicate]; [by rewrite app_nil_r|].
  rewrite putchar_ok, IH by done. by rewrite <- app_assoc.
Qed.

(** What a text shows: a carriage return before each new line. *)
Definition crnl (c : Z) : list Z := if c =? chr_nl then [chr_cr; chr_nl] else [c].

Lemma put_crnl {A} c o (k : M output A) : is_char c -> (when (c =? chr_nl) (putchar chr_cr);; putchar c;; k) o = k (o ++ crnl c).
Proof.
  intros Hc. unfold crnl. destruct (Z.eqb_spec c chr_nl) as [->|]; cbn [when].
  - rewrite putchar_ok by done. rewrite putchar_ok by done. by rewrite <- app_assoc.
  - rewrite (bind_Done (mret tt) _ o tt o eq_refl). by apply putchar_ok.
Qed.

Lemma l4_puts_ok str : Forall is_char str -> forall o, l4_puts str o = Done (tt, o ++ (str ≫= crnl)).
Proof.
  induction 1 as [|c str Hc _ IH]; intros o; cbn [l4_puts]; [by rewrite app_nil_r|].
  rewrite put_crnl, IH by done. cbn [mbind list_bind]. by rewrite <- app_assoc.
Qed.

Lemma l4_puts_x_ok str pad : is_char pad -> Forall is_char str -> forall w o,
  l4_puts_x str w pad o = Done (tt, o ++ (str ≫= crnl) ++ replicate (Z.to_nat (w - Z.of_nat (length str))) pad).
Proof.
  intros Hp. induction 1 as [|c str Hc _ IH]; intros w o; cbn [l4_puts_x].
  - rewrite repeat_char_ok by done. simpl. by rewrite Z.sub_0_r.
  - rewrite put_crnl, IH by done. cbn [mbind list_bind length]. rewrite <- !app_assoc.
    by replace (w - 1 - Z.of_nat (length str)) with (w - Z.of_nat (S (length str))) by lia.
Qed.

(** ** Positional notation *)

(** The digits of [val] in base [b], the [k] last ones, the most significant first. *)
Fixpoint numeral (b : Z) (k : nat) (val : Z) : list Z :=
  match k with
  | O => []
  | S k => (val / b ^ Z.of_nat k) mod b :: numeral b k val
  end.

(** The number that digits denote. *)
Definition value (b : Z) (ds : list Z) : Z := foldl (fun a d => a * b + d) 0 ds.

Lemma value_from b ds : forall a, foldl (fun a d => a * b + d) a ds = a * b ^ Z.of_nat (length ds) + value b ds.
Proof.
  induction ds as [|d ds IH]; intros a; cbn [foldl length]; [unfold value; simpl; lia|].
  rewrite IH. unfold value. cbn [foldl]. rewrite (IH (0 * b + d)). rewrite Nat2Z.inj_succ, Z.pow_succ_r by lia. unfold value. lia.
Qed.

Lemma value_nonneg b ds : 0 < b -> Forall (fun d => 0 <= d < b) ds -> 0 <= value b ds.
Proof.
  intros Hb. unfold value. assert (H : forall a, 0 <= a -> Forall (fun d => 0 <= d < b) ds -> 0 <= foldl (fun a d => a * b + d) a ds); [|by apply H].
  induction ds as [|d ds IH]; intros a Ha Hd; [done|]. apply Forall_cons in Hd as [Hd Hds]. cbn [foldl]. apply IH; [nia|done].
Qed.

Lemma length_numeral b k val : length (numeral b k val) = k.
Proof. induction k; simpl; congruence. Qed.

Lemma numeral_range b k val : 0 < b -> Forall (fun d => 0 <= d < b) (numeral b k val).
Proof. intros Hb. induction k; simpl; constructor; [by apply Z.mod_pos_bound|done]. Qed.

Lemma numeral_value b k val : 1 < b -> 0 <= val -> value b (numeral b k val) = val mod b ^ Z.of_nat k.
Proof.
  intros Hb Hv. induction k as [|k IH]; [unfold value; simpl; by rewrite Z.mod_1_r|].
  cbn [numeral]. unfold value. cbn [foldl]. rewrite value_from, IH, length_numeral, Nat2Z.inj_succ, Z.pow_succ_r by lia.
  assert (0 < b ^ Z.of_nat k) by (apply Z.pow_pos_nonneg; lia).
  rewrite (Z.mul_comm b (b ^ Z.of_nat k)), Z.rem_mul_r by lia. lia.
Qed.

(** The representation without leading zeros. *)
Definition minimal (b : Z) (k : nat) (val : Z) : Prop :=
  (0 < k)%nat /\ val < b ^ Z.of_nat k /\ ((1 < k)%nat -> b ^ (Z.of_nat k - 1) <= val).

(** Hexadecimal. *)
Lemma hex_digits_ok k val : is_u32 val -> forall o, hex_digits k val o = Done (tt, o ++ (hexchars <$> numeral 16 k val)).
Proof.
  intros Hv. induction k as [|k IH]; intros o; cbn [hex_digits numeral]; [by rewrite app_nil_r|].
  assert (E : Z.land (Z.shiftr val (4 * Z.of_nat k)) 15 = (val / 16 ^ Z.of_nat k) mod 16).
  { change 15 with (Z.ones 4). rewrite Z.land_ones, Z.shiftr_div_pow2, Z.pow_mul_r by lia. done. }
  rewrite E. pose proof (Z.mod_pos_bound (val / 16 ^ Z.of_nat k) 16 ltac:(lia)).
  rewrite putchar_ok, IH, <- app_assoc; [done|]. unfold hexchars, is_char. destruct (Z.ltb_spec ((val / 16 ^ Z.of_nat k) mod 16) 10); lia.
Qed.

Lemma shiftr_zero val n : 0 <= val -> 0 <= n -> truth (Z.shiftr val n) = (2 ^ n <=? val).
Proof.
  intros Hv Hn. assert (0 < 2 ^ n) by (apply Z.pow_pos_nonneg; lia). rewrite Z.shiftr_div_pow2 by done. unfold truth.
  destruct (Z.leb_spec (2 ^ n) val).
  - assert (1 <= val / 2 ^ n) by (apply Z.div_le_lower_bound; lia). destruct (Z.eqb_spec (val / 2 ^ n) 0); [lia|done].
  - by rewrite Z.div_small by lia.
Qed.

Lemma hex_width_ok fuel : forall val w, is_u32 val -> 0 <= w <= 8 -> (0 < w -> 16 ^ (w - 1) <= val) -> 8 < Z.of_nat fuel + w ->
  let n := hex_width fuel val w in w <= n <= 8 /\ val < 16 ^ n /\ (0 < n -> 16 ^ (n - 1) <= val).
Proof.
  induction fuel as [|fuel IH]; intros val w Hv Hw Hlow Hf n; [lia|]. subst n. cbn [hex_width].
  unfold is_u32, u32_modulus in Hv. rewrite shiftr_zero by lia. replace (2 ^ (4 * w)) with (16 ^ w) by (by rewrite Z.pow_mul_r by lia).
  destruct (Z.leb_spec (16 ^ w) val) as [Hge|Hlt]; cbn [andb].
  - destruct (Z.ltb_spec w 8) as [Hw8|Hw8].
    + destruct (IH val (w + 1)) as (H1 & H2 & H3); [done|lia|intros; by replace (w + 1 - 1) with w by lia|lia|]. split; [lia|done].
    + assert (w = 8) as -> by lia. change (16 ^ 8) with 4294967296 in Hge. lia.
  - split; [lia|]. split; [done|done].
Qed.

(** Decimal. *)
Lemma put_digits_ok fuel : forall k val, (k < fuel)%nat -> 0 <= val ->
  forall o, put_digits fuel val (10 ^ Z.of_nat k) o = Done (tt, o ++ ((fun d => d + chr_0) <$> numeral 10 (S k) val)).
Proof.
  induction fuel as [|fuel IH]; intros k val Hk Hv o; [lia|]. cbn [put_digits numeral].
  pose proof (Z.mod_pos_bound (val / 10 ^ Z.of_nat k) 10 ltac:(lia)). rewrite putchar_ok by (unfold is_char, chr_0; lia).
  destruct k as [|k]; [done|]. rewrite Nat2Z.inj_succ, Z.pow_succ_r by lia. rewrite (Z.mul_comm 10), Z.div_mul by lia.
  assert (0 < 10 ^ Z.of_nat k) by (apply Z.pow_pos_nonneg; lia). unfold truth. destruct (Z.eqb_spec (10 ^ Z.of_nat k) 0); [lia|].
  cbn [negb]. rewrite IH by lia. rewrite <- app_assoc. cbn [numeral fmap list_fmap app]. done.
Qed.

Lemma dec_digits_ok fuel : forall val k, 0 <= val < u32_modulus -> (k + fuel >= 10)%nat -> (k <= 9)%nat -> ((0 < k)%nat -> 10 ^ Z.of_nat k <= val) ->
  exists n, dec_digits fuel val (10 ^ Z.of_nat k) (Z.of_nat k + 1) = (10 ^ Z.of_nat n, Z.of_nat n + 1) /\ (n <= 9)%nat /\
            val < 10 ^ (Z.of_nat n + 1) /\ ((0 < n)%nat -> 10 ^ Z.of_nat n <= val).
Proof.
  induction fuel as [|fuel IH]; intros val k Hv Hf Hk Hlow; [lia|]. cbn [dec_digits].
  assert (0 < 10 ^ Z.of_nat k) by (apply Z.pow_pos_nonneg; lia). unfold u32_modulus in Hv.
  destruct (Z.geb_spec (val / 10 ^ Z.of_nat k) 10) as [Hge|Hlt].
  - assert (Hbig : 10 ^ Z.of_nat (S k) <= val).
    { rewrite Nat2Z.inj_succ, Z.pow_succ_r by lia. pose proof (Z.mul_div_le val (10 ^ Z.of_nat k) ltac:(lia)). nia. }
    assert (Hk9 : (S k <= 9)%nat).
    { destruct (decide (k = 9)%nat) as [->|]; [|lia]. change (10 ^ Z.of_nat 10) with 10000000000 in Hbig. lia. }
    assert (Hp : mul32 (10 ^ Z.of_nat k) 10 = 10 ^ Z.of_nat (S k)).
    { unfold mul32. rewrite wrap32_small; [rewrite Nat2Z.inj_succ, Z.pow_succ_r by lia; lia|].
      unfold is_u32, u32_modulus. rewrite Nat2Z.inj_succ, Z.pow_succ_r in Hbig by lia. lia. }
    rewrite Hp. replace (Z.of_nat k + 1 + 1) with (Z.of_nat (S k) + 1) by lia. apply IH; [done|lia|done|done].
  - exists k. split; [done|]. split; [done|]. split; [|done]. rewrite Z.pow_add_r by lia. change (10 ^ 1) with 10.
    assert (val / 10 ^ Z.of_nat k < 10) by lia. pose proof (Z.mod_pos_bound val (10 ^ Z.of_nat k) ltac:(lia)).
    pose proof (Z.div_mod val (10 ^ Z.of_nat k) ltac:(lia)). nia.
Qed.

(** The textbook definition: the numeral of the quotient, followed by the remainder. *)
Fixpoint digits (b : Z) (fuel : nat) (val : Z) : list Z :=
  match fuel with
  | O => []
  | S fuel => if val <? b then [val] else digits b fuel (val / b) ++ [val mod b]
  end.

Lemma digits_value b fuel : forall val, 1 < b -> 0 <= val < b ^ Z.of_nat fuel -> value b (digits b fuel val) = val.
Proof.
  induction fuel as [|fuel IH]; intros val Hb Hv; [simpl in Hv |- *; unfold value; simpl; lia|]. cbn [digits].
  destruct (Z.ltb_spec val b); [done|]. unfold value. rewrite foldl_app. cbn [foldl]. fold (value b (digits b fuel (val / b))). rewrite IH; [|done|].
  - rewrite (Z.div_mod val b) at 3 by lia. lia.
  - split; [apply Z.div_pos; lia|]. apply Z.div_lt_upper_bound; [lia|]. rewrite <- Z.pow_succ_r, <- Nat2Z.inj_succ by lia. apply Hv.
Qed.

Lemma digits_range b fuel : forall val, 0 < b -> 0 <= val -> Forall (fun d => 0 <= d < b) (digits b fuel val).
Proof.
  induction fuel as [|fuel IH]; intros val Hb Hv; cbn [digits]; [done|]. destruct (Z.ltb_spec val b); [by repeat constructor|].
  apply Forall_app. split; [apply IH; [done|apply Z.div_pos; lia]|]. repeat constructor; apply Z.mod_pos_bound; lia.
Qed.

Lemma numeral_last b k val : 0 < b -> numeral b (S k) val = numeral b k (val / b) ++ [val mod b].
Proof.
  intros Hb. induction k as [|k IH]; [cbn; by rewrite Z.div_1_r|].
  change (numeral b (S (S k)) val) with ((val / b ^ Z.of_nat (S k)) mod b :: numeral b (S k) val). rewrite IH.
  cbn [numeral app]. rewrite Nat2Z.inj_succ, Z.pow_succ_r, <- Z.div_div by lia. done.
Qed.

Lemma minimal_digits b fuel : forall k val, 1 < b -> 0 <= val -> minimal b k val -> (k <= fuel)%nat -> numeral b k val = digits b fuel val.
Proof.
  induction fuel as [|fuel IH]; intros k val Hb Hv (Hk & Hhi & Hlo) Hf; [lia|]. cbn [digits]. destruct k as [|k]; [lia|].
  destruct (Z.ltb_spec val b) as [Hs|Hs].
  - destruct k as [|k]; [cbn; rewrite Z.div_1_r, Z.mod_small by lia; done|].
    specialize (Hlo ltac:(lia)). assert (b ^ 1 <= b ^ (Z.of_nat (S (S k)) - 1)) by (apply Z.pow_le_mono_r; lia). lia.
  - rewrite numeral_last by lia. destruct k as [|k]; [simpl in Hhi; lia|]. f_equal. apply IH; [done|by apply Z.div_pos; lia| |lia].
    split; [lia|]. split.
    + apply Z.div_lt_upper_bound; [lia|]. by rewrite <- Z.pow_succ_r, <- Nat2Z.inj_succ by lia.
    + intros Hk1. specialize (Hlo ltac:(lia)). apply Z.div_le_lower_bound; [lia|].
      rewrite <- Z.pow_succ_r by lia. by replace (Z.succ (Z.of_nat (S k) - 1)) with (Z.of_nat (S (S k)) - 1) by lia.
Qed.

Definition decimal (val : Z) : list Z := (fun d => d + chr_0) <$> digits 10 10 val.
Definition hexadecimal (val : Z) : list Z := hexchars <$> digits 16 8 val.

(** [text] after as many [pad]s as [width] asks for. *)
Definition padded (width pad : Z) (text : list Z) : list Z := replicate (Z.to_nat (width - Z.of_nat (length text))) pad ++ text.

Lemma l4_put_dec_ok val width pad o : is_u32 val -> is_char pad ->
  l4_put_dec val width pad o = Done (tt, o ++ padded width pad (decimal val)).
Proof.
  intros Hv Hp. unfold l4_put_dec. destruct (dec_digits_ok 10 val 0 Hv ltac:(lia) ltac:(lia) ltac:(lia)) as (n & E & Hn & Hhi & Hlo).
  change (10 ^ Z.of_nat 0) with 1 in E. change (Z.of_nat 0 + 1) with 1 in E. rewrite E. destruct Hv as [Hv _].
  assert (Ed : decimal val = (fun d => d + chr_0) <$> numeral 10 (S n) val).
  { unfold decimal. rewrite (minimal_digits 10 10); [done|lia|done| |lia]. split; [lia|].
    split; [by replace (Z.of_nat (S n)) with (Z.of_nat n + 1) by lia|]. intros H. replace (Z.of_nat (S n) - 1) with (Z.of_nat n) by lia. apply Hlo. lia. }
  rewrite (bind_Done _ _ _ _ _ (repeat_char_ok pad _ Hp o)). rewrite put_digits_ok by lia. rewrite <- Ed, <- app_assoc.
  assert (Hlen : Z.of_nat (length (decimal val)) = Z.of_nat n + 1) by (rewrite Ed, length_fmap, length_numeral; lia).
  unfold padded. by rewrite Hlen.
Qed.

Lemma l4_put_hex_ok val width pad o : is_u32 val -> is_char pad -> 0 <= width ->
  l4_put_hex val width pad o = Done (Z.max width (Z.of_nat (length (hexadecimal val))), o ++ padded width pad (hexadecimal val)).
Proof.
  intros Hv Hp Hw. unfold l4_put_hex. destruct (hex_width_ok 9 val 0 Hv ltac:(lia) ltac:(lia) ltac:(lia)) as (H1 & H2 & H3).
  set (n := hex_width 9 val 0) in *. set (k := if n =? 0 then 1 else n).
  assert (Hk : 1 <= k <= 8 /\ minimal 16 (Z.to_nat k) val).
  { unfold k, minimal. destruct (Z.eqb_spec n 0) as [E|E]; [rewrite E in H2; simpl in H2|]; rewrite !Z2Nat.id by lia; split; [lia| |lia|].
    - split; [lia|]. split; [simpl; lia|lia].
    - split; [lia|]. split; [done|]. intros _. apply H3. lia. }
  destruct Hk as [Hk Hmin]. destruct Hv as [Hv0 Hv1]. assert (Ed : hexadecimal val = hexchars <$> numeral 16 (Z.to_nat k) val)
    by (unfold hexadecimal; rewrite (minimal_digits 16 8); [done|lia|lia|done|lia]).
  assert (Hlen : Z.of_nat (length (hexadecimal val)) = k) by (rewrite Ed, length_fmap, length_numeral; lia).
  rewrite (bind_Done _ _ _ _ _ (repeat_char_ok pad _ Hp o)). rewrite (bind_Done _ _ _ _ _ (hex_digits_ok _ val (conj Hv0 Hv1) _)).
  rewrite <- Ed. unfold padded. rewrite Hlen. destruct (Z.eqb_spec width 0) as [->|Hw0]; cbn [andb].
  - destruct (Z.ltb_spec 0 k); [|lia]. rewrite Z.sub_diag. replace (Z.to_nat (0 - k)) with 0%nat by lia. rewrite app_nil_r.
    unfold mret, M_ret. do 2 f_equal. lia.
  - rewrite <- app_assoc. unfold mret, M_ret. do 2 f_equal. lia.
Qed.

(** ** Formats *)

Inductive conv := Dec | Hex | Ptr | Chr | Str.

(** Text without [%], and a directive: zero padding, a width (0 for none) and a
    conversion. *)
Inductive piece := Text (s : list Z) | Directive (zero : bool) (w : Z) (c : conv).

Definition conv_char (c : conv) : Z := match c with Dec => 100 | Hex => 120 | Ptr => 112 | Chr => 99 | Str => 115 end.

Definition format (p : piece) : list Z :=
  match p with
  | Text s => s
  | Directive zero w c => [chr_percent] ++ (if zero then [chr_0] else []) ++ (if w =? 0 then [] else decimal w) ++ [conv_char c]
  end.

Section formats.
Variable strings : Z -> list Z.

(** What a directive shows of its argument. *)
Definition show (zero : bool) (w : Z) (c : conv) (x : Z) : list Z :=
  let pad := if zero then chr_0 else chr_space in
  match c with
  | Dec => padded w pad (decimal x)
  | Hex => padded w pad (hexadecimal x)
  | Ptr => padded 8 chr_0 (hexadecimal x)
  | Chr => [x]
  | Str => (strings x ≫= crnl) ++ replicate (Z.to_nat (w - Z.of_nat (length (strings x)))) pad
  end.

(** What the pieces show of their arguments. *)
Fixpoint shows (ps : list piece) (xs : list Z) : option (list Z) :=
  match ps, xs with
  | [], [] => Some []
  | Text s :: ps, xs => match shows ps xs with Some o => Some ((s ≫= crnl) ++ o) | None => None end
  | Directive zero w c :: ps, x :: xs => match shows ps xs with Some o => Some (show zero w c x ++ o) | None => None end
  | _, _ => None
  end.

Definition piece_ok (p : piece) : Prop :=
  match p with
  | Text s => Forall (fun c => is_char c /\ c <> chr_percent) s
  | Directive _ w _ => 0 <= w < 100000000
  end.

Lemma vprintf_text s st : mode st = false -> Forall (fun c => is_char c /\ c <> chr_percent) s -> forall fmt o,
  vprintf_loop strings (s ++ fmt) st o = vprintf_loop strings fmt st (o ++ (s ≫= crnl)).
Proof.
  intros Hm. induction 1 as [|c s [Hc Hp] _ IH]; intros fmt o; cbn [app vprintf_loop mbind list_bind]; [by rewrite app_nil_r|].
  rewrite app_assoc, <- IH.
  assert (E : vprintf_char strings c st o = Done (st, o ++ crnl c)).
  { unfold vprintf_char. destruct (Z.eqb_spec c chr_percent); [done|]. rewrite Hm. cbn [negb]. by rewrite put_crnl. }
  change ((vprintf_char strings c st ≫= vprintf_loop strings (s ++ fmt)) o = vprintf_loop strings (s ++ fmt) st (o ++ crnl c)).
  by rewrite (bind_Done _ _ _ _ _ E).
Qed.
Lemma vprintf_step c st fmt o st' o' : vprintf_char strings c st o = Done (st', o') ->
  vprintf_loop strings (c :: fmt) st o = vprintf_loop strings fmt st' o'.
Proof. intros E. exact (bind_Done _ (vprintf_loop strings fmt) _ _ _ E). Qed.

(** A digit of the width. *)
Lemma width_digit d w p sz va o : 0 <= d < 10 -> 0 <= w -> w * 10 + d < 2147483648 ->
  vprintf_char strings (d + chr_0) (mk_spec true w p sz va) o =
  Done (mk_spec true (w * 10 + d) (if (d =? 0) && (w =? 0) then chr_0 else p) sz va, o).
Proof.
  intros Hd Hw Hb. rewrite <- (s32_small (w * 10 + d)) by lia.
  assert (d = 0 \/ d = 1 \/ d = 2 \/ d = 3 \/ d = 4 \/ d = 5 \/ d = 6 \/ d = 7 \/ d = 8 \/ d = 9)
    as [-> |[-> |[-> |[-> |[-> |[-> |[-> |[-> |[-> | ->]]]]]]]]] by lia; [|reflexivity..].
  destruct (Z.eqb_spec w 0) as [->|H0]; [reflexivity|]. unfold vprintf_char, specifier. cbn [width].
  rewrite (proj2 (Z.eqb_neq w 0)) by done. reflexivity.
Qed.

Lemma width_digits ds : forall w p sz va fmt o, Forall (fun d => 0 <= d < 10) ds -> 0 <= w -> (w = 0 -> hd 1 ds <> 0) ->
  foldl (fun a d => a * 10 + d) w ds < 2147483648 ->
  vprintf_loop strings (((fun d => d + chr_0) <$> ds) ++ fmt) (mk_spec true w p sz va) o =
  vprintf_loop strings fmt (mk_spec true (foldl (fun a d => a * 10 + d) w ds) p sz va) o.
Proof.
  induction ds as [|d ds IH]; intros w p sz va fmt o Hd Hw H0 Hb; [done|]. cbn [foldl] in *. apply Forall_cons in Hd as [Hd Hds].
  assert (Hmono : w * 10 + d <= foldl (fun a d => a * 10 + d) (w * 10 + d) ds).
  { rewrite value_from. pose proof (value_nonneg 10 ds ltac:(lia) Hds).
    assert (0 < 10 ^ Z.of_nat (length ds)) by (apply Z.pow_pos_nonneg; lia). nia. }
  cbn [hd] in H0. cbn [fmap list_fmap app]. erewrite vprintf_step by (apply width_digit; lia).
  replace ((d =? 0) && (w =? 0)) with false.
  - apply IH; [done|lia|lia|done].
  - destruct (Z.eqb_spec w 0) as [->|]; [|by rewrite andb_false_r]. specialize (H0 eq_refl).
    destruct (Z.eqb_spec d 0); [done|by rewrite andb_true_r].
Qed.

Lemma decimal_minimal val : is_u32 val -> exists n, digits 10 10 val = numeral 10 (S n) val /\ minimal 10 (S n) val.
Proof.
  intros Hv. destruct (dec_digits_ok 10 val 0 Hv ltac:(lia) ltac:(lia) ltac:(lia)) as (n & _ & Hn & Hhi & Hlo). exists n.
  assert (Hmin : minimal 10 (S n) val).
  { split; [lia|]. split; [by replace (Z.of_nat (S n)) with (Z.of_nat n + 1) by lia|]. intros H.
    replace (Z.of_nat (S n) - 1) with (Z.of_nat n) by lia. apply Hlo. lia. }
  split; [|done]. symmetry. apply minimal_digits; [lia|apply Hv|done|lia].
Qed.

Lemma vprintf_width w p sz va fmt o : 0 < w < 100000000 ->
  vprintf_loop strings (decimal w ++ fmt) (mk_spec true 0 p sz va) o = vprintf_loop strings fmt (mk_spec true w p sz va) o.
Proof.
  intros Hw. destruct (decimal_minimal w) as (n & E & Hk & Hhi & Hlo); [unfold is_u32, u32_modulus; lia|].
  assert (Hval : foldl (fun a d => a * 10 + d) 0 (digits 10 10 w) = w).
  { rewrite E. change (value 10 (numeral 10 (S n) w) = w). rewrite numeral_value by lia. apply Z.mod_small. lia. }
  unfold decimal. rewrite width_digits; [by rewrite Hval|rewrite E; apply numeral_range; lia|lia| |rewrite Hval; lia].
  intros _. rewrite E. cbn [numeral hd]. assert (0 < 10 ^ Z.of_nat n) by (apply Z.pow_pos_nonneg; lia).
  rewrite Nat2Z.inj_succ, Z.pow_succ_r in Hhi by lia.
  assert (w / 10 ^ Z.of_nat n < 10) by (apply Z.div_lt_upper_bound; lia).
  assert (1 <= w / 10 ^ Z.of_nat n).
  { apply Z.div_le_lower_bound; [lia|]. destruct n as [|n]; [simpl; lia|]. rewrite Z.mul_1_r.
    replace (Z.of_nat (S n)) with (Z.of_nat (S (S n)) - 1) by lia. apply Hlo. lia. }
  rewrite Z.mod_small; lia.
Qed.

(** An argument that suits the conversion. *)
Definition arg_ok (c : conv) (x : Z) : Prop :=
  match c with Chr => is_char x | Str => Forall is_char (strings x) | _ => is_u32 x end.

Lemma specifier_char c st o st' o' : (c =? chr_percent) = false -> ((chr_0 <=? c) && (c <=? chr_9)) = false -> mode st = true ->
  specifier strings c st o = Done (st', o') -> vprintf_char strings c st o = Done (st', o').
Proof. intros Hp Hd Hm E. unfold vprintf_char. rewrite Hp, Hm, Hd. cbn [negb]. by rewrite (bind_Done _ _ _ _ _ E). Qed.

(** The conversion takes the next argument. *)
Local Ltac take_argument x va o :=
  apply specifier_char; [done|done|done|]; refine (eq_trans (bind_Done (mret (x, va)) _ o _ _ eq_refl) _); cbn [fst snd].

Lemma vprintf_conv c w p va x o : arg_ok c x -> is_char p -> 0 <= w ->
  exists st, vprintf_char strings (conv_char c) (mk_spec true w p 32 (U32 x :: va)) o =
             Done (st, o ++ match c with
                            | Dec => padded w p (decimal x) | Hex => padded w p (hexadecimal x) | Ptr => padded 8 chr_0 (hexadecimal x)
                            | Chr => [x] | Str => (strings x ≫= crnl) ++ replicate (Z.to_nat (w - Z.of_nat (length (strings x)))) p end) /\
             mode st = false /\ Stdio.va st = va.
Proof.
  intros Hx Hp Hw. destruct c; simpl in Hx.
  - eexists; split; [take_argument x va o; exact (bind_Done _ _ o tt _ (l4_put_dec_ok x w p o Hx Hp))|by split].
  - eexists; split; [take_argument x va o; exact (bind_Done _ _ o _ _ (l4_put_hex_ok x w p o Hx Hp Hw))|by split].
  - eexists; split; [take_argument x va o; refine (bind_Done _ _ o _ _ (l4_put_hex_ok x 8 chr_0 o Hx _ _)); [done|lia]|by split].
  - eexists; split; [take_argument x va o; exact (putchar_ok x o _ Hx)|by split].
  - eexists; split; [take_argument x va o; exact (bind_Done _ _ o tt _ (l4_puts_x_ok (strings x) p Hp Hx w o))|by split].
Qed.

(** A directive shows its argument. *)
Lemma vprintf_directive zero w c x va st fmt o : Stdio.va st = U32 x :: va -> 0 <= w < 100000000 -> arg_ok c x ->
  exists st', vprintf_loop strings (format (Directive zero w c) ++ fmt) st o = vprintf_loop strings fmt st' (o ++ show zero w c x) /\
              mode st' = false /\ Stdio.va st' = va.
Proof.
  intros Hva Hw Hx. cbn [format app]. erewrite vprintf_step by reflexivity. rewrite Hva. set (p := if zero then chr_0 else chr_space).
  destruct (vprintf_conv c w p va x o Hx ltac:(by destruct zero) ltac:(lia)) as (st' & E & Hm & Hv). exists st'. split; [|done].
  rewrite <- !app_assoc.
  assert (Ezero : forall f, vprintf_loop strings ((if zero then [chr_0] else []) ++ f) (mk_spec true 0 chr_space 32 (U32 x :: va)) o =
                            vprintf_loop strings f (mk_spec true 0 p 32 (U32 x :: va)) o) by (intros f; by destruct zero).
  rewrite Ezero. assert (Ewidth : forall f, vprintf_loop strings ((if w =? 0 then [] else decimal w) ++ f) (mk_spec true 0 p 32 (U32 x :: va)) o =
                                            vprintf_loop strings f (mk_spec true w p 32 (U32 x :: va)) o).
  { intros f. destruct (Z.eqb_spec w 0) as [->|]; [done|]. apply vprintf_width. lia. }
  rewrite Ewidth. cbn [app]. rewrite (vprintf_step _ _ _ _ _ _ E). by destruct c.
Qed.

(** The arguments suit the directives. *)
Fixpoint args_ok (ps : list piece) (xs : list Z) : Prop :=
  match ps, xs with
  | Text _ :: ps, xs => args_ok ps xs
  | Directive _ _ c :: ps, x :: xs => arg_ok c x /\ args_ok ps xs
  | _, _ => True
  end.

Lemma vprintf_pieces ps : forall xs out st o, mode st = false -> Stdio.va st = U32 <$> xs -> Forall piece_ok ps -> args_ok ps xs ->
  shows ps xs = Some out -> vprintf_loop strings (ps ≫= format) st o = Done (tt, o ++ out).
Proof.
  induction ps as [|p ps IH]; intros xs out st o Hm Hv Hok Ha Hs.
  - destruct xs; simplify_eq/=. by rewrite app_nil_r.
  - rewrite bind_cons. apply Forall_cons in Hok as [Hp Hok]. destruct p as [s|zero w c]; cbn [shows args_ok piece_ok] in *.
    + destruct (shows ps xs) as [out'|] eqn:E; [|done]. simplify_eq. rewrite vprintf_text by done. rewrite app_assoc. by eapply IH.
    + destruct xs as [|x xs]; [done|]. destruct (shows ps xs) as [out'|] eqn:E; [|done]. simplify_eq. destruct Ha as [Hx Ha].
      rewrite fmap_cons in Hv. destruct (vprintf_directive zero w c x _ st (mbind format ps) o Hv Hp Hx) as (st' & E' & Hm' & Hv').
      rewrite E', app_assoc. by eapply IH.
Qed.
End formats.

(** ** Properties *)

(** C37. [__l4_vprintf] implements its format language: for a format made of text and of the
    directives [%d], [%x], [%p], [%c] and [%s] with a width and zero padding, and arguments
    that suit them, it returns and its output is the text, with a carriage return before
    each new line, and the arguments as the directives say: numbers in the textbook
    positional notation, padded to the width. *)
Theorem vprintf_prints strings ps xs out o :
  Forall piece_ok ps -> args_ok strings ps xs -> shows strings ps xs = Some out ->
  l4_vprintf strings (ps ≫= format) (U32 <$> xs) o = Done (tt, o ++ out).
Proof. intros Hp Ha Hs. unfold l4_vprintf. by apply (vprintf_pieces strings ps xs). Qed.

(** The digit a character of a numeral stands for. *)
Definition unhex (c : Z) : Z := if c <? 97 then c - 48 else c - 97 + 10.

Lemma unhex_digits b f ds : Forall (fun d => 0 <= d < b) ds -> (forall d, 0 <= d < b -> unhex (f d) = d) -> unhex <$> (f <$> ds) = ds.
Proof.
  intros Hd Hf. rewrite <- list_fmap_compose. rewrite <- (list_fmap_id ds) at 2. apply list_fmap_ext. intros i d Hi.
  apply Hf. by eapply Forall_lookup_1 in Hd.
Qed.

(** Reading back what [__l4_put_dec] and [__l4_put_hex] print without a width gives the
    number, for every 32-bit number. *)
Theorem printed_number_reads_back val pad o :
  is_u32 val -> is_char pad ->
  exists ds hs n, l4_put_dec val 0 pad o = Done (tt, o ++ ds) /\ value 10 (unhex <$> ds) = val /\
                  l4_put_hex val 0 pad o = Done (n, o ++ hs) /\ value 16 (unhex <$> hs) = val /\ n = Z.of_nat (length hs).
Proof.
  intros Hv Hp. exists (decimal val), (hexadecimal val), (Z.of_nat (length (hexadecimal val))).
  rewrite l4_put_dec_ok, l4_put_hex_ok by (done || lia). unfold padded, hexadecimal, decimal.
  replace (Z.to_nat (0 - Z.of_nat (length ((fun d => d + chr_0) <$> digits 10 10 val)))) with 0%nat by lia.
  replace (Z.to_nat (0 - Z.of_nat (length (hexchars <$> digits 16 8 val)))) with 0%nat by lia. cbn [replicate app].
  unfold is_u32, u32_modulus in Hv.
  split; [done|]. split; [|split; [do 2 f_equal; lia|split; [|done]]].
  - rewrite (unhex_digits 10); [apply digits_value; simpl; lia|apply digits_range; lia|]. intros d Hd. unfold unhex, chr_0. destruct (Z.ltb_spec (d + 48) 97); lia.
  - rewrite (unhex_digits 16); [apply digits_value; simpl; lia|apply digits_range; lia|]. intros d Hd. unfold unhex, hexchars.
    destruct (Z.ltb_spec d 10); [destruct (Z.ltb_spec (48 + d) 97)|destruct (Z.ltb_spec (97 + (d - 10)) 97)]; lia.
Qed.

(** A doubled percent sign does not print one, although [__l4_vprintf] has a case for it:
    the second sign starts a directive again, so that the text behind it is taken for a
    directive. *)
Theorem vprintf_percent_lost strings fmt va o :
  l4_vprintf strings (chr_percent :: chr_percent :: fmt) va o = l4_vprintf strings (chr_percent :: fmt) va o.
Proof. done. Qed.

Lemma vprintf_prints_witness :
  l4_vprintf (fun _ => [104; 105]) ([Directive false 3 Str; Text [61; 10]; Directive true 4 Hex] ≫= format) (U32 <$> [0; 255]) [] =
  Done (tt, [] ++ [104; 105; 32; 61; 13; 10; 48; 48; 102; 102]).
Proof.
  apply (vprintf_prints (fun _ => [104; 105])); [|split; [|split; [|done]]|reflexivity].
  - rewrite !Forall_cons. unfold piece_ok. rewrite !Forall_cons. unfold is_char, chr_percent. split_and!; try constructor; lia.
  - unfold arg_ok. rewrite !Forall_cons. unfold is_char. split_and!; try constructor; lia.
  - simpl. unfold is_u32, u32_modulus. lia.
Defined.

Lemma printed_number_reads_back_witness :
  exists ds hs n, l4_put_dec 48879 0 32 [] = Done (tt, ds) /\ value 10 (unhex <$> ds) = 48879 /\
                  l4_put_hex 48879 0 32 [] = Done (n, hs) /\ value 16 (unhex <$> hs) = 48879.
Proof.
  destruct (printed_number_reads_back 48879 32 []) as (ds & hs & n & H1 & H2 & H3 & H4 & _);
    [unfold is_u32, u32_modulus; lia|unfold is_char; lia|]. exists ds, hs, n. exact (conj H1 (conj H2 (conj H3 H4))).
Defined.
