(* ===== verification/Ktable.v ===== *)
(** * Bitmaps and kernel tables

    Models [include/lib/bitmap.h] (the configuration without
    [CONFIG_BITMAP_BITBAND], which [board/discoveryf4/defconfig] selects),
    [test_and_set_bit] of [platform/bitops.c] and [kernel/lib/ktable.c].

    A bitmap is the array of its 32-bit words; a cursor is the number of a bit.
    A kernel table ([ktable_t]) is a static array of [num] elements of [size]
    bytes at address [data], with a bitmap that says which are allocated.  The
    elements themselves are not part of this file's state: a client keeps them
    in a heap keyed by their addresses, so that allocating or freeing an element
    changes the bitmap only, as in the C code. *)

From S2P Require Import Prelude.

(** ** [platform/bitops.c] *)

(** [test_and_set_bit]: the [ldrex]/[strex] pair.  [monitor] tells whether the
    exclusive monitor still holds at the [strex]; an exception taken in between
    clears it, and the store is not made.  The pair is the value returned and the
    word left in memory.  When the bit is set, the instructions do not write the register of the C
    variable [result], which was initialised with 1: that it still holds 1 then is an assumption on
    the compiler, because the operand is declared as write-only (Atomic.v has the code with an
    arbitrary content of the register). *)
Definition test_and_set_bit (monitor : bool) (word bitmask : Z) : Z * Z :=
  let result := 1 in
  let r0 := word in
  if Z.land r0 bitmask =? 0 then
    let r1 := Z.lor r0 bitmask in
    let r0' := if monitor then 0 else 1 in
    (b2z (r0' =? 0), if monitor then r1 else word)
  else (b2z (result =? 0), word).

(** ** [include/lib/bitmap.h] *)

Definition BITMAP_ALIGN : Z := 32.
Definition ALIGNED (size align : Z) : Z :=
  size / align + b2z (negb (Z.land size (align - 1) =? 0)).

Definition BITOFF (bit : Z) : Z := Z.rem bit BITMAP_ALIGN.
Definition BITMASK (bit : Z) : Z := Z.shiftl 1 (BITOFF bit).
Definition BITINDEX (bit : Z) : Z := Z.quot bit BITMAP_ALIGN.

(** Reading the word of a cursor; a word outside of the array, or a negative
    bit number (whose mask would be a shift by a negative count), is a fault. *)
Definition BITWORD (bit : Z) : M (list Z) Z := fun bm =>
  if bit <? 0 then Fault
  else match zlookup bm (BITINDEX bit) with Some w => Done (w, bm) | None => Fault end.
Definition set_BITWORD (bit w : Z) : M (list Z) unit := fun bm =>
  match zinsert (BITINDEX bit) w bm with Some bm' => Done (tt, bm') | None => Fault end.

Definition bitmap_set_bit (bit : Z) : M (list Z) unit :=
  w ← BITWORD bit; set_BITWORD bit (Z.lor w (BITMASK bit)).

Definition bitmap_clear_bit (bit : Z) : M (list Z) unit :=
  w ← BITWORD bit; set_BITWORD bit (Z.land w (not32 (BITMASK bit))).

Definition bitmap_get_bit (bit : Z) : M (list Z) Z :=
  w ← BITWORD bit; mret (Z.land (Z.shiftr w (BITOFF bit)) 1).

Definition bitmap_test_and_set_bit (bit : Z) : M (list Z) Z :=
  w ← BITWORD bit;
  let '(r, w') := test_and_set_bit true w (BITMASK bit) in
  set_BITWORD bit w';; mret r.

(** ** [kernel/lib/ktable.c] *)

Record ktable := mk_ktable {
  kt_bitmap : list Z;
  kt_data : Z;
  kt_num : Z;
  kt_size : Z;
}.

Definition set_bitmap (bm : list Z) (kt : ktable) : ktable :=
  mk_ktable bm (kt_data kt) (kt_num kt) (kt_size kt).

(** Running a bitmap operation on the bitmap of the table. *)
Definition on_bitmap {A} : M (list Z) A -> M ktable A := zoom kt_bitmap set_bitmap.

(** [DECLARE_KTABLE]: a zero-initialised bitmap of [ALIGNED(num, 32)] words. *)
Definition DECLARE_KTABLE (data num size : Z) : ktable :=
  mk_ktable (replicate (Z.to_nat (ALIGNED num BITMAP_ALIGN)) 0) data num size.

(** Storing a zero in byte [k] of the bitmap (little endian). *)
Definition clear_byte (k : Z) : M (list Z) unit := fun bm =>
  match zlookup bm (k / 4) with
  | Some w =>
      match zinsert (k / 4) (Z.land w (not32 (Z.shiftl 255 (8 * (k mod 4))))) bm with
      | Some bm' => Done (tt, bm')
      | None => Fault
      end
  | None => Fault
  end.

(** The loop of [ktable_init], from byte [k], over the [n] bytes that are left. *)
Fixpoint clear_bytes (n : nat) (k : Z) : M (list Z) unit :=
  match n with
  | O => mret tt
  | S n' => clear_byte k;; clear_bytes n' (k + 1)
  end.

(** [ktable_init] without the registration for the kernel debugger. *)
Definition ktable_init : M ktable unit :=
  num ← gets kt_num; on_bitmap (clear_bytes (Z.to_nat (num / 8)) 0).

(** The debugger's registry: [kdb_ktables] and [kdb_ktable_cnt]. *)
Definition KTABLE_NUM : Z := 16.
Definition kdb_register_ktable (kt : Z) : M (list Z * Z) unit := fun '(tbl, cnt) =>
  if cnt <? KTABLE_NUM - 1 then
    match zinsert cnt kt tbl with
    | Some tbl' => Done (tt, (tbl', cnt + 1))
    | None => Fault
    end
  else Done (tt, (tbl, cnt)).

Definition ktable_is_allocated (i : Z) : M ktable Z :=
  num ← gets kt_num;
  if wrap32 i >? num then mret (-1)
  else on_bitmap (bitmap_get_bit i).

(** The address of element [i]: [kt->data + (i * kt->size)]. *)
Definition kt_addr (kt : ktable) (i : Z) : Z := kt_data kt +w (i *w kt_size kt).

Definition ktable_alloc_id (i : Z) : M ktable Z :=
  num ← gets kt_num;
  if wrap32 i >? num then mret NULL
  else
    r ← on_bitmap (bitmap_test_and_set_bit i);
    if truth r then gets (fun kt => kt_addr kt i) else mret NULL.

Fixpoint ktable_alloc_loop (fuel : nat) (i : Z) : M ktable Z :=
  match fuel with
  | O => fuel_out
  | S fuel' =>
      num ← gets kt_num;
      if i <? num then
        r ← on_bitmap (bitmap_test_and_set_bit i);
        if truth r then gets (fun kt => kt_addr kt i)
        else ktable_alloc_loop fuel' (i + 1)
      else mret NULL
  end.

(** [ktable_alloc]: the loop tests each of the [num] bits at most once, so
    [num + 1] steps are enough. *)
Definition ktable_alloc : M ktable Z :=
  num ← gets kt_num; ktable_alloc_loop (Z.to_nat num + 1) 0.

(** [ktable_getid]; [i > kt->num] compares as [size_t], [i < 0] as [int]. *)
Definition ktable_getid (element : Z) : M ktable Z :=
  kt ← gets id;
  if kt_size kt =? 0 then fault
  else
    let i := s32 ((element -w kt_data kt) / kt_size kt) in
    if (wrap32 i >? kt_num kt) || (i <? 0) then mret (wrap32 (-1))
    else mret (wrap32 i).

Definition ktable_free (element : Z) : M ktable unit :=
  i ← ktable_getid element;
  if negb (i =? wrap32 (-1)) then on_bitmap (bitmap_clear_bit i) else mret tt.

(** ** Bits of a bitmap *)

(** The bit a cursor designates; [false] outside of the array. *)
Definition bit_at (bm : list Z) (i : Z) : bool :=
  match zlookup bm (i / 32) with Some w => Z.testbit w (i mod 32) | None => false end.

(** A cursor that designates a bit of the array. *)
Definition in_bitmap (bm : list Z) (i : Z) : Prop := 0 <= i < 32 * Z.of_nat (length bm).

Definition bm_wf (bm : list Z) : Prop := Forall is_u32 bm.

Lemma BITOFF_mod i : 0 <= i -> BITOFF i = i mod 32.
Proof. intros. unfold BITOFF, BITMAP_ALIGN. apply Z.rem_mod_nonneg; lia. Qed.

Lemma BITINDEX_div i : 0 <= i -> BITINDEX i = i / 32.
Proof. intros. unfold BITINDEX, BITMAP_ALIGN. apply Z.quot_div_nonneg; lia. Qed.

Lemma in_bitmap_word bm i : in_bitmap bm i -> 0 <= i / 32 < Z.of_nat (length bm).
Proof. unfold in_bitmap. intros. split; [apply Z.div_pos|apply Z.div_lt_upper_bound]; lia. Qed.

(** Every access to a cursor inside of the array reads the word that [bit_at] looks
    at, and writing that word back changes nothing else. *)
Lemma BITWORD_ok bm i :
  in_bitmap bm i ->
  exists w, zlookup bm (i / 32) = Some w /\ BITWORD i bm = Done (w, bm) /\
    forall w', set_BITWORD i w' bm = Done (tt, <[Z.to_nat (i / 32) := w']> bm).
Proof.
  intros Hi. pose proof (in_bitmap_word _ _ Hi) as Hw.
  destruct (proj2 (zlookup_is_Some bm (i / 32)) Hw) as [w Hl].
  exists w. split; [done|]. unfold BITWORD, set_BITWORD, in_bitmap in *.
  rewrite BITINDEX_div, Hl by lia. split.
  - by destruct (Z.ltb_spec i 0); [lia|].
  - intros w'. by rewrite zinsert_Some.
Qed.

Lemma bit_at_update bm i w' j :
  in_bitmap bm i ->
  0 <= j ->
  (forall k, 0 <= k < 32 -> k <> i mod 32 -> Z.testbit w' k = bit_at bm (32 * (i / 32) + k)) ->
  bit_at (<[Z.to_nat (i / 32) := w']> bm) j =
    if j =? i then Z.testbit w' (i mod 32) else bit_at bm j.
Proof.
  intros Hi Hj Hw. pose proof (in_bitmap_word _ _ Hi) as Hr. unfold bit_at at 1.
  destruct (decide (j / 32 = i / 32)) as [E|E].
  - rewrite E, zlookup_insert_eq by done.
    destruct (Z.eqb_spec j i) as [->|Hne]; [done|].
    pose proof (Z.mod_pos_bound j 32 ltac:(lia)).
    rewrite Hw; [f_equal; rewrite <- E; symmetry; apply Z.div_mod; lia|done|].
    intros Em. apply Hne. rewrite (Z.div_mod j 32), (Z.div_mod i 32) by lia. congruence.
  - rewrite zlookup_insert_ne by lia. destruct (Z.eqb_spec j i) as [->|]; done.
Qed.

Lemma bit_at_word bm i w :
  zlookup bm (i / 32) = Some w -> 
  forall k, 0 <= k < 32 -> bit_at bm (32 * (i / 32) + k) = Z.testbit w k.
Proof.
  intros Hl k Hk. unfold bit_at.
  replace ((32 * (i / 32) + k) / 32) with (i / 32).
  2: { rewrite Z.add_comm, Z.mul_comm, Z.div_add by lia. rewrite (Z.div_small k) by lia. lia. }
  rewrite Hl. f_equal. rewrite Z.add_comm, Z.mul_comm, Z.mod_add by lia. by apply Z.mod_small.
Qed.

Lemma bm_wf_insert bm n w : bm_wf bm -> is_u32 w -> bm_wf (<[n := w]> bm).
Proof. intros. by apply Forall_insert. Qed.

Lemma bm_wf_lookup bm i w : bm_wf bm -> zlookup bm i = Some w -> is_u32 w.
Proof.
  unfold bm_wf, zlookup. intros Hf. case_decide; [|done]. intros Hl.
  by eapply Forall_lookup_1 in Hl.
Qed.

Lemma bitmap_get_bit_ok bm i :
  in_bitmap bm i -> bitmap_get_bit i bm = Done (b2z (bit_at bm i), bm).
Proof.
  intros Hi. destruct (BITWORD_ok _ _ Hi) as (w & Hl & Hr & _).
  unfold bitmap_get_bit, mbind, M_bind. rewrite Hr. unfold in_bitmap in Hi.
  rewrite BITOFF_mod by lia. unfold mret, M_ret, bit_at. rewrite Hl.
  rewrite shiftr_land_1 by (apply Z.mod_pos_bound; lia). done.
Qed.

(** [bitmap_test_and_set_bit] answers 1 and sets the bit exactly when it was
    clear; no other bit changes. *)
Lemma bitmap_test_and_set_ok bm i :
  bm_wf bm -> in_bitmap bm i ->
  exists bm', bitmap_test_and_set_bit i bm = Done (b2z (negb (bit_at bm i)), bm') /\
    bm_wf bm' /\ length bm' = length bm /\
    (bit_at bm i = true -> bm' = bm) /\
    forall j, 0 <= j -> bit_at bm' j = (j =? i) || bit_at bm j.
Proof.
  intros Hwf Hi. destruct (BITWORD_ok _ _ Hi) as (w & Hl & Hr & Hset).
  pose proof (Z.mod_pos_bound i 32 ltac:(lia)) as Hm.
  assert (Hb : bit_at bm i = Z.testbit w (i mod 32)) by (unfold bit_at; by rewrite Hl).
  unfold bitmap_test_and_set_bit, mbind, M_bind. rewrite Hr.
  unfold test_and_set_bit, BITMASK. rewrite BITOFF_mod by apply Hi.
  rewrite land_pow2_mask by lia. rewrite Hb.
  destruct (Z.testbit w (i mod 32)) eqn:E; simpl; rewrite Hset; unfold mret, M_ret.
  - assert (Hid : <[Z.to_nat (i / 32) := w]> bm = bm).
    { apply list_insert_id. unfold zlookup in Hl. by case_decide. }
    rewrite Hid. exists bm. repeat split; try done. intros j Hj.
    destruct (Z.eqb_spec j i) as [->|]; [by rewrite Hb|done].
  - eexists. split; [done|]. split; [|split; [|split]].
    + apply bm_wf_insert; [done|]. apply lor_u32; [by eapply bm_wf_lookup|].
      by apply pow2_mask_u32.
    + by rewrite length_insert.
    + done.
    + intros j Hj. rewrite bit_at_update; [|done..|].
      * rewrite Z.lor_spec, testbit_pow2_mask, Z.eqb_refl, orb_true_r by lia.
        by destruct (j =? i).
      * intros k Hk Hne. rewrite Z.lor_spec, testbit_pow2_mask by lia.
        erewrite bit_at_word by done.
        by destruct (Z.eqb_spec (i mod 32) k); [congruence|rewrite orb_false_r].
Qed.

Lemma bitmap_clear_bit_ok bm i :
  bm_wf bm -> in_bitmap bm i ->
  exists bm', bitmap_clear_bit i bm = Done (tt, bm') /\
    bm_wf bm' /\ length bm' = length bm /\
    forall j, 0 <= j -> bit_at bm' j = negb (j =? i) && bit_at bm j.
Proof.
  intros Hwf Hi. destruct (BITWORD_ok _ _ Hi) as (w & Hl & Hr & Hset).
  pose proof (Z.mod_pos_bound i 32 ltac:(lia)) as Hm.
  unfold bitmap_clear_bit, mbind, M_bind. rewrite Hr, Hset.
  unfold BITMASK. rewrite BITOFF_mod by apply Hi.
  eexists. split; [done|]. split; [|split].
  - apply bm_wf_insert; [done|]. apply land_u32. by eapply bm_wf_lookup.
  - by rewrite length_insert.
  - intros j Hj. rewrite bit_at_update; [|done..|].
    + rewrite Z.land_spec, testbit_not32 by (apply pow2_mask_u32 || lia; lia).
      rewrite testbit_pow2_mask, Z.eqb_refl by lia. by destruct (j =? i); rewrite ?andb_false_r.
    + intros k Hk Hne. rewrite Z.land_spec, testbit_not32 by (apply pow2_mask_u32 || lia; lia).
      rewrite testbit_pow2_mask by lia. erewrite bit_at_word by done.
      by destruct (Z.eqb_spec (i mod 32) k); [congruence|rewrite andb_true_r].
Qed.

(** ** Kernel tables: well-formedness and abstraction *)

Record kt_wf (kt : ktable) : Prop := {
  wf_num : 0 < kt_num kt;
  wf_size : 0 < kt_size kt;
  wf_data : 0 < kt_data kt;
  wf_end : kt_data kt + kt_num kt * kt_size kt < u32_modulus;
  wf_int : kt_num kt < 2147483648;
  wf_bitmap : bm_wf (kt_bitmap kt);
  wf_length : kt_num kt <= 32 * Z.of_nat (length (kt_bitmap kt));
}.

(** The addresses of all elements, and of the allocated ones. *)
Definition kt_slots (kt : ktable) : list Z := kt_addr kt <$> seqZ 0 (kt_num kt).
Definition kt_allocated (kt : ktable) (i : Z) : bool := bit_at (kt_bitmap kt) i.
Definition kt_live (kt : ktable) : gset Z :=
  list_to_set (kt_addr kt <$> filter (fun i => kt_allocated kt i = true) (seqZ 0 (kt_num kt))).

Lemma kt_addr_eq kt i :
  kt_wf kt -> 0 <= i < kt_num kt -> kt_addr kt i = kt_data kt + i * kt_size kt.
Proof.
  intros [] Hi. unfold kt_addr, add32, mul32.
  rewrite (wrap32_small (i * _)) by (unfold is_u32, u32_modulus in *; nia).
  apply wrap32_small. unfold is_u32, u32_modulus in *; nia.
Qed.

Lemma kt_addr_inj kt i j :
  kt_wf kt -> 0 <= i < kt_num kt -> 0 <= j < kt_num kt ->
  kt_addr kt i = kt_addr kt j -> i = j.
Proof.
  intros Hwf Hi Hj. rewrite !kt_addr_eq by done. destruct Hwf. intros E.
  apply (Z.mul_reg_r _ _ (kt_size kt)); lia.
Qed.

Lemma kt_addr_set_bitmap bm kt i : kt_addr (set_bitmap bm kt) i = kt_addr kt i.
Proof. done. Qed.

Lemma kt_slots_set_bitmap bm kt : kt_slots (set_bitmap bm kt) = kt_slots kt.
Proof. done. Qed.

Lemma elem_of_kt_slots kt p :
  p ∈ kt_slots kt <-> exists i, 0 <= i < kt_num kt /\ p = kt_addr kt i.
Proof.
  unfold kt_slots. rewrite list_elem_of_fmap. setoid_rewrite elem_of_seqZ.
  split; intros (i & ? & ?); exists i; split; try done; lia.
Qed.

Lemma elem_of_kt_live kt p :
  p ∈ kt_live kt <->
  exists i, 0 <= i < kt_num kt /\ kt_allocated kt i = true /\ p = kt_addr kt i.
Proof.
  unfold kt_live. rewrite elem_of_list_to_set, list_elem_of_fmap.
  setoid_rewrite list_elem_of_filter. setoid_rewrite elem_of_seqZ.
  split; [intros (i & ? & ? & ?)|intros (i & ? & ? & ?)]; exists i;
    repeat split; try done; lia.
Qed.

Lemma kt_live_addr kt i :
  kt_wf kt -> 0 <= i < kt_num kt -> kt_addr kt i ∈ kt_live kt <-> kt_allocated kt i = true.
Proof.
  intros Hwf Hi. rewrite elem_of_kt_live. split; [|by eauto].
  intros (j & Hj & Ha & E). by rewrite (kt_addr_inj kt i j).
Qed.

Lemma kt_slot_nonnull kt p : kt_wf kt -> p ∈ kt_slots kt -> p <> NULL.
Proof.
  intros Hwf (i & Hi & ->)%elem_of_kt_slots. rewrite kt_addr_eq by done.
  destruct Hwf. unfold NULL. nia.
Qed.

Lemma kt_in_bitmap kt i : kt_wf kt -> 0 <= i < kt_num kt -> in_bitmap (kt_bitmap kt) i.
Proof. intros [] ?. unfold in_bitmap. lia. Qed.

Lemma kt_wf_set_bitmap kt bm :
  kt_wf kt -> bm_wf bm -> length bm = length (kt_bitmap kt) -> kt_wf (set_bitmap bm kt).
Proof. intros [] ? E. constructor; simpl; rewrite ?E; done. Qed.

(** What setting or clearing the bit of one element does to the live set. *)
Lemma kt_live_set kt bm i :
  kt_wf kt -> 0 <= i < kt_num kt ->
  (forall j, 0 <= j -> bit_at bm j = (j =? i) || kt_allocated kt j) ->
  kt_live (set_bitmap bm kt) = {[kt_addr kt i]} ∪ kt_live kt.
Proof.
  intros Hwf Hi Hb. apply set_eq. intros p.
  rewrite elem_of_union, elem_of_singleton, !elem_of_kt_live. simpl.
  unfold kt_allocated at 1. simpl. split.
  - intros (j & Hj & Ha & ->). rewrite Hb in Ha by lia.
    destruct (Z.eqb_spec j i) as [->|]; [by left|right; eauto].
  - intros [->|(j & Hj & Ha & ->)].
    + exists i. rewrite Hb, Z.eqb_refl by lia. done.
    + exists j. rewrite Hb, Ha, orb_true_r by lia. done.
Qed.

Lemma kt_live_clear kt bm i :
  kt_wf kt -> 0 <= i < kt_num kt ->
  (forall j, 0 <= j -> bit_at bm j = negb (j =? i) && kt_allocated kt j) ->
  kt_live (set_bitmap bm kt) = kt_live kt ∖ {[kt_addr kt i]}.
Proof.
  intros Hwf Hi Hb. apply set_eq. intros p.
  rewrite elem_of_difference, elem_of_singleton, !elem_of_kt_live. simpl.
  unfold kt_allocated at 1. simpl. split.
  - intros (j & Hj & Ha & ->). rewrite Hb in Ha by lia.
    apply andb_true_iff in Ha as [Hne Ha]. apply negb_true_iff, Z.eqb_neq in Hne.
    split; [eauto|]. rewrite kt_addr_set_bitmap. intros E. by apply kt_addr_inj in E.
  - intros [(j & Hj & Ha & ->) Hne]. exists j. rewrite Hb, Ha by lia.
    destruct (Z.eqb_spec j i) as [->|]; [done|done].
Qed.

(** ** [ktable_alloc] *)

Lemma ktable_alloc_loop_ok n i kt :
  kt_wf kt -> 0 <= i -> (Z.to_nat (kt_num kt - i) < n)%nat ->
  (exists j bm, i <= j < kt_num kt /\ kt_allocated kt j = false /\
     (forall k, i <= k < j -> kt_allocated kt k = true) /\
     ktable_alloc_loop n i kt = Done (kt_addr kt j, set_bitmap bm kt) /\
     kt_wf (set_bitmap bm kt) /\
     forall k, 0 <= k -> bit_at bm k = (k =? j) || kt_allocated kt k) \/
  ((forall k, i <= k < kt_num kt -> kt_allocated kt k = true) /\
   ktable_alloc_loop n i kt = Done (NULL, kt)).
Proof.
  intros Hwf. revert i. induction n as [|n IH]; intros i Hi Hn; [lia|].
  simpl. unfold gets, mbind, M_bind. destruct (Z.ltb_spec i (kt_num kt)) as [Hlt|Hge].
  2: { right. split; [lia|done]. }
  destruct (bitmap_test_and_set_ok (kt_bitmap kt) i) as (bm & Hr & Hw & Hl & Hsame & Hb);
    [apply Hwf|by apply kt_in_bitmap|].
  unfold on_bitmap, zoom. rewrite Hr. fold (kt_allocated kt i) in *.
  destruct (kt_allocated kt i) eqn:E; simpl.
  - rewrite (Hsame eq_refl).
    replace (set_bitmap (kt_bitmap kt) kt) with kt by by destruct kt.
    destruct (IH (i + 1)) as [(j & bm' & Hj & Hf & Hall & Hrest)|[Hall Hr']]; [lia..| |].
    + left. exists j, bm'. split; [lia|]. split; [done|]. split; [|done].
      intros k Hk. destruct (decide (k = i)) as [->|]; [done|]. apply Hall. lia.
    + right. split; [|done].
      intros k Hk. destruct (decide (k = i)) as [->|]; [done|]. apply Hall. lia.
  - left. exists i, bm. split; [lia|]. split; [done|]. split; [lia|]. split; [done|].
    split; [by apply kt_wf_set_bitmap|done].
Qed.

Lemma ktable_getid_ok kt i :
  kt_wf kt -> 0 <= i < kt_num kt -> ktable_getid (kt_addr kt i) kt = Done (i, kt).
Proof.
  intros Hwf Hi. unfold ktable_getid, gets, mbind, M_bind. simpl.
  rewrite kt_addr_eq by done. destruct Hwf. unfold u32_modulus in *.
  destruct (Z.eqb_spec (kt_size kt) 0); [lia|]. unfold sub32.
  replace (kt_data kt + i * kt_size kt - kt_data kt) with (i * kt_size kt) by lia.
  rewrite (wrap32_small (i * _)) by (unfold is_u32, u32_modulus; nia).
  rewrite Z.div_mul, s32_small by lia. rewrite (wrap32_small i) by (unfold is_u32, u32_modulus; lia).
  destruct (Z.gtb_spec i (kt_num kt)); [lia|]. by destruct (Z.ltb_spec i 0); [lia|].
Qed.

(** ** The interface of a table to its clients

    [Pool alloc free]: a pool of slots with an allocator.  Components that keep
    their objects in a kernel table use these laws only. *)
Class Pool (T : Type) (alloc : M T Z) (free : Z -> M T unit) := {
  pool_wf : T -> Prop;
  pool_slots : T -> list Z;
  pool_live : T -> gset Z;
  pool_nonnull t p : pool_wf t -> p ∈ pool_slots t -> p <> NULL;
  pool_live_slot t p : p ∈ pool_live t -> p ∈ pool_slots t;
  pool_alloc_fresh t :
    pool_wf t -> (exists p, p ∈ pool_slots t /\ (p ∉ pool_live t)) ->
    exists p t', alloc t = Done (p, t') /\ p ∈ pool_slots t /\ (p ∉ pool_live t) /\
      pool_wf t' /\ pool_slots t' = pool_slots t /\ pool_live t' = ({[p]} ∪ pool_live t);
  pool_alloc_full t :
    pool_wf t -> (forall p, p ∈ pool_slots t -> p ∈ pool_live t) -> alloc t = Done (NULL, t);
  pool_free_live t p :
    pool_wf t -> p ∈ pool_slots t ->
    exists t', free p t = Done (tt, t') /\
      pool_wf t' /\ pool_slots t' = pool_slots t /\ pool_live t' = pool_live t ∖ {[p]};
}.

#[export] Instance ktable_pool : Pool ktable ktable_alloc ktable_free.
Proof.
  refine {| pool_wf := kt_wf; pool_slots := kt_slots; pool_live := kt_live |}.
  - apply kt_slot_nonnull.
  - intros kt p (i & Hi & _ & ->)%elem_of_kt_live. apply elem_of_kt_slots. eauto.
  - intros kt Hwf (p & (i & Hi & ->)%elem_of_kt_slots & Hfree).
    rewrite kt_live_addr in Hfree by done.
    unfold ktable_alloc, gets, mbind, M_bind.
    destruct (ktable_alloc_loop_ok (Z.to_nat (kt_num kt) + 1) 0 kt)
      as [(j & bm & Hj & Hf & _ & Hr & Hw & Hb)|[Hall _]]; [done|lia|lia| |].
    + exists (kt_addr kt j), (set_bitmap bm kt). rewrite elem_of_kt_slots.
      rewrite kt_live_addr by done. split; [done|]. split; [eauto|]. split; [by rewrite Hf|].
      split; [done|]. split; [done|]. by apply kt_live_set.
    + destruct Hfree. by apply Hall.
  - intros kt Hwf Hall. unfold ktable_alloc, gets, mbind, M_bind.
    destruct (ktable_alloc_loop_ok (Z.to_nat (kt_num kt) + 1) 0 kt)
      as [(j & bm & Hj & Hf & _)|[_ Hr]]; [done|lia|lia| |done].
    assert (kt_addr kt j ∈ kt_live kt) as Ha by (apply Hall, elem_of_kt_slots; eauto).
    rewrite kt_live_addr in Ha by done. congruence.
  - intros kt p Hwf (i & Hi & ->)%elem_of_kt_slots.
    destruct (bitmap_clear_bit_ok (kt_bitmap kt) i) as (bm & Hr & Hw & Hl & Hb);
      [apply Hwf|by apply kt_in_bitmap|].
    exists (set_bitmap bm kt). split; [|split; [by apply kt_wf_set_bitmap|split; [done|]]].
    + unfold ktable_free, mbind, M_bind. rewrite ktable_getid_ok by done.
      destruct (Z.eqb_spec i (wrap32 (-1))) as [E|].
      { destruct Hwf. vm_compute in E. subst i. lia. }
      simpl. unfold on_bitmap, zoom. by rewrite Hr.
    + by apply kt_live_clear.
Defined.

(** ** [ktable_init] *)

Lemma testbit_clear_byte w b k :
  is_u32 w -> 0 <= b < 4 -> 0 <= k < 32 ->
  Z.testbit (Z.land w (not32 (Z.shiftl 255 (8 * b)))) k = negb (k / 8 =? b) && Z.testbit w k.
Proof.
  intros Hw Hb Hk. rewrite Z.land_spec.
  assert (E : Z.testbit (Z.shiftl 255 (8 * b)) k = (k / 8 =? b)).
  { change 255 with (Z.ones 8). rewrite Z.shiftl_spec by lia.
    destruct (Z.eqb_spec (k / 8) b) as [<-|Hne].
    - apply Z.ones_spec_low. pose proof (Z.div_mod k 8). pose proof (Z.mod_pos_bound k 8). lia.
    - destruct (Z.lt_ge_cases k (8 * b)); [apply Z.testbit_neg_r; lia|].
      apply Z.ones_spec_high. pose proof (Z.div_mod k 8). pose proof (Z.mod_pos_bound k 8). lia. }
  rewrite testbit_not32, E, andb_comm; [done| |done].
  rewrite Z.shiftl_mul_pow2 by lia. unfold is_u32, u32_modulus.
  assert (b = 0 \/ b = 1 \/ b = 2 \/ b = 3) as [-> | [-> | [-> | ->]]] by lia; vm_compute; split; congruence.
Qed.

Lemma clear_byte_ok bm k :
  bm_wf bm -> 0 <= k < 4 * Z.of_nat (length bm) ->
  exists bm', clear_byte k bm = Done (tt, bm') /\ bm_wf bm' /\ length bm' = length bm /\
    forall j, 0 <= j -> bit_at bm' j = negb (j / 8 =? k) && bit_at bm j.
Proof.
  intros Hwf Hk. unfold clear_byte.
  assert (Hr : 0 <= k / 4 < Z.of_nat (length bm)).
  { split; [apply Z.div_pos|apply Z.div_lt_upper_bound]; lia. }
  destruct (proj2 (zlookup_is_Some bm (k / 4)) Hr) as [w Hl].
  rewrite Hl, zinsert_Some by done. eexists. split; [done|].
  assert (Hw : is_u32 w) by by eapply bm_wf_lookup.
  split; [apply bm_wf_insert; [done|by apply land_u32]|]. split; [by rewrite length_insert|].
  intros j Hj. unfold bit_at.
  assert (E8 : j / 8 = 4 * (j / 32) + (j mod 32) / 8).
  { pose proof (Z.div_mod j 32 ltac:(lia)) as Ej. rewrite Ej at 1.
    replace (32 * (j / 32) + j mod 32) with (j mod 32 + (4 * (j / 32)) * 8) by lia.
    rewrite Z.div_add by lia. lia. }
  pose proof (Z.mod_pos_bound j 32 ltac:(lia)). pose proof (Z.mod_pos_bound k 4 ltac:(lia)).
  assert (Hb : 0 <= (j mod 32) / 8 < 4).
  { split; [apply Z.div_pos; lia|apply Z.div_lt_upper_bound; lia]. }
  pose proof (Z.div_mod k 4 ltac:(lia)).
  destruct (decide (j / 32 = k / 4)) as [E|E].
  - rewrite E, zlookup_insert_eq, Hl, testbit_clear_byte by done. f_equal. f_equal.
    destruct (Z.eqb_spec (j mod 32 / 8) (k mod 4)), (Z.eqb_spec (j / 8) k); lia.
  - rewrite zlookup_insert_ne by lia. destruct (Z.eqb_spec (j / 8) k); [lia|done].
Qed.

Lemma clear_bytes_ok n k bm :
  bm_wf bm -> 0 <= k -> k + Z.of_nat n <= 4 * Z.of_nat (length bm) ->
  exists bm', clear_bytes n k bm = Done (tt, bm') /\ bm_wf bm' /\ length bm' = length bm /\
    forall j, 0 <= j ->
      bit_at bm' j = negb ((k <=? j / 8) && (j / 8 <? k + Z.of_nat n)) && bit_at bm j.
Proof.
  revert k bm. induction n as [|n IH]; intros k bm Hwf Hk Hn.
  - exists bm. repeat split; try done. intros j Hj.
    destruct (Z.leb_spec k (j / 8)), (Z.ltb_spec (j / 8) (k + Z.of_nat 0)); try lia; done.
  - destruct (clear_byte_ok bm k) as (bm1 & Hr1 & Hw1 & Hl1 & Hb1); [done|lia|].
    destruct (IH (k + 1) bm1) as (bm2 & Hr2 & Hw2 & Hl2 & Hb2); [done|lia|rewrite Hl1; lia|].
    exists bm2. split; [|split; [done|split; [congruence|]]].
    + simpl. unfold mbind, M_bind. by rewrite Hr1.
    + intros j Hj. rewrite Hb2, Hb1 by done. rewrite andb_assoc. f_equal.
      destruct (Z.leb_spec (k + 1) (j / 8)), (Z.ltb_spec (j / 8) (k + 1 + Z.of_nat n)),
        (Z.eqb_spec (j / 8) k), (Z.leb_spec k (j / 8)),
        (Z.ltb_spec (j / 8) (k + Z.of_nat (S n))); try lia; done.
Qed.

(** ** Properties *)

Definition as_table0 : ktable := DECLARE_KTABLE 4096 16 20.

Lemma kt_wf_declare data num size :
  0 < num -> 0 < size -> 0 < data -> data + num * size < u32_modulus -> num < 2147483648 ->
  kt_wf (DECLARE_KTABLE data num size).
Proof.
  intros Hn Hs Hd He Hi. constructor; simpl; try done.
  - apply Forall_replicate. done.
  - rewrite length_replicate. unfold ALIGNED, BITMAP_ALIGN.
    change (32 - 1) with (Z.ones 5). rewrite Z.land_ones by lia. change (2 ^ 5) with 32.
    pose proof (Z.div_mod num 32 ltac:(lia)). pose proof (Z.mod_pos_bound num 32 ltac:(lia)).
    pose proof (Z.div_pos num 32 ltac:(lia) ltac:(lia)).
    destruct (Z.eqb_spec (num mod 32) 0); simpl; lia.
Qed.

(** C12. First fit: on a well-formed table [ktable_alloc] terminates and either
    returns the address of the free element with the least index, marks exactly
    that element and nothing else, or, when no element is free, returns [NULL]
    and changes nothing. *)
Theorem ktable_alloc_first_fit (kt : ktable) (Hwf : kt_wf kt) :
  (exists i kt', 0 <= i < kt_num kt /\ kt_allocated kt i = false /\
     (forall k, 0 <= k < i -> kt_allocated kt k = true) /\
     ktable_alloc kt = Done (kt_addr kt i, kt') /\ kt_wf kt' /\
     forall k, 0 <= k -> kt_allocated kt' k = (k =? i) || kt_allocated kt k) \/
  ((forall k, 0 <= k < kt_num kt -> kt_allocated kt k = true) /\
   ktable_alloc kt = Done (NULL, kt)).
Proof.
  unfold ktable_alloc, gets, mbind, M_bind.
  destruct (ktable_alloc_loop_ok (Z.to_nat (kt_num kt) + 1) 0 kt)
    as [(j & bm & H)|H]; [done|lia|lia|left|right; done].
  exists j, (set_bitmap bm kt). tauto.
Qed.

Lemma ktable_alloc_first_fit_witness :
  kt_wf as_table0 /\
  exists i kt', 0 <= i < 16 /\ ktable_alloc as_table0 = Done (kt_addr as_table0 i, kt') /\ kt_wf kt'.
Proof.
  assert (Hwf : kt_wf as_table0) by (apply kt_wf_declare; reflexivity). split; [done|].
  destruct (ktable_alloc_first_fit as_table0 Hwf) as [(i & kt' & Hi & _ & _ & Hr & Hw & _)|[Hall _]].
  - exists i, kt'. by split.
  - assert (Hi : 0 <= 0 < kt_num as_table0) by (simpl; lia). by specialize (Hall 0 Hi).
Defined.

(** C13. Refinement: each operation on a well-formed table is that of an abstract pool of addresses and
    leaves a well-formed table with the same elements.  An allocation yields an element that was not live
    and makes exactly that one live, or [NULL] and no change when all elements are live; the release of any
    element makes exactly that one not live. *)
Theorem ktable_alloc_free_live (kt : ktable) (Hwf : kt_wf kt) :
  (exists p kt', ktable_alloc kt = Done (p, kt') /\ kt_wf kt' /\ kt_slots kt' = kt_slots kt /\
     ((p <> NULL /\ p ∈ kt_slots kt /\ (p ∉ kt_live kt) /\ kt_live kt' = {[p]} ∪ kt_live kt) \/
      (p = NULL /\ kt' = kt /\ forall q, q ∈ kt_slots kt -> q ∈ kt_live kt))) /\
  (forall p, p ∈ kt_slots kt -> exists kt', ktable_free p kt = Done (tt, kt') /\ kt_wf kt' /\
     kt_slots kt' = kt_slots kt /\ kt_live kt' = kt_live kt ∖ {[p]}).
Proof.
  split; [|intros p Hp; exact (pool_free_live (Pool := ktable_pool) kt p Hwf Hp)].
  destruct (decide (Exists (fun p => p ∉ kt_live kt) (kt_slots kt))) as [Hex|Hall].
  - apply Exists_exists in Hex.
    destruct (pool_alloc_fresh (Pool := ktable_pool) kt Hwf Hex) as (p & kt' & Hr & Hp & Hn & Hw & Hs & Hl). simpl in *.
    exists p, kt'. split; [done|]. split; [done|]. split; [done|]. left. by eauto using kt_slot_nonnull.
  - apply not_Exists_Forall in Hall; [|apply _].
    assert (Hlive : forall q, q ∈ kt_slots kt -> q ∈ kt_live kt).
    { intros q Hq. apply dec_stable. by apply (proj1 (Forall_forall _ _) Hall). }
    exists NULL, kt. split; [exact (pool_alloc_full (Pool := ktable_pool) kt Hwf Hlive)|]. split; [done|]. split; [done|]. by right.
Qed.

(** In a table of 16 with the elements 0 and 2 allocated, the second element is next, and element 2 can be
    freed. *)
Lemma ktable_alloc_free_live_witness :
  (exists p kt', ktable_alloc (set_bitmap [5] as_table0) = Done (p, kt') /\ p <> NULL /\ kt_wf kt') /\
  exists kt', ktable_free (kt_addr as_table0 2) (set_bitmap [5] as_table0) = Done (tt, kt') /\ kt_wf kt' /\
    kt_live kt' = kt_live (set_bitmap [5] as_table0) ∖ {[kt_addr as_table0 2]}.
Proof.
  destruct (ktable_alloc_free_live (set_bitmap [5] as_table0)) as [Halloc Hfree].
  - apply kt_wf_set_bitmap; [apply kt_wf_declare; reflexivity|by apply Forall_singleton|done].
  - split.
    + destruct Halloc as (p & kt' & Hr & Hw & _ & [(Hn & _)|(_ & _ & Hall)]); [by exists p, kt'|]. exfalso.
      assert (H : kt_addr as_table0 1 ∈ kt_live (set_bitmap [5] as_table0)).
      { apply Hall. apply elem_of_kt_slots. exists 1. split; [simpl; lia|done]. }
      vm_compute in H. revert H. apply (bool_decide_unpack (_ ∉ _)). vm_compute. exact I.
    + destruct (Hfree (kt_addr as_table0 2)) as (kt' & Hr & Hw & _ & Hl); [|by exists kt'].
      apply elem_of_kt_slots. exists 2. split; [simpl; lia|done].
Defined.

(** [ktable_init] leaves no element allocated, whatever the bitmap held, when
    the number of elements is a multiple of 8 (as in all tables of the kernel). *)
Theorem ktable_init_empties (kt : ktable) (Hwf : kt_wf kt) (H8 : kt_num kt mod 8 = 0) :
  exists kt', ktable_init kt = Done (tt, kt') /\ kt_wf kt' /\ kt_slots kt' = kt_slots kt /\
    kt_live kt' = ∅.
Proof.
  pose proof Hwf as []. pose proof (Z.div_mod (kt_num kt) 8 ltac:(lia)) as Hd.
  destruct (clear_bytes_ok (Z.to_nat (kt_num kt / 8)) 0 (kt_bitmap kt)) as (bm & Hr & Hw & Hl & Hb);
    [done|lia|lia|].
  exists (set_bitmap bm kt). split; [|split; [by apply kt_wf_set_bitmap|split; [done|]]].
  - unfold ktable_init, gets, mbind, M_bind, on_bitmap, zoom. by rewrite Hr.
  - apply set_eq. intros p. rewrite elem_of_kt_live. split; [|set_solver].
    intros (i & Hi & Ha & _). unfold kt_allocated in Ha. simpl in *. rewrite Hb in Ha by lia.
    assert (i / 8 < kt_num kt / 8) by (apply Z.div_lt_upper_bound; lia).
    pose proof (Z.div_pos i 8 ltac:(lia) ltac:(lia)).
    destruct (Z.leb_spec 0 (i / 8)), (Z.ltb_spec (i / 8) (0 + Z.of_nat (Z.to_nat (kt_num kt / 8))));
      try lia; done.
Qed.

Lemma ktable_init_empties_witness :
  exists kt', ktable_init (set_bitmap [65535] as_table0) = Done (tt, kt') /\ kt_live kt' = ∅.
Proof.
  destruct (ktable_init_empties (set_bitmap [65535] as_table0)) as (kt' & H1 & _ & _ & H2).
  - apply kt_wf_set_bitmap; [apply kt_wf_declare; reflexivity|by apply Forall_singleton|done].
  - reflexivity.
  - by exists kt'.
Defined.

(** The bounds check of [ktable_alloc_id] is off by one: the index [num] is
    accepted, and if the bitmap has a bit for it (the table of 16 address spaces
    has) the call returns the address just past the last element. *)
Theorem ktable_alloc_id_past_end (kt : ktable) (Hwf : kt_wf kt)
    (Hroom : kt_num kt < 32 * Z.of_nat (length (kt_bitmap kt)))
    (Hclear : bit_at (kt_bitmap kt) (kt_num kt) = false) :
  exists kt', ktable_alloc_id (kt_num kt) kt = Done (kt_data kt + kt_num kt * kt_size kt, kt') /\
    kt_data kt + kt_num kt * kt_size kt ∉ kt_slots kt.
Proof.
  pose proof Hwf as []. unfold u32_modulus in *.
  destruct (bitmap_test_and_set_ok (kt_bitmap kt) (kt_num kt)) as (bm & Hr & _);
    [done|unfold in_bitmap; lia|].
  exists (set_bitmap bm kt). split.
  - unfold ktable_alloc_id, gets, mbind, M_bind.
    rewrite wrap32_small by (unfold is_u32, u32_modulus; lia).
    destruct (Z.gtb_spec (kt_num kt) (kt_num kt)); [lia|].
    unfold on_bitmap, zoom. rewrite Hr, Hclear. simpl. do 2 f_equal.
    unfold kt_addr, add32, mul32. simpl.
    rewrite (wrap32_small (kt_num kt * _)) by (unfold is_u32, u32_modulus; nia).
    apply wrap32_small. unfold is_u32, u32_modulus. nia.
  - intros (i & Hi & E)%elem_of_kt_slots. rewrite kt_addr_eq in E by done. nia.
Qed.

Lemma ktable_alloc_id_past_end_witness :
  exists kt', ktable_alloc_id 16 as_table0 = Done (4416, kt') /\ 4416 ∉ kt_slots as_table0.
Proof.
  apply (ktable_alloc_id_past_end as_table0); [apply kt_wf_declare; reflexivity|reflexivity..].
Defined.
