(* ===== verification/Thread.v ===== *)
(** * Threads

    Models [include/thread.h], [include/l4/utcb.h], [kernel/thread.c] and the user
    error reporting of [kernel/error.c].

    The thread control blocks live in the static array behind [thread_table]; the
    heap [tcbs] is keyed by their addresses and keeps the contents of a block after
    it is freed, as the array does.  [utcbs] is the user memory that holds user
    thread control blocks, and [words] the user and kernel stacks, by the address of
    the word.  [thread_map] is the array of pointers sorted by thread number that
    [thread_by_globalid] searches.  [thread_space] and [thread_switch] work on
    address spaces as well and are in [Kernel.v]. *)

From S2P Require Import Prelude Ktable.

(** ** Data: [include/thread.h], [include/l4/utcb.h] *)

Definition CONFIG_MAX_THREADS : Z := 32.
Definition CONFIG_INTR_THREAD_MAX : Z := 256.

Definition L4_NILTHREAD : Z := 0.
Definition L4_ANYLOCALTHREAD : Z := 4294967232.
Definition L4_ANYTHREAD : Z := 4294967295.

Definition GLOBALID_TO_TID (id : Z) : Z := Z.shiftr id 14.
Definition TID_TO_GLOBALID (id : Z) : Z := shl32 id 14.

Definition THREAD_IDLE : Z := 0.
Definition THREAD_KERNEL : Z := 1.
Definition THREAD_ROOT : Z := 2.
Definition THREAD_LOG : Z := 3.
Definition THREAD_SYS : Z := 16.
Definition THREAD_USER : Z := CONFIG_INTR_THREAD_MAX.

Inductive thread_state_t :=
| T_INACTIVE | T_RUNNABLE | T_SVC_BLOCKED | T_RECV_BLOCKED | T_SEND_BLOCKED.

#[export] Instance thread_state_eq_dec : EqDecision thread_state_t.
Proof. solve_decision. Defined.

Record context_t := mk_ctx {
  c_sp : Z;
  c_ret : Z;
  c_ctl : Z;
  c_regs : list Z;
}.

Record tcb := mk_tcb {
  t_globalid : Z;
  t_localid : Z;
  t_state : thread_state_t;
  t_stack_base : Z;
  t_stack_size : Z;
  t_ctx : context_t;
  t_as : Z;
  t_utcb : Z;
  t_ipc_from : Z;
  t_sibling : Z;
  t_parent : Z;
  t_child : Z;
}.

Record utcb := mk_utcb {
  u_globalid : Z;
  u_processor_no : Z;
  u_user_defined_handle : Z;
  u_pager : Z;
  u_exception_handler : Z;
  u_flags : Z;
  u_xfer_timeouts : Z;
  u_error_code : Z;
  u_intended_receiver : Z;
  u_sender : Z;
  u_thread_word_1 : Z;
  u_thread_word_2 : Z;
  u_mr : list Z;
  u_br : list Z;
}.

Definition with_localid x t := mk_tcb (t_globalid t) x (t_state t) (t_stack_base t) (t_stack_size t) (t_ctx t) (t_as t) (t_utcb t) (t_ipc_from t) (t_sibling t) (t_parent t) (t_child t).
Definition with_globalid x t := mk_tcb x (t_localid t) (t_state t) (t_stack_base t) (t_stack_size t) (t_ctx t) (t_as t) (t_utcb t) (t_ipc_from t) (t_sibling t) (t_parent t) (t_child t).
Definition with_state x t := mk_tcb (t_globalid t) (t_localid t) x (t_stack_base t) (t_stack_size t) (t_ctx t) (t_as t) (t_utcb t) (t_ipc_from t) (t_sibling t) (t_parent t) (t_child t).
Definition with_stack b n t := mk_tcb (t_globalid t) (t_localid t) (t_state t) b n (t_ctx t) (t_as t) (t_utcb t) (t_ipc_from t) (t_sibling t) (t_parent t) (t_child t).
Definition with_ctx x t := mk_tcb (t_globalid t) (t_localid t) (t_state t) (t_stack_base t) (t_stack_size t) x (t_as t) (t_utcb t) (t_ipc_from t) (t_sibling t) (t_parent t) (t_child t).
Definition with_as x t := mk_tcb (t_globalid t) (t_localid t) (t_state t) (t_stack_base t) (t_stack_size t) (t_ctx t) x (t_utcb t) (t_ipc_from t) (t_sibling t) (t_parent t) (t_child t).
Definition with_utcb x t := mk_tcb (t_globalid t) (t_localid t) (t_state t) (t_stack_base t) (t_stack_size t) (t_ctx t) (t_as t) x (t_ipc_from t) (t_sibling t) (t_parent t) (t_child t).
Definition with_ipc_from x t := mk_tcb (t_globalid t) (t_localid t) (t_state t) (t_stack_base t) (t_stack_size t) (t_ctx t) (t_as t) (t_utcb t) x (t_sibling t) (t_parent t) (t_child t).
Definition with_sibling x t := mk_tcb (t_globalid t) (t_localid t) (t_state t) (t_stack_base t) (t_stack_size t) (t_ctx t) (t_as t) (t_utcb t) (t_ipc_from t) x (t_parent t) (t_child t).
Definition with_parent x t := mk_tcb (t_globalid t) (t_localid t) (t_state t) (t_stack_base t) (t_stack_size t) (t_ctx t) (t_as t) (t_utcb t) (t_ipc_from t) (t_sibling t) x (t_child t).
Definition with_child x t := mk_tcb (t_globalid t) (t_localid t) (t_state t) (t_stack_base t) (t_stack_size t) (t_ctx t) (t_as t) (t_utcb t) (t_ipc_from t) (t_sibling t) (t_parent t) x.

Definition with_sp x c := mk_ctx x (c_ret c) (c_ctl c) (c_regs c).
Definition with_ret_ctl r k c := mk_ctx (c_sp c) r k (c_regs c).
Definition with_regs x c := mk_ctx (c_sp c) (c_ret c) (c_ctl c) x.

Definition with_u_globalid x u := mk_utcb x (u_processor_no u) (u_user_defined_handle u) (u_pager u) (u_exception_handler u) (u_flags u) (u_xfer_timeouts u) (u_error_code u) (u_intended_receiver u) (u_sender u) (u_thread_word_1 u) (u_thread_word_2 u) (u_mr u) (u_br u).
Definition with_u_pager x u := mk_utcb (u_globalid u) (u_processor_no u) (u_user_defined_handle u) x (u_exception_handler u) (u_flags u) (u_xfer_timeouts u) (u_error_code u) (u_intended_receiver u) (u_sender u) (u_thread_word_1 u) (u_thread_word_2 u) (u_mr u) (u_br u).
Definition with_u_error x u := mk_utcb (u_globalid u) (u_processor_no u) (u_user_defined_handle u) (u_pager u) (u_exception_handler u) (u_flags u) (u_xfer_timeouts u) x (u_intended_receiver u) (u_sender u) (u_thread_word_1 u) (u_thread_word_2 u) (u_mr u) (u_br u).
Definition with_u_receiver x u := mk_utcb (u_globalid u) (u_processor_no u) (u_user_defined_handle u) (u_pager u) (u_exception_handler u) (u_flags u) (u_xfer_timeouts u) (u_error_code u) x (u_sender u) (u_thread_word_1 u) (u_thread_word_2 u) (u_mr u) (u_br u).
Definition with_u_sender x u := mk_utcb (u_globalid u) (u_processor_no u) (u_user_defined_handle u) (u_pager u) (u_exception_handler u) (u_flags u) (u_xfer_timeouts u) (u_error_code u) (u_intended_receiver u) x (u_thread_word_1 u) (u_thread_word_2 u) (u_mr u) (u_br u).
Definition with_u_mr x u := mk_utcb (u_globalid u) (u_processor_no u) (u_user_defined_handle u) (u_pager u) (u_exception_handler u) (u_flags u) (u_xfer_timeouts u) (u_error_code u) (u_intended_receiver u) (u_sender u) (u_thread_word_1 u) (u_thread_word_2 u) x (u_br u).

(** ** The state of the dispatcher *)

Record thrstate := mk_thr {
  thread_table : ktable;
  tcbs : gmap Z tcb;
  thread_map : list Z;
  thread_count : Z;
  utcbs : gmap Z utcb;
  words : gmap Z Z;
  current : Z;
  current_utcb : Z;
  caller : Z;
  idle : Z;
  kernel : Z;
  root : Z;
  kip_addr : Z;
}.

Definition set_thread_table x s := mk_thr x (tcbs s) (thread_map s) (thread_count s) (utcbs s) (words s) (current s) (current_utcb s) (caller s) (idle s) (kernel s) (root s) (kip_addr s).
Definition set_tcbs x s := mk_thr (thread_table s) x (thread_map s) (thread_count s) (utcbs s) (words s) (current s) (current_utcb s) (caller s) (idle s) (kernel s) (root s) (kip_addr s).
Definition set_thread_map m c s := mk_thr (thread_table s) (tcbs s) m c (utcbs s) (words s) (current s) (current_utcb s) (caller s) (idle s) (kernel s) (root s) (kip_addr s).
Definition set_utcbs x s := mk_thr (thread_table s) (tcbs s) (thread_map s) (thread_count s) x (words s) (current s) (current_utcb s) (caller s) (idle s) (kernel s) (root s) (kip_addr s).
Definition set_words x s := mk_thr (thread_table s) (tcbs s) (thread_map s) (thread_count s) (utcbs s) x (current s) (current_utcb s) (caller s) (idle s) (kernel s) (root s) (kip_addr s).
Definition set_current c u s := mk_thr (thread_table s) (tcbs s) (thread_map s) (thread_count s) (utcbs s) (words s) c u (caller s) (idle s) (kernel s) (root s) (kip_addr s).
Definition set_caller x s := mk_thr (thread_table s) (tcbs s) (thread_map s) (thread_count s) (utcbs s) (words s) (current s) (current_utcb s) x (idle s) (kernel s) (root s) (kip_addr s).
Definition set_systhreads i k r s := mk_thr (thread_table s) (tcbs s) (thread_map s) (thread_count s) (utcbs s) (words s) (current s) (current_utcb s) (caller s) i k r (kip_addr s).

(** Accesses through pointers. *)
Definition get_tcb (p : Z) : M thrstate tcb := fun s =>
  match tcbs s !! p with Some t => Done (t, s) | None => Fault end.
Definition upd_tcb (p : Z) (f : tcb -> tcb) : M thrstate unit := fun s =>
  match tcbs s !! p with
  | Some t => Done (tt, set_tcbs (<[p := f t]> (tcbs s)) s)
  | None => Fault
  end.
Definition get_utcb (p : Z) : M thrstate utcb := fun s =>
  match utcbs s !! p with Some u => Done (u, s) | None => Fault end.
Definition upd_utcb (p : Z) (f : utcb -> utcb) : M thrstate unit := fun s =>
  match utcbs s !! p with
  | Some u => Done (tt, set_utcbs (<[p := f u]> (utcbs s)) s)
  | None => Fault
  end.
Definition read_word (p : Z) : M thrstate Z := fun s =>
  match words s !! p with Some w => Done (w, s) | None => Fault end.
Definition write_word (p w : Z) : M thrstate unit := fun s =>
  match words s !! p with
  | Some _ => Done (tt, set_words (<[p := w]> (words s)) s)
  | None => Fault
  end.
Definition in_thread_table {A} : M ktable A -> M thrstate A :=
  zoom thread_table set_thread_table.

(** ** [kernel/error.c] *)

Definition UE_OUT_OF_MEM : Z := 8.
Definition UE_TC_NOT_AVAILABLE : Z := 2.
Definition UE_IPC_PHASE_SEND : Z := 0.
Definition UE_IPC_PHASE_RECV : Z := 1.
Definition UE_IPC_MSG_OVERFLOW : Z := Z.shiftl 4 1.

Definition set_user_error (thread error : Z) : M thrstate unit :=
  if thread =? NULL then panic
  else
    t ← get_tcb thread;
    assert (negb (t_utcb t =? NULL));;
    upd_utcb (t_utcb t) (with_u_error error).

Definition set_caller_error (error : Z) : M thrstate unit :=
  c ← gets caller;
  if negb (c =? NULL) then set_user_error c error else panic.

(** ** The sorted map of threads *)

Definition map_get (i : Z) : M thrstate Z := fun s =>
  match zlookup (thread_map s) i with Some p => Done (p, s) | None => Fault end.
Definition map_set (i p : Z) : M thrstate unit := fun s =>
  match zinsert i p (thread_map s) with
  | Some m => Done (tt, set_thread_map m (thread_count s) s)
  | None => Fault
  end.
Definition set_count (c : Z) : M thrstate unit :=
  modify (fun s => set_thread_map (thread_map s) c s).

(** [GLOBALID_TO_TID(thread_map[i]->t_globalid)] *)
Definition map_tid (i : Z) : M thrstate Z :=
  p ← map_get i; t ← get_tcb p; mret (GLOBALID_TO_TID (t_globalid t)).

(** The [while] loop of [thread_map_search]. *)
Fixpoint thread_map_loop (fuel : nat) (tid from to : Z) : M thrstate Z :=
  match fuel with
  | O => fuel_out
  | S fuel' =>
      if from <=? to then
        let mid := from + (to - from) / 2 in
        if to - from <=? 1 then mret to
        else
          m ← map_tid mid;
          if m >? tid then thread_map_loop fuel' tid from mid
          else if m <? tid then thread_map_loop fuel' tid mid to
          else mret mid
      else mret (-1)
  end.

(** Every turn of the loop shortens the interval, so [to - from + 1] turns are
    enough. *)
Definition thread_map_search (globalid from to : Z) : M thrstate Z :=
  let tid := GLOBALID_TO_TID globalid in
  if to =? from then mret from
  else
    f ← map_tid from;
    if f >=? tid then mret from
    else thread_map_loop (Z.to_nat (to - from) + 1) tid from to.

(** [for (; j > i; --j) thread_map[j] = thread_map[j - 1];] for [n = j - i] turns. *)
Fixpoint map_shift_up (n : nat) (j : Z) : M thrstate unit :=
  match n with
  | O => mret tt
  | S n' => x ← map_get (j - 1); map_set j x;; map_shift_up n' (j - 1)
  end.

(** [for (; i < thread_count; i++) thread_map[i] = thread_map[i + 1];] *)
Fixpoint map_shift_down (n : nat) (i : Z) : M thrstate unit :=
  match n with
  | O => mret tt
  | S n' => x ← map_get (i + 1); map_set i x;; map_shift_down n' (i + 1)
  end.

Definition thread_map_insert (globalid thr : Z) : M thrstate unit :=
  count ← gets thread_count;
  if count =? 0 then map_set count thr;; set_count (count + 1)
  else
    i ← thread_map_search globalid 0 count;
    map_shift_up (Z.to_nat (count - i)) count;;
    map_set i thr;;
    set_count (count + 1).

Definition thread_map_delete (globalid : Z) : M thrstate unit :=
  count ← gets thread_count;
  if count =? 1 then set_count 0
  else
    i ← thread_map_search globalid 0 count;
    set_count (count - 1);;
    map_shift_down (Z.to_nat (count - 1 - i)) i.

Definition thread_by_globalid (globalid : Z) : M thrstate Z :=
  count ← gets thread_count;
  idx ← thread_map_search globalid 0 count;
  m ← map_tid idx;
  if negb (m =? GLOBALID_TO_TID globalid) then mret NULL
  else map_get idx.

(** ** Creation and destruction *)

Definition thread_init (globalid utcb : Z) : M thrstate Z :=
  thr ← in_thread_table ktable_alloc;
  if thr =? NULL then
    set_caller_error UE_OUT_OF_MEM;; mret NULL
  else
    thread_map_insert globalid thr;;
    upd_tcb thr (with_localid 0);;
    upd_tcb thr (with_child NULL);;
    upd_tcb thr (with_parent NULL);;
    upd_tcb thr (with_sibling NULL);;
    upd_tcb thr (with_globalid globalid);;
    when (negb (utcb =? NULL)) (upd_utcb utcb (with_u_globalid globalid));;
    upd_tcb thr (with_as NULL);;
    upd_tcb thr (with_utcb utcb);;
    upd_tcb thr (with_state T_INACTIVE);;
    mret thr.

Definition thread_deinit (thr : Z) : M thrstate unit :=
  t ← get_tcb thr;
  thread_map_delete (t_globalid t);;
  in_thread_table (ktable_free thr).

(** Fuel for a walk over the sibling chains and the tree of threads: a walk that
    does not run in a circle visits a block at most twice. *)
Definition tree_fuel (s : thrstate) : nat := 2 * size (tcbs s) + 2.

(** [while (t->t_sibling != 0) t = t->t_sibling;] *)
Fixpoint last_sibling (fuel : nat) (t : Z) : M thrstate Z :=
  match fuel with
  | O => fuel_out
  | S fuel' =>
      b ← get_tcb t;
      if negb (t_sibling b =? NULL) then last_sibling fuel' (t_sibling b) else mret t
  end.

Definition thread_create (globalid utcb : Z) : M thrstate Z :=
  let id := GLOBALID_TO_TID globalid in
  c ← gets caller;
  assert (negb (c =? NULL));;
  if (id <? THREAD_SYS) || (globalid =? L4_ANYTHREAD) || (globalid =? L4_ANYLOCALTHREAD) then
    set_caller_error UE_TC_NOT_AVAILABLE;; mret NULL
  else
    thr ← thread_init globalid utcb;
    upd_tcb thr (with_parent c);;
    cb ← get_tcb c;
    if negb (t_child cb =? NULL) then
      fuel ← gets tree_fuel;
      t ← last_sibling fuel (t_child cb);
      upd_tcb t (with_sibling thr);;
      tb ← get_tcb t;
      upd_tcb thr (with_localid (t_localid tb +w Z.shiftl 1 6));;
      mret thr
    else
      upd_tcb c (with_child thr);;
      upd_tcb thr (with_localid (Z.shiftl 1 6));;
      mret thr.

(** [while (child != thr) { prev_child = child; child = child->t_sibling; }] *)
Fixpoint find_prev (fuel : nat) (thr prev_child child : Z) : M thrstate (Z * Z) :=
  match fuel with
  | O => fuel_out
  | S fuel' =>
      if negb (child =? thr) then
        b ← get_tcb child; find_prev fuel' thr child (t_sibling b)
      else mret (prev_child, child)
  end.

(** [while (child->t_sibling) { child = child->t_sibling; child->t_parent = caller; }] *)
Fixpoint adopt (fuel : nat) (caller child : Z) : M thrstate Z :=
  match fuel with
  | O => fuel_out
  | S fuel' =>
      b ← get_tcb child;
      if negb (t_sibling b =? NULL) then
        upd_tcb (t_sibling b) (with_parent caller);;
        adopt fuel' caller (t_sibling b)
      else mret child
  end.

(** The first part of [thread_destroy]: remove [thr] from its parent and its
    siblings. *)
Definition unlink_child (fuel : nat) (thr : Z) : M thrstate unit :=
  t ← get_tcb thr;
  p ← get_tcb (t_parent t);
  if t_child p =? thr then upd_tcb (t_parent t) (with_child (t_sibling t))
  else
    pc ← find_prev fuel thr NULL (t_child p);
    b ← get_tcb pc.2;
    upd_tcb pc.1 (with_sibling (t_sibling b)).

(** The second part: move the children of [thr] to [caller]. *)
Definition move_children (fuel : nat) (caller thr : Z) : M thrstate unit :=
  t ← get_tcb thr;
  when (negb (t_child t =? NULL)) (
    upd_tcb (t_child t) (with_parent caller);;
    last ← adopt fuel caller (t_child t);
    cb ← get_tcb caller;
    upd_tcb last (with_sibling (t_child cb));;
    t' ← get_tcb thr;
    upd_tcb caller (with_child (t_child t'))).

Definition thread_destroy (thr : Z) : M thrstate unit :=
  fuel ← gets tree_fuel;
  c ← gets caller;
  unlink_child fuel thr;;
  move_children fuel c thr;;
  thread_deinit thr.

(** ** Contexts *)

Definition REG_R0 : Z := 0.
Definition REG_R1 : Z := 1.
Definition REG_R2 : Z := 2.
Definition REG_R3 : Z := 3.
Definition REG_R12 : Z := 4.
Definition REG_LR : Z := 5.
Definition REG_PC : Z := 6.
Definition REG_xPSR : Z := 7.
Definition RESERVED_STACK : Z := 8 * 4.

(** The word [((uint32_t * ) sp)[r]]. *)
Definition reg_addr (sp r : Z) : Z := sp +w (4 * r).

Definition thread_init_ctx (sp pc thr : Z) : M thrstate unit :=
  let sp := sp -w RESERVED_STACK in
  upd_tcb thr (fun t => with_ctx (with_sp sp (t_ctx t)) t);;
  t ← get_tcb thr;
  (if GLOBALID_TO_TID (t_globalid t) >=? THREAD_ROOT then
     upd_tcb thr (fun t => with_ctx (with_ret_ctl 4294967293 3 (t_ctx t)) t);;
     kip ← gets kip_addr;
     write_word (reg_addr sp REG_R0) kip;;
     write_word (reg_addr sp REG_R1) (t_utcb t)
   else
     upd_tcb thr (fun t => with_ctx (with_ret_ctl 4294967289 0 (t_ctx t)) t);;
     write_word (reg_addr sp REG_R0) 0;;
     write_word (reg_addr sp REG_R1) 0);;
  write_word (reg_addr sp REG_R2) 0;;
  write_word (reg_addr sp REG_R3) 0;;
  write_word (reg_addr sp REG_R12) 0;;
  write_word (reg_addr sp REG_LR) 4294967295;;
  write_word (reg_addr sp REG_PC) pc;;
  write_word (reg_addr sp REG_xPSR) 16777216.

Definition thread_init_kernel_ctx (sp thr : Z) : M thrstate unit :=
  let sp := sp -w RESERVED_STACK in
  upd_tcb thr (fun t => with_ctx (with_sp sp (t_ctx t)) t);;
  upd_tcb thr (fun t => with_ctx (with_ret_ctl 4294967289 0 (t_ctx t)) t).

(** ** Queries and selection *)

Definition isrunnable (t : tcb) : bool := bool_decide (t_state t = T_RUNNABLE).

(** Whether the block at [p] is that of a runnable thread. *)
Definition runnable (h : gmap Z tcb) (p : Z) : bool :=
  match h !! p with Some t => isrunnable t | None => false end.

Definition thread_isrunnable (thr : Z) : M thrstate bool :=
  t ← get_tcb thr; mret (isrunnable t).

Definition thread_current : M thrstate Z := gets current.

Definition thread_ispriviliged (thread : Z) : M thrstate bool :=
  t ← get_tcb thread; mret (GLOBALID_TO_TID (t_globalid t) =? THREAD_ROOT).

(** The [do] loop of [thread_select]: climb from [thr] to the nearest ancestor
    below [parent] that has a next sibling, and go to that sibling. *)
Fixpoint thread_climb (fuel : nat) (parent thr : Z) : M thrstate (option Z) :=
  match fuel with
  | O => fuel_out
  | S fuel' =>
      t ← get_tcb thr;
      if t_parent t =? parent then mret None
      else
        u ← get_tcb (t_parent t);
        if t_sibling u =? NULL then thread_climb fuel' parent (t_parent t)
        else mret (Some (t_sibling u))
  end.

Fixpoint thread_select_loop (fuel : nat) (parent thr : Z) : M thrstate Z :=
  match fuel with
  | O => fuel_out
  | S fuel' =>
      t ← get_tcb thr;
      if isrunnable t then mret thr
      else if negb (t_child t =? NULL) then thread_select_loop fuel' parent (t_child t)
      else if negb (t_sibling t =? NULL) then thread_select_loop fuel' parent (t_sibling t)
      else
        n ← thread_climb fuel parent thr;
        match n with
        | None => mret NULL
        | Some thr' => thread_select_loop fuel' parent thr'
        end
  end.

Definition thread_select (parent : Z) : M thrstate Z :=
  fuel ← gets tree_fuel;
  p ← get_tcb parent;
  if t_child p =? NULL then mret NULL
  else thread_select_loop fuel parent (t_child p).

(** The handler of the scheduler slot of normal threads. *)
Definition thread_sched : M thrstate Z := r ← gets root; thread_select r.

(** [set_kernel_state] of [kernel/systhread.c]. *)
Definition set_kernel_state (st : thread_state_t) : M thrstate unit :=
  k ← gets kernel; upd_tcb k (with_state st).

Lemma get_tcb_ok p t s : tcbs s !! p = Some t -> get_tcb p s = Done (t, s).
Proof. unfold get_tcb. by intros ->. Qed.
