(* ===== verification/ThreadMap.v ===== *)
(** * The sorted map of threads: theorems

    [thread_map_search], [thread_map_insert], [thread_map_delete],
    [thread_by_globalid], [thread_init] and [thread_deinit] of [kernel/thread.c],
    against the list of pairs (block, thread number) that the map represents. *)

From S2P Require Import Prelude Ktable Thread.

(** [l] is ordered by [R] at every pair of positions. *)
Definition ordered {A} (R : A -> A -> Prop) (l : list A) : Prop :=
  forall i j x y, (i < j)%nat -> l !! i = Some x -> l !! j = Some y -> R x y.

(** The pointers in use in [thread_map]. *)
Definition map_ptrs (s : thrstate) (ps : list Z) : Prop :=
  thread_count s = Z.of_nat (length ps) /\
  length (thread_map s) = Z.to_nat CONFIG_MAX_THREADS /\
  (length ps <= length (thread_map s))%nat /\
  forall i p, ps !! i = Some p -> thread_map s !! i = Some p.

(** The thread number of a block. *)
Definition has_tid (s : thrstate) (p tid : Z) : Prop :=
  exists t, tcbs s !! p = Some t /\ GLOBALID_TO_TID (t_globalid t) = tid.

(** The map represents the entries [ents], in ascending order of thread numbers. *)
Record map_rep (s : thrstate) (ents : list (Z * Z)) : Prop := {
  mr_ptrs : map_ptrs s ents.*1;
  mr_tids : Forall (fun e => has_tid s e.1 e.2) ents;
  mr_order : ordered Z.le ents.*2;
}.

Lemma ordered_weaken {A} (R Q : A -> A -> Prop) l :
  (forall x y, R x y -> Q x y) -> ordered R l -> ordered Q l.
Proof. unfold ordered. eauto. Qed.

Lemma lookup_delete_shift {A} (l : list A) i k :
  delete i l !! k = l !! (if bool_decide (k < i)%nat then k else S k).
Proof. case_bool_decide; [by apply list_lookup_delete_lt|apply list_lookup_delete_ge; lia]. Qed.

Lemma ordered_delete {A} (R : A -> A -> Prop) l i : ordered R l -> ordered R (delete i l).
Proof.
  intros Ho a b x y Hab. rewrite !lookup_delete_shift. apply Ho.
  repeat case_bool_decide; lia.
Qed.

(** ** Searching *)

(** [r] is a place for the thread number [t] in the ordered list [ts]. *)
Definition place (ts : list Z) (t : Z) (r : nat) : Prop :=
  (r <= length ts)%nat /\
  (forall i x, (i < r)%nat -> ts !! i = Some x -> x <= t) /\
  (forall i x, (r <= i)%nat -> ts !! i = Some x -> t <= x) /\
  (forall x, ts !! r = Some x -> x = t \/ forall i y, (i < r)%nat -> ts !! i = Some y -> y < t) /\
  ((r = length ts) -> forall i y, (i < r)%nat -> ts !! i = Some y -> y < t).

Lemma map_tid_ok s ents (i : nat) x :
  map_rep s ents -> ents.*2 !! i = Some x -> map_tid (Z.of_nat i) s = Done (x, s).
Proof.
  intros [(Hc & Hl & Hle & Hp) Ht _] Hx.
  apply list_lookup_fmap_Some in Hx as ([p tid] & -> & Hi).
  assert (Hm : thread_map s !! i = Some p) by (apply Hp; by rewrite list_lookup_fmap, Hi).
  eapply Forall_lookup_1 in Ht as (t & Hb & E); [|done]. simpl in *.
  unfold map_tid, map_get, get_tcb, mbind, M_bind, mret, M_ret.
  by rewrite zlookup_nat, Hm, Hb, E.
Qed.

Lemma thread_map_loop_ok s ents t n (from to : nat) x :
  map_rep s ents -> (from < to <= length ents)%nat -> (to - from < n)%nat ->
  ents.*2 !! from = Some x -> x < t ->
  (forall y, ents.*2 !! to = Some y -> t < y) ->
  exists r, thread_map_loop n t (Z.of_nat from) (Z.of_nat to) s = Done (Z.of_nat r, s) /\
    place ents.*2 t r.
Proof.
  intros Hm. pose proof (mr_order _ _ Hm) as Ho. revert from to x.
  induction n as [|n IH]; intros from to x Hft Hn Hx Hxt Hto; [lia|]. simpl.
  destruct (Z.leb_spec (Z.of_nat from) (Z.of_nat to)); [|lia].
  destruct (Z.leb_spec (Z.of_nat to - Z.of_nat from) 1).
  - assert (to = S from) as -> by lia. exists (S from). split; [done|].
    assert (Hlow : forall i y, (i < S from)%nat -> ents.*2 !! i = Some y -> y < t).
    { intros i y Hi Hy. destruct (decide (i = from)) as [->|]; [congruence|].
      assert (y <= x) by (eapply (Ho i from); [lia|done..]). lia. }
    unfold place. rewrite length_fmap. split; [lia|]. split; [|split; [|split]].
    + intros i y Hi Hy. specialize (Hlow i y Hi Hy). lia.
    + intros i y Hi Hy. destruct (decide (i = S from)) as [->|]; [apply Hto in Hy; lia|].
      assert (Hs : is_Some (ents.*2 !! S from)).
      { apply lookup_lt_is_Some. apply lookup_lt_Some in Hy. lia. }
      destruct Hs as [z Hz]. specialize (Hto z Hz).
      assert (z <= y) by (eapply (Ho (S from) i); [lia|done..]). lia.
    + intros y Hy. right. done.
    + done.
  - set (m := (from + (to - from) / 2)%nat).
    assert (Hdiv : (1 <= (to - from) / 2 < to - from)%nat).
    { split; [apply Nat.div_le_lower_bound; lia|apply Nat.div_lt; lia]. }
    replace (Z.of_nat from + (Z.of_nat to - Z.of_nat from) / 2) with (Z.of_nat m).
    2: { unfold m. rewrite Nat2Z.inj_add, Nat2Z.inj_div, Nat2Z.inj_sub by lia. lia. }
    destruct (lookup_lt_is_Some_2 ents.*2 m) as [y Hy]; [rewrite length_fmap; lia|].
    unfold mbind, M_bind. rewrite (map_tid_ok s ents m y) by done.
    destruct (Z.gtb_spec y t) as [Hgt|Hle].
    + eapply IH; [lia|lia|done..|]. intros z Hz. rewrite Hy in Hz. injection Hz as <-. lia.
    + destruct (Z.ltb_spec y t).
      * eapply IH; [lia|lia|done..].
      * assert (y = t) as -> by lia. exists m. split; [done|].
        unfold place. rewrite length_fmap. split; [lia|]. split; [|split; [|split]].
        -- intros i z Hi Hz. eapply (Ho i m); done.
        -- intros i z Hi Hz. destruct (decide (i = m)) as [->|]; [rewrite Hy in Hz; injection Hz as <-; lia|].
           eapply (Ho m i); [lia|done..].
        -- intros z Hz. left. congruence.
        -- lia.
Qed.

Lemma place_zero ts t :
  (forall x, ts !! O = Some x -> t <= x) -> ordered Z.le ts -> place ts t O.
Proof.
  intros H0 Ho. split; [lia|]. split; [lia|]. split; [|split; [|lia]].
  - intros i x _ Hx. destruct (decide (i = O)) as [->|]; [eauto|].
    destruct (lookup_lt_is_Some_2 ts O) as [y Hy]; [apply lookup_lt_Some in Hx; lia|].
    specialize (H0 y Hy). assert (y <= x) by (eapply (Ho O i); [lia|done..]). lia.
  - intros x Hx. right. lia.
Qed.

(** The search stops, does not fault and finds a place for the thread number. *)
Lemma thread_map_search_ok s ents globalid :
  map_rep s ents ->
  exists r, thread_map_search globalid 0 (Z.of_nat (length ents)) s = Done (Z.of_nat r, s) /\
    place ents.*2 (GLOBALID_TO_TID globalid) r.
Proof.
  intros Hm. pose proof (mr_order _ _ Hm) as Ho. unfold thread_map_search.
  destruct (Z.eqb_spec (Z.of_nat (length ents)) 0) as [E|E].
  - exists O. split; [done|]. apply place_zero; [|done]. intros x Hx.
    apply lookup_lt_Some in Hx. rewrite length_fmap in Hx. lia.
  - destruct (lookup_lt_is_Some_2 ents.*2 O) as [x Hx]; [rewrite length_fmap; lia|].
    unfold mbind, M_bind. change 0 with (Z.of_nat 0) at 1. rewrite (map_tid_ok s ents O x) by done.
    destruct (Z.geb_spec x (GLOBALID_TO_TID globalid)).
    + exists O. split; [done|]. apply place_zero; [|done]. intros y Hy. congruence.
    + eapply (thread_map_loop_ok s ents _ _ O); [done|lia|lia|done|lia|].
      intros y Hy. apply lookup_lt_Some in Hy. rewrite length_fmap in Hy. lia.
Qed.

(** ** Moving entries *)

Lemma map_shift_up_ok n (j : nat) s :
  (n <= j < length (thread_map s))%nat ->
  exists l, map_shift_up n (Z.of_nat j) s = Done (tt, set_thread_map l (thread_count s) s) /\
    length l = length (thread_map s) /\
    forall k, l !! k = if bool_decide (j - n < k <= j)%nat then thread_map s !! (k - 1)%nat
                       else thread_map s !! k.
Proof.
  revert j s. induction n as [|n IH]; intros j s Hj.
  - exists (thread_map s). split; [by destruct s|]. split; [done|]. intros k.
    rewrite bool_decide_eq_false_2 by lia. done.
  - simpl. destruct (lookup_lt_is_Some_2 (thread_map s) (j - 1)) as [x Hx]; [lia|].
    unfold mbind, M_bind, map_get, map_set.
    replace (Z.of_nat j - 1) with (Z.of_nat (j - 1)) by lia. rewrite zlookup_nat, Hx.
    rewrite zinsert_Some by lia. rewrite Nat2Z.id.
    destruct (IH (j - 1)%nat (set_thread_map (<[j:=x]> (thread_map s)) (thread_count s) s))
      as (l & Hr & Hl & Hk); [simpl; rewrite length_insert; lia|].
    exists l. split; [done|]. simpl in *. rewrite length_insert in Hl. split; [done|].
    intros k. rewrite Hk. repeat case_bool_decide; try lia.
    + rewrite list_lookup_insert_ne by lia. done.
    + assert (k = j) as -> by lia. rewrite list_lookup_insert_eq by lia. done.
    + rewrite list_lookup_insert_ne by lia. done.
Qed.

Lemma map_shift_down_ok n (i : nat) s :
  (i + n < length (thread_map s))%nat ->
  exists l, map_shift_down n (Z.of_nat i) s = Done (tt, set_thread_map l (thread_count s) s) /\
    length l = length (thread_map s) /\
    forall k, l !! k = if bool_decide (i <= k < i + n)%nat then thread_map s !! S k
                       else thread_map s !! k.
Proof.
  revert i s. induction n as [|n IH]; intros i s Hi.
  - exists (thread_map s). split; [by destruct s|]. split; [done|]. intros k.
    rewrite bool_decide_eq_false_2 by lia. done.
  - simpl. destruct (lookup_lt_is_Some_2 (thread_map s) (S i)) as [x Hx]; [lia|].
    unfold mbind, M_bind, map_get, map_set.
    replace (Z.of_nat i + 1) with (Z.of_nat (S i)) by lia. rewrite zlookup_nat, Hx.
    rewrite zinsert_Some by lia. rewrite Nat2Z.id.
    destruct (IH (S i) (set_thread_map (<[i:=x]> (thread_map s)) (thread_count s) s))
      as (l & Hr & Hl & Hk); [simpl; rewrite length_insert; lia|].
    exists l. split; [done|]. simpl in *. rewrite length_insert in Hl. split; [done|].
    intros k. rewrite Hk. repeat case_bool_decide; try lia.
    + rewrite list_lookup_insert_ne by lia. done.
    + assert (k = i) as -> by lia. rewrite list_lookup_insert_eq by lia. done.
    + rewrite list_lookup_insert_ne by lia. done.
Qed.

(** ** Inserting and deleting *)

Definition insert_at {A} (r : nat) (x : A) (l : list A) : list A := take r l ++ x :: drop r l.

Lemma insert_at_fmap {A B} (f : A -> B) r x l : f <$> insert_at r x l = insert_at r (f x) (f <$> l).
Proof. unfold insert_at. by rewrite fmap_app, fmap_cons, fmap_take, fmap_drop. Qed.

Lemma length_insert_at {A} r (x : A) l : (r <= length l)%nat -> length (insert_at r x l) = S (length l).
Proof. intros. unfold insert_at. rewrite length_app, length_take. simpl. rewrite length_drop. lia. Qed.

Lemma lookup_insert_at {A} r (x : A) l k :
  (r <= length l)%nat ->
  insert_at r x l !! k =
    if bool_decide (k < r)%nat then l !! k
    else if bool_decide (k = r) then Some x else l !! (k - 1)%nat.
Proof.
  intros Hr. unfold insert_at. repeat case_bool_decide.
  - rewrite lookup_app_l, lookup_take_lt by (rewrite ?length_take; lia). done.
  - subst. rewrite lookup_app_r by (rewrite length_take; lia).
    rewrite length_take. replace (r - r `min` length l)%nat with O by lia. done.
  - rewrite lookup_app_r by (rewrite length_take; lia). rewrite length_take.
    replace (k - r `min` length l)%nat with (S (k - r - 1)) by lia. simpl.
    rewrite lookup_drop. f_equal. lia.
Qed.

Lemma insert_at_perm {A} r (x : A) l : insert_at r x l ≡ₚ x :: l.
Proof. unfold insert_at. rewrite <- Permutation_middle. by rewrite take_drop. Qed.

(** An ordered list stays ordered when an element is inserted at its place. *)
Lemma ordered_insert_at ts t r : ordered Z.le ts -> place ts t r -> ordered Z.le (insert_at r t ts).
Proof.
  intros Ho (Hr & Hlo & Hhi & _) i j x y Hij Hx Hy. rewrite lookup_insert_at in Hx, Hy by done.
  repeat case_bool_decide; simplify_eq; try lia;
    first [ eapply Hhi; [|done]; lia | eapply Hlo; [|done]; lia
          | eapply (Ho i j); [lia|done..] | eapply (Ho i (j - 1)%nat); [lia|done..]
          | eapply (Ho (i - 1)%nat (j - 1)%nat); [lia|done..] ].
Qed.

Lemma ordered_insert_at_strict ts t r :
  ordered Z.lt ts -> place ts t r -> t ∉ ts -> ordered Z.lt (insert_at r t ts).
Proof.
  intros Ho Hp Hn i j x y Hij Hx Hy.
  assert (Ho' : ordered Z.le ts) by (eapply ordered_weaken; [|done]; lia).
  pose proof (ordered_insert_at ts t r Ho' Hp i j x y Hij Hx Hy).
  enough (x <> y) by lia. intros ->. rewrite lookup_insert_at in Hx, Hy by apply Hp.
  repeat case_bool_decide; simplify_eq; try lia; try by (apply Hn; eapply list_elem_of_lookup_2).
  all: first [ specialize (Ho i j y y ltac:(lia) Hx Hy); lia
             | specialize (Ho i (j - 1)%nat y y ltac:(lia) Hx Hy); lia
             | specialize (Ho (i - 1)%nat (j - 1)%nat y y ltac:(lia) Hx Hy); lia ].
Qed.

Lemma thread_map_insert_ok s ents globalid thr :
  map_rep s ents -> (length ents < length (thread_map s))%nat ->
  exists r l,
    thread_map_insert globalid thr s = Done (tt, set_thread_map l (thread_count s + 1) s) /\
    place ents.*2 (GLOBALID_TO_TID globalid) r /\ length l = length (thread_map s) /\
    forall i p, insert_at r thr ents.*1 !! i = Some p -> l !! i = Some p.
Proof.
  intros Hm Hlen. pose proof (mr_ptrs _ _ Hm) as (Hc & Hl & _ & Hp). rewrite length_fmap in Hc.
  destruct (thread_map_search_ok s ents globalid Hm) as (r & Hr & Hpl).
  exists r. pose proof (proj1 Hpl) as Hrl. rewrite length_fmap in Hrl.
  unfold thread_map_insert, gets, mbind, M_bind, map_set, set_count, modify. rewrite Hc.
  destruct (Z.eqb_spec (Z.of_nat (length ents)) 0) as [E|E].
  - assert (r = O) as -> by lia. rewrite E, zinsert_Some by lia. change (Z.to_nat 0) with O.
    exists (<[O := thr]> (thread_map s)). split; [done|]. split; [done|]. rewrite length_insert. split; [done|].
    assert (ents = []) as -> by (destruct ents; simpl in *; [done|lia]).
    intros [|i] p Hi; [|done]. injection Hi as <-. rewrite list_lookup_insert_eq by lia. done.
  - rewrite Hr. destruct (map_shift_up_ok (length ents - r) (length ents) s) as (l & Hs & Hl' & Hk); [lia|].
    replace (Z.to_nat (Z.of_nat (length ents) - Z.of_nat r)) with (length ents - r)%nat by lia.
    rewrite Hs. simpl. rewrite zinsert_Some by lia. rewrite Nat2Z.id.
    exists (<[r := thr]> l). split; [done|]. split; [done|]. rewrite length_insert. split; [done|].
    intros i p Hi. rewrite lookup_insert_at in Hi by (rewrite length_fmap; lia).
    assert (Hir : (i <= length ents)%nat).
    { repeat case_bool_decide; try lia. apply lookup_lt_Some in Hi. rewrite length_fmap in Hi. lia. }
    case_bool_decide; [|case_bool_decide].
    + rewrite list_lookup_insert_ne, Hk, bool_decide_eq_false_2 by lia. by apply Hp.
    + simplify_eq. rewrite list_lookup_insert_eq by lia. done.
    + rewrite list_lookup_insert_ne, Hk, bool_decide_eq_true_2 by lia. by apply Hp.
Qed.

Lemma place_unique ts t r i :
  ordered Z.lt ts -> place ts t r -> ts !! i = Some t -> r = i.
Proof.
  intros Ho (Hr & Hlo & Hhi & Hx & Hend) Hi. pose proof (lookup_lt_Some _ _ _ Hi).
  destruct (decide (r = length ts)) as [E|E].
  { specialize (Hend E i t ltac:(lia) Hi). lia. }
  destruct (lookup_lt_is_Some_2 ts r) as [x Hrx]; [lia|].
  destruct (decide (i < r)%nat) as [Hlt|Hge].
  - pose proof (Ho i r t x Hlt Hi Hrx). destruct (Hx x Hrx) as [->|Hall]; [lia|].
    specialize (Hall i t Hlt Hi). lia.
  - destruct (decide (r = i)) as [|Hne]; [done|].
    pose proof (Ho r i x t ltac:(lia) Hrx Hi). pose proof (Hhi r x ltac:(lia) Hrx). lia.
Qed.

Lemma thread_map_delete_ok s ents globalid i :
  map_rep s ents -> ordered Z.lt ents.*2 -> ents.*2 !! i = Some (GLOBALID_TO_TID globalid) ->
  exists l,
    thread_map_delete globalid s = Done (tt, set_thread_map l (thread_count s - 1) s) /\
    length l = length (thread_map s) /\
    (forall k p, delete i ents.*1 !! k = Some p -> l !! k = Some p) /\
    l !! (length ents - 1)%nat = thread_map s !! (length ents - 1)%nat.
Proof.
  intros Hm Ho Hi. pose proof (mr_ptrs _ _ Hm) as (Hc & Hl & Hle & Hp).
  rewrite length_fmap in Hc, Hle. pose proof (lookup_lt_Some _ _ _ Hi) as Hlt. rewrite length_fmap in Hlt.
  unfold thread_map_delete, gets, mbind, M_bind, set_count, modify. rewrite Hc.
  destruct (Z.eqb_spec (Z.of_nat (length ents)) 1) as [E|E].
  - exists (thread_map s). replace (Z.of_nat (length ents) - 1) with 0 by lia.
    split; [done|]. split; [done|]. split; [|done].
    destruct ents as [|e [|]]; simpl in *; try lia. assert (i = O) as -> by lia. done.
  - destruct (thread_map_search_ok s ents globalid Hm) as (r & Hr & Hpl). rewrite Hr.
    assert (r = i) as -> by by eapply place_unique.
    destruct (map_shift_down_ok (length ents - 1 - i) i
               (set_thread_map (thread_map s) (Z.of_nat (length ents) - 1) s)) as (l & Hs & Hl' & Hk);
      [simpl; lia|].
    replace (Z.to_nat (Z.of_nat (length ents) - 1 - Z.of_nat i)) with (length ents - 1 - i)%nat by lia.
    rewrite Hs. exists l. simpl in *. split; [done|]. split; [done|]. split.
    + intros k p Hd. rewrite Hk.
      destruct (decide (k < i)%nat) as [Hki|Hki].
      * rewrite list_lookup_delete_lt in Hd by done. rewrite bool_decide_eq_false_2 by lia. by apply Hp.
      * rewrite list_lookup_delete_ge in Hd by lia. pose proof (lookup_lt_Some _ _ _ Hd) as Hd'.
        rewrite length_fmap in Hd'. rewrite bool_decide_eq_true_2 by lia. by apply Hp.
    + rewrite Hk, bool_decide_eq_false_2 by lia. done.
Qed.

(** ** The invariant of the dispatcher

    The map holds exactly the allocated blocks, each once; the heap of blocks is
    the array behind the table. *)
Record thr_inv (s : thrstate) (ents : list (Z * Z)) : Prop := {
  ti_map : map_rep s ents;
  ti_wf : kt_wf (thread_table s);
  ti_num : kt_num (thread_table s) = CONFIG_MAX_THREADS;
  ti_dom : forall p, is_Some (tcbs s !! p) <-> p ∈ kt_slots (thread_table s);
  ti_live : forall p, p ∈ kt_live (thread_table s) <-> p ∈ ents.*1;
  ti_nodup : NoDup ents.*1;
}.

Lemma NoDup_kt_slots kt : kt_wf kt -> NoDup (kt_slots kt).
Proof.
  intros Hwf. unfold kt_slots. apply NoDup_fmap_2_strong; [|apply NoDup_seqZ].
  intros x y. rewrite !elem_of_seqZ. intros. apply (kt_addr_inj kt); [done|lia|lia|done].
Qed.

Lemma length_kt_slots kt : length (kt_slots kt) = Z.to_nat (kt_num kt).
Proof. unfold kt_slots. by rewrite length_fmap, length_seqZ. Qed.

(** While fewer threads exist than the table has blocks, a block is free. *)
Lemma thr_inv_free s ents :
  thr_inv s ents -> (length ents < Z.to_nat CONFIG_MAX_THREADS)%nat ->
  exists p, p ∈ kt_slots (thread_table s) /\ (p ∉ kt_live (thread_table s)).
Proof.
  intros [Hm Hwf Hn Hd Hl Hnd] Hlen.
  destruct (decide (Forall (fun p => p ∈ kt_live (thread_table s)) (kt_slots (thread_table s)))) as [Hf|Hf].
  - exfalso. assert (Hsub : kt_slots (thread_table s) ⊆+ ents.*1).
    { apply NoDup_submseteq; [by apply NoDup_kt_slots|]. intros p Hp. apply Hl.
      rewrite Forall_forall in Hf. by apply Hf. }
    apply submseteq_length in Hsub. rewrite length_kt_slots, Hn, length_fmap in Hsub. lia.
  - apply not_Forall_Exists in Hf; [|apply _].
    apply Exists_exists in Hf as (p & Hp & Hnl). by exists p.
Qed.

Lemma has_tid_frame s s' p tid :
  tcbs s' !! p = tcbs s !! p -> has_tid s p tid -> has_tid s' p tid.
Proof. unfold has_tid. by intros ->. Qed.

Lemma upd_tcb_ok p f s t :
  tcbs s !! p = Some t -> upd_tcb p f s = Done (tt, set_tcbs (<[p := f t]> (tcbs s)) s).
Proof. unfold upd_tcb. by intros ->. Qed.

(** Two updates of one block are one update. *)
Lemma upd_tcb_fuse {A} p f g (k : M thrstate A) s :
  (upd_tcb p f;; upd_tcb p g;; k) s = (upd_tcb p (fun t => g (f t));; k) s.
Proof.
  unfold mbind, M_bind, upd_tcb. destruct (tcbs s !! p); [|done].
  cbn [tcbs set_tcbs]. by rewrite lookup_insert_eq, insert_insert_eq.
Qed.

Lemma upd_tcb_then {A} p f (k : M thrstate A) s t :
  tcbs s !! p = Some t -> (upd_tcb p f;; k) s = k (set_tcbs (<[p := f t]> (tcbs s)) s).
Proof. intros Ht. unfold mbind, M_bind. by rewrite (upd_tcb_ok p f s t). Qed.

(** The block [thread_init] leaves behind. *)
Definition fresh_tcb (globalid utcb : Z) (old : tcb) : tcb :=
  mk_tcb globalid 0 T_INACTIVE (t_stack_base old) (t_stack_size old) (t_ctx old)
    NULL utcb (t_ipc_from old) NULL NULL NULL.

(** What [thread_init] leaves as it is: words of memory, the address of the kernel interface
    page, and user control blocks but for the identifier in that of the thread. *)
Definition init_keeps (globalid utcb : Z) (s s' : thrstate) : Prop :=
  words s' = words s /\ kip_addr s' = kip_addr s /\
  utcbs s' = if utcb =? NULL then utcbs s else alter (with_u_globalid globalid) utcb (utcbs s).

(** The part of [thread_init] after the allocation and the insertion in the map. *)
Lemma thread_init_fields globalid utcb thr t s :
  tcbs s !! thr = Some t ->
  (utcb <> NULL -> is_Some (utcbs s !! utcb)) ->
  (upd_tcb thr (with_localid 0);; upd_tcb thr (with_child NULL);; upd_tcb thr (with_parent NULL);;
   upd_tcb thr (with_sibling NULL);; upd_tcb thr (with_globalid globalid);;
   when (negb (utcb =? NULL)) (upd_utcb utcb (with_u_globalid globalid));;
   upd_tcb thr (with_as NULL);; upd_tcb thr (with_utcb utcb);; upd_tcb thr (with_state T_INACTIVE);;
   mret thr) s =
  Done (thr, set_tcbs (<[thr := fresh_tcb globalid utcb t]> (tcbs s))
               (set_utcbs (if utcb =? NULL then utcbs s
                           else alter (with_u_globalid globalid) utcb (utcbs s)) s)).
Proof.
  intros Ht Hu. rewrite !upd_tcb_fuse, (upd_tcb_then _ _ _ _ _ Ht).
  destruct (Z.eqb_spec utcb NULL) as [E|E]; cbn [negb when].
  - unfold mbind at 1, M_bind at 1, mret at 1, M_ret at 1. rewrite !upd_tcb_fuse.
    erewrite upd_tcb_then by (cbn [tcbs set_tcbs]; apply lookup_insert_eq).
    cbn [tcbs set_tcbs set_utcbs]. rewrite insert_insert_eq. by destruct s.
  - destruct (Hu E) as [u Hub]. unfold mbind at 1, M_bind at 1, upd_utcb. cbn [utcbs set_tcbs]. rewrite Hub.
    rewrite !upd_tcb_fuse.
    erewrite upd_tcb_then by (cbn [tcbs set_tcbs set_utcbs]; apply lookup_insert_eq).
    cbn [tcbs set_tcbs set_utcbs]. rewrite insert_insert_eq.
    replace (alter (with_u_globalid globalid) utcb (utcbs s)) with (<[utcb:=with_u_globalid globalid u]> (utcbs s));
      [by destruct s|].
    apply map_eq. intros q. rewrite lookup_insert, lookup_alter. case_decide; [subst; by rewrite Hub|done].
Qed.

Lemma thread_init_correct s ents globalid utcb :
  thr_inv s ents -> (length ents < Z.to_nat CONFIG_MAX_THREADS)%nat ->
  (utcb <> NULL -> is_Some (utcbs s !! utcb)) ->
  exists thr s' r old, thread_init globalid utcb s = Done (thr, s') /\
    thr <> NULL /\ (thr ∉ ents.*1) /\ place ents.*2 (GLOBALID_TO_TID globalid) r /\
    thr_inv s' (insert_at r (thr, GLOBALID_TO_TID globalid) ents) /\
    tcbs s' !! thr = Some (fresh_tcb globalid utcb old) /\
    (forall q, q <> thr -> tcbs s' !! q = tcbs s !! q) /\
    caller s' = caller s /\ tcbs s !! thr = Some old /\ init_keeps globalid utcb s s'.
Proof.
  intros Hinv Hlen Hu. pose proof Hinv as [Hm Hwf Hn Hd Hl Hnd].
  pose proof (mr_ptrs _ _ Hm) as (Hc & Hml & Hle & Hp).
  destruct (pool_alloc_fresh (Pool := ktable_pool) (thread_table s) Hwf)
    as (thr & kt' & Ha & Hslot & Hfresh & Hwf' & Hs' & Hl'); [by eapply thr_inv_free|]. simpl in *.
  assert (Hnn : thr <> NULL) by by apply (kt_slot_nonnull (thread_table s)).
  set (s1 := set_thread_table kt' s).
  assert (Hm1 : map_rep s1 ents) by (destruct Hm; by constructor).
  destruct (thread_map_insert_ok s1 ents globalid thr Hm1) as (r & l & Hi & Hpl & Hll & Hlk);
    [simpl; lia|]. simpl in *.
  destruct (proj2 (Hd thr) Hslot) as [old Hold].
  exists thr. eexists. exists r, old. split.
  { unfold thread_init. unfold mbind at 1, M_bind at 1. unfold in_thread_table, zoom. rewrite Ha.
    destruct (Z.eqb_spec thr NULL); [done|]. unfold mbind at 1, M_bind at 1. fold s1. rewrite Hi.
    apply thread_init_fields; done. }
  split; [done|]. split; [by rewrite <- Hl|]. split; [done|].
  assert (Hother : forall q, q <> thr -> <[thr:=fresh_tcb globalid utcb old]> (tcbs s) !! q = tcbs s !! q).
  { intros q Hq. by rewrite lookup_insert_ne. }
  split; [|split; [simpl; by rewrite lookup_insert_eq|by repeat split]].
  assert (Hne : forall e, e ∈ ents -> e.1 <> thr).
  { intros e He Heq. apply Hfresh, Hl. rewrite <- Heq. by apply list_elem_of_fmap_2. }
  pose proof (proj1 Hpl) as Hrl. rewrite length_fmap in Hrl.
  constructor; subst s1; cbn [tcbs thread_table set_tcbs set_utcbs set_thread_map set_thread_table].
  - match goal with |- map_rep ?x _ => set (s' := x) end.
    assert (Hfr : Forall (fun e => has_tid s' e.1 e.2) ents).
    { apply Forall_forall. intros e He. pose proof (mr_tids _ _ Hm) as Ht.
      rewrite Forall_forall in Ht. eapply has_tid_frame; [|by apply Ht].
      unfold s'. cbn [tcbs set_tcbs]. apply Hother. by apply Hne. }
    constructor.
    + rewrite insert_at_fmap. unfold map_ptrs. simpl.
      rewrite length_insert_at, length_fmap by (rewrite length_fmap; lia).
      rewrite length_fmap in Hc. split; [lia|]. split; [congruence|]. split; [lia|]. apply Hlk.
    + unfold insert_at. apply Forall_app. split; [|apply Forall_cons_2].
      * by apply Forall_take.
      * exists (fresh_tcb globalid utcb old). simpl. by rewrite lookup_insert_eq.
      * by apply Forall_drop.
    + rewrite insert_at_fmap. apply ordered_insert_at; [apply Hm|done].
  - done.
  - rewrite <- Hn. apply (f_equal length) in Hs'. rewrite !length_kt_slots in Hs'.
    destruct Hwf, Hwf'. lia.
  - intros p. rewrite Hs', <- Hd, lookup_insert. case_decide; [|done]. subst. rewrite Hold. by split.
  - intros p. rewrite Hl', insert_at_fmap, insert_at_perm, elem_of_union, elem_of_singleton, elem_of_cons, Hl. done.
  - rewrite insert_at_fmap, insert_at_perm. apply NoDup_cons. split; [by rewrite <- Hl|done].
Qed.

(** Deleting the entry of a block and freeing the block. *)
Lemma thread_deinit_correct s ents i thr tid :
  thr_inv s ents -> ordered Z.lt ents.*2 -> ents !! i = Some (thr, tid) ->
  exists s', thread_deinit thr s = Done (tt, s') /\
    thr_inv s' (delete i ents) /\ tcbs s' = tcbs s /\
    thread_map s' !! (length ents - 1)%nat = thread_map s !! (length ents - 1)%nat.
Proof.
  intros Hinv Ho Hi. pose proof Hinv as [Hm Hwf Hn Hd Hl Hnd].
  assert (Hslot : thr ∈ kt_slots (thread_table s)).
  { apply (pool_live_slot (Pool := ktable_pool)). simpl. apply Hl.
    apply list_elem_of_fmap. exists (thr, tid). split; [done|]. by eapply list_elem_of_lookup_2. }
  pose proof (mr_tids _ _ Hm) as Ht. pose proof (Forall_lookup_1 _ _ _ _ Ht Hi) as (t & Hb & Htid).
  simpl in *.
  destruct (thread_map_delete_ok s ents (t_globalid t) i Hm Ho) as (l & Hdel & Hll & Hlk & Hstale).
  { by rewrite list_lookup_fmap, Hi, Htid. }
  destruct (pool_free_live (Pool := ktable_pool) (thread_table s) thr Hwf Hslot)
    as (kt' & Hf & Hwf' & Hs' & Hl'). simpl in *.
  eexists. split.
  { unfold thread_deinit, mbind, M_bind, get_tcb. rewrite Hb, Hdel.
    unfold in_thread_table, zoom. simpl. rewrite Hf. done. }
  split; [|done]. pose proof (mr_ptrs _ _ Hm) as (Hc & Hml & Hle & Hp).
  pose proof (lookup_lt_Some _ _ _ Hi) as Hlt. rewrite length_fmap in Hc, Hle.
  assert (Hdf : (delete i ents).*1 = delete i ents.*1) by apply list_fmap_delete.
  constructor; simpl.
  - constructor.
    + rewrite Hdf. unfold map_ptrs. simpl. rewrite length_delete, length_fmap by (apply lookup_lt_is_Some; by rewrite length_fmap).
      split; [lia|]. split; [congruence|]. split; [lia|done].
    + apply Forall_delete. eapply Forall_impl; [apply Hm|]. intros e. by apply has_tid_frame.
    + rewrite list_fmap_delete. by apply ordered_delete, Hm.
  - done.
  - rewrite <- Hn. apply (f_equal length) in Hs'. rewrite !length_kt_slots in Hs'. destruct Hwf, Hwf'. lia.
  - intros p. by rewrite Hs'.
  - intros p. rewrite Hl', Hdf, elem_of_difference, elem_of_singleton, Hl.
    assert (Hth : ents.*1 !! i = Some thr) by by rewrite list_lookup_fmap, Hi.
    pose proof (delete_Permutation _ _ _ Hth) as Hperm.
    assert (Hin : p ∈ ents.*1 <-> p = thr \/ p ∈ delete i ents.*1) by (rewrite <- elem_of_cons; by rewrite Hperm at 1).
    assert (Hnin : thr ∉ delete i ents.*1) by (by rewrite Hperm, NoDup_cons in Hnd; destruct Hnd).
    rewrite Hin. split; [intros [[->|] ?]; done|]. intros Hp'. split; [by right|by intros ->].
  - rewrite Hdf. by eapply sublist_NoDup; [|apply sublist_delete].
Qed.

(** ** The state after reset *)

Definition zero_ctx : context_t := mk_ctx 0 0 0 (replicate 8 0).
Definition zero_tcb : tcb := mk_tcb 0 0 T_INACTIVE 0 0 zero_ctx 0 0 0 0 0 0.

(** The zero-filled kernel data, with the table of threads at address [data]. *)
Definition reset_thr (data : Z) : thrstate :=
  let kt := DECLARE_KTABLE data CONFIG_MAX_THREADS 88 in
  mk_thr kt (list_to_map ((fun p => (p, zero_tcb)) <$> kt_slots kt))
    (replicate (Z.to_nat CONFIG_MAX_THREADS) NULL) 0 ∅ ∅ 0 0 0 0 0 0 0.

Lemma bit_at_zero n i : bit_at (replicate n 0) i = false.
Proof.
  unfold bit_at, zlookup. case_decide; [|done].
  destruct (replicate n 0 !! Z.to_nat (i / 32)) as [w|] eqn:E; [|done].
  apply lookup_replicate in E as [-> _]. apply Z.bits_0.
Qed.

Lemma kt_live_declare data num size : kt_live (DECLARE_KTABLE data num size) = ∅.
Proof.
  apply set_eq. intros p. rewrite elem_of_kt_live. split; [|set_solver].
  intros (i & _ & Ha & _). unfold kt_allocated in Ha. simpl in Ha. by rewrite bit_at_zero in Ha.
Qed.

Lemma lookup_zero_heap {A} (x : A) (l : list Z) p :
  is_Some ((list_to_map ((fun p => (p, x)) <$> l) : gmap Z A) !! p) <-> p ∈ l.
Proof.
  induction l as [|q l IH]; simpl.
  - rewrite lookup_empty. split; [by intros []|by intros ?%not_elem_of_nil].
  - rewrite lookup_insert, elem_of_cons. case_decide as E.
    + split; [by left|by eexists].
    + rewrite IH. split; [by right|intros [->|]; [done|done]].
Qed.

Lemma thr_inv_reset data :
  0 < data -> data + CONFIG_MAX_THREADS * 88 < u32_modulus -> thr_inv (reset_thr data) [].
Proof.
  intros Hd He. constructor.
  - constructor; [|done|done]. split; [done|]. split; [done|]. split; [simpl; lia|done].
  - by apply kt_wf_declare.
  - done.
  - intros p. apply lookup_zero_heap.
  - intros p. simpl. rewrite kt_live_declare. set_solver.
  - constructor.
Qed.

(** ** Properties *)

(** C16. [thread_map_search] terminates without a fault and returns the lower
    bound of the thread number: every thread before the index has a smaller
    number, every thread from it on one that is not smaller.  (The comment above the function
    calls this the upper bound; a thread with the number itself is found at the index, which is what
    [thread_by_globalid] and [thread_map_delete] rely on.) *)
Theorem thread_map_search_lower_bound (s : thrstate) (ents : list (Z * Z)) (globalid : Z)
    (Hmap : map_rep s ents) (Hord : ordered Z.lt ents.*2) :
  exists r : nat, (r <= length ents)%nat /\
    thread_map_search globalid 0 (thread_count s) s = Done (Z.of_nat r, s) /\
    (forall i p tid, (i < r)%nat -> ents !! i = Some (p, tid) -> tid < GLOBALID_TO_TID globalid) /\
    (forall i p tid, (r <= i)%nat -> ents !! i = Some (p, tid) -> GLOBALID_TO_TID globalid <= tid).
Proof.
  destruct (thread_map_search_ok s ents globalid Hmap) as (r & Hr & Hpl).
  pose proof (mr_ptrs _ _ Hmap) as (Hc & _). rewrite length_fmap in Hc.
  pose proof Hpl as (Hle & Hlo & Hhi & Hx & Hend). rewrite length_fmap in Hle.
  assert (Hl2 : forall i p tid, ents !! i = Some (p, tid) -> ents.*2 !! i = Some tid)
    by (intros i p tid Hi; by rewrite list_lookup_fmap, Hi).
  exists r. split; [done|]. split; [by rewrite Hc|]. split.
  - intros i p tid Hi He. apply Hl2 in He. specialize (Hlo i tid Hi He).
    enough (tid <> GLOBALID_TO_TID globalid) by lia. intros ->.
    pose proof (place_unique _ _ _ _ Hord Hpl He). lia.
  - intros i p tid Hi He. eapply Hhi; [done|by eapply Hl2].
Qed.

(** The threads 0, 256, 300 and 511. *)
Definition search_example : thrstate :=
  let blk tid := mk_tcb (TID_TO_GLOBALID tid) 0 T_RUNNABLE 0 0 (mk_ctx 0 0 0 (replicate 8 0)) 0 0 0 0 0 0 in
  set_tcbs (<[1000 := blk 0]> (<[2000 := blk 256]> (<[3000 := blk 300]> {[4000 := blk 511]})))
    (set_thread_map ([1000; 2000; 3000; 4000] ++ replicate 28 0) 4 (reset_thr 4096)).

Lemma search_example_map : map_rep search_example [(1000, 0); (2000, 256); (3000, 300); (4000, 511)].
Proof.
  constructor.
  - split; [done|]. split; [done|]. split; [simpl; lia|]. by intros [|[|[|[|k]]]] p Hk; simpl in *; simplify_eq.
  - repeat constructor; by eexists.
  - intros [|[|[|[|a]]]] [|[|[|[|b]]]] x y Hab; simpl; intros; simplify_eq; lia || done.
Qed.

Lemma thread_map_search_lower_bound_witness :
  thread_map_search (TID_TO_GLOBALID 300) 0 4 search_example = Done (2, search_example).
Proof.
  destruct (thread_map_search_lower_bound search_example [(1000, 0); (2000, 256); (3000, 300); (4000, 511)] (TID_TO_GLOBALID 300))
    as (r & Hr & E & Hlo & Hhi).
  - exact search_example_map.
  - intros [|[|[|[|a]]]] [|[|[|[|b]]]] x y Hab; simpl; intros; simplify_eq; lia || done.
  - change (thread_count search_example) with 4 in E. rewrite E. enough (r = 2%nat) as -> by done.
    destruct (decide (r <= 1)%nat) as [H1|H1].
    + specialize (Hhi 1%nat 2000 256 H1 eq_refl). by vm_compute in Hhi.
    + destruct (decide (2 < r)%nat) as [H2|H2]; [|lia]. specialize (Hlo 2%nat 3000 300 H2 eq_refl). by vm_compute in Hlo.
Defined.

(** [thread_init] on a dispatcher that has room: it returns a block that no
    thread uses, the invariant of the dispatcher holds again with the new thread
    in the map at the place of its number, the block is initialised, and no other
    block changes.  If the number is new, the numbers in the map stay distinct. *)
Theorem thread_init_keeps_inv (s : thrstate) (ents : list (Z * Z)) (globalid utcb : Z)
    (Hinv : thr_inv s ents) (Hroom : (length ents < Z.to_nat CONFIG_MAX_THREADS)%nat)
    (Hutcb : utcb <> NULL -> is_Some (utcbs s !! utcb)) :
  exists thr s' r old, thread_init globalid utcb s = Done (thr, s') /\
    thr <> NULL /\ (thr ∉ ents.*1) /\
    thr_inv s' (insert_at r (thr, GLOBALID_TO_TID globalid) ents) /\
    (ordered Z.lt ents.*2 -> GLOBALID_TO_TID globalid ∉ ents.*2 ->
     ordered Z.lt (insert_at r (thr, GLOBALID_TO_TID globalid) ents).*2) /\
    tcbs s' !! thr = Some (fresh_tcb globalid utcb old) /\
    (forall q, q <> thr -> tcbs s' !! q = tcbs s !! q).
Proof.
  destruct (thread_init_correct s ents globalid utcb Hinv Hroom Hutcb)
    as (thr & s' & r & old & Hr & Hnn & Hni & Hpl & Hinv' & Ht & Ho & _).
  exists thr, s', r, old. split; [done|]. split; [done|]. split; [done|]. split; [done|].
  split; [|done]. intros Hs Hnew. rewrite insert_at_fmap. by apply ordered_insert_at_strict.
Qed.

Lemma thread_init_keeps_inv_witness :
  exists thr s', thread_init 32768 0 (reset_thr 4096) = Done (thr, s') /\
    thr_inv s' [(thr, 2)] /\ ordered Z.lt [(thr, 2)].*2.
Proof.
  assert (Hinv : thr_inv (reset_thr 4096) []) by (apply thr_inv_reset; reflexivity).
  destruct (thread_init_keeps_inv (reset_thr 4096) [] 32768 0 Hinv)
    as (thr & s' & r & old & Hr & _ & _ & Hi & Ho & _); [apply Nat.ltb_lt; reflexivity|done|].
  exists thr, s'. split; [done|].
  assert (E : insert_at r (thr, GLOBALID_TO_TID 32768) [] = [(thr, 2)]) by (by destruct r).
  rewrite E in Hi, Ho. split; [done|]. apply Ho; [done|]. by intros ?%not_elem_of_nil.
Defined.

(** A thread at least as high as the one that is looked up exists. *)
Lemma thread_by_globalid_ok s ents globalid :
  map_rep s ents -> ordered Z.lt ents.*2 -> (exists q tid, (q, tid) ∈ ents /\ GLOBALID_TO_TID globalid <= tid) ->
  exists p, thread_by_globalid globalid s = Done (p, s) /\
    ((p, GLOBALID_TO_TID globalid) ∈ ents \/ p = NULL /\ GLOBALID_TO_TID globalid ∉ ents.*2).
Proof.
  intros Hm Hord Hmax. pose proof (mr_ptrs _ _ Hm) as (Hc & _ & _ & Hp).
  rewrite length_fmap in Hc.
  destruct (thread_map_search_ok s ents globalid Hm) as (r & Hr & Hpl).
  pose proof Hpl as (Hle & Hlo & Hhi & Hx & Hend). rewrite length_fmap in Hle, Hend.
  assert (Hlt : (r < length ents)%nat).
  { destruct (decide (r = length ents)) as [E|]; [|lia]. exfalso.
    destruct Hmax as (q & tid & Hin & Hge). apply list_elem_of_lookup in Hin as [i Hi].
    pose proof (lookup_lt_Some _ _ _ Hi).
    specialize (Hend E i tid ltac:(lia) ltac:(by rewrite list_lookup_fmap, Hi)). lia. }
  destruct (lookup_lt_is_Some_2 ents r Hlt) as [[p tid] Hrp].
  assert (Ht : ents.*2 !! r = Some tid) by by rewrite list_lookup_fmap, Hrp.
  unfold thread_by_globalid, gets, mbind, M_bind. rewrite Hc, Hr, (map_tid_ok s ents r tid) by done.
  destruct (Z.eqb_spec tid (GLOBALID_TO_TID globalid)) as [->|Hne]; simpl.
  - exists p. split; [|left; by eapply list_elem_of_lookup_2].
    unfold map_get. rewrite zlookup_nat, (Hp r p); [done|]. by rewrite list_lookup_fmap, Hrp.
  - exists NULL. split; [done|]. right. split; [done|].
    intros (i & Hi)%list_elem_of_lookup. pose proof (place_unique _ _ _ _ Hord Hpl Hi). congruence.
Qed.

Lemma thread_by_globalid_hit s ents globalid p tid :
  map_rep s ents -> ordered Z.lt ents.*2 -> (p, tid) ∈ ents -> GLOBALID_TO_TID globalid = tid ->
  thread_by_globalid globalid s = Done (p, s).
Proof.
  intros Hm Hord Hin Ht. destruct (thread_by_globalid_ok s ents globalid Hm Hord) as (q & Hr & [Hq|[_ Hq]]).
  - exists p, tid. split; [done|lia].
  - rewrite Hr. do 2 f_equal. rewrite Ht in Hq. apply list_elem_of_lookup in Hq as [i Hi], Hin as [j Hj].
    destruct (decide (i = j)) as [->|Hne]; [by simplify_eq|]. exfalso.
    assert (Hi2 : ents.*2 !! i = Some tid) by by rewrite list_lookup_fmap, Hi.
    assert (Hj2 : ents.*2 !! j = Some tid) by by rewrite list_lookup_fmap, Hj.
    destruct (Nat.lt_total i j) as [Hl|[|Hl]]; [pose proof (Hord _ _ _ _ Hl Hi2 Hj2); lia|done|pose proof (Hord _ _ _ _ Hl Hj2 Hi2); lia].
  - exfalso. apply Hq. rewrite Ht. apply list_elem_of_fmap. by exists (p, tid).
Qed.

(** Look-up: while a thread with a number at least the requested one exists,
    [thread_by_globalid] returns the block of the thread with the requested number,
    and [NULL] when there is none, without changing the state. *)
Theorem thread_by_globalid_correct (s : thrstate) (ents : list (Z * Z)) (globalid : Z)
    (Hinv : thr_inv s ents) (Hord : ordered Z.lt ents.*2)
    (Hmax : exists q tid, (q, tid) ∈ ents /\ GLOBALID_TO_TID globalid <= tid) :
  exists p, thread_by_globalid globalid s = Done (p, s) /\
    ((p, GLOBALID_TO_TID globalid) ∈ ents \/
     p = NULL /\ GLOBALID_TO_TID globalid ∉ ents.*2).
Proof. apply thread_by_globalid_ok; [apply Hinv|done|done]. Qed.

Lemma thread_by_globalid_correct_witness :
  exists s p, thr_inv s [(p, 2)] /\ thread_by_globalid 32768 s = Done (p, s).
Proof.
  assert (Hinv : thr_inv (reset_thr 4096) []) by (apply thr_inv_reset; reflexivity).
  destruct (thread_init_correct (reset_thr 4096) [] 32768 0 Hinv)
    as (thr & s' & r & old & Hr & _ & _ & _ & Hi & _); [apply Nat.ltb_lt; reflexivity|done|].
  assert (E : insert_at r (thr, GLOBALID_TO_TID 32768) [] = [(thr, 2)]) by (by destruct r).
  rewrite E in Hi. exists s', thr. split; [done|].
  destruct (thread_by_globalid_correct s' [(thr, 2)] 32768 Hi) as (p & Hl & [Hin|[_ Hni]]).
  - intros [|i] [|j] x y; simpl; try lia; done.
  - exists thr, 2. split; [by apply list_elem_of_singleton|vm_compute; congruence].
  - apply list_elem_of_singleton in Hin as [= ->]. done.
  - exfalso. apply Hni. by apply list_elem_of_singleton.
Defined.

(** [thread_deinit] of a thread in the map removes exactly its entry, frees its
    block and re-establishes the invariant; the blocks keep their contents. *)
Theorem thread_deinit_keeps_inv (s : thrstate) (ents : list (Z * Z)) (i : nat) (thr tid : Z)
    (Hinv : thr_inv s ents) (Hord : ordered Z.lt ents.*2) (Hi : ents !! i = Some (thr, tid)) :
  exists s', thread_deinit thr s = Done (tt, s') /\ thr_inv s' (delete i ents) /\
    ordered Z.lt (delete i ents).*2 /\ (thr ∉ kt_live (thread_table s')) /\ tcbs s' = tcbs s.
Proof.
  destruct (thread_deinit_correct s ents i thr tid Hinv Hord Hi) as (s' & Hr & Hinv' & Ht & _).
  exists s'. split; [done|]. split; [done|]. split; [rewrite list_fmap_delete; by apply ordered_delete|].
  split; [|done]. rewrite (ti_live _ _ Hinv'), list_fmap_delete.
  assert (Hth : ents.*1 !! i = Some thr) by by rewrite list_lookup_fmap, Hi.
  pose proof (ti_nodup _ _ Hinv) as Hnd. rewrite (delete_Permutation _ _ _ Hth) in Hnd.
  by apply NoDup_cons in Hnd as [? _].
Qed.

Lemma thread_deinit_keeps_inv_witness :
  exists s s' p, thr_inv s [(p, 2)] /\ thread_deinit p s = Done (tt, s') /\ thr_inv s' [].
Proof.
  assert (Hinv : thr_inv (reset_thr 4096) []) by (apply thr_inv_reset; reflexivity).
  destruct (thread_init_correct (reset_thr 4096) [] 32768 0 Hinv)
    as (thr & s1 & r & old & Hr & _ & _ & _ & Hi & _); [apply Nat.ltb_lt; reflexivity|done|].
  assert (E : insert_at r (thr, GLOBALID_TO_TID 32768) [] = [(thr, 2)]) by (by destruct r).
  rewrite E in Hi.
  destruct (thread_deinit_keeps_inv s1 [(thr, 2)] 0 thr 2 Hi) as (s' & Hd & Hi' & _);
    [intros [|i] [|j] x y; simpl; try lia; done|done|].
  by exists s1, s', thr.
Defined.

(** The look-up reads one entry too far.  After the thread with the greatest
    number was removed, its pointer is still in the array just behind the entries in
    use, and looking its identifier up returns the freed block. *)
Theorem thread_by_globalid_finds_freed (s : thrstate) (ents : list (Z * Z)) (thr tid : Z) (t : tcb)
    (Hinv : thr_inv s (ents ++ [(thr, tid)])) (Hord : ordered Z.lt (ents ++ [(thr, tid)]).*2)
    (Ht : tcbs s !! thr = Some t) (Hne : ents <> []) :
  exists s', thread_deinit thr s = Done (tt, s') /\ (thr ∉ kt_live (thread_table s')) /\
    thread_by_globalid (t_globalid t) s' = Done (thr, s').
Proof.
  assert (Hi : (ents ++ [(thr, tid)]) !! length ents = Some (thr, tid)) by by rewrite lookup_app_r, Nat.sub_diag.
  destruct (thread_deinit_correct _ _ _ _ _ Hinv Hord Hi) as (s' & Hr & Hinv' & Hb & Hstale).
  rewrite delete_middle, app_nil_r in Hinv'. exists s'. split; [done|]. split.
  { rewrite (ti_live _ _ Hinv'). pose proof (ti_nodup _ _ Hinv) as Hnd. rewrite fmap_app in Hnd.
    apply NoDup_app in Hnd as (_ & Hd & _). intros Hin. apply (Hd _ Hin). by apply list_elem_of_singleton. }
  pose proof (ti_map _ _ Hinv) as Hm. pose proof (mr_tids _ _ Hm) as Htids.
  pose proof (Forall_lookup_1 _ _ _ _ Htids Hi) as (t' & Ht' & Htid). simpl in *. simplify_eq.
  pose proof (ti_map _ _ Hinv') as Hm'. pose proof (mr_ptrs _ _ Hm') as (Hc & _). rewrite length_fmap in Hc.
  destruct (thread_map_search_ok s' ents (t_globalid t) Hm') as (r & Hs & Hpl).
  assert (r = length ents) as ->.
  { destruct Hpl as (Hle & _ & Hhi & _). rewrite length_fmap in Hle.
    destruct (decide (r = length ents)) as [|Hn]; [done|]. exfalso.
    destruct (lookup_lt_is_Some_2 ents.*2 r) as [x Hx]; [rewrite length_fmap; lia|].
    specialize (Hhi r x ltac:(lia) Hx).
    assert (x < GLOBALID_TO_TID (t_globalid t)); [|lia].
    apply (Hord r (length ents)); [lia| |].
    - rewrite fmap_app, lookup_app_l by (rewrite length_fmap; lia). done.
    - rewrite list_lookup_fmap, Hi. done. }
  assert (Hget : thread_map s' !! length ents = Some thr).
  { rewrite length_app in Hstale. simpl in Hstale. replace (length ents + 1 - 1)%nat with (length ents) in Hstale by lia.
    rewrite Hstale. pose proof (mr_ptrs _ _ Hm) as (_ & _ & _ & Hp). apply Hp. by rewrite list_lookup_fmap, Hi. }
  unfold thread_by_globalid, gets, mbind, M_bind. rewrite Hc, Hs.
  unfold map_tid, map_get, get_tcb, mbind, M_bind, mret, M_ret.
  rewrite zlookup_nat, Hget, Hb, Ht, Z.eqb_refl. simpl. by rewrite zlookup_nat, Hget.
Qed.

Lemma thread_by_globalid_finds_freed_witness :
  exists s s' p q, thr_inv s [(p, 2); (q, 3)] /\ thread_deinit q s = Done (tt, s') /\
    (q ∉ kt_live (thread_table s')) /\ thread_by_globalid 49152 s' = Done (q, s').
Proof.
  assert (Hinv : thr_inv (reset_thr 4096) []) by (apply thr_inv_reset; reflexivity).
  destruct (thread_init_correct (reset_thr 4096) [] 32768 0 Hinv)
    as (p & s1 & r & o1 & _ & _ & _ & _ & H1 & _); [apply Nat.ltb_lt; reflexivity|done|].
  assert (E : insert_at r (p, GLOBALID_TO_TID 32768) [] = [(p, 2)]) by (by destruct r).
  rewrite E in H1. clear E.
  destruct (thread_init_correct s1 [(p, 2)] 49152 0 H1)
    as (q & s & r2 & o2 & _ & _ & _ & Hpl & H2 & Hq & _); [apply Nat.ltb_lt; reflexivity|done|].
  assert (r2 = 1%nat) as ->.
  { destruct Hpl as (Hle & _ & Hhi & _). destruct r2 as [|[|r2]]; simpl in Hle; [|done|lia].
    specialize (Hhi 0%nat 2 (le_n _) eq_refl). vm_compute in Hhi. congruence. }
  destruct (thread_by_globalid_finds_freed s [(p, 2)] q 3 (fresh_tcb 49152 0 o2))
    as (s' & Hd & Hfree & Hl); [done| |done|done|].
  - intros [|[|i]] [|[|j]] x y Hij; simpl; intros; simplify_eq; lia || done.
  - by exists s, s', p, q.
Defined.

(** The look-up of a number greater than that of every thread dereferences the
    first unused entry of the array: when that entry was never used it is [NULL],
    and the access is a fault. *)
Theorem thread_by_globalid_unknown_faults (s : thrstate) (ents : list (Z * Z)) (globalid : Z)
    (Hinv : thr_inv s ents) (Hord : ordered Z.lt ents.*2)
    (Hbig : forall q tid, (q, tid) ∈ ents -> tid < GLOBALID_TO_TID globalid)
    (Hunused : thread_map s !! length ents = Some NULL) :
  thread_by_globalid globalid s = Fault.
Proof.
  pose proof (ti_map _ _ Hinv) as Hm. pose proof (mr_ptrs _ _ Hm) as (Hc & _). rewrite length_fmap in Hc.
  destruct (thread_map_search_ok s ents globalid Hm) as (r & Hs & Hle & _ & Hhi & _).
  rewrite length_fmap in Hle.
  assert (r = length ents) as ->.
  { destruct (decide (r = length ents)) as [|Hn]; [done|]. exfalso.
    destruct (lookup_lt_is_Some_2 ents r) as [[q tid] Hx]; [lia|].
    specialize (Hhi r tid ltac:(lia) ltac:(by rewrite list_lookup_fmap, Hx)).
    specialize (Hbig q tid ltac:(by eapply list_elem_of_lookup_2)). lia. }
  unfold thread_by_globalid, gets, mbind, M_bind. rewrite Hc, Hs.
  unfold map_tid, map_get, get_tcb, mbind, M_bind. rewrite zlookup_nat, Hunused.
  destruct (tcbs s !! NULL) eqn:E; [|done]. exfalso.
  apply (kt_slot_nonnull (thread_table s) NULL); [apply Hinv|apply Hinv; by eexists|done].
Qed.

Lemma thread_by_globalid_unknown_faults_witness :
  thread_by_globalid 32768 (reset_thr 4096) = Fault.
Proof.
  apply (thread_by_globalid_unknown_faults (reset_thr 4096) []).
  - apply thr_inv_reset; reflexivity.
  - done.
  - by intros q tid ?%not_elem_of_nil.
  - reflexivity.
Defined.
