(* ===== verification/ThreadTree.v ===== *)
(** * The tree of threads: theorems

    Threads form a tree, linked by [t_child] to the first child, by [t_sibling] to
    the next child of the same parent and by [t_parent] to the parent.  This file
    relates the links to a [forest] and proves what [thread_create],
    [thread_destroy] and [thread_select] of [kernel/thread.c] do to it. *)

From S2P Require Import Prelude Ktable Thread ThreadMap.

(** ** Forests *)

Inductive forest :=
| FNil
| FCons (p : Z) (kids rest : forest).

#[export] Instance forest_eq_dec : EqDecision forest.
Proof. solve_decision. Defined.

Fixpoint preorder (f : forest) : list Z :=
  match f with
  | FNil => []
  | FCons p kids rest => p :: preorder kids ++ preorder rest
  end.

Definition fhead (f : forest) : Z :=
  match f with FNil => NULL | FCons p _ _ => p end.

(** The last tree of the forest. *)
Fixpoint flast (f : forest) : Z :=
  match f with
  | FNil => NULL
  | FCons p _ rest => match rest with FNil => p | _ => flast rest end
  end.

Fixpoint fapp (f g : forest) : forest :=
  match f with
  | FNil => g
  | FCons p kids rest => FCons p kids (fapp rest g)
  end.

(** The children of [c]. *)
Fixpoint fkids (c : Z) (f : forest) : forest :=
  match f with
  | FNil => FNil
  | FCons p kids rest =>
      if p =? c then kids
      else if decide (c ∈ preorder kids) then fkids c kids else fkids c rest
  end.

(** Replace the children of [c]. *)
Fixpoint fgraft (c : Z) (ks : forest) (f : forest) : forest :=
  match f with
  | FNil => FNil
  | FCons p kids rest =>
      if p =? c then FCons p ks rest
      else FCons p (fgraft c ks kids) (fgraft c ks rest)
  end.

Definition links (t : tcb) : Z * Z * Z := (t_parent t, t_child t, t_sibling t).
Definition has_links (h : gmap Z tcb) (p : Z) (l : Z * Z * Z) : Prop :=
  exists t, h !! p = Some t /\ links t = l.

(** The blocks of the forest are linked as it says, below [par]. *)
Fixpoint frep (h : gmap Z tcb) (par : Z) (f : forest) : Prop :=
  match f with
  | FNil => True
  | FCons p kids rest =>
      p <> NULL /\ has_links h p (par, fhead kids, fhead rest) /\
      frep h p kids /\ frep h par rest
  end.

Lemma preorder_fapp f g : preorder (fapp f g) = preorder f ++ preorder g.
Proof. induction f as [|p k _ r IH]; simpl; [done|]. by rewrite IH, app_assoc. Qed.

Lemma fapp_nil_r f : fapp f FNil = f.
Proof. induction f as [|p k _ r IH]; simpl; [done|]. by rewrite IH. Qed.

Lemma fhead_elem f : f <> FNil -> fhead f ∈ preorder f.
Proof. destruct f; [done|]. intros _. left. Qed.

Lemma flast_elem f : f <> FNil -> flast f ∈ preorder f.
Proof.
  induction f as [|p k _ r IH]; [done|]. intros _. simpl. destruct r as [|q k' r'].
  - left.
  - right. apply elem_of_app. right. apply IH. done.
Qed.

Lemma fhead_nonnull h par f : frep h par f -> fhead f = NULL -> f = FNil.
Proof. destruct f; [done|]. by intros (? & _). Qed.

Lemma frep_lookup h par f p : frep h par f -> p ∈ preorder f -> is_Some (h !! p).
Proof.
  revert par. induction f as [|q k IHk r IHr]; simpl; intros par Hf Hp; [by apply not_elem_of_nil in Hp|].
  destruct Hf as (_ & (t & Ht & _) & Hk & Hr).
  apply elem_of_cons in Hp as [->|[Hp|Hp]%elem_of_app]; eauto.
Qed.

Lemma frep_nonnull h par f p : frep h par f -> p ∈ preorder f -> p <> NULL.
Proof.
  revert par. induction f as [|q k IHk r IHr]; simpl; intros par Hf Hp; [by apply not_elem_of_nil in Hp|].
  destruct Hf as (Hn & _ & Hk & Hr).
  apply elem_of_cons in Hp as [->|[Hp|Hp]%elem_of_app]; eauto.
Qed.

Lemma frep_frame h h' par f :
  frep h par f -> (forall p l, p ∈ preorder f -> has_links h p l -> has_links h' p l) -> frep h' par f.
Proof.
  revert par. induction f as [|q k IHk r IHr]; simpl; intros par Hf Hh; [done|].
  destruct Hf as (Hn & Hl & Hk & Hr). split; [done|]. split; [apply Hh; [left|done]|]. split.
  - apply IHk; [done|]. intros p l Hp. apply Hh. right. apply elem_of_app. by left.
  - apply IHr; [done|]. intros p l Hp. apply Hh. right. apply elem_of_app. by right.
Qed.

Lemma frep_frame_eq h h' par f :
  frep h par f -> (forall p, p ∈ preorder f -> h' !! p = h !! p) -> frep h' par f.
Proof. intros Hf Hh. eapply frep_frame; [done|]. intros p l Hp. unfold has_links. by rewrite Hh. Qed.

(** Concatenation: the last block of [f] is linked to [g] instead of [g0]. *)
Lemma frep_fapp h h' par f g0 g :
  frep h par (fapp f g0) -> NoDup (preorder f) -> frep h' par g ->
  (forall p pa ch sb, p ∈ preorder f -> has_links h p (pa, ch, sb) ->
     has_links h' p (pa, ch, if p =? flast f then fhead g else sb)) ->
  frep h' par (fapp f g).
Proof.
  intros Hf Hnd Hg. induction f as [|q k _ r IHr]; simpl; intros Hh; [done|].
  destruct Hf as (Hn & Hl & Hk & Hr).
  apply NoDup_cons in Hnd as [Hq Hnd]. apply NoDup_app in Hnd as (Hndk & Hdis & Hndr).
  assert (Hlast : r <> FNil -> flast r ∈ preorder r) by apply flast_elem.
  assert (Eq : forall p, p ∈ q :: preorder k ++ preorder r -> r <> FNil ->
    (p =? match r with FNil => q | _ => flast r end) = (p =? flast r)) by (by destruct r).
  split; [done|]. split.
  - specialize (Hh q _ _ _ ltac:(left) Hl). destruct r as [|q' k' r'].
    + by rewrite Z.eqb_refl in Hh.
    + cbn [fapp fhead] in *. rewrite (proj2 (Z.eqb_neq _ _)) in Hh; [done|].
      intros E. apply Hq. rewrite E. apply elem_of_app. right. by apply Hlast.
  - split.
    + eapply frep_frame; [exact Hk|]. intros p [[pa ch] sb] Hp Hpl.
      specialize (Hh p _ _ _ ltac:(right; apply elem_of_app; by left) Hpl).
      rewrite (proj2 (Z.eqb_neq _ _)) in Hh; [done|]. intros E. destruct r as [|q' k' r'].
      * apply Hq. rewrite <- E. apply elem_of_app. by left.
      * apply (Hdis p Hp). rewrite E. by apply Hlast.
    + apply IHr; [done|done|]. intros p pa ch sb Hp Hpl.
      specialize (Hh p _ _ _ ltac:(right; apply elem_of_app; by right) Hpl).
      rewrite Eq in Hh; [done|right; apply elem_of_app; by right|]. intros ->. by apply not_elem_of_nil in Hp.
Qed.

Lemma fhead_fgraft c ks f : fhead (fgraft c ks f) = fhead f.
Proof. destruct f as [|p k r]; simpl; [done|]. by destruct (p =? c). Qed.

Lemma fgraft_notin c ks f : c ∉ preorder f -> fgraft c ks f = f.
Proof.
  induction f as [|p k IHk r IHr]; simpl; [done|]. intros Hc.
  apply not_elem_of_cons in Hc as [Hne [Hk Hr]%not_elem_of_app].
  destruct (Z.eqb_spec p c); [done|]. by rewrite IHk, IHr.
Qed.

Lemma fkids_sub c f p : p ∈ preorder (fkids c f) -> p ∈ preorder f.
Proof.
  induction f as [|q k IHk r IHr]; simpl; [done|].
  destruct (Z.eqb_spec q c); [|case_decide]; intros Hp; right; apply elem_of_app; auto.
Qed.

(** Replacing the children of a block: the block points to the new children, and
    the blocks outside its subtree keep their links. *)
Lemma frep_fgraft h h' par c ks f :
  frep h par f -> NoDup (preorder f) -> c ∈ preorder f -> frep h' c ks ->
  (forall pa ch sb, has_links h c (pa, ch, sb) -> has_links h' c (pa, fhead ks, sb)) ->
  (forall p l, p ∈ preorder f -> p <> c -> p ∉ preorder (fkids c f) ->
     has_links h p l -> has_links h' p l) ->
  frep h' par (fgraft c ks f).
Proof.
  revert par. induction f as [|q k IHk r IHr]; simpl; intros par Hf Hnd Hc Hks Hlc Hh;
    [by apply not_elem_of_nil in Hc|].
  destruct Hf as (Hn & Hl & Hk & Hr).
  apply NoDup_cons in Hnd as [Hq Hnd]. apply NoDup_app in Hnd as (Hndk & Hdis & Hndr).
  apply not_elem_of_app in Hq as [Hqk Hqr].
  destruct (Z.eqb_spec q c) as [<-|Hne]; simpl.
  - split; [done|]. split; [by eapply Hlc|]. split; [done|]. eapply frep_frame; [done|].
    intros p l Hp. apply Hh; [right; apply elem_of_app; by right|by intros ->|].
    intros Hin. by apply (Hdis p).
  - apply elem_of_cons in Hc as [|Hc]; [done|]. split; [done|]. rewrite !fhead_fgraft.
    case_decide as Hck.
    + split; [apply Hh; [left|done| |done]; intros ?%fkids_sub; done|]. split.
      * apply IHk; [done..|]. intros p l Hp. apply Hh. right. apply elem_of_app. by left.
      * rewrite fgraft_notin by (by apply Hdis). eapply frep_frame; [done|].
        intros p l Hp. apply Hh; [right; apply elem_of_app; by right|intros ->; by apply (Hdis c)|].
        intros ?%fkids_sub. by apply (Hdis p).
    + apply elem_of_app in Hc as [|Hc]; [done|].
      split; [apply Hh; [left|done| |done]; intros ?%fkids_sub; done|]. split.
      * rewrite fgraft_notin by done. eapply frep_frame; [done|].
        intros p l Hp. apply Hh; [right; apply elem_of_app; by left|by intros ->|].
        intros ?%fkids_sub. by apply (Hdis p).
      * apply IHr; [done..|]. intros p l Hp. apply Hh. right. apply elem_of_app. by right.
Qed.

(** The links of a block of the forest, and the forest of its children. *)
Lemma frep_fkids h par f c :
  frep h par f -> NoDup (preorder f) -> c ∈ preorder f ->
  frep h c (fkids c f) /\ NoDup (preorder (fkids c f)) /\ (c ∉ preorder (fkids c f)) /\
  exists pa sb, has_links h c (pa, fhead (fkids c f), sb).
Proof.
  revert par. induction f as [|q k IHk r IHr]; simpl; intros par Hf Hnd Hc; [by apply not_elem_of_nil in Hc|].
  destruct Hf as (Hn & Hl & Hk & Hr).
  apply NoDup_cons in Hnd as [Hq Hnd]. apply NoDup_app in Hnd as (Hndk & Hdis & Hndr).
  destruct (Z.eqb_spec q c) as [<-|Hne].
  - split; [done|]. split; [done|]. split; [|eauto]. intros ?. apply Hq. apply elem_of_app. by left.
  - apply elem_of_cons in Hc as [|Hc]; [done|]. case_decide as Hck; [eauto|].
    apply elem_of_app in Hc as [|Hc]; [done|]. eauto.
Qed.

Lemma preorder_fgraft c ks f :
  NoDup (preorder f) -> c ∈ preorder f ->
  preorder (fkids c f) ++ preorder (fgraft c ks f) ≡ₚ preorder ks ++ preorder f.
Proof.
  induction f as [|q k IHk r IHr]; simpl; intros Hnd Hc; [by apply not_elem_of_nil in Hc|].
  apply NoDup_cons in Hnd as [Hq Hnd]. apply NoDup_app in Hnd as (Hndk & Hdis & Hndr).
  destruct (Z.eqb_spec q c) as [<-|Hne]; simpl.
  - rewrite <- !Permutation_middle. constructor. rewrite !app_assoc. f_equiv. apply Permutation_app_comm.
  - apply elem_of_cons in Hc as [|Hc]; [done|]. case_decide as Hck; rewrite <- !Permutation_middle; constructor.
    + rewrite (fgraft_notin _ _ r) by (by apply Hdis). rewrite !app_assoc. f_equiv. by apply IHk.
    + apply elem_of_app in Hc as [|Hc]; [done|]. rewrite (fgraft_notin _ _ k) by done.
      rewrite (Permutation_app_comm (preorder k) (preorder (fgraft _ _ _))).
      rewrite (Permutation_app_comm (preorder k) (preorder r)). rewrite !app_assoc. f_equiv. by apply IHr.
Qed.

(** ** Selection *)

(** The first runnable thread of a list, [NULL] if there is none. *)
Fixpoint first_runnable (h : gmap Z tcb) (l : list Z) : Z :=
  match l with
  | [] => NULL
  | p :: l' => if runnable h p then p else first_runnable h l'
  end.

(** The way from a block up to [parent], with the siblings that follow each block
    on the way. *)
Inductive way (h : gmap Z tcb) (parent : Z) : Z -> list forest -> Prop :=
| way_top : way h parent parent []
| way_up q q' k rest rests :
    q <> parent -> has_links h q (q', fhead k, fhead rest) -> frep h q' rest ->
    way h parent q' rests -> way h parent q (rest :: rests).

Definition remaining (rests : list forest) : list Z := rests ≫= preorder.

(** The climb stops at the nearest ancestor with a following sibling. *)
Lemma thread_climb_ok fuel parent thr q k rests s :
  has_links (tcbs s) thr (q, k, NULL) -> way (tcbs s) parent q rests ->
  (length rests < fuel)%nat ->
  (remaining rests = [] /\ thread_climb fuel parent thr s = Done (None, s)) \/
  exists q' p kids rest rests', way (tcbs s) parent q' rests' /\
    frep (tcbs s) q' (FCons p kids rest) /\ (length rests' < length rests)%nat /\
    remaining rests = preorder (FCons p kids rest) ++ remaining rests' /\
    thread_climb fuel parent thr s = Done (Some p, s).
Proof.
  revert thr q k rests. induction fuel as [|fuel IH]; intros thr q k rests (t & Ht & El) Hw Hf; [lia|].
  injection El as Ep _ _. pose proof Hw as Hw0. destruct Hw as [|q q' k' rest rests Hne Hq Hrest Hw].
  { left. split; [done|]. simpl. unfold mbind, M_bind. by rewrite (get_tcb_ok _ _ _ Ht), Ep, Z.eqb_refl. }
  pose proof Hq as (u & Hu & Eu). injection Eu as E1 E2 E3.
  assert (Eclimb : thread_climb (S fuel) parent thr s =
    if fhead rest =? NULL then thread_climb fuel parent q s else Done (Some (fhead rest), s)).
  { simpl. unfold mbind, M_bind. rewrite (get_tcb_ok _ _ _ Ht), Ep, (proj2 (Z.eqb_neq _ _)) by done.
    rewrite (get_tcb_ok _ _ _ Hu), E3. by destruct (fhead rest =? NULL). }
  rewrite Eclimb. clear Eclimb.
  destruct rest as [|p kids rest']; simpl in *.
  - destruct (IH q q' (fhead k') rests) as [[Hr Hc]|H]; [done|done|lia|by left|].
    right. destruct H as (a & p & kids & rest' & rests' & ? & ? & ? & Hr & Hc).
    exists a, p, kids, rest', rests'. split; [done|]. split; [done|]. split; [lia|]. by split.
  - rewrite (proj2 (Z.eqb_neq _ _)) by apply Hrest. right.
    exists q', p, kids, rest', rests. split; [done|]. split; [done|]. split; [lia|]. done.
Qed.

(** The loop of [thread_select] from block [p]: [N] bounds the depth and [fuel] the
    number of blocks still to visit. *)
Lemma thread_select_loop_ok N fuel parent q p kids rest rests s :
  frep (tcbs s) q (FCons p kids rest) -> way (tcbs s) parent q rests ->
  let todo := preorder (FCons p kids rest) ++ remaining rests in
  NoDup todo -> parent ∉ todo ->
  (length rests + length todo <= N)%nat -> (length todo + N <= fuel)%nat ->
  thread_select_loop fuel parent p s = Done (first_runnable (tcbs s) todo, s).
Proof.
  cbv zeta. revert q p kids rest rests.
  induction fuel as [|fuel IH]; intros q p kids rest rests Hf Hw Hnd Hpar HN Hfuel; [simpl in *; lia|].
  destruct Hf as (Hn & (t & Ht & El) & Hk & Hr). injection El as Ep Ec Es.
  cbn [thread_select_loop]. unfold mbind at 1, M_bind at 1. rewrite (get_tcb_ok _ _ _ Ht).
  cbn [preorder app first_runnable]. unfold runnable at 1. rewrite Ht.
  destruct (isrunnable t) eqn:Erun; [done|]. rewrite Ec, Es.
  cbn [preorder app] in *. apply NoDup_cons in Hnd as [Hp Hnd].
  apply not_elem_of_cons in Hpar as [Hpne Hpar]. cbn [length] in *.
  destruct kids as [|p' kids' rest'].
  - cbn [fhead preorder app negb] in *. rewrite Z.eqb_refl. cbn [negb].
    destruct rest as [|p' kids' rest'].
    + cbn [fhead preorder app negb] in *. rewrite Z.eqb_refl. cbn [negb].
      assert (Hl : has_links (tcbs s) p (q, NULL, NULL)) by (exists t; split; [done|]; unfold links; by rewrite Ep, Ec, Es).
      unfold mbind at 1, M_bind at 1.
      destruct (thread_climb_ok (S fuel) parent p q NULL rests s Hl Hw) as [[Hrem ->]|H]; [lia|by rewrite Hrem|].
      destruct H as (q' & p' & kids' & rest' & rests' & Hw' & Hf' & Hlen & Hrem & ->).
      rewrite Hrem in Hnd, Hpar, HN, Hfuel |- *. apply (IH q' p' kids' rest' rests'); [done..| |]; cbn [preorder app length] in *; lia.
    + cbn [fhead]. rewrite (proj2 (Z.eqb_neq _ _)) by apply Hr. cbn [negb].
      apply (IH q); [done..| |]; cbn [preorder app length] in *; lia.
  - cbn [fhead]. rewrite (proj2 (Z.eqb_neq _ _)) by apply Hk. cbn [negb].
    assert (E : preorder (FCons p' kids' rest') ++ remaining (rest :: rests) =
      (preorder (FCons p' kids' rest') ++ preorder rest) ++ remaining rests) by (simpl; by rewrite <- !app_assoc).
    assert (Ew : way (tcbs s) parent p (rest :: rests)).
    { eapply (way_up _ _ p q (FCons p' kids' rest')); [done| |done|done].
      exists t. split; [done|]. unfold links. by rewrite Ep, Ec, Es. }
    pose proof (IH p p' kids' rest' (rest :: rests) Hk Ew) as IH'. cbn [preorder app] in IH', E. rewrite E in IH'.
    clear IH E. apply IH'; [done|done| |]; simpl in HN, Hfuel |- *; rewrite !length_app in *; simpl in *;
      rewrite ?length_app in *; lia.
Qed.

Lemma first_runnable_spec h l :
  (first_runnable h l ∈ l /\ runnable h (first_runnable h l) = true \/
   first_runnable h l = NULL /\ Forall (fun p => runnable h p = false) l).
Proof.
  induction l as [|p l IH]; simpl; [by right|].
  destruct (runnable h p) eqn:E.
  - left. split; [left|done].
  - destruct IH as [[? ?]|[? ?]]; [left; split; [by right|done]|right; split; [done|by constructor]].
Qed.

Lemma NoDup_in_heap (h : gmap Z tcb) (l : list Z) :
  NoDup l -> (forall p, p ∈ l -> is_Some (h !! p)) -> (length l <= size h)%nat.
Proof.
  intros Hnd Hin. rewrite <- size_dom.
  assert (length l = size (list_to_set l : gset Z)) as -> by (symmetry; by apply size_list_to_set).
  apply subseteq_size. intros p Hp. apply elem_of_list_to_set in Hp. by apply elem_of_dom, Hin.
Qed.

(** [thread_select] below a block of a well-linked tree. *)
Lemma thread_select_ok s parent pt f :
  tcbs s !! parent = Some pt -> t_child pt = fhead f -> frep (tcbs s) parent f ->
  NoDup (preorder f) -> parent ∉ preorder f ->
  thread_select parent s = Done (first_runnable (tcbs s) (preorder f), s).
Proof.
  intros Hp Hc Hf Hnd Hpar.
  unfold thread_select, gets. unfold mbind at 1 2, M_bind at 1 2. rewrite (get_tcb_ok _ _ _ Hp), Hc.
  destruct f as [|p kids rest]; [done|]. cbn [fhead].
  rewrite (proj2 (Z.eqb_neq _ _)) by apply Hf.
  assert (Hsz : (length (preorder (FCons p kids rest)) <= size (tcbs s))%nat).
  { apply NoDup_in_heap; [done|]. intros x. by apply frep_lookup with parent. }
  pose proof (thread_select_loop_ok (size (tcbs s)) (tree_fuel s) parent parent p kids rest [] s Hf) as H.
  cbv zeta in H. rewrite (app_nil_r (preorder _) : _ ++ remaining [] = _) in H.
  apply H; [constructor|done|done|simpl length in *; lia|unfold tree_fuel; lia].
Qed.

(** ** The invariant of the dispatcher with its tree *)

Record tree_inv (s : thrstate) (ents : list (Z * Z)) (f : forest) : Prop := {
  tri_inv : thr_inv s ents;
  tri_rep : frep (tcbs s) NULL f;
  tri_nodup : NoDup (preorder f);
  tri_live : forall p, p ∈ preorder f -> p ∈ ents.*1;
}.

(** Changes of blocks that keep the identifiers. *)
Definition same_ids (h h' : gmap Z tcb) : Prop :=
  forall p, t_globalid <$> h' !! p = t_globalid <$> h !! p.

#[local] Instance same_ids_preorder : PreOrder same_ids.
Proof. split; [done|]. intros h1 h2 h3 H1 H2 p. by rewrite H2. Qed.

Lemma same_ids_insert h0 h p t t' :
  h !! p = Some t -> t_globalid t' = t_globalid t -> same_ids h0 h -> same_ids h0 (<[p := t']> h).
Proof.
  intros Hp Ht Hh q. rewrite lookup_insert, <- Hh. case_decide; [subst; rewrite Hp; simpl; by rewrite Ht|done].
Qed.

Lemma thr_inv_same_ids s h' ents :
  thr_inv s ents -> same_ids (tcbs s) h' -> thr_inv (set_tcbs h' s) ents.
Proof.
  intros [Hm Hwf Hn Hd Hl Hnd] Hid. constructor; simpl; try done.
  - destruct Hm as [Hp Ht Ho]. constructor; [done| |done].
    eapply Forall_impl; [done|]. intros e (t & Ht' & Hg). specialize (Hid e.1). rewrite Ht' in Hid.
    destruct (h' !! e.1) as [t'|] eqn:E; [|done]. injection Hid as Hid. exists t'. split; [done|]. congruence.
  - intros p. rewrite <- Hd. specialize (Hid p).
    destruct (h' !! p), (tcbs s !! p); done.
Qed.

Lemma has_links_insert_ne h p q t l : p <> q -> has_links (<[p := t]> h) q l <-> has_links h q l.
Proof. intros Hne. unfold has_links. by rewrite lookup_insert_ne. Qed.

Lemma has_links_insert_eq h p t l : links t = l -> has_links (<[p := t]> h) p l.
Proof. intros Hl. exists t. by rewrite lookup_insert_eq. Qed.

(** Running one access of a block whose contents are known. *)
Lemma bind_get_tcb {A} p t (k : tcb -> M thrstate A) s :
  tcbs s !! p = Some t -> (get_tcb p ≫= k) s = k t s.
Proof. intros Ht. unfold mbind, M_bind. by rewrite (get_tcb_ok _ _ _ Ht). Qed.

Lemma last_sibling_ok fuel par f s :
  frep (tcbs s) par f -> f <> FNil -> (length (preorder f) <= fuel)%nat ->
  last_sibling fuel (fhead f) s = Done (flast f, s).
Proof.
  revert f. induction fuel as [|fuel IH]; intros [|p k r] Hf Hne Hlen; try done; simpl in Hlen; [lia|].
  destruct Hf as (Hn & (t & Ht & El) & Hk & Hr). injection El as _ _ Es.
  cbn [last_sibling fhead]. rewrite (bind_get_tcb _ _ _ _ Ht), Es.
  destruct r as [|q k' r']; [done|]. cbn [fhead]. rewrite (proj2 (Z.eqb_neq _ _)) by apply Hr. cbn [negb].
  rewrite length_app in Hlen. apply (IH (FCons q k' r')); [done|done|lia].
Qed.

(** *** Creation *)

(** Linking a fresh block as the last child of [c]. *)
Lemma frep_add_child h h' c thr f pa ch sb :
  frep h NULL f -> NoDup (preorder f) -> c ∈ preorder f -> thr ∉ preorder f -> thr <> NULL ->
  has_links h' thr (c, NULL, NULL) ->
  has_links h c (pa, ch, sb) -> ch = fhead (fkids c f) ->
  (if ch =? NULL then has_links h' c (pa, thr, sb)
   else has_links h' c (pa, ch, sb) /\
     forall pa' ch' sb', has_links h (flast (fkids c f)) (pa', ch', sb') ->
       has_links h' (flast (fkids c f)) (pa', ch', thr)) ->
  (forall p l, p <> thr -> p <> c -> p <> flast (fkids c f) -> has_links h p l -> has_links h' p l) ->
  frep h' NULL (fgraft c (fapp (fkids c f) (FCons thr FNil FNil)) f).
Proof.
  intros Hf Hnd Hc Hthr Hnn Hlt Hlc Hch Hcase Hframe.
  destruct (frep_fkids _ _ _ _ Hf Hnd Hc) as (Hk & Hndk & Hck & _).
  assert (Hleaf : frep h' c (FCons thr FNil FNil)) by done.
  assert (Hfn : fkids c f <> FNil -> flast (fkids c f) ∈ preorder (fkids c f)) by apply flast_elem.
  eapply frep_fgraft; [done|done|done| | |].
  - apply (frep_fapp h _ _ _ FNil); [by rewrite fapp_nil_r|done|done|]. intros p pa' ch' sb' Hp Hl.
    assert (Hkn : fkids c f <> FNil) by (intros E; rewrite E in Hp; by apply not_elem_of_nil in Hp).
    destruct (Z.eqb_spec ch NULL) as [E|E].
    { rewrite E in Hch. symmetry in Hch. by apply (fhead_nonnull _ _ _ Hk) in Hch. }
    destruct (Z.eqb_spec p (flast (fkids c f))) as [->|Hne]; [by eapply Hcase|].
    apply Hframe; [|by intros ->|done|done]. intros ->. by apply Hthr, (fkids_sub c).
  - intros pa' ch' sb' Hl. destruct Hlc as (t & Ht & El), Hl as (t' & Ht' & El').
    rewrite Ht in Ht'. injection Ht' as <-. rewrite El in El'. injection El' as <- <- <-.
    destruct (Z.eqb_spec ch NULL) as [E|E].
    + rewrite E in Hch. symmetry in Hch. apply (fhead_nonnull _ _ _ Hk) in Hch. by rewrite Hch.
    + destruct Hcase as [Hcase _]. destruct (fkids c f) as [|x y z]; [done|]. by rewrite Hch in Hcase.
  - intros p l Hp Hpc Hpk Hl. apply Hframe; [by intros ->|done| |done].
    intros ->. destruct (fkids c f) as [|x y z] eqn:E.
    + simpl in Hp. by apply (frep_nonnull h NULL f NULL).
    + apply Hpk. by apply Hfn.
Qed.

(** The localid [thread_create] gives the new child of [c]. *)
Definition child_localid (h : gmap Z tcb) (ks : forest) : Z :=
  match h !! flast ks with
  | Some t => if fhead ks =? NULL then 64 else t_localid t +w 64
  | None => 64
  end.

(** A block without its links. *)
Definition unlinked (t : tcb) : tcb := with_child NULL (with_sibling NULL (with_parent NULL (with_localid 0 t))).

(** Only links of blocks are changed. *)
Definition links_only (h h' : gmap Z tcb) : Prop := forall p, unlinked <$> h' !! p = unlinked <$> h !! p.

Lemma links_only_insert h0 h p t t' : h !! p = Some t -> unlinked t' = unlinked t -> links_only h0 h -> links_only h0 (<[p := t']> h).
Proof.
  intros Hp Hu Hl q. rewrite <- Hl, lookup_insert. case_decide; [subst|done]. rewrite Hp. cbn. by rewrite Hu.
Qed.

Lemma links_only_lookup h h' p t : links_only h h' -> h !! p = Some t -> exists t', h' !! p = Some t' /\ unlinked t' = unlinked t.
Proof. intros H Hp. specialize (H p). rewrite Hp in H. destruct (h' !! p) as [t'|]; [|done]. exists t'. split; [done|]. by apply (inj Some). Qed.

Lemma thread_create_links s c thr old globalid utcb f :
  frep (tcbs s) NULL f -> NoDup (preorder f) -> c ∈ preorder f -> thr ∉ preorder f -> thr <> NULL ->
  tcbs s !! thr = Some (fresh_tcb globalid utcb old) ->
  exists h' t', (upd_tcb thr (with_parent c);; cb ← get_tcb c;
     if negb (t_child cb =? NULL) then
       fuel ← gets tree_fuel; t ← last_sibling fuel (t_child cb); upd_tcb t (with_sibling thr);;
       tb ← get_tcb t; upd_tcb thr (with_localid (t_localid tb +w Z.shiftl 1 6));; mret thr
     else upd_tcb c (with_child thr);; upd_tcb thr (with_localid (Z.shiftl 1 6));; mret thr) s =
    Done (thr, set_tcbs h' s) /\ same_ids (tcbs s) h' /\
    frep h' NULL (fgraft c (fapp (fkids c f) (FCons thr FNil FNil)) f) /\
    h' !! thr = Some t' /\ t_localid t' = child_localid (tcbs s) (fkids c f) /\
    t_globalid t' = globalid /\ t_utcb t' = utcb /\ t_state t' = T_INACTIVE /\
    links_only (tcbs s) h'.
Proof.
  intros Hf Hnd Hc Hthr Hnn Ht.
  destruct (frep_fkids _ _ _ _ Hf Hnd Hc) as (Hk & Hndk & Hck & pa & sb & cb & Hcb & El).
  assert (Hct : c <> thr) by by intros ->. pose proof El as El0. injection El0 as Ep Ech Esb.
  rewrite (upd_tcb_then _ _ _ _ _ Ht). set (h1 := <[thr := _]> (tcbs s)).
  assert (Hc1 : h1 !! c = Some cb) by (unfold h1; by rewrite lookup_insert_ne).
  rewrite (bind_get_tcb c cb _ (set_tcbs h1 s) Hc1). rewrite Ech. destruct (Z.eqb_spec (fhead (fkids c f)) NULL) as [E|E]; cbn [negb].
  - rewrite (upd_tcb_then c _ _ (set_tcbs h1 s) _ Hc1). cbn [tcbs set_tcbs].
    assert (Ht2 : (<[c := with_child thr cb]> h1) !! thr = Some (with_parent c (fresh_tcb globalid utcb old)))
      by (rewrite lookup_insert_ne by done; unfold h1; apply lookup_insert_eq).
    erewrite upd_tcb_then by exact Ht2. cbn [tcbs set_tcbs].
    eexists (<[thr := with_localid (Z.shiftl 1 6) _]> (<[c := with_child thr cb]> h1)), _.
    split; [by destruct s|]. split; [|split; [|split; [apply lookup_insert_eq|]]].
    + eapply same_ids_insert; [exact Ht2|done|]. eapply same_ids_insert; [exact Hc1|done|].
      by eapply same_ids_insert.
    + apply (frep_add_child (tcbs s) _ c thr f pa (fhead (fkids c f)) sb); [done..| | |done| |].
      * by apply has_links_insert_eq.
      * by exists cb.
      * rewrite E, Z.eqb_refl. rewrite has_links_insert_ne by done. apply has_links_insert_eq.
        unfold links. simpl. by rewrite Ep, Esb.
      * intros p l H1 H2 _ Hl. unfold h1. by rewrite !has_links_insert_ne by done.
    + split; [unfold child_localid; destruct (tcbs s !! flast _); [|done]; by rewrite E, Z.eqb_refl|]. do 3 (split; [done|]).
      eapply links_only_insert; [exact Ht2|done|]. eapply links_only_insert; [exact Hc1|done|]. by eapply links_only_insert.
  - assert (Hkn : fkids c f <> FNil) by (intros E'; by rewrite E' in E).
    pose proof (flast_elem _ Hkn) as Hlast. pose proof (fkids_sub _ _ _ Hlast) as Hlast'.
    assert (Hlt : flast (fkids c f) <> thr) by (intros E'; by rewrite E' in Hlast').
    assert (Hlc : flast (fkids c f) <> c) by (intros E'; by rewrite E' in Hlast).
    destruct (frep_lookup _ _ _ _ Hk Hlast) as [lt Hlt0].
    assert (Hk1 : frep h1 c (fkids c f)).
    { eapply frep_frame_eq; [done|]. intros p Hp. unfold h1. rewrite lookup_insert_ne; [done|].
      intros ->. by apply Hthr, (fkids_sub c). }
    rewrite (bind_Done (gets tree_fuel) _ _ _ _ eq_refl).
    rewrite (bind_Done _ _ _ (flast (fkids c f)) (set_tcbs h1 s)).
    2: { apply (last_sibling_ok _ c); [done|done|]. unfold tree_fuel. cbn [tcbs set_tcbs].
         enough (length (preorder (fkids c f)) <= size h1)%nat by lia.
         apply NoDup_in_heap; [done|]. intros p. by apply frep_lookup with c. }
    assert (Hl1 : h1 !! flast (fkids c f) = Some lt) by (unfold h1; by rewrite lookup_insert_ne).
    rewrite (upd_tcb_then _ _ _ (set_tcbs h1 s) _ Hl1). cbn [tcbs set_tcbs].
    erewrite bind_get_tcb by apply lookup_insert_eq.
    assert (Ht2 : (<[flast (fkids c f) := with_sibling thr lt]> h1) !! thr = Some (with_parent c (fresh_tcb globalid utcb old)))
      by (rewrite lookup_insert_ne by done; unfold h1; apply lookup_insert_eq).
    erewrite upd_tcb_then by exact Ht2. cbn [tcbs set_tcbs].
    eexists (<[thr := with_localid (t_localid lt +w Z.shiftl 1 6) _]> (<[flast (fkids c f) := with_sibling thr lt]> h1)), _.
    split; [by destruct s|]. split; [|split; [|split; [apply lookup_insert_eq|]]].
    + eapply same_ids_insert; [exact Ht2|done|]. eapply same_ids_insert; [exact Hl1|done|].
      by eapply same_ids_insert.
    + apply (frep_add_child (tcbs s) _ c thr f pa (fhead (fkids c f)) sb); [done..| | |done| |].
      * by apply has_links_insert_eq.
      * by exists cb.
      * rewrite (proj2 (Z.eqb_neq _ _)) by done. split.
        -- unfold h1. rewrite !has_links_insert_ne by done. by exists cb.
        -- intros pa' ch' sb' (t' & Ht' & El'). rewrite Hlt0 in Ht'. injection Ht' as <-. injection El' as <- <- _.
           rewrite has_links_insert_ne by done. by apply has_links_insert_eq.
      * intros p l H1 H2 H3 Hl. unfold h1. by rewrite !has_links_insert_ne by done.
    + split; [unfold child_localid; rewrite Hlt0, (proj2 (Z.eqb_neq _ _)) by done; done|]. do 3 (split; [done|]).
      eapply links_only_insert; [exact Ht2|done|]. eapply links_only_insert; [exact Hl1|done|]. by eapply links_only_insert.
Qed.

(** *** Destruction *)

Lemma find_prev_ok fuel par pre thr tk tr prev s :
  frep (tcbs s) par (fapp pre (FCons thr tk tr)) -> NoDup (preorder (fapp pre (FCons thr tk tr))) ->
  (length (preorder pre) < fuel)%nat ->
  find_prev fuel thr prev (fhead (fapp pre (FCons thr tk tr))) s =
  Done ((match pre with FNil => prev | _ => flast pre end, thr), s).
Proof.
  revert pre prev. induction fuel as [|fuel IH]; intros pre prev Hf Hnd Hlen; [lia|].
  destruct pre as [|p k r]; cbn [fapp fhead] in *.
  - simpl. by rewrite Z.eqb_refl.
  - simpl in Hnd, Hlen. rewrite length_app in Hlen. apply NoDup_cons in Hnd as [Hp Hnd].
    destruct Hf as (Hn & (t & Ht & El) & Hk & Hr). injection El as _ _ Es.
    assert (Hpt : p <> thr).
    { intros ->. apply Hp. rewrite preorder_fapp. apply elem_of_app. right. apply elem_of_app. right. left. }
    cbn [find_prev]. rewrite (proj2 (Z.eqb_neq _ _)) by done. cbn [negb].
    rewrite (bind_get_tcb _ _ _ _ Ht), Es.
    apply NoDup_app in Hnd as (_ & _ & Hndr).
    rewrite (IH r p); [|done|done|lia]. by destruct r.
Qed.

(** Cutting the tree of [thr] out of the children of [q]. *)
Lemma frep_unlink h q qb tb pre thr tk tr f :
  frep h NULL f -> NoDup (preorder f) -> q ∈ preorder f -> fkids q f = fapp pre (FCons thr tk tr) ->
  h !! q = Some qb -> (pre <> FNil -> h !! flast pre = Some tb) ->
  frep (match pre with
        | FNil => <[q := with_child (fhead tr) qb]> h
        | _ => <[flast pre := with_sibling (fhead tr) tb]> h
        end) NULL (fgraft q (fapp pre tr) f).
Proof.
  intros Hf Hnd Hq Ek Hqb Htb.
  destruct (frep_fkids _ _ _ _ Hf Hnd Hq) as (Hk & Hndk & Hqk & pa & sb & qb' & Hqb' & El).
  rewrite Hqb in Hqb'. injection Hqb' as <-. injection El as Epa Ech Esb. rewrite Ek in *.
  assert (Htr : frep h q (FCons thr tk tr)).
  { clear -Hk. induction pre as [|p k _ r IH]; [done|]. apply IH, Hk. }
  rewrite preorder_fapp in Hndk, Hqk. apply NoDup_app in Hndk as (Hndp & Hdis & Hndt).
  apply not_elem_of_app in Hqk as [Hqp Hqt].
  destruct pre as [|p k r].
  - eapply frep_fgraft; [done|done|done| | |].
    + eapply frep_frame_eq; [apply Htr|]. intros x Hx. apply lookup_insert_ne. intros ->.
      apply Hqt. right. apply elem_of_app. by right.
    + intros pa' ch' sb' (t & Ht & El). apply has_links_insert_eq. simpl.
      rewrite Hqb in Ht. injection Ht as <-. injection El as <- _ <-. done.
    + intros x l Hx Hxq _ Hl. by apply has_links_insert_ne.
  - set (pre := FCons p k r) in *.
    assert (Hpre : flast pre ∈ preorder pre) by by apply flast_elem.
    assert (Hlq : flast pre <> q) by (intros E; by rewrite E in Hpre).
    specialize (Htb ltac:(done)).
    assert (Hframe : forall x l, x <> flast pre -> has_links h x l -> has_links (<[flast pre := with_sibling (fhead tr) tb]> h) x l)
      by (intros x l Hx; by apply has_links_insert_ne).
    eapply frep_fgraft; [done|done|done| | |].
    + eapply frep_fapp; [exact Hk|done| |].
      * eapply frep_frame_eq; [apply Htr|]. intros x Hx. apply lookup_insert_ne. intros <-.
        apply (Hdis _ Hpre). right. apply elem_of_app. by right.
      * intros x pa' ch' sb' Hx Hl. destruct (Z.eqb_spec x (flast pre)) as [->|Hne]; [|by apply Hframe].
        apply has_links_insert_eq. destruct Hl as (t & Ht & El). rewrite Htb in Ht. injection Ht as <-.
        by injection El as <- <- _.
    + intros pa' ch' sb' (t & Ht & El). apply Hframe; [done|]. exists t. split; [done|].
      rewrite Hqb in Ht. injection Ht as <-. injection El as <- _ <-. unfold links. by rewrite Ech.
    + intros x l Hx Hxq Hxk Hl. apply Hframe; [|done]. intros ->. apply Hxk. rewrite Ek, preorder_fapp.
      apply elem_of_app. by left.
Qed.

(** The loop that makes [c] the parent of the following siblings. *)
Lemma adopt_ok fuel c q p k r t s :
  frep (tcbs s) q r -> NoDup (preorder r) -> p ∉ preorder r ->
  tcbs s !! p = Some t -> t_sibling t = fhead r -> (length (preorder r) < fuel)%nat ->
  exists h', adopt fuel c p s = Done (flast (FCons p k r), set_tcbs h' s) /\ frep h' c r /\
    same_ids (tcbs s) h' /\ forall x, x ∉ preorder r -> h' !! x = tcbs s !! x.
Proof.
  revert fuel p k t s. induction r as [|p2 k2 _ r IH]; intros fuel p k t s Hr Hnd Hp Ht Hsib Hfuel;
    (destruct fuel as [|fuel]; [simpl in Hfuel; lia|]); cbn [adopt]; rewrite (bind_get_tcb _ _ _ _ Ht), Hsib.
  { exists (tcbs s). split; [by destruct s|]. by split. }
  destruct Hr as (Hn & (t2 & Ht2 & El) & Hk & Hr). injection El as E1 E2 E3.
  cbn [fhead]. rewrite (proj2 (Z.eqb_neq _ _)) by done. cbn [negb].
  rewrite (upd_tcb_then _ _ _ _ _ Ht2). set (h1 := <[p2 := _]> (tcbs s)).
  simpl in Hnd, Hfuel. rewrite length_app in Hfuel.
  apply NoDup_cons in Hnd as [Hp2 Hnd]. apply NoDup_app in Hnd as (_ & Hdis & Hndr).
  apply not_elem_of_app in Hp2 as [Hp2k Hp2r].
  destruct (IH fuel p2 k2 (with_parent c t2) (set_tcbs h1 s)) as (h' & Ha & Hf & Hid & Hfr).
  - eapply frep_frame_eq; [done|]. intros x Hx. cbn [tcbs set_tcbs]. unfold h1. apply lookup_insert_ne. by intros ->.
  - done.
  - done.
  - apply lookup_insert_eq.
  - done.
  - lia.
  - exists h'. split; [|split; [|split]].
    + rewrite Ha. by destruct s.
    + split; [done|]. split; [|split; [|done]].
      * unfold has_links. rewrite (Hfr p2 Hp2r). exists (with_parent c t2). split; [apply lookup_insert_eq|].
        unfold links. simpl. by rewrite E2, E3.
      * eapply frep_frame_eq; [done|]. intros x Hx. rewrite Hfr by (by apply Hdis).
        apply lookup_insert_ne. by intros ->.
    + etrans; [|exact Hid]. by eapply same_ids_insert.
    + intros x Hx. apply not_elem_of_cons in Hx as [Hx2 [_ Hxr]%not_elem_of_app].
      rewrite Hfr by done. apply lookup_insert_ne. done.
Qed.

(** The children of [c] after it adopted [tk]. *)
Lemma frep_adopted h1 h2 c cb lt tk f :
  frep h1 NULL f -> NoDup (preorder f) -> c ∈ preorder f ->
  (forall x, x ∈ preorder tk -> x ∉ preorder f) -> tk <> FNil -> NoDup (preorder tk) ->
  frep h2 c tk -> (forall x, x ∉ preorder tk -> h2 !! x = h1 !! x) ->
  h1 !! c = Some cb -> h2 !! flast tk = Some lt ->
  frep (<[c := with_child (fhead tk) cb]> (<[flast tk := with_sibling (t_child cb) lt]> h2)) NULL
    (fgraft c (fapp tk (fkids c f)) f).
Proof.
  intros Hf Hnd Hc Hdis Hne Hndt Htk Hfr Hcb Hlt.
  destruct (frep_fkids _ _ _ _ Hf Hnd Hc) as (Hk & Hndk & Hck & pa & sb & cb' & Hcb' & El).
  rewrite Hcb in Hcb'. injection Hcb' as <-. injection El as Epa Ech Esb.
  pose proof (flast_elem _ Hne) as Hl.
  assert (Hct : c ∉ preorder tk) by (intros Hin; by apply (Hdis c)).
  assert (Hlc : c <> flast tk) by by intros ->.
  assert (Hframe : forall x, x ∈ preorder f -> x <> c ->
    (<[c := with_child (fhead tk) cb]> (<[flast tk := with_sibling (t_child cb) lt]> h2)) !! x = h1 !! x).
  { intros x Hx Hxc. rewrite !lookup_insert_ne; [|intros <-; by apply (Hdis _ Hl)|done].
    apply Hfr. intros Hin. by apply (Hdis x). }
  eapply frep_fgraft; [done|done|done| | |].
  - apply (frep_fapp h2 _ _ _ FNil); [by rewrite fapp_nil_r|done| |].
    + eapply frep_frame_eq; [done|]. intros x Hx. apply Hframe; [by apply (fkids_sub c)|by intros ->].
    + intros x pa' ch' sb' Hx Hxl. rewrite has_links_insert_ne by (by intros ->).
      destruct (Z.eqb_spec x (flast tk)) as [->|Hxn]; [|by apply has_links_insert_ne].
      apply has_links_insert_eq. destruct Hxl as (t & Ht & El). rewrite Hlt in Ht. injection Ht as <-.
      injection El as <- <- _. unfold links. simpl. by rewrite Ech.
  - intros pa' ch' sb' (t & Ht & El). apply has_links_insert_eq. rewrite Hcb in Ht. injection Ht as <-.
    injection El as <- _ <-. unfold links. simpl. by destruct tk.
  - intros x l Hx Hxc _ (t & Ht & El). exists t. by rewrite Hframe.
Qed.

Lemma fgraft_same c f : NoDup (preorder f) -> fgraft c (fkids c f) f = f.
Proof.
  intros Hnd. destruct (decide (c ∈ preorder f)) as [Hc|]; [|by apply fgraft_notin].
  induction f as [|q k IHk r IHr]; simpl in *; [done|].
  apply NoDup_cons in Hnd as [Hq Hnd]. apply NoDup_app in Hnd as (Hndk & Hdis & Hndr).
  destruct (Z.eqb_spec q c) as [<-|Hne]; [done|].
  apply elem_of_cons in Hc as [|Hc]; [done|]. case_decide as Hck.
  - rewrite IHk by done. by rewrite (fgraft_notin _ _ r) by (by apply Hdis).
  - apply elem_of_app in Hc as [|Hc]; [done|]. rewrite IHr by done. by rewrite (fgraft_notin _ _ k).
Qed.

(** The forest without the tree of [thr], and the forest after [thread_destroy]. *)
Lemma preorder_unlinked q pre thr tk tr f :
  NoDup (preorder f) -> q ∈ preorder f -> fkids q f = fapp pre (FCons thr tk tr) ->
  thr :: preorder tk ++ preorder (fgraft q (fapp pre tr) f) ≡ₚ preorder f.
Proof.
  intros Hnd Hq Ek. pose proof (preorder_fgraft q (fapp pre tr) f Hnd Hq) as Hp.
  rewrite Ek, !preorder_fapp in Hp. cbn [preorder] in Hp. rewrite <- !app_assoc in Hp.
  apply Permutation_app_inv_l in Hp. apply (Permutation_app_inv_l (preorder tr)). rewrite <- Hp.
  simpl. rewrite <- Permutation_middle. constructor.
  rewrite !app_assoc. by rewrite (Permutation_app_comm (preorder tr) (preorder tk)).
Qed.

Lemma unlink_child_ok fuel q pre thr tk tr f s :
  frep (tcbs s) NULL f -> NoDup (preorder f) -> q ∈ preorder f ->
  fkids q f = fapp pre (FCons thr tk tr) -> (size (tcbs s) < fuel)%nat ->
  exists h1, unlink_child fuel thr s = Done (tt, set_tcbs h1 s) /\ same_ids (tcbs s) h1 /\
    frep h1 NULL (fgraft q (fapp pre tr) f) /\ frep h1 thr tk /\
    has_links h1 thr (q, fhead tk, fhead tr).
Proof.
  intros Hf Hnd Hq Ek Hfuel.
  destruct (frep_fkids _ _ _ _ Hf Hnd Hq) as (Hk & Hndk & Hqk & pa & sb & qb & Hqb & El). rewrite Ek in *.
  injection El as _ Ech _.
  assert (Htr : frep (tcbs s) q (FCons thr tk tr)).
  { clear -Hk. induction pre as [|p k _ r IH]; [done|]. apply IH, Hk. }
  destruct Htr as (Hn & (t & Ht & El) & Htk & Htr). injection El as Epa Ec Es.
  pose proof Hndk as Hnd0. rewrite preorder_fapp in Hndk, Hqk. apply NoDup_app in Hndk as (Hndp & Hdis & Hndt).
  apply not_elem_of_app in Hqk as [Hqp Hqt]. apply not_elem_of_cons in Hqt as [Hqn Hqt].
  assert (Htkq : forall x, x ∈ thr :: preorder tk -> x <> q /\ x ∉ preorder pre).
  { intros x Hx. assert (x ∈ preorder (FCons thr tk tr)) by (apply elem_of_cons in Hx as [->|]; [left|right; apply elem_of_app; by left]).
    split; [intros ->; by apply elem_of_cons in Hx as [|]; [|apply Hqt, elem_of_app; left]|].
    intros Hin. by apply (Hdis x). }
  unfold unlink_child. rewrite (bind_get_tcb _ _ _ _ Ht), Epa, (bind_get_tcb _ _ _ _ Hqb), Ech.
  destruct (decide (pre = FNil)) as [->|Hpn]; cbn [fapp fhead].
  - rewrite Z.eqb_refl, (upd_tcb_ok _ _ _ _ Hqb), Es. eexists. split; [done|].
    split; [by eapply same_ids_insert|]. split; [by apply (frep_unlink _ q qb qb FNil thr tk)|]. split.
    + eapply frep_frame_eq; [done|]. intros x Hx. apply lookup_insert_ne.
      intros ->. by destruct (Htkq x); [right|].
    + apply has_links_insert_ne; [done|]. exists t. split; [done|]. unfold links. by rewrite Epa, Ec, Es.
  - assert (Hlp : flast pre ∈ preorder pre) by by apply flast_elem.
    assert (Hin : flast pre ∈ preorder (fapp pre (FCons thr tk tr))) by (rewrite preorder_fapp; apply elem_of_app; by left).
    destruct (frep_lookup _ _ _ _ Hk Hin) as [lt Hlt].
    rewrite (proj2 (Z.eqb_neq _ _)).
    2: { destruct pre as [|p k r]; [done|]. intros E. apply (Hdis p); [left|]. rewrite <- E. left. }
    rewrite (bind_Done _ _ _ (flast pre, thr) s).
    2: { rewrite (find_prev_ok _ q); [by destruct pre|done|done|].
         enough (length (preorder pre) <= size (tcbs s))%nat by lia.
         apply NoDup_in_heap; [done|]. intros x Hx. apply (frep_lookup _ q (fapp pre (FCons thr tk tr))); [done|].
         rewrite preorder_fapp. apply elem_of_app. by left. }
    cbn [fst snd]. rewrite (bind_get_tcb _ _ _ _ Ht), Es, (upd_tcb_ok _ _ _ _ Hlt). eexists. split; [done|].
    split; [by eapply same_ids_insert|]. split.
    { pose proof (frep_unlink _ q qb lt pre thr tk tr f Hf Hnd Hq Ek Hqb) as H. by destruct pre; [|apply H]. }
    split.
    + eapply frep_frame_eq; [done|]. intros x Hx. apply lookup_insert_ne.
      intros <-. by destruct (Htkq (flast pre)); [right|].
    + apply has_links_insert_ne; [intros <-; by destruct (Htkq (flast pre)); [left|]|].
      exists t. split; [done|]. unfold links. by rewrite Epa, Ec, Es.
Qed.

Lemma move_children_ok fuel c thr tk f s pa sb :
  frep (tcbs s) NULL f -> NoDup (preorder f) -> c ∈ preorder f ->
  frep (tcbs s) thr tk -> NoDup (thr :: preorder tk) ->
  (forall x, x ∈ thr :: preorder tk -> x ∉ preorder f) ->
  has_links (tcbs s) thr (pa, fhead tk, sb) -> (size (tcbs s) < fuel)%nat ->
  exists h', move_children fuel c thr s = Done (tt, set_tcbs h' s) /\ same_ids (tcbs s) h' /\
    frep h' NULL (fgraft c (fapp tk (fkids c f)) f).
Proof.
  intros Hf Hnd Hc Htk Hndt Hdis (t & Ht & El) Hfuel. injection El as _ Ech _.
  unfold move_children. rewrite (bind_get_tcb _ _ _ _ Ht), Ech.
  destruct tk as [|p k r]; cbn [fhead].
  { exists (tcbs s). split; [by destruct s|]. split; [done|]. simpl. by rewrite fgraft_same. }
  set (tk := FCons p k r) in *. pose proof Htk as (Hn & (tp & Htp & El) & Hk & Hr). injection El as E1 E2 E3.
  rewrite (proj2 (Z.eqb_neq _ _)) by done. cbn [negb when]. rewrite (upd_tcb_then _ _ _ _ _ Htp).
  set (h1 := <[p := _]> (tcbs s)).
  apply NoDup_cons in Hndt as [Hthr Hndt]. pose proof Hndt as Hndt0.
  apply NoDup_cons in Hndt as [Hp Hndt]. apply NoDup_app in Hndt as (Hndk & Hkr & Hndr).
  apply not_elem_of_app in Hp as [Hpk Hpr].
  destruct (adopt_ok fuel c thr p k r (with_parent c tp) (set_tcbs h1 s)) as (h2 & Ha & Hf2 & Hid2 & Hfr2).
  { eapply frep_frame_eq; [done|]. intros x Hx. apply lookup_insert_ne. by intros ->. }
  { done. } { done. } { apply lookup_insert_eq. } { done. }
  { enough (length (preorder r) <= size (tcbs s))%nat by lia. apply NoDup_in_heap; [done|].
    intros x. by apply frep_lookup with thr. }
  rewrite (bind_Done _ _ _ _ _ Ha). cbn [set_tcbs tcbs] in *.
  assert (Hctk : c ∉ thr :: preorder tk) by (intros Hin; by apply (Hdis c)).
  apply not_elem_of_cons in Hctk as [Hcthr Hctk].
  destruct (frep_lookup _ _ _ _ Hf Hc) as [cb Hcb].
  assert (Hfr : forall x, x ∉ preorder tk -> h2 !! x = tcbs s !! x).
  { intros x Hx. apply not_elem_of_cons in Hx as [Hxp [_ Hxr]%not_elem_of_app].
    rewrite Hfr2 by done. apply lookup_insert_ne. done. }
  assert (Hf2' : frep h2 c tk).
  { split; [done|]. split; [|split; [|done]].
    - unfold has_links. rewrite Hfr2 by done. exists (with_parent c tp). split; [apply lookup_insert_eq|].
      unfold links. simpl. by rewrite E2, E3.
    - eapply frep_frame_eq; [done|]. intros x Hx. rewrite Hfr2 by (by apply Hkr).
      apply lookup_insert_ne. by intros ->. }
  assert (Hlast : flast tk ∈ preorder tk) by by apply flast_elem.
  assert (Hlthr : flast tk <> thr) by (intros E; by rewrite E in Hlast).
  assert (Hlc : flast tk <> c) by (intros E; by rewrite E in Hlast).
  destruct (frep_lookup _ _ _ _ Hf2' Hlast) as [lt Hlt].
  erewrite bind_get_tcb by (cbn [tcbs set_tcbs]; rewrite Hfr by done; exact Hcb).
  erewrite upd_tcb_then by exact Hlt. cbn [tcbs set_tcbs].
  erewrite bind_get_tcb.
  2: { cbn [tcbs set_tcbs]. rewrite lookup_insert_ne by exact Hlthr. rewrite Hfr by done. exact Ht. }
  rewrite Ech. erewrite upd_tcb_ok.
  2: { cbn [tcbs set_tcbs]. rewrite lookup_insert_ne by exact Hlc. rewrite Hfr by done. exact Hcb. }
  eexists. split; [done|]. cbn [tcbs set_tcbs]. split.
  - eapply (same_ids_insert _ _ c cb); [|done|eapply same_ids_insert; [exact Hlt|done|]].
    + rewrite lookup_insert_ne by exact Hlc. by rewrite Hfr.
    + etrans; [|exact Hid2]. by eapply same_ids_insert.
  - eapply (frep_adopted (tcbs s)); [done|done|done| |done|done|done|done|done|done].
    intros x Hx. apply Hdis. by right.
Qed.

(** ** The whole operations *)

Lemma thr_inv_caller s ents c : thr_inv s ents -> thr_inv (set_caller c s) ents.
Proof. intros [Hm Hwf Hn Hd Hl Hnd]. constructor; try done. by destruct Hm. Qed.

(** [globalid] may be given to a user thread. *)
Definition creatable (globalid : Z) : bool :=
  negb ((GLOBALID_TO_TID globalid <? THREAD_SYS) || (globalid =? L4_ANYTHREAD) || (globalid =? L4_ANYLOCALTHREAD)).

Definition add_child (c thr : Z) (f : forest) : forest :=
  fgraft c (fapp (fkids c f) (FCons thr FNil FNil)) f.

Lemma preorder_add_child c thr f :
  NoDup (preorder f) -> c ∈ preorder f -> preorder (add_child c thr f) ≡ₚ thr :: preorder f.
Proof.
  intros Hnd Hc. pose proof (preorder_fgraft c (fapp (fkids c f) (FCons thr FNil FNil)) f Hnd Hc) as Hp.
  rewrite preorder_fapp, <- app_assoc in Hp. by apply Permutation_app_inv_l in Hp.
Qed.

Lemma thread_create_ok s ents f globalid utcb :
  tree_inv s ents f -> caller s ∈ preorder f -> creatable globalid = true ->
  (length ents < Z.to_nat CONFIG_MAX_THREADS)%nat -> (utcb <> NULL -> is_Some (utcbs s !! utcb)) ->
  exists thr s' r t, thread_create globalid utcb s = Done (thr, s') /\ (thr ∉ ents.*1) /\
    tree_inv s' (insert_at r (thr, GLOBALID_TO_TID globalid) ents) (add_child (caller s) thr f) /\
    tcbs s' !! thr = Some t /\ t_localid t = child_localid (tcbs s) (fkids (caller s) f) /\
    t_globalid t = globalid /\ t_utcb t = utcb /\ t_state t = T_INACTIVE /\ caller s' = caller s /\
    init_keeps globalid utcb s s' /\
    exists old, tcbs s !! thr = Some old /\ links_only (<[thr := fresh_tcb globalid utcb old]> (tcbs s)) (tcbs s').
Proof.
  intros [Hinv Hf Hnd Hin] Hc Hid Hlen Hu.
  destruct (thread_init_correct s ents globalid utcb Hinv Hlen Hu)
    as (thr & s1 & r & old & Hi & Hnn & Hfresh & _ & Hinv1 & Ht & Ho & Ecal & Hold & Hkeep).
  assert (Hthr : thr ∉ preorder f) by (intros ?%Hin; done).
  assert (Hf1 : frep (tcbs s1) NULL f).
  { eapply frep_frame_eq; [done|]. intros p Hp. apply Ho. by intros ->. }
  destruct (thread_create_links s1 (caller s) thr old globalid utcb f Hf1 Hnd Hc Hthr Hnn Ht)
    as (h' & t & Hl & Hids & Hf' & Ht' & Hloc & Hrest).
  assert (El : child_localid (tcbs s1) (fkids (caller s) f) = child_localid (tcbs s) (fkids (caller s) f)).
  { unfold child_localid. destruct (fkids (caller s) f) as [|p k r'] eqn:E.
    - cbn [flast fhead]. rewrite Z.eqb_refl. by destruct (tcbs s1 !! NULL), (tcbs s !! NULL).
    - rewrite Ho; [done|]. intros E'. apply Hthr. rewrite <- E'. apply (fkids_sub (caller s)).
      rewrite E. by apply flast_elem. }
  exists thr, (set_tcbs h' s1), r, t. split.
  { unfold thread_create. rewrite (bind_Done (gets caller) _ _ _ _ eq_refl).
    assert (caller s <> NULL) by by apply (frep_nonnull (tcbs s) NULL f).
    rewrite (proj2 (Z.eqb_neq (caller s) NULL)) by done. unfold creatable in Hid.
    apply negb_true_iff in Hid. rewrite Hid.
    change (assert (negb false)) with (mret tt : M thrstate unit). rewrite (bind_Done (mret tt) _ _ _ _ eq_refl).
    rewrite (bind_Done _ _ _ _ _ Hi). exact Hl. }
  split; [done|]. split; [|split; [done|split; [by rewrite Hloc|]]; destruct Hrest as (? & ? & ? & Hlo)].
  2: { do 4 (split; [done|]). split; [exact Hkeep|]. exists old. split; [done|]. intros p. etransitivity; [exact (Hlo p)|].
       destruct (decide (p = thr)) as [->|Hp]; [by rewrite Ht, lookup_insert_eq|]. by rewrite lookup_insert_ne, Ho. }
  constructor.
  - by apply thr_inv_same_ids.
  - done.
  - rewrite preorder_add_child by done. by constructor.
  - intros p. rewrite preorder_add_child by done. rewrite insert_at_fmap, insert_at_perm.
    rewrite !elem_of_cons. intros [->|Hp]; [by left|right; by apply Hin].
Qed.

(** The tree after the destruction of [thr], a child of [q] with children [tk]:
    the children go to the front of those of [c]. *)
Definition del_child (c q : Z) (pre tk tr : forest) (f : forest) : forest :=
  let f1 := fgraft q (fapp pre tr) f in fgraft c (fapp tk (fkids c f1)) f1.

Lemma thread_destroy_ok s ents f i thr tid q pre tk tr :
  tree_inv s ents f -> ordered Z.lt ents.*2 -> ents !! i = Some (thr, tid) ->
  q ∈ preorder f -> fkids q f = fapp pre (FCons thr tk tr) ->
  caller s ∈ preorder f -> caller s ∉ thr :: preorder tk ->
  exists s', thread_destroy thr s = Done (tt, s') /\
    tree_inv s' (delete i ents) (del_child (caller s) q pre tk tr f) /\
    thr :: preorder (del_child (caller s) q pre tk tr f) ≡ₚ preorder f /\
    (thr ∉ kt_live (thread_table s')).
Proof.
  intros [Hinv Hf Hnd Hin] Hord Hi Hq Ek Hc Hct.
  destruct (unlink_child_ok (tree_fuel s) q pre thr tk tr f s) as (h1 & Hu & Hid1 & Hf1 & Htk & Hl); [done..|unfold tree_fuel; lia|].
  pose proof (preorder_unlinked q pre thr tk tr f Hnd Hq Ek) as Hperm. set (f1 := fgraft q (fapp pre tr) f) in *.
  pose proof Hnd as Hnd1. rewrite <- Hperm in Hnd1. rewrite app_comm_cons in Hnd1, Hperm.
  apply NoDup_app in Hnd1 as (Hndt & Hdis & Hnd1).
  assert (Hc1 : caller s ∈ preorder f1).
  { rewrite <- Hperm in Hc. apply elem_of_app in Hc as [|]; done. }
  assert (Hsz : size h1 = size (tcbs s)).
  { rewrite <- !size_dom. f_equal. apply set_eq. intros p. rewrite !elem_of_dom. specialize (Hid1 p).
    destruct (h1 !! p), (tcbs s !! p); done. }
  destruct (move_children_ok (tree_fuel s) (caller s) thr tk f1 (set_tcbs h1 s) q (fhead tr))
    as (h2 & Hm & Hid2 & Hf2); [done..|unfold tree_fuel; cbn [tcbs set_tcbs]; lia|].
  assert (Hinv2 : thr_inv (set_tcbs h2 s) ents) by (apply thr_inv_same_ids; [done|by trans h1]).
  destruct (thread_deinit_correct (set_tcbs h2 s) ents i thr tid Hinv2 Hord Hi) as (s' & Hd & Hinv' & Hb & _).
  pose proof (preorder_fgraft (caller s) (fapp tk (fkids (caller s) f1)) f1 Hnd1 Hc1) as Hp2.
  rewrite preorder_fapp in Hp2. rewrite (Permutation_app_comm (preorder tk)), <- app_assoc in Hp2.
  apply Permutation_app_inv_l in Hp2.
  assert (Hall : thr :: preorder (del_child (caller s) q pre tk tr f) ≡ₚ preorder f).
  { unfold del_child. fold f1. cbv zeta. by rewrite Hp2. }
  assert (Hth : ents.*1 !! i = Some thr) by by rewrite list_lookup_fmap, Hi.
  pose proof (delete_Permutation _ _ _ Hth) as Hdel.
  exists s'. split.
  { unfold thread_destroy. rewrite (bind_Done (gets tree_fuel) _ _ _ _ eq_refl), (bind_Done (gets caller) _ _ _ _ eq_refl).
    rewrite (bind_Done _ _ _ _ _ Hu), (bind_Done _ _ _ _ _ Hm). by destruct s. }
  split; [|split; [done|]].
  - pose proof Hnd as Hnd'. rewrite <- Hall in Hnd'. apply NoDup_cons in Hnd' as [Hnt Hnd'].
    constructor; [done| |done|].
    + rewrite Hb. exact Hf2.
    + intros p Hp. rewrite list_fmap_delete. assert (Hpf : p ∈ preorder f) by (rewrite <- Hall; by right).
      apply Hin in Hpf. rewrite Hdel in Hpf. apply elem_of_cons in Hpf as [->|]; done.
  - rewrite (ti_live _ _ Hinv'), list_fmap_delete. pose proof (ti_nodup _ _ Hinv) as Hnde.
    rewrite Hdel in Hnde. by apply NoDup_cons in Hnde as [? _].
Qed.

(** ** Properties *)

(** The dispatcher after reset and the creation of a first thread, which then is
    the caller. *)
Lemma tree_inv_first :
  exists s p, tree_inv s [(p, 2)] (FCons p FNil FNil) /\ caller s = p /\ utcbs s = ∅ /\
    tcbs s !! p = Some (fresh_tcb 32768 0 zero_tcb).
Proof.
  assert (Hinv : thr_inv (reset_thr 4096) []) by (apply thr_inv_reset; reflexivity).
  destruct (thread_init_correct (reset_thr 4096) [] 32768 0 Hinv)
    as (thr & s & r & old & Hr & Hn & _ & _ & Hi & Ht & _); [apply Nat.ltb_lt; reflexivity|done|].
  assert (E : insert_at r (thr, GLOBALID_TO_TID 32768) [] = [(thr, 2)]) by (by destruct r).
  rewrite E in Hi. exists (set_caller thr s), thr.
  assert (Ev : thread_init 32768 0 (reset_thr 4096) = thread_init 32768 0 (reset_thr 4096)) by done.
  rewrite Hr in Ev at 1. vm_compute in Ev. injection Ev as E1 E2.
  split; [|split; [done|split]].
  - constructor; [by apply thr_inv_caller| | |].
    + split; [done|]. split; [|done]. eexists. split; [exact Ht|done].
    + apply NoDup_singleton.
    + intros p Hp. exact Hp.
  - by rewrite E2.
  - rewrite E1, E2. vm_compute. reflexivity.
Qed.

Lemma set_caller_error_ok error s t u :
  caller s <> NULL -> tcbs s !! caller s = Some t -> t_utcb t <> NULL -> utcbs s !! t_utcb t = Some u ->
  set_caller_error error s = Done (tt, set_utcbs (<[t_utcb t := with_u_error error u]> (utcbs s)) s).
Proof.
  intros Hc Ht Hn Hu. unfold set_caller_error, set_user_error.
  rewrite (bind_Done (gets caller) _ _ _ _ eq_refl), (proj2 (Z.eqb_neq (caller s) NULL)) by done. cbn [negb].
  rewrite (bind_get_tcb _ _ _ _ Ht), (proj2 (Z.eqb_neq (t_utcb t) NULL)) by done. cbn [negb assert].
  rewrite (bind_Done (mret tt) _ _ _ _ eq_refl). unfold upd_utcb. by rewrite Hu.
Qed.

(** C4. [thread_select] terminates and returns the first runnable thread below
    [parent] in preorder of the tree, [NULL] exactly if no thread below it is
    runnable; the state does not change. *)
Theorem thread_select_first_runnable (s : thrstate) (parent : Z) (pt : tcb) (f : forest)
    (Hp : tcbs s !! parent = Some pt) (Hc : t_child pt = fhead f) (Hf : frep (tcbs s) parent f)
    (Hnd : NoDup (parent :: preorder f)) :
  thread_select parent s = Done (first_runnable (tcbs s) (preorder f), s) /\
  (first_runnable (tcbs s) (preorder f) = NULL <->
   forall p, p ∈ preorder f -> runnable (tcbs s) p = false).
Proof.
  apply NoDup_cons in Hnd as [Hpar Hnd]. split; [by eapply thread_select_ok|].
  destruct (first_runnable_spec (tcbs s) (preorder f)) as [[Hin Hr]|[Hn Ha]].
  - split; [intros E; rewrite E in Hin; by apply (frep_nonnull _ _ _ _ Hf) in Hin|].
    intros Hall. by rewrite Hall in Hr.
  - split; [|done]. intros _ p. by apply (proj1 (Forall_forall _ _) Ha).
Qed.

(** Thread 100 has the children 200 and 300, and 200 the child 400; only 300 and
    400 are runnable. *)
Definition select_example : thrstate :=
  let node p c b st := with_parent p (with_child c (with_sibling b (with_state st zero_tcb))) in
  set_tcbs (<[100 := node 0 200 0 T_INACTIVE]> (<[200 := node 100 400 300 T_RECV_BLOCKED]>
    (<[300 := node 100 0 0 T_RUNNABLE]> (<[400 := node 200 0 0 T_RUNNABLE]> ∅)))) (reset_thr 4096).

Lemma thread_select_first_runnable_witness :
  thread_select 100 select_example = Done (400, select_example).
Proof.
  destruct (thread_select_first_runnable select_example 100
    (with_child 200 zero_tcb) (FCons 200 (FCons 400 FNil FNil) (FCons 300 FNil FNil))) as [-> _].
  - reflexivity.
  - reflexivity.
  - split; [done|]. split; [by eexists|]. split; [split; [done|]; split; [by eexists|done]|].
    split; [done|]. by split; [eexists|].
  - apply (bool_decide_unpack _). vm_compute. exact I.
  - reflexivity.
Defined.

(** C11. [thread_create], for an identifier that may be given to a user thread and
    while a block is free: a fresh block is initialised with the identifier, inserted
    in the map and linked as the last child of the caller, the rest of the tree is as
    before, and the invariant of the dispatcher holds again. *)
Theorem thread_create_adds_child (s : thrstate) (ents : list (Z * Z)) (f : forest) (globalid utcb : Z)
    (Hinv : tree_inv s ents f) (Hc : caller s ∈ preorder f) (Hid : creatable globalid = true)
    (Hroom : (length ents < Z.to_nat CONFIG_MAX_THREADS)%nat)
    (Hutcb : utcb <> NULL -> is_Some (utcbs s !! utcb)) :
  exists thr s' r t, thread_create globalid utcb s = Done (thr, s') /\ (thr ∉ ents.*1) /\
    tree_inv s' (insert_at r (thr, GLOBALID_TO_TID globalid) ents) (add_child (caller s) thr f) /\
    preorder (add_child (caller s) thr f) ≡ₚ thr :: preorder f /\
    tcbs s' !! thr = Some t /\ t_globalid t = globalid /\ t_utcb t = utcb /\ t_state t = T_INACTIVE /\
    t_localid t = child_localid (tcbs s) (fkids (caller s) f).
Proof.
  destruct (thread_create_ok s ents f globalid utcb Hinv Hc Hid Hroom Hutcb)
    as (thr & s' & r & t & Hr & Hn & Hi & Ht & Hl & Hg & Hu & Hs & _).
  exists thr, s', r, t. repeat (split; [done|]). split; [apply preorder_add_child; [apply Hinv|done]|done].
Qed.

Lemma thread_create_adds_child_witness :
  exists s p thr s' r, thread_create 4194304 0 s = Done (thr, s') /\
    tree_inv s' (insert_at r (thr, 256) [(p, 2)]) (FCons p (FCons thr FNil FNil) FNil).
Proof.
  destruct tree_inv_first as (s & p & Hi & Hc & Hu & Ht).
  destruct (thread_create_adds_child s [(p, 2)] (FCons p FNil FNil) 4194304 0 Hi)
    as (thr & s' & r & t & Hr & _ & Hi' & _).
  - rewrite Hc. left.
  - reflexivity.
  - apply Nat.ltb_lt. reflexivity.
  - done.
  - exists s, p, thr, s', r. split; [done|].
    unfold add_child in Hi'. rewrite Hc in Hi'. cbn [fkids fgraft] in Hi'. by rewrite Z.eqb_refl in Hi'.
Defined.

(** [thread_create] refuses the identifiers of the kernel and the wild cards:
    the caller gets the error code and [NULL], and nothing else changes. *)
Theorem thread_create_reserved (s : thrstate) (globalid utcb : Z) (t : tcb) (u : Thread.utcb)
    (Hid : creatable globalid = false) (Hc : caller s <> NULL) (Ht : tcbs s !! caller s = Some t)
    (Hutcb : t_utcb t <> NULL) (Hu : utcbs s !! t_utcb t = Some u) :
  thread_create globalid utcb s =
  Done (NULL, set_utcbs (<[t_utcb t := with_u_error UE_TC_NOT_AVAILABLE u]> (utcbs s)) s).
Proof.
  unfold thread_create. rewrite (bind_Done (gets caller) _ _ _ _ eq_refl).
  apply negb_false_iff in Hid. rewrite Hid. rewrite (proj2 (Z.eqb_neq (caller s) NULL)) by done.
  change (assert (negb false)) with (mret tt : M thrstate unit). rewrite (bind_Done (mret tt) _ _ _ _ eq_refl).
  by rewrite (bind_Done _ _ _ _ _ (set_caller_error_ok _ _ _ _ Hc Ht Hutcb Hu)).
Qed.

(** A caller 100 with its user thread control block at 500. *)
Definition caller_example : thrstate :=
  set_caller 100 (set_utcbs {[500 := mk_utcb 0 0 0 0 0 0 0 0 0 0 0 0 [] []]}
    (set_tcbs {[100 := with_utcb 500 zero_tcb]} (reset_thr 4096))).

Lemma thread_create_reserved_witness :
  exists s', thread_create 16384 0 caller_example = Done (NULL, s') /\
    u_error_code <$> utcbs s' !! 500 = Some UE_TC_NOT_AVAILABLE.
Proof.
  rewrite (thread_create_reserved caller_example 16384 0 (with_utcb 500 zero_tcb)
    (mk_utcb 0 0 0 0 0 0 0 0 0 0 0 0 [] [])); [|reflexivity|done|reflexivity|done|reflexivity].
  eexists. split; [done|]. reflexivity.
Defined.

(** With every block in use, [thread_create] does not return [NULL] as its
    error path means to: it reports the error and then writes through the null
    pointer [thread_init] returned. *)
Theorem thread_create_table_full_faults (s : thrstate) (globalid utcb : Z) (t : tcb) (u : Thread.utcb)
    (Hfull : ktable_alloc (thread_table s) = Done (NULL, thread_table s)) (Hnull : tcbs s !! NULL = None)
    (Hid : creatable globalid = true) (Hc : caller s <> NULL) (Ht : tcbs s !! caller s = Some t)
    (Hutcb : t_utcb t <> NULL) (Hu : utcbs s !! t_utcb t = Some u) :
  thread_create globalid utcb s = Fault.
Proof.
  unfold thread_create. rewrite (bind_Done (gets caller) _ _ _ _ eq_refl).
  apply negb_true_iff in Hid. rewrite Hid. rewrite (proj2 (Z.eqb_neq (caller s) NULL)) by done.
  change (assert (negb false)) with (mret tt : M thrstate unit). rewrite (bind_Done (mret tt) _ _ _ _ eq_refl).
  rewrite (bind_Done (thread_init globalid utcb) _ s NULL
    (set_utcbs (<[t_utcb t := with_u_error UE_OUT_OF_MEM u]> (utcbs s)) s)).
  - unfold upd_tcb, mbind, M_bind. cbn [tcbs set_utcbs]. by rewrite Hnull.
  - unfold thread_init, in_thread_table, zoom, mbind, M_bind. rewrite Hfull, Z.eqb_refl.
    replace (set_thread_table (thread_table s) s) with s by (by destruct s).
    by rewrite (set_caller_error_ok _ _ _ _ Hc Ht Hutcb Hu).
Qed.

Lemma thread_create_table_full_faults_witness :
  thread_create 4194304 0
    (set_thread_table (mk_ktable (4294967295 :: replicate 31 0) 4096 32 88) caller_example) = Fault.
Proof.
  apply (thread_create_table_full_faults _ _ _ (with_utcb 500 zero_tcb) (mk_utcb 0 0 0 0 0 0 0 0 0 0 0 0 [] []));
    reflexivity || discriminate.
Defined.

(** C10. [thread_destroy] of a thread [thr] that is a child of [q], by a caller outside
    the tree of [thr]: the thread is removed from the map, from the tree and from the
    table of threads, its children become the first children of the caller, every
    other thread keeps its place, and the invariant of the dispatcher holds again. *)
Theorem thread_destroy_removes (s : thrstate) (ents : list (Z * Z)) (f : forest) (i : nat)
    (thr tid q : Z) (pre tk tr : forest)
    (Hinv : tree_inv s ents f) (Hord : ordered Z.lt ents.*2) (Hi : ents !! i = Some (thr, tid))
    (Hq : q ∈ preorder f) (Hk : fkids q f = fapp pre (FCons thr tk tr))
    (Hc : caller s ∈ preorder f) (Hout : caller s ∉ thr :: preorder tk) :
  exists s', thread_destroy thr s = Done (tt, s') /\
    tree_inv s' (delete i ents) (del_child (caller s) q pre tk tr f) /\
    thr :: preorder (del_child (caller s) q pre tk tr f) ≡ₚ preorder f /\
    (thr ∉ kt_live (thread_table s')).
Proof. by apply thread_destroy_ok with tid. Qed.

Lemma thread_destroy_removes_witness :
  exists s s' p thr r, tree_inv s (insert_at r (thr, 256) [(p, 2)]) (FCons p (FCons thr FNil FNil) FNil) /\
    thread_destroy thr s = Done (tt, s') /\ (thr ∉ kt_live (thread_table s')).
Proof.
  destruct tree_inv_first as (s & p & Hi & Hc & Hu & Ht).
  destruct (thread_create_ok s [(p, 2)] (FCons p FNil FNil) 4194304 0 Hi)
    as (thr & s1 & r & t & Hr & Hfresh & Hi' & Ht' & _ & _ & _ & _ & Hc' & _).
  { rewrite Hc. left. } { reflexivity. } { apply Nat.ltb_lt. reflexivity. } { done. }
  unfold add_child in Hi'. rewrite Hc in *. cbn [fkids fgraft] in Hi'. rewrite Z.eqb_refl in Hi'.
  pose proof (mr_order _ _ (ti_map _ _ (tri_inv _ _ _ Hi'))) as Hord.
  assert (Hne : thr <> p) by (intros ->; apply Hfresh; left).
  assert (El : insert_at r (thr, 256) [(p, 2)] = [(p, 2); (thr, 256)]).
  { destruct r as [|r]; [|by destruct r].
    specialize (Hord 0%nat 1%nat 256 2 (Nat.lt_0_1) eq_refl eq_refl). lia. }
  destruct (thread_destroy_removes s1 [(p, 2); (thr, 256)] (FCons p (FCons thr FNil FNil) FNil) 1 thr 256 p
    FNil FNil FNil) as (s' & Hd & _ & _ & Hfree).
  - by rewrite <- El.
  - intros [|[|a]] [|[|b]] x y Hab; simpl; intros; simplify_eq; lia || done.
  - done.
  - left.
  - cbn [fkids]. by rewrite Z.eqb_refl.
  - rewrite Hc'. left.
  - rewrite Hc'. intros [E|?%not_elem_of_nil]%elem_of_cons; congruence.
  - by exists s1, s', p, thr, r.
Defined.
