(* ===== verification/Sched.v ===== *)
(** * The scheduler

    Models [kernel/sched.c] and [include/sched.h].  The scheduler keeps six slots
    in the order of their priority.  A slot holds a thread and a handler that
    proposes another thread when the thread of the slot cannot run.

    A handler is a pointer to code: the model keeps its address, and
    [call_handler] runs the code at an address on the state of the kernel.  The
    scheduler is written against the interface [Part]: any state that contains the
    slots and the dispatcher will do.  [schedule] also switches the thread and is in
    [Kernel.v]. *)

From S2P Require Import Prelude Ktable Thread ThreadMap ThreadTree.

Definition SSI_SOFTIRQ : Z := 0.
Definition SSI_INTR_THREAD : Z := 1.
Definition SSI_ROOT_THREAD : Z := 2.
Definition SSI_IPC_THREAD : Z := 3.
Definition SSI_NORMAL_THREAD : Z := 4.
Definition SSI_IDLE : Z := 5.
Definition NUM_SCHED_SLOTS : Z := 6.

Record sched_slot := mk_slot {
  ss_scheduled : Z;
  ss_handler : Z;
}.

Abbreviation schedstate := (list sched_slot).

(** [slots[slot_id]] *)
Definition get_slot (slot_id : Z) : M schedstate sched_slot := fun slots =>
  match zlookup slots slot_id with Some sl => Done (sl, slots) | None => Fault end.
Definition set_slot (slot_id : Z) (sl : sched_slot) : M schedstate unit := fun slots =>
  match zinsert slot_id sl slots with Some slots' => Done (tt, slots') | None => Fault end.

Definition sched_slot_dispatch (slot_id thread : Z) : M schedstate unit :=
  sl ← get_slot slot_id; set_slot slot_id (mk_slot thread (ss_handler sl)).

Definition sched_slot_set_handler (slot_id handler : Z) : M schedstate unit :=
  sl ← get_slot slot_id; set_slot slot_id (mk_slot (ss_scheduled sl) handler).

(** The [for] loop of [sched_init], for the last [n] slots. *)
Fixpoint sched_init_loop (n : nat) (slot_id : Z) : M schedstate unit :=
  match n with
  | O => mret tt
  | S n' =>
      sched_slot_dispatch slot_id NULL;;
      sched_slot_set_handler slot_id NULL;;
      sched_init_loop n' (slot_id + 1)
  end.

Definition sched_init : M schedstate unit := sched_init_loop (Z.to_nat NUM_SCHED_SLOTS) 0.

Section select.
Context {S : Type} `{!Part schedstate S} `{!Part thrstate S}.
(** [call_handler code slot_id] is the call of the handler at address [code] with
    the slot [slot_id]. *)
Variable call_handler : Z -> Z -> M S Z.

(** The [for] loop of [schedule_select], for the last [n] slots. *)
Fixpoint schedule_loop (n : nat) (slot_id : Z) : M S Z :=
  match n with
  | O => panic
  | Datatypes.S n' =>
      sl ← on (get_slot slot_id);
      run ← (if negb (ss_scheduled sl =? NULL) then on (thread_isrunnable (ss_scheduled sl)) else mret false);
      if run : bool then mret (ss_scheduled sl)
      else if negb (ss_handler sl =? NULL) then
        scheduled ← call_handler (ss_handler sl) slot_id;
        if negb (scheduled =? NULL) then
          on (sched_slot_dispatch slot_id scheduled);; mret scheduled
        else schedule_loop n' (slot_id + 1)
      else schedule_loop n' (slot_id + 1)
  end.

Definition schedule_select : M S Z := schedule_loop (Z.to_nat NUM_SCHED_SLOTS) 0.
End select.

(** ** Theorems *)

Section select_theorems.
Context {S : Type} `{!Part schedstate S} `{!Part thrstate S} `{!PartLaws schedstate S} `{!PartLaws thrstate S}.
Variable call_handler : Z -> Z -> M S Z.
Variable s : S.
(** What the handlers propose in the state [s]. *)
Variable answer : Z -> Z.

(** The thread a slot proposes: its own if that can run, else the handler's. *)
Definition offer (sl : sched_slot) : Z :=
  if negb (ss_scheduled sl =? NULL) && runnable (tcbs (get_part s)) (ss_scheduled sl)
  then ss_scheduled sl
  else if negb (ss_handler sl =? NULL) then answer (ss_handler sl) else NULL.

(** The first slot from number [i] on that proposes a thread. *)
Fixpoint first_offer (i : nat) (slots : list sched_slot) : option (nat * Z) :=
  match slots with
  | [] => None
  | sl :: slots' => if offer sl =? NULL then first_offer (Datatypes.S i) slots' else Some (i, offer sl)
  end.

Lemma first_offer_spec i slots :
  match first_offer i slots with
  | Some (k, t) => exists j sl, k = (i + j)%nat /\ slots !! j = Some sl /\ t = offer sl /\ t <> NULL /\
      forall j' sl', (j' < j)%nat -> slots !! j' = Some sl' -> offer sl' = NULL
  | None => forall j sl, slots !! j = Some sl -> offer sl = NULL
  end.
Proof.
  revert i. induction slots as [|sl slots IH]; intros i; simpl; [done|].
  destruct (Z.eqb_spec (offer sl) NULL) as [E|E].
  - specialize (IH (Datatypes.S i)). destruct (first_offer (Datatypes.S i) slots) as [[k t]|].
    + destruct IH as (j & sl' & -> & Hj & Ht & Hn & Hb). exists (Datatypes.S j), sl'.
      split; [lia|]. split; [done|]. split; [done|]. split; [done|]. intros [|j'] sl'' Hlt Hl; simpl in Hl.
      * by simplify_eq.
      * eapply Hb; [|done]. lia.
    + intros [|j] sl' Hl; simpl in Hl; [by simplify_eq|by eapply IH].
  - exists 0%nat, sl. split; [lia|]. repeat (split; [done|]). lia.
Qed.

Definition dispatch_at (i : nat) (t : Z) (slots : list sched_slot) : list sched_slot :=
  alter (fun sl => mk_slot t (ss_handler sl)) i slots.

Hypothesis Hvalid : Forall (fun sl => ss_scheduled sl = NULL \/ is_Some (tcbs (get_part s) !! ss_scheduled sl))
  (get_part s : schedstate).
(** The handlers of the slots read the state and propose a thread. *)
Hypothesis Hpure : forall i sl, (get_part s : schedstate) !! i = Some sl -> ss_handler sl <> NULL ->
  call_handler (ss_handler sl) (Z.of_nat i) s = Done (answer (ss_handler sl), s).

Lemma get_slot_ok i sl slots : slots !! i = Some sl -> get_slot (Z.of_nat i) slots = Done (sl, slots).
Proof. unfold get_slot. rewrite zlookup_nat. by intros ->. Qed.

Lemma sched_slot_dispatch_ok i sl t slots :
  slots !! i = Some sl -> sched_slot_dispatch (Z.of_nat i) t slots = Done (tt, dispatch_at i t slots).
Proof.
  intros Hi. pose proof (lookup_lt_Some _ _ _ Hi). unfold sched_slot_dispatch.
  rewrite (bind_Done _ _ _ _ _ (get_slot_ok _ _ _ Hi)). unfold set_slot. rewrite zinsert_Some by lia.
  rewrite Nat2Z.id. unfold dispatch_at. f_equal. f_equal. apply list_eq. intros k.
  rewrite list_lookup_alter, list_lookup_insert. destruct (decide (i = k)) as [<-|].
  - rewrite decide_True by (split; [done|lia]). by rewrite Hi.
  - by rewrite decide_False by (by intros [? _]).
Qed.

Lemma on_get {P A} `{!Part P S} `{!PartLaws P S} (m : M P A) a :
  m (get_part s) = Done (a, get_part s) -> on m s = Done (a, s).
Proof. intros E. unfold on, zoom. by rewrite E, put_get. Qed.

Lemma schedule_loop_ok n i :
  (i + n = length (get_part s : schedstate))%nat ->
  schedule_loop call_handler n (Z.of_nat i) s =
  match first_offer i (drop i (get_part s)) with
  | Some (k, t) => Done (t, put_part (dispatch_at k t (get_part s)) s)
  | None => Panic
  end.
Proof.
  revert i. induction n as [|n IH]; intros i Hlen; [by rewrite drop_ge by lia|].
  destruct (lookup_lt_is_Some_2 (get_part s : schedstate) i) as [sl Hi]; [lia|].
  rewrite (drop_S _ _ _ Hi). cbn [schedule_loop first_offer].
  rewrite (bind_Done _ _ _ _ _ (on_get _ _ (get_slot_ok _ _ _ Hi))). unfold offer.
  assert (Hrun : (if negb (ss_scheduled sl =? NULL) then on (thread_isrunnable (ss_scheduled sl)) else mret false : M S bool) s =
    Done (negb (ss_scheduled sl =? NULL) && runnable (tcbs (get_part s)) (ss_scheduled sl), s)).
  { destruct (Z.eqb_spec (ss_scheduled sl) NULL) as [|Hn]; simpl; [done|].
    destruct (proj1 (Forall_lookup _ _) Hvalid i sl Hi) as [|[t Ht]]; [done|].
    apply on_get. unfold thread_isrunnable, runnable. rewrite Ht.
    by rewrite (bind_Done _ _ _ _ _ (get_tcb_ok _ _ _ Ht)). }
  rewrite (bind_Done _ _ _ _ _ Hrun). destruct (negb _ && _) eqn:Eb.
  - apply andb_true_iff in Eb as [En _]. rewrite negb_true_iff in En. rewrite En. unfold dispatch_at.
    replace (alter _ i _) with (get_part s : schedstate); [by rewrite put_get|].
    apply list_eq. intros k. rewrite list_lookup_alter. case_decide as E; [subst k; rewrite Hi|done]. by destruct sl.
  - assert (Enext : schedule_loop call_handler n (Z.of_nat i + 1) s =
      match first_offer (Datatypes.S i) (drop (Datatypes.S i) (get_part s)) with
      | Some (k, t) => Done (t, put_part (dispatch_at k t (get_part s)) s) | None => Panic end).
    { rewrite <- IH by lia. f_equal. lia. }
    destruct (Z.eqb_spec (ss_handler sl) NULL) as [|Hh]; [by rewrite Z.eqb_refl|]. cbn [negb].
    rewrite (bind_Done _ _ _ _ _ (Hpure i sl Hi Hh)).
    destruct (Z.eqb_spec (answer (ss_handler sl)) NULL) as [|Ha]; cbn [negb]; [done|].
    unfold on, zoom, mbind, M_bind. by rewrite (sched_slot_dispatch_ok _ _ _ _ Hi).
Qed.
End select_theorems.

(** ** Properties *)

(** C17. [schedule_select] serves the slots in the order of their priority: it
    returns the thread of the first slot that proposes one and records it in that
    slot, and every slot before proposes none.  It panics only if no slot, not even
    that of the idle thread, proposes one. *)
Theorem schedule_select_priority {S} `{!Part schedstate S} `{!Part thrstate S}
    `{!PartLaws schedstate S} `{!PartLaws thrstate S} (call_handler : Z -> Z -> M S Z) (s : S)
    (answer : Z -> Z) (Hlen : length (get_part s : schedstate) = Z.to_nat NUM_SCHED_SLOTS)
    (Hvalid : Forall (fun sl => ss_scheduled sl = NULL \/ is_Some (tcbs (get_part s) !! ss_scheduled sl))
                (get_part s : schedstate))
    (Hpure : forall i sl, (get_part s : schedstate) !! i = Some sl -> ss_handler sl <> NULL ->
               call_handler (ss_handler sl) (Z.of_nat i) s = Done (answer (ss_handler sl), s)) :
  (exists k sl, (get_part s : schedstate) !! k = Some sl /\ offer s answer sl <> NULL /\
     (forall i sl', (i < k)%nat -> (get_part s : schedstate) !! i = Some sl' -> offer s answer sl' = NULL) /\
     schedule_select call_handler s =
       Done (offer s answer sl, put_part (dispatch_at k (offer s answer sl) (get_part s)) s)) \/
  ((forall i sl, (get_part s : schedstate) !! i = Some sl -> offer s answer sl = NULL) /\
   schedule_select call_handler s = Panic).
Proof.
  unfold schedule_select. change 0 with (Z.of_nat 0).
  rewrite (schedule_loop_ok call_handler s answer Hvalid Hpure) by done. rewrite drop_0.
  pose proof (first_offer_spec s answer 0 (get_part s)) as Hspec.
  destruct (first_offer s answer 0 (get_part s)) as [[k t]|]; [left|by right].
  destruct Hspec as (j & sl & -> & Hj & -> & Hn & Hb). by exists j, sl.
Qed.

(** The slots and the dispatcher alone are a state the scheduler can work on. *)
#[local] Instance slots_part : Part schedstate (schedstate * thrstate) :=
  {| get_part := fst; put_part := fun x s => (x, s.2) |}.
#[local] Instance thr_part : Part thrstate (schedstate * thrstate) :=
  {| get_part := snd; put_part := fun x s => (s.1, x) |}.
#[local] Instance slots_laws : PartLaws schedstate (schedstate * thrstate).
Proof. split; [done|by intros []|done]. Qed.
#[local] Instance thr_laws : PartLaws thrstate (schedstate * thrstate).
Proof. split; [done|by intros []|done]. Qed.

(** Slot 4 has a thread that cannot run and a handler that proposes thread 300. *)
Definition sched_example : schedstate * thrstate :=
  ([mk_slot 0 0; mk_slot 0 0; mk_slot 0 0; mk_slot 0 0; mk_slot 200 7; mk_slot 400 0], select_example).

Lemma schedule_select_priority_witness :
  schedule_select (fun _ _ => mret 300) sched_example =
  Done (300, ([mk_slot 0 0; mk_slot 0 0; mk_slot 0 0; mk_slot 0 0; mk_slot 300 7; mk_slot 400 0], select_example)).
Proof.
  destruct (schedule_select_priority (fun _ _ => mret 300) sched_example (fun _ => 300))
    as [(k & sl & Hk & Ho & Hb & ->)|[Hall _]].
  - reflexivity.
  - apply (bool_decide_unpack _). vm_compute. exact I.
  - done.
  - destruct k as [|[|[|[|[|[|k]]]]]]; simpl in Hk; simplify_eq; try (by vm_compute in Ho).
    specialize (Hb 4%nat (mk_slot 200 7) (le_n _) eq_refl). by vm_compute in Hb.
  - specialize (Hall 4%nat (mk_slot 200 7) eq_refl). by vm_compute in Hall.
Defined.
