(* ===== verification/Softirq.v ===== *)
(** * Soft interrupts

    Models [kernel/softirq.c] and [include/softirq.h]: the table of soft
    interrupts, and the loop in which the kernel thread executes them.

    [call] runs the code at the address of a handler.  The whole state may be
    changed by a handler and by the interrupts that are served while it runs; the
    component needs the table of soft interrupts and the dispatcher as parts of the
    state. *)

From S2P Require Import Prelude Ktable Thread ThreadMap.

Definition KTE_SOFTIRQ : Z := 0.
Definition ASYNC_SOFTIRQ : Z := 1.
Definition SYSCALL_SOFTIRQ : Z := 2.
Definition KDB_SOFTIRQ : Z := 3.
Definition NR_SOFTIRQ : Z := 4.

Record softirq_t := mk_softirq {
  si_schedule : Z;
  si_handler : Z;
}.

Abbreviation softirqs := (list softirq_t).

Definition get_softirq (i : Z) : M softirqs softirq_t := fun l =>
  match zlookup l i with Some x => Done (x, l) | None => Fault end.
Definition put_softirq (i : Z) (x : softirq_t) : M softirqs unit := fun l =>
  match zinsert i x l with Some l' => Done (tt, l') | None => Fault end.

(** [atomic_set(&(softirq[i].schedule), v)] and [atomic_get(&(softirq[i].schedule))] *)
Definition set_scheduled (i v : Z) : M softirqs unit :=
  x ← get_softirq i; put_softirq i (mk_softirq v (si_handler x)).
Definition get_scheduled (i : Z) : M softirqs Z :=
  x ← get_softirq i; mret (si_schedule x).

Definition softirq_register (type handler : Z) : M softirqs unit :=
  put_softirq type (mk_softirq 0 handler).

(** The disjunction of the [schedule] words of the last [n] soft interrupts. *)
Fixpoint softirq_pending (n : nat) (i acc : Z) : M softirqs Z :=
  match n with
  | O => mret acc
  | S n' => v ← get_scheduled i; softirq_pending n' (i + 1) (Z.lor acc v)
  end.

Section execute.
Context {S : Type} `{!Part softirqs S} `{!Part thrstate S}.
Variable call : Z -> M S unit.

Definition softirq_schedule (type : Z) : M S unit :=
  on (set_scheduled type 1);; on (set_kernel_state T_RUNNABLE).

(** The first [for] loop of [softirq_execute], for the last [n] soft interrupts. *)
Fixpoint softirq_pass (n : nat) (i executed : Z) : M S Z :=
  match n with
  | O => mret executed
  | Datatypes.S n' =>
      x ← on (get_softirq i);
      if negb (si_schedule x =? 0) && negb (si_handler x =? NULL) then
        call (si_handler x);;
        on (set_scheduled i 0);;
        softirq_pass n' (i + 1) 1
      else softirq_pass n' (i + 1) executed
  end.

(** The body between [retry] and [goto retry]. *)
Fixpoint softirq_retry (fuel : nat) (executed : Z) : M S Z :=
  match fuel with
  | O => fuel_out
  | Datatypes.S fuel' =>
      executed' ← softirq_pass (Z.to_nat NR_SOFTIRQ) 0 executed;
      pending ← on (softirq_pending (Z.to_nat NR_SOFTIRQ) 0 0);
      on (set_kernel_state (if truth pending then T_RUNNABLE else T_INACTIVE));;
      if truth pending then softirq_retry fuel' executed' else mret executed'
  end.

Definition softirq_execute (fuel : nat) : M S Z := softirq_retry fuel 0.
End execute.

(** ** Theorems *)

Lemma get_softirq_ok i x l : l !! i = Some x -> get_softirq (Z.of_nat i) l = Done (x, l).
Proof. unfold get_softirq. rewrite zlookup_nat. by intros ->. Qed.

Lemma set_scheduled_ok i x v l :
  l !! i = Some x -> set_scheduled (Z.of_nat i) v l = Done (tt, <[i := mk_softirq v (si_handler x)]> l).
Proof.
  intros Hi. pose proof (lookup_lt_Some _ _ _ Hi). unfold set_scheduled.
  rewrite (bind_Done _ _ _ _ _ (get_softirq_ok _ _ _ Hi)). unfold put_softirq.
  rewrite zinsert_Some by lia. by rewrite Nat2Z.id.
Qed.

Lemma softirq_pending_ok n i acc l :
  (i + n = length l)%nat ->
  softirq_pending n (Z.of_nat i) acc l = Done (foldl (fun a x => Z.lor a (si_schedule x)) acc (drop i l), l).
Proof.
  revert i acc. induction n as [|n IH]; intros i acc Hlen; [by rewrite drop_ge by lia|].
  destruct (lookup_lt_is_Some_2 l i) as [x Hx]; [lia|]. rewrite (drop_S _ _ _ Hx). simpl.
  unfold get_scheduled.
  rewrite (bind_Done _ _ _ (si_schedule x) l) by (by rewrite (bind_Done _ _ _ _ _ (get_softirq_ok _ _ _ Hx))).
  replace (Z.of_nat i + 1) with (Z.of_nat (S i)) by lia. apply IH. lia.
Qed.

Lemma pending_zero l : Forall (fun x => si_schedule x = 0) l ->
  foldl (fun a x => Z.lor a (si_schedule x)) 0 l = 0.
Proof. induction 1 as [|x l Hx _ IH]; simpl; [done|]. by rewrite Hx. Qed.

(** The state after [softirq_schedule]. *)
Definition softirq_scheduled {S} `{!Part softirqs S} `{!Part thrstate S} (i : Z) (x : softirq_t) (k : tcb) (s : S) : S :=
  put_part (set_tcbs (<[kernel (get_part s) := with_state T_RUNNABLE k]> (tcbs (get_part s))) (get_part s))
    (put_part (<[Z.to_nat i := mk_softirq 1 (si_handler x)]> (get_part s : softirqs)) s).

Lemma softirq_schedule_ok {S} `{!Part softirqs S} `{!Part thrstate S} `{!Disjoint_parts thrstate softirqs S}
    (i : Z) (x : softirq_t) (k : tcb) (s : S) :
  0 <= i -> (get_part s : softirqs) !! Z.to_nat i = Some x -> tcbs (get_part s) !! kernel (get_part s) = Some k ->
  softirq_schedule i s = Done (tt, softirq_scheduled i x k s).
Proof.
  intros H0 Hx Hk. unfold softirq_schedule.
  erewrite bind_Done by (apply on_Done; rewrite <- (Z2Nat.id i) at 1 by done; by apply set_scheduled_ok).
  unfold softirq_scheduled. rewrite <- (get_put_other (P := thrstate) (<[Z.to_nat i := mk_softirq 1 (si_handler x)]> (get_part s : softirqs)) s) in Hk |- *.
  apply on_Done. unfold set_kernel_state. rewrite (bind_Done (gets kernel) _ _ _ _ eq_refl). by apply upd_tcb_ok.
Qed.

(** ** Requests and service *)

Definition scheduled (l : softirqs) (j : nat) : Prop := exists x, l !! j = Some x /\ si_schedule x <> 0.
Definition handler_at (l : softirqs) (j : nat) : Z := match l !! j with Some x => si_handler x | None => NULL end.

(** The soft interrupts [js] are scheduled. *)
Definition request (js : list nat) (l : softirqs) : softirqs :=
  foldr (fun j => alter (fun x => mk_softirq 1 (si_handler x)) j) l js.

Lemma request_length js l : length (request js l) = length l.
Proof. induction js; simpl; [done|]. by rewrite length_alter. Qed.

Lemma request_handler js l j : handler_at (request js l) j = handler_at l j.
Proof.
  induction js as [|i js IH]; simpl; [done|]. rewrite <- IH. unfold handler_at. destruct (decide (i = j)) as [->|].
  - rewrite list_lookup_alter_eq. by destruct (_ !! j).
  - by rewrite list_lookup_alter_ne.
Qed.

Lemma request_scheduled js l j :
  scheduled (request js l) j <-> scheduled l j \/ (j ∈ js /\ (j < length l)%nat).
Proof.
  induction js as [|i js IH]; simpl; [set_solver|]. rewrite elem_of_cons. unfold scheduled in *. destruct (decide (i = j)) as [->|].
  - rewrite list_lookup_alter_eq. split.
    + intros (x & Hx & _). right. split; [by left|]. rewrite <- (request_length js). apply lookup_lt_is_Some.
      destruct (request js l !! j) eqn:E; [by eexists|done].
    + intros H. assert (Hlt : (j < length (request js l))%nat).
      { rewrite request_length. destruct H as [(x & Hx & _)|[_ ?]]; [by eapply lookup_lt_Some|done]. }
      apply lookup_lt_is_Some in Hlt as [x ->]. by eexists.
  - rewrite list_lookup_alter_ne by done. rewrite IH. naive_solver.
Qed.

Lemma handler_at_insert (l : softirqs) i x j v :
  l !! i = Some x -> handler_at (<[i := mk_softirq v (si_handler x)]> l) j = handler_at l j.
Proof.
  intros Hx. unfold handler_at. destruct (decide (i = j)) as [->|]; [|by rewrite list_lookup_insert_ne].
  rewrite list_lookup_insert_eq by (by eapply lookup_lt_Some). by rewrite Hx.
Qed.

Lemma scheduled_clear (l : softirqs) i h j : scheduled (<[i := mk_softirq 0 h]> l) j <-> scheduled l j /\ j <> i.
Proof.
  unfold scheduled. destruct (decide (i = j)) as [->|Hne].
  - split; [|naive_solver]. intros (x & Hx & Hs). destruct (decide (j < length l)%nat).
    + rewrite list_lookup_insert_eq in Hx by done. by injection Hx as <-.
    + rewrite list_insert_ge in Hx by lia. apply lookup_lt_Some in Hx. lia.
  - rewrite list_lookup_insert_ne by done. naive_solver.
Qed.

(** The disjunction of the [schedule] words tells whether one is scheduled. *)
Lemma pending_scheduled l acc :
  truth (foldl (fun a x => Z.lor a (si_schedule x)) acc l) = true <-> acc <> 0 \/ exists j, scheduled l j.
Proof.
  unfold truth. revert acc. induction l as [|x l IH]; intros acc; simpl.
  - rewrite negb_true_iff, Z.eqb_neq. split; [by left|]. intros [?|(j & x & Hx & _)]; [done|]. by rewrite lookup_nil in Hx.
  - rewrite IH, Z.lor_eq_0_iff. split.
    + intros [H|(j & y & Hj & Hy)]; [|right; by exists (S j), y].
      destruct (decide (acc = 0)) as [->|]; [|by left]. right. exists O, x. split; [done|]. naive_solver.
    + intros [H|([|j] & y & Hj & Hy)]; [left; naive_solver| |right; by exists j, y].
      injection Hj as ->. left. naive_solver.
Qed.

(** The handlers of the scheduled soft interrupts, in ascending order. *)
Definition due_handlers (l : softirqs) : list Z := si_handler <$> filter (fun x => si_schedule x <> 0) l.

(** What a run of handlers has to do with the requests.  [req tr h] are the soft interrupts that the
    handler [h] schedules, or an interrupt while it runs, when the handlers [tr] have run before;
    [l] are the soft interrupts in the beginning and [t] the handlers that have run since then. *)
Section service.
Variable req : list Z -> Z -> list nat.
Variable l : softirqs.
Variable tr : list Z.

(** [j] was scheduled, in the beginning or by one of the handlers [t]. *)
Definition requested (t : list Z) (j : nat) : Prop :=
  scheduled l j \/ exists t1 h t2, t = t1 ++ h :: t2 /\ j ∈ req (tr ++ t1) h.
(** [j] was scheduled, by another handler than its own, and its handler has not run since then. *)
Definition unserved (t : list Z) (j : nat) : Prop :=
  (scheduled l j /\ handler_at l j ∉ t) \/
  exists t1 h t2, t = t1 ++ h :: t2 /\ j ∈ req (tr ++ t1) h /\ h <> handler_at l j /\ handler_at l j ∉ t2.

Lemma requested_app t t' j : requested t j -> requested (t ++ t') j.
Proof.
  intros [?|(t1 & h & t2 & -> & Hj)]; [by left|]. right. exists t1, h, (t2 ++ t'). by rewrite <- app_assoc.
Qed.

Lemma requested_last t h j : j ∈ req (tr ++ t) h -> requested (t ++ [h]) j.
Proof. intros Hj. right. by exists t, h, []. Qed.

Lemma unserved_app t h j :
  unserved (t ++ [h]) j -> handler_at l j <> h /\ (unserved t j \/ j ∈ req (tr ++ t) h).
Proof.
  intros [[Hs Hn]|(t1 & h' & t2 & E & Hj & Hne & Hn)].
  - apply not_elem_of_app in Hn as [Hn Hh]. split; [set_solver|]. left. by left.
  - destruct t2 as [|h2 t2 _] using rev_ind.
    + apply app_inj_tail in E as [-> ->]. split; [done|]. by right.
    + rewrite app_comm_cons, app_assoc in E. apply app_inj_tail in E as [-> ->].
      apply not_elem_of_app in Hn as [Hn Hh]. split; [set_solver|]. left. right. by exists t1, h', t2.
Qed.
End service.

Definition kernel_tcb (s : thrstate) : option tcb := with_state T_INACTIVE <$> tcbs s !! kernel s.

Section execute_theorems.
Context {S : Type} `{!Part softirqs S} `{!Part thrstate S} `{!PartLaws softirqs S} `{!PartLaws thrstate S}
  `{!Disjoint_parts thrstate softirqs S} `{!Disjoint_parts softirqs thrstate S}.
Variable call : Z -> M S unit.
(** What is observed of the handlers. *)
Variable trace : S -> list Z.
Variable req : list Z -> Z -> list nat.
Hypothesis trace_softirqs : forall (l : softirqs) s, trace (put_part l s) = trace s.
Hypothesis trace_thr : forall (t : thrstate) s, trace (put_part t s) = trace s.
(** A handler returns; it schedules soft interrupts and changes nothing but the state of the kernel
    thread. *)
Hypothesis call_ok : forall h s, exists s', call h s = Done (tt, s') /\
  (get_part s' : softirqs) = request (req (trace s) h) (get_part s) /\ trace s' = trace s ++ [h] /\
  kernel (get_part s') = kernel (get_part s) /\ kernel_tcb (get_part s') = kernel_tcb (get_part s).
Variable s0 : S.
Abbreviation l0 := (get_part s0 : softirqs).
Hypothesis req_handled : forall tr h j, j ∈ req tr h -> handler_at l0 j <> NULL.

(** The state when the handlers [t] have run since [s0]. *)
Record served (t : list Z) (s : S) : Prop := {
  sv_trace : trace s = trace s0 ++ t;
  sv_length : length (get_part s : softirqs) = length l0;
  sv_handler j : handler_at (get_part s) j = handler_at l0 j;
  sv_registered j : scheduled (get_part s) j -> handler_at l0 j <> NULL;
  sv_unserved j : unserved req l0 (trace s0) t j -> scheduled (get_part s) j;
  sv_requested j : scheduled (get_part s) j -> requested req l0 (trace s0) t j;
  sv_caused t1 h t2 : t = t1 ++ h :: t2 -> exists j, handler_at l0 j = h /\ requested req l0 (trace s0) t1 j;
  sv_kernel : kernel (get_part s) = kernel (get_part s0) /\ kernel_tcb (get_part s) = kernel_tcb (get_part s0);
}.

(** A handler is called and its flag is cleared. *)
Lemma served_call t s i x :
  served t s -> (get_part s : softirqs) !! i = Some x -> si_schedule x <> 0 ->
  exists s1 s2, call (si_handler x) s = Done (tt, s1) /\ on (set_scheduled (Z.of_nat i) 0) s1 = Done (tt, s2) /\
    served (t ++ [si_handler x]) s2 /\
    (forall j, scheduled (get_part s2) j <->
       (scheduled (get_part s) j \/ (j ∈ req (trace s) (si_handler x) /\ (j < length l0)%nat)) /\ j <> i) /\
    (req (trace s) (si_handler x) = [] -> drop (Datatypes.S i) (get_part s2 : softirqs) = drop (Datatypes.S i) (get_part s)).
Proof.
  intros Hsv Hx Hsch. destruct (call_ok (si_handler x) s) as (s1 & Hc & Hl1 & Ht1 & Hk1 & Hb1).
  set (l1 := request (req (trace s) (si_handler x)) (get_part s)) in *.
  assert (Hh : handler_at l0 i = si_handler x) by (rewrite <- (sv_handler _ _ Hsv); unfold handler_at; by rewrite Hx).
  assert (Hlt : (i < length l1)%nat) by (unfold l1; rewrite request_length; by eapply lookup_lt_Some).
  destruct (lookup_lt_is_Some_2 _ _ Hlt) as [x1 Hx1].
  exists s1, (put_part (<[i := mk_softirq 0 (si_handler x1)]> l1) s1). split; [done|].
  split; [apply on_Done; rewrite Hl1; by apply set_scheduled_ok|].
  set (s2 := put_part _ s1). assert (Hl2 : (get_part s2 : softirqs) = <[i := mk_softirq 0 (si_handler x1)]> l1) by (unfold s2; by rewrite get_put).
  assert (Hsch2 : forall j, scheduled (get_part s2) j <->
       (scheduled (get_part s) j \/ (j ∈ req (trace s) (si_handler x) /\ (j < length l0)%nat)) /\ j <> i).
  { intros j. rewrite Hl2, scheduled_clear. unfold l1. by rewrite request_scheduled, (sv_length _ _ Hsv). }
  split; [|split; [exact Hsch2|]].
  2: { intros E. rewrite Hl2, drop_insert_lt by lia. unfold l1. by rewrite E. }
  rewrite (sv_trace _ _ Hsv) in Hsch2. constructor.
  - unfold s2. by rewrite trace_softirqs, Ht1, (sv_trace _ _ Hsv), app_assoc.
  - rewrite Hl2, length_insert. unfold l1. by rewrite request_length, (sv_length _ _ Hsv).
  - intros j. rewrite Hl2, (handler_at_insert _ _ _ _ _ Hx1). unfold l1. by rewrite request_handler, (sv_handler _ _ Hsv).
  - intros j [[Hj|[Hj _]] _]%Hsch2; [by eapply sv_registered|by eapply req_handled].
  - intros j [Hne Hj]%unserved_app. apply Hsch2. split; [|congruence].
    destruct Hj as [Hj|Hj]; [left; by eapply sv_unserved|right]. split; [done|].
    pose proof (req_handled _ _ _ Hj) as Hn. unfold handler_at in Hn. destruct (l0 !! j) eqn:E; [by eapply lookup_lt_Some|done].
  - intros j [[Hj|[Hj _]] _]%Hsch2; [by apply requested_app, (sv_requested t s)|by apply requested_last].
  - intros t1 h t2 E. destruct t2 as [|h2 t2 _] using rev_ind.
    + apply app_inj_tail in E as [<- <-]. exists i. split; [done|]. apply (sv_requested _ _ Hsv). by exists x.
    + rewrite app_comm_cons, app_assoc in E. apply app_inj_tail in E as [E _]. by eapply (sv_caused _ _ Hsv).
  - unfold s2. rewrite (get_put_other (P := thrstate)), Hk1, Hb1. apply (sv_kernel _ _ Hsv).
Qed.

(** One turn of the first loop, from [i] on.  If no handler schedules anything from now on, the flags
    from [i] on are cleared; if no handler runs, none was set. *)
Lemma softirq_pass_ok n i executed t s :
  served t s -> (i + n = length l0)%nat ->
  exists t' s', softirq_pass call n (Z.of_nat i) executed s =
      Done (if decide (t' = []) then executed else 1, s') /\ served (t ++ t') s' /\
    (t' = [] -> s' = s /\ forall j, scheduled (get_part s) j -> (j < i)%nat) /\
    ((forall tr h, trace s `prefix_of` tr -> req tr h = []) -> forall j, scheduled (get_part s') j -> (j < i)%nat /\ scheduled (get_part s) j) /\
    ((forall tr h, trace s `prefix_of` tr -> req tr h = []) -> t' = due_handlers (drop i (get_part s))).
Proof.
  revert i executed t s. induction n as [|n IH]; intros i executed t s Hsv Hi.
  { exists [], s. rewrite app_nil_r. split; [done|]. split; [done|].
    assert (Hj : forall j, scheduled (get_part s) j -> (j < i)%nat).
    { intros j (x & Hx & _). apply lookup_lt_Some in Hx. rewrite (sv_length _ _ Hsv) in Hx. lia. }
    split; [by intros _|]. split; [intros _ j H; split; [by apply Hj|done]|].
    intros _. rewrite drop_ge; [done|]. rewrite (sv_length _ _ Hsv). lia. }
  destruct (lookup_lt_is_Some_2 (get_part s : softirqs) i) as [x Hx]; [rewrite (sv_length _ _ Hsv); lia|].
  assert (Hnext : Z.of_nat i + 1 = Z.of_nat (Datatypes.S i)) by lia.
  cbn [softirq_pass]. rewrite (bind_Done _ _ _ x s).
  2: { erewrite on_Done by by apply get_softirq_ok. by rewrite put_get. }
  rewrite Hnext. destruct (Z.eqb_spec (si_schedule x) 0) as [Ez|Ez]; cbn [negb andb].
  - destruct (IH (Datatypes.S i) executed t s) as (t' & s' & Hr & Hsv' & Hnil & Hquiet & Hdue); [done|lia|].
    assert (Hni : ~ scheduled (get_part s) i) by (intros (y & Hy & Hs); congruence).
    exists t', s'. split; [done|]. split; [done|]. split.
    + intros E. destruct (Hnil E) as [-> Hlt]. split; [done|]. intros j Hj. specialize (Hlt j Hj).
      enough (j <> i) by lia. by intros ->.
    + split; [intros Hq j Hj; destruct (Hquiet Hq j Hj) as [Hlt Hs]; split; [|done]; enough (j <> i) by lia; by intros ->|].
      intros Hq. rewrite (drop_S _ _ _ Hx), (Hdue Hq). unfold due_handlers. by rewrite filter_cons_False by (intros H; by apply H).
  - assert (Hh : si_handler x <> NULL).
    { pose proof (sv_registered _ _ Hsv i) as Hr. rewrite <- (sv_handler _ _ Hsv) in Hr. unfold handler_at in Hr.
      rewrite Hx in Hr. apply Hr. by exists x. }
    rewrite (proj2 (Z.eqb_neq _ _)) by done. cbn [negb].
    destruct (served_call t s i x) as (s1 & s2 & Hc & Hclr & Hsv2 & Hsch & Hdrop); [done..|].
    rewrite (bind_Done _ _ _ _ _ Hc), (bind_Done _ _ _ _ _ Hclr).
    destruct (IH (Datatypes.S i) 1 _ s2 Hsv2) as (t' & s' & Hr & Hsv' & _ & Hquiet & Hdue); [lia|].
    exists (si_handler x :: t'), s'. rewrite Hr. split; [simpl; by destruct (decide (t' = []))|].
    split; [by rewrite <- app_assoc in Hsv'|]. split; [done|].
    assert (Hpre : (forall tr h, trace s `prefix_of` tr -> req tr h = []) -> forall tr h, trace s2 `prefix_of` tr -> req tr h = []).
    { intros Hq tr h Htr. apply Hq. etransitivity; [|exact Htr]. rewrite (sv_trace _ _ Hsv2), (sv_trace _ _ Hsv), app_assoc.
      by eexists. }
    split.
    + intros Hq j Hj. destruct (Hquiet (Hpre Hq) j Hj) as [Hlt Hs].
      apply Hsch in Hs as [[Hs|[Hs _]] Hne]; [split; [lia|done]|]. rewrite Hq in Hs by done. by apply not_elem_of_nil in Hs.
    + intros Hq. rewrite (drop_S _ _ _ Hx), (Hdue (Hpre Hq)), Hdrop by (by apply Hq).
      unfold due_handlers. by rewrite filter_cons_True.
Qed.

(** [N] bounds the handlers after which nothing is scheduled any more. *)
Variable N : nat.
Hypothesis req_quiet : forall tr h, (N <= length tr)%nat -> req tr h = [].
Hypothesis len0 : length l0 = Z.to_nat NR_SOFTIRQ.

Lemma softirq_retry_ok fuel executed t s k :
  served t s -> (N - length (trace s) < fuel)%nat -> kernel_tcb (get_part s0) = Some k -> executed = (if decide (t = []) then 0 else 1) ->
  exists t' s', softirq_retry call fuel executed s = Done (if decide (t' = []) then 0 else 1, s') /\
    served t' s' /\ (forall j, ~ scheduled (get_part s') j) /\
    tcbs (get_part s') !! kernel (get_part s') = Some k /\
    ((forall tr h, req tr h = []) -> t' = t ++ due_handlers (get_part s)).
Proof.
  intros Hsv Hfuel Hk. revert executed t s Hsv Hfuel. induction fuel as [|fuel IH]; intros executed t s Hsv Hfuel ->; [lia|].
  cbn [softirq_retry]. destruct (softirq_pass_ok (Z.to_nat NR_SOFTIRQ) 0 (if decide (t = []) then 0 else 1) t s Hsv)
    as (t1 & s1 & Hr & Hsv1 & Hnil & Hquiet & Hdue); [by rewrite len0|]. change (Z.of_nat 0) with 0 in Hr.
  rewrite (bind_Done _ _ _ _ _ Hr).
  set (p := foldl (fun a x => Z.lor a (si_schedule x)) 0 (get_part s1 : softirqs)).
  rewrite (bind_Done _ _ _ p s1).
  2: { erewrite on_Done by (apply (softirq_pending_ok _ 0); by rewrite (sv_length _ _ Hsv1), len0). by rewrite put_get. }
  destruct (sv_kernel _ _ Hsv1) as [Hker Hktcb]. unfold kernel_tcb in Hktcb at 1. unfold kernel_tcb in Hk.
  unfold kernel_tcb in Hktcb. rewrite Hk in Hktcb. apply fmap_Some in Hktcb as (k1 & Hk1 & ->).
  set (st := if truth p then T_RUNNABLE else T_INACTIVE).
  set (s2 := put_part (set_tcbs (<[kernel (get_part s1) := with_state st k1]> (tcbs (get_part s1))) (get_part s1)) s1).
  rewrite (bind_Done _ _ s1 tt s2).
  2: { apply on_Done. unfold set_kernel_state. rewrite (bind_Done (gets kernel) _ _ _ _ eq_refl). by apply upd_tcb_ok. }
  assert (Hl2 : (get_part s2 : softirqs) = get_part s1) by (unfold s2; by rewrite (get_put_other (P := softirqs))).
  assert (Hb2 : tcbs (get_part s2) !! kernel (get_part s2) = Some (with_state st k1)).
  { unfold s2. rewrite get_put. apply lookup_insert_eq. }
  assert (Hsv2 : served (t ++ t1) s2).
  { destruct Hsv1. constructor; rewrite ?Hl2; try done; [unfold s2; by rewrite trace_thr|].
    split; [unfold s2; by rewrite get_put|]. unfold kernel_tcb. by rewrite Hb2, Hk. }
  assert (He : (if decide (t1 = []) then if decide (t = []) then 0 else 1 else 1) = if decide (t ++ t1 = []) then 0 else 1).
  { by destruct t, t1. }
  destruct (truth p) eqn:Ep.
  - apply pending_scheduled in Ep as [?|[j Hj]]; [done|].
    assert (Hgrow : (N > length (trace s))%nat /\ t1 <> []).
    { split.
      - destruct (decide (N <= length (trace s))%nat) as [Hle|]; [|lia]. destruct (Hquiet) with (j := j) as [? _]; [|done|lia].
        intros tr h Hpre%prefix_length. apply req_quiet. lia.
      - intros ->. destruct (Hnil eq_refl) as [-> Hlt]. specialize (Hlt j Hj). lia. }
    destruct Hgrow as [HN Hne]. rewrite He.
    destruct (IH (if decide (t ++ t1 = []) then 0 else 1) (t ++ t1) s2 Hsv2) as (t' & s' & Hrun & Hsv' & Hn' & Hk' & _); [|done|].
    { rewrite (sv_trace _ _ Hsv2), app_assoc, length_app. rewrite (sv_trace _ _ Hsv) in Hfuel, HN. destruct t1; [done|]. simpl. lia. }
    exists t', s'. split; [done|]. split; [done|]. split; [done|]. split; [done|].
    intros Hq. destruct (Hquiet (fun tr h _ => Hq tr h) j Hj). lia.
  - exists (t ++ t1), s2. rewrite He. split; [done|]. split; [done|]. split; [|split; [done|]].
    + intros j Hj. rewrite Hl2 in Hj. assert (truth p = true); [|congruence]. apply pending_scheduled. right. by exists j.
    + intros Hq. rewrite (Hdue (fun tr h _ => Hq tr h)). by rewrite drop_0.
Qed.
End execute_theorems.

(** ** Properties *)

(** C18. [softirq_execute] with handlers that return, of which each may schedule soft interrupts that
    have a handler, and so may the interrupts that are served while it runs ([req tr h], which may depend on all the
    handlers [tr] that have run), until [N] handlers have run.  It
    returns, within [N + 1] turns of the loop; then no soft interrupt is scheduled and the kernel
    thread is inactive.  Every soft interrupt that was scheduled in the beginning has run, and every one that
    was scheduled while the handler of another one ran has run after that; every handler that was called
    is that of a soft interrupt scheduled in the beginning or by a handler before it.  If the handlers schedule nothing, those
    of the soft interrupts scheduled in the beginning were called in ascending order, once each.  The
    result tells whether a handler was called. *)
Theorem softirq_execute_serves {S} `{!Part softirqs S} `{!Part thrstate S} `{!PartLaws softirqs S}
    `{!PartLaws thrstate S} `{!Disjoint_parts thrstate softirqs S} `{!Disjoint_parts softirqs thrstate S}
    (call : Z -> M S unit) (trace : S -> list Z) (req : list Z -> Z -> list nat) (N fuel : nat) (s : S) (k : tcb)
    (l := get_part s : softirqs)
    (Htr1 : forall (l : softirqs) s, trace (put_part l s) = trace s)
    (Htr2 : forall (t : thrstate) s, trace (put_part t s) = trace s)
    (Hcall : forall h s, exists s', call h s = Done (tt, s') /\
       (get_part s' : softirqs) = request (req (trace s) h) (get_part s) /\ trace s' = trace s ++ [h] /\
       kernel (get_part s') = kernel (get_part s) /\ kernel_tcb (get_part s') = kernel_tcb (get_part s))
    (Hhandled : forall tr h j, j ∈ req tr h -> handler_at l j <> NULL)
    (Hquiet : forall tr h, (N <= length tr)%nat -> req tr h = [])
    (Hlen : length l = Z.to_nat NR_SOFTIRQ)
    (Hreg : forall j, scheduled l j -> handler_at l j <> NULL)
    (Hk : tcbs (get_part s) !! kernel (get_part s) = Some k) (Hfuel : (N - length (trace s) < fuel)%nat) :
  exists t s', softirq_execute call fuel s = Done (if decide (t = []) then 0 else 1, s') /\
    trace s' = trace s ++ t /\
    (forall j, ~ scheduled (get_part s') j) /\
    tcbs (get_part s') !! kernel (get_part s') = Some (with_state T_INACTIVE k) /\
    (forall j, ~ unserved req l (trace s) t j) /\
    (forall t1 h t2, t = t1 ++ h :: t2 -> exists j, handler_at l j = h /\ requested req l (trace s) t1 j) /\
    ((forall tr h, req tr h = []) -> t = due_handlers l).
Proof.
  destruct (softirq_retry_ok call trace req Htr1 Htr2 Hcall s Hhandled N Hquiet Hlen fuel 0 [] s (with_state T_INACTIVE k))
    as (t & s' & Hr & Hsv & Hn & Hk' & Hdue); [|done|unfold kernel_tcb; by rewrite Hk|done|].
  { constructor; try done.
    - by rewrite app_nil_r.
    - intros j [[Hj _]|(t1 & h & t2 & E & _)]; [done|]. by destruct t1.
    - intros j Hj. by left.
    - intros t1 h t2 E. by destruct t1. }
  exists t, s'. split; [exact Hr|]. split; [apply (sv_trace _ _ _ _ _ Hsv)|]. split; [exact Hn|]. split; [exact Hk'|].
  split; [intros j Hj; apply (Hn j); by apply (sv_unserved _ _ _ _ _ Hsv)|]. split; [apply (sv_caused _ _ _ _ _ Hsv)|exact Hdue].
Qed.

(** A state of soft interrupts, dispatcher and a log of the handlers called. *)
Record softirq_world := mk_world { w_softirqs : softirqs; w_thr : thrstate; w_log : list Z }.
#[local] Instance world_softirqs : Part softirqs softirq_world :=
  {| get_part := w_softirqs; put_part := fun x w => mk_world x (w_thr w) (w_log w) |}.
#[local] Instance world_thr : Part thrstate softirq_world :=
  {| get_part := w_thr; put_part := fun x w => mk_world (w_softirqs w) x (w_log w) |}.
#[local] Instance world_softirqs_laws : PartLaws softirqs softirq_world.
Proof. split; [done|by intros []|done]. Qed.
#[local] Instance world_thr_laws : PartLaws thrstate softirq_world.
Proof. split; [done|by intros []|done]. Qed.
#[local] Instance world_disjoint1 : Disjoint_parts thrstate softirqs softirq_world.
Proof. by split. Qed.
#[local] Instance world_disjoint2 : Disjoint_parts softirqs thrstate softirq_world.
Proof. by split. Qed.

(** The handler 13 schedules the soft interrupt 1 when it runs for the first time. *)
Definition log_req (tr : list Z) (h : Z) : list nat := if decide (h = 13 /\ (length tr < 2)%nat) then [1%nat] else [].
Definition log_call (h : Z) : M softirq_world unit :=
  modify (fun w => mk_world (request (log_req (w_log w) h) (w_softirqs w)) (w_thr w) (w_log w ++ [h])).

(** The kernel thread is at 100; the soft interrupts 0 and 2 are scheduled. *)
Definition softirq_example : softirq_world :=
  mk_world [mk_softirq 1 11; mk_softirq 0 12; mk_softirq 1 13; mk_softirq 0 14]
    (set_systhreads 0 100 0 (set_tcbs {[100 := zero_tcb]} (reset_thr 4096))) [].

Lemma softirq_execute_serves_witness :
  exists t s', softirq_execute log_call 3 softirq_example = Done (if decide (t = []) then 0 else 1, s') /\ w_log s' = t /\
    11 ∈ t /\ 13 ∈ t /\ (forall t1 t2, t = t1 ++ 13 :: t2 -> (length t1 < 2)%nat -> 12 ∈ t2).
Proof.
  destruct (softirq_execute_serves log_call w_log log_req 2 3 softirq_example zero_tcb) as (t & s' & Hr & Ht & _ & _ & Hun & _).
  - done.
  - done.
  - intros h s. eexists. split; [done|]. done.
  - intros tr h j. unfold log_req. case_decide; [|by intros ?%not_elem_of_nil]. by intros ->%list_elem_of_singleton.
  - intros tr h Hl. unfold log_req. case_decide; [lia|done].
  - reflexivity.
  - intros [|[|[|[|j]]]] (x & Hx & Hs); done.
  - reflexivity.
  - simpl. lia.
  - exists t, s'. split; [exact Hr|]. split; [exact Ht|]. split; [|split].
    + destruct (decide (11 ∈ t)); [done|]. exfalso. apply (Hun 0%nat). left. split; [by eexists|done].
    + destruct (decide (13 ∈ t)); [done|]. exfalso. apply (Hun 2%nat). left. split; [by eexists|done].
    + intros t1 t2 -> Hl. destruct (decide (12 ∈ t2)); [done|]. exfalso. apply (Hun 1%nat). right.
      exists t1, 13, t2. split; [done|]. split; [|done]. unfold log_req. rewrite decide_True by (simpl; lia). left.
Defined.

Section lost.
Context {S : Type} `{!Part softirqs S} `{!Part thrstate S} `{!PartLaws softirqs S} `{!PartLaws thrstate S}
  `{!Disjoint_parts thrstate softirqs S} `{!Disjoint_parts softirqs thrstate S}.
Variable call : Z -> M S unit.

Lemma softirq_pass_skip post pre rest executed s :
  (get_part s : softirqs) = pre ++ post ++ rest -> Forall (fun x => si_schedule x = 0) post ->
  softirq_pass call (length post) (Z.of_nat (length pre)) executed s = Done (executed, s).
Proof.
  intros Hl Hz. revert pre Hl. induction Hz as [|x post Hx _ IH]; intros pre Hl; [done|].
  cbn [softirq_pass length]. rewrite (bind_Done _ _ _ x s).
  2: { erewrite on_Done by (apply get_softirq_ok; rewrite Hl; by apply list_lookup_middle). by rewrite put_get. }
  rewrite Hx. cbn [negb andb]. replace (Z.of_nat (length pre) + 1) with (Z.of_nat (length (pre ++ [x])))
    by (rewrite length_app; simpl; lia). apply IH. by rewrite <- app_assoc.
Qed.

Lemma softirq_pass_app n m i executed s :
  softirq_pass call (n + m) i executed s =
  (e ← softirq_pass call n i executed; softirq_pass call m (i + Z.of_nat n) e) s.
Proof.
  revert i executed s. induction n as [|n IH]; intros i executed s; cbn [softirq_pass Nat.add].
  - unfold mbind, M_bind, mret, M_ret. by rewrite Z.add_0_r.
  - replace (i + Z.of_nat (Datatypes.S n)) with (i + 1 + Z.of_nat n) by lia.
    unfold mbind, M_bind in *. destruct (on (get_softirq i) s) as [[x s1]| | |]; try done.
    destruct (negb _ && _); [|apply IH].
    destruct (call (si_handler x) s1) as [[[] s2]| | |]; try done.
    destruct (on (set_scheduled i 0) s2) as [[[] s3]| | |]; done || apply IH.
Qed.
End lost.

(** A soft interrupt that is scheduled again while its handler runs, as by an
    interrupt, is lost: its flag is cleared after the handler, [softirq_execute]
    returns without having run the handler again, and the kernel thread is inactive. *)
Theorem softirq_execute_loses_reschedule {S} `{!Part softirqs S} `{!Part thrstate S} `{!PartLaws softirqs S}
    `{!PartLaws thrstate S} `{!Disjoint_parts thrstate softirqs S} `{!Disjoint_parts softirqs thrstate S}
    (s : S) (pre post : softirqs) (h : Z) (k : tcb)
    (Hl : (get_part s : softirqs) = pre ++ mk_softirq 1 h :: post) (Hlen : (length pre + length post = 3)%nat)
    (Hh : h <> NULL) (Hpre : Forall (fun x => si_schedule x = 0) pre)
    (Hpost : Forall (fun x => si_schedule x = 0) post)
    (Hk : tcbs (get_part s) !! kernel (get_part s) = Some k) :
  exists s', softirq_execute (fun _ => softirq_schedule (Z.of_nat (length pre))) 1 s = Done (1, s') /\
    (get_part s' : softirqs) = pre ++ mk_softirq 0 h :: post /\
    tcbs (get_part s') !! kernel (get_part s') = Some (with_state T_INACTIVE k).
Proof.
  set (i := Z.of_nat (length pre)). set (t1 := set_tcbs (<[kernel (get_part s) := with_state T_RUNNABLE k]>
    (tcbs (get_part s))) (get_part s)).
  set (t2 := set_tcbs (<[kernel (get_part s) := with_state T_INACTIVE k]> (tcbs (get_part s))) (get_part s)).
  assert (Hins : forall v, <[length pre := mk_softirq v h]> (pre ++ mk_softirq 1 h :: post) = pre ++ mk_softirq v h :: post).
  { intros v. rewrite insert_app_r_alt, Nat.sub_diag by lia. done. }
  assert (Hsched : softirq_schedule i s = Done (tt, put_part t1 s)).
  { unfold softirq_schedule. erewrite bind_Done.
    2: { apply on_Done, (set_scheduled_ok (length pre) (mk_softirq 1 h)). rewrite Hl. by apply list_lookup_middle. }
    simpl si_handler. rewrite Hl, Hins, <- Hl, put_get. apply on_Done. unfold set_kernel_state.
    rewrite (bind_Done (gets kernel) _ _ _ _ eq_refl). by apply upd_tcb_ok. }
  set (sA := put_part t1 s). set (sB := put_part (pre ++ mk_softirq 0 h :: post) sA).
  assert (HlA : (get_part sA : softirqs) = pre ++ mk_softirq 1 h :: post).
  { unfold sA. by rewrite (get_put_other (P := softirqs)). }
  assert (HlB : (get_part sB : softirqs) = pre ++ mk_softirq 0 h :: post) by (unfold sB; by rewrite get_put).
  assert (HtB : (get_part sB : thrstate) = t1).
  { unfold sB, sA. by rewrite (get_put_other (P := thrstate)), get_put. }
  assert (Hpass : softirq_pass (fun _ => softirq_schedule i) (Z.to_nat NR_SOFTIRQ) 0 0 s = Done (1, sB)).
  { replace (Z.to_nat NR_SOFTIRQ) with (length pre + Datatypes.S (length post))%nat by (unfold NR_SOFTIRQ; lia).
    rewrite softirq_pass_app. erewrite bind_Done by by eapply (softirq_pass_skip _ pre []).
    rewrite Z.add_0_l. fold i. cbn [softirq_pass]. rewrite (bind_Done _ _ _ (mk_softirq 1 h) s).
    2: { erewrite on_Done by (apply get_softirq_ok; rewrite Hl; by apply list_lookup_middle). by rewrite put_get. }
    cbn [si_schedule si_handler]. rewrite (proj2 (Z.eqb_neq h NULL)) by done. cbn [Z.eqb negb andb].
    rewrite (bind_Done _ _ _ _ _ Hsched). fold sA. rewrite (bind_Done _ _ _ tt sB).
    2: { erewrite on_Done by (apply (set_scheduled_ok (length pre) (mk_softirq 1 h)); rewrite HlA; by apply list_lookup_middle).
         simpl si_handler. by rewrite HlA, Hins. }
    replace (i + 1) with (Z.of_nat (length (pre ++ [mk_softirq 0 h]))) by (unfold i; rewrite length_app; simpl; lia).
    apply (softirq_pass_skip _ post _ []); [|done]. by rewrite HlB, app_nil_r, <- app_assoc. }
  unfold softirq_execute. cbn [softirq_retry]. rewrite (bind_Done _ _ _ _ _ Hpass).
  rewrite (bind_Done _ _ _ 0 sB).
  2: { erewrite on_Done. 2: { apply (softirq_pending_ok _ 0). rewrite HlB, length_app. simpl. unfold NR_SOFTIRQ. lia. }
       rewrite put_get, drop_0, HlB, pending_zero; [done|]. apply Forall_app. split; [done|]. by constructor. }
  erewrite (bind_Done _ _ sB tt).
  2: { apply on_Done. unfold set_kernel_state. rewrite (bind_Done (gets kernel) _ _ _ _ eq_refl), HtB.
       apply upd_tcb_ok. apply lookup_insert_eq. }
  eexists. split; [done|]. split; [by rewrite (get_put_other (P := softirqs))|].
  rewrite get_put. apply lookup_insert_eq.
Qed.

Lemma softirq_execute_loses_reschedule_witness :
  exists s', softirq_execute (fun _ => softirq_schedule 0) 1
      (mk_world [mk_softirq 1 11; mk_softirq 0 0; mk_softirq 0 13; mk_softirq 0 14] (w_thr softirq_example) []) =
    Done (1, s') /\ (w_softirqs s') !! 0%nat = Some (mk_softirq 0 11).
Proof.
  destruct (softirq_execute_loses_reschedule
    (mk_world [mk_softirq 1 11; mk_softirq 0 0; mk_softirq 0 13; mk_softirq 0 14] (w_thr softirq_example) [])
    [] [mk_softirq 0 0; mk_softirq 0 13; mk_softirq 0 14] 11 zero_tcb) as (s' & Hr & Hl & _).
  - reflexivity.
  - reflexivity.
  - done.
  - constructor.
  - repeat constructor.
  - reflexivity.
  - exists s'. split; [exact Hr|]. simpl in Hl. by rewrite Hl.
Defined.
