(* ===== verification/Ktimer.v ===== *)
(** * The kernel timer

    Models [kernel/ktimer.c], [include/ktimer.h] and [platform/stm32f4/systick.c]:
    the tick counter, the queue of timer events, in which an event holds the number
    of ticks between its predecessor and itself, the dispatch of events and the
    tickless sleep.

    Events live in the static array behind [ktimer_event_table]; [kevents] is keyed
    by their addresses.  [long] is 32 bits wide: the locals [etime] and [delta] of
    [ktimer_event_schedule] are kept as the signed values [s32]. *)

From S2P Require Import Prelude Ktable Thread ThreadMap Softirq.

(** ** [platform/stm32f4/systick.c] *)

Record systick := mk_systick {
  SYSTICK_RELOAD : Z;
  SYSTICK_VAL : Z;
  SYSTICK_CTL : Z;
}.

Definition SYSTICK_MAXRELOAD : Z := 16777215.

(** [SYSTICK_RELOAD] has 24 bits.  A write to [SYSTICK_VAL] clears it, and the counter is loaded
    at the first clock after that, before the second write of [SYSTICK_RELOAD]. *)
Definition init_systick (tick_reload tick_next_reload : Z) : M systick unit := modify (fun _ =>
  let reload := (tick_reload -w 1) mod 16777216 in
  mk_systick (if truth tick_next_reload then (tick_next_reload -w 1) mod 16777216 else reload) reload 7).
Definition systick_disable : M systick unit := modify (fun r =>
  mk_systick (SYSTICK_RELOAD r) (SYSTICK_VAL r) 0).
Definition systick_now : M systick Z := gets SYSTICK_VAL.
Definition systick_flag_count : M systick Z := gets (fun r =>
  Z.shiftr (Z.land (SYSTICK_CTL r) (Z.shiftl 1 16)) 16).

(** ** Data *)

Definition CONFIG_MAX_KT_EVENTS : Z := 64.
Definition CONFIG_KTIMER_HEARTBEAT : Z := 65536.
Definition CONFIG_KTIMER_MINTICKS : Z := 128.
Definition CONFIG_KTIMER_TICKLESS_COMPENSATION : Z := 0.
Definition CONFIG_KTIMER_TICKLESS_INT_COMPENSATION : Z := 0.

Record ktimer_event := mk_kte {
  kte_next : Z;
  kte_handler : Z;
  kte_delta : Z;
  kte_data : Z;
}.

Definition with_next x e := mk_kte x (kte_handler e) (kte_delta e) (kte_data e).
Definition with_delta x e := mk_kte (kte_next e) (kte_handler e) x (kte_data e).
Definition with_handler_data h d e := mk_kte (kte_next e) h (kte_delta e) d.

Record ktimerstate := mk_ktimer {
  ktimer_event_table : ktable;
  kevents : gmap Z ktimer_event;
  event_queue : Z;
  ktimer_now : Z;
  ktimer_enabled : Z;
  ktimer_delta : Z;
  ktimer_time : Z;
  ktimer_systick : systick;
}.

Definition set_event_table x s := mk_ktimer x (kevents s) (event_queue s) (ktimer_now s) (ktimer_enabled s) (ktimer_delta s) (ktimer_time s) (ktimer_systick s).
Definition set_kevents x s := mk_ktimer (ktimer_event_table s) x (event_queue s) (ktimer_now s) (ktimer_enabled s) (ktimer_delta s) (ktimer_time s) (ktimer_systick s).
Definition set_event_queue x s := mk_ktimer (ktimer_event_table s) (kevents s) x (ktimer_now s) (ktimer_enabled s) (ktimer_delta s) (ktimer_time s) (ktimer_systick s).
Definition set_clock now enabled delta time s := mk_ktimer (ktimer_event_table s) (kevents s) (event_queue s) now enabled delta time (ktimer_systick s).
Definition set_systick x s := mk_ktimer (ktimer_event_table s) (kevents s) (event_queue s) (ktimer_now s) (ktimer_enabled s) (ktimer_delta s) (ktimer_time s) x.

Definition in_event_table {A} : M ktable A -> M ktimerstate A := zoom ktimer_event_table set_event_table.
Definition in_systick {A} : M systick A -> M ktimerstate A := zoom ktimer_systick set_systick.

Definition get_kte (p : Z) : M ktimerstate ktimer_event := fun s =>
  match kevents s !! p with Some e => Done (e, s) | None => Fault end.
Definition upd_kte (p : Z) (f : ktimer_event -> ktimer_event) : M ktimerstate unit := fun s =>
  match kevents s !! p with
  | Some e => Done (tt, set_kevents (<[p := f e]> (kevents s)) s)
  | None => Fault
  end.

(** ** The tick counter *)

Definition ktimer_init : M ktimerstate unit := in_systick (init_systick CONFIG_KTIMER_HEARTBEAT 0).

Definition ktimer_disable : M ktimerstate unit :=
  e ← gets ktimer_enabled;
  when (truth e) (modify (fun s => set_clock (ktimer_now s) 0 (ktimer_delta s) (ktimer_time s) s)).

Definition ktimer_enable (delta : Z) : M ktimerstate unit :=
  e ← gets ktimer_enabled;
  when (negb (truth e)) (modify (fun s => set_clock (ktimer_now s) 1 delta 0 s)).

(** The part of [__ktimer_handler] on the timer: the result tells whether the soft
    interrupt is to be scheduled. [ktimer_now] is 64 bits wide. *)
Definition ktimer_tick : M ktimerstate bool := fun s =>
  let now := (ktimer_now s + 1) mod 2 ^ 64 in
  if truth (ktimer_enabled s) && (0 <? ktimer_delta s) then
    let delta := ktimer_delta s -w 1 in
    if delta =? 0 then Done (true, set_clock now 0 0 0 s)
    else Done (false, set_clock now (ktimer_enabled s) delta (ktimer_time s + 1) s)
  else Done (false, set_clock now (ktimer_enabled s) (ktimer_delta s) (ktimer_time s) s).

(** ** The queue of events *)

(** Fuel for a walk over the queue. *)
Definition queue_fuel (s : ktimerstate) : nat := size (kevents s) + 1.

Fixpoint recalc_loop (fuel : nat) (event new_delta : Z) : M ktimerstate unit :=
  if event =? NULL then mret tt
  else match fuel with
       | O => fuel_out
       | S fuel' =>
           e ← get_kte event;
           upd_kte event (with_delta (kte_delta e -w new_delta));;
           recalc_loop fuel' (kte_next e) new_delta
       end.

Definition ktimer_event_recalc (event new_delta : Z) : M ktimerstate unit :=
  fuel ← gets queue_fuel; recalc_loop fuel event new_delta.

(** The [do] loop of [ktimer_event_schedule]: the event to insert behind, the event
    to insert before, and the distance to the former. *)
Fixpoint schedule_walk (fuel : nat) (ticks etime next_event : Z) : M ktimerstate (Z * Z * Z) :=
  match fuel with
  | O => fuel_out
  | S fuel' =>
      e ← get_kte next_event;
      let etime := s32 (etime + kte_delta e) in
      let delta := s32 (ticks - etime) in
      let event := next_event in
      let next_event := kte_next e in
      if next_event =? NULL then mret (event, next_event, delta)
      else
        n ← get_kte next_event;
        if ticks >? wrap32 (etime + kte_delta n) then schedule_walk fuel' ticks etime next_event
        else mret (event, next_event, delta)
  end.

Definition ktimer_event_schedule (ticks kte : Z) : M ktimerstate Z :=
  if negb (truth ticks) then mret (-1)
  else
    time ← gets ktimer_time;
    let ticks := wrap32 (ticks - time) in
    upd_kte kte (with_next NULL);;
    q ← gets event_queue;
    if q =? NULL then
      upd_kte kte (with_delta ticks);;
      modify (set_event_queue kte);;
      ktimer_enable ticks;;
      mret 0
    else
      h ← get_kte q;
      nd ← (if ticks >=? kte_delta h then
              fuel ← gets queue_fuel;
              r ← schedule_walk fuel ticks 0 q;
              upd_kte r.1.1 (with_next kte);;
              mret (r.1.2, r.2)
            else
              modify (set_event_queue kte);;
              ktimer_enable ticks;;
              mret (q, s32 ticks));
      let next_event := nd.1 in
      let delta := if nd.2 <? CONFIG_KTIMER_MINTICKS then 0 else nd.2 in
      upd_kte kte (with_next next_event);;
      upd_kte kte (with_delta (wrap32 delta));;
      ktimer_event_recalc next_event (wrap32 delta);;
      mret 0.

Definition ktimer_event_create (ticks handler data : Z) : M ktimerstate Z :=
  if handler =? NULL then mret (-1)
  else
    kte ← in_event_table ktable_alloc;
    if kte =? NULL then mret (-1)
    else
      upd_kte kte (with_next NULL);;
      upd_kte kte (with_handler_data handler data);;
      ktimer_event_schedule ticks kte.

(** [do { event = event->next; } while (event && event->delta == 0);] *)
Fixpoint last_due (fuel : nat) (event : Z) : M ktimerstate Z :=
  match fuel with
  | O => fuel_out
  | S fuel' =>
      e ← get_kte event;
      let event := kte_next e in
      if event =? NULL then mret event
      else
        n ← get_kte event;
        if kte_delta n =? 0 then last_due fuel' event else mret event
  end.

Section kernel.
Context {S : Type} `{!Part ktimerstate S} `{!Part softirqs S} `{!Part thrstate S}.
(** The call of the event handler at address [code] with the event [event]. *)
Variable call_event : Z -> Z -> M S Z.

Definition __ktimer_handler : M S unit :=
  b ← on ktimer_tick; if b : bool then softirq_schedule KTE_SOFTIRQ else mret tt.

(** [do { ... } while (next_event && next_event != last_event);] *)
Fixpoint dispatch_events (fuel : nat) (last_event event : Z) : M S unit :=
  match fuel with
  | O => fuel_out
  | Datatypes.S fuel' =>
      e ← on (get_kte event);
      h_retvalue ← call_event (kte_handler e) event;
      e' ← on (get_kte event);
      let next_event := kte_next e' in
      (if negb (h_retvalue =? 0) then on (ktimer_event_schedule h_retvalue event);; mret tt
       else on (in_event_table (ktable_free event)));;
      if negb (next_event =? NULL) && negb (next_event =? last_event)
      then dispatch_events fuel' last_event next_event
      else mret tt
  end.

Definition ktimer_event_handler : M S unit :=
  q ← on (gets event_queue);
  if q =? NULL then on ktimer_disable
  else
    fuel ← on (gets queue_fuel);
    last_event ← on (last_due fuel q);
    on (modify (set_event_queue last_event));;
    dispatch_events fuel last_event q;;
    q' ← on (gets event_queue);
    if negb (q' =? NULL) then
      h ← on (get_kte q'); on (ktimer_enable (kte_delta h))
    else mret tt.

(** [code] is the address of [ktimer_event_handler]. *)
Definition ktimer_event_init (code : Z) : M S unit :=
  on (in_event_table ktable_init);;
  on ktimer_init;;
  on (softirq_register KTE_SOFTIRQ code).
End kernel.

(** ** Tickless sleep *)

Definition KTIMER_MAXTICKS : Z := SYSTICK_MAXRELOAD / CONFIG_KTIMER_HEARTBEAT.

(** What follows the sleep: when the counter has not expired, the ticks that are left are not
    counted and the counter is started for the rest of the current one.  [reload < 0] is a
    comparison of an unsigned value. *)
Definition tickless_wakeup (tickless_delta : Z) : M ktimerstate Z :=
  flag ← in_systick systick_flag_count;
  if negb (truth flag) then
    now ← in_systick systick_now;
    let tickless_rest := now / CONFIG_KTIMER_HEARTBEAT in
    if tickless_rest >? 0 then
      now ← in_systick systick_now;
      let reload := (now mod CONFIG_KTIMER_HEARTBEAT) -w CONFIG_KTIMER_TICKLESS_INT_COMPENSATION in
      let reload_overflow := b2z (reload <? 0) in
      let reload := reload +w (reload_overflow *w CONFIG_KTIMER_HEARTBEAT) in
      in_systick (init_systick reload CONFIG_KTIMER_HEARTBEAT);;
      mret ((tickless_delta -w tickless_rest) +w reload_overflow)
    else mret tickless_delta
  else mret tickless_delta.

Section tickless.
(** What the timer hardware does while the processor waits for an interrupt. *)
Variable wait_for_interrupt : systick -> systick.

Definition ktimer_enter_tickless : M ktimerstate unit :=
  enabled ← gets ktimer_enabled;
  delta ← gets ktimer_delta;
  let tickless_delta := (if truth enabled && (delta <=? KTIMER_MAXTICKS) then delta else KTIMER_MAXTICKS) -w 1 in
  now ← in_systick systick_now;
  let reload := (CONFIG_KTIMER_HEARTBEAT *w tickless_delta) +w (now -w CONFIG_KTIMER_TICKLESS_COMPENSATION) in
  when (reload >? 2) (in_systick (init_systick reload CONFIG_KTIMER_HEARTBEAT));;
  modify (fun s => set_systick (wait_for_interrupt (ktimer_systick s)) s);;
  tickless_delta ← tickless_wakeup tickless_delta;
  modify (fun s => set_clock ((ktimer_now s + tickless_delta) mod 2 ^ 64) (ktimer_enabled s)
                     (ktimer_delta s -w tickless_delta) (ktimer_time s + tickless_delta) s).
End tickless.

(** ** The queue as a list *)

(** The events reachable from [p], with their distances. *)
Fixpoint chain (h : gmap Z ktimer_event) (p : Z) (l : list (Z * Z)) : Prop :=
  match l with
  | [] => p = NULL
  | (e, d) :: l' => p = e /\ e <> NULL /\ exists ev, h !! e = Some ev /\ kte_delta ev = d /\ chain h (kte_next ev) l'
  end.

Definition head_event (l : list (Z * Z)) : Z := match l with [] => NULL | (e, _) :: _ => e end.

Fixpoint total (l : list (Z * Z)) : Z := match l with [] => 0 | (_, d) :: l' => d + total l' end.

(** The distance the code stores for a new event. *)
Definition min_ticks (delta : Z) : Z := if delta <? CONFIG_KTIMER_MINTICKS then 0 else delta.

(** [ktimer_event_recalc]: the same amount is taken from every event. *)
Definition recalc_all (delta : Z) (l : list (Z * Z)) : list (Z * Z) := (fun '(e, d) => (e, d -w delta)) <$> l.

(** Insertion into the tail [l] of the queue, whose first event is not later than
    [ticks]; [etime] is the time of the event before. *)
Fixpoint insert_after (ticks kte etime : Z) (l : list (Z * Z)) : list (Z * Z) :=
  match l with
  | [] => []
  | (e, d) :: l' =>
      let etime := etime + d in
      if match l' with [] => false | (_, d') :: _ => ticks >? etime + d' end
      then (e, d) :: insert_after ticks kte etime l'
      else (e, d) :: (kte, min_ticks (ticks - etime)) :: recalc_all (min_ticks (ticks - etime)) l'
  end.

Lemma insert_after_cons ticks kte etime e d e' d' l :
  insert_after ticks kte etime ((e, d) :: (e', d') :: l) =
  if ticks >? etime + d + d' then (e, d) :: insert_after ticks kte (etime + d) ((e', d') :: l)
  else (e, d) :: (kte, min_ticks (ticks - (etime + d))) :: recalc_all (min_ticks (ticks - (etime + d))) ((e', d') :: l).
Proof. done. Qed.

Definition queue_insert (ticks kte : Z) (l : list (Z * Z)) : list (Z * Z) :=
  match l with
  | [] => [(kte, ticks)]
  | (_, d) :: _ =>
      if ticks >=? d then insert_after ticks kte 0 l
      else (kte, min_ticks ticks) :: recalc_all (min_ticks ticks) l
  end.

Lemma chain_head h p l : chain h p l -> p = head_event l.
Proof. destruct l as [|[e d] l]; [done|]. by intros [? _]. Qed.

Lemma chain_frame h h' p l :
  chain h p l -> (forall e, e ∈ l.*1 -> h' !! e = h !! e) -> chain h' p l.
Proof.
  revert p. induction l as [|[e d] l IH]; intros p; simpl; [done|].
  intros (-> & Hn & ev & He & Hd & Hc) Hf. split; [done|]. split; [done|]. exists ev.
  rewrite Hf by left. split; [done|]. split; [done|]. apply IH; [done|]. intros x Hx. apply Hf. by right.
Qed.

Lemma chain_in h p l e : chain h p l -> e ∈ l.*1 -> is_Some (h !! e) /\ e <> NULL.
Proof.
  revert p. induction l as [|[x d] l IH]; intros p; simpl; [by intros _ ?%not_elem_of_nil|].
  intros (-> & Hn & ev & He & Hd & Hc) [->|Hin]%elem_of_cons; [split; [by eexists|done]|by eapply IH].
Qed.

Lemma get_kte_ok p e s : kevents s !! p = Some e -> get_kte p s = Done (e, s).
Proof. unfold get_kte. by intros ->. Qed.

Lemma upd_kte_ok p f e s :
  kevents s !! p = Some e -> upd_kte p f s = Done (tt, set_kevents (<[p := f e]> (kevents s)) s).
Proof. unfold upd_kte. by intros ->. Qed.

Lemma chain_length h p l : chain h p l -> NoDup l.*1 -> (length l <= size h)%nat.
Proof.
  intros Hc Hnd. rewrite <- size_dom, <- (length_fmap fst).
  rewrite <- (size_list_to_set (C := gset Z)) by done. apply subseteq_size.
  intros e He%elem_of_list_to_set. apply elem_of_dom. by eapply chain_in.
Qed.

(** [ktimer_event_recalc] over a chain. *)
Lemma recalc_loop_ok fuel p l delta s :
  chain (kevents s) p l -> NoDup l.*1 -> (length l <= fuel)%nat ->
  exists h', recalc_loop fuel p delta s = Done (tt, set_kevents h' s) /\
    chain h' p (recalc_all delta l) /\ (forall e, e ∉ l.*1 -> h' !! e = kevents s !! e).
Proof.
  revert fuel p s. induction l as [|[e d] l IH]; intros fuel p s Hc Hnd Hlen; simpl in Hc.
  - subst p. exists (kevents s). destruct fuel; simpl; (split; [by destruct s|done]).
  - destruct Hc as (-> & Hn & ev & He & Hd & Hc). simpl in Hlen. destruct fuel as [|fuel]; [lia|].
    simpl in Hnd. apply NoDup_cons in Hnd as [Hni Hnd].
    cbn [recalc_loop]. rewrite (proj2 (Z.eqb_neq _ _)) by done.
    rewrite (bind_Done _ _ _ _ _ (get_kte_ok _ _ _ He)), (bind_Done _ _ _ _ _ (upd_kte_ok _ _ _ _ He)).
    set (h1 := <[e := _]> (kevents s)).
    destruct (IH fuel (kte_next ev) (set_kevents h1 s)) as (h' & Hr & Hc' & Hf); [|done|lia|].
    { eapply chain_frame; [exact Hc|]. intros x Hx. apply lookup_insert_ne. by intros ->. }
    exists h'. rewrite Hr. split; [by destruct s|]. split.
    + split; [done|]. split; [done|]. eexists. rewrite (Hf e Hni). split; [apply lookup_insert_eq|].
      simpl. by rewrite Hd.
    + intros x Hx. apply not_elem_of_cons in Hx as [Hxe Hx]. rewrite Hf by done. by apply lookup_insert_ne.
Qed.

Lemma recalc_all_fst delta l : (recalc_all delta l).*1 = l.*1.
Proof. unfold recalc_all. rewrite <- list_fmap_compose. apply list_fmap_ext. by intros i [e d]. Qed.

Lemma total_app l1 l2 : total (l1 ++ l2) = total l1 + total l2.
Proof. induction l1 as [|[e d] l1 IH]; simpl; [done|]. rewrite IH. lia. Qed.

Lemma total_nonneg l : Forall (fun x => 0 <= x.2) l -> 0 <= total l.
Proof. induction 1 as [|[] l ? _ IH]; simpl in *; lia. Qed.

(** Times of the queue fit in 31 bits. *)
Definition short_queue (l : list (Z * Z)) : Prop :=
  Forall (fun x => 0 <= x.2) l /\ total l < 2147483648.

Lemma short_queue_cons e d l : short_queue ((e, d) :: l) -> 0 <= d /\ 0 <= total l /\ d + total l < 2147483648 /\ short_queue l.
Proof.
  intros [Hf Ht]. apply Forall_cons in Hf as [Hd Hf]. simpl in *.
  pose proof (total_nonneg _ Hf).
  repeat split; try lia. done.
Qed.

Lemma short_queue_prefix pre e d post : short_queue (pre ++ (e, d) :: post) -> 0 <= total pre + d.
Proof.
  induction pre as [|[x dx] pre IH]; simpl; intros Hs.
  - apply short_queue_cons in Hs. lia.
  - apply short_queue_cons in Hs as (? & _ & _ & Hs). apply IH in Hs. lia.
Qed.

(** The walk over the queue finds the place [insert_after] describes. *)
Lemma schedule_walk_ok fuel ticks etime p l s :
  chain (kevents s) p l -> l <> [] -> short_queue l -> 0 <= etime -> etime + total l < 2147483648 ->
  0 <= ticks < 2147483648 -> (length l <= fuel)%nat ->
  exists pre e d post,
    l = pre ++ (e, d) :: post /\
    schedule_walk fuel ticks etime p s =
      Done ((e, head_event post, ticks - (etime + total pre + d)), s) /\
    (forall kte, insert_after ticks kte etime l =
      pre ++ (e, d) :: (kte, min_ticks (ticks - (etime + total pre + d))) ::
        recalc_all (min_ticks (ticks - (etime + total pre + d))) post).
Proof.
  revert fuel etime p. induction l as [|[e d] l IH]; intros fuel etime p Hc Hne Hs Het Htot Htk Hlen; [done|].
  destruct Hc as (-> & Hn & ev & He & Hd & Hc). destruct fuel as [|fuel]; [simpl in Hlen; lia|].
  apply short_queue_cons in Hs as (H0 & Ht0 & _ & Hs). simpl in Htot, Hlen.
  cbn [schedule_walk]. rewrite (bind_Done _ _ _ _ _ (get_kte_ok _ _ _ He)), Hd.
  rewrite (s32_small (etime + d)) by lia.
  assert (Hdelta : s32 (ticks - (etime + d)) = ticks - (etime + d)).
  { apply s32_id. lia. }
  rewrite Hdelta. pose proof (chain_head _ _ _ Hc) as Eh. rewrite Eh.
  destruct l as [|[e' d'] l']; cbn [head_event].
  - rewrite Z.eqb_refl. exists [], e, d, []. split; [done|]. simpl. rewrite Z.add_0_r. split; [done|]. done.
  - pose proof Hc as (_ & Hn' & ev' & He' & Hd' & _). rewrite (proj2 (Z.eqb_neq _ _)) by done.
    rewrite (bind_Done _ _ _ _ _ (get_kte_ok _ _ _ He')), Hd'.
    apply short_queue_cons in Hs as Hs'. simpl in Htot.
    rewrite wrap32_small by (unfold is_u32, u32_modulus; lia).
    destruct (ticks >? etime + d + d') eqn:Egt.
    + destruct (IH fuel (etime + d) e') as (pre & x & dx & post & El & Hw & Hi);
        [by rewrite Eh in Hc|done|done|lia|simpl; lia|lia|simpl in *; lia|].
      exists ((e, d) :: pre), x, dx, post. split; [by rewrite El|]. simpl total.
      replace (etime + (d + total pre) + dx) with (etime + d + total pre + dx) by lia. split; [done|].
      intros kte. rewrite insert_after_cons, Egt. by rewrite Hi.
    + exists [], e, d, ((e', d') :: l'). split; [done|]. simpl total. rewrite Z.add_0_r. split; [done|].
      intros kte. by rewrite insert_after_cons, Egt.
Qed.

Lemma chain_relink h h' p pre e d post l2 ev' :
  chain h p (pre ++ (e, d) :: post) -> (forall x, x ∈ pre.*1 -> h' !! x = h !! x) ->
  h' !! e = Some ev' -> kte_delta ev' = d -> chain h' (kte_next ev') l2 ->
  chain h' p (pre ++ (e, d) :: l2).
Proof.
  intros Hc Hf He Hd H2. revert p Hc Hf. induction pre as [|[x dx] pre IH]; simpl; intros p Hc Hf.
  - destruct Hc as (-> & Hn & _). split; [done|]. split; [done|]. by exists ev'.
  - destruct Hc as (-> & Hn & ev & Hx & Hdx & Hc). split; [done|]. split; [done|]. exists ev.
    rewrite Hf by left. split; [done|]. split; [done|]. apply IH; [done|]. intros y Hy. apply Hf. by right.
Qed.

Lemma chain_suffix h p pre e d post :
  chain h p (pre ++ (e, d) :: post) -> e <> NULL /\ exists ev, h !! e = Some ev /\ kte_delta ev = d /\ chain h (kte_next ev) post.
Proof.
  revert p. induction pre as [|[x dx] pre IH]; simpl; intros p.
  - by intros (_ & Hn & Hev).
  - intros (_ & _ & ev & _ & _ & Hc). by eapply IH.
Qed.

(** The clock after [ktimer_enable(delta)]. *)
Definition clock (s : ktimerstate) : Z * Z * Z * Z :=
  (ktimer_now s, ktimer_enabled s, ktimer_delta s, ktimer_time s).
Definition enabled_clock (delta : Z) (s : ktimerstate) : Z * Z * Z * Z :=
  if truth (ktimer_enabled s) then clock s else (ktimer_now s, 1, delta, 0).

Lemma ktimer_enable_ok delta s :
  exists s', ktimer_enable delta s = Done (tt, s') /\ clock s' = enabled_clock delta s /\
    kevents s' = kevents s /\ event_queue s' = event_queue s /\ ktimer_event_table s' = ktimer_event_table s.
Proof.
  unfold ktimer_enable, enabled_clock. rewrite (bind_Done (gets ktimer_enabled) _ _ _ _ eq_refl).
  destruct (truth (ktimer_enabled s)); eexists; split; done.
Qed.

Lemma min_ticks_range d : d < 2147483648 -> wrap32 (min_ticks d) = min_ticks d.
Proof.
  intros H. apply wrap32_small. unfold min_ticks, is_u32, u32_modulus, CONFIG_KTIMER_MINTICKS.
  destruct (Z.ltb_spec d 128); lia.
Qed.

(** The end of [ktimer_event_schedule]: link the new event before [post]. *)
Lemma schedule_link kte ev post next delta s :
  kevents s !! kte = Some ev -> kte <> NULL -> chain (kevents s) next post -> NoDup post.*1 -> kte ∉ post.*1 ->
  delta < 2147483648 ->
  exists h', (upd_kte kte (with_next next);; upd_kte kte (with_delta (wrap32 (min_ticks delta)));;
      ktimer_event_recalc next (wrap32 (min_ticks delta));; mret 0) s = Done (0, set_kevents h' s) /\
    chain h' kte ((kte, min_ticks delta) :: recalc_all (min_ticks delta) post) /\
    (forall x, x ∉ kte :: post.*1 -> h' !! x = kevents s !! x).
Proof.
  intros He Hn Hc Hnd Hni Hlt. rewrite (min_ticks_range _ Hlt).
  rewrite (bind_Done _ _ _ _ _ (upd_kte_ok _ _ _ _ He)).
  rewrite (bind_Done _ _ _ _ _ (upd_kte_ok _ _ _ (set_kevents (<[kte := with_next next ev]> (kevents s)) s)
    (lookup_insert_eq _ _ _))).
  set (h1 := <[kte := with_delta (min_ticks delta) (with_next next ev)]> (<[kte := with_next next ev]> (kevents s))).
  assert (Hc1 : chain h1 next post).
  { eapply chain_frame; [done|]. intros x Hx. unfold h1. by rewrite !lookup_insert_ne by (by intros ->). }
  destruct (recalc_loop_ok (size h1 + 1) next post (min_ticks delta) (set_kevents h1 s)) as (h' & Hr & Hc' & Hf);
    [done|done|pose proof (chain_length _ _ _ Hc1 Hnd); lia|].
  exists h'. split.
  - transitivity ((ktimer_event_recalc next (min_ticks delta);; mret 0) (set_kevents h1 s)); [done|].
    rewrite (bind_Done _ _ _ tt (set_kevents h' s)); [done|]. exact Hr.
  - split.
    + split; [done|]. split; [done|]. eexists. rewrite (Hf kte Hni). split; [apply lookup_insert_eq|]. done.
    + intros x Hx. apply not_elem_of_cons in Hx as [Hxk Hx]. rewrite Hf by done. unfold h1. cbn [kevents set_kevents].
      by rewrite !lookup_insert_ne.
Qed.

(** Finding the place of an event that is not the earliest. *)
Lemma schedule_late_ok t kte l s :
  chain (kevents s) (event_queue s) l -> l <> [] -> NoDup l.*1 -> short_queue l -> 0 <= t < 2147483648 ->
  exists pre e d post eve, l = pre ++ (e, d) :: post /\
    (fuel ← gets queue_fuel; r ← schedule_walk fuel t 0 (event_queue s);
     upd_kte r.1.1 (with_next kte);; mret (r.1.2, r.2)) s =
      Done ((head_event post, t - (total pre + d)), set_kevents (<[e := with_next kte eve]> (kevents s)) s) /\
    kevents s !! e = Some eve /\ kte_delta eve = d /\ chain (kevents s) (head_event post) post /\
    insert_after t kte 0 l =
      pre ++ (e, d) :: (kte, min_ticks (t - (total pre + d))) :: recalc_all (min_ticks (t - (total pre + d))) post.
Proof.
  intros Hc Hne Hnd Hs Ht. pose proof (chain_length _ _ _ Hc Hnd) as Hlen. destruct Hs as [Hs1 Hs2].
  destruct (schedule_walk_ok (size (kevents s) + 1) t 0 (event_queue s) l s)
    as (pre & e & d & post & El & Hw & Hi); [done|done|done|lia|lia|lia|lia|].
  rewrite El in Hc. destruct (chain_suffix _ _ _ _ _ _ Hc) as (Hn & eve & He & Hd & Hp).
  exists pre, e, d, post, eve. split; [done|].
  rewrite (bind_Done (gets queue_fuel) _ _ _ _ eq_refl). fold (queue_fuel s) in Hw.
  rewrite (bind_Done _ _ _ _ _ Hw). cbn [fst snd].
  rewrite (bind_Done _ _ _ _ _ (upd_kte_ok _ _ _ _ He)). rewrite Z.add_0_l.
  split; [done|]. split; [done|]. split; [done|]. split; [by rewrite <- (chain_head _ _ _ Hp)|]. apply Hi.
Qed.

Definition is_early (ticks : Z) (l : list (Z * Z)) : bool :=
  match l with [] => true | (_, d) :: _ => ticks <? d end.

(** [ktimer_event_schedule] inserts as [queue_insert] does. *)
Lemma ktimer_event_schedule_ok ticks kte l s :
  chain (kevents s) (event_queue s) l -> NoDup l.*1 -> short_queue l ->
  is_Some (kevents s !! kte) -> kte <> NULL -> kte ∉ l.*1 ->
  ticks <> 0 -> 0 <= ticks - ktimer_time s < 2147483648 ->
  exists s', ktimer_event_schedule ticks kte s = Done (0, s') /\
    chain (kevents s') (event_queue s') (queue_insert (ticks - ktimer_time s) kte l) /\
    clock s' = (if is_early (ticks - ktimer_time s) l then enabled_clock (ticks - ktimer_time s) s else clock s) /\
    ktimer_event_table s' = ktimer_event_table s /\
    (forall x, x ∉ kte :: l.*1 -> kevents s' !! x = kevents s !! x).
Proof.
  intros Hc Hnd Hs [ev He] Hn Hni Ht0 Ht. set (t := ticks - ktimer_time s) in *.
  unfold ktimer_event_schedule, truth. rewrite (proj2 (Z.eqb_neq ticks 0)) by done. cbn [negb].
  rewrite (bind_Done (gets ktimer_time) _ _ _ _ eq_refl). fold t.
  rewrite (wrap32_small t) by (unfold is_u32, u32_modulus; lia).
  rewrite (bind_Done _ _ _ _ _ (upd_kte_ok _ _ _ _ He)). set (h1 := <[kte := _]> (kevents s)).
  rewrite (bind_Done (gets event_queue) _ _ _ _ eq_refl). cbn [event_queue set_kevents].
  assert (Hc1 : chain h1 (event_queue s) l).
  { eapply chain_frame; [done|]. intros x Hx. apply lookup_insert_ne. by intros ->. }
  pose proof (chain_head _ _ _ Hc) as Eq.
  destruct l as [|[e0 d0] l0].
  - rewrite Eq. cbn [head_event]. rewrite Z.eqb_refl.
    rewrite (bind_Done _ _ _ _ _ (upd_kte_ok _ _ _ (set_kevents h1 s) (lookup_insert_eq _ _ _))).
    rewrite (bind_Done (modify _) _ _ _ _ eq_refl).
    match goal with |- context [ktimer_enable t ≫= _] => idtac end.
    destruct (ktimer_enable_ok t (set_event_queue kte (set_kevents (<[kte := with_delta t (with_next NULL ev)]> h1) s)))
      as (s' & Hen & Hck & Hk & Hq & Htab).
    cbn [kevents set_kevents event_queue set_event_queue ktimer_event_table] in *.
    rewrite (bind_Done _ _ _ _ _ Hen). exists s'. split; [done|]. rewrite Hk, Hq. split; [|split; [|split]].
    + split; [done|]. split; [done|]. eexists. split; [apply lookup_insert_eq|]. done.
    + rewrite Hck. done.
    + done.
    + intros x Hx. apply not_elem_of_cons in Hx as [Hx _]. unfold h1. by rewrite !lookup_insert_ne.
  - set (l := (e0, d0) :: l0) in *. pose proof Hc1 as (Eq0 & Hn0 & ev0 & He0 & Hd0 & _).
    rewrite Eq0, (proj2 (Z.eqb_neq e0 NULL)) by done.
    rewrite (bind_Done _ _ _ _ _ (get_kte_ok e0 ev0 (set_kevents h1 s) He0)), Hd0.
    destruct (t >=? d0) eqn:Ege.
    + assert (Htd : (t <? d0) = false) by (apply Z.ltb_ge; lia).
      destruct (schedule_late_ok t kte l (set_kevents h1 s)) as (pre & e & d & post & eve & El & Hm & Hee & Hde & Hp & Hi);
        [done|done|done|done|done|].
      cbn [event_queue set_kevents kevents] in Hm. rewrite Eq0 in Hm. rewrite (bind_Done _ _ _ _ _ Hm). cbn [fst snd].
      cbn [kevents set_kevents] in Hee, Hp.
      assert (Hke : kte <> e). { intros ->. apply Hni. rewrite El, fmap_app. apply elem_of_app. right. left. }
      pose proof Hnd as Hnd'. rewrite El, fmap_app in Hnd'. apply NoDup_app in Hnd' as (_ & Hdis & Hnd').
      apply NoDup_cons in Hnd' as [Hep Hndp].
      assert (Hkp : kte ∉ post.*1). { intros Hx. apply Hni. rewrite El, fmap_app. apply elem_of_app. right. by right. }
      set (h2 := <[e := with_next kte eve]> h1).
      destruct (schedule_link kte (with_next NULL ev) post (head_event post) (t - (total pre + d)) (set_kevents h2 s))
        as (h' & Hl & Hch & Hf); [|done| |done|done| |].
      { cbn [kevents set_kevents]. unfold h2. rewrite lookup_insert_ne by done. apply lookup_insert_eq. }
      { eapply chain_frame; [done|]. intros x Hx. apply lookup_insert_ne. by intros ->. }
      { rewrite El in Hs. pose proof (short_queue_prefix _ _ _ _ Hs). lia. }
      cbn [kevents set_kevents] in Hf. exists (set_kevents h' s). split; [exact Hl|]. cbn [kevents set_kevents event_queue].
      split; [|split; [|split; [done|]]].
      * unfold queue_insert, l. rewrite Ege. fold l. rewrite Hi. rewrite El in Hc.
        apply (chain_relink (kevents s) _ _ _ _ _ post _ (with_next kte eve)); [exact Hc| | |exact Hde|exact Hch].
        -- intros x Hx. rewrite Hf.
           ++ unfold h2, h1. rewrite !lookup_insert_ne; [done| |].
              ** intros <-. apply Hni. rewrite El, fmap_app. apply elem_of_app. by left.
              ** intros <-. apply (Hdis e Hx). left.
           ++ intros [->|Hin]%elem_of_cons; [apply Hni; rewrite El, fmap_app; apply elem_of_app; by left|].
              apply (Hdis x Hx). by right.
        -- rewrite Hf; [apply lookup_insert_eq|]. intros [->|Hin]%elem_of_cons; done.
      * unfold is_early, l. by rewrite Htd.
      * intros x Hx. apply not_elem_of_cons in Hx as [Hxk Hx]. rewrite El, fmap_app in Hx.
        apply not_elem_of_app in Hx as [_ Hx]. apply not_elem_of_cons in Hx as [Hxe Hxp].
        rewrite Hf by (by apply not_elem_of_cons). unfold h2, h1. by rewrite !lookup_insert_ne.
    + assert (Htd : (t <? d0) = true) by (apply Z.ltb_lt; lia).
      destruct (ktimer_enable_ok t (set_event_queue kte (set_kevents h1 s))) as (s1 & Hen & Hck & Hk & Hq & Htab).
      rewrite (bind_Done _ _ _ (e0, t) s1).
      2: { rewrite (bind_Done (modify _) _ _ _ _ eq_refl), (bind_Done _ _ _ _ _ Hen).
           rewrite s32_small by lia. done. }
      cbn [fst snd kevents event_queue ktimer_event_table set_kevents set_event_queue] in *.
      destruct (schedule_link kte (with_next NULL ev) l e0 t s1) as (h' & Hl & Hch & Hf); [|done| |done|done|lia|].
      { rewrite Hk. apply lookup_insert_eq. }
      { rewrite Hk. by rewrite <- Eq0. }
      exists (set_kevents h' s1). split; [exact Hl|]. cbn [kevents set_kevents event_queue ktimer_event_table].
      rewrite Hq. split; [|split; [|split; [done|]]].
      * unfold queue_insert, l. rewrite Ege. exact Hch.
      * unfold is_early, l. rewrite Htd. exact Hck.
      * intros x Hx. rewrite Hf by done. rewrite Hk. apply lookup_insert_ne. by apply not_elem_of_cons in Hx as [? _].
Qed.

(** ** Due times *)

(** The time of every event of the queue, counted from [start]. *)
Fixpoint times (start : Z) (l : list (Z * Z)) : list (Z * Z) :=
  match l with
  | [] => []
  | (e, d) :: l' => (e, start + d) :: times (start + d) l'
  end.

Lemma times_app start l1 l2 : times start (l1 ++ l2) = times start l1 ++ times (start + total l1) l2.
Proof.
  revert start. induction l1 as [|[e d] l1 IH]; intros start; simpl; [by rewrite Z.add_0_r|].
  rewrite IH. by rewrite Z.add_assoc.
Qed.

(** Where [insert_after] inserts an event that is later than that of [e]. *)
Lemma insert_after_place ticks kte etime pre e d post :
  Forall (fun x => 0 <= x.2) (pre ++ (e, d) :: post) -> etime + total pre + d < ticks ->
  match post with [] => True | (_, d') :: _ => ticks <= etime + total pre + d + d' end ->
  insert_after ticks kte etime (pre ++ (e, d) :: post) =
  pre ++ (e, d) :: (kte, min_ticks (ticks - (etime + total pre + d))) ::
    recalc_all (min_ticks (ticks - (etime + total pre + d))) post.
Proof.
  revert etime. induction pre as [|[x dx] pre IH]; intros etime Hf Hlt Hstop.
  - simpl total in *. rewrite Z.add_0_r in *. simpl app. destruct post as [|[e' d'] post]; [done|].
    rewrite insert_after_cons. destruct (Z.gtb_spec ticks (etime + d + d')); [lia|done].
  - simpl total in *. simpl app in *. apply Forall_cons in Hf as [Hx Hf]. simpl in Hx.
    replace (etime + (dx + total pre) + d) with (etime + dx + total pre + d) in * by lia.
    assert (Hrest : exists e' d' l', pre ++ (e, d) :: post = (e', d') :: l' /\ etime + dx + d' < ticks).
    { apply Forall_app in Hf as [Hfp Hfd]. pose proof (total_nonneg _ Hfp) as H0. destruct pre as [|[y dy] pre].
      - exists e, d, post. split; [done|]. simpl in Hlt. lia.
      - exists y, dy, (pre ++ (e, d) :: post). split; [done|]. simpl in Hlt.
        apply Forall_cons in Hfp as [_ Hfp]. apply Forall_cons in Hfd as [Hd _]. simpl in Hd.
        pose proof (total_nonneg _ Hfp). lia. }
    destruct Hrest as (e' & d' & l' & El & Hd'). rewrite El in *. rewrite insert_after_cons.
    destruct (Z.gtb_spec ticks (etime + dx + d')); [|lia]. by rewrite IH.
Qed.

Lemma recalc_all_small delta e d : 0 <= d - delta < u32_modulus -> recalc_all delta [(e, d)] = [(e, d - delta)].
Proof. intros H. unfold recalc_all. simpl. unfold sub32. by rewrite wrap32_small. Qed.

Lemma queue_insert_late ticks kte pre e d post :
  Forall (fun x => 0 <= x.2) (pre ++ (e, d) :: post) -> total pre + d < ticks ->
  CONFIG_KTIMER_MINTICKS <= ticks - (total pre + d) ->
  match post with [] => True | (_, d') :: _ => ticks <= total pre + d + d' end ->
  queue_insert ticks kte (pre ++ (e, d) :: post) =
  pre ++ (e, d) :: (kte, ticks - (total pre + d)) :: recalc_all (ticks - (total pre + d)) post.
Proof.
  intros Hf Hlt Hmin Hstop.
  assert (Hm : min_ticks (ticks - (total pre + d)) = ticks - (total pre + d)).
  { unfold min_ticks. destruct (Z.ltb_spec (ticks - (total pre + d)) CONFIG_KTIMER_MINTICKS); [lia|done]. }
  pose proof (insert_after_place ticks kte 0 pre e d post) as Hi. rewrite !Z.add_0_l, Hm in Hi. rewrite <- Hi by done.
  assert (H0 : 0 <= d /\ 0 <= total pre).
  { apply Forall_app in Hf as [Hf [Hd _]%Forall_cons]. split; [done|by apply total_nonneg]. }
  destruct pre as [|[x dx] pre]; simpl in *.
  - destruct (Z.geb_spec ticks d); [done|lia].
  - apply Forall_cons in Hf as [_ [Hf _]%Forall_app].
    pose proof (total_nonneg _ Hf). destruct (Z.geb_spec ticks dx); [done|lia].
Qed.

(** The latest of the times of a queue. *)
Definition latest (l : list (Z * Z)) : Z := match last l with Some x => x.2 | None => 0 end.

Lemma latest_times l : latest (times 0 l) = total l.
Proof.
  induction l as [|[e d] l _] using rev_ind; [done|].
  unfold latest. rewrite times_app, last_app. simpl. rewrite total_app. simpl. lia.
Qed.

Lemma times_length start l : length (times start l) = length l.
Proof. revert start. induction l as [|[] l IH]; intros start; simpl; [done|by rewrite IH]. Qed.

Lemma times_nil start l : bool_decide (times start l = []) = bool_decide (l = []).
Proof. apply bool_decide_ext. by destruct l as [|[] ?]. Qed.

Lemma times_ge start l : Forall (fun x => 0 <= x.2) l -> Forall (fun x => start <= x.2) (times start l).
Proof.
  revert start. induction l as [|[e d] l IH]; intros start Hf; simpl; [done|]. apply Forall_cons in Hf as [Hd Hf].
  simpl in Hd. constructor; [simpl; lia|]. eapply Forall_impl; [by apply IH|]. intros x Hx. simpl in Hx. lia.
Qed.

Lemma times_le start l : Forall (fun x => 0 <= x.2) l -> Forall (fun x => x.2 <= start + total l) (times start l).
Proof.
  revert start. induction l as [|[e d] l IH]; intros start Hf; simpl; [done|]. apply Forall_cons in Hf as [Hd Hf].
  simpl in Hd. pose proof (total_nonneg _ Hf). constructor; [simpl; lia|].
  eapply Forall_impl; [by apply IH|]. intros x Hx. simpl in Hx. lia.
Qed.

(** The recalculation in terms of due times: the error grows by [delta] from event to event. *)
Lemma times_recalc start delta l :
  short_queue l -> Forall (fun x => delta <= x.2) l -> 0 <= delta ->
  times (start + delta) (recalc_all delta l) = imap (fun n x => (x.1, x.2 - Z.of_nat n * delta)) (times start l).
Proof.
  intros Hs Hd H0. cut (forall k, times (start + delta - k * delta) (recalc_all delta l) =
    imap (fun n x => (x.1, x.2 - (k + Z.of_nat n) * delta)) (times start l)).
  { intros H. specialize (H 0). rewrite Z.mul_0_l, Z.sub_0_r in H. rewrite H. by apply imap_ext. }
  revert start Hs Hd. induction l as [|[e d] l IH]; intros start Hs Hd k; [done|].
  apply short_queue_cons in Hs as (Hd0 & Htot & Hlt & Hs). apply Forall_cons in Hd as [Hde Hd]. simpl in Hde.
  cbn [recalc_all times fmap list_fmap imap fst snd]. unfold sub32 at 1.
  rewrite wrap32_small by (unfold is_u32, u32_modulus; lia). f_equal; [f_equal; lia|].
  unfold sub32. rewrite wrap32_small by (unfold is_u32, u32_modulus; lia).
  replace (start + delta - k * delta + (d - delta)) with (start + d + delta - (k + 1) * delta) by lia.
  etransitivity; [by apply IH|]. apply imap_ext. intros n x _. simpl. do 2 f_equal. lia.
Qed.

(** Where [insert_after] inserts: behind the last event that is not later, or behind the first one. *)
Lemma insert_after_split ticks kte etime e d l :
  Forall (fun x => 0 <= x.2) ((e, d) :: l) -> etime + d <= ticks ->
  exists pre post, (e, d) :: l = pre ++ post /\ pre <> [] /\
    insert_after ticks kte etime ((e, d) :: l) =
      pre ++ (kte, min_ticks (ticks - (etime + total pre))) :: recalc_all (min_ticks (ticks - (etime + total pre))) post /\
    etime + total pre <= ticks /\ (forall e' d' post', post = (e', d') :: post' -> ticks <= etime + total pre + d').
Proof.
  revert etime e d. induction l as [|[e' d'] l IH]; intros etime e d Hf Hle.
  - exists [(e, d)], []. simpl. rewrite Z.add_0_r. by repeat split.
  - rewrite insert_after_cons. destruct (Z.gtb_spec ticks (etime + d + d')).
    + apply Forall_cons in Hf as [_ Hf]. destruct (IH (etime + d) e' d' Hf) as (pre & post & El & Hne & Ei & Ht & Hp); [lia|].
      exists ((e, d) :: pre), post. split; [by rewrite El|]. split; [done|]. simpl total.
      rewrite Z.add_assoc. split; [by rewrite Ei|]. by split.
    + exists [(e, d)], ((e', d') :: l). simpl total. rewrite Z.add_0_r. split; [done|]. split; [done|]. split; [done|].
      split; [lia|]. intros x y z E. injection E as <- <- <-. lia.
Qed.

Lemma queue_insert_split ticks kte l :
  short_queue l -> 0 <= ticks < 2147483648 ->
  exists pre post (delta := if bool_decide (l = []) then ticks else min_ticks (ticks - total pre)), l = pre ++ post /\
    queue_insert ticks kte l = pre ++ (kte, delta) :: recalc_all delta post /\
    Forall (fun x => x.2 <= ticks) (times 0 pre) /\ Forall (fun x => ticks <= x.2) (times (total pre) post) /\
    0 <= delta /\ (forall e d post', post = (e, d) :: post' -> delta <= d) /\
    is_early ticks l = bool_decide (pre = []).
Proof.
  intros [Hf Htot] Ht. assert (Hm : forall x, 0 <= x -> 0 <= min_ticks x <= x).
  { intros x Hx. unfold min_ticks. destruct (x <? CONFIG_KTIMER_MINTICKS); lia. }
  destruct l as [|[e d] l].
  { exists [], []. cbv zeta. rewrite bool_decide_eq_true_2 by done. by split_and!; try lia. }
  cbn [queue_insert is_early]. rewrite (bool_decide_eq_false_2 ((e, d) :: l = [])) by done.
  destruct (Z.geb_spec ticks d) as [Hge|Hlt].
  - destruct (insert_after_split ticks kte 0 e d l Hf) as (pre & post & El & Hne & Ei & Hle & Hp); [lia|].
    rewrite Z.add_0_l in Ei, Hle, Hp. exists pre, post. cbv zeta. split; [done|]. split; [exact Ei|].
    rewrite El in Hf. apply Forall_app in Hf as [Hf1 Hf2]. split; [|split; [|split; [|split]]].
    + eapply Forall_impl; [by apply (times_le 0)|]. intros x Hx. simpl in Hx. lia.
    + destruct post as [|[e' d'] post]; [done|]. specialize (Hp e' d' post eq_refl). cbn [times].
      constructor; [done|]. apply Forall_cons in Hf2 as [_ Hf2].
      eapply Forall_impl; [by apply times_ge|]. intros x Hx. simpl in Hx. lia.
    + apply Hm. lia.
    + intros e' d' post' E. specialize (Hp _ _ _ E). pose proof (Hm (ticks - total pre)). lia.
    + rewrite bool_decide_eq_false_2 by done. apply Z.ltb_ge. lia.
  - exists [], ((e, d) :: l). cbv zeta. simpl total. rewrite Z.sub_0_r. split; [done|]. split; [done|].
    split; [done|]. split; [|split; [|split]].
    + cbn [times]. apply Forall_cons in Hf as [Hd Hf]. constructor; [simpl; lia|].
      eapply Forall_impl; [by apply times_ge|]. intros x Hx. simpl in Hx. lia.
    + apply Hm. lia.
    + intros e' d' post' E. injection E as <- <- <-. pose proof (Hm ticks). lia.
    + by apply Z.ltb_lt.
Qed.

(** ** Ticks *)

Lemma ktimer_tick_early s :
  truth (ktimer_enabled s) = true -> 1 < ktimer_delta s < u32_modulus -> 0 <= ktimer_now s -> ktimer_now s + 1 < 2 ^ 64 ->
  ktimer_tick s = Done (false, set_clock (ktimer_now s + 1) (ktimer_enabled s) (ktimer_delta s - 1) (ktimer_time s + 1) s).
Proof.
  intros He Hd Hn0 Hn. unfold ktimer_tick. rewrite He, (proj2 (Z.ltb_lt 0 _)) by lia. cbn [andb].
  unfold sub32. rewrite wrap32_small by (unfold is_u32; lia). rewrite (proj2 (Z.eqb_neq _ 0)) by lia.
  by rewrite Z.mod_small by lia.
Qed.

Lemma ktimer_tick_last s :
  truth (ktimer_enabled s) = true -> ktimer_delta s = 1 -> 0 <= ktimer_now s -> ktimer_now s + 1 < 2 ^ 64 ->
  ktimer_tick s = Done (true, set_clock (ktimer_now s + 1) 0 0 0 s).
Proof.
  intros He Hd Hn0 Hn. unfold ktimer_tick. rewrite He, Hd, Z.mod_small by lia. done.
Qed.

Section ticks.
Context {S : Type} `{!Part ktimerstate S} `{!Part softirqs S} `{!Part thrstate S} `{!PartLaws ktimerstate S}.

(** [n] interrupts of the system timer. *)
Fixpoint ktimer_ticks (n : nat) : M S unit :=
  match n with
  | O => mret tt
  | Datatypes.S n' => __ktimer_handler;; ktimer_ticks n'
  end.

Lemma ktimer_ticks_early n (s : S) (k : ktimerstate) :
  get_part s = k -> truth (ktimer_enabled k) = true -> Z.of_nat n < ktimer_delta k < u32_modulus ->
  0 <= ktimer_now k -> ktimer_now k + Z.of_nat n < 2 ^ 64 ->
  ktimer_ticks n s = Done (tt, put_part (set_clock (ktimer_now k + Z.of_nat n) (ktimer_enabled k)
    (ktimer_delta k - Z.of_nat n) (ktimer_time k + Z.of_nat n) k) s).
Proof.
  revert s k. induction n as [|n IH]; intros s k Hg He Hd Hn0 Hn.
  { simpl. rewrite !Z.add_0_r, Z.sub_0_r. rewrite <- (put_get s) at 1.
    do 3 f_equal. rewrite Hg. by destruct k. }
  cbn [ktimer_ticks]. set (k1 := set_clock (ktimer_now k + 1) (ktimer_enabled k) (ktimer_delta k - 1) (ktimer_time k + 1) k).
  rewrite (bind_Done _ _ s tt (put_part k1 s)).
  2: { unfold __ktimer_handler. rewrite (bind_Done _ _ s false (put_part k1 s)); [done|].
       apply on_Done. rewrite Hg. apply ktimer_tick_early; [done|lia..]. }
  rewrite (IH _ k1) by (rewrite ?get_put; simpl; done || lia). rewrite put_put. do 3 f_equal.
  unfold k1, set_clock. simpl. f_equal; lia.
Qed.

Lemma ktimer_ticks_app n m s : ktimer_ticks (n + m) s = (ktimer_ticks n;; ktimer_ticks m) s.
Proof.
  revert s. induction n as [|n IH]; intros s; [done|]. cbn [ktimer_ticks Nat.add].
  unfold mbind, M_bind in *. destruct (__ktimer_handler s) as [[[] s1]| | |]; [apply IH|done..].
Qed.
End ticks.

(** ** Dispatch of events *)

(** The events that are due together: the first and those at distance 0 behind it. *)
Fixpoint due_rest (l : list (Z * Z)) : list (Z * Z) :=
  match l with
  | (e, d) :: l' => if d =? 0 then due_rest l' else l
  | [] => []
  end.
Fixpoint due_prefix (l : list (Z * Z)) : list Z :=
  match l with
  | (e, d) :: l' => if d =? 0 then e :: due_prefix l' else []
  | [] => []
  end.

Lemma last_due_ok fuel e d l s :
  chain (kevents s) e ((e, d) :: l) -> (length l < fuel)%nat ->
  last_due fuel e s = Done (head_event (due_rest l), s).
Proof.
  revert e d fuel. induction l as [|[e' d'] l IH]; intros e d fuel (_ & Hn & ev & He & Hd & Hc) Hlen;
    (destruct fuel as [|fuel]; [lia|]); cbn [last_due]; rewrite (bind_Done _ _ _ _ _ (get_kte_ok _ _ _ He));
    pose proof (chain_head _ _ _ Hc) as Eh; rewrite Eh; cbn [head_event due_rest]; [by rewrite Z.eqb_refl|].
  pose proof Hc as (_ & Hn' & ev' & He' & Hd' & _). rewrite (proj2 (Z.eqb_neq _ _)) by done.
  rewrite (bind_Done _ _ _ _ _ (get_kte_ok _ _ _ He')), Hd'.
  destruct (d' =? 0); [|done]. simpl in Hlen. apply (IH e' d'); [|lia]. by rewrite Eh in Hc.
Qed.

Lemma due_split l : l.*1 = due_prefix l ++ (due_rest l).*1.
Proof. induction l as [|[e d] l IH]; [done|]. simpl. destruct (d =? 0); [simpl; f_equal; exact IH|done]. Qed.

Lemma chain_due_rest h e d l ev :
  chain h e ((e, d) :: l) -> h !! e = Some ev -> chain h (head_event (due_rest l)) (due_rest l).
Proof.
  intros (_ & _ & ev' & He & _ & Hc) _. revert ev' He Hc. generalize e. clear e.
  induction l as [|[e' d'] l IH]; intros e ev' He Hc; [done|]. cbn [due_rest]. destruct (d' =? 0).
  - destruct Hc as (_ & _ & ev2 & He2 & _ & Hc). by eapply (IH e').
  - by rewrite <- (chain_head _ _ _ Hc).
Qed.

Definition handler_of (h : gmap Z ktimer_event) (e : Z) : Z :=
  match h !! e with Some ev => kte_handler ev | None => NULL end.

(** The events [es], each linked to the next and the last of them to [last_event]. *)
Fixpoint segment (h : gmap Z ktimer_event) (es : list Z) (last_event : Z) : Prop :=
  match es with
  | [] => True
  | e :: es' => e <> NULL /\ (exists ev, h !! e = Some ev /\ kte_next ev = default last_event (head es')) /\
                segment h es' last_event
  end.

Lemma segment_frame h h' es last_event :
  segment h es last_event -> (forall e, e ∈ es -> h' !! e = h !! e) -> segment h' es last_event.
Proof.
  induction es as [|e es IH]; simpl; [done|]. intros (Hn & (ev & He & Hx) & Hs) Hf. split; [done|]. split.
  - exists ev. by rewrite Hf by left.
  - apply IH; [done|]. intros x Hx'. apply Hf. by right.
Qed.

Lemma segment_due h e d l :
  chain h e ((e, d) :: l) -> segment h (e :: due_prefix l) (head_event (due_rest l)).
Proof.
  revert e d. induction l as [|[e' d'] l IH]; intros e d (_ & Hn & ev & He & Hd & Hc);
    pose proof (chain_head _ _ _ Hc) as Eh; (split; [done|]); cbn [due_prefix due_rest].
  - split; [|done]. by exists ev.
  - cbn [head_event] in Eh. destruct (d' =? 0).
    + split; [by exists ev|]. apply (IH e' d'). by rewrite Eh in Hc.
    + split; [|done]. by exists ev.
Qed.

(** The queue and the timer when the handlers of the events [es] have returned [ret]: an event
    whose handler returns a time is scheduled again; the timer is started by the first that is
    the earliest of the queue then. *)
Fixpoint reschedule (ret : Z -> Z) (es : list Z) (q : list (Z * Z)) : list (Z * Z) :=
  match es with
  | [] => q
  | e :: es' => reschedule ret es' (if ret e =? 0 then q else queue_insert (ret e) e q)
  end.
Fixpoint rearmed (ret : Z -> Z) (es : list Z) (q : list (Z * Z)) : option Z :=
  match es with
  | [] => None
  | e :: es' =>
      if ret e =? 0 then rearmed ret es' q
      else if is_early (ret e) q then Some (ret e) else rearmed ret es' (queue_insert (ret e) e q)
  end.
(** The times of the queue stay in 31 bits. *)
Fixpoint reschedulable (ret : Z -> Z) (es : list Z) (q : list (Z * Z)) : Prop :=
  match es with
  | [] => True
  | e :: es' => 0 <= ret e < 2147483648 /\ short_queue q /\
                reschedulable ret es' (if ret e =? 0 then q else queue_insert (ret e) e q)
  end.

Lemma queue_insert_fst ticks kte l :
  short_queue l -> 0 <= ticks < 2147483648 -> (queue_insert ticks kte l).*1 ≡ₚ kte :: l.*1.
Proof.
  intros Hs Ht. destruct (queue_insert_split ticks kte l Hs Ht) as (pre & post & El & Ei & _).
  rewrite Ei, El, !fmap_app. simpl. rewrite recalc_all_fst. by rewrite <- Permutation_middle.
Qed.

Lemma reschedule_events ret es q :
  reschedulable ret es q -> (reschedule ret es q).*1 ≡ₚ filter (fun e => ret e <> 0) es ++ q.*1.
Proof.
  revert q. induction es as [|e es IH]; intros q; simpl; [done|]. intros (Hr & Hs & Hok). rewrite (IH _ Hok), filter_cons.
  destruct (Z.eqb_spec (ret e) 0) as [E|E]; case_decide; try done.
  rewrite queue_insert_fst by done. simpl. by rewrite <- Permutation_middle.
Qed.

Lemma queue_insert_nonempty ticks kte l : queue_insert ticks kte l <> [].
Proof.
  destruct l as [|[e d] l]; [done|]. unfold queue_insert. destruct (ticks >=? d); [|done].
  simpl. by destruct (match l with [] => false | _ => _ end).
Qed.

Lemma rearmed_queue ret es q d : rearmed ret es q = Some d -> reschedule ret es q <> [].
Proof.
  assert (Hne : forall es q, q <> [] -> reschedule ret es q <> []).
  { clear. intros es. induction es as [|e es IH]; intros q Hq; [done|]. cbn [reschedule]. apply IH.
    destruct (ret e =? 0); [done|apply queue_insert_nonempty]. }
  revert q. induction es as [|e es IH]; intros q; [done|]. cbn [rearmed reschedule].
  destruct (ret e =? 0); [apply IH|]. intros _. apply Hne, queue_insert_nonempty.
Qed.

Definition set_timer (tm : option Z) (c : Z * Z * Z * Z) : Z * Z * Z * Z :=
  match tm with None => c | Some d => (c.1.1.1, 1, d, 0) end.

Section dispatch.
Context {S : Type} `{!Part ktimerstate S} `{!PartLaws ktimerstate S}.
Variable call_event : Z -> Z -> M S Z.
Variable trace : S -> list (Z * Z).
Variable ret : Z -> Z -> Z.
Hypothesis trace_ktimer : forall (k : ktimerstate) s, trace (put_part k s) = trace s.
(** The handlers return and leave the timer alone. *)
Hypothesis call_ok : forall code e s, exists s', call_event code e s = Done (ret code e, s') /\
  (get_part s' : ktimerstate) = get_part s /\ trace s' = trace s ++ [(code, e)].

(** One event: its handler is called, and it is scheduled again or freed. *)
Lemma dispatch_one e ev q h0 c0 tm (s : S) (r := ret (kte_handler ev) e) :
  kevents (get_part s) !! e = Some ev -> e <> NULL ->
  chain (kevents (get_part s)) (event_queue (get_part s)) q -> NoDup q.*1 -> e ∉ q.*1 ->
  (0 <= r < 2147483648) -> short_queue q ->
  clock (get_part s) = set_timer tm (c0, 0, h0, 0) ->
  kt_wf (ktimer_event_table (get_part s)) -> e ∈ kt_slots (ktimer_event_table (get_part s)) ->
  exists s1 s2, call_event (kte_handler ev) e s = Done (r, s1) /\ kevents (get_part s1) !! e = Some ev /\
    (if negb (r =? 0) then on (ktimer_event_schedule r e);; mret tt
     else on (in_event_table (ktable_free e))) s1 = Done (tt, s2) /\
    trace s2 = trace s ++ [(kte_handler ev, e)] /\
    chain (kevents (get_part s2)) (event_queue (get_part s2)) (if r =? 0 then q else queue_insert r e q) /\
    (forall x, x ∉ e :: q.*1 -> kevents (get_part s2) !! x = kevents (get_part s) !! x) /\
    clock (get_part s2) = set_timer (match tm with Some d => Some d | None =>
      if negb (r =? 0) && is_early r q then Some r else None end) (c0, 0, h0, 0) /\
    kt_wf (ktimer_event_table (get_part s2)) /\
    kt_slots (ktimer_event_table (get_part s2)) = kt_slots (ktimer_event_table (get_part s)) /\
    kt_live (ktimer_event_table (get_part s2)) =
      kt_live (ktimer_event_table (get_part s)) ∖ (if r =? 0 then {[e]} else ∅).
Proof.
  intros He Hn Hq Hnd Hni Hr Hs Hck Hwf Hin.
  destruct (call_ok (kte_handler ev) e s) as (s1 & Hc & Hp & Ht). fold r in Hc. exists s1.
  assert (Htime : ktimer_time (get_part s) = 0) by (unfold clock in Hck; destruct tm; by injection Hck).
  destruct (Z.eqb_spec r 0) as [E|E]; cbn [negb andb].
  - destruct (pool_free_live (Pool := ktable_pool) (ktimer_event_table (get_part s)) e Hwf Hin) as (kt1 & Hf & Hwf1 & Hs1 & Hl1).
    simpl in Hwf1, Hs1, Hl1. exists (put_part (set_event_table kt1 (get_part s)) s1). split; [done|]. rewrite Hp. split; [done|].
    split; [apply on_Done; unfold in_event_table, zoom; by rewrite Hp, Hf|].
    rewrite trace_ktimer, get_put. split; [done|]. split; [done|]. split; [done|]. split; [by destruct tm|]. done.
  - destruct (ktimer_event_schedule_ok r e q (get_part s)) as (k' & Hk & Hch & Hck' & Htab & Hfr);
      [done|done|done|by eexists|done|done|done|lia|]. rewrite Htime, Z.sub_0_r in Hch, Hck'.
    exists (put_part k' s1). split; [done|]. rewrite Hp. split; [done|].
    split; [by rewrite (bind_Done _ _ _ 0 (put_part k' s1)) by (apply on_Done; by rewrite Hp)|].
    rewrite trace_ktimer, get_put. split; [done|]. split; [done|]. split; [done|]. rewrite Htab. split; [|set_solver].
    rewrite Hck'. unfold enabled_clock. rewrite Hck. unfold clock in Hck.
    destruct tm; injection Hck as E1 E2 _ _; rewrite E1, E2; simpl; by destruct (is_early r q).
Qed.

Lemma dispatch_events_ok h last_event c0 delta0 fuel es e q tm (s : S) (rr := fun e => ret (handler_of h e) e) :
  segment h (e :: es) last_event -> NoDup (e :: es) -> last_event ∉ e :: es ->
  (forall x, x ∈ e :: es -> kevents (get_part s) !! x = h !! x) ->
  chain (kevents (get_part s)) (event_queue (get_part s)) q -> NoDup q.*1 -> (forall x, x ∈ e :: es -> x ∉ q.*1) ->
  reschedulable rr (e :: es) q -> clock (get_part s) = set_timer tm (c0, 0, delta0, 0) ->
  kt_wf (ktimer_event_table (get_part s)) ->
  (forall x, x ∈ e :: es -> x ∈ kt_slots (ktimer_event_table (get_part s))) -> (length es < fuel)%nat ->
  exists s', dispatch_events call_event fuel last_event e s = Done (tt, s') /\
    trace s' = trace s ++ ((fun x => (handler_of h x, x)) <$> e :: es) /\
    chain (kevents (get_part s')) (event_queue (get_part s')) (reschedule rr (e :: es) q) /\
    clock (get_part s') = set_timer (match tm with Some d => Some d | None => rearmed rr (e :: es) q end) (c0, 0, delta0, 0) /\
    kt_live (ktimer_event_table (get_part s')) =
      kt_live (ktimer_event_table (get_part s)) ∖ list_to_set (filter (fun x => rr x = 0) (e :: es)).
Proof.
  revert es e q tm s. induction fuel as [|fuel IH]; intros es e q tm s Hseg Hnd Hlast Hh Hq Hndq Hdis Hok Hck Hwf Hin Hlen; [lia|].
  pose proof Hseg as (Hn & (ev & He & Hnext) & Hseg'). pose proof Hok as (Hr & Hs & Hok').
  assert (Hrr : rr e = ret (kte_handler ev) e) by (unfold rr, handler_of; by rewrite He).
  assert (Hho : handler_of h e = kte_handler ev) by (unfold handler_of; by rewrite He).
  assert (Hke : kevents (get_part s) !! e = Some ev) by (rewrite Hh by left; done).
  destruct (dispatch_one e ev q delta0 c0 tm s) as (s1 & s2 & Hc & He1 & Hr2 & Ht2 & Hq2 & Hf2 & Hck2 & Hwf2 & Hsl2 & Hlv2);
    [done|done|done|done|apply Hdis; left|by rewrite <- Hrr|done|done|done|apply Hin; left|].
  rewrite <- Hrr in *. cbn [dispatch_events].
  rewrite (bind_Done _ _ _ ev s) by (erewrite on_Done by (by apply get_kte_ok); by rewrite put_get).
  rewrite (bind_Done _ _ _ _ _ Hc).
  rewrite (bind_Done _ _ _ ev s1) by (erewrite on_Done by (by apply get_kte_ok); by rewrite put_get).
  cbv zeta. rewrite (bind_Done _ _ _ _ _ Hr2), Hnext.
  set (q2 := if rr e =? 0 then q else queue_insert (rr e) e q) in *.
  assert (Hlive : forall l, filter (fun x => rr x = 0) (e :: l) = (if rr e =? 0 then [e] else []) ++ filter (fun x => rr x = 0) l).
  { intros l. rewrite filter_cons. destruct (Z.eqb_spec (rr e) 0); by case_decide. }
  assert (Htm : forall l, rearmed rr (e :: l) q = if negb (rr e =? 0) && is_early (rr e) q then Some (rr e) else rearmed rr l q2).
  { intros l. cbn [rearmed]. unfold q2. by destruct (rr e =? 0), (is_early (rr e) q). }
  destruct es as [|e' es']; cbn [head default].
  - assert (Hstop : negb (last_event =? NULL) && negb (last_event =? last_event) = false) by (rewrite Z.eqb_refl; apply andb_false_r).
    cbn [from_option id]. rewrite Hstop. exists s2. split; [done|]. split; [rewrite Ht2, <- Hho; done|]. split; [done|].
    rewrite Htm, Hlive, Hlv2, Hck2. split; [by destruct tm, (negb _ && _)|].
    destruct (rr e =? 0); set_solver.
  - pose proof Hseg' as (Hn' & _). cbn [from_option id]. rewrite (proj2 (Z.eqb_neq e' NULL)) by done.
    rewrite (proj2 (Z.eqb_neq e' last_event)) by (intros ->; apply Hlast; right; left). cbn [negb andb].
    apply NoDup_cons in Hnd as [Hne Hnd].
    assert (Hq2p : forall x, x ∈ q2.*1 -> x = e \/ x ∈ q.*1).
    { intros x. unfold q2. destruct (rr e =? 0); [by right|]. rewrite (queue_insert_fst _ _ _ Hs Hr). by intros [?|?]%elem_of_cons; [left|right]. }
    edestruct (IH es' e' q2) as (s' & Hrun & Ht & Hch & Hck' & Hlv).
    + done.
    + done.
    + intros Hx. apply Hlast. by right.
    + intros x Hx. rewrite Hf2; [apply Hh; by right|]. intros [->|Hxq]%elem_of_cons; [done|]. by apply (Hdis x); [right|].
    + exact Hq2.
    + unfold q2. destruct (rr e =? 0); [done|]. rewrite (queue_insert_fst _ _ _ Hs Hr). constructor; [apply Hdis; left|done].
    + intros x Hx [->|Hxq]%Hq2p; [done|]. by apply (Hdis x); [right|].
    + exact Hok'.
    + exact Hck2.
    + done.
    + intros x Hx. rewrite Hsl2. apply Hin. by right.
    + simpl in Hlen. lia.
    + exists s'. split; [exact Hrun|]. split; [rewrite Ht, Ht2, <- app_assoc, <- Hho; done|]. split; [exact Hch|].
      rewrite Htm, (Hlive (e' :: es')), Hck', Hlv, Hlv2. split; [by destruct tm, (negb _ && _)|].
      destruct (rr e =? 0); set_solver.
Qed.
End dispatch.

(** ** Properties *)


(** A timer with the events 10, 20 and 30 at distances 500, 400 and 300 and a free
    event 40; it was started 100 ticks ago. *)
Definition ktimer_example : ktimerstate :=
  mk_ktimer (DECLARE_KTABLE 4096 64 16)
    (<[10 := mk_kte 20 7 500 0]> (<[20 := mk_kte 30 8 400 0]> (<[30 := mk_kte 0 9 300 0]>
      (<[40 := mk_kte 0 0 0 0]> ∅)))) 10 1000 1 400 100 (mk_systick 0 0 0).

Lemma ktimer_example_chain :
  chain (kevents ktimer_example) (event_queue ktimer_example) [(10, 500); (20, 400); (30, 300)].
Proof.
  split; [done|]. split; [done|]. eexists. split; [reflexivity|]. split; [done|].
  split; [done|]. split; [done|]. eexists. split; [reflexivity|]. split; [done|].
  split; [done|]. split; [done|]. eexists. split; [reflexivity|]. done.
Qed.


(** With two or more events behind the new one, the recalculation is wrong: the
    distance of the new event is taken from the second follower as well, which then
    is due that much too early. *)
Theorem ktimer_event_schedule_drifts (ticks kte : Z) (pre post : list (Z * Z)) (e d e1 d1 e2 d2 : Z)
    (s : ktimerstate) (l := pre ++ (e, d) :: (e1, d1) :: (e2, d2) :: post)
    (Hc : chain (kevents s) (event_queue s) l) (Hnd : NoDup l.*1)
    (Hs : short_queue l) (He : is_Some (kevents s !! kte)) (Hn : kte <> NULL)
    (Hni : kte ∉ l.*1) (Ht0 : ticks <> 0) (delta := ticks - ktimer_time s - (total pre + d))
    (Hmin : CONFIG_KTIMER_MINTICKS <= delta) (H1 : delta <= d1) (H2 : delta <= d2) :
  exists s' l', ktimer_event_schedule ticks kte s = Done (0, s') /\
    chain (kevents s') (event_queue s') l' /\
    (e2, total pre + d + d1 + d2) ∈ times 0 l /\ (e2, total pre + d + d1 + d2 - delta) ∈ times 0 l'.
Proof.
  set (t := ticks - ktimer_time s) in *. pose proof Hs as [Hf Htot].
  pose proof (short_queue_prefix _ _ _ _ Hs) as H0. unfold CONFIG_KTIMER_MINTICKS in Hmin.
  assert (Hb : 0 <= d1 /\ 0 <= d2 /\ total pre + d + (d1 + d2) < 2147483648).
  { unfold l in Hf, Htot. rewrite total_app in Htot. apply Forall_app in Hf as [_ Hf].
    do 3 (apply Forall_cons in Hf as [? Hf]). pose proof (total_nonneg _ Hf). simpl in *. lia. }
  destruct (ktimer_event_schedule_ok ticks kte l s) as (s' & Hr & Hch & _); [done..|lia|].
  exists s', (queue_insert t kte l). split; [done|]. split; [done|]. unfold l.
  rewrite queue_insert_late; [|done|lia|unfold CONFIG_KTIMER_MINTICKS; lia|lia].
  rewrite !times_app, !Z.add_0_l. fold delta. unfold recalc_all. simpl. unfold sub32.
  rewrite !wrap32_small by (unfold is_u32, u32_modulus; lia). split.
  - apply elem_of_app. right. do 2 right. left.
  - apply elem_of_app. right. do 3 right.
    replace (total pre + d + delta + (d1 - delta) + (d2 - delta)) with (total pre + d + d1 + d2 - delta) by lia. left.
Qed.

Lemma ktimer_event_schedule_drifts_witness :
  exists s' l', ktimer_event_schedule 750 40 ktimer_example = Done (0, s') /\
    chain (kevents s') (event_queue s') l' /\
    (30, 1200) ∈ times 0 [(10, 500); (20, 400); (30, 300)] /\ (30, 1050) ∈ times 0 l'.
Proof.
  apply (ktimer_event_schedule_drifts 750 40 [] [] 10 500 20 400 30 300 ktimer_example).
  - apply ktimer_example_chain.
  - apply (bool_decide_unpack _). vm_compute. exact I.
  - split; [|reflexivity]. repeat constructor; simpl; lia.
  - by eexists.
  - done.
  - apply (bool_decide_unpack _). vm_compute. exact I.
  - done.
  - simpl. unfold CONFIG_KTIMER_MINTICKS. lia.
  - simpl. lia.
  - simpl. lia.
Defined.

(** An event that becomes the first of the queue while the timer runs does not
    restart the timer, as the comment in the code means to: the timer goes on to the
    time of the former first event. *)
Theorem ktimer_early_event_late (ticks kte e d : Z) (l : list (Z * Z)) (s : ktimerstate)
    (Hc : chain (kevents s) (event_queue s) ((e, d) :: l)) (Hnd : NoDup ((e, d) :: l).*1)
    (Hs : short_queue ((e, d) :: l)) (He : is_Some (kevents s !! kte)) (Hn : kte <> NULL)
    (Hni : kte ∉ ((e, d) :: l).*1) (Ht0 : ticks <> 0) (Ht : 0 <= ticks - ktimer_time s < d)
    (Hrun : ktimer_enabled s = 1) :
  exists s', ktimer_event_schedule ticks kte s = Done (0, s') /\
    event_queue s' = kte /\ ktimer_delta s' = ktimer_delta s /\ ktimer_time s' = ktimer_time s.
Proof.
  pose proof Hs as [_ Htot]. apply short_queue_cons in Hs as Hs'. simpl in Htot.
  destruct (ktimer_event_schedule_ok ticks kte ((e, d) :: l) s) as (s' & Hr & Hch & Hck & _); [done..|lia|].
  exists s'. split; [done|]. cbn [queue_insert is_early] in Hch, Hck.
  destruct (Z.geb_spec (ticks - ktimer_time s) d); [lia|]. destruct (Z.ltb_spec (ticks - ktimer_time s) d); [|lia].
  split; [by destruct Hch as [? _]|]. unfold enabled_clock in Hck. rewrite Hrun in Hck. simpl in Hck.
  by injection Hck as _ _ Hd Ht'.
Qed.

Lemma ktimer_early_event_late_witness :
  exists s', ktimer_event_schedule 300 40 ktimer_example = Done (0, s') /\
    event_queue s' = 40 /\ ktimer_delta s' = 400.
Proof.
  destruct (ktimer_early_event_late 300 40 10 500 [(20, 400); (30, 300)] ktimer_example)
    as (s' & Hr & Hq & Hd & _).
  - apply ktimer_example_chain.
  - apply (bool_decide_unpack _). vm_compute. exact I.
  - split; [|reflexivity]. repeat constructor; simpl; lia.
  - by eexists.
  - done.
  - apply (bool_decide_unpack _). vm_compute. exact I.
  - done.
  - simpl. lia.
  - done.
  - exists s'. split; [done|]. split; [done|]. exact Hd.
Defined.

(** C20. A timer that is enabled with [delta] ticks: in none of the first [delta - 1] interrupts
    of the system timer anything but its counters is changed; in the next one it is stopped,
    [KTE_SOFTIRQ], and no other soft interrupt, is scheduled, and the kernel thread is made runnable. *)
Theorem ktimer_fires_on_time {S} `{!Part ktimerstate S} `{!Part softirqs S} `{!Part thrstate S}
    `{!PartLaws ktimerstate S} `{!PartLaws softirqs S} `{!PartLaws thrstate S}
    `{!Disjoint_parts softirqs ktimerstate S} `{!Disjoint_parts thrstate ktimerstate S}
    `{!Disjoint_parts thrstate softirqs S} `{!Disjoint_parts softirqs thrstate S}
    `{!Disjoint_parts ktimerstate softirqs S} `{!Disjoint_parts ktimerstate thrstate S}
    (delta : nat) (s : S) (x : softirq_t) (k : tcb) (now := ktimer_now (get_part s))
    (Hoff : ktimer_enabled (get_part s) = 0) (Hd : 0 < Z.of_nat delta < u32_modulus)
    (H0 : 0 <= now) (Hnow : now + Z.of_nat delta < 2 ^ 64)
    (Hx : (get_part s : softirqs) !! Z.to_nat KTE_SOFTIRQ = Some x)
    (Hk : tcbs (get_part s) !! kernel (get_part s) = Some k) :
  (forall n, (n < delta)%nat -> exists s',
     (on (ktimer_enable (Z.of_nat delta));; ktimer_ticks n) s = Done (tt, s') /\
     (get_part s' : softirqs) = get_part s /\ (get_part s' : thrstate) = get_part s /\
     clock (get_part s') = (now + Z.of_nat n, 1, Z.of_nat delta - Z.of_nat n, Z.of_nat n)) /\
  exists s', (on (ktimer_enable (Z.of_nat delta));; ktimer_ticks delta) s = Done (tt, s') /\
    (get_part s' : softirqs) = <[Z.to_nat KTE_SOFTIRQ := mk_softirq 1 (si_handler x)]> (get_part s) /\
    (get_part s' : thrstate) = set_tcbs (<[kernel (get_part s) := with_state T_RUNNABLE k]> (tcbs (get_part s))) (get_part s) /\
    clock (get_part s') = (now + Z.of_nat delta, 0, 0, 0).
Proof.
  set (k0 := get_part s : ktimerstate) in *. set (k1 := set_clock now 1 (Z.of_nat delta) 0 k0).
  assert (Hen : on (ktimer_enable (Z.of_nat delta)) s = Done (tt, put_part k1 s)).
  { apply on_Done. unfold ktimer_enable. rewrite (bind_Done (gets ktimer_enabled) _ _ _ _ eq_refl). fold k0. by rewrite Hoff. }
  assert (Hearly : forall n, (n < delta)%nat -> (on (ktimer_enable (Z.of_nat delta));; ktimer_ticks n) s =
    Done (tt, put_part (set_clock (now + Z.of_nat n) 1 (Z.of_nat delta - Z.of_nat n) (Z.of_nat n) k0) s)).
  { intros n Hn. rewrite (bind_Done _ _ _ _ _ Hen).
    rewrite (ktimer_ticks_early n _ k1) by (rewrite ?get_put; simpl; done || lia). by rewrite put_put. }
  split.
  - intros n Hn. eexists. split; [by apply Hearly|]. by rewrite (get_put_other (P := softirqs)), (get_put_other (P := thrstate)), get_put.
  - destruct delta as [|n]; [lia|]. specialize (Hearly n (Nat.lt_succ_diag_r n)).
    rewrite (bind_Done _ _ _ _ _ Hen) in Hearly. rewrite (bind_Done _ _ _ _ _ Hen).
    replace (Datatypes.S n) with (n + 1)%nat by lia. rewrite ktimer_ticks_app, (bind_Done _ _ _ _ _ Hearly).
    set (s1 := put_part (set_clock _ _ _ _ k0) s). cbn [ktimer_ticks].
    set (s2 := put_part (set_clock (now + Z.of_nat (n + 1)) 0 0 0 k0) s).
    rewrite (bind_Done _ _ s1 tt (softirq_scheduled KTE_SOFTIRQ x k s2)).
    2: { unfold __ktimer_handler. rewrite (bind_Done _ _ s1 true s2).
         - apply softirq_schedule_ok; unfold s2.
           + done.
           + by rewrite (get_put_other (P := softirqs)).
           + by rewrite (get_put_other (P := thrstate)).
         - unfold s2. rewrite <- (put_put _ (set_clock (now + Z.of_nat n) 1 (Z.of_nat (Datatypes.S n) - Z.of_nat n) (Z.of_nat n) k0) s).
           apply on_Done. unfold s1. rewrite get_put. rewrite ktimer_tick_last by (simpl; done || lia).
           do 2 f_equal. unfold set_clock. simpl. f_equal; lia. }
    eexists. split; [done|]. unfold softirq_scheduled, s2.
    repeat first [rewrite get_put|rewrite (get_put_other (P := thrstate))|rewrite (get_put_other (P := softirqs))|
      rewrite (get_put_other (P := ktimerstate))]. done.
Qed.


(** A state of the timer, the soft interrupts and the dispatcher, with a log of the handlers called. *)
Record timer_world := mk_timer_world { tw_ktimer : ktimerstate; tw_softirqs : softirqs; tw_thr : thrstate; tw_log : list (Z * Z) }.
#[local] Instance timer_world_ktimer : Part ktimerstate timer_world :=
  {| get_part := tw_ktimer; put_part := fun x w => mk_timer_world x (tw_softirqs w) (tw_thr w) (tw_log w) |}.
#[local] Instance timer_world_softirqs : Part softirqs timer_world :=
  {| get_part := tw_softirqs; put_part := fun x w => mk_timer_world (tw_ktimer w) x (tw_thr w) (tw_log w) |}.
#[local] Instance timer_world_thr : Part thrstate timer_world :=
  {| get_part := tw_thr; put_part := fun x w => mk_timer_world (tw_ktimer w) (tw_softirqs w) x (tw_log w) |}.
#[local] Instance timer_world_ktimer_laws : PartLaws ktimerstate timer_world.
Proof. split; [done|by intros []|done]. Qed.
#[local] Instance timer_world_softirqs_laws : PartLaws softirqs timer_world.
Proof. split; [done|by intros []|done]. Qed.
#[local] Instance timer_world_thr_laws : PartLaws thrstate timer_world.
Proof. split; [done|by intros []|done]. Qed.

#[local] Instance timer_world_disjoint1 : Disjoint_parts softirqs ktimerstate timer_world.
Proof. by split. Qed.
#[local] Instance timer_world_disjoint2 : Disjoint_parts thrstate ktimerstate timer_world.
Proof. by split. Qed.
#[local] Instance timer_world_disjoint3 : Disjoint_parts thrstate softirqs timer_world.
Proof. by split. Qed.
#[local] Instance timer_world_disjoint4 : Disjoint_parts softirqs thrstate timer_world.
Proof. by split. Qed.
#[local] Instance timer_world_disjoint5 : Disjoint_parts ktimerstate softirqs timer_world.
Proof. by split. Qed.
#[local] Instance timer_world_disjoint6 : Disjoint_parts ktimerstate thrstate timer_world.
Proof. by split. Qed.

(** The handler 7 asks to be called again after 4096 ticks, as [ipc_deliver] does. *)
Definition log_ret (code e : Z) : Z := if code =? 7 then 4096 else 0.
Definition log_event (code e : Z) : M timer_world Z := fun s =>
  Done (log_ret code e, mk_timer_world (tw_ktimer s) (tw_softirqs s) (tw_thr s) (tw_log s ++ [(code, e)])).

(** The first two events of the table are due together, the third 300 ticks later; the kernel thread
    is at 100. *)
Definition due_example : timer_world :=
  mk_timer_world
    (mk_ktimer (mk_ktable (7 :: replicate 63 0) 4096 64 16)
      (<[4096 := mk_kte 4112 7 500 0]> (<[4112 := mk_kte 4128 8 0 0]> (<[4128 := mk_kte 0 9 300 0]> ∅)))
      4096 1000 0 0 0 (mk_systick 0 0 0))
    [mk_softirq 0 11; mk_softirq 0 0; mk_softirq 0 13; mk_softirq 0 14]
    (set_systhreads 0 100 0 (set_tcbs {[100 := zero_tcb]} (reset_thr 4096))) [].


Lemma ktimer_fires_on_time_witness :
  (exists s', (on (ktimer_enable 300);; ktimer_ticks 299) due_example = Done (tt, s') /\ tw_softirqs s' = tw_softirqs due_example) /\
  exists s', (on (ktimer_enable 300);; ktimer_ticks 300) due_example = Done (tt, s') /\
    tw_softirqs s' = [mk_softirq 1 11; mk_softirq 0 0; mk_softirq 0 13; mk_softirq 0 14] /\
    clock (tw_ktimer s') = (1300, 0, 0, 0).
Proof.
  destruct (ktimer_fires_on_time 300 due_example (mk_softirq 0 11) zero_tcb) as [Hearly (s' & Hr & Hsi & _ & Hck)].
  - reflexivity.
  - done.
  - done.
  - done.
  - reflexivity.
  - reflexivity.
  - split.
    + destruct (Hearly 299%nat) as (s1 & Hr1 & Hs1 & _); [lia|]. exists s1. split; [exact Hr1|exact Hs1].
    + exists s'. split; [exact Hr|]. split; [exact Hsi|exact Hck].
Defined.

(** [ktimer_event_create] with a time of 0 reports a failure, but the event it has
    allocated stays allocated. *)
Lemma ktimer_event_create_leaks (handler data : Z) (s : ktimerstate) (Hh : handler <> NULL)
    (Hwf : kt_wf (ktimer_event_table s))
    (Hdom : forall p, p ∈ kt_slots (ktimer_event_table s) -> is_Some (kevents s !! p))
    (Hroom : exists p, p ∈ kt_slots (ktimer_event_table s) /\ (p ∉ kt_live (ktimer_event_table s))) :
  exists kte s', ktimer_event_create 0 handler data s = Done (-1, s') /\
    (kte ∉ kt_live (ktimer_event_table s)) /\
    kt_live (ktimer_event_table s') = {[kte]} ∪ kt_live (ktimer_event_table s) /\
    event_queue s' = event_queue s.
Proof.
  destruct (pool_alloc_fresh (Pool := ktable_pool) (ktimer_event_table s) Hwf Hroom)
    as (p & kt' & Ha & Hslot & Hfresh & _ & _ & Hl). simpl in Hslot, Hfresh, Hl.
  destruct (Hdom p Hslot) as [ev Hev].
  unfold ktimer_event_create. rewrite (proj2 (Z.eqb_neq handler NULL)) by done.
  rewrite (bind_Done _ _ _ p (set_event_table kt' s)) by (unfold in_event_table, zoom; by rewrite Ha).
  rewrite (proj2 (Z.eqb_neq p NULL)) by (by apply (kt_slot_nonnull (ktimer_event_table s))).
  rewrite (bind_Done _ _ _ _ _ (upd_kte_ok _ _ _ (set_event_table kt' s) Hev)).
  erewrite bind_Done by (apply upd_kte_ok; apply lookup_insert_eq).
  eexists p, _. split; [done|]. split; [done|]. split; [exact Hl|done].
Qed.
