(* ===== verification/Tickless.v ===== *)
(** * Sleep without ticks, and its verification

    The account of time of [ktimer_enter_tickless] ([kernel/ktimer.c]), and a model of
    [kernel/tickless-verify.c], which compares the kernel timer with a hardware timer
    ([platform/stm32f4/hwtimer.c]), and of the command of the debugger that shows the result. *)

From S2P Require Import Prelude Ktable Thread ThreadMap Softirq Ktimer.

(** ** [hwtimer.c] *)

Record hwtimer := mk_hwtimer {
  RCC_APB1ENR : Z;
  TIM2_PSC : Z;
  TIM2_ARR : Z;
  TIM2_CR1 : Z;
  TIM2_CNT : Z;
}.

Definition hwtimer_init : M hwtimer unit := modify (fun r =>
  mk_hwtimer (Z.lor (RCC_APB1ENR r) 1) 0 4294967295 1 (TIM2_CNT r)).
Definition hwtimer_now : M hwtimer Z := gets TIM2_CNT.

(** ** [tickless-verify.c] *)

Definition TICKLESS_VERIFY_MAX_RECORD : Z := 16.

Record verify_record := mk_record {
  r_ktimer_diff : Z;
  r_hwtimer_diff : Z;
  r_need : Z;
  r_count : Z;
  r_count_int : Z;
}.

(** The values [tickless_verify_start] saves. *)
Record verify_start := mk_vstart {
  v_need : Z;
  v_ktimer : Z;
  v_systick : Z;
  v_hwtimer : Z;
  v_count : Z;
  v_count_int : Z;
}.

(** The variables of the file, and the two timers. *)
Record verify := mk_verify {
  tickless_verify_enabled : Z;
  tickless_verify_started : Z;
  tickless_verify_n : Z;
  tickless_verify_times : Z;
  tickless_verify_records : list verify_record;
  tickless_verify_saved : verify_start;
  v_tick : systick;
  v_hw : hwtimer;
}.

Definition with_saved (x : verify_start) (v : verify) : verify :=
  mk_verify (tickless_verify_enabled v) (tickless_verify_started v) (tickless_verify_n v) (tickless_verify_times v) (tickless_verify_records v) x (v_tick v) (v_hw v).
Definition with_started (x : Z) (v : verify) : verify :=
  mk_verify (tickless_verify_enabled v) x (tickless_verify_n v) (tickless_verify_times v) (tickless_verify_records v) (tickless_verify_saved v) (v_tick v) (v_hw v).
Definition with_verify_enabled (x : Z) (v : verify) : verify :=
  mk_verify x (tickless_verify_started v) (tickless_verify_n v) (tickless_verify_times v) (tickless_verify_records v) (tickless_verify_saved v) (v_tick v) (v_hw v).
Definition with_records (n times : Z) (l : list verify_record) (v : verify) : verify :=
  mk_verify (tickless_verify_enabled v) (tickless_verify_started v) n times l (tickless_verify_saved v) (v_tick v) (v_hw v).

Definition in_tick {A} : M systick A -> M verify A :=
  zoom v_tick (fun x v => mk_verify (tickless_verify_enabled v) (tickless_verify_started v) (tickless_verify_n v) (tickless_verify_times v) (tickless_verify_records v) (tickless_verify_saved v) x (v_hw v)).
Definition in_hw {A} : M hwtimer A -> M verify A :=
  zoom v_hw (fun x v => mk_verify (tickless_verify_enabled v) (tickless_verify_started v) (tickless_verify_n v) (tickless_verify_times v) (tickless_verify_records v) (tickless_verify_saved v) (v_tick v) x).

(** The values stored at [systick] and [hwtimer]. *)
Definition tickless_verify_save : M verify (Z * Z) :=
  now ← in_tick systick_now;
  hw ← in_hw hwtimer_now;
  mret (CONFIG_KTIMER_HEARTBEAT -w now, hw).

(** [tickless_verify_records[i] = r]; an index out of range is a fault. *)
Definition put_record (i : Z) (r : verify_record) : M verify unit := fun v =>
  match zinsert i r (tickless_verify_records v) with
  | Some l => Done (tt, with_records (tickless_verify_n v) (tickless_verify_times v) l v)
  | None => Fault
  end.
Definition get_record (i : Z) : M verify verify_record := fun v =>
  match zlookup (tickless_verify_records v) i with Some r => Done (r, v) | None => Fault end.

(** The loop of [tickless_verify_init]. *)
Fixpoint clear_records (k : nat) (i : Z) : M verify unit :=
  match k with
  | O => mret tt
  | S k => put_record i (mk_record 0 0 0 0 0);; clear_records k (i + 1)
  end.

Definition tickless_verify_init : M verify unit :=
  enabled ← gets tickless_verify_enabled;
  when (enabled =? 0) (
    in_hw hwtimer_init;;
    clear_records (Z.to_nat TICKLESS_VERIFY_MAX_RECORD) 0;;
    modify (fun v => with_records 0 0 (tickless_verify_records v) v);;
    modify (fun v => with_verify_enabled (tickless_verify_enabled v + 1) v)).

Definition tickless_verify_start (ktimer_now need : Z) : M verify unit :=
  p ← tickless_verify_save;
  modify (with_saved (mk_vstart need ktimer_now p.1 p.2 0 0));;
  modify (fun v => with_started (tickless_verify_enabled v) v).

Definition tickless_verify_stop (ktimer_now : Z) : M verify unit :=
  p ← tickless_verify_save;
  st ← gets tickless_verify_saved;
  let ktimer_diff := (((ktimer_now -w v_ktimer st) *w CONFIG_KTIMER_HEARTBEAT) +w p.1) -w v_systick st in
  let hwtimer_diff := (p.2 -w v_hwtimer st) *w 2 in
  started ← gets tickless_verify_started;
  if negb (truth started) then mret tt
  else
    n ← gets tickless_verify_n;
    when (n >=? TICKLESS_VERIFY_MAX_RECORD) (modify (fun v => with_records 0 (tickless_verify_times v) (tickless_verify_records v) v));;
    n ← gets tickless_verify_n;
    put_record n (mk_record ktimer_diff hwtimer_diff ((v_need st *w CONFIG_KTIMER_HEARTBEAT) -w v_systick st) (v_count st) (v_count_int st));;
    modify (fun v => with_records (tickless_verify_n v + 1) (s32 (tickless_verify_times v + 1)) (tickless_verify_records v) v).

Definition tickless_verify_count : M verify unit := modify (fun v =>
  let st := tickless_verify_saved v in
  with_saved (mk_vstart (v_need st) (v_ktimer st) (v_systick st) (v_hwtimer st) (v_count st +w 1) (v_count_int st)) v).
Definition tickless_verify_count_int : M verify unit := modify (fun v =>
  let st := tickless_verify_saved v in
  with_saved (mk_vstart (v_need st) (v_ktimer st) (v_systick st) (v_hwtimer st) (v_count st) (v_count_int st +w 1)) v).

Definition UINT32_MAX : Z := 4294967295.

(** [a / b] of unsigned numbers; a division by zero is a fault. *)
Definition udiv (a b : Z) : M verify Z := if b =? 0 then fault else mret (a / b).

(** The first loop of [tickless_verify_stat]: the sum; the lines of the table are left out. *)
Fixpoint sum_needs (k : nat) (i sum : Z) : M verify Z :=
  match k with
  | O => mret sum
  | S k => r ← get_record i; sum_needs k (i + 1) (s32 (sum + s32 (r_hwtimer_diff r - r_need r)))
  end.

(** [diff] divided by [count] and rounded up, in the types of the code, when it is smaller than
    the [best] so far. *)
Definition smaller_part (diff count best : Z) : M verify Z :=
  if diff >? 0 then
    q ← udiv (wrap32 diff) count;
    let new := s32 q in
    let new := if (count *w new) <? wrap32 diff then s32 (new + 1) else new in
    mret (if wrap32 new <? best then wrap32 new else best)
  else mret best.

(** The loops for the two compensations: over the records to [use], the smallest of the parts of
    [diff] for each of [count]. *)
Fixpoint min_loop (use : verify_record -> bool) (diff count : verify_record -> Z) (k : nat) (i best : Z) : M verify Z :=
  match k with
  | O => mret best
  | S k =>
      r ← get_record i;
      c ← (if use r then smaller_part (diff r) (count r) best else mret best);
      min_loop use diff count k (i + 1) c
  end.
Definition compensation_loop : nat -> Z -> Z -> M verify Z :=
  min_loop (fun r => r_count_int r =? 0) (fun r => s32 (r_hwtimer_diff r - r_ktimer_diff r)) r_count.
Definition int_compensation_loop (compensation : Z) : nat -> Z -> Z -> M verify Z :=
  min_loop (fun r => negb (r_count_int r =? 0)) (fun r => s32 (r_hwtimer_diff r - r_ktimer_diff r - r_count r * compensation)) r_count_int.

(** The result, the number stored at [times], and the two numbers that are printed. *)
Definition tickless_verify_stat : M verify (Z * Z * Z * Z) :=
  times ← gets tickless_verify_times;
  let n := if times >=? TICKLESS_VERIFY_MAX_RECORD then TICKLESS_VERIFY_MAX_RECORD else times in
  sum ← sum_needs (Z.to_nat n) 0 0;
  c ← compensation_loop (Z.to_nat n) 0 UINT32_MAX;
  ci ← int_compensation_loop c (Z.to_nat n) 0 UINT32_MAX;
  if n =? 0 then fault else mret (Z.quot sum n, times, c, ci).

(** [kdb_show_tickless_verify] of [ktimer.c], with its variable [init]; the numbers it prints. *)
Definition kdb_show_tickless_verify : M (verify * Z) (option (Z * Z * Z * Z)) := fun s =>
  let '(v, init) := s in
  if init =? 0 then
    match tickless_verify_init v with
    | Done (_, v') => Done (None, (v', init + 1)) | Panic => Panic | Fault => Fault | OutOfFuel => OutOfFuel
    end
  else
    match tickless_verify_stat v with
    | Done (r, v') => Done (Some r, (v', init)) | Panic => Panic | Fault => Fault | OutOfFuel => OutOfFuel
    end.

(** ** The account of time of a sleep *)

(** The processor cycles until the kernel timer expires. *)
Definition deadline (s : ktimerstate) : Z := (ktimer_delta s - 1) * CONFIG_KTIMER_HEARTBEAT + SYSTICK_VAL (ktimer_systick s).

(** The processor sleeps for [E] cycles.  When the counter reaches zero, the count flag is set and the counter
    goes on from the reload value. *)
Definition sleep (E : Z) (r : systick) : systick :=
  if E <? SYSTICK_VAL r then mk_systick (SYSTICK_RELOAD r) (SYSTICK_VAL r - E) (SYSTICK_CTL r)
  else mk_systick (SYSTICK_RELOAD r) (- (E - SYSTICK_VAL r) mod (SYSTICK_RELOAD r + 1)) (Z.lor (SYSTICK_CTL r) (Z.shiftl 1 16)).

(** The tick of the counter that has reached zero is pending. *)
Definition tick_pending (s : ktimerstate) : bool := Z.testbit (SYSTICK_CTL (ktimer_systick s)) 16.

(** The cycles until the kernel timer expires, when a tick may be pending: the pending one happened as many cycles ago
    as the counter has counted since then. *)
Definition deadline_from (s : ktimerstate) : Z :=
  if tick_pending s then (ktimer_delta s - 1) * CONFIG_KTIMER_HEARTBEAT - (- SYSTICK_VAL (ktimer_systick s)) mod CONFIG_KTIMER_HEARTBEAT
  else deadline s.

(** The ticks a sleep may take, and the cycles of the counter. *)
Definition sleep_ticks (s : ktimerstate) : Z := Z.min (ktimer_delta s) KTIMER_MAXTICKS - 1.
Definition sleep_cycles (s : ktimerstate) : Z := sleep_ticks s * CONFIG_KTIMER_HEARTBEAT + SYSTICK_VAL (ktimer_systick s).

(** A timer that runs. *)
Record running (s : ktimerstate) : Prop := {
  ru_enabled : truth (ktimer_enabled s) = true;
  ru_delta : 1 <= ktimer_delta s < u32_modulus;
  ru_val : 0 <= SYSTICK_VAL (ktimer_systick s) < CONFIG_KTIMER_HEARTBEAT;
  ru_now : 0 <= ktimer_now s /\ ktimer_now s + ktimer_delta s < 2 ^ 64;
  ru_cycles : 2 < sleep_cycles s;
}.

(** The state after a sleep to the end and [over] cycles more. *)
Definition after_full_sleep (over : Z) (s : ktimerstate) : ktimerstate :=
  let d := sleep_ticks s in
  set_clock (ktimer_now s + d) (ktimer_enabled s) (ktimer_delta s - d) (ktimer_time s + d)
    (set_systick (mk_systick (CONFIG_KTIMER_HEARTBEAT - 1) (- over mod CONFIG_KTIMER_HEARTBEAT) 65543) s).

(** The state after a sleep that leaves [left] cycles on the counter. *)
Definition after_sleep (left : Z) (s : ktimerstate) : ktimerstate :=
  let rest := left / CONFIG_KTIMER_HEARTBEAT in
  let d := sleep_ticks s - rest in
  let val := if 0 <? rest then (left mod CONFIG_KTIMER_HEARTBEAT -w 1) mod 16777216 else left in
  set_clock (ktimer_now s + d) (ktimer_enabled s) (ktimer_delta s - d) (ktimer_time s + d)
    (set_systick (mk_systick (CONFIG_KTIMER_HEARTBEAT - 1) val 7) s).

Lemma sleep_bounds s : running s -> 0 <= sleep_ticks s <= 254 /\ sleep_ticks s < ktimer_delta s /\ 2 < sleep_cycles s < 16711681.
Proof.
  intros [He Hd Hv Hn Hc]. assert (0 <= sleep_ticks s <= 254 /\ sleep_ticks s < ktimer_delta s) by (unfold sleep_ticks; change KTIMER_MAXTICKS with 255; lia).
  unfold sleep_cycles in *. unfold CONFIG_KTIMER_HEARTBEAT in *. lia.
Qed.

Lemma in_systick_read {A} (f : M systick A) s a : f (ktimer_systick s) = Done (a, ktimer_systick s) -> in_systick f s = Done (a, s).
Proof. intros E. unfold in_systick, zoom. rewrite E. by destruct s. Qed.

(** The first part: the counter is loaded for the whole sleep. *)
Lemma tickless_start s : running s ->
  init_systick (sleep_cycles s) CONFIG_KTIMER_HEARTBEAT (ktimer_systick s) = Done (tt, mk_systick (CONFIG_KTIMER_HEARTBEAT - 1) (sleep_cycles s - 1) 7).
Proof.
  intros H. apply sleep_bounds in H as (_ & _ & H). unfold init_systick, modify. do 3 f_equal. unfold sub32.
  rewrite wrap32_small by (unfold is_u32, u32_modulus; lia). rewrite Z.mod_small by lia. done.
Qed.

(** The second part, with [left] cycles on the counter. *)
Lemma tickless_wakeup_ok d left s (rest := left / CONFIG_KTIMER_HEARTBEAT) : 0 < left < 16777216 -> 0 <= d < u32_modulus -> rest <= d ->
  tickless_wakeup d (set_systick (mk_systick (CONFIG_KTIMER_HEARTBEAT - 1) left 7) s) =
  Done (d - rest, set_systick (mk_systick (CONFIG_KTIMER_HEARTBEAT - 1) (if 0 <? rest then (left mod CONFIG_KTIMER_HEARTBEAT -w 1) mod 16777216 else left) 7) s).
Proof.
  intros Hl Hd Hr. set (s2 := set_systick _ s). unfold tickless_wakeup. rewrite (bind_Done _ _ _ _ _ (in_systick_read systick_flag_count s2 0 eq_refl)).
  cbn [truth Z.eqb negb]. assert (Enow : in_systick systick_now s2 = Done (left, s2)) by done. rewrite (bind_Done _ _ _ _ _ Enow). cbv zeta. fold rest.
  pose proof (Z.mod_pos_bound left CONFIG_KTIMER_HEARTBEAT ltac:(done)) as Hmb. assert (Hrest : 0 <= rest) by (apply Z.div_pos; [lia|done]).
  rewrite Z.gtb_ltb. destruct (Z.ltb_spec 0 rest) as [Hpos|Hpos]; [|by assert (rest = 0) as -> by lia; rewrite Z.sub_0_r].
  rewrite (bind_Done _ _ _ _ _ Enow). unfold CONFIG_KTIMER_HEARTBEAT in *.
  assert (Em : (left mod 65536) -w CONFIG_KTIMER_TICKLESS_INT_COMPENSATION = left mod 65536).
  { unfold sub32, CONFIG_KTIMER_TICKLESS_INT_COMPENSATION. rewrite Z.sub_0_r, wrap32_small; [done|]. unfold is_u32, u32_modulus. lia. }
  rewrite Em. destruct (Z.ltb_spec (left mod 65536) 0); [lia|]. cbn [b2z]. change (0 *w 65536) with 0.
  assert (Ea : left mod 65536 +w 0 = left mod 65536) by (unfold add32; rewrite Z.add_0_r; apply wrap32_small; unfold is_u32, u32_modulus; lia).
  rewrite Ea. unfold mbind, M_bind, in_systick, zoom, init_systick, modify, mret, M_ret. do 3 f_equal.
  unfold add32, sub32. rewrite Z.add_0_r, (wrap32_small (wrap32 _)) by apply wrap32_range. apply wrap32_small. unfold is_u32. lia.
Qed.

Lemma tickless_wakeup_full d val s :
  tickless_wakeup d (set_systick (mk_systick (CONFIG_KTIMER_HEARTBEAT - 1) val 65543) s) =
  Done (d, set_systick (mk_systick (CONFIG_KTIMER_HEARTBEAT - 1) val 65543) s).
Proof.
  set (s2 := set_systick _ s). unfold tickless_wakeup. by rewrite (bind_Done _ _ _ _ _ (in_systick_read systick_flag_count s2 1 eq_refl)).
Qed.

Lemma ktimer_enter_tickless_ok E s (left := sleep_cycles s - 1 - E) : running s -> 0 <= E ->
  ktimer_enter_tickless (sleep E) s = Done (tt, if 0 <? left then after_sleep left s else after_full_sleep (- left) s).
Proof.
  intros Hr HE. pose proof (sleep_bounds s Hr) as (Ht & Htd & Hb). pose proof (tickless_start s Hr) as Ei. destruct Hr as [He Hd Hv Hn Hc].
  unfold ktimer_enter_tickless. rewrite (bind_Done (gets ktimer_enabled) _ s _ s eq_refl), (bind_Done (gets ktimer_delta) _ s _ s eq_refl), He. cbn [andb].
  pose proof (Z.div_mod left CONFIG_KTIMER_HEARTBEAT ltac:(done)) as Hdm. pose proof (Z.mod_pos_bound left CONFIG_KTIMER_HEARTBEAT ltac:(done)) as Hmb.
  assert (Etd : (if ktimer_delta s <=? KTIMER_MAXTICKS then ktimer_delta s else KTIMER_MAXTICKS) -w 1 = sleep_ticks s).
  { unfold sleep_ticks, sub32 in *. destruct (Z.leb_spec (ktimer_delta s) KTIMER_MAXTICKS); rewrite wrap32_small; unfold is_u32, u32_modulus; lia. }
  rewrite Etd, (bind_Done _ _ _ _ _ (in_systick_read systick_now s _ eq_refl)).
  assert (Er : (CONFIG_KTIMER_HEARTBEAT *w sleep_ticks s) +w (SYSTICK_VAL (ktimer_systick s) -w CONFIG_KTIMER_TICKLESS_COMPENSATION) = sleep_cycles s).
  { unfold mul32, add32, sub32, CONFIG_KTIMER_TICKLESS_COMPENSATION, sleep_cycles, CONFIG_KTIMER_HEARTBEAT in *.
    rewrite Z.sub_0_r, (wrap32_small (65536 * _)), (wrap32_small (SYSTICK_VAL _)) by (unfold is_u32, u32_modulus; lia).
    rewrite wrap32_small by (unfold is_u32, u32_modulus; lia). lia. }
  rewrite Er. destruct (Z.gtb_spec (sleep_cycles s) 2); [|lia]. cbn [when].
  set (s1 := set_systick (mk_systick (CONFIG_KTIMER_HEARTBEAT - 1) (sleep_cycles s - 1) 7) s).
  assert (E1 : in_systick (init_systick (sleep_cycles s) CONFIG_KTIMER_HEARTBEAT) s = Done (tt, s1)) by (unfold in_systick, zoom; by rewrite Ei).
  rewrite (bind_Done _ _ _ _ _ E1), (bind_Done (modify _) _ s1 tt _ eq_refl).
  assert (Esl : sleep E (ktimer_systick s1) = if 0 <? left then mk_systick (CONFIG_KTIMER_HEARTBEAT - 1) left 7
    else mk_systick (CONFIG_KTIMER_HEARTBEAT - 1) (- (- left) mod CONFIG_KTIMER_HEARTBEAT) 65543).
  { unfold sleep, s1. cbn [ktimer_systick set_systick SYSTICK_VAL SYSTICK_RELOAD SYSTICK_CTL].
    destruct (Z.ltb_spec E (sleep_cycles s - 1)), (Z.ltb_spec 0 left); unfold left in *; try lia; [done|].
    f_equal. by replace (- (E - (sleep_cycles s - 1))) with (- - (sleep_cycles s - 1 - E)) by lia. }
  rewrite Esl. destruct (Z.ltb_spec 0 left) as [Hleft|Hleft].
  - assert (Hdp : 0 <= left / CONFIG_KTIMER_HEARTBEAT) by (apply Z.div_pos; [lia|done]).
    assert (Hrest : left / CONFIG_KTIMER_HEARTBEAT <= sleep_ticks s) by (unfold left, sleep_cycles, CONFIG_KTIMER_HEARTBEAT in *; lia).
    rewrite (bind_Done _ _ _ _ _ (tickless_wakeup_ok (sleep_ticks s) left s ltac:(lia) ltac:(unfold u32_modulus; lia) Hrest)).
    unfold after_sleep, modify. do 2 f_equal. unfold set_clock. cbn. f_equal; [apply Z.mod_small; lia|]. unfold sub32. apply wrap32_small. unfold is_u32. lia.
  - rewrite (bind_Done _ _ _ _ _ (tickless_wakeup_full (sleep_ticks s) (- (- left) mod CONFIG_KTIMER_HEARTBEAT) s)).
    unfold after_full_sleep, modify. do 2 f_equal. unfold set_clock. cbn. f_equal; [apply Z.mod_small; lia|]. unfold sub32. apply wrap32_small. unfold is_u32. lia.
Qed.

(** ** The statistics *)

(** [a / b], rounded up. *)
Definition ceil_div (a b : Z) : Z := (a + b - 1) / b.

(** The smallest of the parts the records suggest, and the largest number when there is none. *)
Definition smallest (parts : list Z) : Z := foldr Z.min UINT32_MAX parts.

Lemma ceil_div_step a b : 0 < a -> 0 < b -> ceil_div a b = if b * (a / b) <? a then a / b + 1 else a / b.
Proof.
  intros Ha Hb. unfold ceil_div. pose proof (Z.div_mod a b ltac:(lia)) as H. pose proof (Z.mod_pos_bound a b ltac:(lia)) as Hm.
  set (q := a / b) in *. set (r := a mod b) in *. destruct (Z.ltb_spec (b * q) a).
  - symmetry. apply (Z.div_unique_pos _ _ _ (r - 1)); lia.
  - symmetry. apply (Z.div_unique_pos _ _ _ (b - 1)); lia.
Qed.

Lemma smaller_part_ok diff count best v : -2147483648 <= diff < 2147483648 -> 0 < count < u32_modulus -> 0 <= best ->
  smaller_part diff count best v = Done (if decide (0 < diff) then Z.min best (ceil_div diff count) else best, v).
Proof.
  intros Hd Hc Hb. unfold smaller_part. destruct (Z.gtb_spec diff 0); [|by rewrite decide_False by lia]. rewrite decide_True by lia.
  rewrite (wrap32_small diff) by (unfold is_u32, u32_modulus; lia). unfold udiv. destruct (Z.eqb_spec count 0); [lia|]. rewrite (bind_Done (mret _) _ v _ v eq_refl). cbv zeta.
  assert (Hq : 0 <= diff / count <= diff) by (split; [apply Z.div_pos; lia|apply Z.div_le_upper_bound; nia]).
  assert (Hmul : count * (diff / count) <= diff) by (apply Z.mul_div_le; lia).
  assert (Hmul0 : 0 <= count * (diff / count)) by (apply Z.mul_nonneg_nonneg; lia).
  rewrite s32_small by lia. unfold mul32. rewrite (wrap32_small (count * _)) by (unfold is_u32, u32_modulus; lia). rewrite ceil_div_step by lia.
  assert (Hlt : diff / count + 1 < 2147483648 \/ ~ count * (diff / count) < diff).
  { destruct (Z.lt_ge_cases (diff / count) diff); [lia|]. right. nia. }
  destruct (Z.ltb_spec (count * (diff / count)) diff).
  - rewrite s32_small by lia. rewrite wrap32_small by (unfold is_u32, u32_modulus; lia). unfold mret, M_ret. do 2 f_equal. destruct (Z.ltb_spec (diff / count + 1) best); lia.
  - rewrite wrap32_small by (unfold is_u32, u32_modulus; lia). unfold mret, M_ret. do 2 f_equal. destruct (Z.ltb_spec (diff / count) best); lia.
Qed.

(** The parts of the records that are used and have a positive [diff]. *)
Definition parts (use : verify_record -> bool) (diff count : verify_record -> Z) (l : list verify_record) : list Z :=
  (fun r => ceil_div (diff r) (count r)) <$> filter (fun r => use r = true /\ 0 < diff r) l.

(** What a record says: the cycles the hardware timer counts more than the kernel timer, for each
    sleep; and the cycles that are left for each interruption. *)
Definition entry_parts : list verify_record -> list Z :=
  parts (fun r => r_count_int r =? 0) (fun r => s32 (r_hwtimer_diff r - r_ktimer_diff r)) r_count.
Definition int_parts (c : Z) : list verify_record -> list Z :=
  parts (fun r => negb (r_count_int r =? 0)) (fun r => s32 (r_hwtimer_diff r - r_ktimer_diff r - r_count r * c)) r_count_int.
Definition needs (l : list verify_record) : Z := foldl (fun sum r => s32 (sum + s32 (r_hwtimer_diff r - r_need r))) 0 l.

(** A record of a sleep: it was entered at least once. *)
Definition record_ok (r : verify_record) : Prop := 0 < r_count r < u32_modulus /\ 0 <= r_count_int r < u32_modulus.

Lemma s32_range x : -2147483648 <= s32 x < 2147483648.
Proof. unfold s32. pose proof (wrap32_range x) as H. unfold is_u32, u32_modulus in *. destruct (Z.leb_spec 2147483648 (wrap32 x)); lia. Qed.

Lemma get_record_ok v pre r l : tickless_verify_records v = pre ++ r :: l -> get_record (Z.of_nat (length pre)) v = Done (r, v).
Proof. intros H. unfold get_record. rewrite zlookup_nat, H. by rewrite list_lookup_middle. Qed.

Section loops.
Variable v : verify.

Lemma sum_needs_ok l : forall pre post sum, tickless_verify_records v = pre ++ l ++ post ->
  sum_needs (length l) (Z.of_nat (length pre)) sum v = Done (foldl (fun sum r => s32 (sum + s32 (r_hwtimer_diff r - r_need r))) sum l, v).
Proof.
  induction l as [|r l IH]; intros pre post sum H; [done|]. cbn [sum_needs length foldl]. rewrite (bind_Done _ _ _ _ _ (get_record_ok v pre r (l ++ post) H)).
  replace (Z.of_nat (length pre) + 1) with (Z.of_nat (length (pre ++ [r]))) by (rewrite length_app; cbn; lia). apply (IH _ post). by rewrite H, <- app_assoc.
Qed.

Lemma foldr_min_from x best ys : foldr Z.min (Z.min best x) ys = Z.min x (foldr Z.min best ys).
Proof. induction ys as [|y ys IH]; cbn; lia. Qed.

Lemma min_loop_ok use diff count l : (forall r, -2147483648 <= diff r < 2147483648) -> Forall (fun r => use r = true -> 0 < count r < u32_modulus) l ->
  forall pre post best, tickless_verify_records v = pre ++ l ++ post -> 0 <= best ->
  min_loop use diff count (length l) (Z.of_nat (length pre)) best v = Done (foldr Z.min best (parts use diff count l), v).
Proof.
  intros Hd. induction 1 as [|r l Hc Hl IH]; intros pre post best H Hb; [done|]. cbn [min_loop length].
  rewrite (bind_Done _ _ _ _ _ (get_record_ok v pre r (l ++ post) H)).
  replace (Z.of_nat (length pre) + 1) with (Z.of_nat (length (pre ++ [r]))) by (rewrite length_app; cbn; lia).
  assert (E : (if use r then smaller_part (diff r) (count r) best else mret best) v =
    Done (if decide (use r = true /\ 0 < diff r) then Z.min best (ceil_div (diff r) (count r)) else best, v)).
  { destruct (use r) eqn:Hu; [|by rewrite decide_False by naive_solver].
    rewrite smaller_part_ok by (done || by apply Hc). repeat case_decide; tauto. }
  rewrite (bind_Done _ _ _ _ _ E). unfold parts. rewrite filter_cons. rewrite (IH _ post); [|by rewrite H, <- app_assoc|].
  - case_decide; [|done]. cbn [fmap list_fmap foldr]. by rewrite foldr_min_from.
  - case_decide as Hu; [|done]. assert (0 <= ceil_div (diff r) (count r)) by (specialize (Hc (proj1 Hu)); unfold ceil_div; apply Z.div_pos; lia). lia.
Qed.

Lemma compensation_loop_ok l post : tickless_verify_records v = l ++ post -> Forall record_ok l ->
  compensation_loop (length l) 0 UINT32_MAX v = Done (smallest (entry_parts l), v).
Proof.
  intros H Hl. apply (min_loop_ok _ _ _ l) with (pre := []) (post := post); [intros r; apply s32_range| |done|done].
  eapply Forall_impl; [exact Hl|]. intros r [Hr _] _. exact Hr.
Qed.

Lemma int_compensation_loop_ok c l post : tickless_verify_records v = l ++ post -> Forall record_ok l ->
  int_compensation_loop c (length l) 0 UINT32_MAX v = Done (smallest (int_parts c l), v).
Proof.
  intros H Hl. apply (min_loop_ok _ _ _ l) with (pre := []) (post := post); [intros r; apply s32_range| |done|done].
  eapply Forall_impl; [exact Hl|]. intros r [_ Hr] Hu. cbn in Hu. destruct (Z.eqb_spec (r_count_int r) 0); [done|lia].
Qed.
End loops.

Lemma tickless_verify_stat_ok v l post : tickless_verify_records v = l ++ post ->
  Z.of_nat (length l) = Z.min (tickless_verify_times v) TICKLESS_VERIFY_MAX_RECORD -> 0 < tickless_verify_times v -> Forall record_ok l ->
  let c := smallest (entry_parts l) in
  tickless_verify_stat v = Done ((Z.quot (needs l) (Z.of_nat (length l)), tickless_verify_times v, c, smallest (int_parts c l)), v).
Proof.
  intros H Hlen Ht Hl c. unfold tickless_verify_stat. rewrite (bind_Done (gets tickless_verify_times) _ v _ v eq_refl). cbv zeta.
  assert (En : (if tickless_verify_times v >=? TICKLESS_VERIFY_MAX_RECORD then TICKLESS_VERIFY_MAX_RECORD else tickless_verify_times v) = Z.of_nat (length l)).
  { rewrite Hlen, Z.geb_leb. destruct (Z.leb_spec TICKLESS_VERIFY_MAX_RECORD (tickless_verify_times v)); lia. }
  rewrite En, Nat2Z.id. rewrite (bind_Done _ _ _ _ _ (sum_needs_ok v l [] post 0 H)). rewrite (bind_Done _ _ _ _ _ (compensation_loop_ok v l post H Hl)).
  rewrite (bind_Done _ _ _ _ _ (int_compensation_loop_ok v _ l post H Hl)).
  destruct (Z.eqb_spec (Z.of_nat (length l)) 0) as [E0|]; [unfold TICKLESS_VERIFY_MAX_RECORD in Hlen; lia|]. done.
Qed.

(** ** A measurement *)

(** The timers as the hardware leaves them. *)
Definition set_timers (val cnt : Z) (v : verify) : verify :=
  mk_verify (tickless_verify_enabled v) (tickless_verify_started v) (tickless_verify_n v) (tickless_verify_times v) (tickless_verify_records v) (tickless_verify_saved v)
    (mk_systick (SYSTICK_RELOAD (v_tick v)) val (SYSTICK_CTL (v_tick v)))
    (mk_hwtimer (RCC_APB1ENR (v_hw v)) (TIM2_PSC (v_hw v)) (TIM2_ARR (v_hw v)) (TIM2_CR1 (v_hw v)) cnt).

(** What [tickless_verify_stop] records. *)
Definition stop_record (kt : Z) (v : verify) : verify_record :=
  let st := tickless_verify_saved v in
  mk_record ((((kt -w v_ktimer st) *w CONFIG_KTIMER_HEARTBEAT) +w (CONFIG_KTIMER_HEARTBEAT -w SYSTICK_VAL (v_tick v))) -w v_systick st)
    ((TIM2_CNT (v_hw v) -w v_hwtimer st) *w 2) ((v_need st *w CONFIG_KTIMER_HEARTBEAT) -w v_systick st) (v_count st) (v_count_int st).

Lemma tickless_verify_stop_ok kt v (i : nat) : truth (tickless_verify_started v) = true -> length (tickless_verify_records v) = 16%nat ->
  tickless_verify_n v = Z.of_nat i -> (i < 16)%nat ->
  tickless_verify_stop kt v = Done (tt, with_records (Z.of_nat i + 1) (s32 (tickless_verify_times v + 1)) (<[i := stop_record kt v]> (tickless_verify_records v)) v).
Proof.
  intros Hs Hl Hn Hi. assert (Esave : tickless_verify_save v = Done ((CONFIG_KTIMER_HEARTBEAT -w SYSTICK_VAL (v_tick v), TIM2_CNT (v_hw v)), v)) by (by destruct v).
  unfold tickless_verify_stop. rewrite (bind_Done _ _ _ _ _ Esave), (bind_Done (gets tickless_verify_saved) _ v _ v eq_refl). cbv zeta. cbn [fst snd].
  rewrite (bind_Done (gets tickless_verify_started) _ v _ v eq_refl), Hs. cbn [negb]. rewrite (bind_Done (gets tickless_verify_n) _ v _ v eq_refl), Hn.
  rewrite Z.geb_leb. destruct (Z.leb_spec TICKLESS_VERIFY_MAX_RECORD (Z.of_nat i)); [unfold TICKLESS_VERIFY_MAX_RECORD in *; lia|]. cbn [when].
  rewrite (bind_Done (mret tt) _ v tt v eq_refl), (bind_Done (gets tickless_verify_n) _ v _ v eq_refl), Hn.
  fold (stop_record kt v). change (mk_record _ _ _ _ _) with (stop_record kt v).
  assert (Eput : put_record (Z.of_nat i) (stop_record kt v) v = Done (tt, with_records (tickless_verify_n v) (tickless_verify_times v) (<[i := stop_record kt v]> (tickless_verify_records v)) v)).
  { unfold put_record. rewrite zinsert_Some by lia. by rewrite Nat2Z.id. }
  rewrite (bind_Done _ _ _ _ _ Eput). unfold modify. do 2 f_equal. unfold with_records. cbn. by rewrite Hn.
Qed.

(** A sleep of [T] cycles: [ktimer_now] is [kt0] before and [kt1] after it, [val] and [cnt] are the
    counters after it; the hardware timer counts every other cycle.  Both differences that are
    recorded are [T]. *)
Lemma tickless_verify_measures v kt0 kt1 need val cnt T (i : nat) : truth (tickless_verify_enabled v) = true -> length (tickless_verify_records v) = 16%nat ->
  tickless_verify_n v = Z.of_nat i -> (i < 16)%nat -> 0 <= T < u32_modulus -> T mod 2 = 0 ->
  kt1 * CONFIG_KTIMER_HEARTBEAT - val = kt0 * CONFIG_KTIMER_HEARTBEAT - SYSTICK_VAL (v_tick v) + T -> cnt = wrap32 (TIM2_CNT (v_hw v) + T / 2) ->
  exists v' r, (tickless_verify_start kt0 need;; tickless_verify_count;; modify (set_timers val cnt);; tickless_verify_stop kt1) v = Done (tt, v') /\
    tickless_verify_records v' = <[i := r]> (tickless_verify_records v) /\ r_ktimer_diff r = T /\ r_hwtimer_diff r = T /\ r_count r = 1 /\ r_count_int r = 0.
Proof.
  intros He Hl Hn Hi HT H2 Hk ->. set (a0 := SYSTICK_VAL (v_tick v)) in *. set (h0 := TIM2_CNT (v_hw v)) in *.
  set (st := mk_vstart need kt0 (CONFIG_KTIMER_HEARTBEAT -w a0) h0 1 0).
  set (v1 := set_timers val (wrap32 (h0 + T / 2)) (with_saved st (with_started (tickless_verify_enabled v) v))).
  assert (Estart : (tickless_verify_start kt0 need;; tickless_verify_count;; modify (set_timers val (wrap32 (h0 + T / 2))))  v = Done (tt, v1)) by (by destruct v).
  exists (with_records (Z.of_nat i + 1) (s32 (tickless_verify_times v1 + 1)) (<[i := stop_record kt1 v1]> (tickless_verify_records v1)) v1), (stop_record kt1 v1).
  split; [|split; [done|split; [|split; [|done]]]].
  - pose proof (tickless_verify_stop_ok kt1 v1 i He Hl Hn Hi) as Estop. revert Estart Estop. unfold mbind, M_bind. destruct (tickless_verify_start kt0 need v) as [[? x]| | |]; [|done..].
    destruct (tickless_verify_count x) as [[? y]| | |]; [|done..]. unfold modify. intros E. apply (f_equal (fun r => match r with Done (_, z) => z | _ => v1 end)) in E. cbv beta iota in E. by rewrite E.
  - cbn. unfold sub32, add32, mul32, wrap32. rewrite Zmult_mod_idemp_l, Zplus_mod_idemp_l, Zplus_mod_idemp_r, Zminus_mod_idemp_l, Zminus_mod_idemp_r.
    replace (_ - (CONFIG_KTIMER_HEARTBEAT - a0)) with T by (unfold CONFIG_KTIMER_HEARTBEAT in *; lia). by apply Z.mod_small.
  - cbn. unfold sub32, add32, mul32, wrap32. rewrite Zminus_mod_idemp_l, Zmult_mod_idemp_l.
    replace ((h0 + T / 2 - h0) * 2) with T by (Z.div_mod_to_equations; lia). by apply Z.mod_small.
Qed.

(** ** Properties *)


(** A timer with 100 ticks to go, in the middle of one. *)
Definition ex_running : ktimerstate :=
  mk_ktimer (DECLARE_KTABLE 4096 CONFIG_MAX_KT_EVENTS 16) ∅ 0 1000 1 100 0 (mk_systick 65535 30000 7).

Lemma ex_running_ok : running ex_running.
Proof. split; try done; cbn; unfold u32_modulus; lia. Qed.


(** [tickless_verify_stat], for the records of sleeps that were entered at least once: the
    compensation it suggests is the smallest number of cycles, rounded up, that the kernel timer
    lost for each sleep of a record without interruptions; the one for interruptions is the
    smallest of what is left for each of them after that; the average is that of the sums.
    The loops compute these numbers without overflow in the types of the code. *)
Theorem tickless_verify_stat_suggests (v : verify) (l post : list verify_record)
    (Hrec : tickless_verify_records v = l ++ post) (Hlen : Z.of_nat (length l) = Z.min (tickless_verify_times v) TICKLESS_VERIFY_MAX_RECORD)
    (Htimes : 0 < tickless_verify_times v) (Hok : Forall record_ok l) :
  exists c ci, tickless_verify_stat v = Done ((Z.quot (needs l) (Z.of_nat (length l)), tickless_verify_times v, c, ci), v) /\
    c = smallest (entry_parts l) /\ ci = smallest (int_parts c l).
Proof. eexists _, _. split; [by apply (tickless_verify_stat_ok v l post)|done]. Qed.

Definition ex_verify (times : Z) (l : list verify_record) : verify :=
  mk_verify 1 1 2 times (l ++ replicate (16 - length l) (mk_record 0 0 0 0 0)) (mk_vstart 0 0 0 0 0 0) (mk_systick 65535 0 7) (mk_hwtimer 1 0 4294967295 1 0).

Lemma tickless_verify_stat_suggests_witness :
  exists c ci, tickless_verify_stat (ex_verify 2 [mk_record 1000 1010 900 3 0; mk_record 2000 2016 1900 2 3]) = Done ((113, 2, c, ci), ex_verify 2 [mk_record 1000 1010 900 3 0; mk_record 2000 2016 1900 2 3]) /\
    c = 4 /\ ci = 3.
Proof.
  destruct (tickless_verify_stat_suggests (ex_verify 2 [mk_record 1000 1010 900 3 0; mk_record 2000 2016 1900 2 3]) [mk_record 1000 1010 900 3 0; mk_record 2000 2016 1900 2 3]
    (replicate 14 (mk_record 0 0 0 0 0))) as (c & ci & E & Hc & Hci); [reflexivity|reflexivity|reflexivity|repeat constructor; cbn; unfold u32_modulus; lia|].
  exists c, ci. split; [exact E|]. split; [rewrite Hc; reflexivity|rewrite Hci, Hc; reflexivity].
Defined.
