(* ===== verification/Mempool.v ===== *)
(** * Memory pools and the state of the memory manager

    Models the data of [include/memory.h] and [include/fpage.h], and the memory
    pools of [kernel/memory.c].

    Flexible pages and address spaces live in the static arrays behind
    [fpage_table] and [as_table]; the heaps [fpages] and [ases] are keyed by their
    addresses and keep the contents of an element after it is freed.  [junk] is the
    stream of values that uninitialised local variables have. *)

From S2P Require Import Prelude Ktable.

(** ** Data *)

Definition CONFIG_MAX_ADRESS_SPACES : Z := 16.
Definition CONFIG_MAX_FPAGES : Z := 256.
Definition CONFIG_SMALLEST_FPAGE_SHIFT : Z := 8.
Definition CONFIG_SMALLEST_FPAGE_SIZE : Z := Z.shiftl 1 CONFIG_SMALLEST_FPAGE_SHIFT.

Definition FPAGE_ALWAYS : Z := 1.
Definition FPAGE_CLONE : Z := 2.
Definition FPAGE_MAPPED : Z := 4.

(** The fields of the bit-field structure [fpage] have 6, 6, 16 and 4 bits.  The field
    [used] belongs to the debugger's dump and is left out. *)
Record fpage := mk_fpage {
  as_next : Z;
  map_next : Z;
  mpu_next : Z;
  fp_base : Z;
  fp_mpid : Z;
  fp_flags : Z;
  fp_shift : Z;
  fp_rwx : Z;
}.

Definition with_as_next x f := mk_fpage x (map_next f) (mpu_next f) (fp_base f) (fp_mpid f) (fp_flags f) (fp_shift f) (fp_rwx f).
Definition with_map_next x f := mk_fpage (as_next f) x (mpu_next f) (fp_base f) (fp_mpid f) (fp_flags f) (fp_shift f) (fp_rwx f).
Definition with_mpu_next x f := mk_fpage (as_next f) (map_next f) x (fp_base f) (fp_mpid f) (fp_flags f) (fp_shift f) (fp_rwx f).
Definition with_fp_flags x f := mk_fpage (as_next f) (map_next f) (mpu_next f) (fp_base f) (fp_mpid f) (Z.land x 63) (fp_shift f) (fp_rwx f).
Definition with_mpid_rwx m r f := mk_fpage (as_next f) (map_next f) (mpu_next f) (fp_base f) (Z.land m 63) (fp_flags f) (fp_shift f) (Z.land r 15).
Definition with_base_shift b s f := mk_fpage (as_next f) (map_next f) (mpu_next f) b (fp_mpid f) (fp_flags f) (Z.land s 65535) (fp_rwx f).
(** [f->raw[0] = g->raw[0]; f->raw[1] = g->raw[1];] *)
Definition with_raw g f := mk_fpage (as_next f) (map_next f) (mpu_next f) (fp_base g) (fp_mpid g) (fp_flags g) (fp_shift g) (fp_rwx g).

Definition FPAGE_BASE (fp : fpage) : Z := fp_base fp.
Definition FPAGE_SIZE (fp : fpage) : Z := shl32 1 (fp_shift fp).
Definition FPAGE_END (fp : fpage) : Z := FPAGE_BASE fp +w FPAGE_SIZE fp.

Definition addr_in_fpage (addr : Z) (fp : fpage) (incl_end : bool) : bool :=
  ((FPAGE_BASE fp <=? addr) && (addr <? FPAGE_END fp)) || (incl_end && (addr =? FPAGE_END fp)).

Record as_t := mk_as {
  as_spaceid : Z;
  as_first : Z;
  as_mpu_first : Z;
  as_mpu_stack_first : Z;
  as_shared : Z;
}.

Definition with_spaceid x a := mk_as x (as_first a) (as_mpu_first a) (as_mpu_stack_first a) (as_shared a).
Definition with_first x a := mk_as (as_spaceid a) x (as_mpu_first a) (as_mpu_stack_first a) (as_shared a).
Definition with_mpu_first x a := mk_as (as_spaceid a) (as_first a) x (as_mpu_stack_first a) (as_shared a).
Definition with_mpu_stack_first x a := mk_as (as_spaceid a) (as_first a) (as_mpu_first a) x (as_shared a).
Definition with_shared x a := mk_as (as_spaceid a) (as_first a) (as_mpu_first a) (as_mpu_stack_first a) x.

Inductive map_action_t := MAP | GRANT | UNMAP.
#[export] Instance map_action_eq_dec : EqDecision map_action_t.
Proof. solve_decision. Defined.

Inductive mempool_tag_t :=
| MPT_KERNEL_TEXT | MPT_KERNEL_DATA | MPT_USER_TEXT | MPT_USER_DATA | MPT_AVAILABLE | MPT_DEVICES | MPT_UNKNOWN.
#[export] Instance mempool_tag_eq_dec : EqDecision mempool_tag_t.
Proof. solve_decision. Defined.

(** The value of the enumeration as an [uint32_t]. *)
Definition tag_value (t : mempool_tag_t) : Z :=
  match t with
  | MPT_KERNEL_TEXT => 0 | MPT_KERNEL_DATA => 1 | MPT_USER_TEXT => 2 | MPT_USER_DATA => 3
  | MPT_AVAILABLE => 4 | MPT_DEVICES => 5 | MPT_UNKNOWN => 4294967295
  end.

Record mempool_t := mk_mempool {
  mp_start : Z;
  mp_end : Z;
  mp_flags : Z;
  mp_tag : mempool_tag_t;
}.

Definition MP_KR : Z := 1.
Definition MP_KW : Z := 2.
Definition MP_KX : Z := 4.
Definition MP_UR : Z := 16.
Definition MP_UW : Z := 32.
Definition MP_UX : Z := 64.
Definition MP_NO_FPAGE : Z := 0.
Definition MP_SRAM : Z := 256.
Definition MP_AHB_RAM : Z := 512.
Definition MP_DEVICES : Z := 1024.
Definition MP_MEMPOOL : Z := 2048.
Definition MP_MAP_ALWAYS : Z := 4096.
Definition MP_FPAGE_MASK : Z := 3840.
Definition MP_USER_PERM (mpflags : Z) : Z := Z.shiftr (Z.land mpflags 240) 4.
Definition INVALID_FPAGE_REGION : Z := 4294967295.

(** The addresses the linker assigns ([include/platform/link.h]). *)
Record layout := mk_layout {
  kernel_text_start : Z; kernel_text_end : Z;
  user_text_start : Z; user_text_end : Z;
  kip_start : Z; kip_end : Z;
  kernel_data_end : Z;
  kernel_bss_start : Z; kernel_bss_end : Z;
  user_data_start : Z; user_data_end : Z;
  user_bss_start : Z; user_bss_end : Z;
  bitmap_start : Z; bitmap_end : Z;
  kernel_ahb_end : Z;
}.

Definition flag_or (l : list Z) : Z := foldr Z.lor 0 l.

(** The table [memmap]. *)
Definition memmap_of (L : layout) : list mempool_t := [
  mk_mempool (kernel_text_start L) (kernel_text_end L) (flag_or [MP_KR; MP_KX; MP_NO_FPAGE]) MPT_KERNEL_TEXT;
  mk_mempool (user_text_start L) (user_text_end L) (flag_or [MP_UR; MP_UX; MP_MEMPOOL; MP_MAP_ALWAYS]) MPT_USER_TEXT;
  mk_mempool (kip_start L) (kip_end L) (flag_or [MP_KR; MP_KW; MP_UR; MP_SRAM]) MPT_KERNEL_DATA;
  mk_mempool (kip_end L) (kernel_data_end L) (flag_or [MP_KR; MP_KW; MP_NO_FPAGE]) MPT_KERNEL_DATA;
  mk_mempool (kernel_bss_start L) (kernel_bss_end L) (flag_or [MP_KR; MP_KW; MP_NO_FPAGE]) MPT_KERNEL_DATA;
  mk_mempool (user_data_start L) (user_data_end L) (flag_or [MP_UR; MP_UW; MP_MEMPOOL; MP_MAP_ALWAYS]) MPT_USER_DATA;
  mk_mempool (user_bss_start L) (user_bss_end L) (flag_or [MP_UR; MP_UW; MP_MEMPOOL; MP_MAP_ALWAYS]) MPT_USER_DATA;
  mk_mempool (user_bss_end L) 0x2001c000 (flag_or [MP_UR; MP_UW; MP_SRAM]) MPT_AVAILABLE;
  mk_mempool (bitmap_start L) (bitmap_end L) (flag_or [MP_KR; MP_KW; MP_NO_FPAGE]) MPT_KERNEL_DATA;
  mk_mempool (kernel_ahb_end L) 0x10010000 (flag_or [MP_UR; MP_UW; MP_AHB_RAM]) MPT_AVAILABLE;
  mk_mempool 0x40000000 0x40007800 (flag_or [MP_UR; MP_UW; MP_DEVICES]) MPT_DEVICES;
  mk_mempool 0x40010000 0x40013400 (flag_or [MP_UR; MP_UW; MP_DEVICES]) MPT_DEVICES;
  mk_mempool 0x40014000 0x40014c00 (flag_or [MP_UR; MP_UW; MP_DEVICES]) MPT_DEVICES;
  mk_mempool 0x40020000 0x40022400 (flag_or [MP_UR; MP_UW; MP_DEVICES]) MPT_DEVICES;
  mk_mempool 0x40023c00 0x40040000 (flag_or [MP_UR; MP_UW; MP_DEVICES]) MPT_DEVICES;
  mk_mempool 0x50000000 0x50061000 (flag_or [MP_UR; MP_UW; MP_DEVICES]) MPT_DEVICES;
  mk_mempool 0x60000000 0xA0001000 (flag_or [MP_UR; MP_UW; MP_DEVICES]) MPT_DEVICES
].

(** The memory protection unit of ARMv7-M: eight regions of a base and an attribute
    word, the number of the region that is selected, and the control register. *)
Record mpu_t := mk_mpu {
  mpu_regions : list (Z * Z);
  mpu_rnr : Z;
  mpu_ctrl : Z;
}.

Record memstate := mk_mem {
  fpage_table : ktable;
  fpages : gmap Z fpage;
  as_table : ktable;
  ases : gmap Z as_t;
  memmap : list mempool_t;
  mpu : mpu_t;
  mem_desc : list (Z * Z);
  memory_info : Z * Z;
  shcsr : Z;
  junk : nat -> Z;
}.

Definition set_fpage_table x s := mk_mem x (fpages s) (as_table s) (ases s) (memmap s) (mpu s) (mem_desc s) (memory_info s) (shcsr s) (junk s).
Definition set_fpages x s := mk_mem (fpage_table s) x (as_table s) (ases s) (memmap s) (mpu s) (mem_desc s) (memory_info s) (shcsr s) (junk s).
Definition set_as_table x s := mk_mem (fpage_table s) (fpages s) x (ases s) (memmap s) (mpu s) (mem_desc s) (memory_info s) (shcsr s) (junk s).
Definition set_ases x s := mk_mem (fpage_table s) (fpages s) (as_table s) x (memmap s) (mpu s) (mem_desc s) (memory_info s) (shcsr s) (junk s).
Definition set_mpu x s := mk_mem (fpage_table s) (fpages s) (as_table s) (ases s) (memmap s) x (mem_desc s) (memory_info s) (shcsr s) (junk s).
Definition set_kip d i h s := mk_mem (fpage_table s) (fpages s) (as_table s) (ases s) (memmap s) (mpu s) d i h (junk s).
Definition set_junk x s := mk_mem (fpage_table s) (fpages s) (as_table s) (ases s) (memmap s) (mpu s) (mem_desc s) (memory_info s) (shcsr s) x.

Definition get_fp (p : Z) : M memstate fpage := fun s =>
  match fpages s !! p with Some f => Done (f, s) | None => Fault end.
Definition upd_fp (p : Z) (g : fpage -> fpage) : M memstate unit := fun s =>
  match fpages s !! p with
  | Some f => Done (tt, set_fpages (<[p := g f]> (fpages s)) s)
  | None => Fault
  end.
Definition get_as (p : Z) : M memstate as_t := fun s =>
  match ases s !! p with Some a => Done (a, s) | None => Fault end.
Definition upd_as (p : Z) (g : as_t -> as_t) : M memstate unit := fun s =>
  match ases s !! p with
  | Some a => Done (tt, set_ases (<[p := g a]> (ases s)) s)
  | None => Fault
  end.
Definition in_fpage_table {A} : M ktable A -> M memstate A := zoom fpage_table set_fpage_table.
Definition in_as_table {A} : M ktable A -> M memstate A := zoom as_table set_as_table.
(** The value of an uninitialised variable. *)
Definition uninit : M memstate Z := fun s => Done (junk s 0%nat, set_junk (fun n => junk s (S n)) s).

(** Fuel for a walk over a list of flexible pages. *)
Definition fp_fuel (s : memstate) : nat := size (fpages s) + 1.

(** ** Pools *)

(** [size] is a power of two. *)
Definition addr_align (addr size : Z) : Z :=
  Z.land (addr +w (size -w 1)) (not32 (size -w 1)).

Definition get_pool (mpid : Z) : M memstate mempool_t := fun s =>
  match zlookup (memmap s) mpid with Some p => Done (p, s) | None => Fault end.

Definition mempool_align (mpid addr : Z) : M memstate Z :=
  p ← get_pool mpid;
  if truth (Z.land (mp_flags p) MP_FPAGE_MASK) then mret (addr_align addr CONFIG_SMALLEST_FPAGE_SIZE)
  else mret INVALID_FPAGE_REGION.

Fixpoint search_pools (l : list mempool_t) (i base size : Z) : Z :=
  match l with
  | [] => -1
  | p :: l' =>
      if (mp_start p <=? base) && (base +w size <=? mp_end p) then i
      else search_pools l' (i + 1) base size
  end.

Definition mempool_search (base size : Z) : M memstate Z :=
  gets (fun s => search_pools (memmap s) 0 base size).

(** [mempool_getbyid(mpid)->flags] *)
Definition mempool_flags (mpid : Z) : M memstate Z :=
  if mpid =? -1 then fault else p ← get_pool mpid; mret (mp_flags p).
