(* ===== verification/Fpage.v ===== *)
(** * Flexible pages

    Models [kernel/fpage.c].  A flexible page is a region of the memory protection
    unit: [2 ^ shift] bytes at a multiple of that size.  An address space is a list
    of them, linked by [as_next]; the mappings of one page form a ring, linked by
    [map_next]. *)

From S2P Require Import Prelude Ktable Mempool.

(** [while ((addr <<= 1) != 0) ++shift; return 31 - shift;]  A 32-bit word is 0 after
    32 shifts. *)
Fixpoint fp_shift_loop (fuel : nat) (addr shift : Z) : Z :=
  match fuel with
  | O => shift
  | S fuel' => let addr := shl32 addr 1 in if addr =? 0 then shift else fp_shift_loop fuel' addr (shift + 1)
  end.
Definition fp_addr_log2 (addr : Z) : Z := 31 - fp_shift_loop 32 addr 0.

Definition fpages_init : M memstate unit := in_fpage_table ktable_init.

(** ** Lists of pages *)

(** The [while] loop of [insert_fpage_chain_to_as]: the page to insert behind. *)
Fixpoint insert_place (fuel : nat) (last fp : Z) : M memstate Z :=
  match fuel with
  | O => fuel_out
  | S fuel' =>
      f ← get_fp fp;
      if as_next f =? NULL then mret fp
      else
        l ← get_fp last;
        n ← get_fp (as_next f);
        if FPAGE_BASE l <? FPAGE_BASE n then
          upd_fp last (with_as_next (as_next f));; mret fp
        else insert_place fuel' last (as_next f)
  end.

Definition insert_fpage_chain_to_as (as_ first last : Z) : M memstate unit :=
  a ← get_as as_;
  let fp := as_first a in
  if fp =? NULL then upd_as as_ (with_first first)
  else
    l ← get_fp last;
    f ← get_fp fp;
    if fp_base l <? fp_base f then
      upd_fp last (with_as_next (as_first a));;
      upd_as as_ (with_first first)
    else
      fuel ← gets fp_fuel;
      p ← insert_place fuel last fp;
      upd_fp p (with_as_next first).

Definition insert_fpage_to_as (as_ fpage : Z) : M memstate unit :=
  insert_fpage_chain_to_as as_ fpage fpage.

(** The two lists [remove_fpage_from_list] is used for: the parameters [first] and
    [next] of the macro. *)
Inductive fp_list := AS_LIST | MPU_LIST.
Definition list_first (l : fp_list) (a : as_t) : Z :=
  match l with AS_LIST => as_first a | MPU_LIST => as_mpu_first a end.
Definition with_list_first (l : fp_list) (x : Z) (a : as_t) : as_t :=
  match l with AS_LIST => with_first x a | MPU_LIST => with_mpu_first x a end.
Definition list_next (l : fp_list) (f : fpage) : Z :=
  match l with AS_LIST => as_next f | MPU_LIST => mpu_next f end.
Definition with_list_next (l : fp_list) (x : Z) (f : fpage) : fpage :=
  match l with AS_LIST => with_as_next x f | MPU_LIST => with_mpu_next x f end.

(** [while (!end && fpprev->next != (fpage))] *)
Fixpoint remove_search (l : fp_list) (fuel : nat) (fp end_ fpprev : Z) : M memstate Z :=
  match fuel with
  | O => fuel_out
  | S fuel' =>
      if negb (end_ =? 0) then mret fpprev
      else
        f ← get_fp fpprev;
        if list_next l f =? fp then mret fpprev
        else remove_search l fuel' fp (if list_next l f =? NULL then 1 else end_) (list_next l f)
  end.

Definition remove_fpage_from_list (l : fp_list) (as_ fp : Z) : M memstate unit :=
  end_ ← uninit;
  a ← get_as as_;
  let fpprev := list_first l a in
  if fpprev =? fp then
    f ← get_fp fpprev; upd_as as_ (with_list_first l (list_next l f))
  else
    fuel ← gets fp_fuel;
    p ← remove_search l (S fuel) fp end_ fpprev;
    f ← get_fp fp;
    upd_fp p (with_list_next l (list_next l f)).

Definition remove_fpage_from_as (as_ fp : Z) : M memstate unit :=
  remove_fpage_from_list AS_LIST as_ fp;;
  remove_fpage_from_list MPU_LIST as_ fp.

(** ** Creation *)

Definition create_fpage (base shift mpid : Z) : M memstate Z :=
  fp ← in_fpage_table ktable_alloc;
  assert (negb (fp =? NULL));;
  upd_fp fp (with_as_next NULL);;
  upd_fp fp (with_map_next fp);;
  upd_fp fp (with_mpu_next NULL);;
  flags ← mempool_flags mpid;
  upd_fp fp (with_mpid_rwx mpid (MP_USER_PERM flags));;
  upd_fp fp (with_fp_flags 0);;
  upd_fp fp (with_base_shift base shift);;
  when (truth (Z.land flags MP_MAP_ALWAYS))
    (upd_fp fp (fun f => with_fp_flags (Z.lor (fp_flags f) FPAGE_ALWAYS) f));;
  mret fp.

Definition destroy_fpage (fp : Z) : M memstate unit := in_fpage_table (ktable_free fp).

(** The size of the next page of a chain. *)
Definition chain_shift (base size : Z) : Z :=
  let bshift := fp_addr_log2 base in
  let sshift := fp_addr_log2 size in
  if shl32 1 bshift >? size then sshift else bshift.

(** The loop of [create_fpage_chain].  Every turn takes a page from the table or ends
    in a failed assertion, so the number of pages of the table bounds the turns. *)
Fixpoint fpage_chain_loop (fuel : nat) (base size mpid fp pfirst plast : Z) : M memstate (Z * Z) :=
  if size =? 0 then mret (pfirst, plast)
  else match fuel with
       | O => fuel_out
       | S fuel' =>
           let shift := chain_shift base size in
           p ← create_fpage base shift mpid;
           (if pfirst =? NULL then mret tt else upd_fp fp (with_as_next p));;
           fpage_chain_loop fuel' (base +w shl32 1 shift) (size -w shl32 1 shift) mpid p
             (if pfirst =? NULL then p else pfirst) p
       end.

(** The result is the pair of values left in [*pfirst] and [*plast]. *)
Definition create_fpage_chain (base size mpid pfirst plast : Z) : M memstate (Z * Z) :=
  n ← gets (fun s => kt_num (fpage_table s));
  fpage_chain_loop (Z.to_nat n + 1) base size mpid NULL pfirst plast.

(** [rl] selects the part that is returned. *)
Definition split_fpage (as_ fp split : Z) (rl : bool) : M memstate Z :=
  f ← get_fp fp;
  let base := fp_base f in
  let end_ := fp_base f +w shl32 1 (fp_shift f) in
  split ← mempool_align (fp_mpid f) split;
  if as_ =? NULL then mret NULL
  else if (split =? base) || (split =? end_) then mret fp
  else if negb (map_next f =? fp) then mret NULL
  else
    l ← create_fpage_chain base (split -w base) (fp_mpid f) NULL NULL;
    r ← create_fpage_chain split (end_ -w split) (fp_mpid f) NULL NULL;
    remove_fpage_from_as as_ fp;;
    in_fpage_table (ktable_free fp);;
    insert_fpage_chain_to_as as_ l.1 l.2;;
    insert_fpage_chain_to_as as_ r.1 r.2;;
    mret (if rl then r.1 else l.2).

(** ** Assignment of pages to an address space *)

(** A pointer to a link of the list of an address space: [&as->first] or
    [&fp->as_next]. *)
Inductive fp_link := LINK_AS (a : Z) | LINK_FP (p : Z).
Definition get_link (k : fp_link) : M memstate Z :=
  match k with
  | LINK_AS a => x ← get_as a; mret (as_first x)
  | LINK_FP p => x ← get_fp p; mret (as_next x)
  end.
Definition set_link (k : fp_link) (x : Z) : M memstate unit :=
  match k with
  | LINK_AS a => upd_as a (with_first x)
  | LINK_FP p => upd_fp p (with_as_next x)
  end.

(** The locals of the loop of [assign_fpages_ext]: [fp], [base], [*pfirst], [*plast]. *)
Record assign_vars := mk_vars { v_fp : fp_link; v_base : Z; v_first : Z; v_last : Z }.

(** [while (base < end && *fp)] *)
Fixpoint assign_loop (fuel : nat) (mpid end_ : Z) (v : assign_vars) : M memstate assign_vars :=
  match fuel with
  | O => fuel_out
  | S fuel' =>
      cur ← get_link (v_fp v);
      if negb (v_base v <? end_) || (cur =? NULL) then mret v
      else
        f ← get_fp cur;
        if v_base v <? FPAGE_BASE f then
          let size := (if end_ <? FPAGE_BASE f then end_ else FPAGE_BASE f) -w v_base v in
          b ← mempool_align mpid (v_base v);
          sz ← mempool_align mpid size;
          c ← create_fpage_chain b sz mpid NULL NULL;
          upd_fp c.2 (with_as_next cur);;
          set_link (v_fp v) c.1;;
          next ← get_fp cur;
          assign_loop fuel' mpid end_
            (mk_vars (LINK_FP cur) (FPAGE_END next) (if v_first v =? NULL then c.1 else v_first v) c.2)
        else if v_base v <? FPAGE_END f then
          assign_loop fuel' mpid end_
            (mk_vars (LINK_FP cur) (FPAGE_END f) (if v_first v =? NULL then cur else v_first v) cur)
        else
          assign_loop fuel' mpid end_ (mk_vars (LINK_FP cur) (v_base v) (v_first v) (v_last v))
  end.

(** The result is the returned value with the values left in [*pfirst] and [*plast]. *)
Definition assign_fpages_ext (mpid as_ base size pfirst plast : Z) : M memstate (Z * (Z * Z)) :=
  if size =? 0 then mret (-1, (pfirst, plast))
  else
    mpid ← (if mpid =? -1 then mempool_search base size else mret mpid);
    if mpid =? -1 then mret (-1, (pfirst, plast))
    else
      let end_ := base +w size in
      if negb (as_ =? NULL) then
        fuel ← gets fp_fuel;
        v ← assign_loop (S fuel) mpid end_ (mk_vars (LINK_AS as_) base pfirst plast);
        if v_base v <? end_ then
          b ← mempool_align mpid (v_base v);
          sz ← mempool_align mpid (end_ -w v_base v);
          c ← create_fpage_chain b sz mpid NULL NULL;
          set_link (v_fp v) c.1;;
          mret (0, (if v_first v =? NULL then c.1 else v_first v, c.2))
        else mret (0, (v_first v, v_last v))
      else
        b ← mempool_align mpid base;
        sz ← mempool_align mpid size;
        c ← create_fpage_chain b sz mpid pfirst plast;
        mret (0, c).

Definition assign_fpages (as_ base size : Z) : M memstate Z :=
  r ← assign_fpages_ext (-1) as_ base size NULL NULL; mret r.1.

(** ** Mapping *)

Definition map_fpage (src dst fp : Z) (action : map_action_t) : M memstate Z :=
  fpmap ← in_fpage_table ktable_alloc;
  upd_fp fpmap (with_as_next NULL);;
  upd_fp fpmap (with_mpu_next NULL);;
  f ← get_fp fp;
  upd_fp fpmap (with_raw f);;
  when (bool_decide (action = MAP)) (upd_fp fp (fun f => with_fp_flags (Z.lor (fp_flags f) FPAGE_MAPPED) f));;
  upd_fp fpmap (with_fp_flags FPAGE_CLONE);;
  f ← get_fp fp;
  upd_fp fpmap (with_map_next (map_next f));;
  upd_fp fp (with_map_next fpmap);;
  insert_fpage_to_as dst fpmap;;
  mret 0.

(** [while (fpprev->map_next != fpage) fpprev = fpprev->map_next;] *)
Fixpoint ring_prev (fuel : nat) (fp fpprev : Z) : M memstate Z :=
  match fuel with
  | O => fuel_out
  | S fuel' =>
      f ← get_fp fpprev;
      if negb (map_next f =? fp) then ring_prev fuel' fp (map_next f) else mret fpprev
  end.

Definition unmap_fpage (as_ fp : Z) : M memstate Z :=
  f ← get_fp fp;
  if negb (truth (Z.land (fp_flags f) FPAGE_CLONE)) then mret (-1)
  else
    fuel ← gets fp_fuel;
    p ← ring_prev fuel fp fp;
    upd_fp p (fun g => with_fp_flags (Z.land (fp_flags g) (not32 FPAGE_MAPPED)) g);;
    f ← get_fp fp;
    upd_fp p (with_map_next (map_next f));;
    remove_fpage_from_as as_ fp;;
    in_fpage_table (ktable_free fp);;
    mret 0.
