(* ===== verification/FpageChain.v ===== *)
(** * Chains of flexible pages: theorems

    [fp_addr_log2], [create_fpage] and [create_fpage_chain] of [kernel/fpage.c]: a
    chain tiles a range of addresses with pages that are regions of the memory
    protection unit. *)

From S2P Require Import Prelude Ktable ThreadMap Mempool Fpage.

(** ** The exponent of the largest power of two that divides an address *)

Lemma shl32_1 a : is_u32 a -> shl32 a 1 = (2 * a) mod u32_modulus.
Proof. intros _. unfold shl32, wrap32. rewrite Z.shiftl_mul_pow2 by lia. f_equal. lia. Qed.

Lemma fp_shift_loop_ok (n : nat) fuel a m shift :
  (n < 32)%nat -> a = 2 ^ (31 - Z.of_nat n) * m -> Z.odd m = true -> is_u32 a -> (n < fuel)%nat ->
  fp_shift_loop fuel a shift = shift + Z.of_nat n.
Proof.
  revert fuel a m shift. induction n as [|n IH]; intros fuel a m shift Hn Ha Hm Hu Hf;
    (destruct fuel as [|fuel]; [lia|]); cbn [fp_shift_loop]; rewrite (shl32_1 a Hu).
  - replace (2 * a) with (m * u32_modulus) by (subst a; unfold u32_modulus; lia).
    rewrite Z.mod_mul by done. simpl. lia.
  - replace (2 * a) with (2 ^ (31 - Z.of_nat n) * m).
    2: { subst a. replace (31 - Z.of_nat n) with (Z.succ (31 - Z.of_nat (S n))) by lia.
         rewrite Z.pow_succ_r by lia. lia. }
    set (k := 31 - Z.of_nat n) in *. set (m' := m mod 2 ^ (32 - k)).
    assert (Hk : 0 < 32 - k) by (unfold k; lia).
    assert (E : (2 ^ k * m) mod u32_modulus = 2 ^ k * m').
    { unfold m'. replace u32_modulus with (2 ^ k * 2 ^ (32 - k)).
      - apply Z.mul_mod_distr_l; apply Z.pow_nonzero; unfold k; lia.
      - rewrite <- Z.pow_add_r by (unfold k; lia). unfold u32_modulus. by replace (k + (32 - k)) with 32 by lia. }
    assert (Ho : Z.odd m' = true).
    { unfold m'. rewrite <- Z.bit0_odd, Z.mod_pow2_bits_low by lia. by rewrite Z.bit0_odd. }
    assert (H0 : 0 < 2 ^ k) by (apply Z.pow_pos_nonneg; unfold k; lia).
    rewrite E. rewrite (proj2 (Z.eqb_neq _ 0)).
    + rewrite (IH fuel _ m') by (done || lia || (rewrite <- E; apply wrap32_range)). lia.
    + intros Hz. apply Z.mul_eq_0 in Hz as [Hz|Hz]; [lia|]. by rewrite Hz in Ho.
Qed.

Lemma fp_addr_log2_ok k m : 0 <= k < 32 -> Z.odd m = true -> is_u32 (2 ^ k * m) -> fp_addr_log2 (2 ^ k * m) = k.
Proof.
  intros Hk Hm Hu. unfold fp_addr_log2.
  rewrite (fp_shift_loop_ok (Z.to_nat (31 - k)) 32 _ m 0); [lia|lia| |done|done|lia].
  f_equal. f_equal. lia.
Qed.

(** Every positive number is an odd multiple of a power of two. *)
Lemma odd_part a : 0 < a -> exists k m, 0 <= k /\ Z.odd m = true /\ a = 2 ^ k * m.
Proof.
  intros Ha. assert (Hn : 0 <= a) by lia. revert a Hn Ha.
  apply (Zlt_0_ind (fun a => 0 < a -> exists k m, 0 <= k /\ Z.odd m = true /\ a = 2 ^ k * m)).
  intros a IH _ Ha. destruct (Z.odd a) eqn:Eo; [exists 0, a; split; [lia|]; split; [done|lia]|].
  assert (Ee : Z.even a = true) by (by rewrite <- Z.negb_odd, Eo).
  apply Z.even_spec in Ee as [b Hb]. destruct (IH b) as (k & m & Hk & Hm & E); [lia|lia|].
  exists (k + 1), m. split; [lia|]. split; [done|]. rewrite Z.pow_add_r by lia. lia.
Qed.

Lemma fp_addr_log2_spec a : 0 < a -> is_u32 a ->
  0 <= fp_addr_log2 a < 32 /\ (2 ^ fp_addr_log2 a | a) /\
  (forall k, 0 <= k -> (2 ^ k | a) -> k <= fp_addr_log2 a).
Proof.
  intros Ha Hu. destruct (odd_part a Ha) as (k & m & Hk & Hm & E).
  assert (Hm0 : 0 < m). { assert (0 < 2 ^ k) by (by apply Z.pow_pos_nonneg). nia. }
  assert (Hk32 : k < 32).
  { destruct (Z.lt_ge_cases k 32) as [|Hge]; [done|]. assert (2 ^ 32 <= 2 ^ k) by (apply Z.pow_le_mono_r; lia).
    unfold is_u32, u32_modulus in Hu. nia. }
  assert (Hl : fp_addr_log2 a = k) by (rewrite E; apply fp_addr_log2_ok; [lia|done|by rewrite <- E]). rewrite Hl.
  split; [lia|]. split; [exists m; lia|]. intros j Hj [q Hq].
  destruct (Z.le_gt_cases j k) as [|Hgt]; [done|]. exfalso.
  rewrite E in Hq. replace j with (k + (1 + (j - k - 1))) in Hq by lia.
  rewrite !Z.pow_add_r in Hq by lia. change (2 ^ 1) with 2 in Hq.
  assert (Em : m = 2 * (q * 2 ^ (j - k - 1))).
  { apply (Z.mul_reg_l _ _ (2 ^ k)); [apply Z.pow_nonzero; lia|]. lia. }
  rewrite Em in Hm. by rewrite Z.odd_mul in Hm.
Qed.

Lemma fp_addr_log2_0 : fp_addr_log2 0 = 31.
Proof. reflexivity. Qed.

Lemma shl32_pow2 k : 0 <= k < 32 -> shl32 1 k = 2 ^ k.
Proof.
  intros Hk. unfold shl32. rewrite Z.shiftl_1_l. apply wrap32_small. split; [apply Z.pow_nonneg; lia|].
  change u32_modulus with (2 ^ 32). apply Z.pow_lt_mono_r; lia.
Qed.

(** The page chosen next fits the rest of the range, and its base is a multiple of its
    size; it is not smaller than the granularity of the range. *)
Lemma chain_shift_ok base size :
  is_u32 base -> 0 < size -> is_u32 size ->
  let sh := chain_shift base size in
  0 <= sh < 32 /\ 2 ^ sh <= size /\ (2 ^ sh | base) /\
  (forall g, 0 <= g < 32 -> (2 ^ g | base) -> (2 ^ g | size) -> g <= sh).
Proof.
  intros Hb Hs Hsu. cbv zeta. unfold chain_shift.
  destruct (fp_addr_log2_spec size Hs Hsu) as (Hs1 & Hs2 & Hs3).
  assert (Hbs : 0 <= fp_addr_log2 base < 32 /\ (2 ^ fp_addr_log2 base | base) /\
    (forall g, 0 <= g < 32 -> (2 ^ g | base) -> g <= fp_addr_log2 base)).
  { destruct (decide (base = 0)) as [->|Hb0].
    - rewrite fp_addr_log2_0. split; [lia|]. split; [exists 0; lia|]. lia.
    - destruct (fp_addr_log2_spec base) as (H1 & H2 & H3); [unfold is_u32 in Hb; lia|done|].
      split; [done|]. split; [done|]. intros g Hg. apply H3. lia. }
  destruct Hbs as (Hb1 & Hb2 & Hb3). rewrite shl32_pow2 by done.
  destruct (Z.gtb_spec (2 ^ fp_addr_log2 base) size) as [Hgt|Hle].
  - split; [done|]. assert (Hle : 2 ^ fp_addr_log2 size <= size) by (apply Z.divide_pos_le; [lia|done]).
    split; [done|]. split.
    + assert (fp_addr_log2 size <= fp_addr_log2 base).
      { destruct (Z.le_gt_cases (fp_addr_log2 size) (fp_addr_log2 base)) as [|H]; [done|].
        assert (2 ^ fp_addr_log2 base <= 2 ^ fp_addr_log2 size) by (apply Z.pow_le_mono_r; lia). lia. }
      etrans; [|exact Hb2]. exists (2 ^ (fp_addr_log2 base - fp_addr_log2 size)).
      rewrite <- Z.pow_add_r by lia. f_equal. lia.
    + intros g Hg _ Hgs. apply Hs3; [lia|done].
  - split; [done|]. split; [lia|]. split; [done|]. intros g Hg Hgb _. by apply Hb3.
Qed.

(** ** The pages of a range *)

(** The bases and exponents of the pages [create_fpage_chain] makes. *)
Inductive tiles : Z -> Z -> list (Z * Z) -> Prop :=
| tiles_nil base : tiles base 0 []
| tiles_cons base size l :
    0 < size -> tiles (base +w 2 ^ chain_shift base size) (size - 2 ^ chain_shift base size) l ->
    tiles base size ((base, chain_shift base size) :: l).

(** [l] covers the range of [size] addresses from [base] on without gap or overlap, by
    regions: powers of two at multiples of their size. *)
Fixpoint covers (base size : Z) (l : list (Z * Z)) : Prop :=
  match l with
  | [] => size = 0
  | (b, sh) :: l' => b = base /\ 0 <= sh < 32 /\ (2 ^ sh | b) /\ 2 ^ sh <= size /\ covers (base + 2 ^ sh) (size - 2 ^ sh) l'
  end.

Lemma tiles_exist base size :
  is_u32 base -> is_u32 size -> exists l, tiles base size l.
Proof.
  intros Hb Hs. assert (H0 : 0 <= size) by apply Hs. revert size H0 base Hb Hs.
  apply (Zlt_0_ind (fun size => forall base, is_u32 base -> is_u32 size -> exists l, tiles base size l)).
  intros size IH H0 base Hb Hs. destruct (decide (size = 0)) as [->|Hne]; [exists []; constructor|].
  destruct (chain_shift_ok base size Hb ltac:(lia) Hs) as (Hsh & Hle & _ & _).
  assert (0 < 2 ^ chain_shift base size) by (apply Z.pow_pos_nonneg; lia).
  destruct (IH (size - 2 ^ chain_shift base size)) with (base +w 2 ^ chain_shift base size) as [l Hl];
    [lia|apply wrap32_range|unfold is_u32 in *; lia|].
  exists ((base, chain_shift base size) :: l). constructor; [lia|done].
Qed.

Lemma tiles_cover base size l :
  tiles base size l -> is_u32 base -> is_u32 size -> base + size <= u32_modulus -> covers base size l.
Proof.
  induction 1 as [base|base size l Hs Ht IH]; intros Hb Hu Hend; simpl; [done|].
  destruct (chain_shift_ok base size Hb Hs Hu) as (Hsh & Hle & Hdiv & _).
  assert (0 < 2 ^ chain_shift base size) by (apply Z.pow_pos_nonneg; lia).
  split; [done|]. split; [done|]. split; [done|]. split; [done|].
  destruct (decide (base + 2 ^ chain_shift base size = u32_modulus)) as [E|Hne].
  - assert (size - 2 ^ chain_shift base size = 0) as E0 by lia. rewrite E0 in *.
    inversion Ht; subst; [done|lia].
  - unfold add32 in IH. rewrite wrap32_small in IH by (unfold is_u32 in *; lia).
    apply IH; [unfold is_u32 in *; lia..|lia].
Qed.

(** A range at multiples of [2 ^ g] needs at most one page for every [2 ^ g] bytes. *)
Lemma tiles_length base size l g :
  tiles base size l -> 0 <= g < 32 -> is_u32 base -> is_u32 size -> (2 ^ g | base) -> (2 ^ g | size) ->
  Z.of_nat (length l) * 2 ^ g <= size.
Proof.
  induction 1 as [base|base size l Hs Ht IH]; intros Hg Hb Hu Hgb Hgs; simpl; [lia|].
  destruct (chain_shift_ok base size Hb Hs Hu) as (Hsh & Hle & Hdiv & Hgran).
  specialize (Hgran g Hg Hgb Hgs).
  assert (Hd : (2 ^ g | 2 ^ chain_shift base size)).
  { exists (2 ^ (chain_shift base size - g)). rewrite <- Z.pow_add_r by lia. f_equal. lia. }
  assert (Hpow : 2 ^ g <= 2 ^ chain_shift base size) by (apply Z.pow_le_mono_r; lia).
  assert (0 < 2 ^ g) by (apply Z.pow_pos_nonneg; lia).
  assert (Z.of_nat (length l) * 2 ^ g <= size - 2 ^ chain_shift base size); [|lia].
  apply IH; [done|apply wrap32_range|unfold is_u32 in *; lia| |by apply Z.divide_sub_r].
  unfold add32, wrap32. apply Z.mod_divide; [lia|].
  assert (H32 : (2 ^ g | u32_modulus)). { exists (2 ^ (32 - g)). rewrite <- Z.pow_add_r by lia. unfold u32_modulus. by replace (32 - g + g) with 32 by lia. }
  rewrite Z.mod_mod_divide by done. apply Z.mod_divide; [lia|]. by apply Z.divide_add_r.
Qed.

(** ** Creation of pages *)

Record fp_inv (s : memstate) : Prop := {
  fi_wf : kt_wf (fpage_table s);
  fi_dom : forall p, is_Some (fpages s !! p) <-> p ∈ kt_slots (fpage_table s);
}.

(** The pages of the table that are not in use. *)
Definition free_fp (s : memstate) : gset Z :=
  list_to_set (kt_slots (fpage_table s)) ∖ kt_live (fpage_table s).

Definition new_fpage (base shift mpid flags p : Z) : fpage :=
  mk_fpage NULL p NULL base (Z.land mpid 63) (if truth (Z.land flags MP_MAP_ALWAYS) then FPAGE_ALWAYS else 0)
    (Z.land shift 65535) (Z.land (MP_USER_PERM flags) 15).

Lemma upd_fp_ok p g f s :
  fpages s !! p = Some f -> upd_fp p g s = Done (tt, set_fpages (<[p := g f]> (fpages s)) s).
Proof. unfold upd_fp. by intros ->. Qed.

Lemma get_fp_ok p f s : fpages s !! p = Some f -> get_fp p s = Done (f, s).
Proof. unfold get_fp. by intros ->. Qed.

Lemma upd_fp_fuse {A} p f g (k : M memstate A) s :
  (upd_fp p f;; upd_fp p g;; k) s = (upd_fp p (fun t => g (f t));; k) s.
Proof.
  unfold mbind, M_bind, upd_fp. destruct (fpages s !! p); [|done].
  cbn [fpages set_fpages]. by rewrite lookup_insert_eq, insert_insert_eq.
Qed.

Lemma mempool_flags_ok mpid p s :
  zlookup (memmap s) mpid = Some p -> mempool_flags mpid s = Done (mp_flags p, s).
Proof.
  intros Hp. pose proof (zlookup_Some_range _ _ _ Hp). unfold mempool_flags.
  rewrite (proj2 (Z.eqb_neq mpid (-1))) by lia. unfold mbind, M_bind, get_pool. by rewrite Hp.
Qed.

Lemma create_fpage_ok base shift mpid pool s :
  fp_inv s -> zlookup (memmap s) mpid = Some pool -> free_fp s <> ∅ ->
  exists p kt', create_fpage base shift mpid s =
      Done (p, set_fpages (<[p := new_fpage base shift mpid (mp_flags pool) p]> (fpages s)) (set_fpage_table kt' s)) /\
    p ∈ free_fp s /\ p <> NULL /\
    fp_inv (set_fpages (<[p := new_fpage base shift mpid (mp_flags pool) p]> (fpages s)) (set_fpage_table kt' s)) /\
    free_fp (set_fpage_table kt' s) = free_fp s ∖ {[p]} /\ kt_num kt' = kt_num (fpage_table s).
Proof.
  intros [Hwf Hdom] Hpool Hfree.
  destruct (pool_alloc_fresh (Pool := ktable_pool) (fpage_table s) Hwf) as (p & kt' & Ha & Hslot & Hfr & Hwf' & Hs' & Hl').
  { apply set_choose_L in Hfree as [p Hp]. exists p. clear -Hp. unfold free_fp in Hp. set_solver. }
  simpl in Hslot, Hfr, Hwf', Hs', Hl'. exists p, kt'.
  assert (Hn : p <> NULL) by by apply (kt_slot_nonnull (fpage_table s)).
  destruct (proj2 (Hdom p) Hslot) as [f Hf].
  assert (Hpf : p ∈ free_fp s) by (unfold free_fp; apply elem_of_difference; by rewrite elem_of_list_to_set).
  split; [|split; [done|split; [done|split; [|split]]]].
  - unfold create_fpage. rewrite (bind_Done _ _ _ p (set_fpage_table kt' s)) by (unfold in_fpage_table, zoom; by rewrite Ha).
    rewrite (proj2 (Z.eqb_neq p NULL)) by done.
    rewrite (bind_Done (assert (negb false)) _ _ tt (set_fpage_table kt' s)) by done.
    rewrite !upd_fp_fuse. rewrite (bind_Done _ _ _ _ _ (upd_fp_ok p _ f (set_fpage_table kt' s) Hf)).
    rewrite (bind_Done _ _ _ _ _ (mempool_flags_ok mpid pool (set_fpages _ (set_fpage_table kt' s)) Hpool)).
    rewrite !upd_fp_fuse. erewrite bind_Done by (apply upd_fp_ok; apply lookup_insert_eq).
    cbn [fpages set_fpages set_fpage_table]. rewrite insert_insert_eq.
    unfold new_fpage, truth. destruct (Z.land (mp_flags pool) MP_MAP_ALWAYS =? 0); cbn [negb when].
    + done.
    + erewrite bind_Done by (apply upd_fp_ok; apply lookup_insert_eq). cbn [fpages set_fpages].
      by rewrite insert_insert_eq.
  - constructor; [done|]. intros q. cbn [fpages set_fpages fpage_table set_fpage_table]. rewrite Hs', <- Hdom.
    rewrite lookup_insert. case_decide as E; [|done]. subst q. rewrite Hf. split; intros _; by eexists.
  - unfold free_fp. cbn [fpage_table set_fpage_table]. rewrite Hs', Hl'. clear. set_solver.
  - assert (Hlen : length (kt_slots kt') = length (kt_slots (fpage_table s))) by by rewrite Hs'.
    rewrite !length_kt_slots in Hlen. destruct Hwf, Hwf'. lia.
Qed.

(** The list of pages from [p] on along [as_next]. *)
Fixpoint as_list (h : gmap Z fpage) (p : Z) (l : list Z) : Prop :=
  match l with
  | [] => p = NULL
  | q :: l' => p = q /\ q <> NULL /\ exists f, h !! q = Some f /\ as_list h (as_next f) l'
  end.

(** The base, exponent and pool of a page. *)
Definition has_region (h : gmap Z fpage) (p : Z) (r : Z * Z) : Prop :=
  exists f, h !! p = Some f /\ fp_base f = r.1 /\ fp_shift f = r.2.

Lemma as_list_frame h h' p l :
  as_list h p l -> (forall q, q ∈ l -> as_next <$> h' !! q = as_next <$> h !! q) -> as_list h' p l.
Proof.
  revert p. induction l as [|q l IH]; intros p; simpl; [done|].
  intros (-> & Hn & f & Hf & Hl) Hfr. split; [done|]. split; [done|].
  specialize (Hfr q ltac:(left)) as Hq. rewrite Hf in Hq. destruct (h' !! q) as [f'|]; [|done]. injection Hq as Hq.
  exists f'. split; [done|]. rewrite Hq. apply IH; [done|]. intros x Hx. apply Hfr. by right.
Qed.

(** A page as [create_fpage] makes it, apart from its link. *)
Definition is_page (h : gmap Z fpage) (mpid flags p : Z) (r : Z * Z) : Prop :=
  exists f, h !! p = Some f /\ with_as_next NULL f = new_fpage r.1 r.2 mpid flags p.

Lemma is_page_region h mpid flags p r : is_page h mpid flags p r -> 0 <= r.2 < 32 -> has_region h p r.
Proof.
  intros (f & Hf & E) Hr. exists f. split; [done|].
  injection E as _ _ -> _ _ -> _. split; [done|].
  change 65535 with (Z.ones 16). rewrite Z.land_ones by lia. apply Z.mod_small. lia.
Qed.

Definition head_of (ps : list Z) : Z := match ps with [] => NULL | p :: _ => p end.

(** The parts of the state the creation of pages does not touch. *)
Definition same_rest (s s' : memstate) : Prop :=
  exists kt h, s' = set_fpages h (set_fpage_table kt s) /\ kt_num kt = kt_num (fpage_table s).

Lemma same_rest_trans s1 s2 s3 : same_rest s1 s2 -> same_rest s2 s3 -> same_rest s1 s3.
Proof. intros (kt & h & -> & E) (kt' & h' & -> & E'). exists kt', h'. split; [done|]. by rewrite E'. Qed.

Lemma fpage_chain_loop_tail base size l mpid pool fuel pfirst fp f0 s :
  tiles base size l -> is_u32 base -> is_u32 size -> fp_inv s -> zlookup (memmap s) mpid = Some pool ->
  (length l <= fuel)%nat -> (length l <= stdpp.base.size (free_fp s))%nat -> pfirst <> NULL ->
  fpages s !! fp = Some f0 -> as_next f0 = NULL -> fp ∉ free_fp s ->
  exists ps s', fpage_chain_loop fuel base size mpid fp pfirst fp s = Done ((pfirst, default fp (last ps)), s') /\
    Forall2 (is_page (fpages s') mpid (mp_flags pool)) ps l /\ as_list (fpages s') (head_of ps) ps /\
    fpages s' !! fp = Some (with_as_next (head_of ps) f0) /\
    NoDup ps /\ (forall p, p ∈ ps -> p ∈ free_fp s) /\ fp_inv s' /\ free_fp s' = free_fp s ∖ list_to_set ps /\
    (forall q, q ∉ fp :: ps -> fpages s' !! q = fpages s !! q) /\ same_rest s s'.
Proof.
  intros Ht. revert fuel fp f0 s. induction Ht as [base|base size l Hs Ht IH];
    intros fuel fp f0 s Hb Hu Hinv Hpool Hfuel Hfree Hpf Hf0 Hn0 Hfp.
  { exists [], s. destruct fuel; (split; [done|]); (split; [constructor|]); (split; [done|]);
      (split; [rewrite Hf0; destruct f0; simpl in *; by subst|]); (split; [constructor|]);
      (split; [by intros p ?%not_elem_of_nil|]); (split; [done|]); (split; [by rewrite list_to_set_nil, difference_empty_L|]); (split; [done|]);
      (exists (fpage_table s), (fpages s); by destruct s). }
  destruct fuel as [|fuel]; [simpl in Hfuel; lia|]. set (sh := chain_shift base size) in *.
  destruct (chain_shift_ok base size Hb Hs Hu) as (Hsh & Hle & _ & _). fold sh in Hsh, Hle.
  assert (H2 : 0 < 2 ^ sh) by (apply Z.pow_pos_nonneg; lia).
  destruct (create_fpage_ok base sh mpid pool s Hinv Hpool) as (p & kt' & Hc & Hp & Hpn & Hinv1 & Hfree1 & Hnum).
  { intros E. rewrite E, size_empty in Hfree. simpl in Hfree. lia. }
  set (np := new_fpage base sh mpid (mp_flags pool) p) in *.
  assert (Hpfp : p <> fp) by by intros ->.
  cbn [fpage_chain_loop]. rewrite (proj2 (Z.eqb_neq size 0)) by lia. fold sh.
  rewrite (bind_Done _ _ _ _ _ Hc). rewrite (proj2 (Z.eqb_neq pfirst NULL)) by done.
  set (s1 := set_fpages (<[p := np]> (fpages s)) (set_fpage_table kt' s)) in *.
  assert (Hfp1 : fpages s1 !! fp = Some f0) by (unfold s1; cbn [fpages set_fpages]; by rewrite lookup_insert_ne).
  rewrite (bind_Done _ _ _ _ _ (upd_fp_ok _ _ _ _ Hfp1)). set (s2 := set_fpages _ s1).
  rewrite shl32_pow2 by done. unfold sub32. rewrite (wrap32_small (size - 2 ^ sh)) by (unfold is_u32 in *; lia).
  assert (Hinv2 : fp_inv s2).
  { destruct Hinv1 as [Hw Hd]. constructor; [done|]. intros q. etrans; [|apply Hd]. unfold s2. cbn [fpages set_fpages].
    rewrite lookup_insert. case_decide as E; [|done]. subst q. rewrite Hfp1. split; intros _; by eexists. }
  assert (Hfree2 : free_fp s2 = free_fp s ∖ {[p]}) by exact Hfree1.
  assert (Hp2 : fpages s2 !! p = Some np).
  { unfold s2, s1. cbn [fpages set_fpages]. rewrite lookup_insert_ne by done. apply lookup_insert_eq. }
  destruct (IH fuel p np s2) as (ps & s' & Hr & Hpg & Hl & Hpp & Hnd & Hin & Hinv' & Hfr' & Hfrm & Hrest).
  { apply wrap32_range. } { unfold is_u32 in *. lia. } { done. } { done. } { simpl in Hfuel. lia. }
  { rewrite Hfree2. rewrite size_difference by (by apply singleton_subseteq_l). rewrite size_singleton. simpl in Hfree. lia. }
  { done. } { done. } { done. } { rewrite Hfree2, not_elem_of_difference, elem_of_singleton. by right. }
  assert (Hpps : p ∉ ps). { intros Hx%Hin. rewrite Hfree2, elem_of_difference, elem_of_singleton in Hx. by destruct Hx. }
  assert (Hfpps : fp ∉ p :: ps).
  { intros [E|Hx]%elem_of_cons; [done|]. apply Hin in Hx. rewrite Hfree2, elem_of_difference in Hx. by destruct Hx. }
  exists (p :: ps), s'. split.
  { rewrite Hr, last_cons. by destruct (last ps). }
  split.
  { constructor; [|done]. eexists. split; [exact Hpp|]. done. }
  split; [split; [done|]; split; [done|]; eexists; split; [exact Hpp|]; done|].
  split.
  { rewrite Hfrm by done. unfold s2. cbn [fpages set_fpages]. by rewrite lookup_insert_eq. }
  split; [by constructor|]. split.
  { intros q [->|Hq%Hin]%elem_of_cons; [done|]. rewrite Hfree2, elem_of_difference in Hq. by destruct Hq. }
  split; [done|]. split; [by rewrite Hfr', Hfree2, difference_difference_l_L|]. split.
  - intros q Hq. apply not_elem_of_cons in Hq as [Hqf Hq]. rewrite Hfrm by done.
    apply not_elem_of_cons in Hq as [Hqp Hq]. unfold s2, s1. cbn [fpages set_fpages]. by rewrite !lookup_insert_ne.
  - eapply same_rest_trans; [|exact Hrest]. exists kt', (fpages s2). split; [by destruct s|done].
Qed.

Lemma size_free_fp s : (size (free_fp s) <= Z.to_nat (kt_num (fpage_table s)))%nat.
Proof.
  rewrite <- length_kt_slots. unfold free_fp. etrans; [apply subseteq_size, subseteq_difference_l; done|].
  clear. induction (kt_slots (fpage_table s)) as [|p l IH]; [by rewrite list_to_set_nil, size_empty|].
  rewrite list_to_set_cons, size_union_alt. rewrite size_singleton. simpl.
  etrans; [|apply le_n_S, IH]. apply le_n_S. apply subseteq_size. apply subseteq_difference_l. done.
Qed.

Lemma create_fpage_chain_ok base size l mpid pool s :
  tiles base size l -> 0 < size -> is_u32 base -> is_u32 size -> fp_inv s ->
  zlookup (memmap s) mpid = Some pool -> (length l <= stdpp.base.size (free_fp s))%nat ->
  exists ps s', create_fpage_chain base size mpid NULL NULL s = Done ((head_of ps, default NULL (last ps)), s') /\
    Forall2 (is_page (fpages s') mpid (mp_flags pool)) ps l /\ as_list (fpages s') (head_of ps) ps /\ ps <> [] /\
    NoDup ps /\ (forall p, p ∈ ps -> p ∈ free_fp s) /\ fp_inv s' /\ free_fp s' = free_fp s ∖ list_to_set ps /\
    (forall q, q ∉ ps -> fpages s' !! q = fpages s !! q) /\ same_rest s s'.
Proof.
  intros Ht Hs Hb Hu Hinv Hpool Hfree. pose proof (size_free_fp s) as Hnum.
  inversion Ht as [b0 E1 E2 E3|b0 s0 l0 Hs0 Ht0 E1 E2 E3]; [lia|]; subst b0 s0 l.
  destruct (chain_shift_ok base size Hb Hs Hu) as (Hsh & Hle & _ & _).
  set (sh := chain_shift base size) in *.
  assert (H2 : 0 < 2 ^ sh) by (apply Z.pow_pos_nonneg; lia).
  destruct (create_fpage_ok base sh mpid pool s Hinv Hpool) as (p & kt' & Hc & Hp & Hpn & Hinv1 & Hfree1 & Hnum1).
  { intros E. rewrite E, size_empty in Hfree. simpl in Hfree. lia. }
  set (s1 := set_fpages _ (set_fpage_table kt' s)) in *.
  assert (Hfr1 : free_fp s1 = free_fp s ∖ {[p]}) by exact Hfree1.
  destruct (fpage_chain_loop_tail (base +w 2 ^ sh) (size - 2 ^ sh) l0 mpid pool (Z.to_nat (kt_num (fpage_table s))) p p
    (new_fpage base sh mpid (mp_flags pool) p) s1) as (ps & s' & Hr & Hpg & Hl & Hpp & Hnd & Hin & Hinv' & Hfr' & Hfrm & Hrest).
  { done. } { apply wrap32_range. } { unfold is_u32 in *. lia. } { done. } { done. } { simpl in Hfree. lia. }
  { rewrite Hfr1, size_difference by (by apply singleton_subseteq_l). rewrite size_singleton. simpl in Hfree. lia. }
  { done. } { unfold s1. cbn [fpages set_fpages]. apply lookup_insert_eq. } { done. }
  { rewrite Hfr1, not_elem_of_difference, elem_of_singleton. by right. }
  assert (Hpps : p ∉ ps). { intros Hx%Hin. rewrite Hfr1, elem_of_difference, elem_of_singleton in Hx. by destruct Hx. }
  exists (p :: ps), s'. split.
  { unfold create_fpage_chain. rewrite (bind_Done (gets _) _ _ _ _ eq_refl).
    replace (Z.to_nat (kt_num (fpage_table s)) + 1)%nat with (S (Z.to_nat (kt_num (fpage_table s)))) by lia.
    cbn [fpage_chain_loop]. rewrite (proj2 (Z.eqb_neq size 0)) by lia. fold sh.
    rewrite (bind_Done _ _ _ _ _ Hc). rewrite Z.eqb_refl, (bind_Done (mret tt) _ _ _ _ eq_refl).
    rewrite shl32_pow2 by done. unfold sub32. rewrite (wrap32_small (size - 2 ^ sh)) by (unfold is_u32 in *; lia).
    rewrite Hr, last_cons. by destruct (last ps). }
  split; [constructor; [|done]; eexists; split; [exact Hpp|]; done|].
  split; [split; [done|]; split; [done|]; eexists; split; [exact Hpp|]; done|].
  split; [done|]. split; [by constructor|]. split.
  { intros q [->|Hq%Hin]%elem_of_cons; [done|]. rewrite Hfr1, elem_of_difference in Hq. by destruct Hq. }
  split; [done|]. split; [by rewrite Hfr', Hfr1, difference_difference_l_L|]. split.
  - intros q Hq. rewrite Hfrm by done. apply not_elem_of_cons in Hq as [Hqp Hq]. unfold s1.
    cbn [fpages set_fpages]. by rewrite !lookup_insert_ne.
  - eapply same_rest_trans; [|exact Hrest]. exists kt', (fpages s1). by split.
Qed.

(** The first [n] pages of a range, computed. *)
Fixpoint first_tiles (n : nat) (base size : Z) : list (Z * Z) :=
  match n with
  | O => []
  | S n' =>
      if size =? 0 then []
      else let sh := chain_shift base size in (base, sh) :: first_tiles n' (base +w 2 ^ sh) (size - 2 ^ sh)
  end.

Lemma first_tiles_prefix n base size l : tiles base size l -> (length (first_tiles n base size) <= length l)%nat.
Proof.
  intros Ht. revert n. induction Ht as [base|base size l Hs Ht IH]; intros [|n]; simpl; try lia.
  rewrite (proj2 (Z.eqb_neq size 0)) by lia. simpl. specialize (IH n). lia.
Qed.

(** If the range needs more pages than are free, the assertion fails. *)
Lemma fpage_chain_loop_full base size l mpid pool fuel fp pfirst plast s :
  tiles base size l -> is_u32 base -> is_u32 size -> fp_inv s -> zlookup (memmap s) mpid = Some pool ->
  (stdpp.base.size (free_fp s) < length l)%nat -> (stdpp.base.size (free_fp s) < fuel)%nat ->
  (pfirst <> NULL -> is_Some (fpages s !! fp)) ->
  fpage_chain_loop fuel base size mpid fp pfirst plast s = Panic.
Proof.
  intros Ht. revert fuel fp pfirst plast s. induction Ht as [base|base size l Hs Ht IH];
    intros fuel fp pfirst plast s Hb Hu Hinv Hpool Hfree Hfuel Hfp; [simpl in Hfree; lia|].
  destruct fuel as [|fuel]; [lia|]. set (sh := chain_shift base size) in *.
  destruct (chain_shift_ok base size Hb Hs Hu) as (Hsh & Hle & _ & _). fold sh in Hsh, Hle.
  assert (H2 : 0 < 2 ^ sh) by (apply Z.pow_pos_nonneg; lia).
  cbn [fpage_chain_loop]. rewrite (proj2 (Z.eqb_neq size 0)) by lia. fold sh.
  destruct (decide (free_fp s = ∅)) as [E|Hne].
  - assert (Hc : create_fpage base sh mpid s = Panic); [|unfold mbind, M_bind; by rewrite Hc].
    unfold create_fpage. rewrite (bind_Done _ _ _ NULL s); [by unfold mbind, M_bind|].
    unfold in_fpage_table, zoom. rewrite (pool_alloc_full (Pool := ktable_pool)); [by destruct s|apply Hinv|].
    intros p Hp. simpl in Hp. simpl. destruct (decide (p ∈ kt_live (fpage_table s))) as [|Hn]; [done|].
    assert (Hx : p ∈ free_fp s); [|rewrite E in Hx; by apply not_elem_of_empty in Hx].
    unfold free_fp. apply elem_of_difference. by rewrite elem_of_list_to_set.
  - destruct (create_fpage_ok base sh mpid pool s Hinv Hpool Hne) as (p & kt' & Hc & Hp & Hpn & Hinv1 & Hfree1 & _).
    rewrite (bind_Done _ _ _ _ _ Hc). set (s1 := set_fpages _ (set_fpage_table kt' s)) in *.
    assert (Hsz : (stdpp.base.size (free_fp s1) < stdpp.base.size (free_fp s))%nat).
    { change (free_fp s1) with (free_fp (set_fpage_table kt' s)). rewrite Hfree1.
      apply subset_size. split; [by apply subseteq_difference_l|]. intros Hsub. specialize (Hsub p Hp).
      rewrite elem_of_difference, elem_of_singleton in Hsub. by destruct Hsub. }
    assert (Hnext : exists s2, (if pfirst =? NULL then mret tt else upd_fp fp (with_as_next p) : M memstate unit) s1 = Done (tt, s2) /\
      fp_inv s2 /\ free_fp s2 = free_fp s1 /\ memmap s2 = memmap s /\ is_Some (fpages s2 !! p)).
    { assert (Hp1 : fpages s1 !! p = Some (new_fpage base sh mpid (mp_flags pool) p)) by apply lookup_insert_eq.
      destruct (Z.eqb_spec pfirst NULL) as [|Hpf]; [exists s1; split; [done|]; split; [done|]; split; [done|]; split; [done|]; by eexists|].
      destruct (Hfp Hpf) as [g Hg]. assert (Hg1 : is_Some (fpages s1 !! fp)).
      { unfold s1. cbn [fpages set_fpages]. rewrite lookup_insert. case_decide; by eexists. }
      destruct Hg1 as [g1 Hg1]. rewrite (upd_fp_ok _ _ _ _ Hg1). eexists. split; [done|].
      split; [|split; [done|split; [done|]]].
      - destruct Hinv1 as [Hw Hd]. constructor; [done|]. intros q. etrans; [|apply Hd]. cbn [fpages set_fpages].
        rewrite lookup_insert. case_decide as E; [|done]. subst q. rewrite Hg1. split; intros _; by eexists.
      - cbn [fpages set_fpages]. rewrite lookup_insert. case_decide; by eexists. }
    destruct Hnext as (s2 & Hr2 & Hinv2 & Hf2 & Hmm & Hp2). rewrite (bind_Done _ _ _ _ _ Hr2).
    rewrite shl32_pow2 by done. unfold sub32. rewrite (wrap32_small (size - 2 ^ sh)) by (unfold is_u32 in *; lia).
    apply IH; [apply wrap32_range|unfold is_u32 in *; lia|done|by rewrite Hmm|rewrite Hf2; simpl in Hfree; lia|rewrite Hf2; lia|done].
Qed.

(** ** The state after reset *)

Definition zero_fpage : fpage := mk_fpage 0 0 0 0 0 0 0 0.
Definition zero_as : as_t := mk_as 0 0 0 0 0.

(** The zero-filled data of the memory manager; the tables are at [fp_data] and
    [as_data], uninitialised variables have the values [j]. *)
Definition reset_mem (L : layout) (fp_data as_data : Z) (j : nat -> Z) : memstate :=
  let ft := DECLARE_KTABLE fp_data CONFIG_MAX_FPAGES 24 in
  let at_ := DECLARE_KTABLE as_data CONFIG_MAX_ADRESS_SPACES 20 in
  mk_mem ft (list_to_map ((fun p => (p, zero_fpage)) <$> kt_slots ft))
    at_ (list_to_map ((fun p => (p, zero_as)) <$> kt_slots at_)) (memmap_of L)
    (mk_mpu (replicate 8 (0, 0)) 0 0) (replicate 16 (0, 0)) (0, 0) 0 j.

Lemma fp_inv_reset L fp_data as_data j :
  0 < fp_data -> fp_data + CONFIG_MAX_FPAGES * 24 < u32_modulus -> fp_inv (reset_mem L fp_data as_data j).
Proof.
  intros Hd He. constructor; [by apply kt_wf_declare|]. intros p. apply lookup_zero_heap.
Qed.

Lemma free_fp_reset L fp_data as_data j :
  0 < fp_data -> fp_data + CONFIG_MAX_FPAGES * 24 < u32_modulus ->
  size (free_fp (reset_mem L fp_data as_data j)) = Z.to_nat CONFIG_MAX_FPAGES.
Proof.
  intros Hd He. unfold free_fp. cbn [fpage_table reset_mem]. rewrite kt_live_declare, difference_empty_L.
  rewrite size_list_to_set by (apply NoDup_kt_slots; by apply kt_wf_declare). by rewrite length_kt_slots.
Qed.

(** A layout as the linker makes it. *)
Definition layout0 : layout :=
  mk_layout 0x08000000 0x08006000 0x08010000 0x08014000 0x20000000 0x20000200 0x20000800 0x20000800 0x20003000
    0x20004000 0x20004800 0x20004800 0x20006000 0x10000000 0x10001000 0x10002000.

(** ** Properties *)

(** C3. [create_fpage_chain] for a range at multiples of 256 bytes, with a free page for
    every 256 bytes of it: it returns the ends of a chain of fresh pages that covers
    exactly the range, in ascending order and without overlap, every page a power of
    two at a multiple of its size; the other pages are unchanged. *)
Theorem create_fpage_chain_tiles (base size mpid : Z) (pool : mempool_t) (s : memstate)
    (Hb : is_u32 base) (Hu : is_u32 size) (Hs : 0 < size) (Hend : base + size <= u32_modulus)
    (Hab : (256 | base)) (Has : (256 | size)) (Hinv : fp_inv s) (Hpool : zlookup (memmap s) mpid = Some pool)
    (Hfree : size <= 256 * Z.of_nat (stdpp.base.size (free_fp s))) :
  exists ps l s', create_fpage_chain base size mpid NULL NULL s = Done ((head_of ps, default NULL (last ps)), s') /\
    covers base size l /\ Forall2 (has_region (fpages s')) ps l /\ as_list (fpages s') (head_of ps) ps /\
    NoDup ps /\ (forall p, p ∈ ps -> p ∈ free_fp s) /\
    (forall q, q ∉ ps -> fpages s' !! q = fpages s !! q) /\ fp_inv s'.
Proof.
  destruct (tiles_exist base size Hb Hu) as [l Hl].
  pose proof (tiles_length base size l 8 Hl ltac:(lia) Hb Hu Hab Has) as Hlen. change (2 ^ 8) with 256 in Hlen.
  pose proof (tiles_cover base size l Hl Hb Hu Hend) as Hcov.
  destruct (create_fpage_chain_ok base size l mpid pool s) as (ps & s' & Hr & Hpg & Ha & _ & Hnd & Hin & Hi & _ & Hf & _);
    [done|done|done|done|done|done|lia|].
  exists ps, l, s'. split; [done|]. split; [done|]. split; [|done].
  clear -Hpg Hcov. revert base size Hcov. induction Hpg as [|p r ps l Hp _ IH]; intros base size Hcov; [constructor|].
  destruct r as [b sh]. destruct Hcov as (-> & Hsh & _ & _ & Hcov). constructor; [|by eapply IH].
  by eapply is_page_region.
Qed.

Lemma create_fpage_chain_tiles_witness :
  exists ps l s', create_fpage_chain 0x1000 0x300 7 NULL NULL (reset_mem layout0 0x20000900 0x20002200 (fun _ => 0)) =
    Done ((head_of ps, default NULL (last ps)), s') /\ covers 0x1000 0x300 l /\ length ps = length l.
Proof.
  destruct (create_fpage_chain_tiles 0x1000 0x300 7 (mk_mempool 0x20006000 0x2001c000 304 MPT_AVAILABLE)
    (reset_mem layout0 0x20000900 0x20002200 (fun _ => 0))) as (ps & l & s' & Hr & Hc & Hf & _).
  - split; [lia|reflexivity].
  - split; [lia|reflexivity].
  - lia.
  - discriminate.
  - exists 16. reflexivity.
  - exists 3. reflexivity.
  - apply fp_inv_reset; reflexivity.
  - reflexivity.
  - rewrite free_fp_reset by reflexivity. discriminate.
  - exists ps, l, s'. split; [exact Hr|]. split; [exact Hc|]. by eapply Forall2_length.
Defined.
