(* ===== verification/Memory.v ===== *)
(** * Address spaces and the memory protection unit

    Models [kernel/memory.c] and [platform/stm32f4/mpu.c]: creation, destruction and
    mapping of address spaces, the choice of the pages the eight regions of the
    memory protection unit show, and the reaction to an access outside them.  The
    fault handler [__memmanage_handler] also needs the dispatcher and is in
    [Kernel.v]. *)

From S2P Require Import Prelude Ktable Mempool Fpage.

(** ** The memory protection unit: [platform/stm32f4/mpu.c] *)

Definition MPU_REGION_MASK : Z := 0xFFFFFFE0.
Definition MPU_PRIVDEFENA : Z := 4.
Definition MPU_MEM_FAULT : Z := 0x80.
Definition MPU_MSTKERR : Z := 0x10.
Definition MPU_MUSTKERR : Z := 0x08.
Definition MPU_IACCVIOL : Z := 0x01.

(** The registers of the unit.  A value written to the base register with bit 4
    set selects the region in its low four bits; a region that does not exist is
    ignored. *)
Definition write_base (v : Z) : M memstate unit := modify (fun s =>
  let m := mpu s in
  let n := if Z.testbit v 4 then Z.land v 15 else mpu_rnr m in
  let region := (Z.land v MPU_REGION_MASK, default 0 (snd <$> mpu_regions m !! Z.to_nat n)) in
  set_mpu (mk_mpu (<[Z.to_nat n := region]> (mpu_regions m)) n (mpu_ctrl m)) s).
Definition write_attr (v : Z) : M memstate unit := modify (fun s =>
  let m := mpu s in
  let region := (default 0 (fst <$> mpu_regions m !! Z.to_nat (mpu_rnr m)), v) in
  set_mpu (mk_mpu (<[Z.to_nat (mpu_rnr m) := region]> (mpu_regions m)) (mpu_rnr m) (mpu_ctrl m)) s).
Definition write_rnr (n : Z) : M memstate unit := modify (fun s =>
  set_mpu (mk_mpu (mpu_regions (mpu s)) n (mpu_ctrl (mpu s))) s).
Definition read_base : M memstate Z := gets (fun s =>
  Z.lor (default 0 (fst <$> mpu_regions (mpu s) !! Z.to_nat (mpu_rnr (mpu s)))) (mpu_rnr (mpu s))).
Definition read_attr : M memstate Z := gets (fun s =>
  default 0 (snd <$> mpu_regions (mpu s) !! Z.to_nat (mpu_rnr (mpu s)))).

(** The attribute word of a page. *)
Definition region_attr (pool_flags shift : Z) : Z :=
  Z.lor (Z.lor (Z.lor (if truth (Z.land pool_flags MP_UX) then 0 else shl32 1 28) (shl32 3 24))
           (shl32 (shift -w 1) 1)) 1.

Definition mpu_setup_region (n fp : Z) : M memstate unit :=
  if negb (fp =? NULL) then
    f ← get_fp fp;
    write_base (Z.lor (Z.lor (Z.land (FPAGE_BASE f) MPU_REGION_MASK) 0x10) (Z.land n 0xF));;
    flags ← mempool_flags (fp_mpid f);
    write_attr (region_attr flags (fp_shift f))
  else
    write_base (Z.lor 0x10 (Z.land n 0xF));;
    write_attr 0.

Definition mpu_enable (i : bool) : M memstate unit := modify (fun s =>
  set_mpu (mk_mpu (mpu_regions (mpu s)) (mpu_rnr (mpu s)) (Z.lor (b2z i) MPU_PRIVDEFENA)) s).

(** The [for] loop of [addr_in_mpu], for the last [n] regions. *)
Fixpoint addr_in_mpu_loop (n : nat) (i addr : Z) : M memstate bool :=
  match n with
  | O => mret false
  | S n' =>
      write_rnr i;;
      attr ← read_attr;
      b ← read_base;
      let base := Z.land b MPU_REGION_MASK in
      let size := shl32 1 (Z.land (Z.shiftr attr 1) 0x1F + 1) in
      if truth (Z.land attr 1) && (base <=? addr) && (addr <? base +w size) then mret true
      else addr_in_mpu_loop n' (i + 1) addr
  end.

Definition addr_in_mpu (addr : Z) : M memstate bool := addr_in_mpu_loop 8 0 addr.

(** [while (sfp != NULL) { ++i; sfp = sfp->mpu_next; }] *)
Fixpoint count_stack (fuel : nat) (sfp i : Z) : M memstate Z :=
  if sfp =? NULL then mret i
  else match fuel with
       | O => fuel_out
       | S fuel' => f ← get_fp sfp; count_stack fuel' (mpu_next f) (i + 1)
       end.

(** [while (i < 8 && fp->mpu_next != NULL)], for at most [n] turns. *)
Fixpoint setup_following (n : nat) (i fp : Z) : M memstate unit :=
  match n with
  | O => mret tt
  | S n' =>
      if i <? 8 then
        f ← get_fp fp;
        if negb (mpu_next f =? NULL) then
          mpu_setup_region i (mpu_next f);; setup_following n' (i + 1) (mpu_next f)
        else mret tt
      else mret tt
  end.

(** The search for the page that holds [addr]. *)
Fixpoint find_fpage (fuel : nat) (addr fp : Z) : M memstate Z :=
  if fp =? NULL then mret NULL
  else match fuel with
       | O => fuel_out
       | S fuel' => f ← get_fp fp; if addr_in_fpage addr f false then mret fp else find_fpage fuel' addr (as_next f)
       end.

Definition mpu_select_lru (as_ addr : Z) : M memstate Z :=
  if as_ =? NULL then mret 1
  else
    inside ← addr_in_mpu addr;
    if inside : bool then mret 1
    else
      a ← get_as as_;
      fuel ← gets fp_fuel;
      fp ← find_fpage fuel addr (as_first a);
      if fp =? NULL then mret 1
      else
        upd_fp fp (with_mpu_next (as_mpu_first a));;
        upd_as as_ (with_mpu_first fp);;
        i ← count_stack fuel (as_mpu_stack_first a) 0;
        mpu_setup_region i fp;;
        setup_following 8 (i + 1) fp;;
        mret 0.

(** ** Initialisation *)

Definition pool_in_kip (t : mempool_tag_t) : bool :=
  match t with MPT_USER_DATA | MPT_USER_TEXT | MPT_DEVICES | MPT_AVAILABLE => true | _ => false end.

(** The [for] loop of [memory_init] over the rest of [memmap]. *)
Fixpoint kip_pools (l : list mempool_t) (i j : Z) (desc : list (Z * Z)) : option (list (Z * Z) * Z) :=
  match l with
  | [] => Some (desc, j)
  | p :: l' =>
      if pool_in_kip (mp_tag p) then
        let base := Z.lor (addr_align (mp_start p) CONFIG_SMALLEST_FPAGE_SIZE) i in
        let size := Z.lor (addr_align (mp_end p -w mp_start p) CONFIG_SMALLEST_FPAGE_SIZE) (tag_value (mp_tag p)) in
        desc' ← zinsert j (base, size) desc;
        kip_pools l' (i + 1) (j + 1) desc'
      else kip_pools l' (i + 1) j desc
  end.

(** [desc_ptr] is [((void * ) mem_desc) - ((void * ) &kip)]. *)
Definition memory_init (desc_ptr : Z) : M memstate unit :=
  fpages_init;;
  in_as_table ktable_init;;
  r ← gets (fun s => kip_pools (memmap s) 0 0 (mem_desc s));
  r ← lift_opt r;
  modify (fun s => set_kip r.1 (Z.land desc_ptr 65535, Z.land r.2 65535) (Z.lor (shcsr s) (Z.shiftl 1 16)) s).

(** ** Setting up the protection unit for a thread: [as_setup_mpu] *)

(** The walk that collects the pages of the stack: the array [mpu], the count [i] and
    [mpu_stack_first]. *)
Fixpoint stack_pages (fuel : nat) (arr : list Z) (i start end_ fp stack_first : Z) : M memstate (list Z * Z * Z) :=
  if negb ((i <? 8) && negb (fp =? NULL) && (start <? end_)) then mret (arr, i, stack_first)
  else match fuel with
       | O => fuel_out
       | S fuel' =>
           f ← get_fp fp;
           if addr_in_fpage start f false then
             arr' ← lift_opt (zinsert i fp arr);
             stack_pages fuel' arr' (i + 1) (FPAGE_END f) end_ (as_next f)
               (if stack_first =? NULL then fp else stack_first)
           else stack_pages fuel' arr i start end_ (as_next f) stack_first
       end.

(** The three lists of pages: that of the program counter, those that are always
    mapped, and the others; [heads] and [tails] are [mpu_first] and [mpu_fp]. *)
Fixpoint sort_pages (fuel : nat) (pc fp : Z) (heads tails : list Z) : M memstate (list Z * list Z) :=
  if fp =? NULL then mret (heads, tails)
  else match fuel with
       | O => fuel_out
       | S fuel' =>
           f ← get_fp fp;
           let priv : Z := if addr_in_fpage pc f false then 0
                           else if truth (Z.land (fp_flags f) FPAGE_ALWAYS) then 1 else 2 in
           h ← lift_opt (zlookup heads priv);
           heads' ← (if h =? NULL then lift_opt (zinsert priv fp heads)
                     else t ← lift_opt (zlookup tails priv); upd_fp t (with_mpu_next fp);; mret heads);
           tails' ← lift_opt (zinsert priv fp tails);
           f' ← get_fp fp;
           sort_pages fuel' pc (as_next f') heads' tails'
       end.

(** Linking the three lists: the head of the whole. *)
Definition join_pages (heads tails : list Z) : M memstate Z :=
  match heads, tails with
  | [h0; h1; h2], [t0; t1; t2] =>
      h1' ← (if negb (h1 =? NULL) then upd_fp t1 (with_mpu_next h2);; mret h1 else mret h2);
      if negb (h0 =? NULL) then upd_fp t0 (with_mpu_next h1');; mret h0 else mret h1'
  | _, _ => fault
  end.

(** [for (fp = as->mpu_first; i < 8 && fp != NULL; fp = fp->mpu_next)]: add the pages
    that are not among the first [first_i]. *)
Fixpoint fifo_pages (fuel : nat) (first_i : nat) (arr : list Z) (i fp : Z) : M memstate (list Z * Z) :=
  if negb ((i <? 8) && negb (fp =? NULL)) then mret (arr, i)
  else match fuel with
       | O => fuel_out
       | S fuel' =>
           arr' ← (if decide (fp ∈ take first_i arr) then mret arr else lift_opt (zinsert i fp arr));
           f ← get_fp fp;
           fifo_pages fuel' first_i arr' (if decide (fp ∈ take first_i arr) then i else i + 1) (mpu_next f)
       end.

(** [for (; j < n; ++j)]: set up the regions from [j] on for the pages of [arr]; the
    last page of the group is linked to [last], if that is given. *)
Fixpoint setup_regions (k : nat) (j n : Z) (arr : list Z) (last : option Z) : M memstate unit :=
  match k with
  | O => mret tt
  | S k' =>
      p ← lift_opt (zlookup arr j);
      mpu_setup_region j p;;
      (if j <? n - 1 then q ← lift_opt (zlookup arr (j + 1)); upd_fp p (with_mpu_next q)
       else match last with Some x => upd_fp p (with_mpu_next x) | None => mret tt end);;
      setup_regions k' (j + 1) n arr last
  end.

(** [for (; j < 8; ++j) mpu_setup_region(j, NULL);] *)
Fixpoint clean_regions (k : nat) (j : Z) : M memstate unit :=
  match k with
  | O => mret tt
  | S k' => mpu_setup_region j NULL;; clean_regions k' (j + 1)
  end.

Definition as_setup_mpu (as_ sp pc stack_base stack_size : Z) : M memstate unit :=
  a ← get_as as_;
  fuel ← gets fp_fuel;
  st ← stack_pages fuel (replicate 8 NULL) 0 stack_base (stack_base +w stack_size) (as_first a) NULL;
  let '(arr, i, stack_first) := st in
  upd_as as_ (with_mpu_stack_first stack_first);;
  let mpu_first_i := i in
  a ← get_as as_;
  (if as_mpu_first a =? NULL then
     ht ← sort_pages fuel pc (as_first a) (replicate 3 NULL) (replicate 3 NULL);
     h ← join_pages ht.1 ht.2;
     upd_as as_ (with_mpu_first h)
   else mret tt);;
  a ← get_as as_;
  ai ← fifo_pages (8 * fuel) (Z.to_nat mpu_first_i) arr i (as_mpu_first a);
  first ← lift_opt (zlookup ai.1 mpu_first_i);
  upd_as as_ (with_mpu_first first);;
  setup_regions (Z.to_nat mpu_first_i) 0 mpu_first_i ai.1 (Some NULL);;
  setup_regions (Z.to_nat (ai.2 - mpu_first_i)) mpu_first_i ai.2 ai.1 None;;
  clean_regions (Z.to_nat (8 - ai.2)) ai.2.

(** ** Address spaces *)

(** The loops of [as_map_user] and [as_map_ktext]. *)
Fixpoint as_map_pools (sel : mempool_tag_t -> bool) (l : list mempool_t) (as_ : Z) : M memstate unit :=
  match l with
  | [] => mret tt
  | p :: l' =>
      (if sel (mp_tag p) then assign_fpages as_ (mp_start p) (mp_end p -w mp_start p);; mret tt else mret tt);;
      as_map_pools sel l' as_
  end.

Definition as_map_user (as_ : Z) : M memstate unit :=
  l ← gets memmap;
  as_map_pools (fun t => match t with MPT_USER_DATA | MPT_USER_TEXT | MPT_DEVICES => true | _ => false end) l as_.

Definition as_map_ktext (as_ : Z) : M memstate unit :=
  l ← gets memmap; as_map_pools (fun t => bool_decide (t = MPT_KERNEL_TEXT)) l as_.

Definition as_create (spaceid : Z) : M memstate Z :=
  a ← in_as_table ktable_alloc;
  upd_as a (with_spaceid spaceid);;
  upd_as a (with_first NULL);;
  upd_as a (with_shared 0);;
  mret a.

(** [while (fp)]: unmap or destroy every page. *)
Fixpoint as_destroy_loop (fuel : nat) (as_ fp : Z) : M memstate unit :=
  if fp =? NULL then mret tt
  else match fuel with
       | O => fuel_out
       | S fuel' =>
           f ← get_fp fp;
           (if truth (Z.land (fp_flags f) FPAGE_CLONE) then unmap_fpage as_ fp;; mret tt else destroy_fpage fp);;
           f' ← get_fp fp;
           as_destroy_loop fuel' as_ (as_next f')
       end.

Definition as_destroy (as_ : Z) : M memstate unit :=
  a ← get_as as_;
  if 0 <? as_shared a then upd_as as_ (with_shared (as_shared a -w 1))
  else
    fuel ← gets fp_fuel;
    as_destroy_loop fuel as_ (as_first a);;
    in_as_table (ktable_free as_).

(** The [while] loop of [map_area] for a thread that is not privileged: [None] is the
    early return of -1. *)
Fixpoint area_pages (fuel : nat) (base end_ probe fp first : Z) : M memstate (option (Z * Z)) :=
  if fp =? NULL then mret (Some (first, NULL))
  else match fuel with
       | O => fuel_out
       | S fuel' =>
           f ← get_fp fp;
           let first := if (first =? NULL) && addr_in_fpage base f false then fp else first in
           if addr_in_fpage end_ f true then mret (Some (first, fp))
           else if negb (first =? NULL) then
             if negb (addr_in_fpage probe f true) then mret None
             else area_pages fuel' base end_ (probe +w shl32 1 (fp_shift f)) (as_next f) first
           else area_pages fuel' base end_ probe (as_next f) first
       end.

(** The search for the last page after the split of the first. *)
Fixpoint find_last (fuel : nat) (end_ last fp : Z) : M memstate Z :=
  if fp =? NULL then mret last
  else match fuel with
       | O => fuel_out
       | S fuel' => f ← get_fp fp; if addr_in_fpage end_ f true then mret fp else find_last fuel' end_ last (as_next f)
       end.

(** [while (fp != last) { map_fpage(...); fp = fp->as_next; } map_fpage(...);] *)
Fixpoint map_pages (fuel : nat) (src dst fp last : Z) (action : map_action_t) : M memstate unit :=
  match fuel with
  | O => fuel_out
  | S fuel' =>
      map_fpage src dst fp action;;
      if fp =? last then mret tt
      else f ← get_fp fp; map_pages fuel' src dst (as_next f) last action
  end.

Definition map_area (src dst base size : Z) (action : map_action_t) (is_priviliged : bool) : M memstate Z :=
  let end_ := base +w size in
  a ← get_as src;
  fuel ← gets fp_fuel;
  fl ← (if is_priviliged then
          r ← assign_fpages_ext (-1) src base size NULL NULL;
          mret (if src =? dst then None else Some (Some r.2))
        else if src =? dst then mret None
        else r ← area_pages fuel base end_ base (as_first a) NULL; mret (Some r));
  match fl with
  | None => mret 0
  | Some None => mret (-1)
  | Some (Some (first, last)) =>
      if (last =? NULL) || (first =? NULL) then mret (-1)
      else
        first' ← split_fpage src first base true;
        last' ← (if first =? last then find_last fuel end_ last first' else mret last);
        last'' ← split_fpage src last' end_ false;
        if (last'' =? NULL) || (first' =? NULL) then mret (-1)
        else map_pages fuel src dst first' last'' action;; mret 0
  end.
