(* ===== verification/AddressSpace.v ===== *)
(** * Address spaces: theorems

    The sorted lists of pages of [kernel/fpage.c], the memory pools of
    [kernel/memory.c] and the regions of the memory protection unit of
    [platform/stm32f4/mpu.c]. *)

From Stdlib Require Import Sorted.
From S2P Require Import Prelude Ktable Mempool Fpage FpageChain Memory.

(** ** Segments of a list of pages *)

Fixpoint as_seg (h : gmap Z fpage) (p : Z) (l : list Z) (r : Z) : Prop :=
  match l with
  | [] => p = r
  | q :: l' => p = q /\ q <> NULL /\ exists f, h !! q = Some f /\ as_seg h (as_next f) l' r
  end.

Lemma as_list_seg h p l : as_list h p l <-> as_seg h p l NULL.
Proof. revert p. induction l as [|q l IH]; intros p; simpl; [done|]. by setoid_rewrite IH. Qed.

Lemma as_seg_app h p l1 l2 r : as_seg h p (l1 ++ l2) r <-> exists q, as_seg h p l1 q /\ as_seg h q l2 r.
Proof.
  revert p. induction l1 as [|x l1 IH]; intros p; simpl.
  - split; [intros H; by exists p|by intros (q & -> & H)].
  - setoid_rewrite IH. naive_solver.
Qed.

Lemma as_seg_frame h h' p l r :
  as_seg h p l r -> (forall q, q ∈ l -> h' !! q = h !! q) -> as_seg h' p l r.
Proof.
  revert p. induction l as [|q l IH]; intros p; simpl; [done|].
  intros (-> & Hn & f & Hf & Hl) Hfr. split; [done|]. split; [done|]. exists f.
  rewrite Hfr by left. split; [done|]. apply IH; [done|]. intros x Hx. apply Hfr. by right.
Qed.

Lemma as_seg_lookup h p l r q : as_seg h p l r -> q ∈ l -> q <> NULL /\ is_Some (h !! q).
Proof.
  revert p. induction l as [|x l IH]; intros p; simpl; [by intros _ ?%not_elem_of_nil|].
  intros (-> & Hn & f & Hf & Hl) [->|Hq]%elem_of_cons; [split; [done|by eexists]|eauto].
Qed.

Lemma as_seg_length h p l r : as_seg h p l r -> NoDup l -> (length l <= size h)%nat.
Proof.
  intros Hs Hnd. rewrite <- size_dom. rewrite <- (size_list_to_set (C := gset Z)) by done. apply subseteq_size.
  intros q Hq%elem_of_list_to_set. apply elem_of_dom. by eapply as_seg_lookup.
Qed.

(** Linking the last page of a segment elsewhere. *)
Lemma as_seg_relink h p l x r f r' :
  as_seg h p (l ++ [x]) r -> x ∉ l -> h !! x = Some f -> as_seg (<[x := with_as_next r' f]> h) p (l ++ [x]) r'.
Proof.
  intros Hs Hx Hf. apply as_seg_app in Hs as (q & H1 & H2). apply as_seg_app. exists q. split.
  - eapply as_seg_frame; [done|]. intros y Hy. apply lookup_insert_ne. by intros ->.
  - destruct H2 as (-> & Hn & f' & Hf' & _). rewrite Hf in Hf'. injection Hf' as <-.
    split; [done|]. split; [done|]. exists (with_as_next r' f). by rewrite lookup_insert_eq.
Qed.

Definition base_of (h : gmap Z fpage) (p : Z) : Z := match h !! p with Some f => fp_base f | None => 0 end.

Lemma base_of_upd h x r f y : h !! x = Some f -> base_of (<[x := with_as_next r f]> h) y = base_of h y.
Proof. intros Hf. unfold base_of. rewrite lookup_insert. case_decide as E; [subst y; by rewrite Hf|done]. Qed.

(** ** Insertion *)

(** The walk of [insert_fpage_chain_to_as] over the pages behind [fp]: it stops before
    the first page above the chain and links the chain to it. *)
Lemma insert_place_ok fuel last lf fp rest s :
  as_seg (fpages s) fp (fp :: rest) NULL -> fpages s !! last = Some lf -> (length rest < fuel)%nat ->
  exists r1 r2 p pre, rest = r1 ++ r2 /\ fp :: r1 = pre ++ [p] /\
    Forall (fun x => base_of (fpages s) x <= fp_base lf) r1 /\
    match r2 with
    | [] => insert_place fuel last fp s = Done (p, s)
    | x :: _ => fp_base lf < base_of (fpages s) x /\
        insert_place fuel last fp s = Done (p, set_fpages (<[last := with_as_next x lf]> (fpages s)) s)
    end.
Proof.
  revert fp rest. induction fuel as [|fuel IH]; intros fp rest Hs Hl Hlen; [lia|].
  destruct Hs as (_ & Hn & f & Hf & Hs). cbn [insert_place]. rewrite (bind_Done _ _ _ _ _ (get_fp_ok _ _ _ Hf)).
  destruct rest as [|x rest].
  - simpl in Hs. rewrite Hs, Z.eqb_refl. exists [], [], fp, []. done.
  - pose proof Hs as (Ex & Hnx & fx & Hfx & _). rewrite Ex, (proj2 (Z.eqb_neq x NULL)) by done.
    rewrite (bind_Done _ _ _ _ _ (get_fp_ok _ _ _ Hl)), (bind_Done _ _ _ _ _ (get_fp_ok _ _ _ Hfx)).
    assert (Hbx : base_of (fpages s) x = fp_base fx) by (unfold base_of; by rewrite Hfx).
    unfold FPAGE_BASE. destruct (Z.ltb_spec (fp_base lf) (fp_base fx)) as [Hlt|Hge].
    + rewrite (bind_Done _ _ _ _ _ (upd_fp_ok _ _ _ _ Hl)). exists [], (x :: rest), fp, [].
      split; [done|]. split; [done|]. split; [constructor|]. by rewrite Hbx.
    + simpl in Hlen. destruct (IH x rest) as (r1 & r2 & p & pre & -> & Ep & Hf1 & Hr2); [by rewrite <- Ex at 1|done|lia|].
      exists (x :: r1), r2, p, (fp :: pre). split; [done|]. split; [by rewrite Ep|]. split; [|done].
      constructor; [by rewrite Hbx|done].
Qed.

Definition sorted_by (h : gmap Z fpage) (l : list Z) : Prop :=
  StronglySorted (fun x y => base_of h x < base_of h y) l.

Lemma sorted_by_ext h h' l : (forall x, base_of h' x = base_of h x) -> sorted_by h l -> sorted_by h' l.
Proof.
  intros He. induction 1 as [|x l Hs IH Hf]; constructor; [done|].
  eapply Forall_impl; [done|]. intros y. by rewrite !He.
Qed.

Lemma sorted_head_above h x l b : sorted_by h (x :: l) -> b < base_of h x -> Forall (fun y => b < base_of h y) (x :: l).
Proof.
  intros Hs Hb. apply StronglySorted_inv in Hs as [_ Hf]. constructor; [done|].
  eapply Forall_impl; [done|]. simpl. intros y Hy. lia.
Qed.

Lemma sorted_app_r h l1 l2 : sorted_by h (l1 ++ l2) -> sorted_by h l2.
Proof. induction l1 as [|x l1 IH]; simpl; [done|]. intros [Hs _]%StronglySorted_inv. by apply IH. Qed.

(** Inserting a chain of pages, whose last is [z], into the sorted list [l]. *)
Lemma insert_chain_ok as_ a l c z s (C := c ++ [z]) :
  ases s !! as_ = Some a -> as_seg (fpages s) (as_first a) l NULL -> sorted_by (fpages s) l ->
  as_seg (fpages s) (head_of C) C NULL -> NoDup (l ++ C) ->
  exists l1 l2 s' a', l = l1 ++ l2 /\
    insert_fpage_chain_to_as as_ (head_of C) z s = Done (tt, s') /\
    Forall (fun x => base_of (fpages s) x <= base_of (fpages s) z) l1 /\
    Forall (fun x => base_of (fpages s) z < base_of (fpages s) x) l2 /\
    ases s' !! as_ = Some a' /\ as_seg (fpages s') (as_first a') (l1 ++ C ++ l2) NULL /\
    (forall x, base_of (fpages s') x = base_of (fpages s) x) /\
    (forall x, x ∉ l ++ C -> fpages s' !! x = fpages s !! x).
Proof.
  intros Ha Hl Hsort HC Hnd. apply NoDup_app in Hnd as (Hndl & Hdis & HndC).
  assert (Hzc : z ∉ c) by (intros Hz; apply NoDup_app in HndC as (_ & Hd & _); apply (Hd z Hz); left).
  assert (Hz : z ∈ C) by (apply elem_of_app; right; left).
  destruct (as_seg_lookup _ _ _ _ z HC Hz) as [Hzn [zf Hzf]].
  assert (Hbz : base_of (fpages s) z = fp_base zf) by (unfold base_of; by rewrite Hzf).
  unfold insert_fpage_chain_to_as. rewrite (bind_Done _ _ _ a s) by (unfold get_as; by rewrite Ha).
  destruct l as [|fp rest].
  { simpl in Hl. rewrite Hl, Z.eqb_refl. unfold upd_as. rewrite Ha. exists [], [].
    eexists _, (with_first (head_of C) a). split; [done|]. split; [done|]. split; [constructor|]. split; [constructor|].
    cbn [ases fpages set_ases]. split; [apply lookup_insert_eq|]. split; [by rewrite app_nil_l, app_nil_r|]. done. }
  pose proof Hl as (Ef & Hfn & f & Hf & _). rewrite Ef, (proj2 (Z.eqb_neq fp NULL)) by done.
  rewrite (bind_Done _ _ _ _ _ (get_fp_ok _ _ _ Hzf)), (bind_Done _ _ _ _ _ (get_fp_ok _ _ _ Hf)).
  assert (Hbf : base_of (fpages s) fp = fp_base f) by (unfold base_of; by rewrite Hf).
  assert (HCl : forall x, x ∈ C -> x ∉ fp :: rest) by (intros x Hx Hx'; by apply (Hdis x)).
  destruct (Z.ltb_spec (fp_base zf) (fp_base f)) as [Hlt|Hge].
  - rewrite (bind_Done _ _ _ _ _ (upd_fp_ok _ _ _ _ Hzf)). unfold upd_as. cbn [ases set_fpages]. rewrite Ha.
    exists [], (fp :: rest). eexists _, (with_first (head_of C) a). split; [done|]. split; [done|]. split; [constructor|].
    split; [apply sorted_head_above; [done|lia]|]. cbn [ases fpages set_ases set_fpages].
    split; [apply lookup_insert_eq|]. split; [|split].
    + rewrite app_nil_l. apply as_seg_app. exists fp. split.
      * by eapply as_seg_relink.
      * rewrite Ef in Hl. eapply as_seg_frame; [done|]. intros x Hx. apply lookup_insert_ne. intros ->. by apply (HCl x).
    + intros x. by apply base_of_upd.
    + intros x Hx. apply lookup_insert_ne. intros ->. apply Hx. apply elem_of_app. by right.
  - rewrite (bind_Done (gets fp_fuel) _ _ _ _ eq_refl). rewrite Ef in Hl.
    pose proof (as_seg_length _ _ _ _ Hl Hndl) as Hlen. simpl in Hlen.
    destruct (insert_place_ok (fp_fuel s) z zf fp rest s Hl Hzf) as (r1 & r2 & p & pre & -> & Ep & Hr1 & Hr2);
      [unfold fp_fuel; lia|].
    assert (Hpl : p ∈ fp :: r1) by (rewrite Ep; apply elem_of_app; right; left).
    assert (Hpin : p ∈ fp :: r1 ++ r2) by (rewrite app_comm_cons; apply elem_of_app; by left).
    assert (Hpz : p <> z) by (intros ->; by apply (HCl z)).
    destruct (as_seg_lookup _ _ _ _ p Hl Hpin) as [_ [pf Hpf]].
    rewrite app_comm_cons, Ep in Hl. rewrite app_comm_cons, Ep in Hndl.
    pose proof Hl as (q & Hl1 & Hl2)%as_seg_app.
    assert (Hndp : p ∉ pre). { apply NoDup_app in Hndl as (Hndl & _ & _). apply NoDup_app in Hndl as (_ & Hd & _).
      intros Hp. apply (Hd p Hp). left. }
    exists (pre ++ [p]), r2. rewrite app_comm_cons, Ep.
    assert (Hle1 : Forall (fun x => base_of (fpages s) x <= base_of (fpages s) z) (pre ++ [p])).
    { rewrite <- Ep. constructor; [lia|]. by rewrite Hbz. }
    destruct r2 as [|y r2].
    + rewrite (bind_Done _ _ _ _ _ Hr2), (upd_fp_ok _ _ _ _ Hpf). eexists _, a. split; [done|]. split; [done|].
      split; [done|]. split; [constructor|]. cbn [ases fpages set_fpages]. split; [done|]. split; [|split].
      * rewrite Ef, app_nil_r. apply as_seg_app. exists (head_of C). split; [by eapply as_seg_relink|].
        eapply as_seg_frame; [done|]. intros x Hx. apply lookup_insert_ne. intros ->. by apply (HCl x).
      * intros x. by apply base_of_upd.
      * intros x Hx. apply lookup_insert_ne. intros ->. apply Hx. rewrite app_nil_r. apply elem_of_app. left. by rewrite <- Ep.
    + destruct Hr2 as [Hb Hr2]. rewrite (bind_Done _ _ _ _ _ Hr2).
      set (h1 := <[z := with_as_next y zf]> (fpages s)) in *.
      assert (Hpf1 : h1 !! p = Some pf) by (unfold h1; by rewrite lookup_insert_ne).
      rewrite (upd_fp_ok p _ pf (set_fpages h1 s) Hpf1). eexists _, a. split; [done|]. split; [done|].
      split; [done|]. split; [apply sorted_head_above; [|lia]|].
      { rewrite app_comm_cons in Hsort. by apply sorted_app_r in Hsort. }
      cbn [ases fpages set_fpages]. split; [done|].
      assert (Hy : q = y) by (by destruct Hl2 as [-> _]). subst q.
      split; [|split].
      * rewrite Ef. apply as_seg_app. exists (head_of C). split.
        -- eapply as_seg_relink; [|done|done]. eapply as_seg_frame; [done|]. intros x Hx. apply lookup_insert_ne.
           intros ->. apply (HCl x Hz). rewrite app_comm_cons, Ep. apply elem_of_app. by left.
        -- apply as_seg_app. exists y. split.
           ++ eapply as_seg_frame; [by eapply as_seg_relink|]. intros x Hx. apply lookup_insert_ne.
              intros ->. by apply (HCl x).
           ++ eapply as_seg_frame; [done|]. intros x Hx. unfold h1. rewrite !lookup_insert_ne; [done| |].
              ** intros ->. apply (HCl x Hz). rewrite app_comm_cons, Ep. apply elem_of_app. by right.
              ** intros ->. apply NoDup_app in Hndl as (_ & Hd & _). apply (Hd x); [apply elem_of_app; right; left|done].
      * intros x. rewrite base_of_upd by done. by apply base_of_upd.
      * intros x Hx. unfold h1. rewrite !lookup_insert_ne; [done| |].
        -- intros ->. apply Hx. apply elem_of_app. by right.
        -- intros ->. apply Hx. apply elem_of_app. left. apply elem_of_app. left. by rewrite <- Ep.
Qed.

Lemma sorted_app h l1 l2 :
  sorted_by h l1 -> sorted_by h l2 -> (forall x y, x ∈ l1 -> y ∈ l2 -> base_of h x < base_of h y) -> sorted_by h (l1 ++ l2).
Proof.
  induction 1 as [|x l1 Hs IH Hf]; simpl; [done|]. intros H2 Hlt. constructor.
  - apply IH; [done|]. intros a b Ha Hb. apply Hlt; [by right|done].
  - apply Forall_app. split; [done|]. apply Forall_forall. intros y Hy. apply Hlt; [left|done].
Qed.

Lemma sorted_app_l h l1 l2 : sorted_by h (l1 ++ l2) -> sorted_by h l1.
Proof.
  induction l1 as [|x l1 IH]; simpl; intros Hs; [constructor|].
  apply StronglySorted_inv in Hs as [Hs Hf]. constructor; [by apply IH|]. by apply Forall_app in Hf as [? _].
Qed.

Lemma sorted_first h x l y : sorted_by h (x :: l) -> y ∈ x :: l -> base_of h x <= base_of h y.
Proof.
  intros [_ Hf]%StronglySorted_inv [->|Hy]%elem_of_cons; [lia|].
  pose proof (proj1 (Forall_forall _ _) Hf y Hy). simpl in *. lia.
Qed.

Lemma sorted_last h c z x : sorted_by h (c ++ [z]) -> x ∈ c ++ [z] -> base_of h x <= base_of h z.
Proof.
  induction c as [|y c IH]; simpl; intros Hs Hx.
  - apply list_elem_of_singleton in Hx as ->. lia.
  - apply StronglySorted_inv in Hs as [Hs Hf]. apply elem_of_cons in Hx as [->|Hx]; [|by apply IH].
    apply Forall_app in Hf as [_ Hf]. apply Forall_cons in Hf as [Hf _]. lia.
Qed.

(** ** Removal *)

Lemma remove_search_ok fuel fp pre x s :
  as_seg (fpages s) x (x :: pre) fp -> fp ∉ x :: pre -> fp <> NULL -> (length pre < fuel)%nat ->
  exists p ini, x :: pre = ini ++ [p] /\ remove_search AS_LIST fuel fp 0 x s = Done (p, s).
Proof.
  revert x pre. induction fuel as [|fuel IH]; intros x pre Hs Hni Hfn Hlen; [lia|].
  destruct Hs as (_ & Hn & f & Hf & Hs). cbn [remove_search list_next]. rewrite Z.eqb_refl. cbn [negb].
  rewrite (bind_Done _ _ _ _ _ (get_fp_ok _ _ _ Hf)). destruct pre as [|y pre].
  - simpl in Hs. rewrite Hs, Z.eqb_refl. by exists x, [].
  - pose proof Hs as (Ey & Hny & _). rewrite Ey. simpl in Hlen.
    apply not_elem_of_cons in Hni as [Hfx Hni]. pose proof Hni as [Hfy _]%not_elem_of_cons.
    rewrite (proj2 (Z.eqb_neq y fp)), (proj2 (Z.eqb_neq y NULL)) by done.
    destruct (IH y pre) as (p & ini & E & Hr); [by rewrite <- Ey at 1|done|done|lia|].
    exists p, (x :: ini). split; [by rewrite E|done].
Qed.

(** Removing [fp] from the list [x :: l1 ++ fp :: l2]: with [end] 0 it is unlinked from
    its predecessor, else from the first page of the list. *)
Lemma remove_fpage_ok as_ a x l1 fp l2 s :
  ases s !! as_ = Some a -> as_seg (fpages s) (as_first a) (x :: l1 ++ fp :: l2) NULL ->
  NoDup (x :: l1 ++ fp :: l2) ->
  exists s', remove_fpage_from_list AS_LIST as_ fp s = Done (tt, s') /\ ases s' = ases s /\
    as_seg (fpages s') (as_first a) (x :: (if decide (junk s 0%nat = 0) then l1 else []) ++ l2) NULL.
Proof.
  intros Ha Hl Hnd. pose proof Hl as (Ex & Hnx & xf & Hxf & Hl').
  assert (Hfpx : x <> fp). { apply NoDup_cons in Hnd as [Hx _]. intros ->. apply Hx. apply elem_of_app. right. left. }
  apply as_seg_app in Hl' as (q & H1 & (-> & Hfn & ff & Hff & H2)).
  unfold remove_fpage_from_list. rewrite (bind_Done _ _ _ (junk s 0%nat) (set_junk (fun n => junk s (S n)) s)) by done.
  set (s1 := set_junk _ s). rewrite (bind_Done _ _ s1 a s1) by (unfold get_as, s1; cbn [ases set_junk]; by rewrite Ha).
  cbn [list_first]. rewrite Ex, (proj2 (Z.eqb_neq x fp)) by done.
  rewrite (bind_Done (gets fp_fuel) _ _ _ _ eq_refl).
  apply NoDup_cons in Hnd as [Hx Hnd]. apply NoDup_app in Hnd as (Hnd1 & Hdis & Hnd2). apply NoDup_cons in Hnd2 as [Hf2 Hnd2].
  assert (Hxl2 : x ∉ l2) by (intros Hin; apply Hx, elem_of_app; right; by right).
  assert (Hseg : as_seg (fpages s1) x (x :: l1) fp) by (split; [done|]; split; [done|]; by exists xf).
  destruct (decide (junk s 0%nat = 0)) as [E|E].
  - assert (Hnx1 : x ∉ l1) by (intros Hin; apply Hx, elem_of_app; by left).
    assert (Hfl : fp ∉ x :: l1). { intros [->|Hin]%elem_of_cons; [done|]. apply (Hdis fp Hin). left. }
    assert (Hlen : (length l1 < S (fp_fuel s1))%nat).
    { pose proof (as_seg_length _ _ _ _ Hseg ltac:(by constructor)) as Hsz. cbn [length] in Hsz. unfold fp_fuel. lia. }
    destruct (remove_search_ok (S (fp_fuel s1)) fp l1 x s1) as (p & ini & Ep & Hr); [done|done|done|done|].
    rewrite E, (bind_Done _ _ _ _ _ Hr), (bind_Done _ _ _ _ _ (get_fp_ok fp ff s1 Hff)).
    destruct (as_seg_lookup _ _ _ _ p Hseg) as [_ [pf Hpf]]; [rewrite Ep; apply elem_of_app; right; left|].
    rewrite (upd_fp_ok _ _ _ _ Hpf). eexists. split; [done|]. split; [done|].
    cbn [fpages set_fpages list_next with_list_next]. rewrite app_comm_cons, Ep. rewrite Ep in Hseg.
    assert (Hndp : NoDup (ini ++ [p])) by (rewrite <- Ep; by constructor).
    apply NoDup_app in Hndp as (_ & Hdp & _).
    apply as_seg_app. exists (as_next ff). split.
    + eapply as_seg_relink; [exact Hseg| |done]. intros Hp. apply (Hdp p Hp). left.
    + eapply as_seg_frame; [exact H2|]. intros y Hy. apply lookup_insert_ne. intros ->.
      assert (Hyl : y ∈ x :: l1) by (rewrite Ep; apply elem_of_app; right; left).
      apply elem_of_cons in Hyl as [->|Hyl]; [done|]. apply (Hdis y Hyl). by right.
  - cbn [remove_search]. rewrite (proj2 (Z.eqb_neq (junk s 0%nat) 0)) by done. cbn [negb].
    rewrite (bind_Done (mret x) _ _ _ _ eq_refl), (bind_Done _ _ _ _ _ (get_fp_ok fp ff s1 Hff)).
    rewrite (upd_fp_ok x _ xf s1 Hxf). eexists. split; [done|]. split; [done|].
    cbn [fpages set_fpages list_next with_list_next]. split; [done|]. split; [done|].
    eexists. split; [apply lookup_insert_eq|]. cbn [as_next with_as_next app].
    eapply as_seg_frame; [exact H2|]. intros y Hy. apply lookup_insert_ne. by intros ->.
Qed.

(** ** Regions of the memory protection unit *)

Definition region_hit (addr : Z) (r : Z * Z) : bool :=
  let base := Z.land r.1 MPU_REGION_MASK in
  truth (Z.land r.2 1) && (base <=? addr) && (addr <? base +w shl32 1 (Z.land (Z.shiftr r.2 1) 0x1F + 1)).

(** The region that shows the page [f] of a pool with the given flags. *)
Definition region_of (flags : Z) (f : fpage) : Z * Z :=
  (Z.land (FPAGE_BASE f) MPU_REGION_MASK, region_attr flags (fp_shift f)).

Lemma small_cases n : 0 <= n < 8 -> n = 0 \/ n = 1 \/ n = 2 \/ n = 3 \/ n = 4 \/ n = 5 \/ n = 6 \/ n = 7.
Proof. lia. Qed.

Lemma masked_low b k : 0 <= k < 32 -> Z.land (Z.land b MPU_REGION_MASK) k = 0.
Proof.
  intros Hk. rewrite <- Z.land_assoc. replace (Z.land MPU_REGION_MASK k) with 0; [apply Z.land_0_r|].
  symmetry. apply Z.bits_inj. intros j. rewrite Z.land_spec, Z.bits_0.
  destruct (Z.lt_ge_cases j 0); [by rewrite !Z.testbit_neg_r by done|].
  destruct (Z.lt_ge_cases j 5) as [Hj|Hj].
  - assert (j = 0 \/ j = 1 \/ j = 2 \/ j = 3 \/ j = 4) as [->|[->|[->|[->| ->]]]] by lia; reflexivity.
  - apply andb_false_intro2. destruct (decide (k = 0)) as [->|]; [apply Z.bits_0|].
    apply Z.bits_above_log2; [lia|]. apply Z.log2_lt_pow2; [lia|].
    assert (2 ^ 5 <= 2 ^ j) by (apply Z.pow_le_mono_r; lia). lia.
Qed.

Lemma mask_low_zero k : 0 <= k < 32 -> Z.land k MPU_REGION_MASK = 0.
Proof. intros Hk. rewrite Z.land_comm. rewrite <- (Z.land_diag MPU_REGION_MASK). by apply masked_low. Qed.

(** Decoding the value written to the base register. *)
Lemma base_word b n (v := Z.lor (Z.lor (Z.land b MPU_REGION_MASK) 0x10) (Z.land n 0xF)) :
  0 <= n < 8 -> Z.testbit v 4 = true /\ Z.land v 15 = n /\ Z.land v MPU_REGION_MASK = Z.land b MPU_REGION_MASK.
Proof.
  intros Hn. assert (Hn15 : Z.land n 15 = n) by (apply small_cases in Hn as [->|[->|[->|[->|[->|[->|[->| ->]]]]]]]; reflexivity).
  unfold v. rewrite Hn15. split; [|split].
  - rewrite !Z.lor_spec. change (Z.testbit 16 4) with true. by rewrite orb_true_r.
  - rewrite !Z.land_lor_distr_l, masked_low by lia. rewrite Hn15. done.
  - rewrite !Z.land_lor_distr_l, (mask_low_zero n) by lia. rewrite <- Z.land_assoc, Z.land_diag.
    change (Z.land 16 MPU_REGION_MASK) with 0. by rewrite !Z.lor_0_r.
Qed.

(** Decoding the attribute word. *)
Lemma attr_word flags shift : 1 <= shift < 32 ->
  truth (Z.land (region_attr flags shift) 1) = true /\ Z.land (Z.shiftr (region_attr flags shift) 1) 0x1F + 1 = shift.
Proof.
  intros Hs. unfold region_attr. set (ux := truth (Z.land flags MP_UX)).
  assert (H : forallb (fun sh => forallb (fun u : bool =>
    let a := Z.lor (Z.lor (Z.lor (if u then 0 else shl32 1 28) (shl32 3 24)) (shl32 (sh -w 1) 1)) 1 in
    truth (Z.land a 1) && (Z.land (Z.shiftr a 1) 0x1F + 1 =? sh)) [true; false]) (seqZ 1 31) = true) by (vm_compute; reflexivity).
  rewrite forallb_forall in H. specialize (H shift). rewrite <- list_elem_of_In, elem_of_seqZ in H.
  specialize (H ltac:(lia)). rewrite forallb_forall in H. specialize (H ux).
  destruct (andb_prop _ _ (H ltac:(destruct ux; simpl; tauto))) as [H1 H2]. split; [exact H1|by apply Z.eqb_eq].
Qed.

Definition mpu_wf (s : memstate) : Prop := length (mpu_regions (mpu s)) = 8%nat.

Definition set_region (n : Z) (r : Z * Z) (s : memstate) : memstate :=
  set_mpu (mk_mpu (<[Z.to_nat n := r]> (mpu_regions (mpu s))) n (mpu_ctrl (mpu s))) s.

Lemma write_region b n attr s (v := Z.lor (Z.lor (Z.land b MPU_REGION_MASK) 0x10) (Z.land n 0xF)) :
  mpu_wf s -> 0 <= n < 8 ->
  exists s1, write_base v s = Done (tt, s1) /\ fpages s1 = fpages s /\ memmap s1 = memmap s /\
    write_attr attr s1 = Done (tt, set_region n (Z.land b MPU_REGION_MASK, attr) s).
Proof.
  intros Hwf Hn. destruct (base_word b n Hn) as (Hb4 & Hb15 & Hbm). fold v in Hb4, Hb15, Hbm.
  eexists. split; [done|]. split; [done|]. split; [done|].
  unfold write_attr, modify, set_region. cbn [mpu set_mpu mpu_regions mpu_rnr mpu_ctrl]. rewrite Hb4, Hb15, Hbm.
  rewrite list_lookup_insert_eq by (unfold mpu_wf in Hwf; lia). cbn [fmap option_fmap option_map default fst].
  rewrite list_insert_insert_eq. by destruct s.
Qed.

Lemma mpu_setup_region_ok n fp f pool s :
  mpu_wf s -> 0 <= n < 8 -> fp <> NULL -> fpages s !! fp = Some f -> zlookup (memmap s) (fp_mpid f) = Some pool ->
  mpu_setup_region n fp s = Done (tt, set_region n (region_of (mp_flags pool) f) s).
Proof.
  intros Hwf Hn Hfp Hf Hp. unfold mpu_setup_region. rewrite (proj2 (Z.eqb_neq fp NULL)) by done. cbn [negb].
  rewrite (bind_Done _ _ _ _ _ (get_fp_ok _ _ _ Hf)).
  destruct (write_region (FPAGE_BASE f) n (region_attr (mp_flags pool) (fp_shift f)) s Hwf Hn) as (s1 & H1 & Hfp1 & Hmm & H2).
  rewrite (bind_Done _ _ _ _ _ H1). rewrite (bind_Done _ _ _ (mp_flags pool) s1); [exact H2|].
  apply mempool_flags_ok. by rewrite Hmm.
Qed.

Lemma addr_in_mpu_loop_ok n i addr s :
  mpu_wf s -> (i + n = 8)%nat ->
  exists k, addr_in_mpu_loop n (Z.of_nat i) addr s =
    Done (existsb (region_hit addr) (drop i (mpu_regions (mpu s))),
      set_mpu (mk_mpu (mpu_regions (mpu s)) k (mpu_ctrl (mpu s))) s).
Proof.
  intros Hwf. revert i s Hwf. induction n as [|n IH]; intros i s Hwf Hi.
  { exists (mpu_rnr (mpu s)). rewrite drop_ge by (unfold mpu_wf in Hwf; lia). simpl. by destruct s as [? ? ? ? ? []]. }
  destruct (lookup_lt_is_Some_2 (mpu_regions (mpu s)) i) as [[b a] Hr]; [unfold mpu_wf in Hwf; lia|].
  rewrite (drop_S _ _ _ Hr). cbn [addr_in_mpu_loop existsb].
  set (s1 := set_mpu (mk_mpu (mpu_regions (mpu s)) (Z.of_nat i) (mpu_ctrl (mpu s))) s).
  rewrite (bind_Done _ _ _ tt s1) by done.
  rewrite (bind_Done _ _ s1 a s1).
  2: { unfold read_attr, gets. f_equal. f_equal. simpl. by rewrite Nat2Z.id, Hr. }
  rewrite (bind_Done _ _ s1 (Z.lor b (Z.of_nat i)) s1).
  2: { unfold read_base, gets. f_equal. f_equal. simpl. by rewrite Nat2Z.id, Hr. }
  rewrite Z.land_lor_distr_l, (mask_low_zero (Z.of_nat i)), Z.lor_0_r by lia.
  fold (region_hit addr (b, a)). change (truth (Z.land a 1) && _ && _) with (region_hit addr (b, a)).
  destruct (region_hit addr (b, a)); [by exists (Z.of_nat i)|].
  replace (Z.of_nat i + 1) with (Z.of_nat (S i)) by lia.
  destruct (IH (S i) s1) as [k Hk]; [done|lia|]. exists k. by rewrite Hk.
Qed.

(** [addr_in_mpu] finds whether a region holds the address. *)
Lemma addr_in_mpu_ok addr s : mpu_wf s ->
  exists k, addr_in_mpu addr s = Done (existsb (region_hit addr) (mpu_regions (mpu s)),
    set_mpu (mk_mpu (mpu_regions (mpu s)) k (mpu_ctrl (mpu s))) s).
Proof. intros Hwf. destruct (addr_in_mpu_loop_ok 8 0 addr s Hwf eq_refl) as [k Hk]. rewrite drop_0 in Hk. by exists k. Qed.

Lemma region_of_hit addr flags f :
  Z.land (fp_base f) MPU_REGION_MASK = fp_base f -> 1 <= fp_shift f < 32 ->
  region_hit addr (region_of flags f) = addr_in_fpage addr f false.
Proof.
  intros Hb Hs. destruct (attr_word flags (fp_shift f) Hs) as [H1 H2].
  unfold region_hit, region_of, addr_in_fpage, FPAGE_END, FPAGE_SIZE, FPAGE_BASE in *. cbn [fst snd].
  rewrite H1, H2, Hb, Hb. simpl. by rewrite orb_false_r.
Qed.

(** ** Serving a fault *)

(** The pages link to pages in [mpu_next], and belong to pools. *)
Definition mpu_closed (s : memstate) : Prop :=
  forall p f, fpages s !! p = Some f ->
    (mpu_next f = NULL \/ is_Some (fpages s !! mpu_next f)) /\ is_Some (zlookup (memmap s) (fp_mpid f)).

Definition page_has (h : gmap Z fpage) (addr p : Z) : bool :=
  match h !! p with Some f => addr_in_fpage addr f false | None => false end.

(** The first page of the list that holds the address. *)
Fixpoint first_with (h : gmap Z fpage) (addr : Z) (l : list Z) : Z :=
  match l with [] => NULL | p :: l' => if page_has h addr p then p else first_with h addr l' end.

Lemma find_fpage_ok fuel addr p l s :
  as_seg (fpages s) p l NULL -> (length l <= fuel)%nat ->
  find_fpage fuel addr p s = Done (first_with (fpages s) addr l, s).
Proof.
  revert p fuel. induction l as [|q l IH]; intros p fuel Hs Hlen.
  { simpl in Hs. subst p. by destruct fuel. }
  destruct Hs as (-> & Hn & f & Hf & Hs). destruct fuel as [|fuel]; [simpl in Hlen; lia|].
  cbn [find_fpage first_with]. rewrite (proj2 (Z.eqb_neq q NULL)) by done.
  rewrite (bind_Done _ _ _ _ _ (get_fp_ok _ _ _ Hf)). unfold page_has. rewrite Hf.
  destruct (addr_in_fpage addr f false); [done|]. apply IH; [done|]. simpl in Hlen. lia.
Qed.

Lemma first_with_spec h addr l :
  first_with h addr l = NULL \/ first_with h addr l ∈ l /\ page_has h addr (first_with h addr l) = true.
Proof.
  induction l as [|p l IH]; simpl; [by left|]. destruct (page_has h addr p) eqn:E.
  - right. split; [left|done].
  - destruct IH as [|[? ?]]; [by left|]. right. split; [by right|done].
Qed.

Lemma take_take_le {A} (l : list A) n m : (n <= m)%nat -> take n (take m l) = take n l.
Proof. intros. rewrite take_take. f_equal. lia. Qed.

Lemma setup_following_ok n i fp s :
  mpu_wf s -> mpu_closed s -> 0 <= i -> is_Some (fpages s !! fp) -> (forall p f, fpages s !! p = Some f -> p <> NULL) ->
  exists m, setup_following n i fp s = Done (tt, set_mpu m s) /\ length (mpu_regions m) = 8%nat /\
    take (Z.to_nat i) (mpu_regions m) = take (Z.to_nat i) (mpu_regions (mpu s)).
Proof.
  revert i fp s. induction n as [|n IH]; intros i fp s Hwf Hcl Hi [f Hf] Hnn; cbn [setup_following].
  { exists (mpu s). split; [by destruct s|done]. }
  destruct (Z.ltb_spec i 8) as [Hlt|]; [|exists (mpu s); split; [by destruct s|done]].
  rewrite (bind_Done _ _ _ _ _ (get_fp_ok _ _ _ Hf)).
  destruct (Z.eqb_spec (mpu_next f) NULL) as [|Hn]; [exists (mpu s); split; [by destruct s|done]|]. cbn [negb].
  destruct (Hcl fp f Hf) as [[|[g Hg]] _]; [done|]. destruct (Hcl _ g Hg) as [_ [pool Hpool]].
  rewrite (bind_Done _ _ _ _ _ (mpu_setup_region_ok i (mpu_next f) g pool s Hwf ltac:(lia) Hn Hg Hpool)).
  destruct (IH (i + 1) (mpu_next f) (set_region i (region_of (mp_flags pool) g) s)) as (m & Hr & Hm & Ht).
  { unfold mpu_wf, set_region. simpl. by rewrite length_insert. } { done. } { lia. } { by exists g. } { done. }
  exists m. split; [rewrite Hr; by destruct s|]. split; [done|].
  assert (Hk : (Z.to_nat i <= Z.to_nat (i + 1))%nat) by lia.
  rewrite <- (take_take_le (mpu_regions m) _ _ Hk), Ht, take_take_le by done. unfold set_region. simpl.
  by rewrite take_insert_ge by lia.
Qed.

Fixpoint mpu_seg (h : gmap Z fpage) (p : Z) (l : list Z) : Prop :=
  match l with
  | [] => p = NULL
  | q :: l' => p = q /\ q <> NULL /\ exists f, h !! q = Some f /\ mpu_seg h (mpu_next f) l'
  end.

Lemma mpu_seg_frame h h' p l : mpu_seg h p l -> (forall q, q ∈ l -> h' !! q = h !! q) -> mpu_seg h' p l.
Proof.
  revert p. induction l as [|q l IH]; intros p; simpl; [done|].
  intros (-> & Hn & f & Hf & Hl) Hfr. split; [done|]. split; [done|]. exists f.
  rewrite Hfr by left. split; [done|]. apply IH; [done|]. intros x Hx. apply Hfr. by right.
Qed.

Lemma count_stack_ok fuel p l i s :
  mpu_seg (fpages s) p l -> (length l <= fuel)%nat ->
  count_stack fuel p i s = Done (i + Z.of_nat (length l), s).
Proof.
  revert p fuel i. induction l as [|q l IH]; intros p fuel i Hs Hlen.
  { simpl in Hs. subst p. destruct fuel; simpl; by rewrite Z.add_0_r. }
  destruct Hs as (-> & Hn & f & Hf & Hs). destruct fuel as [|fuel]; [simpl in Hlen; lia|].
  cbn [count_stack]. rewrite (proj2 (Z.eqb_neq q NULL)) by done.
  rewrite (bind_Done _ _ _ _ _ (get_fp_ok _ _ _ Hf)). rewrite IH; [|done|simpl in Hlen; lia].
  simpl length. do 2 f_equal. lia.
Qed.

Lemma mpu_select_lru_ok as_ a addr l st f s :
  as_ <> NULL -> mpu_wf s -> mpu_closed s -> (forall p f, fpages s !! p = Some f -> p <> NULL) ->
  ases s !! as_ = Some a -> as_seg (fpages s) (as_first a) l NULL -> NoDup l ->
  existsb (region_hit addr) (mpu_regions (mpu s)) = false ->
  fpages s !! first_with (fpages s) addr l = Some f -> Z.land (fp_base f) MPU_REGION_MASK = fp_base f ->
  1 <= fp_shift f < 32 -> mpu_seg (fpages s) (as_mpu_stack_first a) st -> (length st < 8)%nat ->
  (length st <= size (fpages s))%nat -> first_with (fpages s) addr l ∉ st ->
  as_mpu_first a = NULL \/ is_Some (fpages s !! as_mpu_first a) ->
  exists s', mpu_select_lru as_ addr s = Done (0, s') /\ mpu_wf s' /\
    existsb (region_hit addr) (mpu_regions (mpu s')) = true.
Proof.
  intros Has Hwf Hcl Hnn Ha Hl Hnd Hout Hf Hb Hsh Hst Hst8 Hstsz Hni Hmf.
  set (fp := first_with (fpages s) addr l) in *. pose proof (Hnn _ _ Hf) as Hfpn.
  destruct (first_with_spec (fpages s) addr l) as [|[Hin Hhas]]; [done|]. fold fp in Hin, Hhas.
  unfold page_has in Hhas. rewrite Hf in Hhas.
  destruct (addr_in_mpu_ok addr s Hwf) as [k Hk]. rewrite Hout in Hk.
  set (s1 := set_mpu _ s) in Hk.
  unfold mpu_select_lru. rewrite (proj2 (Z.eqb_neq as_ NULL)) by done. rewrite (bind_Done _ _ _ _ _ Hk).
  rewrite (bind_Done _ _ s1 a s1) by (unfold get_as, s1; cbn [ases set_mpu]; by rewrite Ha).
  rewrite (bind_Done (gets fp_fuel) _ _ _ _ eq_refl).
  pose proof (as_seg_length _ _ _ _ Hl Hnd) as Hlen.
  rewrite (bind_Done _ _ s1 fp s1).
  2: { apply (find_fpage_ok (fp_fuel s1) addr (as_first a) l s1 Hl). unfold fp_fuel, s1. cbn [fpages set_mpu]. lia. }
  rewrite (proj2 (Z.eqb_neq fp NULL)) by done.
  rewrite (bind_Done _ _ _ _ _ (upd_fp_ok fp _ f s1 Hf)).
  set (h2 := <[fp := with_mpu_next (as_mpu_first a) f]> (fpages s1)). set (s2 := set_fpages h2 s1).
  rewrite (bind_Done _ _ s2 tt (set_ases (<[as_ := with_mpu_first fp a]> (ases s)) s2)).
  2: { unfold upd_as, s2, s1. cbn [ases set_mpu set_fpages]. by rewrite Ha. }
  set (s3 := set_ases _ s2).
  rewrite (bind_Done _ _ s3 (Z.of_nat (length st)) s3).
  2: { rewrite (count_stack_ok _ _ st); [by rewrite Z.add_0_l| |].
       - eapply mpu_seg_frame; [exact Hst|]. intros q Hq. unfold s3, s2. cbn [fpages set_ases set_fpages]. unfold h2.
         apply lookup_insert_ne. by intros <-.
       - unfold fp_fuel, s1. cbn [fpages set_mpu]. lia. }
  destruct (Hcl fp f Hf) as [_ [pool Hpool]].
  assert (Hf3 : fpages s3 !! fp = Some (with_mpu_next (as_mpu_first a) f)) by apply lookup_insert_eq.
  assert (Hwf3 : mpu_wf s3) by done.
  rewrite (bind_Done _ _ _ _ _ (mpu_setup_region_ok (Z.of_nat (length st)) fp _ pool s3 Hwf3 ltac:(lia) Hfpn Hf3 Hpool)).
  set (r := region_of (mp_flags pool) (with_mpu_next (as_mpu_first a) f)).
  destruct (setup_following_ok 8 (Z.of_nat (length st) + 1) fp (set_region (Z.of_nat (length st)) r s3))
    as (m & Hm & Hmlen & Htake).
  { unfold mpu_wf, set_region. simpl. by rewrite length_insert. }
  { intros p g. unfold set_region, s3, s2. cbn [fpages set_mpu set_ases set_fpages memmap]. unfold h2.
    rewrite lookup_insert. case_decide as E.
    - intros [= <-]. cbn [mpu_next with_mpu_next fp_mpid]. split; [|by exists pool].
      destruct Hmf as [|[g Hg]]; [by left|]. right. rewrite lookup_insert. case_decide; by eexists.
    - intros Hg. destruct (Hcl p g Hg) as [Hn Hp]. split; [|done].
      destruct Hn as [|[g' Hg']]; [by left|]. right. rewrite lookup_insert. case_decide; by eexists. }
  { lia. } { by eexists. }
  { intros p g. unfold set_region, s3, s2. cbn [fpages set_mpu set_ases set_fpages]. unfold h2.
    rewrite lookup_insert. case_decide as E; [intros _; by rewrite <- E|]. apply Hnn. }
  rewrite (bind_Done _ _ _ _ _ Hm). eexists. split; [done|]. split; [exact Hmlen|].
  apply existsb_exists. exists r. split.
  - cbn [mpu set_mpu]. apply list_elem_of_In, (list_elem_of_lookup_2 _ (length st)).
    rewrite <- (lookup_take_lt _ (Z.to_nat (Z.of_nat (length st) + 1))) by lia. rewrite Htake.
    rewrite lookup_take_lt by lia. unfold set_region. simpl. rewrite Nat2Z.id. apply list_lookup_insert_eq.
    unfold mpu_wf in Hwf. lia.
  - unfold r. by rewrite region_of_hit.
Qed.

(** ** Properties *)

(** C22. [insert_fpage_chain_to_as]: a sorted chain of pages that does not overlap the
    sorted list of an address space is inserted at its place; the list holds exactly
    the old and the new pages and is sorted again. *)
Theorem insert_fpage_chain_sorted (as_ : Z) (a : as_t) (l c : list Z) (z : Z) (s : memstate)
    (Ha : ases s !! as_ = Some a) (Hl : as_list (fpages s) (as_first a) l) (Hsl : sorted_by (fpages s) l)
    (Hc : as_list (fpages s) (head_of (c ++ [z])) (c ++ [z])) (Hsc : sorted_by (fpages s) (c ++ [z]))
    (Hnd : NoDup (l ++ c ++ [z]))
    (Hgap : forall x, x ∈ l -> base_of (fpages s) x < base_of (fpages s) (head_of (c ++ [z])) \/
                               base_of (fpages s) z < base_of (fpages s) x) :
  exists l' s' a', insert_fpage_chain_to_as as_ (head_of (c ++ [z])) z s = Done (tt, s') /\
    ases s' !! as_ = Some a' /\ as_list (fpages s') (as_first a') l' /\
    l' ≡ₚ l ++ c ++ [z] /\ sorted_by (fpages s') l'.
Proof.
  apply as_list_seg in Hl, Hc.
  destruct (insert_chain_ok as_ a l c z s Ha Hl Hsl Hc Hnd) as (l1 & l2 & s' & a' & -> & Hr & Hl1 & Hl2 & Ha' & Hs' & Hb & _).
  exists (l1 ++ (c ++ [z]) ++ l2), s', a'. split; [done|]. split; [done|]. split; [by apply as_list_seg|].
  split; [rewrite <- (app_assoc l1 l2); f_equiv; apply Permutation_app_comm|].
  eapply sorted_by_ext; [exact Hb|].
  assert (Hhead : forall y, y ∈ c ++ [z] -> base_of (fpages s) (head_of (c ++ [z])) <= base_of (fpages s) y).
  { intros y. destruct (c ++ [z]) as [|x r] eqn:E; [by intros ?%not_elem_of_nil|]. by apply sorted_first. }
  assert (Hz : base_of (fpages s) (head_of (c ++ [z])) <= base_of (fpages s) z).
  { apply Hhead, elem_of_app. right. left. }
  assert (Hlow : forall x y, x ∈ l1 -> y ∈ c ++ [z] -> base_of (fpages s) x < base_of (fpages s) y).
  { intros x y Hx Hy. specialize (Hgap x ltac:(apply elem_of_app; by left)). specialize (Hhead y Hy).
    pose proof (proj1 (Forall_forall _ _) Hl1 x Hx). simpl in *. lia. }
  apply sorted_app; [by apply sorted_app_l in Hsl| |].
  - apply sorted_app; [done|by apply sorted_app_r in Hsl|]. intros x y Hx Hy.
    pose proof (sorted_last _ _ _ x Hsc Hx). pose proof (proj1 (Forall_forall _ _) Hl2 y Hy). simpl in *. lia.
  - intros x y Hx [Hy|Hy]%elem_of_app; [by apply Hlow|].
    pose proof (proj1 (Forall_forall _ _) Hl1 x Hx). pose proof (proj1 (Forall_forall _ _) Hl2 y Hy). simpl in *. lia.
Qed.

(** An address space 500 with pages at 0x1000, 0x1100 and 0x1400; page 400 at 0x1200 is
    not in it.  Uninitialised variables have the value [j]. *)
Definition as_example (j : Z) : memstate :=
  let page n b := mk_fpage n 0 0 b 7 0 8 3 in
  set_junk (fun _ => j) (set_ases {[500 := mk_as 0 100 0 0 0]}
    (set_fpages (<[100 := page 200 0x1000]> (<[200 := page 300 0x1100]> (<[300 := page 0 0x1400]>
      (<[400 := page 0 0x1200]> ∅)))) (reset_mem layout0 0x20000900 0x20002200 (fun _ => 0)))).

Lemma as_example_list j : as_list (fpages (as_example j)) 100 [100; 200; 300].
Proof.
  split; [done|]. split; [done|]. eexists. split; [reflexivity|].
  split; [done|]. split; [done|]. eexists. split; [reflexivity|].
  split; [done|]. split; [done|]. eexists. split; [reflexivity|]. done.
Qed.

Lemma insert_fpage_chain_sorted_witness :
  exists l' s' a', insert_fpage_chain_to_as 500 400 400 (as_example 0) = Done (tt, s') /\
    as_list (fpages s') (as_first a') l' /\ l' ≡ₚ [100; 200; 300; 400] /\ sorted_by (fpages s') l'.
Proof.
  destruct (insert_fpage_chain_sorted 500 (mk_as 0 100 0 0 0) [100; 200; 300] [] 400 (as_example 0))
    as (l' & s' & a' & Hr & _ & Hl & Hp & Hs).
  - reflexivity.
  - apply as_example_list.
  - repeat constructor.
  - split; [done|]. split; [done|]. eexists. split; [reflexivity|]. done.
  - repeat constructor.
  - apply (bool_decide_unpack _). vm_compute. exact I.
  - intros x Hx. apply list_elem_of_In in Hx as [<-|[<-|[<-|[]]]]; vm_compute; auto.
  - exists l', s', a'. done.
Defined.

(** [remove_fpage_from_list] reads the variable [end] before it is set: only if it
    happens to be 0 is the page unlinked from its predecessor; otherwise it is unlinked
    from the first page of the list, and every page between the two is lost. *)
Theorem remove_fpage_depends_on_junk (as_ : Z) (a : as_t) (x fp : Z) (l1 l2 : list Z) (s : memstate)
    (Ha : ases s !! as_ = Some a) (Hl : as_list (fpages s) (as_first a) (x :: l1 ++ fp :: l2))
    (Hnd : NoDup (x :: l1 ++ fp :: l2)) :
  exists s', remove_fpage_from_list AS_LIST as_ fp s = Done (tt, s') /\ ases s' = ases s /\
    as_list (fpages s') (as_first a) (x :: (if decide (junk s 0%nat = 0) then l1 else []) ++ l2).
Proof.
  apply as_list_seg in Hl.
  destruct (remove_fpage_ok as_ a x l1 fp l2 s Ha Hl Hnd) as (s' & Hr & Has & Hs).
  exists s'. split; [done|]. split; [done|]. by apply as_list_seg.
Qed.

Lemma remove_fpage_depends_on_junk_witness :
  (exists s', remove_fpage_from_list AS_LIST 500 300 (as_example 0) = Done (tt, s') /\ as_list (fpages s') 100 [100; 200]) /\
  (exists s', remove_fpage_from_list AS_LIST 500 300 (as_example 7) = Done (tt, s') /\ as_list (fpages s') 100 [100]).
Proof.
  split.
  - destruct (remove_fpage_depends_on_junk 500 (mk_as 0 100 0 0 0) 100 300 [200] [] (as_example 0)) as (s' & Hr & _ & Hl).
    + reflexivity.
    + apply as_example_list.
    + apply (bool_decide_unpack _). vm_compute. exact I.
    + exists s'. split; [exact Hr|exact Hl].
  - destruct (remove_fpage_depends_on_junk 500 (mk_as 0 100 0 0 0) 100 300 [200] [] (as_example 7)) as (s' & Hr & _ & Hl).
    + reflexivity.
    + apply as_example_list.
    + apply (bool_decide_unpack _). vm_compute. exact I.
    + exists s'. split; [exact Hr|exact Hl].
Defined.
