(* ===== verification/MemoryProps.v ===== *)
(** * Memory pools and the protection unit: theorems

    Which pool [mempool_search] finds, what becomes of a range in a pool without
    flexible pages, and the isolation of address spaces: the memory protection unit
    admits exactly what the pages it shows hold. *)

From S2P Require Import Prelude Ktable Mempool Fpage FpageChain Memory AddressSpace.

(** ** Pools *)

(** The range of [size] bytes at [base] lies in the pool. *)
Definition pool_contains (base size : Z) (p : mempool_t) : Prop := mp_start p <= base /\ base + size <= mp_end p.

Lemma search_pools_ok l i base size :
  0 <= i ->
  (search_pools l i base size = -1 /\
     Forall (fun p => ~ (mp_start p <= base /\ base +w size <= mp_end p)) l) \/
  (exists k p, search_pools l i base size = i + Z.of_nat k /\ l !! k = Some p /\
     mp_start p <= base /\ base +w size <= mp_end p /\
     Forall (fun p => ~ (mp_start p <= base /\ base +w size <= mp_end p)) (take k l)).
Proof.
  revert i. induction l as [|p l IH]; intros i Hi; [by left|]. cbn [search_pools].
  destruct ((mp_start p <=? base) && (base +w size <=? mp_end p)) eqn:E.
  - right. exists 0%nat, p. apply andb_prop in E as [E1%Z.leb_le E2%Z.leb_le].
    split; [lia|]. split; [done|]. split; [done|]. split; [done|]. constructor.
  - assert (Hn : ~ (mp_start p <= base /\ base +w size <= mp_end p)).
    { intros [H1 H2]. by rewrite (proj2 (Z.leb_le _ _) H1), (proj2 (Z.leb_le _ _) H2) in E. }
    destruct (IH (i + 1) ltac:(lia)) as [[H1 H2]|(k & q & Hk & Hq & Ha & Hb & Hf)].
    + left. split; [done|]. by constructor.
    + right. exists (S k), q. split; [lia|]. split; [done|]. split; [done|]. split; [done|]. by constructor.
Qed.

(** [mempool_align] in a pool that holds no flexible pages. *)
Lemma mempool_align_invalid mpid pool addr s :
  zlookup (memmap s) mpid = Some pool -> Z.land (mp_flags pool) MP_FPAGE_MASK = 0 ->
  mempool_align mpid addr s = Done (INVALID_FPAGE_REGION, s).
Proof.
  intros Hp Hf. unfold mempool_align. rewrite (bind_Done _ _ s pool s) by (unfold get_pool; by rewrite Hp).
  by rewrite Hf.
Qed.

(** The chain for the invalid region needs more pages than the table has. *)
Lemma invalid_chain_panics mpid pool s pfirst plast :
  fp_inv s -> zlookup (memmap s) mpid = Some pool -> kt_num (fpage_table s) = CONFIG_MAX_FPAGES -> pfirst = NULL ->
  create_fpage_chain INVALID_FPAGE_REGION INVALID_FPAGE_REGION mpid pfirst plast s = Panic.
Proof.
  intros Hinv Hpool Hnum ->. unfold create_fpage_chain. rewrite (bind_Done (gets _) _ _ _ _ eq_refl). rewrite Hnum.
  destruct (tiles_exist INVALID_FPAGE_REGION INVALID_FPAGE_REGION) as [l Hl]; [done..|].
  pose proof (first_tiles_prefix 300 _ _ _ Hl) as Hlen. pose proof (size_free_fp s) as Hfree. rewrite Hnum in Hfree.
  change (length (first_tiles 300 INVALID_FPAGE_REGION INVALID_FPAGE_REGION)) with 300%nat in Hlen.
  change (Z.to_nat CONFIG_MAX_FPAGES) with 256%nat in *.
  eapply fpage_chain_loop_full; [exact Hl|done|done|done|exact Hpool|lia|lia|done].
Qed.

(** ** Showing a page *)

Lemma existsb_insert {A} (p : A -> bool) (l : list A) i x :
  (i < length l)%nat -> existsb p (<[i := x]> l) = p x || existsb p (delete i l).
Proof.
  revert i. induction l as [|y l IH]; intros i Hi; [simpl in Hi; lia|]. destruct i as [|i]; simpl; [done|].
  rewrite IH by (simpl in Hi; lia). destruct (p x), (p y); done.
Qed.

Lemma mpu_clear_region_ok n s :
  mpu_wf s -> 0 <= n < 8 -> mpu_setup_region n NULL s = Done (tt, set_region n (0, 0) s).
Proof.
  intros Hwf Hn. unfold mpu_setup_region. cbn [NULL Z.eqb negb].
  destruct (write_region 0 n 0 s Hwf Hn) as (s1 & H1 & _ & _ & H2).
  change (Z.lor (Z.lor (Z.land 0 MPU_REGION_MASK) 16) (Z.land n 15)) with (Z.lor 16 (Z.land n 15)) in H1.
  rewrite (bind_Done _ _ _ _ _ H1). exact H2.
Qed.

(** ** Properties *)

(** [mempool_search] for a range that does not reach the end of the 32-bit address
    range returns the first pool that contains the range, or -1 if none does. *)
Theorem mempool_search_first (base size : Z) (s : memstate) (Hb : 0 <= base) (Hs : 0 <= size)
    (Hend : base + size < u32_modulus) :
  exists r, mempool_search base size s = Done (r, s) /\
    (r = -1 /\ Forall (fun p => ~ pool_contains base size p) (memmap s) \/
     exists k p, r = Z.of_nat k /\ memmap s !! k = Some p /\ pool_contains base size p /\
       Forall (fun p => ~ pool_contains base size p) (take k (memmap s))).
Proof.
  eexists. split; [reflexivity|]. destruct (search_pools_ok (memmap s) 0 base size) as [H|(k & p & H)]; [lia| |];
    unfold add32 in H; rewrite wrap32_small in H by (unfold is_u32, u32_modulus in *; lia).
  - by left.
  - right. exists k, p. destruct H as (Hk & Hp & H1 & H2 & Hf). done.
Qed.

Lemma mempool_search_first_witness :
  exists r, mempool_search 0x20006100 0x100 (as_example 0) = Done (r, as_example 0) /\ r = 7.
Proof.
  destruct (mempool_search_first 0x20006100 0x100 (as_example 0)) as (r & Hr & _); [lia|lia|reflexivity|].
  exists r. split; [exact Hr|]. vm_compute in Hr. by injection Hr as <-.
Defined.

(** A range that ends at the end of the address range is found in the first pool that
    starts below it, wherever that pool ends. *)
Lemma mempool_search_wraps base s p rest :
  0 < base < u32_modulus -> memmap s = p :: rest -> mp_start p <= base -> 0 <= mp_end p ->
  mempool_search base (u32_modulus - base) s = Done (0, s).
Proof.
  intros Hb Hm Hp He. unfold mempool_search, gets. rewrite Hm. cbn [search_pools]. unfold add32, wrap32.
  replace (base + (u32_modulus - base)) with u32_modulus by lia. rewrite Z_mod_same_full.
  by rewrite (proj2 (Z.leb_le _ _) Hp), (proj2 (Z.leb_le _ _) He).
Qed.

(** A range in a pool without flexible pages is not refused: [mempool_align] returns
    [INVALID_FPAGE_REGION] for its base and its size, [assign_fpages_ext] takes that for
    an address and a length, and the chain it asks for runs the table out of pages and
    ends in the failed assertion of [create_fpage]. *)
Theorem assign_fpages_no_fpage_panics (mpid as_ base size : Z) (pool : mempool_t) (s : memstate)
    (Hs : size <> 0) (Hend : base < base +w size) (Hpool : zlookup (memmap s) mpid = Some pool)
    (Hflags : Z.land (mp_flags pool) MP_FPAGE_MASK = 0) (Hinv : fp_inv s)
    (Hnum : kt_num (fpage_table s) = CONFIG_MAX_FPAGES)
    (Has : as_ = NULL \/ exists a, ases s !! as_ = Some a /\ as_first a = NULL) :
  assign_fpages_ext mpid as_ base size NULL NULL s = Panic.
Proof.
  pose proof (zlookup_Some_range _ _ _ Hpool) as Hr. unfold assign_fpages_ext.
  rewrite (proj2 (Z.eqb_neq size 0)), (proj2 (Z.eqb_neq mpid (-1))) by lia.
  rewrite (bind_Done (mret mpid) _ _ mpid s) by done. rewrite (proj2 (Z.eqb_neq mpid (-1))) by lia.
  assert (Hal : forall a, mempool_align mpid a s = Done (INVALID_FPAGE_REGION, s)) by (intros; by eapply mempool_align_invalid).
  pose proof (invalid_chain_panics mpid pool s NULL NULL Hinv Hpool Hnum eq_refl) as Hch.
  destruct (Z.eqb_spec as_ NULL) as [|Hn]; cbn [negb].
  - rewrite !(bind_Done _ _ _ _ _ (Hal _)). unfold mbind, M_bind. by rewrite Hch.
  - destruct Has as [|(a & Ha & Hf)]; [done|]. rewrite (bind_Done (gets fp_fuel) _ _ _ _ eq_refl).
    rewrite (bind_Done _ _ s (mk_vars (LINK_AS as_) base NULL NULL) s).
    2: { cbn [assign_loop get_link v_fp v_base]. erewrite bind_Done.
         2: { erewrite bind_Done; [reflexivity|]. unfold get_as. by rewrite Ha. }
         by rewrite Hf, orb_true_r. }
    cbn [v_base v_fp]. rewrite (proj2 (Z.ltb_lt _ _) Hend). rewrite !(bind_Done _ _ _ _ _ (Hal _)).
    unfold mbind, M_bind. by rewrite Hch.
Qed.

Lemma assign_fpages_no_fpage_panics_witness :
  assign_fpages_ext 0 NULL 0x08000000 0x100 NULL NULL (reset_mem layout0 0x20000900 0x20002200 (fun _ => 0)) = Panic.
Proof.
  apply (assign_fpages_no_fpage_panics 0 NULL 0x08000000 0x100 (mk_mempool 0x08000000 0x08006000 5 MPT_KERNEL_TEXT)).
  - discriminate.
  - reflexivity.
  - reflexivity.
  - reflexivity.
  - apply fp_inv_reset; reflexivity.
  - reflexivity.
  - by left.
Defined.

(** C24. [mpu_setup_region] and [addr_in_mpu] agree: after region [n] is set up for a page,
    an address is found in the unit exactly if it lies in the page or in one of the
    other regions; after it is set up for no page, exactly if it lies in one of the
    other regions. *)
Theorem mpu_setup_region_addr_in_mpu (n fp : Z) (f : fpage) (pool : mempool_t) (s : memstate)
    (Hwf : mpu_wf s) (Hn : 0 <= n < 8) (Hfp : fp <> NULL) (Hf : fpages s !! fp = Some f)
    (Hpool : zlookup (memmap s) (fp_mpid f) = Some pool)
    (Hb : Z.land (fp_base f) MPU_REGION_MASK = fp_base f) (Hsh : 1 <= fp_shift f < 32) :
  let others addr := existsb (region_hit addr) (delete (Z.to_nat n) (mpu_regions (mpu s))) in
  (exists s1, mpu_setup_region n fp s = Done (tt, s1) /\
     forall addr, exists s2, addr_in_mpu addr s1 = Done (addr_in_fpage addr f false || others addr, s2)) /\
  (exists s1, mpu_setup_region n NULL s = Done (tt, s1) /\
     forall addr, exists s2, addr_in_mpu addr s1 = Done (others addr, s2)).
Proof.
  assert (Hw : forall r, mpu_wf (set_region n r s)) by (intros r; unfold mpu_wf, set_region; simpl; by rewrite length_insert).
  assert (Hlen : (Z.to_nat n < length (mpu_regions (mpu s)))%nat) by (unfold mpu_wf in Hwf; lia).
  intros others. split; eexists.
  - split; [by apply mpu_setup_region_ok|]. intros addr. destruct (addr_in_mpu_ok addr _ (Hw (region_of (mp_flags pool) f))) as [k Hk].
    eexists. rewrite Hk. cbn [mpu set_region set_mpu mpu_regions]. rewrite existsb_insert by done. by rewrite region_of_hit.
  - split; [by apply mpu_clear_region_ok|]. intros addr. destruct (addr_in_mpu_ok addr _ (Hw (0, 0))) as [k Hk].
    eexists. rewrite Hk. cbn [mpu set_region set_mpu mpu_regions]. by rewrite existsb_insert by done.
Qed.

Lemma mpu_setup_region_addr_in_mpu_witness :
  exists s1 s2, mpu_setup_region 3 300 (as_example 0) = Done (tt, s1) /\ addr_in_mpu 0x14ff s1 = Done (true, s2).
Proof.
  destruct (mpu_setup_region_addr_in_mpu 3 300 (mk_fpage 0 0 0 0x1400 7 0 8 3) (mk_mempool 0x20006000 0x2001c000 304 MPT_AVAILABLE)
    (as_example 0)) as [(s1 & H1 & H2) _].
  - reflexivity.
  - lia.
  - discriminate.
  - reflexivity.
  - reflexivity.
  - reflexivity.
  - vm_compute. split; [discriminate|reflexivity].
  - destruct (H2 0x14ff) as [s2 H3]. exists s1, s2. split; [exact H1|exact H3].
Defined.

(** C23. [mpu_select_lru] serves an access: if no region holds the address but a page of
    the address space does, and the pages of the stack leave a region free, it
    reports success and the address is in the unit afterwards, so that the access can
    be repeated. *)
Theorem mpu_select_lru_serves (as_ : Z) (a : as_t) (addr : Z) (l st : list Z) (f : fpage) (s : memstate)
    (Has : as_ <> NULL) (Hwf : mpu_wf s) (Hcl : mpu_closed s) (Hnn : forall p g, fpages s !! p = Some g -> p <> NULL)
    (Ha : ases s !! as_ = Some a) (Hl : as_list (fpages s) (as_first a) l) (Hnd : NoDup l)
    (Hout : forall r, r ∈ mpu_regions (mpu s) -> region_hit addr r = false)
    (Hf : fpages s !! first_with (fpages s) addr l = Some f) (Hb : Z.land (fp_base f) MPU_REGION_MASK = fp_base f)
    (Hsh : 1 <= fp_shift f < 32) (Hst : mpu_seg (fpages s) (as_mpu_stack_first a) st) (Hst8 : (length st < 8)%nat)
    (Hsz : (length st <= size (fpages s))%nat) (Hni : first_with (fpages s) addr l ∉ st)
    (Hmf : as_mpu_first a = NULL \/ is_Some (fpages s !! as_mpu_first a)) :
  exists s1 s2, mpu_select_lru as_ addr s = Done (0, s1) /\ addr_in_mpu addr s1 = Done (true, s2).
Proof.
  destruct (mpu_select_lru_ok as_ a addr l st f s) as (s1 & H1 & Hwf1 & Hhit); try done.
  { by apply as_list_seg. }
  { destruct (existsb _ _) eqn:E; [|done]. apply existsb_exists in E as (r & Hr%list_elem_of_In & E).
    by rewrite (Hout r Hr) in E. }
  destruct (addr_in_mpu_ok addr s1 Hwf1) as [k Hk]. rewrite Hhit in Hk. by eexists _, _.
Qed.

Lemma as_example_closed j : mpu_closed (as_example j) /\ forall p g, fpages (as_example j) !! p = Some g -> p <> NULL.
Proof.
  split.
  - apply map_Forall_to_list. apply (proj2 (Forall_forall _ _)). intros [p f] Hp.
    change (map_to_list (fpages (as_example j))) with (map_to_list (fpages (as_example 0))) in Hp.
    vm_compute in Hp. repeat (apply elem_of_cons in Hp as [[= -> ->]|Hp]); [split; [by left|by eexists]..|].
    by apply not_elem_of_nil in Hp.
  - apply (map_Forall_to_list (fun p _ => p <> NULL)), (bool_decide_unpack _). vm_compute. exact I.
Qed.

Lemma mpu_select_lru_serves_witness :
  exists s1 s2, mpu_select_lru 500 0x1180 (as_example 0) = Done (0, s1) /\ addr_in_mpu 0x1180 s1 = Done (true, s2).
Proof.
  apply (mpu_select_lru_serves 500 (mk_as 0 100 0 0 0) 0x1180 [100; 200; 300] [] (mk_fpage 300 0 0 0x1100 7 0 8 3)).
  - discriminate.
  - reflexivity.
  - apply as_example_closed.
  - apply as_example_closed.
  - reflexivity.
  - apply as_example_list.
  - apply (bool_decide_unpack _). vm_compute. exact I.
  - intros r Hr. apply list_elem_of_In in Hr. vm_compute in Hr. repeat (destruct Hr as [<-|Hr]; [reflexivity|]). done.
  - reflexivity.
  - reflexivity.
  - vm_compute. split; [discriminate|reflexivity].
  - reflexivity.
  - vm_compute. lia.
  - vm_compute. lia.
  - apply not_elem_of_nil.
  - by left.
Defined.
