(* ===== verification/MpuSetup.v ===== *)
(** * The pages a thread sees: theorems

    [as_setup_mpu] of [kernel/memory.c] programs the eight regions of the memory
    protection unit for the thread that runs next. *)

From S2P Require Import Prelude Ktable Mempool Fpage FpageChain Memory AddressSpace MemoryProps.

(** ** Heaps that differ in [mpu_next] only *)

Definition mpu_eq (h h' : gmap Z fpage) : Prop :=
  forall p, with_mpu_next 0 <$> h' !! p = with_mpu_next 0 <$> h !! p.

#[export] Instance mpu_eq_equiv : Equivalence mpu_eq.
Proof. split; [done| |]; unfold mpu_eq; [by intros h h' H p|]. intros h1 h2 h3 H1 H2 p. by rewrite H2, H1. Qed.

Lemma mpu_eq_upd h p f x : h !! p = Some f -> mpu_eq h (<[p := with_mpu_next x f]> h).
Proof. intros Hf q. rewrite lookup_insert. case_decide as E; [subst q; by rewrite Hf|done]. Qed.

Lemma mpu_eq_lookup h h' p f : mpu_eq h h' -> h !! p = Some f -> exists x, h' !! p = Some (with_mpu_next x f).
Proof.
  intros H Hf. specialize (H p). rewrite Hf in H. destruct (h' !! p) as [f'|]; [|done].
  exists (mpu_next f'). f_equal. destruct f, f'. by injection H as [= -> -> -> -> -> -> ->].
Qed.

Lemma mpu_eq_as_seg h h' p l r : mpu_eq h h' -> as_seg h p l r -> as_seg h' p l r.
Proof.
  intros He. revert p. induction l as [|q l IH]; intros p; simpl; [done|]. intros (-> & Hn & f & Hf & Hl).
  destruct (mpu_eq_lookup _ _ _ _ He Hf) as [x Hx]. split; [done|]. split; [done|]. eexists. split; [done|]. by apply IH.
Qed.

Lemma mpu_eq_size h h' : mpu_eq h h' -> size h' = size h.
Proof.
  intros H. rewrite <- !size_dom. f_equal. apply set_eq. intros p. rewrite !elem_of_dom. specialize (H p).
  destruct (h !! p), (h' !! p); try done; split; intros _; by eexists.
Qed.

(** ** Lists linked by [mpu_next] *)

Lemma mpu_seg_join h L t L2 f :
  mpu_seg h (head_of (L ++ [t])) (L ++ [t]) -> mpu_seg h (head_of L2) L2 -> NoDup ((L ++ [t]) ++ L2) -> h !! t = Some f ->
  mpu_seg (<[t := with_mpu_next (head_of L2) f]> h) (head_of (L ++ [t])) ((L ++ [t]) ++ L2).
Proof.
  intros H1 H2 Hnd Hf. set (h' := <[t := _]> h).
  assert (H2' : mpu_seg h' (head_of L2) L2).
  { eapply mpu_seg_frame; [done|]. intros q Hq. apply lookup_insert_ne. intros ->.
    apply NoDup_app in Hnd as (_ & Hnd & _). apply (Hnd q); [apply elem_of_app; right; left|done]. }
  assert (Ht : t ∉ L). { apply NoDup_app in Hnd as (Hnd & _). apply NoDup_app in Hnd as (_ & Hnd & _). intros Hx. apply (Hnd t Hx). left. }
  clear Hnd H2. revert H1. generalize (head_of (L ++ [t])) as p. induction L as [|q L IH]; intros p H1; simpl in *.
  - destruct H1 as (-> & Hn & _). split; [done|]. split; [done|]. eexists. split; [apply lookup_insert_eq|done].
  - destruct H1 as (-> & Hn & g & Hg & H1). split; [done|]. split; [done|]. exists g. split.
    + unfold h'. rewrite lookup_insert_ne; [done|]. intros ->. apply Ht. left.
    + apply IH; [|done]. intros Hx. apply Ht. by right.
Qed.

Lemma mpu_seg_head h p L : mpu_seg h p L -> p = head_of L.
Proof. by destruct L; intros H; [|destruct H]. Qed.

Lemma mpu_seg_nonnull h p L q : mpu_seg h p L -> q ∈ L -> q <> NULL /\ is_Some (h !! q).
Proof.
  revert p. induction L as [|x L IH]; intros p; simpl; [by intros _ ?%not_elem_of_nil|].
  intros (-> & Hn & f & Hf & Hl) [->|Hq]%elem_of_cons; [split; [done|by eexists]|eauto].
Qed.

(** ** The pages of the stack *)

(** The pages of the list the walk over the stack takes. *)
Fixpoint stack_of (h : gmap Z fpage) (start end_ : Z) (l : list Z) : list Z :=
  match l with
  | [] => []
  | p :: l' =>
      if start <? end_ then
        match h !! p with
        | Some f => if addr_in_fpage start f false then p :: stack_of h (FPAGE_END f) end_ l' else stack_of h start end_ l'
        | None => []
        end
      else []
  end.

Lemma stack_of_incl h start end_ l p : p ∈ stack_of h start end_ l -> p ∈ l.
Proof.
  revert start. induction l as [|q l IH]; intros start; simpl; [done|].
  destruct (start <? end_); [|by intros ?%not_elem_of_nil]. destruct (h !! q) as [f|]; [|by intros ?%not_elem_of_nil].
  destruct (addr_in_fpage start f false); [intros [->|H]%elem_of_cons; [left|]|intros H]; right; eauto.
Qed.

Lemma stack_pages_ok fuel arr i start end_ p l sf s :
  as_seg (fpages s) p l NULL -> (length l <= fuel)%nat -> length arr = 8%nat ->
  (i + length (stack_of (fpages s) start end_ l) < 8)%nat ->
  exists sf', stack_pages fuel arr (Z.of_nat i) start end_ p sf s =
    Done ((fill arr i (stack_of (fpages s) start end_ l), Z.of_nat (i + length (stack_of (fpages s) start end_ l)), sf'), s).
Proof.
  revert fuel arr i start p sf. induction l as [|q l IH]; intros fuel arr i start p sf Hl Hfuel Harr Hi.
  { simpl in *. subst p. exists sf. rewrite fill_nil, Nat.add_0_r. destruct fuel; simpl; by rewrite andb_false_r. }
  destruct Hl as (-> & Hn & f & Hf & Hl). destruct fuel as [|fuel]; [simpl in Hfuel; lia|].
  cbn [stack_pages stack_of] in *. rewrite (proj2 (Z.ltb_lt (Z.of_nat i) 8)) by lia.
  rewrite (proj2 (Z.eqb_neq q NULL)) by done. cbn [negb andb].
  destruct (start <? end_); cbn [negb]; [|exists sf; by rewrite fill_nil, Nat.add_0_r].
  rewrite Hf in *. rewrite (bind_Done _ _ _ _ _ (get_fp_ok _ _ _ Hf)).
  destruct (addr_in_fpage start f false).
  - simpl length in *. rewrite (zinsert_Some arr) by lia. rewrite (bind_Done (lift_opt (Some _)) _ _ _ _ eq_refl). rewrite Nat2Z.id.
    replace (Z.of_nat i + 1) with (Z.of_nat (S i)) by lia.
    destruct (IH fuel (<[i := q]> arr) (S i) (FPAGE_END f) (as_next f) (if sf =? NULL then q else sf)) as [sf' Hr];
      [done|lia|by rewrite length_insert|lia|].
    exists sf'. rewrite Hr. rewrite fill_cons by lia. do 4 f_equal. lia.
  - apply IH; [done|simpl in Hfuel; lia|done|done].
Qed.

(** ** The order of the other pages *)

Definition tail_of (L : list Z) : Z := default NULL (last L).

(** The three lists under construction: linked, and disjoint from the pages still to
    be sorted. *)
Record sorting (h : gmap Z fpage) (LL : list (list Z)) (rest : list Z) : Prop := {
  so_len : length LL = 3%nat;
  so_seg : Forall (fun L => mpu_seg h (head_of L) L) LL;
  so_nodup : NoDup (concat LL ++ rest);
  so_rest : Forall (fun p => exists f, h !! p = Some f /\ mpu_next f = NULL) rest;
}.

Lemma concat_insert_perm (LL : list (list Z)) k L q :
  LL !! k = Some L -> concat (<[k := L ++ [q]]> LL) ≡ₚ q :: concat LL.
Proof.
  revert k. induction LL as [|L0 LL IH]; intros k; [done|]. destruct k as [|k]; simpl.
  - intros [= ->]. rewrite <- app_assoc. simpl. by rewrite <- Permutation_middle.
  - intros Hk. rewrite (IH k Hk). by rewrite <- Permutation_middle.
Qed.

Lemma elem_of_concat_lookup (LL : list (list Z)) k L x : LL !! k = Some L -> x ∈ L -> x ∈ concat LL.
Proof.
  intros Hk Hx. apply list_elem_of_In, in_concat. exists L. split; [|by apply list_elem_of_In].
  apply list_elem_of_In. by eapply list_elem_of_lookup_2.
Qed.

(** Two lists at different places have no page in common. *)
Lemma concat_disjoint (LL : list (list Z)) i j L L' x :
  NoDup (concat LL) -> LL !! i = Some L -> LL !! j = Some L' -> i <> j -> x ∈ L -> x ∈ L' -> False.
Proof.
  revert i j. induction LL as [|L0 LL IH]; intros i j Hnd Hi Hj Hne Hx Hx'; [done|].
  simpl in Hnd. apply NoDup_app in Hnd as (_ & Hd & Hnd).
  destruct i as [|i], j as [|j]; simpl in Hi, Hj.
  - done.
  - injection Hi as ->. eapply Hd; [exact Hx|]. by eapply elem_of_concat_lookup.
  - injection Hj as ->. eapply Hd; [exact Hx'|]. by eapply elem_of_concat_lookup.
  - eapply (IH i j); [done..|lia|done|done].
Qed.

(** One page is added to list [k]. *)
Lemma sorting_first h LL q rest k :
  sorting h LL (q :: rest) -> q <> NULL -> LL !! k = Some [] -> sorting h (<[k := [q]]> LL) rest.
Proof.
  intros [Hlen Hseg Hnd Hrest] Hq Hk. apply Forall_cons in Hrest as [(f & Hf & Hn) Hrest].
  constructor; [by rewrite length_insert| | |done].
  - apply Forall_insert; [done|]. simpl. split; [done|]. split; [done|]. by exists f.
  - rewrite (concat_insert_perm LL k [] q Hk). simpl. by rewrite Permutation_middle.
Qed.

Lemma sorting_next h LL q rest k L t f :
  sorting h LL (q :: rest) -> q <> NULL -> LL !! k = Some (L ++ [t]) -> h !! t = Some f ->
  sorting (<[t := with_mpu_next q f]> h) (<[k := (L ++ [t]) ++ [q]]> LL) rest.
Proof.
  intros [Hlen Hseg Hnd Hrest] Hq Hk Hf. apply Forall_cons in Hrest as [(g & Hg & Hn) Hrest].
  assert (Ht : t ∈ concat LL). { eapply elem_of_concat_lookup; [exact Hk|]. apply elem_of_app. right. left. }
  assert (Hdis : forall x, x ∈ q :: rest -> x <> t).
  { intros x Hx ->. apply NoDup_app in Hnd as (_ & Hd & _). by apply (Hd t). }
  assert (HndL : NoDup ((L ++ [t]) ++ [q])).
  { apply NoDup_app. split; [|split; [|apply NoDup_singleton]].
    - apply NoDup_app in Hnd as [Hnd _]. clear -Hnd Hk. revert k Hk. induction LL as [|L0 LL IH]; intros [|k] Hk; [done..| |];
        simpl in *; apply NoDup_app in Hnd as (H1 & _ & H2); [by injection Hk as <-|eauto].
    - intros x Hx ->%list_elem_of_singleton. apply NoDup_app in Hnd as (_ & Hd & _). apply (Hd q); [|left].
      by eapply elem_of_concat_lookup. }
  constructor; [by rewrite length_insert| | |].
  - apply Forall_lookup. intros i L' Hi. destruct (decide (i = k)) as [->|Hne].
    + rewrite list_lookup_insert_eq in Hi by (by eapply lookup_lt_Some). injection Hi as <-.
      replace (head_of ((L ++ [t]) ++ [q])) with (head_of (L ++ [t])) by by destruct L.
      apply (mpu_seg_join h L t [q] f); [|by simpl; eauto|done|done].
      exact (proj1 (Forall_lookup _ _) Hseg k _ Hk).
    + rewrite list_lookup_insert_ne in Hi by done. eapply mpu_seg_frame; [exact (proj1 (Forall_lookup _ _) Hseg i _ Hi)|].
      intros x Hx. apply lookup_insert_ne. intros <-. apply NoDup_app in Hnd as [Hnd _].
      eapply (concat_disjoint LL i k L' _ t Hnd Hi Hk Hne Hx). apply elem_of_app. right. left.
  - rewrite (concat_insert_perm LL k _ q Hk). simpl. by rewrite Permutation_middle.
  - apply Forall_forall. intros x Hx. rewrite lookup_insert_ne; [exact (proj1 (Forall_forall _ _) Hrest x Hx)|].
    intros <-. apply (Hdis t); [by right|done].
Qed.

Lemma zinsert_map {A B} (g : A -> B) (l : list A) (k : nat) x :
  (k < length l)%nat -> zinsert (Z.of_nat k) (g x) (g <$> l) = Some (g <$> <[k := x]> l).
Proof. intros Hk. rewrite zinsert_Some by (rewrite length_fmap; lia). by rewrite Nat2Z.id, list_fmap_insert. Qed.

Lemma zlookup_map {A B} (g : A -> B) (l : list A) (k : nat) x :
  l !! k = Some x -> zlookup (g <$> l) (Z.of_nat k) = Some (g x).
Proof. intros Hk. by rewrite zlookup_nat, list_lookup_fmap, Hk. Qed.

Lemma sort_pages_ok fuel pc p rest LL s :
  as_seg (fpages s) p rest NULL -> sorting (fpages s) LL rest -> (length rest <= fuel)%nat ->
  exists LL' h', sort_pages fuel pc p (head_of <$> LL) (tail_of <$> LL) s =
      Done ((head_of <$> LL', tail_of <$> LL'), set_fpages h' s) /\
    mpu_eq (fpages s) h' /\ sorting h' LL' [] /\ concat LL' ≡ₚ concat LL ++ rest.
Proof.
  revert fuel p LL s. induction rest as [|q rest IH]; intros fuel p LL s Hl Hso Hfuel.
  { simpl in Hl. subst p. exists LL, (fpages s). split; [destruct fuel; simpl; by destruct s|].
    split; [done|]. split; [done|]. by rewrite app_nil_r. }
  destruct Hl as (-> & Hn & f & Hf & Hl). destruct fuel as [|fuel]; [simpl in Hfuel; lia|].
  cbn [sort_pages]. rewrite (proj2 (Z.eqb_neq q NULL)) by done. rewrite (bind_Done _ _ _ _ _ (get_fp_ok _ _ _ Hf)).
  set (priv := if addr_in_fpage pc f false then 0 else if truth (Z.land (fp_flags f) FPAGE_ALWAYS) then 1 else 2).
  assert (exists k : nat, priv = Z.of_nat k /\ (k < 3)%nat) as (k & -> & Hk).
  { unfold priv. repeat case_match; [exists 0%nat|exists 1%nat|exists 2%nat]; lia. }
  pose proof (so_len _ _ _ Hso) as Hlen.
  destruct (lookup_lt_is_Some_2 LL k) as [L HL]; [lia|]. rewrite (zlookup_map head_of _ _ _ HL).
  rewrite (bind_Done (lift_opt (Some _)) _ _ _ _ eq_refl).
  assert (Hstep : exists h1, ((if head_of L =? NULL then lift_opt (zinsert (Z.of_nat k) q (head_of <$> LL))
       else t ← lift_opt (zlookup (tail_of <$> LL) (Z.of_nat k)); upd_fp t (with_mpu_next q);; mret (head_of <$> LL)) : M memstate (list Z)) s =
       Done (head_of <$> <[k := L ++ [q]]> LL, set_fpages h1 s) /\ mpu_eq (fpages s) h1 /\ sorting h1 (<[k := L ++ [q]]> LL) rest).
  { pose proof (proj1 (Forall_lookup _ _) (so_seg _ _ _ Hso) k L HL) as HsegL. simpl in HsegL.
    destruct L as [|x L0] eqn:EL using rev_ind.
    - cbn [head_of Z.eqb NULL]. exists (fpages s). rewrite (zinsert_map head_of LL k [q] ltac:(lia) : zinsert _ q _ = _).
      split; [by destruct s|]. split; [done|]. by apply sorting_first.
    - clear IHL0. assert (Hx : x ∈ L0 ++ [x]) by (apply elem_of_app; right; left).
      destruct (mpu_seg_nonnull _ _ _ _ HsegL Hx) as [Hxn [g Hg]].
      assert (Hh : head_of (L0 ++ [x]) <> NULL).
      { destruct (mpu_seg_nonnull _ _ _ (head_of (L0 ++ [x])) HsegL); [|done]. destruct L0; left. }
      rewrite (proj2 (Z.eqb_neq _ _) Hh). rewrite (zlookup_map tail_of _ _ _ HL).
      rewrite (bind_Done (lift_opt (Some _)) _ _ _ _ eq_refl). unfold tail_of at 1. rewrite last_snoc. cbn [default].
      rewrite (bind_Done _ _ _ _ _ (upd_fp_ok x _ g s Hg)). eexists. split; [|split; [by apply mpu_eq_upd|by apply sorting_next]].
      do 2 f_equal. rewrite list_fmap_insert, list_insert_id; [done|]. rewrite list_lookup_fmap, HL. by destruct L0. }
  destruct Hstep as (h1 & Hr & He & Hso1). rewrite (bind_Done _ _ _ _ _ Hr).
  assert (Hz : zinsert (Z.of_nat k) q (tail_of <$> LL) = Some (tail_of <$> <[k := L ++ [q]]> LL)).
  { rewrite <- zinsert_map by lia. unfold tail_of at 2. by rewrite last_snoc. }
  rewrite Hz. rewrite (bind_Done (lift_opt (Some _)) _ _ _ _ eq_refl).
  destruct (mpu_eq_lookup _ _ _ _ He Hf) as [x Hx]. rewrite (bind_Done _ _ _ _ _ (get_fp_ok q _ (set_fpages h1 s) Hx)).
  destruct (IH fuel (as_next f) (<[k := L ++ [q]]> LL) (set_fpages h1 s)) as (LL' & h' & Hr' & He' & Hso' & Hp).
  { by eapply mpu_eq_as_seg. } { done. } { simpl in Hfuel. lia. }
  exists LL', h'. split; [cbn [as_next with_mpu_next]; rewrite Hr'; by destruct s|]. split; [by etrans|]. split; [done|].
  rewrite Hp, (concat_insert_perm LL k L q HL). by rewrite <- Permutation_middle.
Qed.

(** Linking list [A] to list [B]. *)
Lemma join_lists A B s :
  mpu_seg (fpages s) (head_of A) A -> mpu_seg (fpages s) (head_of B) B -> NoDup (A ++ B) ->
  exists h', ((if negb (head_of A =? NULL) then upd_fp (tail_of A) (with_mpu_next (head_of B));; mret (head_of A)
      else mret (head_of B)) : M memstate Z) s = Done (head_of (A ++ B), set_fpages h' s) /\
    mpu_eq (fpages s) h' /\ mpu_seg h' (head_of (A ++ B)) (A ++ B) /\ forall q, q ∉ A -> h' !! q = fpages s !! q.
Proof.
  intros HA HB Hnd. destruct A as [|x A _] using rev_ind.
  - exists (fpages s). split; [by destruct s|]. done.
  - assert (Hx : x ∈ A ++ [x]) by (apply elem_of_app; right; left).
    destruct (mpu_seg_nonnull _ _ _ _ HA Hx) as [Hxn [g Hg]].
    assert (Hh : head_of (A ++ [x]) <> NULL).
    { destruct (mpu_seg_nonnull _ _ _ (head_of (A ++ [x])) HA); [|done]. destruct A; left. }
    rewrite (proj2 (Z.eqb_neq _ _) Hh). cbn [negb]. unfold tail_of. rewrite last_snoc. cbn [default].
    rewrite (bind_Done _ _ _ _ _ (upd_fp_ok x _ g s Hg)). eexists.
    replace (head_of ((A ++ [x]) ++ B)) with (head_of (A ++ [x])) by by destruct A.
    split; [reflexivity|]. split; [by apply mpu_eq_upd|]. split; [by apply mpu_seg_join|].
    intros q Hq. apply lookup_insert_ne. by intros <-.
Qed.

Lemma join_pages_ok L0 L1 L2 s :
  sorting (fpages s) [L0; L1; L2] [] ->
  exists h', join_pages (head_of <$> [L0; L1; L2]) (tail_of <$> [L0; L1; L2]) s =
      Done (head_of (L0 ++ L1 ++ L2), set_fpages h' s) /\
    mpu_eq (fpages s) h' /\ mpu_seg h' (head_of (L0 ++ L1 ++ L2)) (L0 ++ L1 ++ L2).
Proof.
  intros [_ Hseg Hnd _]. simpl in Hnd. rewrite !app_nil_r in Hnd.
  apply Forall_cons in Hseg as [H0 Hseg]. apply Forall_cons in Hseg as [H1 Hseg]. apply Forall_cons in Hseg as [H2 _].
  pose proof (proj1 (NoDup_app _ _) Hnd) as (_ & Hd & Hnd12).
  destruct (join_lists L1 L2 s H1 H2 Hnd12) as (h1 & Hr1 & He1 & Hs1 & Hf1).
  destruct (join_lists L0 (L1 ++ L2) (set_fpages h1 s)) as (h2 & Hr2 & He2 & Hs2 & _); [|done|done|].
  { eapply mpu_seg_frame; [exact H0|]. intros q Hq. apply Hf1. intros Hx. apply (Hd q Hq). apply elem_of_app. by left. }
  exists h2. cbn [join_pages fmap list_fmap]. rewrite (bind_Done _ _ _ _ _ Hr1), Hr2.
  split; [by destruct s|]. split; [by etrans|done].
Qed.

(** The pages of the list [ml] that are not among [st], as far as there is room. *)
Definition fifo_of (st ml : list Z) (room : nat) : list Z := take room (filter (fun p => p ∉ st) ml).

Lemma fifo_pages_ok fuel n arr i p ml s :
  mpu_seg (fpages s) p ml -> (length ml <= fuel)%nat -> (n <= i <= 8)%nat -> length arr = 8%nat ->
  let new := fifo_of (take n arr) ml (8 - i) in
  fifo_pages fuel n arr (Z.of_nat i) p s = Done ((fill arr i new, Z.of_nat (i + length new)), s).
Proof.
  revert fuel arr i p. induction ml as [|q ml IH]; intros fuel arr i p Hl Hfuel Hi Harr; simpl.
  { simpl in Hl. subst p. unfold fifo_of. rewrite filter_nil, take_nil, fill_nil. simpl. rewrite Nat.add_0_r.
    destruct fuel; simpl; by rewrite andb_false_r. }
  destruct Hl as (-> & Hn & f & Hf & Hl). destruct fuel as [|fuel]; [simpl in Hfuel; lia|]. cbn [fifo_pages].
  rewrite (proj2 (Z.eqb_neq q NULL)) by done. rewrite andb_true_r.
  destruct (Z.ltb_spec (Z.of_nat i) 8) as [Hi8|Hi8]; cbn [negb].
  2: { assert (i = 8%nat) as -> by lia. change (8 - 8)%nat with 0%nat. unfold fifo_of. by rewrite take_0, fill_nil. }
  unfold fifo_of. rewrite filter_cons. simpl in Hfuel. case_decide as Hq; case_decide as Hq'; try done.
  - rewrite (bind_Done (mret arr) _ _ arr s) by done. rewrite (bind_Done _ _ _ _ _ (get_fp_ok _ _ _ Hf)). apply IH; [done|lia|lia|done].
  - rewrite zinsert_Some by lia. rewrite (bind_Done (lift_opt (Some _)) _ _ _ _ eq_refl).
    rewrite (bind_Done _ _ _ _ _ (get_fp_ok _ _ _ Hf)). rewrite Nat2Z.id.
    replace (Z.of_nat i + 1) with (Z.of_nat (S i)) by lia. rewrite IH; [|done|lia|lia|by rewrite length_insert].
    rewrite take_insert_ge by lia. replace (8 - i)%nat with (S (8 - S i)) by lia. cbn [take].
    set (new := fifo_of (take n arr) ml (8 - S i)). fold (fifo_of (take n arr) ml (8 - S i)). fold new.
    assert (Hnew : (length new <= 8 - S i)%nat) by (unfold new, fifo_of; rewrite length_take; lia).
    rewrite fill_cons by lia. simpl length. do 3 f_equal. lia.
Qed.

(** ** Programming the regions *)

(** The pages of the address space can be shown. *)
Definition showable (s : memstate) (p : Z) : Prop :=
  p <> NULL /\ exists f pool, fpages s !! p = Some f /\ zlookup (memmap s) (fp_mpid f) = Some pool /\
    Z.land (fp_base f) MPU_REGION_MASK = fp_base f /\ 1 <= fp_shift f < 32.

(** The region shows the page. *)
Definition shows (s : memstate) (p : Z) (r : Z * Z) : Prop :=
  exists f flags, fpages s !! p = Some f /\ r = region_of flags f.

Lemma showable_eq s s' p : mpu_eq (fpages s) (fpages s') -> memmap s' = memmap s -> showable s p -> showable s' p.
Proof.
  intros He Hm (Hn & f & pool & Hf & Hp & H). split; [done|]. destruct (mpu_eq_lookup _ _ _ _ He Hf) as [x Hx].
  exists (with_mpu_next x f), pool. by rewrite Hm.
Qed.

Lemma shows_eq s s' p r : mpu_eq (fpages s) (fpages s') -> shows s p r -> shows s' p r.
Proof.
  intros He (f & fl & Hf & ->). destruct (mpu_eq_lookup _ _ _ _ He Hf) as [x Hx]. by exists (with_mpu_next x f), fl.
Qed.

(** States that differ in [mpu_next] and the unit only. *)
Definition mpu_only (s s' : memstate) : Prop :=
  exists h m, s' = set_mpu m (set_fpages h s) /\ mpu_eq (fpages s) h /\ (mpu_wf s -> length (mpu_regions m) = 8%nat).

Lemma mpu_only_refl s : mpu_only s s.
Proof. exists (fpages s), (mpu s). by destruct s. Qed.

Lemma mpu_only_trans s1 s2 s3 : mpu_only s1 s2 -> mpu_only s2 s3 -> mpu_only s1 s3.
Proof.
  intros (h1 & m1 & -> & He1 & Hm1) (h2 & m2 & -> & He2 & Hm2). exists h2, m2. split; [done|]. split; [by etrans|].
  intros Hw. apply Hm2. by apply Hm1.
Qed.

Lemma setup_regions_ok k j n arr last s :
  mpu_wf s -> (j + k = n)%nat -> (n <= 8)%nat -> length arr = 8%nat ->
  (forall i p, (j <= i < n)%nat -> arr !! i = Some p -> showable s p) ->
  exists s', setup_regions k (Z.of_nat j) (Z.of_nat n) arr last s = Done (tt, s') /\ mpu_only s s' /\
    forall i, (i < 8)%nat -> if decide (j <= i < n)%nat
      then exists p r, arr !! i = Some p /\ mpu_regions (mpu s') !! i = Some r /\ shows s' p r
      else mpu_regions (mpu s') !! i = mpu_regions (mpu s) !! i.
Proof.
  revert j s. induction k as [|k IH]; intros j s Hwf Hk Hn Harr Hshow.
  { exists s. split; [done|]. split; [apply mpu_only_refl|]. intros i Hi. rewrite decide_False by lia. done. }
  destruct (lookup_lt_is_Some_2 arr j) as [p Hp]; [lia|].
  destruct (Hshow j p ltac:(lia) Hp) as (Hpn & f & pool & Hf & Hpool & Hb & Hsh). cbn [setup_regions].
  rewrite zlookup_nat, Hp, (bind_Done (lift_opt (Some _)) _ _ _ _ eq_refl).
  rewrite (bind_Done _ _ _ _ _ (mpu_setup_region_ok (Z.of_nat j) p f pool s Hwf ltac:(lia) Hpn Hf Hpool)).
  set (s1 := set_region (Z.of_nat j) (region_of (mp_flags pool) f) s).
  assert (Hstep : exists s2, ((if Z.of_nat j <? Z.of_nat n - 1 then q ← lift_opt (zlookup arr (Z.of_nat j + 1)); upd_fp p (with_mpu_next q)
      else match last with Some x => upd_fp p (with_mpu_next x) | None => mret tt end) : M memstate unit) s1 = Done (tt, s2) /\
      mpu s2 = mpu s1 /\ mpu_only s1 s2).
  { assert (Hupd : forall x, exists s2, upd_fp p (with_mpu_next x) s1 = Done (tt, s2) /\ mpu s2 = mpu s1 /\ mpu_only s1 s2).
    { intros x. rewrite (upd_fp_ok p _ f s1 Hf). eexists. split; [done|]. split; [done|].
      exists (<[p := with_mpu_next x f]> (fpages s1)), (mpu s1). split; [by destruct s1|]. split; [by apply mpu_eq_upd|done]. }
    destruct (Z.ltb_spec (Z.of_nat j) (Z.of_nat n - 1)) as [Hj|Hj].
    - destruct (lookup_lt_is_Some_2 arr (S j)) as [q Hq]; [lia|]. replace (Z.of_nat j + 1) with (Z.of_nat (S j)) by lia.
      rewrite zlookup_nat, Hq, (bind_Done (lift_opt (Some _)) _ _ _ _ eq_refl). apply Hupd.
    - destruct last as [x|]; [apply Hupd|]. exists s1. split; [done|]. split; [done|apply mpu_only_refl]. }
  destruct Hstep as (s2 & Hr2 & Hm2 & Ho2). rewrite (bind_Done _ _ _ _ _ Hr2).
  assert (Ho1 : mpu_only s s1).
  { exists (fpages s), (mpu s1). split; [by destruct s|]. split; [done|]. intros Hw. unfold s1. simpl. by rewrite length_insert. }
  pose proof (mpu_only_trans _ _ _ Ho1 Ho2) as Ho.
  destruct (IH (S j) s2) as (s' & Hr & Ho' & Hreg).
  { unfold mpu_wf. rewrite Hm2. unfold s1. simpl. by rewrite length_insert. } { lia. } { done. } { done. }
  { intros i q Hi Hq. destruct Ho as (h & m & -> & He & _). eapply (showable_eq s); [done|done|].
    apply (Hshow i); [lia|done]. }
  replace (Z.of_nat j + 1) with (Z.of_nat (S j)) by lia. exists s'. split; [done|]. split; [by eapply mpu_only_trans|].
  intros i Hi. specialize (Hreg i Hi). destruct (decide (i = j)) as [->|Hne].
  - rewrite decide_False in Hreg by lia. rewrite decide_True by lia. exists p, (region_of (mp_flags pool) f).
    split; [done|]. rewrite Hreg, Hm2. unfold s1. simpl. rewrite Nat2Z.id.
    split; [apply list_lookup_insert_eq; unfold mpu_wf in Hwf; lia|].
    pose proof (mpu_only_trans _ _ _ Ho Ho') as (h & m & -> & He & _). eapply (shows_eq s); [done|]. by eexists _, _.
  - destruct (decide (S j <= i < n)%nat); [by rewrite decide_True by lia|]. rewrite decide_False by lia.
    rewrite Hreg, Hm2. unfold s1. simpl. rewrite Nat2Z.id. by apply list_lookup_insert_ne.
Qed.

Lemma clean_regions_ok k j s :
  mpu_wf s -> (j + k = 8)%nat ->
  exists s', clean_regions k (Z.of_nat j) s = Done (tt, s') /\ mpu_only s s' /\
    forall i, (i < 8)%nat -> mpu_regions (mpu s') !! i = if decide (j <= i)%nat then Some (0, 0) else mpu_regions (mpu s) !! i.
Proof.
  revert j s. induction k as [|k IH]; intros j s Hwf Hk.
  { exists s. split; [done|]. split; [apply mpu_only_refl|]. intros i Hi. by rewrite decide_False by lia. }
  cbn [clean_regions]. rewrite (bind_Done _ _ _ _ _ (mpu_clear_region_ok (Z.of_nat j) s Hwf ltac:(lia))).
  set (s1 := set_region _ _ s). assert (Hlen : length (mpu_regions (mpu s1)) = 8%nat) by (unfold s1; simpl; by rewrite length_insert).
  destruct (IH (S j) s1 Hlen ltac:(lia)) as (s' & Hr & Ho & Hreg).
  replace (Z.of_nat j + 1) with (Z.of_nat (S j)) by lia. exists s'. split; [done|]. split.
  - eapply mpu_only_trans; [|exact Ho]. exists (fpages s), (mpu s1). split; [by destruct s|]. done.
  - intros i Hi. rewrite (Hreg i Hi). destruct (decide (i = j)) as [->|Hne].
    + rewrite decide_False, decide_True by lia. unfold s1. simpl. rewrite Nat2Z.id. apply list_lookup_insert_eq. unfold mpu_wf in Hwf. lia.
    + destruct (decide (S j <= i)%nat); [by rewrite decide_True by lia|]. rewrite decide_False by lia.
      unfold s1. simpl. rewrite Nat2Z.id. by apply list_lookup_insert_ne.
Qed.

(** ** The whole *)

(** The list [as->mpu_first] is well formed: empty, with no page of the space linked
    yet, or a list of pages of the space. *)
Definition mpu_list_ok (h : gmap Z fpage) (first : Z) (l : list Z) : Prop :=
  (first = NULL /\ Forall (fun p => exists f, h !! p = Some f /\ mpu_next f = NULL) l) \/
  (exists ml, first <> NULL /\ mpu_seg h first ml /\ NoDup ml /\ ml ⊆ l).

Lemma mpu_seg_length h p ml : mpu_seg h p ml -> NoDup ml -> (length ml <= size h)%nat.
Proof.
  intros Hs Hnd. rewrite <- size_dom. rewrite <- (size_list_to_set (C := gset Z)) by done. apply subseteq_size.
  intros q Hq%elem_of_list_to_set. apply elem_of_dom. by eapply mpu_seg_nonnull.
Qed.

Lemma order_pages_ok fuel pc as_ a l s :
  ases s !! as_ = Some a -> as_seg (fpages s) (as_first a) l NULL -> NoDup l -> (length l <= fuel)%nat ->
  mpu_list_ok (fpages s) (as_mpu_first a) l ->
  exists h x ml, ((if as_mpu_first a =? NULL then
     ht ← sort_pages fuel pc (as_first a) (replicate 3 NULL) (replicate 3 NULL);
     h ← join_pages ht.1 ht.2;
     upd_as as_ (with_mpu_first h)
   else mret tt) : M memstate unit) s = Done (tt, set_ases (<[as_ := with_mpu_first x a]> (ases s)) (set_fpages h s)) /\
    mpu_eq (fpages s) h /\ mpu_seg h x ml /\ NoDup ml /\ ml ⊆ l.
Proof.
  intros Ha Hl Hnd Hfuel [[Hnull Hrest]|(ml & Hnn & Hml & Hndm & Hsub)].
  - rewrite Hnull, Z.eqb_refl.
    destruct (sort_pages_ok fuel pc (as_first a) l [[]; []; []] s Hl) as (LL & h1 & Hr & He & Hso & Hp); [|done|].
    { constructor; [done| |done|done]. by repeat constructor. }
    change (replicate 3 NULL) with (head_of <$> [[]; []; []] : list Z) at 1.
    change (replicate 3 NULL) with (tail_of <$> [[]; []; []] : list Z). rewrite (bind_Done _ _ _ _ _ Hr). cbn [fst snd].
    destruct LL as [|L0 [|L1 [|L2 [|]]]]; try by destruct Hso.
    destruct (join_pages_ok L0 L1 L2 (set_fpages h1 s) Hso) as (h2 & Hr2 & He2 & Hs2). rewrite (bind_Done _ _ _ _ _ Hr2).
    simpl in Hp. rewrite app_nil_r in Hp. exists h2, (head_of (L0 ++ L1 ++ L2)), (L0 ++ L1 ++ L2).
    unfold upd_as. cbn [ases set_fpages]. rewrite Ha. split; [by destruct s|]. split; [by etrans|]. split; [done|].
    split; [by rewrite Hp|]. intros q Hq. by rewrite Hp in Hq.
  - rewrite (proj2 (Z.eqb_neq _ _) Hnn). exists (fpages s), (as_mpu_first a), ml. split; [|done].
    rewrite insert_id by (rewrite Ha; by destruct a). by destruct s.
Qed.

Lemma stack_of_length_le h start end_ l : (length (stack_of h start end_ l) <= length l)%nat.
Proof.
  revert start. induction l as [|q l IH]; intros start; simpl; [done|]. destruct (start <? end_); [|simpl; lia].
  destruct (h !! q) as [f|]; [|simpl; lia]. destruct (addr_in_fpage start f false); simpl; [specialize (IH (FPAGE_END f))|specialize (IH start)]; lia.
Qed.

(** The regions below [n] show the pages of [ps], the others are off. *)
Definition regions_show (s : memstate) (ps : list Z) (n : nat) : Prop :=
  forall i, (i < 8)%nat -> if decide (i < n)%nat
    then exists p r, ps !! i = Some p /\ mpu_regions (mpu s) !! i = Some r /\ shows s p r
    else mpu_regions (mpu s) !! i = Some (0, 0).

Lemma program_regions_ok n1 n2 ps s (n := (n1 + n2)%nat) :
  mpu_wf s -> (n <= 8)%nat -> length ps = 8%nat -> (forall i p, (i < n)%nat -> ps !! i = Some p -> showable s p) ->
  exists s', (setup_regions n1 0 (Z.of_nat n1) ps (Some NULL);;
      setup_regions n2 (Z.of_nat n1) (Z.of_nat n) ps None;; clean_regions (8 - n) (Z.of_nat n)) s = Done (tt, s') /\
    mpu_wf s' /\ mpu_eq (fpages s) (fpages s') /\ regions_show s' ps n.
Proof.
  intros Hwf Hn Hps Hshow.
  destruct (setup_regions_ok n1 0 n1 ps (Some NULL) s) as (s4 & Hr4 & Ho4 & Hreg4);
    [exact Hwf|lia|lia|done|intros i p Hi; apply Hshow; lia|].
  rewrite (bind_Done _ _ _ _ _ Hr4). pose proof Ho4 as (h4 & m4 & E4 & He4 & Hm4).
  destruct (setup_regions_ok n2 n1 n ps None s4) as (s5 & Hr5 & Ho5 & Hreg5).
  { subst s4. by apply Hm4. } { done. } { done. } { done. }
  { intros i p Hi Hp. subst s4. eapply (showable_eq s); [done|done|]. apply (Hshow i); [lia|done]. }
  rewrite (bind_Done _ _ _ _ _ Hr5). pose proof (mpu_only_trans _ _ _ Ho4 Ho5) as (h5 & m5 & E5 & He5 & Hm5).
  assert (Hwf5 : mpu_wf s5) by (subst s5; by apply Hm5).
  destruct (clean_regions_ok (8 - n) n s5 Hwf5 ltac:(lia)) as (s6 & Hr6 & Ho6 & Hreg6).
  destruct Ho6 as (h6 & m6 & E6 & He6 & Hm6).
  exists s6. split; [done|]. split; [subst s6; by apply Hm6|]. split; [subst s6 s5; simpl in *; by etrans|].
  intros i Hi. rewrite (Hreg6 i Hi). specialize (Hreg4 i Hi). specialize (Hreg5 i Hi).
  destruct (decide (i < n)%nat) as [Hlt|Hge]; [|by rewrite decide_True by lia]. rewrite decide_False by lia.
  assert (Heq56 : mpu_eq (fpages s5) (fpages s6)) by (subst s6; exact He6).
  destruct (decide (i < n1)%nat) as [Hs1|Hs1].
  - rewrite decide_False in Hreg5 by lia. rewrite decide_True in Hreg4 by lia. destruct Hreg4 as (p & r & Hp & Hr' & Hsh).
    exists p, r. rewrite Hreg5. split; [done|]. split; [done|]. eapply shows_eq; [exact Heq56|].
    destruct Ho5 as (h' & m' & -> & He' & _). by eapply (shows_eq s4).
  - rewrite decide_True in Hreg5 by lia. destruct Hreg5 as (p & r & Hp & Hr' & Hsh). exists p, r.
    split; [done|]. split; [done|]. by eapply shows_eq.
Qed.

Lemma as_setup_mpu_ok as_ a sp pc sb ss l s (st := stack_of (fpages s) sb (sb +w ss) l) :
  mpu_wf s -> ases s !! as_ = Some a -> as_seg (fpages s) (as_first a) l NULL -> NoDup l ->
  Forall (showable s) l -> mpu_list_ok (fpages s) (as_mpu_first a) l -> (length st < 8)%nat ->
  exists s' n ps, as_setup_mpu as_ sp pc sb ss s = Done (tt, s') /\ mpu_wf s' /\ mpu_eq (fpages s) (fpages s') /\
    (forall i p, (i < n)%nat -> ps !! i = Some p -> p ∈ l) /\ (length st <= n <= 8)%nat /\
    (forall i p, st !! i = Some p -> ps !! i = Some p) /\ regions_show s' ps n.
Proof.
  intros Hwf Ha Hl Hnd Hshow Hml Hst. pose proof (as_seg_length _ _ _ _ Hl Hnd) as Hlen.
  assert (Hfuel : (length l <= fp_fuel s)%nat) by (unfold fp_fuel; lia).
  unfold as_setup_mpu. rewrite (bind_Done _ _ s a s) by (unfold get_as; by rewrite Ha).
  rewrite (bind_Done (gets fp_fuel) _ _ _ _ eq_refl).
  destruct (stack_pages_ok (fp_fuel s) (replicate 8 NULL) 0 sb (sb +w ss) (as_first a) l NULL s Hl Hfuel eq_refl Hst) as [sf Hsp].
  fold st in Hsp. rewrite (bind_Done _ _ _ _ _ Hsp). cbv beta iota zeta. set (arr := fill (replicate 8 NULL) 0 st).
  assert (Harr : length arr = 8%nat) by (unfold arr; rewrite length_fill; [done|rewrite length_replicate; simpl; lia]).
  assert (Htake : take (length st) arr = st) by (unfold arr, fill; simpl; by rewrite take_app_length).
  set (a1 := with_mpu_stack_first sf a). set (s1 := set_ases (<[as_ := a1]> (ases s)) s).
  rewrite (bind_Done _ _ s tt s1) by (unfold upd_as; by rewrite Ha).
  assert (Ha1 : ases s1 !! as_ = Some a1) by apply lookup_insert_eq.
  rewrite (bind_Done _ _ s1 a1 s1) by (unfold get_as; by rewrite Ha1).
  destruct (order_pages_ok (fp_fuel s) pc as_ a1 l s1 Ha1 Hl Hnd Hfuel Hml) as (h & x & ml & Hr & He & Hs & Hndm & Hsub).
  rewrite (bind_Done _ _ _ _ _ Hr). set (s2 := set_ases _ (set_fpages h s1)).
  assert (Ha2 : ases s2 !! as_ = Some (with_mpu_first x a1)) by apply lookup_insert_eq.
  rewrite (bind_Done _ _ s2 (with_mpu_first x a1) s2) by (unfold get_as; by rewrite Ha2).
  pose proof (mpu_seg_length _ _ _ Hs Hndm) as Hmlen. rewrite (mpu_eq_size _ _ He) in Hmlen. simpl in Hmlen.
  rewrite Nat2Z.id. simpl (0 + _)%nat.
  pose proof (fifo_pages_ok (8 * fp_fuel s) (length st) arr (length st) x ml s2 Hs ltac:(unfold fp_fuel; lia) ltac:(lia) Harr) as Hff.
  cbv zeta in Hff. rewrite Htake in Hff. set (new := fifo_of st ml (8 - length st)) in Hff.
  assert (Hnew : (length new <= 8 - length st)%nat) by (unfold new, fifo_of; rewrite length_take; lia).
  cbn [as_mpu_first with_mpu_first]. rewrite (bind_Done _ _ _ _ _ Hff). cbn [fst snd].
  set (ps := fill arr (length st) new). set (n := (length st + length new)%nat).
  assert (Hps : length ps = 8%nat) by (unfold ps; rewrite length_fill; lia).
  destruct (lookup_lt_is_Some_2 ps (length st)) as [y Hy]; [lia|].
  rewrite zlookup_nat, Hy, (bind_Done (lift_opt (Some _)) _ _ _ _ eq_refl).
  set (s3 := set_ases (<[as_ := with_mpu_first y (with_mpu_first x a1)]> (ases s2)) s2).
  rewrite (bind_Done _ _ s2 tt s3) by (unfold upd_as; by rewrite Ha2).
  assert (Hpsst : forall i p, st !! i = Some p -> ps !! i = Some p).
  { intros i p Hi. pose proof (lookup_lt_Some _ _ _ Hi). rewrite <- (lookup_take_lt ps (length st)) by lia.
    unfold ps. rewrite fill_take by lia. by rewrite Htake. }
  assert (Hin : forall i p, (i < n)%nat -> ps !! i = Some p -> p ∈ l).
  { intros i p Hi Hp. destruct (decide (i < length st)%nat) as [Hlt|Hge].
    - destruct (lookup_lt_is_Some_2 st i Hlt) as [q Hq]. rewrite (Hpsst i q Hq) in Hp. injection Hp as <-.
      eapply stack_of_incl. by eapply list_elem_of_lookup_2.
    - unfold ps in Hp. replace i with (length st + (i - length st))%nat in Hp by lia. rewrite fill_lookup in Hp by lia.
      apply Hsub. assert (Hpn : p ∈ new) by (by eapply list_elem_of_lookup_2). unfold new, fifo_of in Hpn.
      assert (Hpf : p ∈ filter (fun p => p ∉ st) ml) by (eapply subseteq_take; exact Hpn).
      apply list_elem_of_filter in Hpf. by destruct Hpf. }
  assert (Hshow3 : forall i p, (i < n)%nat -> ps !! i = Some p -> showable s3 p).
  { intros i p Hi Hp. eapply (showable_eq s); [exact He|done|]. exact (proj1 (Forall_forall _ _) Hshow p (Hin i p Hi Hp)). }
  destruct (program_regions_ok (length st) (length new) ps s3) as (s' & Hr' & Hwf' & He' & Hreg); [exact Hwf|lia|done|exact Hshow3|].
  replace (Z.to_nat (Z.of_nat n - Z.of_nat (length st))) with (length new) by lia.
  replace (Z.to_nat (8 - Z.of_nat n)) with (8 - n)%nat by lia.
  exists s', n, ps. split; [exact Hr'|]. split; [done|]. split; [etrans; [exact He|done]|].
  split; [exact Hin|]. split; [unfold n; lia|]. by split.
Qed.

(** What the unit admits afterwards. *)
Lemma as_setup_mpu_admits (as_ : Z) (a : as_t) (sp pc stack_base stack_size : Z) (l : list Z) (s : memstate)
    (Hwf : mpu_wf s) (Ha : ases s !! as_ = Some a) (Hl : as_list (fpages s) (as_first a) l) (Hnd : NoDup l)
    (Hshow : Forall (showable s) l) (Hml : mpu_list_ok (fpages s) (as_mpu_first a) l)
    (Hst : (length (stack_of (fpages s) stack_base (stack_base +w stack_size) l) < 8)%nat) :
  exists s', as_setup_mpu as_ sp pc stack_base stack_size s = Done (tt, s') /\
    as_list (fpages s') (as_first a) l /\ (forall addr p, page_has (fpages s') addr p = page_has (fpages s) addr p) /\
    forall addr, exists b s'', addr_in_mpu addr s' = Done (b, s'') /\
      (b = true -> exists p, p ∈ l /\ page_has (fpages s) addr p = true) /\
      ((exists p, p ∈ stack_of (fpages s) stack_base (stack_base +w stack_size) l /\ page_has (fpages s) addr p = true) -> b = true).
Proof.
  apply as_list_seg in Hl.
  destruct (as_setup_mpu_ok as_ a sp pc stack_base stack_size l s Hwf Ha Hl Hnd Hshow Hml Hst)
    as (s' & n & ps & Hr & Hwf' & He & Hin & Hn & Hps & Hreg).
  exists s'. split; [done|]. split; [apply as_list_seg; by eapply mpu_eq_as_seg|].
  assert (Hhas : forall addr p, page_has (fpages s') addr p = page_has (fpages s) addr p).
  { intros addr p. unfold page_has. specialize (He p). destruct (fpages s !! p) as [f|], (fpages s' !! p) as [f'|]; try done.
    destruct f, f'. by injection He as [= -> -> -> -> -> -> ->]. }
  split; [done|]. intros addr. destruct (addr_in_mpu_ok addr s' Hwf') as [k Hk]. eexists _, _. split; [exact Hk|].
  assert (Hhit : forall p r, p ∈ l -> shows s' p r -> region_hit addr r = page_has (fpages s) addr p).
  { intros p r Hp (f & fl & Hf & ->). destruct (proj1 (Forall_forall _ _) Hshow p Hp) as (_ & g & pool & Hg & _ & Hb & Hsh).
    destruct (mpu_eq_lookup _ _ _ _ He Hg) as [x Hx]. rewrite Hx in Hf. injection Hf as <-.
    rewrite region_of_hit by done. unfold page_has. by rewrite Hg. }
  split.
  - intros (r & Hr'%list_elem_of_In & E)%existsb_exists. apply list_elem_of_lookup in Hr' as [i Hi].
    assert (i < 8)%nat as Hi8 by (unfold mpu_wf in Hwf'; apply lookup_lt_Some in Hi; lia).
    specialize (Hreg i Hi8). rewrite Hi in Hreg. case_decide; [|by injection Hreg as ->].
    destruct Hreg as (p & r' & Hp & [= <-] & Hsh). exists p. split; [by eapply Hin|]. by rewrite <- (Hhit p r) by eauto.
  - intros (p & Hp & E). apply list_elem_of_lookup in Hp as [i Hi]. pose proof (lookup_lt_Some _ _ _ Hi).
    specialize (Hreg i ltac:(lia)). rewrite decide_True in Hreg by lia. destruct Hreg as (q & r & Hq & Hr' & Hsh).
    rewrite (Hps i p Hi) in Hq. injection Hq as <-. apply existsb_exists. exists r.
    split; [apply list_elem_of_In; by eapply list_elem_of_lookup_2|]. rewrite (Hhit p r); [done| |done].
    eapply stack_of_incl. by eapply list_elem_of_lookup_2.
Qed.

(** ** Property *)

(** C2. Isolation: [as_setup_mpu] always terminates if the stack spans fewer than eight
    pages.  Afterwards every address the memory protection unit admits lies in a page
    of the address space, every address in a page of the stack is admitted, and the
    pages and their order in the space are unchanged. *)
Theorem as_setup_mpu_isolates (as_ : Z) (a : as_t) (sp pc stack_base stack_size : Z) (l : list Z) (s : memstate)
    (Hwf : mpu_wf s) (Ha : ases s !! as_ = Some a) (Hl : as_list (fpages s) (as_first a) l) (Hnd : NoDup l)
    (Hshow : Forall (showable s) l) (Hml : mpu_list_ok (fpages s) (as_mpu_first a) l)
    (Hst : (length (stack_of (fpages s) stack_base (stack_base +w stack_size) l) < 8)%nat) :
  exists s', as_setup_mpu as_ sp pc stack_base stack_size s = Done (tt, s') /\
    as_list (fpages s') (as_first a) l /\ (forall addr p, page_has (fpages s') addr p = page_has (fpages s) addr p) /\
    forall addr, exists b s'', addr_in_mpu addr s' = Done (b, s'') /\
      (b = true -> exists p, p ∈ l /\ page_has (fpages s) addr p = true) /\
      ((exists p, p ∈ stack_of (fpages s) stack_base (stack_base +w stack_size) l /\ page_has (fpages s) addr p = true) -> b = true).
Proof. by apply as_setup_mpu_admits. Qed.

Lemma as_setup_mpu_isolates_witness :
  exists s' s'', as_setup_mpu 500 0x11f0 0x1000 0x1100 0x100 (as_example 0) = Done (tt, s') /\
    addr_in_mpu 0x11f0 s' = Done (true, s'').
Proof.
  destruct (as_setup_mpu_isolates 500 (mk_as 0 100 0 0 0) 0x11f0 0x1000 0x1100 0x100 [100; 200; 300] (as_example 0))
    as (s' & Hr & _ & _ & Haddr).
  - reflexivity.
  - reflexivity.
  - apply as_example_list.
  - apply (bool_decide_unpack _). vm_compute. exact I.
  - repeat constructor; try discriminate; eexists _, _; (split; [reflexivity|]; split; [reflexivity|]; split; [reflexivity|]; vm_compute; split; [discriminate|reflexivity]).
  - left. split; [reflexivity|]. repeat constructor; by eexists.
  - vm_compute. lia.
  - destruct (Haddr 0x11f0) as (b & s'' & Hb & _ & Hin). exists s', s''. split; [exact Hr|]. rewrite Hb, Hin; [done|].
    exists 200. split; [|reflexivity]. vm_compute. left.
Defined.
