(* ===== verification/Kernel.v ===== *)
(** * The kernel as a whole

    The state of the kernel is made of the states of its components; [Part]
    instances let the operations of a component run on it.  This file models the
    operations that work on several components: address spaces of threads and the
    switch of threads ([kernel/thread.c]), [schedule] ([kernel/sched.c]), the system
    threads ([kernel/systhread.c]), the switch of contexts on an interrupt
    ([include/platform/irq.h], [platform/irq.c], without [CONFIG_FPU]), the entry of
    system calls ([__svc_handler] of [kernel/syscall.c]) and the handler of memory
    faults ([platform/stm32f4/mpu.c]). *)

From S2P Require Import Prelude Ktable Thread ThreadMap ThreadTree Sched Softirq Ktimer Mempool Fpage Memory.

(** ** The state *)

(** The registers a context switch saves: r4 to r11, the two stack pointers, [lr] (the
    value that returns from the exception) and [control]. *)
Record cpu_t := mk_cpu {
  cpu_regs : list Z;
  cpu_msp : Z;
  cpu_psp : Z;
  cpu_lr : Z;
  cpu_control : Z;
}.

(** Addresses the linker assigns to code and data. *)
Record symbols := mk_symbols {
  sym_thread_sched : Z;
  sym_syscall_handler : Z;
  sym_ktimer_event_handler : Z;
  sym_ipc_deliver : Z;
  sym_ipc_timeout : Z;
  sym_root_thread : Z;
  sym_idle_thread : Z;
  root_utcb : Z;
  root_stack_start : Z;
  root_stack_end : Z;
  kernel_stack_end : Z;
  idle_stack_end : Z;
  kip_extra : Z;
}.

Record kstate := mk_k {
  k_thr : thrstate;
  k_mem : memstate;
  k_sched : schedstate;
  k_softirq : softirqs;
  k_timer : ktimerstate;
  kip_fpage : Z;
  kip_extra_fpage : Z;
  kip_thread_info : Z * Z;
  k_cpu : cpu_t;
  k_mmfsr : Z;
  k_mmfar : Z;
  k_code : gmap Z Z;
  k_log : list (Z * Z);
}.

Definition set_thr x s := mk_k x (k_mem s) (k_sched s) (k_softirq s) (k_timer s) (kip_fpage s) (kip_extra_fpage s) (kip_thread_info s) (k_cpu s) (k_mmfsr s) (k_mmfar s) (k_code s) (k_log s).
Definition set_mem x s := mk_k (k_thr s) x (k_sched s) (k_softirq s) (k_timer s) (kip_fpage s) (kip_extra_fpage s) (kip_thread_info s) (k_cpu s) (k_mmfsr s) (k_mmfar s) (k_code s) (k_log s).
Definition set_sched x s := mk_k (k_thr s) (k_mem s) x (k_softirq s) (k_timer s) (kip_fpage s) (kip_extra_fpage s) (kip_thread_info s) (k_cpu s) (k_mmfsr s) (k_mmfar s) (k_code s) (k_log s).
Definition set_softirq x s := mk_k (k_thr s) (k_mem s) (k_sched s) x (k_timer s) (kip_fpage s) (kip_extra_fpage s) (kip_thread_info s) (k_cpu s) (k_mmfsr s) (k_mmfar s) (k_code s) (k_log s).
Definition set_timer x s := mk_k (k_thr s) (k_mem s) (k_sched s) (k_softirq s) x (kip_fpage s) (kip_extra_fpage s) (kip_thread_info s) (k_cpu s) (k_mmfsr s) (k_mmfar s) (k_code s) (k_log s).
Definition set_kip_fpages f e s := mk_k (k_thr s) (k_mem s) (k_sched s) (k_softirq s) (k_timer s) f e (kip_thread_info s) (k_cpu s) (k_mmfsr s) (k_mmfar s) (k_code s) (k_log s).
Definition set_thread_info x s := mk_k (k_thr s) (k_mem s) (k_sched s) (k_softirq s) (k_timer s) (kip_fpage s) (kip_extra_fpage s) x (k_cpu s) (k_mmfsr s) (k_mmfar s) (k_code s) (k_log s).
Definition set_cpu x s := mk_k (k_thr s) (k_mem s) (k_sched s) (k_softirq s) (k_timer s) (kip_fpage s) (kip_extra_fpage s) (kip_thread_info s) x (k_mmfsr s) (k_mmfar s) (k_code s) (k_log s).
Definition set_mmfsr x s := mk_k (k_thr s) (k_mem s) (k_sched s) (k_softirq s) (k_timer s) (kip_fpage s) (kip_extra_fpage s) (kip_thread_info s) (k_cpu s) x (k_mmfar s) (k_code s) (k_log s).
Definition set_log x s := mk_k (k_thr s) (k_mem s) (k_sched s) (k_softirq s) (k_timer s) (kip_fpage s) (kip_extra_fpage s) (kip_thread_info s) (k_cpu s) (k_mmfsr s) (k_mmfar s) (k_code s) x.

#[export] Instance part_thr : Part thrstate kstate := {| get_part := k_thr; put_part := set_thr |}.
#[export] Instance part_mem : Part memstate kstate := {| get_part := k_mem; put_part := set_mem |}.
#[export] Instance part_sched : Part schedstate kstate := {| get_part := k_sched; put_part := set_sched |}.
#[export] Instance part_softirq : Part softirqs kstate := {| get_part := k_softirq; put_part := set_softirq |}.
#[export] Instance part_timer : Part ktimerstate kstate := {| get_part := k_timer; put_part := set_timer |}.

#[export] Instance part_thr_laws : PartLaws thrstate kstate.
Proof. by split; intros; destruct s. Qed.
#[export] Instance part_mem_laws : PartLaws memstate kstate.
Proof. by split; intros; destruct s. Qed.
#[export] Instance part_sched_laws : PartLaws schedstate kstate.
Proof. by split; intros; destruct s. Qed.
#[export] Instance part_softirq_laws : PartLaws softirqs kstate.
Proof. by split; intros; destruct s. Qed.
#[export] Instance part_timer_laws : PartLaws ktimerstate kstate.
Proof. by split; intros; destruct s. Qed.
#[export] Instance thr_softirq_disjoint : Disjoint_parts thrstate softirqs kstate.
Proof. by split. Qed.
#[export] Instance softirq_thr_disjoint : Disjoint_parts softirqs thrstate kstate.
Proof. by split. Qed.

(** Operations of the components, on the state of the kernel. *)
Definition thr {A} (m : M thrstate A) : M kstate A := on m.
Definition mem {A} (m : M memstate A) : M kstate A := on m.
Definition sched (m : M schedstate unit) : M kstate unit := on m.

(** ** Address spaces of threads *)

Definition CONFIG_KIP_EXTRA_SIZE : Z := 128.
Definition SIZEOF_KIP : Z := 256.
Definition UTCB_SIZE : Z := 128.

Definition thread_space (thread spaceid utcb : Z) : M kstate unit :=
  t ← thr (get_tcb thread);
  (if GLOBALID_TO_TID (t_globalid t) =? GLOBALID_TO_TID spaceid then
     as_ ← mem (as_create (t_globalid t));
     thr (upd_tcb thread (with_as as_));;
     f ← gets kip_fpage;
     mem (map_fpage NULL as_ f GRANT);;
     e ← gets kip_extra_fpage;
     mem (map_fpage NULL as_ e GRANT);;
     mret tt
   else
     space ← thr (thread_by_globalid spaceid);
     sp ← thr (get_tcb space);
     thr (upd_tcb thread (with_as (t_as sp)));;
     mem (upd_as (t_as sp) (fun a => with_shared (as_shared a +w 1) a)));;
  c ← thr (gets caller);
  t ← thr (get_tcb thread);
  if negb (c =? NULL) then
    ct ← thr (get_tcb c);
    priv ← thr (thread_ispriviliged c);
    mem (map_area (t_as ct) (t_as t) utcb UTCB_SIZE GRANT priv);; mret tt
  else
    mem (map_area (t_as t) (t_as t) utcb UTCB_SIZE GRANT true);; mret tt.

Definition thread_free_space (thread : Z) : M kstate unit :=
  t ← thr (get_tcb thread); mem (as_destroy (t_as t)).

(** ** Switching threads *)

Definition thread_switch (thread : Z) : M kstate unit :=
  assert (negb (thread =? NULL));;
  run ← thr (thread_isrunnable thread);
  assert run;;
  t ← thr (get_tcb thread);
  thr (modify (set_current thread (t_utcb t)));;
  if negb (t_as t =? NULL) then
    pc ← thr (read_word (reg_addr (c_sp (t_ctx t)) REG_PC));
    mem (as_setup_mpu (t_as t) (c_sp (t_ctx t)) pc (t_stack_base t) (t_stack_size t))
  else mret tt.

Section kernel.
Variable sym : symbols.

(** The calls of the handlers of scheduler slots. *)
Definition call_slot (code slot_id : Z) : M kstate Z :=
  if code =? sym_thread_sched sym then thr thread_sched else fault.

Definition schedule : M kstate Z :=
  scheduled ← schedule_select call_slot; thread_switch scheduled;; mret 1.

(** [irq_save] and [irq_restore]: the low bits of [lr] tell which stack is in use. *)
Definition irq_save (thread : Z) : M kstate unit :=
  c ← gets k_cpu;
  thr (upd_tcb thread (fun t =>
    let sp := if Z.land (cpu_lr c) 0xf =? 9 then cpu_msp c else cpu_psp c in
    with_ctx (mk_ctx sp (cpu_lr c) (c_ctl (t_ctx t)) (cpu_regs c)) t)).

Definition irq_restore (thread : Z) : M kstate unit :=
  t ← thr (get_tcb thread);
  let x := t_ctx t in
  modify (fun s =>
    let c := k_cpu s in
    let main := Z.land (c_ret x) 0xf =? 9 in
    set_cpu (mk_cpu (c_regs x) (if main then c_sp x else cpu_msp c) (if main then cpu_psp c else c_sp x)
               (c_ret x) (c_ctl x)) s).

(** The macro names [current] twice: the context restored is that of the new thread. *)
Definition context_switch (to : Z) : M kstate unit :=
  from ← thr thread_current;
  irq_save from;;
  thread_switch to;;
  from' ← thr thread_current;
  irq_restore from'.

(** [schedule_in_irq] *)
Definition pendsv_handler : M kstate unit :=
  sel ← schedule_select call_slot;
  cur ← thr thread_current;
  if negb (sel =? cur) then context_switch sel else mret tt.

(** ** Initialisation of the dispatcher *)

Definition thread_init_subsys : M kstate unit :=
  thr (in_thread_table ktable_init);;
  modify (set_thread_info (THREAD_USER, THREAD_SYS));;
  kip ← thr (gets kip_addr);
  f ← gets kip_fpage;
  r1 ← mem (assign_fpages_ext (-1) NULL kip SIZEOF_KIP f NULL);
  modify (fun s => set_kip_fpages r1.2.1 (kip_extra_fpage s) s);;
  e ← gets kip_extra_fpage;
  r2 ← mem (assign_fpages_ext (-1) NULL (kip_extra sym) CONFIG_KIP_EXTRA_SIZE e r1.2.2);
  modify (fun s => set_kip_fpages (kip_fpage s) r2.2.1 s);;
  sched (sched_slot_set_handler SSI_NORMAL_THREAD (sym_thread_sched sym)).

(** ** System threads: [kernel/systhread.c] *)

Definition create_root_thread : M kstate unit :=
  r ← thr (thread_init (TID_TO_GLOBALID THREAD_ROOT) (root_utcb sym));
  thr (modify (fun s => set_systhreads (idle s) (kernel s) r s));;
  thread_space r (TID_TO_GLOBALID THREAD_ROOT) (root_utcb sym);;
  t ← thr (get_tcb r);
  mem (as_map_user (t_as t));;
  thr (thread_init_ctx (root_stack_end sym) (sym_root_thread sym) r);;
  thr (upd_tcb r (with_stack (root_stack_start sym) (root_stack_end sym -w root_stack_start sym)));;
  sched (sched_slot_dispatch SSI_ROOT_THREAD r);;
  thr (upd_tcb r (with_state T_RUNNABLE)).

Definition create_kernel_thread : M kstate unit :=
  k ← thr (thread_init (TID_TO_GLOBALID THREAD_KERNEL) NULL);
  thr (modify (fun s => set_systhreads (idle s) k (root s) s));;
  thr (thread_init_kernel_ctx (kernel_stack_end sym) k);;
  sched (sched_slot_dispatch SSI_SOFTIRQ k);;
  thr (upd_tcb k (with_state T_RUNNABLE)).

Definition create_idle_thread : M kstate unit :=
  i ← thr (thread_init (TID_TO_GLOBALID THREAD_IDLE) NULL);
  thr (modify (fun s => set_systhreads i (kernel s) (root s) s));;
  thr (thread_init_ctx (idle_stack_end sym) (sym_idle_thread sym) i);;
  sched (sched_slot_dispatch SSI_IDLE i);;
  thr (upd_tcb i (with_state T_RUNNABLE)).

(** [switch_to_kernel] up to [init_ctx_switch], and what the latter does to the registers: it loads the
    stack pointer of the kernel thread.  Start.v has the two with the mask of the interrupts and the jump. *)
Definition make_kernel_current : M kstate unit :=
  create_kernel_thread;;
  k ← thr (gets kernel);
  thr (modify (fun s => set_current k (current_utcb s) s)).
Definition load_kernel_stack : M kstate unit :=
  k ← thr (gets kernel);
  t ← thr (get_tcb k);
  modify (fun s => let c := k_cpu s in
    set_cpu (mk_cpu (cpu_regs c) (c_sp (t_ctx t)) (cpu_psp c) (cpu_lr c) (cpu_control c)) s).

(** ** Interrupts *)

Definition __svc_handler : M kstate unit :=
  k ← thr (gets kernel);
  cur ← thr thread_current;
  if cur =? k then mret tt
  else
    thr (modify (set_caller cur));;
    thr (upd_tcb cur (with_state T_SVC_BLOCKED));;
    softirq_schedule SYSCALL_SOFTIRQ.

(** [if (guard && mpu_select_lru(as, addr) == 0) goto ok; otherwise] *)
Definition try_select (guard : bool) (as_ addr : Z) (otherwise : M kstate unit) : M kstate unit :=
  if guard then
    r ← mem (mpu_select_lru as_ addr);
    if r =? 0 then mret tt else otherwise
  else otherwise.

(** A bit of the status register is cleared by writing 1 to it. *)
Definition __memmanage_handler : M kstate unit :=
  mmsr ← gets k_mmfsr;
  mmar ← gets k_mmfar;
  cur ← thr thread_current;
  psp ← gets (fun s => cpu_psp (k_cpu s));
  if truth (Z.land mmsr MPU_MSTKERR) then panic
  else
    t ← thr (get_tcb cur);
    try_select (truth (Z.land mmsr MPU_MEM_FAULT)) (t_as t) mmar (
    try_select (truth (Z.land mmsr MPU_MUSTKERR)) (t_as t) (psp +w 31) (
      if truth (Z.land mmsr MPU_IACCVIOL) then
        pc ← thr (read_word (reg_addr psp REG_PC));
        try_select true (t_as t) pc (try_select true (t_as t) (pc +w 2) panic)
      else panic));;
    modify (fun s => set_mmfsr (Z.land (k_mmfsr s) (not32 mmsr)) s).
End kernel.
