(* ===== verification/Ipc.v ===== *)
(** * Messages and system calls

    Models [kernel/ipc.c], [kernel/syscall.c], [kernel/user-log.c] and the tables of
    code the kernel thread runs.

    A message has up to 16 words: the first 8 are in the registers r4 to r11 that the
    context of a thread holds, the others in its user thread control block.  The
    parameters of a system call are on the stack of the calling thread. *)

From S2P Require Import Prelude Ktable Thread ThreadMap ThreadTree Sched Softirq Ktimer Mempool Fpage Memory Kernel.

(** ** Messages *)

Definition IPC_MR_COUNT : Z := 16.
Definition IPC_TI_MAP_GRANT : Z := 8.
Definition IPC_TI_GRANT : Z := 2.

(** The fields of the tag of a message and of a typed item. *)
Definition n_untyped (tag : Z) : Z := Z.land tag 63.
Definition n_typed (tag : Z) : Z := Z.land (Z.shiftr tag 6) 63.
Definition item_header (item : Z) : Z := Z.land item 15.

Definition ipc_read_mr (from i : Z) : M thrstate Z :=
  t ← get_tcb from;
  if i >=? 8 then u ← get_utcb (t_utcb t); lift_opt (zlookup (u_mr u) (i - 8))
  else lift_opt (zlookup (c_regs (t_ctx t)) i).

Definition ipc_write_mr (to i data : Z) : M thrstate unit :=
  t ← get_tcb to;
  if i >=? 8 then
    u ← get_utcb (t_utcb t);
    mr ← lift_opt (zinsert (i - 8) data (u_mr u));
    upd_utcb (t_utcb t) (with_u_mr mr)
  else
    regs ← lift_opt (zinsert i data (c_regs (t_ctx t)));
    upd_tcb to (with_ctx (mk_ctx (c_sp (t_ctx t)) (c_ret (t_ctx t)) (c_ctl (t_ctx t)) regs)).

(** [for (; idx < untyped_last; ++idx)], for [n] turns. *)
Fixpoint copy_untyped (n : nat) (idx from to : Z) : M thrstate unit :=
  match n with
  | O => mret tt
  | S n' =>
      w ← ipc_read_mr from idx;
      ipc_write_mr to idx w;;
      copy_untyped n' (idx + 1) from to
  end.

(** The loop over the typed words, for [n] turns; [item] is the typed item whose tag
    was read, [None] if [typed_item_idx] is -1. *)
Fixpoint copy_typed (n : nat) (idx : Z) (item : option Z) (from to : Z) : M kstate unit :=
  match n with
  | O => mret tt
  | S n' =>
      mr_data ← thr (ipc_read_mr from idx);
      thr (ipc_write_mr to idx mr_data);;
      match item with
      | None => copy_typed n' (idx + 1) (Some mr_data) from to
      | Some raw =>
          if truth (Z.land (item_header raw) IPC_TI_MAP_GRANT) then
            f ← thr (get_tcb from);
            t ← thr (get_tcb to);
            priv ← thr (thread_ispriviliged from);
            mem (map_area (t_as f) (t_as t) (Z.land raw 0xFFFFFFC0) (Z.land mr_data 0xFFFFFFC0)
                   (if truth (Z.land (item_header raw) IPC_TI_GRANT) then GRANT else MAP) priv);;
            copy_typed n' (idx + 1) None from to
          else copy_typed n' (idx + 1) item from to
      end
  end.

(** The end of [do_ipc]: both threads go on. *)
Definition ipc_finish (from to : Z) : M kstate unit :=
  f ← thr (get_tcb from);
  t ← thr (get_tcb to);
  thr (upd_utcb (t_utcb t) (with_u_sender (t_globalid f)));;
  thr (upd_tcb to (with_state T_RUNNABLE));;
  thr (upd_tcb to (with_ipc_from L4_NILTHREAD));;
  thr (write_word (reg_addr (c_sp (t_ctx t)) REG_R0) (t_globalid f));;
  from_recv_tid ← thr (read_word (reg_addr (c_sp (t_ctx f)) REG_R1));
  (if from_recv_tid =? L4_NILTHREAD then thr (upd_tcb from (with_state T_RUNNABLE))
   else
     thr (upd_tcb from (with_state T_RECV_BLOCKED));;
     thr (upd_tcb from (with_ipc_from from_recv_tid)));;
  sched (sched_slot_dispatch SSI_NORMAL_THREAD from);;
  sched (sched_slot_dispatch SSI_IPC_THREAD to).

Definition do_ipc (from to : Z) : M kstate unit :=
  tag ← thr (ipc_read_mr from 0);
  let untyped_last := n_untyped tag + 1 in
  let typed_last := untyped_last + n_typed tag in
  if typed_last >? IPC_MR_COUNT then
    thr (set_user_error from (Z.lor UE_IPC_MSG_OVERFLOW UE_IPC_PHASE_SEND));;
    thr (set_user_error to (Z.lor UE_IPC_MSG_OVERFLOW UE_IPC_PHASE_RECV))
  else
    thr (ipc_write_mr to 0 tag);;
    thr (copy_untyped (Z.to_nat (n_untyped tag)) 1 from to);;
    copy_typed (Z.to_nat (n_typed tag)) untyped_last None from to;;
    f ← thr (get_tcb from);
    t ← thr (get_tcb to);
    if (c_sp (t_ctx t) =? 0) || (c_sp (t_ctx f) =? 0) then
      c ← thr (gets caller); thr (upd_tcb c (with_state T_RUNNABLE))
    else ipc_finish from to.

(** ** Timeouts *)

Definition CORE_CLOCK : Z := 0x0a037a00.

(** The period of a time value, in ticks.  The value has 16 bits; the shift is that of
    an [int]. *)
Definition period_ticks (timeout : Z) : Z :=
  let raw := Z.land timeout 65535 in
  let m := Z.land raw 1023 in
  let e := Z.land (Z.shiftr raw 10) 31 in
  wrap32 (Z.quot (s32 (shl32 m e)) (1000000 / (CORE_CLOCK / CONFIG_KTIMER_HEARTBEAT))).

Definition ipc_timeout (event : Z) : M kstate Z :=
  e ← on (get_kte event);
  thr (upd_tcb (kte_data e) (with_state T_RUNNABLE));;
  sched (sched_slot_dispatch SSI_NORMAL_THREAD (kte_data e));;
  mret 0.

(** [user_log]: the format and the arguments of the message that is printed. *)
Definition user_log (from : Z) : M kstate unit :=
  t ← thr (get_tcb from);
  format ← lift_opt (zlookup (c_regs (t_ctx t)) 1);
  va ← lift_opt (zlookup (c_regs (t_ctx t)) 2);
  args ← thr (read_word va);
  modify (fun s => set_log (k_log s ++ [(format, args)]) s).

Definition set_caller_state (st : thread_state_t) : M kstate unit :=
  c ← thr (gets caller); thr (upd_tcb c (with_state st)).

Section ipc.
Variable sym : symbols.

(** The thread start protocol of [sys_ipc]. *)
Definition start_thread (to_thr : Z) : M kstate unit :=
  c ← thr (gets caller);
  sp ← thr (ipc_read_mr c 2);
  stack_size ← thr (ipc_read_mr c 3);
  thr (upd_tcb to_thr (with_stack (sp -w stack_size) stack_size));;
  pc ← thr (ipc_read_mr c 1);
  thr (thread_init_ctx sp pc to_thr);;
  set_caller_state T_RUNNABLE;;
  thr (upd_tcb to_thr (with_state T_RUNNABLE)).

(** The send phase of [sys_ipc]. *)
Definition ipc_send (to_tid : Z) : M kstate unit :=
  c ← thr (gets caller);
  to_thr ← thr (thread_by_globalid to_tid);
  ct ← thr (get_tcb c);
  if to_tid =? TID_TO_GLOBALID THREAD_LOG then
    user_log c;; set_caller_state T_RUNNABLE
  else
    recv ← (if negb (to_thr =? NULL) then
              t ← thr (get_tcb to_thr); mret (bool_decide (t_state t = T_RECV_BLOCKED))
            else mret false);
    if (recv : bool) || (to_tid =? t_globalid ct) then do_ipc c to_thr
    else
      start ← (if negb (to_thr =? NULL) then
                 t ← thr (get_tcb to_thr);
                 if bool_decide (t_state t = T_INACTIVE) then
                   u ← thr (get_utcb (t_utcb t));
                   mret (GLOBALID_TO_TID (u_pager u) =? GLOBALID_TO_TID (t_globalid ct))
                 else mret false
               else mret false);
      if start : bool then
        tag ← thr (ipc_read_mr c 0);
        if tag =? 3 then start_thread to_thr
        else do_ipc c to_thr;; thr (upd_tcb to_thr (with_state T_INACTIVE))
      else
        thr (upd_tcb c (with_state T_SEND_BLOCKED));;
        ct ← thr (get_tcb c);
        thr (upd_utcb (t_utcb ct) (with_u_receiver to_tid)).

(** [param1] is the address of the saved registers. *)
Definition sys_ipc (param1 : Z) : M kstate unit :=
  to_tid ← thr (read_word (reg_addr param1 REG_R0));
  from_tid ← thr (read_word (reg_addr param1 REG_R1));
  timeout ← thr (read_word (reg_addr param1 REG_R2));
  if (to_tid =? L4_NILTHREAD) && truth timeout then
    set_caller_state T_INACTIVE;;
    c ← thr (gets caller);
    on (ktimer_event_create (period_ticks timeout) (sym_ipc_timeout sym) c);;
    mret tt
  else if negb (to_tid =? L4_NILTHREAD) then ipc_send to_tid
  else if negb (from_tid =? L4_NILTHREAD) then
    set_caller_state T_RECV_BLOCKED;;
    c ← thr (gets caller);
    thr (upd_tcb c (with_ipc_from from_tid))
  else set_caller_state T_SEND_BLOCKED.

(** The body of the loop of [ipc_deliver]. *)
Definition deliver_one (i : Z) : M kstate unit :=
  p ← thr (map_get i);
  t ← thr (get_tcb p);
  match t_state t with
  | T_RECV_BLOCKED =>
      if negb (t_ipc_from t =? L4_NILTHREAD) && negb (t_ipc_from t =? L4_ANYTHREAD) then
        from_thr ← thr (thread_by_globalid (t_ipc_from t));
        f ← thr (get_tcb from_thr);
        if bool_decide (t_state f = T_SEND_BLOCKED) then do_ipc from_thr p else mret tt
      else mret tt
  | T_SEND_BLOCKED =>
      u ← thr (get_utcb (t_utcb t));
      let receiver := u_intended_receiver u in
      if negb (receiver =? L4_NILTHREAD) && negb (receiver =? L4_ANYTHREAD) then
        to_thr ← thr (thread_by_globalid receiver);
        g ← thr (get_tcb to_thr);
        if bool_decide (t_state g = T_RECV_BLOCKED) then do_ipc p to_thr else mret tt
      else mret tt
  | _ => mret tt
  end.

(** [for (i = 1; i < thread_count; ++i)], for [n] turns. *)
Fixpoint deliver_loop (n : nat) (i : Z) : M kstate unit :=
  match n with
  | O => mret tt
  | S n' => deliver_one i;; deliver_loop n' (i + 1)
  end.

Definition ipc_deliver : M kstate Z :=
  count ← thr (gets thread_count);
  deliver_loop (Z.to_nat (count - 1)) 1;;
  mret 4096.

(** ** System calls *)

Inductive syscall_t :=
| SYS_KERNEL_INTERFACE | SYS_EXCHANGE_REGISTERS | SYS_THREAD_CONTROL | SYS_SYSTEM_CLOCK | SYS_THREAD_SWITCH | SYS_SCHEDULE
| SYS_IPC | SYS_LIPC | SYS_UNMAP | SYS_SPACE_CONTROL | SYS_PROCESSOR_CONTROL | SYS_MEMORY_CONTROL.
#[export] Instance syscall_eq_dec : EqDecision syscall_t.
Proof. solve_decision. Defined.

(** The numbers in their order. *)
Definition syscalls : list syscall_t :=
  [SYS_KERNEL_INTERFACE; SYS_EXCHANGE_REGISTERS; SYS_THREAD_CONTROL; SYS_SYSTEM_CLOCK; SYS_THREAD_SWITCH; SYS_SCHEDULE;
   SYS_IPC; SYS_LIPC; SYS_UNMAP; SYS_SPACE_CONTROL; SYS_PROCESSOR_CONTROL; SYS_MEMORY_CONTROL].
Definition is_syscall (svc_num : Z) (c : syscall_t) : bool := bool_decide (zlookup syscalls svc_num = Some c).

Definition sys_thread_control (param1 r4 : Z) : M kstate unit :=
  dest ← thr (read_word (reg_addr param1 REG_R0));
  space ← thr (read_word (reg_addr param1 REG_R1));
  pager ← thr (read_word (reg_addr param1 REG_R3));
  if negb (space =? L4_NILTHREAD) then
    let utcb := r4 in
    id ← mem (mempool_search utcb UTCB_SIZE);
    ok ← (if id =? -1 then mret false
          else p ← mem (get_pool id); mret (truth (Z.land (mp_flags p) (Z.lor MP_UR MP_UW))));
    if negb (ok : bool) then mret tt
    else
      thread ← thr (thread_create dest utcb);
      thread_space thread space utcb;;
      t ← thr (get_tcb thread);
      thr (upd_utcb (t_utcb t) (with_u_pager pager));;
      thr (write_word (reg_addr param1 REG_R0) 1)
  else
    thread ← thr (thread_by_globalid dest);
    thread_free_space thread;;
    thr (thread_destroy thread).

(** A byte of the program text. *)
Definition read_code (p : Z) : M kstate Z := fun s =>
  match k_code s !! p with Some b => Done (b, s) | None => Fault end.

Definition syscall_handler : M kstate unit :=
  c ← thr (gets caller);
  t ← thr (get_tcb c);
  let svc_param1 := c_sp (t_ctx t) in
  pc ← thr (read_word (reg_addr svc_param1 REG_PC));
  svc_num ← read_code (pc -w 2);
  if is_syscall svc_num SYS_THREAD_CONTROL then
    r4 ← lift_opt (zlookup (c_regs (t_ctx t)) 0);
    sys_thread_control svc_param1 r4;;
    set_caller_state T_RUNNABLE
  else if is_syscall svc_num SYS_IPC then sys_ipc svc_param1
  else set_caller_state T_RUNNABLE.

Definition syscall_init : M kstate unit :=
  on (softirq_register SYSCALL_SOFTIRQ (sym_syscall_handler sym)).

(** ** The kernel thread *)

(** The handlers of timer events. *)
Definition call_event (code event : Z) : M kstate Z :=
  if code =? sym_ipc_deliver sym then ipc_deliver
  else if code =? sym_ipc_timeout sym then ipc_timeout event
  else fault.

(** The handlers of soft interrupts; [other] runs those that do not belong to the
    kernel proper (the debugger). *)
Definition call_softirq (other : Z -> M kstate unit) (code : Z) : M kstate unit :=
  if code =? sym_syscall_handler sym then syscall_handler
  else if code =? sym_ktimer_event_handler sym then ktimer_event_handler call_event
  else other code.

(** A turn of the loop of [kernel_thread]. *)
Definition kernel_thread_turn (other : Z -> M kstate unit) (fuel : nat) : M kstate unit :=
  softirq_execute (call_softirq other) fuel;; __svc_handler.

(** The part of [main] behind the hooks of the kernel. *)
Definition main_start : M kstate unit :=
  create_idle_thread sym;;
  create_root_thread sym;;
  on (ktimer_event_create 64 (sym_ipc_deliver sym) NULL);;
  mem (mpu_enable true).
End ipc.
