(* ===== verification/IpcProps.v ===== *)
(** * Messages: theorems

    Transfer of a message between two threads, its error path, the phases of
    [sys_ipc] and the delivery of messages between blocked threads. *)

From S2P Require Import Prelude Ktable Thread ThreadMap ThreadTree Sched Softirq Ktimer Mempool Fpage FpageChain Memory Kernel Ipc.

(** ** Operations of the components on the state of the kernel *)

Lemma set_thr_id s : set_thr (k_thr s) s = s.
Proof. by destruct s. Qed.

Lemma thr_Done {A} (m : M thrstate A) s a x : m (k_thr s) = Done (a, x) -> thr m s = Done (a, set_thr x s).
Proof. exact (on_Done m s a x). Qed.

Lemma thr_read {A} (m : M thrstate A) s a : m (k_thr s) = Done (a, k_thr s) -> thr m s = Done (a, s).
Proof. intros H. rewrite (thr_Done m s a _ H). by rewrite set_thr_id. Qed.

Lemma mem_read {A} (m : M memstate A) s a : m (k_mem s) = Done (a, k_mem s) -> mem m s = Done (a, s).
Proof. intros H. unfold mem, on, zoom. cbn [get_part put_part part_mem]. rewrite H. by destruct s. Qed.

Lemma upd_utcb_ok p g u s : utcbs s !! p = Some u -> upd_utcb p g s = Done (tt, set_utcbs (<[p := g u]> (utcbs s)) s).
Proof. unfold upd_utcb. by intros ->. Qed.

Lemma get_utcb_ok p u s : utcbs s !! p = Some u -> get_utcb p s = Done (u, s).
Proof. unfold get_utcb. by intros ->. Qed.

Lemma read_word_ok p w s : words s !! p = Some w -> read_word p s = Done (w, s).
Proof. unfold read_word. by intros ->. Qed.

Lemma write_word_ok p w w' s : words s !! p = Some w' -> write_word p w s = Done (tt, set_words (<[p := w]> (words s)) s).
Proof. unfold write_word. by intros ->. Qed.

Lemma sched_dispatch_ok i t sl s :
  k_sched s !! i = Some sl ->
  sched (sched_slot_dispatch (Z.of_nat i) t) s = Done (tt, set_sched (<[i := mk_slot t (ss_handler sl)]> (k_sched s)) s).
Proof.
  intros Hi. pose proof (lookup_lt_Some _ _ _ Hi). refine (on_Done (sched_slot_dispatch (Z.of_nat i) t) s tt _ _).
  unfold sched_slot_dispatch. rewrite (bind_Done _ _ _ sl (k_sched s)).
  - unfold set_slot. rewrite zinsert_Some by lia. by rewrite Nat2Z.id.
  - unfold get_slot. simpl. by rewrite zlookup_nat, Hi.
Qed.

(** ** The message of a thread *)

(** The thread [p] has the control block [t] and the user control block [u], and so
    the 16 words of a message. *)
Definition has_message (s : thrstate) (p : Z) (t : tcb) (u : utcb) : Prop :=
  tcbs s !! p = Some t /\ utcbs s !! t_utcb t = Some u /\ length (c_regs (t_ctx t)) = 8%nat /\ length (u_mr u) = 8%nat.

Definition message (t : tcb) (u : utcb) : list Z := c_regs (t_ctx t) ++ u_mr u.

Definition with_ctx_regs (r : list Z) (t : tcb) : tcb :=
  with_ctx (mk_ctx (c_sp (t_ctx t)) (c_ret (t_ctx t)) (c_ctl (t_ctx t)) r) t.

(** The state in which the thread has the message [m]. *)
Definition put_message (p : Z) (t : tcb) (u : utcb) (m : list Z) (s : thrstate) : thrstate :=
  set_tcbs (<[p := with_ctx_regs (take 8 m) t]> (tcbs s)) (set_utcbs (<[t_utcb t := with_u_mr (drop 8 m) u]> (utcbs s)) s).

Lemma put_message_id s p t u : has_message s p t u -> put_message p t u (message t u) s = s.
Proof.
  intros (Ht & Hu & Hr & Hm). unfold put_message, message. rewrite take_app_le, drop_app_ge by lia.
  rewrite take_ge, Hr, drop_0 by lia. rewrite !insert_id; [by destruct s|rewrite Hu; by destruct u|].
  rewrite Ht. by destruct t as [? ? ? ? ? []].
Qed.

Lemma length_message s p t u : has_message s p t u -> length (message t u) = 16%nat.
Proof. intros (_ & _ & Hr & Hm). unfold message. rewrite length_app. lia. Qed.

Lemma has_message_put p t u m s : length m = 16%nat -> has_message (put_message p t u m s) p (with_ctx_regs (take 8 m) t) (with_u_mr (drop 8 m) u).
Proof.
  intros Hm. split; [apply lookup_insert_eq|]. split; [apply lookup_insert_eq|]. simpl.
  rewrite length_take, length_drop. lia.
Qed.

Lemma has_message_put_other p t u m s q f v :
  has_message s q f v -> q <> p -> t_utcb f <> t_utcb t -> has_message (put_message p t u m s) q f v.
Proof.
  intros (Hf & Hv & H) Hq Hu. split; [by apply (proj2 (lookup_insert_Some _ _ _ _ _)); right|].
  split; [|done]. by apply (proj2 (lookup_insert_Some _ _ _ _ _)); right.
Qed.

Lemma ipc_read_mr_ok s p t u (i : nat) w :
  has_message s p t u -> message t u !! i = Some w -> ipc_read_mr p (Z.of_nat i) s = Done (w, s).
Proof.
  intros (Ht & Hu & Hr & Hm) Hi. unfold ipc_read_mr, message in *. rewrite (bind_Done _ _ _ _ _ (get_tcb_ok _ _ _ Ht)).
  destruct (Z.geb_spec (Z.of_nat i) 8) as [H8|H8].
  - rewrite (bind_Done _ _ _ _ _ (get_utcb_ok _ _ _ Hu)). rewrite lookup_app_r, Hr in Hi by lia.
    replace (Z.of_nat i - 8) with (Z.of_nat (i - 8)) by lia. by rewrite zlookup_nat, Hi.
  - rewrite lookup_app_l in Hi by lia. by rewrite zlookup_nat, Hi.
Qed.

Lemma ipc_write_mr_ok s p t u m (i : nat) w :
  length m = 16%nat -> (i < 16)%nat ->
  ipc_write_mr p (Z.of_nat i) w (put_message p t u m s) = Done (tt, put_message p t u (<[i := w]> m) s).
Proof.
  intros Hm Hi. destruct (has_message_put p t u m s Hm) as (Ht & Hu & Hr & Hmr). unfold ipc_write_mr.
  rewrite (bind_Done _ _ _ _ _ (get_tcb_ok _ _ _ Ht)). destruct (Z.geb_spec (Z.of_nat i) 8) as [H8|H8].
  - rewrite (bind_Done _ _ _ _ _ (get_utcb_ok _ _ _ Hu)). rewrite zinsert_Some by lia.
    rewrite (bind_Done (lift_opt (Some _)) _ _ _ _ eq_refl). rewrite (upd_utcb_ok _ _ _ _ Hu).
    unfold put_message. cbn [utcbs set_utcbs set_tcbs t_utcb with_ctx_regs with_ctx]. rewrite insert_insert_eq.
    rewrite take_insert_ge by lia. rewrite drop_insert_ge by lia. simpl u_mr.
    by replace (Z.to_nat (Z.of_nat i - 8)) with (i - 8)%nat by lia.
  - rewrite zinsert_Some by lia. rewrite (bind_Done (lift_opt (Some _)) _ _ _ _ eq_refl). rewrite (upd_tcb_ok _ _ _ _ Ht).
    unfold put_message. cbn [tcbs set_utcbs set_tcbs]. rewrite insert_insert_eq, Nat2Z.id.
    rewrite drop_insert_lt by lia. rewrite take_insert_lt by lia. done.
Qed.

Lemma fill_insert {A} (m : list A) i n (src : list A) w :
  src !! i = Some w -> (i + S n <= length m)%nat -> (i + S n <= length src)%nat ->
  fill (<[i := w]> m) (S i) (take n (drop (S i) src)) = fill m i (take (S n) (drop i src)).
Proof.
  intros Hw Hm Hs. rewrite (drop_S _ _ _ Hw). cbn [take]. apply fill_cons.
  rewrite length_take, length_drop. lia.
Qed.

Lemma copy_untyped_ok n (i : nat) from f uf to t u m s :
  has_message s from f uf -> from <> to -> t_utcb f <> t_utcb t -> length m = 16%nat -> (i + n <= 16)%nat ->
  copy_untyped n (Z.of_nat i) from to (put_message to t u m s) =
    Done (tt, put_message to t u (fill m i (take n (drop i (message f uf)))) s).
Proof.
  intros Hf Hne Hu. pose proof (length_message _ _ _ _ Hf) as Hlen. revert i m.
  induction n as [|n IH]; intros i m Hm Hi; cbn [copy_untyped]; [by rewrite take_0, fill_nil|].
  destruct (lookup_lt_is_Some_2 (message f uf) i) as [w Hw]; [lia|].
  rewrite (bind_Done _ _ _ _ _ (ipc_read_mr_ok _ _ _ _ i w (has_message_put_other to t u m s _ _ _ Hf Hne Hu) Hw)).
  rewrite (bind_Done _ _ _ _ _ (ipc_write_mr_ok s to t u m i w Hm ltac:(lia))).
  replace (Z.of_nat i + 1) with (Z.of_nat (S i)) by lia. rewrite IH by (rewrite ?length_insert; lia).
  by rewrite (fill_insert _ _ _ _ _ Hw) by lia.
Qed.

(** ** The end of a transfer *)

(** The state of the sender afterwards: it runs on, or waits for an answer. *)
Definition sender_after (recv : Z) (t : tcb) : tcb :=
  if recv =? L4_NILTHREAD then with_state T_RUNNABLE t else with_ipc_from recv (with_state T_RECV_BLOCKED t).
Definition receiver_after (t : tcb) : tcb := with_ipc_from L4_NILTHREAD (with_state T_RUNNABLE t).

(** The state of the dispatcher after [ipc_finish]. *)
Definition finish_thr (from to : Z) (f t : tcb) (u : utcb) (recv : Z) (s : thrstate) : thrstate :=
  set_tcbs (<[from := sender_after recv f]> (<[to := receiver_after t]> (tcbs s)))
    (set_utcbs (<[t_utcb t := with_u_sender (t_globalid f) u]> (utcbs s))
      (set_words (<[reg_addr (c_sp (t_ctx t)) REG_R0 := t_globalid f]> (words s)) s)).

Lemma ipc_finish_ok from to f t u recv s sl3 sl4 :
  from <> to -> tcbs (k_thr s) !! from = Some f -> tcbs (k_thr s) !! to = Some t -> utcbs (k_thr s) !! t_utcb t = Some u ->
  is_Some (words (k_thr s) !! reg_addr (c_sp (t_ctx t)) REG_R0) ->
  words (k_thr s) !! reg_addr (c_sp (t_ctx f)) REG_R1 = Some recv ->
  reg_addr (c_sp (t_ctx f)) REG_R1 <> reg_addr (c_sp (t_ctx t)) REG_R0 ->
  k_sched s !! 3%nat = Some sl3 -> k_sched s !! 4%nat = Some sl4 ->
  ipc_finish from to s = Done (tt, set_sched (<[3%nat := mk_slot to (ss_handler sl3)]>
    (<[4%nat := mk_slot from (ss_handler sl4)]> (k_sched s))) (set_thr (finish_thr from to f t u recv (k_thr s)) s)).
Proof.
  intros Hne Hf Ht Hu [w0 Hw0] Hw1 Hwne H3 H4. unfold ipc_finish.
  rewrite (bind_Done _ _ _ _ _ (thr_read _ s _ (get_tcb_ok _ _ _ Hf))).
  rewrite (bind_Done _ _ _ _ _ (thr_read _ s _ (get_tcb_ok _ _ _ Ht))).
  rewrite (bind_Done _ _ _ _ _ (thr_Done _ s _ _ (upd_utcb_ok _ _ _ _ Hu))). set (x1 := set_utcbs _ (k_thr s)).
  rewrite (bind_Done _ _ _ _ _ (thr_Done _ (set_thr x1 s) _ _ (upd_tcb_ok to _ x1 t Ht))). set (x2 := set_tcbs _ x1).
  assert (Ht2 : tcbs x2 !! to = Some (with_state T_RUNNABLE t)) by apply lookup_insert_eq.
  rewrite (bind_Done _ _ _ _ _ (thr_Done _ (set_thr x2 s) _ _ (upd_tcb_ok to _ x2 _ Ht2))). set (x3 := set_tcbs _ x2).
  rewrite (bind_Done _ _ _ _ _ (thr_Done _ (set_thr x3 s) _ _ (write_word_ok _ (t_globalid f) w0 x3 Hw0))).
  set (x4 := set_words _ x3).
  assert (Hw4 : words x4 !! reg_addr (c_sp (t_ctx f)) REG_R1 = Some recv).
  { unfold x4. cbn [words set_words]. by rewrite lookup_insert_ne by done. }
  rewrite (bind_Done _ _ _ _ _ (thr_read _ (set_thr x4 s) _ (read_word_ok _ _ _ Hw4))).
  assert (Hf4 : tcbs x4 !! from = Some f).
  { unfold x4, x3, x2. cbn [tcbs set_words set_tcbs]. by rewrite !lookup_insert_ne by done. }
  assert (Hlast : exists x5, x5 = finish_thr from to f t u recv (k_thr s) /\
    ((if recv =? L4_NILTHREAD then thr (upd_tcb from (with_state T_RUNNABLE))
      else thr (upd_tcb from (with_state T_RECV_BLOCKED));; thr (upd_tcb from (with_ipc_from recv))) : M kstate unit)
    (set_thr x4 s) = Done (tt, set_thr x5 s)).
  { eexists. split; [reflexivity|]. unfold finish_thr, sender_after, receiver_after. destruct (recv =? L4_NILTHREAD).
    - rewrite (thr_Done _ (set_thr x4 s) _ _ (upd_tcb_ok from _ x4 f Hf4)). unfold x4, x3, x2, x1.
      cbn [tcbs set_tcbs set_words set_utcbs words utcbs]. by rewrite insert_insert_eq.
    - rewrite (bind_Done _ _ _ _ _ (thr_Done _ (set_thr x4 s) _ _ (upd_tcb_ok from _ x4 f Hf4))). set (y := set_tcbs _ x4).
      assert (Hy : tcbs y !! from = Some (with_state T_RECV_BLOCKED f)) by apply lookup_insert_eq.
      rewrite (thr_Done _ (set_thr y s) _ _ (upd_tcb_ok from _ y _ Hy)). unfold y, x4, x3, x2, x1.
      cbn [tcbs set_tcbs set_words set_utcbs words utcbs]. by rewrite !insert_insert_eq. }
  destruct Hlast as (x5 & -> & Hr). rewrite (bind_Done _ _ _ _ _ Hr). set (s5 := set_thr _ s).
  rewrite (bind_Done _ _ _ _ _ (sched_dispatch_ok 4 from sl4 s5 H4)). set (s6 := set_sched _ s5).
  assert (H36 : k_sched s6 !! 3%nat = Some sl3) by (unfold s6; cbn [k_sched set_sched]; by rewrite list_lookup_insert_ne).
  exact (sched_dispatch_ok 3 to sl3 s6 H36).
Qed.

(** Two different threads that can exchange a message: their user control blocks differ,
    and both have a stack with the saved registers. *)
Record partners (s : kstate) (from to : Z) (f t : tcb) (uf u : utcb) (recv : Z) : Prop := {
  pa_ne : from <> to;
  pa_from : has_message (k_thr s) from f uf;
  pa_to : has_message (k_thr s) to t u;
  pa_utcb : t_utcb f <> t_utcb t;
  pa_sp : c_sp (t_ctx f) <> 0 /\ c_sp (t_ctx t) <> 0;
  pa_r0 : is_Some (words (k_thr s) !! reg_addr (c_sp (t_ctx t)) REG_R0);
  pa_r1 : words (k_thr s) !! reg_addr (c_sp (t_ctx f)) REG_R1 = Some recv;
  pa_regs : reg_addr (c_sp (t_ctx f)) REG_R1 <> reg_addr (c_sp (t_ctx t)) REG_R0;
  pa_slots : length (k_sched s) = 6%nat;
}.

(** The words of the message of the sender that the tag announces, before the other
    words of the receiver. *)
Definition delivered (f : tcb) (uf : utcb) (t : tcb) (u : utcb) : list Z :=
  let n := S (Z.to_nat (n_untyped (default 0 (head (message f uf))))) in
  take n (message f uf) ++ drop n (message t u).

Lemma n_untyped_range tag : 0 <= n_untyped tag < 64.
Proof. unfold n_untyped. change 63 with (Z.ones 6). rewrite Z.land_ones by lia. apply Z.mod_pos_bound. lia. Qed.

Lemma n_typed_range tag : 0 <= n_typed tag < 64.
Proof. unfold n_typed. change 63 with (Z.ones 6). rewrite Z.land_ones by lia. apply Z.mod_pos_bound. lia. Qed.

Lemma head_message s p t u : has_message s p t u -> message t u !! 0%nat = Some (default 0 (head (message t u))).
Proof. intros H. apply length_message in H. by destruct (message t u). Qed.

Lemma do_ipc_ok s from to f t uf u recv (tag := default 0 (head (message f uf))) :
  partners s from to f t uf u recv -> n_typed tag = 0 -> n_untyped tag < IPC_MR_COUNT ->
  let m := delivered f uf t u in
  let st := put_message to t u m (k_thr s) in
  exists sl3 sl4, (k_sched s !! 3%nat = Some sl3 /\ k_sched s !! 4%nat = Some sl4) /\ do_ipc from to s = Done (tt,
    set_sched (<[3%nat := mk_slot to (ss_handler sl3)]> (<[4%nat := mk_slot from (ss_handler sl4)]> (k_sched s)))
      (set_thr (finish_thr from to f (with_ctx_regs (take 8 m) t) (with_u_mr (drop 8 m) u) recv st) s)).
Proof.
  intros [Hne Hf Ht Hu [Hspf Hspt] Hr0 Hr1 Hrne Hlen] Hnt Hn m st.
  destruct (lookup_lt_is_Some_2 (k_sched s) 3) as [sl3 H3]; [lia|]. destruct (lookup_lt_is_Some_2 (k_sched s) 4) as [sl4 H4]; [lia|].
  exists sl3, sl4. split; [done|]. pose proof (n_untyped_range tag) as Hr. unfold IPC_MR_COUNT in Hn.
  pose proof (length_message _ _ _ _ Hf) as Hlf. pose proof (length_message _ _ _ _ Ht) as Hlt.
  unfold do_ipc. pose proof (head_message _ _ _ _ Hf) as Hh. fold tag in Hh.
  rewrite (bind_Done _ _ _ _ _ (thr_read _ s _ (ipc_read_mr_ok _ _ _ _ 0 tag Hf Hh))). rewrite Hnt.
  destruct (Z.gtb_spec (n_untyped tag + 1 + 0) IPC_MR_COUNT) as [H|_]; [unfold IPC_MR_COUNT in H; lia|].
  pose proof (ipc_write_mr_ok (k_thr s) to t u (message t u) 0 tag Hlt ltac:(lia)) as Hw. rewrite (put_message_id _ _ _ _ Ht) in Hw.
  rewrite (bind_Done _ _ _ _ _ (thr_Done _ s _ _ Hw)). set (m0 := <[0%nat := tag]> (message t u)).
  pose proof (copy_untyped_ok (Z.to_nat (n_untyped tag)) 1 from f uf to t u m0 (k_thr s) Hf Hne Hu
    ltac:(unfold m0; by rewrite length_insert) ltac:(lia)) as Hc.
  assert (Hm : fill m0 1 (take (Z.to_nat (n_untyped tag)) (drop 1 (message f uf))) = m).
  { unfold m0. rewrite (fill_insert _ _ _ _ _ Hh) by lia. unfold fill. rewrite drop_0, take_0. cbn [app Nat.add].
    unfold m, delivered. fold tag. by rewrite length_take_le by lia. }
  rewrite Hm in Hc. fold st in Hc.
  rewrite (bind_Done _ _ _ _ _ (thr_Done _ (set_thr (put_message to t u m0 (k_thr s)) s) _ _ Hc)).
  change (Z.to_nat 0) with 0%nat. cbn [copy_typed]. rewrite (bind_Done (mret tt) _ _ tt _ eq_refl).
  assert (Hlm : length m = 16%nat). { unfold m, delivered. rewrite length_app, length_take, length_drop. lia. }
  destruct (has_message_put to t u m (k_thr s) Hlm) as (Ht' & Hu' & _). fold st in Ht', Hu'.
  destruct (has_message_put_other to t u m (k_thr s) _ _ _ Hf Hne Hu) as (Hf' & _). fold st in Hf'.
  set (s1 := set_thr st _). rewrite (bind_Done _ _ _ _ _ (thr_read _ s1 _ (get_tcb_ok _ _ _ Hf'))).
  rewrite (bind_Done _ _ _ _ _ (thr_read _ s1 _ (get_tcb_ok _ _ _ Ht'))).
  change (c_sp (t_ctx (with_ctx_regs (take 8 m) t))) with (c_sp (t_ctx t)).
  rewrite (proj2 (Z.eqb_neq _ _) Hspt), (proj2 (Z.eqb_neq _ _) Hspf). cbn [orb].
  rewrite (ipc_finish_ok from to f (with_ctx_regs (take 8 m) t) (with_u_mr (drop 8 m) u) recv s1 sl3 sl4); done.
Qed.

Lemma message_put t u m : length m = 16%nat -> message (with_ctx_regs (take 8 m) t) (with_u_mr (drop 8 m) u) = m.
Proof. intros _. apply take_drop. Qed.

Lemma length_delivered s from f uf to t u :
  has_message s from f uf -> has_message s to t u -> length (delivered f uf t u) = 16%nat.
Proof.
  intros Hf%length_message Ht%length_message. unfold delivered. rewrite length_app, length_take, length_drop. lia.
Qed.

Lemma sender_after_ctx recv t : t_ctx (sender_after recv t) = t_ctx t /\ t_utcb (sender_after recv t) = t_utcb t.
Proof. unfold sender_after. by destruct (recv =? L4_NILTHREAD). Qed.

(** ** The error path *)

Lemma set_user_error_ok p e t u s :
  p <> NULL -> tcbs s !! p = Some t -> t_utcb t <> NULL -> utcbs s !! t_utcb t = Some u ->
  set_user_error p e s = Done (tt, set_utcbs (<[t_utcb t := with_u_error e u]> (utcbs s)) s).
Proof.
  intros Hp Ht Hn Hu. unfold set_user_error. rewrite (proj2 (Z.eqb_neq _ _) Hp).
  rewrite (bind_Done _ _ _ _ _ (get_tcb_ok _ _ _ Ht)). rewrite (proj2 (Z.eqb_neq _ _) Hn).
  rewrite (bind_Done (assert (negb false)) _ _ tt s) by done. by apply upd_utcb_ok.
Qed.

(** ** Delivery between blocked threads *)

Lemma deliver_loop_const n i s :
  (forall j, (i <= j < i + n)%nat -> deliver_one (Z.of_nat j) s = Done (tt, s)) -> deliver_loop n (Z.of_nat i) s = Done (tt, s).
Proof.
  revert i. induction n as [|n IH]; intros i Hall; [done|]. cbn [deliver_loop].
  rewrite (bind_Done _ _ _ _ _ (Hall i ltac:(lia))).
  replace (Z.of_nat i + 1) with (Z.of_nat (S i)) by lia. apply IH. intros j Hj. apply Hall. lia.
Qed.

Lemma deliver_loop_app a b i s : deliver_loop (a + b) (Z.of_nat i) s =
  (deliver_loop a (Z.of_nat i);; deliver_loop b (Z.of_nat (i + a))) s.
Proof.
  revert i s. induction a as [|a IH]; intros i s; cbn [deliver_loop Nat.add].
  - by rewrite (bind_Done (mret tt) _ _ tt s eq_refl), Nat.add_0_r.
  - unfold mbind, M_bind in *. destruct (deliver_one (Z.of_nat i) s) as [[[] s1]| | |]; [|done..].
    replace (Z.of_nat i + 1) with (Z.of_nat (S i)) by lia. rewrite IH. by replace (S i + a)%nat with (i + S a)%nat by lia.
Qed.

Lemma thread_by_globalid_thr s ents globalid p tid :
  map_rep (k_thr s) ents -> ordered Z.lt ents.*2 -> (p, tid) ∈ ents -> GLOBALID_TO_TID globalid = tid ->
  thr (thread_by_globalid globalid) s = Done (p, s).
Proof. intros Hm Ho Hin Ht. apply thr_read. by eapply thread_by_globalid_hit. Qed.

(** [id] names no thread, any thread, or a thread of the map that is not in the state [st]. *)
Definition not_ready (s : thrstate) (ents : list (Z * Z)) (st : thread_state_t) (id : Z) : Prop :=
  id = L4_NILTHREAD \/ id = L4_ANYTHREAD \/
  exists q g, (q, GLOBALID_TO_TID id) ∈ ents /\ tcbs s !! q = Some g /\ t_state g <> st.

(** The thread [p] is not blocked, or its partner is not ready. *)
Definition unmatched (s : thrstate) (ents : list (Z * Z)) (p : Z) : Prop :=
  exists t, tcbs s !! p = Some t /\
    match t_state t with
    | T_RECV_BLOCKED => not_ready s ents T_SEND_BLOCKED (t_ipc_from t)
    | T_SEND_BLOCKED => exists u, utcbs s !! t_utcb t = Some u /\ not_ready s ents T_RECV_BLOCKED (u_intended_receiver u)
    | _ => True
    end.

Lemma not_ready_skip s ents st id (m : Z -> M kstate unit) :
  map_rep (k_thr s) ents -> ordered Z.lt ents.*2 -> not_ready (k_thr s) ents st id ->
  (if negb (id =? L4_NILTHREAD) && negb (id =? L4_ANYTHREAD) then
     q ← thr (thread_by_globalid id);
     g ← thr (get_tcb q);
     if bool_decide (t_state g = st) then m q else mret tt
   else mret tt) s = Done (tt, s).
Proof.
  intros Hm Ho Hn. destruct (Z.eqb_spec id L4_NILTHREAD) as [|H1]; [done|].
  destruct (Z.eqb_spec id L4_ANYTHREAD) as [|H2]; [done|]. destruct Hn as [?|[?|(q & g & Hin & Hg & Hst)]]; [done..|].
  cbn [negb andb]. rewrite (bind_Done _ _ _ _ _ (thread_by_globalid_thr s ents _ q _ Hm Ho Hin eq_refl)).
  rewrite (bind_Done _ _ _ _ _ (thr_read _ s _ (get_tcb_ok _ _ _ Hg))). by rewrite bool_decide_false by done.
Qed.

Lemma deliver_one_idle i p ents s :
  map_rep (k_thr s) ents -> ordered Z.lt ents.*2 -> thread_map (k_thr s) !! i = Some p -> unmatched (k_thr s) ents p ->
  deliver_one (Z.of_nat i) s = Done (tt, s).
Proof.
  intros Hm Ho Hp (t & Ht & Hb). unfold deliver_one.
  rewrite (bind_Done _ _ s p s) by (apply thr_read; unfold map_get; by rewrite zlookup_nat, Hp).
  rewrite (bind_Done _ _ _ _ _ (thr_read _ s _ (get_tcb_ok _ _ _ Ht))).
  destruct (t_state t); try done.
  - exact (not_ready_skip s ents _ _ (fun q => do_ipc q p) Hm Ho Hb).
  - destruct Hb as (u & Hu & Hb). rewrite (bind_Done _ _ _ _ _ (thr_read _ s _ (get_utcb_ok _ _ _ Hu))).
    exact (not_ready_skip s ents _ _ (fun q => do_ipc p q) Hm Ho Hb).
Qed.

(** The turn of the loop at a blocked sender whose receiver waits. *)
Lemma deliver_one_send i from to f t uf ents tid s :
  map_rep (k_thr s) ents -> ordered Z.lt ents.*2 -> (to, tid) ∈ ents ->
  thread_map (k_thr s) !! i = Some from -> tcbs (k_thr s) !! from = Some f -> tcbs (k_thr s) !! to = Some t ->
  utcbs (k_thr s) !! t_utcb f = Some uf -> t_state f = T_SEND_BLOCKED -> t_state t = T_RECV_BLOCKED ->
  u_intended_receiver uf <> L4_NILTHREAD -> u_intended_receiver uf <> L4_ANYTHREAD ->
  GLOBALID_TO_TID (u_intended_receiver uf) = tid ->
  deliver_one (Z.of_nat i) s = do_ipc from to s.
Proof.
  intros Hm Ho Hin Hi Hf Ht Hu Hsf Hst Hn1 Hn2 Htid. unfold deliver_one.
  rewrite (bind_Done _ _ s from s) by (apply thr_read; unfold map_get; by rewrite zlookup_nat, Hi).
  rewrite (bind_Done _ _ _ _ _ (thr_read _ s _ (get_tcb_ok _ _ _ Hf))). rewrite Hsf.
  rewrite (bind_Done _ _ _ _ _ (thr_read _ s _ (get_utcb_ok _ _ _ Hu))). cbv zeta.
  rewrite (proj2 (Z.eqb_neq _ _) Hn1), (proj2 (Z.eqb_neq _ _) Hn2). cbn [negb andb].
  rewrite (bind_Done _ _ _ _ _ (thread_by_globalid_thr s ents _ to tid Hm Ho Hin Htid)).
  rewrite (bind_Done _ _ _ _ _ (thr_read _ s _ (get_tcb_ok _ _ _ Ht))). by rewrite bool_decide_true by done.
Qed.

(** The turn of the loop at a blocked receiver: the sender it waits for is blocked. *)
Lemma deliver_one_recv i from to f t ents tid s :
  map_rep (k_thr s) ents -> ordered Z.lt ents.*2 -> (from, tid) ∈ ents ->
  thread_map (k_thr s) !! i = Some to -> tcbs (k_thr s) !! from = Some f -> tcbs (k_thr s) !! to = Some t ->
  t_state f = T_SEND_BLOCKED -> t_state t = T_RECV_BLOCKED -> t_ipc_from t <> L4_NILTHREAD ->
  (t_ipc_from t <> L4_ANYTHREAD -> GLOBALID_TO_TID (t_ipc_from t) = tid) ->
  deliver_one (Z.of_nat i) s = if t_ipc_from t =? L4_ANYTHREAD then Done (tt, s) else do_ipc from to s.
Proof.
  intros Hm Ho Hin Hi Hf Ht Hsf Hst Hn1 Htid. unfold deliver_one.
  rewrite (bind_Done _ _ s to s) by (apply thr_read; unfold map_get; by rewrite zlookup_nat, Hi).
  rewrite (bind_Done _ _ _ _ _ (thr_read _ s _ (get_tcb_ok _ _ _ Ht))). rewrite Hst.
  rewrite (proj2 (Z.eqb_neq _ _) Hn1). cbn [negb andb].
  destruct (Z.eqb_spec (t_ipc_from t) L4_ANYTHREAD) as [|Hn2]; [done|]. cbn [negb].
  rewrite (bind_Done _ _ _ _ _ (thread_by_globalid_thr s ents _ from tid Hm Ho Hin (Htid Hn2))).
  rewrite (bind_Done _ _ _ _ _ (thr_read _ s _ (get_tcb_ok _ _ _ Hf))). by rewrite bool_decide_true by done.
Qed.

(** Only turn [k] of the loop changes the state. *)
Lemma deliver_loop_at n k s s' :
  (1 <= k <= n)%nat -> (forall j, (1 <= j < k)%nat -> deliver_one (Z.of_nat j) s = Done (tt, s)) ->
  deliver_one (Z.of_nat k) s = Done (tt, s') ->
  (forall j, (k < j <= n)%nat -> deliver_one (Z.of_nat j) s' = Done (tt, s')) ->
  deliver_loop n 1 s = Done (tt, s').
Proof.
  intros Hk Hbefore Hat Hafter. replace n with ((k - 1) + S (n - k))%nat by lia. change 1 with (Z.of_nat 1).
  rewrite deliver_loop_app. rewrite (bind_Done _ _ s tt s); [|apply deliver_loop_const; intros j Hj; apply Hbefore; lia].
  replace (1 + (k - 1))%nat with k by lia. cbn [deliver_loop]. rewrite (bind_Done _ _ _ _ _ Hat).
  replace (Z.of_nat k + 1) with (Z.of_nat (S k)) by lia. apply deliver_loop_const. intros j Hj. apply Hafter. lia.
Qed.

(** A thread is in the map once. *)
Lemma map_rep_inj s ents k k' p tid tid' :
  map_rep s ents -> ordered Z.lt ents.*2 -> ents !! k = Some (p, tid) -> ents !! k' = Some (p, tid') -> k = k'.
Proof.
  intros Hm Ho Hp Hq. pose proof (Forall_lookup_1 _ _ _ _ (mr_tids _ _ Hm) Hp) as (x & Hx & E1).
  pose proof (Forall_lookup_1 _ _ _ _ (mr_tids _ _ Hm) Hq) as (y & Hy & E2). simpl in *.
  rewrite Hx in Hy. injection Hy as <-. subst tid tid'.
  assert (P1 : ents.*2 !! k = Some (GLOBALID_TO_TID (t_globalid x))) by by rewrite list_lookup_fmap, Hp.
  assert (P2 : ents.*2 !! k' = Some (GLOBALID_TO_TID (t_globalid x))) by by rewrite list_lookup_fmap, Hq.
  destruct (Nat.lt_total k k') as [Hl|[|Hl]]; [pose proof (Ho _ _ _ _ Hl P1 P2); lia|done|pose proof (Ho _ _ _ _ Hl P2 P1); lia].
Qed.

Lemma map_rep_tcbs s s' ents :
  map_rep s ents -> thread_map s' = thread_map s -> thread_count s' = thread_count s ->
  (forall p x, tcbs s !! p = Some x -> exists y, tcbs s' !! p = Some y /\ t_globalid y = t_globalid x) -> map_rep s' ents.
Proof.
  intros [Hp Ht Ho] Em Ec Hid. constructor; [|eapply Forall_impl; [exact Ht|]|done].
  - unfold map_ptrs in *. by rewrite Em, Ec.
  - intros [p tid] (x & Hx & E). destruct (Hid p x Hx) as (y & Hy & Ey). exists y. split; [done|]. by rewrite Ey.
Qed.

(** A sender and a receiver that wait for each other, at the places [i] and [j] of the
    map; no other blocked thread has a partner that is ready, neither before nor when the sender waits
    for the answer of [recv]. *)
Record waiting (s : kstate) (ents : list (Z * Z)) (i j : nat) (from to : Z) (f t : tcb) (uf u : utcb) (recv : Z) : Prop := {
  wa_map : map_rep (k_thr s) ents;
  wa_order : ordered Z.lt ents.*2;
  wa_from : ents !! i = Some (from, GLOBALID_TO_TID (t_globalid f));
  wa_to : ents !! j = Some (to, GLOBALID_TO_TID (t_globalid t));
  wa_first : (1 <= i)%nat /\ (1 <= j)%nat;
  wa_partners : partners s from to f t uf u recv;
  wa_send : t_state f = T_SEND_BLOCKED;
  wa_recv : t_state t = T_RECV_BLOCKED;
  wa_receiver : u_intended_receiver uf = t_globalid t /\ t_globalid t <> L4_NILTHREAD /\ t_globalid t <> L4_ANYTHREAD;
  wa_sender : t_ipc_from t = t_globalid f /\ t_globalid f <> L4_NILTHREAD \/ t_ipc_from t = L4_ANYTHREAD;
  wa_others : forall p, p ∈ ents.*1 -> p <> from -> p <> to -> unmatched (k_thr s) ents p;
  wa_reply : recv = L4_NILTHREAD \/
    (not_ready (k_thr s) ents T_SEND_BLOCKED recv /\
     forall p g ug, p ∈ ents.*1 -> tcbs (k_thr s) !! p = Some g -> t_state g = T_SEND_BLOCKED ->
       utcbs (k_thr s) !! t_utcb g = Some ug -> GLOBALID_TO_TID (u_intended_receiver ug) <> GLOBALID_TO_TID (t_globalid f));
}.

(** The state of the dispatcher after a transfer, as far as the delivery looks at it. *)
Lemma transferred_thr s from to f t uf u recv m (s' := finish_thr from to f (with_ctx_regs (take 8 m) t)
    (with_u_mr (drop 8 m) u) recv (put_message to t u m s)) :
  tcbs s' = <[from := sender_after recv f]> (<[to := receiver_after (with_ctx_regs (take 8 m) t)]> (tcbs s)) /\
  (has_message s from f uf -> has_message s to t u ->
   forall q v, utcbs s !! q = Some v -> exists v', utcbs s' !! q = Some v' /\ u_intended_receiver v' = u_intended_receiver v).
Proof.
  unfold s', finish_thr, put_message. cbn [tcbs set_tcbs utcbs set_utcbs words set_words t_utcb with_ctx_regs with_ctx].
  rewrite !insert_insert_eq. split; [done|]. intros _ (_ & Hu & _) q v Hv.
  rewrite lookup_insert. case_decide as E; [|by exists v]. subst q. rewrite Hu in Hv. injection Hv as <-. by eexists.
Qed.

Lemma sender_after_state recv f : t_state (sender_after recv f) <> T_SEND_BLOCKED.
Proof. unfold sender_after. by destruct (recv =? L4_NILTHREAD). Qed.

(** A transfer makes no other thread ready to exchange a message. *)
Lemma unmatched_after s ents i j from to f t uf u recv p m (s' := finish_thr from to f (with_ctx_regs (take 8 m) t)
    (with_u_mr (drop 8 m) u) recv (put_message to t u m (k_thr s))) :
  waiting s ents i j from to f t uf u recv -> p ∈ ents.*1 -> unmatched s' ents p.
Proof.
  intros [Hm Ho Hi Hj _ Hpa Hsf Hst _ _ Hoth Hrep] Hp.
  destruct (transferred_thr (k_thr s) from to f t uf u recv m) as [Htc Hut]. fold s' in Htc, Hut.
  pose proof Hpa as [Hne Hf Ht _ _ _ _ _ _]. specialize (Hut Hf Ht).
  assert (Hq : forall q g, tcbs (k_thr s) !! q = Some g -> exists g', tcbs s' !! q = Some g' /\
    (t_state g <> T_SEND_BLOCKED -> t_state g' <> T_SEND_BLOCKED) /\
    (t_state g <> T_RECV_BLOCKED -> q <> from \/ recv = L4_NILTHREAD -> t_state g' <> T_RECV_BLOCKED)).
  { intros q g Hg. rewrite Htc, !lookup_insert. case_decide as E1; [|case_decide as E2].
    - eexists. split; [done|]. split; [intros _; apply sender_after_state|].
      intros _ [?| ->]; done.
    - eexists. split; [done|]. split; [|by destruct t]. by intros _.
    - exists g. split; [done|]. tauto. }
  assert (Hns : forall id, not_ready (k_thr s) ents T_SEND_BLOCKED id -> not_ready s' ents T_SEND_BLOCKED id).
  { intros id [?|[?|(q & g & Hin & Hg & Hgs)]]; [by left|by right; left|]. right; right.
    destruct (Hq q g Hg) as (g' & Hg' & Hs' & _). exists q, g'. split; [done|]. split; [done|]. by apply Hs'. }
  destruct (decide (p = from)) as [->|Hpf].
  { exists (sender_after recv f). split; [by rewrite Htc, lookup_insert_eq|]. unfold sender_after.
    destruct (Z.eqb_spec recv L4_NILTHREAD) as [|Hr]; [done|]. simpl. destruct Hrep as [?|[Hrep _]]; [done|]. by apply Hns. }
  destruct (decide (p = to)) as [->|Hpt].
  { eexists. split; [by rewrite Htc, lookup_insert_ne, lookup_insert_eq by done|]. done. }
  destruct (Hoth p Hp Hpf Hpt) as (g & Hg & Hb). exists g. split; [by rewrite Htc, !lookup_insert_ne by done|].
  destruct (t_state g) eqn:Eg; try done; [by apply Hns|].
  destruct Hb as (ug & Hug & Hb). destruct (Hut _ _ Hug) as (ug' & Hug' & Eid). exists ug'. split; [done|]. rewrite Eid.
  destruct Hb as [?|[?|(q & gq & Hin & Hgq & Hgs)]]; [by left|by right; left|]. right; right.
  destruct (Hq q gq Hgq) as (gq' & Hgq' & _ & Hr'). exists q, gq'. split; [done|]. split; [done|]. apply Hr'; [done|].
  destruct Hrep as [?|[_ Hfree]]; [by right|]. left. intros ->. apply (Hfree p g ug Hp Hg Eg Hug).
  apply list_elem_of_lookup in Hin as [k Hk]. pose proof (map_rep_inj _ _ _ _ _ _ _ Hm Ho Hi Hk) as <-. rewrite Hi in Hk. by injection Hk.
Qed.

Lemma deliver_loop_rendezvous s ents i j from to f t uf u recv (tag := default 0 (head (message f uf))) :
  waiting s ents i j from to f t uf u recv -> n_typed tag = 0 -> n_untyped tag < IPC_MR_COUNT ->
  exists s', do_ipc from to s = Done (tt, s') /\ deliver_loop (length ents - 1) 1 s = Done (tt, s').
Proof.
  intros Hw Hnt Hnu. pose proof Hw as [Hm Ho Hi Hj [Hi1 Hj1] Hpa Hsf Hst (Hrc & Hrn & Hra) Hsn Hoth Hrep].
  destruct (do_ipc_ok s from to f t uf u recv Hpa Hnt Hnu) as (sl3 & sl4 & _ & Hdo). cbv zeta in Hdo. fold tag in Hdo.
  set (s' := set_sched _ _) in Hdo. exists s'. split; [done|]. pose proof Hpa as [Hne (Hf & Huf & _) (Ht & Hu & _) _ _ _ _ _ _].
  pose proof (mr_ptrs _ _ Hm) as (_ & _ & _ & Hptr).
  assert (Hmap : forall k p tid, ents !! k = Some (p, tid) -> thread_map (k_thr s) !! k = Some p).
  { intros k p tid Hk. apply Hptr. by rewrite list_lookup_fmap, Hk. }
  assert (Hm' : map_rep (k_thr s') ents).
  { apply (map_rep_tcbs (k_thr s)); [exact Hm|done|done|]. intros p x Hx.
    destruct (transferred_thr (k_thr s) from to f t uf u recv (delivered f uf t u)) as [Htc _].
    cbn [k_thr set_sched set_thr s']. rewrite Htc, !lookup_insert. case_decide as E1; [|case_decide as E2].
    - subst p. rewrite Hf in Hx. injection Hx as <-. eexists. split; [done|]. unfold sender_after. by destruct (recv =? L4_NILTHREAD).
    - subst p. rewrite Ht in Hx. injection Hx as <-. by eexists.
    - by exists x. }
  assert (Hidle : forall k, (k < length ents)%nat -> k <> i -> k <> j -> deliver_one (Z.of_nat k) s = Done (tt, s)).
  { intros k Hk Hki Hkj. destruct (lookup_lt_is_Some_2 ents k Hk) as [[p tid] Hp].
    assert (Hdist : forall k' q tid', ents !! k' = Some (q, tid') -> k <> k' -> p <> q).
    { intros k' q tid' Hq Hkk ->. by apply Hkk, (map_rep_inj _ _ _ _ _ _ _ Hm Ho Hp Hq). }
    apply (deliver_one_idle k p ents); [done|done|by eapply Hmap|].
    apply Hoth; [apply list_elem_of_fmap; exists (p, tid); split; [done|by eapply list_elem_of_lookup_2]|by eapply Hdist|by eapply Hdist]. }
  assert (Hidle' : forall k, (k < length ents)%nat -> deliver_one (Z.of_nat k) s' = Done (tt, s')).
  { intros k Hk. destruct (lookup_lt_is_Some_2 ents k Hk) as [[p tid] Hp].
    apply (deliver_one_idle k p ents s'); [done|done|by eapply Hmap|]. eapply unmatched_after; [done|].
    apply list_elem_of_fmap; exists (p, tid); split; [done|by eapply list_elem_of_lookup_2]. }
  assert (Hsend : deliver_one (Z.of_nat i) s = Done (tt, s')).
  { rewrite (deliver_one_send i from to f t uf ents (GLOBALID_TO_TID (t_globalid t)) s); try done.
    - by eapply list_elem_of_lookup_2. - by eapply Hmap. - by rewrite Hrc. - by rewrite Hrc. - by rewrite Hrc. }
  assert (Hrecv : deliver_one (Z.of_nat j) s = if t_ipc_from t =? L4_ANYTHREAD then Done (tt, s) else Done (tt, s')).
  { rewrite (deliver_one_recv j from to f t ents (GLOBALID_TO_TID (t_globalid f)) s); try done.
    - by rewrite Hdo. - by eapply list_elem_of_lookup_2. - by eapply Hmap.
    - destruct Hsn as [[-> ?]| ->]; done. - destruct Hsn as [[-> ?]|E]; done. }
  pose proof (lookup_lt_Some _ _ _ Hi). pose proof (lookup_lt_Some _ _ _ Hj).
  destruct (decide (t_ipc_from t = L4_ANYTHREAD \/ (i < j)%nat)) as [Hc|Hc].
  - apply (deliver_loop_at _ i); [lia| |done|intros; apply Hidle'; lia].
    intros k Hk. destruct (decide (k = j)) as [->|]; [|apply Hidle; lia].
    destruct Hc as [Hc|]; [|lia]. rewrite Hrecv, Hc. done.
  - assert (i <> j) by (intros ->; congruence). apply (deliver_loop_at _ j); [lia| | |intros; apply Hidle'; lia].
    + intros k Hk. apply Hidle; lia.
    + rewrite Hrecv, (proj2 (Z.eqb_neq _ _)); [done|]. tauto.
Qed.

(** ** An example *)

(** Thread 256 at 2000 has a message of two words for thread 257 at 3000, which waits
    for it. *)
Definition ex_sender : tcb :=
  mk_tcb 4194304 64 T_SEND_BLOCKED 0 0 (mk_ctx 7000 4294967293 3 [2; 11; 12; 0; 0; 0; 0; 0]) 0 5000 0 3000 0 0.
Definition ex_receiver : tcb :=
  mk_tcb 4210688 128 T_RECV_BLOCKED 0 0 (mk_ctx 8000 4294967293 3 (replicate 8 0)) 0 6000 4194304 0 0 0.
Definition ex_utcb (id receiver : Z) : utcb :=
  mk_utcb id 0 0 0 0 0 0 0 receiver 0 0 0 (replicate 8 0) (replicate 8 0).
Definition ex_thr : thrstate :=
  mk_thr (DECLARE_KTABLE 100000 CONFIG_MAX_THREADS 112)
    (<[2000 := ex_sender]> (<[3000 := ex_receiver]> {[1000 := zero_tcb]}))
    ([1000; 2000; 3000] ++ replicate 29 0) 3
    (<[5000 := ex_utcb 4194304 4210688]> {[6000 := ex_utcb 4210688 0]})
    (<[7000 := 0]> (<[7004 := 0]> (<[7008 := 0]> {[8000 := 0]}))) 2000 5000 2000 1000 0 0 0.
Definition ex_timer : ktimerstate :=
  mk_ktimer (DECLARE_KTABLE 4096 CONFIG_MAX_KT_EVENTS 16)
    (list_to_map ((fun p => (p, mk_kte 0 0 0 0)) <$> kt_slots (DECLARE_KTABLE 4096 CONFIG_MAX_KT_EVENTS 16)))
    0 0 0 0 0 (mk_systick 0 0 0).
Definition ex_kernel : kstate :=
  mk_k ex_thr (reset_mem layout0 0x20000900 0x20002200 (fun _ => 0)) (replicate 6 (mk_slot 0 0)) (replicate 4 (mk_softirq 0 0))
    ex_timer 0 0 (0, 0) (mk_cpu (replicate 8 0) 0 0 0 0) 0 0 ∅ [].
Definition ex_symbols : symbols := mk_symbols 1 2 3 4 5 6 7 5000 0 0 0 0 0.

Lemma ex_partners : partners ex_kernel 2000 3000 ex_sender ex_receiver (ex_utcb 4194304 4210688) (ex_utcb 4210688 0) 0.
Proof. constructor; try discriminate; try reflexivity; try (by repeat split); by eexists. Qed.

(** ** Properties *)

(** C6. [do_ipc] between two different threads with saved registers on their stacks, for a message
    of untyped words that fits the message registers: it terminates; the receiver has the words the tag announces
    and keeps its other words, knows the sender, is runnable and is in the slot of
    message partners; the sender runs on, or waits for the thread it named for the
    answer, and is in the slot of normal threads.  Nothing else is changed: no other
    field of the two threads and of the receiver's user control block, no other thread, user control
    block, word of a stack or slot, and no other part of the kernel. *)
Theorem do_ipc_transfers (s : kstate) (from to : Z) (f t : tcb) (uf u : utcb) (recv : Z)
    (Hp : partners s from to f t uf u recv) (Hnt : n_typed (default 0 (head (message f uf))) = 0)
    (Hnu : n_untyped (default 0 (head (message f uf))) < IPC_MR_COUNT) :
  exists s' t' u', do_ipc from to s = Done (tt, s') /\
    has_message (k_thr s') to t' u' /\ message t' u' = delivered f uf t u /\
    t' = with_ipc_from L4_NILTHREAD (with_state T_RUNNABLE (with_ctx_regs (c_regs (t_ctx t')) t)) /\
    u' = with_u_sender (t_globalid f) (with_u_mr (u_mr u') u) /\
    words (k_thr s') !! reg_addr (c_sp (t_ctx t)) REG_R0 = Some (t_globalid f) /\
    has_message (k_thr s') from (sender_after recv f) uf /\
    ss_scheduled <$> k_sched s' !! 3%nat = Some to /\ ss_scheduled <$> k_sched s' !! 4%nat = Some from /\
    (forall p, p <> from -> p <> to -> tcbs (k_thr s') !! p = tcbs (k_thr s) !! p) /\
    (forall q, q <> t_utcb t -> utcbs (k_thr s') !! q = utcbs (k_thr s) !! q) /\
    (forall a, a <> reg_addr (c_sp (t_ctx t)) REG_R0 -> words (k_thr s') !! a = words (k_thr s) !! a) /\
    (forall i, i <> 3%nat -> i <> 4%nat -> k_sched s' !! i = k_sched s !! i) /\ ss_handler <$> k_sched s' = ss_handler <$> k_sched s /\
    k_thr s' = set_tcbs (tcbs (k_thr s')) (set_utcbs (utcbs (k_thr s')) (set_words (words (k_thr s')) (k_thr s))) /\
    s' = set_sched (k_sched s') (set_thr (k_thr s') s).
Proof.
  destruct (do_ipc_ok s from to f t uf u recv Hp Hnt Hnu) as (sl3 & sl4 & [H3 H4] & Hr). cbv zeta in Hr.
  pose proof Hp as [Hne Hf Ht Hu _ _ _ _ Hlen].
  pose proof (length_delivered _ _ _ _ _ _ _ Hf Ht) as Hm. set (m := delivered f uf t u) in *.
  eexists _, (receiver_after (with_ctx_regs (take 8 m) t)), (with_u_sender (t_globalid f) (with_u_mr (drop 8 m) u)).
  split; [exact Hr|]. destruct Hf as (Hf & Huf & Hrf & Hmf), Ht as (Ht & Hut & Hrt & Hmt).
  destruct (sender_after_ctx recv f) as [Ectx Eutcb].
  unfold has_message, finish_thr, put_message. cbn [k_thr set_sched set_thr tcbs set_tcbs utcbs set_utcbs words set_words k_sched].
  split.
  { split; [by rewrite lookup_insert_ne, lookup_insert_eq by done|]. split; [apply lookup_insert_eq|].
    simpl. rewrite length_take, length_drop. lia. }
  split; [by apply (message_put t u)|]. split; [done|]. split; [done|]. split; [apply lookup_insert_eq|].
  split.
  { split; [apply lookup_insert_eq|]. rewrite Ectx, Eutcb. split; [|done].
    cbn [t_utcb with_ctx_regs with_ctx receiver_after]. by rewrite !lookup_insert_ne by done. }
  split; [by rewrite list_lookup_insert_eq by (rewrite length_insert; lia)|].
  split; [rewrite list_lookup_insert_ne by done; by rewrite list_lookup_insert_eq by lia|].
  split; [intros p Hpf Hpt; by rewrite !lookup_insert_ne by done|].
  split; [intros q Hq; cbn [t_utcb with_ctx_regs with_ctx]; by rewrite !lookup_insert_ne by done|].
  split; [intros a Ha; by rewrite lookup_insert_ne by done|].
  split; [intros i Hi3 Hi4; by rewrite !list_lookup_insert_ne by done|].
  split; [by rewrite !list_fmap_insert, !list_insert_id by (rewrite ?list_lookup_insert_ne, list_lookup_fmap, ?H3, ?H4; done)|].
  done.
Qed.

Lemma do_ipc_transfers_witness :
  exists s' t' u', do_ipc 2000 3000 ex_kernel = Done (tt, s') /\ has_message (k_thr s') 3000 t' u' /\
    take 3 (message t' u') = [2; 11; 12].
Proof.
  destruct (do_ipc_transfers ex_kernel 2000 3000 ex_sender ex_receiver (ex_utcb 4194304 4210688) (ex_utcb 4210688 0) 0)
    as (s' & t' & u' & Hr & Ht & Hm & _).
  - exact ex_partners.
  - reflexivity.
  - reflexivity.
  - exists s', t', u'. split; [exact Hr|]. split; [exact Ht|]. rewrite Hm. reflexivity.
Defined.

(** [do_ipc] for a message of more than 16 words sets the error codes of both threads
    and changes nothing else: no word is transferred, and no thread changes its state,
    so a sender that is in its system call stays [T_SVC_BLOCKED] and is never selected
    again. *)
Theorem do_ipc_overflow (s : kstate) (from to : Z) (f t : tcb) (uf u : utcb)
    (Hf : has_message (k_thr s) from f uf) (Ht : has_message (k_thr s) to t u)
    (Hn : from <> NULL /\ to <> NULL /\ t_utcb f <> NULL /\ t_utcb t <> NULL /\ t_utcb f <> t_utcb t)
    (Hover : IPC_MR_COUNT < 1 + n_untyped (default 0 (head (message f uf))) + n_typed (default 0 (head (message f uf)))) :
  do_ipc from to s = Done (tt, set_thr (set_utcbs
    (<[t_utcb t := with_u_error 9 u]> (<[t_utcb f := with_u_error 8 uf]> (utcbs (k_thr s)))) (k_thr s)) s).
Proof.
  destruct Hn as (Hnf & Hnt & Huf & Hut & Hne). pose proof (head_message _ _ _ _ Hf) as Hh.
  set (tag := default 0 (head (message f uf))) in *. unfold do_ipc.
  rewrite (bind_Done _ _ _ _ _ (thr_read _ s _ (ipc_read_mr_ok _ _ _ _ 0 tag Hf Hh))). cbv zeta.
  destruct (Z.gtb_spec (n_untyped tag + 1 + n_typed tag) IPC_MR_COUNT) as [_|H]; [|lia].
  destruct Hf as (Hf & Hu1 & _), Ht as (Ht & Hu2 & _).
  rewrite (bind_Done _ _ _ _ _ (thr_Done _ s _ _ (set_user_error_ok from _ f uf (k_thr s) Hnf Hf Huf Hu1))).
  set (x := set_utcbs _ (k_thr s)).
  assert (Hu3 : utcbs x !! t_utcb t = Some u) by (unfold x; cbn [utcbs set_utcbs]; by rewrite lookup_insert_ne by done).
  exact (thr_Done _ (set_thr x s) _ _ (set_user_error_ok to _ t u x Hnt Ht Hut Hu3)).
Qed.

Lemma do_ipc_overflow_witness :
  let f := mk_tcb 4194304 64 T_SVC_BLOCKED 0 0 (mk_ctx 7000 4294967293 3 [16; 0; 0; 0; 0; 0; 0; 0]) 0 5000 0 3000 0 0 in
  let s := set_thr (set_tcbs (<[2000 := f]> (tcbs ex_thr)) ex_thr) ex_kernel in
  exists s', do_ipc 2000 3000 s = Done (tt, s') /\ tcbs (k_thr s') = tcbs (k_thr s) /\ k_sched s' = k_sched s.
Proof.
  intros f s. eexists. split.
  - apply (do_ipc_overflow s 2000 3000 f ex_receiver (ex_utcb 4194304 4210688) (ex_utcb 4210688 0)).
    + by repeat split.
    + by repeat split.
    + by repeat split.
    + reflexivity.
  - split; reflexivity.
Defined.


(** As in the example, but the sender calls: it waits for the answer of the receiver; and thread 258 waits
    for a message of the receiver. *)
Definition ex_third : tcb :=
  mk_tcb (TID_TO_GLOBALID 258) 192 T_RECV_BLOCKED 0 0 (mk_ctx 9000 4294967293 3 (replicate 8 0)) 0 6500 4210688 0 0 0.
Definition ex_call : kstate :=
  set_thr (set_words (<[7004 := 4210688]> (words ex_thr)) (set_tcbs (<[4000 := ex_third]> (tcbs ex_thr))
    (set_thread_map ([1000; 2000; 3000; 4000] ++ replicate 28 0) 4 ex_thr))) ex_kernel.

Lemma ex_call_map_rep : map_rep (k_thr ex_call) [(1000, 0); (2000, 256); (3000, 257); (4000, 258)].
Proof.
  constructor.
  - split; [done|]. split; [done|]. split; [simpl; lia|]. by intros [|[|[|[|k]]]] p Hk; simpl in *; simplify_eq.
  - repeat constructor; by eexists.
  - intros [|[|[|[|a]]]] [|[|[|[|b]]]] x y Hab; simpl; intros; simplify_eq; lia || done.
Qed.


(** ** Sleeping *)

(** A sleep of less than 390 microseconds never ends: the period is 0 ticks, so
    [ktimer_event_create] refuses it, but [sys_ipc] ignores that. The caller is left
    [T_INACTIVE], the queue of timer events is as before, and the event that was
    allocated is lost. *)
Theorem sys_ipc_short_sleep_lost (sym : symbols) (s : kstate) (param1 timeout from_tid : Z) (t : tcb)
    (Hr0 : words (k_thr s) !! reg_addr param1 REG_R0 = Some L4_NILTHREAD)
    (Hr1 : words (k_thr s) !! reg_addr param1 REG_R1 = Some from_tid)
    (Hr2 : words (k_thr s) !! reg_addr param1 REG_R2 = Some timeout) (Hto : timeout <> 0)
    (Hticks : period_ticks timeout = 0) (Ht : tcbs (k_thr s) !! caller (k_thr s) = Some t)
    (Hcode : sym_ipc_timeout sym <> NULL) (Hwf : kt_wf (ktimer_event_table (k_timer s)))
    (Hdom : forall p, p ∈ kt_slots (ktimer_event_table (k_timer s)) -> is_Some (kevents (k_timer s) !! p))
    (Hroom : exists p, p ∈ kt_slots (ktimer_event_table (k_timer s)) /\ (p ∉ kt_live (ktimer_event_table (k_timer s)))) :
  exists s' kte, sys_ipc sym param1 s = Done (tt, s') /\
    tcbs (k_thr s') = <[caller (k_thr s) := with_state T_INACTIVE t]> (tcbs (k_thr s)) /\
    event_queue (k_timer s') = event_queue (k_timer s) /\
    (kte ∉ kt_live (ktimer_event_table (k_timer s))) /\
    kt_live (ktimer_event_table (k_timer s')) = {[kte]} ∪ kt_live (ktimer_event_table (k_timer s)).
Proof.
  unfold sys_ipc. rewrite (bind_Done _ _ _ _ _ (thr_read _ s _ (read_word_ok _ _ _ Hr0))).
  rewrite (bind_Done _ _ _ _ _ (thr_read _ s _ (read_word_ok _ _ _ Hr1))).
  rewrite (bind_Done _ _ _ _ _ (thr_read _ s _ (read_word_ok _ _ _ Hr2))).
  unfold truth. rewrite Z.eqb_refl, (proj2 (Z.eqb_neq _ _) Hto). cbn [andb negb].
  set (x := set_tcbs (<[caller (k_thr s) := with_state T_INACTIVE t]> (tcbs (k_thr s))) (k_thr s)).
  rewrite (bind_Done (set_caller_state T_INACTIVE) _ s tt (set_thr x s)).
  2: { unfold set_caller_state. rewrite (bind_Done _ _ s _ s (thr_read (gets caller) s _ eq_refl)).
       exact (thr_Done _ s _ _ (upd_tcb_ok _ _ _ _ Ht)). }
  rewrite (bind_Done _ _ (set_thr x s) _ _ (thr_read (gets caller) (set_thr x s) _ eq_refl)). rewrite Hticks.
  destruct (ktimer_event_create_leaks (sym_ipc_timeout sym) (caller (k_thr s)) (k_timer s) Hcode Hwf Hdom Hroom)
    as (kte & tm & Hc & Hfresh & Hlive & Hq).
  rewrite (bind_Done _ _ _ _ _ (on_Done (P := ktimerstate) (S := kstate) _ (set_thr x s) _ _ Hc)).
  eexists _, kte. split; [done|]. done.
Qed.

Lemma sys_ipc_short_sleep_lost_witness :
  let s := set_thr (set_words (<[7000 := 0]> (<[7004 := 0]> {[7008 := 100]})) ex_thr) ex_kernel in
  exists s', sys_ipc ex_symbols 7000 s = Done (tt, s') /\ runnable (tcbs (k_thr s')) 2000 = false.
Proof.
  intros s. destruct (sys_ipc_short_sleep_lost ex_symbols s 7000 100 0 ex_sender) as (s' & kte & Hr & Ht & _).
  - reflexivity.
  - reflexivity.
  - reflexivity.
  - discriminate.
  - reflexivity.
  - reflexivity.
  - discriminate.
  - apply kt_wf_declare; reflexivity || lia.
  - intros p Hp. by apply lookup_zero_heap.
  - exists 4096. split; [vm_compute; left|]. change (4096 ∉ kt_live (DECLARE_KTABLE 4096 CONFIG_MAX_KT_EVENTS 16)).
    rewrite kt_live_declare. apply not_elem_of_empty.
  - exists s'. split; [exact Hr|]. rewrite Ht. reflexivity.
Defined.
