(* ===== verification/KernelProps.v ===== *)
(** * The kernel as a whole: theorems

    The switch of contexts and what the next thread can access, and the system calls
    that block or fail. *)

From S2P Require Import Prelude Ktable Thread ThreadMap ThreadTree Sched Softirq Ktimer Mempool Fpage FpageChain.
From S2P Require Import Memory AddressSpace MemoryProps MpuSetup Kernel Ipc IpcProps.

(** ** Switching contexts *)

(** The stack pointer in use when the exception was taken. *)
Definition active_sp (c : cpu_t) : Z := if Z.land (cpu_lr c) 0xf =? 9 then cpu_msp c else cpu_psp c.

(** The context in which [irq_save] leaves a thread. *)
Definition saved_ctx (c : cpu_t) (t : tcb) : tcb := with_ctx (mk_ctx (active_sp c) (cpu_lr c) (c_ctl (t_ctx t)) (cpu_regs c)) t.

Lemma irq_save_ok p t s :
  tcbs (k_thr s) !! p = Some t ->
  irq_save p s = Done (tt, set_thr (set_tcbs (<[p := saved_ctx (k_cpu s) t]> (tcbs (k_thr s))) (k_thr s)) s).
Proof.
  intros Ht. unfold irq_save. rewrite (bind_Done (gets k_cpu) _ _ _ _ eq_refl).
  exact (thr_Done _ s _ _ (upd_tcb_ok _ _ _ _ Ht)).
Qed.

(** The registers that [irq_restore] loads. *)
Definition restored_cpu (t : tcb) (c : cpu_t) : cpu_t :=
  let main := Z.land (c_ret (t_ctx t)) 0xf =? 9 in
  mk_cpu (c_regs (t_ctx t)) (if main then c_sp (t_ctx t) else cpu_msp c) (if main then cpu_psp c else c_sp (t_ctx t))
    (c_ret (t_ctx t)) (c_ctl (t_ctx t)).

Lemma irq_restore_ok p t s :
  tcbs (k_thr s) !! p = Some t -> irq_restore p s = Done (tt, set_cpu (restored_cpu t (k_cpu s)) s).
Proof. intros Ht. unfold irq_restore. by rewrite (bind_Done _ _ _ _ _ (thr_read _ s _ (get_tcb_ok _ _ _ Ht))). Qed.

Lemma active_sp_restored t c : active_sp (restored_cpu t c) = c_sp (t_ctx t).
Proof. unfold active_sp, restored_cpu. cbn [cpu_lr cpu_msp cpu_psp]. by destruct (Z.land (c_ret (t_ctx t)) 15 =? 9). Qed.

(** What [thread_switch] needs: the thread is runnable and has an address space that can
    be shown, and its stack pointer is valid. *)
Record switchable (s : kstate) (to : Z) (t : tcb) (a : as_t) (l : list Z) : Prop := {
  sw_nonnull : to <> NULL;
  sw_tcb : tcbs (k_thr s) !! to = Some t;
  sw_run : t_state t = T_RUNNABLE;
  sw_as : t_as t <> NULL;
  sw_pc : is_Some (words (k_thr s) !! reg_addr (c_sp (t_ctx t)) REG_PC);
  sw_mpu : mpu_wf (k_mem s);
  sw_space : ases (k_mem s) !! t_as t = Some a;
  sw_list : as_list (fpages (k_mem s)) (as_first a) l;
  sw_nodup : NoDup l;
  sw_show : Forall (showable (k_mem s)) l;
  sw_mpu_list : mpu_list_ok (fpages (k_mem s)) (as_mpu_first a) l;
  sw_stack : (length (stack_of (fpages (k_mem s)) (t_stack_base t) (t_stack_base t +w t_stack_size t) l) < 8)%nat;
}.

Lemma thread_switch_ok s to t a l :
  switchable s to t a l ->
  exists m, thread_switch to s = Done (tt, set_mem m (set_thr (set_current to (t_utcb t) (k_thr s)) s)) /\
    forall addr, exists b m', addr_in_mpu addr m = Done (b, m') /\
      (b = true -> exists p, p ∈ l /\ page_has (fpages (k_mem s)) addr p = true).
Proof.
  intros [Hn Ht Hr Has [pc Hpc] Hmpu Hsp Hl Hnd Hsh Hml Hst].
  destruct (as_setup_mpu_admits (t_as t) a (c_sp (t_ctx t)) pc (t_stack_base t) (t_stack_size t) l (k_mem s)
    Hmpu Hsp Hl Hnd Hsh Hml Hst) as (m & Hm & _ & _ & Haddr).
  exists m. split.
  - unfold thread_switch. rewrite (proj2 (Z.eqb_neq _ _) Hn). rewrite (bind_Done (assert (negb false)) _ _ tt s) by done.
    rewrite (bind_Done _ _ s true s).
    2: { apply thr_read. unfold thread_isrunnable. rewrite (bind_Done _ _ _ _ _ (get_tcb_ok _ _ _ Ht)). unfold isrunnable.
         by rewrite bool_decide_true. }
    rewrite (bind_Done (assert true) _ _ tt s) by done.
    rewrite (bind_Done _ _ _ _ _ (thr_read _ s _ (get_tcb_ok _ _ _ Ht))).
    set (s1 := set_thr (set_current to (t_utcb t) (k_thr s)) s). rewrite (bind_Done _ _ s tt s1) by done.
    rewrite (proj2 (Z.eqb_neq _ _) Has). cbn [negb].
    rewrite (bind_Done _ _ _ _ _ (thr_read _ s1 _ (read_word_ok _ _ (k_thr s1) Hpc))).
    exact (on_Done (P := memstate) (S := kstate) _ s1 tt m Hm).
  - intros addr. destruct (Haddr addr) as (b & m' & Hb & Hin & _). by exists b, m'.
Qed.

(** ** Properties *)

(** C1. [context_switch] on an interrupt: the registers of the interrupted thread are in
    its context, the registers of the processor are those of the context of the next
    thread, which is current, and every address the memory protection unit admits lies
    in a page of the address space of the next thread. *)
Theorem context_switch_isolates (s : kstate) (from to : Z) (f t : tcb) (a : as_t) (l : list Z)
    (Hcur : current (k_thr s) = from) (Hne : from <> to) (Hf : tcbs (k_thr s) !! from = Some f)
    (Hsw : switchable s to t a l) :
  exists s', context_switch to s = Done (tt, s') /\
    current (k_thr s') = to /\ current_utcb (k_thr s') = t_utcb t /\
    tcbs (k_thr s') !! from = Some (saved_ctx (k_cpu s) f) /\
    cpu_regs (k_cpu s') = c_regs (t_ctx t) /\ active_sp (k_cpu s') = c_sp (t_ctx t) /\
    cpu_lr (k_cpu s') = c_ret (t_ctx t) /\ cpu_control (k_cpu s') = c_ctl (t_ctx t) /\
    forall addr, exists b m', addr_in_mpu addr (k_mem s') = Done (b, m') /\
      (b = true -> exists p, p ∈ l /\ page_has (fpages (k_mem s)) addr p = true).
Proof.
  unfold context_switch. rewrite (bind_Done _ _ s from s) by (rewrite <- Hcur; exact (thr_read thread_current s _ eq_refl)).
  rewrite (bind_Done _ _ _ _ _ (irq_save_ok from f s Hf)). set (s1 := set_thr _ s).
  assert (Hsw1 : switchable s1 to t a l).
  { destruct Hsw. constructor; try done. unfold s1. cbn [k_thr set_thr tcbs set_tcbs]. by rewrite lookup_insert_ne by done. }
  destruct (thread_switch_ok s1 to t a l Hsw1) as (m & Hr & Haddr). rewrite (bind_Done _ _ _ _ _ Hr).
  set (s2 := set_mem m _). rewrite (bind_Done _ _ s2 to s2) by exact (thr_read thread_current s2 _ eq_refl).
  rewrite (irq_restore_ok to t s2 (sw_tcb _ _ _ _ _ Hsw1)). eexists. split; [done|]. split; [done|]. split; [done|].
  split; [apply lookup_insert_eq|]. split; [done|]. split; [apply active_sp_restored|]. split; [done|]. split; [done|].
  exact Haddr.
Qed.

(** Thread 257 of the example can run, in the address space 500. *)
Definition ex_switch : kstate :=
  set_mem (as_example 0) (set_thr (set_words (<[8024 := 0x1000]> (words ex_thr))
    (set_tcbs (<[3000 := with_as 500 (with_state T_RUNNABLE ex_receiver)]> (tcbs ex_thr)) ex_thr)) ex_kernel).

Lemma context_switch_isolates_witness :
  exists s', context_switch 3000 ex_switch = Done (tt, s') /\ current (k_thr s') = 3000.
Proof.
  destruct (context_switch_isolates ex_switch 2000 3000 ex_sender (with_as 500 (with_state T_RUNNABLE ex_receiver))
    (mk_as 0 100 0 0 0) [100; 200; 300]) as (s' & Hr & Hc & _).
  - reflexivity.
  - discriminate.
  - reflexivity.
  - constructor.
    + discriminate.
    + reflexivity.
    + reflexivity.
    + discriminate.
    + by eexists.
    + reflexivity.
    + reflexivity.
    + apply as_example_list.
    + apply (bool_decide_unpack _). vm_compute. exact I.
    + repeat constructor; try discriminate; eexists _, _;
        (split; [reflexivity|]; split; [reflexivity|]; split; [reflexivity|]; vm_compute; split; [discriminate|reflexivity]).
    + left. split; [reflexivity|]. repeat constructor; by eexists.
    + vm_compute. lia.
  - exists s'. split; [exact Hr|exact Hc].
Defined.

(** Saving and restoring are inverse: whatever runs in between, as long as the control
    block of the thread is not touched, [irq_restore] brings back the registers r4 to
    r11, the stack pointer that was in use and the return value that [irq_save] stored,
    and leaves the other stack pointer alone. *)
Theorem irq_save_restore (s : kstate) (p : Z) (t : tcb) (Ht : tcbs (k_thr s) !! p = Some t) :
  exists s1, irq_save p s = Done (tt, s1) /\
    forall s2, tcbs (k_thr s2) !! p = tcbs (k_thr s1) !! p ->
      exists s3, irq_restore p s2 = Done (tt, s3) /\
        cpu_regs (k_cpu s3) = cpu_regs (k_cpu s) /\ cpu_lr (k_cpu s3) = cpu_lr (k_cpu s) /\
        active_sp (k_cpu s3) = active_sp (k_cpu s) /\ cpu_control (k_cpu s3) = c_ctl (t_ctx t) /\
        (if Z.land (cpu_lr (k_cpu s)) 0xf =? 9 then cpu_psp (k_cpu s3) = cpu_psp (k_cpu s2)
         else cpu_msp (k_cpu s3) = cpu_msp (k_cpu s2)).
Proof.
  eexists. split; [by apply irq_save_ok|]. intros s2 H2. cbn [k_thr set_thr tcbs set_tcbs] in H2. rewrite lookup_insert_eq in H2.
  eexists. split; [by apply irq_restore_ok|]. split; [done|]. split; [done|]. split; [apply active_sp_restored|].
  split; [done|]. unfold restored_cpu, saved_ctx. cbn [k_cpu set_cpu cpu_psp cpu_msp t_ctx with_ctx c_ret].
  by destruct (Z.land (cpu_lr (k_cpu s)) 15 =? 9).
Qed.

Lemma irq_save_restore_witness :
  exists s1 s3, irq_save 2000 ex_kernel = Done (tt, s1) /\ irq_restore 2000 s1 = Done (tt, s3) /\
    cpu_regs (k_cpu s3) = cpu_regs (k_cpu ex_kernel).
Proof.
  destruct (irq_save_restore ex_kernel 2000 ex_sender) as (s1 & H1 & H).
  - reflexivity.
  - destruct (H s1 eq_refl) as (s3 & H3 & Hr & _). by exists s1, s3.
Defined.

(** ** System calls *)

Lemma thread_create_reserved_ok dest utcb s c uc :
  caller s <> NULL -> tcbs s !! caller s = Some c -> t_utcb c <> NULL -> utcbs s !! t_utcb c = Some uc ->
  GLOBALID_TO_TID dest < THREAD_SYS ->
  thread_create dest utcb s = Done (NULL, set_utcbs (<[t_utcb c := with_u_error UE_TC_NOT_AVAILABLE uc]> (utcbs s)) s).
Proof.
  intros Hc Ht Hn Hu Hid. unfold thread_create. rewrite (bind_Done (gets caller) _ _ _ _ eq_refl).
  rewrite (proj2 (Z.eqb_neq _ _) Hc), (bind_Done (assert (negb false)) _ _ tt s eq_refl).
  rewrite (proj2 (Z.ltb_lt _ _) Hid). cbn [orb]. by rewrite (bind_Done _ _ _ _ _ (set_caller_error_ok _ s c uc Hc Ht Hn Hu)).
Qed.

(** A thread that asks for a thread with a reserved number crashes the kernel:
    [thread_create] refuses and returns [NULL], and [sys_thread_control] passes that to
    [thread_space], which dereferences it. *)
Theorem sys_thread_control_reserved_faults (s : kstate) (param1 r4 dest space pager : Z) (c : tcb) (uc : utcb)
    (k : nat) (pool : mempool_t)
    (Hr0 : words (k_thr s) !! reg_addr param1 REG_R0 = Some dest)
    (Hr1 : words (k_thr s) !! reg_addr param1 REG_R1 = Some space)
    (Hr3 : words (k_thr s) !! reg_addr param1 REG_R3 = Some pager)
    (Hspace : space <> L4_NILTHREAD) (Hres : GLOBALID_TO_TID dest < THREAD_SYS)
    (Hsearch : mempool_search r4 UTCB_SIZE (k_mem s) = Done (Z.of_nat k, k_mem s))
    (Hpool : memmap (k_mem s) !! k = Some pool) (Hflags : Z.land (mp_flags pool) (Z.lor MP_UR MP_UW) <> 0)
    (Hc : caller (k_thr s) <> NULL) (Ht : tcbs (k_thr s) !! caller (k_thr s) = Some c) (Hn : t_utcb c <> NULL)
    (Hu : utcbs (k_thr s) !! t_utcb c = Some uc) (Hnull : tcbs (k_thr s) !! NULL = None) :
  sys_thread_control param1 r4 s = Fault.
Proof.
  unfold sys_thread_control. rewrite (bind_Done _ _ _ _ _ (thr_read _ s _ (read_word_ok _ _ _ Hr0))).
  rewrite (bind_Done _ _ _ _ _ (thr_read _ s _ (read_word_ok _ _ _ Hr1))).
  rewrite (bind_Done _ _ _ _ _ (thr_read _ s _ (read_word_ok _ _ _ Hr3))).
  rewrite (proj2 (Z.eqb_neq _ _) Hspace). cbn [negb]. cbv zeta.
  rewrite (bind_Done _ _ _ _ _ (mem_read _ s _ Hsearch)). rewrite (proj2 (Z.eqb_neq (Z.of_nat k) (-1))) by lia.
  rewrite (bind_Done _ _ s true s).
  2: { rewrite (bind_Done _ _ s pool s); [|apply mem_read; unfold get_pool; by rewrite zlookup_nat, Hpool].
       unfold truth. by rewrite (proj2 (Z.eqb_neq _ _) Hflags). }
  cbn [negb]. rewrite (bind_Done _ _ _ _ _ (thr_Done _ s _ _ (thread_create_reserved_ok dest r4 _ c uc Hc Ht Hn Hu Hres))).
  unfold thread_space, thr, on, zoom, mbind, M_bind, get_tcb. cbn [get_part part_thr k_thr set_thr tcbs set_utcbs]. by rewrite Hnull.
Qed.

Lemma sys_thread_control_reserved_faults_witness :
  sys_thread_control 7000 0x20006100
    (set_thr (set_words (<[7000 := 0x4000]> (<[7004 := 1]> (<[7012 := 0]> ∅))) ex_thr) ex_kernel) = Fault.
Proof.
  apply (sys_thread_control_reserved_faults _ 7000 0x20006100 0x4000 1 0 ex_sender (ex_utcb 4194304 4210688) 7
    (mk_mempool 0x20006000 0x2001c000 304 MPT_AVAILABLE)).
  - reflexivity.
  - reflexivity.
  - reflexivity.
  - discriminate.
  - reflexivity.
  - reflexivity.
  - reflexivity.
  - discriminate.
  - discriminate.
  - reflexivity.
  - discriminate.
  - reflexivity.
  - reflexivity.
Defined.

Lemma set_caller_state_ok st t s :
  tcbs (k_thr s) !! caller (k_thr s) = Some t ->
  set_caller_state st s = Done (tt, set_thr (set_tcbs (<[caller (k_thr s) := with_state st t]> (tcbs (k_thr s))) (k_thr s)) s).
Proof.
  intros Ht. unfold set_caller_state. rewrite (bind_Done _ _ s _ s (thr_read (gets caller) s _ eq_refl)).
  exact (thr_Done _ s _ _ (upd_tcb_ok _ _ _ _ Ht)).
Qed.

(** The send phase when the receiver neither waits nor is to be started. *)
Lemma ipc_send_blocks ents to_tid p t c uc s :
  map_rep (k_thr s) ents -> ordered Z.lt ents.*2 -> (p, GLOBALID_TO_TID to_tid) ∈ ents ->
  tcbs (k_thr s) !! p = Some t -> t_state t <> T_RECV_BLOCKED -> t_state t <> T_INACTIVE -> p <> NULL ->
  to_tid <> TID_TO_GLOBALID THREAD_LOG -> tcbs (k_thr s) !! caller (k_thr s) = Some c -> to_tid <> t_globalid c ->
  utcbs (k_thr s) !! t_utcb c = Some uc ->
  ipc_send to_tid s = Done (tt, set_thr (set_utcbs (<[t_utcb c := with_u_receiver to_tid uc]> (utcbs (k_thr s)))
    (set_tcbs (<[caller (k_thr s) := with_state T_SEND_BLOCKED c]> (tcbs (k_thr s))) (k_thr s))) s).
Proof.
  intros Hm Ho Hin Ht Hs1 Hs2 Hpn Hlog Hc Hself Hu. unfold ipc_send.
  rewrite (bind_Done _ _ s _ s (thr_read (gets caller) s _ eq_refl)).
  rewrite (bind_Done _ _ _ _ _ (thread_by_globalid_thr s ents to_tid p _ Hm Ho Hin eq_refl)).
  rewrite (bind_Done _ _ _ _ _ (thr_read _ s _ (get_tcb_ok _ _ _ Hc))).
  rewrite (proj2 (Z.eqb_neq _ _) Hlog), (proj2 (Z.eqb_neq _ _) Hpn). cbn [negb].
  assert (Hget : thr (get_tcb p) s = Done (t, s)) by exact (thr_read _ s _ (get_tcb_ok _ _ _ Ht)).
  rewrite (bind_Done _ _ s false s) by (rewrite (bind_Done _ _ _ _ _ Hget), bool_decide_false by done; done).
  rewrite (proj2 (Z.eqb_neq _ _) Hself). cbn [orb].
  rewrite (bind_Done _ _ s false s) by (rewrite (bind_Done _ _ _ _ _ Hget), bool_decide_false by done; done).
  rewrite (bind_Done _ _ _ _ _ (thr_Done _ s _ _ (upd_tcb_ok _ _ _ _ Hc))). set (x := set_tcbs _ (k_thr s)).
  assert (Hcx : tcbs x !! caller (k_thr s) = Some (with_state T_SEND_BLOCKED c)) by apply lookup_insert_eq.
  rewrite (bind_Done _ _ _ _ _ (thr_read _ (set_thr x s) _ (get_tcb_ok _ _ x Hcx))).
  exact (thr_Done _ (set_thr x s) _ _ (upd_utcb_ok _ _ uc x Hu)).
Qed.

(** [sys_ipc] blocks the caller when there is no partner yet: a receive without a
    send phase leaves it [T_RECV_BLOCKED] with the partner it waits for; a send to a
    thread that neither waits for a message nor is inactive leaves it
    [T_SEND_BLOCKED] with the receiver in its user control block. Nothing else
    changes. *)
Theorem sys_ipc_blocks (sym : symbols) (s : kstate) (param1 to_tid from_tid timeout : Z) (c : tcb) (uc : utcb)
    (Hr0 : words (k_thr s) !! reg_addr param1 REG_R0 = Some to_tid)
    (Hr1 : words (k_thr s) !! reg_addr param1 REG_R1 = Some from_tid)
    (Hr2 : words (k_thr s) !! reg_addr param1 REG_R2 = Some timeout)
    (Hc : tcbs (k_thr s) !! caller (k_thr s) = Some c) (Hu : utcbs (k_thr s) !! t_utcb c = Some uc) :
  (to_tid = L4_NILTHREAD -> timeout = 0 -> from_tid <> L4_NILTHREAD ->
     sys_ipc sym param1 s = Done (tt, set_thr (set_tcbs
       (<[caller (k_thr s) := with_ipc_from from_tid (with_state T_RECV_BLOCKED c)]> (tcbs (k_thr s))) (k_thr s)) s)) /\
  (forall ents p t, map_rep (k_thr s) ents -> ordered Z.lt ents.*2 -> (p, GLOBALID_TO_TID to_tid) ∈ ents -> p <> NULL ->
     tcbs (k_thr s) !! p = Some t -> t_state t <> T_RECV_BLOCKED -> t_state t <> T_INACTIVE ->
     to_tid <> L4_NILTHREAD -> to_tid <> TID_TO_GLOBALID THREAD_LOG -> to_tid <> t_globalid c ->
     sys_ipc sym param1 s = Done (tt, set_thr (set_utcbs (<[t_utcb c := with_u_receiver to_tid uc]> (utcbs (k_thr s)))
       (set_tcbs (<[caller (k_thr s) := with_state T_SEND_BLOCKED c]> (tcbs (k_thr s))) (k_thr s))) s)).
Proof.
  unfold sys_ipc. rewrite (bind_Done _ _ _ _ _ (thr_read _ s _ (read_word_ok _ _ _ Hr0))).
  rewrite (bind_Done _ _ _ _ _ (thr_read _ s _ (read_word_ok _ _ _ Hr1))).
  rewrite (bind_Done _ _ _ _ _ (thr_read _ s _ (read_word_ok _ _ _ Hr2))). split.
  - intros -> -> Hfrom. cbn [truth Z.eqb negb andb L4_NILTHREAD]. rewrite (proj2 (Z.eqb_neq _ _) Hfrom). cbn [negb].
    rewrite (bind_Done _ _ _ _ _ (set_caller_state_ok T_RECV_BLOCKED c s Hc)). set (x := set_tcbs _ (k_thr s)).
    rewrite (bind_Done _ _ (set_thr x s) _ _ (thr_read (gets caller) (set_thr x s) _ eq_refl)).
    assert (Hcx : tcbs x !! caller (k_thr s) = Some (with_state T_RECV_BLOCKED c)) by apply lookup_insert_eq.
    change (caller (k_thr (set_thr x s))) with (caller (k_thr s)).
    rewrite (thr_Done _ (set_thr x s) _ _ (upd_tcb_ok _ (with_ipc_from from_tid) x _ Hcx)).
    unfold x. cbn [tcbs set_tcbs]. by rewrite insert_insert_eq.
  - intros ents p t Hm Ho Hin Hpn Ht Hs1 Hs2 Hto Hlog Hself. rewrite (proj2 (Z.eqb_neq _ _) Hto). cbn [andb negb].
    by eapply ipc_send_blocks.
Qed.

Lemma sys_ipc_blocks_witness :
  exists s', sys_ipc ex_symbols 7000 (set_thr (set_words (<[7000 := 0]> (<[7004 := 5]> {[7008 := 0]})) ex_thr) ex_kernel) = Done (tt, s') /\
    runnable (tcbs (k_thr s')) 2000 = false.
Proof.
  destruct (sys_ipc_blocks ex_symbols (set_thr (set_words (<[7000 := 0]> (<[7004 := 5]> {[7008 := 0]})) ex_thr) ex_kernel)
    7000 0 5 0 ex_sender (ex_utcb 4194304 4210688)) as [H _].
  - reflexivity.
  - reflexivity.
  - reflexivity.
  - reflexivity.
  - reflexivity.
  - eexists. split; [apply H; [reflexivity|reflexivity|discriminate]|reflexivity].
Defined.
