(* ===== verification/DebugUart.v ===== *)
(** * The debug port on the serial line

    Models the transfer and interrupt functions of [platform/stm32f4/usart.c] and the
    driver [platform/debug_uart.c].  The registers of the USART are a record; each byte
    that is stored in the data register is logged in the order of the stores.  The
    set-up of the line is [usart_init] of [Gpio.v]; [dbg_uart_init] is in [Console.v]: the
    theorems start in the state it leaves. *)

From S2P Require Import Prelude Ktable Thread ThreadMap Softirq Queue.

(** ** The USART *)

Definition USART_TC : Z := 64.
Definition USART_IT_TXE : Z := 3079.
Definition USART_IT_RXNE : Z := 3077.
Definition USART_IT_CTS : Z := 5130.

Definition USART_IT_ENB_REG_OFFSET (it : Z) : Z := Z.land (Z.shiftr it 8) 255.
Definition USART_IT_POSITION (it : Z) : Z := Z.land it 255.

(** The registers the driver uses, and the log of the bytes stored in [DR]. *)
Record usart_regs := mk_regs {
  SR : Z;
  DR : Z;
  CR1 : Z;
  CR2 : Z;
  CR3 : Z;
  written : list Z;
}.

(** The word at an offset of the register block, and its replacement. *)
Definition enable_reg (off : Z) (r : usart_regs) : option Z :=
  if off =? 12 then Some (CR1 r) else if off =? 16 then Some (CR2 r) else if off =? 20 then Some (CR3 r) else None.
Definition read_enable_reg (off : Z) : M usart_regs Z := fun r =>
  match enable_reg off r with Some v => Done (v, r) | None => Fault end.
Definition set_enable_reg (off v : Z) (r : usart_regs) : usart_regs :=
  if off =? 12 then mk_regs (SR r) (DR r) v (CR2 r) (CR3 r) (written r)
  else if off =? 16 then mk_regs (SR r) (DR r) (CR1 r) v (CR3 r) (written r)
  else mk_regs (SR r) (DR r) (CR1 r) (CR2 r) v (written r).

Section usart.
(** [usart->u_num] *)
Variable u_num : Z.

Definition usart_config_interrupt (it state : Z) : M usart_regs unit :=
  if (it =? USART_IT_CTS) && ((u_num =? 4) || (u_num =? 5)) then mret tt
  else
    let it_reg := USART_IT_ENB_REG_OFFSET it in
    let it_bit := shl32 1 (USART_IT_POSITION it) in
    v ← read_enable_reg it_reg;
    modify (set_enable_reg it_reg (if truth state then Z.lor v it_bit else Z.land v (not32 it_bit))).

Definition usart_interrupt_status (it : Z) : M usart_regs Z :=
  if (it =? USART_IT_CTS) && ((u_num =? 4) || (u_num =? 5)) then mret 0
  else
    let it_reg := USART_IT_ENB_REG_OFFSET it in
    let it_bit := shl32 1 (USART_IT_POSITION it) in
    v ← read_enable_reg it_reg;
    mret (Z.land v it_bit).
End usart.

Definition usart_status (st : Z) : M usart_regs Z := gets (fun r => Z.land (SR r) st).
Definition usart_getc : M usart_regs Z := gets (fun r => Z.land (DR r) 255).
Definition usart_putc (c : Z) : M usart_regs unit :=
  modify (fun r => mk_regs (SR r) (DR r) (CR1 r) (CR2 r) (CR3 r) (written r ++ [c])).

(** ** The driver *)

Inductive dbg_state_t := DBG_ASYNC | DBG_PANIC.

(** [dbg_uart], [dbg_state] and the registers of [console_uart]. *)
Record uart_t := mk_uart {
  ready : Z;
  tx : queue_t;
  rx : queue_t;
  dbg_state : dbg_state_t;
  regs : usart_regs;
}.

Definition on_tx {A} : M queue_t A -> M uart_t A := zoom tx (fun q u => mk_uart (ready u) q (rx u) (dbg_state u) (regs u)).
Definition on_rx {A} : M queue_t A -> M uart_t A := zoom rx (fun q u => mk_uart (ready u) (tx u) q (dbg_state u) (regs u)).
Definition on_regs {A} : M usart_regs A -> M uart_t A := zoom regs (fun r u => mk_uart (ready u) (tx u) (rx u) (dbg_state u) r).
Definition set_ready (v : Z) : M uart_t unit := modify (fun u => mk_uart v (tx u) (rx u) (dbg_state u) (regs u)).
Definition set_dbg_state (d : dbg_state_t) : M uart_t unit := modify (fun u => mk_uart (ready u) (tx u) (rx u) d (regs u)).

Section driver.
Variable u_num : Z.
(** What the hardware does to the status register between two reads of it. *)
Variable hw : Z -> Z.

Definition dbg_uart_send (avail : Z) : M uart_t unit :=
  if truth avail then
    empty ← on_tx queue_is_empty;
    if negb empty then
      r ← on_tx queue_pop;
      chr ← lift_opt r.2;
      on_regs (usart_putc chr);;
      set_ready 0;;
      on_regs (usart_config_interrupt u_num USART_IT_TXE 1)
    else
      set_ready 1;;
      on_regs (usart_config_interrupt u_num USART_IT_TXE 0)
  else mret tt.

(** [while (queue_push(&(dbg_uart.tx), chr) != QUEUE_OK);] *)
Fixpoint push_wait (fuel : nat) (chr : Z) : M uart_t unit :=
  match fuel with
  | O => fuel_out
  | S fuel' => r ← on_tx (queue_push chr); if negb (r =? QUEUE_OK) then push_wait fuel' chr else mret tt
  end.

(** The rest of [dbg_async_putchar] after [dbg_uart.ready] is read.  [queue_push] returns
    [QUEUE_OK] at once. *)
Definition async_putchar_rest (rdy chr : Z) : M uart_t unit :=
  if negb (truth rdy) then push_wait 1 chr
  else
    on_regs (usart_putc chr);;
    set_ready 0;;
    on_regs (usart_config_interrupt u_num USART_IT_TXE 1).

Definition dbg_async_putchar (chr : Z) : M uart_t unit := r ← gets ready; async_putchar_rest r chr.

(** [while (!usart_status(&console_uart, USART_TC));] *)
Fixpoint wait_complete (fuel : nat) : M uart_t unit :=
  match fuel with
  | O => fuel_out
  | S fuel' =>
      on_regs (modify (fun r => mk_regs (hw (SR r)) (DR r) (CR1 r) (CR2 r) (CR3 r) (written r)));;
      st ← on_regs (usart_status USART_TC);
      if negb (truth st) then wait_complete fuel' else mret tt
  end.

Definition sync_put (fuel : nat) (chr : Z) : M uart_t unit := on_regs (usart_putc chr);; wait_complete fuel.

(** The call for a new line calls itself once, for the carriage return. *)
Definition dbg_sync_putchar (fuel : nat) (chr : Z) : M uart_t unit :=
  when (chr =? 10) (sync_put fuel 13);;
  sync_put fuel chr.

Definition dbg_uart_getchar : M uart_t Z :=
  r ← on_rx queue_pop;
  if r.1 =? QUEUE_EMPTY then mret 0 else mret (default 0 r.2).

Definition dbg_uart_putchar (fuel : nat) (chr : Z) : M uart_t unit :=
  d ← gets dbg_state;
  match d with DBG_PANIC => dbg_sync_putchar fuel chr | DBG_ASYNC => dbg_async_putchar chr end.

(** [while (queue_pop(&(dbg_uart.tx), &chr) != QUEUE_EMPTY) dbg_sync_putchar(chr);] *)
Fixpoint flush (turns fuel : nat) : M uart_t unit :=
  match turns with
  | O => fuel_out
  | S turns' =>
      r ← on_tx queue_pop;
      if negb (r.1 =? QUEUE_EMPTY) then
        chr ← lift_opt r.2;
        dbg_sync_putchar fuel chr;;
        flush turns' fuel
      else mret tt
  end.

(** The queue has fewer bytes than its size. *)
Definition dbg_uart_start_panic (fuel : nat) : M uart_t unit :=
  n ← gets (fun u => Z.to_nat (size (tx u)));
  flush n fuel;;
  set_dbg_state DBG_PANIC.

Section irq.
Context {S : Type} `{!Part uart_t S} `{!Part softirqs S} `{!Part thrstate S}.

Definition dbg_uart_recv : M S unit :=
  chr ← on (on_regs usart_getc);
  on (on_rx (queue_push chr));;
  softirq_schedule KDB_SOFTIRQ.

Definition __uart_irq_handler : M S unit :=
  t ← on (on_regs (usart_interrupt_status u_num USART_IT_TXE));
  if truth t then on (dbg_uart_send 1)
  else
    r ← on (on_regs (usart_interrupt_status u_num USART_IT_RXNE));
    if truth r then dbg_uart_recv else mret tt.
End irq.
End driver.

(** ** Lemmas *)

(** The TXE interrupt is enabled. *)
Definition txe_on (r : usart_regs) : bool := Z.testbit (CR1 r) 7.

Lemma config_txe u_num st r :
  exists r', usart_config_interrupt u_num USART_IT_TXE st r = Done (tt, r') /\ written r' = written r /\ txe_on r' = truth st.
Proof.
  exists (mk_regs (SR r) (DR r) (if truth st then Z.lor (CR1 r) 128 else Z.land (CR1 r) (not32 128)) (CR2 r) (CR3 r) (written r)).
  split; [reflexivity|]. split; [done|]. unfold txe_on. cbn [CR1]. destruct (truth st); [by rewrite Z.lor_spec, orb_true_r|by rewrite Z.land_spec, andb_false_r].
Qed.

Lemma interrupt_status_txe u_num r :
  exists v, usart_interrupt_status u_num USART_IT_TXE r = Done (v, r) /\ truth v = txe_on r.
Proof.
  exists (Z.land (CR1 r) (Z.shiftl 1 7)). split; [reflexivity|]. unfold truth, txe_on.
  rewrite land_pow2_mask by lia. apply negb_involutive.
Qed.

Lemma zoom_Done {S T A} (get : T -> S) (put : S -> T -> T) (m : M S A) t a s' :
  m (get t) = Done (a, s') -> zoom get put m t = Done (a, put s' t).
Proof. intros E. unfold zoom. by rewrite E. Qed.

Lemma on_tx_Done {A} (m : M queue_t A) u a q :
  m (tx u) = Done (a, q) -> on_tx m u = Done (a, mk_uart (ready u) q (rx u) (dbg_state u) (regs u)).
Proof. intros E. exact (zoom_Done _ _ m u a q E). Qed.

Lemma on_regs_bind {A B} (m : M usart_regs A) (k : A -> M uart_t B) u a r :
  m (regs u) = Done (a, r) -> (on_regs m ≫= k) u = k a (mk_uart (ready u) (tx u) (rx u) (dbg_state u) r).
Proof. intros E. apply bind_Done. exact (zoom_Done _ _ m u a r E). Qed.

(** The state of the transmitter: the bytes stored in the data register, the bytes that
    wait in the queue, and whether a byte is on its way. *)
Record transmits (u : uart_t) (sent pending : list Z) (busy : bool) : Prop := {
  tr_written : written (regs u) = sent;
  tr_pending : holds (tx u) pending;
  tr_ready : ready u = b2z (negb busy);
  tr_txe : txe_on (regs u) = busy;
  tr_state : dbg_state u = DBG_ASYNC;
}.

(** The two ends of [dbg_uart_send] and [dbg_async_putchar]: store a byte and enable the
    interrupt. *)
Lemma store_byte u_num chr u pending busy : transmits u (written (regs u)) pending busy ->
  exists u', (on_regs (usart_putc chr);; set_ready 0;; on_regs (usart_config_interrupt u_num USART_IT_TXE 1)) u = Done (tt, u') /\
             transmits u' (written (regs u) ++ [chr]) pending true /\ size (tx u') = size (tx u).
Proof.
  intros [Hw Hp Hr Ht Hs]. rewrite (bind_Done (on_regs (usart_putc chr)) _ u tt _ eq_refl).
  rewrite (bind_Done (set_ready 0) _ _ tt _ eq_refl).
  edestruct (config_txe u_num 1) as (r' & E & Hw' & Ht').
  eexists. split; [eapply zoom_Done; exact E|]. split; [|done]. split; simpl; [by rewrite Hw'|done|done|done|done].
Qed.

Lemma async_putchar_ok u_num chr u sent pending busy : transmits u sent pending busy ->
  (busy = true -> Z.of_nat (length pending) < size (tx u) - 2) -> (busy = false -> pending = []) ->
  exists u', dbg_async_putchar u_num chr u = Done (tt, u') /\ size (tx u') = size (tx u) /\
             transmits u' (if busy then sent else sent ++ [chr]) (if busy then pending ++ [chr] else pending) true.
Proof.
  intros HT Hroom Hidle. pose proof HT as [Hw Hp Hr Ht Hs]. unfold dbg_async_putchar.
  rewrite (bind_Done (gets ready) _ u _ u eq_refl), Hr. destruct busy.
  - destruct (queue_push_holds (tx u) pending chr Hp (Hroom eq_refl)) as (q' & E & Hq & Hz).
    exists (mk_uart (ready u) q' (rx u) (dbg_state u) (regs u)).
    split; [|split; [|split; simpl]]; [|exact Hz|exact Hw|exact Hq|exact Hr|exact Ht|exact Hs].
    unfold async_putchar_rest. cbn [negb b2z truth Z.eqb push_wait]. 
    by rewrite (bind_Done (on_tx (queue_push chr)) _ u _ _ (on_tx_Done _ u _ _ E)).
  - subst sent. destruct (store_byte u_num chr u pending false HT) as (u' & E & HT' & Hz). by exists u'.
Qed.

Lemma uart_send_ok u_num u sent pending : transmits u sent pending true ->
  exists u', dbg_uart_send u_num 1 u = Done (tt, u') /\ size (tx u') = size (tx u) /\
             match pending with
             | [] => transmits u' sent [] false
             | c :: pending' => transmits u' (sent ++ [c]) pending' true
             end.
Proof.
  intros [Hw Hp Hr Ht Hs]. unfold dbg_uart_send. cbn [truth Z.eqb negb].
  rewrite (bind_Done (on_tx queue_is_empty) _ u (queue_length (tx u) =? 0) u) by (by destruct u).
  rewrite (queue_length_empty _ _ Hp).
  destruct pending as [|c pending].
  - rewrite bool_decide_eq_true_2 by done. cbn [negb]. rewrite (bind_Done (set_ready 1) _ _ tt _ eq_refl).
    edestruct (config_txe u_num 0) as (r' & E & Hw' & Ht').
    eexists. split; [eapply zoom_Done; exact E|]. split; [done|]. split; simpl; [by rewrite Hw'|done|done|done|done].
  - rewrite bool_decide_eq_false_2 by done. cbn [negb]. destruct (queue_pop_holds _ _ _ Hp) as (q' & E & Hq & Hz).
    rewrite (bind_Done _ _ _ _ _ (on_tx_Done queue_pop u _ _ E)). cbn [snd].
    rewrite (bind_Done (lift_opt (Some c)) _ _ c _ eq_refl).
    edestruct (store_byte u_num c) as (u' & E' & HT' & Hz'); [|exists u'; split; [exact E'|split; [rewrite Hz'; exact Hz|rewrite <- Hw; exact HT']]].
    split; simpl; [done|exact Hq|exact Hr|exact Ht|exact Hs].
Qed.

(** ** Runs of the driver *)

(** A call of [dbg_uart_putchar] that is not interrupted, and an interrupt of the serial line
    between two calls. *)
Inductive event := Put (c : Z) | Irq.

Section runs.
Context {S : Type} `{!Part uart_t S} `{!Part softirqs S} `{!Part thrstate S} `{!PartLaws uart_t S}.
Variable u_num : Z.
Variable hw : Z -> Z.

Definition event_step (e : event) : M S unit :=
  match e with
  | Put c => on (dbg_uart_putchar u_num hw 1 c)
  | Irq => __uart_irq_handler u_num
  end.

Fixpoint run (es : list event) : M S unit :=
  match es with [] => mret tt | e :: es => event_step e;; run es end.

(** The transmitter: what is sent, what waits, and whether a byte is on its way. *)
Definition port : Type := list Z * list Z * bool.

(** [None]: the queue of [cap] bytes is full, or an interrupt that is not enabled. *)
Definition port_step (cap : Z) (e : event) (p : port) : option port :=
  let '(sent, pending, busy) := p in
  match e with
  | Put c =>
      if busy then if Z.of_nat (length pending) <? cap then Some (sent, pending ++ [c], true) else None
      else Some (sent ++ [c], pending, true)
  | Irq =>
      if busy then
        match pending with
        | [] => Some (sent, [], false)
        | c :: pending => Some (sent ++ [c], pending, true)
        end
      else None
  end.

Fixpoint port_run (cap : Z) (es : list event) (p : port) : option port :=
  match es with
  | [] => Some p
  | e :: es => match port_step cap e p with Some p => port_run cap es p | None => None end
  end.

Fixpoint puts (es : list event) : list Z :=
  match es with [] => [] | Put c :: es => c :: puts es | Irq :: es => puts es end.

(** The port is in state [p]. *)
Definition in_port (s : S) (cap : Z) (p : port) : Prop :=
  let '(sent, pending, busy) := p in
  transmits (get_part s) sent pending busy /\ (busy = false -> pending = []) /\ size (tx (get_part s)) = cap + 2.

Lemma event_step_ok e s cap p p' : in_port s cap p -> port_step cap e p = Some p' ->
  exists s', event_step e s = Done (tt, s') /\ in_port s' cap p'.
Proof.
  destruct p as [[sent pending] busy]. intros (HT & Hidle & Hcap) Hp. destruct e as [c|]; simpl in Hp.
  - destruct (async_putchar_ok u_num c (get_part s) sent pending busy HT) as (u' & E & Hz & HT'); [|done|].
    { intros ->. destruct (Z.ltb_spec (Z.of_nat (length pending)) cap); [lia|done]. }
    exists (put_part u' s). split.
    + apply on_Done. unfold dbg_uart_putchar. rewrite (bind_Done (gets dbg_state) _ (get_part s) _ _ eq_refl). by rewrite (tr_state _ _ _ _ HT).
    + destruct busy; [destruct (Z.ltb_spec (Z.of_nat (length pending)) cap); [|done]|]; simplify_eq; split_and!;
        rewrite ?get_put; try done; lia.
  - destruct busy; [|done]. destruct (uart_send_ok u_num (get_part s) sent pending HT) as (u' & E & Hz & HT').
    exists (put_part u' s). split.
    + unfold event_step, __uart_irq_handler. destruct (interrupt_status_txe u_num (regs (get_part s))) as (v & Ev & Hv).
      rewrite (bind_Done _ _ s v s); [rewrite Hv, (tr_txe _ _ _ _ HT); by apply on_Done|].
      rewrite <- (put_get s) at 2. apply on_Done. unfold on_regs, zoom. rewrite Ev. by destruct (get_part s).
    + destruct pending as [|c pending]; simplify_eq; split_and!; rewrite ?get_put; try done; lia.
Qed.

Lemma run_ok es : forall s cap p p', in_port s cap p -> port_run cap es p = Some p' ->
  exists s', run es s = Done (tt, s') /\ in_port s' cap p'.
Proof.
  induction es as [|e es IH]; intros s cap p p' HP Hr; cbn [port_run] in Hr; [simplify_eq; by exists s|].
  destruct (port_step cap e p) as [p1|] eqn:E; [|done].
  destruct (event_step_ok e s cap p p1 HP E) as (s1 & E1 & HP1).
  destruct (IH s1 cap p1 p' HP1 Hr) as (s2 & E2 & HP2). exists s2. split; [|done].
  cbn [run]. by rewrite (bind_Done _ _ _ _ _ E1).
Qed.

(** The bytes sent and waiting are the bytes put, in order. *)
Lemma port_run_in_order cap es : forall sent pending busy p', (busy = false -> pending = []) ->
  port_run cap es (sent, pending, busy) = Some p' -> p'.1.1 ++ p'.1.2 = sent ++ pending ++ puts es.
Proof.
  induction es as [|e es IH]; intros sent pending busy p' Hi Hr; cbn [port_run] in Hr.
  - simplify_eq. simpl. by rewrite app_nil_r.
  - destruct (port_step cap e (sent, pending, busy)) as [[[s1 p1] b1]|] eqn:E; [|done].
    assert ((b1 = false -> p1 = []) /\ s1 ++ p1 ++ puts es = sent ++ pending ++ puts (e :: es)) as [Hi1 <-]; [|by apply IH in Hr].
    destruct e as [c|]; simpl in E |- *; destruct busy; [destruct (Z.of_nat (length pending) <? cap)| |destruct pending|];
      simplify_eq; (split; [done|]); [|rewrite Hi by done|..]; by rewrite <- ?app_assoc.
Qed.

Lemma port_drains cap : forall pending sent,
  port_run cap (replicate (Datatypes.S (length pending)) Irq) (sent, pending, true) = Some (sent ++ pending, [], false).
Proof.
  induction pending as [|c pending IH]; intros sent; [cbn; by rewrite app_nil_r|].
  change (port_run cap (replicate (Datatypes.S (length pending)) Irq) (sent ++ [c], pending, true) = Some (sent ++ c :: pending, [], false)).
  rewrite IH. by rewrite <- app_assoc.
Qed.

Lemma port_run_app cap es fs p p' : port_run cap es p = Some p' -> port_run cap (es ++ fs) p = port_run cap fs p'.
Proof.
  revert p. induction es as [|e es IH]; intros p H; cbn [port_run app] in *; [by simplify_eq|].
  destruct (port_step cap e p); [by apply IH|done].
Qed.
End runs.

(** ** Panic *)

Section panic.
Variable hw : Z -> Z.
Variable fuel : nat.

(** The hardware completes a transmission: the status has TC within [fuel] reads. *)
Hypothesis completes : forall sr, exists k, (k < fuel)%nat /\ truth (Z.land (Nat.iter (S k) hw sr) USART_TC) = true.

(** What the line shows of a byte in synchronous mode. *)
Definition crlf (c : Z) : list Z := if c =? 10 then [13; 10] else [c].

(** The state, except for the status register and the bytes sent. *)
Definition sends (u u' : uart_t) (l : list Z) : Prop :=
  written (regs u') = written (regs u) ++ l /\ ready u' = ready u /\ tx u' = tx u /\ rx u' = rx u /\ dbg_state u' = dbg_state u.

Lemma wait_complete_ok n : forall u k, (k < n)%nat -> truth (Z.land (Nat.iter (S k) hw (SR (regs u))) USART_TC) = true ->
  exists u', wait_complete hw n u = Done (tt, u') /\ sends u u' [].
Proof.
  induction n as [|n IH]; intros u k Hk Ht; [lia|]. cbn [wait_complete].
  erewrite on_regs_bind by reflexivity. erewrite on_regs_bind by reflexivity. cbn [regs SR]. destruct (truth (Z.land (hw (SR (regs u))) USART_TC)) eqn:E; cbn [negb].
  - eexists. split; [reflexivity|]. unfold sends. simpl. by rewrite app_nil_r.
  - destruct k as [|k]; [simpl in Ht; congruence|]. rewrite Nat.iter_succ_r in Ht.
    edestruct (IH (mk_uart (ready u) (tx u) (rx u) (dbg_state u)
                     (mk_regs (hw (SR (regs u))) (DR (regs u)) (CR1 (regs u)) (CR2 (regs u)) (CR3 (regs u)) (written (regs u)))) k)
      as (u' & E' & Hu'); [lia|exact Ht|]. exists u'. split; [exact E'|exact Hu'].
Qed.

Lemma sync_put_ok c u : exists u', sync_put hw fuel c u = Done (tt, u') /\ sends u u' [c].
Proof.
  unfold sync_put. erewrite on_regs_bind by reflexivity.
  match goal with |- exists _, wait_complete _ _ ?v = _ /\ _ => set (u1 := v) end.
  destruct (completes (SR (regs u1))) as (k & Hk & Ht).
  destruct (wait_complete_ok fuel u1 k Hk Ht) as (u' & E & Hu). exists u'. split; [exact E|].
  destruct Hu as (H1 & H2 & H3 & H4 & H5). unfold sends. simpl in *. rewrite app_nil_r in H1. done.
Qed.

Lemma sync_putchar_ok c u : exists u', dbg_sync_putchar hw fuel c u = Done (tt, u') /\ sends u u' (crlf c).
Proof.
  unfold dbg_sync_putchar, crlf. destruct (Z.eqb_spec c 10) as [->|]; cbn [when].
  - destruct (sync_put_ok 13 u) as (u1 & E1 & H1). rewrite (bind_Done _ _ _ _ _ E1).
    destruct (sync_put_ok 10 u1) as (u2 & E2 & H2). exists u2. split; [exact E2|].
    destruct H1 as (A1 & A2 & A3 & A4 & A5), H2 as (B1 & B2 & B3 & B4 & B5). rewrite A1, <- app_assoc in B1.
    unfold sends. split_and!; [exact B1|congruence..].
  - rewrite (bind_Done (mret tt) _ u tt u eq_refl). apply sync_put_ok.
Qed.

Lemma flush_ok n : forall l u, holds (tx u) l -> (length l < n)%nat ->
  exists u', flush hw n fuel u = Done (tt, u') /\ written (regs u') = written (regs u) ++ (l ≫= crlf) /\ holds (tx u') [] /\
             ready u' = ready u /\ rx u' = rx u.
Proof.
  induction n as [|n IH]; intros l u Hl Hn; [lia|]. cbn [flush]. destruct l as [|c l].
  - rewrite (bind_Done _ _ _ _ _ (on_tx_Done queue_pop u _ _ (queue_pop_empty _ Hl))). eexists. split; [reflexivity|].
    simpl. by rewrite app_nil_r.
  - destruct (queue_pop_holds _ _ _ Hl) as (q' & E & Hq & _). rewrite (bind_Done _ _ _ _ _ (on_tx_Done queue_pop u _ _ E)).
    cbn [fst snd]. change (QUEUE_OK =? QUEUE_EMPTY) with false. cbn [negb]. rewrite (bind_Done (lift_opt (Some c)) _ _ c _ eq_refl).
    edestruct (sync_putchar_ok c) as (u1 & E1 & A1 & A2 & A3 & A4 & A5). rewrite (bind_Done _ _ _ _ _ E1). simpl in A1, A2, A3, A4.
    destruct (IH l u1) as (u2 & E2 & B1 & B2 & B3 & B4); [by rewrite A3|simpl in Hn; lia|].
    exists u2. split; [exact E2|]. rewrite B1, A1. cbn [mbind list_bind]. rewrite <- app_assoc. split_and!; [done|done|congruence..].
Qed.
End panic.

(** ** Properties *)

Section properties.
Context {S : Type} `{!Part uart_t S} `{!Part softirqs S} `{!Part thrstate S} `{!PartLaws uart_t S}.

(** The handler asks which interrupts are enabled, not which one is pending: while bytes are
    transmitted, the interrupt of a received byte is served as one of the transmitter and
    the received byte is not read. *)
Lemma uart_irq_ignores_receive u_num (s : S) : txe_on (regs (get_part s)) = true ->
  __uart_irq_handler u_num s = on (dbg_uart_send u_num 1) s.
Proof.
  intros Ht. unfold __uart_irq_handler. destruct (interrupt_status_txe u_num (regs (get_part s))) as (v & Ev & Hv).
  rewrite (bind_Done _ _ s v s); [by rewrite Hv, Ht|].
  rewrite <- (put_get s) at 2. apply on_Done. unfold on_regs, zoom. rewrite Ev. by destruct (get_part s).
Qed.

(** The bytes given to [dbg_uart_putchar] reach the data register once each and in the
    order of the calls, for each sequence of calls and interrupts of the transmitter in which no
    interrupt comes within a call and the queue does not fill up (with an interrupt within a call
    this fails: [uart_putchar_race]); and once the calls stop, as many
    interrupts as bytes wait, and one more, send them all and leave the port idle. *)
Theorem uart_output_in_order u_num hw cap (s : S) sent es p :
  in_port s cap (sent, [], false) -> port_run cap es (sent, [], false) = Some p -> p.2 = true ->
  exists s1 s2, run u_num hw es s = Done (tt, s1) /\ in_port s1 cap p /\ p.1.1 ++ p.1.2 = sent ++ puts es /\
                run u_num hw (replicate (Datatypes.S (length p.1.2)) Irq) s1 = Done (tt, s2) /\
                in_port s2 cap (sent ++ puts es, [], false).
Proof.
  intros HP Hr Hb. pose proof (port_run_in_order cap es sent [] false p ltac:(done) Hr) as Ho. simpl in Ho.
  destruct (run_ok u_num hw es s cap _ p HP Hr) as (s1 & E1 & HP1). destruct p as [[sent' pending] busy]. simpl in Hb, Ho |- *. subst busy.
  pose proof (port_drains cap pending sent') as Hd. rewrite Ho in Hd.
  destruct (run_ok u_num hw _ s1 cap _ _ HP1 Hd) as (s2 & E2 & HP2). by exists s1, s2.
Qed.
End properties.

(** C40. On a panic the bytes that wait in the queue are sent before the panic's own output,
    in order, each new line as carriage return and new line; the queue is empty and from
    then on [dbg_uart_putchar] sends each byte itself. *)
Theorem uart_panic_flushes u_num hw fuel u l c :
  (forall sr, exists k, (k < fuel)%nat /\ truth (Z.land (Nat.iter (S k) hw sr) USART_TC) = true) ->
  holds (tx u) l ->
  exists u1 u2, dbg_uart_start_panic hw fuel u = Done (tt, u1) /\ holds (tx u1) [] /\ dbg_state u1 = DBG_PANIC /\
                written (regs u1) = written (regs u) ++ (l ≫= crlf) /\
                dbg_uart_putchar u_num hw fuel c u1 = Done (tt, u2) /\
                written (regs u2) = written (regs u) ++ (l ≫= crlf) ++ crlf c.
Proof.
  intros Hc Hl. unfold dbg_uart_start_panic. rewrite (bind_Done (gets _) _ u _ u eq_refl).
  destruct (flush_ok hw fuel Hc (Z.to_nat (size (tx u))) l u Hl) as (u' & E & Hw & Hq & _ & _).
  { pose proof (h_room _ _ Hl). lia. }
  rewrite (bind_Done _ _ _ _ _ E).
  destruct (sync_putchar_ok hw fuel Hc c (mk_uart (ready u') (tx u') (rx u') DBG_PANIC (regs u'))) as (u2 & E2 & Hw2 & _).
  eexists _, u2. split; [reflexivity|]. split; [exact Hq|]. split; [done|]. split; [exact Hw|]. split; [exact E2|].
  rewrite Hw2. simpl. by rewrite Hw, <- app_assoc.
Qed.

(** [dbg_async_putchar] is not safe against the interrupt that it races with.  When the
    last byte is on its way and the interrupt of its completion comes after
    [dbg_uart.ready] is read and before the byte is queued, the byte [c] waits while the
    interrupt is off, and the next byte [d] overtakes it. *)
Theorem uart_putchar_race u_num hw u sent c d :
  transmits u sent [] true -> 3 <= size (tx u) ->
  exists u', (r ← gets ready;
              dbg_uart_send u_num 1;;
              async_putchar_rest u_num r c;;
              dbg_uart_putchar u_num hw 1 d) u = Done (tt, u') /\
             transmits u' (sent ++ [d]) [c] true.
Proof.
  intros HT Hsz. rewrite (bind_Done (gets ready) _ u _ u eq_refl), (tr_ready _ _ _ _ HT).
  destruct (uart_send_ok u_num u sent [] HT) as (u1 & E1 & Hz1 & HT1). rewrite (bind_Done _ _ _ _ _ E1).
  destruct (queue_push_holds (tx u1) [] c (tr_pending _ _ _ _ HT1)) as (q & Eq & Hq & _); [simpl; lia|].
  set (u2 := mk_uart (ready u1) q (rx u1) (dbg_state u1) (regs u1)).
  rewrite (bind_Done (async_putchar_rest u_num (b2z (negb true)) c) _ u1 tt u2).
  2: { unfold async_putchar_rest. cbn [negb b2z truth Z.eqb push_wait].
       by rewrite (bind_Done (on_tx (queue_push c)) _ u1 _ _ (on_tx_Done _ u1 _ _ Eq)). }
  destruct HT1 as [Hw Hp Hr Ht Hs]. assert (HT2 : transmits u2 (written (regs u2)) [c] false) by (by split).
  destruct (store_byte u_num d u2 [c] false HT2) as (u3 & E3 & HT3 & _). exists u3. subst sent. split; [|exact HT3].
  unfold dbg_uart_putchar. rewrite (bind_Done (gets dbg_state) _ u2 _ u2 eq_refl). change (dbg_state u2) with (dbg_state u1). rewrite Hs.
  unfold dbg_async_putchar. rewrite (bind_Done (gets ready) _ u2 _ u2 eq_refl). change (ready u2) with (ready u1). rewrite Hr. exact E3.
Qed.

(** *** Witnesses *)

(** A state with the port alone as its part of the driver. *)
Definition witness_port : Type := uart_t * softirqs * thrstate.
#[global] Instance witness_port_uart : Part uart_t witness_port := {| get_part s := s.1.1; put_part u s := (u, s.1.2, s.2) |}.
#[global] Instance witness_port_softirqs : Part softirqs witness_port := {| get_part s := s.1.2; put_part q s := (s.1.1, q, s.2) |}.
#[global] Instance witness_port_thr : Part thrstate witness_port := {| get_part s := s.2; put_part t s := (s.1.1, s.1.2, t) |}.
#[global] Instance witness_port_laws : PartLaws uart_t witness_port.
Proof. split; [done|by intros [[??]?]|done]. Qed.

Definition witness_uart (t e rdy cr1 : Z) (d : list Z) : uart_t :=
  mk_uart rdy (Queue d t e 5) (Queue [] 0 0 32) DBG_ASYNC (mk_regs 0 0 cr1 0 0 []).

Lemma uart_output_in_order_witness :
  exists s1 s2, run (S := witness_port) 4 id [Put 65; Put 66; Irq; Put 67; Put 68] (witness_uart 0 0 1 0 [0; 0; 0; 0; 0], [], reset_thr 0) = Done (tt, s1) /\
                in_port s1 3 ([65; 66], [67; 68], true) /\
                run 4 id [Irq; Irq; Irq] s1 = Done (tt, s2) /\ in_port s2 3 ([65; 66; 67; 68], [], false).
Proof.
  destruct (uart_output_in_order (S := witness_port) 4 id 3 (witness_uart 0 0 1 0 [0; 0; 0; 0; 0], [], reset_thr 0) []
    [Put 65; Put 66; Irq; Put 67; Put 68] ([65; 66], [67; 68], true)) as (s1 & s2 & E1 & HP1 & _ & E2 & HP2); [|reflexivity|reflexivity|].
  - split; [|done]. split; [done| |done|done|done]. split; simpl; [lia|done|lia|lia|done|by intros].
  - exists s1, s2. exact (conj E1 (conj HP1 (conj E2 HP2))).
Defined.

Lemma uart_panic_flushes_witness :
  exists u1 u2, dbg_uart_start_panic (fun _ => 64) 1 (witness_uart 0 2 0 128 [0; 72; 10; 0; 0]) = Done (tt, u1) /\
                written (regs u1) = [72; 13; 10] /\
                dbg_uart_putchar 4 (fun _ => 64) 1 33 u1 = Done (tt, u2) /\ written (regs u2) = [72; 13; 10; 33].
Proof.
  destruct (uart_panic_flushes 4 (fun _ => 64) 1 (witness_uart 0 2 0 128 [0; 72; 10; 0; 0]) [72; 10] 33) as (u1 & u2 & E1 & _ & _ & H1 & E2 & H2).
  - intros sr. exists 0%nat. split; [lia|done].
  - split; simpl; [lia|done|lia|lia|done|]. intros i x Hi. destruct i as [|[|i]]; simplify_eq/=; done.
  - exists u1, u2. exact (conj E1 (conj H1 (conj E2 H2))).
Defined.

Lemma uart_putchar_race_witness :
  exists u', (r ← gets ready; dbg_uart_send 4 1;; async_putchar_rest 4 r 65;; dbg_uart_putchar 4 id 1 66)
               (witness_uart 0 0 0 128 [0; 0; 0; 0; 0]) = Done (tt, u') /\ transmits u' [66] [65] true.
Proof.
  apply (uart_putchar_race 4 id (witness_uart 0 0 0 128 [0; 0; 0; 0; 0]) [] 65 66); [|simpl; lia].
  split; [done| |done|done|done]. split; simpl; [lia|done|lia|lia|done|by intros].
Defined.
