(* ===== verification/Breakpoint.v ===== *)
(** * Breakpoints

    Models [platform/breakpoint.c], [platform/breakpoint-hard.c],
    [platform/breakpoint-soft.c] and the registers of [include/platform/hw_debug.h] they
    use: a pool of ten breakpoints.  A breakpoint in read-only memory takes one of the six
    comparators of the flash patch unit, one in memory replaces the instruction.

    [breakpoints] is the address of the pool; a pointer to a breakpoint is an address. *)

From S2P Require Import Prelude.

(** ** Data *)

Inductive bkpt_type := BKPT_NONE | BKPT_HARD | BKPT_SOFT.
#[global] Instance bkpt_type_eq_dec : EqDecision bkpt_type.
Proof. solve_decision. Defined.

(** The functions [enable], [disable] and [release] of a breakpoint are set together. *)
Inductive bkpt_ops := NO_OPS | HARD_OPS | SOFT_OPS.

Record breakpoint := mk_bkpt {
  b_type : bkpt_type;
  b_raw : Z;
  b_addr : Z;
  b_ops : bkpt_ops;
}.

Definition BKPT_MAX_NUM : Z := 10.
Definition FPB_MAX_COMP : Z := 6.
Definition sizeof_breakpoint : Z := 20.

(** The pool, [hard_breakpoints], the comparators, the other registers of the debug unit and
    the instructions in memory. *)
Record bkstate := mk_bks {
  pool : list breakpoint;
  hard_breakpoints : list Z;
  FPB_COMP : list Z;
  FPB_CTRL : Z;
  DCB_DEMCR : Z;
  SCB_DFSR : Z;
  SCB_HFSR : Z;
  code : gmap Z Z;
}.

Definition with_pool (p : list breakpoint) (s : bkstate) : bkstate :=
  mk_bks p (hard_breakpoints s) (FPB_COMP s) (FPB_CTRL s) (DCB_DEMCR s) (SCB_DFSR s) (SCB_HFSR s) (code s).
Definition with_hard (h : list Z) (s : bkstate) : bkstate :=
  mk_bks (pool s) h (FPB_COMP s) (FPB_CTRL s) (DCB_DEMCR s) (SCB_DFSR s) (SCB_HFSR s) (code s).
Definition with_comp (c : list Z) (s : bkstate) : bkstate :=
  mk_bks (pool s) (hard_breakpoints s) c (FPB_CTRL s) (DCB_DEMCR s) (SCB_DFSR s) (SCB_HFSR s) (code s).
Definition with_ctrl (c : Z) (s : bkstate) : bkstate :=
  mk_bks (pool s) (hard_breakpoints s) (FPB_COMP s) c (DCB_DEMCR s) (SCB_DFSR s) (SCB_HFSR s) (code s).
Definition with_demcr (d : Z) (s : bkstate) : bkstate :=
  mk_bks (pool s) (hard_breakpoints s) (FPB_COMP s) (FPB_CTRL s) d (SCB_DFSR s) (SCB_HFSR s) (code s).
Definition with_dfsr (d : Z) (s : bkstate) : bkstate :=
  mk_bks (pool s) (hard_breakpoints s) (FPB_COMP s) (FPB_CTRL s) (DCB_DEMCR s) d (SCB_HFSR s) (code s).
Definition with_code (c : gmap Z Z) (s : bkstate) : bkstate :=
  mk_bks (pool s) (hard_breakpoints s) (FPB_COMP s) (FPB_CTRL s) (DCB_DEMCR s) (SCB_DFSR s) (SCB_HFSR s) c.

Definition with_hfsr (h : Z) (s : bkstate) : bkstate :=
  mk_bks (pool s) (hard_breakpoints s) (FPB_COMP s) (FPB_CTRL s) (DCB_DEMCR s) (SCB_DFSR s) h (code s).

Definition SCB_HFSR_DEBUGEVT : Z := 2147483648.
Definition SCB_DFSR_HALTED : Z := 1.
Definition SCB_DFSR_BKPT : Z := 2.
Definition SCB_DFSR_DWTTRAP : Z := 4.
Definition DCB_DEMCR_MON_EN : Z := 65536.
Definition DCB_DEMCR_MON_STEP : Z := 262144.
Definition DCB_DEMCR_TRCENA : Z := 16777216.
Definition FPB_CTRL_ENABLE : Z := 1.
Definition FPB_CTRL_KEY : Z := 2.
Definition FPB_COMP_ENABLE : Z := 1.
Definition FPB_COMP_REPLACE_LOWER : Z := 1073741824.
Definition FPB_COMP_REPLACE_UPPER : Z := 2147483648.
Definition FPB_COMP_ADDR_MASK : Z := 536870908.

(** [*SCB_DFSR = v] and [*SCB_HFSR = v]: a bit that is written clears the status bit. *)
Definition write_dfsr (v : Z) : M bkstate unit := modify (fun s => with_dfsr (Z.ldiff (SCB_DFSR s) v) s).
Definition write_hfsr (v : Z) : M bkstate unit := modify (fun s => with_hfsr (Z.ldiff (SCB_HFSR s) v) s).
Definition cpu_enable_single_step : M bkstate unit := modify (fun s => with_demcr (Z.lor (DCB_DEMCR s) DCB_DEMCR_MON_STEP) s).
Definition cpu_disable_single_step : M bkstate unit := modify (fun s => with_demcr (Z.land (DCB_DEMCR s) (not32 DCB_DEMCR_MON_STEP)) s).

Definition read_comp (i : Z) : M bkstate Z := fun s =>
  match zlookup (FPB_COMP s) i with Some v => Done (v, s) | None => Fault end.
Definition write_comp (i v : Z) : M bkstate unit := fun s =>
  match zinsert i v (FPB_COMP s) with Some l => Done (tt, with_comp l s) | None => Fault end.
Definition set_hard (i v : Z) : M bkstate unit := fun s =>
  match zinsert i v (hard_breakpoints s) with Some l => Done (tt, with_hard l s) | None => Fault end.
Definition load16 (a : Z) : M bkstate Z := fun s =>
  match code s !! a with Some w => Done (w, s) | None => Fault end.
Definition store16 (a v : Z) : M bkstate unit := fun s =>
  match code s !! a with Some _ => Done (tt, with_code (<[a := v]> (code s)) s) | None => Fault end.

Definition breakpoint_type_by_addr (addr : Z) : bkpt_type := if addr <? 536870912 then BKPT_HARD else BKPT_SOFT.

Section pool.
Variable breakpoints : Z.

(** The address of a breakpoint, and the breakpoint at an address. *)
Definition bk_ptr (id : Z) : Z := breakpoints + id * sizeof_breakpoint.
Definition bk_index (b : Z) : Z := (b - breakpoints) / sizeof_breakpoint.
Definition get_bk (b : Z) : M bkstate breakpoint := fun s =>
  if (b - breakpoints) mod sizeof_breakpoint =? 0 then
    match zlookup (pool s) (bk_index b) with Some x => Done (x, s) | None => Fault end
  else Fault.
Definition put_bk (b : Z) (x : breakpoint) : M bkstate unit := fun s =>
  if (b - breakpoints) mod sizeof_breakpoint =? 0 then
    match zinsert (bk_index b) x (pool s) with Some l => Done (tt, with_pool l s) | None => Fault end
  else Fault.
Definition upd_bk (b : Z) (f : breakpoint -> breakpoint) : M bkstate unit := x ← get_bk b; put_bk b (f x).

Definition get_breakpoint_id (b : Z) : Z :=
  if (b >=? breakpoints) && (b <=? bk_ptr BKPT_MAX_NUM) then bk_index b else -1.

(** ** Hardware breakpoints *)

(** The first comparator from [i] on that is free. *)
Fixpoint avail_hard (k : nat) (i : Z) : M bkstate Z :=
  match k with
  | O => mret (-1)
  | S k => fun s =>
      match zlookup (hard_breakpoints s) i with
      | Some v => if v =? -1 then Done (i, s) else avail_hard k (i + 1) s
      | None => Fault
      end
  end.
Definition get_avail_hard_breakpoint : M bkstate Z := avail_hard (Z.to_nat FPB_MAX_COMP) 0.

Fixpoint reset_comps (k : nat) (i : Z) : M bkstate unit :=
  match k with
  | O => mret tt
  | S k => set_hard i (-1);; write_comp i 0;; reset_comps k (i + 1)
  end.

Definition hard_breakpoint_pool_init : M bkstate unit :=
  modify (with_ctrl (Z.lor FPB_CTRL_KEY FPB_CTRL_ENABLE));;
  modify (fun s => with_demcr (Z.lor (DCB_DEMCR s) (Z.lor DCB_DEMCR_TRCENA DCB_DEMCR_MON_EN)) s);;
  write_hfsr SCB_HFSR_DEBUGEVT;;
  write_dfsr SCB_DFSR_BKPT;;
  write_dfsr SCB_DFSR_HALTED;;
  write_dfsr SCB_DFSR_DWTTRAP;;
  reset_comps (Z.to_nat FPB_MAX_COMP) 0;;
  modify (with_ctrl (Z.lor FPB_CTRL_KEY FPB_CTRL_ENABLE)).

Definition hard_breakpoint_config (addr b : Z) : M bkstate Z :=
  if bool_decide (breakpoint_type_by_addr addr = BKPT_HARD) then
    hid ← get_avail_hard_breakpoint;
    let id := get_breakpoint_id b in
    if (id >=? 0) && (hid >=? 0) then
      set_hard hid id;;
      upd_bk b (fun _ => mk_bkpt BKPT_HARD hid addr HARD_OPS);;
      mret b
    else mret NULL
  else mret NULL.

(** The value of a comparator that watches [addr]. *)
Definition comp_value (addr : Z) : Z :=
  Z.lor (Z.lor (if truth (Z.land addr 2) then FPB_COMP_REPLACE_UPPER else FPB_COMP_REPLACE_LOWER) (Z.land addr FPB_COMP_ADDR_MASK)) FPB_COMP_ENABLE.

Definition hard_breakpoint_enable (b : Z) : M bkstate unit :=
  x ← get_bk b; write_comp (b_raw x) (comp_value (b_addr x)).

Definition hard_breakpoint_disable (b : Z) : M bkstate unit :=
  x ← get_bk b;
  v ← read_comp (b_raw x);
  write_comp (b_raw x) (Z.land v (not32 FPB_COMP_ENABLE)).

Definition hard_breakpoint_release (b : Z) : M bkstate unit :=
  x ← get_bk b;
  v ← read_comp (b_raw x);
  write_comp (b_raw x) (Z.land v (not32 FPB_COMP_ENABLE));;
  set_hard (b_raw x) (-1);;
  upd_bk b (fun x => mk_bkpt BKPT_NONE (b_raw x) (b_addr x) (b_ops x)).

(** ** Software breakpoints *)

Definition insert_bkpt (b : Z) : M bkstate unit := x ← get_bk b; store16 (b_addr x) 48657.
Definition delete_bkpt (b : Z) : M bkstate unit := x ← get_bk b; store16 (b_addr x) (b_raw x).

Definition soft_breakpoint_config (addr b : Z) : M bkstate Z :=
  if bool_decide (breakpoint_type_by_addr addr = BKPT_SOFT) then
    w ← load16 addr;
    upd_bk b (fun _ => mk_bkpt BKPT_SOFT w addr SOFT_OPS);;
    mret b
  else mret NULL.

Definition soft_breakpoint_enable (b : Z) : M bkstate unit := insert_bkpt b.
Definition soft_breakpoint_disable (b : Z) : M bkstate unit := delete_bkpt b.
Definition soft_breakpoint_release (b : Z) : M bkstate unit :=
  upd_bk b (fun x => mk_bkpt BKPT_NONE (b_raw x) (b_addr x) (b_ops x)).

(** ** The pool *)

Definition breakpoint_config (id addr : Z) : M bkstate Z :=
  match breakpoint_type_by_addr addr with
  | BKPT_HARD => hard_breakpoint_config addr (bk_ptr id)
  | BKPT_SOFT => soft_breakpoint_config addr (bk_ptr id)
  | BKPT_NONE => mret NULL
  end.

(** The loop of [get_avail_breakpoint] from [i] on. *)
Fixpoint avail_loop (k : nat) (i addr : Z) : M bkstate Z :=
  match k with
  | O => mret NULL
  | S k =>
      x ← get_bk (bk_ptr i);
      if bool_decide (b_type x = BKPT_NONE) then breakpoint_config i addr else avail_loop k (i + 1) addr
  end.
Definition get_avail_breakpoint (addr : Z) : M bkstate Z := avail_loop (Z.to_nat BKPT_MAX_NUM) 0 addr.

Fixpoint reset_pool (k : nat) (i : Z) : M bkstate unit :=
  match k with
  | O => mret tt
  | S k => upd_bk (bk_ptr i) (fun x => mk_bkpt BKPT_NONE 0 0 (b_ops x));; reset_pool k (i + 1)
  end.
Definition breakpoint_pool_init : M bkstate unit :=
  reset_pool (Z.to_nat FPB_MAX_COMP) 0;;
  hard_breakpoint_pool_init.

Definition breakpoint_install (addr : Z) : M bkstate Z := get_avail_breakpoint addr.

Definition breakpoint_uninstall (b : Z) : M bkstate unit :=
  x ← get_bk b;
  match b_ops x with HARD_OPS => hard_breakpoint_release b | SOFT_OPS => soft_breakpoint_release b | NO_OPS => fault end.
Definition enable_breakpoint (b : Z) : M bkstate unit :=
  x ← get_bk b;
  match b_ops x with HARD_OPS => hard_breakpoint_enable b | SOFT_OPS => soft_breakpoint_enable b | NO_OPS => fault end.
Definition disable_breakpoint (b : Z) : M bkstate unit :=
  x ← get_bk b;
  match b_ops x with HARD_OPS => hard_breakpoint_disable b | SOFT_OPS => soft_breakpoint_disable b | NO_OPS => fault end.
End pool.
