(* ===== verification/BreakpointProps.v ===== *)
(** * Breakpoints: the pool and the comparators

    The invariant of the pool and what the operations do to it.  A breakpoint in use in
    read-only memory owns a comparator, and a comparator watches an address exactly when
    the breakpoint that owns it is in use. *)

From S2P Require Import Prelude Breakpoint.

(** The address a comparator watches. *)
Definition watches (v : Z) : option Z :=
  if Z.testbit v 0 then Some (Z.lor (Z.land v FPB_COMP_ADDR_MASK) (if Z.testbit v 31 then 2 else 0)) else None.

(** The addresses of instructions in read-only memory. *)
Definition rom_addr (a : Z) : Prop := 0 <= a < 536870912 /\ Z.testbit a 0 = false.

Lemma land_2 a : truth (Z.land a 2) = Z.testbit a 1.
Proof. unfold truth. change 2 with (Z.shiftl 1 1). rewrite land_pow2_mask by lia. apply negb_involutive. Qed.

Lemma testbit_rom a j : rom_addr a -> 29 <= j -> Z.testbit a j = false.
Proof.
  intros [Ha _] Hj. rewrite <- (Z.mod_small a (2 ^ 29)) by (change (2 ^ 29) with 536870912; lia). apply Z.mod_pow2_bits_high. lia.
Qed.

Lemma testbit_mask j : 0 <= j -> Z.testbit FPB_COMP_ADDR_MASK j = (2 <=? j) && (j <? 29).
Proof.
  intros Hj. replace FPB_COMP_ADDR_MASK with (Z.shiftl (Z.ones 27) 2) by done. rewrite Z.shiftl_spec by done.
  destruct (Z.leb_spec 2 j); cbn [andb]; [|by rewrite Z.testbit_neg_r by lia].
  destruct (Z.ltb_spec j 29); [apply Z.ones_spec_low; lia|apply Z.ones_spec_high; lia].
Qed.

Lemma testbit_comp_value a j : 0 <= j -> rom_addr a ->
  Z.testbit (comp_value a) j = (j =? 0) || (j =? (if Z.testbit a 1 then 31 else 30)) || ((2 <=? j) && (j <? 29) && Z.testbit a j).
Proof.
  intros Hj Ha. unfold comp_value. rewrite land_2, !Z.lor_spec, Z.land_spec, testbit_mask by done.
  change FPB_COMP_ENABLE with (Z.shiftl 1 0). rewrite testbit_pow2_mask by lia.
  replace (if Z.testbit a 1 then FPB_COMP_REPLACE_UPPER else FPB_COMP_REPLACE_LOWER) with (Z.shiftl 1 (if Z.testbit a 1 then 31 else 30)) by (by destruct (Z.testbit a 1)).
  rewrite testbit_pow2_mask by (destruct (Z.testbit a 1); lia). rewrite (Z.eqb_sym 0 j), (Z.eqb_sym _ j).
  destruct (j =? 0), (j =? _), ((2 <=? j) && (j <? 29)), (Z.testbit a j); done.
Qed.

(** What is written to a comparator is the address it watches. *)
Lemma watches_comp_value a : rom_addr a -> watches (comp_value a) = Some a.
Proof.
  intros Ha. unfold watches. rewrite testbit_comp_value by (done || lia). cbn [Z.eqb orb]. f_equal.
  apply Z.bits_inj'. intros j Hj. rewrite Z.lor_spec, Z.land_spec, testbit_mask, testbit_comp_value by done.
  replace (Z.testbit (comp_value a) 31) with (Z.testbit a 1).
  2: { rewrite testbit_comp_value by (done || lia). destruct (Z.testbit a 1) eqn:E; [done|]. cbn. done. }
  replace (if Z.testbit a 1 then 2 else 0) with (if Z.testbit a 1 then Z.shiftl 1 1 else 0) by done.
  assert (E2 : Z.testbit (if Z.testbit a 1 then Z.shiftl 1 1 else 0) j = Z.testbit a 1 && (1 =? j)).
  { destruct (Z.testbit a 1); [by rewrite testbit_pow2_mask by lia|apply Z.testbit_0_l]. }
  rewrite E2. destruct (Z.eq_dec j 0) as [->|]; [change (2 <=? 0) with false; change (1 =? 0) with false; rewrite (proj2 Ha); cbn [andb]; by rewrite !andb_false_r|].
  destruct (Z.eq_dec j 1) as [->|].
  { change (2 <=? 1) with false. change (1 =? 1) with true. cbn [andb]. by rewrite andb_false_r, andb_true_r. }
  destruct (Z.ltb_spec j 29).
  - rewrite (proj2 (Z.eqb_neq 1 j)), (proj2 (Z.eqb_neq j 0)), (proj2 (Z.leb_le 2 j)), (proj2 (Z.eqb_neq j _)) by (destruct (Z.testbit a 1); lia).
    cbn [andb orb]. rewrite !andb_false_r, orb_false_r. by rewrite andb_true_r.
  - rewrite (testbit_rom a j) by (done || lia). rewrite (proj2 (Z.eqb_neq 1 j)) by lia. by rewrite !andb_false_r.
Qed.

Lemma watches_disabled v : 0 <= v -> watches (Z.land v (not32 FPB_COMP_ENABLE)) = None.
Proof. intros Hv. unfold watches. rewrite Z.land_spec. by rewrite andb_false_r. Qed.

Lemma watches_0 : watches 0 = None.
Proof. done. Qed.

(** ** The invariant *)

Section pool.
Variable breakpoints : Z.
Hypothesis Hbase : 0 < breakpoints.

(** A breakpoint in use in read-only memory, with its comparator. *)
Definition owns (i hid : nat) (x : breakpoint) : Prop := b_type x = BKPT_HARD /\ b_raw x = Z.of_nat hid.

Record bk_inv (s : bkstate) : Prop := {
  bi_pool : length (pool s) = 10%nat;
  bi_hard : length (hard_breakpoints s) = 6%nat;
  bi_comp : length (FPB_COMP s) = 6%nat;
  (** Each breakpoint in use has the functions of its kind, and a comparator in read-only memory. *)
  bi_used : forall i x, pool s !! i = Some x -> b_type x <> BKPT_NONE ->
    (b_type x = BKPT_HARD /\ b_ops x = HARD_OPS /\ rom_addr (b_addr x) /\
       exists hid : nat, b_raw x = Z.of_nat hid /\ hard_breakpoints s !! hid = Some (Z.of_nat i)) \/
    (b_type x = BKPT_SOFT /\ b_ops x = SOFT_OPS /\ 536870912 <= b_addr x);
  (** Each comparator is free or belongs to a breakpoint in use. *)
  bi_owner : forall hid v, hard_breakpoints s !! hid = Some v ->
    v = -1 \/ exists i x, v = Z.of_nat i /\ pool s !! i = Some x /\ b_type x = BKPT_HARD /\ b_raw x = Z.of_nat hid;
}.

(** A comparator watches the address of its breakpoint, a free one nothing. *)
Definition comps_ok (s : bkstate) : Prop :=
  forall hid v c, hard_breakpoints s !! hid = Some v -> FPB_COMP s !! hid = Some c ->
    0 <= c /\ match watches c with
              | None => v = -1
              | Some a => exists i x, v = Z.of_nat i /\ pool s !! i = Some x /\ b_addr x = a
              end.

Lemma get_bk_ok i x s : pool s !! i = Some x -> get_bk breakpoints (bk_ptr breakpoints (Z.of_nat i)) s = Done (x, s).
Proof.
  intros H. unfold get_bk, bk_index, bk_ptr. replace (breakpoints + Z.of_nat i * sizeof_breakpoint - breakpoints) with (Z.of_nat i * sizeof_breakpoint) by lia.
  rewrite Z.mod_mul, Z.div_mul by (unfold sizeof_breakpoint; lia). cbn [Z.eqb]. by rewrite zlookup_nat, H.
Qed.

Lemma upd_bk_ok i x f s : pool s !! i = Some x ->
  upd_bk breakpoints (bk_ptr breakpoints (Z.of_nat i)) f s = Done (tt, with_pool (<[i := f x]> (pool s)) s).
Proof.
  intros H. unfold upd_bk. rewrite (bind_Done _ _ _ _ _ (get_bk_ok i x s H)). unfold put_bk, bk_index, bk_ptr.
  replace (breakpoints + Z.of_nat i * sizeof_breakpoint - breakpoints) with (Z.of_nat i * sizeof_breakpoint) by lia.
  rewrite Z.mod_mul, Z.div_mul by (unfold sizeof_breakpoint; lia). cbn [Z.eqb].
  rewrite zinsert_Some by (apply lookup_lt_Some in H; lia). by rewrite Nat2Z.id.
Qed.

Lemma set_hard_ok hid v w s : hard_breakpoints s !! hid = Some w -> set_hard (Z.of_nat hid) v s = Done (tt, with_hard (<[hid := v]> (hard_breakpoints s)) s).
Proof. intros H. unfold set_hard. rewrite zinsert_Some by (apply lookup_lt_Some in H; lia). by rewrite Nat2Z.id. Qed.

Lemma write_comp_ok hid v w s : FPB_COMP s !! hid = Some w -> write_comp (Z.of_nat hid) v s = Done (tt, with_comp (<[hid := v]> (FPB_COMP s)) s).
Proof. intros H. unfold write_comp. rewrite zinsert_Some by (apply lookup_lt_Some in H; lia). by rewrite Nat2Z.id. Qed.

Lemma read_comp_ok hid w s : FPB_COMP s !! hid = Some w -> read_comp (Z.of_nat hid) s = Done (w, s).
Proof. intros H. unfold read_comp. by rewrite zlookup_nat, H. Qed.

(** The search for a free comparator. *)
Lemma avail_hard_ok k : forall i s, (i + k = length (hard_breakpoints s))%nat ->
  (exists hid, avail_hard k (Z.of_nat i) s = Done (Z.of_nat hid, s) /\ hard_breakpoints s !! hid = Some (-1)) \/
  (avail_hard k (Z.of_nat i) s = Done (-1, s) /\ forall j v, (i <= j)%nat -> hard_breakpoints s !! j = Some v -> v <> -1).
Proof.
  induction k as [|k IH]; intros i s Hk; cbn [avail_hard].
  - right. split; [done|]. intros j v Hj Hv. apply lookup_lt_Some in Hv. lia.
  - destruct (lookup_lt_is_Some_2 (hard_breakpoints s) i) as [v Hv]; [lia|]. rewrite zlookup_nat, Hv.
    destruct (Z.eqb_spec v (-1)) as [->|Hne]; [left; by exists i|].
    replace (Z.of_nat i + 1) with (Z.of_nat (S i)) by lia. destruct (IH (S i) s ltac:(lia)) as [H|[E H]]; [by left|]. right. split; [done|].
    intros j w Hj Hw. destruct (decide (i = j)) as [->|]; [congruence|]. apply (H j w); [lia|done].
Qed.

(** The search for a free breakpoint. *)
Lemma avail_loop_ok k addr : forall i s, (i + k = length (pool s))%nat ->
  (exists j x, pool s !! j = Some x /\ b_type x = BKPT_NONE /\
     avail_loop breakpoints k (Z.of_nat i) addr s = breakpoint_config breakpoints (Z.of_nat j) addr s) \/
  (avail_loop breakpoints k (Z.of_nat i) addr s = Done (NULL, s) /\ forall j x, (i <= j)%nat -> pool s !! j = Some x -> b_type x <> BKPT_NONE).
Proof.
  induction k as [|k IH]; intros i s Hk; cbn [avail_loop].
  - right. split; [done|]. intros j x Hj Hx. apply lookup_lt_Some in Hx. lia.
  - destruct (lookup_lt_is_Some_2 (pool s) i) as [x Hx]; [lia|]. rewrite (bind_Done _ _ _ _ _ (get_bk_ok i x s Hx)).
    case_bool_decide as Ht; [left; by exists i, x|].
    replace (Z.of_nat i + 1) with (Z.of_nat (S i)) by lia. destruct (IH (S i) s ltac:(lia)) as [H|[E H]]; [by left|]. right. split; [done|].
    intros j y Hj Hy. destruct (decide (i = j)) as [->|]; [congruence|]. apply (H j y); [lia|done].
Qed.

Lemma get_breakpoint_id_ok i : (i < 10)%nat -> get_breakpoint_id breakpoints (bk_ptr breakpoints (Z.of_nat i)) = Z.of_nat i.
Proof.
  intros Hi. unfold get_breakpoint_id, bk_ptr, bk_index, sizeof_breakpoint, BKPT_MAX_NUM.
  destruct (Z.geb_spec (breakpoints + Z.of_nat i * 20) breakpoints), (Z.leb_spec (breakpoints + Z.of_nat i * 20) (breakpoints + 10 * 20)); try lia.
  cbn [andb]. replace (breakpoints + Z.of_nat i * 20 - breakpoints) with (Z.of_nat i * 20) by lia. by rewrite Z.div_mul.
Qed.
(** Where a breakpoint may be set. *)
Definition probeable (s : bkstate) (a : Z) : Prop := rom_addr a \/ 536870912 <= a /\ is_Some (code s !! a).

Lemma type_by_addr_rom a : rom_addr a -> breakpoint_type_by_addr a = BKPT_HARD.
Proof. intros [Ha _]. unfold breakpoint_type_by_addr. destruct (Z.ltb_spec a 536870912); [done|lia]. Qed.

Lemma type_by_addr_ram a : 536870912 <= a -> breakpoint_type_by_addr a = BKPT_SOFT.
Proof. intros Ha. unfold breakpoint_type_by_addr. destruct (Z.ltb_spec a 536870912); [lia|done]. Qed.

(** The state after a hardware breakpoint has been configured and enabled. *)
Definition arm_hard (i hid : nat) (a : Z) (s : bkstate) : bkstate :=
  with_comp (<[hid := comp_value a]> (FPB_COMP s))
    (with_pool (<[i := mk_bkpt BKPT_HARD (Z.of_nat hid) a HARD_OPS]> (pool s)) (with_hard (<[hid := Z.of_nat i]> (hard_breakpoints s)) s)).
Definition arm_soft (i : nat) (w a : Z) (s : bkstate) : bkstate :=
  with_code (<[a := 48657]> (code s)) (with_pool (<[i := mk_bkpt BKPT_SOFT w a SOFT_OPS]> (pool s)) s).

Lemma comp_value_nonneg a : rom_addr a -> 0 <= comp_value a.
Proof.
  intros [Ha _]. unfold comp_value. apply Z.lor_nonneg. split; [|done]. apply Z.lor_nonneg.
  split; [by destruct (truth _)|]. apply Z.land_nonneg. left. lia.
Qed.

Lemma arm_hard_inv i hid a x s : bk_inv s -> pool s !! i = Some x -> b_type x = BKPT_NONE -> hard_breakpoints s !! hid = Some (-1) -> rom_addr a ->
  bk_inv (arm_hard i hid a s).
Proof.
  intros [H1 H2 H3 H4 H5] Hi Ht Hh Ha. pose proof (lookup_lt_Some _ _ _ Hi) as Hil. pose proof (lookup_lt_Some _ _ _ Hh) as Hhl.
  split; cbn; [by rewrite length_insert|by rewrite length_insert|by rewrite length_insert| |].
  - intros j y Hy Hty. apply list_lookup_insert_Some in Hy as [(<- & <- & _)|[Hne Hy]].
    + left. split; [done|]. split; [done|]. split; [done|]. exists hid. split; [done|]. by apply list_lookup_insert_eq.
    + destruct (H4 j y Hy Hty) as [(A1 & A2 & A3 & h & A4 & A5)|]; [left|by right]. split; [done|]. split; [done|]. split; [done|].
      exists h. split; [done|]. rewrite list_lookup_insert_ne; [done|]. intros ->. rewrite A5 in Hh. injection Hh as Hh. lia.
  - intros h v Hv. apply list_lookup_insert_Some in Hv as [(<- & <- & _)|[Hne Hv]].
    + right. eexists i, _. split; [done|]. split; [by apply list_lookup_insert_eq|]. done.
    + destruct (H5 h v Hv) as [->|(j & y & -> & Hy & Hty & Hraw)]; [by left|]. right. exists j, y. split; [done|]. split; [|done].
      rewrite list_lookup_insert_ne; [done|]. intros ->. congruence.
Qed.

Lemma arm_hard_comps i hid a x s : bk_inv s -> comps_ok s -> pool s !! i = Some x -> b_type x = BKPT_NONE -> hard_breakpoints s !! hid = Some (-1) -> rom_addr a ->
  comps_ok (arm_hard i hid a s).
Proof.
  intros HI HC Hi Ht Hh Ha. pose proof (lookup_lt_Some _ _ _ Hi) as Hil. intros h v c Hv Hc. cbn in Hv, Hc |- *.
  apply list_lookup_insert_Some in Hc as [(<- & <- & _)|[Hne Hc]].
  - split; [by apply comp_value_nonneg|]. rewrite watches_comp_value by done. rewrite list_lookup_insert_eq in Hv by (by eapply lookup_lt_Some). simplify_eq.
    eexists i, _. split; [done|]. split; [by apply list_lookup_insert_eq|done].
  - rewrite list_lookup_insert_ne in Hv by done. destruct (HC h v c Hv Hc) as [Hc0 Hw]. split; [done|]. destruct (watches c) as [b|]; [|done].
    destruct Hw as (j & y & -> & Hy & Hb). exists j, y. split; [done|]. split; [|done]. rewrite list_lookup_insert_ne; [done|]. intros ->.
    destruct (bi_owner _ HI h (Z.of_nat j) Hv) as [E|(k & z & E & Hz & Htz & _)]; [lia|]. apply Nat2Z.inj in E. subst k. congruence.
Qed.

Lemma arm_soft_inv i w a x s : bk_inv s -> pool s !! i = Some x -> b_type x = BKPT_NONE -> 536870912 <= a -> bk_inv (arm_soft i w a s).
Proof.
  intros [H1 H2 H3 H4 H5] Hi Ht Ha. pose proof (lookup_lt_Some _ _ _ Hi) as Hil. split; cbn; [by rewrite length_insert|done|done| |].
  - intros j y Hy Hty. apply list_lookup_insert_Some in Hy as [(<- & <- & _)|[Hne Hy]]; [by right|by apply (H4 j)].
  - intros h v Hv. destruct (H5 h v Hv) as [->|(j & y & -> & Hy & Hty & Hraw)]; [by left|]. right. exists j, y. split; [done|]. split; [|done].
    rewrite list_lookup_insert_ne; [done|]. intros ->. congruence.
Qed.

Lemma arm_soft_comps i w a x s : bk_inv s -> comps_ok s -> pool s !! i = Some x -> b_type x = BKPT_NONE -> comps_ok (arm_soft i w a s).
Proof.
  intros HI HC Hi Ht h v c Hv Hc. cbn in Hv, Hc |- *. destruct (HC h v c Hv Hc) as [Hc0 Hw]. split; [done|]. destruct (watches c) as [b|]; [|done].
  destruct Hw as (j & y & -> & Hy & Hb). exists j, y. split; [done|]. split; [|done]. rewrite list_lookup_insert_ne; [done|]. intros ->.
  destruct (bi_owner _ HI h (Z.of_nat j) Hv) as [E|(k & z & E & Hz & Htz & _)]; [lia|]. apply Nat2Z.inj in E. subst k. congruence.
Qed.

(** Installing and enabling a breakpoint takes a free one, or fails without an effect. *)
Lemma install_enable_ok a s : bk_inv s -> comps_ok s -> probeable s a ->
  (breakpoint_install breakpoints a s = Done (NULL, s)) \/
  exists i x s1 s2, breakpoint_install breakpoints a s = Done (bk_ptr breakpoints (Z.of_nat i), s1) /\
    enable_breakpoint breakpoints (bk_ptr breakpoints (Z.of_nat i)) s1 = Done (tt, s2) /\
    pool s !! i = Some x /\ b_type x = BKPT_NONE /\ bk_inv s2 /\ comps_ok s2 /\
    (exists y, pool s2 = <[i := y]> (pool s) /\ b_type y <> BKPT_NONE /\ b_addr y = a) /\
    (forall c, c <> a -> code s2 !! c = code s !! c) /\ (forall c, is_Some (code s !! c) -> is_Some (code s2 !! c)).
Proof.
  intros HI HC Ha. unfold breakpoint_install, get_avail_breakpoint.
  change (avail_loop breakpoints (Z.to_nat BKPT_MAX_NUM) 0 a s) with (avail_loop breakpoints 10 (Z.of_nat 0) a s).
  destruct (avail_loop_ok 10 a 0 s) as [(i & x & Hi & Ht & E)|[E _]]; [by rewrite (bi_pool _ HI)| |by left]. rewrite E. clear E. unfold breakpoint_config. pose proof (lookup_lt_Some _ _ _ Hi) as Hil. rewrite (bi_pool _ HI) in Hil.
  destruct Ha as [Ha|[Ha [w Hw]]].
  - rewrite (type_by_addr_rom a Ha). unfold hard_breakpoint_config. rewrite (type_by_addr_rom a Ha), bool_decide_eq_true_2 by done.
    destruct (avail_hard_ok 6 0 s) as [(hid & E & Hh)|[E _]]; [by rewrite (bi_hard _ HI)| |].
    + right. rewrite (bind_Done get_avail_hard_breakpoint _ _ _ _ E). rewrite get_breakpoint_id_ok by done.
      destruct (Z.geb_spec (Z.of_nat i) 0), (Z.geb_spec (Z.of_nat hid) 0); try lia. cbn [andb].
      pose proof (lookup_lt_Some _ _ _ Hh) as Hhl. rewrite (bi_hard _ HI) in Hhl.
      destruct (lookup_lt_is_Some_2 (FPB_COMP s) hid) as [c Hc]; [by rewrite (bi_comp _ HI)|].
      set (y := mk_bkpt BKPT_HARD (Z.of_nat hid) a HARD_OPS).
      set (s1 := with_pool (<[i := y]> (pool s)) (with_hard (<[hid := Z.of_nat i]> (hard_breakpoints s)) s)).
      assert (Hy : pool s1 !! i = Some y) by (apply list_lookup_insert_eq; by rewrite (bi_pool _ HI)).
      exists i, x, s1, (arm_hard i hid a s). split; [|split; [|split; [done|split; [done|]]]].
      * rewrite (bind_Done _ _ _ _ _ (set_hard_ok hid (Z.of_nat i) (-1) s Hh)).
        rewrite (bind_Done _ _ _ _ _ (upd_bk_ok i x _ (with_hard _ s) Hi)). reflexivity.
      * unfold enable_breakpoint. rewrite (bind_Done _ _ _ _ _ (get_bk_ok i y s1 Hy)). change (b_ops y) with HARD_OPS. cbv iota.
        unfold hard_breakpoint_enable. rewrite (bind_Done _ _ _ _ _ (get_bk_ok i y s1 Hy)). change (b_raw y) with (Z.of_nat hid). change (b_addr y) with a.
        by rewrite (write_comp_ok hid _ c).
      * split; [by eapply arm_hard_inv|]. split; [by eapply arm_hard_comps|]. split; [by eexists|done].
    + left. rewrite (bind_Done get_avail_hard_breakpoint _ _ _ _ E). by rewrite andb_false_r.
  - right. rewrite (type_by_addr_ram a Ha). unfold soft_breakpoint_config. rewrite (type_by_addr_ram a Ha), bool_decide_eq_true_2 by done.
    set (y := mk_bkpt BKPT_SOFT w a SOFT_OPS). set (s1 := with_pool (<[i := y]> (pool s)) s).
    assert (Hy : pool s1 !! i = Some y) by (apply list_lookup_insert_eq; by rewrite (bi_pool _ HI)).
    exists i, x, s1, (arm_soft i w a s). split; [|split; [|split; [done|split; [done|]]]].
    + rewrite (bind_Done (load16 a) _ s w s) by (unfold load16; by rewrite Hw). rewrite (bind_Done _ _ _ _ _ (upd_bk_ok i x _ s Hi)). reflexivity.
    + unfold enable_breakpoint. rewrite (bind_Done _ _ _ _ _ (get_bk_ok i y s1 Hy)). change (b_ops y) with SOFT_OPS. cbv iota.
      unfold soft_breakpoint_enable, insert_bkpt. rewrite (bind_Done _ _ _ _ _ (get_bk_ok i y s1 Hy)). change (b_addr y) with a.
      unfold store16. change (code s1) with (code s). by rewrite Hw.
    + split; [by eapply arm_soft_inv|]. split; [by eapply arm_soft_comps|]. split; [by eexists|]. cbn. split.
      * intros c Hc. by rewrite lookup_insert_ne.
      * intros c Hc. rewrite lookup_insert. by case_decide.
Qed.

(** Releasing a breakpoint. *)
Definition free_bk (x : breakpoint) : breakpoint := mk_bkpt BKPT_NONE (b_raw x) (b_addr x) (b_ops x).
Definition release_hard (i hid : nat) (c : Z) (x : breakpoint) (s : bkstate) : bkstate :=
  with_pool (<[i := free_bk x]> (pool s)) (with_hard (<[hid := -1]> (hard_breakpoints s)) (with_comp (<[hid := Z.land c (not32 FPB_COMP_ENABLE)]> (FPB_COMP s)) s)).

Lemma release_hard_inv i hid c x s : bk_inv s -> pool s !! i = Some x -> b_type x = BKPT_HARD -> b_raw x = Z.of_nat hid -> bk_inv (release_hard i hid c x s).
Proof.
  intros [H1 H2 H3 H4 H5] Hi Ht Hraw. split; cbn; [by rewrite length_insert|by rewrite length_insert|by rewrite length_insert| |].
  - intros j y Hy Hty. apply list_lookup_insert_Some in Hy as [(<- & <- & _)|[Hne Hy]]; [done|].
    destruct (H4 j y Hy Hty) as [(A1 & A2 & A3 & h & A4 & A5)|]; [left|by right]. split; [done|]. split; [done|]. split; [done|]. exists h. split; [done|].
    rewrite list_lookup_insert_ne; [done|]. intros ->. destruct (H4 i x Hi) as [(_ & _ & _ & h' & B4 & B5)|(B & _)]; [congruence| |congruence].
    assert (h' = h) as -> by lia. rewrite A5 in B5. injection B5 as B5. lia.
  - intros h v Hv. apply list_lookup_insert_Some in Hv as [(<- & <- & _)|[Hne Hv]]; [by left|].
    destruct (H5 h v Hv) as [->|(j & y & -> & Hy & Hty & Hrawy)]; [by left|]. right. exists j, y. split; [done|]. split; [|done].
    rewrite list_lookup_insert_ne; [done|]. intros ->. assert (y = x) as -> by congruence. lia.
Qed.

Lemma release_hard_comps i hid c x s : bk_inv s -> comps_ok s -> pool s !! i = Some x -> b_type x = BKPT_HARD -> b_raw x = Z.of_nat hid -> FPB_COMP s !! hid = Some c ->
  hard_breakpoints s !! hid = Some (Z.of_nat i) -> comps_ok (release_hard i hid c x s).
Proof.
  intros HI HC Hi Ht Hraw Hc Hh h v d Hv Hd. cbn in Hv, Hd |- *. apply list_lookup_insert_Some in Hd as [(<- & <- & _)|[Hne Hd]].
  - rewrite list_lookup_insert_eq in Hv by (by eapply lookup_lt_Some). simplify_eq. destruct (HC hid _ c Hh Hc) as [Hc0 _].
    split; [apply Z.land_nonneg; by left|]. by rewrite watches_disabled.
  - rewrite list_lookup_insert_ne in Hv by done. destruct (HC h v d Hv Hd) as [Hd0 Hw]. split; [done|]. destruct (watches d) as [b|]; [|done].
    destruct Hw as (j & y & -> & Hy & Hb). exists j, y. split; [done|]. split; [|done]. rewrite list_lookup_insert_ne; [done|]. intros ->.
    destruct (bi_owner _ HI h (Z.of_nat j) Hv) as [E|(k & z & E & Hz & _ & Hrz)]; [lia|]. apply Nat2Z.inj in E. subst k. assert (z = x) as -> by congruence. lia.
Qed.

Lemma release_soft_ok i x s : bk_inv s -> comps_ok s -> pool s !! i = Some x -> b_type x = BKPT_SOFT ->
  bk_inv (with_pool (<[i := free_bk x]> (pool s)) s) /\ comps_ok (with_pool (<[i := free_bk x]> (pool s)) s).
Proof.
  intros HI HC Hi Ht. assert (Hno : forall h v j y, hard_breakpoints s !! h = Some v -> v = Z.of_nat j -> pool s !! j = Some y -> j <> i).
  { intros h v j y Hv -> Hy ->. destruct (bi_owner _ HI h _ Hv) as [E|(k & z & E & Hz & Htz & _)]; [lia|]. apply Nat2Z.inj in E. subst k. congruence. }
  split.
  - destruct HI as [H1 H2 H3 H4 H5]. split; cbn; [by rewrite length_insert|done|done| |].
    + intros j y Hy Hty. apply list_lookup_insert_Some in Hy as [(<- & <- & _)|[Hne Hy]]; [done|by apply (H4 j)].
    + intros h v Hv. destruct (H5 h v Hv) as [->|(j & y & -> & Hy & Hty & Hrawy)]; [by left|]. right. exists j, y. split; [done|]. split; [|done].
      rewrite list_lookup_insert_ne; [done|]. symmetry. by eapply Hno.
  - intros h v c Hv Hc. cbn in Hv, Hc |- *. destruct (HC h v c Hv Hc) as [Hc0 Hw]. split; [done|]. destruct (watches c) as [b|]; [|done].
    destruct Hw as (j & y & -> & Hy & Hb). exists j, y. split; [done|]. split; [|done]. rewrite list_lookup_insert_ne; [done|]. symmetry. by eapply Hno.
Qed.

Lemma uninstall_ok i x s : bk_inv s -> comps_ok s -> pool s !! i = Some x -> b_type x <> BKPT_NONE ->
  exists s', breakpoint_uninstall breakpoints (bk_ptr breakpoints (Z.of_nat i)) s = Done (tt, s') /\ bk_inv s' /\ comps_ok s' /\
             pool s' = <[i := free_bk x]> (pool s) /\ code s' = code s.
Proof.
  intros HI HC Hi Ht. unfold breakpoint_uninstall. rewrite (bind_Done _ _ _ _ _ (get_bk_ok i x s Hi)).
  destruct (bi_used _ HI i x Hi Ht) as [(Hty & -> & Ha & hid & Hraw & Hh)|(Hty & -> & _)].
  - pose proof (lookup_lt_Some _ _ _ Hh) as Hhl. rewrite (bi_hard _ HI) in Hhl.
    destruct (lookup_lt_is_Some_2 (FPB_COMP s) hid) as [c Hc]; [by rewrite (bi_comp _ HI)|].
    exists (release_hard i hid c x s). split; [|split; [by apply release_hard_inv|split; [by apply release_hard_comps|done]]].
    unfold hard_breakpoint_release. rewrite (bind_Done _ _ _ _ _ (get_bk_ok i x s Hi)), Hraw.
    rewrite (bind_Done _ _ _ _ _ (read_comp_ok hid c s Hc)), (bind_Done _ _ _ _ _ (write_comp_ok hid _ c s Hc)).
    rewrite (bind_Done (set_hard _ _) _ _ _ _ (set_hard_ok hid (-1) (Z.of_nat i) (with_comp _ s) Hh)).
    by rewrite (upd_bk_ok i x _ (with_hard _ (with_comp _ s)) Hi).
  - destruct (release_soft_ok i x s HI HC Hi Hty) as [HI' HC']. eexists. split; [unfold soft_breakpoint_release; by rewrite (upd_bk_ok i x _ s Hi)|]. done.
Qed.

(** A comparator watches an address of read-only memory exactly when a breakpoint in use is
    there. *)
Lemma armed_iff s a : bk_inv s -> comps_ok s -> rom_addr a ->
  (exists (hid : nat) c, FPB_COMP s !! hid = Some c /\ watches c = Some a) <-> (exists (i : nat) x, pool s !! i = Some x /\ b_type x <> BKPT_NONE /\ b_addr x = a).
Proof.
  intros HI HC Ha. split.
  - intros (hid & c & Hc & Hw). destruct (lookup_lt_is_Some_2 (hard_breakpoints s) hid) as [v Hv]; [apply lookup_lt_Some in Hc; rewrite (bi_hard _ HI); by rewrite (bi_comp _ HI) in Hc|].
    destruct (HC hid v c Hv Hc) as [_ H]. rewrite Hw in H. destruct H as (i & x & -> & Hi & Hx). exists i, x. split; [done|]. split; [|done].
    destruct (bi_owner _ HI hid _ Hv) as [E|(j & y & E & Hy & Hty & _)]; [lia|]. apply Nat2Z.inj in E. subst j. assert (y = x) as -> by congruence. by rewrite Hty.
  - intros (i & x & Hi & Ht & <-). destruct (bi_used _ HI i x Hi Ht) as [(Hty & _ & _ & hid & Hraw & Hh)|(_ & _ & Hge)]; [|destruct Ha; lia].
    destruct (lookup_lt_is_Some_2 (FPB_COMP s) hid) as [c Hc]; [apply lookup_lt_Some in Hh; rewrite (bi_comp _ HI); by rewrite (bi_hard _ HI) in Hh|].
    exists hid, c. split; [done|]. destruct (HC hid _ c Hh Hc) as [_ Hw]. destruct (watches c) as [b|]; [|lia].
    destruct Hw as (j & y & E & Hy & <-). apply Nat2Z.inj in E. subst j. congruence.
Qed.
End pool.
