(* ===== verification/Kprobes.v ===== *)
(** * Kernel probes

    Models [kernel/kprobes.c] and [platform/kprobes-arch.c]: the list of the probes that
    are registered, the sharing of breakpoints between probes at the same address, the
    probes of function returns and the handler of the debug exception.

    The probes are the objects of a heap, linked by [next].  A [struct kretprobe] is a probe
    with two more fields; each record has them.  The handlers of probes other than those of
    the file are the parameter [call]. *)

From S2P Require Import Prelude Breakpoint.

(** ** Data *)

Record kprobe := mk_kprobe {
  kp_addr : Z;
  pre_handler : Z;
  post_handler : Z;
  kp_bkpt : Z;
  step_addr : Z;
  kp_next : Z;
  rp_handler : Z;
  backup_addr : Z;
}.

Definition with_addr (a : Z) (k : kprobe) : kprobe :=
  mk_kprobe a (pre_handler k) (post_handler k) (kp_bkpt k) (step_addr k) (kp_next k) (rp_handler k) (backup_addr k).
Definition with_pre (h : Z) (k : kprobe) : kprobe :=
  mk_kprobe (kp_addr k) h (post_handler k) (kp_bkpt k) (step_addr k) (kp_next k) (rp_handler k) (backup_addr k).
Definition with_post (h : Z) (k : kprobe) : kprobe :=
  mk_kprobe (kp_addr k) (pre_handler k) h (kp_bkpt k) (step_addr k) (kp_next k) (rp_handler k) (backup_addr k).
Definition with_bkpt (b : Z) (k : kprobe) : kprobe :=
  mk_kprobe (kp_addr k) (pre_handler k) (post_handler k) b (step_addr k) (kp_next k) (rp_handler k) (backup_addr k).
Definition with_step (a : Z) (k : kprobe) : kprobe :=
  mk_kprobe (kp_addr k) (pre_handler k) (post_handler k) (kp_bkpt k) a (kp_next k) (rp_handler k) (backup_addr k).
Definition with_kp_next (n : Z) (k : kprobe) : kprobe :=
  mk_kprobe (kp_addr k) (pre_handler k) (post_handler k) (kp_bkpt k) (step_addr k) n (rp_handler k) (backup_addr k).
Definition with_backup (a : Z) (k : kprobe) : kprobe :=
  mk_kprobe (kp_addr k) (pre_handler k) (post_handler k) (kp_bkpt k) (step_addr k) (kp_next k) (rp_handler k) a.

(** [kp_list], the probes, the breakpoints and the stack of the exception. *)
Record kpstate := mk_kps {
  kp_list : Z;
  kprobes : gmap Z kprobe;
  bks : bkstate;
  stack : list Z;
}.

Definition REG_LR : Z := 5.
Definition REG_PC : Z := 6.

Definition set_list (p : Z) : M kpstate unit := modify (fun s => mk_kps p (kprobes s) (bks s) (stack s)).
Definition get_kp (p : Z) : M kpstate kprobe := fun s =>
  match kprobes s !! p with Some k => Done (k, s) | None => Fault end.
Definition upd_kp (p : Z) (f : kprobe -> kprobe) : M kpstate unit := fun s =>
  match kprobes s !! p with Some k => Done (tt, mk_kps (kp_list s) (<[p := f k]> (kprobes s)) (bks s) (stack s)) | None => Fault end.
Definition bk {A} : M bkstate A -> M kpstate A := zoom bks (fun b s => mk_kps (kp_list s) (kprobes s) b (stack s)).
Definition get_stack (r : Z) : M kpstate Z := fun s =>
  match zlookup (stack s) r with Some w => Done (w, s) | None => Fault end.

(** A bound for the length of a list of probes. *)
Definition probes_fuel (s : kpstate) : nat := S (size (kprobes s)).

(** ** The list *)

(** The loop of [kplist_search] from [cur] on. *)
Fixpoint search_probes (fuel : nat) (addr cur : Z) : M kpstate Z :=
  if cur =? NULL then mret NULL
  else
    match fuel with
    | O => fuel_out
    | S fuel => k ← get_kp cur; if kp_addr k =? addr then mret cur else search_probes fuel addr (kp_next k)
    end.
Definition kplist_search (addr : Z) : M kpstate Z :=
  fuel ← gets probes_fuel; cur ← gets kp_list; search_probes fuel addr cur.

Definition kplist_add (kp : Z) : M kpstate unit :=
  head ← gets kp_list; upd_kp kp (with_kp_next head);; set_list kp.

(** The loop of [kplist_del] from [cur] on. *)
Fixpoint unlink_probe (fuel : nat) (kp cur : Z) : M kpstate unit :=
  if cur =? NULL then mret tt
  else
    match fuel with
    | O => fuel_out
    | S fuel =>
        k ← get_kp cur;
        if kp_next k =? kp then x ← get_kp kp; upd_kp cur (with_kp_next (kp_next x))
        else unlink_probe fuel kp (kp_next k)
    end.
Definition kplist_del (kp : Z) : M kpstate unit :=
  fuel ← gets probes_fuel;
  head ← gets kp_list;
  if head =? kp then k ← get_kp kp; set_list (kp_next k) else unlink_probe fuel kp head.

Definition is_thumb32 (inst : Z) : bool := inst >=? 59392.

Section probes.
(** The address of the pool of breakpoints, and of the two handlers of the file. *)
Variables breakpoints pre_addr post_addr : Z.
Variable call : Z -> Z -> M kpstate Z.

(** ** [kprobes-arch.c] *)

Definition kprobe_arch_init : M kpstate unit := bk (breakpoint_pool_init breakpoints).

Definition kprobe_arch_add (kp : Z) : M kpstate Z :=
  k ← get_kp kp;
  found ← kplist_search (kp_addr k);
  if found =? NULL then
    b ← bk (breakpoint_install breakpoints (kp_addr k));
    if negb (b =? NULL) then
      upd_kp kp (with_bkpt b);;
      bk (enable_breakpoint breakpoints b);;
      mret 0
    else mret (-1)
  else
    x ← get_kp found;
    upd_kp kp (with_bkpt (kp_bkpt x));;
    mret 0.

Definition kprobe_arch_del (kp : Z) : M kpstate Z :=
  k ← get_kp kp;
  found ← kplist_search (kp_addr k);
  (if found =? NULL then bk (breakpoint_uninstall breakpoints (kp_bkpt k)) else mret tt);;
  mret 0.

(** ** [kprobes.c] *)

Definition kprobe_init : M kpstate unit := set_list NULL;; kprobe_arch_init.

Definition kprobe_register (kp : Z) : M kpstate Z :=
  upd_kp kp (fun k => with_addr (Z.land (kp_addr k) (not32 1)) k);;
  k ← get_kp kp;
  w ← bk (load16 (kp_addr k));
  upd_kp kp (with_step (add32 (kp_addr k) (if is_thumb32 w then 4 else 2)));;
  ret ← kprobe_arch_add kp;
  if ret <? 0 then mret (-1)
  else kplist_add kp;; mret 0.

Definition kprobe_unregister (kp : Z) : M kpstate Z :=
  kplist_del kp;;
  kprobe_arch_del kp;;
  mret 0.

Definition kretprobe_register (rp : Z) : M kpstate Z :=
  upd_kp rp (with_pre pre_addr);;
  upd_kp rp (with_post NULL);;
  kprobe_register rp.

Definition kretprobe_unregister (rp : Z) : M kpstate Z := kprobe_unregister rp.

Definition __kretprobe_post_handler (kp : Z) : M kpstate Z :=
  kprobe_unregister kp;;
  upd_kp kp (fun k => with_addr (backup_addr k) k);;
  kretprobe_register kp;;
  mret 0.

Definition __kretprobe_pre_handler (kp : Z) : M kpstate Z :=
  kprobe_unregister kp;;
  upd_kp kp (fun k => with_backup (kp_addr k) k);;
  lr ← get_stack REG_LR;
  upd_kp kp (with_addr lr);;
  upd_kp kp (fun k => with_pre (rp_handler k) k);;
  upd_kp kp (with_post post_addr);;
  kprobe_register kp;;
  mret 0.

(** A call of a handler. *)
Definition call_handler (h kp : Z) : M kpstate Z :=
  if h =? pre_addr then __kretprobe_pre_handler kp
  else if h =? post_addr then __kretprobe_post_handler kp
  else call h kp.

(** The loops over the list from [kp] on.  A handler may change the list, so the number of
    turns is a parameter. *)
Fixpoint prebreak_loop (fuel : nat) (kp : Z) : M kpstate unit :=
  if kp =? NULL then mret tt
  else
    match fuel with
    | O => fuel_out
    | S fuel =>
        k ← get_kp kp;
        pc ← get_stack REG_PC;
        (if (kp_addr k =? pc) && negb (pre_handler k =? NULL) then call_handler (pre_handler k) kp;; mret tt else mret tt);;
        k ← get_kp kp;
        prebreak_loop fuel (kp_next k)
    end.
Definition kprobe_prebreak (fuel : nat) : M kpstate unit := head ← gets kp_list; prebreak_loop fuel head.

Fixpoint postbreak_loop (fuel : nat) (kp : Z) : M kpstate unit :=
  if kp =? NULL then mret tt
  else
    match fuel with
    | O => fuel_out
    | S fuel =>
        k ← get_kp kp;
        pc ← get_stack REG_PC;
        (if (step_addr k =? pc) && negb (post_handler k =? NULL) then call_handler (post_handler k) kp;; mret tt else mret tt);;
        k ← get_kp kp;
        postbreak_loop fuel (kp_next k)
    end.
Definition kprobe_postbreak (fuel : nat) : M kpstate unit := head ← gets kp_list; postbreak_loop fuel head.

Fixpoint enable_loop (fuel : nat) (kp : Z) : M kpstate unit :=
  if kp =? NULL then mret tt
  else
    match fuel with
    | O => fuel_out
    | S fuel =>
        k ← get_kp kp;
        pc ← get_stack REG_PC;
        when (step_addr k =? pc) (bk (enable_breakpoint breakpoints (kp_bkpt k)));;
        enable_loop fuel (kp_next k)
    end.
Definition kprobe_breakpoint_enable : M kpstate unit :=
  fuel ← gets probes_fuel; head ← gets kp_list; enable_loop fuel head.

Fixpoint disable_loop (fuel : nat) (kp : Z) : M kpstate unit :=
  if kp =? NULL then mret tt
  else
    match fuel with
    | O => fuel_out
    | S fuel =>
        k ← get_kp kp;
        pc ← get_stack REG_PC;
        when (kp_addr k =? pc) (bk (disable_breakpoint breakpoints (kp_bkpt k)));;
        disable_loop fuel (kp_next k)
    end.
Definition kprobe_breakpoint_disable : M kpstate unit :=
  fuel ← gets probes_fuel; head ← gets kp_list; disable_loop fuel head.

(** The handler of the debug exception. *)
Definition arch_kprobe_handler (fuel : nat) : M kpstate unit :=
  dfsr ← gets (fun s => SCB_DFSR (bks s));
  if truth (Z.land dfsr SCB_DFSR_DWTTRAP) then panic
  else if truth (Z.land dfsr SCB_DFSR_BKPT) then
    kprobe_prebreak fuel;;
    bk (write_dfsr SCB_DFSR_BKPT);;
    bk cpu_enable_single_step;;
    kprobe_breakpoint_disable
  else if truth (Z.land dfsr SCB_DFSR_HALTED) then
    kprobe_postbreak fuel;;
    bk (write_dfsr SCB_DFSR_HALTED);;
    bk cpu_disable_single_step;;
    kprobe_breakpoint_enable
  else mret tt.
End probes.
