(* ===== verification/KprobesProps.v ===== *)
(** * Kernel probes: registration

    The list of probes, the invariant that ties probes to breakpoints, and that
    registration and removal keep it. *)

From S2P Require Import Prelude Breakpoint BreakpointProps Kprobes.

(** ** The list *)

(** The probes linked from [p] on. *)
Fixpoint klist (h : gmap Z kprobe) (p : Z) (ps : list Z) : Prop :=
  match ps with
  | [] => p = NULL
  | q :: ps => p = q /\ q <> NULL /\ exists k, h !! q = Some k /\ klist h (kp_next k) ps
  end.

Lemma klist_ext h h' ps : forall p, klist h p ps -> (forall q, q ∈ ps -> h' !! q = h !! q) -> klist h' p ps.
Proof.
  induction ps as [|q ps IH]; intros p Hp Hh; [done|]. destruct Hp as (-> & Hq & k & Hk & Hl). split; [done|]. split; [done|]. exists k.
  split; [rewrite Hh; [done|left]|]. apply IH; [done|]. intros r Hr. apply Hh. by right.
Qed.

Lemma klist_elem h ps : forall p q, klist h p ps -> q ∈ ps -> q <> NULL /\ is_Some (h !! q).
Proof.
  induction ps as [|r ps IH]; intros p q Hp Hq; [by apply not_elem_of_nil in Hq|]. destruct Hp as (-> & Hr & k & Hk & Hl).
  apply elem_of_cons in Hq as [->|Hq]; [split; [done|by exists k]|by apply (IH (kp_next k))].
Qed.

Lemma klist_length h p ps : klist h p ps -> NoDup ps -> (length ps <= size h)%nat.
Proof.
  intros Hp Hn. rewrite <- size_dom. rewrite <- (size_list_to_set (C := gset Z) ps Hn). apply subseteq_size.
  intros q Hq. apply elem_of_list_to_set in Hq. apply elem_of_dom. by eapply klist_elem in Hq as [_ ?].
Qed.

(** The first probe of the list at an address. *)
Definition probe_at (h : gmap Z kprobe) (addr q : Z) : Prop := exists k, h !! q = Some k /\ kp_addr k = addr.

Lemma search_probes_ok fuel addr : forall ps s cur, klist (kprobes s) cur ps -> (length ps <= fuel)%nat ->
  (exists q, search_probes fuel addr cur s = Done (q, s) /\ q ∈ ps /\ probe_at (kprobes s) addr q) \/
  (search_probes fuel addr cur s = Done (NULL, s) /\ forall q, q ∈ ps -> ~ probe_at (kprobes s) addr q).
Proof.
  induction fuel as [|fuel IH]; intros ps s cur Hl Hf; destruct ps as [|q ps]; cbn [search_probes length] in *; try lia.
  1, 2: rewrite Hl; right; split; [done|]; intros q Hq; by apply not_elem_of_nil in Hq.
  destruct Hl as (-> & Hq & k & Hk & Hl). destruct (Z.eqb_spec q NULL); [done|].
  rewrite (bind_Done (get_kp q) _ s k s) by (unfold get_kp; by rewrite Hk).
  destruct (Z.eqb_spec (kp_addr k) addr) as [<-|Hne]; [left; exists q; split; [done|split; [left|by exists k]]|].
  destruct (IH ps s (kp_next k) Hl ltac:(lia)) as [(r & E & Hr & Hp)|[E Hno]]; [left; exists r; split; [done|split; [by right|done]]|].
  right. split; [done|]. intros r Hr. apply elem_of_cons in Hr as [->|Hr]; [|by apply Hno]. intros (k' & Hk' & Ha). congruence.
Qed.

Lemma kplist_search_ok addr ps s : klist (kprobes s) (kp_list s) ps -> NoDup ps ->
  (exists q, kplist_search addr s = Done (q, s) /\ q ∈ ps /\ probe_at (kprobes s) addr q) \/
  (kplist_search addr s = Done (NULL, s) /\ forall q, q ∈ ps -> ~ probe_at (kprobes s) addr q).
Proof.
  intros Hl Hn. unfold kplist_search. rewrite (bind_Done (gets probes_fuel) _ s _ s eq_refl), (bind_Done (gets kp_list) _ s _ s eq_refl).
  apply search_probes_ok; [done|]. pose proof (klist_length _ _ _ Hl Hn). unfold probes_fuel. lia.
Qed.

Lemma upd_kp_ok p k f s : kprobes s !! p = Some k -> upd_kp p f s = Done (tt, mk_kps (kp_list s) (<[p := f k]> (kprobes s)) (bks s) (stack s)).
Proof. intros H. unfold upd_kp. by rewrite H. Qed.

Lemma get_kp_ok p k s : kprobes s !! p = Some k -> get_kp p s = Done (k, s).
Proof. intros H. unfold get_kp. by rewrite H. Qed.

(** What does not change when a probe is linked: its address and its breakpoint. *)
Definition same_core (h h' : gmap Z kprobe) : Prop :=
  forall q, (fun k => (kp_addr k, kp_bkpt k)) <$> h' !! q = (fun k => (kp_addr k, kp_bkpt k)) <$> h !! q.

Lemma same_core_refl h : same_core h h.
Proof. done. Qed.

Lemma same_core_next h q k n : h !! q = Some k -> same_core h (<[q := with_kp_next n k]> h).
Proof. intros Hq r. rewrite lookup_insert. case_decide as E; [by rewrite <- E, Hq|done]. Qed.

Lemma unlink_probe_ok p x fuel : forall l1 l2 s cur, klist (kprobes s) cur (l1 ++ p :: l2) -> NoDup (l1 ++ p :: l2) -> l1 <> [] ->
  kprobes s !! p = Some x -> (length l1 <= fuel)%nat ->
  exists h, unlink_probe fuel p cur s = Done (tt, mk_kps (kp_list s) h (bks s) (stack s)) /\ klist h cur (l1 ++ l2) /\ same_core (kprobes s) h /\
            forall q, q ∉ l1 -> h !! q = kprobes s !! q.
Proof.
  induction fuel as [|fuel IH]; intros l1 l2 s cur Hl Hn H1 Hx Hf; destruct l1 as [|c l1]; cbn [length] in Hf; try (done || lia).
  cbn [app] in Hl, Hn |- *. destruct Hl as (-> & Hc & k & Hk & Hl). apply NoDup_cons in Hn as [Hcn Hn]. cbn [unlink_probe].
  destruct (Z.eqb_spec c NULL); [done|]. rewrite (bind_Done _ _ _ _ _ (get_kp_ok c k s Hk)). destruct l1 as [|d l1]; cbn [app] in Hl, Hn, Hcn |- *.
  - destruct Hl as (E & Hp & x' & Hx' & Hl). assert (x' = x) as -> by congruence. rewrite E, Z.eqb_refl.
    rewrite (bind_Done _ _ _ _ _ (get_kp_ok p x s Hx)), (upd_kp_ok c k _ s Hk). eexists. split; [reflexivity|]. split; [|split; [by apply same_core_next|]].
    + split; [done|]. split; [done|]. eexists. split; [by rewrite lookup_insert_eq|]. cbn. eapply klist_ext; [exact Hl|].
      intros q Hq. rewrite lookup_insert_ne; [done|]. intros ->. apply Hcn. by right.
    + intros q Hq. rewrite lookup_insert_ne; [done|]. intros ->. apply Hq. left.
  - assert (Hd : kp_next k = d) by apply Hl. destruct (Z.eqb_spec (kp_next k) p) as [Ep|_].
    { exfalso. rewrite Ep in Hd. subst d. apply NoDup_cons in Hn as [Hn _]. apply Hn. apply elem_of_app. right. left. }
    destruct (IH (d :: l1) l2 s (kp_next k) Hl Hn ltac:(done) Hx ltac:(cbn [length] in *; lia)) as (h & E & Hh & Hs & Ho). exists h. split; [exact E|].
    split; [|split; [done|]].
    + split; [done|]. split; [done|]. exists k. split; [|done]. rewrite Ho; [done|]. intros Hin. apply Hcn. change (c ∈ (d :: l1) ++ p :: l2). apply elem_of_app. by left.
    + intros q Hq. apply Ho. intros Hin. apply Hq. by right.
Qed.

Lemma kplist_del_ok p x l1 l2 s : klist (kprobes s) (kp_list s) (l1 ++ p :: l2) -> NoDup (l1 ++ p :: l2) -> kprobes s !! p = Some x ->
  exists hd h, kplist_del p s = Done (tt, mk_kps hd h (bks s) (stack s)) /\ klist h hd (l1 ++ l2) /\ same_core (kprobes s) h /\ h !! p = Some x.
Proof.
  intros Hl Hn Hx. unfold kplist_del. rewrite (bind_Done (gets probes_fuel) _ s _ s eq_refl), (bind_Done (gets kp_list) _ s _ s eq_refl).
  pose proof (klist_length _ _ _ Hl Hn) as Hlen. rewrite length_app in Hlen. cbn [length] in Hlen. destruct l1 as [|c l1].
  - destruct Hl as (E & Hp & k & Hk & Hl). rewrite E, Z.eqb_refl. rewrite (bind_Done _ _ _ _ _ (get_kp_ok p k s Hk)).
    exists (kp_next k), (kprobes s). assert (k = x) as -> by congruence. done.
  - assert (Hhd : kp_list s = c) by apply Hl. destruct (Z.eqb_spec (kp_list s) p) as [Ep|_].
    { exfalso. rewrite Ep in Hhd. subst c. cbn [app] in Hn. apply NoDup_cons in Hn as [Hn _]. apply Hn. apply elem_of_app. right. left. }
    destruct (unlink_probe_ok p x (probes_fuel s) (c :: l1) l2 s (kp_list s) Hl Hn ltac:(done) Hx) as (h & E & Hh & Hs & Ho).
    { unfold probes_fuel. lia. }
    exists (kp_list s), h. split; [exact E|]. split; [done|]. split; [done|]. rewrite Ho; [done|].
    apply NoDup_app in Hn as (_ & Hn & _). intros Hin. apply (Hn p Hin). left.
Qed.

(** ** The invariant *)

Section probes.
Variables breakpoints pre_addr post_addr : Z.
Hypothesis Hbase : 0 < breakpoints.

(** A breakpoint in use at an address. *)
Definition in_use (s : bkstate) (i : nat) (a : Z) : Prop := exists x, pool s !! i = Some x /\ b_type x <> BKPT_NONE /\ b_addr x = a.

(** The probe [q] has the breakpoint [i], at its address. *)
Definition probed (h : gmap Z kprobe) (b : bkstate) (q : Z) (i : nat) : Prop :=
  exists k, h !! q = Some k /\ kp_bkpt k = bk_ptr breakpoints (Z.of_nat i) /\ in_use b i (kp_addr k).

(** [ps] are the probes in the list and [rs] the probes that have a breakpoint: the same,
    except in the middle of an operation. *)
Record kp_inv (s : kpstate) (ps rs : list Z) : Prop := {
  ki_list : klist (kprobes s) (kp_list s) ps;
  ki_nodup : NoDup ps;
  ki_bk : bk_inv (bks s);
  ki_comps : comps_ok (bks s);
  (** Each probe has a breakpoint at its address. *)
  ki_probe : forall q, q ∈ rs -> exists i, probed (kprobes s) (bks s) q i;
  (** There is one breakpoint at an address. *)
  ki_unique : forall i j a, in_use (bks s) i a -> in_use (bks s) j a -> i = j;
  (** Each breakpoint in use belongs to a probe. *)
  ki_used : forall i a, in_use (bks s) i a -> exists q, q ∈ rs /\ probed (kprobes s) (bks s) q i;
}.

Lemma bk_ptr_inj (i j : nat) : bk_ptr breakpoints (Z.of_nat i) = bk_ptr breakpoints (Z.of_nat j) -> i = j.
Proof. unfold bk_ptr, sizeof_breakpoint. lia. Qed.

Lemma bk_ptr_nonnull (i : nat) : bk_ptr breakpoints (Z.of_nat i) <> NULL.
Proof. unfold bk_ptr, sizeof_breakpoint, NULL. lia. Qed.

Lemma in_use_fun s i a b : in_use s i a -> in_use s i b -> a = b.
Proof. intros (x & Hx & _ & <-) (y & Hy & _ & <-). congruence. Qed.

Lemma probed_core h h' b q i : same_core h h' -> probed h b q i -> probed h' b q i.
Proof.
  intros Hs (k & Hk & Hb & Hu). specialize (Hs q). rewrite Hk in Hs. destruct (h' !! q) as [k'|] eqn:E; [|done].
  injection Hs as Ha Hb'. exists k'. split; [done|]. by rewrite Ha, Hb'.
Qed.

(** Changes of a probe that is not in the list. *)
Lemma kp_inv_outside s ps rs p k : kp_inv s ps rs -> p ∉ ps -> p ∉ rs -> kp_inv (mk_kps (kp_list s) (<[p := k]> (kprobes s)) (bks s) (stack s)) ps rs.
Proof.
  intros [H1 H2 H3 H4 H5 H6 H7] Hp Hr.
  assert (Hpr : forall q i, q ∈ rs -> probed (kprobes s) (bks s) q i -> probed (<[p := k]> (kprobes s)) (bks s) q i).
  { intros q i Hq (x & Hx & Hx'). exists x. split; [|done]. rewrite lookup_insert_ne; [done|]. by intros ->. }
  split; cbn; [|done|done|done| |done|].
  - eapply klist_ext; [exact H1|]. intros q Hq. rewrite lookup_insert_ne; [done|]. by intros ->.
  - intros q Hq. destruct (H5 q Hq) as [i Hi]. exists i. by apply Hpr.
  - intros i a Hi. destruct (H7 i a Hi) as (q & Hq & Hqi). exists q. split; [done|]. by apply Hpr.
Qed.

(** Changes of links. *)
Lemma kp_inv_relink s ps rs hd h ps' : kp_inv s ps rs -> klist h hd ps' -> NoDup ps' -> same_core (kprobes s) h ->
  kp_inv (mk_kps hd h (bks s) (stack s)) ps' rs.
Proof.
  intros [H1 H2 H3 H4 H5 H6 H7] Hl Hn Hs. split; cbn; [done|done|done|done| |done|].
  - intros q Hq. destruct (H5 q Hq) as [i Hi]. exists i. by eapply probed_core.
  - intros i a Hi. destruct (H7 i a Hi) as (q & Hq & Hqi). exists q. split; [done|]. by eapply probed_core.
Qed.

(** The probe [p] joins the list. *)
Lemma kp_inv_add s ps p k : kp_inv s ps (p :: ps) -> p ∉ ps -> p <> NULL -> kprobes s !! p = Some k ->
  exists s', kplist_add p s = Done (tt, s') /\ kp_inv s' (p :: ps) (p :: ps) /\ bks s' = bks s /\ same_core (kprobes s) (kprobes s').
Proof.
  intros HI Hp Hnull Hk. unfold kplist_add. rewrite (bind_Done (gets kp_list) _ s _ s eq_refl), (bind_Done _ _ _ _ _ (upd_kp_ok p k _ s Hk)).
  exists (mk_kps p (<[p := with_kp_next (kp_list s) k]> (kprobes s)) (bks s) (stack s)).
  split; [reflexivity|]. split; [|split; [done|by apply same_core_next]].
  apply (kp_inv_relink s ps); [done| |constructor; [done|apply HI]|by apply same_core_next].
  split; [done|]. split; [done|]. exists (with_kp_next (kp_list s) k). split; [apply lookup_insert_eq|]. cbn. eapply klist_ext; [apply HI|].
  intros q Hq. rewrite lookup_insert_ne; [done|]. by intros ->.
Qed.

(** The breakpoint of a new probe. *)
Lemma bk_Done {A} (m : M bkstate A) s a b : m (bks s) = Done (a, b) -> bk m s = Done (a, mk_kps (kp_list s) (kprobes s) b (stack s)).
Proof. intros E. unfold bk, zoom. by rewrite E. Qed.

Lemma in_use_insert s s' i y j a : pool s' = <[i := y]> (pool s) -> j <> i -> in_use s' j a <-> in_use s j a.
Proof. intros E Hj. unfold in_use. by rewrite E, list_lookup_insert_ne. Qed.

Lemma in_use_pool s i a : in_use s i a -> is_Some (pool s !! i).
Proof. intros (x & Hx & _). by exists x. Qed.

Lemma kprobe_arch_add_ok s ps p k : kp_inv s ps ps -> p ∉ ps -> kprobes s !! p = Some k -> probeable (bks s) (kp_addr k) ->
  (exists s', kprobe_arch_add breakpoints p s = Done (0, s') /\ kp_inv s' ps (p :: ps) /\ (exists k', kprobes s' !! p = Some k' /\ kp_addr k' = kp_addr k) /\
     (forall q, q <> p -> kprobes s' !! q = kprobes s !! q) /\ (forall c, is_Some (code (bks s) !! c) -> is_Some (code (bks s') !! c))) \/
  (kprobe_arch_add breakpoints p s = Done (-1, s)).
Proof.
  intros HI Hp Hk Ha. unfold kprobe_arch_add. rewrite (bind_Done _ _ _ _ _ (get_kp_ok p k s Hk)).
  destruct (kplist_search_ok (kp_addr k) ps s (ki_list _ _ _ HI) (ki_nodup _ _ _ HI)) as [(q & E & Hq & kq & Hkq & Haq)|[E Hno]]; rewrite (bind_Done _ _ _ _ _ E).
  - left. destruct (klist_elem _ _ _ q (ki_list _ _ _ HI) Hq) as [Hqn _]. destruct (Z.eqb_spec q NULL); [done|].
    rewrite (bind_Done _ _ _ _ _ (get_kp_ok q kq s Hkq)), (bind_Done _ _ _ _ _ (upd_kp_ok p k _ s Hk)).
    eexists. split; [reflexivity|]. split; [|split; [eexists; split; [apply lookup_insert_eq|done]|split; [intros r Hr; by apply lookup_insert_ne|done]]].
    destruct (kp_inv_outside s ps ps p (with_bkpt (kp_bkpt kq) k) HI Hp Hp) as [H1 H2 H3 H4 H5 H6 H7]. split; [done|done|done|done| |done|].
    + intros r Hr. apply elem_of_cons in Hr as [->|Hr]; [|by apply H5]. destruct (ki_probe _ _ _ HI q Hq) as (i & kq' & Hkq' & Hb & Hu).
      assert (kq' = kq) as -> by congruence. exists i. eexists. split; [cbn; by rewrite lookup_insert_eq|]. cbn. split; [done|]. by rewrite <- Haq.
    + intros i a Hi. destruct (H7 i a Hi) as (r & Hr & Hri). exists r. split; [by right|done].
  - change (NULL =? NULL) with true. cbv iota.
    destruct (install_enable_ok breakpoints (kp_addr k) (bks s) (ki_bk _ _ _ HI) (ki_comps _ _ _ HI) Ha) as [En|(i & x & b1 & b2 & E1 & E2 & Hx & Ht & HI2 & HC2 & (y & Hy & Hty & Hay) & _ & Hcode)].
    { right. rewrite (bind_Done _ _ _ _ _ (bk_Done _ s _ _ En)). by destruct s. }
    left. rewrite (bind_Done _ _ _ _ _ (bk_Done _ s _ _ E1)). destruct (Z.eqb_spec (bk_ptr breakpoints (Z.of_nat i)) NULL) as [E0|_]; [by apply bk_ptr_nonnull in E0|].
    cbn [negb]. set (s1 := mk_kps (kp_list s) (kprobes s) b1 (stack s)). rewrite (bind_Done _ _ _ _ _ (upd_kp_ok p k _ s1 Hk)).
    set (s2 := mk_kps _ _ _ _). rewrite (bind_Done _ _ _ _ _ (bk_Done _ s2 _ _ E2)). eexists. split; [reflexivity|].
    split; [|split; [eexists; split; [apply lookup_insert_eq|done]|split; [intros r Hr; by apply lookup_insert_ne|done]]].
    assert (Hnew : in_use b2 i (kp_addr k)).
    { exists y. split; [|done]. rewrite Hy. apply list_lookup_insert_eq. by eapply lookup_lt_Some. }
    assert (Hold : ~ exists a, in_use (bks s) i a) by (intros (a & z & Hz & Htz & _); congruence).
    assert (Hfree : forall j, ~ in_use (bks s) j (kp_addr k)).
    { intros j Hj. destruct (ki_used _ _ _ HI j _ Hj) as (q & Hq & kq & Hkq & _ & Hu). apply (Hno q Hq). exists kq. split; [done|]. by eapply in_use_fun. }
    destruct (kp_inv_outside s ps ps p (with_bkpt (bk_ptr breakpoints (Z.of_nat i)) k) HI Hp Hp) as [H1 H2 H3 H4 H5 H6 H7]. cbn in *.
    assert (Hpr : forall q j, probed (<[p := with_bkpt (bk_ptr breakpoints (Z.of_nat i)) k]> (kprobes s)) (bks s) q j ->
                              probed (<[p := with_bkpt (bk_ptr breakpoints (Z.of_nat i)) k]> (kprobes s)) b2 q j).
    { intros q j (kq & Hkq & Hb & Hu). exists kq. split; [done|]. split; [done|]. apply (in_use_insert (bks s) b2 i y); [done| |done]. intros ->. apply Hold. by eexists. }
    assert (Hpi : probed (<[p := with_bkpt (bk_ptr breakpoints (Z.of_nat i)) k]> (kprobes s)) b2 p i).
    { eexists. split; [apply lookup_insert_eq|]. done. }
    split; cbn; [done|done|done|done| | |].
    + intros q Hq. apply elem_of_cons in Hq as [->|Hq]; [by exists i|]. destruct (H5 q Hq) as [j Hj]. exists j. by apply Hpr.
    + intros j j' a Hj Hj'. destruct (decide (j = i)) as [->|Hji], (decide (j' = i)) as [->|Hji']; [done|..].
      * apply (in_use_insert (bks s) b2 i y) in Hj'; [|done|done]. assert (a = kp_addr k) as -> by (exact (in_use_fun _ _ _ _ Hj Hnew)). by apply Hfree in Hj'.
      * apply (in_use_insert (bks s) b2 i y) in Hj; [|done|done]. assert (a = kp_addr k) as -> by (exact (in_use_fun _ _ _ _ Hj' Hnew)). by apply Hfree in Hj.
      * apply (in_use_insert (bks s) b2 i y) in Hj, Hj'; [|done..]. by eapply H6.
    + intros j a Hj. destruct (decide (j = i)) as [->|Hji]; [exists p; split; [left|done]|].
      apply (in_use_insert (bks s) b2 i y) in Hj; [|done|done]. destruct (H7 j a Hj) as (q & Hq & Hqj). exists q. split; [by right|by apply Hpr].
Qed.

(** ** Registration *)

(** What a client gives to [kprobe_register]: a probe that is not registered, at an
    instruction. *)
Definition admissible (s : kpstate) (ps : list Z) (p : Z) : Prop :=
  p <> NULL /\ (p ∉ ps) /\ exists k, kprobes s !! p = Some k /\ 0 <= kp_addr k < 2 ^ 32 /\ is_Some (code (bks s) !! Z.land (kp_addr k) (not32 1)).

Lemma aligned_addr a : 0 <= a < 2 ^ 32 -> 0 <= Z.land a (not32 1) /\ Z.testbit (Z.land a (not32 1)) 0 = false.
Proof.
  intros Ha. split; [apply Z.land_nonneg; left; lia|]. rewrite Z.land_spec. apply andb_false_r.
Qed.

Lemma kprobe_register_ok s ps p : kp_inv s ps ps -> admissible s ps p ->
  exists r s', kprobe_register breakpoints p s = Done (r, s') /\
    (r = 0 /\ kp_inv s' (p :: ps) (p :: ps) \/ r = -1 /\ kp_inv s' ps ps).
Proof.
  intros HI (Hnull & Hp & k & Hk & Hr & w & Hw). set (a := Z.land (kp_addr k) (not32 1)) in *.
  destruct (aligned_addr (kp_addr k) Hr) as [Ha0 Ha1]. change (Z.land (kp_addr k) (not32 1)) with a in Ha0, Ha1.
  unfold kprobe_register. rewrite (bind_Done _ _ _ _ _ (upd_kp_ok p k _ s Hk)). change (Z.land (kp_addr k) (not32 1)) with a.
  set (k1 := with_addr a k). pose proof (kp_inv_outside s ps ps p k1 HI Hp Hp) as HI1. set (s1 := mk_kps _ _ _ _) in *.
  assert (Hk1 : kprobes s1 !! p = Some k1) by apply lookup_insert_eq.
  rewrite (bind_Done _ _ _ _ _ (get_kp_ok p k1 s1 Hk1)). change (kp_addr k1) with a.
  assert (El : bk (load16 a) s1 = Done (w, s1)) by (unfold bk, zoom, load16; change (code (bks s1)) with (code (bks s)); by rewrite Hw).
  rewrite (bind_Done _ _ _ _ _ El), (bind_Done _ _ _ _ _ (upd_kp_ok p k1 _ s1 Hk1)). set (k2 := with_step _ k1).
  pose proof (kp_inv_outside s1 ps ps p k2 HI1 Hp Hp) as HI2. set (s2 := mk_kps _ _ (bks s1) _) in *.
  assert (Hk2 : kprobes s2 !! p = Some k2) by apply lookup_insert_eq.
  assert (Hpa : probeable (bks s2) (kp_addr k2)).
  { change (kp_addr k2) with a. change (bks s2) with (bks s). destruct (Z.lt_ge_cases a 536870912); [left; split; [lia|done]|right; split; [done|by exists w]]. }
  destruct (kprobe_arch_add_ok s2 ps p k2 HI2 Hp Hk2 Hpa) as [(s3 & E & HI3 & (k3 & Hk3 & _) & _)|E]; rewrite (bind_Done _ _ _ _ _ E).
  - destruct (kp_inv_add s3 ps p k3 HI3 Hp Hnull Hk3) as (s4 & E4 & HI4 & _). exists 0, s4. split; [|by left]. cbn [Z.ltb Z.compare].
    by rewrite (bind_Done _ _ _ _ _ E4).
  - exists (-1), s2. split; [done|]. by right.
Qed.

(** Releasing the breakpoint of a probe that is no longer in the list, when no other probe
    is at its address. *)
Lemma kp_inv_release s ps p i b x : kp_inv s ps (p :: ps) -> p ∉ ps -> probed (kprobes s) (bks s) p i -> pool (bks s) !! i = Some x ->
  (forall q, q ∈ ps -> ~ probe_at (kprobes s) (b_addr x) q) -> bk_inv b -> comps_ok b -> pool b = <[i := free_bk x]> (pool (bks s)) ->
  kp_inv (mk_kps (kp_list s) (kprobes s) b (stack s)) ps ps.
Proof.
  intros [H1 H2 H3 H4 H5 H6 H7] Hp (k & Hk & Hb & Hu) Hx Hno HB HC Hpool.
  assert (Hi : forall j a, in_use b j a -> j <> i /\ in_use (bks s) j a).
  { intros j a Hj. destruct (decide (j = i)) as [->|Hji]; [|split; [done|exact (proj1 (in_use_insert _ _ _ _ _ _ Hpool Hji) Hj)]].
    destruct Hj as (y & Hy & Ht & _). rewrite Hpool, list_lookup_insert_eq in Hy by (by eapply lookup_lt_Some). by injection Hy as <-. }
  assert (Ho : forall j a, j <> i -> in_use (bks s) j a -> in_use b j a) by (intros j a Hj; exact (proj2 (in_use_insert _ _ _ _ _ _ Hpool Hj))).
  assert (Hq : forall q j, q ∈ ps -> probed (kprobes s) (bks s) q j -> probed (kprobes s) b q j).
  { intros q j Hq (kq & Hkq & Hbq & Huq). exists kq. split; [done|]. split; [done|]. apply Ho; [|done]. intros ->. apply (Hno q Hq). exists kq.
    split; [done|]. destruct Huq as (z & Hz & _ & <-). congruence. }
  split; cbn; [done|done|done|done| | |].
  - intros q Hin. destruct (H5 q) as [j Hj]; [by right|]. exists j. by apply Hq.
  - intros j j' a Hj Hj'. apply Hi in Hj as [_ Hj], Hj' as [_ Hj']. by eapply H6.
  - intros j a Hj. apply Hi in Hj as [Hji Hj]. destruct (H7 j a Hj) as (q & Hin & Hqj). apply elem_of_cons in Hin as [->|Hin].
    + exfalso. apply Hji. destruct Hqj as (k' & Hk' & Hb' & _). assert (k' = k) as -> by congruence. apply bk_ptr_inj. congruence.
    + exists q. split; [done|]. by apply Hq.
Qed.

Lemma kp_inv_share s ps p q : kp_inv s ps (p :: ps) -> q ∈ ps -> (exists i, probed (kprobes s) (bks s) p i /\ probed (kprobes s) (bks s) q i) -> kp_inv s ps ps.
Proof.
  intros [H1 H2 H3 H4 H5 H6 H7] Hq (i & (k & Hk & Hb & _) & Hqi). split; [done|done|done|done| |done|].
  - intros r Hr. apply H5. by right.
  - intros j a Hj. destruct (H7 j a Hj) as (r & Hr & Hrj). apply elem_of_cons in Hr as [->|Hr]; [|by exists r]. exists q. split; [done|].
    destruct Hrj as (k' & Hk' & Hb' & _). assert (k' = k) as -> by congruence. by assert (j = i) as -> by (apply bk_ptr_inj; congruence).
Qed.

Lemma kprobe_arch_del_ok s ps p : kp_inv s ps (p :: ps) -> p ∉ ps -> exists s', kprobe_arch_del breakpoints p s = Done (0, s') /\ kp_inv s' ps ps.
Proof.
  intros HI Hp. destruct (ki_probe _ _ _ HI p) as (i & Hpi); [left|]. pose proof Hpi as (k & Hk & Hb & x & Hx & Ht & Ha).
  unfold kprobe_arch_del. rewrite (bind_Done _ _ _ _ _ (get_kp_ok p k s Hk)).
  destruct (kplist_search_ok (kp_addr k) ps s (ki_list _ _ _ HI) (ki_nodup _ _ _ HI)) as [(q & E & Hq & kq & Hkq & Haq)|[E Hno]]; rewrite (bind_Done _ _ _ _ _ E).
  - destruct (klist_elem _ _ _ q (ki_list _ _ _ HI) Hq) as [Hqn _]. destruct (Z.eqb_spec q NULL); [done|]. exists s. split; [done|].
    apply (kp_inv_share s ps p q HI Hq). exists i. split; [done|]. destruct (ki_probe _ _ _ HI q) as (j & Hqj); [by right|].
    pose proof Hqj as (kq' & Hkq' & _ & Huq). assert (kq' = kq) as -> by congruence.
    by assert (j = i) as <- by (eapply (ki_unique _ _ _ HI); [exact Huq|rewrite Haq; by exists x]).
  - change (NULL =? NULL) with true. cbv iota. rewrite Hb.
    destruct (uninstall_ok breakpoints i x (bks s) (ki_bk _ _ _ HI) (ki_comps _ _ _ HI) Hx Ht) as (b & Eu & HB & HC & Hpool & _).
    rewrite (bind_Done _ _ _ _ _ (bk_Done _ s _ _ Eu)). eexists. split; [reflexivity|]. apply (kp_inv_release s ps p i b x); [done|done|done|done| |done|done|done].
    by rewrite Ha.
Qed.

Lemma kprobe_unregister_ok s l1 l2 p : kp_inv s (l1 ++ p :: l2) (l1 ++ p :: l2) ->
  exists s', kprobe_unregister breakpoints p s = Done (0, s') /\ kp_inv s' (l1 ++ l2) (l1 ++ l2).
Proof.
  intros HI. pose proof (ki_nodup _ _ _ HI) as Hn. pose proof (Permutation_middle l1 l2 p) as HP.
  destruct (klist_elem _ _ _ p (ki_list _ _ _ HI)) as [_ [x Hx]]; [apply elem_of_app; right; left|].
  destruct (kplist_del_ok p x l1 l2 s (ki_list _ _ _ HI) Hn Hx) as (hd & h & E & Hl & Hs & _).
  rewrite <- HP in Hn. apply NoDup_cons in Hn as [Hp Hn].
  pose proof (kp_inv_relink s _ _ hd h (l1 ++ l2) HI Hl Hn Hs) as HI1. set (s1 := mk_kps _ _ _ _) in *.
  assert (HI2 : kp_inv s1 (l1 ++ l2) (p :: l1 ++ l2)).
  { destruct HI1 as [H1 H2 H3 H4 H5 H6 H7]. split; [done|done|done|done| |done|].
    - intros q Hq. apply H5. by rewrite <- HP.
    - intros i a Hi. destruct (H7 i a Hi) as (q & Hq & Hqi). exists q. split; [by rewrite HP|done]. }
  destruct (kprobe_arch_del_ok s1 (l1 ++ l2) p HI2 Hp) as (s2 & E2 & HI3). exists s2. split; [|done]. unfold kprobe_unregister.
  by rewrite (bind_Done _ _ _ _ _ E), (bind_Done _ _ _ _ _ E2).
Qed.

(** ** From the start on *)

(** The memory at the start: the pool is in the zeroed segment. *)
Record kp_start (s : kpstate) : Prop := {
  ks_pool : length (pool (bks s)) = 10%nat;
  ks_none : forall i x, pool (bks s) !! i = Some x -> b_type x = BKPT_NONE;
  ks_hard : length (hard_breakpoints (bks s)) = 6%nat;
  ks_comp : length (FPB_COMP (bks s)) = 6%nat;
}.

Lemma reset_pool_ok k : forall (i : nat) s, (i + k <= length (pool s))%nat -> (forall j x, pool s !! j = Some x -> b_type x = BKPT_NONE) ->
  exists p, reset_pool breakpoints k (Z.of_nat i) s = Done (tt, with_pool p s) /\ length p = length (pool s) /\ forall j x, p !! j = Some x -> b_type x = BKPT_NONE.
Proof.
  induction k as [|k IH]; intros i s Hk Hn; cbn [reset_pool].
  - exists (pool s). by destruct s.
  - destruct (lookup_lt_is_Some_2 (pool s) i) as [x Hx]; [lia|]. rewrite (bind_Done _ _ _ _ _ (upd_bk_ok breakpoints i x _ s Hx)).
    replace (Z.of_nat i + 1) with (Z.of_nat (S i)) by lia. set (s1 := with_pool _ s).
    destruct (IH (S i) s1) as (p & E & Hp & Hpn); [cbn; rewrite length_insert; lia| |].
    + intros j y Hy. cbn in Hy. apply list_lookup_insert_Some in Hy as [(_ & <- & _)|[_ Hy]]; [done|by eapply Hn].
    + exists p. split; [exact E|]. split; [|done]. rewrite Hp. apply length_insert.
Qed.

Lemma reset_comps_ok s : length (hard_breakpoints s) = 6%nat -> length (FPB_COMP s) = 6%nat ->
  reset_comps (Z.to_nat FPB_MAX_COMP) 0 s = Done (tt, with_comp (replicate 6 0) (with_hard (replicate 6 (-1)) s)).
Proof.
  destruct s as [p h c ct d f hf cd]. cbn. intros Hh Hc.
  do 6 (destruct h as [|? h]; [done|]; destruct c as [|? c]; [done|]). destruct h; [|done]. destruct c; [|done]. reflexivity.
Qed.

Lemma kprobe_init_ok s : kp_start s -> exists s', kprobe_init breakpoints s = Done (tt, s') /\ kp_inv s' [] [] /\ kprobes s' = kprobes s.
Proof.
  intros [H1 H2 H3 H4]. destruct (reset_pool_ok 6 0 (bks s)) as (p & E & Hp & Hn); [lia|done|].
  set (b1 := with_pool p (bks s)) in *. unfold kprobe_init, kprobe_arch_init, breakpoint_pool_init, hard_breakpoint_pool_init.
  set (s1 := mk_kps NULL (kprobes s) (bks s) (stack s)). rewrite (bind_Done (set_list NULL) _ s tt s1 eq_refl).
  assert (Hb : exists b, (reset_pool breakpoints (Z.to_nat FPB_MAX_COMP) 0;; hard_breakpoint_pool_init) (bks s1) = Done (tt, b) /\
                 pool b = p /\ hard_breakpoints b = replicate 6 (-1) /\ FPB_COMP b = replicate 6 0).
  { change (bks s1) with (bks s). rewrite (bind_Done _ _ _ _ _ E). unfold hard_breakpoint_pool_init, write_hfsr, write_dfsr, modify. unfold mbind, M_bind.
    rewrite reset_comps_ok by done. eexists. by split. }
  destruct Hb as (b & Eb & Hpb & Hhb & Hcb). eexists. split; [exact (bk_Done _ s1 _ _ Eb)|]. split; [|done].
  assert (Hno : forall i a, ~ in_use b i a) by (intros i a (x & Hx & Ht & _); rewrite Hpb in Hx; by apply Ht, (Hn i)).
  split; cbn; [done|constructor| | | | |].
  - split; [by rewrite Hpb, Hp|by rewrite Hhb|by rewrite Hcb| |].
    + intros i x Hx Ht. rewrite Hpb in Hx. by apply Hn in Hx.
    + intros hid v Hv. rewrite Hhb in Hv. apply lookup_replicate in Hv as [-> _]. by left.
  - intros hid v c Hv Hc. rewrite Hhb in Hv. rewrite Hcb in Hc. apply lookup_replicate in Hv as [-> _], Hc as [-> _]. done.
  - intros q Hq. by apply not_elem_of_nil in Hq.
  - intros i j a Hi. by apply Hno in Hi.
  - intros i a Hi. by apply Hno in Hi.
Qed.

(** The states after the start and any calls of [kprobe_register] and [kprobe_unregister],
    with the probes that are registered.  Between two calls a client may change a probe
    that is not registered. *)
Inductive kp_reach : kpstate -> list Z -> Prop :=
| reach_init s s' : kp_start s -> kprobe_init breakpoints s = Done (tt, s') -> kp_reach s' []
| reach_client s ps p k : kp_reach s ps -> p ∉ ps -> kp_reach (mk_kps (kp_list s) (<[p := k]> (kprobes s)) (bks s) (stack s)) ps
| reach_register s ps p s' : kp_reach s ps -> admissible s ps p -> kprobe_register breakpoints p s = Done (0, s') -> kp_reach s' (p :: ps)
| reach_refused s ps p s' : kp_reach s ps -> admissible s ps p -> kprobe_register breakpoints p s = Done (-1, s') -> kp_reach s' ps
| reach_unregister s l1 l2 p s' : kp_reach s (l1 ++ p :: l2) -> kprobe_unregister breakpoints p s = Done (0, s') -> kp_reach s' (l1 ++ l2).

Lemma kp_reach_inv s ps : kp_reach s ps -> kp_inv s ps ps.
Proof.
  induction 1 as [s s' Hs E|s ps p k _ IH Hp|s ps p s' _ IH Ha E|s ps p s' _ IH Ha E|s l1 l2 p s' _ IH E].
  - destruct (kprobe_init_ok s Hs) as (s'' & E' & H & _). rewrite E in E'. by injection E' as <-.
  - by apply kp_inv_outside.
  - destruct (kprobe_register_ok s ps p IH Ha) as (r & s'' & E' & [[-> H]|[-> H]]); rewrite E in E'; [by injection E' as <-|done].
  - destruct (kprobe_register_ok s ps p IH Ha) as (r & s'' & E' & [[-> H]|[-> H]]); rewrite E in E'; [done|by injection E' as <-].
  - destruct (kprobe_unregister_ok s l1 l2 p IH) as (s'' & E' & H). rewrite E in E'. by injection E' as <-.
Qed.

(** C27. After the start and any calls of [kprobe_register] and [kprobe_unregister], a
    comparator of the flash patch unit watches an instruction of read-only memory exactly when
    a registered probe is there: a breakpoint is shared by the probes at its address and
    released with the last of them.  In such a state the registration of a probe that is not
    registered returns 0 or -1, and the removal of one that is returns 0. *)
Theorem kprobes_armed s ps : kp_reach s ps ->
  (forall a, rom_addr a -> (exists hid c, FPB_COMP (bks s) !! hid = Some c /\ watches c = Some a) <-> (exists p, p ∈ ps /\ probe_at (kprobes s) a p)) /\
  (forall p, admissible s ps p -> exists r s', kprobe_register breakpoints p s = Done (r, s') /\ (r = 0 \/ r = -1)) /\
  (forall p, p ∈ ps -> exists s', kprobe_unregister breakpoints p s = Done (0, s')).
Proof.
  intros Hr. apply kp_reach_inv in Hr as HI. split; [|split].
  - intros a Ha. rewrite (armed_iff (bks s) a (ki_bk _ _ _ HI) (ki_comps _ _ _ HI) Ha). split.
    + intros (i & Hi). destruct (ki_used _ _ _ HI i a Hi) as (q & Hq & k & Hk & _ & Hu). exists q. split; [done|]. exists k.
      split; [done|]. exact (in_use_fun _ _ _ _ Hu Hi).
    + intros (p & Hp & k & Hk & <-). destruct (ki_probe _ _ _ HI p Hp) as (i & k' & Hk' & _ & Hu). exists i. by assert (k' = k) as -> by congruence.
  - intros p Hp. destruct (kprobe_register_ok s ps p HI Hp) as (r & s' & E & [[-> _]|[-> _]]); [by exists 0, s'; split; [|left]|by exists (-1), s'; split; [|right]].
  - intros p Hp. apply list_elem_of_split in Hp as (l1 & l2 & ->). destruct (kprobe_unregister_ok s l1 l2 p HI) as (s' & E & _). by exists s'.
Qed.
End probes.

(** ** Concrete runs *)

Definition zero_bkpt : breakpoint := mk_bkpt BKPT_NONE 0 0 NO_OPS.
Definition zero_bks (c : gmap Z Z) : bkstate := mk_bks (replicate 10 zero_bkpt) (replicate 6 0) (replicate 6 0) 0 0 0 0 c.
Definition sample_probe (a : Z) : kprobe := mk_kprobe a 0 0 0 0 0 0 0.

(** Two probes at an instruction of the flash and one in memory. *)
Definition probes_start : kpstate :=
  mk_kps 0 (list_to_map [(100, sample_probe 134217985); (200, sample_probe 134217984); (300, sample_probe 536870912)])
    (zero_bks (list_to_map [(134217984, 46080); (536870912, 46080)])) [].
Definition probes_after (m : M kpstate unit) : kpstate := match m probes_start with Done (_, s) => s | _ => probes_start end.
Definition probes_two : kpstate := probes_after (kprobe_init 1000;; kprobe_register 1000 100;; kprobe_register 1000 200;; mret tt).

Lemma probes_two_reach : kp_reach 1000 probes_two [200; 100].
Proof.
  assert (H0 : kp_reach 1000 (probes_after (kprobe_init 1000)) []).
  { eapply (reach_init 1000 probes_start); [|vm_compute; reflexivity]. split; [done| |done|done].
    intros i x Hx. change (replicate 10 zero_bkpt !! i = Some x) in Hx. by apply lookup_replicate in Hx as [-> _]. }
  assert (H1 : kp_reach 1000 (probes_after (kprobe_init 1000;; kprobe_register 1000 100;; mret tt)) [100]).
  { eapply reach_register; [exact H0| |vm_compute; reflexivity]. split; [done|]. split; [apply not_elem_of_nil|].
    eexists. split; [vm_compute; reflexivity|]. split; [done|]. eexists. vm_compute. reflexivity. }
  eapply reach_register; [exact H1| |vm_compute; reflexivity]. split; [done|]. split; [intros H; apply list_elem_of_singleton in H; done|].
  eexists. split; [vm_compute; reflexivity|]. split; [done|]. eexists. vm_compute. reflexivity.
Qed.

Lemma kprobes_armed_witness :
  (exists hid c, FPB_COMP (bks probes_two) !! hid = Some c /\ watches c = Some 134217984) /\
  (exists s', kprobe_unregister 1000 100 probes_two = Done (0, s')).
Proof.
  destruct (kprobes_armed 1000 ltac:(lia) probes_two [200; 100] probes_two_reach) as (H1 & _ & H3). split.
  - apply (H1 134217984 ltac:(done)). exists 100. split; [right; left|]. eexists. by split; [vm_compute; reflexivity|].
  - apply H3. right. left.
Defined.

(** A breakpoint in memory stays there when its probe is removed: the instruction it
    replaced is not restored. *)
Lemma soft_release_leaves_bkpt :
  exists s, (kprobe_init 1000;; kprobe_register 1000 300;; kprobe_unregister 1000 300) probes_start = Done (0, s) /\
            code (bks probes_start) !! 536870912 = Some 46080 /\ code (bks s) !! 536870912 = Some 48657 /\ kp_list s = NULL.
Proof. eexists. split; [vm_compute; reflexivity|]. by vm_compute. Qed.

(** A handler that counts its calls in the probe. *)
Definition counting (_ kp : Z) : M kpstate Z := upd_kp kp (fun k => with_backup (backup_addr k + 1) k);; mret 0.

(** The probe of a function's return moves to the head of the list when it is hit, and the
    loop goes on from there: a probe before it is called a second time. *)
Definition retprobe_start : kpstate :=
  mk_kps 0 (list_to_map [(100, mk_kprobe 134217984 77 0 0 0 0 0 0); (200, mk_kprobe 134217984 0 0 0 0 0 77 0)])
    (zero_bks (list_to_map [(134217984, 46080); (134218000, 46080)])) [0; 0; 0; 0; 0; 134218001; 134217984; 0].
Lemma prebreak_calls_twice :
  exists s k, (kprobe_init 1000;; kretprobe_register 1000 10 200;; kprobe_register 1000 100;; kprobe_prebreak 1000 10 20 counting 5) retprobe_start = Done (tt, s) /\
              kprobes s !! 100 = Some k /\ backup_addr k = 2.
Proof. eexists _, _. split; [vm_compute; reflexivity|]. split; [vm_compute; reflexivity|]. done. Qed.
