(* ===== verification/Sampling.v ===== *)
(** * The sampling profiler

    Models [kernel/sampling.c] and [kernel/sampling-kdb.c]: the buffer of sampled addresses, the
    count of the samples of each symbol, and the command of the debugger that takes the samples
    by a kernel probe at the timer's handler and shows the symbols with the most samples.

    The static arrays are in a memory of bytes, since [sort] works on bytes; their addresses are
    variables. *)

From S2P Require Import Prelude Bytes Sort Ksym Breakpoint Kprobes.

(** ** [sampling.c] *)

Definition MAX_SAMPLING_COUNT : Z := 10240.
Definition MAX_KSYM : Z := 512.

(** The memory of the arrays, the variables of the file and the symbol table. *)
Record sampling := mk_sampling {
  sa_mem : bytes;
  sampled_count : Z;
  sampling_enabled : Z;
  sa_syms : ksyms;
}.

Definition in_mem {A} : M bytes A -> M sampling A :=
  zoom sa_mem (fun m s => mk_sampling m (sampled_count s) (sampling_enabled s) (sa_syms s)).
Definition in_syms {A} : M ksyms A -> M sampling A :=
  zoom sa_syms (fun k s => mk_sampling (sa_mem s) (sampled_count s) (sampling_enabled s) k).
Definition set_sampled (c : Z) : M sampling unit := modify (fun s => mk_sampling (sa_mem s) c (sampling_enabled s) (sa_syms s)).
Definition set_enabled (e : Z) : M sampling unit := modify (fun s => mk_sampling (sa_mem s) (sampled_count s) e (sa_syms s)).

Section arrays.
(** The addresses of the static arrays. *)
Variables sampled_pc ksym_hitcount ksymid_sortedlist : Z.

Definition sampling_enable : M sampling unit := set_enabled 1.
Definition sampling_disable : M sampling unit := set_enabled 0.

(** [for (; i < ...; i++) sampled_pc[i] = 0;] for [k] elements from [i] on. *)
Fixpoint clear_samples (k : nat) (i : Z) : M bytes unit :=
  match k with
  | O => mret tt
  | S k => write32 (sampled_pc + i * 4) 0;; clear_samples k (i + 1)
  end.

(** The text about too many symbols is left out. *)
Definition sampling_init : M sampling unit :=
  total ← in_syms ksym_total;
  if total >? MAX_KSYM then mret tt
  else
    in_mem (clear_samples (Z.to_nat MAX_SAMPLING_COUNT) 0);;
    set_sampled 0.

Definition sampled_pcpush (pc : Z) : M sampling unit :=
  enabled ← gets sampling_enabled;
  if enabled =? 0 then mret tt
  else
    count ← gets sampled_count;
    when (count =? MAX_SAMPLING_COUNT) (set_sampled 0);;
    count ← gets sampled_count;
    set_sampled (count + 1);;
    in_mem (write32 (sampled_pc + count * 4) pc).

(** The difference of two [int]s, with the wrap-around of the processor. *)
Definition cmp_addr (p1 p2 : Z) : M bytes Z :=
  x ← read32 p1; y ← read32 p2; mret (s32 (s32 x - s32 y)).

Definition cmp_symhit (p1 p2 : Z) : M bytes Z :=
  symid2 ← read32 p2; h2 ← read32 (ksym_hitcount + s32 symid2 * 4);
  symid1 ← read32 p1; h1 ← read32 (ksym_hitcount + s32 symid1 * 4);
  mret (s32 (s32 h2 - s32 h1)).

(** The first loop of [sampling_stats]. *)
Fixpoint init_lists (k : nat) (i : Z) : M bytes unit :=
  match k with
  | O => mret tt
  | S k => write32 (ksym_hitcount + i * 4) 0;; write32 (ksymid_sortedlist + i * 4) i;; init_lists k (i + 1)
  end.

(** The second loop. *)
Fixpoint count_hits (k : nat) (i : Z) : M sampling unit :=
  match k with
  | O => mret tt
  | S k =>
      pc ← in_mem (read32 (sampled_pc + i * 4));
      symid ← in_syms (ksym_lookup pc);
      (if symid <? 0 then mret tt
       else h ← in_mem (read32 (ksym_hitcount + symid * 4)); in_mem (write32 (ksym_hitcount + symid * 4) (h + 1)));;
      count_hits k (i + 1)
  end.

(** The addresses stored at [hitcountp] and [symid_list]. *)
Definition sampling_stats : M sampling (Z * Z) :=
  in_mem (sort sampled_pc MAX_SAMPLING_COUNT 4 cmp_addr);;
  in_mem (init_lists (Z.to_nat MAX_KSYM) 0);;
  count_hits (Z.to_nat MAX_SAMPLING_COUNT) 0;;
  total ← in_syms ksym_total;
  in_mem (sort ksymid_sortedlist (wrap32 total) 4 cmp_symhit);;
  mret (ksym_hitcount, ksymid_sortedlist).

(** ** [sampling-kdb.c] *)

Section handler.
Context {S : Type} `{!Part sampling S}.
(** The words of the stacks, and the process stack pointer. *)
Variable load_stack : Z -> M S Z.
Variable PSP : M S Z.

Definition sampling_handler (stack : Z) : M S Z :=
  lr ← load_stack (stack + REG_LR * 4);
  target_stack ← (if truth (Z.land lr 4) then PSP else mret (stack + 8 * 4));
  pc ← load_stack (target_stack + REG_PC * 4);
  on (sampled_pcpush pc);;
  mret 0.
End handler.

(** The profiler, the kernel probes, the variable [init] of [kdb_show_sampling] and the lines
    it has printed: a number of samples and the address of a name. *)
Record sampling_kdb := mk_skdb {
  sk_sampling : sampling;
  sk_probes : kpstate;
  sk_init : Z;
  sk_out : list (Z * Z);
}.

Definition in_sampling {A} : M sampling A -> M sampling_kdb A :=
  zoom sk_sampling (fun x s => mk_skdb x (sk_probes s) (sk_init s) (sk_out s)).
Definition in_probes {A} : M kpstate A -> M sampling_kdb A :=
  zoom sk_probes (fun x s => mk_skdb (sk_sampling s) x (sk_init s) (sk_out s)).
Definition set_init (i : Z) : M sampling_kdb unit := modify (fun s => mk_skdb (sk_sampling s) (sk_probes s) i (sk_out s)).
(** [dbg_printf(DL_KDB, "%5d [ %24s ]\n", hits, name)] *)
Definition print_symbol (hits name : Z) : M sampling_kdb unit :=
  modify (fun s => mk_skdb (sk_sampling s) (sk_probes s) (sk_init s) (sk_out s ++ [(hits, name)])).

(** The loop over the sorted symbols. *)
Fixpoint show_symbols (k : nat) (i hitcount symid_list : Z) : M sampling_kdb unit :=
  match k with
  | O => mret tt
  | S k =>
      symid ← in_sampling (in_mem (read32 (symid_list + i * 4)));
      h ← in_sampling (in_mem (read32 (hitcount + s32 symid * 4)));
      if h =? 0 then mret tt
      else
        name ← in_sampling (in_syms (ksym_id2name (s32 symid)));
        print_symbol (s32 h) name;;
        show_symbols k (i + 1) hitcount symid_list
  end.

(** The probe [k] and the functions are their addresses; [breakpoints] is the pool of
    [breakpoint.c]. *)
Variables breakpoints probe ktimer_handler handler_addr : Z.

Definition kdb_show_sampling : M sampling_kdb unit :=
  init ← gets sk_init;
  if init =? 0 then
    in_sampling sampling_init;;
    in_sampling sampling_enable;;
    set_init (init + 1);;
    in_probes (upd_kp probe (with_addr ktimer_handler));;
    in_probes (upd_kp probe (with_pre handler_addr));;
    in_probes (upd_kp probe (with_post NULL));;
    in_probes (kprobe_register breakpoints probe);;
    mret tt
  else
    in_sampling sampling_disable;;
    r ← in_sampling sampling_stats;
    total ← in_sampling (in_syms ksym_total);
    show_symbols (Z.to_nat total) 0 r.1 r.2;;
    in_sampling sampling_enable.
End arrays.
