(* ===== verification/SamplingProps.v ===== *)
(** * The sampling profiler: correctness

    The buffer holds the sampled addresses; [sampling_stats] counts the samples of every symbol
    and sorts the symbols by their counts; the command of the debugger shows them. *)

From S2P Require Import Prelude Bytes BytesProps Sort SortProps WordArray Ksym Breakpoint Kprobes KprobesProps Sampling.

(** ** Counting *)

Lemma filter_none {A} (P : A -> Prop) `{!forall x, Decision (P x)} (l : list A) : Forall (fun x => ~ P x) l -> filter P l = [].
Proof. induction 1 as [|x l Hx _ IH]; [done|]. by rewrite filter_cons, decide_False. Qed.

(** The number of samples of an interval of addresses. *)
Definition samples (lo hi : Z) (pcs : list Z) : Z := Z.of_nat (length (filter (fun pc => lo <= pc < hi) pcs)).

Lemma samples_cons lo hi pc pcs : samples lo hi (pc :: pcs) = (if decide (lo <= pc < hi) then 1 else 0) + samples lo hi pcs.
Proof. unfold samples. rewrite filter_cons. case_decide; cbn [length]; lia. Qed.

Lemma samples_range lo hi pcs : 0 <= samples lo hi pcs <= Z.of_nat (length pcs).
Proof. unfold samples. pose proof (length_filter (fun pc => lo <= pc < hi) pcs). lia. Qed.

Lemma samples_zeros lo hi pcs k : 0 < lo -> samples lo hi (pcs ++ replicate k 0) = samples lo hi pcs.
Proof.
  intros Hlo. unfold samples. rewrite filter_app, (filter_none _ (replicate k 0)), app_nil_r; [done|]. apply Forall_replicate. lia.
Qed.

#[export] Instance samples_perm lo hi : Proper ((≡ₚ) ==> eq) (samples lo hi).
Proof. intros l l' H. unfold samples. by rewrite H. Qed.

(** A part of a list in order is in order. *)
Lemma filter_ordered {A} (P : A -> Prop) `{!forall x, Decision (P x)} (R : A -> A -> Prop) (l : list A) :
  (forall (i j : nat) x y, (i < j)%nat -> l !! i = Some x -> l !! j = Some y -> R x y) ->
  forall (i j : nat) x y, (i < j)%nat -> filter P l !! i = Some x -> filter P l !! j = Some y -> R x y.
Proof.
  induction l as [|a l IH]; intros Ho; [done|].
  assert (Ho' : forall (i j : nat) x y, (i < j)%nat -> l !! i = Some x -> l !! j = Some y -> R x y) by (intros i j x y Hij; apply (Ho (S i) (S j)); lia).
  rewrite filter_cons. case_decide; [|by apply IH]. intros [|i] [|j] x y Hij Hx Hy; [lia| |lia|].
  - injection Hx as <-. change (filter P l !! j = Some y) in Hy. apply list_elem_of_lookup_2, list_elem_of_filter in Hy as [_ Hy]. apply list_elem_of_lookup in Hy as [k Hk]. apply (Ho 0%nat (S k)); [lia|done|done].
  - apply (IH Ho' i j); [lia|done|done].
Qed.

(** The entry of a symbol in the array of counts. *)
Definition hits_of (hits : list Z) (i : Z) : Z := default 0 (hits !! Z.to_nat i).

Lemma hits_of_lookup hits i : 0 <= i < Z.of_nat (length hits) -> hits !! Z.to_nat i = Some (hits_of hits i).
Proof. intros H. unfold hits_of. destruct (lookup_lt_is_Some_2 hits (Z.to_nat i) ltac:(lia)) as [h E]. by rewrite E. Qed.

Lemma hits_of_insert hits i j h : 0 <= i < Z.of_nat (length hits) -> 0 <= j ->
  hits_of (<[Z.to_nat i := h]> hits) j = if decide (i = j) then h else hits_of hits j.
Proof.
  intros Hi Hj. unfold hits_of. case_decide as E; [subst; by rewrite list_lookup_insert_eq by lia|by rewrite list_lookup_insert_ne by lia].
Qed.

(** ** The arrays *)

Section profile.
Variables sampled_pc ksym_hitcount ksymid_sortedlist : Z.
Variables (t : Z -> Z) (n : Z).

Abbreviation NPC := (Z.to_nat MAX_SAMPLING_COUNT).
Abbreviation NSYM := (Z.to_nat MAX_KSYM).

(** The three arrays do not overlap. *)
Record arrays_apart : Prop := {
  aa_hits : words_apart sampled_pc NPC ksym_hitcount NSYM;
  aa_ids : words_apart sampled_pc NPC ksymid_sortedlist NSYM;
  aa_both : words_apart ksym_hitcount NSYM ksymid_sortedlist NSYM;
}.

(** The contents of the arrays. *)
Record arrays_ok (m : bytes) (pcs hits ids : list Z) : Prop := {
  ao_pcs : warray m sampled_pc pcs;
  ao_hits : warray m ksym_hitcount hits;
  ao_ids : warray m ksymid_sortedlist ids;
  ao_npc : length pcs = NPC;
  ao_nhits : length hits = NSYM;
  ao_nids : length ids = NSYM;
}.

(** The symbols: between 3 and [MAX_KSYM], and the index of the last look-up. *)
Record symbols_ok (k : ksyms) : Prop := {
  so_table : table_ok k t n;
  so_prev : 0 <= prev_index k < n;
  so_count : 3 <= n <= MAX_KSYM;
}.

Definition with_mem (m : bytes) (s : sampling) : sampling := mk_sampling m (sampled_count s) (sampling_enabled s) (sa_syms s).

Lemma in_mem_Done {A} (f : M bytes A) s a m : f (sa_mem s) = Done (a, m) -> in_mem f s = Done (a, with_mem m s).
Proof. intros E. unfold in_mem, zoom. by rewrite E. Qed.
Lemma in_mem_read {A} (f : M bytes A) s a : f (sa_mem s) = Done (a, sa_mem s) -> in_mem f s = Done (a, s).
Proof. intros E. rewrite (in_mem_Done _ _ _ _ E). by destruct s. Qed.
Lemma in_syms_Done {A} (f : M ksyms A) s a k : f (sa_syms s) = Done (a, k) ->
  in_syms f s = Done (a, mk_sampling (sa_mem s) (sampled_count s) (sampling_enabled s) k).
Proof. intros E. unfold in_syms, zoom. by rewrite E. Qed.

Hypothesis Hap : arrays_apart.

Lemma arrays_write_pcs m m' pcs pcs' hits ids : arrays_ok m pcs hits ids -> warray m' sampled_pc pcs' -> length pcs' = length pcs ->
  same_outside sampled_pc NPC m m' -> arrays_ok m' pcs' hits ids.
Proof.
  intros [H1 H2 H3 L1 L2 L3] Hp Hl Hs. destruct Hap as [A1 A2 A3]. split; [done|..|congruence|done|done].
  - apply (warray_outside m _ _ _ sampled_pc NPC); [done|done|]. rewrite L2. by apply words_apart_sym.
  - apply (warray_outside m _ _ _ sampled_pc NPC); [done|done|]. rewrite L3. by apply words_apart_sym.
Qed.

Lemma arrays_write_hits m m' pcs hits hits' ids : arrays_ok m pcs hits ids -> warray m' ksym_hitcount hits' -> length hits' = length hits ->
  same_outside ksym_hitcount NSYM m m' -> arrays_ok m' pcs hits' ids.
Proof.
  intros [H1 H2 H3 L1 L2 L3] Hp Hl Hs. destruct Hap as [A1 A2 A3]. split; [|done| |done|congruence|done].
  - apply (warray_outside m _ _ _ ksym_hitcount NSYM); [done|done|]. by rewrite L1.
  - apply (warray_outside m _ _ _ ksym_hitcount NSYM); [done|done|]. rewrite L3. by apply words_apart_sym.
Qed.

Lemma arrays_write_ids m m' pcs hits ids ids' : arrays_ok m pcs hits ids -> warray m' ksymid_sortedlist ids' -> length ids' = length ids ->
  same_outside ksymid_sortedlist NSYM m m' -> arrays_ok m' pcs hits ids'.
Proof.
  intros [H1 H2 H3 L1 L2 L3] Hp Hl Hs. destruct Hap as [A1 A2 A3]. split; [..|done|done|done|congruence].
  - apply (warray_outside m _ _ _ ksymid_sortedlist NSYM); [done|done|]. by rewrite L1.
  - apply (warray_outside m _ _ _ ksymid_sortedlist NSYM); [done|done|]. by rewrite L2.
Qed.

(** ** The first sort *)

#[local] Instance diff_preorder : Preorder_cmp (fun x y : Z => x - y).
Proof. split; unfold not_less; lia. Qed.

(** Addresses in the lower half of the address space, so that their difference is an [int]. *)
Definition low_half (pcs : list Z) : Prop := Forall (fun pc => 0 <= pc < 2147483648) pcs.

Lemma cmp_addr_ok m l (i j : nat) x y : warray m sampled_pc l -> low_half l -> l !! i = Some x -> l !! j = Some y ->
  cmp_addr (sampled_pc + Z.of_nat i * 4) (sampled_pc + Z.of_nat j * 4) m = Done (x - y, m).
Proof.
  intros Hm Hl Hx Hy. unfold cmp_addr. rewrite (bind_Done _ _ _ _ _ (warray_read _ _ _ _ _ Hm Hx)), (bind_Done _ _ _ _ _ (warray_read _ _ _ _ _ Hm Hy)).
  pose proof (Forall_lookup_1 _ _ _ _ Hl Hx). pose proof (Forall_lookup_1 _ _ _ _ Hl Hy). cbn in *. by rewrite !s32_id by (rewrite ?s32_id by lia; lia).
Qed.

Lemma sort_samples_ok m pcs hits ids : arrays_ok m pcs hits ids -> low_half pcs ->
  exists m' pcs', sort sampled_pc MAX_SAMPLING_COUNT 4 cmp_addr m = Done (tt, m') /\ arrays_ok m' pcs' hits ids /\ pcs' ≡ₚ pcs.
Proof.
  intros Hm Hl. pose proof (ao_npc _ _ _ _ Hm) as Hn.
  destruct (sort_words_ok m sampled_pc pcs (fun x y => x - y) cmp_addr) as (m' & pcs' & E & Hw & HP & Hs & _); [apply Hm|rewrite Hn; unfold MAX_SAMPLING_COUNT; lia|apply _|..].
  - intros m1 l i j x y Hl1 HP _ Hx Hy. apply (cmp_addr_ok m1 l); [done| |done|done]. unfold low_half. by rewrite HP.
  - exists m', pcs'. rewrite Hn, Z2Nat.id in E by done. split; [done|]. split; [|done].
    apply (arrays_write_pcs m m' pcs pcs'); [done|done|by rewrite HP|by rewrite <- Hn].
Qed.

(** ** The first loop *)

Lemma init_lists_ok k : forall (i : nat) m pcs hits ids, (i + k = NSYM)%nat -> arrays_ok m pcs hits ids ->
  exists m', init_lists ksym_hitcount ksymid_sortedlist k (Z.of_nat i) m = Done (tt, m') /\
    arrays_ok m' pcs (fill hits i (replicate k 0)) (fill ids i (seqZ (Z.of_nat i) (Z.of_nat k))).
Proof.
  induction k as [|k IH]; intros i m pcs hits ids Hk Hm; cbn [init_lists].
  { exists m. split; [done|]. change (seqZ (Z.of_nat i) (Z.of_nat 0)) with (@nil Z). cbn [replicate]. by rewrite !fill_nil. }
  pose proof (ao_nhits _ _ _ _ Hm) as L2. pose proof (ao_nids _ _ _ _ Hm) as L3.
  destruct (warray_write m ksym_hitcount hits i 0) as (m1 & E1 & W1 & S1); [apply Hm|lia|]. rewrite (bind_Done _ _ _ _ _ E1). rewrite L2 in S1.
  pose proof (arrays_write_hits m m1 pcs hits (<[i := 0]> hits) ids Hm W1 ltac:(by rewrite length_insert) S1) as Hm1.
  destruct (warray_write m1 ksymid_sortedlist ids i (Z.of_nat i)) as (m2 & E2 & W2 & S2); [apply Hm1|lia|]. rewrite (bind_Done _ _ _ _ _ E2). rewrite L3 in S2.
  rewrite wrap32_small in W2 by (unfold is_u32, u32_modulus, MAX_KSYM in *; lia).
  pose proof (arrays_write_ids m1 m2 pcs (<[i := 0]> hits) ids (<[i := Z.of_nat i]> ids) Hm1 W2 ltac:(by rewrite length_insert) S2) as Hm2.
  replace (Z.of_nat i + 1) with (Z.of_nat (S i)) by lia. destruct (IH (S i) m2 _ _ _ ltac:(lia) Hm2) as (m' & E & Hm').
  exists m'. split; [done|]. rewrite fill_cons in Hm' by (rewrite length_replicate; lia). rewrite fill_cons in Hm' by (rewrite length_seqZ; lia).
  replace (Z.of_nat i :: seqZ (Z.of_nat (S i)) (Z.of_nat k)) with (seqZ (Z.of_nat i) (Z.of_nat (S k))) in Hm'; [done|].
  rewrite seqZ_cons by lia. f_equal. f_equal; lia.
Qed.

Lemma fill_all {A} (arr l : list A) : length l = length arr -> fill arr 0 l = l.
Proof. intros H. unfold fill. rewrite take_0, drop_ge by lia. cbn [app]. by rewrite app_nil_r. Qed.

(** ** The second loop *)

(** What the samples [pcs] add to the counts. *)
Record counted (pcs hits hits' : list Z) : Prop := {
  cn_length : length hits' = length hits;
  cn_exact : forall i, 0 <= i < n - 2 -> hits_of hits' i = hits_of hits i + samples (t i) (t (i + 1)) pcs;
  cn_last : hits_of hits' (n - 2) + hits_of hits' (n - 1) = hits_of hits (n - 2) + hits_of hits (n - 1) + samples (t (n - 2)) 2147483648 pcs;
  cn_rest : forall i, n <= i -> hits_of hits' i = hits_of hits i;
  cn_grows : forall i, 0 <= i -> hits_of hits i <= hits_of hits' i <= hits_of hits i + Z.of_nat (length pcs);
}.

Lemma counted_nil hits : counted [] hits hits.
Proof. by split; intros; rewrite ?Z.add_0_r; cbn [length]; try lia. Qed.

(** A sample below the first symbol. *)
Lemma counted_below k pc pcs hits hits' : symbols_ok k -> pc < t 0 -> counted pcs hits hits' -> counted (pc :: pcs) hits hits'.
Proof.
  intros [Hk _ Hn] Hpc [C1 C2 C3 C4 C5]. pose proof (sorted_le k t n Hk) as Hle.
  split; [done|..|done|intros i Hi; specialize (C5 i Hi); cbn [length]; lia].
  - intros i Hi. specialize (Hle 0 i). rewrite samples_cons, decide_False by lia. by apply C2.
  - specialize (Hle 0 (n - 2)). rewrite samples_cons, decide_False by lia. done.
Qed.

(** A sample that is attributed to the symbol [i]. *)
Lemma counted_hit k pc pcs hits hits' i j : symbols_ok k -> 0 <= pc < 2147483648 -> n <= Z.of_nat (length hits) ->
  symbol_of t n pc j -> i = j \/ i = n - 1 /\ j = n - 2 ->
  counted pcs (<[Z.to_nat i := hits_of hits i + 1]> hits) hits' -> counted (pc :: pcs) hits hits'.
Proof.
  intros [Hk _ Hn] Hpc Hlen Hj Hi [C1 C2 C3 C4 C5]. pose proof (sorted_le k t n Hk) as Hle. pose proof Hj as (Hjr & Hj1 & Hj2).
  assert (Hir : 0 <= i < Z.of_nat (length hits)) by lia. rewrite length_insert in C1. split.
  - done.
  - intros q Hq. rewrite C2, hits_of_insert, samples_cons by lia. case_decide as E; [subst q|]; case_decide as F; try lia; exfalso.
    + apply F. assert (i = j) as <- by lia. lia.
    + assert (q = j) by (apply (symbol_unique k t n pc Hk); [split; [lia|]; split; [lia|intros; lia]|done]). lia.
  - rewrite C3, !hits_of_insert, samples_cons by lia. specialize (Hle j (n - 2)) as H1. specialize (Hle (j + 1) (n - 2)) as H2. specialize (Hle (n - 2) j) as H3.
    repeat case_decide; subst; lia.
  - intros q Hq. rewrite C4, hits_of_insert, decide_False by lia. done.
  - intros q Hq. specialize (C5 q Hq). rewrite hits_of_insert in C5 by lia. cbn [length]. case_decide; [subst q|]; lia.
Qed.

(** One turn of the loop. *)
Lemma count_hit_ok s pcs hits ids i : arrays_ok (sa_mem s) pcs hits ids -> 0 <= i < n -> n <= MAX_KSYM -> 0 <= hits_of hits i < 2147483648 ->
  exists m', (h ← in_mem (read32 (ksym_hitcount + i * 4)); in_mem (write32 (ksym_hitcount + i * 4) (h + 1))) s = Done (tt, with_mem m' s) /\
    arrays_ok m' pcs (<[Z.to_nat i := hits_of hits i + 1]> hits) ids.
Proof.
  intros Hm Hi Hn Hh. pose proof (ao_nhits _ _ _ _ Hm) as L. replace (ksym_hitcount + i * 4) with (ksym_hitcount + Z.of_nat (Z.to_nat i) * 4) by lia.
  assert (Hl : hits !! Z.to_nat i = Some (hits_of hits i)) by (apply hits_of_lookup; lia).
  pose proof (in_mem_read _ s _ (warray_read _ _ _ _ _ (ao_hits _ _ _ _ Hm) Hl)) as Er. rewrite (bind_Done _ _ _ _ _ Er).
  destruct (warray_write (sa_mem s) ksym_hitcount hits (Z.to_nat i) (hits_of hits i + 1)) as (m' & E & W & S'); [apply Hm|lia|].
  exists m'. split; [by apply in_mem_Done|]. rewrite wrap32_small in W by (unfold is_u32, u32_modulus; lia).
  apply (arrays_write_hits (sa_mem s) m' pcs hits); [done|done|by rewrite length_insert|by rewrite <- L].
Qed.

Lemma count_hits_ok k : forall (i : nat) s pcs hits ids, (i + k = NPC)%nat -> arrays_ok (sa_mem s) pcs hits ids -> symbols_ok (sa_syms s) -> low_half pcs ->
  (forall j, 0 <= j -> 0 <= hits_of hits j /\ hits_of hits j + Z.of_nat k < 2147483648) ->
  exists s' hits', count_hits sampled_pc ksym_hitcount k (Z.of_nat i) s = Done (tt, s') /\ arrays_ok (sa_mem s') pcs hits' ids /\ symbols_ok (sa_syms s') /\
    counted (drop i pcs) hits hits' /\ sampled_count s' = sampled_count s /\ sampling_enabled s' = sampling_enabled s /\ exists q, sa_syms s' = looked_up (sa_syms s) q.
Proof.
  induction k as [|k IH]; intros i s pcs hits ids Hk Hm Hs Hl Hh; cbn [count_hits].
  { exists s, hits. split; [done|]. rewrite drop_ge by (rewrite (ao_npc _ _ _ _ Hm); lia). split; [done|]. split; [done|]. split; [apply counted_nil|]. split; [done|]. split; [done|]. exists (prev_index (sa_syms s)). by destruct (sa_syms s). }
  pose proof (ao_npc _ _ _ _ Hm) as L1. pose proof (ao_nhits _ _ _ _ Hm) as L2.
  destruct (lookup_lt_is_Some_2 pcs i ltac:(lia)) as [pc Hpc]. pose proof (Forall_lookup_1 _ _ _ _ Hl Hpc) as Hr. cbn in Hr.
  rewrite (bind_Done _ _ _ _ _ (in_mem_read _ s _ (warray_read _ _ _ _ _ (ao_pcs _ _ _ _ Hm) Hpc))).
  rewrite (drop_S _ _ _ Hpc). replace (Z.of_nat i + 1) with (Z.of_nat (S i)) by lia. pose proof Hs as [Ht Hp Hn].
  destruct (Z.lt_ge_cases pc (t 0)) as [Hlow|Hlow].
  - pose proof (ksym_lookup_below (sa_syms s) t n pc Ht Hr ltac:(lia) Hp Hlow) as E. apply (in_syms_Done _ s) in E. rewrite (bind_Done _ _ _ _ _ E). cbn [Z.ltb Z.compare].
    rewrite (bind_Done (mret tt) _ _ tt _ eq_refl). replace (mk_sampling _ _ _ _) with s by (by destruct s).
    destruct (IH (S i) s pcs hits ids) as (s' & hits' & E' & Hm' & Hs' & Hc & Hrest); [lia|done|done|done|intros j Hj; specialize (Hh j Hj); lia|].
    exists s', hits'. split; [done|]. split; [done|]. split; [done|]. split; [by apply (counted_below (sa_syms s))|done].
  - destruct (ksym_lookup_ok (sa_syms s) t n pc Ht Hr Hp Hlow) as (q & j & E & Hj & Hq). pose proof Hj as (Hjr & _). apply (in_syms_Done _ s) in E. rewrite (bind_Done _ _ _ _ _ E).
    destruct (Z.ltb_spec q 0); [lia|]. set (s1 := mk_sampling _ _ _ _). pose proof (Hh q ltac:(lia)) as Hhq.
    destruct (count_hit_ok s1 pcs hits ids q Hm ltac:(lia) ltac:(lia) ltac:(lia)) as (m2 & E2 & Hm2). rewrite (bind_Done _ _ _ _ _ E2).
    destruct (IH (S i) (with_mem m2 s1) pcs _ ids ltac:(lia) Hm2) as (s' & hits' & E' & Hm' & Hs' & Hc & Hrest); [|done| |].
    + split; [by apply looked_up_ok|cbn; lia|done].
    + intros a Ha. rewrite hits_of_insert by lia. specialize (Hh a Ha) as Hha. case_decide; lia.
    + exists s', hits'. split; [done|]. split; [done|]. split; [done|]. split; [|done].
      apply (counted_hit (sa_syms s) pc _ hits hits' q j); [done|done|lia|done|done|done].
Qed.

(** ** The second sort *)

#[local] Instance hits_preorder hits : Preorder_cmp (fun x y : Z => hits_of hits y - hits_of hits x).
Proof. split; unfold not_less; lia. Qed.

Lemma cmp_symhit_ok m l hits (i j : nat) x y : warray m ksymid_sortedlist l -> warray m ksym_hitcount hits -> length hits = NSYM ->
  Forall (fun x => 0 <= x < MAX_KSYM) l -> (forall j, 0 <= j -> 0 <= hits_of hits j < 2147483648) -> l !! i = Some x -> l !! j = Some y ->
  cmp_symhit ksym_hitcount (ksymid_sortedlist + Z.of_nat i * 4) (ksymid_sortedlist + Z.of_nat j * 4) m = Done (hits_of hits y - hits_of hits x, m).
Proof.
  intros Hm Hh L Hl Hr Hx Hy. pose proof (Forall_lookup_1 _ _ _ _ Hl Hx) as Rx. pose proof (Forall_lookup_1 _ _ _ _ Hl Hy) as Ry. cbn in Rx, Ry.
  unfold MAX_KSYM in *.
  assert (Hread : forall z, 0 <= z < 512 -> read32 (ksym_hitcount + s32 z * 4) m = Done (hits_of hits z, m)).
  { intros z Hz. rewrite s32_id by lia. replace (z * 4) with (Z.of_nat (Z.to_nat z) * 4) by lia. apply (warray_read m _ hits); [done|]. apply hits_of_lookup. lia. }
  unfold cmp_symhit. rewrite (bind_Done _ _ _ _ _ (warray_read _ _ _ _ _ Hm Hy)), (bind_Done _ _ _ _ _ (Hread y Ry)).
  rewrite (bind_Done _ _ _ _ _ (warray_read _ _ _ _ _ Hm Hx)), (bind_Done _ _ _ _ _ (Hread x Rx)).
  pose proof (Hr x ltac:(lia)). pose proof (Hr y ltac:(lia)). by rewrite !s32_id by (rewrite ?s32_id by lia; lia).
Qed.

Lemma same_outside_mono a (k k' : nat) m m' : (k <= k')%nat -> same_outside a k m m' -> same_outside a k' m m'.
Proof. intros Hk H x Hx. apply H. lia. Qed.

(** The first [n] of the symbols are sorted by their counts. *)
Lemma sort_symbols_ok m pcs hits ids1 ids2 : arrays_ok m pcs hits (ids1 ++ ids2) -> Forall (fun x => 0 <= x < MAX_KSYM) ids1 ->
  (forall j, 0 <= j -> 0 <= hits_of hits j < 2147483648) ->
  exists m' ids, sort ksymid_sortedlist (Z.of_nat (length ids1)) 4 (cmp_symhit ksym_hitcount) m = Done (tt, m') /\
    arrays_ok m' pcs hits (ids ++ ids2) /\ ids ≡ₚ ids1 /\
    forall (i j : nat) x y, (i < j)%nat -> ids !! i = Some x -> ids !! j = Some y -> hits_of hits y <= hits_of hits x.
Proof.
  intros Hm Hr Hh. pose proof Hm as [W1 W2 W3 L1 L2 L3]. rewrite length_app in L3. apply warray_app in W3 as [W3 W4].
  pose proof (words_apart_sym _ _ _ _ (aa_both Hap)) as Hb. unfold words_apart in Hb.
  destruct (sort_words_ok m ksymid_sortedlist ids1 (fun x y => hits_of hits y - hits_of hits x) (cmp_symhit ksym_hitcount)) as (m' & ids & E & Wi & HP & Hs & Ho);
    [done|unfold MAX_KSYM in *; lia|apply _|..].
  - intros m1 l i j x y Wl HP Hs Hx Hy. apply (cmp_symhit_ok m1 l hits); [done| |done|by rewrite HP|done|done|done].
    apply (warray_outside m m1 _ _ ksymid_sortedlist (length ids1)); [done|done|]. unfold words_apart. rewrite L2. lia.
  - exists m', ids. split; [done|]. assert (Hlen : length ids = length ids1) by (by rewrite HP). split; [|split; [done|]].
    + apply (arrays_write_ids m m' pcs hits (ids1 ++ ids2)); [done| |rewrite !length_app; lia|].
      * apply warray_app. split; [done|]. rewrite Hlen. apply (warray_frame m); [done|]. intros x Hx. apply Hs. lia.
      * apply (same_outside_mono _ (length ids1)); [lia|done].
    + intros i j x y Hij Hx Hy. specialize (Ho i j x y Hij Hx Hy). cbn in Ho. lia.
Qed.

(** ** [sampling_stats] *)

(** What [sampling_stats] computes of the samples [pcs]: [hits] counts the samples of every
    symbol but the last two, and those of the last two together; the symbols are sorted by their
    counts. *)
Record profile (pcs hits ids : list Z) : Prop := {
  pr_exact : forall i, 0 <= i < n - 2 -> hits_of hits i = samples (t i) (t (i + 1)) pcs;
  pr_last : hits_of hits (n - 2) + hits_of hits (n - 1) = samples (t (n - 2)) 2147483648 pcs;
  pr_rest : forall i, n <= i -> hits_of hits i = 0;
  pr_range : forall i, 0 <= i -> 0 <= hits_of hits i <= MAX_SAMPLING_COUNT;
  pr_perm : take (Z.to_nat n) ids ≡ₚ seqZ 0 n;
  pr_sorted : forall (i j : nat) x y, (i < j)%nat -> take (Z.to_nat n) ids !! i = Some x -> take (Z.to_nat n) ids !! j = Some y -> hits_of hits y <= hits_of hits x;
}.

Lemma hits_of_zeros i : hits_of (replicate NSYM 0) i = 0.
Proof.
  unfold hits_of. destruct (replicate NSYM 0 !! Z.to_nat i) as [x|] eqn:E; [|done]. by apply lookup_replicate in E as [-> _].
Qed.

Lemma sampling_stats_ok s pcs hits ids : arrays_ok (sa_mem s) pcs hits ids -> symbols_ok (sa_syms s) -> low_half pcs ->
  exists s' pcs' hits' ids', sampling_stats sampled_pc ksym_hitcount ksymid_sortedlist s = Done ((ksym_hitcount, ksymid_sortedlist), s') /\
    arrays_ok (sa_mem s') pcs' hits' ids' /\ pcs' ≡ₚ pcs /\ profile pcs hits' ids' /\ symbols_ok (sa_syms s') /\
    sampled_count s' = sampled_count s /\ sampling_enabled s' = sampling_enabled s /\ exists q, sa_syms s' = looked_up (sa_syms s) q.
Proof.
  intros Hm Hs Hl. unfold sampling_stats. destruct (sort_samples_ok _ _ _ _ Hm Hl) as (m1 & pcs' & E1 & Hm1 & HP). rewrite (bind_Done _ _ _ _ _ (in_mem_Done _ _ _ _ E1)).
  assert (Hl' : low_half pcs') by (unfold low_half; by rewrite HP).
  destruct (init_lists_ok NSYM 0 m1 pcs' hits ids eq_refl Hm1) as (m2 & E2 & Hm2). rewrite (bind_Done _ _ _ _ _ (in_mem_Done _ (with_mem m1 s) _ _ E2)).
  rewrite !fill_all in Hm2 by (rewrite ?length_replicate, ?length_seqZ; first [rewrite (ao_nhits _ _ _ _ Hm1)|rewrite (ao_nids _ _ _ _ Hm1)]; lia).
  change (Z.of_nat 0) with 0 in Hm2. rewrite Z2Nat.id in Hm2 by done.
  destruct (count_hits_ok NPC 0 (with_mem m2 s) pcs' _ _ eq_refl Hm2 Hs Hl') as (s3 & hits3 & E3 & Hm3 & Hs3 & Hc & Hc1 & Hc2 & Hc3).
  { intros j Hj. rewrite hits_of_zeros. unfold MAX_SAMPLING_COUNT. lia. }
  rewrite (bind_Done _ _ _ _ _ E3). pose proof Hs3 as [Ht Hp Hn]. pose proof (in_syms_Done ksym_total s3 _ _ eq_refl) as Et. rewrite (bind_Done _ _ _ _ _ Et).
  replace (mk_sampling (sa_mem s3) (sampled_count s3) (sampling_enabled s3) (sa_syms s3)) with s3 by (by destruct s3). rewrite (t_count _ _ _ Ht).
  rewrite wrap32_small by (unfold is_u32, u32_modulus, MAX_KSYM in *; lia). destruct Hc as [C1 C2 C3 C4 C5].
  assert (Hh : forall j, 0 <= j -> 0 <= hits_of hits3 j <= MAX_SAMPLING_COUNT).
  { intros j Hj. specialize (C5 j Hj). rewrite hits_of_zeros, drop_0, (ao_npc _ _ _ _ Hm3) in C5. unfold MAX_SAMPLING_COUNT in *. lia. }
  replace (seqZ 0 MAX_KSYM) with (seqZ 0 n ++ seqZ n (MAX_KSYM - n)) in Hm3
    by (rewrite <- (Z.add_0_l n) at 2; rewrite <- seqZ_app by lia; f_equal; lia).
  destruct (sort_symbols_ok (sa_mem s3) pcs' hits3 (seqZ 0 n) (seqZ n (MAX_KSYM - n)) Hm3) as (m4 & ids4 & E4 & Hm4 & HP4 & Ho4).
  { apply Forall_forall. intros x Hx. apply elem_of_seqZ in Hx. lia. }
  { intros j Hj. specialize (Hh j Hj). unfold MAX_SAMPLING_COUNT in Hh. lia. }
  rewrite length_seqZ, Z2Nat.id in E4 by lia. rewrite (bind_Done _ _ _ _ _ (in_mem_Done _ _ _ _ E4)).
  exists (with_mem m4 s3), pcs', hits3, (ids4 ++ seqZ n (MAX_KSYM - n)). split; [done|]. split; [done|]. split; [done|]. split; [|done].
  assert (Ht4 : take (Z.to_nat n) (ids4 ++ seqZ n (MAX_KSYM - n)) = ids4) by (apply take_app_length'; rewrite HP4, length_seqZ; done).
  split; rewrite ?Ht4; [..|done|done|done].
  - intros i Hi. by rewrite C2, hits_of_zeros, drop_0, HP by done.
  - by rewrite C3, !hits_of_zeros, drop_0, HP.
  - intros i Hi. by rewrite C4, hits_of_zeros.
Qed.

(** ** Taking samples *)

Lemma clear_samples_ok k : forall (i : nat) m pcs hits ids, (i + k = NPC)%nat -> arrays_ok m pcs hits ids ->
  exists m', clear_samples sampled_pc k (Z.of_nat i) m = Done (tt, m') /\ arrays_ok m' (fill pcs i (replicate k 0)) hits ids.
Proof.
  induction k as [|k IH]; intros i m pcs hits ids Hk Hm; cbn [clear_samples]; [exists m; split; [done|]; cbn [replicate]; by rewrite fill_nil|].
  pose proof (ao_npc _ _ _ _ Hm) as L. destruct (warray_write m sampled_pc pcs i 0) as (m1 & E1 & W1 & S1); [apply Hm|lia|]. rewrite (bind_Done _ _ _ _ _ E1). rewrite L in S1.
  pose proof (arrays_write_pcs m m1 pcs (<[i := 0]> pcs) hits ids Hm W1 ltac:(by rewrite length_insert) S1) as Hm1.
  replace (Z.of_nat i + 1) with (Z.of_nat (S i)) by lia. destruct (IH (S i) m1 _ _ _ ltac:(lia) Hm1) as (m' & E & Hm').
  exists m'. split; [done|]. by rewrite fill_cons in Hm' by (rewrite length_replicate; lia).
Qed.

Lemma sampling_init_ok s pcs hits ids : arrays_ok (sa_mem s) pcs hits ids -> symbols_ok (sa_syms s) ->
  exists m, sampling_init sampled_pc s = Done (tt, mk_sampling m 0 (sampling_enabled s) (sa_syms s)) /\ arrays_ok m (replicate NPC 0) hits ids.
Proof.
  intros Hm [Ht Hp Hn]. destruct (clear_samples_ok NPC 0 (sa_mem s) pcs hits ids eq_refl Hm) as (m & E & Hm').
  rewrite fill_all in Hm' by (rewrite length_replicate, (ao_npc _ _ _ _ Hm); done). exists m. split; [|done]. unfold sampling_init.
  pose proof (in_syms_Done ksym_total s _ _ eq_refl) as Et. rewrite (bind_Done _ _ _ _ _ Et), (t_count _ _ _ Ht). destruct (Z.gtb_spec n MAX_KSYM); [lia|].
  change (Z.of_nat 0) with 0 in E. replace (mk_sampling (sa_mem s) (sampled_count s) (sampling_enabled s) (sa_syms s)) with s by (by destruct s).
  by rewrite (bind_Done _ _ _ _ _ (in_mem_Done _ _ _ _ E)).
Qed.

(** The handler is called for the addresses [l], one after the other. *)
Fixpoint push_all (l : list Z) : M sampling unit :=
  match l with
  | [] => mret tt
  | pc :: l => sampled_pcpush sampled_pc pc;; push_all l
  end.

Lemma sampled_pcpush_ok s pcs hits ids pc (c : nat) : arrays_ok (sa_mem s) pcs hits ids -> sampling_enabled s <> 0 ->
  sampled_count s = Z.of_nat c -> (c < NPC)%nat ->
  exists m, sampled_pcpush sampled_pc pc s = Done (tt, mk_sampling m (Z.of_nat (S c)) (sampling_enabled s) (sa_syms s)) /\
    arrays_ok m (<[c := wrap32 pc]> pcs) hits ids.
Proof.
  intros Hm He Hc Hlt. pose proof (ao_npc _ _ _ _ Hm) as L. destruct (warray_write (sa_mem s) sampled_pc pcs c pc) as (m & E & W & S'); [apply Hm|lia|].
  exists m. split.
  - unfold sampled_pcpush. rewrite (bind_Done (gets sampling_enabled) _ s _ s eq_refl). destruct (Z.eqb_spec (sampling_enabled s) 0); [done|].
    rewrite (bind_Done (gets sampled_count) _ s _ s eq_refl), Hc. destruct (Z.eqb_spec (Z.of_nat c) MAX_SAMPLING_COUNT); [unfold MAX_SAMPLING_COUNT in *; lia|].
    cbn [when]. rewrite (bind_Done (mret tt) _ s tt s eq_refl), (bind_Done (gets sampled_count) _ s _ s eq_refl), Hc.
    rewrite (bind_Done (set_sampled _) _ s tt _ eq_refl). replace (Z.of_nat (S c)) with (Z.of_nat c + 1) by lia. exact (in_mem_Done _ (mk_sampling _ _ _ _) _ _ E).
  - apply (arrays_write_pcs (sa_mem s) m pcs); [done|done|by rewrite length_insert|by rewrite <- L].
Qed.

Lemma push_all_ok l : forall s pcs hits ids (c : nat), arrays_ok (sa_mem s) pcs hits ids -> sampling_enabled s <> 0 ->
  sampled_count s = Z.of_nat c -> (c + length l <= NPC)%nat -> Forall is_u32 l ->
  exists m, push_all l s = Done (tt, mk_sampling m (Z.of_nat (c + length l)) (sampling_enabled s) (sa_syms s)) /\ arrays_ok m (fill pcs c l) hits ids.
Proof.
  induction l as [|pc l IH]; intros s pcs hits ids c Hm He Hc Hl Hu; cbn [push_all length] in *.
  - exists (sa_mem s). rewrite fill_nil, Nat.add_0_r, <- Hc. split; [by destruct s|done].
  - apply Forall_cons in Hu as [Hu Hus]. destruct (sampled_pcpush_ok s pcs hits ids pc c Hm He Hc ltac:(lia)) as (m & E & Hm1). rewrite (bind_Done _ _ _ _ _ E).
    rewrite wrap32_small in Hm1 by done. destruct (IH (mk_sampling m (Z.of_nat (S c)) (sampling_enabled s) (sa_syms s)) _ hits ids (S c) Hm1 He eq_refl ltac:(lia) Hus) as (m' & E' & Hm').
    exists m'. rewrite E'. rewrite fill_cons in Hm' by (rewrite (ao_npc _ _ _ _ Hm); lia). split; [|done]. by replace (S c + length l)%nat with (c + S (length l))%nat by lia.
Qed.

(** ** The report *)

Section report.
(** The index of the name of each symbol. *)
Variable sid : Z -> Z.
Definition names_ok (k : ksyms) : Prop := forall i, 0 <= i < n -> words k !! (ksym_tbl k + i * sizeof_ksym + 4) = Some (sid i).

Definition line (hits : list Z) (k : ksyms) (i : Z) : Z * Z := (hits_of hits i, ksym_strings k + s32 (sid i)).

Definition with_out (out : list (Z * Z)) (s : sampling_kdb) : sampling_kdb := mk_skdb (sk_sampling s) (sk_probes s) (sk_init s) out.

Lemma in_sampling_Done {A} (f : M sampling A) s a x : f (sk_sampling s) = Done (a, x) -> in_sampling f s = Done (a, mk_skdb x (sk_probes s) (sk_init s) (sk_out s)).
Proof. intros E. unfold in_sampling, zoom. by rewrite E. Qed.
Lemma in_sampling_read {A} (f : M sampling A) s a : f (sk_sampling s) = Done (a, sk_sampling s) -> in_sampling f s = Done (a, s).
Proof. intros E. rewrite (in_sampling_Done _ _ _ _ E). by destruct s. Qed.

Lemma show_symbols_ok l : forall (i : nat) s pcs hits ids pre post, arrays_ok (sa_mem (sk_sampling s)) pcs hits ids -> symbols_ok (sa_syms (sk_sampling s)) -> names_ok (sa_syms (sk_sampling s)) ->
  ids = pre ++ l ++ post -> length pre = i -> Forall (fun x => 0 <= x < n) l -> (forall j, 0 <= j -> 0 <= hits_of hits j < 2147483648) ->
  (forall (a b : nat) x y, (a < b)%nat -> l !! a = Some x -> l !! b = Some y -> hits_of hits y <= hits_of hits x) ->
  show_symbols (length l) (Z.of_nat i) ksym_hitcount ksymid_sortedlist s =
  Done (tt, with_out (sk_out s ++ (line hits (sa_syms (sk_sampling s)) <$> filter (fun x => hits_of hits x <> 0) l)) s).
Proof.
  induction l as [|x l IH]; intros i s pcs hits ids pre post Hm Hs Hnm Hi Hp Hl Hh Ho; cbn [show_symbols length].
  { cbn. rewrite app_nil_r. by destruct s. }
  apply Forall_cons in Hl as [Hx Hl]. pose proof (so_count _ Hs) as Hn. unfold MAX_KSYM in Hn. pose proof (ao_nhits _ _ _ _ Hm) as L2.
  assert (Hix : ids !! i = Some x) by (rewrite Hi, <- Hp; by apply list_lookup_middle).
  rewrite (bind_Done _ _ _ _ _ (in_sampling_read _ s _ (in_mem_read _ _ _ (warray_read _ _ _ _ _ (ao_ids _ _ _ _ Hm) Hix)))). rewrite s32_id by lia.
  assert (Hhx : hits !! Z.to_nat x = Some (hits_of hits x)) by (apply hits_of_lookup; unfold MAX_KSYM in L2; lia).
  pose proof (in_sampling_read _ s _ (in_mem_read _ _ _ (warray_read _ _ _ _ _ (ao_hits _ _ _ _ Hm) Hhx))) as Er. rewrite Z2Nat.id in Er by lia. rewrite (bind_Done _ _ _ _ _ Er).
  rewrite filter_cons. destruct (Z.eqb_spec (hits_of hits x) 0) as [E0|E0].
  - rewrite decide_False by tauto. replace (filter _ l) with (@nil Z); [cbn; rewrite app_nil_r; by destruct s|]. symmetry.
    apply filter_none. apply Forall_forall. intros y Hy. apply list_elem_of_lookup in Hy as [b Hb]. specialize (Ho 0%nat (S b) x y ltac:(lia) eq_refl Hb).
    pose proof (Forall_lookup_1 _ _ _ _ Hl Hb) as Hyr. cbn in Hyr. pose proof (Hh y ltac:(lia)). lia.
  - rewrite decide_True by done.
    assert (En : ksym_id2name x (sa_syms (sk_sampling s)) = Done (ksym_strings (sa_syms (sk_sampling s)) + s32 (sid x), sa_syms (sk_sampling s))).
    { unfold ksym_id2name. rewrite (bind_Done (gets ksym_tbl) _ _ _ _ eq_refl), (bind_Done (gets ksym_strings) _ _ _ _ eq_refl).
      assert (Ew : sym_strid (ksym_tbl (sa_syms (sk_sampling s)) + x * sizeof_ksym) (sa_syms (sk_sampling s)) = Done (sid x, sa_syms (sk_sampling s))) by (unfold sym_strid, load; by rewrite Hnm).
      by rewrite (bind_Done _ _ _ _ _ Ew). }
    assert (Ei : in_syms (ksym_id2name x) (sk_sampling s) = Done (ksym_strings (sa_syms (sk_sampling s)) + s32 (sid x), sk_sampling s)).
    { rewrite (in_syms_Done _ _ _ _ En). by destruct (sk_sampling s). }
    rewrite (bind_Done _ _ _ _ _ (in_sampling_read _ s _ Ei)). rewrite s32_id by (pose proof (Hh x ltac:(lia)); lia).
    rewrite (bind_Done (print_symbol _ _) _ s tt _ eq_refl). replace (Z.of_nat i + 1) with (Z.of_nat (S i)) by lia. set (s1 := mk_skdb _ _ _ _).
    rewrite (IH (S i) s1 pcs hits ids (pre ++ [x]) post); [|done|done|done|by rewrite Hi, <- app_assoc|rewrite length_app; cbn; lia|done|done|intros a b y z Hab; apply (Ho (S a) (S b)); lia].
    unfold with_out, s1. cbn. by rewrite <- app_assoc.
Qed.

(** The command shows the symbols that were sampled, sorted by their counts. *)
Lemma kdb_show_sampling_ok breakpoints probe handler addr s pcs hits ids : arrays_ok (sa_mem (sk_sampling s)) pcs hits ids ->
  symbols_ok (sa_syms (sk_sampling s)) -> names_ok (sa_syms (sk_sampling s)) -> low_half pcs -> sk_init s <> 0 ->
  exists s' hits' shown, kdb_show_sampling sampled_pc ksym_hitcount ksymid_sortedlist breakpoints probe handler addr s = Done (tt, s') /\
    sk_out s' = sk_out s ++ (line hits' (sa_syms (sk_sampling s)) <$> shown) /\ shown ≡ₚ filter (fun i => hits_of hits' i <> 0) (seqZ 0 n) /\
    (forall (a b : nat) x y, (a < b)%nat -> shown !! a = Some x -> shown !! b = Some y -> hits_of hits' y <= hits_of hits' x) /\
    (exists ids', profile pcs hits' ids') /\ sampling_enabled (sk_sampling s') = 1 /\ sk_probes s' = sk_probes s.
Proof.
  intros Hm Hs Hnm Hl Hi. unfold kdb_show_sampling. rewrite (bind_Done (gets sk_init) _ s _ s eq_refl). destruct (Z.eqb_spec (sk_init s) 0); [done|].
  rewrite (bind_Done (in_sampling sampling_disable) _ s tt _ eq_refl). set (s1 := mk_skdb _ _ _ _).
  destruct (sampling_stats_ok (sk_sampling s1) pcs hits ids Hm Hs Hl) as (s2 & pcs' & hits' & ids' & E & Hm2 & _ & Hpr & Hs2 & _ & _ & (q & Eq)).
  rewrite (bind_Done _ _ _ _ _ (in_sampling_Done _ s1 _ _ E)). cbn [fst snd]. pose proof Hs2 as [Ht Hp Hn]. set (s3 := mk_skdb s2 _ _ _).
  assert (Et : in_sampling (in_syms ksym_total) s3 = Done (n, s3)).
  { apply in_sampling_read. rewrite <- (t_count _ _ _ Ht). cbn. by destruct s2. }
  rewrite (bind_Done _ _ _ _ _ Et). pose proof Hpr as [P1 P2 P3 P4 P5 P6]. set (l := take (Z.to_nat n) ids') in *.
  assert (Ell : Z.to_nat n = length l) by (unfold l; rewrite length_take, (ao_nids _ _ _ _ Hm2); lia). rewrite Ell.
  assert (Hll : Forall (fun x => 0 <= x < n) l) by (rewrite P5; apply Forall_forall; intros x Hx; apply elem_of_seqZ in Hx; lia).
  pose proof (show_symbols_ok l 0 s3 pcs' hits' ids' [] (drop (Z.to_nat n) ids') Hm2 Hs2) as Es. change (Z.of_nat 0) with 0 in Es. rewrite (bind_Done _ _ _ _ _ (Es
    ltac:(intros i Hir; rewrite <- (Hnm i Hir); cbn; by rewrite Eq) ltac:(cbn; unfold l; by rewrite take_drop) eq_refl Hll
    ltac:(intros j Hj; specialize (P4 j Hj); unfold MAX_SAMPLING_COUNT in P4; lia) P6)). clear Es.
  eexists _, hits', (filter (fun x => hits_of hits' x <> 0) l). split; [reflexivity|]. split; [cbn; unfold line; by rewrite Eq|].
  split; [by rewrite P5|]. split; [|split; [by exists ids'|done]]. apply (filter_ordered _ (fun x y => hits_of hits' y <= hits_of hits' x)). exact P6.
Qed.
End report.
End profile.

(** ** Properties *)

(** C35. The profiler from the first command to the report, for a sorted table of 3 to [MAX_KSYM]
    symbols above address 0 and at most [MAX_SAMPLING_COUNT] sampled addresses [l] below 2^31, when the
    registration of the probe returns.  The first [kdb_show_sampling] clears the buffer and registers
    the probe; each address is pushed by the probe; the second command prints a line for exactly the
    symbols with a number that is not 0, once each, those with greater numbers first, and sampling goes on.  The number
    of each symbol but the last two is the number of the addresses in [l] that belong to it.  Of the last two
    only the sum of the numbers is right: the comparison takes the last symbol to contain any
    address, so that samples of the last but one are counted for it. *)
Theorem sampling_report (sampled_pc ksym_hitcount ksymid_sortedlist : Z) (t : Z -> Z) (n : Z) (sid : Z -> Z)
    (breakpoints probe ktimer_handler handler_addr : Z) (s : sampling_kdb) (pcs0 hits0 ids0 l : list Z) (r : Z) (ps : kpstate)
    (Hap : arrays_apart sampled_pc ksym_hitcount ksymid_sortedlist)
    (Hm : arrays_ok sampled_pc ksym_hitcount ksymid_sortedlist (sa_mem (sk_sampling s)) pcs0 hits0 ids0)
    (Hs : symbols_ok t n (sa_syms (sk_sampling s))) (Hnm : names_ok n sid (sa_syms (sk_sampling s))) (Ht : 0 < t 0)
    (Hl : low_half l) (Hlen : Z.of_nat (length l) <= MAX_SAMPLING_COUNT) (Hi : sk_init s = 0)
    (Hreg : (upd_kp probe (with_addr ktimer_handler);; upd_kp probe (with_pre handler_addr);; upd_kp probe (with_post NULL);;
             kprobe_register breakpoints probe) (sk_probes s) = Done (r, ps)) :
  let show := kdb_show_sampling sampled_pc ksym_hitcount ksymid_sortedlist breakpoints probe ktimer_handler handler_addr in
  exists s' hits shown, (show;; in_sampling (push_all sampled_pc l);; show) s = Done (tt, s') /\
    sk_out s' = sk_out s ++ ((fun i => (hits_of hits i, ksym_strings (sa_syms (sk_sampling s)) + s32 (sid i))) <$> shown) /\
    shown ≡ₚ filter (fun i => hits_of hits i <> 0) (seqZ 0 n) /\
    (forall (a b : nat) x y, (a < b)%nat -> shown !! a = Some x -> shown !! b = Some y -> hits_of hits y <= hits_of hits x) /\
    (forall i, 0 <= i < n - 2 -> hits_of hits i = samples (t i) (t (i + 1)) l) /\
    hits_of hits (n - 2) + hits_of hits (n - 1) = samples (t (n - 2)) 2147483648 l /\
    sampling_enabled (sk_sampling s') = 1 /\ sk_probes s' = ps.
Proof.
  intros show. pose proof Hs as [Htab Hprev Hn]. destruct (sampling_init_ok _ _ _ t n Hap (sk_sampling s) pcs0 hits0 ids0 Hm Hs) as (m1 & E1 & Hm1).
  set (s1 := mk_skdb (mk_sampling m1 0 1 (sa_syms (sk_sampling s))) ps 1 (sk_out s)).
  assert (Efirst : show s = Done (tt, s1)).
  { unfold show, kdb_show_sampling. rewrite (bind_Done (gets sk_init) _ s _ s eq_refl), Hi. cbn [Z.eqb]. rewrite (bind_Done _ _ _ _ _ (in_sampling_Done _ _ _ _ E1)).
    revert Hreg. unfold mbind, M_bind, in_sampling, in_probes, zoom, sampling_enable, set_enabled, set_init, modify. cbn [sk_probes sk_sampling].
    destruct (upd_kp probe (with_addr ktimer_handler) (sk_probes s)) as [[? p1]| | |]; [|done..]. cbn [sk_probes].
    destruct (upd_kp probe (with_pre handler_addr) p1) as [[? p2]| | |]; [|done..]. cbn [sk_probes].
    destruct (upd_kp probe (with_post NULL) p2) as [[? p3]| | |]; [|done..]. cbn [sk_probes]. intros ->. done. }
  rewrite (bind_Done _ _ _ _ _ Efirst).
  destruct (push_all_ok _ _ _ Hap l (sk_sampling s1) _ hits0 ids0 0 Hm1) as (m2 & E2 & Hm2); [done|done|unfold MAX_SAMPLING_COUNT in *; lia| |].
  { eapply Forall_impl; [exact Hl|]. intros pc Hpc. unfold is_u32, u32_modulus. cbn in Hpc. lia. }
  rewrite (bind_Done _ _ _ _ _ (in_sampling_Done _ s1 _ _ E2)). set (s2 := mk_skdb _ _ _ _).
  assert (Epcs : fill (replicate (Z.to_nat MAX_SAMPLING_COUNT) 0) 0 l = l ++ replicate (Z.to_nat MAX_SAMPLING_COUNT - length l) 0).
  { unfold fill. rewrite take_0, drop_replicate. cbn [app]. f_equal. }
  rewrite Epcs in Hm2.
  destruct (kdb_show_sampling_ok _ _ _ t n Hap sid breakpoints probe ktimer_handler handler_addr s2 _ hits0 ids0 Hm2 Hs Hnm) as (s' & hits & shown & E & Ho & Hp & Hd & (ids' & [P1 P2 _ _ _ _]) & He & Hps); [|done|].
  { apply Forall_app. split; [exact Hl|]. apply Forall_replicate. lia. }
  exists s', hits, shown. split; [exact E|]. split; [exact Ho|]. split; [exact Hp|]. split; [exact Hd|].
  assert (Hpos : forall i, 0 <= i < n -> 0 < t i) by (intros i Hir; pose proof (sorted_le _ t n Htab 0 i); lia).
  split; [intros i Hir; rewrite P1 by done; apply samples_zeros, Hpos; lia|]. split; [rewrite P2; apply samples_zeros, Hpos; lia|]. split; [exact He|exact Hps].
Qed.

(** *** A witness *)

Definition zero_mem (a n : Z) : bytes := list_to_map ((fun x => (x, 0)) <$> seqZ a n).

Lemma zero_mem_lookup a n x : a <= x < a + n -> zero_mem a n !! x = Some 0.
Proof.
  intros Hx. unfold zero_mem. apply elem_of_list_to_map_1.
  - rewrite <- list_fmap_compose. change (compose fst (fun x : Z => (x, 0))) with (fun x : Z => x). rewrite list_fmap_id. apply NoDup_seqZ.
  - apply list_elem_of_fmap. exists x. split; [done|]. apply elem_of_seqZ. lia.
Qed.

Lemma zero_mem_warray a n b k : b mod 4 = 0 -> a <= b -> b + Z.of_nat k * 4 <= a + n -> warray (zero_mem a n) b (replicate k 0).
Proof.
  intros Hb Ha Hk. split; [done|]. rewrite length_replicate. split.
  - intros x Hx. exists 0. split; [apply zero_mem_lookup; lia|done].
  - intros i w Hi. apply lookup_replicate in Hi as [-> Hi]. unfold word_at, byte_at. by rewrite !zero_mem_lookup by lia.
Qed.

Definition ex_ksyms : ksyms :=
  mk_ksyms (list_to_map (concat ((fun i => [(1000 + i * 8, 100 * (i + 1)); (1004 + i * 8, 7 * i)]) <$> seqZ 0 4))) 4 1000 5000 0.

Definition ex_profiler : sampling_kdb :=
  mk_skdb (mk_sampling (zero_mem 4096 45056) 0 0 ex_ksyms) (probes_after (kprobe_init 1000)) 0 [].

Lemma ex_arrays : arrays_ok 4096 45056 47104 (sa_mem (sk_sampling ex_profiler)) (replicate (Z.to_nat MAX_SAMPLING_COUNT) 0) (replicate (Z.to_nat MAX_KSYM) 0) (replicate (Z.to_nat MAX_KSYM) 0).
Proof. split; [apply zero_mem_warray; unfold MAX_SAMPLING_COUNT, MAX_KSYM; [done|lia|lia]..|apply length_replicate|apply length_replicate|apply length_replicate]. Qed.

Lemma ex_symbols_ok : symbols_ok (fun i => 100 * (i + 1)) 4 ex_ksyms /\ names_ok 4 (fun i => 7 * i) ex_ksyms.
Proof.
  assert (H4 : forall i, 0 <= i < 4 -> i = 0 \/ i = 1 \/ i = 2 \/ i = 3) by lia. split; [split; [split| |]|].
  - done.
  - lia.
  - done.
  - intros i Hi. destruct (H4 i Hi) as [-> |[-> |[-> | ->]]]; reflexivity.
  - intros; lia.
  - intros; lia.
  - cbn. lia.
  - unfold MAX_KSYM. lia.
  - intros i Hi. destruct (H4 i Hi) as [-> |[-> |[-> | ->]]]; reflexivity.
Qed.

Lemma sampling_report_witness : exists s' hits shown,
    (kdb_show_sampling 4096 45056 47104 1000 100 134217985 500;; in_sampling (push_all 4096 [150; 210; 120; 90]);;
     kdb_show_sampling 4096 45056 47104 1000 100 134217985 500) ex_profiler = Done (tt, s') /\
    sk_out s' = [] ++ ((fun i => (hits_of hits i, 5000 + s32 (7 * i))) <$> shown) /\ hits_of hits 0 = 2 /\ hits_of hits 1 = 1.
Proof.
  destruct (sampling_report 4096 45056 47104 (fun i => 100 * (i + 1)) 4 (fun i => 7 * i) 1000 100 134217985 500 ex_profiler
    (replicate (Z.to_nat MAX_SAMPLING_COUNT) 0) (replicate (Z.to_nat MAX_KSYM) 0) (replicate (Z.to_nat MAX_KSYM) 0) [150; 210; 120; 90] 0
    (match (upd_kp 100 (with_addr 134217985);; upd_kp 100 (with_pre 500);; upd_kp 100 (with_post NULL);; kprobe_register 1000 100) (probes_after (kprobe_init 1000)) with
     | Done (_, ps) => ps | _ => probes_start end)) as (s' & hits & shown & E & Ho & _ & _ & Hc & _).
  - split; unfold words_apart, MAX_SAMPLING_COUNT, MAX_KSYM; lia.
  - exact ex_arrays.
  - exact (proj1 ex_symbols_ok).
  - exact (proj2 ex_symbols_ok).
  - lia.
  - repeat constructor; lia.
  - cbn. unfold MAX_SAMPLING_COUNT. lia.
  - reflexivity.
  - change (sk_probes ex_profiler) with (probes_after (kprobe_init 1000)). vm_compute. reflexivity.
  - exists s', hits, shown. split; [exact E|]. split; [exact Ho|]. split; [rewrite Hc by lia|rewrite Hc by lia]; reflexivity.
Defined.
