(* ===== verification/Elf.v ===== *)
(** * The loader of the kernel image

    Models [loader/elf/elf32.c], [loader/elf/elf.c], the accessors of
    [loader/include/elf/elf32.h] and the start of [loader/entry.c]: the fields of an image in
    the executable and linkable format are read from memory, and its segments are copied to
    their physical addresses.

    [elfFile] is the address of the image.  Memory is that of [Bytes]: an access outside the
    mapped memory or to an unaligned word is a fault.  [dbg_printf] is a parameter here, and that
    of the console in [Loader]. *)

From S2P Require Import Prelude Bytes Boot Stdio.

Definition wrap16 (x : Z) : Z := x mod 65536.

(** A half word, little endian. *)
Definition read16 (p : Z) : M bytes Z :=
  if p mod 2 =? 0 then b0 ← read8 p; b1 ← read8 (p + 1); mret (b0 + 256 * b1) else fault.

(** ** Structures: the offsets of the fields *)

Definition EI_MAG0 : Z := 0.
Definition EI_MAG1 : Z := 1.
Definition EI_MAG2 : Z := 2.
Definition EI_MAG3 : Z := 3.
Definition EI_CLASS : Z := 4.
Definition ELFMAG0 : Z := 127.
Definition ELFMAG1 : Z := 69.
Definition ELFMAG2 : Z := 76.
Definition ELFMAG3 : Z := 70.
Definition ELFCLASS32 : Z := 1.

Module Elf32_Header.
Definition e_ident (file i : Z) : M bytes Z := read8 (file + i).
Definition e_entry (file : Z) : M bytes Z := read32 (file + 24).
Definition e_phoff (file : Z) : M bytes Z := read32 (file + 28).
Definition e_shoff (file : Z) : M bytes Z := read32 (file + 32).
Definition e_phnum (file : Z) : M bytes Z := read16 (file + 44).
Definition e_shnum (file : Z) : M bytes Z := read16 (file + 48).
Definition e_shstrndx (file : Z) : M bytes Z := read16 (file + 50).
End Elf32_Header.
Import Elf32_Header.

(** The fields of the element [i] of a table of sections. *)
Module Elf32_Shdr.
Definition sizeof : Z := 40.
Definition sh_name (sections i : Z) : M bytes Z := read32 (sections + sizeof * i).
Definition sh_type (sections i : Z) : M bytes Z := read32 (sections + sizeof * i + 4).
Definition sh_flags (sections i : Z) : M bytes Z := read32 (sections + sizeof * i + 8).
Definition sh_addr (sections i : Z) : M bytes Z := read32 (sections + sizeof * i + 12).
Definition sh_offset (sections i : Z) : M bytes Z := read32 (sections + sizeof * i + 16).
Definition sh_size (sections i : Z) : M bytes Z := read32 (sections + sizeof * i + 20).
End Elf32_Shdr.
Import Elf32_Shdr.

(** The fields of the element [i] of a table of segments. *)
Module Elf32_Phdr.
Definition sizeof : Z := 32.
Definition p_type (segments i : Z) : M bytes Z := read32 (segments + sizeof * i).
Definition p_offset (segments i : Z) : M bytes Z := read32 (segments + sizeof * i + 4).
Definition p_vaddr (segments i : Z) : M bytes Z := read32 (segments + sizeof * i + 8).
Definition p_paddr (segments i : Z) : M bytes Z := read32 (segments + sizeof * i + 12).
Definition p_filesz (segments i : Z) : M bytes Z := read32 (segments + sizeof * i + 16).
Definition p_memsz (segments i : Z) : M bytes Z := read32 (segments + sizeof * i + 20).
Definition p_flags (segments i : Z) : M bytes Z := read32 (segments + sizeof * i + 24).
End Elf32_Phdr.
Import Elf32_Phdr.

(** ** [elf32.h] and [elf32.c] *)

Definition elf32_checkFile (file : Z) : M bytes Z :=
  m0 ← e_ident file EI_MAG0;
  if negb (m0 =? ELFMAG0) then mret (-1)
  else
    m1 ← e_ident file EI_MAG1;
    if negb (m1 =? ELFMAG1) then mret (-1)
    else
      m2 ← e_ident file EI_MAG2;
      if negb (m2 =? ELFMAG2) then mret (-1)
      else
        m3 ← e_ident file EI_MAG3;
        if negb (m3 =? ELFMAG3) then mret (-1)
        else
          c ← e_ident file EI_CLASS;
          if negb (c =? ELFCLASS32) then mret (-2) else mret 0.

Definition elf32_getSectionTable (file : Z) : M bytes Z := o ← e_shoff file; mret (add32 file o).
Definition elf32_getProgramHeaderTable (file : Z) : M bytes Z := o ← e_phoff file; mret (add32 file o).
Definition elf32_getProgramSegmentTable (file : Z) : M bytes Z := o ← e_phoff file; mret (add32 o file).

Definition elf32_getNumSections (elfFile : Z) : M bytes Z := e_shnum elfFile.
Definition elf32_getStringTable (elfFile : Z) : M bytes Z :=
  sections ← elf32_getSectionTable elfFile;
  n ← e_shstrndx elfFile;
  o ← sh_offset sections n;
  mret (elfFile + o).
Definition elf32_getNumProgramHeaders (elfFile : Z) : M bytes Z := e_phnum elfFile.
Definition elf32_getSegmentStringTable (elfFile : Z) : M bytes Z :=
  n ← e_shstrndx elfFile;
  if n =? 0 then mret NULL else elf32_getStringTable elfFile.

(** [corrupted] is the address of the string [<corrupted>]. *)
Definition elf32_getSectionName (corrupted elfFile i : Z) : M bytes Z :=
  sections ← elf32_getSectionTable elfFile;
  str_table ← elf32_getSegmentStringTable elfFile;
  if str_table =? NULL then mret corrupted
  else n ← sh_name sections i; mret (str_table + n).
Definition elf32_getSectionSize (elfFile i : Z) : M bytes Z := sections ← elf32_getSectionTable elfFile; sh_size sections i.
Definition elf32_getSectionAddr (elfFile i : Z) : M bytes Z := sections ← elf32_getSectionTable elfFile; sh_addr sections i.
Definition elf32_getSection (elfFile i : Z) : M bytes Z :=
  sections ← elf32_getSectionTable elfFile; o ← sh_offset sections i; mret (elfFile + o).
Definition elf32_getSectionType (file s : Z) : M bytes Z := sections ← elf32_getSectionTable file; sh_type sections (wrap16 s).
Definition elf32_getSectionFlags (file s : Z) : M bytes Z := sections ← elf32_getSectionTable file; sh_flags sections (wrap16 s).

(** The loop of [elf32_getSectionNamed] from [i] on, [k] sections; [len] bounds the length of
    the names that are compared. *)
Fixpoint section_named (corrupted : Z) (len k : nat) (elfFile str i : Z) : M bytes Z :=
  match k with
  | O => mret NULL
  | S k =>
      name ← elf32_getSectionName corrupted elfFile i;
      d ← strcmp len str name;
      if d =? 0 then elf32_getSection elfFile i else section_named corrupted len k elfFile str (i + 1)
  end.
Definition elf32_getSectionNamed (corrupted : Z) (len : nat) (elfFile str : Z) : M bytes Z :=
  numSections ← elf32_getNumSections elfFile;
  section_named corrupted len (Z.to_nat numSections) elfFile str 0.

Definition elf32_getSegmentType (elfFile segment : Z) : M bytes Z := t ← elf32_getProgramSegmentTable elfFile; p_type t segment.

(** The values of [p_vaddr], [p_addr], [p_filesz], [p_offset] and [p_memsz]. *)
Definition elf32_getSegmentInfo (elfFile segment : Z) : M bytes (Z * Z * Z * Z * Z) :=
  segments ← elf32_getProgramSegmentTable elfFile;
  p_addr ← p_paddr segments segment;
  vaddr ← p_vaddr segments segment;
  filesz ← p_filesz segments segment;
  offset ← p_offset segments segment;
  memsz ← p_memsz segments segment;
  mret (vaddr, p_addr, filesz, offset, memsz).

Definition elf32_getEntryPoint (elfFile : Z) : M bytes Z := e_entry elfFile.

Definition elf32_getProgramHeaderFlags (file ph : Z) : M bytes Z := t ← elf32_getProgramHeaderTable file; p_flags t (wrap16 ph).
Definition elf32_getProgramHeaderType (file ph : Z) : M bytes Z := t ← elf32_getProgramHeaderTable file; p_type t (wrap16 ph).
Definition elf32_getProgramHeaderFileSize (file ph : Z) : M bytes Z := t ← elf32_getProgramHeaderTable file; p_filesz t (wrap16 ph).
Definition elf32_getProgramHeaderMemorySize (file ph : Z) : M bytes Z := t ← elf32_getProgramHeaderTable file; p_memsz t (wrap16 ph).
Definition elf32_getProgramHeaderVaddr (file ph : Z) : M bytes Z := t ← elf32_getProgramHeaderTable file; p_vaddr t (wrap16 ph).
Definition elf32_getProgramHeaderPaddr (file ph : Z) : M bytes Z := t ← elf32_getProgramHeaderTable file; p_paddr t (wrap16 ph).
Definition elf32_getProgramHeaderOffset (file ph : Z) : M bytes Z := t ← elf32_getProgramHeaderTable file; p_offset t (wrap16 ph).

(** ** [elf.c] *)

Definition elf_checkFile (elfFile : Z) : M bytes Z := elf32_checkFile elfFile.
Definition elf_getNumProgramHeaders (elfFile : Z) : M bytes Z := elf32_getNumProgramHeaders elfFile.
Definition elf_getProgramHeaderFlags (elfFile ph : Z) : M bytes Z := elf32_getProgramHeaderFlags elfFile (wrap16 ph).
Definition elf_getProgramHeaderType (elfFile ph : Z) : M bytes Z := elf32_getProgramHeaderType elfFile (wrap16 ph).
Definition elf_getProgramHeaderPaddr (elfFile ph : Z) : M bytes Z := elf32_getProgramHeaderPaddr elfFile (wrap16 ph).
Definition elf_getProgramHeaderVaddr (elfFile ph : Z) : M bytes Z := elf32_getProgramHeaderVaddr elfFile (wrap16 ph).
Definition elf_getProgramHeaderMemorySize (elfFile ph : Z) : M bytes Z := elf32_getProgramHeaderMemorySize elfFile (wrap16 ph).
Definition elf_getProgramHeaderFileSize (elfFile ph : Z) : M bytes Z := elf32_getProgramHeaderFileSize elfFile (wrap16 ph).
Definition elf_getProgramHeaderOffset (elfFile ph : Z) : M bytes Z := elf32_getProgramHeaderOffset elfFile (wrap16 ph).
Definition elf_getSegmentStringTable (elfFile : Z) : M bytes Z := elf32_getSegmentStringTable elfFile.
Definition elf_getStringTable (elfFile string_segment : Z) : M bytes Z := elf32_getStringTable elfFile.
Definition elf_getNumSections (elfFile : Z) : M bytes Z := elf32_getNumSections elfFile.
Definition elf_getSectionName (corrupted elfFile i : Z) : M bytes Z := elf32_getSectionName corrupted elfFile i.
Definition elf_getSectionFlags (elfFile i : Z) : M bytes Z := elf32_getSectionFlags elfFile i.
Definition elf_getSectionType (elfFile i : Z) : M bytes Z := elf32_getSectionType elfFile i.
Definition elf_getSectionSize (elfFile i : Z) : M bytes Z := elf32_getSectionSize elfFile i.
Definition elf_getSectionAddr (elfFile i : Z) : M bytes Z := elf32_getSectionAddr elfFile i.
Definition elf_getSection (elfFile i : Z) : M bytes Z := elf32_getSection elfFile i.
Definition elf_getSectionNamed (corrupted : Z) (len : nat) (elfFile str : Z) : M bytes Z := elf32_getSectionNamed corrupted len elfFile str.

(** The values of [p_vaddr], [p_paddr], [p_filesz], [p_offset] and [p_memsz]. *)
Definition elf_getProgramHeaderInfo (elfFile ph : Z) : M bytes (Z * Z * Z * Z * Z) :=
  vaddr ← elf_getProgramHeaderVaddr elfFile ph;
  paddr ← elf_getProgramHeaderPaddr elfFile ph;
  filesz ← elf_getProgramHeaderFileSize elfFile ph;
  offset ← elf_getProgramHeaderOffset elfFile ph;
  memsz ← elf_getProgramHeaderMemorySize elfFile ph;
  mret (vaddr, paddr, filesz, offset, memsz).
Definition elf_getEntryPoint (elfFile : Z) : M bytes Z := elf32_getEntryPoint elfFile.

(** The loop of [elf_getMemoryBounds] from [i] on, [k] headers. *)
Fixpoint bounds_loop (k : nat) (elfFile : Z) (phys : bool) (i mem_min mem_max : Z) : M bytes (Z * Z) :=
  match k with
  | O => mret (mem_min, mem_max)
  | S k =>
      size ← elf_getProgramHeaderMemorySize elfFile i;
      if size =? 0 then bounds_loop k elfFile phys (i + 1) mem_min mem_max
      else
        sect_min ← (if phys then elf_getProgramHeaderPaddr elfFile i else elf_getProgramHeaderVaddr elfFile i);
        size ← elf_getProgramHeaderMemorySize elfFile i;
        let sect_max := add32 sect_min size in
        let mem_max := if sect_max >? mem_max then sect_max else mem_max in
        let mem_min := if sect_min <? mem_min then sect_min else mem_min in
        bounds_loop k elfFile phys (i + 1) mem_min mem_max
  end.

(** [None]: the result is [false] and the bounds are not written. *)
Definition elf_getMemoryBounds (elfFile : Z) (phys : bool) : M bytes (option (Z * Z)) :=
  c ← elf_checkFile elfFile;
  if negb (c =? 0) then mret None
  else
    n ← elf_getNumProgramHeaders elfFile;
    b ← bounds_loop (Z.to_nat n) elfFile phys 0 4294967295 0;
    mret (Some b).

Definition elf_vaddrInProgramHeader (elfFile ph vaddr : Z) : M bytes bool :=
  min ← elf_getProgramHeaderVaddr elfFile ph;
  size ← elf_getProgramHeaderMemorySize elfFile ph;
  let max := add32 min size in
  mret ((vaddr >=? min) && (vaddr <? max)).

Definition elf_vtopProgramHeader (elfFile ph vaddr : Z) : M bytes Z :=
  ph_phys ← elf_getProgramHeaderPaddr elfFile ph;
  ph_virt ← elf_getProgramHeaderVaddr elfFile ph;
  mret (add32 (sub32 vaddr ph_virt) ph_phys).

(** The formats of the messages of [elf_loadFile], as the codes of their characters. *)
Definition msg_headers : list Z := [78; 117; 109; 98; 101; 114; 32; 111; 102; 32; 112; 114; 111; 103; 114; 97; 109; 32; 104; 101; 97; 100; 101; 114; 115; 58; 32; 37; 100; 10].
Definition msg_physical : list Z := [69; 108; 102; 32; 102; 105; 108; 101; 32; 112; 104; 101; 97; 100; 101; 114; 32; 112; 104; 121; 115; 105; 99; 97; 108; 58; 32; 48; 120; 37; 120; 10].
Definition msg_virtual : list Z := [69; 108; 102; 32; 102; 105; 108; 101; 32; 112; 104; 101; 97; 100; 101; 114; 32; 118; 105; 114; 116; 117; 97; 108; 58; 32; 48; 120; 37; 120; 10].
Definition msg_size : list Z := [84; 104; 105; 115; 32; 115; 101; 99; 116; 105; 111; 110; 39; 115; 32; 115; 105; 122; 101; 32; 105; 110; 32; 102; 105; 108; 101; 58; 32; 37; 112; 10].
Definition msg_offset : list Z := [69; 108; 102; 32; 112; 114; 111; 103; 114; 97; 109; 32; 104; 101; 97; 100; 101; 114; 32; 111; 102; 102; 115; 101; 116; 58; 32; 37; 112; 10].
Definition msg_range : list Z := [67; 111; 112; 121; 105; 110; 103; 32; 116; 111; 32; 114; 97; 110; 103; 101; 32; 102; 114; 111; 109; 32; 48; 120; 37; 120; 32; 116; 111; 32; 48; 120; 37; 120; 32; 111; 102; 32; 115; 105; 122; 101; 58; 32; 48; 120; 37; 120; 10].
Definition msg_end : list Z := [10].

Section load.
(** The image is in the memory of a state [St]; [dbg_printf format arguments] prints to the
    layer [DL_BASIC]. *)
Context {St : Type} `{!Part bytes St}.
Variable dbg_printf : list Z -> list va_t -> M St unit.

(** The loop of [elf_loadFile] from [i] on, [k] segments. *)
Fixpoint load_loop (k : nat) (elfFile i : Z) : M St unit :=
  match k with
  | O => mret tt
  | S k =>
      dest ← on (elf_getProgramHeaderPaddr elfFile i);
      dbg_printf msg_physical [U32 dest];;
      vaddr ← on (elf_getProgramHeaderVaddr elfFile i);
      dbg_printf msg_virtual [U32 vaddr];;
      len ← on (elf_getProgramHeaderFileSize elfFile i);
      dbg_printf msg_size [U32 len];;
      o ← on (elf_getProgramHeaderOffset elfFile i);
      let src := add32 elfFile o in
      dbg_printf msg_offset [U32 src];;
      dbg_printf msg_range [U32 dest; U32 (add32 dest len); U32 len];;
      on (memcpy dest src len);;
      load_loop k elfFile (i + 1)
  end.
Definition elf_loadFile (elfFile : Z) : M St Z :=
  c ← on (elf_checkFile elfFile);
  if negb (c =? 0) then mret 0
  else
    num_pheaders ← on (elf_getNumProgramHeaders elfFile);
    dbg_printf msg_headers [U32 num_pheaders];;
    load_loop (Z.to_nat num_pheaders) elfFile 0;;
    dbg_printf msg_end [];;
    on (elf_getEntryPoint elfFile).
End load.

(** ** [entry.c] *)

(** The symbols of the linker for the loader. *)
Record loader_image := mk_loader_image {
  kernel_flash_start : Z;
  kernel_start : Z;
  kernel_end : Z;
  data_start : Z;
  data_end : Z;
  loader_bss_start : Z;
  loader_bss_end : Z;
}.

(** [__loader_start] before [sys_clock_init].  [&kernel_end - &kernel_start] is a number of
    words, and words are added to [&kernel_flash_start]. *)
Definition loader_segments (i : loader_image) : M bytes unit :=
  init_copy_seg (kernel_flash_start i + 4 * ((kernel_end i - kernel_start i) / 4)) (data_start i) (data_end i);;
  init_zero_seg (loader_bss_start i) (loader_bss_end i).
