(* ===== verification/ElfProps.v ===== *)
(** * The loader of the kernel image: correctness

    What a well-formed image is, that each of its segments is copied to its physical address
    and nothing else is changed, what is printed meanwhile, the bounds of the memory it takes and the search for a
    section by its name. *)

From S2P Require Import Prelude Bytes BytesProps Boot Stdio Elf.
Import Elf32_Header Elf32_Shdr Elf32_Phdr.

(** ** The messages *)

(** The pieces of the formats. *)
Definition pieces_headers : list piece := [Text [78; 117; 109; 98; 101; 114; 32; 111; 102; 32; 112; 114; 111; 103; 114; 97; 109; 32; 104; 101; 97; 100; 101; 114; 115; 58; 32]; Directive false 0 Dec; Text [10]].
Definition pieces_physical : list piece := [Text [69; 108; 102; 32; 102; 105; 108; 101; 32; 112; 104; 101; 97; 100; 101; 114; 32; 112; 104; 121; 115; 105; 99; 97; 108; 58; 32; 48; 120]; Directive false 0 Hex; Text [10]].
Definition pieces_virtual : list piece := [Text [69; 108; 102; 32; 102; 105; 108; 101; 32; 112; 104; 101; 97; 100; 101; 114; 32; 118; 105; 114; 116; 117; 97; 108; 58; 32; 48; 120]; Directive false 0 Hex; Text [10]].
Definition pieces_size : list piece := [Text [84; 104; 105; 115; 32; 115; 101; 99; 116; 105; 111; 110; 39; 115; 32; 115; 105; 122; 101; 32; 105; 110; 32; 102; 105; 108; 101; 58; 32]; Directive false 0 Ptr; Text [10]].
Definition pieces_offset : list piece := [Text [69; 108; 102; 32; 112; 114; 111; 103; 114; 97; 109; 32; 104; 101; 97; 100; 101; 114; 32; 111; 102; 102; 115; 101; 116; 58; 32]; Directive false 0 Ptr; Text [10]].
Definition pieces_range : list piece :=
  [Text [67; 111; 112; 121; 105; 110; 103; 32; 116; 111; 32; 114; 97; 110; 103; 101; 32; 102; 114; 111; 109; 32; 48; 120]; Directive false 0 Hex; Text [32; 116; 111; 32; 48; 120]; Directive false 0 Hex; Text [32; 111; 102; 32; 115; 105; 122; 101; 58; 32; 48; 120]; Directive false 0 Hex; Text [10]].

(** What a format prints of its arguments, [] where they do not fit it. *)
Definition printed (ps : list piece) (xs : list Z) : list Z := default [] (shows (fun _ => []) ps xs).

(** What the loading expects of a function that prints: while no more than [limit] characters are
    printed it appends the text of its format to what is shown and leaves memory alone; what is
    shown does not depend on memory. *)
Class Printer {St : Type} `{!Part bytes St} (dbg_printf : list Z -> list va_t -> M St unit) (shown : list Z -> St -> Prop) (limit : nat) : Prop := {
  printer_prints ps xs out txt s : Forall piece_ok ps -> args_ok (fun _ => []) ps xs -> shows (fun _ => []) ps xs = Some out ->
    shown txt s -> (length (txt ++ out) <= limit)%nat ->
    exists s', dbg_printf (ps ≫= format) (U32 <$> xs) s = Done (tt, s') /\ shown (txt ++ out) s' /\ get_part s' = get_part s;
  printer_memory m txt s : shown txt s -> shown txt (put_part m s);
}.

(** The pieces of a message are well formed. *)
Ltac pieces :=
  repeat match goal with
  | |- Forall _ [] => apply Forall_nil_2
  | |- Forall _ (_ :: _) => apply Forall_cons_2
  | |- Forall _ ?ps => progress unfold ps
  | |- piece_ok (Text _) => cbn [piece_ok]
  end; unfold is_char, chr_percent; cbn [piece_ok]; lia.

Section say.
Context {St : Type} `{!Part bytes St} `{!PartLaws bytes St} (dbg_printf : list Z -> list va_t -> M St unit) (shown : list Z -> St -> Prop) (limit : nat).
Context `{!Printer dbg_printf shown limit}.

(** A message in a sequence. *)
Lemma say ps xs fmt va txt s : shown txt s -> fmt = ps ≫= format -> va = U32 <$> xs -> Forall piece_ok ps -> args_ok (fun _ => []) ps xs ->
  is_Some (shows (fun _ => []) ps xs) -> (length (txt ++ printed ps xs) <= limit)%nat ->
  exists s', dbg_printf fmt va s = Done (tt, s') /\ shown (txt ++ printed ps xs) s' /\ get_part s' = get_part s.
Proof.
  intros Hs -> -> Hp Ha [out Ho] Hl. unfold printed in *. rewrite Ho in *. destruct (printer_prints ps xs out txt s Hp Ha Ho Hs Hl) as (s' & E & Hs' & Hm).
  by exists s'.
Qed.

(** A read of memory in a sequence. *)
Lemma on_read {A B} (r : M bytes A) (k : A -> M St B) s a : r (get_part s) = Done (a, get_part s) -> (on r ≫= k) s = k a s.
Proof. intros E. rewrite (bind_Done _ _ _ _ _ (on_Done r s _ _ E)). by rewrite put_get. Qed.
End say.

(** ** Reading fields *)

Definition half_at (m : bytes) (a : Z) : Z := byte_at m a + 256 * byte_at m (a + 1).

Lemma read8_at m a n x : is_bytes m a n -> a <= x < a + n -> read8 x m = Done (byte_at m x, m).
Proof. intros H Hx. apply read8_ok. by apply (byte_at_ok m a n). Qed.

Lemma read32_at m a n x : is_bytes m a n -> a <= x -> x + 4 <= a + n -> x mod 4 = 0 -> read32 x m = Done (word_at m x, m).
Proof. intros H H1 H2 Hx. apply read32_ok; [done|..]; apply (byte_at_ok m a n); (done || lia). Qed.

Lemma read16_at m a n x : is_bytes m a n -> a <= x -> x + 2 <= a + n -> x mod 2 = 0 -> read16 x m = Done (half_at m x, m).
Proof.
  intros H H1 H2 Hx. unfold read16. rewrite Hx. cbn [Z.eqb]. rewrite (bind_Done _ _ _ _ _ (read8_at m a n x H ltac:(lia))).
  by rewrite (bind_Done _ _ _ _ _ (read8_at m a n (x + 1) H ltac:(lia))).
Qed.

Lemma word_at_range m a n x : is_bytes m a n -> a <= x -> x + 4 <= a + n -> 0 <= word_at m x < 2 ^ 32.
Proof.
  intros H H1 H2. destruct (byte_at_ok m a n x H ltac:(lia)) as [_ B0]. destruct (byte_at_ok m a n (x + 1) H ltac:(lia)) as [_ B1].
  destruct (byte_at_ok m a n (x + 2) H ltac:(lia)) as [_ B2]. destruct (byte_at_ok m a n (x + 3) H ltac:(lia)) as [_ B3].
  unfold word_at, word, is_byte in *. lia.
Qed.

Lemma half_at_range m a n x : is_bytes m a n -> a <= x -> x + 2 <= a + n -> 0 <= half_at m x < 65536.
Proof.
  intros H H1 H2. destruct (byte_at_ok m a n x H ltac:(lia)) as [_ B0]. destruct (byte_at_ok m a n (x + 1) H ltac:(lia)) as [_ B1].
  unfold half_at, is_byte in *. lia.
Qed.

(** ** Images *)

Section image.
Variable f : Z.

Definition phoff (m : bytes) : Z := word_at m (f + 28).
Definition phnum (m : bytes) : Z := half_at m (f + 44).
Definition ph_field (m : bytes) (i off : Z) : Z := word_at m (f + phoff m + 32 * i + off).
Definition seg_offset (m : bytes) (i : Z) : Z := ph_field m i 4.
Definition seg_vaddr (m : bytes) (i : Z) : Z := ph_field m i 8.
Definition seg_paddr (m : bytes) (i : Z) : Z := ph_field m i 12.
Definition seg_filesz (m : bytes) (i : Z) : Z := ph_field m i 16.
Definition seg_memsz (m : bytes) (i : Z) : Z := ph_field m i 20.

(** An image of [size] bytes at [f], aligned, with its table of segments. *)
Record elf_image (size : Z) (m : bytes) : Prop := {
  ei_align : f mod 4 = 0;
  ei_range : 0 <= f /\ f + size < 2 ^ 32;
  ei_bytes : is_bytes m f size;
  ei_header : 52 <= size;
  ei_ph_align : phoff m mod 4 = 0;
  ei_ph : phoff m + 32 * phnum m <= size;
}.

(** The identification of the format. *)
Definition elf_magic (m : bytes) : bool :=
  (byte_at m f =? 127) && (byte_at m (f + 1) =? 69) && (byte_at m (f + 2) =? 76) && (byte_at m (f + 3) =? 70) && (byte_at m (f + 4) =? 1).

Section reads.
Context (size : Z) (m : bytes) (HE : elf_image size m).

Lemma phnum_range : 0 <= phnum m < 65536.
Proof. apply (half_at_range m f size); [apply HE|..]; pose proof (ei_header _ _ HE); lia. Qed.

Lemma phoff_range : 0 <= phoff m < 2 ^ 32.
Proof. apply (word_at_range m f size); [apply HE|..]; pose proof (ei_header _ _ HE); lia. Qed.

Lemma aligned_off k : k mod 4 = 0 -> (f + k) mod 4 = 0.
Proof. intros Hk. rewrite Z.add_mod, (ei_align _ _ HE), Hk by lia. done. Qed.

Lemma even_off k : k mod 4 = 0 \/ k mod 4 = 2 -> (f + k) mod 2 = 0.
Proof. pose proof (ei_align _ _ HE). intros Hk. Z.div_mod_to_equations. lia. Qed.

Lemma ph_field_addr i off : 0 <= i < phnum m -> 0 <= off -> off + 4 <= 32 -> off mod 4 = 0 ->
  f <= f + phoff m + 32 * i + off /\ f + phoff m + 32 * i + off + 4 <= f + size /\ (f + phoff m + 32 * i + off) mod 4 = 0.
Proof.
  intros Hi H0 H1 H2. pose proof (ei_ph _ _ HE). pose proof phoff_range. split; [lia|]. split; [lia|].
  replace (f + phoff m + 32 * i + off) with (f + (phoff m + off + 8 * i * 4)) by lia. apply aligned_off.
  rewrite Z.mod_add by lia. rewrite Z.add_mod, (ei_ph_align _ _ HE), H2 by lia. done.
Qed.

Lemma ph_field_range i off : 0 <= i < phnum m -> 0 <= off -> off + 4 <= 32 -> off mod 4 = 0 -> 0 <= ph_field m i off < 2 ^ 32.
Proof. intros Hi H0 H1 H2. destruct (ph_field_addr i off) as (A & B & _); [done..|]. apply (word_at_range m f size); [apply HE|done|done]. Qed.

(** Each accessor of a header returns its field. *)
Lemma ph_read i off : 0 <= i < phnum m -> 0 <= off -> off + 4 <= 32 -> off mod 4 = 0 ->
  (t ← elf32_getProgramHeaderTable f; read32 (t + 32 * wrap16 (wrap16 i) + off)) m = Done (ph_field m i off, m).
Proof.
  intros Hi H0 H1 H2. pose proof phnum_range. pose proof phoff_range. pose proof (ei_header _ _ HE). pose proof (ei_range _ _ HE). pose proof (ei_ph _ _ HE).
  assert (Ht : elf32_getProgramHeaderTable f m = Done (f + phoff m, m)).
  { unfold elf32_getProgramHeaderTable, e_phoff. rewrite (bind_Done _ _ _ _ _ (read32_at m f size (f + 28) (ei_bytes _ _ HE) ltac:(lia) ltac:(lia) (aligned_off 28 eq_refl))).
    unfold add32, wrap32. rewrite Z.mod_small; [done|]. change u32_modulus with (2 ^ 32). change (word_at m (f + 28)) with (phoff m). lia. }
  rewrite (bind_Done _ _ _ _ _ Ht). unfold wrap16. rewrite !(Z.mod_small i) by lia.
  destruct (ph_field_addr i off) as (A & B & C); [done..|]. apply (read32_at m f size); [apply HE|done..].
Qed.

Lemma getOffset_ok i : 0 <= i < phnum m -> elf_getProgramHeaderOffset f i m = Done (seg_offset m i, m).
Proof. intros Hi. exact (ph_read i 4 Hi ltac:(lia) ltac:(lia) eq_refl). Qed.
Lemma getVaddr_ok i : 0 <= i < phnum m -> elf_getProgramHeaderVaddr f i m = Done (seg_vaddr m i, m).
Proof. intros Hi. exact (ph_read i 8 Hi ltac:(lia) ltac:(lia) eq_refl). Qed.
Lemma getPaddr_ok i : 0 <= i < phnum m -> elf_getProgramHeaderPaddr f i m = Done (seg_paddr m i, m).
Proof. intros Hi. exact (ph_read i 12 Hi ltac:(lia) ltac:(lia) eq_refl). Qed.
Lemma getFileSize_ok i : 0 <= i < phnum m -> elf_getProgramHeaderFileSize f i m = Done (seg_filesz m i, m).
Proof. intros Hi. exact (ph_read i 16 Hi ltac:(lia) ltac:(lia) eq_refl). Qed.
Lemma getMemorySize_ok i : 0 <= i < phnum m -> elf_getProgramHeaderMemorySize f i m = Done (seg_memsz m i, m).
Proof. intros Hi. exact (ph_read i 20 Hi ltac:(lia) ltac:(lia) eq_refl). Qed.

Lemma getNum_ok : elf_getNumProgramHeaders f m = Done (phnum m, m).
Proof.
  pose proof (ei_header _ _ HE). apply (read16_at m f size); [apply HE|lia|lia|apply even_off; by left].
Qed.

Lemma getEntry_ok : elf_getEntryPoint f m = Done (word_at m (f + 24), m).
Proof. pose proof (ei_header _ _ HE). apply (read32_at m f size); [apply HE|lia|lia|by apply aligned_off]. Qed.

Lemma checkFile_ok : exists c, elf_checkFile f m = Done (c, m) /\ (c =? 0) = elf_magic m.
Proof.
  pose proof (ei_header _ _ HE).
  assert (R : forall k, 0 <= k < 52 -> read8 (f + k) m = Done (byte_at m (f + k), m)) by (intros k Hk; apply (read8_at m f size); [apply HE|lia]).
  unfold elf_checkFile, elf32_checkFile, e_ident, elf_magic, EI_MAG0, EI_MAG1, EI_MAG2, EI_MAG3, EI_CLASS, ELFMAG0, ELFMAG1, ELFMAG2, ELFMAG3, ELFCLASS32.
  rewrite (bind_Done _ _ _ _ _ (R 0 ltac:(lia))). rewrite Z.add_0_r. destruct (byte_at m f =? 127); cbn [negb andb]; [|by exists (-1)].
  rewrite (bind_Done _ _ _ _ _ (R 1 ltac:(lia))). destruct (byte_at m (f + 1) =? 69); cbn [negb andb]; [|by exists (-1)].
  rewrite (bind_Done _ _ _ _ _ (R 2 ltac:(lia))). destruct (byte_at m (f + 2) =? 76); cbn [negb andb]; [|by exists (-1)].
  rewrite (bind_Done _ _ _ _ _ (R 3 ltac:(lia))). destruct (byte_at m (f + 3) =? 70); cbn [negb andb]; [|by exists (-1)].
  rewrite (bind_Done _ _ _ _ _ (R 4 ltac:(lia))). destruct (byte_at m (f + 4) =? 1); cbn [negb]; [by exists 0|by exists (-2)].
Qed.
End reads.

(** ** Loading *)

(** What the segments up to [n] make of the byte at [a]: that of the last one that covers it. *)
Fixpoint loaded_at (m : bytes) (n : nat) (a : Z) : option Z :=
  match n with
  | O => m !! a
  | S k =>
      let i := Z.of_nat k in
      if decide (seg_paddr m i <= a < seg_paddr m i + seg_filesz m i) then m !! (f + seg_offset m i + (a - seg_paddr m i))
      else loaded_at m k a
  end.

(** What [elf_loadFile] prints of a segment, and of the image. *)
Definition segment_text (m : bytes) (i : Z) : list Z :=
  printed pieces_physical [seg_paddr m i] ++ printed pieces_virtual [seg_vaddr m i] ++ printed pieces_size [seg_filesz m i] ++ printed pieces_offset [f + seg_offset m i] ++
  printed pieces_range [seg_paddr m i; add32 (seg_paddr m i) (seg_filesz m i); seg_filesz m i].
Definition segments_text (m : bytes) (i k : nat) : list Z := seq i k ≫= (fun j => segment_text m (Z.of_nat j)).
Definition elf_text (m : bytes) : list Z := printed pieces_headers [phnum m] ++ segments_text m 0 (Z.to_nat (phnum m)) ++ [13; 10].

(** The image can be loaded: the contents of each segment are in the image, and the place it
    is loaded to is memory outside the image. *)
Definition loadable (size : Z) (m : bytes) : Prop :=
  forall i, 0 <= i < phnum m ->
    seg_offset m i + seg_filesz m i <= size /\
    (seg_paddr m i + seg_filesz m i <= f \/ f + size <= seg_paddr m i) /\
    (forall a, seg_paddr m i <= a < seg_paddr m i + seg_filesz m i -> is_Some (m !! a)).

Section load.
Context (size : Z) (m : bytes) (HE : elf_image size m) (HL : loadable size m).

Lemma loaded_at_file n a : (Z.of_nat n <= phnum m) -> f <= a < f + size -> loaded_at m n a = m !! a.
Proof.
  induction n as [|n IH]; intros Hn Ha; cbn [loaded_at]; [done|]. rewrite IH by (done || lia).
  destruct (HL (Z.of_nat n)) as (_ & Hd & _); [lia|]. rewrite decide_False; [done|lia].
Qed.

Lemma loaded_at_some n a : (Z.of_nat n <= phnum m) -> is_Some (m !! a) -> is_Some (loaded_at m n a).
Proof.
  induction n as [|n IH]; intros Hn Ha; cbn [loaded_at]; [done|]. case_decide as Hd; [|apply IH; (done || lia)].
  destruct (HL (Z.of_nat n)) as (Ho & _ & _); [lia|].
  pose proof (ph_field_range size m HE (Z.of_nat n) 4 ltac:(lia) ltac:(lia) ltac:(lia) eq_refl) as Hr. change (ph_field m (Z.of_nat n) 4) with (seg_offset m (Z.of_nat n)) in Hr.
  destruct (ei_bytes _ _ HE (f + seg_offset m (Z.of_nat n) + (a - seg_paddr m (Z.of_nat n)))) as (b & -> & _); [lia|done].
Qed.

(** A memory that has the image of [m] has the same fields. *)
Definition same_file (m' : bytes) : Prop := forall a, f <= a < f + size -> m' !! a = m !! a.

Lemma word_at_same m' x : same_file m' -> f <= x -> x + 4 <= f + size -> word_at m' x = word_at m x.
Proof. intros Hs H1 H2. unfold word_at, byte_at. by rewrite !Hs by lia. Qed.

Lemma half_at_same m' x : same_file m' -> f <= x -> x + 2 <= f + size -> half_at m' x = half_at m x.
Proof. intros Hs H1 H2. unfold half_at, byte_at. by rewrite !Hs by lia. Qed.

Lemma phnum_same m' : same_file m' -> phnum m' = phnum m.
Proof. intros Hs. apply half_at_same; [done|lia|]. pose proof (ei_header _ _ HE). lia. Qed.

Lemma phoff_same m' : same_file m' -> phoff m' = phoff m.
Proof. intros Hs. apply word_at_same; [done|lia|]. pose proof (ei_header _ _ HE). lia. Qed.

Lemma ph_field_same m' i off : same_file m' -> 0 <= i < phnum m -> 0 <= off -> off + 4 <= 32 -> off mod 4 = 0 -> ph_field m' i off = ph_field m i off.
Proof.
  intros Hs Hi H0 H1 H2. unfold ph_field. rewrite phoff_same by done. destruct (ph_field_addr size m HE i off) as (A & B & _); [done..|].
  by apply word_at_same.
Qed.

Lemma same_file_image m' : same_file m' -> elf_image size m'.
Proof.
  intros Hs. destruct HE as [H1 H2 H3 H4 H5 H6]. split; [done|done| |done|by rewrite phoff_same|by rewrite phoff_same, phnum_same].
  intros x Hx. rewrite Hs by done. by apply H3.
Qed.

(** The fields of a segment, and that each accessor reads them after other segments are loaded. *)
Lemma seg_ranges j : 0 <= j < phnum m -> is_u32 (seg_paddr m j) /\ is_u32 (seg_vaddr m j) /\ is_u32 (seg_filesz m j) /\ is_u32 (seg_offset m j).
Proof. intros Hj. unfold is_u32. change u32_modulus with (2 ^ 32). repeat split; apply (ph_field_range size m HE j); done || lia. Qed.

Lemma seg_reads m' j : same_file m' -> 0 <= j < phnum m ->
  elf_getProgramHeaderPaddr f j m' = Done (seg_paddr m j, m') /\ elf_getProgramHeaderVaddr f j m' = Done (seg_vaddr m j, m') /\
  elf_getProgramHeaderFileSize f j m' = Done (seg_filesz m j, m') /\ elf_getProgramHeaderOffset f j m' = Done (seg_offset m j, m').
Proof.
  intros Hs Hj. pose proof (same_file_image m' Hs) as HE'. assert (Hj' : 0 <= j < phnum m') by (by rewrite phnum_same).
  rewrite (getPaddr_ok size), (getVaddr_ok size), (getFileSize_ok size), (getOffset_ok size) by done.
  unfold seg_paddr, seg_vaddr, seg_filesz, seg_offset. by rewrite !(ph_field_same m') by (done || lia).
Qed.

Section loop.
Context {St : Type} `{!Part bytes St} `{!PartLaws bytes St} (dbg_printf : list Z -> list va_t -> M St unit) (shown : list Z -> St -> Prop) (limit : nat).
Context `{!Printer dbg_printf shown limit}.

(** The turn of the loop for segment [j] up to the copy. *)
Lemma segment_said k j txt s : 0 <= j < phnum m -> same_file (get_part s) -> shown txt s -> (length (txt ++ segment_text m j) <= limit)%nat ->
  exists s', load_loop dbg_printf (S k) f j s = (on (memcpy (seg_paddr m j) (f + seg_offset m j) (seg_filesz m j));; load_loop dbg_printf k f (j + 1)) s' /\
    shown (txt ++ segment_text m j) s' /\ get_part s' = get_part s.
Proof.
  intros Hj Hs Hsh Hlen. destruct (seg_ranges j Hj) as (U1 & U2 & U3 & U4). destruct (seg_reads _ j Hs Hj) as (G1 & G2 & G3 & G4).
  pose proof (ei_range _ _ HE) as HR. destruct (HL j Hj) as (L1 & _).
  assert (Esrc : add32 f (seg_offset m j) = f + seg_offset m j).
  { unfold is_u32 in *. unfold add32, wrap32. rewrite Z.mod_small; [done|]. change u32_modulus with (2 ^ 32) in *. lia. }
  assert (U5 : is_u32 (f + seg_offset m j)) by (rewrite <- Esrc; apply wrap32_range).
  assert (U6 : is_u32 (add32 (seg_paddr m j) (seg_filesz m j))) by apply wrap32_range.
  unfold segment_text in Hlen |- *. rewrite !length_app in Hlen. cbn [load_loop].
  rewrite (on_read _ _ s _ G1).
  destruct (say dbg_printf shown limit pieces_physical [seg_paddr m j] msg_physical [U32 (seg_paddr m j)] _ _ Hsh eq_refl eq_refl) as (s1 & Es1 & H1 & M1); [pieces|repeat (split; [assumption|]); exact I|by eexists|rewrite !length_app; lia|]. rewrite (bind_Done _ _ _ _ _ Es1).
  rewrite <- M1 in G2, G3, G4. rewrite (on_read _ _ s1 _ G2).
  destruct (say dbg_printf shown limit pieces_virtual [seg_vaddr m j] msg_virtual [U32 (seg_vaddr m j)] _ _ H1 eq_refl eq_refl) as (s2 & Es2 & H2 & M2); [pieces|repeat (split; [assumption|]); exact I|by eexists|rewrite !length_app; lia|]. rewrite (bind_Done _ _ _ _ _ Es2).
  rewrite <- M2 in G3, G4. rewrite (on_read _ _ s2 _ G3).
  destruct (say dbg_printf shown limit pieces_size [seg_filesz m j] msg_size [U32 (seg_filesz m j)] _ _ H2 eq_refl eq_refl) as (s3 & Es3 & H3 & M3); [pieces|repeat (split; [assumption|]); exact I|by eexists|rewrite !length_app; lia|]. rewrite (bind_Done _ _ _ _ _ Es3).
  rewrite <- M3 in G4. rewrite (on_read _ _ s3 _ G4). cbv zeta. rewrite Esrc.
  destruct (say dbg_printf shown limit pieces_offset [f + seg_offset m j] msg_offset [U32 (f + seg_offset m j)] _ _ H3 eq_refl eq_refl) as (s4 & Es4 & H4 & M4); [pieces|repeat (split; [assumption|]); exact I|by eexists|rewrite !length_app; lia|]. rewrite (bind_Done _ _ _ _ _ Es4).
  destruct (say dbg_printf shown limit pieces_range [seg_paddr m j; add32 (seg_paddr m j) (seg_filesz m j); seg_filesz m j] msg_range [U32 (seg_paddr m j); U32 (add32 (seg_paddr m j) (seg_filesz m j)); U32 (seg_filesz m j)] _ _ H4 eq_refl eq_refl) as (s5 & Es5 & H5 & M5);
    [pieces|repeat (split; [assumption|]); exact I|by eexists|rewrite !length_app; lia|]. rewrite (bind_Done _ _ _ _ _ Es5).
  exists s5. split; [reflexivity|]. split; [by rewrite <- !app_assoc in H5|congruence].
Qed.

Lemma load_loop_ok k : forall (i : nat) txt s, Z.of_nat i + Z.of_nat k = phnum m -> (forall a, get_part s !! a = loaded_at m i a) ->
  shown txt s -> (length (txt ++ segments_text m i k) <= limit)%nat ->
  exists s', load_loop dbg_printf k f (Z.of_nat i) s = Done (tt, s') /\ shown (txt ++ segments_text m i k) s' /\ forall a, get_part s' !! a = loaded_at m (i + k) a.
Proof.
  induction k as [|k IH]; intros i txt s Hk Hm Hsh Hlen.
  { exists s. split; [done|]. unfold segments_text. cbn. rewrite app_nil_r. split; [done|]. intros a. by rewrite Nat.add_0_r. }
  assert (Hs : same_file (get_part s)) by (intros a Ha; rewrite Hm; apply loaded_at_file; (done || lia)).
  set (j := Z.of_nat i) in *. assert (Hj : 0 <= j < phnum m) by lia.
  assert (Et : segments_text m i (S k) = segment_text m j ++ segments_text m (S i) k) by done. rewrite Et, app_assoc in *.
  destruct (segment_said k j txt s Hj Hs Hsh) as (s1 & E1 & H1 & M1); [rewrite length_app in Hlen; lia|]. rewrite E1.
  destruct (seg_ranges j Hj) as (U1 & _ & U3 & U4). destruct (HL j Hj) as (L1 & L2 & L3). pose proof (ei_range _ _ HE) as HR.
  unfold is_u32 in *. change u32_modulus with (2 ^ 32) in *.
  destruct (memcpy_ok (get_part s1) (seg_paddr m j) (f + seg_offset m j) (seg_filesz m j)) as (m1 & E & Hc).
  { intros x Hx. rewrite M1, Hs by lia. destruct (ei_bytes _ _ HE (f + seg_offset m j + x)) as (b & Hb & Hby); [lia|]. by exists b. }
  { intros x Hx. rewrite M1, Hm. apply loaded_at_some; [lia|]. apply L3. lia. }
  { lia. }
  { lia. }
  rewrite (bind_Done _ _ _ _ _ (on_Done _ s1 _ _ E)). replace (j + 1) with (Z.of_nat (S i)) by lia.
  destruct (IH (S i) (txt ++ segment_text m j) (put_part m1 s1)) as (s' & E' & H' & Hm'); [lia| |by apply printer_memory|done|].
  - intros a. rewrite get_put, (Hc a), M1. cbn [loaded_at]. fold j. case_decide as Hd; [|done]. by rewrite Hs by lia.
  - exists s'. split; [exact E'|]. split; [done|]. intros a. rewrite Hm'. f_equal. lia.
Qed.
End loop.
End load.
End image.

(** [elf_loadFile] of a well-formed image whose segments lie in the image and are loaded
    to memory outside of it returns the entry point, and then each byte of a segment is that of
    the image, all other memory is unchanged and the addresses and sizes of the segments are
    printed.  Without the identification of the format the memory is unchanged, nothing is printed
    and the result is 0. *)
Theorem elf_loadFile_loads {St} `{!Part bytes St} `{!PartLaws bytes St} dbg_printf shown limit `{!Printer dbg_printf shown limit} f size (s : St) txt :
  let m := get_part (P := bytes) s in
  elf_image f size m -> loadable f size m -> shown txt s -> (length (txt ++ elf_text f m) <= limit)%nat ->
  exists s', elf_loadFile dbg_printf f s = Done (if elf_magic f m then word_at m (f + 24) else 0, s') /\
    shown (if elf_magic f m then txt ++ elf_text f m else txt) s' /\
    forall a, get_part (P := bytes) s' !! a = if elf_magic f m then loaded_at f m (Z.to_nat (phnum f m)) a else m !! a.
Proof.
  intros m HE HL Hsh Hlen. unfold elf_loadFile. destruct (checkFile_ok f size m HE) as (c & Ec & Hc). rewrite (on_read _ _ s _ Ec), Hc.
  destruct (elf_magic f m); cbn [negb]; [|by exists s]. rewrite (on_read _ _ s _ (getNum_ok f size m HE)). pose proof (phnum_range f size m HE) as Hn.
  assert (Un : is_u32 (phnum f m)) by (unfold is_u32, u32_modulus; lia).
  unfold elf_text in Hlen |- *. rewrite !length_app in Hlen.
  destruct (say dbg_printf shown limit pieces_headers [phnum f m] msg_headers [U32 (phnum f m)] _ _ Hsh eq_refl eq_refl) as (s1 & Es1 & H1 & M1);
    [pieces|split; [exact Un|exact I]|by eexists|rewrite !length_app; lia|]. rewrite (bind_Done _ _ _ _ _ Es1).
  destruct (load_loop_ok f size m HE HL dbg_printf shown limit (Z.to_nat (phnum f m)) 0 (txt ++ printed pieces_headers [phnum f m]) s1) as (s2 & E2 & H2 & Hm2);
    [lia|intros a; by rewrite M1|done|rewrite !length_app; lia|]. change (Z.of_nat 0) with 0 in E2. rewrite (bind_Done _ _ _ _ _ E2).
  destruct (say dbg_printf shown limit [Text [10]] [] msg_end [] _ _ H2 eq_refl eq_refl) as (s3 & Es3 & H3 & M3);
    [pieces|done|by eexists|rewrite !length_app; cbn in Hlen |- *; lia|]. rewrite (bind_Done _ _ _ _ _ Es3).
  assert (Hs : same_file f size m (get_part s3)) by (intros a Ha; rewrite M3, Hm2; apply (loaded_at_file f size); [done|lia|done]).
  exists s3. split; [|split; [by rewrite <- !app_assoc in H3|intros a; by rewrite M3, Hm2]].
  rewrite (on_Done _ s3 _ _ (getEntry_ok f size _ (same_file_image f size m HE _ Hs))), put_get. pose proof (ei_header _ _ _ HE).
  by rewrite (word_at_same f size m (get_part s3) (f + 24) Hs) by lia.
Qed.

(** ** The bounds of the memory of an image *)

Section bounds.
Context (f size : Z) (m : bytes) (HE : elf_image f size m) (phys : bool).

Definition seg_base (i : Z) : Z := if phys then seg_paddr f m i else seg_vaddr f m i.

(** The segments that take memory, as ranges. *)
Definition ranges (i : Z) (k : nat) : list (Z * Z) :=
  filter (fun r => r.1 <> r.2) ((fun j => (seg_base j, add32 (seg_base j) (seg_memsz f m j))) <$> seqZ i (Z.of_nat k)).

Lemma seg_base_range i : 0 <= i < phnum f m -> 0 <= seg_base i < 2 ^ 32.
Proof. intros Hi. unfold seg_base. destruct phys; apply (ph_field_range f size m HE); (done || lia). Qed.

Lemma seg_range_nonempty i : 0 <= i < phnum f m -> (seg_memsz f m i =? 0) = bool_decide (seg_base i = add32 (seg_base i) (seg_memsz f m i)).
Proof.
  intros Hi. pose proof (seg_base_range i Hi) as Hb. pose proof (ph_field_range f size m HE i 20 Hi ltac:(lia) ltac:(lia) eq_refl) as Hs.
  change (ph_field f m i 20) with (seg_memsz f m i) in Hs. unfold add32, wrap32, u32_modulus. destruct (Z.eqb_spec (seg_memsz f m i) 0) as [->|Hne].
  - rewrite bool_decide_eq_true_2; [done|]. rewrite Z.add_0_r, Z.mod_small; [done|lia].
  - rewrite bool_decide_eq_false_2; [done|]. Z.div_mod_to_equations. lia.
Qed.

Lemma bounds_loop_ok k : forall i lo hi, 0 <= i -> i + Z.of_nat k <= phnum f m ->
  bounds_loop k f phys i lo hi m =
  Done (foldl (fun x r => Z.min x r.1) lo (ranges i k), foldl (fun x r => Z.max x r.2) hi (ranges i k), m).
Proof.
  induction k as [|k IH]; intros i lo hi Hi Hk; [done|]. cbn [bounds_loop]. unfold ranges.
  rewrite seqZ_cons by lia. replace (Z.pred (Z.of_nat (S k))) with (Z.of_nat k) by lia. replace (Z.succ i) with (i + 1) by lia. cbn [fmap list_fmap].
  rewrite (bind_Done _ _ _ _ _ (getMemorySize_ok f size m HE i ltac:(lia))), (seg_range_nonempty i) by lia. rewrite filter_cons. cbn [fst snd].
  case_bool_decide as Hb.
  - rewrite decide_False by (intros Hn; by apply Hn). apply IH; lia.
  - rewrite decide_True by done. cbn [foldl fst snd].
    rewrite (bind_Done (if phys then _ else _) _ m (seg_base i) m)
      by (unfold seg_base; destruct phys; [apply (getPaddr_ok f size)|apply (getVaddr_ok f size)]; (done || lia)).
    rewrite (bind_Done _ _ _ _ _ (getMemorySize_ok f size m HE i ltac:(lia))), IH by lia.
    set (b := add32 _ _). replace (if b >? hi then b else hi) with (Z.max hi b) by (destruct (Z.gtb_spec b hi); lia).
    by replace (if seg_base i <? lo then seg_base i else lo) with (Z.min lo (seg_base i)) by (destruct (Z.ltb_spec (seg_base i) lo); lia).
Qed.
End bounds.

Lemma foldl_min_le (l : list (Z * Z)) : forall x, foldl (fun x r => Z.min x r.1) x l <= x /\ forall r, r ∈ l -> foldl (fun x r => Z.min x r.1) x l <= r.1.
Proof.
  induction l as [|r l IH]; intros x; cbn [foldl]; [split; [lia|intros r Hr; by apply not_elem_of_nil in Hr]|]. destruct (IH (Z.min x r.1)) as [H1 H2].
  split; [lia|]. intros q Hq. apply elem_of_cons in Hq as [->|Hq]; [lia|by apply H2].
Qed.

Lemma foldl_max_ge (l : list (Z * Z)) : forall x, x <= foldl (fun x r => Z.max x r.2) x l /\ forall r, r ∈ l -> r.2 <= foldl (fun x r => Z.max x r.2) x l.
Proof.
  induction l as [|r l IH]; intros x; cbn [foldl]; [split; [lia|intros r Hr; by apply not_elem_of_nil in Hr]|]. destruct (IH (Z.max x r.2)) as [H1 H2].
  split; [lia|]. intros q Hq. apply elem_of_cons in Hq as [->|Hq]; [lia|by apply H2].
Qed.

(** [elf_getMemoryBounds] of an image returns bounds between which all its segments lie,
    by their physical or by their virtual addresses, when no segment wraps around, and
    fails without the identification of the format. *)
Theorem elf_getMemoryBounds_covers f size m phys : elf_image f size m ->
  (forall i, 0 <= i < phnum f m -> seg_base f m phys i + seg_memsz f m i < 2 ^ 32) ->
  exists r, elf_getMemoryBounds f phys m = Done (r, m) /\
    match r with
    | None => elf_magic f m = false
    | Some (lo, hi) => elf_magic f m = true /\
        forall i a, 0 <= i < phnum f m -> seg_base f m phys i <= a < seg_base f m phys i + seg_memsz f m i -> lo <= a < hi
    end.
Proof.
  intros HE Hw. unfold elf_getMemoryBounds. destruct (checkFile_ok f size m HE) as (c & Ec & Hc). rewrite (bind_Done _ _ _ _ _ Ec), Hc.
  destruct (elf_magic f m); cbn [negb]; [|by exists None]. rewrite (bind_Done _ _ _ _ _ (getNum_ok f size m HE)). pose proof (phnum_range f size m HE).
  rewrite (bind_Done _ _ _ _ _ (bounds_loop_ok f size m HE phys (Z.to_nat (phnum f m)) 0 4294967295 0 ltac:(lia) ltac:(lia))).
  eexists. split; [reflexivity|]. split; [done|]. intros i a Hi Ha. pose proof (seg_base_range f size m HE phys i Hi) as Hb. specialize (Hw i Hi).
  assert (Hin : (seg_base f m phys i, seg_base f m phys i + seg_memsz f m i) ∈ ranges f m phys 0 (Z.to_nat (phnum f m))).
  { unfold ranges. apply list_elem_of_filter. split; [cbn; lia|]. apply list_elem_of_fmap. exists i. split; [|apply elem_of_seqZ; lia].
    unfold add32, wrap32, u32_modulus. rewrite Z.mod_small by lia. done. }
  pose proof (proj2 (foldl_min_le _ 4294967295) _ Hin) as Hmin. pose proof (proj2 (foldl_max_ge _ 0) _ Hin) as Hmax. cbn [fst snd] in Hmin, Hmax. lia.
Qed.

(** ** Sections by name *)

(** A string of C. *)
Fixpoint cstring (m : bytes) (p : Z) (s : list Z) : Prop :=
  match s with
  | [] => m !! p = Some 0
  | c :: s => m !! p = Some c /\ c <> 0 /\ cstring m (p + 1) s
  end.

Lemma strcmp_ok m : forall s t p q fuel, cstring m p s -> cstring m q t -> (length s < fuel)%nat ->
  exists d, strcmp fuel p q m = Done (d, m) /\ (d = 0 <-> s = t).
Proof.
  induction s as [|a s IH]; intros t p q fuel Hs Ht Hf; (destruct fuel as [|fuel]; [lia|]); cbn [strcmp].
  - rewrite (bind_Done _ _ _ _ _ (read8_ok p 0 m Hs)). destruct t as [|b t].
    + rewrite (bind_Done _ _ _ _ _ (read8_ok q 0 m Ht)). by exists 0.
    + destruct Ht as (Hq & Hb & _). rewrite (bind_Done _ _ _ _ _ (read8_ok q b m Hq)). rewrite andb_false_r. cbn [andb]. exists (0 - b). split; [done|].
      split; [intros E; exfalso; lia|done].
  - destruct Hs as (Hp & Ha & Hs). rewrite (bind_Done _ _ _ _ _ (read8_ok p a m Hp)). destruct t as [|b t].
    + rewrite (bind_Done _ _ _ _ _ (read8_ok q 0 m Ht)). rewrite andb_false_r. exists (a - 0). split; [done|]. split; [intros E; exfalso; lia|done].
    + destruct Ht as (Hq & Hb & Ht). rewrite (bind_Done _ _ _ _ _ (read8_ok q b m Hq)). unfold truth.
      destruct (Z.eqb_spec a b) as [->|Hne]; cbn [andb].
      * destruct (Z.eqb_spec b 0); [done|]. cbn [negb andb]. cbn [length] in Hf. destruct (IH t (p + 1) (q + 1) fuel Hs Ht ltac:(lia)) as (d & E & Hd).
        exists d. split; [done|]. rewrite Hd. split; [by intros ->|congruence].
      * exists (a - b). split; [done|]. split; [lia|congruence].
Qed.

Section sections.
Context (f size : Z) (m : bytes) (corrupted : Z).

Definition shoff : Z := word_at m (f + 32).
Definition shnum : Z := half_at m (f + 48).
Definition shstrndx : Z := half_at m (f + 50).
Definition sh_word (i off : Z) : Z := word_at m (f + shoff + 40 * i + off).
Definition strtab : Z := f + sh_word shstrndx 16.
Definition section_at (i : Z) : Z := f + sh_word i 16.

(** An image with its table of sections and their names. *)
Record elf_sections (names : list (list Z)) : Prop := {
  es_image : elf_image f size m;
  es_align : shoff mod 4 = 0;
  es_table : shoff + 40 * shnum <= size;
  es_strtab : 0 < shstrndx < shnum;
  es_null : strtab <> NULL;
  es_length : Z.of_nat (length names) = shnum;
  es_names : forall (i : nat) s, names !! i = Some s -> cstring m (strtab + sh_word (Z.of_nat i) 0) s;
}.

Context (names : list (list Z)) (HS : elf_sections names).

Lemma section_table_ok : elf32_getSectionTable f m = Done (f + shoff, m).
Proof.
  pose proof (es_image _ HS) as HE. pose proof (ei_header _ _ _ HE). pose proof (ei_range _ _ _ HE). pose proof (es_table _ HS). pose proof (es_strtab _ HS).
  unfold elf32_getSectionTable, e_shoff.
  rewrite (bind_Done _ _ _ _ _ (read32_at m f size (f + 32) (ei_bytes _ _ _ HE) ltac:(lia) ltac:(lia) (aligned_off f size m HE 32 eq_refl))).
  pose proof (word_at_range m f size (f + 32) (ei_bytes _ _ _ HE) ltac:(lia) ltac:(lia)). change (word_at m (f + 32)) with shoff in *.
  unfold add32, wrap32, u32_modulus. rewrite Z.mod_small by lia. done.
Qed.

Lemma sh_read i off : 0 <= i < shnum -> 0 <= off -> off + 4 <= 40 -> off mod 4 = 0 -> read32 (f + shoff + 40 * i + off) m = Done (sh_word i off, m).
Proof.
  intros Hi H0 H1 H2. pose proof (es_image _ HS) as HE. pose proof (es_table _ HS). pose proof (ei_header _ _ _ HE).
  pose proof (word_at_range m f size (f + 32) (ei_bytes _ _ _ HE) ltac:(lia) ltac:(lia)). change (word_at m (f + 32)) with shoff in *.
  apply (read32_at m f size); [apply HE|lia|lia|]. replace (f + shoff + 40 * i + off) with (f + (shoff + off + 10 * i * 4)) by lia.
  apply (aligned_off f size m HE). rewrite Z.mod_add by lia. rewrite Z.add_mod, (es_align _ HS), H2 by lia. done.
Qed.

Lemma sectionName_ok i : 0 <= i < shnum -> elf32_getSectionName corrupted f i m = Done (strtab + sh_word i 0, m).
Proof.
  intros Hi. pose proof (es_image _ HS) as HE. pose proof (ei_header _ _ _ HE). unfold elf32_getSectionName. rewrite (bind_Done _ _ _ _ _ section_table_ok).
  assert (Hn : e_shstrndx f m = Done (shstrndx, m)).
  { apply (read16_at m f size); [apply HE|lia|lia|]. apply (even_off f size m HE). by right. }
  assert (Es : elf32_getSegmentStringTable f m = Done (strtab, m)).
  { unfold elf32_getSegmentStringTable. rewrite (bind_Done _ _ _ _ _ Hn). destruct (Z.eqb_spec shstrndx 0) as [E0|_]; [pose proof (es_strtab _ HS); lia|].
    unfold elf32_getStringTable. rewrite (bind_Done _ _ _ _ _ section_table_ok), (bind_Done _ _ _ _ _ Hn). unfold sh_offset, Elf32_Shdr.sizeof.
    by rewrite (bind_Done _ _ _ _ _ (sh_read shstrndx 16 ltac:(pose proof (es_strtab _ HS); lia) ltac:(lia) ltac:(lia) eq_refl)). }
  rewrite (bind_Done _ _ _ _ _ Es). destruct (Z.eqb_spec strtab NULL) as [E0|_]; [by pose proof (es_null _ HS)|]. unfold sh_name, Elf32_Shdr.sizeof.
  replace (f + shoff + 40 * i) with (f + shoff + 40 * i + 0) by lia. by rewrite (bind_Done _ _ _ _ _ (sh_read i 0 Hi ltac:(lia) ltac:(lia) eq_refl)).
Qed.

Lemma getSection_ok i : 0 <= i < shnum -> elf32_getSection f i m = Done (section_at i, m).
Proof.
  intros Hi. unfold elf32_getSection. rewrite (bind_Done _ _ _ _ _ section_table_ok). unfold sh_offset, Elf32_Shdr.sizeof.
  by rewrite (bind_Done _ _ _ _ _ (sh_read i 16 Hi ltac:(lia) ltac:(lia) eq_refl)).
Qed.

(** The first section with a name, from the front of a list of names on. *)
Fixpoint first_named (s : list Z) (i : Z) (l : list (list Z)) : option Z :=
  match l with [] => None | t :: l => if decide (s = t) then Some i else first_named s (i + 1) l end.

Lemma section_named_ok len str s : cstring m str s -> (length s < len)%nat -> forall l (i : nat), drop i names = l ->
  section_named corrupted len (length l) f str (Z.of_nat i) m = Done (match first_named s (Z.of_nat i) l with Some j => section_at j | None => NULL end, m).
Proof.
  intros Hs Hlen. induction l as [|t l IH]; intros i Hd; cbn [section_named first_named length]; [done|].
  assert (Ht : names !! i = Some t) by (rewrite <- (Nat.add_0_r i), <- lookup_drop, Hd; done).
  assert (Hi : 0 <= Z.of_nat i < shnum) by (rewrite <- (es_length _ HS); apply lookup_lt_Some in Ht; lia).
  rewrite (bind_Done _ _ _ _ _ (sectionName_ok (Z.of_nat i) Hi)).
  destruct (strcmp_ok m s t str (strtab + sh_word (Z.of_nat i) 0) len Hs (es_names _ HS i t Ht) Hlen) as (d & E & Hdt). rewrite (bind_Done _ _ _ _ _ E).
  destruct (Z.eqb_spec d 0) as [E0|Hne]; case_decide as Hst; [by apply getSection_ok|tauto|tauto|].
  replace (Z.of_nat i + 1) with (Z.of_nat (S i)) by lia. apply IH. rewrite <- (Nat.add_1_r i), <- drop_drop, Hd. done.
Qed.
End sections.

(** [elf_getSectionNamed] of an image with a table of sections returns the address of the
    first section with the name, and [NULL] when there is none. *)
Theorem elf_getSectionNamed_finds f size m corrupted names len str s : elf_sections f size m names -> cstring m str s -> (length s < len)%nat ->
  elf_getSectionNamed corrupted len f str m =
  Done (match first_named s 0 names with Some i => section_at f m i | None => NULL end, m).
Proof.
  intros HS Hs Hlen. pose proof (es_image _ _ _ _ HS) as HE. pose proof (ei_header _ _ _ HE). unfold elf_getSectionNamed, elf32_getSectionNamed, elf32_getNumSections, e_shnum.
  assert (En : read16 (f + 48) m = Done (shnum f m, m)).
  { apply (read16_at m f size); [apply HE|lia|lia|]. apply (even_off f size m HE). by left. }
  rewrite (bind_Done _ _ _ _ _ En). replace (Z.to_nat (shnum f m)) with (length names) by (rewrite <- (es_length _ _ _ _ HS); lia).
  exact (section_named_ok f size m corrupted names HS len str s Hs Hlen names 0 eq_refl).
Qed.

(** ** A concrete image *)

Definition le16 (x : Z) : list Z := [x mod 256; x / 256].
Definition le32 (x : Z) : list Z := [x mod 256; x / 256 mod 256; x / 65536 mod 256; x / 16777216].

(** An image of one segment of four bytes and two sections, the second of which holds the
    names; the segment is loaded to 2000. *)
Definition sample_image : list Z :=
  [127; 69; 76; 70; 1; 1; 1; 0; 0; 0; 0; 0; 0; 0; 0; 0] ++ le16 2 ++ le16 40 ++ le32 1 ++ le32 2001 ++ le32 52 ++ le32 84 ++ le32 0 ++
  le16 52 ++ le16 32 ++ le16 1 ++ le16 40 ++ le16 2 ++ le16 1 ++
  le32 1 ++ le32 164 ++ le32 3000 ++ le32 2000 ++ le32 4 ++ le32 8 ++ le32 5 ++ le32 4 ++
  le32 1 ++ le32 1 ++ le32 6 ++ le32 0 ++ le32 100 ++ le32 4 ++ le32 0 ++ le32 0 ++ le32 0 ++ le32 0 ++
  le32 0 ++ le32 3 ++ le32 0 ++ le32 0 ++ le32 164 ++ le32 4 ++ le32 0 ++ le32 0 ++ le32 0 ++ le32 0 ++
  [0; 46; 116; 0].
Definition sample_memory : bytes :=
  list_to_map (zip (seqZ 1000 168) sample_image ++ zip (seqZ 2000 8) (replicate 8 9) ++ zip (seqZ 4000 3) [46; 116; 0]).

Lemma sample_is_image : elf_image 1000 168 sample_memory.
Proof.
  split; [done|done| |done|by vm_compute|by vm_compute]. apply is_bytes_check. by vm_compute.
Qed.

Lemma sample_fields :
  elf_magic 1000 sample_memory = true /\ word_at sample_memory 1024 = 2001 /\ phnum 1000 sample_memory = 1 /\ seg_offset 1000 sample_memory 0 = 164 /\
  seg_filesz 1000 sample_memory 0 = 4 /\ seg_memsz 1000 sample_memory 0 = 8 /\ seg_paddr 1000 sample_memory 0 = 2000.
Proof. by vm_compute. Qed.

Lemma sample_loadable : loadable 1000 168 sample_memory.
Proof.
  destruct sample_fields as (_ & _ & En & Eo & Ef & _ & Ep). intros i Hi. rewrite En in Hi. assert (i = 0) as -> by lia. rewrite Eo, Ef, Ep.
  split; [lia|]. split; [lia|]. intros a Ha. destruct (is_bytes_check sample_memory 2000 8 ltac:(by vm_compute) a ltac:(lia)) as (b & Hb & _). by exists b.
Qed.

(** Memory and the characters that are printed. *)
Record printing := mk_printing { pr_mem : bytes; pr_out : output }.
#[local] Instance pr_mem_part : Part bytes printing := { get_part := pr_mem; put_part m s := mk_printing m (pr_out s) }.
#[local] Instance pr_mem_laws : PartLaws bytes printing.
Proof. by split; [..|intros []|]. Qed.
#[local] Instance pr_out_part : Part output printing := { get_part := pr_out; put_part o s := mk_printing (pr_mem s) o }.
#[local] Instance plain_printer : Printer (fun fmt va => on (P := output) (S := printing) (l4_vprintf (fun _ => []) fmt va)) (fun txt s => pr_out s = txt) 1000.
Proof.
  split; [|done]. intros ps xs out txt s Hp Ha Ho Hs _. exists (put_part (txt ++ out) s). split; [|done]. apply on_Done. rewrite <- Hs.
  by apply (vprintf_pieces (fun _ => []) ps xs).
Qed.

Lemma elf_loadFile_loads_witness :
  exists s', elf_loadFile (fun fmt va => on (P := output) (S := printing) (l4_vprintf (fun _ => []) fmt va)) 1000 (mk_printing sample_memory []) = Done (2001, s') /\
    length (pr_out s') = 226%nat /\ pr_mem s' !! 2001 = Some 46 /\ pr_mem s' !! 2004 = Some 9.
Proof.
  destruct (elf_loadFile_loads (fun fmt va => on (P := output) (S := printing) (l4_vprintf (fun _ => []) fmt va)) (fun txt s => pr_out s = txt) 1000 1000 168 (mk_printing sample_memory []) [])
    as (s' & E & Ht & H); [exact sample_is_image|exact sample_loadable|done|apply Nat.leb_le; by vm_compute|]. exists s'.
  change (get_part (mk_printing sample_memory [])) with sample_memory in *.
  rewrite (proj1 sample_fields) in E, Ht. change (1000 + 24) with 1024 in E. rewrite (proj1 (proj2 sample_fields)) in E. split; [exact E|]. clear E.
  split; [rewrite Ht; by vm_compute|]. change (get_part s') with (pr_mem s') in H. split; rewrite H; by vm_compute.
Defined.

Lemma elf_getMemoryBounds_covers_witness :
  exists r, elf_getMemoryBounds 1000 true sample_memory = Done (r, sample_memory) /\ r <> None.
Proof.
  destruct sample_fields as (Em & _ & En & _ & _ & Es & Ep).
  destruct (elf_getMemoryBounds_covers 1000 168 sample_memory true sample_is_image) as (r & E & H).
  - intros i Hi. rewrite En in Hi. assert (i = 0) as -> by lia. unfold seg_base. rewrite Es, Ep. lia.
  - exists r. split; [exact E|]. clear E. intros ->. by rewrite Em in H.
Defined.

Lemma sample_sections : elf_sections 1000 168 sample_memory [[46; 116]; []].
Proof.
  split; [apply sample_is_image|by vm_compute|by vm_compute|by vm_compute|by vm_compute|by vm_compute|].
  intros [|[|i]] s Hs; [..|done]; injection Hs as <-; by vm_compute.
Qed.

Lemma sample_name : cstring sample_memory 4000 [46; 116].
Proof. by vm_compute. Qed.

Lemma sample_found : (match first_named [46; 116] 0 [[46; 116]; []] with Some i => section_at 1000 sample_memory i | None => NULL end) = 1100.
Proof. by vm_compute. Qed.

Lemma elf_getSectionNamed_finds_witness : elf_getSectionNamed 0 10 1000 4000 sample_memory = Done (1100, sample_memory).
Proof.
  rewrite <- sample_found at 1. apply (elf_getSectionNamed_finds 1000 168 sample_memory 0 [[46; 116]; []] 10 4000 [46; 116] sample_sections sample_name). cbn. lia.
Defined.

(** The loader jumps to address 0 when there is no image: [elf_loadFile] returns 0 and [main]
    calls it as the entry. *)
Lemma elf_loadFile_no_image {St} `{!Part bytes St} `{!PartLaws bytes St} dbg_printf (s : St) :
  get_part s = list_to_map (M := bytes) (zip (seqZ 4000 60) (replicate 60 0)) -> elf_loadFile dbg_printf 4000 s = Done (0, s).
Proof. intros H. unfold elf_loadFile. rewrite (on_read _ _ s (-1)); [done|]. rewrite H. by vm_compute. Qed.
