(* ===== verification/Gpio.v ===== *)
(** * Pins and the serial line: configuration

    Models [platform/stm32f4/gpio.c], the macros of [include/platform/stm32f4/registers.h] it
    uses, and [usart_baud] and [usart_init] of [platform/stm32f4/usart.c].

    The registers are a map from addresses to their contents; an access to an address that
    is not in the map is a fault.  Reading a register has no effect, and writing one has no
    other effect than to set it. *)

From S2P Require Import Prelude.

Abbreviation registers := (gmap Z Z).

Definition read_reg (a : Z) : M registers Z := fun r => match r !! a with Some v => Done (v, r) | None => Fault end.
Definition write_reg (a v : Z) : M registers unit := fun r => match r !! a with Some _ => Done (tt, <[a := v]> r) | None => Fault end.

(** [*a |= v] and [*a &= v] *)
Definition or_reg (a v : Z) : M registers unit := x ← read_reg a; write_reg a (Z.lor x v).
Definition and_reg (a v : Z) : M registers unit := x ← read_reg a; write_reg a (Z.land x v).

Definition PERIPH_BASE : Z := 1073741824.
Definition AHB1PERIPH_BASE : Z := PERIPH_BASE + 131072.
Definition GPIO_BASE (port : Z) : Z := AHB1PERIPH_BASE + 1024 * port.
Definition RCC_BASE : Z := AHB1PERIPH_BASE + 14336.
Definition RCC_AHB1ENR : Z := RCC_BASE + 48.
Definition GPIO_MODER (port : Z) : Z := GPIO_BASE port + 0.
Definition GPIO_OTYPER (port : Z) : Z := GPIO_BASE port + 4.
Definition GPIO_OSPEEDR (port : Z) : Z := GPIO_BASE port + 8.
Definition GPIO_PUPDR (port : Z) : Z := GPIO_BASE port + 12.
Definition GPIO_IDR (port : Z) : Z := GPIO_BASE port + 16.
Definition GPIO_ODR (port : Z) : Z := GPIO_BASE port + 20.
Definition GPIO_AFRL (port : Z) : Z := GPIO_BASE port + 32.
Definition GPIO_AFRH (port : Z) : Z := GPIO_BASE port + 36.

Definition GPIO_MODER_PIN (n : Z) : Z := 2 * n.
Definition GPIO_MODER_M (n : Z) : Z := shl32 3 (2 * n).
Definition GPIO_MODER_IN : Z := 0.
Definition GPIO_MODER_OUT : Z := 1.
Definition GPIO_MODER_ALT : Z := 2.
Definition GPIO_OTYPER_PIN (n : Z) : Z := n.
Definition GPIO_OTYPER_M (n : Z) : Z := shl32 1 n.
Definition GPIO_OTYPER_PP : Z := 0.
Definition GPIO_OSPEEDR_PIN (n : Z) : Z := 2 * n.
Definition GPIO_OSPEEDR_M (n : Z) : Z := shl32 3 (2 * n).
Definition GPIO_PUPDR_PIN (n : Z) : Z := 2 * n.
Definition GPIO_PUPDR_M (n : Z) : Z := shl32 3 (2 * n).
Definition GPIO_AFRL_PIN (n : Z) : Z := 4 * n.
Definition GPIO_AFRL_M (n : Z) : Z := shl32 15 (4 * n).
Definition GPIO_AFRH_PIN (n : Z) : Z := 4 * (n - 8).
Definition GPIO_AFRH_M (n : Z) : Z := shl32 15 (4 * (n - 8)).

Record gpio_cfg := mk_cfg {
  port : Z;
  pin : Z;
  pupd : Z;
  speed : Z;
  type : Z;
  func : Z;
  o_type : Z;
}.

(** ** [gpio.c] *)

Definition gpio_moder (port pin type : Z) : M registers unit :=
  reg ← read_reg (GPIO_MODER port);
  let reg := Z.land reg (not32 (GPIO_MODER_M pin)) in
  let reg := Z.lor reg (shl32 type (GPIO_MODER_PIN pin)) in
  write_reg (GPIO_MODER port) reg.

Definition gpio_otyper (port pin type : Z) : M registers unit :=
  reg ← read_reg (GPIO_OTYPER port);
  let reg := Z.land reg (not32 (GPIO_OTYPER_M pin)) in
  let reg := Z.lor reg (shl32 type (GPIO_OTYPER_PIN pin)) in
  write_reg (GPIO_OTYPER port) reg.

Definition gpio_ospeedr (port pin speed : Z) : M registers unit :=
  reg ← read_reg (GPIO_OSPEEDR port);
  let reg := Z.land reg (not32 (GPIO_OSPEEDR_M pin)) in
  let reg := Z.lor reg (shl32 speed (GPIO_OSPEEDR_PIN pin)) in
  write_reg (GPIO_OSPEEDR port) reg.

Definition gpio_pupdr (port pin mode : Z) : M registers unit :=
  reg ← read_reg (GPIO_PUPDR port);
  let reg := Z.land reg (not32 (GPIO_PUPDR_M pin)) in
  let reg := Z.lor reg (shl32 mode (GPIO_PUPDR_PIN pin)) in
  write_reg (GPIO_PUPDR port) reg.

Definition gpio_afr (port pin func : Z) : M registers unit :=
  if pin <? 8 then
    reg ← read_reg (GPIO_AFRL port);
    let reg := Z.land reg (not32 (GPIO_AFRL_M pin)) in
    let reg := Z.lor reg (shl32 func (GPIO_AFRL_PIN pin)) in
    write_reg (GPIO_AFRL port) reg
  else
    reg ← read_reg (GPIO_AFRH port);
    let reg := Z.land reg (not32 (GPIO_AFRH_M pin)) in
    let reg := Z.lor reg (shl32 func (GPIO_AFRH_PIN pin)) in
    write_reg (GPIO_AFRH port) reg.

Definition gpio_config (cfg : gpio_cfg) : M registers unit :=
  or_reg RCC_AHB1ENR (shl32 1 (port cfg));;
  gpio_pupdr (port cfg) (pin cfg) (pupd cfg);;
  gpio_moder (port cfg) (pin cfg) (type cfg);;
  if type cfg =? GPIO_MODER_IN then mret tt
  else
    when (type cfg =? GPIO_MODER_ALT) (gpio_afr (port cfg) (pin cfg) (func cfg));;
    gpio_otyper (port cfg) (pin cfg) (o_type cfg);;
    gpio_ospeedr (port cfg) (pin cfg) (speed cfg).

Definition gpio_config_output (port pin pupd speed : Z) : M registers unit :=
  or_reg RCC_AHB1ENR (shl32 1 port);;
  gpio_config (mk_cfg port pin pupd speed GPIO_MODER_OUT 0 GPIO_OTYPER_PP).

Definition gpio_config_input (port pin pupd : Z) : M registers unit :=
  or_reg RCC_AHB1ENR (shl32 1 port);;
  gpio_config (mk_cfg port pin pupd 0 GPIO_MODER_IN 0 0).

Definition gpio_out_high (port pin : Z) : M registers unit := or_reg (GPIO_ODR port) (shl32 1 pin).
Definition gpio_out_low (port pin : Z) : M registers unit := and_reg (GPIO_ODR port) (not32 (shl32 1 pin)).
Definition gpio_input_bit (port pin : Z) : M registers Z :=
  x ← read_reg (GPIO_IDR port); if truth (Z.land x (shl32 1 pin)) then mret 1 else mret 0.

(** ** [usart.c] *)

Definition APB1PERIPH_BASE : Z := PERIPH_BASE.
Definition APB2PERIPH_BASE : Z := PERIPH_BASE + 65536.
Definition USART1_BASE : Z := APB2PERIPH_BASE + 4096.
Definition USART2_BASE : Z := APB1PERIPH_BASE + 17408.
Definition USART_CR1_UE : Z := 8192.
Definition USART_CR1_M9 : Z := 4096.
Definition USART_CR1_TE : Z := 8.
Definition USART_CR1_RE : Z := 4.

(** [mantissa] and [fraction] are 16 bits; the result is the 16 bits that are stored. *)
Definition usart_baud (base baud : Z) : Z :=
  let clock := if (base =? USART1_BASE) || (base =? USART2_BASE) then 84000000 else 42000000 in
  let mantissa := clock / mul32 16 baud mod 65536 in
  let fraction := (clock / baud) mod 16 in
  Z.lor (Z.shiftl mantissa 4) fraction mod 65536.

Record usart_dev := mk_usart {
  u_num : Z;
  baud : Z;
  base : Z;
  rcc_apbenr : Z;
  rcc_reset : Z;
  tx : gpio_cfg;
  rx : gpio_cfg;
}.

(** The registers [BRR], [CR1] and [CR2] of a line. *)
Definition BRR (base : Z) : Z := base + 8.
Definition CR1 (base : Z) : Z := base + 12.
Definition CR2 (base : Z) : Z := base + 16.

Definition usart_init (usart : usart_dev) : M registers unit :=
  or_reg (rcc_apbenr usart) (rcc_reset usart);;
  gpio_config (tx usart);;
  gpio_config (rx usart);;
  or_reg (CR1 (base usart)) USART_CR1_UE;;
  and_reg (CR1 (base usart)) (not32 USART_CR1_M9);;
  and_reg (CR2 (base usart)) (not32 (Z.shiftl 3 12));;
  write_reg (BRR (base usart)) (usart_baud (base usart) (baud usart));;
  or_reg (CR1 (base usart)) (Z.lor USART_CR1_RE USART_CR1_TE).
