(* ===== verification/GpioProps.v ===== *)
(** * Pins: correctness of the configuration

    The fields of a pin after [gpio_config], and what is left alone. *)

From S2P Require Import Prelude Bits Gpio.

(** ** The state of a pin *)

Definition reg_field (r : registers) (a sh n : Z) : option Z := (fun w => field w sh n) <$> r !! a.

Record pin_state := mk_pin { p_mode : option Z; p_otype : option Z; p_speed : option Z; p_pull : option Z; p_alt : option Z }.

(** The fields of the pin [q] of the port [p]. *)
Definition pin_view (r : registers) (p q : Z) : pin_state :=
  mk_pin (reg_field r (GPIO_MODER p) (2 * q) 2) (reg_field r (GPIO_OTYPER p) q 1) (reg_field r (GPIO_OSPEEDR p) (2 * q) 2)
    (reg_field r (GPIO_PUPDR p) (2 * q) 2) (if q <? 8 then reg_field r (GPIO_AFRL p) (4 * q) 4 else reg_field r (GPIO_AFRH p) (4 * (q - 8)) 4).

(** The registers of the port exist and hold 32 bits. *)
Definition port_regs (p : Z) : list Z := [GPIO_MODER p; GPIO_OTYPER p; GPIO_OSPEEDR p; GPIO_PUPDR p; GPIO_AFRL p; GPIO_AFRH p].
Definition ready (r : registers) (p : Z) : Prop := Forall (fun a => exists w, r !! a = Some w /\ is_u32 w) (port_regs p).

Lemma ready_insert r p a w : ready r p -> is_u32 w -> ready (<[a := w]> r) p.
Proof.
  intros Hr Hw. eapply Forall_impl; [exact Hr|]. intros b (x & Hx & Hu). destruct (decide (a = b)) as [->|Hne].
  - exists w. by rewrite lookup_insert_eq.
  - exists x. by rewrite lookup_insert_ne.
Qed.

Lemma reg_field_other r a w sh n v a' sh' n' : r !! a = Some w -> is_u32 w -> 0 <= sh -> 0 <= n -> sh + n <= 32 -> 0 <= v < 2 ^ n -> 0 <= sh' -> 0 <= n' ->
  a' <> a \/ sh' + n' <= sh \/ sh + n <= sh' -> reg_field (<[a := set_field w sh n v]> r) a' sh' n' = reg_field r a' sh' n'.
Proof.
  intros Hw Hu H1 H2 H3 H4 H5 H6 Hd. unfold reg_field. destruct (decide (a' = a)) as [->|Hne]; [|by rewrite lookup_insert_ne].
  rewrite lookup_insert_eq, Hw. cbn. f_equal. apply field_set_other; [done..|]. lia.
Qed.

Lemma reg_field_same r a w sh n v : is_u32 w -> 0 <= sh -> 0 <= n -> sh + n <= 32 -> 0 <= v < 2 ^ n ->
  reg_field (<[a := set_field w sh n v]> r) a sh n = Some v.
Proof. intros Hu H1 H2 H3 H4. unfold reg_field. rewrite lookup_insert_eq. cbn. by rewrite field_set_same. Qed.

(** The change of one field of the pin [q] of the port [p], and of nothing else. *)
Definition changes (p q : Z) (f : pin_state -> pin_state) (m : M registers unit) : Prop :=
  forall r, ready r p -> exists r', m r = Done (tt, r') /\ ready r' p /\ (forall a, a ∉ port_regs p -> r' !! a = r !! a) /\
    forall p' q', 0 <= q' < 16 -> pin_view r' p' q' = if decide (p' = p /\ q' = q) then f (pin_view r p' q') else pin_view r p' q'.

Lemma write_field a w sh n v r : r !! a = Some w ->
  (reg ← read_reg a; write_reg a (Z.lor (Z.land reg (not32 (shl32 (Z.ones n) sh))) (shl32 v sh))) r = Done (tt, <[a := set_field w sh n v]> r).
Proof. intros H. rewrite (bind_Done (read_reg a) _ r w r) by (unfold read_reg; by rewrite H). unfold write_reg. by rewrite H. Qed.

Ltac gpio_addr := unfold GPIO_MODER, GPIO_OTYPER, GPIO_OSPEEDR, GPIO_PUPDR, GPIO_AFRL, GPIO_AFRH, RCC_AHB1ENR, RCC_BASE, GPIO_BASE; lia.

(** One of the registers with a field for each pin. *)
Lemma changes_field p q a sh n v f : 0 <= sh -> 0 <= n -> sh + n <= 32 -> 0 <= v < 2 ^ n -> a ∈ port_regs p ->
  (forall r w, r !! a = Some w -> is_u32 w -> forall p' q', 0 <= q' < 16 ->
     pin_view (<[a := set_field w sh n v]> r) p' q' = if decide (p' = p /\ q' = q) then f (pin_view r p' q') else pin_view r p' q') ->
  changes p q f (reg ← read_reg a; write_reg a (Z.lor (Z.land reg (not32 (shl32 (Z.ones n) sh))) (shl32 v sh))).
Proof.
  intros H1 H2 H3 H4 Hin Hv r Hr. pose proof Hr as Hr'. unfold ready in Hr'. rewrite Forall_forall in Hr'. destruct (Hr' a Hin) as (w & Hw & Hu).
  exists (<[a := set_field w sh n v]> r). split; [by apply write_field|]. split; [apply ready_insert; [done|by apply set_field_u32]|].
  split; [intros b Hb; apply lookup_insert_ne; by intros ->|]. by apply Hv.
Qed.

(** The view of the other fields and pins. *)
Ltac other_field := match goal with Hw : _ !! _ = Some _, Hu : is_u32 _ |- _ =>
  apply (reg_field_other _ _ _ _ _ _ _ _ _ Hw Hu); first [lia | gpio_addr] end.
Ltac view_field :=
  intros ? ? ? ? p' q' ?; unfold pin_view; cbn [p_mode p_otype p_speed p_pull p_alt];
  let Hd := fresh "Hd" in case_decide as Hd; [destruct Hd as [-> ->]|].

Lemma gpio_pupdr_ok p q v : 0 <= q < 16 -> 0 <= v < 4 -> changes p q (fun s => mk_pin (p_mode s) (p_otype s) (p_speed s) (Some v) (p_alt s)) (gpio_pupdr p q v).
Proof.
  intros Hq Hv. apply (changes_field p q (GPIO_PUPDR p) (2 * q) 2); [lia|lia|lia|lia|unfold port_regs; set_solver|]. view_field.
  - f_equal; [other_field|other_field|other_field|apply reg_field_same; (done || lia)|]. destruct (Z.ltb_spec q 8); other_field.
  - f_equal; [other_field|other_field|other_field|other_field|]. destruct (Z.ltb_spec q' 8); other_field.
Qed.

Lemma gpio_moder_ok p q v : 0 <= q < 16 -> 0 <= v < 4 -> changes p q (fun s => mk_pin (Some v) (p_otype s) (p_speed s) (p_pull s) (p_alt s)) (gpio_moder p q v).
Proof.
  intros Hq Hv. apply (changes_field p q (GPIO_MODER p) (2 * q) 2); [lia|lia|lia|lia|unfold port_regs; set_solver|]. view_field.
  - f_equal; [apply reg_field_same; (done || lia)|other_field|other_field|other_field|]. destruct (Z.ltb_spec q 8); other_field.
  - f_equal; [other_field|other_field|other_field|other_field|]. destruct (Z.ltb_spec q' 8); other_field.
Qed.

Lemma gpio_ospeedr_ok p q v : 0 <= q < 16 -> 0 <= v < 4 -> changes p q (fun s => mk_pin (p_mode s) (p_otype s) (Some v) (p_pull s) (p_alt s)) (gpio_ospeedr p q v).
Proof.
  intros Hq Hv. apply (changes_field p q (GPIO_OSPEEDR p) (2 * q) 2); [lia|lia|lia|lia|unfold port_regs; set_solver|]. view_field.
  - f_equal; [other_field|other_field|apply reg_field_same; (done || lia)|other_field|]. destruct (Z.ltb_spec q 8); other_field.
  - f_equal; [other_field|other_field|other_field|other_field|]. destruct (Z.ltb_spec q' 8); other_field.
Qed.

Lemma gpio_otyper_ok p q v : 0 <= q < 16 -> 0 <= v < 2 -> changes p q (fun s => mk_pin (p_mode s) (Some v) (p_speed s) (p_pull s) (p_alt s)) (gpio_otyper p q v).
Proof.
  intros Hq Hv. apply (changes_field p q (GPIO_OTYPER p) q 1); [lia|lia|lia|lia|unfold port_regs; set_solver|]. view_field.
  - f_equal; [other_field|apply reg_field_same; (done || lia)|other_field|other_field|]. destruct (Z.ltb_spec q 8); other_field.
  - f_equal; [other_field|other_field|other_field|other_field|]. destruct (Z.ltb_spec q' 8); other_field.
Qed.

Lemma gpio_afr_ok p q v : 0 <= q < 16 -> 0 <= v < 16 -> changes p q (fun s => mk_pin (p_mode s) (p_otype s) (p_speed s) (p_pull s) (Some v)) (gpio_afr p q v).
Proof.
  intros Hq Hv. unfold gpio_afr. destruct (Z.ltb_spec q 8).
  - apply (changes_field p q (GPIO_AFRL p) (4 * q) 4); [lia|lia|lia|lia|unfold port_regs; set_solver|]. view_field.
    + destruct (Z.ltb_spec q 8); [|lia]. f_equal; [other_field|other_field|other_field|other_field|apply reg_field_same; (done || lia)].
    + f_equal; [other_field|other_field|other_field|other_field|]. destruct (Z.ltb_spec q' 8); other_field.
  - apply (changes_field p q (GPIO_AFRH p) (4 * (q - 8)) 4); [lia|lia|lia|lia|unfold port_regs; set_solver|]. view_field.
    + destruct (Z.ltb_spec q 8); [lia|]. f_equal; [other_field|other_field|other_field|other_field|apply reg_field_same; (done || lia)].
    + f_equal; [other_field|other_field|other_field|other_field|]. destruct (Z.ltb_spec q' 8); other_field.
Qed.

(** One change after the other. *)
Lemma changes_then p q f g m1 m2 : changes p q f m1 -> changes p q g m2 -> changes p q (fun s => g (f s)) (m1;; m2).
Proof.
  intros H1 H2 r Hr. destruct (H1 r Hr) as (r1 & E1 & Hr1 & HC1 & HV1). destruct (H2 r1 Hr1) as (r2 & E2 & Hr2 & HC2 & HV2).
  exists r2. split; [by rewrite (bind_Done _ _ _ _ _ E1)|]. split; [done|]. split; [intros a Ha; by rewrite HC2, HC1|]. intros p' q' Hq. rewrite HV2, HV1 by done. by case_decide.
Qed.

Lemma changes_none p q : changes p q (fun s => s) (mret tt).
Proof. intros r Hr. exists r. split; [done|]. split; [done|]. split; [done|]. intros p' q' _. by case_decide. Qed.

(** A configuration of the fields' widths. *)
Record valid_cfg (c : gpio_cfg) : Prop := {
  vc_pin : 0 <= pin c < 16; vc_pupd : 0 <= pupd c < 4; vc_type : 0 <= type c < 4;
  vc_func : 0 <= func c < 16; vc_otype : 0 <= o_type c < 2; vc_speed : 0 <= speed c < 4;
}.

(** What a configuration makes of a pin: an input keeps its output fields. *)
Definition configured (c : gpio_cfg) (s : pin_state) : pin_state :=
  if type c =? GPIO_MODER_IN then mk_pin (Some (type c)) (p_otype s) (p_speed s) (Some (pupd c)) (p_alt s)
  else mk_pin (Some (type c)) (Some (o_type c)) (Some (speed c)) (Some (pupd c)) (if type c =? GPIO_MODER_ALT then Some (func c) else p_alt s).

Lemma changes_ext p q f g m : changes p q f m -> (forall s, f s = g s) -> changes p q g m.
Proof.
  intros H E r Hr. destruct (H r Hr) as (r' & E' & Hr' & HC & HV). exists r'. split; [done|]. split; [done|]. split; [done|]. intros p' q' Hq.
  rewrite HV by done. case_decide; [apply E|done].
Qed.

(** The part of [gpio_config] behind the clock. *)
Lemma gpio_fields_ok c : valid_cfg c -> changes (port c) (pin c) (configured c)
  (gpio_pupdr (port c) (pin c) (pupd c);; gpio_moder (port c) (pin c) (type c);;
   if type c =? GPIO_MODER_IN then mret tt
   else when (type c =? GPIO_MODER_ALT) (gpio_afr (port c) (pin c) (func c));; gpio_otyper (port c) (pin c) (o_type c);; gpio_ospeedr (port c) (pin c) (speed c)).
Proof.
  intros [V1 V2 V3 V4 V5 V6]. unfold configured, when. destruct (type c =? GPIO_MODER_IN).
  - eapply changes_ext; [apply changes_then; [by apply gpio_pupdr_ok|apply changes_then; [by apply gpio_moder_ok|apply changes_none]]|done].
  - eapply changes_ext; [apply changes_then; [by apply gpio_pupdr_ok|apply changes_then; [by apply gpio_moder_ok|apply changes_then; [|apply changes_then; [by apply gpio_otyper_ok|by apply gpio_ospeedr_ok]]]]|].
    + instantiate (1 := fun s => if type c =? GPIO_MODER_ALT then mk_pin (p_mode s) (p_otype s) (p_speed s) (p_pull s) (Some (func c)) else s).
      destruct (type c =? GPIO_MODER_ALT); [by apply gpio_afr_ok|apply changes_none].
    + intros s. cbn. by destruct (type c =? GPIO_MODER_ALT).
Qed.

Lemma clock_not_port p : RCC_AHB1ENR ∉ port_regs p.
Proof. unfold port_regs. rewrite !not_elem_of_cons. split_and!; try gpio_addr. apply not_elem_of_nil. Qed.

(** [gpio_config] with values that fit their fields enables the clock of the port, gives
    the pin its mode, pull, output type, speed and alternate function (an input keeps the last
    three, and only the alternate mode sets the function), changes no other pin and no register
    but those of the port and the one of the clock. *)
Theorem gpio_config_configures c r w : valid_cfg c -> 0 <= port c < 32 -> ready r (port c) -> r !! RCC_AHB1ENR = Some w -> is_u32 w ->
  exists r' w', gpio_config c r = Done (tt, r') /\ r' !! RCC_AHB1ENR = Some w' /\ is_u32 w' /\ Z.testbit w' (port c) = true /\
    pin_view r' (port c) (pin c) = configured c (pin_view r (port c) (pin c)) /\
    (forall p q, 0 <= q < 16 -> (p, q) <> (port c, pin c) -> pin_view r' p q = pin_view r p q) /\
    ready r' (port c) /\ forall a, a <> RCC_AHB1ENR -> a ∉ port_regs (port c) -> r' !! a = r !! a.
Proof.
  intros HV Hp Hr Hw Hu. unfold gpio_config, or_reg. set (w1 := Z.lor w (shl32 1 (port c))).
  assert (Hu1 : is_u32 w1) by (apply lor_u32; [done|apply shl32_u32]).
  assert (Hview : forall p q, pin_view (<[RCC_AHB1ENR := w1]> r) p q = pin_view r p q).
  { intros p q. unfold pin_view, reg_field. by rewrite !lookup_insert_ne by gpio_addr. }
  assert (E0 : (x ← read_reg RCC_AHB1ENR; write_reg RCC_AHB1ENR (Z.lor x (shl32 1 (port c)))) r = Done (tt, <[RCC_AHB1ENR := w1]> r)).
  { rewrite (bind_Done (read_reg RCC_AHB1ENR) _ r w r) by (unfold read_reg; by rewrite Hw). unfold write_reg. by rewrite Hw. }
  rewrite (bind_Done _ _ _ _ _ E0).
  destruct (gpio_fields_ok c HV (<[RCC_AHB1ENR := w1]> r)) as (r' & E & Hr' & HC & HV'); [by apply ready_insert|]. exists r', w1.
  split; [exact E|]. split; [by rewrite HC, lookup_insert_eq by apply clock_not_port|]. split; [done|]. split; [|split; [|split; [|split; [exact Hr'|]]]].
  - unfold w1. rewrite Z.lor_spec, testbit_shl32 by lia. destruct (Z.ltb_spec (port c) 32); [|lia]. rewrite Z.sub_diag. apply orb_true_r.
  - rewrite HV', Hview, decide_True; [done|done|apply HV].
  - intros p q Hq Hne. rewrite HV', Hview, decide_False; [done| |done]. intros [-> ->]. by apply Hne.
  - intros a Ha Hp'. rewrite HC by done. by apply lookup_insert_ne.
Qed.

(** [usart_baud] is the clock of the line divided by the baud rate: the sixteenths of
    the register are the quotient's last four bits. *)
Theorem usart_baud_divides base baud : 1282 <= baud < 268435456 ->
  usart_baud base baud = (if (base =? USART1_BASE) || (base =? USART2_BASE) then 84000000 else 42000000) / baud.
Proof.
  intros Hb. unfold usart_baud. set (c := if (base =? USART1_BASE) || (base =? USART2_BASE) then 84000000 else 42000000). assert (Hc : 0 <= c <= 84000000) by (unfold c; destruct ((base =? USART1_BASE) || (base =? USART2_BASE)); lia).
  assert (H16 : mul32 16 baud = 16 * baud) by (unfold mul32, wrap32, u32_modulus; apply Z.mod_small; lia). rewrite H16.
  assert (Hq : 0 <= c / baud < 65536) by (split; [apply Z.div_pos; lia|apply Z.div_lt_upper_bound; lia]).
  assert (Hm : c / (16 * baud) = c / baud / 16) by (rewrite Z.div_div, (Z.mul_comm 16 baud) by lia; done). rewrite Hm.
  set (q := c / baud) in *. rewrite (Z.mod_small (q / 16)) by (Z.div_mod_to_equations; lia).
  rewrite Z.shiftl_mul_pow2 by lia. change (2 ^ 4) with 16. rewrite Z.lor_comm.
  assert (E : Z.lor (q mod 16) (q / 16 * 16) = q).
  { change 16 with (2 ^ 4). rewrite <- Z.shiftl_mul_pow2, <- Z.shiftr_div_pow2 by lia. apply Z.bits_inj'. intros j Hj.
    rewrite Z.lor_spec. destruct (Z.lt_ge_cases j 4).
    - rewrite Z.mod_pow2_bits_low, Z.shiftl_spec_low by lia. apply orb_false_r.
    - rewrite Z.mod_pow2_bits_high, Z.shiftl_spec_high, Z.shiftr_spec by lia. cbn [orb]. f_equal. lia. }
  rewrite E. apply Z.mod_small. lia.
Qed.

(** A port of which all registers are zero, and the pin of the serial line. *)
Definition sample_regs : registers :=
  list_to_map ((RCC_AHB1ENR, 0) :: ((fun a => (a, 0)) <$> [GPIO_MODER 0; GPIO_OTYPER 0; GPIO_OSPEEDR 0; GPIO_PUPDR 0; GPIO_AFRL 0; GPIO_AFRH 0])).
Definition sample_tx : gpio_cfg := mk_cfg 0 9 1 2 GPIO_MODER_ALT 7 0.

Lemma gpio_config_configures_witness :
  exists r' w', gpio_config sample_tx sample_regs = Done (tt, r') /\ r' !! RCC_AHB1ENR = Some w' /\ Z.testbit w' 0 = true /\
    pin_view r' 0 9 = mk_pin (Some 2) (Some 0) (Some 2) (Some 1) (Some 7).
Proof.
  destruct (gpio_config_configures sample_tx sample_regs 0) as (r' & w' & E & H1 & _ & H2 & H3 & _).
  - split; cbn; unfold GPIO_MODER_ALT; lia.
  - cbn. lia.
  - repeat (apply Forall_cons; split; [exists 0; by vm_compute|]). by apply Forall_nil.
  - by vm_compute.
  - done.
  - exists r', w'. split; [exact E|]. split; [exact H1|]. split; [exact H2|exact H3].
Defined.

Lemma usart_baud_divides_witness : usart_baud USART1_BASE 115200 = 729.
Proof. rewrite (usart_baud_divides USART1_BASE 115200); [by vm_compute|lia]. Defined.
