(* ===== verification/Nvic.v ===== *)
(** * Interrupt priorities

    Models [platform/stm32f4/nvic.c], the functions of [include/platform/stm32f4/nvic.h] and
    [irq_init] of [platform/irq.c].

    A bit that is written to a set register sets the bit of the interrupt, and one that is
    written to a clear register clears it. *)

From S2P Require Import Prelude.

(** ** Data *)

Record nvic := mk_nvic {
  SCB_AIRCR : Z;
  SCB_SHPR : list Z;
  IP : list Z;
  enabled : list Z;
  pending : list Z;
  active : list Z;
}.

Definition with_aircr (v : Z) (s : nvic) : nvic := mk_nvic v (SCB_SHPR s) (IP s) (enabled s) (pending s) (active s).
Definition with_shpr (l : list Z) (s : nvic) : nvic := mk_nvic (SCB_AIRCR s) l (IP s) (enabled s) (pending s) (active s).
Definition with_ip (l : list Z) (s : nvic) : nvic := mk_nvic (SCB_AIRCR s) (SCB_SHPR s) l (enabled s) (pending s) (active s).
Definition with_enabled (l : list Z) (s : nvic) : nvic := mk_nvic (SCB_AIRCR s) (SCB_SHPR s) (IP s) l (pending s) (active s).
Definition with_pending (l : list Z) (s : nvic) : nvic := mk_nvic (SCB_AIRCR s) (SCB_SHPR s) (IP s) (enabled s) l (active s).

Definition MemoryManagement_IRQn : Z := -12.
Definition BusFault_IRQn : Z := -11.
Definition UsageFault_IRQn : Z := -10.
Definition SVCall_IRQn : Z := -5.
Definition DebugMonitor_IRQn : Z := -4.
Definition PendSV_IRQn : Z := -2.
Definition SysTick_IRQn : Z := -1.

Definition NVIC_PriorityGroup_0 : Z := 1792.
Definition NVIC_PriorityGroup_1 : Z := 1536.
Definition NVIC_PriorityGroup_2 : Z := 1280.
Definition NVIC_PriorityGroup_3 : Z := 1024.
Definition NVIC_PriorityGroup_4 : Z := 768.
Definition AIRCR_VECTKEY_MASK : Z := 100270080.

(** [l[i] = v] of a register array. *)
Definition store_reg (get : nvic -> list Z) (set : list Z -> nvic -> nvic) (i v : Z) : M nvic unit := fun s =>
  match zinsert i v (get s) with Some l => Done (tt, set l s) | None => Fault end.
Definition load_reg (get : nvic -> list Z) (i : Z) : M nvic Z := fun s =>
  match zlookup (get s) i with Some v => Done (v, s) | None => Fault end.

(** ** Operations *)

Definition NVIC_PriorityGroupConfig (group : Z) : M nvic unit :=
  if negb ((group =? NVIC_PriorityGroup_0) || (group =? NVIC_PriorityGroup_1) || (group =? NVIC_PriorityGroup_2) ||
           (group =? NVIC_PriorityGroup_3) || (group =? NVIC_PriorityGroup_4)) then mret tt
  else modify (with_aircr (Z.lor AIRCR_VECTKEY_MASK group)).

(** The byte [priority << 4]. *)
Definition priority_byte (aircr group_priority sub_priority : Z) : Z :=
  let sub_shifts := Z.shiftr (1792 - Z.land aircr 1792) 8 mod 256 in
  let group_shifts := (4 - sub_shifts) mod 256 in
  let priority := Z.lor (Z.shiftl group_priority group_shifts) (Z.land sub_priority (Z.shiftr 15 sub_shifts)) mod 256 in
  Z.shiftl priority 4 mod 256.
Definition NVIC_SetPriority (IRQn group_priority sub_priority : Z) : M nvic unit :=
  aircr ← gets SCB_AIRCR;
  let b := priority_byte aircr group_priority sub_priority in
  if IRQn <? 0 then store_reg SCB_SHPR with_shpr (Z.land (wrap32 IRQn) 15 - 4) b
  else store_reg IP with_ip IRQn b.

(** The word and the bit of an interrupt. *)
Definition irq_word (IRQn : Z) : Z := Z.shiftr (wrap32 IRQn) 5.
Definition irq_bit (IRQn : Z) : Z := Z.shiftl 1 (Z.land (wrap32 IRQn) 31).

Definition NVIC_EnableIRQ (IRQn : Z) : M nvic unit :=
  w ← load_reg enabled (irq_word IRQn); store_reg enabled with_enabled (irq_word IRQn) (Z.lor w (irq_bit IRQn)).
Definition NVIC_DisableIRQ (IRQn : Z) : M nvic unit :=
  w ← load_reg enabled (irq_word IRQn); store_reg enabled with_enabled (irq_word IRQn) (Z.ldiff w (irq_bit IRQn)).
Definition NVIC_GetPendingIRQ (IRQn : Z) : M nvic Z :=
  w ← load_reg pending (irq_word IRQn); mret (b2z (truth (Z.land w (irq_bit IRQn)))).
Definition NVIC_SetPendingIRQ (IRQn : Z) : M nvic unit :=
  w ← load_reg pending (irq_word IRQn); store_reg pending with_pending (irq_word IRQn) (Z.lor w (irq_bit IRQn)).
Definition NVIC_ClearPendingIRQ (IRQn : Z) : M nvic unit :=
  w ← load_reg pending (irq_word IRQn); store_reg pending with_pending (irq_word IRQn) (Z.ldiff w (irq_bit IRQn)).
Definition NVIC_GetActive (IRQn : Z) : M nvic Z :=
  w ← load_reg active (irq_word IRQn); mret (b2z (truth (Z.land w (irq_bit IRQn)))).

(** [irq.c] *)
Definition irq_init : M nvic unit :=
  NVIC_PriorityGroupConfig NVIC_PriorityGroup_4;;
  NVIC_SetPriority DebugMonitor_IRQn 0 0;;
  NVIC_SetPriority MemoryManagement_IRQn 1 0;;
  NVIC_SetPriority BusFault_IRQn 1 0;;
  NVIC_SetPriority UsageFault_IRQn 1 0;;
  NVIC_SetPriority SysTick_IRQn 3 0;;
  NVIC_SetPriority SVCall_IRQn 15 0;;
  NVIC_SetPriority PendSV_IRQn 15 0.

(** ** Properties *)

(** The priority of an exception of the processor or of an interrupt. *)
Definition priority_of (s : nvic) (IRQn : Z) : option Z :=
  if IRQn <? 0 then zlookup (SCB_SHPR s) (Z.land (wrap32 IRQn) 15 - 4) else zlookup (IP s) IRQn.

(** The byte for each priority group. *)
Lemma priority_byte_all :
  forallb (fun k => forallb (fun g => forallb (fun p =>
    implb ((g <? 2 ^ k) && (p <? 2 ^ (4 - k))) (priority_byte (Z.lor AIRCR_VECTKEY_MASK ((7 - k) * 256)) g p =? 16 * (g * 2 ^ (4 - k) + p)))
    (seqZ 0 16)) (seqZ 0 16)) (seqZ 0 5) = true.
Proof. by vm_compute. Qed.

Lemma forallb_seqZ f a n x : forallb f (seqZ a n) = true -> a <= x < a + n -> f x = true.
Proof. intros H Hx. rewrite forallb_forall in H. apply H, list_elem_of_In, elem_of_seqZ. lia. Qed.

Lemma priority_byte_ok k group sub : 0 <= k <= 4 -> 0 <= group < 2 ^ k -> 0 <= sub < 2 ^ (4 - k) ->
  priority_byte (Z.lor AIRCR_VECTKEY_MASK ((7 - k) * 256)) group sub = 16 * (group * 2 ^ (4 - k) + sub).
Proof.
  intros Hk Hg Hs. assert (H1 : 2 ^ k <= 2 ^ 4) by (apply Z.pow_le_mono_r; lia). assert (H2 : 2 ^ (4 - k) <= 2 ^ 4) by (apply Z.pow_le_mono_r; lia).
  change (2 ^ 4) with 16 in *. pose proof (forallb_seqZ _ _ _ k priority_byte_all ltac:(lia)) as H. cbv beta in H.
  apply (forallb_seqZ _ _ _ group) in H; [|lia]. cbv beta in H. apply (forallb_seqZ _ _ _ sub) in H; [|lia]. cbv beta in H.
  rewrite (proj2 (Z.ltb_lt group (2 ^ k))), (proj2 (Z.ltb_lt sub (2 ^ (4 - k)))) in H by lia. by apply Z.eqb_eq.
Qed.

Lemma group_config_ok k s : 0 <= k <= 4 -> NVIC_PriorityGroupConfig ((7 - k) * 256) s = Done (tt, with_aircr (Z.lor AIRCR_VECTKEY_MASK ((7 - k) * 256)) s).
Proof. intros Hk. assert (k = 0 \/ k = 1 \/ k = 2 \/ k = 3 \/ k = 4) as [->|[->|[->|[->| ->]]]] by lia; done. Qed.

(** [NVIC_SetPriority] of an interrupt stores the group and the sub-priority in the upper four
    bits of its register, split as the priority group of [NVIC_PriorityGroupConfig] says, and
    the other interrupts keep theirs. *)
Theorem NVIC_SetPriority_splits k IRQn group sub s :
  0 <= k <= 4 -> 0 <= group < 2 ^ k -> 0 <= sub < 2 ^ (4 - k) -> 0 <= IRQn < Z.of_nat (length (IP s)) ->
  exists s', (NVIC_PriorityGroupConfig ((7 - k) * 256);; NVIC_SetPriority IRQn group sub) s = Done (tt, s') /\
    priority_of s' IRQn = Some (16 * (group * 2 ^ (4 - k) + sub)) /\
    forall i, 0 <= i -> i <> IRQn -> priority_of s' i = priority_of s i.
Proof.
  intros Hk Hg Hs Hi. rewrite (bind_Done _ _ _ _ _ (group_config_ok k s Hk)). unfold NVIC_SetPriority. set (s1 := with_aircr _ s).
  rewrite (bind_Done (gets SCB_AIRCR) _ s1 _ s1 eq_refl). change (SCB_AIRCR s1) with (Z.lor AIRCR_VECTKEY_MASK ((7 - k) * 256)).
  rewrite priority_byte_ok by done. destruct (Z.ltb_spec IRQn 0); [lia|]. unfold store_reg. change (IP s1) with (IP s). rewrite zinsert_Some by lia.
  eexists. split; [reflexivity|]. unfold priority_of. cbn [IP with_ip]. destruct (Z.ltb_spec IRQn 0); [lia|]. split.
  - replace IRQn with (Z.of_nat (Z.to_nat IRQn)) at 2 by lia. rewrite zlookup_nat, list_lookup_insert_eq; [done|lia].
  - intros i Hi0 Hne. destruct (Z.ltb_spec i 0); [lia|]. replace i with (Z.of_nat (Z.to_nat i)) by lia. rewrite !zlookup_nat, list_lookup_insert_ne; [done|lia].
Qed.

(** After [irq_init] the exceptions of the processor are ordered: the debug monitor comes
    before the faults, these before the timer, and the system calls and the switch of
    contexts have the lowest priority; the interrupts of the devices keep theirs. *)
Theorem irq_init_orders s : length (SCB_SHPR s) = 12%nat ->
  exists s', irq_init s = Done (tt, s') /\
    priority_of s' DebugMonitor_IRQn = Some 0 /\
    priority_of s' MemoryManagement_IRQn = Some 16 /\ priority_of s' BusFault_IRQn = Some 16 /\ priority_of s' UsageFault_IRQn = Some 16 /\
    priority_of s' SysTick_IRQn = Some 48 /\ priority_of s' SVCall_IRQn = Some 240 /\ priority_of s' PendSV_IRQn = Some 240 /\
    forall i, 0 <= i -> priority_of s' i = priority_of s i.
Proof.
  destruct s as [aircr shpr ip en pe ac]. cbn [SCB_SHPR]. intros H.
  do 12 (destruct shpr as [|? shpr]; [done|]). destruct shpr; [|done]. eexists. split; [vm_compute; reflexivity|].
  do 7 (split; [reflexivity|]). intros i Hi. unfold priority_of. by destruct (Z.ltb_spec i 0); [lia|].
Qed.

(** ** Concrete runs *)

Definition sample_nvic : nvic := mk_nvic 0 (replicate 12 0) (replicate 240 0) (replicate 8 0) (replicate 8 0) (replicate 8 0).

Lemma NVIC_SetPriority_splits_witness :
  exists s', (NVIC_PriorityGroupConfig 1280;; NVIC_SetPriority 37 2 3) sample_nvic = Done (tt, s') /\ priority_of s' 37 = Some 176.
Proof.
  destruct (NVIC_SetPriority_splits 2 37 2 3 sample_nvic) as (s' & E & H & _); [lia|lia|lia|cbn; lia|]. exists s'. split; [exact E|exact H].
Defined.

Lemma irq_init_orders_witness : exists s', irq_init sample_nvic = Done (tt, s') /\ priority_of s' SysTick_IRQn = Some 48.
Proof.
  destruct (irq_init_orders sample_nvic) as (s' & E & _ & _ & _ & _ & H & _); [done|]. exists s'. split; [exact E|exact H].
Defined.
