(* ===== verification/DebugDevice.v ===== *)
(** * Debug devices and the kernel debugger

    Models [platform/debug_device.c], [platform/debug_ram.c], [kernel/debug.c] and the
    dispatch of [kernel/kdb.c], in the configurations with the serial line as a device; whether
    the buffer in memory is one as well ([CONFIG_DEBUG_DEV_RAM], which the default configuration of
    the board does not set) is the parameter [dev_ram].

    A function is its address.  The functions of the serial line ([DebugUart]) and the dumps
    of the debugger are the parameters [call_get], [call_put], [call_panic] and [run] on the
    whole state [S], of which the state of the devices is a part. *)

From S2P Require Import Prelude Stdio.

(** ** Data *)

Definition DBG_DEV_UART : Z := 0.
Definition DBG_DEV_RAM : Z := 1.
Definition DBG_DEV_MAX (dev_ram : bool) : Z := if dev_ram then 2 else 1.
Definition DBG_RAM_BUFSIZE : Z := 8192.

Record dbg_dev_t := mk_dev {
  dev_id : Z;
  d_getchar : Z;
  d_putchar : Z;
  d_start_panic : Z;
}.

(** The devices, the index of the current one and the buffer. *)
Record dbgstate := mk_dbg {
  dbg_dev : list dbg_dev_t;
  cur_dev : Z;
  buf_idx : Z;
  buf_data : list Z;
}.

Definition with_devs (l : list dbg_dev_t) (s : dbgstate) : dbgstate := mk_dbg l (cur_dev s) (buf_idx s) (buf_data s).
Definition with_cur (i : Z) (s : dbgstate) : dbgstate := mk_dbg (dbg_dev s) i (buf_idx s) (buf_data s).
Definition with_buf (i : Z) (l : list Z) (s : dbgstate) : dbgstate := mk_dbg (dbg_dev s) (cur_dev s) i l.

Definition get_dev (i : Z) : M dbgstate dbg_dev_t := fun s => match zlookup (dbg_dev s) i with Some d => Done (d, s) | None => Fault end.
Definition put_dev (i : Z) (d : dbg_dev_t) : M dbgstate unit := fun s => match zinsert i d (dbg_dev s) with Some l => Done (tt, with_devs l s) | None => Fault end.

(** ** [debug_ram.c] *)

Definition dbg_ram_putchar (chr : Z) : M dbgstate unit := fun s =>
  match zinsert (buf_idx s) (chr mod 256) (buf_data s) with
  | Some l =>
      let idx := buf_idx s + 1 in
      let idx := if idx =? DBG_RAM_BUFSIZE then 0 else idx in
      Done (tt, with_buf idx l s)
  | None => Fault
  end.

Section devices.
(** The configuration, the error numbers of the C library, and the addresses of functions. *)
Variable dev_ram : bool.
Variables EINVAL ENXIO : Z.
Variables default_getchar default_putchar default_start_panic ram_putchar : Z.

(** ** [debug_device.c] *)

Definition dbg_register_device (device : option dbg_dev_t) : M dbgstate Z :=
  match device with
  | None => mret (- EINVAL)
  | Some d =>
      if dev_id d >=? DBG_DEV_MAX dev_ram then mret (- EINVAL)
      else put_dev (dev_id d) d;; mret 0
  end.

Definition dbg_change_device (dev_id' : Z) : M dbgstate Z :=
  if dev_id' >=? DBG_DEV_MAX dev_ram then mret (- EINVAL)
  else
    d ← get_dev dev_id';
    if dev_id d =? DBG_DEV_MAX dev_ram then mret (- ENXIO)
    else modify (with_cur dev_id');; mret 0.

Definition dbg_ram_init : M dbgstate unit :=
  modify (with_buf 0 (replicate (Z.to_nat DBG_RAM_BUFSIZE) 0));;
  dbg_register_device (Some (mk_dev DBG_DEV_RAM NULL ram_putchar NULL));;
  mret tt.

(** The loop of [dbg_device_init] from [i] on. *)
Fixpoint default_devs (k : nat) (i : Z) : M dbgstate unit :=
  match k with
  | O => mret tt
  | S k => put_dev i (mk_dev (DBG_DEV_MAX dev_ram) default_getchar default_putchar default_start_panic);; default_devs k (i + 1)
  end.

Section calls.
Context {S : Type} `{!Part dbgstate S}.
Variable call_get : Z -> M S Z.
Variable call_put : Z -> Z -> M S unit.
Variable call_panic : Z -> M S unit.
Variable dbg_uart_init : M S unit.

Definition dbg_device_init : M S unit :=
  on (default_devs (Z.to_nat (DBG_DEV_MAX dev_ram - 1)) 0);;
  dbg_uart_init;;
  when dev_ram (on dbg_ram_init).

(** Calls through the pointers of a device: those of the two files and the others. *)
Definition call_getchar (h : Z) : M S Z :=
  if h =? NULL then fault else if h =? default_getchar then mret 255 else call_get h.
Definition call_putchar (h chr : Z) : M S unit :=
  if h =? NULL then fault
  else if h =? default_putchar then mret tt
  else if h =? ram_putchar then on (dbg_ram_putchar chr)
  else call_put h chr.
Definition call_start_panic (h : Z) : M S unit :=
  if h =? NULL then fault else if h =? default_start_panic then mret tt else call_panic h.

Definition dbg_getchar : M S Z :=
  c ← on (gets cur_dev); d ← on (get_dev c); call_getchar (d_getchar d).
Definition dbg_putchar (chr : Z) : M S unit :=
  c ← on (gets cur_dev); d ← on (get_dev c); call_putchar (d_putchar d) chr.

(** [cur_dev] is never null. *)
Definition dbg_start_panic : M S unit :=
  c ← on (gets cur_dev);
  d ← on (get_dev c);
  if d_start_panic d =? NULL then mret tt else call_start_panic (d_start_panic d).
End calls.
End devices.

(** ** [debug.c] *)

Definition DL_EMERG : Z := 0.
Definition DL_BASIC : Z := 32768.
Definition DL_KDB : Z := 16384.

(** [dbg_layer] is the layers that are printed. *)
Definition dbg_vprintf (strings : Z -> list Z) (dbg_layer layer : Z) (fmt : list Z) (va : list va_t) : M output unit :=
  if negb (layer =? DL_EMERG) && negb (truth (Z.land dbg_layer layer)) then mret tt
  else l4_vprintf strings fmt va.

(** ** [kdb.c] *)

Inductive kdb_function_t :=
| kdb_dump_ktable | kdb_dump_events | kdb_show_ktimer | kdb_dump_softirq | kdb_dump_threads | kdb_dump_mempool | kdb_dump_as
| kdb_show_sampling | kdb_show_tickless_verify.

(** The letter and the function of an entry. *)
Record kdb_t := mk_kdb { k_option : Z; k_function : kdb_function_t }.

Definition kdb_functions : list kdb_t :=
  [mk_kdb 75 kdb_dump_ktable; mk_kdb 101 kdb_dump_events; mk_kdb 110 kdb_show_ktimer; mk_kdb 115 kdb_dump_softirq; mk_kdb 116 kdb_dump_threads;
   mk_kdb 109 kdb_dump_mempool; mk_kdb 97 kdb_dump_as; mk_kdb 112 kdb_show_sampling; mk_kdb 118 kdb_show_tickless_verify].

Section kdb.
Context {S : Type}.
Variable run : kdb_function_t -> M S unit.
Variable kdb_print_menu : M S unit.

(** The loop of [kdb_handler]: whether a function was run.  The texts around it are left
    out. *)
Fixpoint kdb_loop (table : list kdb_t) (c : Z) : M S bool :=
  match table with
  | [] => mret false
  | e :: table => if c =? k_option e then run (k_function e);; mret true else kdb_loop table c
  end.
Definition kdb_handler (c : Z) : M S Z :=
  found ← kdb_loop kdb_functions c;
  if (found : bool) then mret 0
  else if c =? 63 then kdb_print_menu;; mret 0
  else mret 1.

Fixpoint kdb_dump_all (table : list kdb_t) : M S unit :=
  match table with
  | [] => mret tt
  | e :: table => run (k_function e);; kdb_dump_all table
  end.
Definition kdb_dump_error : M S Z := kdb_dump_all kdb_functions;; mret 0.

Definition debug_kdb_handler (dbg_getchar : M S Z) : M S unit := c ← dbg_getchar; kdb_handler c;; mret tt.
End kdb.

(** ** Properties *)

(** The buffer after the bytes [out]: each of the last bytes is at its place. *)
Definition buffer_holds (s : dbgstate) (out : list Z) : Prop :=
  buf_idx s = Z.of_nat (length out) mod DBG_RAM_BUFSIZE /\ Z.of_nat (length (buf_data s)) = DBG_RAM_BUFSIZE /\
  forall j c, Z.of_nat (length out) - DBG_RAM_BUFSIZE <= Z.of_nat j -> out !! j = Some c ->
              zlookup (buf_data s) (Z.of_nat j mod DBG_RAM_BUFSIZE) = Some (c mod 256).

Fixpoint put_all (out : list Z) : M dbgstate unit :=
  match out with [] => mret tt | c :: out => dbg_ram_putchar c;; put_all out end.

Lemma mod_distinct a b n : 0 < n -> a < b <= a + n - 1 -> a mod n <> b mod n.
Proof. intros Hn Hab E. assert (H : (b - a) mod n = 0) by (rewrite Zminus_mod, E, Z.sub_diag; done). rewrite Z.mod_small in H; lia. Qed.

Lemma dbg_ram_putchar_ok s out c : buffer_holds s out -> exists s', dbg_ram_putchar c s = Done (tt, s') /\ buffer_holds s' (out ++ [c]).
Proof.
  intros (Hi & Hl & Hd). pose proof (Z.mod_pos_bound (Z.of_nat (length out)) DBG_RAM_BUFSIZE eq_refl) as Hr. rewrite <- Hi in Hr.
  unfold dbg_ram_putchar. rewrite zinsert_Some by lia. eexists. split; [reflexivity|]. unfold buffer_holds. cbn. rewrite length_app, length_insert. cbn [length]. split; [|split; [done|]].
  - unfold DBG_RAM_BUFSIZE in *. destruct (Z.eqb_spec (buf_idx s + 1) 8192); Z.div_mod_to_equations; lia.
  - intros j x Hj Hx. apply lookup_app_Some in Hx as [Hx|[Hx Hx']].
    + pose proof (lookup_lt_Some _ _ _ Hx). rewrite zlookup_insert_ne; [apply Hd; [lia|done]|lia|].
      rewrite Hi. apply not_eq_sym, mod_distinct; [done|lia].
    + apply list_lookup_singleton_Some in Hx' as [Hj0 ->]. assert (j = length out) as -> by lia. rewrite <- Hi. apply zlookup_insert_eq. lia.
Qed.

(** The buffer in memory keeps the last 8192 bytes that were printed: after any number of
    bytes, each of the last ones is at its position modulo the size, and the index is that of the
    next byte. *)
Theorem dbg_ram_keeps_last new : forall s out, buffer_holds s out -> exists s', put_all new s = Done (tt, s') /\ buffer_holds s' (out ++ new).
Proof.
  induction new as [|c new IH]; intros s out H; cbn [put_all]; [exists s; by rewrite app_nil_r|].
  destruct (dbg_ram_putchar_ok s out c H) as (s1 & E & H1). rewrite (bind_Done _ _ _ _ _ E).
  destruct (IH s1 (out ++ [c]) H1) as (s2 & E2 & H2). exists s2. split; [done|]. by rewrite <- app_assoc in H2.
Qed.

Lemma ram_init_holds EINVAL rp s : length (dbg_dev s) = 2%nat -> exists s', dbg_ram_init true EINVAL rp s = Done (tt, s') /\ buffer_holds s' [].
Proof.
  intros Hl. unfold dbg_ram_init, dbg_register_device. set (s1 := with_buf 0 (replicate (Z.to_nat DBG_RAM_BUFSIZE) 0) s).
  rewrite (bind_Done (modify (with_buf 0 (replicate (Z.to_nat DBG_RAM_BUFSIZE) 0))) _ s tt s1 eq_refl). unfold s1. destruct s as [[|d0 [|d1 [|]]] c i l]; try done.
  eexists. split; [reflexivity|]. split; [done|]. split; [cbn [buf_data with_devs with_buf]; by rewrite length_replicate|]. intros j c' _ Hj. done.
Qed.

Lemma dbg_ram_keeps_last_witness :
  exists s0 s, dbg_ram_init true 22 5 (mk_dbg [mk_dev 0 0 0 0; mk_dev 0 0 0 0] 0 0 []) = Done (tt, s0) /\ put_all [104; 105] s0 = Done (tt, s) /\ buffer_holds s [104; 105].
Proof.
  destruct (ram_init_holds 22 5 (mk_dbg [mk_dev 0 0 0 0; mk_dev 0 0 0 0] 0 0 [])) as (s0 & E0 & H0); [done|].
  destruct (dbg_ram_keeps_last [104; 105] s0 [] H0) as (s & E & H). exists s0, s. split; [exact E0|]. split; [exact E|exact H].
Defined.

(** The device in memory has no [getchar]: after a change to it a character is read through the
    null pointer. *)
Section getchar.
Context {S : Type} `{!Part dbgstate S} `{!PartLaws dbgstate S}.

Lemma dbg_getchar_ram_faults default_getchar rp (call_get : Z -> M S Z) s d :
  get_part s = d -> zlookup (dbg_dev d) (cur_dev d) = Some (mk_dev DBG_DEV_RAM NULL rp NULL) -> dbg_getchar default_getchar call_get s = Fault.
Proof.
  intros Hd Hl. unfold dbg_getchar. rewrite (bind_Done (on (gets cur_dev)) _ s (cur_dev d) s).
  2: { rewrite <- Hd. rewrite (on_Done (gets cur_dev) s (cur_dev (get_part s)) (get_part s)); [by rewrite put_get|done]. }
  rewrite (bind_Done (on (get_dev (cur_dev d))) _ s (mk_dev DBG_DEV_RAM NULL rp NULL) s); [done|].
  rewrite (on_Done (get_dev (cur_dev d)) s (mk_dev DBG_DEV_RAM NULL rp NULL) (get_part s)); [by rewrite put_get|]. unfold get_dev. by rewrite Hd, Hl.
Qed.
End getchar.

Section kdb_lemmas.
Context {S : Type}.
Variable run : kdb_function_t -> M S unit.
Variable menu : M S unit.

Lemma kdb_loop_find table c s :
  kdb_loop run table c s = match find (fun e => c =? k_option e) table with Some e => (run (k_function e);; mret true) s | None => Done (false, s) end.
Proof. induction table as [|e table IH]; [done|]. cbn [kdb_loop find]. by destruct (c =? k_option e). Qed.

(** A letter of the menu runs exactly its function; the question mark prints the menu; any other
    letter changes nothing and gives 1. *)
Lemma kdb_handler_dispatches c s :
  kdb_handler run menu c s =
  match find (fun e => c =? k_option e) kdb_functions with
  | Some e => (run (k_function e);; mret 0) s
  | None => if c =? 63 then (menu;; mret 0) s else Done (1, s)
  end.
Proof.
  unfold kdb_handler. unfold mbind at 1, M_bind at 1. rewrite kdb_loop_find. destruct (find _ kdb_functions) as [e|]; [|by destruct (c =? 63)].
  unfold mbind, M_bind. by destruct (run (k_function e) s) as [[[] s']| | |].
Qed.
End kdb_lemmas.
