(* ===== verification/UserLib.v ===== *)
(** * The user library: types, virtual registers and messages

    Models the thread identifiers, flexible pages and times of [user/include/l4/types.h], the
    virtual registers of [user/include/l4/platform/vregs.h] and the messages of
    [user/include/l4/message.h] (untyped words, map, grant and simple string items and
    acceptors; compound strings are in [UserString], control-transfer items are left out).

    A union of a word and bit-fields is the word; an assignment to a bit-field keeps the low
    bits of the value.  A message object is its 16 words; an index outside of it is a fault. *)

From S2P Require Import Prelude Bits.

(** An assignment to a bit-field of [n] bits from bit [sh] on. *)
Definition put_bits (w sh n v : Z) : Z := set_field w sh n (v mod 2 ^ n).

(** ** [types.h]: flexible pages *)

Definition L4_NoAccess : Z := 0.

Definition L4_IsNilFpage (f : Z) : bool := f =? 0.
Definition L4_Rights (f : Z) : Z := field f 0 3.
Definition L4_Set_Rights (f rwx : Z) : Z := put_bits f 0 3 rwx.
Definition L4_FpageAddRights (f rwx : Z) : Z := put_bits f 0 3 (Z.lor (field f 0 3) rwx).
(** The variants that also change their argument: the state is the word it points to. *)
Definition L4_FpageAddRightsTo (rwx : Z) : M Z Z := modify (fun f => L4_FpageAddRights f rwx);; gets id.
Definition L4_FpageRemoveRights (f rwx : Z) : Z := put_bits f 0 3 (Z.land (field f 0 3) (not32 rwx)).

Definition L4_FpageRemoveRightsFrom (rwx : Z) : M Z Z := modify (fun f => L4_FpageRemoveRights f rwx);; gets id.

(** The number of the highest bit that is set; [clz] of 0 is 32. *)
Definition __L4_Msb (w : Z) : Z := if w =? 0 then -1 else Z.log2 w.

Definition L4_Fpage (BaseAddress FpageSize : Z) : Z :=
  let msb := __L4_Msb FpageSize in
  let fp := put_bits BaseAddress 4 6 (if shl32 1 msb <? FpageSize then msb + 1 else msb) in
  put_bits fp 0 3 L4_NoAccess.
Definition L4_FpageLog2 (BaseAddress FpageSize : Z) : Z := put_bits (put_bits BaseAddress 4 6 FpageSize) 0 3 L4_NoAccess.
Definition L4_Address (f : Z) : Z := Z.land f (not32 (sub32 (shl32 1 (field f 4 6)) 1)).
Definition L4_Size (f : Z) : Z := if field f 4 6 =? 0 then 0 else shl32 1 (field f 4 6).
Definition L4_SizeLog2 (f : Z) : Z := field f 4 6.

(** ** [types.h]: thread identifiers *)

(** The word the fields are assigned in is not initialised: [t]. *)
Definition L4_GlobalId (t threadno version : Z) : Z := put_bits (put_bits t 14 18 threadno) 0 14 version.
Definition L4_Version (t : Z) : Z := field t 0 14.
Definition L4_ThreadNo (t : Z) : Z := field t 14 18.
Definition L4_IsThreadEqual (l r : Z) : bool := l =? r.
Definition L4_IsThreadNotEqual (l r : Z) : bool := negb (l =? r).
Definition L4_IsNilThread (t : Z) : bool := t =? 0.
Definition L4_IsLocalId (t : Z) : bool := field t 0 6 =? 0.
Definition L4_IsGlobalId (t : Z) : bool := negb (field t 0 6 =? 0).

(** ** [types.h]: clocks *)

Definition wrap64 (x : Z) : Z := x mod 2 ^ 64.
Definition L4_ClockAddUsec (c r : Z) : Z := wrap64 (c + r).
Definition L4_ClockSubUsec (c r : Z) : Z := wrap64 (c - r).
Definition L4_IsClockEarlier (l r : Z) : bool := l <? r.
Definition L4_IsClockLater (l r : Z) : bool := l >? r.
Definition L4_IsClockEqual (l r : Z) : bool := l =? r.
Definition L4_IsClockNotEqual (l r : Z) : bool := negb (l =? r).

(** ** [types.h]: times *)

Definition L4_Never : Z := 0.

(** The loop that halves the mantissa; 32 turns are enough for a word. *)
Fixpoint normalise (fuel : nat) (man l4_exp : Z) : Z * Z :=
  match fuel with
  | O => (man, l4_exp)
  | S fuel => if man >=? 1024 then normalise fuel (Z.shiftr man 1) (l4_exp + 1) else (man, l4_exp)
  end.

(** For a number of microseconds that is not a constant: it is cut to a word. *)
Definition L4_TimePeriod (microseconds : Z) : Z :=
  let '(man, l4_exp) := normalise 32 (wrap32 microseconds) 0 in
  if l4_exp <=? 31 then put_bits (put_bits 0 0 10 man) 10 5 l4_exp else L4_Never.

(** For a constant: [__L4_TRY_EXPONENT(N)] for [N] from 10 to 31, [k] of them left. *)
Fixpoint try_exponents (k : nat) (N microseconds : Z) : Z :=
  match k with
  | O => L4_Never
  | S k =>
      if microseconds <? shl32 1 N then put_bits (put_bits 0 0 10 (Z.shiftr microseconds (N - 10))) 10 5 (N - 10)
      else try_exponents k (N + 1) microseconds
  end.
Definition L4_TimePeriod_constant (microseconds : Z) : Z := try_exponents 22 10 microseconds.

(** ** [vregs.h] *)

Definition __L4_NUM_MRS : Z := 16.
Definition __L4_NUM_BRS : Z := 8.

(** The registers r4 to r11, and the arrays [mr] and [br] of the user thread control block. *)
Record vregs := mk_vregs {
  v_regs : list Z;
  v_mr : list Z;
  v_br : list Z;
}.

Definition put_reg (i w : Z) : M vregs unit := fun v =>
  match zinsert i w (v_regs v) with Some l => Done (tt, mk_vregs l (v_mr v) (v_br v)) | None => Fault end.
Definition put_mr (i w : Z) : M vregs unit := fun v =>
  match zinsert i w (v_mr v) with Some l => Done (tt, mk_vregs (v_regs v) l (v_br v)) | None => Fault end.
Definition put_br (i w : Z) : M vregs unit := fun v =>
  match zinsert i w (v_br v) with Some l => Done (tt, mk_vregs (v_regs v) (v_mr v) l) | None => Fault end.
Definition get_reg (i : Z) : M vregs Z := fun v => match zlookup (v_regs v) i with Some w => Done (w, v) | None => Fault end.
Definition get_mr (i : Z) : M vregs Z := fun v => match zlookup (v_mr v) i with Some w => Done (w, v) | None => Fault end.
Definition get_br (i : Z) : M vregs Z := fun v => match zlookup (v_br v) i with Some w => Done (w, v) | None => Fault end.

Definition L4_StoreMR (i : Z) : M vregs Z :=
  if (0 <=? i) && (i <? 8) then get_reg i
  else if (i >=? 0) && (i <? __L4_NUM_MRS) then get_mr (i - 8) else mret 0.
Definition L4_LoadMR (i w : Z) : M vregs unit :=
  if (0 <=? i) && (i <? 8) then put_reg i w
  else if (i >=? 0) && (i <? __L4_NUM_MRS) then put_mr (i - 8) w else mret tt.

(** The loops [while (k-- > 0)] over the array of the control block, from its start. *)
Fixpoint store_block (k : nat) (j : Z) : M vregs (list Z) :=
  match k with
  | O => mret []
  | S k => w ← get_mr j; ws ← store_block k (j + 1); mret (w :: ws)
  end.
Fixpoint load_block (k : nat) (j : Z) (ws : list Z) : M vregs unit :=
  match k with
  | O => mret tt
  | S k => match ws with [] => fault | w :: ws => put_mr j w;; load_block k (j + 1) ws end
  end.

(** The cases from [i] on, [n] registers up to r11: each falls through to the next one while
    words are left. *)
Fixpoint store_cases (n : nat) (i k : Z) : M vregs (list Z) :=
  match n with
  | O => store_block (Z.to_nat k) 0
  | S n =>
      w ← get_reg i;
      if k - 1 <=? 0 then mret [w] else ws ← store_cases n (i + 1) (k - 1); mret (w :: ws)
  end.
Fixpoint load_cases (n : nat) (i k : Z) (ws : list Z) : M vregs unit :=
  match n with
  | O => load_block (Z.to_nat k) 0 ws
  | S n =>
      match ws with
      | [] => fault
      | w :: ws => put_reg i w;; if k - 1 <=? 0 then mret tt else load_cases n (i + 1) (k - 1) ws
      end
  end.

(** The words that are stored at [w]; [None]: nothing is stored. *)
Definition L4_StoreMRs (i k : Z) : M vregs (option (list Z)) :=
  if (i <? 0) || (k <=? 0) || (i + k >? __L4_NUM_MRS) then mret None
  else ws ← store_cases (Z.to_nat (8 - i)) i k; mret (Some ws).
Definition L4_LoadMRs (i k : Z) (w : list Z) : M vregs unit :=
  if (i <? 0) || (k <=? 0) || (i + k >? __L4_NUM_MRS) then mret tt
  else load_cases (Z.to_nat (8 - i)) i k w.

Definition L4_StoreBR (i : Z) : M vregs (option Z) :=
  if (i >=? 0) && (i <? __L4_NUM_BRS) then w ← get_br i; mret (Some w) else mret None.
Definition L4_LoadBR (i w : Z) : M vregs unit :=
  if (i >=? 0) && (i <? __L4_NUM_BRS) then put_br i w else mret tt.

(** ** [message.h]: tags *)

Definition L4_Label (t : Z) : Z := field t 16 16.
Definition L4_UntypedWords (t : Z) : Z := field t 0 6.
Definition L4_TypedWords (t : Z) : Z := field t 6 6.
Definition L4_MsgTagAddLabel (t label : Z) : Z := put_bits t 16 16 label.
Definition L4_MsgTag : M vregs Z := L4_StoreMR 0.
Definition L4_Set_MsgTag (t : Z) : M vregs unit := L4_LoadMR 0 t.

(** ** [message.h]: items *)

Definition L4_MapItem (f SndBase : Z) : Z * Z := (put_bits (put_bits 0 1 3 4) 10 22 (Z.shiftr SndBase 10), f).
Definition L4_IsMapItem (m : Z * Z) : bool := field m.1 1 3 =? 4.
Definition L4_MapItemSndFpage (m : Z * Z) : Z := m.2.
Definition L4_MapItemSndBase (m : Z * Z) : Z := shl32 (field m.1 10 22) 10.
Definition L4_GrantItem (f SndBase : Z) : Z * Z := (put_bits (put_bits 0 1 3 5) 10 22 (Z.shiftr SndBase 10), f).
Definition L4_IsGrantItem (g : Z * Z) : bool := field g.1 1 3 =? 5.
Definition L4_GrantItemSndFpage (g : Z * Z) : Z := g.2.
Definition L4_GrantItemSndBase (g : Z * Z) : Z := shl32 (field g.1 10 22) 10.

(** [item] is not initialised: [w]. *)
Definition L4_StringItem (w size address : Z) : Z * Z :=
  (put_bits (put_bits (put_bits (put_bits (put_bits w 0 1 0) 1 3 0) 4 5 0) 9 1 0) 10 22 size, address).
Definition L4_IsStringItem (s : Z * Z) : bool := Z.land (field s.1 1 3) 4 =? 0.
Definition L4_CompoundString (s : Z * Z) : bool := negb (field s.1 9 1 =? 0).
Definition L4_Substrings (s : Z * Z) : Z := field s.1 4 5 + 1.

(** ** [message.h]: messages *)

Abbreviation L4_Msg_t := (list Z).

Definition msg_get (i : Z) : M L4_Msg_t Z := fun m => match zlookup m i with Some w => Done (w, m) | None => Fault end.
Definition msg_put (i w : Z) : M L4_Msg_t unit := fun m => match zinsert i w m with Some m' => Done (tt, m') | None => Fault end.

(** [msg->msg[i + o] = ws[i]] for [k] words from [i] on. *)
Fixpoint put_words (k : nat) (i o : Z) (ws : list Z) : M L4_Msg_t unit :=
  match k with
  | O => mret tt
  | S k => match ws with [] => fault | w :: ws => msg_put (i + o) w;; put_words k (i + 1) o ws end
  end.
Fixpoint get_words (k : nat) (i o : Z) : M L4_Msg_t (list Z) :=
  match k with
  | O => mret []
  | S k => w ← msg_get (i + o); ws ← get_words k (i + 1) o; mret (w :: ws)
  end.

Definition L4_MsgPut (label u : Z) (Untyped : list Z) (t : Z) (Items : list Z) : M L4_Msg_t unit :=
  put_words (Z.to_nat u) 0 1 Untyped;;
  put_words (Z.to_nat t) 0 (u + 1) Items;;
  tag ← msg_get 0;
  msg_put 0 (put_bits (put_bits (put_bits (put_bits tag 16 16 label) 12 4 0) 0 6 u) 6 6 t).

(** The words stored at [Untyped] and at [Items]. *)
Definition L4_MsgGet : M L4_Msg_t (list Z * list Z) :=
  tag ← msg_get 0;
  let u := L4_UntypedWords tag in
  let t := L4_TypedWords tag in
  us ← get_words (Z.to_nat u) 0 1;
  ts ← get_words (Z.to_nat t) 0 (1 + u);
  mret (us, ts).

Definition L4_MsgMsgTag : M L4_Msg_t Z := msg_get 0.
Definition L4_Set_MsgMsgTag (t : Z) : M L4_Msg_t unit := msg_put 0 t.
Definition L4_MsgLabel : M L4_Msg_t Z := tag ← msg_get 0; mret (L4_Label tag).
Definition L4_Set_MsgLabel (label : Z) : M L4_Msg_t unit := tag ← msg_get 0; msg_put 0 (put_bits tag 16 16 label).
Definition L4_MsgClear : M L4_Msg_t unit := msg_put 0 0.

(** [L4_MsgLoad] and [L4_MsgStore] work on the virtual registers; the message is an argument
    and a result. *)
Definition L4_MsgLoad (msg : L4_Msg_t) : M vregs unit :=
  match msg with
  | [] => fault
  | tag :: _ => L4_LoadMRs 0 (L4_UntypedWords tag + L4_TypedWords tag + 1) msg
  end.
Definition L4_MsgStore (t : Z) (msg : L4_Msg_t) : M vregs L4_Msg_t :=
  o ← L4_StoreMRs 1 (L4_UntypedWords t + L4_TypedWords t);
  match msg with
  | [] => fault
  | _ :: rest =>
      match o with
      | None => mret (t :: rest)
      | Some ws => if (length ws <=? length rest)%nat then mret (t :: ws ++ drop (length ws) rest) else fault
      end
  end.

(** [for (; i > u + 1; i--) msg->msg[i] = msg->msg[i-1];] for [k] turns. *)
Fixpoint shift_words (k : nat) (i : Z) : M L4_Msg_t unit :=
  match k with
  | O => mret tt
  | S k => w ← msg_get (i - 1); msg_put i w;; shift_words k (i - 1)
  end.

Definition L4_MsgAppendWord (w : Z) : M L4_Msg_t unit :=
  tag ← msg_get 0;
  let u := L4_UntypedWords tag in
  let t := L4_TypedWords tag in
  when (truth t) (shift_words (Z.to_nat t) (1 + u + t));;
  tag ← msg_get 0;
  let tag := put_bits tag 0 6 (L4_UntypedWords tag + 1) in
  msg_put 0 tag;;
  msg_put (L4_UntypedWords tag) w.

(** The two words of an item behind the words of the message. *)
Definition append_item (r0 r1 : Z) : M L4_Msg_t unit :=
  tag ← msg_get 0;
  msg_put (L4_UntypedWords tag + L4_TypedWords tag + 1) r0;;
  tag ← msg_get 0;
  msg_put (L4_UntypedWords tag + L4_TypedWords tag + 2) r1;;
  tag ← msg_get 0;
  msg_put 0 (put_bits tag 6 6 (L4_TypedWords tag + 2)).
Definition L4_MsgAppendMapItem (m : Z * Z) : M L4_Msg_t unit := append_item m.1 m.2.
Definition L4_MsgAppendGrantItem (g : Z * Z) : M L4_Msg_t unit := append_item g.1 g.2.
Definition L4_MsgAppendSimpleStringItem (s : Z * Z) : M L4_Msg_t unit :=
  append_item (put_bits (put_bits s.1 9 1 0) 4 5 0) s.2.

Definition L4_MsgPutWord (u w : Z) : M L4_Msg_t unit := msg_put (u + 1) w.
Definition L4_MsgWord (u : Z) : M L4_Msg_t Z := msg_get (u + 1).
Definition put_item (t r0 r1 : Z) : M L4_Msg_t unit :=
  tag ← msg_get 0;
  msg_put (L4_UntypedWords tag + t + 1) r0;;
  tag ← msg_get 0;
  msg_put (L4_UntypedWords tag + t + 2) r1.
Definition L4_MsgPutMapItem (t : Z) (m : Z * Z) : M L4_Msg_t unit := put_item t m.1 m.2.
Definition L4_MsgPutGrantItem (t : Z) (g : Z * Z) : M L4_Msg_t unit := put_item t g.1 g.2.
Definition L4_MsgPutSimpleStringItem (t : Z) (s : Z * Z) : M L4_Msg_t unit :=
  put_item t (put_bits (put_bits s.1 9 1 0) 4 5 0) s.2.

(** The item, and the number of its words. *)
Definition L4_MsgGetMapItem (t : Z) : M L4_Msg_t (Z * Z * Z) :=
  tag ← msg_get 0;
  r0 ← msg_get (L4_UntypedWords tag + t + 1);
  r1 ← msg_get (L4_UntypedWords tag + t + 2);
  mret (r0, r1, 2).
Definition L4_MsgGetGrantItem (t : Z) : M L4_Msg_t (Z * Z * Z) :=
  tag ← msg_get 0;
  r0 ← msg_get (L4_UntypedWords tag + t + 1);
  r1 ← msg_get (L4_UntypedWords tag + t + 2);
  mret (r0, r1, 2).

(** ** [message.h]: acceptors *)

Definition L4_MapGrantItems (RcvWindow : Z) : Z := put_bits (put_bits RcvWindow 0 1 0) 2 2 0.
Definition L4_AddAcceptor (l r : Z) : Z :=
  put_bits (put_bits 0 0 1 (Z.lor (field l 0 1) (field r 0 1))) 4 28
    (if negb (field r 4 28 =? 0) then field r 4 28 else field l 4 28).
Definition L4_AddAcceptorTo (l r : Z) : Z :=
  let l := put_bits l 0 1 (Z.lor (field l 0 1) (field r 0 1)) in
  if negb (field r 4 28 =? 0) then put_bits l 4 28 (field r 4 28) else l.
Definition L4_RemoveAcceptor (l r : Z) : Z :=
  let a := if negb (field r 0 1 =? 0) then put_bits l 0 1 0 else l in
  if negb (field r 4 28 =? 0) then put_bits a 4 28 0 else a.
Definition L4_RemoveAcceptorFrom (l r : Z) : Z :=
  let l := if negb (field r 0 1 =? 0) then put_bits l 0 1 0 else l in
  if negb (field r 4 28 =? 0) then put_bits l 4 28 0 else l.
Definition L4_HasStringItems (a : Z) : bool := Z.land a 1 =? 1.
Definition L4_HasMapGrantItems (a : Z) : bool := negb (Z.land a (not32 15) =? 0).
Definition L4_RcvWindow (a : Z) : Z := put_bits a 0 3 0.
Definition L4_Accept (a : Z) : M vregs unit := L4_LoadBR 0 a.
Definition L4_Accepted : M vregs (option Z) := L4_StoreBR 0.
