(* ===== verification/UserLibProps.v ===== *)
(** * The user library: correctness

    The fields of tags, identifiers and times, the words of a message under the operations of
    the library, and the way of a message from the object of the sender through the virtual
    registers and the kernel to the object of the receiver. *)

From S2P Require Import Prelude Bits Ktable Thread Sched Softirq Ktimer Mempool Fpage Memory Kernel Ipc IpcProps UserLib.

(** ** Bit-fields *)

Lemma put_bits_u32 w sh n v : is_u32 w -> is_u32 (put_bits w sh n v).
Proof. apply set_field_u32. Qed.

Lemma field_put_same w sh n v : is_u32 w -> 0 <= sh -> 0 <= n -> sh + n <= 32 -> field (put_bits w sh n v) sh n = v mod 2 ^ n.
Proof. intros Hw Hs Hn Hm. apply field_set_same; [done..|]. apply Z.mod_pos_bound. lia. Qed.

Lemma field_put_other w sh n v sh' n' : is_u32 w -> 0 <= sh -> 0 <= n -> sh + n <= 32 -> 0 <= sh' -> 0 <= n' -> sh' + n' <= sh \/ sh + n <= sh' ->
  field (put_bits w sh n v) sh' n' = field w sh' n'.
Proof. intros Hw Hs Hn Hm Hs' Hn' Hd. apply field_set_other; [done..| |done|done|done]. apply Z.mod_pos_bound. lia. Qed.

Lemma field_range w sh n : 0 <= w -> 0 <= n -> 0 <= field w sh n < 2 ^ n.
Proof. intros Hw Hn. unfold field. rewrite Z.land_ones by done. apply Z.mod_pos_bound. lia. Qed.

(** The tag of a message has the numbers of its words and its label. *)
Lemma tag_fields w label u t : is_u32 w -> 0 <= u < 64 -> 0 <= t < 64 -> 0 <= label < 65536 ->
  let tag := put_bits (put_bits (put_bits (put_bits w 16 16 label) 12 4 0) 0 6 u) 6 6 t in
  L4_UntypedWords tag = u /\ L4_TypedWords tag = t /\ L4_Label tag = label /\ is_u32 tag.
Proof.
  intros Hw Hu Ht Hl tag. unfold tag, L4_UntypedWords, L4_TypedWords, L4_Label.
  assert (H1 := put_bits_u32 w 16 16 label Hw). assert (H2 := put_bits_u32 _ 12 4 0 H1). assert (H3 := put_bits_u32 _ 0 6 u H2).
  split; [|split; [|split]].
  - rewrite field_put_other, field_put_same by (done || lia). apply Z.mod_small. change (2 ^ 6) with 64. lia.
  - rewrite field_put_same by (done || lia). apply Z.mod_small. change (2 ^ 6) with 64. lia.
  - rewrite !field_put_other, field_put_same by (done || lia). apply Z.mod_small. change (2 ^ 16) with 65536. lia.
  - by apply put_bits_u32.
Qed.

(** The fields of the library are those of the kernel. *)
Lemma untyped_kernel t : n_untyped t = L4_UntypedWords t.
Proof. unfold n_untyped, L4_UntypedWords, field. by rewrite Z.shiftr_0_r. Qed.
Lemma typed_kernel t : n_typed t = L4_TypedWords t.
Proof. done. Qed.

(** ** Messages *)

(** The message holds the untyped words [us] and the typed words [ts]. *)
Definition msg_view (m : L4_Msg_t) (us ts : list Z) : Prop :=
  exists tag rest, m = tag :: us ++ ts ++ rest /\ length m = 16%nat /\ is_u32 tag /\
    L4_UntypedWords tag = Z.of_nat (length us) /\ L4_TypedWords tag = Z.of_nat (length ts).

Lemma msg_get_ok m i w : m !! i = Some w -> msg_get (Z.of_nat i) m = Done (w, m).
Proof. intros H. unfold msg_get. by rewrite zlookup_nat, H. Qed.

Lemma msg_put_ok m i w : (i < length m)%nat -> msg_put (Z.of_nat i) w m = Done (tt, <[i := w]> m).
Proof. intros H. unfold msg_put. rewrite zinsert_Some by lia. by rewrite Nat2Z.id. Qed.

Lemma insert_cons_S {A} (x w : A) l i : <[S i := w]> (x :: l) = x :: <[i := w]> l.
Proof. done. Qed.

Lemma msg_tag tag l : msg_get 0 (tag :: l) = Done (tag, tag :: l).
Proof. done. Qed.

Lemma get_words_ok (ws : list Z) : forall (i : nat) o pre post m, m = pre ++ ws ++ post -> Z.of_nat i + o = Z.of_nat (length pre) ->
  get_words (length ws) (Z.of_nat i) o m = Done (ws, m).
Proof.
  induction ws as [|w ws IH]; intros i o pre post m Hm Hi; [done|]. cbn [get_words length]. rewrite Hi.
  rewrite (bind_Done _ _ _ _ _ (msg_get_ok m (length pre) w ltac:(rewrite Hm; cbn [app]; by apply list_lookup_middle))).
  replace (Z.of_nat i + 1) with (Z.of_nat (S i)) by lia. rewrite (bind_Done _ _ _ _ _ (IH (S i) o (pre ++ [w]) post m ltac:(by rewrite Hm, <- app_assoc) ltac:(rewrite length_app; cbn; lia))).
  done.
Qed.

Lemma put_words_ok (ws : list Z) : forall (i : nat) o pre old post, length old = length ws -> Z.of_nat i + o = Z.of_nat (length pre) ->
  put_words (length ws) (Z.of_nat i) o ws (pre ++ old ++ post) = Done (tt, pre ++ ws ++ post).
Proof.
  induction ws as [|w ws IH]; intros i o pre old post Ho Hi; (destruct old as [|x old]; [|]; try done). cbn [put_words length app]. rewrite Hi.
  rewrite (bind_Done _ _ _ _ _ (msg_put_ok (pre ++ x :: old ++ post) (length pre) w ltac:(rewrite length_app; cbn; lia))).
  replace (<[length pre := w]> (pre ++ x :: old ++ post)) with ((pre ++ [w]) ++ old ++ post) by (rewrite <- app_assoc; by rewrite insert_app_r_alt, Nat.sub_diag by lia).
  replace (Z.of_nat i + 1) with (Z.of_nat (S i)) by lia. rewrite (IH (S i) o (pre ++ [w]) old post); [by rewrite <- app_assoc|by injection Ho|rewrite length_app; cbn; lia].
Qed.

Lemma msg_head m us ts : msg_view m us ts -> exists tag, msg_get 0 m = Done (tag, m) /\ is_u32 tag /\ m !! 0%nat = Some tag /\
  L4_UntypedWords tag = Z.of_nat (length us) /\ L4_TypedWords tag = Z.of_nat (length ts).
Proof.
  intros (tag & rest & -> & Hl & Hu & H1 & H2). exists tag. done.
Qed.

Lemma L4_MsgGet_ok m us ts : msg_view m us ts -> L4_MsgGet m = Done ((us, ts), m).
Proof.
  intros (tag & rest & Hm & Hl & Hu & H1 & H2). unfold L4_MsgGet.
  rewrite (bind_Done _ _ _ _ _ (msg_get_ok m 0 tag ltac:(by rewrite Hm))). rewrite H1, H2, !Nat2Z.id.
  rewrite (bind_Done _ _ _ _ _ (get_words_ok us 0 1 [tag] (ts ++ rest) m Hm eq_refl)).
  rewrite (bind_Done _ _ _ _ _ (get_words_ok ts 0 (1 + Z.of_nat (length us)) (tag :: us) rest m ltac:(by rewrite Hm, <- app_comm_cons) ltac:(cbn; lia))). done.
Qed.

Lemma L4_MsgPut_ok label us ts m : length m = 16%nat -> Forall is_u32 m -> (length us + length ts < 16)%nat -> 0 <= label < 65536 ->
  exists m' tag, L4_MsgPut label (Z.of_nat (length us)) us (Z.of_nat (length ts)) ts m = Done (tt, m') /\ msg_view m' us ts /\ m' !! 0%nat = Some tag /\ L4_Label tag = label.
Proof.
  intros Hl Hu Hn Hlab. destruct m as [|tag m]; [done|]. apply Forall_cons in Hu as [Hu _]. cbn in Hl.
  unfold L4_MsgPut. rewrite !Nat2Z.id.
  pose (old1 := take (length us) m). pose (old2 := take (length ts) (drop (length us) m)). pose (rest := drop (length ts) (drop (length us) m)).
  assert (Hm : tag :: m = [tag] ++ old1 ++ (old2 ++ rest)) by (unfold old1, old2, rest; cbn; by rewrite take_drop, take_drop). rewrite Hm.
  rewrite (bind_Done _ _ _ _ _ (put_words_ok us 0 1 [tag] old1 (old2 ++ rest) ltac:(unfold old1; rewrite length_take; lia) eq_refl)).
  replace ([tag] ++ us ++ old2 ++ rest) with ((tag :: us) ++ old2 ++ rest) by done.
  rewrite (bind_Done _ _ _ _ _ (put_words_ok ts 0 (Z.of_nat (length us) + 1) (tag :: us) old2 rest ltac:(unfold old2; rewrite length_take, length_drop; lia) ltac:(cbn; lia))).
  cbn [app]. rewrite (bind_Done _ _ _ _ _ (msg_get_ok (tag :: us ++ ts ++ rest) 0 tag eq_refl)).
  destruct (tag_fields tag label (Z.of_nat (length us)) (Z.of_nat (length ts)) Hu ltac:(lia) ltac:(lia) Hlab) as (F1 & F2 & F3 & F4).
  set (tag' := put_bits _ 6 6 _) in *. exists (tag' :: us ++ ts ++ rest), tag'. split; [exact (msg_put_ok (tag :: us ++ ts ++ rest) 0 tag' ltac:(cbn; lia))|].
  split; [|done]. exists tag', rest. split; [done|]. split; [|done]. cbn. rewrite !length_app. unfold rest. rewrite !length_drop. lia.
Qed.

(** ** Appending *)

Lemma shift_words_ok pre ts : forall x rest, exists g, shift_words (length ts) (Z.of_nat (length pre + length ts)) (pre ++ ts ++ x :: rest) = Done (tt, pre ++ g :: ts ++ rest).
Proof.
  induction ts as [|y ts IH] using rev_ind; intros x rest; [by exists x|]. rewrite length_app. cbn [length]. rewrite Nat.add_1_r. cbn [shift_words].
  set (m := pre ++ (ts ++ [y]) ++ x :: rest). assert (Em : m = (pre ++ ts) ++ y :: x :: rest) by (unfold m; by rewrite <- !app_assoc).
  replace (Z.of_nat (length pre + S (length ts)) - 1) with (Z.of_nat (length (pre ++ ts))) by (rewrite length_app; lia).
  rewrite (bind_Done _ _ _ _ _ (msg_get_ok m (length (pre ++ ts)) y ltac:(rewrite Em; by apply list_lookup_middle))).
  assert (Hlt : (length pre + S (length ts) < length m)%nat) by (rewrite Em, !length_app; cbn; lia).
  rewrite (bind_Done _ _ _ _ _ (msg_put_ok m (length pre + S (length ts)) y Hlt)).
  replace (<[(length pre + S (length ts))%nat := y]> m) with (pre ++ ts ++ y :: y :: rest).
  - rewrite length_app. destruct (IH y (y :: rest)) as (g & E). exists g. rewrite E. by rewrite <- (app_assoc ts).
  - rewrite Em. rewrite insert_app_r_alt by (rewrite length_app; lia). rewrite length_app. replace (length pre + S (length ts) - (length pre + length ts))%nat with 1%nat by lia.
    cbn. by rewrite <- app_assoc.
Qed.

(** A word is appended behind the untyped words, and the typed words move. *)
Lemma L4_MsgAppendWord_ok m us ts w : msg_view m us ts -> (length us + length ts < 15)%nat ->
  exists m', L4_MsgAppendWord w m = Done (tt, m') /\ msg_view m' (us ++ [w]) ts.
Proof.
  intros (tag & rest & -> & Hl & Hu & H1 & H2) Hn. cbn in Hl. rewrite !length_app in Hl. destruct rest as [|x rest]; [cbn in Hl; lia|].
  unfold L4_MsgAppendWord. rewrite (bind_Done _ _ _ _ _ (msg_tag tag _)). rewrite H1, H2.
  destruct (shift_words_ok (tag :: us) ts x rest) as (g & Es).
  assert (Ew : when (truth (Z.of_nat (length ts))) (shift_words (Z.to_nat (Z.of_nat (length ts))) (1 + Z.of_nat (length us) + Z.of_nat (length ts))) (tag :: us ++ ts ++ x :: rest) =
               Done (tt, tag :: us ++ (match ts with [] => x | _ => g end) :: ts ++ rest)).
  { unfold when, truth. destruct ts as [|y ts']; [done|]. destruct (Z.eqb_spec (Z.of_nat (length (y :: ts'))) 0); [cbn in *; lia|]. cbn [negb].
    rewrite Nat2Z.id. replace (1 + Z.of_nat (length us) + Z.of_nat (length (y :: ts'))) with (Z.of_nat (length (tag :: us) + length (y :: ts'))) by (cbn [length]; lia). exact Es. }
  rewrite (bind_Done _ _ _ _ _ Ew). clear Ew Es. set (h := match ts with [] => x | _ => g end).
  rewrite (bind_Done _ _ _ _ _ (msg_get_ok (tag :: us ++ h :: ts ++ rest) 0 tag eq_refl)). rewrite H1. set (tag' := put_bits tag 0 6 _).
  rewrite (bind_Done _ _ _ _ _ (msg_put_ok (tag :: us ++ h :: ts ++ rest) 0 tag' ltac:(cbn; lia))). change (<[0%nat := tag']> (tag :: us ++ h :: ts ++ rest)) with (tag' :: us ++ h :: ts ++ rest).
  assert (F1 : L4_UntypedWords tag' = Z.of_nat (S (length us))).
  { unfold tag', L4_UntypedWords. rewrite field_put_same by (done || lia). rewrite Z.mod_small; [lia|]. change (2 ^ 6) with 64. lia. }
  assert (F2 : L4_TypedWords tag' = Z.of_nat (length ts)) by (unfold tag', L4_TypedWords; rewrite field_put_other by (done || lia); exact H2).
  rewrite F1, (msg_put_ok _ (S (length us)) w) by (cbn; rewrite !length_app; cbn; lia). eexists. split; [reflexivity|].
  exists tag', rest. split; [rewrite insert_cons_S, insert_app_r_alt, Nat.sub_diag, <- app_assoc by lia; done|]. split; [rewrite length_insert; cbn; rewrite !length_app; cbn; rewrite length_app; cbn in Hl; lia|].
  split; [by apply put_bits_u32|]. split; [rewrite length_app; cbn; lia|done].
Qed.

(** An item is appended behind the typed words. *)
Lemma append_item_ok m us ts r0 r1 : msg_view m us ts -> (length us + length ts < 14)%nat ->
  exists m', append_item r0 r1 m = Done (tt, m') /\ msg_view m' us (ts ++ [r0; r1]).
Proof.
  intros (tag & rest & -> & Hl & Hu & H1 & H2) Hn. cbn in Hl. rewrite !length_app in Hl. destruct rest as [|x [|y rest]]; [cbn in Hl; lia|cbn in Hl; lia|].
  unfold append_item. rewrite (bind_Done _ _ _ _ _ (msg_tag tag _)). rewrite H1, H2.
  replace (Z.of_nat (length us) + Z.of_nat (length ts) + 1) with (Z.of_nat (length (tag :: us ++ ts))) by (cbn; rewrite length_app; lia).
  assert (E1 : <[length (tag :: us ++ ts) := r0]> (tag :: us ++ ts ++ x :: y :: rest) = tag :: us ++ ts ++ r0 :: y :: rest).
  { change (length (tag :: us ++ ts)) with (S (length (us ++ ts))). rewrite insert_cons_S, !(app_assoc us ts), insert_app_r_alt, Nat.sub_diag by lia. done. }
  rewrite (bind_Done _ _ _ _ _ (msg_put_ok (tag :: us ++ ts ++ x :: y :: rest) (length (tag :: us ++ ts)) r0 ltac:(cbn; rewrite !length_app; cbn; lia))), E1.
  rewrite (bind_Done _ _ _ _ _ (msg_get_ok (tag :: us ++ ts ++ r0 :: y :: rest) 0 tag eq_refl)). rewrite H1, H2.
  replace (Z.of_nat (length us) + Z.of_nat (length ts) + 2) with (Z.of_nat (S (length (tag :: us ++ ts)))) by (cbn; rewrite length_app; lia).
  assert (E2 : <[S (length (tag :: us ++ ts)) := r1]> (tag :: us ++ ts ++ r0 :: y :: rest) = tag :: us ++ ts ++ r0 :: r1 :: rest).
  { change (length (tag :: us ++ ts)) with (S (length (us ++ ts))). rewrite insert_cons_S, !(app_assoc us ts), insert_app_r_alt by lia. replace (S (length (us ++ ts)) - length (us ++ ts))%nat with 1%nat by lia. done. }
  rewrite (bind_Done _ _ _ _ _ (msg_put_ok (tag :: us ++ ts ++ r0 :: y :: rest) (S (length (tag :: us ++ ts))) r1 ltac:(cbn; rewrite !length_app; cbn; lia))), E2.
  rewrite (bind_Done _ _ _ _ _ (msg_get_ok (tag :: us ++ ts ++ r0 :: r1 :: rest) 0 tag eq_refl)). rewrite H2. set (tag' := put_bits tag 6 6 _).
  rewrite (msg_put_ok _ 0 tag') by (cbn; lia). eexists. split; [reflexivity|]. exists tag', rest. split; [cbn; by rewrite <- app_assoc|].
  split; [cbn; rewrite !length_app; cbn; cbn in Hl; lia|]. split; [by apply put_bits_u32|]. split.
  - unfold tag', L4_UntypedWords. rewrite field_put_other by (done || lia). exact H1.
  - unfold tag', L4_TypedWords. rewrite field_put_same by (done || lia). rewrite Z.mod_small; [rewrite length_app; cbn; lia|]. change (2 ^ 6) with 64. lia.
Qed.

(** ** Virtual registers *)

Definition vr_ok (v : vregs) : Prop := length (v_regs v) = 8%nat /\ length (v_mr v) = 8%nat.
(** The sixteen message registers. *)
Definition vr_words (v : vregs) : list Z := v_regs v ++ v_mr v.

Lemma put_reg_ok v pre x post w : v_regs v = pre ++ x :: post -> put_reg (Z.of_nat (length pre)) w v = Done (tt, mk_vregs (pre ++ w :: post) (v_mr v) (v_br v)).
Proof.
  intros H. unfold put_reg. rewrite H, zinsert_Some by (rewrite length_app; cbn; lia). by rewrite Nat2Z.id, insert_app_r_alt, Nat.sub_diag by lia.
Qed.

Lemma put_mr_ok v pre x post w : v_mr v = pre ++ x :: post -> put_mr (Z.of_nat (length pre)) w v = Done (tt, mk_vregs (v_regs v) (pre ++ w :: post) (v_br v)).
Proof.
  intros H. unfold put_mr. rewrite H, zinsert_Some by (rewrite length_app; cbn; lia). by rewrite Nat2Z.id, insert_app_r_alt, Nat.sub_diag by lia.
Qed.

Lemma load_block_ok k : forall pre old ws v, v_mr v = pre ++ old -> (k <= length old)%nat -> (k <= length ws)%nat ->
  load_block k (Z.of_nat (length pre)) ws v = Done (tt, mk_vregs (v_regs v) (pre ++ take k ws ++ drop k old) (v_br v)).
Proof.
  induction k as [|k IH]; intros pre old ws v Hv Ho Hw; cbn [load_block]; [rewrite take_0, drop_0; cbn [app]; rewrite <- Hv; by destruct v|].
  destruct old as [|x old]; [cbn in Ho; lia|]. destruct ws as [|w ws]; [cbn in Hw; lia|]. cbn in Ho, Hw.
  rewrite (bind_Done _ _ _ _ _ (put_mr_ok v pre x old w Hv)).
  replace (Z.of_nat (length pre) + 1) with (Z.of_nat (length (pre ++ [w]))) by (rewrite length_app; cbn; lia).
  rewrite (IH (pre ++ [w]) old ws); [|cbn; by rewrite <- app_assoc|lia|lia]. cbn. by rewrite <- app_assoc.
Qed.

Lemma load_cases_ok n : forall (k : nat) pre old ws v, v_regs v = pre ++ old -> length old = n -> (1 <= k)%nat -> (k <= n + length (v_mr v))%nat -> (k <= length ws)%nat ->
  exists old' mr', load_cases n (Z.of_nat (length pre)) (Z.of_nat k) ws v = Done (tt, mk_vregs (pre ++ old') mr' (v_br v)) /\
    length old' = n /\ old' ++ mr' = take k ws ++ drop k (old ++ v_mr v).
Proof.
  induction n as [|n IH]; intros k pre old ws v Hv Ho Hk1 Hk Hw; cbn [load_cases].
  - destruct old; [|done]. rewrite Nat2Z.id. pose proof (load_block_ok k [] (v_mr v) ws v eq_refl ltac:(lia) Hw) as E. cbn [length app] in E. change (Z.of_nat 0) with 0 in E.
    exists [], (take k ws ++ drop k (v_mr v)). rewrite E. rewrite app_nil_r in Hv. rewrite Hv. split; [by rewrite app_nil_r|done].
  - destruct old as [|x old]; [done|]. injection Ho as Ho. destruct ws as [|w ws]; [cbn in Hw; lia|]. cbn in Hw.
    rewrite (bind_Done _ _ _ _ _ (put_reg_ok v pre x old w Hv)). destruct (Z.leb_spec (Z.of_nat k - 1) 0).
    + assert (k = 1%nat) as -> by lia. exists (w :: old), (v_mr v). split; [done|]. split; [cbn; lia|done].
    + set (v1 := mk_vregs _ _ _). destruct (IH (k - 1)%nat (pre ++ [w]) old ws v1) as (old' & mr' & E & Hl & Ha); [unfold v1; cbn; by rewrite <- app_assoc|done|lia|cbn; lia|lia|].
      replace (Z.of_nat (length pre) + 1) with (Z.of_nat (length (pre ++ [w]))) by (rewrite length_app; cbn; lia).
      replace (Z.of_nat k - 1) with (Z.of_nat (k - 1)) by lia. rewrite E. exists (w :: old'), mr'. split; [by rewrite <- app_assoc|]. split; [cbn; lia|].
      destruct k as [|k]; [lia|]. cbn. f_equal. rewrite Ha. by replace (S k - 1)%nat with k by lia.
Qed.

(** [L4_MsgLoad] puts the words of the message that the tag announces into the registers. *)
Lemma L4_MsgLoad_ok v m us ts : vr_ok v -> msg_view m us ts -> exists v', L4_MsgLoad m v = Done (tt, v') /\ vr_ok v' /\
  vr_words v' = take (S (length us + length ts)) m ++ drop (S (length us + length ts)) (vr_words v).
Proof.
  intros [H8 H8'] (tag & rest & Hm & Hl & Hu & H1 & H2). unfold L4_MsgLoad. rewrite Hm. rewrite H1, H2. set (k := S (length us + length ts)).
  assert (Hk : (k <= 16)%nat) by (unfold k; rewrite <- Hl, Hm; cbn; rewrite !length_app; lia).
  replace (Z.of_nat (length us) + Z.of_nat (length ts) + 1) with (Z.of_nat k) by lia. unfold L4_LoadMRs, __L4_NUM_MRS.
  destruct (Z.ltb_spec 0 0); [lia|]. destruct (Z.leb_spec (Z.of_nat k) 0); [lia|]. destruct (Z.gtb_spec (0 + Z.of_nat k) 16); [lia|]. cbn [orb].
  rewrite <- Hm. destruct (load_cases_ok 8 k [] (v_regs v) m v eq_refl H8 ltac:(lia) ltac:(lia) ltac:(lia)) as (old' & mr' & E & Hlo & Ha).
  exists (mk_vregs old' mr' (v_br v)). split; [exact E|]. assert (Hlen : length (old' ++ mr') = 16%nat).
  { rewrite Ha, length_app, length_take, length_drop, length_app. lia. }
  split; [split; [done|]; cbn; rewrite length_app in Hlen; lia|]. exact Ha.
Qed.

Lemma store_block_ok k : forall pre post v, v_mr v = pre ++ post -> (k <= length post)%nat -> store_block k (Z.of_nat (length pre)) v = Done (take k post, v).
Proof.
  induction k as [|k IH]; intros pre post v Hv Hk; cbn [store_block]; [done|]. destruct post as [|x post]; [cbn in Hk; lia|]. cbn in Hk.
  assert (Eg : get_mr (Z.of_nat (length pre)) v = Done (x, v)) by (unfold get_mr; rewrite zlookup_nat, Hv; by rewrite list_lookup_middle).
  rewrite (bind_Done _ _ _ _ _ Eg). replace (Z.of_nat (length pre) + 1) with (Z.of_nat (length (pre ++ [x]))) by (rewrite length_app; cbn; lia).
  rewrite (bind_Done _ _ _ _ _ (IH (pre ++ [x]) post v ltac:(by rewrite Hv, <- app_assoc) ltac:(lia))). done.
Qed.

Lemma store_cases_ok n : forall (k : nat) pre post v, v_regs v = pre ++ post -> length post = n -> (1 <= k)%nat -> (k <= n + length (v_mr v))%nat ->
  store_cases n (Z.of_nat (length pre)) (Z.of_nat k) v = Done (take k (post ++ v_mr v), v).
Proof.
  induction n as [|n IH]; intros k pre post v Hv Hp Hk1 Hk; cbn [store_cases].
  - destruct post; [|done]. rewrite Nat2Z.id. exact (store_block_ok k [] (v_mr v) v eq_refl ltac:(lia)).
  - destruct post as [|x post]; [done|]. injection Hp as Hp.
    assert (Eg : get_reg (Z.of_nat (length pre)) v = Done (x, v)) by (unfold get_reg; rewrite zlookup_nat, Hv; by rewrite list_lookup_middle).
    rewrite (bind_Done _ _ _ _ _ Eg). destruct (Z.leb_spec (Z.of_nat k - 1) 0); [assert (k = 1%nat) as -> by lia; done|].
    replace (Z.of_nat (length pre) + 1) with (Z.of_nat (length (pre ++ [x]))) by (rewrite length_app; cbn; lia). replace (Z.of_nat k - 1) with (Z.of_nat (k - 1)) by lia.
    rewrite (bind_Done _ _ _ _ _ (IH (k - 1)%nat (pre ++ [x]) post v ltac:(by rewrite Hv, <- app_assoc) Hp ltac:(lia) ltac:(lia))).
    destruct k as [|k]; [lia|]. cbn. by replace (k - 0)%nat with k by lia.
Qed.

(** [L4_MsgStore] with the tag of the registers stores the words of the registers. *)
Lemma L4_MsgStore_ok v m tag us ts rest : vr_ok v -> length m = 16%nat -> vr_words v = tag :: us ++ ts ++ rest -> is_u32 tag ->
  L4_UntypedWords tag = Z.of_nat (length us) -> L4_TypedWords tag = Z.of_nat (length ts) ->
  exists m', (t ← L4_MsgTag; L4_MsgStore t m) v = Done (m', v) /\ msg_view m' us ts /\ m' !! 0%nat = Some tag.
Proof.
  intros [H8 H8'] Hm Hw Hu H1 H2. destruct v as [regs mr br]. cbn in *. destruct regs as [|r regs]; [done|]. unfold vr_words in Hw. cbn in Hw. injection Hw as -> Hw. injection H8 as H8.
  assert (Et : L4_MsgTag (mk_vregs (tag :: regs) mr br) = Done (tag, mk_vregs (tag :: regs) mr br)) by done.
  rewrite (bind_Done _ _ _ _ _ Et). unfold L4_MsgStore. rewrite H1, H2. destruct m as [|x m]; [done|]. injection Hm as Hm.
  assert (Hlen : (length us + length ts + length rest = 15)%nat).
  { assert (E : length (regs ++ mr) = 15%nat) by (rewrite length_app; lia). rewrite Hw, !length_app in E. lia. }
  unfold L4_StoreMRs, __L4_NUM_MRS. set (k := (length us + length ts)%nat). replace (Z.of_nat (length us) + Z.of_nat (length ts)) with (Z.of_nat k) by lia.
  destruct (Z.ltb_spec 1 0); [lia|]. destruct (Z.gtb_spec (1 + Z.of_nat k) 16); [lia|]. destruct (Z.leb_spec (Z.of_nat k) 0) as [Hk|Hk]; cbn [orb].
  - rewrite (bind_Done (mret None) _ _ None _ eq_refl). eexists. split; [reflexivity|]. split; [|done]. destruct us; [|cbn in *; lia]. destruct ts; [|cbn in *; lia].
    exists tag, m. split; [done|]. split; [cbn; lia|]. done.
  - pose proof (store_cases_ok 7 k [tag] regs (mk_vregs (tag :: regs) mr br) eq_refl H8 ltac:(lia) ltac:(cbn; lia)) as E.
    change (Z.of_nat (length [tag])) with 1 in E. cbn [v_mr] in E. rewrite Hw in E. rewrite app_assoc, take_app_length' in E by (rewrite length_app; lia).
    assert (Es : (ws ← store_cases 7 1 (Z.of_nat k); mret (Some ws)) (mk_vregs (tag :: regs) mr br) = Done (Some (us ++ ts), mk_vregs (tag :: regs) mr br))
      by (by rewrite (bind_Done _ _ _ _ _ E)).
    change (Z.to_nat (8 - 1)) with 7%nat. rewrite (bind_Done _ _ _ _ _ Es).
    destruct (Nat.leb_spec (length (us ++ ts)) (length m)); [|rewrite length_app in *; lia]. eexists. split; [reflexivity|].
    split; [|done]. exists tag, (drop (length (us ++ ts)) m). split; [by rewrite <- app_assoc|]. split; [|done]. cbn. rewrite !length_app, length_drop. lia.
Qed.

(** From register 9 on, the loops start at register 8 all the same: [L4_StoreMR] gives
    register 9, [L4_StoreMRs] register 8. *)
Example store_registers_high : let v := mk_vregs (replicate 8 0) [8; 9; 10; 11; 12; 13; 14; 15] [] in
  L4_StoreMR 9 v = Done (9, v) /\ L4_StoreMRs 9 1 v = Done (Some [8], v).
Proof. split; reflexivity. Qed.

(** ** Identifiers and times *)

(** The number the kernel takes from an identifier is the one the library put in it. *)
Lemma L4_GlobalId_kernel w n v : is_u32 w -> 0 <= n < 2 ^ 18 -> 0 <= v < 2 ^ 14 ->
  GLOBALID_TO_TID (L4_GlobalId w n v) = n /\ L4_Version (L4_GlobalId w n v) = v.
Proof.
  intros Hw Hn Hv. unfold L4_GlobalId, L4_Version. assert (H1 := put_bits_u32 w 14 18 n Hw). assert (H2 := put_bits_u32 _ 0 14 v H1). split.
  - assert (E : GLOBALID_TO_TID (put_bits (put_bits w 14 18 n) 0 14 v) = field (put_bits (put_bits w 14 18 n) 0 14 v) 14 18).
    { unfold GLOBALID_TO_TID, field. rewrite Z.land_ones by lia. rewrite Z.mod_small; [done|]. rewrite Z.shiftr_div_pow2 by lia.
      unfold is_u32 in H2. change u32_modulus with 4294967296 in H2. change (2 ^ 14) with 16384. change (2 ^ 18) with 262144. split; [apply Z.div_pos; lia|]. apply Z.div_lt_upper_bound; lia. }
    rewrite E, field_put_other, field_put_same by (done || lia). by apply Z.mod_small.
  - rewrite field_put_same by (done || lia). by apply Z.mod_small.
Qed.

Lemma normalise_ok fuel : forall man e, 0 <= man < 2 ^ (Z.of_nat fuel + 10) ->
  let '(m, e') := normalise fuel man e in
  0 <= m < 1024 /\ e <= e' <= e + Z.of_nat fuel /\ m * 2 ^ (e' - e) <= man < (m + 1) * 2 ^ (e' - e) /\ (e < e' -> 512 <= m).
Proof.
  induction fuel as [|fuel IH]; intros man e H; cbn [normalise].
  - change (2 ^ (Z.of_nat 0 + 10)) with 1024 in H. rewrite Z.sub_diag. lia.
  - rewrite Z.geb_leb. destruct (Z.leb_spec 1024 man); [|rewrite Z.sub_diag; lia].
    rewrite Z.shiftr_div_pow2 by lia. change (2 ^ 1) with 2.
    assert (Hq : 0 <= man / 2 < 2 ^ (Z.of_nat fuel + 10)).
    { split; [apply Z.div_pos; lia|]. apply Z.div_lt_upper_bound; [lia|]. replace (Z.of_nat (S fuel) + 10) with (1 + (Z.of_nat fuel + 10)) in H by lia. rewrite Z.pow_add_r in H by lia. lia. }
    specialize (IH (man / 2) (e + 1) Hq). destruct (normalise fuel (man / 2) (e + 1)) as [m e']. destruct IH as (H1 & H2 & H3 & H4).
    replace (e' - e) with (1 + (e' - (e + 1))) by lia. rewrite Z.pow_add_r by lia. change (2 ^ 1) with 2. set (p := 2 ^ (e' - (e + 1))) in *.
    split; [done|]. split; [lia|]. split; [Z.div_mod_to_equations; nia|]. intros _.
    destruct (Z.eq_dec e' (e + 1)) as [->|]; [|apply H4; lia]. unfold p in H3. rewrite Z.sub_diag in H3. Z.div_mod_to_equations. lia.
Qed.

(** The time of a number of microseconds that fits a word is the largest time of the format
    that is not longer. *)
Lemma L4_TimePeriod_ok us : is_u32 us ->
  let w := L4_TimePeriod us in
  let m := field w 0 10 in
  let e := field w 10 5 in
  m * 2 ^ e <= us < (m + 1) * 2 ^ e /\ (0 < e -> 512 <= m).
Proof.
  intros Hu w m e. assert (Ew : w = L4_TimePeriod us) by done. clearbody w. unfold L4_TimePeriod in Ew. rewrite (wrap32_small us Hu) in Ew. unfold is_u32 in Hu. change u32_modulus with 4294967296 in Hu.
  pose proof (normalise_ok 22 us 0 ltac:(change (2 ^ (Z.of_nat 22 + 10)) with 4294967296; lia)) as H.
  assert (E : normalise 32 us 0 = normalise 22 us 0).
  { clear Ew m e H. assert (G : forall k a x y, 0 <= x < 2 ^ (Z.of_nat k + 10) -> normalise (k + a) x y = normalise k x y).
    { intros k. induction k as [|k IH]; intros a x y Hx; cbn [normalise Nat.add].
      - change (2 ^ (Z.of_nat 0 + 10)) with 1024 in Hx. destruct a; [done|]. cbn [normalise]. rewrite Z.geb_leb. by destruct (Z.leb_spec 1024 x); [lia|].
      - destruct (x >=? 1024); [|done]. apply IH. rewrite Z.shiftr_div_pow2 by lia. change (2 ^ 1) with 2. split; [apply Z.div_pos; lia|].
        apply Z.div_lt_upper_bound; [lia|]. replace (Z.of_nat (S k) + 10) with (1 + (Z.of_nat k + 10)) in Hx by lia. rewrite Z.pow_add_r in Hx by lia. lia. }
    apply (G 22%nat 10%nat). change (2 ^ (Z.of_nat 22 + 10)) with 4294967296. lia. }
  rewrite E in Ew. destruct (normalise 22 us 0) as [man l4_exp]. destruct H as (H1 & H2 & H3 & H4). rewrite !Z.sub_0_r in H3.
  destruct (Z.leb_spec l4_exp 31); [|lia].
  assert (is_u32 0) by done. assert (Hp := put_bits_u32 0 0 10 man ltac:(done)).
  assert (Em : m = man). { unfold m. rewrite Ew. rewrite field_put_other, field_put_same by (done || lia). apply Z.mod_small. change (2 ^ 10) with 1024. lia. }
  assert (Ee : e = l4_exp). { unfold e. rewrite Ew. rewrite field_put_same by (done || lia). apply Z.mod_small. change (2 ^ 5) with 32. lia. }
  cbv zeta. fold m e. rewrite Em, Ee. split; [exact H3|]. intros. apply H4. lia.
Qed.

Lemma try_exponents_ok us k : forall fuel e, (0 < k <= fuel)%nat -> 0 <= e -> e + Z.of_nat k <= 22 -> 0 <= us < 2 ^ (e + Z.of_nat k + 9) ->
  exists man x, normalise fuel (Z.shiftr us e) e = (man, x) /\ x <= 21 /\ try_exponents k (e + 10) us = put_bits (put_bits 0 0 10 man) 10 5 x.
Proof.
  induction k as [|k IH]; intros [|fuel] e Hk He Hb Hu; try lia. cbn [try_exponents normalise].
  assert (Es : shl32 1 (e + 10) = 2 ^ (e + 10)).
  { unfold shl32. rewrite Z.shiftl_1_l. apply wrap32_small. unfold is_u32. change u32_modulus with (2 ^ 32). split; [|apply Z.pow_lt_mono_r]; lia. }
  assert (Hp : 2 ^ (e + 10) = 2 ^ e * 1024) by (by rewrite Z.pow_add_r by lia). pose proof (Z.pow_pos_nonneg 2 e ltac:(lia) He).
  rewrite Es, Z.geb_leb, (Z.shiftr_div_pow2 us e) by lia.
  destruct (Z.ltb_spec us (2 ^ (e + 10))) as [Hlt|Hge].
  - exists (us / 2 ^ e), e. replace (e + 10 - 10) with e by lia. rewrite (Z.shiftr_div_pow2 us e) by lia.
    destruct (Z.leb_spec 1024 (us / 2 ^ e)) as [H'|_]; [|split; [done|split; [lia|done]]]. exfalso.
    assert (us / 2 ^ e < 1024) by (apply Z.div_lt_upper_bound; lia). lia.
  - destruct (Z.leb_spec 1024 (us / 2 ^ e)) as [_|H']; [|exfalso; assert (1024 <= us / 2 ^ e) by (apply Z.div_le_lower_bound; lia); lia].
    destruct k as [|k]; [exfalso; replace (e + Z.of_nat 1 + 9) with (e + 10) in Hu by lia; lia|].
    destruct (IH fuel (e + 1)) as (man & x & E & Hx & Et); [lia..|by replace (e + 1 + Z.of_nat (S k) + 9) with (e + Z.of_nat (S (S k)) + 9) by lia|].
    exists man, x. replace (e + 10 + 1) with (e + 1 + 10) by lia. split; [|done]. rewrite <- E. f_equal.
    rewrite !Z.shiftr_div_pow2 by lia. by rewrite Z.div_div, <- Z.pow_add_r by lia.
Qed.

(** The branch for constants and the one for other numbers give the same time, up to 2^31. *)
Theorem L4_TimePeriod_branches us : 0 <= us < 2 ^ 31 -> L4_TimePeriod_constant us = L4_TimePeriod us.
Proof.
  intros Hu. destruct (try_exponents_ok us 22 32 0) as (man & x & E & Hx & Et); [lia..|done|]. rewrite Z.shiftr_0_r in E.
  unfold L4_TimePeriod, L4_TimePeriod_constant. rewrite wrap32_small by (unfold is_u32, u32_modulus; lia). rewrite E. change (0 + 10) with 10 in Et. rewrite Et.
  by destruct (Z.leb_spec x 31); [|lia].
Qed.

(** Above, they differ: the constant never ends, and the other number is a time. *)
Theorem L4_TimePeriod_branches_differ : L4_TimePeriod_constant (2 ^ 31) = L4_Never /\ L4_TimePeriod (2 ^ 31) <> L4_Never.
Proof. by vm_compute. Qed.

(** ** From object to object *)

(** The virtual registers of a thread whose context the kernel has saved. *)
Definition thread_vregs (t : tcb) (u : utcb) : vregs := mk_vregs (c_regs (t_ctx t)) (u_mr u) (u_br u).

Lemma thread_vregs_words t u : vr_words (thread_vregs t u) = message t u.
Proof. done. Qed.

(** What [L4_MsgLoad] leaves in the registers of the sender. *)
Lemma loaded_message m us v f uf : vr_ok v -> msg_view m us [] -> L4_MsgLoad m v = Done (tt, thread_vregs f uf) ->
  exists tag rest, message f uf = tag :: us ++ rest /\ m !! 0%nat = Some tag /\ is_u32 tag /\ n_untyped tag = Z.of_nat (length us) /\ n_typed tag = 0 /\ (length us < 16)%nat.
Proof.
  intros Hv Hm Hl. destruct (L4_MsgLoad_ok _ _ _ _ Hv Hm) as (v' & E & _ & Ew). rewrite E in Hl. injection Hl as ->. rewrite thread_vregs_words in Ew.
  destruct Hm as (tag & rest & -> & Hlen & Hu & H1 & H2). cbn in Hlen. rewrite length_app in Hlen.
  eexists tag, _. split; [rewrite Ew; cbn [length take app]; rewrite Nat.add_0_r, take_app_length; reflexivity|].
  rewrite untyped_kernel, typed_kernel. split; [done|]. split; [done|]. split; [done|]. split; [exact H2|lia].
Qed.

Lemma delivered_message f uf t u tag us rest : message f uf = tag :: us ++ rest -> n_untyped tag = Z.of_nat (length us) ->
  delivered f uf t u = tag :: us ++ drop (S (length us)) (message t u).
Proof.
  intros E H. unfold delivered. rewrite E. change (default 0 (head (tag :: us ++ rest))) with tag. rewrite H, Nat2Z.id. cbn [take app]. by rewrite take_app_length.
Qed.

(** The transfer of a loaded message: the registers of the receiver. *)
Lemma transfer_ok s from to recv f t uf u m us v : vr_ok v -> msg_view m us [] -> L4_MsgLoad m v = Done (tt, thread_vregs f uf) -> partners s from to f t uf u recv ->
  exists s' t' u' tag, do_ipc from to s = Done (tt, s') /\ has_message (k_thr s') to t' u' /\ vr_ok (thread_vregs t' u') /\
    vr_words (thread_vregs t' u') = tag :: us ++ drop (S (length us)) (message t u) /\ m !! 0%nat = Some tag /\ is_u32 tag /\
    L4_UntypedWords tag = Z.of_nat (length us) /\ L4_TypedWords tag = 0 /\ (length us < 16)%nat.
Proof.
  intros Hv Hview Hload Hp. destruct (loaded_message m us v f uf Hv Hview Hload) as (tag & rest & Ef & Htag & Hut & Hnu & Hnt & Hlen).
  assert (Eh : default 0 (head (message f uf)) = tag) by (by rewrite Ef).
  destruct (do_ipc_ok s from to f t uf u recv Hp) as (sl3 & sl4 & _ & Hr); [by rewrite Eh|rewrite Eh, Hnu; unfold IPC_MR_COUNT; lia|]. cbv zeta in Hr.
  pose proof Hp as [Hne Hf Ht _ _ _ _ _ _]. pose proof (length_delivered _ _ _ _ _ _ _ Hf Ht) as Hd.
  destruct Hf as (Hf & Huf & _), Ht as (Ht & Hut' & _). set (d := delivered f uf t u) in *.
  pose (t' := receiver_after (with_ctx_regs (take 8 d) t)). pose (u' := with_u_sender (t_globalid f) (with_u_mr (drop 8 d) u)).
  eexists _, t', u', tag. split; [exact Hr|]. split.
  { unfold has_message, finish_thr, put_message. cbn [k_thr set_sched set_thr tcbs set_tcbs utcbs set_utcbs words set_words].
    split; [by rewrite lookup_insert_ne, lookup_insert_eq by done|]. split; [apply lookup_insert_eq|]. cbn. rewrite length_take, length_drop. lia. }
  split; [split; cbn; [rewrite length_take|rewrite length_drop]; lia|]. split.
  { rewrite thread_vregs_words. transitivity d; [by apply (message_put t u)|]. by apply (delivered_message f uf t u tag us rest). }
  rewrite <- untyped_kernel, <- typed_kernel. done.
Qed.

(** ** Properties *)

(** C7. The way of a message: the sender puts untyped words in a message object with
    [L4_MsgPut] and loads it in its registers with [L4_MsgLoad]; the kernel saves the
    registers and transfers the message with [do_ipc]; the receiver stores its registers in an
    object of its own with [L4_MsgTag] and [L4_MsgStore].  Whatever the objects and the other
    registers held before, the transfer succeeds and [L4_MsgGet] gives the receiver the words
    of the sender, and [L4_MsgLabel] the label. *)
Theorem message_end_to_end (s : kstate) (from to recv : Z) (f t : tcb) (uf u : utcb) (m m1 m2 : L4_Msg_t) (v : vregs) (label : Z) (us : list Z)
    (Hm : length m = 16%nat) (Hu : Forall is_u32 m) (Hn : (length us < 16)%nat) (Hlab : 0 <= label < 65536) (Hv : vr_ok v) (Hm2 : length m2 = 16%nat)
    (Hput : L4_MsgPut label (Z.of_nat (length us)) us 0 [] m = Done (tt, m1))
    (Hload : L4_MsgLoad m1 v = Done (tt, thread_vregs f uf))
    (Hp : partners s from to f t uf u recv) :
  exists s' t' u' m', do_ipc from to s = Done (tt, s') /\ has_message (k_thr s') to t' u' /\
    (tag ← L4_MsgTag; L4_MsgStore tag m2) (thread_vregs t' u') = Done (m', thread_vregs t' u') /\
    L4_MsgGet m' = Done ((us, []), m') /\ L4_MsgLabel m' = Done (label, m').
Proof.
  destruct (L4_MsgPut_ok label us [] m Hm Hu ltac:(cbn; lia) Hlab) as (m1' & tag' & E1 & Hview & Htag & Hl).
  change (Z.of_nat (length (@nil Z))) with 0 in E1. rewrite E1 in Hput. injection Hput as ->.
  destruct (transfer_ok s from to recv f t uf u m1 us v Hv Hview Hload Hp) as (s' & t' & u' & tag & E & Hh & Hv' & Hw & Htag' & Hu' & H1 & H2 & _).
  rewrite Htag in Htag'. injection Htag' as ->. exists s', t', u'.
  destruct (L4_MsgStore_ok (thread_vregs t' u') m2 tag us [] (drop (S (length us)) (message t u))) as (m' & Es & Hm' & Ht0); try done.
  exists m'. split; [exact E|]. split; [exact Hh|]. split; [exact Es|]. split; [by apply L4_MsgGet_ok|]. unfold L4_MsgLabel. rewrite (bind_Done _ _ _ _ _ (msg_get_ok m' 0 tag Ht0)). by rewrite Hl.
Qed.

(** The words the example transfers, in the registers of [ex_sender]. *)
Lemma message_end_to_end_witness : exists s' t' u' m', do_ipc 2000 3000 ex_kernel = Done (tt, s') /\ has_message (k_thr s') 3000 t' u' /\
    (tag ← L4_MsgTag; L4_MsgStore tag (replicate 16 9)) (thread_vregs t' u') = Done (m', thread_vregs t' u') /\
    L4_MsgGet m' = Done (([11; 12], []), m') /\ L4_MsgLabel m' = Done (0, m').
Proof.
  apply (message_end_to_end ex_kernel 2000 3000 0 ex_sender ex_receiver (ex_utcb 4194304 4210688) (ex_utcb 4210688 0)
    (replicate 16 7) ([2; 11; 12] ++ replicate 13 7) (replicate 16 9) (mk_vregs (replicate 8 0) (replicate 8 0) (replicate 8 0)) 0 [11; 12]).
  - reflexivity.
  - by apply Forall_replicate.
  - cbn. lia.
  - lia.
  - done.
  - reflexivity.
  - vm_compute. reflexivity.
  - vm_compute. reflexivity.
  - exact ex_partners.
Defined.
