(* ===== verification/UserCalls.v ===== *)
(** * The user library: thread control registers and system calls

    Models the thread control registers of [user/include/l4/platform/vregs.h] and of
    [user/include/l4/thread.h], the system calls of [user/lib/l4/platform/syscalls.c] that enter
    the kernel, and the functions derived from them in [user/include/l4/ipc.h]; also [printf] of
    [user/lib/io/l4io.c].

    What the kernel does in a system call is a parameter, [svc]: it is given the number and the
    registers r0 to r3, it works on the state of the thread and it returns r0. *)

From S2P Require Import Prelude Bits Thread UserLib.

(** ** [types.h]: constants *)

Definition L4_nilthread : Z := 0.
Definition L4_anythread : Z := 4294967295.
Definition L4_anylocalthread : Z := Z.shiftl (Z.ones 26) 6.
Definition L4_ZeroTime : Z := Z.shiftl 1 10.

(** ** Thread control registers *)

Section registers.
Context {S : Type} `{!Part utcb S}.
(** The variable [current_utcb]. *)
Variable current_utcb : Z.

Definition tcr (f : utcb -> Z) : M S Z := on (gets f).
Definition set_tcr (f : utcb -> utcb) : M S unit := on (modify f).

Definition __L4_TCR_MyGlobalId : M S Z := tcr u_globalid.
Definition __L4_TCR_MyLocalId : M S Z := mret current_utcb.
Definition __L4_TCR_ProcessorNo : M S Z := tcr u_processor_no.
Definition __L4_TCR_UserDefinedHandle : M S Z := tcr u_user_defined_handle.
Definition __L4_TCR_Set_UserDefinedHandle (w : Z) : M S unit := set_tcr (fun u =>
  mk_utcb (u_globalid u) (u_processor_no u) w (u_pager u) (u_exception_handler u) (u_flags u) (u_xfer_timeouts u) (u_error_code u) (u_intended_receiver u) (u_sender u) (u_thread_word_1 u) (u_thread_word_2 u) (u_mr u) (u_br u)).
Definition __L4_TCR_Pager : M S Z := tcr u_pager.
Definition __L4_TCR_Set_Pager (w : Z) : M S unit := set_tcr (with_u_pager w).
Definition __L4_TCR_ExceptionHandler : M S Z := tcr u_exception_handler.
Definition __L4_TCR_Set_ExceptionHandler (w : Z) : M S unit := set_tcr (fun u =>
  mk_utcb (u_globalid u) (u_processor_no u) (u_user_defined_handle u) (u_pager u) w (u_flags u) (u_xfer_timeouts u) (u_error_code u) (u_intended_receiver u) (u_sender u) (u_thread_word_1 u) (u_thread_word_2 u) (u_mr u) (u_br u)).
Definition __L4_TCR_ErrorCode : M S Z := tcr u_error_code.
Definition __L4_TCR_XferTimeout : M S Z := tcr u_xfer_timeouts.
Definition __L4_TCR_Set_XferTimeout (w : Z) : M S unit := set_tcr (fun u =>
  mk_utcb (u_globalid u) (u_processor_no u) (u_user_defined_handle u) (u_pager u) (u_exception_handler u) (u_flags u) w (u_error_code u) (u_intended_receiver u) (u_sender u) (u_thread_word_1 u) (u_thread_word_2 u) (u_mr u) (u_br u)).
Definition __L4_TCR_IntendedReceiver : M S Z := tcr u_intended_receiver.
Definition __L4_TCR_ActualSender : M S Z := tcr u_sender.
Definition __L4_TCR_Set_VirtualSender (w : Z) : M S unit := set_tcr (with_u_sender w).

(** [thread.h] *)
Definition L4_ThreadWasHalted (s : Z) : bool := truth (Z.land s 1).
Definition L4_ThreadWasReceiving (s : Z) : bool := truth (Z.land s 2).
Definition L4_ThreadWasSending (s : Z) : bool := truth (Z.land s 4).
Definition L4_ThreadWasIpcing (s : Z) : bool := truth (Z.land s 6).

Definition L4_MyGlobalId : M S Z := __L4_TCR_MyGlobalId.
Definition L4_MyLocalId : M S Z := __L4_TCR_MyLocalId.
Definition L4_Myself : M S Z := L4_MyGlobalId.
Definition L4_ProcessorNo : M S Z := __L4_TCR_ProcessorNo.
Definition L4_UserDefinedHandle : M S Z := __L4_TCR_UserDefinedHandle.
Definition L4_Set_UserDefinedHandle (NewValue : Z) : M S unit := __L4_TCR_Set_UserDefinedHandle NewValue.
Definition L4_Pager : M S Z := __L4_TCR_Pager.
Definition L4_Set_Pager (NewPager : Z) : M S unit := __L4_TCR_Set_Pager NewPager.
Definition L4_ExceptionHandler : M S Z := __L4_TCR_ExceptionHandler.
Definition L4_Set_ExceptionHandler (NewHandler : Z) : M S unit := __L4_TCR_Set_ExceptionHandler NewHandler.
Definition L4_ErrorCode : M S Z := __L4_TCR_ErrorCode.
Definition L4_XferTimeouts : M S Z := __L4_TCR_XferTimeout.
Definition L4_Set_XferTimeouts (NewValue : Z) : M S unit := __L4_TCR_Set_XferTimeout NewValue.
Definition L4_IntendedReceiver : M S Z := __L4_TCR_IntendedReceiver.
Definition L4_ActualSender : M S Z := __L4_TCR_ActualSender.
Definition L4_Set_VirtualSender (t : Z) : M S unit := __L4_TCR_Set_VirtualSender t.
End registers.

(** ** [ipc.h]: tags and timeouts *)

Definition L4_IpcSucceeded (t : Z) : bool := Z.land (field t 12 4) 8 =? 0.
Definition L4_IpcFailed (t : Z) : bool := negb (Z.land (field t 12 4) 8 =? 0).
Definition L4_IpcPropagated (t : Z) : bool := negb (Z.land (field t 12 4) 1 =? 0).
Definition L4_IpcRedirected (t : Z) : bool := negb (Z.land (field t 12 4) 2 =? 0).
Definition L4_IpcXcpu (t : Z) : bool := negb (Z.land (field t 12 4) 4 =? 0).
Definition L4_Set_Propagation (t : Z) : Z := put_bits t 12 4 1.

(** A time has 16 bits. *)
Definition L4_Timeouts (SndTimeout RcvTimeout : Z) : Z := shl32 SndTimeout 16 +w RcvTimeout.

(** ** System calls *)

Section calls.
Context {S : Type} `{!Part vregs S} `{!Part utcb S}.
Variable svc : Z -> Z -> Z -> Z -> Z -> M S Z.
(** The address of a local variable that takes a result nobody uses. *)
Variable dummy : Z.

(** The first instruction loads r4, the register of the first word of a message. *)
Definition L4_ThreadControl (dest SpaceSpecifier Scheduler Pager UtcbLocation : Z) : M S Z :=
  on (put_reg 0 UtcbLocation);;
  svc 2 dest SpaceSpecifier Scheduler Pager.

(** The tag, and the value stored at [from] when it is not [NULL]. *)
Definition L4_Ipc (to FromSpecifier Timeouts from : Z) : M S (Z * option Z) :=
  from_ret ← svc 6 to FromSpecifier Timeouts from;
  result ← on (get_reg 0);
  mret (result, if negb (from =? NULL) then Some from_ret else None).
Definition L4_Lipc (to FromSpecifier Timeouts from : Z) : M S (Z * option Z) := L4_Ipc to FromSpecifier Timeouts from.

(** ** [ipc.h]: derived functions *)

Definition L4_Call_Timeouts (to SndTimeout RcvTimeout : Z) : M S Z :=
  r ← L4_Ipc to to (L4_Timeouts SndTimeout RcvTimeout) dummy; mret r.1.
Definition L4_Call (to : Z) : M S Z := L4_Call_Timeouts to L4_Never L4_Never.
Definition L4_Send_Timeout (to SndTimeout : Z) : M S Z :=
  r ← L4_Ipc to L4_nilthread (shl32 SndTimeout 16) 0; mret r.1.
Definition L4_Send (to : Z) : M S Z := L4_Send_Timeout to L4_Never.
Definition L4_Reply (to : Z) : M S Z := L4_Send_Timeout to L4_ZeroTime.
Definition L4_Receive_Timeout (from RcvTimeout : Z) : M S Z :=
  r ← L4_Ipc L4_nilthread from RcvTimeout dummy; mret r.1.
Definition L4_Receive (from : Z) : M S Z := L4_Receive_Timeout from L4_Never.
Definition L4_Wait_Timeout (RcvTimeout from : Z) : M S (Z * option Z) := L4_Ipc L4_nilthread L4_anythread RcvTimeout from.
Definition L4_Wait (from : Z) : M S (Z * option Z) := L4_Wait_Timeout L4_Never from.
Definition L4_ReplyWait_Timeout (to RcvTimeout from : Z) : M S (Z * option Z) :=
  L4_Ipc to L4_anythread (L4_Timeouts L4_ZeroTime RcvTimeout) from.
Definition L4_ReplyWait (to from : Z) : M S (Z * option Z) := L4_ReplyWait_Timeout to L4_Never from.
Definition L4_Sleep (t : Z) : M S unit :=
  me ← L4_MyGlobalId; tag ← L4_Receive_Timeout me t; on (L4_LoadMR 0 tag).
Definition L4_Lcall (to : Z) : M S Z :=
  r ← L4_Lipc to to (L4_Timeouts L4_Never L4_Never) dummy; mret r.1.
Definition L4_LreplyWait (to from : Z) : M S (Z * option Z) :=
  L4_Lipc to L4_anylocalthread (L4_Timeouts L4_ZeroTime L4_Never) from.

(** ** [thread.h]: interrupts *)

Definition L4_AssociateInterrupt (InterruptThread HandlerThread : Z) : M S Z :=
  L4_ThreadControl InterruptThread InterruptThread L4_nilthread HandlerThread 4294967295.
Definition L4_DeassociateInterrupt (InterruptThread : Z) : M S Z :=
  L4_ThreadControl InterruptThread InterruptThread L4_nilthread InterruptThread 4294967295.

(** ** Messages *)

(** A message that is a local variable is not initialised: its words are [msg]; an operation on
    it gives the message it leaves. *)
Definition build (ops : M L4_Msg_t unit) (msg : L4_Msg_t) : M S L4_Msg_t := fun s =>
  match ops msg with Done (_, m) => Done (m, s) | Panic => Panic | Fault => Fault | OutOfFuel => OutOfFuel end.

(** ** [l4io.c] *)

(** [va] is the address of the local variable [va]. *)
Definition printf (msg : L4_Msg_t) (va format : Z) : M S Z :=
  m ← build (L4_MsgClear;; L4_MsgAppendWord format;; L4_MsgAppendWord va) msg;
  on (L4_MsgLoad m);;
  L4_Send (TID_TO_GLOBALID THREAD_LOG);;
  mret 0.
End calls.
