(* ===== verification/RootThread.v ===== *)
(** * The root thread and a program of the user

    Models [user/root_thread.c], which creates and starts the threads of the table of user
    programs ([user/include/user_runtime.h]), and [user/apps/pingpong/main.c], the program that
    starts two threads.

    The kernel is the parameter [svc] of the system calls.  The endless loops at the end of a
    thread are not modelled; a turn of them is a definition. *)

From S2P Require Import Prelude Bits Thread Kernel UserLib UserCalls.

(** ** [user_runtime.h] *)

(** A page: its base and its size. *)
Definition user_fpage_t : Type := Z * Z.
Abbreviation fpage_mem := (gmap Z (Z * Z)).

Record user_struct := mk_user {
  user_tid : Z;
  user_entry : Z;
  user_thread_num : Z;
  user_fpages : Z;
  user_name : Z;
}.

Section root.
Context {T : Type} `{!Part vregs T} `{!Part utcb T} `{!Part fpage_mem T}.
Variable svc : Z -> Z -> Z -> Z -> Z -> M T Z.
(** The words of a message, or of an identifier, that is not initialised. *)
Variable msg : L4_Msg_t.
Variable id : Z.

Definition get_fpage (a : Z) : M T (Z * Z) := on (fun m : fpage_mem => match m !! a with Some p => Done (p, m) | None => Fault end).
Definition set_fpage (a : Z) (p : Z * Z) : M T unit := on (fun m : fpage_mem => match m !! a with Some _ => Done (tt, <[a := p]> m) | None => Fault end).

(** ** [root_thread.c] *)

Definition STACK_SIZE : Z := 0x200.

Definition L4_Map (where_ base size : Z) : M T Z :=
  let page := [Z.lor (Z.land base 0xFFFFFFC0) 0xA; Z.land size 0xFFFFFFC0] in
  m ← build (L4_MsgPut 0 0 [] 2 page) msg;
  on (L4_MsgLoad m);;
  L4_Send svc where_;;
  mret 0.

(** The descriptors of the kernel interface page are an array, [n] of them are in use. *)
Fixpoint free_base_loop (k : nat) (i : Z) (desc : list (Z * Z)) : M T Z :=
  match k with
  | O => mret 0
  | S k =>
      d ← lift_opt (zlookup desc i);
      if Z.land d.2 0x3F =? 4 then mret (Z.land d.1 0xFFFFFFC0) else free_base_loop k (i + 1) desc
  end.
Definition get_free_base (desc : list (Z * Z)) (n : Z) : M T Z := free_base_loop (Z.to_nat n) 0 desc.

Fixpoint map_sections_loop (k : nat) (i : Z) (desc : list (Z * Z)) (tid : Z) : M T unit :=
  match k with
  | O => mret tt
  | S k =>
      d ← lift_opt (zlookup desc i);
      let tag := Z.land d.2 0x3F in
      when ((tag =? 2) || (tag =? 3)) (L4_Map tid d.1 d.2;; mret tt);;
      map_sections_loop k (i + 1) desc tid
  end.
Definition map_user_sections (desc : list (Z * Z)) (n tid : Z) : M T unit := map_sections_loop (Z.to_nat n) 0 desc tid.

(** [start_thread] of [root_thread.c] *)
Definition user_start_thread (t ip sp stack_size : Z) : M T unit :=
  m ← build (L4_MsgClear;; L4_MsgAppendWord ip;; L4_MsgAppendWord sp;; L4_MsgAppendWord stack_size) msg;
  on (L4_MsgLoad m);;
  L4_Send svc t;;
  mret tt.

(** [while (fpage->base || fpage->size)]; the result is [free_mem]. *)
Fixpoint map_fpages (fuel : nat) (tid fpage free_mem : Z) : M T Z :=
  p ← get_fpage fpage;
  if truth p.1 || truth p.2 then
    match fuel with
    | O => fuel_out
    | S fuel =>
        (if truth p.1 then L4_Map tid p.1 p.2;; mret tt
         else L4_Map tid free_mem p.2;; set_fpage fpage (free_mem, p.2));;
        p ← get_fpage fpage;
        map_fpages fuel tid (fpage + 8) (free_mem +w p.2)
    end
  else mret free_mem.

(** The body of the loop over the table; [user_base] is a field of the kernel interface page. *)
Definition root_turn (fuel : nat) (desc : list (Z * Z)) (n user_base myself free_mem : Z) (ptr : user_struct) : M T Z :=
  let tid := L4_GlobalId id (user_tid ptr +w user_base) 2 in
  L4_ThreadControl svc tid tid L4_nilthread myself free_mem;;
  let free_mem := free_mem +w UTCB_SIZE in
  map_user_sections desc n tid;;
  L4_Map tid free_mem STACK_SIZE;;
  let free_mem := free_mem +w STACK_SIZE in
  let stack := free_mem in
  free_mem ← map_fpages fuel tid (user_fpages ptr) free_mem;
  user_start_thread tid (user_entry ptr) stack STACK_SIZE;;
  mret free_mem.

Fixpoint root_loop (fuel : nat) (desc : list (Z * Z)) (n user_base myself free_mem : Z) (users : list user_struct) : M T Z :=
  match users with
  | [] => mret free_mem
  | ptr :: users =>
      free_mem ← root_turn fuel desc n user_base myself free_mem ptr;
      root_loop fuel desc n user_base myself free_mem users
  end.

(** Up to the endless loop: the threads of the table from [user_runtime_start] to
    [user_runtime_end]. *)
Definition __root_thread (fuel : nat) (desc : list (Z * Z)) (n user_base : Z) (users : list user_struct) : M T Z :=
  myself ← __L4_TCR_MyGlobalId;
  free_mem ← get_free_base desc n;
  root_loop fuel desc n user_base myself free_mem users.

(** A turn of the endless loop. *)
Definition root_idle (dummy : Z) : M T unit := L4_Sleep svc dummy L4_Never.
End root.

(** ** [pingpong/main.c] *)

Module pingpong.
Definition PINGPONG_STACK_SIZE : Z := 256.

(** The variables of the file. *)
Record vars := mk_vars {
  threads : list Z;
  last_thread : Z;
  free_mem : Z;
}.

Section program.
Context {T : Type} `{!Part vregs T} `{!Part utcb T} `{!Part fpage_mem T} `{!Part vars T}.
Variable svc : Z -> Z -> Z -> Z -> Z -> M T Z.
Variable msg : L4_Msg_t.
Variable dummy : Z.
(** The addresses of the code of the two threads. *)
Variables ping_thread pong_thread : Z.

Definition get_thread (i : Z) : M T Z :=
  l ← on (gets threads); lift_opt (zlookup l i).
Definition set_thread (i t : Z) : M T unit :=
  l ← on (gets threads); l ← lift_opt (zinsert i t l); on (modify (fun v => mk_vars l (last_thread v) (free_mem v))).

(** The code of [ping_thread] in front of its loop, and a turn of the loop. *)
Definition ping_start : M T unit := m ← build L4_MsgClear msg; on (L4_MsgLoad m).
Definition ping_turn : M T Z := t ← get_thread 1; L4_Send svc t.
(** A turn of the loop of [pong_thread]. *)
Definition pong_turn : M T L4_Msg_t := t ← get_thread 0; msgtag ← L4_Receive svc dummy t; on (L4_MsgStore msgtag msg).

Definition pingpong_start_thread (t ip sp stack_size : Z) : M T unit :=
  m ← build (L4_MsgClear;; L4_MsgAppendWord ip;; L4_MsgAppendWord sp;; L4_MsgAppendWord stack_size) msg;
  on (L4_MsgLoad m);;
  L4_Send svc t;;
  mret tt.

Definition create_thread (func : Z) : M T Z :=
  myself ← L4_MyGlobalId;
  on (modify (fun v => mk_vars (threads v) (last_thread v +w 1) (free_mem v)));;
  n ← on (gets last_thread);
  let child := myself +w shl32 n 14 in
  free ← on (gets free_mem);
  L4_ThreadControl svc child myself L4_nilthread myself free;;
  on (modify (fun v => mk_vars (threads v) (last_thread v) (free_mem v +w (UTCB_SIZE + PINGPONG_STACK_SIZE))));;
  sp ← on (gets free_mem);
  pingpong_start_thread child func sp PINGPONG_STACK_SIZE;;
  mret child.

Definition main (user : user_struct) : M T unit :=
  p ← get_fpage (user_fpages user);
  on (modify (fun v => mk_vars (threads v) (last_thread v) p.1));;
  ping ← create_thread ping_thread;
  set_thread 0 ping;;
  pong ← create_thread pong_thread;
  set_thread 1 pong.
End program.
End pingpong.
