(* ===== verification/RootProps.v ===== *)
(** * The root thread: correctness

    The system calls the root thread makes, whatever the kernel answers, the memory it gives
    to the threads, and what the kernel does with these calls. *)

From S2P Require Import Prelude Bits Thread ThreadMap Kernel Ipc IpcProps UserLib UserLibProps UserCalls RootThread.

(** ** A thread and the kernel it calls *)

(** A system call: its number, the registers r0 to r3 and the words of the message. *)
Record ucall := mk_ucall {
  uc_num : Z;
  uc_r0 : Z;
  uc_r1 : Z;
  uc_r2 : Z;
  uc_r3 : Z;
  uc_words : list Z;
}.

(** The registers r4 to r11, the user thread control block, the arrays of pages, the variables
    of the program and the calls that have been made. *)
Record ustate := mk_ustate {
  us_regs : list Z;
  us_utcb : utcb;
  us_fpages : fpage_mem;
  us_vars : pingpong.vars;
  us_trace : list ucall;
}.

Definition utcb_mr_br (mr br : list Z) (u : utcb) : utcb :=
  mk_utcb (u_globalid u) (u_processor_no u) (u_user_defined_handle u) (u_pager u) (u_exception_handler u) (u_flags u) (u_xfer_timeouts u)
    (u_error_code u) (u_intended_receiver u) (u_sender u) (u_thread_word_1 u) (u_thread_word_2 u) mr br.

#[export] Instance part_vregs : Part vregs ustate := {|
  get_part s := mk_vregs (us_regs s) (u_mr (us_utcb s)) (u_br (us_utcb s));
  put_part v s := mk_ustate (v_regs v) (utcb_mr_br (v_mr v) (v_br v) (us_utcb s)) (us_fpages s) (us_vars s) (us_trace s) |}.
#[export] Instance part_utcb : Part utcb ustate := {|
  get_part := us_utcb; put_part u s := mk_ustate (us_regs s) u (us_fpages s) (us_vars s) (us_trace s) |}.
#[export] Instance part_fpages : Part fpage_mem ustate := {|
  get_part := us_fpages; put_part f s := mk_ustate (us_regs s) (us_utcb s) f (us_vars s) (us_trace s) |}.
#[export] Instance part_vars : Part pingpong.vars ustate := {|
  get_part := us_vars; put_part v s := mk_ustate (us_regs s) (us_utcb s) (us_fpages s) v (us_trace s) |}.

(** ** What the root thread asks for *)

(** A request of the root thread; the four kinds of mappings are the same system call. *)
Inductive request :=
| Create (tid space pager utcb : Z)
| Map_section (tid base size : Z)
| Map_stack (tid base size : Z)
| Map_free (tid base size : Z)
| Map_fixed (tid base size : Z)
| Start (tid ip sp stack_size : Z).

(** A call that sends_to to [tid] and does not wait for a message. *)
Definition sends_to (tid : Z) (c : ucall) : Prop := uc_num c = 6 /\ uc_r0 c = tid /\ uc_r1 c = L4_NILTHREAD /\ uc_r2 c = 0.

(** The message of a mapping: an item of type 0xA, as the kernel reads it. *)
Definition map_message (base size : Z) (ws : list Z) : Prop :=
  exists tag rest, ws = tag :: Z.lor (Z.land base 0xFFFFFFC0) 0xA :: Z.land size 0xFFFFFFC0 :: rest /\ n_untyped tag = 0 /\ n_typed tag = 2 /\ length ws = 16%nat.

Definition asks (r : request) (c : ucall) : Prop :=
  match r with
  | Create tid space pager utcb => uc_num c = 2 /\ uc_r0 c = tid /\ uc_r1 c = space /\ uc_r2 c = L4_NILTHREAD /\ uc_r3 c = pager /\ uc_words c !! 0%nat = Some utcb
  | Map_section tid base size | Map_stack tid base size | Map_free tid base size | Map_fixed tid base size => sends_to tid c /\ map_message base size (uc_words c)
  | Start tid ip sp size => sends_to tid c /\ exists rest, uc_words c = 3 :: ip :: sp :: size :: rest /\ length (uc_words c) = 16%nat
  end.

(** ** The plan of the root thread *)

(** The identifier of the thread of a program, with version 2. *)
Definition user_id (user_base : Z) (u : user_struct) : Z := (user_tid u + user_base) * 16384 + 2.

(** The first of the areas the descriptors call available. *)
Definition free_base (desc : list (Z * Z)) (n : Z) : Z :=
  match List.find (fun d => Z.land d.2 63 =? 4) (take (Z.to_nat n) desc) with Some d => Z.land d.1 0xFFFFFFC0 | None => 0 end.

(** The text and the data of the programs. *)
Definition plan_sections (desc : list (Z * Z)) (n tid : Z) : list request :=
  concat ((fun d => if (Z.land d.2 63 =? 2) || (Z.land d.2 63 =? 3) then [Map_section tid d.1 d.2] else []) <$> take (Z.to_nat n) desc).

(** The pages [l] of a program when [free] is the first free address: the requests, the entries
    the array has then, and the new first free address. *)
Fixpoint plan_fpages (tid free : Z) (l : list (Z * Z)) : list request * list (Z * Z) * Z :=
  match l with
  | [] => ([], [], free)
  | (base, size) :: l =>
      let '(rs, es, free') := plan_fpages tid (free + size) l in
      if base =? 0 then (Map_free tid free size :: rs, (free, size) :: es, free') else (Map_fixed tid base size :: rs, (base, size) :: es, free')
  end.

(** A program [p.1] with the pages [p.2]. *)
Definition plan_thread (desc : list (Z * Z)) (n user_base myself free : Z) (p : user_struct * list (Z * Z)) : list request * Z :=
  let tid := user_id user_base p.1 in
  let top := free + UTCB_SIZE + STACK_SIZE in
  let '(rs, _, free') := plan_fpages tid top p.2 in
  (Create tid tid myself free :: plan_sections desc n tid ++ Map_stack tid (free + UTCB_SIZE) STACK_SIZE :: rs ++ [Start tid (user_entry p.1) top STACK_SIZE], free').

Fixpoint plan_root (desc : list (Z * Z)) (n user_base myself free : Z) (ps : list (user_struct * list (Z * Z))) : list request :=
  match ps with
  | [] => []
  | p :: ps => let '(rs, free') := plan_thread desc n user_base myself free p in rs ++ plan_root desc n user_base myself free' ps
  end.

(** The bytes a program takes, and all of them. *)
Definition pages_need (l : list (Z * Z)) : Z := foldr (fun e n => e.2 + n) 0 l.
Definition thread_need (l : list (Z * Z)) : Z := UTCB_SIZE + STACK_SIZE + pages_need l.
Definition root_need (ps : list (user_struct * list (Z * Z))) : Z := foldr (fun p n => thread_need p.2 + n) 0 ps.

Lemma pages_need_nonneg l : Forall (fun e => 0 <= e.2) l -> 0 <= pages_need l.
Proof. induction 1; cbn; [lia|]. fold (pages_need l). lia. Qed.

(** ** The arrays of pages *)

(** At [a] is an array with the entries [l] and an empty one behind them. *)
Fixpoint page_array (f : fpage_mem) (a : Z) (l : list (Z * Z)) : Prop :=
  match l with [] => f !! a = Some (0, 0) | e :: l => f !! a = Some e /\ e <> (0, 0) /\ page_array f (a + 8) l end.
Fixpoint page_addrs (a : Z) (l : list (Z * Z)) : list Z := match l with [] => [a] | _ :: l => a :: page_addrs (a + 8) l end.
Fixpoint write_pages (a : Z) (l : list (Z * Z)) (f : fpage_mem) : fpage_mem := match l with [] => f | e :: l => write_pages (a + 8) l (<[a := e]> f) end.

Lemma page_array_frame l : forall f f' a, page_array f a l -> (forall x, x ∈ page_addrs a l -> f' !! x = f !! x) -> page_array f' a l.
Proof.
  induction l as [|e l IH]; intros f f' a H Hf; cbn [page_array page_addrs] in *; [by rewrite Hf by set_solver|].
  destruct H as (H1 & H2 & H3). split; [by rewrite Hf by set_solver|]. split; [done|]. apply (IH f); [done|]. set_solver.
Qed.

Lemma page_addrs_range l : forall a x, x ∈ page_addrs a l -> a <= x.
Proof. induction l as [|e l IH]; intros a x Hx; cbn [page_addrs] in Hx; apply elem_of_cons in Hx as [-> | Hx]; [lia|set_solver|lia|]. apply IH in Hx. lia. Qed.

Lemma write_pages_other l l' : length l' = length l -> forall a f x, x ∉ page_addrs a l -> write_pages a l' f !! x = f !! x.
Proof.
  revert l'. induction l as [|e l IH]; intros [|e' l'] Hl a f x Hx; try done. cbn [write_pages page_addrs] in *. injection Hl as Hl.
  apply not_elem_of_cons in Hx as [Hx Hx']. rewrite (IH l' Hl) by done. by apply lookup_insert_ne.
Qed.

Lemma length_plan_fpages tid l : forall free, length (plan_fpages tid free l).1.2 = length l.
Proof.
  induction l as [|[b n] l IH]; intros free; [done|]. cbn [plan_fpages]. specialize (IH (free + n)). destruct (plan_fpages tid (free + n) l) as [[rs es] free'].
  cbn in IH. destruct (b =? 0); cbn; lia.
Qed.

Lemma plan_fpages_end tid l : forall free, (plan_fpages tid free l).2 = free + pages_need l.
Proof.
  induction l as [|[b n] l IH]; intros free; [cbn; lia|]. cbn [plan_fpages pages_need foldr snd]. fold (pages_need l). specialize (IH (free + n)).
  destruct (plan_fpages tid (free + n) l) as [[rs es] free']. cbn in IH. destruct (b =? 0); cbn; lia.
Qed.

Lemma plan_thread_end desc n user_base myself free p : (plan_thread desc n user_base myself free p).2 = free + thread_need p.2.
Proof.
  unfold plan_thread, thread_need. pose proof (plan_fpages_end (user_id user_base p.1) p.2 (free + UTCB_SIZE + STACK_SIZE)) as H.
  destruct (plan_fpages _ _ p.2) as [[rs es] free']. cbn in *. lia.
Qed.

Lemma free_base_runs desc : forall k i s, (i + k <= length desc)%nat -> free_base_loop k (Z.of_nat i) desc s =
  Done (match List.find (fun d => Z.land d.2 63 =? 4) (take k (drop i desc)) with Some d => Z.land d.1 0xFFFFFFC0 | None => 0 end, s : ustate).
Proof.
  induction k as [|k IH]; intros i s Hk; [done|]. cbn [free_base_loop]. destruct (lookup_lt_is_Some_2 desc i ltac:(lia)) as [d Hd].
  rewrite zlookup_nat, Hd, (drop_S _ _ _ Hd). cbn [take List.find]. rewrite (bind_Done (lift_opt (Some d)) _ s d s eq_refl). destruct (Z.land d.2 63 =? 4); [done|].
  replace (Z.of_nat i + 1) with (Z.of_nat (S i)) by lia. apply IH. lia.
Qed.

Section kernel_answers.
(** The kernel: from the calls so far, r0, the registers and the control block it leaves. *)
Variable answer : list ucall -> Z * list Z * utcb.
(** What is known of the identifier in the control block. *)
Variable id_known : Z -> Prop.
Hypothesis answer_ok : forall tr, length (answer tr).1.2 = 8%nat /\ length (u_mr (answer tr).2) = 8%nat /\ id_known (u_globalid (answer tr).2).

(** The registers and the control block have their sizes. *)
Definition uok (s : ustate) : Prop := vr_ok (get_part s) /\ id_known (u_globalid (us_utcb s)).

Definition svc (num r0 r1 r2 r3 : Z) : M ustate Z := fun s =>
  let tr := us_trace s ++ [mk_ucall num r0 r1 r2 r3 (vr_words (get_part s))] in
  Done ((answer tr).1.1, mk_ustate (answer tr).1.2 (answer tr).2 (us_fpages s) (us_vars s) tr).

(** [m] ends with [a], has made the requests [rs] and leaves the arrays of pages [f]. *)
Definition runs {A} (m : M ustate A) (s : ustate) (a : A) (rs : list request) (f : fpage_mem) : Prop :=
  exists s' tr, m s = Done (a, s') /\ us_trace s' = us_trace s ++ tr /\ Forall2 asks rs tr /\ uok s' /\ us_fpages s' = f /\ us_vars s' = us_vars s.

Lemma runs_ret {A} (a : A) s : uok s -> runs (mret a) s a [] (us_fpages s).
Proof. intros H. exists s, []. by rewrite app_nil_r. Qed.

Lemma runs_bind {A B} (m : M ustate A) (k : A -> M ustate B) s a b rs rs' f f' :
  runs m s a rs f -> (forall s', uok s' -> us_fpages s' = f -> runs (k a) s' b rs' f') -> runs (x ← m; k x) s b (rs ++ rs') f'.
Proof.
  intros (s1 & t1 & E1 & T1 & A1 & U1 & F1 & V1) H. destruct (H s1 U1 F1) as (s2 & t2 & E2 & T2 & A2 & U2 & F2 & V2).
  exists s2, (t1 ++ t2). rewrite (bind_Done _ _ _ _ _ E1), T2, T1, app_assoc. split; [done|]. split; [done|]. split; [by apply Forall2_app|]. by rewrite V2.
Qed.

(** The same for a step that makes no request. *)
Lemma runs_pure {A B} (m : M ustate A) (k : A -> M ustate B) s a b rs f : m s = Done (a, s) -> runs (k a) s b rs f -> runs (x ← m; k x) s b rs f.
Proof. intros E (s2 & t2 & E2 & H). exists s2, t2. by rewrite (bind_Done _ _ _ _ _ E). Qed.

Lemma runs_end {A B} (m : M ustate A) (b : B) s a rs f : runs m s a rs f -> runs (m;; mret b) s b rs f.
Proof. intros (s1 & t1 & E1 & H). exists s1, t1. by rewrite (bind_Done _ _ _ _ _ E1). Qed.

Lemma send_ok tid s : uok s -> exists a s', L4_Send svc tid s = Done (a, s') /\
  us_trace s' = us_trace s ++ [mk_ucall 6 tid 0 0 0 (vr_words (get_part s))] /\ uok s' /\ us_fpages s' = us_fpages s /\ us_vars s' = us_vars s.
Proof.
  intros H. unfold L4_Send, L4_Send_Timeout. set (tr := us_trace s ++ _). destruct (answer_ok tr) as (H1 & H2 & H3). destruct (answer tr) as [[r0 regs] u] eqn:Ea. cbn in H1, H2, H3.
  pose (s1 := mk_ustate regs u (us_fpages s) (us_vars s) tr). assert (E : svc 6 tid 0 0 0 s = Done (r0, s1)) by (unfold svc; cbv zeta; change (us_trace s ++ _) with tr; rewrite Ea; done).
  destruct regs as [|w regs]; [done|]. destruct u. exists w, s1. split; [|done]. change (shl32 L4_Never 16) with 0. change L4_nilthread with 0.
  assert (E' : L4_Ipc svc tid 0 0 0 s = Done ((w, None), s1)) by (unfold L4_Ipc; by rewrite (bind_Done _ _ _ _ _ E)). by rewrite (bind_Done _ _ _ _ _ E').
Qed.

(** A message is loaded and sent: the call has its words. *)
Lemma load_send_ok m us ts tid s : uok s -> msg_view m us ts ->
  exists s' ws, (on (L4_MsgLoad m);; L4_Send svc tid;; mret tt) s = Done (tt, s') /\ us_trace s' = us_trace s ++ [mk_ucall 6 tid 0 0 0 ws] /\ uok s' /\ us_fpages s' = us_fpages s /\ us_vars s' = us_vars s /\
    length ws = 16%nat /\ take (S (length us + length ts)) ws = take (S (length us + length ts)) m.
Proof.
  intros [Hs Hi] Hm. destruct (L4_MsgLoad_ok (get_part s) m us ts Hs Hm) as (v & E & [V1 V2] & W). pose (s1 := put_part v s).
  rewrite (bind_Done _ _ _ _ _ (on_Done _ s tt v E)). change (put_part v s) with s1. assert (U1 : uok s1) by done.
  destruct (send_ok tid s1 U1) as (a & s2 & E2 & T2 & U2 & F2 & V2'). rewrite (bind_Done _ _ _ _ _ E2).
  assert (Ev : get_part s1 = v) by (by destruct v). exists s2, (vr_words v). rewrite <- Ev at 1. split; [done|]. split; [exact T2|]. split; [done|]. split; [done|]. split; [done|].
  split; [unfold vr_words; rewrite length_app; lia|]. rewrite W. destruct Hm as (tag & rest & Em & Hl & _).
  assert ((S (length us + length ts) <= 16)%nat) by (rewrite <- Hl, Em; cbn; rewrite !length_app; lia). rewrite take_app_le by (rewrite length_take; lia). by rewrite take_take, Nat.min_id.
Qed.

(** The uninitialised words of a message. *)
Variable msg : L4_Msg_t.
Hypothesis msg_ok : length msg = 16%nat /\ Forall is_u32 msg.

Lemma start_message ip sp size : exists rest,
  (L4_MsgClear;; L4_MsgAppendWord ip;; L4_MsgAppendWord sp;; L4_MsgAppendWord size) msg = Done (tt, 3 :: ip :: sp :: size :: rest) /\ length rest = 12%nat.
Proof.
  destruct msg_ok as [Hl _]. revert Hl. clear msg_ok. generalize msg as m. intros m Hl. exists (drop 4 m). rewrite length_drop, Hl. split; [|done]. do 16 (destruct m as [|? m]; [done|]). destruct m; [|done]. reflexivity.
Qed.

Lemma build_Done {A} (ops : M L4_Msg_t unit) m (k : L4_Msg_t -> M ustate A) s : ops msg = Done (tt, m) -> (x ← build ops msg; k x) s = k m s.
Proof. intros E. assert (E' : build ops msg s = Done (m, s)) by (unfold build; by rewrite E). by rewrite (bind_Done _ _ _ _ _ E'). Qed.

Lemma L4_Map_ok tid base size s : uok s -> exists s' c, L4_Map svc msg tid base size s = Done (0, s') /\
  us_trace s' = us_trace s ++ [c] /\ (sends_to tid c /\ map_message base size (uc_words c)) /\ uok s' /\ us_fpages s' = us_fpages s /\ us_vars s' = us_vars s.
Proof.
  intros Hs. destruct msg_ok as [Hl Hu]. unfold L4_Map. set (page := [_; _]). destruct (L4_MsgPut_ok 0 [] page msg Hl Hu ltac:(cbn; lia) ltac:(lia)) as (m & tag & E & Hv & _).
  rewrite (build_Done _ _ _ _ E). destruct (load_send_ok m [] page tid s Hs Hv) as (s' & ws & E' & T & U & F & V & Hw & Hp).
  exists s', (mk_ucall 6 tid 0 0 0 ws). split.
  { clear -E'. unfold mbind, M_bind in *. destruct (on (L4_MsgLoad m) s) as [[? s1]| | |]; try done. destruct (L4_Send svc tid s1) as [[? s2]| | |]; try done. by injection E' as ->. }
  split; [done|]. split; [|done]. split; [done|]. destruct Hv as (tag' & rest & -> & _ & _ & H1 & H2). unfold page in Hp. cbn [length Nat.add] in Hp. exists tag', (drop 3 ws).
  rewrite untyped_kernel, typed_kernel. split; [|done]. cbn [uc_words]. rewrite <- (take_drop 3 ws) at 1. by rewrite Hp.
Qed.

Lemma L4_Map_runs r tid base size s : (forall c, asks r c <-> sends_to tid c /\ map_message base size (uc_words c)) -> uok s -> runs (L4_Map svc msg tid base size) s 0 [r] (us_fpages s).
Proof.
  intros Hr Hs. destruct (L4_Map_ok tid base size s Hs) as (s' & c & E & T & Hc & U & F & V). exists s', [c]. split; [done|]. split; [done|]. split; [|done].
  constructor; [|done]. by apply Hr.
Qed.

Lemma user_start_runs tid ip sp size s : uok s -> runs (user_start_thread svc msg tid ip sp size) s tt [Start tid ip sp size] (us_fpages s).
Proof.
  intros Hs. destruct (start_message ip sp size) as (rest & E & Hl). unfold user_start_thread.
  assert (Hv : msg_view (3 :: ip :: sp :: size :: rest) [ip; sp; size] []) by (exists 3, rest; split; [done|]; split; [cbn; lia|done]).
  destruct (load_send_ok _ _ _ tid s Hs Hv) as (s' & ws & E' & T & U & F & V & Hw & Hp). exists s', [mk_ucall 6 tid 0 0 0 ws]. rewrite (build_Done _ _ _ _ E).
  split; [exact E'|]. split; [done|]. split; [|done]. constructor; [|done]. split; [done|]. exists (drop 4 ws). cbn [uc_words]. split; [|done].
  rewrite <- (take_drop 4 ws) at 1. cbn [length Nat.add] in Hp. by rewrite Hp.
Qed.

Lemma thread_control_runs tid space pager u s : uok s -> exists a, runs (L4_ThreadControl svc tid space L4_nilthread pager u) s a [Create tid space pager u] (us_fpages s).
Proof.
  intros [[H1 H2] _]. unfold L4_ThreadControl. cbn in H1, H2. destruct (us_regs s) as [|w regs] eqn:Er; [done|].
  assert (E : put_reg 0 u (get_part s) = Done (tt, mk_vregs (u :: regs) (u_mr (us_utcb s)) (u_br (us_utcb s)))) by exact (put_reg_ok (get_part s) [] w regs u Er).
  pose proof (on_Done _ s tt _ E) as E1. set (s1 := put_part _ s) in E1. set (tr := us_trace s ++ [mk_ucall 2 tid space 0 pager (vr_words (get_part s1))]).
  destruct (answer_ok tr) as (? & ? & ?). exists (answer tr).1.1, (mk_ustate (answer tr).1.2 (answer tr).2 (us_fpages s) (us_vars s) tr), [mk_ucall 2 tid space 0 pager (vr_words (get_part s1))].
  rewrite (bind_Done _ _ _ _ _ E1). split; [done|]. split; [done|]. split; [|done]. constructor; [|done]. done.
Qed.

(** *** The loops *)

Lemma sections_runs desc tid : forall k i s, uok s -> (i + k <= length desc)%nat ->
  runs (map_sections_loop svc msg k (Z.of_nat i) desc tid) s tt
    (concat ((fun d => if (Z.land d.2 63 =? 2) || (Z.land d.2 63 =? 3) then [Map_section tid d.1 d.2] else []) <$> take k (drop i desc))) (us_fpages s).
Proof.
  induction k as [|k IH]; intros i s Hs Hk; [by apply runs_ret|]. cbn [map_sections_loop]. destruct (lookup_lt_is_Some_2 desc i ltac:(lia)) as [d Hd].
  rewrite zlookup_nat, Hd, (drop_S _ _ _ Hd). cbn [take fmap list_fmap concat]. apply (runs_pure _ _ _ d); [done|]. replace (Z.of_nat i + 1) with (Z.of_nat (S i)) by lia.
  apply (runs_bind _ _ _ tt _ _ _ (us_fpages s)).
  - destruct (_ || _); [|by apply runs_ret]. unfold when. by apply (runs_end _ tt _ 0), L4_Map_runs.
  - intros s' Hs' <-. apply IH; [done|lia].
Qed.

Lemma get_fpage_ok a p s : us_fpages s !! a = Some p -> get_fpage a s = Done (p, s).
Proof. intros H. unfold get_fpage, on, zoom. cbn. rewrite H. by destruct s. Qed.

Lemma map_fpages_runs tid : forall l fuel a free s, uok s -> page_array (us_fpages s) a l -> (length l <= fuel)%nat -> is_u32 free -> Forall (fun e => 0 <= e.2) l -> free + pages_need l < u32_modulus ->
  runs (map_fpages svc msg fuel tid a free) s (plan_fpages tid free l).2 (plan_fpages tid free l).1.1 (write_pages a (plan_fpages tid free l).1.2 (us_fpages s)).
Proof.
  induction l as [|[b n] l IH]; intros fuel a free s Hs Hc Hf Hu Hn Hb.
  - cbn [page_array] in Hc. assert (E : get_fpage a s = Done ((0, 0), s)) by exact (get_fpage_ok _ _ _ Hc).
    destruct fuel; cbn [map_fpages]; apply (runs_pure _ _ _ (0, 0) _ _ _ E), runs_ret; exact Hs.
  - destruct Hc as (H1 & H2 & H3). destruct fuel as [|fuel]; [cbn in Hf; lia|]. cbn [length] in Hf. apply Forall_cons in Hn as [Hn Hn']. cbn [pages_need foldr snd] in Hb, Hn. fold (pages_need l) in Hb.
    assert (Hp : 0 <= pages_need l) by (by apply pages_need_nonneg).
    assert (Hadd : free +w n = free + n) by (apply wrap32_small; unfold is_u32 in *; lia).
    assert (E : get_fpage a s = Done ((b, n), s)) by exact (get_fpage_ok _ _ _ H1).
    cbn [map_fpages]. apply (runs_pure _ _ _ (b, n)); [done|]. cbn [fst snd]. replace (truth b || truth n) with true by (unfold truth; destruct (Z.eqb_spec b 0), (Z.eqb_spec n 0); subst; done).
    cbn [plan_fpages]. pose (e := (if b =? 0 then free else b, n)).
    assert (Hnd : a ∉ page_addrs (a + 8) l) by (intros Hx; apply page_addrs_range in Hx; lia).
    pose (r := if b =? 0 then Map_free tid free n else Map_fixed tid b n).
    assert (Hstep : runs (if truth b then L4_Map svc msg tid b n;; mret tt else L4_Map svc msg tid free n;; set_fpage a (free, n)) s tt [r] (<[a := e]> (us_fpages s))).
    { unfold truth, r, e. destruct (b =? 0) eqn:Eb; cbn [negb].
      - destruct (L4_Map_ok tid free n s Hs) as (s' & c & E' & T & Hc & U & F & V). exists (mk_ustate (us_regs s') (us_utcb s') (<[a := (free, n)]> (us_fpages s)) (us_vars s') (us_trace s')), [c].
        rewrite (bind_Done _ _ _ _ _ E'). split; [unfold set_fpage, on, zoom; cbn; by rewrite F, H1|]. split; [done|]. split; [by constructor|]. split; [exact U|done].
      - rewrite (insert_id _ _ _ H1). by apply (runs_end _ tt _ 0), L4_Map_runs. }
    assert (Hplan : plan_fpages tid free ((b, n) :: l) = (r :: (plan_fpages tid (free + n) l).1.1, e :: (plan_fpages tid (free + n) l).1.2, (plan_fpages tid (free + n) l).2)).
    { cbn [plan_fpages]. unfold r, e. destruct (plan_fpages tid (free + n) l) as [[? ?] ?]. by destruct (b =? 0). }
    cbn [plan_fpages] in Hplan. rewrite Hplan. cbn [fst snd write_pages].
    apply (runs_bind _ _ _ tt _ [r] _ (<[a := e]> (us_fpages s))); [exact Hstep|]. intros s' Hs' Hf'. apply (runs_pure _ _ _ e).
    { apply get_fpage_ok. rewrite Hf'. apply lookup_insert_eq. }
    cbn [e snd]. rewrite Hadd, <- Hf'. apply IH; [done| |lia|unfold is_u32 in *; lia|done|lia]. rewrite Hf'. apply (page_array_frame l (us_fpages s)); [done|]. intros x Hx. apply lookup_insert_ne. intros <-. done.
Qed.

(** *** A program, and all of them *)

Variable id : Z.
Hypothesis id_ok : is_u32 id.

Lemma user_id_ok user_base u : 0 <= user_tid u -> 0 <= user_base -> user_tid u + user_base < 2 ^ 18 -> L4_GlobalId id (user_tid u +w user_base) 2 = user_id user_base u.
Proof.
  intros H1 H2 H3. assert (Ew : user_tid u +w user_base = user_tid u + user_base) by (apply wrap32_small; unfold is_u32; change u32_modulus with 4294967296; change (2 ^ 18) with 262144 in H3; lia).
  rewrite Ew.
  destruct (L4_GlobalId_kernel id (user_tid u + user_base) 2 id_ok ltac:(lia) ltac:(lia)) as [E1 E2]. set (x := L4_GlobalId _ _ _) in *.
  unfold GLOBALID_TO_TID in E1. unfold L4_Version, field in E2. rewrite Z.shiftr_0_r, Z.land_ones in E2 by lia. rewrite Z.shiftr_div_pow2 in E1 by lia.
  unfold user_id. change (2 ^ 14) with 16384 in *. pose proof (Z.div_mod x 16384 ltac:(lia)). lia.
Qed.

(** What a program must be: its number, its pages and the fuel. *)
Definition program_ok (fuel : nat) (user_base : Z) (p : user_struct * list (Z * Z)) : Prop :=
  0 <= user_tid p.1 /\ user_tid p.1 + user_base < 2 ^ 18 /\ (length p.2 <= fuel)%nat /\ Forall (fun e => 0 <= e.2) p.2.

Lemma root_turn_runs fuel desc n user_base myself free p s : uok s -> program_ok fuel user_base p -> 0 <= user_base -> 0 <= n <= Z.of_nat (length desc) ->
  0 <= free -> free + thread_need p.2 < u32_modulus -> page_array (us_fpages s) (user_fpages p.1) p.2 ->
  exists es, length es = length p.2 /\
    runs (root_turn svc msg id fuel desc n user_base myself free p.1) s (plan_thread desc n user_base myself free p).2 (plan_thread desc n user_base myself free p).1 (write_pages (user_fpages p.1) es (us_fpages s)).
Proof.
  intros Hs (P1 & P2 & P3 & P4) Hb Hn H0 Hf Hc. unfold root_turn. rewrite (user_id_ok user_base p.1) by done. unfold plan_thread, thread_need in *. set (tid := user_id user_base p.1).
  assert (Hp : 0 <= pages_need p.2) by (by apply pages_need_nonneg).
  assert (E1 : free +w UTCB_SIZE = free + UTCB_SIZE) by (apply wrap32_small; unfold is_u32, UTCB_SIZE, STACK_SIZE in *; lia).
  assert (E2 : (free + UTCB_SIZE) +w STACK_SIZE = free + UTCB_SIZE + STACK_SIZE) by (apply wrap32_small; unfold is_u32, UTCB_SIZE, STACK_SIZE in *; lia). cbv zeta. rewrite E1, E2.
  set (top := free + UTCB_SIZE + STACK_SIZE). pose proof (length_plan_fpages tid p.2 top) as Hl.
  destruct (plan_fpages tid top p.2) as [[rs es] free'] eqn:Ep. cbn in Hl. exists es. split; [done|]. cbn [fst snd].
  destruct (thread_control_runs tid tid myself free s Hs) as [a Ha]. change (Create tid tid myself free :: ?l) with ([Create tid tid myself free] ++ l).
  apply (runs_bind _ _ _ a _ _ _ (us_fpages s)); [exact Ha|]. intros s1 U1 F1. apply (runs_bind _ _ _ tt _ _ _ (us_fpages s1)).
  { unfold map_user_sections, plan_sections. apply (sections_runs desc tid (Z.to_nat n) 0 s1 U1). lia. }
  intros s2 U2 F2. change (Map_stack ?t ?b ?z :: ?l) with ([Map_stack t b z] ++ l). apply (runs_bind _ _ _ 0 _ _ _ (us_fpages s2)); [by apply L4_Map_runs|]. intros s3 U3 F3.
  apply (runs_bind _ _ _ free' _ _ _ (write_pages (user_fpages p.1) es (us_fpages s))).
  { pose proof (map_fpages_runs tid p.2 fuel (user_fpages p.1) top s3 U3) as H. rewrite Ep, F3, F2, F1 in H. cbn [fst snd] in H.
    apply H; [done|done|unfold is_u32, top, UTCB_SIZE, STACK_SIZE in *; lia|done|unfold top; lia]. }
  intros s4 U4 F4. rewrite <- F4. by apply (runs_end _ free' _ tt), user_start_runs.
Qed.

Lemma root_loop_runs fuel desc n user_base myself : 0 <= user_base -> 0 <= n <= Z.of_nat (length desc) -> forall ps free s, uok s -> Forall (program_ok fuel user_base) ps ->
  Forall (fun p => page_array (us_fpages s) (user_fpages p.1) p.2) ps -> NoDup (concat ((fun p => page_addrs (user_fpages p.1) p.2) <$> ps)) -> 0 <= free -> free + root_need ps < u32_modulus ->
  exists f, runs (root_loop svc msg id fuel desc n user_base myself free (fst <$> ps)) s (free + root_need ps) (plan_root desc n user_base myself free ps) f.
Proof.
  intros Hb Hn. induction ps as [|p ps IH]; intros free s Hs Hps Hc Hd H0 Hf.
  - exists (us_fpages s). cbn. rewrite Z.add_0_r. by apply runs_ret.
  - apply Forall_cons in Hps as [Hp Hps]. apply Forall_cons in Hc as [Hc Hcs]. cbn [fmap list_fmap concat] in Hd. apply NoDup_app in Hd as (_ & Hd & Hds).
    assert (Hr : 0 <= root_need ps).
    { clear -Hps. induction Hps as [|q l (_ & _ & _ & H) _ IH]; cbn; [lia|]. fold (root_need l). pose proof (pages_need_nonneg q.2 H).
      unfold thread_need, UTCB_SIZE, STACK_SIZE. lia. }
    cbn [root_need foldr] in Hf. fold (root_need ps) in Hf. destruct (root_turn_runs fuel desc n user_base myself free p s Hs Hp Hb Hn H0 ltac:(lia) Hc) as (es & Hl & Ht).
    cbn [fmap list_fmap root_loop plan_root root_need foldr]. fold (root_need ps). pose proof (plan_thread_end desc n user_base myself free p) as He. destruct (plan_thread desc n user_base myself free p) as [rs free']. cbn [fst snd] in Ht, He. subst free'.
    destruct Ht as (s1 & t1 & E1 & T1 & A1 & U1 & F1 & V1). destruct (IH (free + thread_need p.2) s1) as (f & s2 & t2 & E2 & T2 & A2 & U2 & F2 & V2); try done.
    + apply Forall_forall. intros q Hq. pose proof (proj1 (Forall_forall _ _) Hcs q Hq) as Hc'. cbn beta in Hc'. apply (page_array_frame _ (us_fpages s)); [done|]. intros x Hx. rewrite F1. apply (write_pages_other p.2); [done|].
      intros Hx'. apply (Hd x Hx'). apply list_elem_of_In, in_concat. exists (page_addrs (user_fpages q.1) q.2). rewrite <- !list_elem_of_In. split; [|done]. apply list_elem_of_fmap. by exists q.
    + destruct Hp as (_ & _ & _ & Hp). assert (0 <= pages_need p.2) by (by apply pages_need_nonneg). unfold thread_need, UTCB_SIZE, STACK_SIZE in *. lia.
    + lia.
    + exists f, s2, (t1 ++ t2). rewrite (bind_Done _ _ _ _ _ E1). split; [by rewrite Z.add_assoc|]. rewrite T2, T1, app_assoc. split; [done|]. split; [by apply Forall2_app|]. by rewrite V2.
Qed.
(** *** The program with two threads *)

Variable me : Z.
Hypothesis me_known : forall x, id_known x -> x = me.

Definition child_id (n : Z) : Z := me +w shl32 n 14.

Lemma create_thread_ok func s : uok s ->
  let v := us_vars s in
  let n := pingpong.last_thread v +w 1 in
  let top := pingpong.free_mem v +w (UTCB_SIZE + pingpong.PINGPONG_STACK_SIZE) in
  exists s' tr, pingpong.create_thread svc msg func s = Done (child_id n, s') /\ us_trace s' = us_trace s ++ tr /\
    Forall2 asks [Create (child_id n) me me (pingpong.free_mem v); Start (child_id n) func top pingpong.PINGPONG_STACK_SIZE] tr /\
    uok s' /\ us_fpages s' = us_fpages s /\ us_vars s' = pingpong.mk_vars (pingpong.threads v) n top.
Proof.
  intros Hs v n top. unfold pingpong.create_thread, L4_MyGlobalId, __L4_TCR_MyGlobalId, tcr.
  assert (E1 : on (gets u_globalid) s = Done (me, s)) by (unfold on, zoom; cbn; rewrite (me_known _ (proj2 Hs)); by destruct s). rewrite (bind_Done _ _ _ _ _ E1).
  set (s1 := put_part (pingpong.mk_vars (pingpong.threads v) n (pingpong.free_mem v)) s). rewrite (bind_Done (on (modify _)) _ s tt s1) by done.
  assert (U1 : uok s1) by exact Hs. assert (E2 : on (gets pingpong.last_thread) s1 = Done (n, s1)) by done. rewrite (bind_Done _ _ _ _ _ E2).
  assert (E3 : on (gets pingpong.free_mem) s1 = Done (pingpong.free_mem v, s1)) by done. cbv zeta. rewrite (bind_Done _ _ _ _ _ E3). change (me +w shl32 n 14) with (child_id n).
  destruct (thread_control_runs (child_id n) me me (pingpong.free_mem v) s1 U1) as (a & s2 & t2 & E4 & T2 & A2 & U2 & F2 & V2). rewrite (bind_Done _ _ _ _ _ E4).
  set (s3 := put_part (pingpong.mk_vars (pingpong.threads v) n top) s2). rewrite (bind_Done (on (modify _)) _ s2 tt s3) by (unfold on, zoom, modify; cbn; by rewrite V2).
  assert (U3 : uok s3) by exact U2. assert (E5 : on (gets pingpong.free_mem) s3 = Done (top, s3)) by done. rewrite (bind_Done _ _ _ _ _ E5).
  destruct (user_start_runs (child_id n) func top pingpong.PINGPONG_STACK_SIZE s3 U3) as (s4 & t4 & E6 & T4 & A4 & U4 & F4 & V4). rewrite (bind_Done (pingpong.pingpong_start_thread _ _ _ _ _ _) _ s3 tt s4) by exact E6.
  exists s4, (t2 ++ t4). split; [done|]. rewrite T4. change (us_trace s3) with (us_trace s2). rewrite T2, app_assoc. split; [done|]. split; [exact (Forall2_app A2 A4)|].
  split; [done|]. rewrite F4, V4. by split.
Qed.
End kernel_answers.

(** ** The layout of the memory *)

(** The memory a request hands to a thread out of the free memory. *)
Definition area (r : request) : option (Z * Z) :=
  match r with
  | Create _ _ _ utcb => Some (utcb, UTCB_SIZE)
  | Map_stack _ base size | Map_free _ base size => Some (Z.land base 0xFFFFFFC0, Z.land size 0xFFFFFFC0)
  | _ => None
  end.

(** The areas, each behind the one before it, are in the memory from [lo] up to [hi]. *)
Fixpoint stacked (lo hi : Z) (l : list (Z * Z)) : Prop :=
  match l with [] => lo <= hi | (b, n) :: l => lo <= b /\ 0 <= n /\ stacked (b + n) hi l end.

Lemma stacked_le lo lo' hi l : lo' <= lo -> stacked lo hi l -> stacked lo' hi l.
Proof. destruct l as [|[b n] l]; cbn; intros; [lia|]. by repeat split; try lia; apply H0. Qed.

Lemma stacked_app lo mid hi l1 l2 : stacked lo mid l1 -> stacked mid hi l2 -> stacked lo hi (l1 ++ l2).
Proof.
  revert lo. induction l1 as [|[b n] l1 IH]; intros lo H1 H2; cbn [app stacked] in *; [by apply (stacked_le mid)|]. destruct H1 as (H & Hn & H1). split; [done|]. split; [done|]. by apply IH.
Qed.

Lemma mask64_id x : 0 <= x < u32_modulus -> x mod 64 = 0 -> Z.land x 0xFFFFFFC0 = x.
Proof.
  intros H Hm. change 0xFFFFFFC0 with (Z.ldiff (Z.ones 32) (Z.ones 6)). transitivity (Z.ldiff (Z.land x (Z.ones 32)) (Z.ones 6)).
  - apply Z.bits_inj'. intros b Hb. rewrite Z.land_spec, !Z.ldiff_spec, Z.land_spec. apply andb_assoc.
  - rewrite Z.land_ones, Z.mod_small by (unfold u32_modulus in H; lia). rewrite Z.ldiff_ones_r, Z.shiftl_mul_pow2, Z.shiftr_div_pow2 by lia. change (2 ^ 6) with 64. pose proof (Z.div_mod x 64 ltac:(lia)). lia.
Qed.

Definition whole_pages (l : list (Z * Z)) : Prop := Forall (fun e => 0 <= e.2 /\ e.2 mod 64 = 0) l.

Lemma plan_fpages_stacked tid l : forall free, 0 <= free -> free mod 64 = 0 -> whole_pages l -> free + pages_need l < u32_modulus ->
  stacked free (free + pages_need l) (omap area (plan_fpages tid free l).1.1).
Proof.
  induction l as [|[b n] l IH]; intros free H0 Hm Hw Hb; [cbn; lia|]. apply Forall_cons in Hw as [[Hn Hn'] Hw]. cbn [snd] in *. cbn [plan_fpages pages_need foldr snd] in *. fold (pages_need l) in *.
  assert (0 <= pages_need l) by (apply pages_need_nonneg, (Forall_impl _ _ _ Hw); by intros ? []).
  specialize (IH (free + n) ltac:(lia) ltac:(rewrite Z.add_mod, Hm, Hn' by lia; done) Hw ltac:(lia)). rewrite Z.add_assoc.
  destruct (plan_fpages tid (free + n) l) as [[rs es] free']. cbn [fst] in IH. destruct (b =? 0); cbn [fst omap list_omap area].
  - cbn [stacked]. rewrite !mask64_id by (done || lia). split; [lia|]. split; [lia|exact IH].
  - by apply (stacked_le (free + n)); [lia|].
Qed.

Lemma plan_sections_area desc n tid : omap area (plan_sections desc n tid) = [].
Proof. unfold plan_sections. induction (take (Z.to_nat n) desc) as [|d l IH]; [done|]. cbn [fmap list_fmap concat]. by destruct (_ || _). Qed.

Lemma plan_thread_stacked desc n user_base myself free p : 0 <= free -> free mod 64 = 0 -> whole_pages p.2 -> free + thread_need p.2 < u32_modulus ->
  stacked free (free + thread_need p.2) (omap area (plan_thread desc n user_base myself free p).1).
Proof.
  intros H0 Hm Hw Hb. unfold plan_thread, thread_need in *. set (tid := user_id _ _). assert (0 <= pages_need p.2) by (apply pages_need_nonneg, (Forall_impl _ _ _ Hw); by intros ? []).
  unfold UTCB_SIZE, STACK_SIZE in *. pose proof (plan_fpages_stacked tid p.2 (free + 128 + 0x200) ltac:(lia) ltac:(rewrite <- Z.add_assoc, Z.add_mod, Hm by lia; done) Hw ltac:(lia)) as H1.
  destruct (plan_fpages tid _ p.2) as [[rs es] free']. cbn [fst] in *. cbn [omap list_omap area]. rewrite omap_app, plan_sections_area. cbn [app omap list_omap area stacked].
  rewrite mask64_id by (unfold u32_modulus in *; (lia || (rewrite Z.add_mod, Hm by lia; done))). change (Z.land 0x200 0xFFFFFFC0) with 512. unfold UTCB_SIZE. split; [lia|]. split; [lia|]. split; [lia|]. split; [lia|].
  rewrite omap_app. apply (stacked_app _ (free + 128 + 512 + pages_need p.2)); [exact H1|]. cbn. lia.
Qed.

Lemma plan_root_stacked desc n user_base myself ps : forall free, 0 <= free -> free mod 64 = 0 -> Forall (fun p => whole_pages p.2) ps -> free + root_need ps < u32_modulus ->
  stacked free (free + root_need ps) (omap area (plan_root desc n user_base myself free ps)).
Proof.
  induction ps as [|p ps IH]; intros free H0 Hm Hw Hb; [cbn; lia|]. apply Forall_cons in Hw as [Hp Hw]. cbn [root_need foldr plan_root] in *. fold (root_need ps) in *.
  assert (Hr : 0 <= root_need ps /\ 0 <= thread_need p.2 /\ thread_need p.2 mod 64 = 0).
  { assert (Ht : forall l, whole_pages l -> 0 <= thread_need l /\ thread_need l mod 64 = 0).
    { clear. intros l H. unfold thread_need, UTCB_SIZE, STACK_SIZE. induction H as [|e l [H1 H2] _ [IH1 IH2]]; [done|]. cbn [pages_need foldr]. fold (pages_need l).
      split; [lia|]. replace (128 + 0x200 + (e.2 + pages_need l)) with (e.2 + (128 + 0x200 + pages_need l)) by lia. by rewrite Z.add_mod, H2, IH2 by lia. }
    split; [|by apply Ht]. clear -Hw Ht. induction Hw as [|q l Hq _ IH]; cbn; [lia|]. fold (root_need l). pose proof (Ht _ Hq). lia. }
  pose proof (plan_thread_stacked desc n user_base myself free p H0 Hm Hp ltac:(lia)) as H1. pose proof (plan_thread_end desc n user_base myself free p) as He.
  destruct (plan_thread desc n user_base myself free p) as [rs free']. cbn [fst snd] in *. subst free'. rewrite omap_app. apply (stacked_app _ (free + thread_need p.2)); [done|].
  rewrite Z.add_assoc. apply IH; [lia|rewrite Z.add_mod, Hm by lia; destruct Hr as (_ & _ & ->); done|done|lia].
Qed.

Lemma free_base_aligned desc n : 0 <= free_base desc n /\ free_base desc n mod 64 = 0.
Proof.
  unfold free_base. destruct (List.find _ _) as [d|]; [|done]. split; [apply Z.land_nonneg; right; lia|].
  change 64 with (2 ^ 6). rewrite <- Z.land_ones, <- Z.land_assoc by lia. change (Z.land 0xFFFFFFC0 (Z.ones 6)) with 0. apply Z.land_0_r.
Qed.

(** ** Properties *)

(** C8. The root thread, for any table of programs whose pages are in memory and fit: whatever the kernel answers and whatever the
    uninitialised messages held, it ends its loop and has made exactly the system calls of the
    plan, in its order: for each program it creates the thread with itself as the pager, maps the
    text and data sections, a stack and the pages of the program, and starts the thread at its
    entry with the stack it has mapped.  If the sizes of the pages are multiples of the size of the
    smallest page, the control blocks, the stacks and the pages without a
    base are in the free memory the kernel announces, each behind the one before it, so no two of
    them overlap.  (With other sizes they do: the bases that are mapped are rounded down.) *)
Theorem root_thread_requests (answer : list ucall -> Z * list Z * utcb) (msg : L4_Msg_t) (id : Z) (fuel : nat) (desc : list (Z * Z)) (n user_base : Z)
    (ps : list (user_struct * list (Z * Z))) (s : ustate)
    (Hans : forall tr, length (answer tr).1.2 = 8%nat /\ length (u_mr (answer tr).2) = 8%nat)
    (Hmsg : length msg = 16%nat /\ Forall is_u32 msg) (Hid : is_u32 id) (Hs : vr_ok (get_part s))
    (Hn : 0 <= n <= Z.of_nat (length desc)) (Hb : 0 <= user_base)
    (Hps : Forall (program_ok fuel user_base) ps)
    (Hc : Forall (fun p => page_array (us_fpages s) (user_fpages p.1) p.2) ps)
    (Hd : NoDup (concat ((fun p => page_addrs (user_fpages p.1) p.2) <$> ps)))
    (Hfree : free_base desc n + root_need ps < u32_modulus) :
  let free := free_base desc n in
  let plan := plan_root desc n user_base (u_globalid (us_utcb s)) free ps in
  (exists s' tr, __root_thread (svc answer) msg id fuel desc n user_base (fst <$> ps) s = Done (free + root_need ps, s') /\
    us_trace s' = us_trace s ++ tr /\ Forall2 asks plan tr) /\
  (Forall (fun p => whole_pages p.2) ps -> stacked free (free + root_need ps) (omap area plan)).
Proof.
  intros free plan. destruct (free_base_aligned desc n) as [F0 F1]. split; [|intros Hw; by apply plan_root_stacked].
  destruct (root_loop_runs answer (fun _ => True) (fun tr => conj (proj1 (Hans tr)) (conj (proj2 (Hans tr)) I)) msg Hmsg id Hid fuel desc n user_base (u_globalid (us_utcb s)) Hb Hn ps free s (conj Hs I) Hps Hc Hd F0 Hfree) as (f & s' & tr & E & T & A & _).
  exists s', tr. split; [|done]. unfold __root_thread, __L4_TCR_MyGlobalId, tcr.
  assert (E1 : on (gets u_globalid) s = Done (u_globalid (us_utcb s), s)) by (unfold on, zoom; cbn; by destruct s). rewrite (bind_Done _ _ _ _ _ E1).
  assert (E2 : get_free_base desc n s = Done (free, s)) by (unfold get_free_base; apply (free_base_runs desc (Z.to_nat n) 0); lia). by rewrite (bind_Done _ _ _ _ _ E2).
Qed.

(** Two programs; the second has a page at a fixed address. *)
Definition ex_desc : list (Z * Z) := [(0x08006001, 0x4002); (0x20001005, 0x303); (0x20002007, 0x1a004)].
Definition ex_programs : list (user_struct * list (Z * Z)) :=
  [(mk_user 0 0x08006101 0 0x20001000 0, [(0, 768)]); (mk_user 8 0x08006201 0 0x20001100 0, [(0x40020000, 1024); (0, 256)])].
Definition ex_pages : fpage_mem := list_to_map
  [(0x20001000, (0, 768)); (0x20001008, (0, 0)); (0x20001100, (0x40020000, 1024)); (0x20001108, (0, 256)); (0x20001110, (0, 0))].
Definition ex_root : ustate := mk_ustate (replicate 8 0) (ex_utcb 4194306 0) ex_pages (pingpong.mk_vars [0; 0] 0 0) [].
Definition ex_answer (tr : list ucall) : Z * list Z * utcb := (Z.of_nat (length tr), replicate 8 7, ex_utcb 4194306 0).

Lemma root_thread_requests_witness :
  (exists s' tr, __root_thread (svc ex_answer) (replicate 16 9) 5 2 ex_desc 3 32 (fst <$> ex_programs) ex_root = Done (0x20002000 + 3328, s') /\
    us_trace s' = [] ++ tr /\ Forall2 asks (plan_root ex_desc 3 32 4194306 0x20002000 ex_programs) tr) /\
  stacked 0x20002000 (0x20002000 + 3328) (omap area (plan_root ex_desc 3 32 4194306 0x20002000 ex_programs)).
Proof.
  destruct (root_thread_requests ex_answer (replicate 16 9) 5 2 ex_desc 3 32 ex_programs ex_root) as [Hrun Hst].
  - by intros tr.
  - split; [done|]. by apply Forall_replicate.
  - done.
  - done.
  - cbn. lia.
  - lia.
  - repeat first [apply Forall_nil_2 | apply Forall_cons_2 | progress cbn; lia | split].
  - repeat constructor; cbn; done.
  - cbn. repeat (constructor; [set_solver by lia|]). constructor.
  - done.
  - split; [exact Hrun|]. apply Hst. repeat first [apply Forall_nil_2 | apply Forall_cons_2 | progress cbn; lia | split | reflexivity].
Defined.

(** The memory a request of the program uses: a control block, or the stack below its top. *)
Definition used (r : request) : option (Z * Z) :=
  match r with Create _ _ _ utcb => Some (utcb, UTCB_SIZE) | Start _ _ sp size => Some (sp - size, size) | _ => None end.

(** C39. [main] of the program with two threads, with its page at [base]: it creates and starts two
    threads in its own space, with itself as their pager and the numbers behind its own, keeps
    their identifiers, and the control blocks and stacks do not overlap and fill its page. *)
Theorem pingpong_main_requests (answer : list ucall -> Z * list Z * utcb) (msg : L4_Msg_t) (me ping pong base : Z) (user : user_struct) (s : ustate)
    (Hans : forall tr, length (answer tr).1.2 = 8%nat /\ length (u_mr (answer tr).2) = 8%nat /\ u_globalid (answer tr).2 = me)
    (Hmsg : length msg = 16%nat /\ Forall is_u32 msg) (Hs : vr_ok (get_part s)) (Hme : u_globalid (us_utcb s) = me)
    (Hpage : us_fpages s !! user_fpages user = Some (base, 2 * UTCB_SIZE + 2 * pingpong.PINGPONG_STACK_SIZE)) (Hb : 0 <= base) (Hb' : base + 768 < u32_modulus)
    (Hv : pingpong.last_thread (us_vars s) = 0) (Ht : length (pingpong.threads (us_vars s)) = 2%nat) :
  let t1 := me +w 16384 in
  let t2 := me +w 32768 in
  let plan := [Create t1 me me base; Start t1 ping (base + 384) 256; Create t2 me me (base + 384); Start t2 pong (base + 768) 256] in
  (exists s' tr, pingpong.main (svc answer) msg ping pong user s = Done (tt, s') /\ us_trace s' = us_trace s ++ tr /\ Forall2 asks plan tr /\ pingpong.threads (us_vars s') = [t1; t2]) /\
  stacked base (base + 768) (omap used plan).
Proof.
  intros t1 t2 plan. split; [|cbn; unfold UTCB_SIZE; lia]. unfold pingpong.main. rewrite (bind_Done _ _ _ _ _ (get_fpage_ok _ _ s Hpage)). cbn [fst].
  destruct (us_vars s) as [l last fm] eqn:Ev. cbn in Hv, Ht. subst last. destruct l as [|a [|b [|]]]; try done.
  set (s1 := put_part (pingpong.mk_vars [a; b] 0 base) s). rewrite (bind_Done (on (modify _)) _ s tt s1) by (unfold on, zoom, modify; cbn; by rewrite Ev).
  assert (W1 : base +w (UTCB_SIZE + pingpong.PINGPONG_STACK_SIZE) = base + 384) by (apply wrap32_small; unfold is_u32; change (UTCB_SIZE + pingpong.PINGPONG_STACK_SIZE) with 384; lia).
  assert (W2 : (base + 384) +w (UTCB_SIZE + pingpong.PINGPONG_STACK_SIZE) = base + 768) by (transitivity (base + 384 + 384); [apply wrap32_small; unfold is_u32|]; lia).
  pose (known := fun x => x = me). assert (Hk : forall x, known x -> x = me) by done. assert (U1 : uok known s1) by done.
  destruct (create_thread_ok answer known Hans msg Hmsg me Hk ping s1 U1) as (s2 & tr2 & E2 & T2 & A2 & U2 & F2 & V2). cbv zeta in E2, A2, V2. cbn [s1 us_vars put_part part_vars pingpong.free_mem pingpong.last_thread pingpong.threads] in E2, A2, V2.
  rewrite (bind_Done _ _ _ _ _ E2). rewrite W1 in A2, V2. change (0 +w 1) with 1 in *. change (child_id me 1) with t1 in *.
  set (s3 := put_part (pingpong.mk_vars [t1; b] 1 (base + 384)) s2).
  assert (E3 : pingpong.set_thread 0 t1 s2 = Done (tt, s3)) by (unfold pingpong.set_thread, on, zoom, mbind, M_bind, gets, modify; cbn; rewrite V2; cbn; by destruct s2). rewrite (bind_Done _ _ _ _ _ E3).
  assert (U3 : uok known s3) by exact U2. destruct (create_thread_ok answer known Hans msg Hmsg me Hk pong s3 U3) as (s4 & tr4 & E4 & T4 & A4 & U4 & F4 & V4). cbv zeta in E4, A4, V4.
  cbn [s3 us_vars put_part part_vars pingpong.free_mem pingpong.last_thread pingpong.threads] in E4, A4, V4. rewrite (bind_Done _ _ _ _ _ E4). rewrite W2 in A4, V4. change (1 +w 1) with 2 in *. change (child_id me 2) with t2 in *.
  exists (put_part (pingpong.mk_vars [t1; t2] 2 (base + 768)) s4), (tr2 ++ tr4).
  split; [unfold pingpong.set_thread, on, zoom, mbind, M_bind, gets, modify; cbn; rewrite V4; cbn; by destruct s4|]. split; [cbn; rewrite T4; change (us_trace s3) with (us_trace s2); by rewrite T2, app_assoc|].
  split; [exact (Forall2_app A2 A4)|done].
Qed.

Lemma pingpong_main_requests_witness :
  exists s' tr, pingpong.main (svc (fun tr => (0, replicate 8 1, ex_utcb 4194306 0))) (replicate 16 9) 0x08006301 0x08006401 (mk_user 0 0x08006101 0 0x20001000 0)
    (mk_ustate (replicate 8 0) (ex_utcb 4194306 0) {[0x20001000 := (0x20002280, 768)]} (pingpong.mk_vars [0; 0] 0 0) []) = Done (tt, s') /\
    us_trace s' = [] ++ tr /\ pingpong.threads (us_vars s') = [4210690; 4227074].
Proof.
  destruct (pingpong_main_requests (fun tr => (0, replicate 8 1, ex_utcb 4194306 0)) (replicate 16 9) 4194306 0x08006301 0x08006401 0x20002280 (mk_user 0 0x08006101 0 0x20001000 0)
    (mk_ustate (replicate 8 0) (ex_utcb 4194306 0) {[0x20001000 := (0x20002280, 768)]} (pingpong.mk_vars [0; 0] 0 0) [])) as [(s' & tr & E & T & _ & Hv) _].
  - by intros tr.
  - split; [done|]. by apply Forall_replicate.
  - done.
  - done.
  - done.
  - lia.
  - done.
  - done.
  - done.
  - exists s', tr. split; [exact E|]. split; [exact T|exact Hv].
Defined.
