(* ===== verification/RootKernel.v ===== *)
(** * The root thread and the kernel

    What the kernel does with the system calls of the root thread: it starts a thread with the
    entry and the stack of the message, and it maps the area of a mapping. *)

From S2P Require Import Prelude Bits Ktable Thread ThreadMap Sched Softirq Ktimer Kernel Mempool Fpage FpageChain Memory Ipc IpcProps UserLib UserLibProps UserCalls RootThread RootProps.

(** ** The kernel at a system call *)

(** The thread [p] has made the system call [c]: its registers r4 to r11 are in its context, r0
    to r3 on its stack, and the instruction in front of the program counter has the number. *)
Record called (s : kstate) (p : Z) (t : tcb) (u : utcb) (c : ucall) : Prop := {
  cl_caller : caller (k_thr s) = p;
  cl_msg : has_message (k_thr s) p t u;
  cl_words : message t u = uc_words c;
  cl_r0 : words (k_thr s) !! reg_addr (c_sp (t_ctx t)) REG_R0 = Some (uc_r0 c);
  cl_r1 : words (k_thr s) !! reg_addr (c_sp (t_ctx t)) REG_R1 = Some (uc_r1 c);
  cl_r2 : words (k_thr s) !! reg_addr (c_sp (t_ctx t)) REG_R2 = Some (uc_r2 c);
  cl_pc : exists pc, words (k_thr s) !! reg_addr (c_sp (t_ctx t)) REG_PC = Some pc /\ k_code s !! (pc -w 2) = Some (uc_num c);
}.

(** The thread [q] with the identifier [tid] has been created and not started, and its pager is
    the thread [p]. *)
Record created (s : kstate) (p : Z) (t : tcb) (u : utcb) (tid q : Z) (tq : tcb) (uq : utcb) : Prop := {
  cr_map : exists ents, map_rep (k_thr s) ents /\ ordered Z.lt ents.*2 /\ (q, GLOBALID_TO_TID tid) ∈ ents;
  cr_null : q <> NULL;
  cr_ne : q <> p;
  cr_utcb : t_utcb tq <> t_utcb t;
  cr_msg : has_message (k_thr s) q tq uq;
  cr_state : t_state tq = T_INACTIVE;
  cr_pager : GLOBALID_TO_TID (u_pager uq) = GLOBALID_TO_TID (t_globalid t);
  cr_other : tid <> t_globalid t;
  cr_nil : tid <> L4_NILTHREAD;
  cr_log : tid <> TID_TO_GLOBALID THREAD_LOG;
}.

(** ** The frame of a thread that starts *)

Lemma reg_addr_inj sp i j : 0 <= i < 8 -> 0 <= j < 8 -> reg_addr sp i = reg_addr sp j -> i = j.
Proof. unfold reg_addr, add32, wrap32, u32_modulus. intros Hi Hj H. Z.div_mod_to_equations. lia. Qed.

(** The words of the frame: [ws], for the registers from [r] on. *)
Fixpoint write_frame (sp r : Z) (ws : list Z) (w : gmap Z Z) : gmap Z Z :=
  match ws with [] => w | x :: ws => write_frame sp (r + 1) ws (<[reg_addr sp r := x]> w) end.

Lemma write_frame_before sp ws : forall r i w, 0 <= i < r -> r + Z.of_nat (length ws) <= 8 -> write_frame sp r ws w !! reg_addr sp i = w !! reg_addr sp i.
Proof.
  induction ws as [|x ws IH]; intros r i w Hi Hl; [done|]. cbn [write_frame length] in *. rewrite IH by lia. apply lookup_insert_ne. intros E. apply reg_addr_inj in E; lia.
Qed.

Lemma write_frame_at sp ws : forall r (i : nat) x w, ws !! i = Some x -> 0 <= r -> r + Z.of_nat (length ws) <= 8 -> write_frame sp r ws w !! reg_addr sp (r + Z.of_nat i) = Some x.
Proof.
  induction ws as [|y ws IH]; intros r i x w Hi H0 Hl; [done|]. cbn [write_frame length] in *. destruct i as [|i].
  - injection Hi as ->. rewrite Z.add_0_r, write_frame_before by lia. apply lookup_insert_eq.
  - replace (r + Z.of_nat (S i)) with (r + 1 + Z.of_nat i) by lia. apply IH; [done|lia|lia].
Qed.

(** The context of a thread of a user and its frame. *)
Definition started_ctx (sp : Z) (x : context_t) : context_t := with_ret_ctl 4294967293 3 (with_sp (sp -w RESERVED_STACK) x).
Definition start_frame (kip utcb pc : Z) : list Z := [kip; utcb; 0; 0; 0; 4294967295; pc; 16777216].

Lemma write_words_ok sp (s : thrstate) : (forall r, 0 <= r < 8 -> is_Some (words s !! reg_addr sp r)) -> forall r w, 0 <= r < 8 ->
  write_word (reg_addr sp r) w s = Done (tt, set_words (<[reg_addr sp r := w]> (words s)) s) /\
  (forall r', 0 <= r' < 8 -> is_Some (words (set_words (<[reg_addr sp r := w]> (words s)) s) !! reg_addr sp r')).
Proof.
  intros H r w Hr. split; [destruct (H r Hr) as [x Hx]; by apply (write_word_ok _ _ x)|]. intros r' Hr'. cbn. destruct (decide (reg_addr sp r = reg_addr sp r')) as [->|Hn]; [rewrite lookup_insert_eq; by eexists|].
  rewrite lookup_insert_ne by done. by apply H.
Qed.

(** A step that writes the word [w] for the register [r]. *)
Ltac write_reg W r w :=
  let E := fresh in let W' := fresh in
  destruct (write_words_ok _ _ W r w) as [E W']; [unfold r; lia|]; rewrite (bind_Done _ _ _ _ _ E); clear E W; rename W' into W.

Lemma thread_init_ctx_ok sp pc q tq s : tcbs s !! q = Some tq -> THREAD_ROOT <= GLOBALID_TO_TID (t_globalid tq) ->
  (forall r, 0 <= r < 8 -> is_Some (words s !! reg_addr (sp -w RESERVED_STACK) r)) ->
  thread_init_ctx sp pc q s = Done (tt, set_words (write_frame (sp -w RESERVED_STACK) 0 (start_frame (kip_addr s) (t_utcb tq) pc) (words s))
    (set_tcbs (<[q := with_ctx (started_ctx sp (t_ctx tq)) tq]> (tcbs s)) s)).
Proof.
  intros Hq Hid Hw. unfold thread_init_ctx. set (sp' := sp -w RESERVED_STACK) in *. rewrite (bind_Done _ _ _ _ _ (upd_tcb_ok _ _ _ _ Hq)).
  set (s1 := set_tcbs _ s). set (t1 := with_ctx (with_sp sp' (t_ctx tq)) tq). assert (H1 : tcbs s1 !! q = Some t1) by apply lookup_insert_eq.
  rewrite (bind_Done _ _ _ _ _ (get_tcb_ok _ _ _ H1)). change (t_globalid t1) with (t_globalid tq). rewrite (proj2 (Z.geb_le _ _) Hid).
  set (s2 := set_tcbs (<[q := with_ctx (started_ctx sp (t_ctx tq)) tq]> (tcbs s)) s).
  assert (E2 : upd_tcb q (fun t => with_ctx (with_ret_ctl 4294967293 3 (t_ctx t)) t) s1 = Done (tt, s2)).
  { rewrite (upd_tcb_ok _ _ _ _ H1). unfold s1, s2. cbn [tcbs set_tcbs]. by rewrite insert_insert_eq. }
  assert (W2 : forall r, 0 <= r < 8 -> is_Some (words s2 !! reg_addr sp' r)) by exact Hw.
  destruct (write_words_ok sp' s2 W2 REG_R0 (kip_addr s)) as [E3 W3]; [unfold REG_R0; lia|]. destruct (write_words_ok sp' _ W3 REG_R1 (t_utcb tq)) as [E4 W4]; [unfold REG_R1; lia|].
  match goal with |- (_ ← ?m; _) s1 = _ => assert (Eb : m s1 = Done (tt, set_words (<[reg_addr sp' REG_R1 := t_utcb tq]> (<[reg_addr sp' REG_R0 := kip_addr s]> (words s2))) s2)) end.
  { rewrite (bind_Done _ _ _ _ _ E2). rewrite (bind_Done (gets kip_addr) _ s2 _ _ eq_refl). rewrite (bind_Done _ _ _ _ _ E3). exact E4. }
  rewrite (bind_Done _ _ _ _ _ Eb). clear Eb E2 E3 E4.
  write_reg W4 REG_R2 0. write_reg W4 REG_R3 0. write_reg W4 REG_R12 0. write_reg W4 REG_LR 4294967295. write_reg W4 REG_PC pc.
  destruct (write_words_ok sp' _ W4 REG_xPSR 16777216) as [E10 _]; [unfold REG_xPSR; lia|]. exact E10.
Qed.

Section calls.
Variable sym : symbols.

Lemma thr_bind {A B} (m : M thrstate A) (k : A -> M kstate B) s a : m (k_thr s) = Done (a, k_thr s) -> (x ← thr m; k x) s = k a s.
Proof. intros H. by rewrite (bind_Done _ _ _ _ _ (thr_read _ _ _ H)). Qed.

Lemma syscall_ipc s p t u c : called s p t u c -> uc_num c = 6 -> syscall_handler sym s = sys_ipc sym (c_sp (t_ctx t)) s.
Proof.
  intros [Hp (Ht & _) _ _ _ _ (pc & Hpc & Hcode)] Hn. unfold syscall_handler. rewrite (thr_bind _ _ _ p) by (by rewrite <- Hp).
  rewrite (thr_bind _ _ _ t) by (by apply get_tcb_ok). cbv zeta. rewrite (thr_bind _ _ _ pc) by (by apply read_word_ok).
  assert (E : read_code (pc -w 2) s = Done (6, s)) by (unfold read_code; by rewrite Hcode, Hn). by rewrite (bind_Done _ _ _ _ _ E).
Qed.

(** A message to a thread that has not been started. *)
Lemma send_created s p t u c tid q tq uq : called s p t u c -> sends_to tid c -> created s p t u tid q tq uq ->
  syscall_handler sym s = (tag ← thr (ipc_read_mr p 0); if tag =? 3 then start_thread q else do_ipc p q;; thr (upd_tcb q (with_state T_INACTIVE))) s.
Proof.
  intros Hc (S1 & S2 & S3 & S4) [(ents & Hm & Ho & Hin) Hnull Hne Hut (Hq & Hu & _) Hst Hpg Hoth Hnil Hlog]. rewrite (syscall_ipc s p t u c Hc S1).
  destruct Hc as [Hp (Ht & _) _ H0 H1 H2 _]. unfold sys_ipc. rewrite (thr_bind _ _ _ (uc_r0 c)) by (by apply read_word_ok). rewrite (thr_bind _ _ _ (uc_r1 c)) by (by apply read_word_ok).
  rewrite (thr_bind _ _ _ (uc_r2 c)) by (by apply read_word_ok). rewrite S2, S4, (proj2 (Z.eqb_neq _ _) Hnil). cbn [andb negb]. unfold ipc_send.
  rewrite (thr_bind _ _ _ p) by (by rewrite <- Hp). rewrite (bind_Done _ _ _ _ _ (thread_by_globalid_thr s ents tid q _ Hm Ho Hin eq_refl)).
  rewrite (thr_bind _ _ _ t) by (by apply get_tcb_ok). rewrite (proj2 (Z.eqb_neq _ _) Hlog). rewrite (proj2 (Z.eqb_neq _ _) Hnull). cbn [negb].
  assert (E1 : (t0 ← thr (get_tcb q); mret (bool_decide (t_state t0 = T_RECV_BLOCKED))) s = Done (false, s)) by (rewrite (thr_bind _ _ _ tq) by (by apply get_tcb_ok); by rewrite Hst).
  rewrite (bind_Done _ _ _ _ _ E1). rewrite (proj2 (Z.eqb_neq _ _) Hoth). cbn [orb].
  match goal with |- ((x ← ?m; _) s) = _ => assert (E2 : m s = Done (true, s)) end.
  { rewrite (thr_bind _ _ _ tq) by (by apply get_tcb_ok). rewrite bool_decide_true by done. rewrite (thr_bind _ _ _ uq) by (by apply get_utcb_ok). by rewrite Hpg, Z.eqb_refl. }
  by rewrite (bind_Done _ _ _ _ _ E2).
Qed.

(** The state of the threads when [q] has been started by [p]. *)
Definition started_thr (p : Z) (q : Z) (t tq : tcb) (ip sp size : Z) (x : thrstate) : thrstate :=
  set_words (write_frame (sp -w RESERVED_STACK) 0 (start_frame (kip_addr x) (t_utcb tq) ip) (words x))
    (set_tcbs (<[q := with_state T_RUNNABLE (with_ctx (started_ctx sp (t_ctx tq)) (with_stack (sp -w size) size tq))]>
                 (<[p := with_state T_RUNNABLE t]> (tcbs x))) x).

Lemma start_thread_ok s p t u q tq ip sp size rest : caller (k_thr s) = p -> has_message (k_thr s) p t u -> message t u = 3 :: ip :: sp :: size :: rest ->
  tcbs (k_thr s) !! q = Some tq -> q <> p -> THREAD_ROOT <= GLOBALID_TO_TID (t_globalid tq) ->
  (forall r, 0 <= r < 8 -> is_Some (words (k_thr s) !! reg_addr (sp -w RESERVED_STACK) r)) ->
  start_thread q s = Done (tt, set_thr (started_thr p q t tq ip sp size (k_thr s)) s).
Proof.
  intros Hp Hm E Hq Hne Hid Hw. unfold start_thread. rewrite (thr_bind _ _ _ p) by (by rewrite <- Hp).
  rewrite (thr_bind _ _ _ sp) by (apply (ipc_read_mr_ok _ _ t u 2 _ Hm); by rewrite E). rewrite (thr_bind _ _ _ size) by (apply (ipc_read_mr_ok _ _ t u 3 _ Hm); by rewrite E).
  rewrite (bind_Done _ _ _ _ _ (thr_Done _ s _ _ (upd_tcb_ok _ _ _ _ Hq))). set (tq1 := with_stack (sp -w size) size tq). set (x1 := set_tcbs _ (k_thr s)). set (s1 := set_thr x1 s).
  assert (Hm1 : has_message (k_thr s1) p t u) by (destruct Hm as (M1 & M2); split; [cbn; by rewrite lookup_insert_ne|done]).
  rewrite (thr_bind _ _ _ ip) by (apply (ipc_read_mr_ok _ _ t u 1 _ Hm1); by rewrite E).
  assert (Hq1 : tcbs (k_thr s1) !! q = Some tq1) by apply lookup_insert_eq.
  rewrite (bind_Done _ _ _ _ _ (thr_Done _ s1 _ _ (thread_init_ctx_ok sp ip q tq1 (k_thr s1) Hq1 Hid Hw))). set (tq2 := with_ctx (started_ctx sp (t_ctx tq1)) tq1). set (s2 := set_thr _ s1).
  assert (E3 : set_caller_state T_RUNNABLE s2 = Done (tt, set_thr (set_tcbs (<[p := with_state T_RUNNABLE t]> (tcbs (k_thr s2))) (k_thr s2)) s2)).
  { unfold set_caller_state. rewrite (thr_bind _ _ _ p) by (by rewrite <- Hp). apply thr_Done, upd_tcb_ok. cbn. rewrite lookup_insert_ne, lookup_insert_ne by done. apply Hm. }
  rewrite (bind_Done _ _ _ _ _ E3). set (s3 := set_thr _ s2). assert (Hq3 : tcbs (k_thr s3) !! q = Some tq2) by (cbn; by rewrite lookup_insert_ne, lookup_insert_eq by done).
  rewrite (thr_Done _ s3 _ _ (upd_tcb_ok _ _ _ _ Hq3)). unfold started_thr. fold tq1.
  assert (Em : <[q := with_state T_RUNNABLE tq2]> (<[p := with_state T_RUNNABLE t]> (<[q := tq2]> (<[q := tq1]> (tcbs (k_thr s))))) = <[q := with_state T_RUNNABLE tq2]> (<[p := with_state T_RUNNABLE t]> (tcbs (k_thr s)))).
  { by rewrite insert_insert_eq, (insert_insert_ne _ p q), insert_insert_eq by done. }
  change (with_ctx (started_ctx sp (t_ctx tq)) tq1) with tq2. rewrite <- Em. reflexivity.
Qed.

(** ** A mapping *)

Lemma item_fields base : item_header (Z.lor (Z.land base 0xFFFFFFC0) 0xA) = 10 /\ Z.land (Z.lor (Z.land base 0xFFFFFFC0) 0xA) 0xFFFFFFC0 = Z.land base 0xFFFFFFC0.
Proof.
  unfold item_header. rewrite !Z.land_lor_distr_l, <- !Z.land_assoc. split.
  - change (Z.land 0xFFFFFFC0 15) with 0. by rewrite Z.land_0_r.
  - change (Z.land 10 0xFFFFFFC0) with 0. by rewrite Z.land_diag, Z.lor_0_r.
Qed.

(** The state in which [q] has the message [m]. *)
Definition given (q : Z) (tq : tcb) (uq : utcb) (m : list Z) (s : kstate) : kstate := set_thr (put_message q tq uq m (k_thr s)) s.

Lemma move_word {A} (k : Z -> M kstate A) s p t u q tq uq m (i : nat) w : has_message (k_thr s) p t u -> q <> p -> t_utcb tq <> t_utcb t -> length m = 16%nat -> (i < 16)%nat -> message t u !! i = Some w ->
  (x ← thr (ipc_read_mr p (Z.of_nat i)); thr (ipc_write_mr q (Z.of_nat i) x);; k x) (given q tq uq m s) = k w (given q tq uq (<[i := w]> m) s).
Proof.
  intros Hm Hne Hu Hl Hi Hw. assert (Hm' : has_message (k_thr (given q tq uq m s)) p t u) by (apply has_message_put_other; [done|congruence|congruence]).
  rewrite (thr_bind _ _ _ w) by (by apply (ipc_read_mr_ok _ _ t u)). by rewrite (bind_Done _ _ _ _ _ (thr_Done _ (given q tq uq m s) _ _ (ipc_write_mr_ok (k_thr s) q tq uq m i w Hl Hi))).
Qed.

Lemma copy_typed_map s p t u q tq uq tag base size rest r m m1 : has_message (k_thr s) p t u -> q <> p -> t_utcb tq <> t_utcb t -> length m1 = 16%nat ->
  message t u = tag :: Z.lor (Z.land base 0xFFFFFFC0) 0xA :: Z.land size 0xFFFFFFC0 :: rest -> GLOBALID_TO_TID (t_globalid t) = THREAD_ROOT ->
  map_area (t_as t) (t_as tq) (Z.land base 0xFFFFFFC0) (Z.land size 0xFFFFFFC0) GRANT true (k_mem s) = Done (r, m) ->
  copy_typed 2 1 None p q (given q tq uq m1 s) =
    Done (tt, set_mem m (given q tq uq (<[2%nat := Z.land size 0xFFFFFFC0]> (<[1%nat := Z.lor (Z.land base 0xFFFFFFC0) 0xA]> m1)) s)).
Proof.
  intros Hm Hne Hu Hl E Hid Hmap. set (item := Z.lor _ 0xA) in *. set (sz := Z.land size 0xFFFFFFC0) in *. destruct (item_fields base) as [Hh Hb]. fold item in Hh, Hb. cbn [copy_typed].
  change 1 with (Z.of_nat 1) at 1 2. rewrite (move_word _ s p t u q tq uq m1 1 item) by (done || lia || by rewrite E). change (1 + 1) with (Z.of_nat 2).
  rewrite (move_word _ s p t u q tq uq _ 2 sz) by (done || (rewrite length_insert; lia) || lia || by rewrite E). set (m3 := <[2%nat := sz]> _). set (s3 := given q tq uq m3 s).
  rewrite Hh. change (truth (Z.land 10 IPC_TI_MAP_GRANT)) with true. change (truth (Z.land 10 IPC_TI_GRANT)) with true. cbv iota.
  assert (Hf : tcbs (k_thr s3) !! p = Some t) by (cbn; rewrite lookup_insert_ne by done; apply Hm). rewrite (thr_bind _ _ s3 t) by (by apply get_tcb_ok).
  rewrite (thr_bind _ _ s3 (with_ctx_regs (take 8 m3) tq)) by (apply get_tcb_ok, lookup_insert_eq).
  rewrite (thr_bind _ _ s3 true) by (unfold thread_ispriviliged; rewrite (bind_Done _ _ _ _ _ (get_tcb_ok _ _ _ Hf)), Hid; done).
  rewrite Hb. unfold sz at 1. rewrite <- Z.land_assoc, Z.land_diag.
  assert (Em : mem (map_area (t_as t) (t_as tq) (Z.land base 0xFFFFFFC0) (Z.land size 0xFFFFFFC0) GRANT true) s3 = Done (r, set_mem m s3)) by exact (on_Done (P := memstate) (S := kstate) _ s3 r m Hmap).
  by rewrite (bind_Done _ _ _ _ _ Em).
Qed.

Lemma do_ipc_map s p t u q tq uq base size r m : caller (k_thr s) = p -> has_message (k_thr s) p t u -> has_message (k_thr s) q tq uq -> q <> p -> t_utcb tq <> t_utcb t ->
  map_message base size (message t u) -> GLOBALID_TO_TID (t_globalid t) = THREAD_ROOT -> c_sp (t_ctx tq) = 0 ->
  map_area (t_as t) (t_as tq) (Z.land base 0xFFFFFFC0) (Z.land size 0xFFFFFFC0) GRANT true (k_mem s) = Done (r, m) ->
  let x := put_message q tq uq (take 3 (message t u) ++ drop 3 (message tq uq)) (k_thr s) in
  do_ipc p q s = Done (tt, set_thr (set_tcbs (<[p := with_state T_RUNNABLE t]> (tcbs x)) x) (set_mem m s)).
Proof.
  intros Hp Hm Hq Hne Hu (tag & rest & E & Hnu & Hnt & _) Hid Hsp Hmap x. pose proof (length_message _ _ _ _ Hq) as Hl. set (mq := message tq uq) in *.
  assert (Hs : s = given q tq uq mq s) by (unfold given, mq; rewrite (put_message_id _ _ _ _ Hq); by destruct s).
  unfold do_ipc. rewrite (thr_bind _ _ _ tag) by (apply (ipc_read_mr_ok _ _ t u 0 _ Hm); by rewrite E). rewrite Hnu, Hnt. change (0 + 1 + 2 >? IPC_MR_COUNT) with false. change (0 + 1) with 1. cbv iota zeta.
  set (m1 := <[0%nat := tag]> mq). assert (E0 : thr (ipc_write_mr q 0 tag) s = Done (tt, given q tq uq m1 s)).
  { rewrite Hs at 1. exact (thr_Done _ (given q tq uq mq s) _ _ (ipc_write_mr_ok (k_thr s) q tq uq mq 0 tag Hl ltac:(lia))). }
  rewrite (bind_Done _ _ _ _ _ E0). clear E0.
  rewrite (bind_Done (thr (copy_untyped (Z.to_nat 0) 1 p q)) _ (given q tq uq m1 s) tt (given q tq uq m1 s)) by done. change (Z.to_nat 2) with 2%nat.
  assert (Hl1 : length m1 = 16%nat) by (unfold m1; by rewrite length_insert). rewrite (bind_Done _ _ _ _ _ (copy_typed_map s p t u q tq uq tag base size rest r m m1 Hm Hne Hu Hl1 E Hid Hmap)).
  set (m3 := <[2%nat := _]> _). set (s3 := set_mem m (given q tq uq m3 s)).
  assert (Hm3 : m3 = take 3 (message t u) ++ drop 3 mq) by (unfold m3, m1; rewrite E; clear -Hl; do 3 (destruct mq as [|? mq]; [done|]); done).
  assert (Hf : tcbs (k_thr s3) !! p = Some t) by (cbn; rewrite lookup_insert_ne by done; apply Hm). rewrite (thr_bind _ _ s3 t) by (by apply get_tcb_ok).
  rewrite (thr_bind _ _ s3 (with_ctx_regs (take 8 m3) tq)) by (apply get_tcb_ok, lookup_insert_eq). cbn [c_sp t_ctx with_ctx_regs with_ctx]. rewrite Hsp. cbn [Z.eqb orb].
  rewrite (thr_bind _ _ s3 p) by (by rewrite <- Hp). rewrite (thr_Done _ s3 _ _ (upd_tcb_ok _ _ _ _ Hf)). unfold x. rewrite <- Hm3. reflexivity.
Qed.
End calls.

(** ** The free memory *)

(** The fields of a descriptor: an aligned number with a small one in its low bits. *)
Lemma desc_fields x k : 0 <= k < 64 ->
  Z.land (Z.lor (addr_align x CONFIG_SMALLEST_FPAGE_SIZE) k) 63 = k /\ Z.land (Z.lor (addr_align x CONFIG_SMALLEST_FPAGE_SIZE) k) 0xFFFFFFC0 = addr_align x CONFIG_SMALLEST_FPAGE_SIZE.
Proof.
  intros Hk. unfold addr_align. change (not32 (CONFIG_SMALLEST_FPAGE_SIZE -w 1)) with 0xFFFFFF00. set (y := _ +w _). rewrite !Z.land_lor_distr_l, <- !Z.land_assoc. split.
  - change (Z.land 0xFFFFFF00 63) with 0. rewrite Z.land_0_r, Z.lor_0_l. change 63 with (Z.ones 6). rewrite Z.land_ones by lia. apply Z.mod_small. lia.
  - change (Z.land 0xFFFFFF00 0xFFFFFFC0) with 0xFFFFFF00. assert (E : Z.land k 0xFFFFFFC0 = 0); [|by rewrite E, Z.lor_0_r].
    rewrite <- (Z.mod_small k (2 ^ 6)), <- Z.land_ones, <- Z.land_assoc by lia. change (Z.land (Z.ones 6) 0xFFFFFFC0) with 0. apply Z.land_0_r.
Qed.

(** The descriptors of the pools [l], the first of which has the number [i]. *)
Fixpoint pool_descs (l : list mempool_t) (i : Z) : list (Z * Z) :=
  match l with
  | [] => []
  | p :: l =>
      if pool_in_kip (mp_tag p) then
        (Z.lor (addr_align (mp_start p) CONFIG_SMALLEST_FPAGE_SIZE) i, Z.lor (addr_align (mp_end p -w mp_start p) CONFIG_SMALLEST_FPAGE_SIZE) (tag_value (mp_tag p))) :: pool_descs l (i + 1)
      else pool_descs l (i + 1)
  end.

Lemma kip_pools_descs l : forall i (j : nat) d d' j', (j <= length d)%nat -> kip_pools l i (Z.of_nat j) d = Some (d', j') ->
  j' = Z.of_nat (j + length (pool_descs l i)) /\ take (Z.to_nat j') d' = take j d ++ pool_descs l i.
Proof.
  induction l as [|p l IH]; intros i j d d' j' Hj H; cbn [kip_pools pool_descs] in *.
  - injection H as <- <-. cbn [length]. rewrite Nat.add_0_r, Nat2Z.id, app_nil_r. done.
  - destruct (pool_in_kip (mp_tag p)); [|by apply IH]. set (e := (Z.lor _ _, Z.lor _ _)) in *. destruct (zinsert (Z.of_nat j) e d) as [d1|] eqn:Ei; [|done]. cbn in H.
    unfold zinsert in Ei. case_decide as Hd; [|done]. injection Ei as <-. rewrite Nat2Z.id in H. replace (Z.of_nat j + 1) with (Z.of_nat (S j)) in H by lia.
    destruct (IH (i + 1) (S j) (<[j := e]> d) d' j' ltac:(rewrite length_insert; lia) H) as [-> E]. split; [cbn [length]; lia|]. rewrite E. cbn [length].
    rewrite (take_S_r _ _ e) by (apply list_lookup_insert_eq; lia). rewrite take_insert_ge by lia. by rewrite <- app_assoc.
Qed.

(** The free memory of the root thread, from the descriptors of [memory_init]: the memory behind
    the data of the users, from the next page on. *)
Theorem kernel_free_base (L : layout) (ptr : Z) (s s' : memstate) (Hmap : memmap s = memmap_of L) (Hlen : length (mem_desc s) = 16%nat)
    (Hinit : memory_init ptr s = Done (tt, s')) :
  free_base (mem_desc s') (memory_info s').2 = addr_align (user_bss_end L) CONFIG_SMALLEST_FPAGE_SIZE.
Proof.
  unfold memory_init, fpages_init, in_fpage_table, in_as_table, zoom, gets, modify, mbind, M_bind in Hinit.
  destruct (ktable_init (fpage_table s)) as [[? k1]| | |]; try done. destruct (ktable_init (as_table _)) as [[? k2]| | |]; try done.
  cbn [memmap mem_desc set_as_table set_fpage_table] in Hinit. rewrite Hmap in Hinit. destruct (kip_pools (memmap_of L) 0 0 (mem_desc s)) as [[l j]|] eqn:Ek; [|done]. injection Hinit as <-.
  cbn [set_kip mem_desc memory_info snd fst]. clear Hmap k1 k2 ptr. revert Hlen Ek. generalize (mem_desc s). intros d Hlen Ek.
  destruct (kip_pools_descs _ 0 0 d l j ltac:(lia) Ek) as [-> E]. change (Z.land (Z.of_nat (0 + length (pool_descs (memmap_of L) 0))) 65535) with (Z.of_nat (0 + length (pool_descs (memmap_of L) 0))).
  unfold free_base. rewrite E, take_0. unfold memmap_of. cbn [app pool_descs pool_in_kip mp_tag mp_start mp_end tag_value List.find fst snd].
  do 3 (match goal with |- context [Z.land (Z.lor (addr_align ?x _) ?k) 63 =? 4] => rewrite (proj1 (desc_fields x k ltac:(lia))) end; cbn [Z.eqb Pos.eqb]).
  match goal with |- context [Z.land (Z.lor (addr_align ?x _) ?k) 63 =? 4] => rewrite (proj1 (desc_fields x k ltac:(lia))) end. cbn [Z.eqb Pos.eqb fst]. apply desc_fields. lia.
Qed.

(** ** Printing *)

(** The call that [printf] makes, whatever the kernel answers. *)
Lemma printf_call answer msg va format s :
  (forall tr, length (answer tr).1.2 = 8%nat /\ length (u_mr (answer tr).2) = 8%nat) -> length msg = 16%nat -> vr_ok (get_part s) ->
  exists s' c rest, printf (svc answer) msg va format s = Done (0, s') /\ us_trace s' = us_trace s ++ [c] /\ sends_to (TID_TO_GLOBALID THREAD_LOG) c /\ uc_words c = 2 :: format :: va :: rest.
Proof.
  intros Hans Hl Hs. assert (Hans' : forall tr, length (answer tr).1.2 = 8%nat /\ length (u_mr (answer tr).2) = 8%nat /\ True) by (intros tr; by destruct (Hans tr)).
  assert (E : (L4_MsgClear;; L4_MsgAppendWord format;; L4_MsgAppendWord va) msg = Done (tt, 2 :: format :: va :: drop 3 msg)) by (do 16 (destruct msg as [|? msg]; [done|]); destruct msg; [|done]; reflexivity).
  assert (Hv : msg_view (2 :: format :: va :: drop 3 msg) [format; va] []) by (exists 2, (drop 3 msg); split; [done|]; split; [cbn [length]; rewrite length_drop; lia|done]).
  destruct (load_send_ok answer (fun _ => True) Hans' _ _ _ (TID_TO_GLOBALID THREAD_LOG) s (conj Hs I) Hv) as (s' & ws & E' & T & _ & _ & _ & Hw & Hp).
  exists s', (mk_ucall 6 (TID_TO_GLOBALID THREAD_LOG) 0 0 0 ws), (drop 3 ws). split.
  - unfold printf. rewrite (build_Done msg _ _ _ _ E). clear -E'. unfold mbind, M_bind in *. destruct (on (L4_MsgLoad _) s) as [[? s1]| | |]; try done.
    destruct (L4_Send (svc answer) _ s1) as [[? s2]| | |]; try done. by injection E' as ->.
  - split; [done|]. split; [done|]. cbn [uc_words length Nat.add] in *. rewrite <- (take_drop 3 ws) at 1. by rewrite Hp.
Qed.

(** The kernel prints the format and the arguments of that call, and the thread runs on. *)
Theorem printf_logged (sym : symbols) (s : kstate) (p : Z) (t : tcb) (u : utcb) (c : ucall) (ents : list (Z * Z)) (format va args : Z) (rest : list Z)
    (Hc : called s p t u c) (Hs : sends_to (TID_TO_GLOBALID THREAD_LOG) c) (Hw : uc_words c = 2 :: format :: va :: rest) (Ha : words (k_thr s) !! va = Some args)
    (Hm : map_rep (k_thr s) ents) (Ho : ordered Z.lt ents.*2) (Hmax : exists q tid, (q, tid) ∈ ents /\ THREAD_LOG <= tid) :
  syscall_handler sym s = Done (tt, set_thr (set_tcbs (<[p := with_state T_RUNNABLE t]> (tcbs (k_thr s))) (k_thr s)) (set_log (k_log s ++ [(format, args)]) s)).
Proof.
  destruct Hs as (S1 & S2 & S3 & S4). rewrite (syscall_ipc sym s p t u c Hc S1). destruct Hc as [Hp (Ht & _ & Hr & _) Hmw H0 H1 H2 _]. unfold sys_ipc.
  rewrite (thr_bind _ _ _ (uc_r0 c)) by (by apply read_word_ok). rewrite (thr_bind _ _ _ (uc_r1 c)) by (by apply read_word_ok). rewrite (thr_bind _ _ _ (uc_r2 c)) by (by apply read_word_ok).
  rewrite S2, S4. change (TID_TO_GLOBALID THREAD_LOG =? L4_NILTHREAD) with false. cbn [andb negb]. unfold ipc_send. rewrite (thr_bind _ _ _ p) by (by rewrite <- Hp).
  destruct (thread_by_globalid_ok (k_thr s) ents (TID_TO_GLOBALID THREAD_LOG) Hm Ho Hmax) as (x & Ex & _). rewrite (thr_bind _ _ _ x) by exact Ex.
  rewrite (thr_bind _ _ _ t) by (by apply get_tcb_ok). rewrite Z.eqb_refl. unfold message in Hmw. rewrite Hw in Hmw. destruct (c_regs (t_ctx t)) as [|w0 [|w1 [|w2 regs]]] eqn:Eg; try done.
  injection Hmw as -> -> -> _.
  assert (El : user_log p s = Done (tt, set_log (k_log s ++ [(format, args)]) s)).
  { unfold user_log. rewrite (thr_bind _ _ _ t) by (by apply get_tcb_ok). rewrite Eg. rewrite (bind_Done (lift_opt _) _ s format s) by done. rewrite (bind_Done (lift_opt _) _ s va s) by done.
    by rewrite (thr_bind _ _ _ args) by (by apply read_word_ok). }
  rewrite (bind_Done _ _ _ _ _ El). set (s1 := set_log _ s). unfold set_caller_state. rewrite (thr_bind _ _ s1 p) by (by rewrite <- Hp). exact (thr_Done _ s1 _ _ (upd_tcb_ok _ _ (k_thr s1) _ Ht)).
Qed.

(** ** Properties *)

(** What the kernel does with the calls of the root thread, for a thread that it has created
    and not started.  Start: both threads run on; the new thread has the stack of the message
    (its base is the size below its top), its saved frame is at the top of the stack and has the
    entry as its program counter and the kernel interface page and its control block as its
    arguments.  Mapping: the memory is what [map_area] makes of the masked base and size, granted
    with the privilege of the root thread; the root thread runs on and the new thread still waits
    to be started. *)
Theorem root_calls_served (sym : symbols) (s : kstate) (p : Z) (t : tcb) (u : utcb) (c : ucall) (tid q : Z) (tq : tcb) (uq : utcb)
    (Hc : called s p t u c) (Hq : created s p t u tid q tq uq) :
  (forall ip sp size, asks (Start tid ip sp size) c -> THREAD_ROOT <= GLOBALID_TO_TID (t_globalid tq) ->
    (forall r, 0 <= r < 8 -> is_Some (words (k_thr s) !! reg_addr (sp -w RESERVED_STACK) r)) ->
    exists s' tq', syscall_handler sym s = Done (tt, s') /\ k_mem s' = k_mem s /\
      tcbs (k_thr s') !! p = Some (with_state T_RUNNABLE t) /\ tcbs (k_thr s') !! q = Some tq' /\
      t_state tq' = T_RUNNABLE /\ t_stack_base tq' = sp -w size /\ t_stack_size tq' = size /\ c_sp (t_ctx tq') = sp -w RESERVED_STACK /\
      words (k_thr s') !! reg_addr (c_sp (t_ctx tq')) REG_PC = Some ip /\
      words (k_thr s') !! reg_addr (c_sp (t_ctx tq')) REG_R0 = Some (kip_addr (k_thr s)) /\
      words (k_thr s') !! reg_addr (c_sp (t_ctx tq')) REG_R1 = Some (t_utcb tq)) /\
  (forall base size r m, asks (Map_stack tid base size) c -> GLOBALID_TO_TID (t_globalid t) = THREAD_ROOT -> c_sp (t_ctx tq) = 0 ->
    map_area (t_as t) (t_as tq) (Z.land base 0xFFFFFFC0) (Z.land size 0xFFFFFFC0) GRANT true (k_mem s) = Done (r, m) ->
    exists s' tq', syscall_handler sym s = Done (tt, s') /\ k_mem s' = m /\
      tcbs (k_thr s') !! p = Some (with_state T_RUNNABLE t) /\ tcbs (k_thr s') !! q = Some tq' /\ t_state tq' = T_INACTIVE /\ c_sp (t_ctx tq') = 0).
Proof.
  split.
  - intros ip sp size [Hs (rest & Hw & Hl)] Hid Hfr. rewrite (send_created sym s p t u c tid q tq uq Hc Hs Hq). destruct Hc as [Hp Hm Hmw _ _ _ _]. rewrite Hw in Hmw.
    rewrite (thr_bind _ _ _ 3) by (apply (ipc_read_mr_ok _ _ t u 0 _ Hm); by rewrite Hmw). cbn [Z.eqb Pos.eqb]. destruct Hq as [_ _ Hne _ (Hq & _) _ _ _ _ _].
    rewrite (start_thread_ok s p t u q tq ip sp size rest Hp Hm Hmw Hq Hne Hid Hfr). eexists _, _. split; [reflexivity|]. split; [done|].
    split; [unfold started_thr; cbn; by rewrite lookup_insert_ne, lookup_insert_eq by done|]. split; [unfold started_thr; cbn; apply lookup_insert_eq|]. do 4 (split; [done|]).
    set (fr := start_frame (kip_addr (k_thr s)) (t_utcb tq) ip).
    split; [exact (write_frame_at (sp -w RESERVED_STACK) fr 0 6 ip _ eq_refl ltac:(lia) ltac:(cbn; lia))|].
    split; [exact (write_frame_at (sp -w RESERVED_STACK) fr 0 0 _ _ eq_refl ltac:(lia) ltac:(cbn; lia))|exact (write_frame_at (sp -w RESERVED_STACK) fr 0 1 _ _ eq_refl ltac:(lia) ltac:(cbn; lia))].
  - intros base size r m [Hs Hmm] Hroot Hsp Hmap. rewrite (send_created sym s p t u c tid q tq uq Hc Hs Hq). destruct Hc as [Hp Hm Hmw _ _ _ _]. destruct Hq as [_ _ Hne Hu Hq Hst _ _ _ _]. rewrite <- Hmw in Hmm.
    pose proof Hmm as (tag & rest & E & Hnu & _). rewrite (thr_bind _ _ _ tag) by (apply (ipc_read_mr_ok _ _ t u 0 _ Hm); by rewrite E).
    destruct (Z.eqb_spec tag 3) as [->|_]; [done|]. rewrite (bind_Done _ _ _ _ _ (do_ipc_map s p t u q tq uq base size r m Hp Hm Hq Hne Hu Hmm Hroot Hsp Hmap)).
    set (x := put_message _ _ _ _ _). set (tq1 := with_ctx_regs (take 8 (take 3 (message t u) ++ drop 3 (message tq uq))) tq). set (s1 := set_thr _ _).
    assert (Hq1 : tcbs (k_thr s1) !! q = Some tq1) by (cbn; rewrite lookup_insert_ne by done; apply lookup_insert_eq). rewrite (thr_Done _ s1 _ _ (upd_tcb_ok _ _ _ _ Hq1)).
    eexists _, _. split; [reflexivity|]. split; [done|]. split; [cbn; by rewrite lookup_insert_ne, lookup_insert_eq by done|]. split; [apply lookup_insert_eq|]. split; [done|exact Hsp].
Qed.

(** *** An example: the root thread at 1000, a thread with the number 257 at 3000. *)

Definition ex_spaces : option (Z * Z * memstate) :=
  match (a ← as_create 32770; b ← as_create 4210690; mret (a, b)) (reset_mem layout0 0x20000900 0x20002200 (fun _ => 0)) with Done ((a, b), m) => Some (a, b, m) | _ => None end.
Definition ex_space_mem : memstate := match ex_spaces with Some (_, m) => m | None => reset_mem layout0 0x20000900 0x20002200 (fun _ => 0) end.
Definition ex_caller (regs : list Z) : tcb := mk_tcb 32770 64 T_SVC_BLOCKED 0 0 (mk_ctx 7000 4294967293 3 regs) 536879616 5000 0 0 0 3000.
Definition ex_created : tcb := mk_tcb 4210690 128 T_INACTIVE 0 0 (mk_ctx 0 0 0 (replicate 8 0)) 536879636 6000 0 0 1000 0.
Definition ex_created_utcb : utcb := with_u_pager 32770 (ex_utcb 4210690 0).
Definition ex_frame : gmap Z Z := list_to_map ((fun r => (reg_addr 0x200101e0 r, 0)) <$> [0; 1; 2; 3; 4; 5; 6; 7]).
Definition ex_call_thr (regs : list Z) : thrstate :=
  mk_thr (DECLARE_KTABLE 100000 CONFIG_MAX_THREADS 112) (<[1000 := ex_caller regs]> {[3000 := ex_created]}) ([1000; 3000] ++ replicate 30 0) 2
    (<[5000 := ex_utcb 32770 0]> {[6000 := ex_created_utcb]})
    (<[7000 := 4210690]> (<[7004 := 0]> (<[7008 := 0]> (<[7024 := 4096]> ex_frame)))) 1000 5000 1000 1000 0 0 0x20000900.
Definition ex_call (regs : list Z) : kstate := set_mem ex_space_mem (set_thr (ex_call_thr regs)
  (mk_k ex_thr ex_space_mem (replicate 6 (mk_slot 0 0)) (replicate 4 (mk_softirq 0 0)) ex_timer 0 0 (0, 0) (mk_cpu (replicate 8 0) 0 0 0 0) 0 0 {[4094 := 6]} [])).
Definition ex_ucall (regs : list Z) : ucall := mk_ucall 6 4210690 0 0 0 (regs ++ replicate 8 0).

Lemma ex_called regs : length regs = 8%nat -> called (ex_call regs) 1000 (ex_caller regs) (ex_utcb 32770 0) (ex_ucall regs).
Proof. intros H. constructor; try reflexivity; [by repeat split|]. exists 4096. by split. Qed.

Lemma ex_call_map regs : map_rep (ex_call_thr regs) [(1000, 2); (3000, 257)].
Proof.
  constructor.
  - split; [done|]. split; [done|]. split; [simpl; lia|]. by intros [|[|k]] p Hk; simpl in *; simplify_eq.
  - repeat constructor; by eexists.
  - intros [|[|a]] [|[|b]] x y Hab; simpl; intros; simplify_eq; lia || done.
Qed.

Lemma ex_created_ok regs : created (ex_call regs) 1000 (ex_caller regs) (ex_utcb 32770 0) 4210690 3000 ex_created ex_created_utcb.
Proof.
  constructor; try discriminate; try reflexivity; [|by repeat split]. exists [(1000, 2); (3000, 257)]. split; [exact (ex_call_map regs)|]. split; [|set_solver].
  by intros [|[|a]] [|[|b]] x y; simpl; intros; simplify_eq; try lia.
Qed.

Definition ex_start_regs : list Z := [3; 0x08006101; 0x20010200; 0x200; 0; 0; 0; 0].
Definition ex_map_regs : list Z := [128; Z.lor (Z.land 0x20010000 0xFFFFFFC0) 0xA; Z.land 0x200 0xFFFFFFC0; 0; 0; 0; 0; 0].
Definition ex_mapped : memstate := match map_area 536879616 536879636 0x20010000 0x200 GRANT true ex_space_mem with Done (_, m) => m | _ => ex_space_mem end.

Lemma root_calls_served_witness :
  (exists s' tq', syscall_handler ex_symbols (ex_call ex_start_regs) = Done (tt, s') /\ tcbs (k_thr s') !! 3000 = Some tq' /\ t_state tq' = T_RUNNABLE /\
    words (k_thr s') !! reg_addr (c_sp (t_ctx tq')) REG_PC = Some 0x08006101) /\
  (exists s', syscall_handler ex_symbols (ex_call ex_map_regs) = Done (tt, s') /\ k_mem s' = ex_mapped).
Proof.
  split.
  - destruct (proj1 (root_calls_served ex_symbols _ _ _ _ _ _ _ _ _ (ex_called ex_start_regs eq_refl) (ex_created_ok ex_start_regs)) 0x08006101 0x20010200 0x200)
      as (s' & tq' & E & _ & _ & Hq & Hst & _ & _ & _ & Hpc & _).
    + split; [done|]. by exists (replicate 4 0 ++ replicate 8 0).
    + by vm_compute.
    + intros r Hr. assert (r = 0 \/ r = 1 \/ r = 2 \/ r = 3 \/ r = 4 \/ r = 5 \/ r = 6 \/ r = 7) as [->|[->|[->|[->|[->|[->|[->| ->]]]]]]] by lia; by eexists.
    + exists s', tq'. split; [exact E|]. split; [exact Hq|]. split; [exact Hst|exact Hpc].
  - destruct (proj2 (root_calls_served ex_symbols _ _ _ _ _ _ _ _ _ (ex_called ex_map_regs eq_refl) (ex_created_ok ex_map_regs)) 0x20010000 0x200 0 ex_mapped) as (s' & tq' & E & Hm & _).
    + split; [done|]. eexists _, _. split; [reflexivity|]. done.
    + reflexivity.
    + reflexivity.
    + vm_compute. reflexivity.
    + exists s'. split; [exact E|exact Hm].
Defined.
