(* ===== verification/UserKip.v ===== *)
(** * The user library: the kernel interface page

    Models the functions of [user/include/l4/kip.h] that read the kernel interface page, and
    compares them with what the kernel writes in it ([include/l4/kip_types.h],
    [kernel/memory.c], [kernel/thread.c]). The functions for C++ are left out. *)

From S2P Require Import Prelude Bits Bytes Thread UserLib.

(** The words of the memory; an address without a word is a fault. *)
Abbreviation word_mem := (gmap Z Z).
Definition load_word (a : Z) : M word_mem Z := fun m => match m !! a with Some w => Done (w, m) | None => Fault end.

(** ** The page: [L4_KernelInterfacePage_t] *)

Module L4_KernelInterfacePage.
Definition KernelVerPtr : Z := 0x0C.
Definition MemoryInfo : Z := 0x54.
Definition UtcbAreaInfo : Z := 0xA8.
Definition KipAreaInfo : Z := 0xAC.
Definition BootInfo : Z := 0xB8.
Definition ProcDescPtr : Z := 0xBC.
Definition ClockInfo : Z := 0xC0.
Definition ThreadInfo : Z := 0xC4.
Definition PageInfo : Z := 0xC8.
Definition ProcessorInfo : Z := 0xCC.
End L4_KernelInterfacePage.
Import L4_KernelInterfacePage.

Section page.
Variable KernelInterface : Z.

(** A bit-field of a word of the page. *)
Definition kip_field (word sh n : Z) : M word_mem Z := w ← load_word (KernelInterface + word); mret (field w sh n).
(** A word of the kernel descriptor. *)
Definition kernel_desc (i : Z) : M word_mem Z := p ← load_word (KernelInterface + KernelVerPtr); load_word ((KernelInterface +w p) + 4 * i).

Definition L4_KernelGenDate : M word_mem (Z * Z * Z) :=
  gen ← kernel_desc 1;
  mret (Z.land (Z.shiftr gen 9) 0x7f + 2000, Z.land (Z.shiftr gen 5) 0x0f, Z.land gen 0x1f).
Definition L4_KernelVersion : M word_mem Z := kernel_desc 2.
Definition L4_KernelSupplier : M word_mem Z := kernel_desc 3.
Definition L4_NumProcessors : M word_mem Z := n ← kip_field ProcessorInfo 0 16; mret (n + 1).
Definition L4_NumMemoryDescriptors : M word_mem Z := kip_field MemoryInfo 16 16.
Definition L4_PageSizeMask : M word_mem Z := m ← kip_field PageInfo 10 22; mret (shl32 m 10).
Definition L4_PageRights : M word_mem Z := kip_field PageInfo 0 3.
Definition L4_ThreadIdBits : M word_mem Z := kip_field ThreadInfo 0 8.
Definition L4_ThreadIdSystemBase : M word_mem Z := kip_field ThreadInfo 8 12.
Definition L4_ThreadIdUserBase : M word_mem Z := kip_field ThreadInfo 20 12.
Definition L4_ReadPrecision : M word_mem Z := kip_field ClockInfo 0 16.
Definition L4_SchedulePrecision : M word_mem Z := kip_field ClockInfo 16 16.
Definition L4_UtcbAreaSizeLog2 : M word_mem Z := kip_field UtcbAreaInfo 16 6.
Definition L4_UtcbAreaSize : M word_mem Z := s ← L4_UtcbAreaSizeLog2; mret (shl32 1 s).
Definition L4_UtcbAlignmentLog2 : M word_mem Z := kip_field UtcbAreaInfo 10 6.
Definition L4_UtcbSize : M word_mem Z := a ← kip_field UtcbAreaInfo 10 6; m ← kip_field UtcbAreaInfo 0 10; mret (shl32 1 a *w m).
Definition L4_KipAreaSizeLog2 : M word_mem Z := kip_field KipAreaInfo 0 6.
Definition L4_KipAreaSize : M word_mem Z := s ← L4_KipAreaSizeLog2; mret (shl32 1 s).
Definition L4_BootInfo : M word_mem Z := load_word (KernelInterface + BootInfo).
Definition L4_KernelVersionString : M word_mem Z := p ← load_word (KernelInterface + KernelVerPtr); mret ((KernelInterface +w p) +w 16).

(** A pointer to a descriptor: two words. *)
Definition L4_MemoryDesc (num : Z) : M word_mem Z :=
  n ← kip_field MemoryInfo 16 16;
  if num >=? n then mret 0
  else p ← kip_field MemoryInfo 0 16; mret ((KernelInterface +w p) + 8 * num).

Definition L4_ProcDesc (cpu : Z) : M word_mem Z :=
  processors ← kip_field ProcessorInfo 0 16;
  if cpu >? processors then mret 0
  else p ← load_word (KernelInterface + ProcDescPtr); s ← kip_field ProcessorInfo 28 4; mret ((KernelInterface +w p) +w (shl32 1 s *w cpu)).
End page.

Definition L4_IsMemoryDescVirtual (m : Z) : M word_mem bool := w ← load_word m; mret (truth (field w 9 1)).
Definition L4_MemoryDescType (m : Z) : M word_mem Z :=
  w ← load_word m; mret (if field w 0 4 >=? 0x0E then field w 0 4 + Z.shiftl (field w 4 4) 4 else field w 0 4).
Definition L4_MemoryDescLow (m : Z) : M word_mem Z := w ← load_word m; mret (shl32 (field w 10 22) 10).
Definition L4_MemoryDescHigh (m : Z) : M word_mem Z := w ← load_word (m + 4); mret (shl32 (field w 10 22) 10 +w 0x3ff).
Definition L4_ProcDescExternalFreq (p : Z) : M word_mem Z := load_word p.
Definition L4_ProcDescInternalFreq (p : Z) : M word_mem Z := load_word (p + 4).

(** [L4_Feature]: the loops over the strings, in a memory of bytes. *)
Fixpoint skip_string (fuel : nat) (str : Z) : M bytes Z :=
  match fuel with
  | O => fuel_out
  | S fuel => c ← read8 str; if negb (c =? 0) then skip_string fuel (str + 1) else mret (str + 1)
  end.
Fixpoint feature_loop (fuel : nat) (turns : nat) (str : Z) : M bytes Z :=
  str ← skip_string fuel str;
  c ← read8 str;
  if c =? 0 then mret 0
  else match turns with O => mret str | S turns => feature_loop fuel turns str end.
(** [version] is the result of [L4_KernelVersionString]. *)
Definition L4_Feature (fuel : nat) (version num : Z) : M bytes Z := feature_loop fuel (Z.to_nat num) version.

(** ** Strings *)

(** At [a] are the strings [ss], each with a zero behind it, and a further zero. *)
Fixpoint string_at (m : bytes) (a : Z) (s : list Z) : Prop :=
  match s with [] => m !! a = Some 0 | c :: s => m !! a = Some c /\ c <> 0 /\ string_at m (a + 1) s end.
Fixpoint strings_at (m : bytes) (a : Z) (ss : list (list Z)) : Prop :=
  match ss with [] => m !! a = Some 0 | s :: ss => string_at m a s /\ strings_at m (a + Z.of_nat (length s) + 1) ss end.
(** The address of the string [k]. *)
Fixpoint string_addr (a : Z) (ss : list (list Z)) (k : nat) : Z :=
  match k, ss with S k, s :: ss => string_addr (a + Z.of_nat (length s) + 1) ss k | _, _ => a end.

Lemma read8_Some a c m : m !! a = Some c -> read8 a m = Done (c, m).
Proof. intros H. unfold read8. by rewrite H. Qed.

Lemma skip_string_ok m s : forall fuel a, string_at m a s -> (length s < fuel)%nat -> skip_string fuel a m = Done (a + Z.of_nat (length s) + 1, m).
Proof.
  induction s as [|c s IH]; intros [|fuel] a H Hf; try (cbn in Hf; lia); cbn [string_at skip_string length] in *.
  - rewrite (bind_Done _ _ _ _ _ (read8_Some _ _ _ H)). cbn. by rewrite Z.add_0_r.
  - destruct H as (H1 & H2 & H3). rewrite (bind_Done _ _ _ _ _ (read8_Some _ _ _ H1)), (proj2 (Z.eqb_neq _ _) H2). cbn [negb]. rewrite IH by (done || lia). do 2 f_equal. lia.
Qed.

(** The features behind the version string: the feature [num], and 0 behind the last one. *)
Theorem L4_Feature_ok (m : bytes) (fuel : nat) (a : Z) (version : list Z) (features : list (list Z)) (num : nat)
    (Hm : strings_at m a (version :: features)) (Hne : Forall (fun s => s <> []) features) (Hf : Forall (fun s => (length s < fuel)%nat) (version :: features)) :
  L4_Feature fuel a (Z.of_nat num) m = Done (if (num <? length features)%nat then string_addr a (version :: features) (S num) else 0, m).
Proof.
  unfold L4_Feature. rewrite Nat2Z.id. revert a version features Hm Hne Hf. induction num as [|num IH]; intros a version features [Hv Hs] Hne Hf; apply Forall_cons in Hf as [Hf Hf'];
    cbn [feature_loop]; rewrite (bind_Done _ _ _ _ _ (skip_string_ok m version fuel a Hv Hf)); destruct features as [|s features]; cbn [strings_at] in Hs;
    try (rewrite (bind_Done _ _ _ _ _ (read8_Some _ _ _ Hs)); done);
    apply Forall_cons in Hne as [Hn Hne]; destruct s as [|c s]; try done; pose proof Hs as [(H1 & H2 & _) _]; rewrite (bind_Done _ _ _ _ _ (read8_Some _ _ _ H1)), (proj2 (Z.eqb_neq _ _) H2).
  - done.
  - rewrite (IH _ (c :: s) features Hs Hne Hf'). done.
Qed.

(** ** The page the kernel writes *)

(** The words [memory_init] and [thread_init_subsys] write in the page. *)
Record kernel_page (m : word_mem) (kip ptr n : Z) : Prop := {
  kp_memory : m !! (kip + 0x54) = Some (Z.lor ptr (Z.shiftl n 16));
  kp_user_base : m !! (kip + 0xC4) = Some THREAD_USER;
  kp_system_base : m !! (kip + 0xC8) = Some THREAD_SYS;
}.

Lemma load_word_ok a w m : m !! a = Some w -> load_word a m = Done (w, m).
Proof. intros H. unfold load_word. by rewrite H. Qed.
Lemma kip_field_ok kip a w sh n m : m !! (kip + a) = Some w -> kip_field kip a sh n m = Done (field w sh n, m).
Proof. intros H. unfold kip_field. by rewrite (bind_Done _ _ _ _ _ (load_word_ok _ _ _ H)). Qed.

Lemma memory_info_fields ptr n : 0 <= ptr < 65536 -> 0 <= n < 65536 -> field (Z.lor ptr (Z.shiftl n 16)) 0 16 = ptr /\ field (Z.lor ptr (Z.shiftl n 16)) 16 16 = n.
Proof.
  intros Hp Hn. unfold field. rewrite !Z.land_ones by lia. change (2 ^ 16) with 65536. split.
  - rewrite Z.shiftr_0_r. change 65536 with (2 ^ 16). rewrite <- Z.land_ones, Z.land_lor_distr_l, !Z.land_ones, Z.shiftl_mul_pow2, Z.mod_mul, Z.lor_0_r by lia. apply Z.mod_small. lia.
  - rewrite Z.shiftr_lor, Z.shiftr_shiftl_l by lia. change (16 - 16) with 0. rewrite Z.shiftl_0_r, Z.shiftr_div_pow2, Z.div_small, Z.lor_0_l by (cbn; lia). apply Z.mod_small. lia.
Qed.

(** The functions of the library find the descriptors of the kernel, and nothing behind them. *)
Theorem memory_descs_found (m : word_mem) (kip ptr n num : Z) (Hk : kernel_page m kip ptr n) (Hp : 0 <= ptr < 65536) (Hn : 0 <= n < 65536) :
  L4_NumMemoryDescriptors kip m = Done (n, m) /\ L4_MemoryDesc kip num m = Done (if num <? n then (kip +w ptr) + 8 * num else 0, m).
Proof.
  destruct Hk as [Hm _ _]. destruct (memory_info_fields ptr n Hp Hn) as [F1 F2]. split; [unfold L4_NumMemoryDescriptors; rewrite (kip_field_ok _ _ _ _ _ _ Hm); by rewrite F2|].
  unfold L4_MemoryDesc. rewrite (bind_Done _ _ _ _ _ (kip_field_ok _ _ _ 16 16 _ Hm)), F2. destruct (Z.geb_spec num n), (Z.ltb_spec num n); try lia; [done|].
  by rewrite (bind_Done _ _ _ _ _ (kip_field_ok _ _ _ 0 16 _ Hm)), F1.
Qed.

(** The first numbers of the threads of the users and of the system, 256 and 16, are in two words
    of the page of the kernel, and in fields of one word for the library: it finds 0 and 1. *)
Theorem thread_info_differs (m : word_mem) (kip ptr n : Z) (Hk : kernel_page m kip ptr n) :
  L4_ThreadIdUserBase kip m = Done (0, m) /\ L4_ThreadIdSystemBase kip m = Done (1, m) /\ THREAD_USER = 256 /\ THREAD_SYS = 16.
Proof.
  destruct Hk as [_ Hu _]. unfold L4_ThreadIdSystemBase, L4_ThreadIdUserBase. by rewrite !(kip_field_ok _ ThreadInfo _ _ _ _ Hu).
Qed.
