(* ===== verification/UserString.v ===== *)
(** * The user library: compound strings and the buffers for them

    Models the string items of several substrings of [user/include/l4/message.h], the message
    objects and receive buffers that hold them, and the groups of buffer registers of
    [user/include/l4/platform/vregs.h].

    Pointers to string items walk over memory and may point into a message object, so the state
    is the memory of bytes of [Bytes], and a message object is its 16 words there.  A string item
    is a control word (bit 0 [C]: another string follows; bits 4 to 8 [j]; bit 9 [c]: the string
    goes on in the next item; bits 10 to 31 the length) and [j + 1] pointers behind it.

    The loops over items read a word at a higher address in each turn, so one turn
    more than memory has bytes is enough: the walk ends, or it faults behind the last byte. *)

From S2P Require Import Prelude Bits Bytes UserLib.

(** ** Fields of an item *)

Definition sizeof_L4_Word_t : Z := 4.
Definition str_C (w : Z) : Z := field w 0 1.
Definition str_j (w : Z) : Z := field w 4 5.
Definition str_c (w : Z) : Z := field w 9 1.
Definition set_C (w v : Z) : Z := put_bits w 0 1 v.
Definition set_j (w v : Z) : Z := put_bits w 4 5 v.
Definition set_c (w v : Z) : Z := put_bits w 9 1 v.

(** [&s->X.str.substring_ptr[n]] *)
Definition substring_ptr (s n : Z) : Z := s + sizeof_L4_Word_t + n * sizeof_L4_Word_t.

(** [s->X.f = v], where [f] is the setter of the field. *)
Definition set_item_field (f : Z -> Z) (s : Z) : M bytes unit := w ← read32 s; write32 s (f w).

Definition L4_Substring (s n : Z) : M bytes Z := read32 (substring_ptr s (n - 1)).

(** ** Walking over items *)

(** [do { prev = s; ... } while (prev->X.c);]: the end and the last item. *)
Fixpoint end_of_string_loop (fuel : nat) (s : Z) : M bytes (Z * Z) :=
  match fuel with
  | O => fuel_out
  | S fuel' =>
      let prev := s in
      w ← read32 s;
      let s := substring_ptr s (str_j w + 1) in
      w ← read32 prev;
      if truth (str_c w) then end_of_string_loop fuel' s else mret (s, prev)
  end.
Definition __L4_EndOfString (s : Z) : M bytes (Z * Z) := fun m => end_of_string_loop (S (size m)) s m.

(** [do { prev = s; ... } while (prev->X.C);]: the end and the last string. *)
Fixpoint end_of_strings_loop (fuel : nat) (s : Z) : M bytes (Z * Z) :=
  match fuel with
  | O => fuel_out
  | S fuel' =>
      let prev := s in
      r ← __L4_EndOfString s;
      let s := r.1 in
      w ← read32 prev;
      if truth (str_C w) then end_of_strings_loop fuel' s else mret (s, prev)
  end.
Definition __L4_EndOfStrings (s : Z) : M bytes (Z * Z) := fun m => end_of_strings_loop (S (size m)) s m.

(** [while (from < end) *dest++ = *from++;] *)
Fixpoint copy_string_loop (fuel : nat) (dest from last : Z) : M bytes unit :=
  if from <? last then
    match fuel with
    | O => fuel_out
    | S fuel' => w ← read32 from; write32 dest w;; copy_string_loop fuel' (dest + sizeof_L4_Word_t) (from + sizeof_L4_Word_t) last
    end
  else mret tt.
Definition __L4_Copy_String (d s : Z) : M bytes unit :=
  r ← __L4_EndOfString s;
  copy_string_loop (Z.to_nat (r.1 - s)) d s r.1.

Definition L4_AddSubstringTo (dest substr : Z) : M bytes Z :=
  r ← __L4_EndOfString dest;
  let '(dest, prev) := r in
  set_item_field (fun w => set_c w 1) prev;;
  __L4_Copy_String dest substr;;
  mret dest.

Definition L4_AddSubstringAddressTo (dest substring_addr : Z) : M bytes Z :=
  r ← __L4_EndOfString dest;
  let last := r.2 in
  set_item_field (fun w => set_j w (str_j w + 1)) last;;
  w ← read32 last;
  write32 (substring_ptr last (str_j w)) substring_addr;;
  mret dest.

(** ** Strings in a message object *)

(** [&msg->msg[i]] *)
Definition msg_word (msg i : Z) : Z := msg + i * sizeof_L4_Word_t.

Definition L4_MsgAppendStringItem (msg s : Z) : M bytes unit :=
  tag ← read32 msg;
  let d := msg_word msg (L4_UntypedWords tag + L4_TypedWords tag + 1) in
  r ← __L4_EndOfString s;
  let size := (r.1 - s) / sizeof_L4_Word_t in
  __L4_Copy_String d s;;
  tag ← read32 msg;
  write32 msg (put_bits tag 6 6 (L4_TypedWords tag + size)).

Definition L4_MsgPutStringItem (msg t s : Z) : M bytes unit :=
  tag ← read32 msg;
  __L4_Copy_String (msg_word msg (L4_UntypedWords tag + t + 1)) s.

(** The call [__L4_EndOfString(b, &s)] overwrites the parameter [s]. *)
Definition L4_MsgGetStringItem (msg t s : Z) : M bytes Z :=
  tag ← read32 msg;
  let b := msg_word msg (L4_UntypedWords tag + t + 1) in
  r ← __L4_EndOfString b;
  let '(e, s) := r in
  __L4_Copy_String s b;;
  mret ((e - b) / sizeof_L4_Word_t).

(** ** Receive buffers *)

Definition L4_MsgBufferClear (b : Z) : M bytes unit := write32 (msg_word b 2) 0;; write32 (msg_word b 0) 0.

(** [b->raw[0] || b->raw[2]] *)
Definition buffer_used (b : Z) : M bytes bool :=
  r0 ← read32 (msg_word b 0);
  if truth r0 then mret true else r2 ← read32 (msg_word b 2); mret (truth r2).

Definition L4_MsgBufferAppendSimpleRcvString (b : Z) (s : Z * Z) : M bytes unit :=
  let s0 := set_c (set_j s.1 0) 0 in
  used ← buffer_used b;
  if used : bool then
    r ← __L4_EndOfStrings b;
    let '(tmp, prev) := r in
    set_item_field (fun w => set_C w 1) prev;;
    write32 tmp s0;;
    write32 (tmp + sizeof_L4_Word_t) s.2
  else
    write32 (msg_word b 2) 4294967295;;
    write32 b s0;;
    write32 (b + sizeof_L4_Word_t) s.2;;
    set_item_field (fun w => set_C w 0) b.

Definition L4_MsgBufferAppendRcvString (b s : Z) : M bytes unit :=
  used ← buffer_used b;
  tmp ← (if used : bool then
           r ← __L4_EndOfStrings b;
           let '(tmp, prev) := r in
           set_item_field (fun w => set_C w 1) prev;;
           mret tmp
         else mret b);
  __L4_Copy_String tmp s;;
  set_item_field (fun w => set_C w 0) tmp.

(** ** Buffer registers *)

Section registers.
Context {S : Type} `{!Part bytes S} `{!Part vregs S}.

(** The loops [while (k-- > 0)]. *)
Fixpoint store_brs (k : nat) (j w : Z) : M S unit :=
  match k with
  | O => mret tt
  | Datatypes.S k => x ← on (get_br j); on (write32 w x);; store_brs k (j + 1) (w + sizeof_L4_Word_t)
  end.
Fixpoint load_brs (k : nat) (j w : Z) : M S unit :=
  match k with
  | O => mret tt
  | Datatypes.S k => x ← on (read32 w); on (put_br j x);; load_brs k (j + 1) (w + sizeof_L4_Word_t)
  end.

Definition L4_StoreBRs (i k w : Z) : M S unit :=
  if (i <? 0) || (k <=? 0) || (i + k >? __L4_NUM_BRS) then mret tt else store_brs (Z.to_nat k) i w.
Definition L4_LoadBRs (i k w : Z) : M S unit :=
  if (i <? 0) || (k <=? 0) || (i + k >? __L4_NUM_BRS) then mret tt else load_brs (Z.to_nat k) i w.

(** The inner loop of [L4_AcceptStrings]: the new [s] and [i]. *)
Fixpoint accept_string_loop (fuel : nat) (s i : Z) : M S (Z * Z) :=
  match fuel with
  | O => fuel_out
  | Datatypes.S fuel' =>
      let t := s in
      w ← on (read32 s);
      let n := str_j w + 2 in
      let s := substring_ptr s (n - 1) in
      L4_LoadBRs i n t;;
      let i := i + n in
      w ← on (read32 t);
      if truth (str_c w) then accept_string_loop fuel' s i else mret (s, i)
  end.
Fixpoint accept_strings_loop (fuel : nat) (s i : Z) : M S unit :=
  match fuel with
  | O => fuel_out
  | Datatypes.S fuel' =>
      let prev := s in
      m ← on (gets (fun m : bytes => m));
      r ← accept_string_loop (Datatypes.S (size m)) s i;
      w ← on (read32 prev);
      if truth (str_C w) then accept_strings_loop fuel' r.1 r.2 else mret tt
  end.
Definition L4_AcceptStrings (a b : Z) : M S unit :=
  on (L4_LoadBR 0 a);;
  m ← on (gets (fun m : bytes => m));
  accept_strings_loop (Datatypes.S (size m)) b 1.
End registers.
