(* ===== verification/UserStringProps.v ===== *)
(** * The user library: correctness of compound strings

    An abstract string is the list of its items, each a control word and its pointers; a buffer
    is a list of such strings.  The walks over items end in every memory, and on a memory that
    represents a string each operation is the one on the list. *)

From S2P Require Import Prelude Bits Bytes BytesProps WordArray UserLib UserLibProps UserString.

(** ** Abstract strings *)

Abbreviation item := (Z * list Z)%type.

(** As many pointers as the field [j] says. *)
Definition item_ok (x : item) : Prop := Z.of_nat (length x.2) = str_j x.1 + 1.
Definition goes_on (x : item) : Prop := truth (str_c x.1) = true.
Definition item_words (x : item) : list Z := x.1 :: x.2.
Definition string_words (l : list item) : list Z := l ≫= item_words.

(** A string: items that go on, and a last one that does not. *)
Definition string_ok (init : list item) (last : item) : Prop :=
  Forall (fun x => item_ok x /\ goes_on x) init /\ item_ok last /\ ~ goes_on last.

Lemma string_words_app l1 l2 : string_words (l1 ++ l2) = string_words l1 ++ string_words l2.
Proof. apply bind_app. Qed.
Lemma string_words_cons x l : string_words (x :: l) = item_words x ++ string_words l.
Proof. done. Qed.
Lemma length_item_words x : length (item_words x) = S (length x.2).
Proof. done. Qed.
Lemma string_words_length l : (length l <= length (string_words l))%nat.
Proof. induction l as [|x l IH]; [done|]. rewrite string_words_cons, length_app, length_item_words. cbn [length]. lia. Qed.

(** The address of the word behind [n] words. *)
Definition behind (p : Z) (n : nat) : Z := p + Z.of_nat n * 4.

Lemma substring_ptr_behind p x : item_ok x -> substring_ptr p (str_j x.1 + 1) = behind p (length (item_words x)).
Proof. unfold item_ok, substring_ptr, behind, sizeof_L4_Word_t. rewrite length_item_words. lia. Qed.
Lemma behind_app p (l1 l2 : list Z) : behind (behind p (length l1)) (length l2) = behind p (length (l1 ++ l2)).
Proof. unfold behind. rewrite length_app. lia. Qed.

(** ** Memory has enough bytes for the fuel *)

Lemma is_bytes_size m a (n : nat) : is_bytes m a (Z.of_nat n) -> (n <= size m)%nat.
Proof.
  intros H.
  assert (E : size (list_to_set (C := gset Z) (seqZ a (Z.of_nat n))) = n).
  { rewrite size_list_to_set by apply NoDup_seqZ. rewrite length_seqZ. lia. }
  rewrite <- E, <- (size_dom m). apply subseteq_size. intros x Hx. apply elem_of_list_to_set, elem_of_seqZ in Hx.
  apply elem_of_dom. destruct (H x ltac:(lia)) as (b & Hb & _). by exists b.
Qed.

Lemma warray_size m a l : warray m a l -> (length l <= size m)%nat.
Proof. intros (_ & H & _). apply (is_bytes_size m a). apply (is_bytes_sub m a _ _ _ H); lia. Qed.

Lemma warray_head m a x l : warray m a (x :: l) -> read32 a m = Done (x, m).
Proof. intros H. replace a with (a + Z.of_nat 0 * 4) by lia. by apply (warray_read m a (x :: l)). Qed.

(** ** Walks *)

Lemma end_of_string_loop_ok fuel m p init last : string_ok init last -> warray m p (string_words (init ++ [last])) -> (length init < fuel)%nat ->
  end_of_string_loop fuel p m = Done ((behind p (length (string_words (init ++ [last]))), behind p (length (string_words init))), m).
Proof.
  revert fuel p. induction init as [|x init IH]; intros [|fuel] p (Hi & Hl & Hn) Ha Hf; cbn [length] in Hf; try lia; cbn [end_of_string_loop].
  - cbn [app] in Ha. pose proof (warray_head m p _ _ Ha) as Hr. do 2 rewrite (bind_Done _ _ _ _ _ Hr).
    destruct (truth (str_c last.1)) eqn:E; [by destruct Hn|]. rewrite substring_ptr_behind by done.
    cbn [app]. rewrite string_words_cons. cbn [string_words mbind list_bind]. rewrite app_nil_r. unfold behind at 3. cbn [length].
    unfold mret, M_ret. do 3 f_equal. lia.
  - apply Forall_cons in Hi as [[Hx Hg] Hi]. cbn [app] in Ha |- *. rewrite string_words_cons in Ha.
    pose proof (warray_head m p _ _ Ha) as Hr. do 2 rewrite (bind_Done _ _ _ _ _ Hr). rewrite Hg, substring_ptr_behind by done.
    apply warray_app in Ha as [_ Ha]. rewrite (IH fuel (behind p (length (item_words x)))); [|done..|lia].
    rewrite !behind_app. by rewrite !string_words_cons.
Qed.

Lemma EndOfString_ok m p init last : string_ok init last -> warray m p (string_words (init ++ [last])) ->
  __L4_EndOfString p m = Done ((behind p (length (string_words (init ++ [last]))), behind p (length (string_words init))), m).
Proof.
  intros Hs Ha. apply end_of_string_loop_ok; [done..|]. pose proof (warray_size _ _ _ Ha). pose proof (string_words_length (init ++ [last])).
  rewrite length_app in H0. cbn [length] in H0. lia.
Qed.

(** ** Copies *)

Lemma warray_nil m a : a mod 4 = 0 -> warray m a [].
Proof. intros H. split; [done|]. split; [intros x Hx; cbn in Hx; lia|done]. Qed.

Lemma copy_string_loop_end fuel d s : copy_string_loop fuel d s (behind s 0) = mret tt.
Proof. unfold behind. rewrite Z.add_0_r. destruct fuel; cbn [copy_string_loop]; by rewrite Z.ltb_irrefl. Qed.

Lemma copy_string_loop_ok m d s l fuel : warray m s l -> d mod 4 = 0 -> is_bytes m d (Z.of_nat (length l) * 4) ->
  words_apart s (length l) d (length l) -> (length l <= fuel)%nat ->
  exists m', copy_string_loop fuel d s (behind s (length l)) m = Done (tt, m') /\ warray m' d l /\ same_outside d (length l) m m'.
Proof.
  revert fuel m d s. induction l as [|w l IH]; intros fuel m d s Ha Hd Hb Hap Hf.
  - exists m. cbn [length]. rewrite copy_string_loop_end. by auto using warray_nil.
  - destruct fuel as [|fuel]; cbn [length] in Hf; [lia|]. cbn [copy_string_loop]. cbn [length] in Hb, Hap. unfold words_apart in Hap.
    destruct (Z.ltb_spec s (behind s (length (w :: l)))) as [_|E]; [|unfold behind in E; cbn [length] in E; lia].
    rewrite (bind_Done _ _ _ _ _ (warray_head _ _ _ _ Ha)).
    assert (Hw : is_u32 w) by exact (warray_u32 m s (w :: l) 0 w Ha eq_refl).
    destruct (write32_at d w m Hd) as (m1 & Ew & Hb1 & Hw1 & Hf1); [apply (is_bytes_sub m d _ _ _ Hb); lia|]. rewrite (bind_Done _ _ _ _ _ Ew).
    pose proof Ha as Ha0. apply (warray_app m s [w] l) in Ha as [_ Ha]. cbn [length] in Ha.
    destruct (IH fuel m1 (d + 4) (s + 4)) as (m' & E' & Ha' & Hs'); [|by apply (aligned_word d 1)| |unfold words_apart; lia|lia|].
    { replace (s + 4) with (s + Z.of_nat 1 * 4) by lia. apply (warray_frame m); [done|]. intros x Hx. apply Hf1. lia. }
    { apply (is_bytes_frame m); [apply (is_bytes_sub m d _ _ _ Hb); lia|]. intros x Hx. apply Hf1. lia. }
    exists m'. replace (behind s (length (w :: l))) with (behind (s + 4) (length l)) by (unfold behind; cbn [length]; lia).
    split; [done|]. split; [|intros x Hx; cbn [length] in Hx; rewrite Hs' by lia; apply Hf1; lia].
    apply (warray_app m' d [w] l). split; [|cbn [length]; by replace (d + Z.of_nat 1 * 4) with (d + 4) by lia].
    split; [done|]. split; [apply (is_bytes_frame m1); [done|]; intros x Hx; cbn [length] in Hx; apply Hs'; lia|].
    intros [|i] v Hi; [|done]. injection Hi as <-. replace (d + Z.of_nat 0 * 4) with d by lia.
    rewrite (word_at_frame m1 m'), Hw1 by (intros x Hx; apply Hs'; lia). by apply wrap32_small.
Qed.

Lemma Copy_String_ok m d s init last : let l := string_words (init ++ [last]) in string_ok init last -> warray m s l ->
  d mod 4 = 0 -> is_bytes m d (Z.of_nat (length l) * 4) -> words_apart s (length l) d (length l) ->
  exists m', __L4_Copy_String d s m = Done (tt, m') /\ warray m' d l /\ same_outside d (length l) m m'.
Proof.
  intros l Hs Ha Hd Hb Hap. unfold __L4_Copy_String. rewrite (bind_Done _ _ _ _ _ (EndOfString_ok m s init last Hs Ha)). cbn [fst].
  apply copy_string_loop_ok; [done..|]. unfold behind, l. lia.
Qed.

(** A copy that does not lie apart, as one onto the string itself: it ends and stays inside the
    destination. *)
Lemma copy_string_loop_any m d s n fuel : s mod 4 = 0 -> d mod 4 = 0 -> is_bytes m s (Z.of_nat n * 4) -> is_bytes m d (Z.of_nat n * 4) -> (n <= fuel)%nat ->
  exists m', copy_string_loop fuel d s (behind s n) m = Done (tt, m') /\ same_outside d n m m'.
Proof.
  revert fuel m d s. induction n as [|n IH]; intros fuel m d s Has Hd Hs Hb Hf.
  - exists m. by rewrite copy_string_loop_end.
  - destruct fuel as [|fuel]; [lia|]. cbn [copy_string_loop]. destruct (Z.ltb_spec s (behind s (S n))) as [_|E]; [|unfold behind in E; lia].
    rewrite (bind_Done _ _ _ _ _ (read32_word s m Has ltac:(apply (is_bytes_sub m s _ _ _ Hs); lia))).
    destruct (write32_at d (word_at m s) m Hd) as (m1 & Ew & Hb1 & _ & Hf1); [apply (is_bytes_sub m d _ _ _ Hb); lia|]. rewrite (bind_Done _ _ _ _ _ Ew).
    assert (Hm1 : forall a k, is_bytes m a k -> is_bytes m1 a k).
    { intros a k H x Hx. destruct (decide (d <= x < d + 4)) as [Hin|Hin]; [by apply Hb1|]. rewrite Hf1 by done. by apply H. }
    destruct (IH fuel m1 (d + 4) (s + 4)) as (m' & E' & Hs'); [by apply (aligned_word s 1)|by apply (aligned_word d 1)|..|lia|].
    { apply Hm1. apply (is_bytes_sub m s _ _ _ Hs); lia. }
    { apply Hm1. apply (is_bytes_sub m d _ _ _ Hb); lia. }
    exists m'. replace (behind s (S n)) with (behind (s + 4) n) by (unfold behind; lia). split; [done|].
    intros x Hx. rewrite Hs' by lia. apply Hf1. lia.
Qed.

(** ** The walks end *)

(** The number of bytes from [s] on. *)
Definition bytes_from (s : Z) (m : bytes) : nat := size (filter (fun kv : Z * Z => s <= kv.1) m).

Lemma bytes_from_le s m : (bytes_from s m <= size m)%nat.
Proof. apply map_size_filter. Qed.

Lemma bytes_from_lt s s' m : is_Some (m !! s) -> s < s' -> (bytes_from s' m < bytes_from s m)%nat.
Proof.
  intros [b Hb] Hs. apply map_subset_size. split.
  - apply map_filter_subseteq_ext. intros k v _ H. cbn in *. lia.
  - intros H. assert (E : filter (fun kv : Z * Z => s <= kv.1) m !! s = Some b) by (apply map_lookup_filter_Some; cbn; split; [done|lia]).
    apply (lookup_weaken _ _ _ _ E) in H. apply map_lookup_filter_Some in H as [_ H]. cbn in H. lia.
Qed.

(** Reading a word does not run out of fuel, and when it returns, the byte is there. *)
Lemma read32_cases s m : read32 s m = Fault \/ exists w, read32 s m = Done (w, m) /\ is_Some (m !! s).
Proof.
  unfold read32. destruct (s mod 4 =? 0); [|by left]. unfold read8, mbind, M_bind.
  destruct (m !! s) eqn:E0; [|by left]. destruct (m !! (s + 1)); [|by left]. destruct (m !! (s + 2)); [|by left]. destruct (m !! (s + 3)); [|by left].
  right. eexists. done.
Qed.

Lemma substring_ptr_gt s w : s < substring_ptr s (str_j w + 1).
Proof.
  unfold substring_ptr, sizeof_L4_Word_t, str_j, field. rewrite Z.land_ones by lia. pose proof (Z.mod_pos_bound (Z.shiftr w 4) (2 ^ 5) ltac:(lia)). lia.
Qed.

(** A walk that is not out of fuel, keeps memory and gets ahead. *)
Definition walk_ends (s : Z) (m : bytes) (r : res (Z * Z * bytes)) : Prop :=
  match r with Done (e, _, m') => s < e /\ m' = m /\ is_Some (m !! s) | Fault => True | _ => False end.

Lemma walk_ends_ahead s s' m r : walk_ends s' m r -> s < s' -> is_Some (m !! s) -> walk_ends s m r.
Proof. destruct r as [[[e p] m']| | |]; [|done..]. intros (H1 & H2 & _) Hs Hm. repeat split; [lia|done..]. Qed.

Lemma end_of_string_loop_ends fuel s m : (bytes_from s m < fuel)%nat -> walk_ends s m (end_of_string_loop fuel s m).
Proof.
  revert s. induction fuel as [|fuel IH]; intros s Hf; [lia|]. cbn [end_of_string_loop].
  destruct (read32_cases s m) as [E|(w & E & Hm)].
  - unfold mbind, M_bind. by rewrite E.
  - do 2 rewrite (bind_Done _ _ _ _ _ E). pose proof (substring_ptr_gt s w) as Hg. destruct (truth (str_c w)).
    + apply (walk_ends_ahead s (substring_ptr s (str_j w + 1))); [|done..]. apply IH. pose proof (bytes_from_lt s _ m Hm Hg). lia.
    + by repeat split.
Qed.

(** The walk over the items of a string ends in every memory, whatever the items say: it returns
    an address behind the item, or it faults behind the last byte. *)
Theorem EndOfString_ends s m : walk_ends s m (__L4_EndOfString s m).
Proof. apply end_of_string_loop_ends. pose proof (bytes_from_le s m). lia. Qed.

Lemma end_of_strings_loop_ends fuel s m : (bytes_from s m < fuel)%nat -> walk_ends s m (end_of_strings_loop fuel s m).
Proof.
  revert s. induction fuel as [|fuel IH]; intros s Hf; [lia|]. cbn [end_of_strings_loop].
  pose proof (EndOfString_ends s m) as H. destruct (__L4_EndOfString s m) as [[[e p] m']| | |] eqn:Ee; [|done| |done]; [|unfold mbind, M_bind; by rewrite Ee].
  destruct H as (Hg & -> & Hm). rewrite (bind_Done _ _ _ _ _ Ee). destruct (read32_cases s m) as [E|(w & E & _)]; [unfold mbind, M_bind; by rewrite E|].
  rewrite (bind_Done _ _ _ _ _ E). cbn [fst]. destruct (truth (str_C w)).
  - apply (walk_ends_ahead s e); [|done..]. apply IH. pose proof (bytes_from_lt s _ m Hm Hg). lia.
  - by repeat split.
Qed.

(** The same for the walk over the strings of a buffer. *)
Theorem EndOfStrings_ends s m : walk_ends s m (__L4_EndOfStrings s m).
Proof. apply end_of_strings_loop_ends. pose proof (bytes_from_le s m). lia. Qed.

(** A word is written where it was read. *)
Lemma write32_same m p : p mod 4 = 0 -> is_bytes m p 4 -> write32 p (word_at m p) m = Done (tt, m).
Proof.
  intros Ha Hb. destruct (write32_at p (word_at m p) m Ha Hb) as (m' & -> & Hb' & Hw & Hf). repeat f_equal. apply map_eq. intros x.
  destruct (decide (p <= x < p + 4)) as [Hx|Hx]; [|by apply Hf]. rewrite wrap32_small in Hw by (by apply word_at_u32). unfold word_at, word in Hw.
  destruct (byte_at_ok m p 4 p Hb ltac:(lia)) as [E0 R0], (byte_at_ok m p 4 (p + 1) Hb ltac:(lia)) as [E1 R1], (byte_at_ok m p 4 (p + 2) Hb ltac:(lia)) as [E2 R2], (byte_at_ok m p 4 (p + 3) Hb ltac:(lia)) as [E3 R3].
  destruct (byte_at_ok m' p 4 p Hb' ltac:(lia)) as [E0' R0'], (byte_at_ok m' p 4 (p + 1) Hb' ltac:(lia)) as [E1' R1'], (byte_at_ok m' p 4 (p + 2) Hb' ltac:(lia)) as [E2' R2'], (byte_at_ok m' p 4 (p + 3) Hb' ltac:(lia)) as [E3' R3'].
  unfold is_byte in *. assert (x = p \/ x = p + 1 \/ x = p + 2 \/ x = p + 3) as [-> |[-> |[-> | ->]]] by lia; rewrite ?E0, ?E0', ?E1, ?E1', ?E2, ?E2', ?E3, ?E3'; f_equal; lia.
Qed.

(** A copy onto itself changes nothing. *)
Lemma copy_string_loop_self m s n fuel : s mod 4 = 0 -> is_bytes m s (Z.of_nat n * 4) -> (n <= fuel)%nat ->
  copy_string_loop fuel s s (behind s n) m = Done (tt, m).
Proof.
  revert fuel s. induction n as [|n IH]; intros fuel s Ha Hb Hf; [by rewrite copy_string_loop_end|]. destruct fuel as [|fuel]; [lia|]. cbn [copy_string_loop].
  destruct (Z.ltb_spec s (behind s (S n))) as [_|E]; [|unfold behind in E; lia]. assert (H4 : is_bytes m s 4) by (apply (is_bytes_sub m s _ _ _ Hb); lia).
  rewrite (bind_Done _ _ _ _ _ (read32_word s m Ha H4)), (bind_Done _ _ _ _ _ (write32_same m s Ha H4)).
  replace (behind s (S n)) with (behind (s + sizeof_L4_Word_t) n) by (unfold behind, sizeof_L4_Word_t; lia).
  apply IH; [by apply (aligned_word s 1)|apply (is_bytes_sub m s _ _ _ Hb); unfold sizeof_L4_Word_t; lia|lia].
Qed.

(** ** Compound strings are built *)

(** An assignment to a field of a word of an array. *)
Lemma set_item_field_ok f m a l1 w l2 : warray m a (l1 ++ w :: l2) -> is_u32 (f w) ->
  exists m', set_item_field f (behind a (length l1)) m = Done (tt, m') /\ warray m' a (l1 ++ f w :: l2) /\ same_outside a (length (l1 ++ w :: l2)) m m'.
Proof.
  intros Ha Hu. unfold set_item_field, behind. rewrite (bind_Done _ _ _ _ _ (warray_read m a _ (length l1) w Ha ltac:(by apply list_lookup_middle))).
  destruct (warray_write m a _ (length l1) (f w) Ha) as (m' & E & Ha' & Hs); [rewrite length_app; cbn [length]; lia|].
  exists m'. split; [done|]. split; [|done]. rewrite wrap32_small, insert_app_r_alt, Nat.sub_diag in Ha' by (done || lia). exact Ha'.
Qed.

(** The item with the bit [c] set. *)
Definition with_c (x : item) : item := (set_c x.1 1, x.2).

Lemma set_c_fields w v : is_u32 w -> str_j (set_c w v) = str_j w /\ str_c (set_c w v) = v mod 2.
Proof. intros Hw. unfold str_j, str_c, set_c. rewrite !field_put_other, field_put_same by (done || lia). done. Qed.

Lemma string_joined init last init' last' : string_ok init last -> string_ok init' last' -> is_u32 last.1 -> string_ok (init ++ with_c last :: init') last'.
Proof.
  intros (Hi & Hl & _) (Hi' & Hl') Hu. split; [|done]. apply Forall_app. split; [done|]. apply Forall_cons. split; [|done].
  destruct (set_c_fields last.1 1 Hu) as [Ej Ec]. unfold item_ok, goes_on in *. cbn [with_c fst snd]. by rewrite Ej, Ec.
Qed.

(** A string with room behind it and a string apart from both are joined to one string of the
    items of both, and the address where the second one begins is returned. *)
Theorem AddSubstringTo_joins m d p init last init' last' :
  let l := string_words (init ++ [last]) in let l' := string_words (init' ++ [last']) in
  string_ok init last -> string_ok init' last' -> warray m d l -> warray m p l' -> is_bytes m d (Z.of_nat (length l + length l') * 4) ->
  words_apart p (length l') d (length l + length l') ->
  exists m', L4_AddSubstringTo d p m = Done (behind d (length l), m') /\
    string_ok (init ++ with_c last :: init') last' /\ warray m' d (string_words ((init ++ with_c last :: init') ++ [last'])) /\
    same_outside d (length l + length l') m m'.
Proof.
  intros l l' Hs Hs' Ha Ha' Hb Hap. unfold L4_AddSubstringTo. rewrite (bind_Done _ _ _ _ _ (EndOfString_ok m d init last Hs Ha)). fold l.
  pose proof Ha as Ha0. unfold l in Ha. rewrite string_words_app, string_words_cons in Ha. cbn [string_words mbind list_bind] in Ha. rewrite app_nil_r in Ha.
  assert (Hu : is_u32 last.1) by (apply (warray_u32 _ _ _ (length (string_words init)) _ Ha); by apply list_lookup_middle).
  destruct (set_item_field_ok (fun w => set_c w 1) m d (string_words init) last.1 last.2 Ha) as (m1 & E1 & Ha1 & Hs1); [by apply put_bits_u32|].
  rewrite (bind_Done _ _ _ _ _ E1). assert (El : length (string_words init ++ last.1 :: last.2) = length l).
  { unfold l. rewrite string_words_app, string_words_cons. cbn [string_words mbind list_bind]. by rewrite app_nil_r. }
  rewrite El in Hs1. unfold words_apart in Hap.
  assert (El1 : length (string_words init ++ set_c last.1 1 :: last.2) = length l) by (rewrite <- El, !length_app; done).
  destruct (Copy_String_ok m1 (behind d (length l)) p init' last' Hs') as (m2 & E2 & Ha2 & Hs2); fold l'.
  - apply (warray_outside m m1 p _ d (length l)); [done..|unfold words_apart; fold l'; lia].
  - apply aligned_word, Ha.
  - intros x Hx. unfold behind in Hx. rewrite Hs1 by lia. apply Hb. lia.
  - unfold words_apart, behind. lia.
  - exists m2. rewrite (bind_Done _ _ _ _ _ E2). split; [done|]. split; [by apply string_joined|]. split.
    + rewrite <- app_assoc, string_words_app. cbn [app]. rewrite string_words_cons, app_assoc. fold l'. apply warray_app. unfold item_words. cbn [with_c fst snd].
      split; [|by rewrite El1]. apply (warray_outside m1 m2 d _ (behind d (length l)) (length l')); [done..|rewrite El1; unfold words_apart, behind; lia].
    + apply (same_outside_trans _ _ m m1); intros x Hx; [apply Hs1|apply Hs2; fold l'; unfold behind]; lia.
Qed.

(** The item with one more pointer. *)
Definition with_ptr (x : item) (a : Z) : item := (set_j x.1 (str_j x.1 + 1), x.2 ++ [a]).

Lemma with_ptr_ok x a : is_u32 x.1 -> str_j x.1 < 31 -> item_ok x -> ~ goes_on x -> item_ok (with_ptr x a) /\ ~ goes_on (with_ptr x a) /\ str_j (with_ptr x a).1 = str_j x.1 + 1.
Proof.
  intros Hu Hj Hx Hn. unfold item_ok, goes_on, with_ptr in *. cbn [fst snd]. rewrite length_app. cbn [length].
  assert (0 <= str_j x.1) by (apply field_range; [unfold is_u32 in Hu|]; lia).
  assert (E : str_j (set_j x.1 (str_j x.1 + 1)) = str_j x.1 + 1) by (unfold set_j, str_j in *; rewrite field_put_same by (done || lia); apply Z.mod_small; change (2 ^ 5) with 32; lia).
  rewrite E. split; [lia|]. split; [|done]. unfold str_c, set_j in *. by rewrite field_put_other by (done || lia).
Qed.

(** Up to the 32 pointers of an item, one is added behind the last one of the string. *)
Theorem AddSubstringAddressTo_adds m d a init last :
  let l := string_words (init ++ [last]) in
  string_ok init last -> warray m d l -> is_bytes m d (Z.of_nat (length l + 1) * 4) -> str_j last.1 < 31 -> is_u32 a ->
  exists m', L4_AddSubstringAddressTo d a m = Done (d, m') /\ string_ok init (with_ptr last a) /\
    warray m' d (string_words (init ++ [with_ptr last a])) /\ same_outside d (length l + 1) m m'.
Proof.
  intros l Hs Ha Hb Hj Hu. unfold L4_AddSubstringAddressTo. rewrite (bind_Done _ _ _ _ _ (EndOfString_ok m d init last Hs Ha)). cbn [snd].
  assert (El : l = string_words init ++ last.1 :: last.2) by (unfold l; rewrite string_words_app, string_words_cons; cbn [string_words mbind list_bind]; by rewrite app_nil_r).
  clearbody l. subst l. assert (Hw : is_u32 last.1) by (apply (warray_u32 _ _ _ (length (string_words init)) _ Ha); by apply list_lookup_middle).
  destruct Hs as (Hi & Hl & Hn). destruct (with_ptr_ok last a Hw Hj Hl Hn) as (Hl' & Hn' & Ej).
  destruct (set_item_field_ok (fun w => set_j w (str_j w + 1)) m d (string_words init) last.1 last.2 Ha) as (m1 & E1 & Ha1 & Hs1); [by apply put_bits_u32|].
  rewrite (bind_Done _ _ _ _ _ E1). assert (Hr : read32 (behind d (length (string_words init))) m1 = Done ((with_ptr last a).1, m1)) by (apply (warray_read m1 d _ _ _ Ha1); by apply list_lookup_middle).
  rewrite (bind_Done _ _ _ _ _ Hr). set (k := length (string_words init ++ last.1 :: last.2)) in *.
  assert (Ep : substring_ptr (behind d (length (string_words init))) (str_j (with_ptr last a).1) = behind d k).
  { rewrite Ej. unfold substring_ptr, behind, sizeof_L4_Word_t, k. rewrite length_app. cbn [length]. unfold item_ok in Hl. lia. }
  rewrite Ep. assert (Hk : length (string_words init ++ set_j last.1 (str_j last.1 + 1) :: last.2) = k) by (unfold k; by rewrite !length_app).
  destruct (write32_at (behind d k) a m1) as (m2 & E2 & Hb2 & Hw2 & Hf2); [apply aligned_word, Ha|intros x Hx; unfold behind in Hx; rewrite Hs1 by lia; apply Hb; lia|].
  exists m2. rewrite (bind_Done _ _ _ _ _ E2). split; [done|]. split; [done|]. unfold behind in Hb2, Hw2, Hf2. split.
  - rewrite string_words_app, string_words_cons. cbn [string_words mbind list_bind]. rewrite app_nil_r. unfold item_words. cbn [with_ptr fst snd].
    rewrite app_comm_cons, app_assoc. apply warray_app. rewrite Hk. split; [apply (warray_frame m1); [done|]; intros x Hx; apply Hf2; rewrite Hk in Hx; lia|].
    split; [apply aligned_word, Ha|]. split; [cbn [length]; by replace (Z.of_nat 1 * 4) with 4 by lia|]. intros [|i] v Hv; [|done]. injection Hv as <-.
    rewrite Z.add_0_r, Hw2. by apply wrap32_small.
  - intros x Hx. rewrite Hf2 by lia. apply Hs1. lia.
Qed.

(** ** Strings in messages *)

(** The typed words of a message begin behind its untyped words. *)
Lemma msg_split m msg lst us ts : warray m msg lst -> msg_view lst us ts ->
  exists tag rest, lst = tag :: us ++ ts ++ rest /\ length lst = 16%nat /\ is_u32 tag /\ read32 msg m = Done (tag, m) /\
    L4_UntypedWords tag = Z.of_nat (length us) /\ L4_TypedWords tag = Z.of_nat (length ts).
Proof. intros Ha (tag & rest & -> & H16 & Hu & Eu & Et). exists tag, rest. by rewrite (warray_head m msg _ _ Ha). Qed.

(** A string apart from the message object is appended to its typed words when there is room. *)
Theorem MsgAppendStringItem_appends m msg p lst us ts init last :
  let l := string_words (init ++ [last]) in
  warray m msg lst -> msg_view lst us ts -> string_ok init last -> warray m p l -> words_apart p (length l) msg 16 ->
  (length us + length ts + length l <= 15)%nat ->
  exists m' lst', L4_MsgAppendStringItem msg p m = Done (tt, m') /\ warray m' msg lst' /\ msg_view lst' us (ts ++ l) /\ same_outside msg 16 m m'.
Proof.
  intros l Ha Hv Hs Hp Hap Hroom. destruct (msg_split m msg lst us ts Ha Hv) as (tag & rest & -> & H16 & Hu & Hr & Eu & Et).
  unfold L4_MsgAppendStringItem. rewrite (bind_Done _ _ _ _ _ Hr), Eu, Et. rewrite (bind_Done _ _ _ _ _ (EndOfString_ok m p init last Hs Hp)). cbn [fst]. fold l.
  assert (H16' : (1 + (length us + (length ts + length rest)) = 16)%nat) by (by rewrite <- H16; cbn [length]; rewrite !length_app).
  set (pre := tag :: us ++ ts). assert (Hpre : length pre = (1 + length us + length ts)%nat) by (unfold pre; cbn [length]; rewrite length_app; lia).
  replace (msg_word msg (Z.of_nat (length us) + Z.of_nat (length ts) + 1)) with (behind msg (length pre)) by (unfold msg_word, behind, sizeof_L4_Word_t; lia).
  rewrite (app_assoc us), app_comm_cons in Ha. fold pre in Ha. unfold words_apart in Hap.
  destruct (Copy_String_ok m (behind msg (length pre)) p init last Hs Hp) as (m1 & E1 & Ha1 & Hs1); fold l.
  { apply aligned_word, Ha. } { destruct Ha as (_ & Hb & _). apply (is_bytes_sub m msg _ _ _ Hb); rewrite ?length_app; unfold behind; lia. } { unfold words_apart, behind. fold l. lia. }
  fold l in Ha1, Hs1. rewrite (bind_Done _ _ _ _ _ E1).
  assert (Ha2 : warray m1 msg (pre ++ l ++ drop (length l) rest)).
  { rewrite <- (take_drop (length l) rest) in Ha. apply warray_app in Ha as [Hpre' Ha]. apply warray_app in Ha as [_ Hrest].
    apply warray_app. split; [apply (warray_outside m m1 msg _ (behind msg (length pre)) (length l)); [done..|unfold words_apart, behind; lia]|].
    apply warray_app. split; [done|]. rewrite length_take, Nat.min_l in Hrest by lia.
    apply (warray_outside m m1 _ _ (behind msg (length pre)) (length l)); [done..|unfold words_apart, behind; lia]. }
  rewrite (bind_Done _ _ _ _ _ (warray_head m1 msg tag _ Ha2)), Et.
  replace ((behind p (length l) - p) / sizeof_L4_Word_t) with (Z.of_nat (length l)) by (unfold behind, sizeof_L4_Word_t; rewrite Z.add_simpl_l, Z.div_mul; lia).
  set (tag' := put_bits tag 6 6 (Z.of_nat (length ts) + Z.of_nat (length l))).
  destruct (warray_write m1 msg _ 0 tag' Ha2) as (m2 & E2 & Ha3 & Hs2); [unfold pre; cbn; lia|]. rewrite Z.add_0_r in E2. rewrite wrap32_small in Ha3 by (by apply put_bits_u32).
  exists m2, (tag' :: us ++ (ts ++ l) ++ drop (length l) rest). split; [done|]. split; [|split].
  - unfold pre in Ha3. cbn in Ha3. by rewrite <- !app_assoc in Ha3 |- *.
  - exists tag', (drop (length l) rest). split; [done|]. split; [cbn [length]; rewrite !length_app, length_drop; lia|]. split; [by apply put_bits_u32|].
    unfold tag', L4_UntypedWords, L4_TypedWords in *. rewrite field_put_other, field_put_same by (done || lia). split; [done|].
    rewrite length_app, Nat2Z.inj_add. apply Z.mod_small. change (2 ^ 6) with 64. lia.
  - apply (same_outside_trans _ _ m m1); intros x Hx; [apply Hs1; unfold behind; lia|apply Hs2]. rewrite !length_app, length_drop. lia.
Qed.

(** Reading a string back does not give it: for a string of one item the number of its words is
    returned and memory is left as it was, so nothing is stored at [s], whatever it points to. *)
Theorem MsgGetStringItem_not_copied m msg s lst us ts ts' last :
  warray m msg lst -> msg_view lst us (ts ++ item_words last ++ ts') -> string_ok [] last ->
  L4_MsgGetStringItem msg (Z.of_nat (length ts)) s m = Done (Z.of_nat (length (item_words last)), m).
Proof.
  intros Ha Hv Hs. destruct (msg_split m msg lst us _ Ha Hv) as (tag & rest & -> & _ & _ & Hr & Eu & _).
  unfold L4_MsgGetStringItem. rewrite (bind_Done _ _ _ _ _ Hr), Eu. set (pre := tag :: us ++ ts).
  replace (msg_word msg (Z.of_nat (length us) + Z.of_nat (length ts) + 1)) with (behind msg (length pre))
    by (unfold msg_word, behind, sizeof_L4_Word_t, pre; cbn [length]; rewrite length_app; lia).
  replace (tag :: us ++ (ts ++ item_words last ++ ts') ++ rest) with (pre ++ item_words last ++ ts' ++ rest) in Ha by (unfold pre; cbn [app]; by rewrite <- !app_assoc).
  apply warray_app in Ha as [_ Ha]. apply warray_app in Ha as [Ha _]. set (b := behind msg (length pre)). change (msg + Z.of_nat (length pre) * 4) with b in Ha.
  assert (El : string_words ([] ++ [last]) = item_words last) by (cbn [app]; rewrite string_words_cons; apply app_nil_r). pose proof (EndOfString_ok m b [] last Hs) as E.
  rewrite El in E. specialize (E Ha). cbn [string_words mbind list_bind length] in E. rewrite (bind_Done _ _ _ _ _ E). cbv iota beta.
  replace (behind b 0) with b in * by (unfold behind; lia). unfold __L4_Copy_String. destruct Ha as (Hal & Hb & _).
  erewrite (bind_Done (_ ≫= _)); [|rewrite (bind_Done _ _ _ _ _ E); cbn [fst]; apply copy_string_loop_self; [done..|unfold behind; lia]].
  unfold mret, M_ret, behind, sizeof_L4_Word_t. by rewrite Z.add_simpl_l, Z.div_mul by lia.
Qed.
