(* ===== verification/UserBuffers.v ===== *)
(** * The user library: buffers for the strings that are received

    A buffer is a list of abstract strings, linked by the bits [C] of their first items.
    Clearing, appending and loading in the buffer registers are operations on this list. *)

From S2P Require Import Prelude Bits Bytes BytesProps WordArray UserLib UserLibProps UserString UserStringProps.

(** ** Lists of strings *)

(** A string, of the items that go on and the last one. *)
Abbreviation ustring := (list item * item)%type.
Definition words_of (s : ustring) : list Z := string_words (s.1 ++ [s.2]).
Definition first_word (s : ustring) : Z := match s.1 with [] => s.2.1 | x :: _ => x.1 end.
Definition rest_words (s : ustring) : list Z := tail (words_of s).

(** A string that is well formed and whose first substring has some length. *)
Definition ustring_ok (s : ustring) : Prop :=
  string_ok s.1 s.2 /\ Forall is_u32 (words_of s) /\ field (first_word s) 10 22 <> 0.

Lemma words_of_first s : words_of s = first_word s :: rest_words s.
Proof. by destruct s as [[|x l] y]. Qed.

(** The string with the bit [C] set to [v]. *)
Definition with_C (v : Z) (s : ustring) : ustring :=
  match s.1 with
  | [] => ([], (set_C s.2.1 v, s.2.2))
  | x :: l => ((set_C x.1 v, x.2) :: l, s.2)
  end.

Lemma with_C_words v s : words_of (with_C v s) = set_C (first_word s) v :: rest_words s.
Proof. by destruct s as [[|x l] y]. Qed.
Lemma with_C_first v s : first_word (with_C v s) = set_C (first_word s) v.
Proof. by destruct s as [[|x l] y]. Qed.
Lemma with_C_length v s : length (words_of (with_C v s)) = length (words_of s).
Proof. by rewrite with_C_words, words_of_first. Qed.

Lemma set_C_fields w v : is_u32 w -> str_j (set_C w v) = str_j w /\ str_c (set_C w v) = str_c w /\ field (set_C w v) 10 22 = field w 10 22 /\ str_C (set_C w v) = v mod 2.
Proof. intros Hw. unfold str_j, str_c, str_C, set_C. rewrite !field_put_other, field_put_same by (done || lia). done. Qed.

Lemma ustring_first_u32 s : ustring_ok s -> is_u32 (first_word s).
Proof. intros (_ & H & _). rewrite words_of_first in H. by apply Forall_cons in H as [H _]. Qed.

Lemma with_C_ok v s : ustring_ok s -> ustring_ok (with_C v s).
Proof.
  intros Hs. pose proof (ustring_first_u32 s Hs) as Hu. destruct (set_C_fields (first_word s) v Hu) as (Ej & Ec & El & _). destruct Hs as (Hs & Hf & Hl).
  split; [|split].
  - destruct s as [[|x l] y]; destruct Hs as (Hi & Hy & Hn); cbn [first_word fst snd] in *.
    + split; [done|]. unfold item_ok, goes_on in *. cbn [with_C fst snd]. by rewrite Ej, Ec.
    + apply Forall_cons in Hi as [[Hx Hg] Hi]. split; [|done]. apply Forall_cons. split; [|done]. unfold item_ok, goes_on in *. cbn [with_C fst snd]. by rewrite Ej, Ec.
  - rewrite with_C_words. rewrite words_of_first in Hf. apply Forall_cons in Hf as [_ Hf]. apply Forall_cons. split; [by apply put_bits_u32|done].
  - by rewrite with_C_first, El.
Qed.

(** The strings of a buffer, linked by their bits [C]. *)
Fixpoint link (ss : list ustring) : list ustring :=
  match ss with
  | [] => []
  | s :: ss => with_C (match ss with [] => 0 | _ => 1 end) s :: link ss
  end.
Definition linked_words (ss : list ustring) : list Z := link ss ≫= words_of.

Lemma linked_words_cons s ss : linked_words (s :: ss) = words_of (with_C (match ss with [] => 0 | _ => 1 end) s) ++ linked_words ss.
Proof. done. Qed.
Lemma linked_length ss : length (linked_words ss) = length (ss ≫= words_of).
Proof.
  induction ss as [|s ss IH]; [done|]. rewrite linked_words_cons. cbn [mbind list_bind]. rewrite !length_app, with_C_length. by rewrite IH.
Qed.

(** All but the last string keep their words when one is linked behind them. *)
Lemma linked_words_snoc ss s t : exists l, linked_words (ss ++ [s]) = l ++ words_of (with_C 0 s) /\
  linked_words (ss ++ [s; t]) = l ++ words_of (with_C 1 s) ++ words_of (with_C 0 t).
Proof.
  induction ss as [|x ss (l & E1 & E2)].
  - exists []. cbn [app]. rewrite !linked_words_cons. by rewrite !app_nil_r.
  - exists (words_of (with_C 1 x) ++ l). cbn [app]. rewrite !linked_words_cons, E1, E2, !app_assoc. by destruct ss.
Qed.

Lemma EndOfString_words m p s l : ustring_ok s -> warray m p (words_of s ++ l) ->
  __L4_EndOfString p m = Done ((behind p (length (words_of s)), behind p (length (string_words s.1))), m).
Proof. intros (Hs & _) Ha. apply warray_app in Ha as [Ha _]. by apply EndOfString_ok. Qed.

Lemma Copy_String_words m d p s : ustring_ok s -> warray m p (words_of s) -> d mod 4 = 0 -> is_bytes m d (Z.of_nat (length (words_of s)) * 4) ->
  words_apart p (length (words_of s)) d (length (words_of s)) ->
  exists m', __L4_Copy_String d p m = Done (tt, m') /\ warray m' d (words_of s) /\ same_outside d (length (words_of s)) m m'.
Proof. intros (Hs & _). by apply Copy_String_ok. Qed.

Lemma end_of_strings_loop_ok fuel m p ss s : Forall ustring_ok (ss ++ [s]) -> warray m p (linked_words (ss ++ [s])) -> (length ss < fuel)%nat ->
  end_of_strings_loop fuel p m = Done ((behind p (length (linked_words (ss ++ [s]))), behind p (length (ss ≫= words_of))), m).
Proof.
  revert fuel p. induction ss as [|x ss IH]; intros [|fuel] p Hok Ha Hf; cbn [length] in Hf; try lia; cbn [end_of_strings_loop app] in *.
  - apply Forall_cons in Hok as [Hs _]. rewrite linked_words_cons in *. pose proof Ha as Ha0. rewrite with_C_words in Ha0.
    rewrite (bind_Done _ _ _ _ _ (EndOfString_words m p _ _ (with_C_ok 0 s Hs) Ha)), (bind_Done _ _ _ _ _ (warray_head m p _ _ Ha0)).
    destruct (set_C_fields (first_word s) 0 (ustring_first_u32 s Hs)) as (_ & _ & _ & ->). change (truth (0 mod 2)) with false.
    cbn [fst linked_words link mbind list_bind]. rewrite app_nil_r. unfold behind at 3. cbn [length]. by rewrite Z.add_0_r.
  - apply Forall_cons in Hok as [Hx Hok]. rewrite linked_words_cons in *.
    replace (match ss ++ [s] with [] => 0 | _ => 1 end) with 1 in * by (by destruct ss). pose proof Ha as Ha0. rewrite with_C_words in Ha0.
    rewrite (bind_Done _ _ _ _ _ (EndOfString_words m p _ _ (with_C_ok 1 x Hx) Ha)), (bind_Done _ _ _ _ _ (warray_head m p _ _ Ha0)).
    destruct (set_C_fields (first_word x) 1 (ustring_first_u32 x Hx)) as (_ & _ & _ & ->). change (truth (1 mod 2)) with true. cbn [fst].
    apply warray_app in Ha as [_ Ha]. rewrite (IH fuel (behind p _) Hok Ha) by lia. rewrite behind_app. do 3 f_equal.
    change ((x :: ss) ≫= words_of) with (words_of x ++ (ss ≫= words_of)). unfold behind. rewrite length_app, with_C_length. lia.
Qed.

Lemma strings_length (l : list ustring) : (length l <= length (l ≫= words_of))%nat.
Proof.
  induction l as [|x l IH]; [done|]. change ((x :: l) ≫= words_of) with (words_of x ++ (l ≫= words_of)). rewrite length_app, words_of_first. cbn [length]. lia.
Qed.

Lemma EndOfStrings_ok m p ss s : Forall ustring_ok (ss ++ [s]) -> warray m p (linked_words (ss ++ [s])) ->
  __L4_EndOfStrings p m = Done ((behind p (length (linked_words (ss ++ [s]))), behind p (length (ss ≫= words_of))), m).
Proof.
  intros Hok Ha. apply end_of_strings_loop_ok; [done..|]. pose proof (warray_size _ _ _ Ha) as Hs. rewrite linked_length in Hs.
  pose proof (strings_length (ss ++ [s])) as Hl. rewrite length_app in Hl. cbn [length] in Hl. lia.
Qed.

(** ** Receive buffers *)

(** The number of words of a buffer. *)
Definition buffer_len : nat := 7.

(** The buffer at [b] holds the strings [ss]. *)
Definition buffer_at (m : bytes) (b : Z) (ss : list ustring) : Prop :=
  is_bytes m b (Z.of_nat buffer_len * 4) /\ Forall ustring_ok ss /\ warray m b (linked_words ss) /\
  (ss = [] -> read32 (msg_word b 0) m = Done (0, m) /\ read32 (msg_word b 2) m = Done (0, m)).

Lemma is_bytes_kept m m' b k a l : is_bytes m b k -> warray m' a l -> same_outside a (length l) m m' -> is_bytes m' b k.
Proof.
  intros Hb (_ & Ha & _) Hs x Hx. destruct (decide (a <= x < a + Z.of_nat (length l) * 4)) as [Hin|Hin]; [by apply Ha|].
  rewrite Hs by done. by apply Hb.
Qed.

Lemma same_outside_sub a n b k m m' : same_outside b k m m' -> a <= b -> b + Z.of_nat k * 4 <= a + Z.of_nat n * 4 -> same_outside a n m m'.
Proof. intros H H1 H2 x Hx. apply H. lia. Qed.

Lemma msg_word_0 b : msg_word b 0 = b.
Proof. unfold msg_word. lia. Qed.

Lemma MsgBufferClear_ok m b : b mod 4 = 0 -> is_bytes m b (Z.of_nat buffer_len * 4) ->
  exists m', L4_MsgBufferClear b m = Done (tt, m') /\ buffer_at m' b [] /\ same_outside b buffer_len m m'.
Proof.
  intros Ha Hb. unfold buffer_len in *. unfold L4_MsgBufferClear.
  assert (Ha2 : msg_word b 2 mod 4 = 0) by (apply (aligned_word b 2); done). assert (E2 : msg_word b 2 = b + 8) by (unfold msg_word, sizeof_L4_Word_t; lia). rewrite msg_word_0.
  destruct (write32_at (msg_word b 2) 0 m Ha2) as (m1 & E & Hb1 & Hw1 & Hf1); [apply (is_bytes_sub m b _ _ _ Hb); lia|]. rewrite (bind_Done _ _ _ _ _ E).
  assert (Hb0 : is_bytes m1 b 4) by (apply (is_bytes_frame m); [apply (is_bytes_sub m b _ _ _ Hb); lia|]; intros x Hx; apply Hf1; lia).
  destruct (write32_at b 0 m1 Ha Hb0) as (m2 & E' & Hb2 & Hw2 & Hf2). exists m2.
  assert (H2 : is_bytes m2 (msg_word b 2) 4) by (apply (is_bytes_frame m1); [done|]; intros x Hx; apply Hf2; lia).
  split; [done|]. split; [|intros x Hx; rewrite Hf2 by lia; apply Hf1; lia].
  split; [|split; [done|split; [by apply warray_nil|intros _]]].
  - intros x Hx. destruct (decide (b <= x < b + 4)); [by apply Hb2|]. destruct (decide (b + 8 <= x < b + 12)); [apply H2; lia|].
    rewrite Hf2, Hf1 by lia. apply Hb. unfold buffer_len in Hx. lia.
  - rewrite msg_word_0, !read32_word by done. rewrite Hw2, (word_at_frame m1 m2), Hw1 by (intros x Hx; apply Hf2; lia). done.
Qed.

Lemma first_word_nonzero w v : is_u32 w -> field w 10 22 <> 0 -> truth (set_C w v) = true.
Proof.
  intros Hw Hf. destruct (set_C_fields w v Hw) as (_ & _ & E & _). unfold truth. destruct (Z.eqb_spec (set_C w v) 0) as [H|]; [|done].
  rewrite H in E. by rewrite <- E in Hf.
Qed.

Lemma buffer_used_ok m b ss : buffer_at m b ss -> buffer_used b m = Done (match ss with [] => false | _ => true end, m).
Proof.
  intros (Hb & Hok & Ha & He). unfold buffer_used. destruct ss as [|s ss].
  - destruct (He eq_refl) as [E0 E2]. rewrite (bind_Done _ _ _ _ _ E0). cbn [truth Z.eqb negb]. by rewrite (bind_Done _ _ _ _ _ E2).
  - rewrite msg_word_0. apply Forall_cons in Hok as [Hs _]. rewrite linked_words_cons, with_C_words in Ha. rewrite (bind_Done _ _ _ _ _ (warray_head m b _ _ Ha)).
    by rewrite first_word_nonzero by (apply Hs || by apply ustring_first_u32).
Qed.

Lemma set_C_twice w v v' : is_u32 w -> set_C (set_C w v) v' = set_C w v'.
Proof.
  intros Hw. unfold set_C, put_bits. pose proof (Z.mod_pos_bound v 2 ltac:(lia)). pose proof (Z.mod_pos_bound v' 2 ltac:(lia)). change (2 ^ 1) with 2.
  apply Z.bits_inj'. intros j Hj. rewrite !testbit_set_field; [|(done || by apply set_field_u32 || (change (2 ^ 1) with 2; lia))..]. by destruct (decide _).
Qed.

(** The last string of a buffer is marked to be followed by another one, [t]. *)
Lemma mark_last_ok m b ss x t : Forall ustring_ok (ss ++ [x]) -> warray m b (linked_words (ss ++ [x])) ->
  let n := length (linked_words (ss ++ [x])) in
  exists m' l, __L4_EndOfStrings b m = Done ((behind b n, behind b (length (ss ≫= words_of))), m) /\
    set_item_field (fun w => set_C w 1) (behind b (length (ss ≫= words_of))) m = Done (tt, m') /\
    warray m' b l /\ linked_words (ss ++ [x; t]) = l ++ words_of (with_C 0 t) /\ length l = n /\ same_outside b n m m'.
Proof.
  intros Hok Ha n. destruct (linked_words_snoc ss x t) as (l & E1 & E2). pose proof (EndOfStrings_ok m b ss x Hok Ha) as Ee.
  assert (Hn : n = (length l + length (words_of x))%nat) by (unfold n; by rewrite E1, length_app, with_C_length).
  assert (Hl : length (ss ≫= words_of) = length l).
  { pose proof (linked_length (ss ++ [x])) as H. unfold n in Hn. rewrite Hn, bind_app, length_app in H.
    change ([x] ≫= words_of) with (words_of x ++ []) in H. rewrite app_nil_r in H. lia. }
  assert (Hx : is_u32 (first_word x)) by (apply ustring_first_u32; rewrite Forall_app, Forall_singleton in Hok; apply Hok).
  rewrite E1, with_C_words in Ha. destruct (set_item_field_ok (fun w => set_C w 1) m b l _ _ Ha) as (m' & E & Ha' & Hs); [by apply put_bits_u32, put_bits_u32|].
  exists m', (l ++ words_of (with_C 1 x)). rewrite Hl in *. rewrite set_C_twice in Ha' by done. rewrite with_C_words.
  split; [done|]. split; [done|]. split; [done|]. split; [by rewrite E2, with_C_words, app_assoc|].
  split; [rewrite length_app, Hn, words_of_first; done|]. rewrite Hn, words_of_first. by rewrite length_app in Hs.
Qed.

(** A string is copied to [d] as the last one of a buffer. *)
Lemma copy_last_ok m d p s : ustring_ok s -> warray m p (words_of s) -> d mod 4 = 0 -> is_bytes m d (Z.of_nat (length (words_of s)) * 4) ->
  words_apart p (length (words_of s)) d (length (words_of s)) ->
  exists m', (__L4_Copy_String d p;; set_item_field (fun w => set_C w 0) d) m = Done (tt, m') /\
    warray m' d (words_of (with_C 0 s)) /\ same_outside d (length (words_of s)) m m'.
Proof.
  intros Hok Ha Hd Hb Hap. destruct (Copy_String_words m d p s Hok Ha Hd Hb Hap) as (m1 & E1 & Ha1 & Hs1). rewrite (bind_Done _ _ _ _ _ E1).
  rewrite words_of_first in Ha1. destruct (set_item_field_ok (fun w => set_C w 0) m1 d [] _ _ Ha1) as (m2 & E2 & Ha2 & Hs2); [by apply put_bits_u32, ustring_first_u32|].
  cbn [length behind] in E2. unfold behind in E2. rewrite Z.add_0_r in E2. exists m2. split; [done|]. split; [by rewrite with_C_words|].
  apply (same_outside_trans _ _ m m1); [done|]. by rewrite words_of_first.
Qed.

(** A new last string behind the words of the others. *)
Lemma buffer_grow m m' b ss s : buffer_at m b ss -> ustring_ok s ->
  warray m' b (linked_words (ss ++ [s])) -> same_outside b (length (linked_words (ss ++ [s]))) m m' -> (length (linked_words (ss ++ [s])) <= buffer_len)%nat ->
  buffer_at m' b (ss ++ [s]) /\ same_outside b buffer_len m m'.
Proof.
  intros (Hb & Hok & _) Hs Ha Hso Hl. split; [|apply (same_outside_sub _ _ b (length (linked_words (ss ++ [s])))); [done|lia|lia]].
  split; [by eapply is_bytes_kept|]. split; [by rewrite Forall_app, Forall_singleton|]. split; [done|]. intros H. by destruct ss.
Qed.

Lemma MsgBufferAppendRcvString_ok m b p ss s : buffer_at m b ss -> ustring_ok s -> warray m p (words_of s) ->
  words_apart p (length (words_of s)) b buffer_len -> (length (linked_words (ss ++ [s])) <= buffer_len)%nat ->
  exists m', L4_MsgBufferAppendRcvString b p m = Done (tt, m') /\ buffer_at m' b (ss ++ [s]) /\ same_outside b buffer_len m m'.
Proof.
  intros Hbuf Hs Hp Hap Hl. unfold L4_MsgBufferAppendRcvString. rewrite (bind_Done _ _ _ _ _ (buffer_used_ok m b ss Hbuf)).
  pose proof Hbuf as (Hb & Hok & Ha & _). pose proof Ha as (Hal & _). unfold words_apart in Hap. destruct ss as [|x ss _] using rev_ind.
  - cbn [app]. rewrite (bind_Done _ _ m b m) by done. cbn [app] in Hl. rewrite linked_words_cons, app_nil_r, with_C_length in Hl.
    destruct (copy_last_ok m b p s Hs Hp Hal) as (m' & E & Ha' & Hso); [apply (is_bytes_sub m b _ _ _ Hb); lia|unfold words_apart; lia|].
    exists m'. split; [done|]. apply (buffer_grow m m' b [] s); cbn [app]; rewrite ?linked_words_cons, ?app_nil_r, ?with_C_length; done.
  - destruct (mark_last_ok m b ss x s Hok Ha) as (m1 & l & E1 & E2 & Ha1 & El & Hn & Hs1). rewrite <- (app_assoc ss [x] [s]) in Hl. cbn [app] in Hl.
    replace (match ss ++ [x] with [] => false | _ => true end) with true by (by destruct ss).
    assert (Hlen : length (linked_words (ss ++ [x; s])) = (length l + length (words_of s))%nat) by (by rewrite El, length_app, with_C_length).
    erewrite (bind_Done _ _ m (behind b (length l)) m1); [|rewrite (bind_Done _ _ _ _ _ E1), (bind_Done _ _ _ _ _ E2); by rewrite Hn].
    destruct (copy_last_ok m1 (behind b (length l)) p s Hs) as (m2 & E & Ha2 & Hs2).
    + apply (warray_outside m m1 p _ b (length l)); [done|by rewrite Hn|unfold words_apart; lia].
    + by apply aligned_word.
    + apply (is_bytes_sub m1 b (Z.of_nat buffer_len * 4)); [|unfold behind; lia..]. apply (is_bytes_kept m m1 _ _ b l); [done..|by rewrite Hn].
    + unfold words_apart, behind. lia.
    + exists m2. split; [done|]. apply (buffer_grow m m2 b (ss ++ [x]) s); rewrite <- ?(app_assoc ss [x] [s]); cbn [app]; [done..| | |done].
      * rewrite El. apply warray_app. split; [|done]. apply (warray_outside m1 m2 b _ (behind b (length l)) (length (words_of s))); [done..|unfold words_apart, behind; lia].
      * rewrite Hlen. apply (same_outside_trans _ _ m m1); [apply (same_outside_sub _ _ b (length l)); [by rewrite Hn|lia|lia]|].
        apply (same_outside_sub _ _ (behind b (length l)) (length (words_of s))); [done|unfold behind; lia..].
Qed.

(** *** Strings of one substring *)

Definition simple_string (s : Z * Z) : ustring := ([], (set_c (set_j s.1 0) 0, [s.2])).

Lemma simple_string_words s : words_of (simple_string s) = [set_c (set_j s.1 0) 0; s.2].
Proof. done. Qed.

Lemma simple_word_fields w : is_u32 w -> let w' := set_c (set_j w 0) 0 in
  is_u32 w' /\ str_j w' = 0 /\ str_c w' = 0 /\ str_C w' = str_C w /\ field w' 10 22 = field w 10 22.
Proof.
  intros Hw. unfold set_c, set_j, str_j, str_c, str_C. pose proof (put_bits_u32 w 4 5 0 Hw) as H1. split; [by apply put_bits_u32|].
  rewrite field_put_other, field_put_same by (done || lia). rewrite field_put_same by (done || lia). by rewrite !field_put_other by (done || lia).
Qed.

Lemma simple_string_ok s : is_u32 s.1 -> is_u32 s.2 -> field s.1 10 22 <> 0 -> ustring_ok (simple_string s).
Proof.
  intros H1 H2 Hf. destruct (simple_word_fields s.1 H1) as (Hu & Hj & Hc & _ & Hl). split; [|split].
  - split; [done|]. unfold item_ok, goes_on. cbn [simple_string fst snd length]. by rewrite Hj, Hc.
  - rewrite simple_string_words. by repeat (apply Forall_cons; split).
  - cbn [simple_string first_word fst snd]. by rewrite Hl.
Qed.

Lemma set_C_same w : is_u32 w -> set_C w (str_C w) = w.
Proof.
  intros Hw. unfold set_C, put_bits, str_C, field. rewrite Z.shiftr_0_r, Z.land_ones by lia. pose proof (Z.mod_pos_bound w (2 ^ 1) ltac:(lia)).
  rewrite Z.mod_mod by lia. apply Z.bits_inj'. intros j Hj. rewrite testbit_set_field by (done || lia). destruct (decide _); [|done].
  rewrite Z.sub_0_r, Z.mod_pow2_bits_low by lia. done.
Qed.

Lemma write_pair_ok m d x y : d mod 4 = 0 -> is_bytes m d 8 -> is_u32 x -> is_u32 y ->
  exists m', (write32 d x;; write32 (d + sizeof_L4_Word_t) y) m = Done (tt, m') /\ warray m' d [x; y] /\ same_outside d 2 m m'.
Proof.
  intros Hd Hb Hx Hy. assert (Ha : warray m d [word_at m d; word_at m (d + 4)]).
  { split; [done|]. split; [done|]. intros [|[|i]] w H; [injection H as <-; by rewrite Z.add_0_r|by injection H as <-|done]. }
  destruct (warray_write m d _ 0 x Ha ltac:(cbn; lia)) as (m1 & E1 & Ha1 & Hs1). rewrite Z.add_0_r in E1. rewrite (bind_Done _ _ _ _ _ E1).
  destruct (warray_write m1 d _ 1 y Ha1 ltac:(cbn; lia)) as (m2 & E2 & Ha2 & Hs2). exists m2. split; [done|].
  cbn in Ha2. rewrite !wrap32_small in Ha2 by done. split; [done|]. by apply (same_outside_trans _ _ m m1).
Qed.

Lemma MsgBufferAppendSimpleRcvString_ok m b ss s : buffer_at m b ss -> is_u32 s.1 -> is_u32 s.2 -> field s.1 10 22 <> 0 -> str_C s.1 = 0 ->
  (length (linked_words (ss ++ [simple_string s])) <= buffer_len)%nat ->
  exists m', L4_MsgBufferAppendSimpleRcvString b s m = Done (tt, m') /\ buffer_at m' b (ss ++ [simple_string s]) /\ same_outside b buffer_len m m'.
Proof.
  intros Hbuf H1 H2 Hf HC Hl. pose proof (simple_string_ok s H1 H2 Hf) as Hs. destruct (simple_word_fields s.1 H1) as (Hu & _ & _ & Hc & _). rewrite HC in Hc.
  pose proof (set_C_same _ Hu) as Hw0. rewrite Hc in Hw0.
  assert (Hw : words_of (with_C 0 (simple_string s)) = [set_c (set_j s.1 0) 0; s.2]).
  { rewrite with_C_words. cbn [first_word simple_string fst snd]. by rewrite Hw0. }
  unfold L4_MsgBufferAppendSimpleRcvString. rewrite (bind_Done _ _ _ _ _ (buffer_used_ok m b ss Hbuf)).
  pose proof Hbuf as (Hb & Hok & Ha & _). pose proof Ha as (Hal & _). unfold buffer_len in *. destruct ss as [|x ss _] using rev_ind.
  - destruct (write32_at (msg_word b 2) 4294967295 m) as (m1 & E1 & Hb1 & _ & Hf1); [by apply (aligned_word b 2)|unfold msg_word, sizeof_L4_Word_t; apply (is_bytes_sub m b _ _ _ Hb); lia|].
    rewrite (bind_Done _ _ _ _ _ E1). unfold msg_word, sizeof_L4_Word_t in Hf1.
    destruct (write_pair_ok m1 b (set_c (set_j s.1 0) 0) s.2 Hal) as (m2 & E2 & Ha2 & Hs2); [|done..|].
    { apply (is_bytes_frame m); [apply (is_bytes_sub m b _ _ _ Hb); lia|]. intros y Hy. apply Hf1. lia. }
    destruct (set_item_field_ok (fun w => set_C w 0) m2 b [] _ _ Ha2) as (m3 & E3 & Ha3 & Hs3); [by apply put_bits_u32|]. unfold behind in E3. rewrite Z.add_0_r in E3.
    exists m3. split.
    { revert E2 E3. unfold mbind, M_bind. destruct (write32 b _ m1) as [[[] m1']| | |]; [|done..]. intros ->. done. }
    rewrite Hw0 in Ha3.
    assert (Hso : same_outside b 7 m m3).
    { apply (same_outside_trans _ _ m m2); [|apply (same_outside_sub _ _ b 2); [done|lia|lia]]. intros y Hy. rewrite Hs2 by lia. apply Hf1. lia. }
    split; [|done]. split; [|split; [by apply Forall_singleton|split; [|done]]].
    + intros y Hy. destruct (decide (b <= y < b + 8)) as [Hin|Hin]; [destruct Ha3 as (_ & Hb3 & _); apply Hb3; cbn; lia|].
      rewrite (Hs3 y), (Hs2 y) by (cbn; lia). destruct (decide (b + 2 * 4 <= y < b + 2 * 4 + 4)) as [H8|H8]; [apply Hb1; unfold msg_word, sizeof_L4_Word_t; lia|].
      rewrite Hf1 by lia. by apply Hb.
    + cbn [app]. rewrite linked_words_cons, app_nil_r, Hw. exact Ha3.
  - destruct (mark_last_ok m b ss x (simple_string s) Hok Ha) as (m1 & l & E1 & E2 & Ha1 & El & Hn & Hs1). rewrite <- (app_assoc ss [x]) in Hl. cbn [app] in Hl.
    replace (match ss ++ [x] with [] => false | _ => true end) with true by (by destruct ss).
    rewrite Hw in El. assert (Hlen : length (linked_words (ss ++ [x; simple_string s])) = (length l + 2)%nat) by (by rewrite El, length_app).
    rewrite (bind_Done _ _ _ _ _ E1), (bind_Done _ _ _ _ _ E2), <- Hn.
    destruct (write_pair_ok m1 (behind b (length l)) (set_c (set_j s.1 0) 0) s.2) as (m2 & E & Ha2 & Hs2); [by apply aligned_word| |done..|].
    + apply (is_bytes_sub m1 b (Z.of_nat 7 * 4)); [|unfold behind; lia..]. apply (is_bytes_kept m m1 _ _ b l); [done..|by rewrite Hn].
    + exists m2. split; [done|]. apply (buffer_grow m m2 b (ss ++ [x]) (simple_string s)); rewrite <- ?(app_assoc ss [x]); cbn [app]; [done..| | |done].
      * rewrite El. apply warray_app. split; [|done]. apply (warray_outside m1 m2 b _ (behind b (length l)) 2); [done..|unfold words_apart, behind; lia].
      * rewrite Hlen. apply (same_outside_trans _ _ m m1); [apply (same_outside_sub _ _ b (length l)); [by rewrite Hn|lia|lia]|].
        apply (same_outside_sub _ _ (behind b (length l)) 2); [done|unfold behind; lia..].
Qed.

(** ** Buffer registers *)

(** A thread with its memory and its virtual registers. *)
#[local] Instance thread_memory : Part bytes (bytes * vregs) := {| get_part := fst; put_part m s := (m, s.2) |}.
#[local] Instance thread_registers : Part vregs (bytes * vregs) := {| get_part := snd; put_part v s := (s.1, v) |}.

Definition with_br (v : vregs) (l : list Z) : vregs := mk_vregs (v_regs v) (v_mr v) l.

Lemma on_memory {A} (c : M bytes A) m v x m' : c m = Done (x, m') -> on c (m, v) = Done (x, (m', v)).
Proof. intros E. unfold on, zoom. cbn [get_part thread_memory fst]. by rewrite E. Qed.

Lemma put_br_ok v pre x old y : put_br (Z.of_nat (length pre)) y (with_br v (pre ++ x :: old)) = Done (tt, with_br v (pre ++ y :: old)).
Proof.
  unfold put_br, with_br. cbn [v_br v_mr v_regs]. rewrite zinsert_Some by (rewrite length_app; cbn [length]; lia).
  by rewrite Nat2Z.id, insert_app_r_alt, Nat.sub_diag by lia.
Qed.

Lemma on_put_br m v pre x old y : on (put_br (Z.of_nat (length pre)) y) (m, with_br v (pre ++ x :: old)) = Done (tt, (m, with_br v (pre ++ y :: old))).
Proof. exact (on_Done (put_br _ y) (m, with_br v (pre ++ x :: old)) tt _ (put_br_ok v pre x old y)). Qed.

Lemma load_brs_ok m v w pre old post l : warray m w l -> length old = length l ->
  load_brs (length l) (Z.of_nat (length pre)) w (m, with_br v (pre ++ old ++ post)) = Done (tt, (m, with_br v (pre ++ l ++ post))).
Proof.
  revert w pre old. induction l as [|x l IH]; intros w pre [|y old] Ha Hl; try done. cbn [length load_brs]. injection Hl as Hl.
  rewrite (bind_Done _ _ _ _ _ (on_memory _ _ _ _ _ (warray_head m w x l Ha))). cbn [app].
  rewrite (bind_Done _ _ _ _ _ (on_put_br m v pre y _ x)).
  apply (warray_app m w [x] l) in Ha as [_ Ha]. cbn [length] in Ha. specialize (IH (w + sizeof_L4_Word_t) (pre ++ [x]) old).
  rewrite <- !app_assoc in IH. cbn [app] in IH. rewrite length_app in IH. cbn [length] in IH.
  replace (Z.of_nat (length pre) + 1) with (Z.of_nat (length pre + 1)) by lia. apply IH; [|done].
  by replace (w + sizeof_L4_Word_t) with (w + Z.of_nat 1 * 4) by (unfold sizeof_L4_Word_t; lia).
Qed.

Lemma LoadBRs_ok m v w pre old post l : warray m w l -> length old = length l -> l <> [] -> (length pre + length l <= 8)%nat ->
  L4_LoadBRs (Z.of_nat (length pre)) (Z.of_nat (length l)) w (m, with_br v (pre ++ old ++ post)) = Done (tt, (m, with_br v (pre ++ l ++ post))).
Proof.
  intros Ha Hl Hn H8. unfold L4_LoadBRs, __L4_NUM_BRS. assert (0 < length l)%nat by (destruct l; [done|cbn; lia]).
  destruct (Z.ltb_spec (Z.of_nat (length pre)) 0); [lia|]. destruct (Z.leb_spec (Z.of_nat (length l)) 0); [lia|].
  destruct (Z.gtb_spec (Z.of_nat (length pre) + Z.of_nat (length l)) 8); [lia|]. cbn [orb]. rewrite Nat2Z.id. by apply load_brs_ok.
Qed.

Lemma split_old {A} (old l1 l2 : list A) : length old = length (l1 ++ l2) -> exists o1 o2, old = o1 ++ o2 /\ length o1 = length l1 /\ length o2 = length l2.
Proof.
  rewrite length_app. intros H. exists (take (length l1) old), (drop (length l1) old). rewrite take_drop, length_take, length_drop. split; [done|lia].
Qed.

(** One item is loaded. *)
Lemma accept_item_ok m v s pre old post x l : warray m s (item_words x ++ l) -> item_ok x -> length old = length (item_words x) ->
  (length pre + length (item_words x) <= 8)%nat ->
  L4_LoadBRs (Z.of_nat (length pre)) (str_j x.1 + 2) s (m, with_br v (pre ++ old ++ post)) = Done (tt, (m, with_br v (pre ++ item_words x ++ post))) /\
  substring_ptr s (str_j x.1 + 2 - 1) = behind s (length (item_words x)) /\
  Z.of_nat (length pre) + (str_j x.1 + 2) = Z.of_nat (length (pre ++ item_words x)).
Proof.
  intros Ha Hx Hl H8. pose proof (substring_ptr_behind s x Hx) as Hp. apply warray_app in Ha as [Ha _].
  assert (E : str_j x.1 + 2 = Z.of_nat (length (item_words x))) by (unfold item_ok in Hx; rewrite length_item_words; lia).
  rewrite length_app, Nat2Z.inj_add, E. replace (Z.of_nat (length (item_words x)) - 1) with (str_j x.1 + 1) by lia. split; [by apply LoadBRs_ok|done].
Qed.

Lemma accept_string_loop_ok fuel m v s pre old post init last : string_ok init last -> let l := string_words (init ++ [last]) in
  warray m s l -> length old = length l -> (length pre + length l <= 8)%nat -> (length init < fuel)%nat ->
  accept_string_loop fuel s (Z.of_nat (length pre)) (m, with_br v (pre ++ old ++ post)) =
    Done ((behind s (length l), Z.of_nat (length (pre ++ l))), (m, with_br v (pre ++ l ++ post))).
Proof.
  revert fuel s pre old. induction init as [|x init IH]; intros [|fuel] s pre old (Hi & Hl & Hn) l Ha Ho H8 Hf; cbn [length] in Hf; try lia; cbn [accept_string_loop].
  - unfold l in *. cbn [app] in *. rewrite string_words_cons in *. cbn [string_words mbind list_bind] in *. rewrite app_nil_r in *.
    pose proof (fun v => on_memory (read32 s) m v _ _ (warray_head m s _ _ Ha)) as Hr. rewrite (bind_Done _ _ _ _ _ (Hr _)).
    destruct (accept_item_ok m v s pre old post last []) as (E & -> & ->); [by rewrite app_nil_r|done..|].
    rewrite (bind_Done _ _ _ _ _ E), (bind_Done _ _ _ _ _ (Hr _)). destruct (truth (str_c last.1)) eqn:Ec; [by destruct Hn|done].
  - apply Forall_cons in Hi as [[Hx Hg] Hi]. unfold l in *. cbn [app] in *. rewrite string_words_cons in *.
    pose proof (fun v => on_memory (read32 s) m v _ _ (warray_head m s _ _ Ha)) as Hr. rewrite (bind_Done _ _ _ _ _ (Hr _)).
    destruct (split_old old _ _ Ho) as (o1 & o2 & -> & Ho1 & Ho2). rewrite length_app in H8.
    destruct (accept_item_ok m v s pre o1 (o2 ++ post) x _ Ha Hx Ho1 ltac:(lia)) as (E & -> & ->).
    rewrite <- app_assoc, (bind_Done _ _ _ _ _ E), (bind_Done _ _ _ _ _ (Hr _)), Hg. apply warray_app in Ha as [_ Ha].
    rewrite (app_assoc pre), (IH fuel (behind s (length (item_words x))) (pre ++ item_words x) o2); [|done..|rewrite length_app; lia|lia].
    rewrite behind_app, <- !app_assoc. done.
Qed.

Lemma accept_ustring_ok m v s pre old post u l : ustring_ok u -> warray m s (words_of u ++ l) -> length old = length (words_of u) ->
  (length pre + length (words_of u) <= 8)%nat ->
  accept_string_loop (S (size m)) s (Z.of_nat (length pre)) (m, with_br v (pre ++ old ++ post)) =
    Done ((behind s (length (words_of u)), Z.of_nat (length (pre ++ words_of u))), (m, with_br v (pre ++ words_of u ++ post))).
Proof.
  intros (Hs & _) Ha Ho H8. apply warray_app in Ha as [Ha _]. apply accept_string_loop_ok; [done..|].
  pose proof (warray_size _ _ _ Ha) as H1. pose proof (string_words_length (u.1 ++ [u.2])) as H2. rewrite length_app in H2. cbn [length] in H2. unfold words_of in H1. lia.
Qed.

(** One turn of the outer loop: a string with the bit [k] for [C]. *)
Lemma accept_strings_turn fuel m v s pre old post u k l : ustring_ok u -> warray m s (words_of (with_C k u) ++ l) -> length old = length (words_of (with_C k u)) ->
  (length pre + length (words_of (with_C k u)) <= 8)%nat ->
  let words := words_of (with_C k u) in
  let t := (m, with_br v (pre ++ words ++ post)) in
  accept_strings_loop (S fuel) s (Z.of_nat (length pre)) (m, with_br v (pre ++ old ++ post)) =
    if truth (k mod 2) then accept_strings_loop fuel (behind s (length words)) (Z.of_nat (length (pre ++ words))) t else Done (tt, t).
Proof.
  intros Hu Ha Ho H8 words t. cbn [accept_strings_loop]. set (t0 := (m, with_br v (pre ++ old ++ post))). rewrite (bind_Done _ _ t0 m t0) by done.
  rewrite (bind_Done _ _ _ _ _ (accept_ustring_ok m v s pre old post _ l (with_C_ok k u Hu) Ha Ho H8)). rewrite with_C_words in Ha.
  rewrite (bind_Done _ _ _ _ _ (on_memory (read32 s) m _ _ _ (warray_head m s _ _ Ha))). destruct (set_C_fields (first_word u) k (ustring_first_u32 u Hu)) as (_ & _ & _ & ->).
  by destruct (truth (k mod 2)).
Qed.

Lemma accept_strings_loop_ok fuel m v s pre old post ss u : Forall ustring_ok (u :: ss) -> let l := linked_words (u :: ss) in
  warray m s l -> length old = length l -> (length pre + length l <= 8)%nat -> (length ss < fuel)%nat ->
  accept_strings_loop fuel s (Z.of_nat (length pre)) (m, with_br v (pre ++ old ++ post)) = Done (tt, (m, with_br v (pre ++ l ++ post))).
Proof.
  revert fuel s pre old u. induction ss as [|y ss IH]; intros [|fuel] s pre old u Hok l Ha Ho H8 Hf; cbn [length] in Hf; try lia.
  all: unfold l in *; rewrite linked_words_cons in *; apply Forall_cons in Hok as [Hu Hok]; destruct (split_old old _ _ Ho) as (o1 & o2 & -> & Ho1 & Ho2);
    rewrite length_app in H8; rewrite <- (app_assoc o1).
  - rewrite (accept_strings_turn fuel m v s pre o1 (o2 ++ post) u 0 _ Hu Ha Ho1) by lia. change (truth (0 mod 2)) with false.
    destruct o2; [|done]. cbn [linked_words link mbind list_bind]. by rewrite app_nil_r.
  - rewrite (accept_strings_turn fuel m v s pre o1 (o2 ++ post) u 1 _ Hu Ha Ho1) by lia. change (truth (1 mod 2)) with true.
    apply warray_app in Ha as [_ Ha]. rewrite (app_assoc pre). cbv iota.
    rewrite (IH fuel (behind s _) (pre ++ words_of (with_C 1 u)) o2 y); [|done..|rewrite length_app; lia|lia]. by rewrite <- !app_assoc.
Qed.

Lemma AcceptStrings_ok m v a b ss : buffer_at m b ss -> ss <> [] -> (length (linked_words ss) <= buffer_len)%nat -> length (v_br v) = 8%nat ->
  exists rest, L4_AcceptStrings a b (m, v) = Done (tt, (m, with_br v ((a :: linked_words ss) ++ rest))) /\
    rest = drop (S (length (linked_words ss))) (v_br v).
Proof.
  intros (_ & Hok & Ha & _) Hn Hl Hv. destruct ss as [|u ss]; [done|]. set (l := linked_words (u :: ss)) in *. unfold buffer_len in Hl.
  destruct v as [vr vm [|x br]]; [done|]. cbn [v_br length] in Hv. injection Hv as Hv. eexists. split; [|done]. unfold L4_AcceptStrings.
  rewrite (bind_Done _ _ (m, mk_vregs vr vm (x :: br)) tt (m, mk_vregs vr vm (a :: br))) by done.
  rewrite (bind_Done _ _ (m, mk_vregs vr vm (a :: br)) m (m, mk_vregs vr vm (a :: br))) by done.
  rewrite <- (take_drop (length l) br) at 1. pose proof (accept_strings_loop_ok (S (size m)) m (mk_vregs vr vm (a :: br)) b [a] (take (length l) br) (drop (length l) br) ss u) as H.
  cbv zeta in H. fold l in H. apply H; [done..|rewrite length_take; lia|cbn [length]; lia|].
  pose proof (warray_size _ _ _ Ha) as Hs. unfold l in Hs. rewrite linked_length in Hs. pose proof (strings_length (u :: ss)). cbn [length] in *. lia.
Qed.

(** ** From strings to registers *)

(** The strings at the addresses [ps] are appended, one after the other. *)
Fixpoint append_strings (b : Z) (ps : list Z) : M bytes unit :=
  match ps with
  | [] => mret tt
  | p :: ps => L4_MsgBufferAppendRcvString b p;; append_strings b ps
  end.

(** The string [x.2] is at the address [x.1], apart from the buffer. *)
Definition source_at (m : bytes) (b : Z) (x : Z * ustring) : Prop :=
  ustring_ok x.2 /\ warray m x.1 (words_of x.2) /\ words_apart x.1 (length (words_of x.2)) b buffer_len.

Lemma source_at_kept m m' b x : source_at m b x -> same_outside b buffer_len m m' -> source_at m' b x.
Proof. intros (Hs & Ha & Hap) Hso. split; [done|]. split; [by eapply warray_outside|done]. Qed.

Lemma append_strings_ok m b ss xs : buffer_at m b ss -> Forall (source_at m b) xs -> (length (linked_words (ss ++ xs.*2)) <= buffer_len)%nat ->
  exists m', append_strings b xs.*1 m = Done (tt, m') /\ buffer_at m' b (ss ++ xs.*2) /\ same_outside b buffer_len m m'.
Proof.
  revert m ss. induction xs as [|[p s] xs IH]; intros m ss Hb Hx Hl.
  - exists m. cbn [fmap list_fmap]. by rewrite app_nil_r.
  - apply Forall_cons in Hx as [Hs Hx]. cbn [fmap list_fmap fst snd append_strings] in *. rewrite (cons_middle s ss), app_assoc in Hl |- *.
    destruct Hs as (Hs & Ha & Hap). destruct (MsgBufferAppendRcvString_ok m b p ss s Hb Hs Ha Hap) as (m1 & E1 & Hb1 & Hs1).
    { rewrite linked_length in *. rewrite bind_app, length_app in Hl. lia. }
    destruct (IH m1 (ss ++ [s]) Hb1) as (m2 & E2 & Hb2 & Hs2); [|done|].
    { apply (Forall_impl _ _ _ Hx). intros x Hsx. by apply (source_at_kept m). }
    exists m2. rewrite (bind_Done _ _ _ _ _ E1). split; [done|]. split; [done|]. by apply (same_outside_trans _ _ m m1).
Qed.

(** C36. Compound strings are received where the program says: after the buffer is cleared and strings
    of any number of items and substrings, seven words in all, are appended, loading the buffer
    puts the acceptor in buffer register 0 and the words of the strings behind it in order, each
    string marked as followed by another one except the last, and the other registers are kept;
    memory outside of the buffer is not changed. *)
Theorem strings_accepted m v a b xs : b mod 4 = 0 -> is_bytes m b (Z.of_nat buffer_len * 4) -> Forall (source_at m b) xs -> xs <> [] ->
  (length (xs.*2 ≫= words_of) <= buffer_len)%nat -> length (v_br v) = 8%nat ->
  exists m', (on (L4_MsgBufferClear b);; on (append_strings b xs.*1);; L4_AcceptStrings a b) (m, v) =
    Done (tt, (m', with_br v (a :: linked_words xs.*2 ++ drop (S (length (linked_words xs.*2))) (v_br v)))) /\
    buffer_at m' b xs.*2 /\ same_outside b buffer_len m m'.
Proof.
  intros Hal Hb Hx Hn Hl Hv. rewrite <- linked_length in Hl. destruct (MsgBufferClear_ok m b Hal Hb) as (m1 & E1 & Hb1 & Hs1).
  destruct (append_strings_ok m1 b [] xs Hb1) as (m2 & E2 & Hb2 & Hs2); [|done|].
  { apply (Forall_impl _ _ _ Hx). intros x Hsx. by apply (source_at_kept m). }
  cbn [app] in Hb2. destruct (AcceptStrings_ok m2 v a b xs.*2 Hb2) as (rest & E3 & ->); [by destruct xs|done|done|].
  exists m2. rewrite (bind_Done _ _ _ _ _ (on_memory _ m v _ _ E1)).
  rewrite (bind_Done _ _ _ _ _ (on_memory _ m1 v _ _ E2)). split; [exact E3|]. split; [done|]. by apply (same_outside_trans _ _ m m1).
Qed.

(** *** A witness *)

(** Little endian bytes of words. *)
Definition word_bytes_at (a : Z) (l : list Z) : list (Z * Z) :=
  zip (seqZ a (Z.of_nat (length l) * 4)) (l ≫= fun w => [w mod 256; Z.shiftr w 8 mod 256; Z.shiftr w 16 mod 256; Z.shiftr w 24 mod 256]).

(** A string of one item with two substrings of 5 bytes, and one of two items. *)
Definition sample_s1 : ustring := ([], (5136, [4096; 8192])).
Definition sample_s2 : ustring := ([(8704, [12288])], (9216, [16384])).
Definition sample_strings : bytes := list_to_map (word_bytes_at 256 (replicate 7 77) ++ word_bytes_at 512 (words_of sample_s1) ++ word_bytes_at 768 (words_of sample_s2)).

Lemma sample_string_ok : ustring_ok sample_s1 /\ ustring_ok sample_s2.
Proof.
  assert (Hu : forall s, forallb (fun w => (0 <=? w) && (w <? u32_modulus)) (words_of s) = true -> Forall is_u32 (words_of s)).
  { intros s H. apply Forall_forall. intros w Hw. rewrite forallb_forall in H. apply list_elem_of_In, H in Hw. unfold is_u32. lia. }
  split; (split; [|split; [by apply Hu|by vm_compute]]); (split; [|by vm_compute]); repeat (apply Forall_cons; split); by vm_compute.
Qed.

Lemma strings_accepted_witness : exists m',
  (on (L4_MsgBufferClear 256);; on (append_strings 256 [512; 768]);; L4_AcceptStrings 1 256) (sample_strings, mk_vregs (replicate 8 0) (replicate 8 0) (replicate 8 0)) =
    Done (tt, (m', mk_vregs (replicate 8 0) (replicate 8 0) [1; 5137; 4096; 8192; 8704; 12288; 9216; 16384])).
Proof.
  destruct (strings_accepted sample_strings (mk_vregs (replicate 8 0) (replicate 8 0) (replicate 8 0)) 1 256 [(512, sample_s1); (768, sample_s2)]) as (m' & E & _);
    [done|apply is_bytes_check; by vm_compute| |done|by vm_compute; lia|done|by exists m'].
  destruct sample_string_ok. repeat (apply Forall_cons; split); [..|done]; (split; [done|]); (split; [apply warray_check; by vm_compute|]); unfold words_apart, buffer_len; cbn; lia.
Defined.
