(* ===== verification/RootRun.v ===== *)
(** * The root thread starts a program

    The kernel creates the thread that the root thread asks for with [sys_thread_control], which
    gives the state the calls of [RootKernel] need, and serves the calls for one program in their
    order: creation, the mapping of the stack, the start. *)

From S2P Require Import Prelude Bits Ktable Thread ThreadMap ThreadTree Sched Softirq Ktimer Kernel Mempool Fpage FpageChain Memory Ipc IpcProps UserLib UserLibProps UserCalls RootThread RootProps RootKernel.

(** ** Runs of two operations *)

Lemma bind_inv {S A B} (m : M S A) (k : A -> M S B) s b s'' : (m ≫= k) s = Done (b, s'') -> exists a s', m s = Done (a, s') /\ k a s' = Done (b, s'').
Proof. unfold mbind, M_bind. destruct (m s) as [[a s']| | |]; [|done..]. intros H. by exists a, s'. Qed.

Lemma mem_Done {A} (m : M memstate A) s a x : m (k_mem s) = Done (a, x) -> mem m s = Done (a, set_mem x s).
Proof. exact (on_Done m s a x). Qed.

(** ** Strict order of the map *)

Lemma ordered_strict (l : list Z) : ordered Z.le l -> NoDup l -> ordered Z.lt l.
Proof.
  intros Ho Hn a b x y Hab Hx Hy. pose proof (Ho a b x y Hab Hx Hy). assert (x <> y); [|lia]. intros ->. pose proof (NoDup_lookup _ _ _ _ Hn Hx Hy). lia.
Qed.

Lemma ordered_nodup (l : list Z) : ordered Z.lt l -> NoDup l.
Proof.
  intros Ho. apply NoDup_alt. intros a b x Ha Hb. destruct (Nat.lt_trichotomy a b) as [H|[H|H]]; [|done|]; exfalso.
  - pose proof (Ho a b x x H Ha Hb). lia.
  - pose proof (Ho b a x x H Hb Ha). lia.
Qed.

(** ** What keeps the invariant of the dispatcher *)

(** What the invariant says of a block: its identifier and its links. *)
Definition core (t : tcb) : Z * (Z * Z * Z) := (t_globalid t, links t).

Lemma tree_inv_core s s' ents f : tree_inv s ents f -> thread_table s' = thread_table s -> thread_map s' = thread_map s -> thread_count s' = thread_count s ->
  (forall p, core <$> tcbs s' !! p = core <$> tcbs s !! p) -> tree_inv s' ents f.
Proof.
  intros [Hi Hf Hn Hl] E1 E2 E3 Hc. assert (Hid : same_ids (tcbs s) (tcbs s')).
  { intros p. specialize (Hc p). destruct (tcbs s' !! p), (tcbs s !! p); try done. apply (inj Some) in Hc. injection Hc as Hc _. cbn. by rewrite Hc. }
  pose proof (thr_inv_same_ids _ _ _ Hi Hid) as [Hm Hwf Hnum Hd Hlv Hnd]. split; [|..].
  - destruct Hm as [Hp Ht Ho]. constructor; rewrite ?E1; try done. constructor; [|done|done]. unfold map_ptrs in *. cbn in Hp. by rewrite E2, E3.
  - apply (frep_frame (tcbs s)); [done|]. intros p l _ (b & Hb & El). specialize (Hc p). rewrite Hb in Hc. destruct (tcbs s' !! p) as [b'|] eqn:E; [|done].
    apply (inj Some) in Hc. exists b'. split; [done|]. injection Hc as _ ? ? ?. unfold links in *. congruence.
  - done.
  - done.
Qed.

Lemma core_insert (h h0 : gmap Z tcb) p t t' : h !! p = Some t -> core t' = core t -> (forall q, core <$> h !! q = core <$> h0 !! q) -> forall q, core <$> <[p := t']> h !! q = core <$> h0 !! q.
Proof. intros Hp Hc H q. rewrite <- H, lookup_insert. case_decide; [subst|done]. rewrite Hp. cbn. by rewrite Hc. Qed.

(** ** The address space of a new thread *)

(** The work of [thread_space] on memory, for a thread in a space of its own: the space is
    created, the kernel interface page and the control block are put in it. *)
Definition space_setup (id kip_page extra_page src utcb : Z) (priv : bool) : M memstate Z :=
  a ← as_create id;
  map_fpage NULL a kip_page GRANT;;
  map_fpage NULL a extra_page GRANT;;
  map_area src a utcb UTCB_SIZE GRANT priv;;
  mret a.

Lemma own_space_ok s q p tq t utcb a m : caller (k_thr s) = p -> p <> NULL -> q <> p -> tcbs (k_thr s) !! q = Some tq -> tcbs (k_thr s) !! p = Some t ->
  space_setup (t_globalid tq) (kip_fpage s) (kip_extra_fpage s) (t_as t) utcb (GLOBALID_TO_TID (t_globalid t) =? THREAD_ROOT) (k_mem s) = Done (a, m) ->
  thread_space q (t_globalid tq) utcb s = Done (tt, set_mem m (set_thr (set_tcbs (<[q := with_as a tq]> (tcbs (k_thr s))) (k_thr s)) s)).
Proof.
  intros Hp Hnn Hne Hq Ht Hs. apply bind_inv in Hs as (a' & m1 & E1 & Hs). apply bind_inv in Hs as (r1 & m2 & E2 & Hs). apply bind_inv in Hs as (r2 & m3 & E3 & Hs).
  apply bind_inv in Hs as (r3 & m4 & E4 & Hs). injection Hs as -> ->. unfold thread_space. rewrite (thr_bind _ _ _ tq) by (by apply get_tcb_ok). rewrite Z.eqb_refl.
  set (s1 := set_mem m1 (set_thr (set_tcbs (<[q := with_as a tq]> (tcbs (k_thr s))) (k_thr s)) s)).
  match goal with |- (_ ← ?b; _) s = _ => assert (Eb : b s = Done (tt, set_mem m3 s1)) end.
  { rewrite (bind_Done _ _ _ _ _ (mem_Done _ s _ _ E1)). rewrite (bind_Done _ _ _ _ _ (thr_Done (upd_tcb q (with_as a)) (set_mem m1 s) _ _ (upd_tcb_ok _ _ _ _ Hq))).
    change (set_thr _ (set_mem m1 s)) with s1. rewrite (bind_Done (gets kip_fpage) _ s1 _ _ eq_refl). rewrite (bind_Done _ _ _ _ _ (mem_Done _ s1 _ _ E2)).
    set (s2 := set_mem m2 s1). rewrite (bind_Done (gets kip_extra_fpage) _ s2 _ _ eq_refl). by rewrite (bind_Done _ _ _ _ _ (mem_Done _ s2 _ _ E3)). }
  rewrite (bind_Done _ _ _ _ _ Eb). set (s3 := set_mem m3 s1). rewrite (thr_bind _ _ s3 p) by (by rewrite <- Hp).
  rewrite (thr_bind _ _ s3 (with_as a tq)) by (apply get_tcb_ok, lookup_insert_eq). rewrite (proj2 (Z.eqb_neq _ _) Hnn). cbn [negb].
  assert (Ht3 : tcbs (k_thr s3) !! p = Some t) by (cbn; by rewrite lookup_insert_ne). rewrite (thr_bind _ _ s3 t) by (by apply get_tcb_ok).
  rewrite (thr_bind _ _ s3 (GLOBALID_TO_TID (t_globalid t) =? THREAD_ROOT)) by (unfold thread_ispriviliged; by rewrite (bind_Done _ _ _ _ _ (get_tcb_ok _ _ _ Ht3))).
  by rewrite (bind_Done _ _ _ _ _ (mem_Done _ s3 _ _ E4)).
Qed.

Lemma unlinked_fields t t' : unlinked t' = unlinked t ->
  t_globalid t' = t_globalid t /\ t_state t' = t_state t /\ t_ctx t' = t_ctx t /\ t_as t' = t_as t /\ t_utcb t' = t_utcb t /\ t_stack_base t' = t_stack_base t /\ t_stack_size t' = t_stack_size t.
Proof. destruct t, t'. intros H. by injection H as -> -> -> -> -> -> -> ->. Qed.

(** ** Creation *)

(** The request can be granted: a number that is not in use and may be given to a user, a free
    block, a user control block in memory of the users, and memory for the space. *)
Record grantable (s : kstate) (p : Z) (t : tcb) (tid ub a : Z) (uu : utcb) (m : memstate) (ents : list (Z * Z)) (f : forest) : Prop := {
  gr_inv : tree_inv (k_thr s) ents f;
  gr_strict : ordered Z.lt ents.*2;
  gr_caller : p ∈ preorder f;
  gr_id : creatable tid = true;
  gr_new : GLOBALID_TO_TID tid ∉ ents.*2;
  gr_room : (length ents < Z.to_nat CONFIG_MAX_THREADS)%nat;
  gr_utcb : ub <> NULL /\ ub <> t_utcb t /\ utcbs (k_thr s) !! ub = Some uu /\ length (u_mr uu) = 8%nat;
  gr_regs : forall q b, tcbs (k_thr s) !! q = Some b -> length (c_regs (t_ctx b)) = 8%nat;
  gr_pool : exists id pool, mempool_search ub UTCB_SIZE (k_mem s) = Done (id, k_mem s) /\ id <> -1 /\ get_pool id (k_mem s) = Done (pool, k_mem s) /\ truth (Z.land (mp_flags pool) (Z.lor MP_UR MP_UW)) = true;
  gr_space : space_setup tid (kip_fpage s) (kip_extra_fpage s) (t_as t) ub (GLOBALID_TO_TID (t_globalid t) =? THREAD_ROOT) (k_mem s) = Done (a, m);
}.

Section creation.
Context {s : kstate} {p : Z} {t : tcb} {u : utcb} {c : ucall} {tid ub a : Z} {uu : utcb} {m : memstate} {ents : list (Z * Z)} {f : forest}.
Variable sym : symbols.
Hypothesis Hc : called s p t u c.
Hypothesis Hr3 : words (k_thr s) !! reg_addr (c_sp (t_ctx t)) REG_R3 = Some (uc_r3 c).
Hypothesis Hask : asks (Create tid tid (t_globalid t) ub) c.
Hypothesis Hg : grantable s p t tid ub a uu m ents f.

(** The state of the threads when the block [q] has been created and initialised as [x1]. *)
Definition granted_thr (q : Z) (tq t1 : tcb) (x1 : thrstate) : thrstate :=
  set_tcbs (<[p := with_state T_RUNNABLE t1]> (<[q := with_as a tq]> (tcbs x1)))
    (set_words (<[reg_addr (c_sp (t_ctx t)) REG_R0 := 1]> (words x1)) (set_utcbs (<[ub := with_u_pager (t_globalid t) (with_u_globalid tid uu)]> (utcbs x1)) x1)).

Lemma caller_nonnull : p <> NULL.
Proof. destruct Hg as [[_ Hf _ _] _ Hin _ _ _ _ _ _ _]. by apply (frep_nonnull (tcbs (k_thr s)) NULL f). Qed.

(** The call, given what [thread_create] does. *)
Lemma thread_control_run q x1 tq t1 : thread_create tid ub (k_thr s) = Done (q, x1) -> q <> p -> tcbs x1 !! q = Some tq -> tcbs x1 !! p = Some t1 ->
  unlinked t1 = unlinked t -> t_globalid tq = tid -> t_utcb tq = ub -> caller x1 = p -> words x1 = words (k_thr s) -> utcbs x1 !! ub = Some (with_u_globalid tid uu) ->
  syscall_handler sym s = Done (tt, set_mem m (set_thr (granted_thr q tq t1 x1) s)).
Proof.
  intros Hcr Hne Hq Ht1 Hun Hid Hub Hcal Hw Hu1. destruct Hc as [Hp (Ht & _ & Hl & _) Hmw H0 H1 _ (pc & Hpc & Hcode)]. destruct Hask as (N & R0 & R1 & _ & R3 & W0).
  destruct (unlinked_fields t t1 Hun) as (Eg & _ & _ & Eas & _). unfold syscall_handler. rewrite (thr_bind _ _ _ p) by (by rewrite <- Hp). rewrite (thr_bind _ _ _ t) by (by apply get_tcb_ok).
  cbv zeta. rewrite (thr_bind _ _ _ pc) by (by apply read_word_ok). assert (Ec : read_code (pc -w 2) s = Done (2, s)) by (unfold read_code; by rewrite Hcode, N).
  rewrite (bind_Done _ _ _ _ _ Ec). change (is_syscall 2 SYS_THREAD_CONTROL) with true. cbv iota.
  assert (Hr4 : zlookup (c_regs (t_ctx t)) 0 = Some ub) by (rewrite <- Hmw in W0; unfold message in W0; change 0 with (Z.of_nat 0); rewrite zlookup_nat; by rewrite lookup_app_l in W0 by lia).
  rewrite Hr4, (bind_Done (lift_opt (Some ub)) _ s ub s) by done.
  set (sp := c_sp (t_ctx t)) in *. set (s1 := set_thr x1 s). set (x2 := set_tcbs (<[q := with_as a tq]> (tcbs x1)) x1). set (s2 := set_mem m (set_thr x2 s)).
  set (x3 := set_utcbs (<[ub := with_u_pager (t_globalid t) (with_u_globalid tid uu)]> (utcbs x1)) x2). set (x4 := set_words (<[reg_addr sp REG_R0 := 1]> (words x1)) x3).
  assert (Es : sys_thread_control sp ub s = Done (tt, set_mem m (set_thr x4 s))).
  { unfold sys_thread_control. rewrite (thr_bind _ _ _ tid) by (apply read_word_ok; by rewrite H0, R0). rewrite (thr_bind _ _ _ tid) by (apply read_word_ok; by rewrite H1, R1).
    rewrite (thr_bind _ _ _ (t_globalid t)) by (apply read_word_ok; by rewrite Hr3, R3). destruct Hg as [_ _ _ Hcb _ _ _ _ (id & pool & Ep & Hid1 & Epool & Hfl) Hsp].
    destruct (Z.eqb_spec tid L4_NILTHREAD) as [->|_]; [by vm_compute in Hcb|]. cbn [negb]. rewrite (bind_Done _ _ _ _ _ (mem_read _ _ _ Ep)). rewrite (proj2 (Z.eqb_neq _ _) Hid1).
    rewrite (bind_Done _ _ s true s) by (rewrite (bind_Done _ _ _ _ _ (mem_read _ _ _ Epool)); by rewrite Hfl). cbn [negb]. rewrite (bind_Done _ _ _ _ _ (thr_Done _ _ _ _ Hcr)). fold s1.
    rewrite <- Hid in Hsp. rewrite <- Eg, <- Eas in Hsp. pose proof (own_space_ok s1 q p tq t1 ub a m Hcal caller_nonnull Hne Hq Ht1 Hsp) as Eown. rewrite Hid in Eown.
    rewrite (bind_Done _ _ _ _ _ Eown). change (set_mem m (set_thr _ s1)) with s2. rewrite (thr_bind _ _ s2 (with_as a tq)) by (apply get_tcb_ok, lookup_insert_eq).
    cbn [t_utcb with_as]. rewrite Hub. rewrite (bind_Done _ _ _ _ _ (thr_Done _ s2 _ _ (upd_utcb_ok _ _ _ (k_thr s2) Hu1))).
    exact (thr_Done (write_word _ 1) (set_mem m (set_thr x3 s)) _ _ (write_word_ok _ _ _ x3 ltac:(cbn; rewrite Hw; exact H0))). }
  rewrite (bind_Done _ _ _ _ _ Es). set (s4 := set_mem m (set_thr x4 s)). unfold set_caller_state. rewrite (thr_bind _ _ s4 p) by (change (caller (k_thr s4)) with (caller x1); by rewrite <- Hcal).
  exact (thr_Done (upd_tcb p (with_state T_RUNNABLE)) s4 _ _ (upd_tcb_ok _ _ (k_thr s4) t1 ltac:(cbn; rewrite lookup_insert_ne by done; exact Ht1))).
Qed.

Lemma ents_caller : (p, GLOBALID_TO_TID (t_globalid t)) ∈ ents.
Proof.
  destruct Hg as [[Hi _ _ Hl] _ Hin _ _ _ _ _ _ _]. destruct Hc as [_ (Ht & _) _ _ _ _ _]. apply Hl, list_elem_of_fmap in Hin as (e & -> & He).
  pose proof (mr_tids _ _ (ti_map _ _ Hi)) as Htid. rewrite Forall_forall in Htid. destruct (Htid e He) as (b & Hb & E). rewrite Ht in Hb. injection Hb as <-. rewrite E. by destruct e.
Qed.

Lemma tid_other : GLOBALID_TO_TID tid <> GLOBALID_TO_TID (t_globalid t).
Proof. intros E. destruct Hg as [_ _ _ _ Hnew _ _ _ _ _]. apply Hnew. rewrite E. apply list_elem_of_fmap. eexists. split; [|exact ents_caller]. done. Qed.

(** The new thread has been created and not started, in a space of its own, and the dispatcher
    keeps its invariant. *)
Lemma thread_control_creates_run : exists s' q tq t' r,
  syscall_handler sym s = Done (tt, s') /\ k_mem s' = m /\ k_code s' = k_code s /\ kip_addr (k_thr s') = kip_addr (k_thr s) /\
  created s' p t' u tid q tq (with_u_pager (t_globalid t) (with_u_globalid tid uu)) /\
  has_message (k_thr s') p t' u /\ caller (k_thr s') = p /\ unlinked t' = unlinked (with_state T_RUNNABLE t) /\
  t_as tq = a /\ t_globalid tq = tid /\ t_utcb tq = ub /\ (exists old, tcbs (k_thr s) !! q = Some old /\ t_ctx tq = t_ctx old) /\
  words (k_thr s') = <[reg_addr (c_sp (t_ctx t)) REG_R0 := 1]> (words (k_thr s)) /\
  tree_inv (k_thr s') (insert_at r (q, GLOBALID_TO_TID tid) ents) (add_child p q f) /\ (q ∉ ents.*1).
Proof.
  pose proof Hg as [Hinv Hst Hin Hid Hnew Hroom (Hub0 & Hubne & Hub & Hubl) Hregs _ _]. pose proof Hc as [Hp (Ht & Hu & Hl & Hlm) _ _ _ _ _].
  destruct (thread_create_ok (k_thr s) ents f tid ub Hinv ltac:(by rewrite Hp) Hid Hroom ltac:(intros _; by eexists))
    as (q & x1 & r & tq & Hcr & Hfresh & Hinv1 & Hq & _ & Eg & Eu & Es & Ec & (Kw & Kk & Ku) & old & Hold & Hlo).
  rewrite Hp in *. assert (Hpe : p ∈ ents.*1) by (apply list_elem_of_fmap; eexists; split; [|exact ents_caller]; done). assert (Hne : q <> p) by (by intros ->).
  destruct (links_only_lookup _ _ p t Hlo ltac:(by rewrite lookup_insert_ne)) as (t1 & Ht1 & Hun). rewrite (proj2 (Z.eqb_neq _ _) Hub0) in Ku.
  assert (Hu1 : utcbs x1 !! ub = Some (with_u_globalid tid uu)) by (rewrite Ku, lookup_alter_eq, Hub; done).
  destruct (links_only_lookup _ _ q (fresh_tcb tid ub old) Hlo ltac:(by rewrite lookup_insert_eq)) as (tq' & Hq' & Hunq). rewrite Hq in Hq'. injection Hq' as <-.
  destruct (unlinked_fields _ _ Hunq) as (_ & _ & Ectx & _). destruct (unlinked_fields _ _ Hun) as (Eg1 & _ & Ectx1 & _ & Eu1 & _).
  pose proof (thread_control_run q x1 tq t1 Hcr Hne Hq Ht1 Hun Eg Eu Ec Kw Hu1) as E. set (s' := set_mem m _) in E. set (t' := with_state T_RUNNABLE t1).
  assert (Hm' : has_message (k_thr s') p t' u).
  { split; [apply lookup_insert_eq|]. cbn [t_utcb t' with_state t_ctx]. rewrite Eu1, Ectx1. split; [|done]. cbn. rewrite lookup_insert_ne, Ku, lookup_alter_ne by done. exact Hu. }
  assert (Hq2 : tcbs (k_thr s') !! q = Some (with_as a tq)) by (cbn; by rewrite lookup_insert_ne, lookup_insert_eq).
  assert (Hinv' : tree_inv (k_thr s') (insert_at r (q, GLOBALID_TO_TID tid) ents) (add_child p q f)).
  { apply (tree_inv_core x1); [done..|]. cbn. eapply core_insert; [rewrite lookup_insert_ne by done; exact Ht1|done|]. by eapply core_insert. }
  exists s', q, (with_as a tq), t', r. split; [exact E|]. do 2 (split; [done|]). split; [exact Kk|]. split; [|split; [exact Hm'|split; [exact Ec|split]]].
  - constructor.
    + eexists. split; [apply (tri_inv _ _ _ Hinv')|]. split; [|rewrite insert_at_perm; left]. apply ordered_strict; [apply (ti_map _ _ (tri_inv _ _ _ Hinv'))|].
      rewrite insert_at_fmap, insert_at_perm. apply NoDup_cons. split; [done|by apply ordered_nodup].
    + intros ->. pose proof (tri_rep _ _ _ Hinv') as Hf'. apply (frep_nonnull _ _ _ NULL Hf'); [|done].
      rewrite preorder_add_child by (apply Hinv || done). left.
    + done.
    + cbn [t_utcb with_as t' with_state]. by rewrite Eu, Eu1.
    + split; [exact Hq2|]. cbn [t_utcb with_as t_ctx]. rewrite Eu, Ectx. split; [apply lookup_insert_eq|]. split; [exact (Hregs q old Hold)|done].
    + done.
    + by rewrite <- Eg1.
    + intros E'. apply tid_other. rewrite E'. cbn. by rewrite Eg1.
    + intros ->. by vm_compute in Hid.
    + intros ->. by vm_compute in Hid.
  - unfold t'. clear -Hun. destruct t, t1. unfold unlinked in *. cbn in *. by injection Hun as -> -> -> -> -> -> -> ->.
  - split; [done|]. split; [done|]. split; [done|]. split; [by exists old|]. split; [cbn; by rewrite Kw|done].
Qed.
End creation.

(** ** The next call *)

(** The thread [p] goes on and makes the call [c] with its stack at [sp] and the instruction in
    front of [pc]: the processor puts r0 to r3 and the program counter on the stack, the switch to
    the kernel thread saves r4 to r11, and [__svc_handler] blocks the thread and notes it. *)
Definition enter (p sp pc : Z) (c : ucall) (t : tcb) (u : utcb) (s : kstate) : kstate :=
  let x := k_thr s in
  set_thr (set_caller p (set_words
      (<[reg_addr sp REG_R0 := uc_r0 c]> (<[reg_addr sp REG_R1 := uc_r1 c]> (<[reg_addr sp REG_R2 := uc_r2 c]> (<[reg_addr sp REG_R3 := uc_r3 c]> (<[reg_addr sp REG_PC := pc]> (words x))))))
    (put_message p (with_state T_SVC_BLOCKED (with_ctx (with_sp sp (t_ctx t)) t)) u (uc_words c) x))) s.

Definition entered (sp : Z) (c : ucall) (t : tcb) : tcb := with_ctx_regs (take 8 (uc_words c)) (with_state T_SVC_BLOCKED (with_ctx (with_sp sp (t_ctx t)) t)).

Lemma enter_called p sp pc c t u s : length (uc_words c) = 16%nat -> k_code s !! (pc -w 2) = Some (uc_num c) ->
  called (enter p sp pc c t u s) p (entered sp c t) (with_u_mr (drop 8 (uc_words c)) u) c.
Proof.
  intros Hl Hcode. assert (Hn : forall i j, 0 <= i < 8 -> 0 <= j < 8 -> i <> j -> reg_addr sp j <> reg_addr sp i) by (intros i j Hi Hj Hij E; apply reg_addr_inj in E; lia).
  constructor.
  - done.
  - exact (has_message_put p _ u _ (k_thr s) Hl).
  - unfold message. cbn. apply take_drop.
  - cbn. apply lookup_insert_eq.
  - cbn. rewrite lookup_insert_ne by (apply Hn; unfold REG_R0, REG_R1; lia). apply lookup_insert_eq.
  - cbn. rewrite !lookup_insert_ne by (apply Hn; unfold REG_R0, REG_R1, REG_R2; lia). apply lookup_insert_eq.
  - exists pc. split; [|done]. cbn. rewrite !lookup_insert_ne by (apply Hn; unfold REG_R0, REG_R1, REG_R2, REG_R3, REG_PC; lia). apply lookup_insert_eq.
Qed.

Lemma enter_words p sp pc c t u s x : is_Some (words (k_thr s) !! x) -> is_Some (words (k_thr (enter p sp pc c t u s)) !! x).
Proof. intros H. cbn. by repeat (apply lookup_insert_is_Some'; right). Qed.

(** The thread that has been created is not touched by it. *)
Lemma enter_created p sp pc c t u s tid q tq uq : has_message (k_thr s) p t u -> created s p t u tid q tq uq ->
  created (enter p sp pc c t u s) p (entered sp c t) (with_u_mr (drop 8 (uc_words c)) u) tid q tq uq.
Proof.
  intros Hp [(ents & Hm & Ho & Hin) Hnull Hne Hut Hq Hst Hpg Hoth Hnil Hlog]. constructor; try done.
  - exists ents. split; [|done]. destruct Hm as [M1 M2 M3]. split; [done| |done]. eapply Forall_impl; [exact M2|]. intros e (b & Hb & E). cbn.
    destruct (decide (e.1 = p)) as [Hep|Hep]; [|exists b; cbn; by rewrite lookup_insert_ne].
    rewrite Hep in *. destruct Hp as (Ht & _). rewrite Ht in Hb. injection Hb as <-. eexists. split; [apply lookup_insert_eq|done].
  - destruct Hq as (Hq & Hu & H). split; [cbn; by rewrite lookup_insert_ne|]. split; [|done]. cbn. by rewrite lookup_insert_ne.
Qed.

(** ** The mapping of the stack *)

Lemma map_rep_core s s' ents : map_rep s ents -> thread_map s' = thread_map s -> thread_count s' = thread_count s -> same_ids (tcbs s) (tcbs s') -> map_rep s' ents.
Proof.
  intros [M1 M2 M3] E1 E2 Hid. split; [unfold map_ptrs in *; by rewrite E1, E2| |done]. eapply Forall_impl; [exact M2|]. intros e (b & Hb & E). specialize (Hid e.1).
  rewrite Hb in Hid. destruct (tcbs s' !! e.1) as [b'|] eqn:Eb; [|done]. apply (inj Some) in Hid. exists b'. split; [done|]. by rewrite Hid.
Qed.

(** After a mapping the thread still waits to be started. *)
Lemma map_served sym s p t u c tid q tq uq base size r m : called s p t u c -> created s p t u tid q tq uq -> asks (Map_stack tid base size) c ->
  GLOBALID_TO_TID (t_globalid t) = THREAD_ROOT -> c_sp (t_ctx tq) = 0 ->
  map_area (t_as t) (t_as tq) (Z.land base 0xFFFFFFC0) (Z.land size 0xFFFFFFC0) GRANT true (k_mem s) = Done (r, m) ->
  exists s' tq' uq', syscall_handler sym s = Done (tt, s') /\ k_mem s' = m /\ k_code s' = k_code s /\ words (k_thr s') = words (k_thr s) /\ kip_addr (k_thr s') = kip_addr (k_thr s) /\
    has_message (k_thr s') p (with_state T_RUNNABLE t) u /\ created s' p (with_state T_RUNNABLE t) u tid q tq' uq' /\
    t_globalid tq' = t_globalid tq /\ t_as tq' = t_as tq /\ t_utcb tq' = t_utcb tq.
Proof.
  intros Hc Hq [Hs Hmm] Hroot Hsp Hmap. rewrite (send_created sym s p t u c tid q tq uq Hc Hs Hq). destruct Hc as [Hp Hm Hmw _ _ _ _].
  destruct Hq as [(ents & Hmr & Ho & Hin) Hnull Hne Hu Hq Hst Hpg Hoth Hnil Hlog]. rewrite <- Hmw in Hmm.
  pose proof Hmm as (tag & rest & E & Hnu & _). rewrite (thr_bind _ _ _ tag) by (apply (ipc_read_mr_ok _ _ t u 0 _ Hm); by rewrite E).
  destruct (Z.eqb_spec tag 3) as [->|_]; [done|]. rewrite (bind_Done _ _ _ _ _ (do_ipc_map s p t u q tq uq base size r m Hp Hm Hq Hne Hu Hmm Hroot Hsp Hmap)).
  set (mq := take 3 (message t u) ++ drop 3 (message tq uq)). set (x := put_message _ _ _ _ _). set (tq1 := with_ctx_regs (take 8 mq) tq). set (s1 := set_thr _ _).
  assert (Hl : length mq = 16%nat) by (unfold mq; rewrite length_app, length_take, length_drop, (length_message _ _ _ _ Hm), (length_message _ _ _ _ Hq); done).
  assert (Hq1 : tcbs (k_thr s1) !! q = Some tq1) by (cbn; rewrite lookup_insert_ne by done; apply lookup_insert_eq). rewrite (thr_Done _ s1 _ _ (upd_tcb_ok _ _ _ _ Hq1)).
  set (s2 := set_thr _ s1). exists s2, (with_state T_INACTIVE tq1), (with_u_mr (drop 8 mq) uq). do 5 (split; [done|]).
  pose proof Hm as (Ht & Hut & Hlr & Hlm). pose proof Hq as (Hqt & _). split; [|split; [|done]].
  - split; [cbn; rewrite lookup_insert_ne by done; apply lookup_insert_eq|]. split; [|done]. cbn. rewrite lookup_insert_ne; done.
  - constructor; try done.
    + exists ents. split; [|done]. apply (map_rep_core (k_thr s)); [done..|]. cbn. eapply same_ids_insert; [exact Hq1|done|]. cbn.
      eapply same_ids_insert; [rewrite lookup_insert_ne by done; exact Ht|done|]. by eapply same_ids_insert.
    + split; [apply lookup_insert_eq|]. split; [cbn; apply lookup_insert_eq|]. cbn. rewrite length_take, length_drop. lia.
Qed.

(** ** The start *)

Lemma start_served sym s p t u c tid q tq uq ip sp size : called s p t u c -> created s p t u tid q tq uq -> asks (Start tid ip sp size) c ->
  THREAD_ROOT <= GLOBALID_TO_TID (t_globalid tq) -> (forall r, 0 <= r < 8 -> is_Some (words (k_thr s) !! reg_addr (sp -w RESERVED_STACK) r)) ->
  syscall_handler sym s = Done (tt, set_thr (started_thr p q t tq ip sp size (k_thr s)) s).
Proof.
  intros Hc Hq [Hs (rest & Hw & Hl)] Hid Hfr. rewrite (send_created sym s p t u c tid q tq uq Hc Hs Hq). destruct Hc as [Hp Hm Hmw _ _ _ _]. rewrite Hw in Hmw.
  rewrite (thr_bind _ _ _ 3) by (apply (ipc_read_mr_ok _ _ t u 0 _ Hm); by rewrite Hmw). cbn [Z.eqb Pos.eqb]. destruct Hq as [_ _ Hne _ (Hq & _) _ _ _ _ _].
  exact (start_thread_ok s p t u q tq ip sp size rest Hp Hm Hmw Hq Hne Hid Hfr).
Qed.

(** The words of the frame of a thread that has been started. *)
Lemma started_frame p q t tq ip sp size x : let w := words (started_thr p q t tq ip sp size x) in
  w !! reg_addr (sp -w RESERVED_STACK) REG_PC = Some ip /\ w !! reg_addr (sp -w RESERVED_STACK) REG_R0 = Some (kip_addr x) /\ w !! reg_addr (sp -w RESERVED_STACK) REG_R1 = Some (t_utcb tq).
Proof.
  set (fr := start_frame (kip_addr x) (t_utcb tq) ip). pose proof (fun i => write_frame_at (sp -w RESERVED_STACK) fr 0 i) as H. split; [|split].
  - exact (H 6%nat ip (words x) eq_refl ltac:(lia) ltac:(cbn; lia)).
  - exact (H 0%nat _ (words x) eq_refl ltac:(lia) ltac:(cbn; lia)).
  - exact (H 1%nat _ (words x) eq_refl ltac:(lia) ltac:(cbn; lia)).
Qed.

(** ** Properties *)

(** The root thread starts a program: from the call that creates the thread on, and for any
    calls in the form it makes them, each made in the state the one before left, the kernel serves creation, the mapping of the stack and the
    start.  In the end a block that was free is the thread with the identifier: it is runnable,
    in the new space, its stack is the one of the message, its frame at the top has the entry as
    program counter and the kernel interface page and its user control block as arguments; memory
    is what [map_area] makes of the space that was set up; the root thread runs on. *)
Theorem root_starts_program (sym : symbols) (s : kstate) (p : Z) (t : tcb) (u : utcb) (c1 c2 c3 : ucall) (tid ub a : Z) (uu : utcb) (m m' : memstate) (ents : list (Z * Z)) (f : forest)
    (base size entry sp stack r sp2 pc2 sp3 pc3 : Z)
    (Hc : called s p t u c1) (Hr3 : words (k_thr s) !! reg_addr (c_sp (t_ctx t)) REG_R3 = Some (uc_r3 c1))
    (Hg : grantable s p t tid ub a uu m ents f) (Hroot : GLOBALID_TO_TID (t_globalid t) = THREAD_ROOT)
    (Hfree : forall q b, tcbs (k_thr s) !! q = Some b -> q ∉ ents.*1 -> c_sp (t_ctx b) = 0)
    (H1 : asks (Create tid tid (t_globalid t) ub) c1) (H2 : asks (Map_stack tid base size) c2) (H3 : asks (Start tid entry sp stack) c3)
    (Hl2 : length (uc_words c2) = 16%nat) (Hl3 : length (uc_words c3) = 16%nat)
    (Hcode2 : k_code s !! (pc2 -w 2) = Some 6) (Hcode3 : k_code s !! (pc3 -w 2) = Some 6)
    (Hmap : map_area (t_as t) a (Z.land base 0xFFFFFFC0) (Z.land size 0xFFFFFFC0) GRANT true m = Done (r, m'))
    (Hfr : forall i, 0 <= i < 8 -> is_Some (words (k_thr s) !! reg_addr (sp -w RESERVED_STACK) i)) :
  exists s1 s2 s3 t1 t2 u2 q tq, syscall_handler sym s = Done (tt, s1) /\ has_message (k_thr s1) p t1 u /\
    syscall_handler sym (enter p sp2 pc2 c2 t1 u s1) = Done (tt, s2) /\ has_message (k_thr s2) p t2 u2 /\
    syscall_handler sym (enter p sp3 pc3 c3 t2 u2 s2) = Done (tt, s3) /\
    (q ∉ ents.*1) /\ tcbs (k_thr s3) !! q = Some tq /\ t_globalid tq = tid /\ t_state tq = T_RUNNABLE /\ t_as tq = a /\
    t_stack_base tq = sp -w stack /\ t_stack_size tq = stack /\ c_sp (t_ctx tq) = sp -w RESERVED_STACK /\
    words (k_thr s3) !! reg_addr (c_sp (t_ctx tq)) REG_PC = Some entry /\
    words (k_thr s3) !! reg_addr (c_sp (t_ctx tq)) REG_R0 = Some (kip_addr (k_thr s)) /\
    words (k_thr s3) !! reg_addr (c_sp (t_ctx tq)) REG_R1 = Some ub /\
    k_mem s3 = m' /\ t_state <$> tcbs (k_thr s3) !! p = Some T_RUNNABLE.
Proof.
  destruct (thread_control_creates_run sym Hc Hr3 H1 Hg) as (s1 & q & tq & t1 & rk & E1 & M1 & K1 & P1 & C1 & Hm1 & _ & Un & A1 & G1 & U1 & (old & Hold & Ectx) & W1 & _ & Hq1).
  destruct (unlinked_fields _ _ Un) as (Eg & _ & _ & Ea & _). cbn [with_state t_globalid t_as] in Eg, Ea.
  pose proof (proj1 (proj1 H2)) as N2. pose proof (proj1 (proj1 H3)) as N3. set (s1' := enter p sp2 pc2 c2 t1 u s1). set (u2 := with_u_mr (drop 8 (uc_words c2)) u).
  destruct (map_served sym s1' p (entered sp2 c2 t1) u2 c2 tid q tq (with_u_pager (t_globalid t) (with_u_globalid tid uu)) base size r m')
    as (s2 & tq2 & uq2 & E2 & M2 & K2 & W2 & P2 & Hm2 & C2 & G2 & A2 & U2);
    [apply enter_called; [done|by rewrite K1, N2]|by apply enter_created|done|cbn; by rewrite Eg|rewrite Ectx; exact (Hfree q old Hold Hq1)|cbn; by rewrite Ea, A1, M1|].
  set (t2 := with_state T_RUNNABLE (entered sp2 c2 t1)) in *. set (s2' := enter p sp3 pc3 c3 t2 u2 s2).
  assert (E3 : syscall_handler sym s2' = Done (tt, set_thr (started_thr p q (entered sp3 c3 t2) tq2 entry sp stack (k_thr s2')) s2')).
  { apply (start_served sym s2' p (entered sp3 c3 t2) (with_u_mr (drop 8 (uc_words c3)) u2) c3 tid q tq2 uq2);
      [apply enter_called; [done|rewrite K2; cbn; by rewrite K1, N3]|by apply enter_created|done|..].
    - rewrite G2, G1. destruct Hg as [_ _ _ Hid _ _ _ _ _ _]. unfold creatable in Hid. unfold THREAD_ROOT, THREAD_SYS in *. destruct (Z.ltb_spec (GLOBALID_TO_TID tid) 16); [done|lia].
    - intros i Hi. apply enter_words. rewrite W2. apply enter_words. rewrite W1. apply lookup_insert_is_Some'. right. by apply Hfr. }
  exists s1, s2, (set_thr (started_thr p q (entered sp3 c3 t2) tq2 entry sp stack (k_thr s2')) s2'), t1, t2, u2, q.
  destruct (started_frame p q (entered sp3 c3 t2) tq2 entry sp stack (k_thr s2')) as (F1 & F2 & F3). change (kip_addr (k_thr s2')) with (kip_addr (k_thr s2)) in F2.
  rewrite P2 in F2. change (kip_addr (k_thr s1')) with (kip_addr (k_thr s1)) in F2. rewrite P1 in F2. rewrite U2, U1 in F3. destruct C2 as [_ _ Hne _ _ _ _ _ _ _].
  eexists. do 6 (split; [done|]). split; [apply lookup_insert_eq|]. cbn [t_globalid with_state with_ctx with_stack]. split; [by rewrite G2|]. split; [done|].
  split; [cbn; by rewrite A2|]. do 3 (split; [done|]). split; [exact F1|]. split; [exact F2|]. split; [exact F3|]. split; [done|].
  cbn. by rewrite lookup_insert_ne, lookup_insert_eq by done.
Qed.

(** *** An example: the first program, after the start of the kernel

    The root thread of a kernel that has initialised its memory and its dispatcher asks for the
    thread with the number 257. *)

Definition ex_boot_symbols : symbols := mk_symbols 1 2 3 4 5 6 7 0x20010000 0x20010100 0x20010300 0x20010500 0x20010700 0x20000100.
Definition ex_stack (sp : Z) : list (Z * Z) := (fun r => (reg_addr (sp -w RESERVED_STACK) r, 0)) <$> seqZ 0 8.
Definition ex_reset_thr : thrstate :=
  let x := reset_thr 4096 in
  mk_thr (thread_table x) (tcbs x) (thread_map x) 0 (<[0x20010000 := ex_utcb 0 0]> {[0x20010800 := ex_utcb 0 0]}) (list_to_map (ex_stack 0x20010300 ++ ex_stack 0x20011000)) 0 0 0 0 0 0 0x20000000.
Definition ex_reset : kstate :=
  mk_k ex_reset_thr (reset_mem layout0 0x20000900 0x20002200 (fun _ => 0)) (replicate 6 (mk_slot 0 0)) (replicate 4 (mk_softirq 0 0)) ex_timer 0 0 (0, 0)
    (mk_cpu (replicate 8 0) 0 0 0 0) 0 0 (<[5000 := 2]> {[4094 := 6]}) [].
Definition run_or {S A} (d : S) (m : M S A) (s : S) : S := match m s with Done (_, s') => s' | _ => d end.
Definition ex_boot : kstate := run_or ex_reset (mem (memory_init 0);; thread_init_subsys ex_boot_symbols;; create_root_thread ex_boot_symbols) ex_reset.
Definition ex_root : tcb := default zero_tcb (tcbs (k_thr ex_boot) !! 4096).
Definition ex_root_utcb : utcb := default (ex_utcb 0 0) (utcbs (k_thr ex_boot) !! 0x20010000).

Definition ex_c1 : ucall := mk_ucall 2 4210690 4210690 0 32768 (0x20010800 :: replicate 15 0).
Definition ex_c2 : ucall := mk_ucall 6 4210690 0 0 0 (ex_map_regs ++ replicate 8 0).
Definition ex_c3 : ucall := mk_ucall 6 4210690 0 0 0 ([3; 0x08006101; 0x20011000; 0x200] ++ replicate 12 0).
Definition ex_asked : kstate := enter 4096 0x200101e0 5002 ex_c1 ex_root ex_root_utcb ex_boot.
Definition ex_granted_mem : memstate := run_or (k_mem ex_boot) (space_setup 4210690 (kip_fpage ex_asked) (kip_extra_fpage ex_asked) (t_as ex_root) 0x20010800 true) (k_mem ex_asked).
Definition ex_final_mem : memstate := run_or ex_granted_mem (map_area (t_as ex_root) 536879636 0x20010000 0x200 GRANT true) ex_granted_mem.

(** The dispatcher after the creation of the root thread. *)
Lemma ex_first : exists x, thread_init 32768 0x20010000 (set_tcbs (tcbs ex_reset_thr) ex_reset_thr) = Done (4096, x) /\ thr_inv x [(4096, 2)].
Proof.
  assert (Hinv : thr_inv ex_reset_thr []).
  { pose proof (thr_inv_reset 4096 eq_refl eq_refl) as [[M1 M2 M3] H2 H3 H4 H5 H6]. split; [by split|exact H2|exact H3|exact H4|exact H5|exact H6]. }
  destruct (thread_init_correct ex_reset_thr [] 32768 0x20010000 Hinv) as (q & x & r & old & Hr & _ & _ & _ & Hi & _); [apply Nat.ltb_lt; reflexivity|intros _; by eexists|].
  assert (E : insert_at r (q, GLOBALID_TO_TID 32768) [] = [(q, 2)]) by (by destruct r). rewrite E in Hi.
  assert (q = 4096) as ->; [|exact (ex_intro _ x (conj Hr Hi))]. assert (Ev : match thread_init 32768 0x20010000 ex_reset_thr with Done (y, _) => y | _ => 0 end = 4096) by (vm_compute; reflexivity).
  by rewrite Hr in Ev.
Qed.

Definition ex_init : thrstate := match thread_init 32768 0x20010000 ex_reset_thr with Done (_, x) => x | _ => ex_reset_thr end.

Lemma ex_tree : tree_inv (k_thr ex_asked) [(4096, 2)] (FCons 4096 FNil FNil).
Proof.
  destruct ex_first as (x & Hx & Hi). assert (E : x = ex_init) by (unfold ex_init; change (set_tcbs (tcbs ex_reset_thr) ex_reset_thr) with ex_reset_thr in Hx; by rewrite Hx). subst x.
  assert (Hl : links <$> tcbs ex_init !! 4096 = Some (0, 0, 0)) by (vm_compute; reflexivity).
  apply (tree_inv_core ex_init).
  - split; [done| |apply NoDup_singleton|done]. split; [done|]. split; [|split; exact I]. destruct (tcbs ex_init !! 4096) as [b|] eqn:Eb; [|done]. exists b. split; [done|]. by apply (inj Some).
  - vm_compute. reflexivity.
  - vm_compute. reflexivity.
  - vm_compute. reflexivity.
  - assert (Ec : core <$> tcbs (k_thr ex_asked) = core <$> tcbs ex_init) by (vm_compute; reflexivity). intros p. by rewrite <- !lookup_fmap, Ec.
Qed.

Lemma ex_grantable : grantable ex_asked 4096 (entered 0x200101e0 ex_c1 ex_root) 4210690 0x20010800 536879636 (ex_utcb 0 0) ex_granted_mem [(4096, 2)] (FCons 4096 FNil FNil).
Proof.
  split.
  - exact ex_tree.
  - intros [|i] [|j] x y; simpl; try lia; done.
  - left.
  - vm_compute. reflexivity.
  - vm_compute. intros H. by apply list_elem_of_singleton in H.
  - apply Nat.ltb_lt. reflexivity.
  - split; [done|]. split; [by vm_compute|]. split; [vm_compute; reflexivity|done].
  - assert (H : map_Forall (fun _ b => length (c_regs (t_ctx b)) = 8%nat) (tcbs (k_thr ex_asked))) by (apply (bool_decide_unpack _); vm_compute; exact I). exact H.
  - eexists 7, _. split; [vm_compute; reflexivity|]. split; [done|]. split; [vm_compute; reflexivity|vm_compute; reflexivity].
  - vm_compute. reflexivity.
Qed.

Lemma root_starts_program_witness : exists s1 s2 s3 t1 t2 u2 q tq, syscall_handler ex_boot_symbols ex_asked = Done (tt, s1) /\
    syscall_handler ex_boot_symbols (enter 4096 0x200101e0 4096 ex_c2 t1 (with_u_mr (drop 8 (uc_words ex_c1)) ex_root_utcb) s1) = Done (tt, s2) /\
    syscall_handler ex_boot_symbols (enter 4096 0x200101e0 4096 ex_c3 t2 u2 s2) = Done (tt, s3) /\
    tcbs (k_thr s3) !! q = Some tq /\ t_globalid tq = 4210690 /\ t_state tq = T_RUNNABLE /\ t_as tq = 536879636 /\ k_mem s3 = ex_final_mem.
Proof.
  destruct (root_starts_program ex_boot_symbols ex_asked 4096 (entered 0x200101e0 ex_c1 ex_root) (with_u_mr (drop 8 (uc_words ex_c1)) ex_root_utcb) ex_c1 ex_c2 ex_c3 4210690 0x20010800 536879636
    (ex_utcb 0 0) ex_granted_mem ex_final_mem [(4096, 2)] (FCons 4096 FNil FNil) 0x20010000 0x200 0x08006101 0x20011000 0x200 0 0x200101e0 4096 0x200101e0 4096)
    as (s1 & s2 & s3 & t1 & t2 & u2 & q & tq & E1 & _ & E2 & _ & E3 & _ & Hq & G & St & A & _ & _ & _ & _ & _ & _ & Hm & _).
  - apply enter_called; [done|vm_compute; reflexivity].
  - vm_compute. reflexivity.
  - exact ex_grantable.
  - vm_compute. reflexivity.
  - intros q b Hb Hq. assert (H : map_Forall (fun k b => k = 4096 \/ c_sp (t_ctx b) = 0) (tcbs (k_thr ex_asked))) by (apply (bool_decide_unpack _); vm_compute; exact I).
    destruct (H q b Hb) as [->|]; [|done]. destruct Hq. left.
  - by repeat split; vm_compute.
  - split; [by repeat split|]. eexists _, _. split; [reflexivity|]. by repeat split.
  - split; [by repeat split|]. eexists. split; [reflexivity|]. done.
  - done.
  - done.
  - vm_compute. reflexivity.
  - vm_compute. reflexivity.
  - vm_compute. reflexivity.
  - intros i Hi. assert (i = 0 \/ i = 1 \/ i = 2 \/ i = 3 \/ i = 4 \/ i = 5 \/ i = 6 \/ i = 7) as [->|[->|[->|[->|[->|[->|[->| ->]]]]]]] by lia; (eexists; vm_compute; reflexivity).
  - exists s1, s2, s3, t1, t2, u2, q, tq. split; [exact E1|]. split; [exact E2|]. split; [exact E3|]. split; [exact Hq|]. split; [exact G|]. split; [exact St|]. split; [exact A|exact Hm].
Defined.
