(* ===== verification/Atomic.v ===== *)
(** * Atomic operations

    Models the assembly of [platform/bitops.c] and [platform/spinlock.c], instruction by
    instruction, on a memory that several agents share.  An agent is a processor, or a thread or
    an interrupt handler of one processor; a schedule says whose instruction is executed next.
    Exclusive accesses follow the architecture: [ldrex] sets the agent's monitor, a store
    to the address clears the monitors of the other agents, an exception clears the agent's own
    ([Preempt]; the event may occur at any point, so it also stands for the failures of [strex]
    the architecture leaves to the implementation), and [strex] stores and gives 0 if the
    monitor is set, and gives 1 if not. *)

From S2P Require Import Prelude Ktable.

(** ** The machine *)

(** The registers the code names, and those the compiler chooses for the operands: the pointer,
    the second argument and the result. *)
Inductive reg := R0 | R1 | R2 | R7 | Word | Operand | Result.

#[global] Instance reg_eq_dec : EqDecision reg.
Proof. solve_decision. Defined.

(** [Eq c] is an instruction of an [it eq] block. *)
Inductive instr :=
| MovI (rd : reg) (n : Z)
| MovR (rd rs : reg)
| Ldrex (rd rn : reg)
| Strex (rd rs rn : reg)
| Clrex
| CmpI (rn : reg) (n : Z)
| Tst (rn rm : reg)
| Orr (rd rn rm : reg)
| Bne (target : nat)
| Eq (c : instr).

Record agent := mk_agent { a_regs : reg -> Z; a_eq : bool; a_pc : nat; a_mon : option Z }.

Definition set_reg (r : reg) (v : Z) (ag : agent) : agent :=
  mk_agent (fun r' => if decide (r' = r) then v else a_regs ag r') (a_eq ag) (a_pc ag) (a_mon ag).
Definition set_eq (b : bool) (ag : agent) : agent := mk_agent (a_regs ag) b (a_pc ag) (a_mon ag).
Definition set_mon (o : option Z) (ag : agent) : agent := mk_agent (a_regs ag) (a_eq ag) (a_pc ag) o.
Definition goto (pc : nat) (ag : agent) : agent := mk_agent (a_regs ag) (a_eq ag) pc (a_mon ag).
Definition next (ag : agent) : agent := goto (S (a_pc ag)) ag.

(** An instruction of an agent: the agent afterwards and the word it stores, if any.  [None]: an
    access to an address without a word. *)
Fixpoint exec (c : instr) (shared : gmap Z Z) (ag : agent) : option (agent * option (Z * Z)) :=
  let r := a_regs ag in
  match c with
  | MovI rd n => Some (next (set_reg rd n ag), None)
  | MovR rd rs => Some (next (set_reg rd (r rs) ag), None)
  | Ldrex rd rn => v ← shared !! r rn; Some (next (set_mon (Some (r rn)) (set_reg rd v ag)), None)
  | Strex rd rs rn =>
      _ ← shared !! r rn;
      if decide (a_mon ag = Some (r rn)) then Some (next (set_mon None (set_reg rd 0 ag)), Some (r rn, r rs))
      else Some (next (set_mon None (set_reg rd 1 ag)), None)
  | Clrex => Some (next (set_mon None ag), None)
  | CmpI rn n => Some (next (set_eq (r rn =? n) ag), None)
  | Tst rn rm => Some (next (set_eq (Z.land (r rn) (r rm) =? 0) ag), None)
  | Orr rd rn rm => Some (next (set_reg rd (Z.lor (r rn) (r rm)) ag), None)
  | Bne target => Some (if a_eq ag then next ag else goto target ag, None)
  | Eq c => if a_eq ag then exec c shared ag else Some (next ag, None)
  end.

Record machine := mk_machine { agents : list agent; shared : gmap Z Z }.

(** A store to [a] clears the monitors that are set for it. *)
Definition clear_mon (a : Z) (ag : agent) : agent := if decide (a_mon ag = Some a) then set_mon None ag else ag.

Inductive event := Step (i : nat) | Preempt (i : nat).

(** An agent whose code has ended does not go on. *)
Definition step (code : list instr) (e : event) (m : machine) : option machine :=
  match e with
  | Step i =>
      match agents m !! i with
      | None => Some m
      | Some ag =>
          match code !! a_pc ag with
          | None => Some m
          | Some c =>
              '(ag', w) ← exec c (shared m) ag;
              Some match w with
                   | Some (a, v) => mk_machine (<[i := ag']> (clear_mon a <$> agents m)) (<[a := v]> (shared m))
                   | None => mk_machine (<[i := ag']> (agents m)) (shared m)
                   end
          end
      end
  | Preempt i => Some (mk_machine (alter (set_mon None) i (agents m)) (shared m))
  end.

Fixpoint run (code : list instr) (sched : list event) (m : machine) : option machine :=
  match sched with
  | [] => Some m
  | e :: sched' => m' ← step code e m; run code sched' m'
  end.

(** ** [platform/bitops.c] *)

Definition test_and_set_word_code : list instr :=
  [MovI R1 1; MovR R2 Word; Ldrex R0 R2; CmpI R0 0; Eq (Strex R0 R1 R2); Eq (MovR Result R0)].

Definition test_and_set_bit_code : list instr :=
  [MovR R2 Word; Ldrex R0 R2; Tst R0 Operand; Eq (Orr R1 R0 Operand); Eq (Strex R0 R1 R2); Eq (MovR Result R0)].

(** What the C function returns of an agent whose code has ended. *)
Definition returned (ag : agent) : Z := b2z (a_regs ag Result =? 0).

(** The operations for several processors. *)
Definition atomic_set_code : list instr := [MovR R1 Operand; Ldrex R0 Word; Strex R0 R1 Word; CmpI R0 0; Bne 1].
Definition atomic_get_code : list instr := [Ldrex R0 Word; Clrex; MovR Result R0].

(** ** [platform/spinlock.c] *)

Definition spinlock_trylock_code : list instr :=
  [MovI Result 0; MovI R1 1; MovR R7 Word; Ldrex R0 R7; CmpI R0 0; Eq (Strex R0 R1 R7); Eq (MovR Result R0)].
Definition spinlock_lock_code : list instr := spinlock_trylock_code ++ [CmpI Result 1; Bne 0].
Definition spinlock_unlock_code : list instr := [MovI R1 0; Ldrex R0 Word; Strex R0 R1 Word; CmpI R0 0; Bne 1].

(** ** The start of the agents *)

(** An agent at the call: the pointer, the second argument, and what the register of the result
    holds.  The C variable is initialised with 1, but the operand is write-only for the compiler, so the content is
    arbitrary; [args] has the second argument and the content for each agent. *)
Definition calls (a x res : Z) : agent := mk_agent (fun r => match r with Word => a | Operand => x | Result => res | _ => 0 end) false 0 None.
Definition start (a w0 : Z) (args : list (Z * Z)) : machine := mk_machine ((fun x => calls a x.1 x.2) <$> args) {[a := w0]}.

(** ** Sums over the agents *)

Fixpoint total {A} (f : A -> Z) (l : list A) : Z := match l with [] => 0 | a :: l' => f a + total f l' end.

Lemma sum_nonneg {A} (f : A -> Z) l : (forall a, 0 <= f a) -> 0 <= total f l.
Proof. intros H. induction l as [|a l IH]; cbn; [lia|]. specialize (H a). lia. Qed.

Lemma total_insert {A} (f : A -> Z) l i a b : l !! i = Some a -> total f (<[i := b]> l) = total f l - f a + f b.
Proof.
  revert i. induction l as [|c l IH]; intros [|i] H; try done.
  - injection H as ->. cbn. lia.
  - change (f c + total f (<[i := b]> l) = f c + total f l - f a + f b). rewrite (IH i H). lia.
Qed.

Lemma total_ext {A} (f : A -> Z) (g : A -> A) l : (forall a, f (g a) = f a) -> total f (g <$> l) = total f l.
Proof. intros H. induction l as [|a l IH]; cbn; [done|]. by rewrite H, IH. Qed.

Lemma total_one {A} (f : A -> Z) l i a : (forall a, 0 <= f a) -> l !! i = Some a -> f a <= total f l.
Proof.
  intros Hf. revert i. induction l as [|c l IH]; intros [|i] Hi; try done; cbn in *.
  - injection Hi as ->. pose proof (sum_nonneg f l Hf). lia.
  - specialize (IH i Hi). specialize (Hf c). lia.
Qed.

Lemma total_two {A} (f : A -> Z) l i j a b : (forall a, 0 <= f a) -> i <> j -> l !! i = Some a -> l !! j = Some b -> f a + f b <= total f l.
Proof.
  intros Hf. revert i j. induction l as [|c l IH]; intros [|i] [|j] Hij Hi Hj; try done; cbn in *.
  - injection Hi as ->. pose proof (total_one f l j b Hf Hj). lia.
  - injection Hj as ->. pose proof (total_one f l i a Hf Hi). lia.
  - specialize (IH i j ltac:(congruence) Hi Hj). specialize (Hf c). lia.
Qed.

(** ** Exclusive accesses to one word

    The common argument for code that changes a word only by exclusive stores: [ok v] is what
    is true of an agent while the word is [v], [gain k] what the agent has added to the
    quantity [val k] of the word; [ok] may refer to something that is fixed for the agent, its [gs]. *)

Section exclusive.
Context (code : list instr) (a : Z) {K G : Type} (gs : list G) (ok : Z -> G -> agent -> Prop) (gain : K -> agent -> Z) (val : K -> Z -> Z).
Hypothesis ok_exec : forall v g ag c, ok v g ag -> code !! a_pc ag = Some c ->
  exists ag' w, exec c {[a := v]} ag = Some (ag', w) /\
    match w with
    | None => ok v g ag' /\ forall k, gain k ag' = gain k ag
    | Some (a', v') => a' = a /\ ok v' g ag' /\ forall k, val k v' = val k v + gain k ag' - gain k ag
    end.
Hypothesis ok_clear : forall v v' g ag, ok v g ag -> ok v' g (clear_mon a ag).
Hypothesis ok_preempt : forall v g ag, ok v g ag -> ok v g (set_mon None ag).
Hypothesis gain_mon : forall k o ag, gain k (set_mon o ag) = gain k ag.

Definition exclusive_inv (c : K -> Z) (v : Z) (m : machine) : Prop :=
  shared m = {[a := v]} /\ Forall2 (ok v) gs (agents m) /\ forall k, val k v = c k + total (gain k) (agents m).

Lemma gain_clear k ag : gain k (clear_mon a ag) = gain k ag.
Proof. unfold clear_mon. case_decide; [apply gain_mon|done]. Qed.

Lemma ok_insert v l i g ag : Forall2 (ok v) gs l -> gs !! i = Some g -> ok v g ag -> Forall2 (ok v) gs (<[i := ag]> l).
Proof. intros Hl Hg Ha. rewrite <- (list_insert_id gs i g Hg). by apply Forall2_insert. Qed.

Lemma step_exclusive c v m e : exclusive_inv c v m -> exists v' m', step code e m = Some m' /\ exclusive_inv c v' m'.
Proof.
  intros (Hs & Hok & Hv). destruct e as [i|i]; cbn.
  - destruct (agents m !! i) as [ag|] eqn:Hi; [|by exists v, m]. destruct (code !! a_pc ag) as [cmd|] eqn:Hc; [|by exists v, m].
    destruct (Forall2_lookup_r _ _ _ _ _ Hok Hi) as (g & Hg & Ha). destruct (ok_exec v g ag cmd Ha Hc) as (ag' & w & E & Hw). rewrite Hs, E. cbn. destruct w as [[a' v']|].
    + destruct Hw as (-> & Hok' & Hval). exists v'. eexists. split; [done|]. split; [cbn; apply insert_singleton_eq|]. split.
      * apply (ok_insert _ _ _ g); [|done|done]. apply Forall2_fmap_r. eapply Forall2_impl; [exact Hok|]. intros. by eapply ok_clear.
      * intros k. cbn. rewrite (total_insert _ _ _ (clear_mon a ag)) by (by rewrite list_lookup_fmap, Hi). rewrite total_ext by apply gain_clear. rewrite gain_clear, Hval, Hv. lia.
    + destruct Hw as (Hok' & Hval). exists v. eexists. split; [done|]. split; [done|]. split; [by apply (ok_insert _ _ _ g)|]. intros k. cbn. rewrite (total_insert _ _ _ ag) by done. rewrite Hval, Hv. lia.
  - exists v. eexists. split; [done|]. split; [done|]. cbn. destruct (agents m !! i) as [ag|] eqn:Hi.
    + assert (E : alter (set_mon None) i (agents m) = <[i := set_mon None ag]> (agents m)).
      { apply list_eq. intros j. destruct (decide (i = j)) as [<-|Hj].
        - rewrite list_lookup_alter_eq, Hi, list_lookup_insert_eq by (by eapply lookup_lt_Some). done.
        - by rewrite list_lookup_alter_ne, list_lookup_insert_ne. }
      destruct (Forall2_lookup_r _ _ _ _ _ Hok Hi) as (g & Hg & Ha).
      rewrite E. split; [by apply (ok_insert _ _ _ g); auto|]. intros k. rewrite (total_insert _ _ _ ag) by done. rewrite gain_mon, Hv. lia.
    + assert (E : alter (set_mon None) i (agents m) = agents m); [|by rewrite E].
      apply list_eq. intros j. destruct (decide (i = j)) as [<-|Hj]; [by rewrite list_lookup_alter_eq, Hi|by rewrite list_lookup_alter_ne].
Qed.

Lemma run_exclusive c sched v m : exclusive_inv c v m -> exists v' m', run code sched m = Some m' /\ exclusive_inv c v' m'.
Proof.
  revert v m. induction sched as [|e sched IH]; intros v m H; [by exists v, m|]. destruct (step_exclusive c v m e H) as (v1 & m1 & E & H1). cbn. rewrite E. cbn. by eapply IH.
Qed.
End exclusive.

(** ** Registers the code does not write *)

Fixpoint keeps (r : reg) (c : instr) : bool :=
  match c with
  | MovI rd _ | MovR rd _ | Ldrex rd _ | Strex rd _ _ | Orr rd _ _ => bool_decide (rd <> r)
  | Eq c' => keeps r c'
  | _ => true
  end.

Definition reg_of (r : reg) (ag : agent) : Z := a_regs ag r.

Lemma exec_keeps r c h ag ag' w : keeps r c = true -> exec c h ag = Some (ag', w) -> reg_of r ag' = reg_of r ag.
Proof.
  revert ag ag' w. induction c as [rd n|rd rs|rd rn|rd rs rn| |rn n|rn rm|rd rn rm|t|c IH]; cbn; intros ag ag' w Hk E;
    try (apply bool_decide_eq_true in Hk); try (injection E as <- <-; unfold reg_of; cbn; try case_decide; congruence).
  - destruct (h !! a_regs ag rn); [|done]. injection E as <- <-. unfold reg_of. cbn. case_decide; congruence.
  - destruct (h !! a_regs ag rn); [|done]. cbn in E. case_decide; injection E as <- <-; unfold reg_of; cbn; case_decide; congruence.
  - injection E as <- <-. by destruct (a_eq ag).
  - destruct (a_eq ag); [by eapply IH|]. by injection E as <- <-.
Qed.

Lemma list_fmap_id_insert {A B} (f : A -> B) (l : list A) (i : nat) a b : l !! i = Some a -> f b = f a -> f <$> <[i := b]> l = f <$> l.
Proof. intros Hi E. rewrite list_fmap_insert, E. apply list_insert_id. by rewrite list_lookup_fmap, Hi. Qed.

Lemma step_keeps r code e m m' : forallb (keeps r) code = true -> step code e m = Some m' -> reg_of r <$> agents m' = reg_of r <$> agents m.
Proof.
  intros Hk E. destruct e as [i|i]; cbn in E.
  - destruct (agents m !! i) as [ag|] eqn:Hi; [|by injection E as ->]. destruct (code !! a_pc ag) as [c|] eqn:Hc; [|by injection E as ->].
    destruct (exec c (shared m) ag) as [[ag' w]|] eqn:Ex; [|done]. assert (Hr : reg_of r ag' = reg_of r ag).
    { eapply exec_keeps; [|exact Ex]. rewrite forallb_forall in Hk. apply Hk. apply list_elem_of_In. by eapply list_elem_of_lookup_2. }
    assert (Hcl : forall a, reg_of r <$> (clear_mon a <$> agents m) = reg_of r <$> agents m).
    { intros a. rewrite <- list_fmap_compose. apply list_fmap_ext. intros j x _. unfold compose, clear_mon. by case_decide. }
    cbn in E. destruct w as [[a v]|]; injection E as <-; cbn [agents].
    + rewrite <- (Hcl a). eapply list_fmap_id_insert; [by rewrite list_lookup_fmap, Hi|]. rewrite Hr. unfold clear_mon. by case_decide.
    + by eapply list_fmap_id_insert.
  - injection E as <-. cbn. apply list_eq. intros j. rewrite !list_lookup_fmap. destruct (decide (i = j)) as [<-|Hj]; [|by rewrite list_lookup_alter_ne].
    rewrite list_lookup_alter_eq. by destruct (agents m !! i).
Qed.

Lemma run_keeps r code sched m m' : forallb (keeps r) code = true -> run code sched m = Some m' -> reg_of r <$> agents m' = reg_of r <$> agents m.
Proof.
  intros Hk. revert m. induction sched as [|e sched IH]; intros m E; [by injection E as ->|]. cbn in E. destruct (step code e m) as [m1|] eqn:E1; [|done].
  rewrite (IH m1 E). by eapply step_keeps.
Qed.

(** ** The operations that test and set *)

(** The agent's exclusive store has been made. *)
Definition won (ag : agent) : bool :=
  match a_pc ag with
  | 5%nat | 6%nat => a_eq ag && (a_regs ag R0 =? 0)
  | _ => false
  end.

(** While the monitor is set, the word is still the one that was loaded. *)
Definition watches (a v : Z) (ag : agent) : Prop := forall x, a_mon ag = Some x -> x = a /\ a_regs ag R0 = v.

Lemma watches_clear a v v' ag : watches a v ag -> watches a v' (clear_mon a ag).
Proof. intros H x. unfold clear_mon. case_decide as D; cbn; [done|]. intros E. destruct (H x E) as [-> _]. done. Qed.

Lemma clear_mon_fields a ag : a_regs (clear_mon a ag) = a_regs ag /\ a_eq (clear_mon a ag) = a_eq ag /\ a_pc (clear_mon a ag) = a_pc ag.
Proof. unfold clear_mon. by case_decide. Qed.

(** What is true before each instruction of the two functions; [res] is what the register of the result held
    in the beginning. *)
Definition bit_ok (a v res : Z) (ag : agent) : Prop :=
  let r := a_regs ag in
  r Word = a /\
  match a_pc ag with
  | 0%nat => r Result = res
  | 1%nat => r Result = res /\ r R2 = a
  | 2%nat => r Result = res /\ r R2 = a /\ watches a v ag
  | 3%nat => r Result = res /\ r R2 = a /\ watches a v ag /\ a_eq ag = (Z.land (r R0) (r Operand) =? 0)
  | 4%nat => r Result = res /\ r R2 = a /\ watches a v ag /\ a_eq ag = (Z.land (r R0) (r Operand) =? 0) /\ (a_eq ag = true -> r R1 = Z.lor (r R0) (r Operand))
  | 5%nat => r Result = res
  | 6%nat => r Result = if a_eq ag then r R0 else res
  | _ => True
  end.

Definition word_ok (a v res : Z) (ag : agent) : Prop :=
  let r := a_regs ag in
  r Word = a /\
  match a_pc ag with
  | 0%nat => r Result = res
  | 1%nat => r Result = res /\ r R1 = 1
  | 2%nat => r Result = res /\ r R1 = 1 /\ r R2 = a
  | 3%nat => r Result = res /\ r R1 = 1 /\ r R2 = a /\ watches a v ag
  | 4%nat => r Result = res /\ r R1 = 1 /\ r R2 = a /\ watches a v ag /\ a_eq ag = (r R0 =? 0)
  | 5%nat => r Result = res
  | 6%nat => r Result = if a_eq ag then r R0 else res
  | _ => True
  end.

Lemma bit_ok_clear a v v' res ag : bit_ok a v res ag -> bit_ok a v' res (clear_mon a ag).
Proof.
  unfold bit_ok. destruct (clear_mon_fields a ag) as (-> & -> & ->). intros [Hw H]. split; [done|].
  destruct (a_pc ag) as [|[|[|[|[|[|[|n]]]]]]]; naive_solver eauto using watches_clear.
Qed.

Lemma word_ok_clear a v v' res ag : word_ok a v res ag -> word_ok a v' res (clear_mon a ag).
Proof.
  unfold word_ok. destruct (clear_mon_fields a ag) as (-> & -> & ->). intros [Hw H]. split; [done|].
  destruct (a_pc ag) as [|[|[|[|[|[|[|n]]]]]]]; naive_solver eauto using watches_clear.
Qed.

Lemma bit_ok_preempt a v res ag : bit_ok a v res ag -> bit_ok a v res (set_mon None ag).
Proof.
  assert (watches a v (set_mon None ag)) by done. unfold bit_ok. cbn. intros [Hw H']. split; [done|]. destruct (a_pc ag) as [|[|[|[|[|[|[|n]]]]]]]; naive_solver.
Qed.

Lemma word_ok_preempt a v res ag : word_ok a v res ag -> word_ok a v res (set_mon None ag).
Proof.
  assert (watches a v (set_mon None ag)) by done. unfold word_ok. cbn. intros [Hw H']. split; [done|]. destruct (a_pc ag) as [|[|[|[|[|[|[|n]]]]]]]; naive_solver.
Qed.

(** The bits an agent has set, and whether it has set the word. *)
Definition bit_gain (k : Z) (ag : agent) : Z := b2z (won ag && Z.testbit (a_regs ag Operand) k).
Definition word_gain (_ : unit) (ag : agent) : Z := b2z (won ag).
Definition bit_val (k v : Z) : Z := b2z (Z.testbit v k).
Definition word_val (_ : unit) (v : Z) : Z := b2z (truth v).

Ltac exec_step := eexists _, _; split; [reflexivity|]; unfold bit_ok, word_ok, bit_gain, word_gain, won; cbn.
Ltac instr_case ag := destruct ag as [r eq pc mon]; cbn in *; destruct pc as [|[|[|[|[|[|pc]]]]]]; cbn in *; [..|done].

Lemma bit_exec a v res ag c : bit_ok a v res ag -> test_and_set_bit_code !! a_pc ag = Some c ->
  exists ag' w, exec c {[a := v]} ag = Some (ag', w) /\
    match w with
    | None => bit_ok a v res ag' /\ forall k, bit_gain k ag' = bit_gain k ag
    | Some (a', v') => a' = a /\ bit_ok a v' res ag' /\ forall k, bit_val k v' = bit_val k v + bit_gain k ag' - bit_gain k ag
    end.
Proof.
  intros [Hw H] Hc. instr_case ag; injection Hc as <-; cbn.
  - by exec_step.
  - destruct H as [H H2]. rewrite H2, lookup_singleton_eq. exec_step. split; [|done]. do 3 (split; [done|]). by intros x [= <-].
  - destruct H as (H & H2 & Hm). by exec_step.
  - destruct H as (H & H2 & Hm & He). destruct eq; by exec_step.
  - destruct H as (H & H2 & Hm & He & H1). destruct eq; [|by exec_step]. rewrite H2, lookup_singleton_eq. cbn. case_decide as D; [|by exec_step].
    exec_step. rewrite D in Hm. destruct (Hm _ eq_refl) as [_ H0]. cbn in H0. split; [done|]. split; [done|]. intros k. rewrite H1, H0 by done. rewrite H0 in He. symmetry in He. apply Z.eqb_eq in He.
    apply (f_equal (fun z => Z.testbit z k)) in He. rewrite Z.land_spec, Z.bits_0 in He. unfold bit_val. rewrite Z.lor_spec. rewrite !decide_True, !decide_False by done. cbn. by destruct (Z.testbit v k), (Z.testbit (r Operand) k).
  - by destruct eq; exec_step.
Qed.

Lemma word_exec a v res ag c : word_ok a v res ag -> test_and_set_word_code !! a_pc ag = Some c ->
  exists ag' w, exec c {[a := v]} ag = Some (ag', w) /\
    match w with
    | None => word_ok a v res ag' /\ forall k, word_gain k ag' = word_gain k ag
    | Some (a', v') => a' = a /\ word_ok a v' res ag' /\ forall k, word_val k v' = word_val k v + word_gain k ag' - word_gain k ag
    end.
Proof.
  intros [Hw H] Hc. instr_case ag; injection Hc as <-; cbn.
  - by exec_step.
  - destruct H as [H H1]. by exec_step.
  - destruct H as (H & H1 & H2). rewrite H2, lookup_singleton_eq. exec_step. split; [|done]. do 4 (split; [done|]). by intros x [= <-].
  - destruct H as (H & H1 & H2 & Hm). by exec_step.
  - destruct H as (H & H1 & H2 & Hm & He). destruct eq; [|by exec_step]. rewrite H2, lookup_singleton_eq. cbn. case_decide as D; [|by exec_step].
    exec_step. rewrite D in Hm. destruct (Hm _ eq_refl) as [_ H0]. cbn in H0. split; [done|]. split; [done|]. intros k. rewrite H1. rewrite H0 in He. symmetry in He. apply Z.eqb_eq in He. by rewrite He.
  - by destruct eq; exec_step.
Qed.

Lemma start_inv {K} a w0 args (ok : Z -> Z -> agent -> Prop) (gain : K -> agent -> Z) val : (forall x res, ok w0 res (calls a x res)) -> (forall k x res, gain k (calls a x res) = 0) ->
  exclusive_inv a args.*2 ok gain val (fun k => val k w0) w0 (start a w0 args).
Proof.
  intros Hok Hg. split; [done|]. split.
  - cbn. apply Forall2_fmap. apply Forall_Forall2_diag. by apply Forall_true.
  - intros k. cbn. enough (total (gain k) ((fun x => calls a x.1 x.2) <$> args) = 0) by lia.
    induction args as [|x args IH]; cbn; [done|]. rewrite Hg. exact IH.
Qed.

Lemma b2z_nonneg b : 0 <= b2z b <= 1.
Proof. destruct b; cbn; lia. Qed.

(** What an agent returns whose code has ended. *)
Lemma ended_returned res ag :
  a_regs ag Result = (if a_eq ag then a_regs ag R0 else res) -> a_pc ag = 6%nat ->
  returned ag = if a_eq ag then b2z (won ag) else b2z (res =? 0).
Proof. unfold returned, won. intros -> ->. by destruct (a_eq ag). Qed.

(** ** Runs without interference

    [solo] executes one agent; the other agents of the machine wait. *)

Fixpoint solo (code : list instr) (a : Z) (n : nat) (v : Z) (ag : agent) : option (agent * Z) :=
  match n with
  | O => Some (ag, v)
  | S n' =>
      match code !! a_pc ag with
      | None => Some (ag, v)
      | Some c => '(ag', w) ← exec c {[a := v]} ag; solo code a n' (from_option snd v w) ag'
      end
  end.

Ltac solo_run := repeat progress (cbn; rewrite ?lookup_singleton_eq; repeat rewrite decide_True by done; repeat rewrite decide_False by done).

Definition has_agent (m : machine) (i : nat) (a v : Z) (ag : agent) : Prop := agents m !! i = Some ag /\ shared m = {[a := v]}.

Lemma exec_addr c a v ag ag' a' v' : exec c {[a := v]} ag = Some (ag', Some (a', v')) -> a' = a.
Proof.
  induction c as [rd n|rd rs|rd rn|rd rs rn| |rn n|rn rm|rd rn rm|t|c IH]; cbn; intros E; try done.
  - by destruct ({[a := v]} !! a_regs ag rn).
  - destruct ({[a := v]} !! a_regs ag rn) eqn:El; [|done]. cbn in E. case_decide; [|done]. injection E as _ <- _. by apply lookup_singleton_Some in El as [-> _].
  - destruct (a_eq ag); [by apply IH|done].
Qed.

Lemma run_solo code a n i m v ag ag' v' : has_agent m i a v ag -> solo code a n v ag = Some (ag', v') ->
  exists m', run code (replicate n (Step i)) m = Some m' /\ has_agent m' i a v' ag'.
Proof.
  revert m v ag. induction n as [|n IH]; intros m v ag [Hi Hs] E; cbn in E |- *; [injection E as <- <-; by exists m|]. rewrite Hi.
  pose proof (lookup_lt_Some _ _ _ Hi) as Hlt. destruct (code !! a_pc ag) as [c|] eqn:Hc; [|injection E as <- <-; cbn].
  - rewrite Hs. destruct (exec c {[a := v]} ag) as [[ag1 w]|] eqn:Ex; [|done]. cbn in *. apply (IH _ (from_option snd v w) ag1); [|done].
    destruct w as [[a1 v1]|]; split; cbn [agents shared]; try (apply list_lookup_insert_eq; by rewrite ?length_fmap).
    + rewrite (exec_addr _ _ _ _ _ _ _ Ex). apply insert_singleton_eq.
    + done.
  - exists m. split; [|done]. clear IH. induction n as [|n IH]; cbn; [done|]. by rewrite Hi, Hc.
Qed.

(** ** Properties *)

(** C14. [test_and_set_bit] under every interleaving of the instructions of any number of agents, with exceptions at any
    point, and whatever the register of the result holds in the beginning: the agents run without a fault; the word is
    its first value with the bits of the agents whose store was made; of these agents no two have a bit in
    common, and none has a bit that was set before.  An agent that has found its bit clear returns 1 exactly if its
    store was made; one that has found it set returns what the register held compared with 0.  So, if the
    register held something else than 0, as the initialisation of the variable means it to, the agents that return 1 are those whose
    store was made. *)
Theorem test_and_set_bit_exclusive (a w0 : Z) (args : list (Z * Z)) (sched : list event) :
  exists m v, run test_and_set_bit_code sched (start a w0 args) = Some m /\ shared m = {[a := v]} /\ reg_of Operand <$> agents m = args.*1 /\
    (forall k, b2z (Z.testbit v k) = b2z (Z.testbit w0 k) + total (fun ag => b2z (won ag && Z.testbit (reg_of Operand ag) k)) (agents m)) /\
    (forall i x xi, agents m !! i = Some x -> args !! i = Some xi -> won x = true -> Z.land xi.1 w0 = 0 /\
       forall j y yj, i <> j -> agents m !! j = Some y -> args !! j = Some yj -> won y = true -> Z.land xi.1 yj.1 = 0) /\
    (forall i x xi, agents m !! i = Some x -> args !! i = Some xi -> a_pc x = 6%nat ->
       returned x = (if a_eq x then b2z (won x) else b2z (xi.2 =? 0)) /\ (xi.2 <> 0 -> returned x = b2z (won x))).
Proof.
  destruct (run_exclusive test_and_set_bit_code a args.*2 (bit_ok a) bit_gain bit_val (bit_exec a) (bit_ok_clear a) (bit_ok_preempt a) ltac:(done) (fun k => bit_val k w0) sched w0 (start a w0 args))
    as (v & m & E & Hs & Hok & Hv); [by apply start_inv|].
  exists m, v. split; [done|]. split; [done|]. assert (Hm : reg_of Operand <$> agents m = args.*1).
  { rewrite (run_keeps Operand test_and_set_bit_code sched _ _ eq_refl E). cbn. by rewrite <- list_fmap_compose. }
  assert (Hop : forall i x xi, agents m !! i = Some x -> args !! i = Some xi -> reg_of Operand x = xi.1).
  { intros i x xi Hx Hi. apply (f_equal (fun l => l !! i)) in Hm. rewrite !list_lookup_fmap, Hx, Hi in Hm. by injection Hm. }
  assert (Hg : forall k x, won x = true -> bit_gain k x = b2z (Z.testbit (reg_of Operand x) k)) by (intros k x Hx; unfold bit_gain; by rewrite Hx).
  split; [done|]. split; [exact Hv|]. split.
  - intros i x xi Hx Hi Wx. rewrite <- (Hop i x xi Hx Hi). split.
    + apply Z.bits_inj'. intros k _. rewrite Z.land_spec, Z.bits_0. specialize (Hv k).
      pose proof (total_one (bit_gain k) _ i x ltac:(intros; apply b2z_nonneg) Hx) as Ht. rewrite (Hg k x Wx) in Ht.
      pose proof (b2z_nonneg (Z.testbit v k)). unfold bit_val in Hv. destruct (Z.testbit w0 k), (Z.testbit (reg_of Operand x) k); cbn in *; done || lia.
    + intros j y yj Hij Hy Hj Wy. rewrite <- (Hop j y yj Hy Hj). apply Z.bits_inj'. intros k _. rewrite Z.land_spec, Z.bits_0. specialize (Hv k).
      pose proof (total_two (bit_gain k) _ i j x y ltac:(intros; apply b2z_nonneg) Hij Hx Hy) as Ht. rewrite (Hg k x Wx), (Hg k y Wy) in Ht.
      pose proof (b2z_nonneg (Z.testbit v k)). pose proof (b2z_nonneg (Z.testbit w0 k)). unfold bit_val in Hv.
      destruct (Z.testbit (reg_of Operand x) k), (Z.testbit (reg_of Operand y) k); cbn in *; done || lia.
  - intros i x xi Hx Hi Px. destruct (Forall2_lookup_r _ _ _ _ _ Hok Hx) as (res & Hres & Hb).
    rewrite list_lookup_fmap, Hi in Hres. injection Hres as <-. destruct Hb as [_ Hb]. rewrite Px in Hb.
    rewrite (ended_returned _ _ Hb Px). split; [done|]. intros Hne. unfold won. rewrite Px. destruct (a_eq x); [done|].
    by destruct (Z.eqb_spec xi.2 0).
Qed.

(** [test_and_set_word] under every interleaving, whatever the register of the result holds in the beginning: at most one
    store is made, and none if the word was set before; the word is set exactly when it was before or some agent's store was made,
    and an agent for which the register did not hold 0 returns 1 exactly if its store was made. *)
Theorem test_and_set_word_exclusive (a w0 : Z) (args : list (Z * Z)) (sched : list event) :
  exists m v, run test_and_set_word_code sched (start a w0 args) = Some m /\ shared m = {[a := v]} /\
    b2z (truth v) = b2z (truth w0) + total (fun ag => b2z (won ag)) (agents m) /\
    (forall i j x y, agents m !! i = Some x -> agents m !! j = Some y -> won x = true -> won y = true -> i = j /\ w0 = 0) /\
    (forall i x xi, agents m !! i = Some x -> args !! i = Some xi -> a_pc x = 6%nat -> xi.2 <> 0 -> returned x = b2z (won x)).
Proof.
  destruct (run_exclusive test_and_set_word_code a args.*2 (word_ok a) word_gain word_val (word_exec a) (word_ok_clear a) (word_ok_preempt a) ltac:(done) (fun k => word_val k w0) sched w0 (start a w0 args))
    as (v & m & E & Hs & Hok & Hv); [by apply start_inv|].
  exists m, v. split; [done|]. split; [done|]. specialize (Hv tt). split; [exact Hv|]. split.
  - intros i j x y Hx Hy Wx Wy.
    assert (Hw : forall ag, won ag = true -> word_gain tt ag = 1) by (intros ag W; unfold word_gain; by rewrite W).
    pose proof (b2z_nonneg (truth v)) as Hb. pose proof (b2z_nonneg (truth w0)) as Hb0. unfold word_val in Hv. split.
    + destruct (decide (i = j)) as [|Hij]; [done|]. pose proof (total_two (word_gain tt) _ i j x y ltac:(intros; apply b2z_nonneg) Hij Hx Hy). rewrite (Hw x), (Hw y) in * by done. lia.
    + pose proof (total_one (word_gain tt) _ i x ltac:(intros; apply b2z_nonneg) Hx). rewrite (Hw x) in * by done. unfold truth in *. destruct (Z.eqb_spec w0 0); [done|]. cbn in *. lia.
  - intros i x xi Hx Hi Px Hne. destruct (Forall2_lookup_r _ _ _ _ _ Hok Hx) as (res & Hres & Hb).
    rewrite list_lookup_fmap, Hi in Hres. injection Hres as <-. destruct Hb as [_ Hb]. rewrite Px in Hb.
    rewrite (ended_returned _ _ Hb Px). unfold won. rewrite Px. destruct (a_eq x); [done|]. by destruct (Z.eqb_spec xi.2 0).
Qed.

(** An agent that is not disturbed does what the function of [Ktable] does in one step, in any
    machine: the sequential use of the bitmaps. *)
Theorem test_and_set_bit_undisturbed (m : machine) (i : nat) (a v mask res : Z) (Hm : has_agent m i a v (calls a mask res)) (Hres : res <> 0) :
  exists m' ag', run test_and_set_bit_code (replicate 6 (Step i)) m = Some m' /\ has_agent m' i a (snd (test_and_set_bit true v mask)) ag' /\ a_pc ag' = 6%nat /\
    returned ag' = fst (test_and_set_bit true v mask).
Proof.
  destruct (Z.land v mask =? 0) eqn:Et; unfold test_and_set_bit; rewrite Et; cbn [fst snd].
  - edestruct (run_solo test_and_set_bit_code a 6 i m v (calls a mask res)) as (m' & Er & Hm'); [done|solo_run; rewrite Et; solo_run; done|]. by exists m'; eexists.
  - edestruct (run_solo test_and_set_bit_code a 6 i m v (calls a mask res)) as (m' & Er & Hm'); [done|solo_run; rewrite Et; solo_run; done|].
    exists m'. eexists. split; [done|]. split; [done|]. split; [done|]. unfold returned. solo_run. by destruct (Z.eqb_spec res 0).
Qed.

Lemma test_and_set_bit_undisturbed_witness : exists m' ag', run test_and_set_bit_code (replicate 6 (Step 1)) (start 64 5 [(1, 1); (8, 1); (2, 1)]) = Some m' /\ has_agent m' 1 64 13 ag' /\ a_pc ag' = 6%nat /\ returned ag' = 1.
Proof. exact (test_and_set_bit_undisturbed (start 64 5 [(1, 1); (8, 1); (2, 1)]) 1 64 5 8 1 (conj eq_refl eq_refl) ltac:(lia)). Defined.

(** An exception between load and store makes the function return 0 although the bit is free and
    stays free: the answer 0 does not mean that the bit is set. *)
Lemma test_and_set_bit_preempted a v mask : Z.land v mask = 0 ->
  exists ag, run test_and_set_bit_code (replicate 2 (Step 0) ++ Preempt 0 :: replicate 4 (Step 0)) (start a v [(mask, 1)]) = Some (mk_machine [ag] {[a := v]}) /\ a_pc ag = 6%nat /\ returned ag = 0.
Proof.
  intros Et. apply Z.eqb_eq in Et. eexists. split; [unfold start; solo_run; rewrite Et; solo_run; reflexivity|]. done.
Qed.

(** The operand of the result is write-only for the compiler ([=r]), so that the initialisation
    with 1 need not be in the register: with a 0 there, a bit that is set is given again. *)
Lemma test_and_set_bit_result_undefined a v mask : Z.land v mask <> 0 ->
  exists ag, run test_and_set_bit_code (replicate 6 (Step 0)) (mk_machine [calls a mask 0] {[a := v]}) = Some (mk_machine [ag] {[a := v]}) /\ a_pc ag = 6%nat /\ returned ag = 1.
Proof.
  intros Et. apply Z.eqb_neq in Et. eexists. split; [solo_run; rewrite Et; solo_run; reflexivity|]. done.
Qed.

(** The operations for several processors, undisturbed. *)
Lemma atomic_set_undisturbed m i a v x res : has_agent m i a v (calls a x res) ->
  exists m' ag', run atomic_set_code (replicate 5 (Step i)) m = Some m' /\ has_agent m' i a x ag' /\ a_pc ag' = 5%nat.
Proof. intros H. edestruct (run_solo atomic_set_code a 5 i m v (calls a x res)) as (m' & Er & Hm'); [done|solo_run; done|]. by exists m'; eexists. Qed.

Lemma atomic_get_undisturbed m i a v x res : has_agent m i a v (calls a x res) ->
  exists m' ag', run atomic_get_code (replicate 3 (Step i)) m = Some m' /\ has_agent m' i a v ag' /\ a_pc ag' = 3%nat /\ a_regs ag' Result = v.
Proof. intros H. edestruct (run_solo atomic_get_code a 3 i m v (calls a x res)) as (m' & Er & Hm'); [done|solo_run; done|]. by exists m'; eexists. Qed.

Lemma spinlock_unlock_undisturbed m i a v x res : has_agent m i a v (calls a x res) ->
  exists m' ag', run spinlock_unlock_code (replicate 5 (Step i)) m = Some m' /\ has_agent m' i a 0 ag' /\ a_pc ag' = 5%nat.
Proof. intros H. edestruct (run_solo spinlock_unlock_code a 5 i m v (calls a x res)) as (m' & Er & Hm'); [done|solo_run; done|]. by exists m'; eexists. Qed.

(** *** The spin lock *)

Definition spin_ok (a : Z) (ag : agent) : Prop :=
  let r := a_regs ag in
  r Word = a /\
  match a_pc ag with
  | 0%nat => True
  | 1%nat | 2%nat | 7%nat => r Result = 0
  | 3%nat => r Result = 0 /\ r R7 = a
  | 4%nat | 5%nat => r Result = 0 /\ r R7 = a /\ a_mon ag = Some a
  | 6%nat => r Result = 0 /\ (a_eq ag = true -> r R0 = 0)
  | 8%nat => a_eq ag = false
  | _ => False
  end.

Lemma spin_exec a v ag : spin_ok a ag -> exists c ag' w, spinlock_lock_code !! a_pc ag = Some c /\ exec c {[a := v]} ag = Some (ag', w) /\ spin_ok a ag'.
Proof.
  intros [Hw H]. destruct ag as [r eq pc mon]. cbn in Hw, H |- *. destruct pc as [|[|[|[|[|[|[|[|[|pc]]]]]]]]]; cbn in H |- *; [..|done]; eexists.
  - by do 2 eexists.
  - by do 2 eexists.
  - by do 2 eexists.
  - destruct H as [H H7]. do 2 eexists. split; [done|]. cbn. rewrite H7, lookup_singleton_eq. by split.
  - destruct H as (H & H7 & Hm). by do 2 eexists.
  - destruct H as (H & H7 & Hm). destruct eq; do 2 eexists; (split; [done|]); [|by split]. cbn. rewrite H7, lookup_singleton_eq. cbn. rewrite decide_True by done. by split.
  - destruct H as [H He]. destruct eq; do 2 eexists; (split; [done|]); [|by split]. specialize (He eq_refl). by split.
  - do 2 eexists. split; [done|]. split; [done|]. split; [done|]. cbn. by rewrite H.
  - do 2 eexists. split; [done|]. split; [done|]. cbn. rewrite H. by split.
Qed.

(** [spinlock_lock] of an agent that nobody disturbs never returns, whether the lock is free or
    not: [spinlock_trylock] gives the status of the store, which is 0 when it was made, and the
    loop waits for a 1. *)
Theorem spinlock_lock_spins (m : machine) (i : nat) (a v x res : Z) (n : nat) (Hm : has_agent m i a v (calls a x res)) :
  exists m' ag' v', run spinlock_lock_code (replicate n (Step i)) m = Some m' /\ has_agent m' i a v' ag' /\ (a_pc ag' < length spinlock_lock_code)%nat.
Proof.
  assert (Hs : forall n v ag, spin_ok a ag -> exists ag' v', solo spinlock_lock_code a n v ag = Some (ag', v') /\ spin_ok a ag').
  { clear. induction n as [|n IH]; intros v ag H; [by exists ag, v|]. destruct (spin_exec a v ag H) as (c & ag1 & w & Hc & Ex & H1). cbn [solo]. rewrite Hc, Ex. cbn. by apply IH. }
  destruct (Hs n v (calls a x res)) as (ag' & v' & E & Hok); [done|]. destruct (run_solo _ _ _ _ _ _ _ _ _ Hm E) as (m' & Er & Hm'). exists m', ag', v'. split; [done|]. split; [done|].
  destruct Hok as [_ Hok]. cbn. destruct (a_pc ag') as [|[|[|[|[|[|[|[|[|pc]]]]]]]]]; [lia..|done].
Qed.

Lemma spinlock_lock_spins_witness : exists m' ag' v', run spinlock_lock_code (replicate 100 (Step 0)) (start 64 0 [(0, 1)]) = Some m' /\ has_agent m' 0 64 v' ag' /\ (a_pc ag' < length spinlock_lock_code)%nat.
Proof. exact (spinlock_lock_spins (start 64 0 [(0, 1)]) 0 64 0 0 1 100 (conj eq_refl eq_refl)). Defined.

(** An agent whose store is disturbed returns as if it had the lock, which the other one has
    taken, and which in turn waits for ever. *)
Example spinlock_lock_wrong_owner :
  match run spinlock_lock_code (replicate 5 (Step 0) ++ replicate 6 (Step 1) ++ replicate 4 (Step 0) ++ replicate 21 (Step 1)) (start 64 0 [(0, 1); (0, 1)]) with
  | Some m => (a_pc <$> agents m, shared m !! 64) = ([9%nat; 0%nat], Some 1)
  | None => False
  end.
Proof. vm_compute. reflexivity. Qed.
