(* ===== verification/BitBand.v ===== *)
(** * Bitmaps in the bit-band region

    Models the other configuration of [include/lib/bitmap.h] ([CONFIG_BITMAP_BITBAND]), in which
    a cursor is an address of the bit-band alias, and [ktable_alloc] compiled with it.  The
    alias is the one of the processor: the word at [0x22000000 + 32 * n + 4 * k] stands for bit
    [k] of the byte at [0x20000000 + n].  The operations are those of the word bitmaps of
    [Ktable], but the number of a cursor is cut to five bits. *)

From S2P Require Import Prelude Ktable Atomic.

(** ** [platform/bitops.c] *)

(** [test_and_set_word], as [test_and_set_bit] of [Ktable]: the value returned and the word left
    in memory; that the register of [result] holds its initial value 1 when the word is set is an
    assumption on the compiler here, too. *)
Definition test_and_set_word (monitor : bool) (word : Z) : Z * Z :=
  let result := 1 in
  if word =? 0 then
    let r0 := if monitor then 0 else 1 in
    (b2z (r0 =? 0), if monitor then 1 else word)
  else (b2z (result =? 0), word).

(** An agent that is not disturbed does this in one step. *)
Lemma test_and_set_word_undisturbed m i a v x res : has_agent m i a v (calls a x res) -> res <> 0 ->
  exists m' ag', run test_and_set_word_code (replicate 6 (Step i)) m = Some m' /\ has_agent m' i a (snd (test_and_set_word true v)) ag' /\ a_pc ag' = 6%nat /\
    returned ag' = fst (test_and_set_word true v).
Proof.
  intros Hm Hres. destruct (v =? 0) eqn:Et; unfold test_and_set_word; rewrite Et; cbn [fst snd].
  - edestruct (run_solo test_and_set_word_code a 6 i m v (calls a x res)) as (m' & Er & Hm'); [done|solo_run; rewrite Et; solo_run; done|]. by exists m'; eexists.
  - edestruct (run_solo test_and_set_word_code a 6 i m v (calls a x res)) as (m' & Er & Hm'); [done|solo_run; rewrite Et; solo_run; done|].
    exists m'. eexists. split; [done|]. split; [done|]. split; [done|]. unfold returned. solo_run. by destruct (Z.eqb_spec res 0).
Qed.

(** ** The alias

    [base] is the address of the bitmap. *)

Section alias.
Variable base : Z.

(** The bit of the bitmap that an address of the alias stands for; an address outside of the
    alias or of the bitmap, or one that is not aligned, is a fault. *)
Definition alias_bit (bm : list Z) (cursor : Z) : option (Z * Z) :=
  let off := cursor - 0x22000000 in
  let byte := 0x20000000 + off / 32 - base in
  if (0 <=? off) && (off <? 0x2000000) && (off mod 4 =? 0) && (0 <=? byte) && (byte <? 4 * Z.of_nat (length bm))
  then Some (byte / 4, 8 * (byte mod 4) + (off mod 32) / 4) else None.

Definition alias_read (cursor : Z) : M (list Z) Z := fun bm =>
  match alias_bit bm cursor with
  | Some (i, k) => match zlookup bm i with Some w => Done (b2z (Z.testbit w k), bm) | None => Fault end
  | None => Fault
  end.

(** A store writes bit 0 of the value. *)
Definition alias_write (cursor v : Z) : M (list Z) unit := fun bm =>
  match alias_bit bm cursor with
  | Some (i, k) =>
      match zlookup bm i with
      | Some w =>
          match zinsert i (if Z.testbit v 0 then Z.setbit w k else Z.clearbit w k) bm with
          | Some bm' => Done (tt, bm')
          | None => Fault
          end
      | None => Fault
      end
  | None => Fault
  end.

(** ** [include/lib/bitmap.h] *)

Definition BITBAND_ADDR_SHIFT : Z := 5.
Definition BIT_SHIFT : Z := 2.
Definition ADDR_BITBAND (addr : Z) : Z := 0x22000000 +w shl32 (Z.land addr 0xFFFFF) BITBAND_ADDR_SHIFT.

Definition bb_cursor (bit : Z) : Z := ADDR_BITBAND base +w shl32 bit BIT_SHIFT.
Definition bb_cursor_id (cursor : Z) : Z := Z.shiftr (Z.land cursor (Z.shiftl 1 (BITBAND_ADDR_SHIFT + BIT_SHIFT) - 1)) BIT_SHIFT.
Definition bb_cursor_goto_next (cursor : Z) : Z := cursor +w Z.shiftl 1 BIT_SHIFT.

Definition bb_set_bit (cursor : Z) : M (list Z) unit := alias_write cursor 1.
Definition bb_clear_bit (cursor : Z) : M (list Z) unit := alias_write cursor 0.
Definition bb_get_bit (cursor : Z) : M (list Z) Z := alias_read cursor.
Definition bb_test_and_set_bit (cursor : Z) : M (list Z) Z :=
  w ← alias_read cursor;
  let '(r, w') := test_and_set_word true w in
  alias_write cursor w';; mret r.

(** ** [kernel/lib/ktable.c] in this configuration *)

(** [ktable_alloc]: [for_each_in_bitmap] from [cursor] on. *)
Fixpoint bb_alloc_loop (fuel : nat) (cursor : Z) : M ktable Z :=
  match fuel with
  | O => fuel_out
  | S fuel' =>
      num ← gets kt_num;
      if bb_cursor_id cursor <? num then
        r ← on_bitmap (bb_test_and_set_bit cursor);
        if truth r then gets (fun kt => kt_addr kt (bb_cursor_id cursor))
        else bb_alloc_loop fuel' (bb_cursor_goto_next cursor)
      else mret NULL
  end.

Definition bb_ktable_alloc (fuel : nat) : M ktable Z := bb_alloc_loop fuel (bb_cursor 0).

(** ** The cursor *)

(** The bitmap is in the region that has an alias. *)
Hypothesis Hbase : 0x20000000 <= base.
Hypothesis Halign : base mod 4 = 0.

Definition fits (bm : list Z) : Prop := base + 4 * Z.of_nat (length bm) <= 0x20100000.

Lemma cursor_eq bm i : fits bm -> in_bitmap bm i -> bb_cursor i = 0x22000000 + 32 * (base - 0x20000000) + 4 * i.
Proof.
  unfold fits, in_bitmap. intros Hf Hi. unfold bb_cursor, ADDR_BITBAND, shl32, add32, BITBAND_ADDR_SHIFT, BIT_SHIFT, wrap32, u32_modulus.
  change 0xFFFFF with (Z.ones 20). rewrite Z.land_ones, !Z.shiftl_mul_pow2 by lia. Z.div_mod_to_equations. lia.
Qed.

Lemma alias_bit_ok bm i : fits bm -> in_bitmap bm i -> alias_bit bm (bb_cursor i) = Some (i / 32, i mod 32).
Proof.
  intros Hf Hi. unfold alias_bit. rewrite (cursor_eq bm i Hf Hi). unfold fits, in_bitmap in *.
  set (B := base - 0x20000000) in *. replace (0x22000000 + 32 * B + 4 * i - 0x22000000) with (32 * B + 4 * i) by lia.
  assert (E : 0x20000000 + (32 * B + 4 * i) / 32 - base = i / 8) by (unfold B; Z.div_mod_to_equations; lia). rewrite E.
  assert (H1 : ((32 * B + 4 * i) mod 4 = 0)) by (Z.div_mod_to_equations; lia). assert (H2 : 0 <= i / 8 < 4 * Z.of_nat (length bm)) by (Z.div_mod_to_equations; lia).
  assert (H3 : 0 <= 32 * B + 4 * i < 0x2000000) by (unfold B; lia). rewrite H1.
  rewrite !(proj2 (Z.leb_le _ _)), !(proj2 (Z.ltb_lt _ _)) by lia. cbn [andb Z.eqb]. f_equal. f_equal; Z.div_mod_to_equations; lia.
Qed.

Lemma cursor_next bm i : fits bm -> in_bitmap bm i -> bb_cursor_goto_next (bb_cursor i) = bb_cursor (i + 1).
Proof.
  intros Hf Hi. unfold bb_cursor_goto_next. rewrite (cursor_eq bm i Hf Hi). unfold fits, in_bitmap in *.
  unfold bb_cursor, ADDR_BITBAND, shl32, add32, BITBAND_ADDR_SHIFT, BIT_SHIFT, wrap32, u32_modulus. change 0xFFFFF with (Z.ones 20). rewrite Z.land_ones, !Z.shiftl_mul_pow2 by lia.
  Z.div_mod_to_equations. lia.
Qed.

(** The number of a cursor is cut to five bits. *)
Lemma cursor_id bm i : fits bm -> in_bitmap bm i -> bb_cursor_id (bb_cursor i) = i mod 32.
Proof.
  intros Hf Hi. unfold bb_cursor_id. rewrite (cursor_eq bm i Hf Hi). unfold fits, in_bitmap, BITBAND_ADDR_SHIFT, BIT_SHIFT in *.
  change (Z.shiftl 1 (5 + 2) - 1) with (Z.ones 7). rewrite Z.land_ones, Z.shiftr_div_pow2 by lia. Z.div_mod_to_equations. lia.
Qed.

(** ** The operations *)

Lemma alias_read_ok bm i w : fits bm -> in_bitmap bm i -> zlookup bm (i / 32) = Some w -> alias_read (bb_cursor i) bm = Done (b2z (Z.testbit w (i mod 32)), bm).
Proof. intros Hf Hi Hl. unfold alias_read. by rewrite alias_bit_ok, Hl. Qed.

Lemma alias_write_ok bm i w v : fits bm -> in_bitmap bm i -> zlookup bm (i / 32) = Some w ->
  alias_write (bb_cursor i) v bm = Done (tt, <[Z.to_nat (i / 32) := if Z.testbit v 0 then Z.setbit w (i mod 32) else Z.clearbit w (i mod 32)]> bm).
Proof. intros Hf Hi Hl. unfold alias_write. rewrite alias_bit_ok, Hl by done. by rewrite zinsert_Some by (by apply in_bitmap_word). Qed.

Lemma lor_setbit w i : 0 <= i -> Z.lor w (Z.shiftl 1 i) = Z.setbit w i.
Proof. intros. unfold Z.setbit. by rewrite Z.shiftl_1_l. Qed.

Lemma land_clearbit w i : is_u32 w -> 0 <= i < 32 -> Z.land w (not32 (Z.shiftl 1 i)) = Z.clearbit w i.
Proof.
  intros Hw Hi. apply Z.bits_inj'. intros k Hk. rewrite Z.land_spec, Z.clearbit_eqb by lia. destruct (Z.ltb_spec k 32).
  - rewrite testbit_not32 by (apply pow2_mask_u32 || lia; lia). by rewrite testbit_pow2_mask by lia.
  - rewrite (Z.bits_above_log2 w); [done|unfold is_u32, u32_modulus in *; lia|]. destruct (decide (w = 0)) as [->|]; [cbn; lia|].
    apply Z.log2_lt_pow2; [unfold is_u32 in Hw; lia|]. unfold is_u32, u32_modulus in Hw. change 4294967296 with (2 ^ 32) in Hw. pose proof (Z.pow_le_mono_r 2 32 k). lia.
Qed.

Lemma setbit_same w i : 0 <= i -> Z.testbit w i = true -> Z.setbit w i = w.
Proof. intros Hi Hb. apply Z.bits_inj'. intros k Hk. rewrite Z.setbit_eqb by lia. destruct (Z.eqb_spec i k) as [<-|]; [by rewrite Hb|done]. Qed.

(** The two configurations agree on every bit of a bitmap. *)
Lemma bb_test_and_set_eq bm i : bm_wf bm -> fits bm -> in_bitmap bm i -> bb_test_and_set_bit (bb_cursor i) bm = bitmap_test_and_set_bit i bm.
Proof.
  intros Hwf Hf Hi. destruct (BITWORD_ok _ _ Hi) as (w & Hl & Hr & Hset). pose proof (Z.mod_pos_bound i 32 ltac:(lia)) as Hm.
  unfold bb_test_and_set_bit, bitmap_test_and_set_bit, mbind, M_bind. rewrite (alias_read_ok bm i w), Hr by done.
  unfold test_and_set_bit, BITMASK. rewrite BITOFF_mod, land_pow2_mask by (apply Hi || lia). unfold test_and_set_word.
  destruct (Z.testbit w (i mod 32)) eqn:E; cbn [negb b2z Z.eqb]; rewrite (alias_write_ok bm i w), Hset by done; cbn [Z.testbit].
  - by rewrite setbit_same by (done || lia).
  - by rewrite lor_setbit by lia.
Qed.

Lemma bb_alloc_step kt i : kt_wf kt -> fits (kt_bitmap kt) -> 0 <= i < kt_num kt -> kt_allocated kt i = true -> on_bitmap (bb_test_and_set_bit (bb_cursor i)) kt = Done (0, kt).
Proof.
  intros Hwf Hf Hi Ha. pose proof (kt_in_bitmap kt i Hwf Hi) as Hin. destruct (bitmap_test_and_set_ok (kt_bitmap kt) i (wf_bitmap _ Hwf) Hin) as (bm & Hr & _ & _ & Hsame & _).
  unfold on_bitmap, zoom. rewrite bb_test_and_set_eq by (done || apply Hwf). rewrite Hr. fold (kt_allocated kt i) in *. rewrite Ha in *. cbn. rewrite (Hsame eq_refl). by destruct kt.
Qed.

(** In a table of less than 32 elements the loop is the one of the other configuration. *)
Lemma bb_alloc_loop_eq n kt i : kt_wf kt -> fits (kt_bitmap kt) -> kt_num kt < 32 -> 0 <= i <= kt_num kt -> bb_alloc_loop n (bb_cursor i) kt = ktable_alloc_loop n i kt.
Proof.
  intros Hwf Hf Hn. revert i. induction n as [|n IH]; intros i Hi; [done|]. pose proof (wf_length _ Hwf) as Hl. pose proof (wf_num _ Hwf) as Hn0.
  assert (Hin : in_bitmap (kt_bitmap kt) i) by (unfold in_bitmap; lia). cbn [bb_alloc_loop ktable_alloc_loop]. rewrite !(bind_Done (gets kt_num) _ kt _ _ eq_refl).
  rewrite (cursor_id (kt_bitmap kt)), Z.mod_small by (done || lia). destruct (Z.ltb_spec i (kt_num kt)) as [Hlt|]; [|done].
  assert (E : on_bitmap (bb_test_and_set_bit (bb_cursor i)) kt = on_bitmap (bitmap_test_and_set_bit i) kt) by (unfold on_bitmap, zoom; by rewrite bb_test_and_set_eq by (done || apply Hwf)).
  destruct (kt_allocated kt i) eqn:Ha.
  - rewrite (bind_Done _ _ _ _ _ (bb_alloc_step kt i Hwf Hf ltac:(lia) Ha)). rewrite (bb_alloc_step kt i Hwf Hf ltac:(lia) Ha) in E. rewrite (bind_Done _ _ _ _ _ (eq_sym E)).
    cbn [truth negb Z.eqb]. rewrite (cursor_next (kt_bitmap kt)) by done. apply IH. lia.
  - destruct (bitmap_test_and_set_ok (kt_bitmap kt) i (wf_bitmap _ Hwf) Hin) as (bm & Hr & _). assert (E2 : on_bitmap (bitmap_test_and_set_bit i) kt = Done (1, set_bitmap bm kt)).
    { unfold on_bitmap, zoom. rewrite Hr. fold (kt_allocated kt i). by rewrite Ha. }
    rewrite E2 in E. rewrite (bind_Done _ _ _ _ _ E), (bind_Done _ _ _ _ _ E2).  done.
Qed.

(** The loop passes the elements that are allocated. *)
Lemma bb_alloc_loop_skip n kt i d : kt_wf kt -> fits (kt_bitmap kt) -> 32 <= kt_num kt -> 0 <= i -> i + Z.of_nat d <= kt_num kt ->
  (forall j, i <= j < i + Z.of_nat d -> kt_allocated kt j = true) -> bb_alloc_loop (d + n) (bb_cursor i) kt = bb_alloc_loop n (bb_cursor (i + Z.of_nat d)) kt.
Proof.
  intros Hwf Hf Hn. revert i. induction d as [|d IH]; intros i Hi Hd Ha; [by rewrite Z.add_0_r|]. cbn [Nat.add bb_alloc_loop]. rewrite (bind_Done (gets kt_num) _ kt _ _ eq_refl).
  pose proof (kt_in_bitmap kt i Hwf ltac:(lia)) as Hin. rewrite (cursor_id (kt_bitmap kt)) by done. pose proof (Z.mod_pos_bound i 32 ltac:(lia)). rewrite (proj2 (Z.ltb_lt _ _)) by lia.
  rewrite (bind_Done _ _ _ _ _ (bb_alloc_step kt i Hwf Hf ltac:(lia) (Ha i ltac:(lia)))). cbn [truth negb Z.eqb]. rewrite (cursor_next (kt_bitmap kt)) by done.
  rewrite IH by (lia || (intros; apply Ha; lia)). f_equal. f_equal. lia.
Qed.
End alias.

(** ** Properties *)

(** C15. A bitmap in the bit-band region: the operations on the cursor of a bit have the results
    and leave the words of those of the other configuration, and [ktable_alloc] is the same on a
    table of less than 32 elements. *)
Theorem bitband_equivalent (base : Z) (bm : list Z) (i : Z) (Hb : 0x20000000 <= base) (Ha : base mod 4 = 0) (Hf : fits base bm) (Hwf : bm_wf bm) (Hi : in_bitmap bm i) :
  bb_set_bit base (bb_cursor base i) bm = bitmap_set_bit i bm /\
  bb_clear_bit base (bb_cursor base i) bm = bitmap_clear_bit i bm /\
  bb_get_bit base (bb_cursor base i) bm = bitmap_get_bit i bm /\
  bb_test_and_set_bit base (bb_cursor base i) bm = bitmap_test_and_set_bit i bm /\
  forall kt, kt_bitmap kt = bm -> kt_wf kt -> kt_num kt < 32 -> bb_ktable_alloc base (Z.to_nat (kt_num kt) + 1) kt = ktable_alloc kt.
Proof.
  destruct (BITWORD_ok _ _ Hi) as (w & Hl & Hr & Hset). pose proof (Z.mod_pos_bound i 32 ltac:(lia)) as Hm. assert (Hw : is_u32 w) by (by eapply bm_wf_lookup).
  split; [|split; [|split; [|split]]].
  - unfold bb_set_bit, bitmap_set_bit, mbind, M_bind. rewrite (alias_write_ok base Hb Ha bm i w), Hr, Hset by done. unfold BITMASK. by rewrite BITOFF_mod, lor_setbit by (apply Hi || lia).
  - unfold bb_clear_bit, bitmap_clear_bit, mbind, M_bind. rewrite (alias_write_ok base Hb Ha bm i w), Hr, Hset by done. unfold BITMASK. by rewrite BITOFF_mod, land_clearbit by (apply Hi || done || lia).
  - unfold bb_get_bit, bitmap_get_bit, mbind, M_bind. rewrite (alias_read_ok base Hb Ha bm i w), Hr by done. by rewrite BITOFF_mod, shiftr_land_1 by (apply Hi || lia).
  - by apply bb_test_and_set_eq.
  - intros kt <- Hk Hn. apply bb_alloc_loop_eq; try done. pose proof (wf_num _ Hk). lia.
Qed.

Lemma bitband_equivalent_witness : bb_clear_bit 0x20001000 (bb_cursor 0x20001000 33) [0; 7] = bitmap_clear_bit 33 [0; 7] /\ bitmap_clear_bit 33 [0; 7] = Done (tt, [0; 5]).
Proof.
  split; [|reflexivity]. destruct (bitband_equivalent 0x20001000 [0; 7] 33) as (_ & H & _); [lia|done|done| |done|exact H].
  by repeat constructor.
Defined.

(** In a table of more than 32 elements, of which the first 32 are allocated and the next one is
    free, [ktable_alloc] returns the first element, which is in use. *)
Theorem bitband_alloc_wraps (base : Z) (kt : ktable) (n : nat) (Hb : 0x20000000 <= base) (Ha : base mod 4 = 0) (Hf : fits base (kt_bitmap kt)) (Hwf : kt_wf kt) (Hn : 32 < kt_num kt)
    (Hall : forall j, 0 <= j < 32 -> kt_allocated kt j = true) (Hfree : kt_allocated kt 32 = false) :
  exists bm, bb_ktable_alloc base (33 + n) kt = Done (kt_addr kt 0, set_bitmap bm kt).
Proof.
  unfold bb_ktable_alloc. change (33 + n)%nat with (32 + S n)%nat || replace (33 + n)%nat with (32 + S n)%nat by lia. rewrite (bb_alloc_loop_skip base Hb Ha (S n) kt 0 32) by (done || lia || (intros; apply Hall; lia)). cbn [bb_alloc_loop]. change (0 + Z.of_nat 32) with 32.
  rewrite (bind_Done (gets kt_num) _ kt _ _ eq_refl). pose proof (kt_in_bitmap kt 32 Hwf ltac:(lia)) as Hin. rewrite (cursor_id base Hb Ha (kt_bitmap kt)) by done. change (32 mod 32) with 0.
  rewrite (proj2 (Z.ltb_lt 0 _)) by lia. destruct (bitmap_test_and_set_ok (kt_bitmap kt) 32 (wf_bitmap _ Hwf) Hin) as (bm & Hr & _). exists bm.
  assert (E : on_bitmap (bb_test_and_set_bit base (bb_cursor base 32)) kt = Done (1, set_bitmap bm kt)).
  { unfold on_bitmap, zoom. rewrite bb_test_and_set_eq by (done || apply Hwf). rewrite Hr. fold (kt_allocated kt 32). by rewrite Hfree. }
  rewrite (bind_Done _ _ _ _ _ E).  done.
Qed.

Lemma bitband_alloc_wraps_witness : exists bm, bb_ktable_alloc 0x20001000 33 (mk_ktable [4294967295; 0] 4096 64 16) = Done (4096, set_bitmap bm (mk_ktable [4294967295; 0] 4096 64 16)).
Proof.
  apply (bitband_alloc_wraps 0x20001000 (mk_ktable [4294967295; 0] 4096 64 16) 0); [lia|done|done| |done| |done].
  - split; try done. by repeat constructor.
  - intros j Hj. unfold kt_allocated, bit_at. cbn [kt_bitmap]. rewrite Z.div_small, Z.mod_small by lia. change (zlookup [4294967295; 0] 0) with (Some (Z.ones 32)). by apply Z.ones_spec_low.
Defined.
