(* ===== verification/Start.v ===== *)
(** * The start of the kernel

    Composes the start: [main] of [kernel/start.c] with the hooks, the interrupt controller and the
    system threads.  The three system threads are created and put in their slots, and the
    scheduler selects the kernel thread. *)

From S2P Require Import Prelude Bits Boot Ktable Thread ThreadMap ThreadTree Sched Softirq Ktimer Kernel Mempool Fpage FpageChain Memory Nvic Ipc IpcProps UserLib UserCalls RootKernel RootRun.

(** ** A thread of the system *)

(** The context of a system thread that runs in the kernel's mode, and its frame. *)
Definition system_ctx (sp : Z) (x : context_t) : context_t := with_ret_ctl 4294967289 0 (with_sp (sp -w RESERVED_STACK) x).

Lemma system_init_ctx_ok sp pc q tq s : tcbs s !! q = Some tq -> GLOBALID_TO_TID (t_globalid tq) < THREAD_ROOT ->
  (forall r, 0 <= r < 8 -> is_Some (words s !! reg_addr (sp -w RESERVED_STACK) r)) ->
  thread_init_ctx sp pc q s = Done (tt, set_words (write_frame (sp -w RESERVED_STACK) 0 (start_frame 0 0 pc) (words s))
    (set_tcbs (<[q := with_ctx (system_ctx sp (t_ctx tq)) tq]> (tcbs s)) s)).
Proof.
  intros Hq Hid Hw. unfold thread_init_ctx. set (sp' := sp -w RESERVED_STACK) in *. rewrite (bind_Done _ _ _ _ _ (upd_tcb_ok _ _ _ _ Hq)).
  set (s1 := set_tcbs _ s). set (t1 := with_ctx (with_sp sp' (t_ctx tq)) tq). assert (H1 : tcbs s1 !! q = Some t1) by apply lookup_insert_eq.
  rewrite (bind_Done _ _ _ _ _ (get_tcb_ok _ _ _ H1)). change (t_globalid t1) with (t_globalid tq). destruct (Z.geb_spec (GLOBALID_TO_TID (t_globalid tq)) THREAD_ROOT); [lia|].
  set (s2 := set_tcbs (<[q := with_ctx (system_ctx sp (t_ctx tq)) tq]> (tcbs s)) s).
  assert (E2 : upd_tcb q (fun t => with_ctx (with_ret_ctl 4294967289 0 (t_ctx t)) t) s1 = Done (tt, s2)).
  { rewrite (upd_tcb_ok _ _ _ _ H1). unfold s1, s2. cbn [tcbs set_tcbs]. by rewrite insert_insert_eq. }
  assert (W2 : forall r, 0 <= r < 8 -> is_Some (words s2 !! reg_addr sp' r)) by exact Hw.
  destruct (write_words_ok sp' s2 W2 REG_R0 0) as [E3 W3]; [unfold REG_R0; lia|]. destruct (write_words_ok sp' _ W3 REG_R1 0) as [E4 W4]; [unfold REG_R1; lia|].
  match goal with |- (_ ← ?m; _) s1 = _ => assert (Eb : m s1 = Done (tt, set_words (<[reg_addr sp' REG_R1 := 0]> (<[reg_addr sp' REG_R0 := 0]> (words s2))) s2)) end.
  { rewrite (bind_Done _ _ _ _ _ E2). rewrite (bind_Done _ _ _ _ _ E3). exact E4. }
  rewrite (bind_Done _ _ _ _ _ Eb). clear Eb E2 E3 E4.
  write_reg W4 REG_R2 0. write_reg W4 REG_R3 0. write_reg W4 REG_R12 0. write_reg W4 REG_LR 4294967295. write_reg W4 REG_PC pc.
  destruct (write_words_ok sp' _ W4 REG_xPSR 16777216) as [E10 _]; [unfold REG_xPSR; lia|]. exact E10.
Qed.

Lemma write_frame_is_Some sp ws : forall r w a, is_Some (w !! a) -> is_Some (write_frame sp r ws w !! a).
Proof. induction ws as [|x ws IH]; intros r w a H; [done|]. cbn. apply IH. rewrite lookup_insert_is_Some'. by right. Qed.

(** What the invariant of the dispatcher depends on. *)
Lemma thr_inv_core s s' ents : thr_inv s ents -> thread_table s' = thread_table s -> thread_map s' = thread_map s -> thread_count s' = thread_count s ->
  same_ids (tcbs s) (tcbs s') -> thr_inv s' ents.
Proof.
  intros [Hm Hwf Hn Hd Hl Hnd] E1 E2 E3 Hid. split; rewrite ?E1; try done; [by apply (map_rep_core s)|].
  intros p. rewrite <- Hd. specialize (Hid p). by destruct (tcbs s' !! p), (tcbs s !! p).
Qed.

(** ** The kernel while it starts *)

(** [ents] are the threads that exist; all of them can run, and no thread has made a call. *)
Record up (s : kstate) (ents : list (Z * Z)) : Prop := {
  up_inv : thr_inv (k_thr s) ents;
  up_caller : caller (k_thr s) = NULL;
  up_slots : length (k_sched s) = 6%nat;
  up_run : forall p t, p ∈ ents.*1 -> tcbs (k_thr s) !! p = Some t -> t_state t = T_RUNNABLE;
}.

(** A thread that has been initialised in [x1], and whose block was completed. *)
Lemma up_add s s' ents r q tid x1 t0 t' : up s ents -> thr_inv x1 (insert_at r (q, tid) ents) -> (forall p, p <> q -> tcbs x1 !! p = tcbs (k_thr s) !! p) ->
  tcbs x1 !! q = Some t0 -> t_globalid t' = t_globalid t0 -> t_state t' = T_RUNNABLE ->
  thread_table (k_thr s') = thread_table x1 -> thread_map (k_thr s') = thread_map x1 -> thread_count (k_thr s') = thread_count x1 -> tcbs (k_thr s') = <[q := t']> (tcbs x1) ->
  caller (k_thr s') = NULL -> length (k_sched s') = 6%nat -> up s' (insert_at r (q, tid) ents).
Proof.
  intros [_ _ _ Hrun] Hi Hoth Hq Eg Es E1 E2 E3 E4 Hc Hs. split; [|done|done|].
  - apply (thr_inv_core x1); [done..|]. rewrite E4. by apply (same_ids_insert _ _ _ t0).
  - intros p t Hp Ht. rewrite E4 in Ht. destruct (decide (p = q)) as [->|Hn]; [rewrite lookup_insert_eq in Ht; by injection Ht as <-|].
    rewrite lookup_insert_ne, Hoth in Ht by done. apply (Hrun p t); [|done]. rewrite insert_at_fmap in Hp. unfold insert_at in Hp. rewrite elem_of_app, elem_of_cons in Hp. cbn in Hp.
    rewrite <- (take_drop r ents.*1), elem_of_app. naive_solver.
Qed.

(** What the creation of a thread leaves as it is, for the creations that follow. *)
Record kept (s s' : kstate) : Prop := {
  kp_timer : k_timer s' = k_timer s;
  kp_kip : kip_fpage s' = kip_fpage s /\ kip_extra_fpage s' = kip_extra_fpage s /\ kip_addr (k_thr s') = kip_addr (k_thr s);
  kp_words : forall a, is_Some (words (k_thr s) !! a) -> is_Some (words (k_thr s') !! a);
  kp_utcbs : forall a, is_Some (utcbs (k_thr s) !! a) -> is_Some (utcbs (k_thr s') !! a);
}.

Lemma dispatch_slot i t s : (i < length (k_sched s))%nat -> sched (sched_slot_dispatch (Z.of_nat i) t) s = Done (tt, set_sched (dispatch_at i t (k_sched s)) s).
Proof. intros H. apply lookup_lt_is_Some in H as [sl Hsl]. exact (on_Done (sched_slot_dispatch (Z.of_nat i) t) s tt _ (sched_slot_dispatch_ok i sl t (k_sched s) Hsl)). Qed.

Lemma length_dispatch i t l : length (dispatch_at i t l) = length l.
Proof. apply length_alter. Qed.

(** The last steps of the creation: the slot of the thread, and its state. *)
Lemma finish_thread i q s t : (i < length (k_sched s))%nat -> tcbs (k_thr s) !! q = Some t ->
  (sched (sched_slot_dispatch (Z.of_nat i) q);; thr (upd_tcb q (with_state T_RUNNABLE))) s =
  Done (tt, set_thr (set_tcbs (<[q := with_state T_RUNNABLE t]> (tcbs (k_thr s))) (k_thr s)) (set_sched (dispatch_at i q (k_sched s)) s)).
Proof.
  intros Hi Ht. rewrite (bind_Done _ _ _ _ _ (dispatch_slot i q s Hi)). exact (thr_Done (upd_tcb q (with_state T_RUNNABLE)) (set_sched (dispatch_at i q (k_sched s)) s) _ _ (upd_tcb_ok q _ (k_thr s) t Ht)).
Qed.

Definition frame_at (s : kstate) (sp : Z) : Prop := forall r, 0 <= r < 8 -> is_Some (words (k_thr s) !! reg_addr (sp -w RESERVED_STACK) r).

Section start.
Context {sym : symbols}.

Lemma create_idle_ok s ents : up s ents -> (length ents < Z.to_nat CONFIG_MAX_THREADS)%nat -> frame_at s (idle_stack_end sym) ->
  exists q s' r t, create_idle_thread sym s = Done (tt, s') /\ (q ∉ ents.*1) /\ place ents.*2 THREAD_IDLE r /\ up s' (insert_at r (q, THREAD_IDLE) ents) /\
    k_sched s' = dispatch_at 5 q (k_sched s) /\ k_mem s' = k_mem s /\ kept s s' /\ tcbs (k_thr s') !! q = Some t /\ t_ctx t = system_ctx (idle_stack_end sym) (t_ctx t) /\
    words (k_thr s') !! reg_addr (c_sp (t_ctx t)) REG_PC = Some (sym_idle_thread sym).
Proof.
  intros Hup Hlen Hf. pose proof Hup as [Hinv Hc Hs _]. destruct (thread_init_correct (k_thr s) ents (TID_TO_GLOBALID THREAD_IDLE) NULL Hinv Hlen) as
    (q & x1 & r & old & E & Hn & Hfresh & Hpl & Hi & Hq & Hoth & Hc1 & _ & Hw & Hk & Hu); [done|].
  set (x2 := set_systhreads q (kernel x1) (root x1) x1). set (t0 := fresh_tcb (TID_TO_GLOBALID THREAD_IDLE) NULL old) in *.
  set (t1 := with_ctx (system_ctx (idle_stack_end sym) (t_ctx t0)) t0). assert (Hf2 : forall r, 0 <= r < 8 -> is_Some (words x2 !! reg_addr (idle_stack_end sym -w RESERVED_STACK) r)) by (cbn; by rewrite Hw).
  pose proof (system_init_ctx_ok (idle_stack_end sym) (sym_idle_thread sym) q t0 x2 Hq eq_refl Hf2) as E2. set (x3 := set_words _ _) in E2.
  eexists q, _, r, (with_state T_RUNNABLE t1). split.
  { unfold create_idle_thread. rewrite (bind_Done _ _ _ _ _ (thr_Done _ _ _ _ E)). rewrite (bind_Done _ _ _ _ _ (thr_Done (modify (fun s => set_systhreads q (kernel s) (root s) s)) (set_thr x1 s) tt x2 eq_refl)).
    rewrite (bind_Done _ _ _ _ _ (thr_Done _ (set_thr x2 (set_thr x1 s)) _ _ E2)). exact (finish_thread 5 q (set_thr x3 (set_thr x2 (set_thr x1 s))) t1 ltac:(cbn; lia) (lookup_insert_eq _ _ _)). }
  split; [done|]. split; [done|]. split; [|split; [|split; [|split; [|split; [|split]]]]].
  - eapply (up_add s _ ents r q _ x1 t0 (with_state T_RUNNABLE t1)); try done; [by cbn; rewrite insert_insert_eq|exact (eq_trans Hc1 Hc)|exact (eq_trans (length_dispatch 5 q (k_sched s)) Hs)].
  - done.
  - done.
  - split; [done|by repeat split| |].
    + intros a Ha. apply (write_frame_is_Some (idle_stack_end sym -w RESERVED_STACK) (start_frame 0 0 (sym_idle_thread sym)) 0 (words x1)). by rewrite Hw.
    + intros a Ha. cbn. by rewrite Hu.
  - cbn. apply lookup_insert_eq.
  - done.
  - exact (write_frame_at (idle_stack_end sym -w RESERVED_STACK) (start_frame 0 0 (sym_idle_thread sym)) 0 6 _ (words x1) eq_refl ltac:(lia) ltac:(cbn; lia)).
Qed.

Lemma create_kernel_ok s ents : up s ents -> (length ents < Z.to_nat CONFIG_MAX_THREADS)%nat ->
  exists q s' r t, create_kernel_thread sym s = Done (tt, s') /\ (q ∉ ents.*1) /\ q <> NULL /\ place ents.*2 THREAD_KERNEL r /\ up s' (insert_at r (q, THREAD_KERNEL) ents) /\
    k_sched s' = dispatch_at 0 q (k_sched s) /\ k_mem s' = k_mem s /\ kept s s' /\ tcbs (k_thr s') !! q = Some t /\ t_ctx t = system_ctx (kernel_stack_end sym) (t_ctx t) /\
    kernel (k_thr s') = q /\ k_cpu s' = k_cpu s /\ words (k_thr s') = words (k_thr s) /\ (forall p, p <> q -> tcbs (k_thr s') !! p = tcbs (k_thr s) !! p).
Proof.
  intros Hup Hlen. pose proof Hup as [Hinv Hc Hs _]. destruct (thread_init_correct (k_thr s) ents (TID_TO_GLOBALID THREAD_KERNEL) NULL Hinv Hlen) as
    (q & x1 & r & old & E & Hn & Hfresh & Hpl & Hi & Hq & Hoth & Hc1 & _ & Hw & Hk & Hu); [done|].
  set (x2 := set_systhreads (idle x1) q (root x1) x1). set (t0 := fresh_tcb (TID_TO_GLOBALID THREAD_KERNEL) NULL old) in *.
  set (t1 := with_ctx (system_ctx (kernel_stack_end sym) (t_ctx t0)) t0). set (x3 := set_tcbs (<[q := t1]> (tcbs x2)) x2).
  assert (E2 : thread_init_kernel_ctx (kernel_stack_end sym) q x2 = Done (tt, x3)).
  { unfold thread_init_kernel_ctx. rewrite (bind_Done _ _ _ _ _ (upd_tcb_ok q _ x2 t0 Hq)). rewrite (upd_tcb_ok _ _ _ (with_ctx (with_sp (kernel_stack_end sym -w RESERVED_STACK) (t_ctx t0)) t0)) by (apply lookup_insert_eq).
    unfold x3. cbn [tcbs set_tcbs]. by rewrite insert_insert_eq. }
  eexists q, _, r, (with_state T_RUNNABLE t1). split.
  { unfold create_kernel_thread. rewrite (bind_Done _ _ _ _ _ (thr_Done _ _ _ _ E)).
    rewrite (bind_Done _ _ _ _ _ (thr_Done (modify (fun s => set_systhreads (idle s) q (root s) s)) (set_thr x1 s) tt x2 eq_refl)).
    rewrite (bind_Done _ _ _ _ _ (thr_Done _ (set_thr x2 (set_thr x1 s)) _ _ E2)). exact (finish_thread 0 q (set_thr x3 (set_thr x2 (set_thr x1 s))) t1 ltac:(cbn; lia) (lookup_insert_eq _ _ _)). }
  split; [done|]. split; [done|]. split; [done|]. split; [|split; [done|split; [done|split; [|split; [|split; [done|split; [done|split; [done|split; [done|]]]]]]]]].
  - eapply (up_add s _ ents r q _ x1 t0 (with_state T_RUNNABLE t1)); try done; [by cbn; rewrite insert_insert_eq|exact (eq_trans Hc1 Hc)|exact (eq_trans (length_dispatch 0 q (k_sched s)) Hs)].
  - split; [done|by repeat split|cbn; by rewrite Hw|cbn; by rewrite Hu].
  - cbn. apply lookup_insert_eq.
  - intros p Hp. cbn. rewrite !lookup_insert_ne by done. by apply Hoth.
Qed.

(** The work of [create_root_thread] on memory: the space of the root thread with the pages of
    the users. *)
Definition root_setup (kip_page extra_page : Z) : M memstate Z :=
  a ← as_create (TID_TO_GLOBALID THREAD_ROOT);
  map_fpage NULL a kip_page GRANT;;
  map_fpage NULL a extra_page GRANT;;
  map_area a a (root_utcb sym) UTCB_SIZE GRANT true;;
  as_map_user a;;
  mret a.

(** [thread_space] for the first thread with a space, when no thread has made a call. *)
Lemma first_space_ok s q tq utcb a m1 m2 m3 m4 r1 r2 r3 : caller (k_thr s) = NULL -> tcbs (k_thr s) !! q = Some tq -> as_create (t_globalid tq) (k_mem s) = Done (a, m1) ->
  map_fpage NULL a (kip_fpage s) GRANT m1 = Done (r1, m2) -> map_fpage NULL a (kip_extra_fpage s) GRANT m2 = Done (r2, m3) -> map_area a a utcb UTCB_SIZE GRANT true m3 = Done (r3, m4) ->
  thread_space q (t_globalid tq) utcb s = Done (tt, set_mem m4 (set_thr (set_tcbs (<[q := with_as a tq]> (tcbs (k_thr s))) (k_thr s)) s)).
Proof.
  intros Hc Hq E1 E2 E3 E4. unfold thread_space. rewrite (thr_bind _ _ _ tq) by (by apply get_tcb_ok). rewrite Z.eqb_refl.
  set (s1 := set_mem m1 (set_thr (set_tcbs (<[q := with_as a tq]> (tcbs (k_thr s))) (k_thr s)) s)).
  match goal with |- (_ ← ?b; _) s = _ => assert (Eb : b s = Done (tt, set_mem m3 s1)) end.
  { rewrite (bind_Done _ _ _ _ _ (mem_Done _ s _ _ E1)). rewrite (bind_Done _ _ _ _ _ (thr_Done (upd_tcb q (with_as a)) (set_mem m1 s) _ _ (upd_tcb_ok _ _ _ _ Hq))).
    change (set_thr _ (set_mem m1 s)) with s1. rewrite (bind_Done (gets kip_fpage) _ s1 _ _ eq_refl). rewrite (bind_Done _ _ _ _ _ (mem_Done _ s1 _ _ E2)).
    set (s2 := set_mem m2 s1). rewrite (bind_Done (gets kip_extra_fpage) _ s2 _ _ eq_refl). by rewrite (bind_Done _ _ _ _ _ (mem_Done _ s2 _ _ E3)). }
  rewrite (bind_Done _ _ _ _ _ Eb). set (s3 := set_mem m3 s1). rewrite (thr_bind _ _ s3 NULL) by (by rewrite <- Hc).
  rewrite (thr_bind _ _ s3 (with_as a tq)) by (apply get_tcb_ok, lookup_insert_eq). cbn [negb Z.eqb NULL]. by rewrite (bind_Done _ _ _ _ _ (mem_Done _ s3 _ _ E4)).
Qed.

Lemma create_root_ok s ents a m : up s ents -> (length ents < Z.to_nat CONFIG_MAX_THREADS)%nat -> frame_at s (root_stack_end sym) ->
  is_Some (utcbs (k_thr s) !! root_utcb sym) -> root_setup (kip_fpage s) (kip_extra_fpage s) (k_mem s) = Done (a, m) ->
  exists q s' r t, create_root_thread sym s = Done (tt, s') /\ (q ∉ ents.*1) /\ q <> NULL /\ place ents.*2 THREAD_ROOT r /\ up s' (insert_at r (q, THREAD_ROOT) ents) /\
    k_sched s' = dispatch_at 2 q (k_sched s) /\ k_mem s' = m /\ kept s s' /\ tcbs (k_thr s') !! q = Some t /\ t_ctx t = started_ctx (root_stack_end sym) (t_ctx t) /\ t_as t = a /\
    t_stack_base t = root_stack_start sym /\ t_utcb t = root_utcb sym /\
    words (k_thr s') !! reg_addr (c_sp (t_ctx t)) REG_PC = Some (sym_root_thread sym) /\ words (k_thr s') !! reg_addr (c_sp (t_ctx t)) REG_R0 = Some (kip_addr (k_thr s)) /\
    (forall p, p <> q -> tcbs (k_thr s') !! p = tcbs (k_thr s) !! p).
Proof.
  intros Hup Hlen Hf Hub Hset. pose proof Hup as [Hinv Hc Hs _]. destruct (thread_init_correct (k_thr s) ents (TID_TO_GLOBALID THREAD_ROOT) (root_utcb sym) Hinv Hlen) as
    (q & x1 & r & old & E & Hn & Hfresh & Hpl & Hi & Hq & Hoth & Hc1 & _ & Hw & Hk & Hu); [done|].
  apply bind_inv in Hset as (a' & m1 & M1 & Hset). apply bind_inv in Hset as (r1 & m2 & M2 & Hset). apply bind_inv in Hset as (r2 & m3 & M3 & Hset).
  apply bind_inv in Hset as (r3 & m4 & M4 & Hset). apply bind_inv in Hset as ([] & m5 & M5 & Hset). injection Hset as -> ->.
  set (t0 := fresh_tcb (TID_TO_GLOBALID THREAD_ROOT) (root_utcb sym) old) in *. set (x2 := set_systhreads (idle x1) (kernel x1) q x1).
  set (t1 := with_as a t0). set (x3 := set_tcbs (<[q := t1]> (tcbs x2)) x2). set (s2 := set_thr x2 (set_thr x1 s)). set (s3 := set_mem m (set_thr x3 s2)).
  set (t2 := with_ctx (started_ctx (root_stack_end sym) (t_ctx t1)) t1). assert (Hq3 : tcbs x3 !! q = Some t1) by apply lookup_insert_eq.
  pose proof (first_space_ok s2 q t0 (root_utcb sym) a m1 m2 m3 m4 r1 r2 r3 (eq_trans Hc1 Hc) Hq M1 M2 M3 M4) as Esp. change (t_globalid t0) with (TID_TO_GLOBALID THREAD_ROOT) in Esp.
  assert (Hf3 : forall r, 0 <= r < 8 -> is_Some (words (k_thr s3) !! reg_addr (root_stack_end sym -w RESERVED_STACK) r)) by (cbn; by rewrite Hw).
  pose proof (thread_init_ctx_ok (root_stack_end sym) (sym_root_thread sym) q t1 (k_thr s3) Hq3 ltac:(done) Hf3) as E4. set (x4 := set_words _ _) in E4.
  set (t3 := with_stack (root_stack_start sym) (root_stack_end sym -w root_stack_start sym) t2). set (x5 := set_tcbs (<[q := t3]> (tcbs x4)) x4).
  eexists q, _, r, (with_state T_RUNNABLE t3). split.
  { unfold create_root_thread. rewrite (bind_Done _ _ _ _ _ (thr_Done _ _ _ _ E)).
    rewrite (bind_Done _ _ _ _ _ (thr_Done (modify (fun s => set_systhreads (idle s) (kernel s) q s)) (set_thr x1 s) tt x2 eq_refl)). fold s2.
    rewrite (bind_Done _ _ _ _ _ Esp). change (set_mem m4 _) with (set_mem m4 (set_thr x3 s2)). rewrite (thr_bind _ _ _ t1) by (by apply get_tcb_ok).
    rewrite (bind_Done _ _ _ _ _ (mem_Done (as_map_user a) (set_mem m4 (set_thr x3 s2)) _ m M5)).
    change (set_mem m _) with s3. rewrite (bind_Done _ _ _ _ _ (thr_Done _ s3 _ _ E4)).
    rewrite (bind_Done _ _ _ _ _ (thr_Done _ (set_thr x4 s3) _ _ (upd_tcb_ok q _ x4 t2 (lookup_insert_eq _ _ _)))). exact (finish_thread 2 q (set_thr x5 (set_thr x4 s3)) t3 ltac:(cbn; lia) (lookup_insert_eq _ _ _)). }
  set (fr := start_frame (kip_addr x1) (root_utcb sym) (sym_root_thread sym)).
  split; [done|]. split; [done|]. split; [done|]. split; [|split; [done|split; [done|split; [|split; [|split; [done|split; [done|split; [done|split; [done|split; [|split]]]]]]]]]].
  - eapply (up_add s _ ents r q _ x1 t0 (with_state T_RUNNABLE t3)); try done; [by cbn; rewrite !insert_insert_eq|exact (eq_trans Hc1 Hc)|exact (eq_trans (length_dispatch 2 q (k_sched s)) Hs)].
  - split; [done|by repeat split| |].
    + intros b Hb. apply (write_frame_is_Some (root_stack_end sym -w RESERVED_STACK) fr 0 (words x1)). by rewrite Hw.
    + intros b Hb. cbn. rewrite Hu. destruct (root_utcb sym =? NULL); [done|]. rewrite lookup_alter. by case_decide; [subst; destruct Hb as [? ->]; eexists|].
  - cbn. apply lookup_insert_eq.
  - exact (write_frame_at (root_stack_end sym -w RESERVED_STACK) fr 0 6 _ (words x1) eq_refl ltac:(lia) ltac:(cbn; lia)).
  - rewrite <- Hk. exact (write_frame_at (root_stack_end sym -w RESERVED_STACK) fr 0 0 _ (words x1) eq_refl ltac:(lia) ltac:(cbn; lia)).
  - intros p Hp. cbn. rewrite !lookup_insert_ne by done. by apply Hoth.
Qed.
End start.

(** ** [main] *)

(** The state of the start: the kernel, [last_level], the interrupt controller, and whether
    interrupts are masked. *)
Record bootstate := mk_boot { b_k : kstate; b_init : init_state; b_nvic : nvic; b_masked : bool }.

#[global] Instance boot_k : Part kstate bootstate := {| get_part := b_k; put_part x s := mk_boot x (b_init s) (b_nvic s) (b_masked s) |}.
#[global] Instance boot_init : Part init_state bootstate := {| get_part := b_init; put_part x s := mk_boot (b_k s) x (b_nvic s) (b_masked s) |}.
#[global] Instance boot_nvic : Part nvic bootstate := {| get_part := b_nvic; put_part x s := mk_boot (b_k s) (b_init s) x (b_masked s) |}.
#[global] Instance boot_init_laws : PartLaws init_state bootstate.
Proof. by split; intros; repeat match goal with s : bootstate |- _ => destruct s end. Qed.

Definition irq_disable : M bootstate unit := modify (fun s => mk_boot (b_k s) (b_init s) (b_nvic s) true).
Definition irq_enable : M bootstate unit := modify (fun s => mk_boot (b_k s) (b_init s) (b_nvic s) false).

Section main.
Variable sym : symbols.
(** The table of hooks and their code. *)
Variable table : list init_struct.
Variable call : Z -> M bootstate unit.
(** The address of [kernel_thread]. *)
Variable kernel_thread : Z.

(** [main] up to the creation of the threads, without the banner. *)
Definition start_hooks : M bootstate unit :=
  run_init_hook call table INIT_LEVEL_PLATFORM_EARLY;;
  on irq_init;;
  irq_disable;;
  run_init_hook call table INIT_LEVEL_PLATFORM;;
  run_init_hook call table INIT_LEVEL_KERNEL_EARLY;;
  run_init_hook call table INIT_LEVEL_KERNEL;;
  mret tt.

(** [main] up to the switch to the kernel thread. *)
Definition prepare_kernel : M bootstate unit :=
  start_hooks;;
  on (main_start sym);;
  run_init_hook call table INIT_LEVEL_LAST;;
  mret tt.

(** [init_ctx_switch]: the stack pointer is loaded, interrupts are enabled, and the processor goes on at the address
    [pc], which is the result. *)
Definition init_ctx_switch (pc : Z) : M bootstate Z :=
  on load_kernel_stack;;
  irq_enable;;
  mret pc.

Definition switch_to_kernel : M bootstate Z :=
  on (make_kernel_current sym);;
  init_ctx_switch kernel_thread.

(** [main] does not return; the result is the address at which it is left. *)
Definition kernel_main : M bootstate Z :=
  prepare_kernel;;
  switch_to_kernel.
End main.

(** When no hook is above the last level, nothing is called. *)
Lemma no_hooks_left call table l (b : bootstate) : Forall (fun h => level h <= last_level (b_init b)) table -> run_init_hook call table l b = Done (last_level (b_init b), b).
Proof.
  intros Hf. unfold run_init_hook. rewrite (bind_Done (on (gets last_level)) _ b (last_level (b_init b)) b) by (by destruct b).
  assert (E : forall m, hook_loop call table l m b = Done (m, b)).
  { intros m. induction Hf as [|h table Hh _ IH]; cbn [hook_loop]; [done|]. rewrite (bind_Done (on (gets last_level)) _ b (last_level (b_init b)) b) by (by destruct b).
    destruct (Z.gtb_spec (level h) (last_level (b_init b))); [lia|]. exact IH. }
  rewrite (bind_Done _ _ _ _ _ (E _)). by destruct b as [? [] ? ?].
Qed.

(** The hooks leave the mask of the interrupts as it is. *)
Definition keeps_mask (call : Z -> M bootstate unit) : Prop := forall h b b', call h b = Done (tt, b') -> b_masked b' = b_masked b.

Lemma run_init_hook_mask call table l b x b' : keeps_mask call -> run_init_hook call table l b = Done (x, b') -> b_masked b' = b_masked b.
Proof.
  intros Hk E. unfold run_init_hook in E. apply bind_inv in E as (last & b1 & E1 & E). injection E1 as _ <-. apply bind_inv in E as (mx & b2 & E2 & E).
  assert (H2 : b_masked b2 = b_masked b).
  { clear E. cut (forall b0, b_masked b0 = b_masked b -> hook_loop call table l last b0 = Done (mx, b2) -> b_masked b2 = b_masked b).
    { intros H. eapply H; [|exact E2]. by destruct b. }
    clear E2. generalize last. induction table as [|h table IH]; intros lst b0 Hb E; cbn [hook_loop] in E; [by injection E as _ <-|].
    apply bind_inv in E as (ll & b1 & E1 & E). injection E1 as _ <-. destruct (_ && _).
    - apply bind_inv in E as ([] & b3 & E3 & E). eapply IH; [|exact E]. rewrite (Hk _ _ _ E3). by destruct b0.
    - eapply IH; [|exact E]. by destruct b0. }
  rewrite <- H2. apply bind_inv in E as ([] & b3 & E3 & E). injection E as _ <-. injection E3 as <-. by destruct b2.
Qed.

(** The hooks of the last part of the start run with the interrupts masked. *)
Lemma start_hooks_masked table call b b1 : keeps_mask call -> start_hooks table call b = Done (tt, b1) -> b_masked b1 = true.
Proof.
  intros Hk E. unfold start_hooks in E. apply bind_inv in E as (x1 & c1 & _ & E). apply bind_inv in E as (x2 & c2 & _ & E). apply bind_inv in E as (x3 & c3 & E3 & E).
  apply bind_inv in E as (x4 & c4 & E4 & E). apply bind_inv in E as (x5 & c5 & E5 & E). apply bind_inv in E as (x6 & c6 & E6 & E). injection E as <-.
  rewrite (run_init_hook_mask _ _ _ _ _ _ Hk E6), (run_init_hook_mask _ _ _ _ _ _ Hk E5), (run_init_hook_mask _ _ _ _ _ _ Hk E4). by injection E3 as _ <-.
Qed.

(** ** The scheduler after the start *)

Lemma select_slot call_handler n i sl t (s : kstate) : k_sched s !! i = Some sl -> ss_scheduled sl <> NULL -> tcbs (k_thr s) !! ss_scheduled sl = Some t -> t_state t = T_RUNNABLE ->
  schedule_loop call_handler (S n) (Z.of_nat i) s = Done (ss_scheduled sl, s).
Proof.
  intros Hi Hn Ht Hs. cbn [schedule_loop]. rewrite (bind_Done (on (get_slot (Z.of_nat i))) _ s sl s) by (apply on_get; [apply _|]; by apply get_slot_ok).
  rewrite (proj2 (Z.eqb_neq _ _) Hn). cbn [negb]. rewrite (bind_Done (on (thread_isrunnable (ss_scheduled sl))) _ s true s); [done|].
  apply on_get; [apply _|]. unfold thread_isrunnable. rewrite (bind_Done _ _ _ _ _ (get_tcb_ok _ _ _ Ht)). unfold isrunnable. by rewrite bool_decide_true.
Qed.

(** A slot without a thread that can run, and without a handler. *)
Lemma skip_slot call_handler n i sl (s : kstate) : k_sched s !! i = Some sl -> ss_scheduled sl = NULL \/ (exists t, tcbs (k_thr s) !! ss_scheduled sl = Some t /\ t_state t <> T_RUNNABLE) ->
  ss_handler sl = NULL -> schedule_loop call_handler (S n) (Z.of_nat i) s = schedule_loop call_handler n (Z.of_nat (S i)) s.
Proof.
  intros Hi Ht Hh. cbn [schedule_loop]. rewrite (bind_Done (on (get_slot (Z.of_nat i))) _ s sl s) by (apply on_get; [apply _|]; by apply get_slot_ok).
  match goal with |- (_ ← ?m; _) s = _ => assert (E : m s = Done (false, s)) end.
  { destruct (Z.eqb_spec (ss_scheduled sl) NULL) as [_|Hn]; cbn [negb]; [done|]. destruct Ht as [|(t & Ht & Hs)]; [done|]. apply on_get; [apply _|].
    unfold thread_isrunnable. rewrite (bind_Done _ _ _ _ _ (get_tcb_ok _ _ _ Ht)). unfold isrunnable. by rewrite bool_decide_false. }
  rewrite (bind_Done _ _ _ _ _ E), Hh. cbn [negb Z.eqb NULL]. by replace (Z.of_nat i + 1) with (Z.of_nat (S i)) by lia.
Qed.

Lemma place_end ts t r : place ts t r -> Forall (fun x => x < t) ts -> r = length ts.
Proof.
  intros (Hr & _ & Ha & _) Hf. destruct (decide (r = length ts)) as [|Hn]; [done|]. exfalso. destruct (lookup_lt_is_Some_2 ts r ltac:(lia)) as [x Hx].
  pose proof (Ha r x ltac:(lia) Hx). rewrite Forall_lookup in Hf. specialize (Hf r x Hx). lia.
Qed.

Lemma place_before ts us t r : place (ts ++ us) t r -> Forall (fun x => x < t) ts -> Forall (fun x => t < x) us -> r = length ts.
Proof.
  intros (Hr & Hb & Ha & _) Hf Hg. rewrite Forall_lookup in Hf, Hg. rewrite length_app in Hr. destruct (Nat.lt_trichotomy r (length ts)) as [H|[H|H]]; [|done|]; exfalso.
  - destruct (lookup_lt_is_Some_2 ts r H) as [x Hx]. pose proof (Ha r x ltac:(lia) ltac:(by apply lookup_app_l_Some)). specialize (Hf r x Hx). lia.
  - destruct us as [|y us]; [cbn in Hr; lia|]. pose proof (Hb (length ts) y H ltac:(rewrite lookup_app_r, Nat.sub_diag by lia; done)). specialize (Hg 0%nat y eq_refl). lia.
Qed.

(** The slots after the start: the handler of the normal threads, and the system threads. *)
Definition started_slots (sym : symbols) (i k r : Z) : list sched_slot :=
  [mk_slot k NULL; mk_slot NULL NULL; mk_slot r NULL; mk_slot NULL NULL; mk_slot NULL (sym_thread_sched sym); mk_slot i NULL].

(** The thread [q] with the states [f] makes of it. *)
Definition in_state (st : thread_state_t) (q : Z) (t : tcb) (s : kstate) : kstate := set_thr (set_tcbs (<[q := with_state st t]> (tcbs (k_thr s))) (k_thr s)) s.

(** ** Properties *)

Lemma system_threads_start (sym : symbols) (s : kstate) (a : Z) (m : memstate) (re : Z) (tm : ktimerstate)
    (Hup : up s []) (Hidle : frame_at s (idle_stack_end sym)) (Hroot : frame_at s (root_stack_end sym)) (Hub : is_Some (utcbs (k_thr s) !! root_utcb sym))
    (Hslots : k_sched s = started_slots sym NULL NULL NULL)
    (Hset : root_setup (sym := sym) (kip_fpage s) (kip_extra_fpage s) (k_mem s) = Done (a, m))
    (Htm : ktimer_event_create 64 (sym_ipc_deliver sym) NULL (k_timer s) = Done (re, tm)) :
  exists s' i k r tr tk, (main_start sym;; make_kernel_current sym;; load_kernel_stack) s = Done (tt, s') /\
    up s' [(i, THREAD_IDLE); (k, THREAD_KERNEL); (r, THREAD_ROOT)] /\ k_sched s' = started_slots sym i k r /\ current (k_thr s') = k /\
    tcbs (k_thr s') !! r = Some tr /\ t_as tr = a /\ c_sp (t_ctx tr) = root_stack_end sym -w RESERVED_STACK /\
    words (k_thr s') !! reg_addr (c_sp (t_ctx tr)) REG_PC = Some (sym_root_thread sym) /\ words (k_thr s') !! reg_addr (c_sp (t_ctx tr)) REG_R0 = Some (kip_addr (k_thr s)) /\
    tcbs (k_thr s') !! k = Some tk /\ cpu_msp (k_cpu s') = kernel_stack_end sym -w RESERVED_STACK /\
    schedule_select (call_slot sym) s' = Done (k, s') /\
    schedule_select (call_slot sym) (in_state T_INACTIVE k tk s') = Done (r, in_state T_INACTIVE k tk s').
Proof.
  destruct (create_idle_ok (sym := sym) s [] Hup ltac:(apply Nat.ltb_lt; reflexivity) Hidle) as (i & s1 & r1 & ti & E1 & _ & P1 & U1 & S1 & M1 & [K1t (K1f & K1e & K1k) K1w K1u] & _).
  assert (r1 = 0%nat) as -> by (by eapply place_end in P1). change (insert_at 0 (i, THREAD_IDLE) []) with [(i, THREAD_IDLE)] in U1.
  destruct (create_root_ok (sym := sym) s1 _ a m U1 ltac:(apply Nat.ltb_lt; reflexivity) ltac:(intros j Hj; apply K1w, Hroot, Hj) (K1u _ Hub) ltac:(by rewrite K1f, K1e, M1))
    as (r & s2 & r2 & tr & E2 & N2 & Nr & P2 & U2 & S2 & M2 & [K2t (K2f & K2e & K2k) K2w K2u] & Htr & Hctx & Has & _ & _ & Wpc & W0 & O2).
  assert (r2 = 1%nat) as -> by (eapply place_end in P2; [done|]; by repeat constructor). change (insert_at 1 (r, THREAD_ROOT) [(i, THREAD_IDLE)]) with [(i, THREAD_IDLE); (r, THREAD_ROOT)] in U2.
  set (s3 := set_timer tm s2). set (s4 := set_mem (set_mpu (mk_mpu (mpu_regions (mpu m)) (mpu_rnr (mpu m)) (Z.lor (b2z true) MPU_PRIVDEFENA)) m) s3).
  assert (Em : main_start sym s = Done (tt, s4)).
  { unfold main_start. rewrite (bind_Done _ _ _ _ _ E1), (bind_Done _ _ _ _ _ E2). rewrite (bind_Done _ _ _ re s3) by (refine (on_Done (ktimer_event_create 64 (sym_ipc_deliver sym) NULL) s2 re tm _); cbn; by rewrite K2t, K1t).
    refine (eq_trans (mem_Done (mpu_enable true) s3 _ _ eq_refl) _). unfold s4. cbn [k_mem s3]. change (k_mem s3) with (k_mem s2). by rewrite M2. }
  assert (U4 : up s4 [(i, THREAD_IDLE); (r, THREAD_ROOT)]) by (destruct U2; by split).
  destruct (create_kernel_ok (sym := sym) s4 _ U4 ltac:(apply Nat.ltb_lt; reflexivity)) as (k & s5 & r3 & tk & E5 & N5 & Nk & P5 & U5 & S5 & _ & _ & Htk & Hck & Kk & _ & W5 & O5).
  assert (r3 = 1%nat) as -> by (refine (place_before [THREAD_IDLE] [THREAD_ROOT] _ _ P5 _ _); by repeat constructor).
  change (insert_at 1 (k, THREAD_KERNEL) _) with [(i, THREAD_IDLE); (k, THREAD_KERNEL); (r, THREAD_ROOT)] in U5.
  set (s6 := set_thr (set_current k (current_utcb (k_thr s5)) (k_thr s5)) s5). set (c := k_cpu s6).
  exists (set_cpu (mk_cpu (cpu_regs c) (c_sp (t_ctx tk)) (cpu_psp c) (cpu_lr c) (cpu_control c)) s6), i, k, r, tr, tk. split.
  { rewrite (bind_Done _ _ _ _ _ Em). rewrite (bind_Done _ _ _ tt s6).
    - unfold load_kernel_stack. rewrite (thr_bind _ _ s6 k) by (by rewrite <- Kk). rewrite (thr_bind _ _ s6 tk) by (by apply get_tcb_ok). done.
    - unfold make_kernel_current. rewrite (bind_Done _ _ _ _ _ E5), (thr_bind _ _ _ k) by (by rewrite <- Kk).
      exact (thr_Done (modify (fun s => set_current k (current_utcb s) s)) s5 tt _ eq_refl). }
  assert (Hrk : r <> k) by (intros ->; apply N5; right; left). assert (Hr5 : tcbs (k_thr s5) !! r = Some tr) by (rewrite O5 by done; exact Htr).
  assert (Es : k_sched s5 = started_slots sym i k r) by (rewrite S5; change (k_sched s4) with (k_sched s2); by rewrite S2, S1, Hslots).
  pose proof U5 as [I5 C5 L5 R5]. split; [split; [by apply (thr_inv_core (k_thr s5))|done|exact L5|exact R5]|]. split; [exact Es|]. split; [done|]. split; [exact Hr5|]. split; [done|].
  split; [by rewrite Hctx|]. split; [exact (eq_trans (f_equal (lookup _) W5) Wpc)|]. split; [exact (eq_trans (eq_trans (f_equal (lookup _) W5) W0) (f_equal Some K1k))|]. split; [exact Htk|]. split; [cbn; by rewrite Hck|]. unfold schedule_select. split.
  - apply (select_slot _ 5 0 (mk_slot k NULL) tk); [exact (f_equal (lookup 0%nat) Es)|done|exact Htk|]. apply (R5 k); [right; left|exact Htk].
  - set (s7 := in_state _ _ _ _). assert (Es7 : k_sched s7 = started_slots sym i k r) by exact Es.
    assert (Hk7 : tcbs (k_thr s7) !! k = Some (with_state T_INACTIVE tk)) by apply lookup_insert_eq. change (Z.to_nat NUM_SCHED_SLOTS) with 6%nat.
    rewrite (skip_slot _ 5 0 (mk_slot k NULL) s7), (skip_slot _ 4 1 (mk_slot NULL NULL) s7).
    + apply (select_slot _ 3 2 (mk_slot r NULL) tr); [by rewrite Es7|done|cbn; by rewrite lookup_insert_ne|]. apply (R5 r); [right; right; left|exact Hr5].
    + by rewrite Es7.
    + by left.
    + done.
    + by rewrite Es7.
    + right. by exists (with_state T_INACTIVE tk).
    + done.
Qed.

(** ** Properties *)

(** C9. The start of the kernel, when the hooks up to the level of the kernel return and leave the mask of the interrupts alone, no
    hook has the last level, the frames of the stacks are in memory, and the work on memory for
    the space of the root thread ([root_setup]) and the creation of the first timer event return.  Interrupts are masked
    from the hooks of the platform until [main] switches to the kernel thread; then they are enabled, and [main] is left at the code of the kernel
    thread, with its stack pointer.  The three system threads are
    the threads of the dispatcher, in the order of their numbers, all of them can run and each
    is in its slot; the root thread is in the space that was set up for it and its frame leads
    to its code with the kernel interface page as argument; the scheduler selects the kernel thread, and
    the root thread when the kernel thread does not run. *)
Theorem kernel_starts (sym : symbols) (table : list init_struct) (call : Z -> M bootstate unit) (kernel_thread : Z) (b b1 : bootstate) (a : Z) (m : memstate) (re : Z) (tm : ktimerstate)
    (Hhooks : start_hooks table call b = Done (tt, b1)) (Hmask : keeps_mask call) (Hlast : Forall (fun h => level h <= last_level (b_init b1)) table)
    (Hup : up (b_k b1) []) (Hidle : frame_at (b_k b1) (idle_stack_end sym)) (Hroot : frame_at (b_k b1) (root_stack_end sym)) (Hub : is_Some (utcbs (k_thr (b_k b1)) !! root_utcb sym))
    (Hslots : k_sched (b_k b1) = started_slots sym NULL NULL NULL)
    (Hset : root_setup (sym := sym) (kip_fpage (b_k b1)) (kip_extra_fpage (b_k b1)) (k_mem (b_k b1)) = Done (a, m))
    (Htm : ktimer_event_create 64 (sym_ipc_deliver sym) NULL (k_timer (b_k b1)) = Done (re, tm)) :
  exists b2 s' i k r tr tk,
    b_masked b1 = true /\ prepare_kernel sym table call b = Done (tt, b2) /\ b_masked b2 = true /\
    kernel_main sym table call kernel_thread b = Done (kernel_thread, mk_boot s' (b_init b1) (b_nvic b1) false) /\
    up s' [(i, THREAD_IDLE); (k, THREAD_KERNEL); (r, THREAD_ROOT)] /\ k_sched s' = started_slots sym i k r /\ current (k_thr s') = k /\
    tcbs (k_thr s') !! r = Some tr /\ t_as tr = a /\ c_sp (t_ctx tr) = root_stack_end sym -w RESERVED_STACK /\
    words (k_thr s') !! reg_addr (c_sp (t_ctx tr)) REG_PC = Some (sym_root_thread sym) /\ words (k_thr s') !! reg_addr (c_sp (t_ctx tr)) REG_R0 = Some (kip_addr (k_thr (b_k b1))) /\
    tcbs (k_thr s') !! k = Some tk /\ cpu_msp (k_cpu s') = kernel_stack_end sym -w RESERVED_STACK /\
    schedule_select (call_slot sym) s' = Done (k, s') /\
    schedule_select (call_slot sym) (in_state T_INACTIVE k tk s') = Done (r, in_state T_INACTIVE k tk s').
Proof.
  pose proof (start_hooks_masked _ _ _ _ Hmask Hhooks) as Hm1.
  destruct (system_threads_start sym (b_k b1) a m re tm Hup Hidle Hroot Hub Hslots Hset Htm) as (s' & i & k & r & tr & tk & E & H).
  apply bind_inv in E as ([] & s4 & Em & E). apply bind_inv in E as ([] & s5 & Ec & El).
  set (b4 := mk_boot s4 (b_init b1) (b_nvic b1) (b_masked b1)). exists b4, s', i, k, r, tr, tk. split; [done|].
  assert (Ep : prepare_kernel sym table call b = Done (tt, b4)).
  { unfold prepare_kernel. rewrite (bind_Done _ _ _ _ _ Hhooks), (bind_Done _ _ _ _ _ (on_Done (P := kstate) _ b1 _ _ Em)).
    change (put_part s4 b1) with b4. by rewrite (bind_Done _ _ _ _ _ (no_hooks_left call table INIT_LEVEL_LAST b4 Hlast)). }
  split; [exact Ep|]. split; [done|]. split; [|exact H]. unfold kernel_main. rewrite (bind_Done _ _ _ _ _ Ep). unfold switch_to_kernel.
  rewrite (bind_Done _ _ _ _ _ (on_Done (P := kstate) _ b4 _ _ Ec)). unfold init_ctx_switch. set (b5 := put_part s5 b4).
  by rewrite (bind_Done _ _ _ _ _ (on_Done (P := kstate) _ b5 _ _ El)).
Qed.

(** *** An example: the hooks of the kernel *)

Definition ex_start_hooks : list init_struct :=
  [mk_init INIT_LEVEL_KERNEL 1; mk_init INIT_LEVEL_KERNEL 2; mk_init INIT_LEVEL_KERNEL_EARLY 3; mk_init INIT_LEVEL_KERNEL_EARLY 4; mk_init INIT_LEVEL_KERNEL 5].
Definition ex_start_call (h : Z) : M bootstate unit :=
  if h =? 1 then on (thread_init_subsys ex_boot_symbols)
  else if h =? 2 then on (ktimer_event_init (S := kstate) (sym_ktimer_event_handler ex_boot_symbols))
  else if h =? 3 then on (sched sched_init)
  else if h =? 4 then on (mem (memory_init 0))
  else on (syscall_init ex_boot_symbols).
Definition ex_cold_thr : thrstate :=
  let x := ex_reset_thr in
  mk_thr (thread_table x) (tcbs x) (thread_map x) 0 (utcbs x) (list_to_map (ex_stack 0x20010300 ++ ex_stack 0x20010700)) 0 0 0 0 0 0 0x20000000.
Definition ex_cold : bootstate := mk_boot (set_thr ex_cold_thr ex_reset) (mk_last 0) sample_nvic false.
Definition ex_hooked : bootstate := run_or ex_cold (start_hooks ex_start_hooks ex_start_call) ex_cold.
Definition ex_root_mem : memstate := run_or (k_mem (b_k ex_hooked)) (root_setup (sym := ex_boot_symbols) (kip_fpage (b_k ex_hooked)) (kip_extra_fpage (b_k ex_hooked))) (k_mem (b_k ex_hooked)).
Definition ex_started_timer : ktimerstate := run_or ex_timer (ktimer_event_create 64 4 NULL) (k_timer (b_k ex_hooked)).

Lemma ex_cold_inv : thr_inv ex_cold_thr [].
Proof. pose proof (thr_inv_reset 4096 eq_refl eq_refl) as [[M1 M2 M3] H2 H3 H4 H5 H6]. split; [by split|exact H2|exact H3|exact H4|exact H5|exact H6]. Qed.

Lemma ex_hooked_up : up (b_k ex_hooked) [].
Proof.
  split; [|vm_compute; reflexivity|vm_compute; reflexivity|intros p t Hp; destruct (not_elem_of_nil p Hp)].
  apply (thr_inv_core ex_cold_thr); [exact ex_cold_inv|vm_compute; reflexivity..|].
  assert (E : tcbs (k_thr (b_k ex_hooked)) = tcbs ex_cold_thr) by (vm_compute; reflexivity). rewrite E. intros p. reflexivity.
Qed.

Lemma ex_start_call_mask : keeps_mask ex_start_call.
Proof.
  intros h b b' E. unfold ex_start_call in E.
  destruct (h =? 1); [|destruct (h =? 2); [|destruct (h =? 3); [|destruct (h =? 4)]]]; unfold on at 1, zoom at 1 in E;
    (match type of E with match ?x with _ => _ end = _ => destruct x as [[[] k]| | |]; [|done..] end); by injection E as <-.
Qed.

Lemma kernel_starts_witness : exists s' i k r, kernel_main ex_boot_symbols ex_start_hooks ex_start_call 0x08001000 ex_cold = Done (0x08001000, mk_boot s' (b_init ex_hooked) (b_nvic ex_hooked) false) /\
  up s' [(i, THREAD_IDLE); (k, THREAD_KERNEL); (r, THREAD_ROOT)] /\ schedule_select (call_slot ex_boot_symbols) s' = Done (k, s').
Proof.
  destruct (kernel_starts ex_boot_symbols ex_start_hooks ex_start_call 0x08001000 ex_cold ex_hooked 536879616 ex_root_mem 0 ex_started_timer) as (b2 & s' & i & k & r & tr & tk & _ & _ & _ & E & U & _ & _ & _ & _ & _ & _ & _ & _ & _ & Es & _).
  - vm_compute. reflexivity.
  - exact ex_start_call_mask.
  - apply (bool_decide_unpack _). vm_compute. exact I.
  - exact ex_hooked_up.
  - intros j Hj. assert (j = 0 \/ j = 1 \/ j = 2 \/ j = 3 \/ j = 4 \/ j = 5 \/ j = 6 \/ j = 7) as [->|[->|[->|[->|[->|[->|[->| ->]]]]]]] by lia; (eexists; vm_compute; reflexivity).
  - intros j Hj. assert (j = 0 \/ j = 1 \/ j = 2 \/ j = 3 \/ j = 4 \/ j = 5 \/ j = 6 \/ j = 7) as [->|[->|[->|[->|[->|[->|[->| ->]]]]]]] by lia; (eexists; vm_compute; reflexivity).
  - eexists. vm_compute. reflexivity.
  - vm_compute. reflexivity.
  - vm_compute. reflexivity.
  - vm_compute. reflexivity.
  - exact (ex_intro _ s' (ex_intro _ i (ex_intro _ k (ex_intro _ r (conj E (conj U Es)))))).
Defined.
