(* ===== verification/Entry.v ===== *)
(** * Exceptions: vectors, entry and the floating point context

    Models the table of vectors of [kernel/init.c], the entry of the debug exception of
    [platform/hw_debug.c], [irq_number], and the part of [irq_save] and [irq_restore] of
    [include/platform/irq.h] for the floating point unit ([CONFIG_FPU]). *)

From S2P Require Import Prelude Nvic.

(** ** [kernel/init.c] *)

Inductive vector :=
| kernel_stack_end
| __l4_start
| nmi_handler
| hard_fault_handler
| memmanage_handler
| busfault
| nointerrupt
| reserved
| svc_handler
| debugmon_handler
| pendsv_handler
| ktimer_handler.

(** The vectors of the processor; [kprobes] is [CONFIG_KPROBES].  The vectors of the devices,
    which follow, are included from a file of the chip. *)
Definition g_pfnVectors (kprobes : bool) : list vector :=
  [kernel_stack_end; __l4_start; nmi_handler; hard_fault_handler; memmanage_handler; busfault; nointerrupt; reserved; reserved; reserved; reserved;
   svc_handler; if kprobes then debugmon_handler else nointerrupt; reserved; pendsv_handler; ktimer_handler].

(** The vector of an exception is at its number, which is its interrupt number plus 16. *)
Definition vector_of (kprobes : bool) (IRQn : Z) : option vector := zlookup (g_pfnVectors kprobes) (IRQn + 16).

(** Each exception whose priority [irq_init] sets has its own handler. *)
Lemma vectors_of_exceptions kprobes : vector_of kprobes SVCall_IRQn = Some svc_handler /\ vector_of kprobes PendSV_IRQn = Some pendsv_handler /\
  vector_of kprobes SysTick_IRQn = Some ktimer_handler /\ vector_of kprobes MemoryManagement_IRQn = Some memmanage_handler /\
  vector_of true DebugMonitor_IRQn = Some debugmon_handler.
Proof. done. Qed.

(** ** [irq_number]

    [mov r0, %0] copies the variable to the register, not the register to the variable: the
    result is what the variable's register held. *)
Definition irq_number (ipsr irqno : Z) : Z :=
  let r0 := ipsr in
  let r0 := irqno in
  irqno.

(** ** The entry of the debug exception *)

Record frame := mk_frame {
  e_regs : list Z;  (* r4 to r11 *)
  e_lr : Z;
  e_msp : Z;
  e_psp : Z;
  e_stack : gmap Z Z;
}.

(** [push] of registers: the lowest at the lowest address. *)
Fixpoint store_words (a : Z) (ws : list Z) (m : gmap Z Z) : gmap Z Z :=
  match ws with [] => m | w :: ws => <[a := w]> (store_words (a + 4) ws m) end.
Fixpoint load_words (n : nat) (a : Z) (m : gmap Z Z) : option (list Z) :=
  match n with O => Some [] | S n => w ← m !! a; ws ← load_words n (a + 4) m; Some (w :: ws) end.

Section debugmon.
(** [arch_kprobe_handler] with its arguments; it leaves memory as it likes. *)
Variable handler : Z -> Z -> gmap Z Z -> gmap Z Z.

Definition debugmon_entry (f : frame) : option frame :=
  let r0 := if Z.land (e_lr f) 4 =? 0 then e_msp f else e_psp f in
  let sp := e_msp f - 32 in
  let m := store_words sp (e_regs f) (e_stack f) in
  let r1 := sp in
  let sp := sp - 4 in
  let m := <[sp := e_lr f]> m in
  let m := handler r0 r1 m in
  lr ← m !! sp;
  let sp := sp + 4 in
  regs ← load_words 8 sp m;
  Some (mk_frame regs lr (sp + 32) (e_psp f) m).
End debugmon.

Lemma load_store a ws m : load_words (length ws) a (store_words a ws m) = Some ws.
Proof.
  revert a. induction ws as [|w ws IH]; intros a; cbn; [done|]. rewrite lookup_insert_eq. cbn.
  assert (E : forall n b v x, a < b -> load_words n b (<[a := v]> x) = load_words n b x).
  { clear. induction n as [|n IH]; intros b v x H; cbn; [done|]. rewrite lookup_insert_ne by lia. by rewrite IH by lia. }
  by rewrite E, IH by lia.
Qed.

Lemma load_words_ext n a m m' : (forall b, a <= b < a + 4 * Z.of_nat n -> m' !! b = m !! b) -> load_words n a m' = load_words n a m.
Proof. revert a. induction n as [|n IH]; intros a H; cbn; [done|]. rewrite H by lia. rewrite IH; [done|]. intros b Hb. apply H. lia. Qed.

(** The handler is given the stack that was in use and the saved registers; when it returns, the
    registers r4 to r11 are what it left in those words, and the link register and the stack
    pointer are as before; it may not write the word below the saved registers. *)
Theorem debugmon_entry_returns (handler : Z -> Z -> gmap Z Z -> gmap Z Z) (f : frame) (regs : list Z)
    (Hlen : length (e_regs f) = 8%nat)
    (Hlr : forall r0 r1 m, handler r0 r1 m !! (r1 - 4) = m !! (r1 - 4))
    (Hregs : forall m, load_words 8 (e_msp f - 32) m = Some (e_regs f) ->
       load_words 8 (e_msp f - 32) (handler (if Z.testbit (e_lr f) 2 then e_psp f else e_msp f) (e_msp f - 32) m) = Some regs) :
  exists m, debugmon_entry handler f = Some (mk_frame regs (e_lr f) (e_msp f) (e_psp f) m).
Proof.
  unfold debugmon_entry. assert (E0 : (Z.land (e_lr f) 4 =? 0) = negb (Z.testbit (e_lr f) 2)) by exact (land_pow2_mask (e_lr f) 2 ltac:(lia)). rewrite E0.
  set (m1 := <[e_msp f - 32 - 4 := e_lr f]> (store_words (e_msp f - 32) (e_regs f) (e_stack f))).
  assert (H1 : load_words 8 (e_msp f - 32) m1 = Some (e_regs f)).
  { unfold m1. rewrite (load_words_ext _ _ (store_words (e_msp f - 32) (e_regs f) (e_stack f))); [rewrite <- Hlen; apply load_store|]. intros b Hb. apply lookup_insert_ne. lia. }
  specialize (Hregs m1 H1). eexists.
  match goal with |- context [handler ?x ?y m1] => assert (Elr : handler x y m1 !! (e_msp f - 32 - 4) = Some (e_lr f)) by (rewrite Hlr; apply lookup_insert_eq) end. rewrite Elr. cbn [mbind option_bind].
  replace (e_msp f - 32 - 4 + 4) with (e_msp f - 32) by lia. replace (if negb (Z.testbit (e_lr f) 2) then e_msp f else e_psp f) with (if Z.testbit (e_lr f) 2 then e_psp f else e_msp f) by (by destruct (Z.testbit (e_lr f) 2)).
  rewrite Hregs. cbn [mbind option_bind]. by replace (e_msp f - 32 + 32) with (e_msp f) by lia.
Qed.

Lemma debugmon_entry_returns_witness :
  exists m, debugmon_entry (fun _ r1 m => <[r1 := 99]> m) (mk_frame [1; 2; 3; 4; 5; 6; 7; 8] 0xFFFFFFFD 0x20001000 0x20002000 ∅) = Some (mk_frame [99; 2; 3; 4; 5; 6; 7; 8] 0xFFFFFFFD 0x20001000 0x20002000 m).
Proof.
  apply (debugmon_entry_returns (fun _ r1 m => <[r1 := 99]> m) (mk_frame [1; 2; 3; 4; 5; 6; 7; 8] 0xFFFFFFFD 0x20001000 0x20002000 ∅) [99; 2; 3; 4; 5; 6; 7; 8]).
  - done.
  - intros r0 r1 m. apply lookup_insert_ne. lia.
  - intros m H. cbn [e_msp load_words] in *. rewrite lookup_insert_eq. destruct (m !! (0x20001000 - 32)); [|done]. cbn [mbind option_bind] in *.
    rewrite !lookup_insert_ne by lia. repeat (match type of H with context [m !! ?b] => destruct (m !! b) end; cbn [mbind option_bind] in H |- *; try done).
    by injection H as -> -> -> -> -> -> -> ->.
Defined.

(** ** The floating point context *)

(** The part of a context for the floating point unit: the registers d8 to d15 and whether they
    were saved. *)
Record fp_context := mk_fp { fp_regs : list Z; fp_flag : Z }.

(** [irq_save] and [irq_restore] on that part, given the link register and the registers. *)
Definition fp_save (lr : Z) (d : list Z) (x : fp_context) : fp_context :=
  let x := mk_fp (fp_regs x) 0 in
  if negb (Z.land lr 0x10 =? 0) then x else mk_fp d 1.
Definition fp_restore (x : fp_context) (d : list Z) : list Z := if truth (fp_flag x) then fp_regs x else d.

(** *** Threads that share the unit *)

(** The registers of the unit, the contexts, the thread that runs and the threads that have used
    the unit. *)
Record fp_machine := mk_fpm { fp_unit : list Z; fp_ctx : gmap Z fp_context; fp_cur : Z; fp_used : gset Z }.

(** The running thread uses the unit; or there is a switch to a thread [q].  The link register of
    the exception has bit 4 clear if the thread has used the unit. *)
Inductive fp_event := Use (d : list Z) | Switch (q : Z).

Definition exc_return (used : bool) : Z := if used then 0xFFFFFFED else 0xFFFFFFFD.

Definition fp_step (e : fp_event) (s : fp_machine) : option fp_machine :=
  match e with
  | Use d => Some (mk_fpm d (fp_ctx s) (fp_cur s) ({[fp_cur s]} ∪ fp_used s))
  | Switch q =>
      from ← fp_ctx s !! fp_cur s;
      let ctxs := <[fp_cur s := fp_save (exc_return (bool_decide (fp_cur s ∈ fp_used s))) (fp_unit s) from]> (fp_ctx s) in
      to ← ctxs !! q;
      Some (mk_fpm (fp_restore to (fp_unit s)) ctxs q (fp_used s))
  end.

Fixpoint fp_run (es : list fp_event) (s : fp_machine) : option fp_machine :=
  match es with [] => Some s | e :: es => s' ← fp_step e s; fp_run es s' end.

(** The specification: every thread that has used the unit has registers of its own. *)
Definition own_step (e : fp_event) (s : Z * gmap Z (list Z)) : Z * gmap Z (list Z) :=
  match e with Use d => (s.1, <[s.1 := d]> s.2) | Switch q => (q, s.2) end.

Record fp_refines (s : fp_machine) (o : Z * gmap Z (list Z)) : Prop := {
  fr_cur : fp_cur s = o.1;
  fr_used : fp_used s = dom o.2;
  fr_unit : forall d, o.2 !! o.1 = Some d -> fp_unit s = d;
  fr_ctx : forall q x d, q <> o.1 -> fp_ctx s !! q = Some x -> o.2 !! q = Some d -> x = mk_fp d 1;
  fr_off : forall q x, q <> o.1 -> fp_ctx s !! q = Some x -> o.2 !! q = None -> fp_flag x = 0;
}.

Lemma fp_step_refines e s s' o : fp_refines s o -> fp_step e s = Some s' -> fp_refines s' (own_step e o).
Proof.
  intros [Hc Hu Hd Hx Ho] E. destruct o as [cur regs]. cbn in *. destruct e as [d|q]; cbn in E.
  - injection E as <-. subst cur. split; cbn; [done|by rewrite dom_insert_L, Hu| | |].
    + intros d'. rewrite lookup_insert_eq. congruence.
    + intros q x d' Hq Hl Hr. rewrite lookup_insert_ne in Hr by done. by apply (Hx q).
    + intros q x Hq Hl Hr. rewrite lookup_insert_ne in Hr by done. by apply (Ho q).
  - destruct (fp_ctx s !! fp_cur s) as [from|] eqn:Ef; [|done]. cbn [mbind option_bind] in E. set (ctxs := <[fp_cur s := _]> (fp_ctx s)) in E.
    destruct (ctxs !! q) as [to|] eqn:Eq; [|done]. injection E as <-. subst cur.
    assert (Hall : forall p x, ctxs !! p = Some x -> match regs !! p with Some d => x = mk_fp d 1 | None => fp_flag x = 0 end).
    { intros p x Hp. unfold ctxs in Hp. destruct (decide (p = fp_cur s)) as [->|Hn].
      - rewrite lookup_insert_eq in Hp. injection Hp as <-. rewrite Hu. destruct (regs !! fp_cur s) as [d|] eqn:Er.
        + rewrite bool_decide_true by (by apply elem_of_dom_2 in Er). by rewrite (Hd d eq_refl).
        + by rewrite bool_decide_false by (by apply not_elem_of_dom).
      - rewrite lookup_insert_ne in Hp by done. destruct (regs !! p) eqn:Er; [by apply (Hx p)|by apply (Ho p)]. }
    split; cbn; [done|done| | |].
    + intros d Hr. specialize (Hall q to Eq). rewrite Hr in Hall. by subst to.
    + intros p x d _ Hp Hr. specialize (Hall p x Hp). by rewrite Hr in Hall.
    + intros p x _ Hp Hr. specialize (Hall p x Hp). by rewrite Hr in Hall.
Qed.

(** C25. Saving and restoring the floating point context gives every thread that has used the unit
    registers of its own, under every sequence of uses and switches. *)
Theorem fp_context_private (es : list fp_event) (s s' : fp_machine) (d : list Z)
    (Hn : fp_used s = ∅) (Hf : forall q x, fp_ctx s !! q = Some x -> fp_flag x = 0) (Hr : fp_run es s = Some s')
    (Hd : (foldl (fun o e => own_step e o) (fp_cur s, ∅) es).2 !! fp_cur s' = Some d) :
  fp_unit s' = d.
Proof.
  assert (H : forall es s o, fp_refines s o -> fp_run es s = Some s' -> fp_refines s' (foldl (fun o e => own_step e o) o es)).
  { clear. induction es as [|e es IH]; intros s o H E; [by injection E as ->|]. cbn in E. destruct (fp_step e s) as [s1|] eqn:E1; [|done]. exact (IH s1 _ (fp_step_refines e s s1 o H E1) E). }
  destruct (H es s (fp_cur s, ∅)) as [Hc _ Hu _ _]; [|done|].
  - split; cbn; try done. intros q x _ Hl _. by apply (Hf q).
  - apply Hu. by rewrite <- Hc.
Qed.

Definition ex_fp : fp_machine := mk_fpm [] (<[1 := mk_fp [] 0]> {[2 := mk_fp [] 0]}) 1 ∅.

Lemma fp_context_private_witness : exists s', fp_run [Use [5]; Switch 2; Use [7]; Switch 1] ex_fp = Some s' /\ fp_unit s' = [5].
Proof.
  destruct (fp_run [Use [5]; Switch 2; Use [7]; Switch 1] ex_fp) as [s'|] eqn:E; [|by vm_compute in E]. exists s'. split; [done|].
  apply (fp_context_private [Use [5]; Switch 2; Use [7]; Switch 1] ex_fp s' [5]); [done| |exact E|].
  - assert (H : map_Forall (fun _ x => fp_flag x = 0) (fp_ctx ex_fp)) by (apply (bool_decide_unpack _); vm_compute; exact I). exact H.
  - vm_compute in E. by injection E as <-.
Defined.
