(* ===== verification/KernelPage.v ===== *)
(** * The kernel interface page

    Models the page of [kernel/kip.c] and its layout in [include/l4/kip_types.h]: the structure, its
    words in memory, its first contents and what [memory_init] and [thread_init_subsys] write in it.
    The functions of the user library ([UserKip]) read the descriptors of memory back from it. *)

From S2P Require Import Prelude Bits Thread Mempool Memory Kernel Entry UserKip RootRun.

(** ** [include/l4/kip_types.h] *)

Record kip_t := mk_kip {
  kernel_id : Z;
  api_version : Z;
  api_flags : Z;
  kern_desc_ptr : Z;
  reserved1 : list Z;
  memory_desc_ptr : Z;
  memory_desc_n : Z;
  reserved2 : list Z;
  utcb_info : Z;
  kip_area_info : Z;
  reserved3 : list Z;
  boot_info : Z;
  proc_desc_ptr : Z;
  clock_info : Z;
  user_base : Z;
  system_base : Z;
  processor_info : Z;
  syscalls : list Z;
}.

(** The words of the structure; [memory_info] has two halves, [thread_info] two words. *)
Definition kip_words (k : kip_t) : list Z :=
  [kernel_id k; api_version k; api_flags k; kern_desc_ptr k] ++ reserved1 k ++
  [Z.lor (memory_desc_ptr k) (Z.shiftl (memory_desc_n k) 16)] ++ reserved2 k ++ [utcb_info k; kip_area_info k] ++ reserved3 k ++
  [boot_info k; proc_desc_ptr k; clock_info k; user_base k; system_base k; processor_info k] ++ syscalls k.

(** The sizes of the arrays. *)
Record kip_wf (k : kip_t) : Prop := {
  len_reserved1 : length (reserved1 k) = 17%nat;
  len_reserved2 : length (reserved2 k) = 20%nat;
  len_reserved3 : length (reserved3 k) = 2%nat;
  len_syscalls : length (syscalls k) = 12%nat;
}.

(** ** [kernel/kip.c] *)

Definition kip : kip_t :=
  mk_kip 0 (Z.lor (Z.shiftl 0x84 24) (Z.shiftl 7 16)) 0 0 (replicate 17 0) 0 0 (replicate 20 0) 0 0 (replicate 2 0) 0 0 0 0 0 0 (replicate 12 0).

(** The page of a kernel, with what [memory_init] and [thread_init_subsys] have written. *)
Definition kip_of (s : kstate) : kip_t :=
  let info := memory_info (k_mem s) in
  let threads := kip_thread_info s in
  mk_kip (kernel_id kip) (api_version kip) (api_flags kip) (kern_desc_ptr kip) (reserved1 kip) info.1 info.2 (reserved2 kip) (utcb_info kip) (kip_area_info kip) (reserved3 kip)
    (boot_info kip) (proc_desc_ptr kip) (clock_info kip) threads.1 threads.2 (processor_info kip) (syscalls kip).

(** Memory with the page at [a], and the descriptors behind it at the distance that is announced. *)
Definition desc_words (l : list (Z * Z)) : list Z := l ≫= fun d => [d.1; d.2].
Definition page_memory (a : Z) (s : kstate) : word_mem :=
  store_words a (kip_words (kip_of s)) (store_words (a + memory_desc_ptr (kip_of s)) (desc_words (mem_desc (k_mem s))) ∅).

(** ** Lemmas *)

Lemma store_words_at ws : forall a (i : nat) w m, ws !! i = Some w -> store_words a ws m !! (a + 4 * Z.of_nat i) = Some w.
Proof.
  induction ws as [|x ws IH]; intros a [|i] w m H; [done..| |]; cbn [store_words].
  - injection H as ->. rewrite Z.mul_0_r, Z.add_0_r. apply lookup_insert_eq.
  - rewrite lookup_insert_ne by lia. replace (a + 4 * Z.of_nat (S i)) with (a + 4 + 4 * Z.of_nat i) by lia. by apply IH.
Qed.

Lemma store_words_beyond ws : forall a b m, a + 4 * Z.of_nat (length ws) <= b -> store_words a ws m !! b = m !! b.
Proof.
  induction ws as [|x ws IH]; intros a b m H; cbn [store_words length] in *; [done|]. rewrite lookup_insert_ne by lia. apply IH. lia.
Qed.

Lemma kip_wf_of s : kip_wf (kip_of s).
Proof. by split. Qed.

(** The structure has the size that is mapped for every space. *)
Lemma kip_size k : kip_wf k -> 4 * Z.of_nat (length (kip_words k)) = SIZEOF_KIP.
Proof. intros [H1 H2 H3 H4]. unfold kip_words. rewrite !length_app, H1, H2, H3, H4. done. Qed.

Lemma desc_words_at l (i : nat) d : l !! i = Some d -> desc_words l !! (2 * i)%nat = Some d.1 /\ desc_words l !! (2 * i + 1)%nat = Some d.2.
Proof.
  revert i. induction l as [|x l IH]; intros [|i] H; try done.
  - by injection H as ->.
  - destruct (IH i H) as [H1 H2]. change (desc_words (x :: l)) with (x.1 :: x.2 :: desc_words l). replace (2 * S i)%nat with (S (S (2 * i))) by lia. by replace (S (S (2 * i)) + 1)%nat with (S (S (2 * i + 1))) by lia.
Qed.

(** The page is the one the functions of the library expect. *)
Lemma kernel_page_of a s : kip_thread_info s = (THREAD_USER, THREAD_SYS) -> kernel_page (page_memory a s) a (memory_info (k_mem s)).1 (memory_info (k_mem s)).2.
Proof.
  intros Ht. pose proof (fun i w => store_words_at (kip_words (kip_of s)) a i w (store_words (a + memory_desc_ptr (kip_of s)) (desc_words (mem_desc (k_mem s))) ∅)) as H.
  split.
  - exact (H 21%nat _ eq_refl).
  - refine (H 49%nat _ _). unfold kip_of. rewrite Ht. reflexivity.
  - refine (H 50%nat _ _). unfold kip_of. rewrite Ht. reflexivity.
Qed.

(** ** Properties *)

(** The descriptors of memory that the kernel announces in its page are those the user library
    finds there: as many, at the addresses it computes, with their two words. *)
Theorem descriptors_read_back (s : kstate) (a i : Z) (d : Z * Z)
    (Ht : kip_thread_info s = (THREAD_USER, THREAD_SYS)) (Hp : SIZEOF_KIP <= (memory_info (k_mem s)).1 < 65536) (Hn : 0 <= (memory_info (k_mem s)).2 < 65536)
    (Ha : 0 <= a /\ a + 65536 <= u32_modulus) (Hi : 0 <= i < (memory_info (k_mem s)).2) (Hd : mem_desc (k_mem s) !! Z.to_nat i = Some d) :
  let m := page_memory a s in
  L4_NumMemoryDescriptors a m = Done ((memory_info (k_mem s)).2, m) /\
  exists p, L4_MemoryDesc a i m = Done (p, m) /\ load_word p m = Done (d.1, m) /\ load_word (p + 4) m = Done (d.2, m).
Proof.
  intros m. set (ptr := (memory_info (k_mem s)).1) in *. set (n := (memory_info (k_mem s)).2) in *. unfold SIZEOF_KIP in *.
  destruct (kernel_page_of a s Ht) as [Hm _ _]. fold m ptr n in Hm. destruct (memory_info_fields ptr n ltac:(lia) Hn) as [F1 F2].
  split; [unfold L4_NumMemoryDescriptors; rewrite (kip_field_ok _ _ _ _ _ _ Hm); by rewrite F2|]. exists (a + ptr + 8 * i). split; [|].
  - unfold L4_MemoryDesc. rewrite (bind_Done _ _ _ _ _ (kip_field_ok _ _ _ 16 16 _ Hm)), F2. destruct (Z.geb_spec i n); [lia|]. rewrite (bind_Done _ _ _ _ _ (kip_field_ok _ _ _ 0 16 _ Hm)), F1.
    unfold add32, wrap32, u32_modulus in *. by rewrite Z.mod_small by lia.
  - assert (Hat : forall j w, desc_words (mem_desc (k_mem s)) !! j = Some w -> m !! (a + ptr + 4 * Z.of_nat j) = Some w).
    { intros j w Hj. unfold m, page_memory. rewrite store_words_beyond by (rewrite (kip_size _ (kip_wf_of s)); unfold SIZEOF_KIP; lia). exact (store_words_at _ (a + ptr) j w ∅ Hj). }
    destruct (desc_words_at _ _ _ Hd) as [D1 D2]. apply Hat in D1, D2. replace (a + ptr + 8 * i) with (a + ptr + 4 * Z.of_nat (2 * Z.to_nat i)) by lia.
    split; apply load_word_ok; [exact D1|]. rewrite <- D2. f_equal. lia.
Qed.

Definition ex_page : kstate := run_or ex_reset (mem (memory_init 256);; thread_init_subsys ex_boot_symbols) ex_reset.

Lemma descriptors_read_back_witness : exists p d, mem_desc (k_mem ex_page) !! 1%nat = Some d /\ L4_MemoryDesc 0x20000000 1 (page_memory 0x20000000 ex_page) = Done (p, page_memory 0x20000000 ex_page) /\
  load_word p (page_memory 0x20000000 ex_page) = Done (d.1, page_memory 0x20000000 ex_page).
Proof.
  destruct (mem_desc (k_mem ex_page) !! 1%nat) as [d|] eqn:Ed; [|vm_compute in Ed; discriminate Ed].
  destruct (descriptors_read_back ex_page 0x20000000 1 d) as (_ & p & E1 & E2 & _).
  - vm_compute. reflexivity.
  - vm_compute. split; [intros H; discriminate H|reflexivity].
  - vm_compute. split; [intros H; discriminate H|reflexivity].
  - vm_compute. split; intros H; discriminate H.
  - vm_compute. split; [intros H; discriminate H|reflexivity].
  - exact Ed.
  - exact (ex_intro _ p (ex_intro _ d (conj eq_refl (conj E1 E2)))).
Defined.
