(* ===== verification/UserThread.v ===== *)
(** * The user library: system calls without an implementation

    Models the system calls of [user/lib/l4/platform/syscalls.c] that do not enter the kernel, and
    the functions that [user/include/l4/thread.h], [schedule.h], [space.h] and [misc.h] derive from
    them.  The derived functions are written against the interface [Calls], since what they do
    depends on the calls; [library_calls] are those of the library, which change nothing and
    leave their results uninitialised. *)

From S2P Require Import Prelude Bits UserLib UserLibProps UserCalls.

(** ** The interface *)

(** What [L4_ExchangeRegisters] stores through its pointers. *)
Record exregs := mk_exregs { old_control : Z; old_sp : Z; old_ip : Z; old_flags : Z; old_handle : Z; old_pager : Z }.

Class Calls (S : Type) := {
  L4_ExchangeRegisters (dest control sp ip flags UserDefHandle pager : Z) : M S (Z * exregs);
  (** The result, and the word stored at [old_TimeControl]. *)
  L4_Schedule (dest TimeControl ProcessorControl PrioControl PreemptionControl : Z) : M S (Z * Z);
  L4_ThreadSwitch (dest : Z) : M S unit;
  L4_Unmap (control : Z) : M S unit;
  L4_MemoryControl (control : Z) (attributes : list Z) : M S Z;
}.

(** ** The calls of the library

    [junk] gives the values of the variables nobody has set: the result of
    [L4_ExchangeRegisters] and the variables of the caller whose addresses it is given. *)

Record junk := mk_junk { j_result : Z; j_exregs : exregs; j_time : Z }.

Definition ExchangeRegisters {S} (j : junk) (dest control sp ip flags UserDefHandle pager : Z) : M S (Z * exregs) := mret (j_result j, j_exregs j).
Definition Schedule {S} (j : junk) (dest TimeControl ProcessorControl PrioControl PreemptionControl : Z) : M S (Z * Z) := mret (0, j_time j).
Definition ThreadSwitch {S} (dest : Z) : M S unit := mret tt.
Definition Unmap {S} (control : Z) : M S unit := mret tt.
Definition MemoryControl {S} (control : Z) (attributes : list Z) : M S Z := mret 0.
Definition L4_SystemClock {S} (result : Z) : M S Z := mret result.
Definition L4_SpaceControl {S} (SpaceSpecifier control KernelInterfacePageArea UtcbArea redirector old_control : Z) : M S (Z * Z) := mret (0, old_control).
Definition L4_ProcessorControl {S} (ProcessorNo InternalFrequency ExternalFrequency voltage : Z) : M S Z := mret 0.

Definition library_calls {S} (j : junk) : Calls S :=
  {| L4_ExchangeRegisters := ExchangeRegisters j; L4_Schedule := Schedule j; L4_ThreadSwitch := ThreadSwitch; L4_Unmap := Unmap; L4_MemoryControl := MemoryControl |}.

Section derived.
Context {S : Type} `{!Part vregs S} `{!Calls S}.

(** ** [thread.h] *)

Definition L4_GlobalIdOf (t : Z) : M S Z :=
  if L4_IsLocalId t then r ← L4_ExchangeRegisters t 0 0 0 0 0 L4_nilthread; mret r.1 else mret t.
Definition L4_SameThreads (l r : Z) : M S bool := a ← L4_GlobalIdOf l; b ← L4_GlobalIdOf r; mret (a =? b).
Definition L4_LocalIdOf (t : Z) : M S Z :=
  if L4_IsGlobalId t then r ← L4_ExchangeRegisters t 0 0 0 0 0 L4_nilthread; mret r.1 else mret t.
Definition L4_UserDefinedHandleOf (t : Z) : M S Z := r ← L4_ExchangeRegisters t (Z.shiftl 1 9) 0 0 0 0 L4_nilthread; mret (old_handle r.2).
Definition L4_Set_UserDefinedHandleOf (t handle : Z) : M S unit := L4_ExchangeRegisters t (Z.shiftl 1 6) 0 0 0 handle L4_nilthread;; mret tt.
Definition L4_PagerOf (t : Z) : M S Z := r ← L4_ExchangeRegisters t (Z.shiftl 1 9) 0 0 0 0 L4_nilthread; mret (old_pager r.2).
Definition L4_Set_PagerOf (t p : Z) : M S unit := L4_ExchangeRegisters t (Z.shiftl 1 7) 0 0 0 0 p;; mret tt.
Definition L4_Start (t : Z) : M S unit := L4_ExchangeRegisters t (Z.shiftl 1 8 + 6) 0 0 0 0 L4_nilthread;; mret tt.
Definition L4_Start_SpIp (t sp ip : Z) : M S unit := L4_ExchangeRegisters t (Z.shiftl 3 3 + Z.shiftl 1 8 + 6) sp ip 0 0 L4_nilthread;; mret tt.
Definition L4_Start_SpIpFlags (t sp ip flags : Z) : M S unit := L4_ExchangeRegisters t (Z.shiftl 7 3 + Z.shiftl 1 8 + 6) sp ip flags 0 L4_nilthread;; mret tt.

(** The functions that stop a thread: the state, and what is stored at [sp], [ip] and [flags]. *)
Definition L4_Stop (t : Z) : M S Z := r ← L4_ExchangeRegisters t (1 + Z.shiftl 1 8 + Z.shiftl 1 9) 0 0 0 0 L4_nilthread; mret (old_control r.2).
Definition L4_Stop_SpIpFlags (t : Z) : M S (Z * (Z * Z * Z)) :=
  r ← L4_ExchangeRegisters t (1 + Z.shiftl 1 8 + Z.shiftl 1 9) 0 0 0 0 L4_nilthread; mret (old_control r.2, (old_sp r.2, old_ip r.2, old_flags r.2)).
Definition L4_AbortReceive_and_stop (t : Z) : M S Z := r ← L4_ExchangeRegisters t (3 + Z.shiftl 1 8 + Z.shiftl 1 9) 0 0 0 0 L4_nilthread; mret (old_control r.2).
Definition L4_AbortReceive_and_stop_SpIpFlags (t : Z) : M S (Z * (Z * Z * Z)) :=
  r ← L4_ExchangeRegisters t (3 + Z.shiftl 1 8 + Z.shiftl 1 9) 0 0 0 0 L4_nilthread; mret (old_control r.2, (old_sp r.2, old_ip r.2, old_flags r.2)).
Definition L4_AbortSend_and_stop (t : Z) : M S Z := r ← L4_ExchangeRegisters t (5 + Z.shiftl 1 8 + Z.shiftl 1 9) 0 0 0 0 L4_nilthread; mret (old_control r.2).
Definition L4_AbortSend_and_stop_SpIpFlags (t : Z) : M S (Z * (Z * Z * Z)) :=
  r ← L4_ExchangeRegisters t (5 + Z.shiftl 1 8 + Z.shiftl 1 9) 0 0 0 0 L4_nilthread; mret (old_control r.2, (old_sp r.2, old_ip r.2, old_flags r.2)).
Definition L4_AbortIpc_and_stop (t : Z) : M S Z := r ← L4_ExchangeRegisters t (7 + Z.shiftl 1 8 + Z.shiftl 1 9) 0 0 0 0 L4_nilthread; mret (old_control r.2).
Definition L4_AbortIpc_and_stop_SpIpFlags (t : Z) : M S (Z * (Z * Z * Z)) :=
  r ← L4_ExchangeRegisters t (7 + Z.shiftl 1 8 + Z.shiftl 1 9) 0 0 0 0 L4_nilthread; mret (old_control r.2, (old_sp r.2, old_ip r.2, old_flags r.2)).

Definition L4_EXREGS_CTRLXFER_CONF_FLAG : Z := Z.shiftl 1 9.
Definition L4_EXREGS_CTRLXFER_READ_FLAG : Z := Z.shiftl 1 10.
Definition L4_EXREGS_CTRLXFER_WRITE_FLAG : Z := Z.shiftl 1 11.
Definition L4_ConfCtrlXferItems (dest : Z) : M S Z := r ← L4_ExchangeRegisters dest L4_EXREGS_CTRLXFER_CONF_FLAG 0 0 0 0 L4_nilthread; mret (old_control r.2).
Definition L4_ReadCtrlXferItems (dest : Z) : M S Z := r ← L4_ExchangeRegisters dest L4_EXREGS_CTRLXFER_READ_FLAG 0 0 0 0 L4_nilthread; mret (old_control r.2).
Definition L4_WriteCtrlXferItems (dest : Z) : M S Z := r ← L4_ExchangeRegisters dest L4_EXREGS_CTRLXFER_WRITE_FLAG 0 0 0 0 L4_nilthread; mret (old_control r.2).

(** ** [schedule.h] *)

(** [~0UL] *)
Definition ALL : Z := 4294967295.

Definition L4_Yield : M S unit := L4_ThreadSwitch L4_nilthread.
Definition L4_Set_Priority (tid prio : Z) : M S Z := r ← L4_Schedule tid ALL ALL (Z.land prio 0xff) ALL; mret r.1.
Definition L4_Set_Stride (tid stride : Z) : M S Z := r ← L4_Schedule tid ALL ALL (Z.lor (shl32 stride 16) 0xffff) ALL; mret r.1.
Definition L4_Set_ProcessorNo (tid cpu_no : Z) : M S Z := r ← L4_Schedule tid ALL (Z.land cpu_no 0xffff) ALL ALL; mret r.1.
(** A time has 16 bits. *)
Definition L4_Set_Timeslice (tid timeslice totalquantum : Z) : M S Z :=
  r ← L4_Schedule tid (Z.lor (shl32 timeslice 16) totalquantum) ALL ALL ALL; mret r.1.
(** The result, and what is stored at [timeslice] and [totalquantum]. *)
Definition L4_Timeslice (tid : Z) : M S (Z * (Z * Z)) :=
  r ← L4_Schedule tid ALL ALL ALL ALL; mret (r.1, (Z.shiftr r.2 16 mod 65536, r.2 mod 65536)).
Definition L4_Set_PreemptionDelay (tid sensitivePrio maxDelay : Z) : M S Z :=
  r ← L4_Schedule tid ALL ALL ALL (Z.lor (shl32 (Z.land sensitivePrio 0xff) 16) (Z.land maxDelay 0xffff)); mret r.1.
Definition L4_HS_Schedule (tid control domain prio stride : Z) : M S (Z * Z) :=
  L4_Schedule tid domain ALL (Z.lor (shl32 stride 16) (Z.land prio 0x1ff)) (Z.lor (shl32 (Z.land control 0x3f) 26) (Z.shiftl 1 25)).

(** ** [space.h] *)

Definition L4_UnmapFpage (f : Z) : M S Z := on (L4_LoadMR 0 f);; L4_Unmap 0;; on (L4_StoreMR 0).
Definition L4_UnmapFpages (n : Z) (fpages : list Z) : M S (option (list Z)) := on (L4_LoadMRs 0 n fpages);; L4_Unmap (n -w 1);; on (L4_StoreMRs 0 n).
Definition L4_Flush (f : Z) : M S Z := on (L4_LoadMR 0 f);; L4_Unmap 0x40;; on (L4_StoreMR 0).
Definition L4_FlushFpages (n : Z) (fpages : list Z) : M S (option (list Z)) := on (L4_LoadMRs 0 n fpages);; L4_Unmap ((0x40 +w n) -w 1);; on (L4_StoreMRs 0 n).
Definition L4_GetStatus (f : Z) : M S Z := on (L4_LoadMR 0 (Z.land f (not32 0x0f)));; L4_Unmap 0;; on (L4_StoreMR 0).
Definition L4_WasWritten (f : Z) : bool := negb (Z.land f 2 =? 0).
Definition L4_WasReferenced (f : Z) : bool := negb (Z.land f 4 =? 0).
Definition L4_WaseXecuted (f : Z) : bool := negb (Z.land f 1 =? 0).

(** ** [misc.h] *)

(** The array has four words, of which the first is set: [rest] are the others. *)
Definition L4_Set_PageAttribute (rest : list Z) (f attribute : Z) : M S Z := on (L4_LoadMR 0 (L4_Set_Rights f 0));; L4_MemoryControl 0 (attribute :: rest).
Definition L4_Set_PageAttributes (n : Z) (f attributes : list Z) : M S Z := on (L4_LoadMRs 0 n f);; L4_MemoryControl (n -w 1) attributes.
End derived.

(** ** The control words of the scheduler *)

(** What is packed in the word of the times is what [L4_Timeslice] takes apart, when the kernel
    gives back the word it was given. *)
Lemma timeslice_packs ts total : 0 <= ts < 65536 -> 0 <= total < 65536 ->
  let w := Z.lor (shl32 ts 16) total in Z.shiftr w 16 mod 65536 = ts /\ w mod 65536 = total.
Proof.
  intros Ht Hq w. assert (E : w = ts * 65536 + total).
  { unfold w, shl32, wrap32, u32_modulus. rewrite Z.shiftl_mul_pow2 by lia. change (2 ^ 16) with 65536. rewrite Z.mod_small by lia. rewrite <- Z.add_lor_land.
    replace (Z.land (ts * 65536) total) with 0; [lia|]. symmetry. change 65536 with (2 ^ 16). rewrite <- Z.shiftl_mul_pow2 by lia. apply Z.bits_inj'. intros k Hk. rewrite Z.land_spec, Z.bits_0.
    destruct (Z.ltb_spec k 16); [by rewrite Z.shiftl_spec_low|]. destruct (decide (total = 0)) as [->|]; [by rewrite Z.bits_0, andb_false_r|].
    rewrite (Z.bits_above_log2 total); [by rewrite andb_false_r|lia|]. apply Z.log2_lt_pow2; [lia|]. pose proof (Z.pow_le_mono_r 2 16 k). lia. }
  rewrite E, Z.shiftr_div_pow2 by lia. change (2 ^ 16) with 65536. Z.div_mod_to_equations. lia.
Qed.

(** What [L4_Timeslice] relies on: a call with a word of times keeps it for the thread, and a call
    with [~0UL] answers the word that was kept. *)
Class TimeLaws (S : Type) `{!Calls S} := {
  schedule_keeps dest w s : w <> ALL -> exists r s', L4_Schedule dest w ALL ALL ALL s = Done (r, s') /\
    exists r' s'', L4_Schedule dest ALL ALL ALL ALL s' = Done ((r', w), s'');
}.

(** ** Properties *)

(** The times that [L4_Set_Timeslice] sets are those [L4_Timeslice] reads; two times of [0xffff]
    cannot be set, since their word means no change. *)
Theorem timeslice_roundtrip {S} `{!Calls S} `{!TimeLaws S} (tid ts total : Z) (s : S) (Ht : 0 <= ts < 65536) (Hq : 0 <= total < 65536) (Hn : ts <> 65535 \/ total <> 65535) :
  exists r s' r' s'', L4_Set_Timeslice tid ts total s = Done (r, s') /\ L4_Timeslice tid s' = Done ((r', (ts, total)), s'').
Proof.
  destruct (timeslice_packs ts total Ht Hq) as [E1 E2]. cbv zeta in *. set (w := Z.lor (shl32 ts 16) total) in *.
  assert (Hw : w <> ALL) by (intros E; rewrite E in E1, E2; vm_compute in E1, E2; lia).
  destruct (schedule_keeps tid w s Hw) as (r & s' & H1 & r' & s'' & H2). exists r.1, s', r', s''. unfold L4_Set_Timeslice, L4_Timeslice. rewrite (bind_Done _ _ _ _ _ H1), (bind_Done _ _ _ _ _ H2).
  cbn [fst snd]. by rewrite E1, E2.
Qed.

(** A kernel that keeps the word of the times of each thread. *)
#[local] Instance time_calls : Calls (gmap Z Z) :=
  {| L4_ExchangeRegisters _ _ _ _ _ _ _ := fault;
     L4_Schedule dest time _ _ _ := fun m => Done ((3, default 0 (m !! dest)), if time =? ALL then m else <[dest := time]> m);
     L4_ThreadSwitch _ := mret tt; L4_Unmap _ := mret tt; L4_MemoryControl _ _ := mret 0 |}.
#[local] Instance time_laws : TimeLaws (gmap Z Z).
Proof.
  split. intros dest w m Hw. eexists _, _. split; [done|]. cbn [L4_Schedule time_calls]. rewrite (proj2 (Z.eqb_neq _ _) Hw). eexists _, _. by rewrite lookup_insert_eq.
Qed.

Lemma timeslice_roundtrip_witness : exists r s' r' s'', L4_Set_Timeslice 5 100 7 (∅ : gmap Z Z) = Done (r, s') /\ L4_Timeslice 5 s' = Done ((r', (100, 7)), s'').
Proof. apply (timeslice_roundtrip 5 100 7 (∅ : gmap Z Z)); lia. Defined.

(** *** With the calls of the library *)

#[local] Instance part_vregs_id : Part vregs vregs := {| get_part := id; put_part x _ := x |}.

Section library.
Variable j : junk.
#[local] Instance calls_here : Calls vregs := library_calls j.

(** The functions that start and stop threads do not change anything, and the state of the thread
    is what the variable of the caller held. *)
Theorem stop_does_nothing (t sp ip : Z) (v : vregs) : L4_Start_SpIp t sp ip v = Done (tt, v) /\ L4_Stop t v = Done (old_control (j_exregs j), v) /\
  L4_AbortIpc_and_stop t v = Done (old_control (j_exregs j), v) /\ L4_PagerOf t v = Done (old_pager (j_exregs j), v).
Proof. done. Qed.

(** A page that is unmapped stays as it is, and the status of a page has no bit set, so that it
    was never read, written or executed. *)
Theorem page_status_empty (f : Z) (v : vregs) (Hv : length (v_regs v) = 8%nat) : exists st v' v'', L4_UnmapFpage f v = Done (f, v') /\ L4_GetStatus f v = Done (st, v'') /\
  L4_WasWritten st = false /\ L4_WasReferenced st = false /\ L4_WaseXecuted st = false.
Proof.
  assert (E : forall w, exists v', (on (L4_LoadMR 0 w);; L4_Unmap 0;; on (L4_StoreMR 0)) v = Done (w, v')).
  { intros w. destruct v as [[|r regs] mr br]; [done|]. by eexists. }
  destruct (E f) as [v' E1]. destruct (E (Z.land f (not32 0x0f))) as [v'' E2]. exists (Z.land f (not32 0x0f)), v', v''. split; [exact E1|]. split; [exact E2|].
  assert (H : forall k, Z.land 15 k = k -> Z.land (Z.land f (not32 15)) k = 0).
  { intros k Hk. rewrite <- Z.land_assoc, <- Hk. rewrite (Z.land_assoc (not32 15)). by rewrite Z.land_0_r. }
  unfold L4_WasWritten, L4_WasReferenced, L4_WaseXecuted. by rewrite !H.
Qed.
End library.
