(* ===== verification/Kdb.v ===== *)
(** * The dumps of the kernel debugger

    Models the functions with which the debugger shows the state of the kernel: the tables
    ([kernel/lib/ktable.c]), threads ([kernel/thread.c]), timer events ([kernel/ktimer.c]), soft
    interrupts ([kernel/softirq.c]), memory pools and address spaces ([kernel/memory.c]), the
    protection unit ([platform/stm32f4/mpu.c]) and the stack of a panic ([kernel/error.c]).  A dump
    gives the values of its lines; how they are printed is in [Stdio]. *)

From S2P Require Import Prelude Ktable Thread ThreadMap Softirq Ktimer Mempool Fpage FpageChain AddressSpace Memory.

(** ** [include/lib/ktable.h]: [for_each_in_ktable] *)

Section each.
Context {S R : Type}.
Variable table : S -> ktable.
Variable body : Z -> M S (list R).

(** The loop from element [idx] on, for the last [n] elements. *)
Fixpoint for_each (n : nat) (idx el : Z) : M S (list R) :=
  match n with
  | O => mret []
  | Datatypes.S n' =>
      kt ← gets table;
      b ← (fun s => match bitmap_get_bit idx (kt_bitmap kt) with Done (b, _) => Done (b, s) | Panic => Panic | Fault => Fault | OutOfFuel => OutOfFuel end);
      out ← (if b =? 1 then body el else mret []);
      rest ← for_each n' (idx + 1) (el + kt_size kt);
      mret (out ++ rest)
  end.
Definition for_each_in_ktable : M S (list R) := kt ← gets table; for_each (Z.to_nat (kt_num kt)) 0 (kt_data kt).
End each.

(** The elements in use, in the order of the table. *)
Definition kt_elements (kt : ktable) : list Z := kt_addr kt <$> filter (fun i => kt_allocated kt i = true) (seqZ 0 (kt_num kt)).

(** The body is executed for the elements in use; [I] is what it keeps, the table among it. *)
Lemma for_each_ok {S R} (table : S -> ktable) (body : Z -> M S (list R)) (rows : Z -> list R) (I : S -> Prop) kt s : kt_wf kt -> (forall s, I s -> table s = kt) -> I s ->
  (forall el s, I s -> el ∈ kt_elements kt -> exists s', body el s = Done (rows el, s') /\ I s') ->
  exists s', for_each_in_ktable table body s = Done (kt_elements kt ≫= rows, s') /\ I s'.
Proof.
  intros Hwf Ht Hs Hb. unfold for_each_in_ktable. rewrite (bind_Done (gets table) _ s _ _ eq_refl), (Ht s Hs). unfold kt_elements in *.
  assert (H : forall n i s, I s -> 0 <= i -> i + Z.of_nat n = kt_num kt -> exists s', for_each table body n i (kt_data kt + i * kt_size kt) s =
    Done ((kt_addr kt <$> filter (fun i => kt_allocated kt i = true) (seqZ i (Z.of_nat n))) ≫= rows, s') /\ I s').
  { clear s Hs. induction n as [|n IH]; intros i s Hs Hi Hn; [by exists s|]. cbn [for_each]. rewrite (bind_Done (gets table) _ s _ _ eq_refl), (Ht s Hs).
    assert (Hin : in_bitmap (kt_bitmap kt) i) by (apply kt_in_bitmap; [done|lia]).
    rewrite (bind_Done _ _ s (b2z (bit_at (kt_bitmap kt) i)) s) by (by rewrite bitmap_get_bit_ok). fold (kt_allocated kt i).
    replace (kt_data kt + i * kt_size kt + kt_size kt) with (kt_data kt + (i + 1) * kt_size kt) by lia.
    rewrite seqZ_cons by lia. replace (Z.pred (Z.of_nat (Datatypes.S n))) with (Z.of_nat n) by lia. replace (Z.succ i) with (i + 1) by lia. destruct (kt_allocated kt i) eqn:Ea; cbn [b2z Z.eqb Pos.eqb].
    - destruct (Hb (kt_addr kt i) s Hs) as (s1 & E1 & H1); [apply list_elem_of_fmap; exists i; split; [done|]; apply list_elem_of_filter; split; [done|]; apply elem_of_seqZ; lia|].
      rewrite <- (kt_addr_eq kt i) by (done || lia). rewrite (bind_Done _ _ _ _ _ E1). destruct (IH (i + 1) s1 H1 ltac:(lia) ltac:(lia)) as (s2 & E2 & H2). rewrite (bind_Done _ _ _ _ _ E2).
      rewrite filter_cons_True by done. by exists s2.
    - rewrite (bind_Done _ _ s [] s) by done. destruct (IH (i + 1) s Hs ltac:(lia) ltac:(lia)) as (s2 & E2 & H2). rewrite (bind_Done _ _ _ _ _ E2).
      rewrite filter_cons_False by (by rewrite Ea). by exists s2. }
  pose proof (wf_num _ Hwf). specialize (H (Z.to_nat (kt_num kt)) 0 s Hs ltac:(lia) ltac:(lia)). rewrite Z.mul_0_l, Z.add_0_r, Z2Nat.id in H by lia. exact H.
Qed.

Lemma kt_elements_live kt p : p ∈ kt_elements kt <-> p ∈ kt_live kt.
Proof. unfold kt_elements, kt_live. by rewrite elem_of_list_to_set. Qed.

Lemma NoDup_kt_elements kt : kt_wf kt -> NoDup (kt_elements kt).
Proof.
  intros Hwf. unfold kt_elements. apply NoDup_fmap_2_strong; [|apply NoDup_filter, NoDup_seqZ].
  intros x y Hx Hy. rewrite !list_elem_of_filter, !elem_of_seqZ in *. intros E. apply (kt_addr_inj kt); [done|lia|lia|done].
Qed.

(** ** Threads: [kernel/thread.c] *)

Inductive thread_type := KERN | ROOT | IDLE | USR | SYS | UNKNOWN.

Definition kdb_get_thread_type (t : tcb) : thread_type :=
  let id := GLOBALID_TO_TID (t_globalid t) in
  if id =? THREAD_KERNEL then KERN
  else if id =? THREAD_ROOT then ROOT
  else if id =? THREAD_IDLE then IDLE
  else if id >=? THREAD_USER then USR
  else if id >=? THREAD_SYS then SYS
  else UNKNOWN.

(** A line: type, identifiers, state and the identifier of the parent. *)
Record thread_row := mk_row { row_type : thread_type; row_global : Z; row_local : Z; row_state : thread_state_t; row_parent : Z }.

Definition thread_line (thr : Z) : M thrstate (list thread_row) :=
  t ← get_tcb thr;
  parent ← (if negb (t_parent t =? NULL) then p ← get_tcb (t_parent t); mret (t_globalid p) else mret 0);
  mret [mk_row (kdb_get_thread_type t) (t_globalid t) (t_localid t) (t_state t) parent].
Definition kdb_dump_threads : M thrstate (list thread_row) := for_each_in_ktable thread_table thread_line.

(** ** Kernel tables: [kernel/lib/ktable.c] *)

(** The marks of a table: [X] for an element in use. *)
Fixpoint table_marks (n : nat) (j : Z) : M ktable (list bool) :=
  match n with
  | O => mret []
  | S n' => b ← on_bitmap (bitmap_get_bit j); rest ← table_marks n' (j + 1); mret (truth b :: rest)
  end.
Definition kdb_dump_ktable : M ktable (list bool) := num ← gets kt_num; table_marks (Z.to_nat num) 0.

(** ** The timer: [kernel/ktimer.c] *)

Fixpoint events_loop (fuel : nat) (event : Z) : M ktimerstate (list (Z * Z)) :=
  if event =? NULL then mret []
  else match fuel with
       | O => fuel_out
       | S fuel' => e ← get_kte event; rest ← events_loop fuel' (kte_next e); mret ((event, kte_delta e) :: rest)
       end.
Definition kdb_dump_events : M ktimerstate (list (Z * Z)) := fuel ← gets queue_fuel; e ← gets event_queue; events_loop fuel e.

(** ** Memory: [kernel/memory.c] *)

(** The letters of a pool: the rights of the kernel and of the users, and the kind. *)
Inductive pool_kind := Devices | Pool | Ahb | Sram | None_.
Definition kdb_mempool_prop (mp : mempool_t) : list bool * pool_kind :=
  let f := mp_flags mp in
  ([truth (Z.land f MP_KR); truth (Z.land f MP_KW); truth (Z.land f MP_KX); truth (Z.land f MP_UR); truth (Z.land f MP_UW); truth (Z.land f MP_UX)],
   if truth (Z.land f MP_DEVICES) then Devices else if truth (Z.land f MP_MEMPOOL) then Pool else if truth (Z.land f MP_AHB_RAM) then Ahb else if truth (Z.land f MP_SRAM) then Sram else None_).
(** A line: size, start, end and letters. *)
Definition kdb_dump_mempool : M memstate (list (Z * Z * Z * (list bool * pool_kind))) :=
  l ← gets memmap; mret ((fun mp => (mp_end mp -w mp_start mp, mp_start mp, mp_end mp, kdb_mempool_prop mp)) <$> l).

(** The field [used] of the pages, which only the debugger uses, beside memory. *)
Record kdbmem := mk_kdb { km_mem : memstate; km_used : gset Z }.
#[global] Instance part_kdb : Part memstate kdbmem := {| get_part := km_mem; put_part x s := mk_kdb x (km_used s) |}.
Definition set_used (p : Z) (u : bool) : M kdbmem unit := modify (fun s => mk_kdb (km_mem s) (if u then {[p]} ∪ km_used s else km_used s ∖ {[p]})).

Fixpoint unmark_pages (fuel : nat) (fpage : Z) : M kdbmem unit :=
  if fpage =? NULL then mret tt
  else match fuel with
       | O => fuel_out
       | S fuel' => f ← on (get_fp fpage); set_used fpage false;; unmark_pages fuel' (as_next f)
       end.
(** [while (i < 8 && fpage)], [k] being [8 - i]; the number that is left is the result. *)
Fixpoint mark_pages (k : nat) (fpage : Z) : M kdbmem nat :=
  match k with
  | O => mret O
  | S k' => if fpage =? NULL then mret k else f ← on (get_fp fpage); set_used fpage true;; mark_pages k' (mpu_next f)
  end.

(** The lines of a space: the space, its pages with their marks, and the stops for a key. *)
Inductive as_line := Space (spaceid : Z) | Page (used : bool) (mpid base shift : Z) | Key.

Fixpoint page_lines (fuel : nat) (panic_state : bool) (nl fpage : Z) : M kdbmem (list as_line) :=
  if fpage =? NULL then mret []
  else match fuel with
       | O => fuel_out
       | S fuel' =>
           f ← on (get_fp fpage);
           u ← gets (fun s => bool_decide (fpage ∈ km_used s));
           let nl := nl + 1 in
           let stop := negb panic_state && (nl =? 12) in
           rest ← page_lines fuel' panic_state (if stop then 0 else nl) (as_next f);
           mret (Page u (fp_mpid f) (fp_base f) (fp_shift f) :: (if stop then [Key] else []) ++ rest)
       end.

Definition as_lines (panic_state : bool) (as_ : Z) : M kdbmem (list as_line) :=
  a ← on (get_as as_);
  fuel ← on (gets fp_fuel);
  unmark_pages fuel (as_first a);;
  i ← mark_pages 8 (as_mpu_stack_first a);
  mark_pages i (as_mpu_first a);;
  lines ← page_lines fuel panic_state 0 (as_first a);
  mret (Space (as_spaceid a) :: lines).
Definition kdb_dump_as (panic_state : bool) : M kdbmem (list as_line) := for_each_in_ktable (fun s => as_table (km_mem s)) (as_lines panic_state).

(** ** [kernel/error.c]: the stack of a panic

    The words from [sp] to [stack_end]; the pointer is advanced before it is read. *)
Fixpoint panic_dump_stack (fuel : nat) (m : gmap Z Z) (sp stack_end : Z) : option (list Z) :=
  if sp <? stack_end then
    match fuel with
    | O => None
    | S fuel' => w ← m !! (sp + 4); rest ← panic_dump_stack fuel' m (sp + 4) stack_end; Some (w :: rest)
    end
  else Some [].

(** ** Properties *)

(** The line of a thread. *)
Definition row_of (h : gmap Z tcb) (p : Z) : list thread_row :=
  match h !! p with
  | Some t => [mk_row (kdb_get_thread_type t) (t_globalid t) (t_localid t) (t_state t) (if t_parent t =? NULL then 0 else default 0 (t_globalid <$> h !! t_parent t))]
  | None => []
  end.

(** The dump of the threads has one line for each thread of the dispatcher, and no other. *)
Theorem kdb_dump_threads_lists (s : thrstate) (ents : list (Z * Z)) (Hi : thr_inv s ents)
    (Hp : forall p t, p ∈ ents.*1 -> tcbs s !! p = Some t -> t_parent t <> NULL -> is_Some (tcbs s !! t_parent t)) :
  exists ps, kdb_dump_threads s = Done (ps ≫= row_of (tcbs s), s) /\ ps ≡ₚ ents.*1.
Proof.
  pose proof Hi as [_ Hwf _ Hd Hl Hnd]. exists (kt_elements (thread_table s)). split.
  - destruct (for_each_ok thread_table thread_line (row_of (tcbs s)) (eq s) (thread_table s) s Hwf ltac:(by intros ? <-) eq_refl) as (s' & E & <-); [|done].
    intros p ? <- Hin. exists s. split; [|done]. assert (Hin' : p ∈ ents.*1) by (by rewrite <- Hl, <- kt_elements_live). destruct (proj2 (Hd p)) as [t Ht].
    { rewrite kt_elements_live, elem_of_kt_live in Hin. destruct Hin as (i & Hi' & _ & ->). apply elem_of_kt_slots. by exists i. }
    unfold thread_line, row_of. rewrite (bind_Done _ _ _ _ _ (get_tcb_ok _ _ _ Ht)), Ht. destruct (Z.eqb_spec (t_parent t) NULL) as [|Hn]; cbn [negb]; [done|].
    destruct (Hp p t Hin' Ht Hn) as [tp Htp]. rewrite (bind_Done _ _ s (t_globalid tp) s) by (by rewrite (bind_Done _ _ _ _ _ (get_tcb_ok _ _ _ Htp))). by rewrite Htp.
  - apply NoDup_Permutation; [by apply NoDup_kt_elements|done|]. intros p. by rewrite kt_elements_live, Hl.
Qed.

(** The dump of a table marks exactly the elements in use. *)
Theorem kdb_dump_ktable_marks (kt : ktable) (Hwf : kt_wf kt) : kdb_dump_ktable kt = Done (kt_allocated kt <$> seqZ 0 (kt_num kt), kt).
Proof.
  unfold kdb_dump_ktable. rewrite (bind_Done (gets kt_num) _ kt _ _ eq_refl).
  assert (H : forall n j, 0 <= j -> j + Z.of_nat n = kt_num kt -> table_marks n j kt = Done (kt_allocated kt <$> seqZ j (Z.of_nat n), kt)).
  { induction n as [|n IH]; intros j Hj Hn; [done|]. cbn [table_marks]. assert (E : on_bitmap (bitmap_get_bit j) kt = Done (b2z (kt_allocated kt j), kt)).
    { unfold on_bitmap, zoom. rewrite bitmap_get_bit_ok by (apply kt_in_bitmap; [done|lia]). by destruct kt. }
    rewrite (bind_Done _ _ _ _ _ E), (bind_Done _ _ _ _ _ (IH (j + 1) ltac:(lia) ltac:(lia))). rewrite (seqZ_cons j) by lia. replace (Z.pred (Z.of_nat (S n))) with (Z.of_nat n) by lia.
    replace (Z.succ j) with (j + 1) by lia. by destruct (kt_allocated kt j) eqn:Ea; cbn; rewrite Ea. }
  pose proof (wf_num _ Hwf). rewrite (H (Z.to_nat (kt_num kt)) 0) by lia. by rewrite Z2Nat.id by lia.
Qed.

(** The dump of the events is the queue. *)
Theorem kdb_dump_events_lists (s : ktimerstate) (l : list (Z * Z)) (Hc : chain (kevents s) (event_queue s) l) (Hn : NoDup l.*1) : kdb_dump_events s = Done (l, s).
Proof.
  unfold kdb_dump_events. rewrite (bind_Done (gets queue_fuel) _ s _ _ eq_refl), (bind_Done (gets event_queue) _ s _ _ eq_refl).
  assert (Hle : (length l <= queue_fuel s)%nat).
  { enough (length l.*1 <= size (kevents s))%nat by (unfold queue_fuel; rewrite length_fmap in *; lia). rewrite <- size_dom, <- (size_list_to_set (C := gset Z) l.*1) by done. apply subseteq_size.
    intros e He. apply elem_of_list_to_set in He. clear Hn. revert Hc. generalize (event_queue s). induction l as [|[e1 d] l IH]; intros q Hc; [by apply elem_of_nil in He|]. destruct Hc as (-> & _ & ev & Hev & _ & Hc).
    apply elem_of_cons in He as [->|He]; [by apply elem_of_dom_2 in Hev|by eapply IH]. }
  clear Hn. revert Hc Hle. generalize (queue_fuel s) (event_queue s). intros fuel q. revert fuel q. induction l as [|[e d] l IH]; intros fuel q Hc Hle.
  - cbn in Hc. subst q. by destruct fuel.
  - destruct Hc as (-> & Hnn & ev & Hev & <- & Hc). destruct fuel as [|fuel]; [cbn in Hle; lia|]. cbn [events_loop]. rewrite (proj2 (Z.eqb_neq _ _) Hnn).
    assert (E : get_kte e s = Done (ev, s)) by (unfold get_kte; by rewrite Hev). rewrite (bind_Done _ _ _ _ _ E), (bind_Done _ _ _ _ _ (IH fuel _ Hc ltac:(cbn in Hle; lia))). done.
Qed.

(** The dump of the stack begins behind the word at the stack pointer and ends with the word at the
    end of the stack, which is not on the stack. *)
Theorem panic_dump_stack_shifted (m : gmap Z Z) (sp : Z) (ws : list Z) (Hm : forall (i : nat) w, ws !! i = Some w -> m !! (sp + 4 + 4 * Z.of_nat i) = Some w) :
  panic_dump_stack (length ws) m sp (sp + 4 * Z.of_nat (length ws)) = Some ws.
Proof.
  revert sp Hm. induction ws as [|w ws IH]; intros sp Hm; cbn [panic_dump_stack length].
  - destruct (Z.ltb_spec sp (sp + 4 * Z.of_nat 0)); [lia|done].
  - destruct (Z.ltb_spec sp (sp + 4 * Z.of_nat (S (length ws)))); [|lia]. pose proof (Hm 0%nat w eq_refl) as H0. rewrite Z.mul_0_r, Z.add_0_r in H0. rewrite H0. cbn [mbind option_bind].
    replace (sp + 4 * Z.of_nat (S (length ws))) with (sp + 4 + 4 * Z.of_nat (length ws)) by lia. rewrite IH; [done|]. intros i x Hi. rewrite <- (Hm (S i) x Hi). f_equal. lia.
Qed.

(** *** Address spaces *)

Lemma on_fp p f (s : kdbmem) : fpages (km_mem s) !! p = Some f -> on (get_fp p) s = Done (f, s).
Proof. intros H. rewrite (on_Done (P := memstate) (get_fp p) s f (km_mem s)) by (unfold get_fp; cbn; by rewrite H). by destruct s. Qed.

Lemma unmark_pages_ok l : forall fuel p s, as_list (fpages (km_mem s)) p l -> (length l <= fuel)%nat ->
  unmark_pages fuel p s = Done (tt, mk_kdb (km_mem s) (km_used s ∖ list_to_set l)).
Proof.
  induction l as [|q l IH]; intros fuel p s Hl Hf.
  - cbn in Hl. subst p. destruct fuel; cbn; unfold mret, M_ret; f_equal; f_equal; destruct s; f_equal; set_solver.
  - destruct Hl as (-> & Hn & f & Hq & Hl). destruct fuel as [|fuel]; [cbn in Hf; lia|]. cbn [unmark_pages]. rewrite (proj2 (Z.eqb_neq _ _) Hn), (bind_Done _ _ _ _ _ (on_fp _ _ _ Hq)).
    rewrite (bind_Done (set_used q false) _ s _ _ eq_refl). rewrite IH by (done || (cbn in Hf; lia)). cbn. f_equal. f_equal. f_equal. set_solver.
Qed.

Lemma mark_pages_ok l : forall k p s, mpu_seg (fpages (km_mem s)) p l ->
  mark_pages k p s = Done ((k - length l)%nat, mk_kdb (km_mem s) (list_to_set (take k l) ∪ km_used s)).
Proof.
  induction l as [|q l IH]; intros k p s Hl.
  - cbn in Hl. subst p. destruct k; cbn; unfold mret, M_ret; f_equal; f_equal; destruct s; f_equal; set_solver.
  - destruct Hl as (-> & Hn & f & Hq & Hl). destruct k as [|k]; cbn [mark_pages].
    + cbn. unfold mret, M_ret. f_equal. f_equal. destruct s. f_equal. set_solver.
    + rewrite (proj2 (Z.eqb_neq _ _) Hn), (bind_Done _ _ _ _ _ (on_fp _ _ _ Hq)). rewrite (bind_Done (set_used q true) _ s _ _ eq_refl). rewrite IH by done. cbn. f_equal. f_equal. f_equal. set_solver.
Qed.

(** The lines of the pages [l], of which those in [used] are marked. *)
Fixpoint lines_of (h : gmap Z fpage) (used : gset Z) (panic_state : bool) (nl : Z) (l : list Z) : list as_line :=
  match l with
  | [] => []
  | p :: l' =>
      match h !! p with
      | Some f =>
          let stop := negb panic_state && (nl + 1 =? 12) in
          Page (bool_decide (p ∈ used)) (fp_mpid f) (fp_base f) (fp_shift f) :: (if stop then [Key] else []) ++ lines_of h used panic_state (if stop then 0 else nl + 1) l'
      | None => []
      end
  end.

Lemma page_lines_ok b l : forall fuel nl p s, as_list (fpages (km_mem s)) p l -> (length l <= fuel)%nat ->
  page_lines fuel b nl p s = Done (lines_of (fpages (km_mem s)) (km_used s) b nl l, s).
Proof.
  induction l as [|q l IH]; intros fuel nl p s Hl Hf.
  - cbn in Hl. subst p. by destruct fuel.
  - destruct Hl as (-> & Hn & f & Hq & Hl). destruct fuel as [|fuel]; [cbn in Hf; lia|]. cbn [page_lines lines_of]. rewrite (proj2 (Z.eqb_neq _ _) Hn), (bind_Done _ _ _ _ _ (on_fp _ _ _ Hq)), Hq.
    rewrite (bind_Done (gets _) _ s _ _ eq_refl). cbv zeta. by rewrite (bind_Done _ _ _ _ _ (IH fuel _ _ s Hl ltac:(cbn in Hf; lia))).
Qed.

(** The pages of a space, the pages for its stack and those that were put in the protection unit. *)
Record space_lists (m : memstate) (a : Z) (as_ : as_t) (l stack mpu_l : list Z) : Prop := {
  sl_as : ases m !! a = Some as_;
  sl_list : as_list (fpages m) (as_first as_) l;
  sl_nodup : NoDup l;
  sl_stack : mpu_seg (fpages m) (as_mpu_stack_first as_) stack;
  sl_mpu : mpu_seg (fpages m) (as_mpu_first as_) mpu_l;
}.

Lemma as_list_dom h p l : as_list h p l -> forall q, q ∈ l -> is_Some (h !! q).
Proof.
  revert p. induction l as [|x l IH]; intros p Hl q Hq; [by apply elem_of_nil in Hq|]. destruct Hl as (-> & _ & f & Hf & Hl). apply elem_of_cons in Hq as [->|Hq]; [by eexists|by eapply IH].
Qed.

Lemma take_app_used (stack mpu_l : list Z) : (list_to_set (take (8 - length stack) mpu_l) ∪ list_to_set (take 8 stack) : gset Z) = list_to_set (take 8 (stack ++ mpu_l)).
Proof. rewrite take_app, list_to_set_app_L. set_solver. Qed.

(** The dump of a space lists its pages in order; a page is marked if it is among the first eight
    of the stack and of the protection unit, the pages that [as_setup_mpu] gives regions to. *)
Theorem as_lines_marks (b : bool) (s : kdbmem) (a : Z) (as_ : as_t) (l stack mpu_l : list Z) (H : space_lists (km_mem s) a as_ l stack mpu_l) :
  exists u, as_lines b a s = Done (Space (as_spaceid as_) :: lines_of (fpages (km_mem s)) u b 0 l, mk_kdb (km_mem s) u) /\
    forall p, p ∈ l -> p ∈ u <-> p ∈ take 8 (stack ++ mpu_l).
Proof.
  destruct H as [Ha Hl Hn Hs Hm]. assert (Hf : (length l <= fp_fuel (km_mem s))%nat).
  { enough (length l <= size (fpages (km_mem s)))%nat by (unfold fp_fuel; lia). rewrite <- size_dom, <- (size_list_to_set (C := gset Z) l) by done. apply subseteq_size.
    intros p Hp. apply elem_of_list_to_set in Hp. apply elem_of_dom. by eapply as_list_dom. }
  set (u1 := km_used s ∖ list_to_set l). exists (list_to_set (take (8 - length stack) mpu_l) ∪ (list_to_set (take 8 stack) ∪ u1)). split.
  - unfold as_lines. assert (Ea : on (get_as a) s = Done (as_, s)) by (rewrite (on_Done (P := memstate) (get_as a) s as_ (km_mem s)) by (unfold get_as; cbn; by rewrite Ha); by destruct s).
    rewrite (bind_Done _ _ _ _ _ Ea). rewrite (bind_Done (on (gets fp_fuel)) _ s (fp_fuel (km_mem s)) s) by (by destruct s).
    rewrite (bind_Done _ _ _ _ _ (unmark_pages_ok l _ _ s Hl Hf)). fold u1. rewrite (bind_Done _ _ _ _ _ (mark_pages_ok stack 8 _ (mk_kdb (km_mem s) u1) Hs)).
    rewrite (bind_Done _ _ _ _ _ (mark_pages_ok mpu_l _ _ (mk_kdb (km_mem s) (list_to_set (take 8 stack) ∪ u1)) Hm)). cbn [km_mem km_used].
    by rewrite (bind_Done _ _ _ _ _ (page_lines_ok b l _ 0 _ (mk_kdb (km_mem s) _) Hl Hf)).
  - intros p Hp. rewrite assoc_L, take_app_used by apply _. unfold u1. rewrite <- (elem_of_list_to_set (C := gset Z)). set_solver.
Qed.

Lemma lines_of_ext h u u' b l : (forall p, p ∈ l -> p ∈ u <-> p ∈ u') -> forall nl, lines_of h u b nl l = lines_of h u' b nl l.
Proof.
  induction l as [|p l IH]; intros H nl; cbn [lines_of]; [done|]. destruct (h !! p); [|done]. rewrite (bool_decide_ext (p ∈ u) (p ∈ u')) by (apply H; left). by rewrite IH by (intros; apply H; by right).
Qed.

(** The dump of all spaces: the lines of each space in use, in the order of the table, whatever
    marks were left before; memory is not changed. *)
Theorem kdb_dump_as_lists (b : bool) (s : kdbmem) (space : Z -> as_t) (pages stack mpu_l : Z -> list Z) (Hwf : kt_wf (as_table (km_mem s)))
    (H : forall a, a ∈ kt_live (as_table (km_mem s)) -> space_lists (km_mem s) a (space a) (pages a) (stack a) (mpu_l a)) :
  exists s', kdb_dump_as b s =
      Done (kt_elements (as_table (km_mem s)) ≫= (fun a => Space (as_spaceid (space a)) :: lines_of (fpages (km_mem s)) (list_to_set (take 8 (stack a ++ mpu_l a))) b 0 (pages a)), s') /\
    km_mem s' = km_mem s.
Proof.
  apply (for_each_ok (fun s => as_table (km_mem s)) (as_lines b) _ (fun s' => km_mem s' = km_mem s) (as_table (km_mem s)) s); [done|by intros ? ->|done|].
  intros a s1 E1 Hin. rewrite kt_elements_live in Hin. rewrite <- E1 in *. destruct (as_lines_marks b s1 a _ _ _ _ (H a Hin)) as (u & E & Hu). exists (mk_kdb (km_mem s1) u). split; [|done].
  rewrite E. f_equal. f_equal. f_equal. apply lines_of_ext. intros p Hp. rewrite (Hu p Hp). by rewrite elem_of_list_to_set.
Qed.
