(* ===== verification/Console.v ===== *)
(** * The console

    Composes the serial line as console: [board/discoveryf4/board.c] in the configuration with
    UART4, [dbg_uart_init] of [platform/debug_uart.c] and the devices of
    [platform/debug_device.c] (without the buffer in memory, as in the default configuration, or
    with it: [dev_ram]), with the pins ([Gpio]), the driver ([DebugUart]) and the interrupt
    controller ([Nvic]).

    The registers of the line are among those of the peripherals; [on_uart] runs an operation of
    the driver on them.  The addresses of the driver's functions are parameters. *)

From S2P Require Import Prelude Bits Queue Gpio GpioProps Nvic DebugUart DebugDevice.

(** ** Data *)

Definition UART4_BASE : Z := APB1PERIPH_BASE + 0x4C00.
Definition RCC_APB1ENR : Z := RCC_BASE + 0x40.
Definition RCC_APB1RSTR_USART4RST : Z := Z.shiftl 1 19.
Definition UART4_IRQn : Z := 52.
Definition af_uart4 : Z := 8.
Definition GPIO_PUPDR_NONE : Z := 0.
Definition GPIO_OSPEEDR_50M : Z := 2.
Definition SEND_BUFSIZE : Z := 2048.
Definition RECV_BUFSIZE : Z := 32.

(** [board.c]; the pins are 0 and 1 of the port A. *)
Definition console_uart : usart_dev :=
  mk_usart 4 115200 UART4_BASE RCC_APB1ENR RCC_APB1RSTR_USART4RST
    (mk_cfg 0 0 GPIO_PUPDR_NONE GPIO_OSPEEDR_50M GPIO_MODER_ALT af_uart4 GPIO_OTYPER_PP)
    (mk_cfg 0 1 GPIO_PUPDR_NONE GPIO_OSPEEDR_50M GPIO_MODER_ALT af_uart4 GPIO_OTYPER_PP).

(** The registers of the peripherals, the variables of the driver, the bytes stored in the data
    register, the interrupt controller and the devices. *)
Record console := mk_console {
  con_regs : registers;
  con_ready : Z;
  con_tx : queue_t;
  con_rx : queue_t;
  con_state : dbg_state_t;
  con_written : list Z;
  con_nvic : nvic;
  con_dbg : dbgstate;
}.

#[export] Instance con_regs_part : Part registers console :=
  { get_part := con_regs; put_part r c := mk_console r (con_ready c) (con_tx c) (con_rx c) (con_state c) (con_written c) (con_nvic c) (con_dbg c) }.
#[export] Instance con_nvic_part : Part nvic console :=
  { get_part := con_nvic; put_part n c := mk_console (con_regs c) (con_ready c) (con_tx c) (con_rx c) (con_state c) (con_written c) n (con_dbg c) }.
#[export] Instance con_dbg_part : Part dbgstate console :=
  { get_part := con_dbg; put_part d c := mk_console (con_regs c) (con_ready c) (con_tx c) (con_rx c) (con_state c) (con_written c) (con_nvic c) d }.

(** The registers of the line, as the driver sees them. *)
Definition line_regs (c : console) : option usart_regs :=
  let b := UART4_BASE in
  match con_regs c !! b, con_regs c !! (b + 4), con_regs c !! (b + 12), con_regs c !! (b + 16), con_regs c !! (b + 20) with
  | Some sr, Some dr, Some cr1, Some cr2, Some cr3 => Some (mk_regs sr dr cr1 cr2 cr3 (con_written c))
  | _, _, _, _, _ => None
  end.
Definition store_line (l : usart_regs) (r : registers) : registers :=
  let b := UART4_BASE in <[b := SR l]> (<[b + 4 := DR l]> (<[b + 12 := DebugUart.CR1 l]> (<[b + 16 := DebugUart.CR2 l]> (<[b + 20 := CR3 l]> r)))).
Definition uart_of (c : console) : option uart_t := mk_uart (con_ready c) (con_tx c) (con_rx c) (con_state c) <$> line_regs c.
Definition with_uart (u : uart_t) (c : console) : console :=
  mk_console (store_line (regs u) (con_regs c)) (DebugUart.ready u) (DebugUart.tx u) (DebugUart.rx u) (dbg_state u) (written (regs u)) (con_nvic c) (con_dbg c).

Definition on_uart {A} (m : M uart_t A) : M console A := fun c =>
  match uart_of c with
  | None => Fault
  | Some u => match m u with Done (a, u') => Done (a, with_uart u' c) | Panic => Panic | Fault => Fault | OutOfFuel => OutOfFuel end
  end.

(** ** Operations *)

Section init.
(** Whether the buffer in memory is a device, the error numbers, the addresses of functions, the contents of the buffers, what the
    hardware does to the status register, and how often the status is read after a panic. *)
Variable dev_ram : bool.
Variables EINVAL default_getchar default_putchar default_start_panic ram_putchar : Z.
Variables uart_getchar uart_putchar uart_start_panic : Z.
Variables tx_buffer rx_buffer : list Z.
Variable hw : Z -> Z.
Variable fuel : nat.

Definition dbg_uart_init : M console unit :=
  on (usart_init console_uart);;
  on_uart (
    set_ready 1;;
    on_tx (queue_init tx_buffer SEND_BUFSIZE);;
    on_rx (queue_init rx_buffer RECV_BUFSIZE);;
    set_dbg_state DBG_ASYNC;;
    on_regs (usart_config_interrupt (u_num console_uart) USART_IT_RXNE 1));;
  on (NVIC_SetPriority UART4_IRQn 0xf 0;; NVIC_ClearPendingIRQ UART4_IRQn;; NVIC_EnableIRQ UART4_IRQn);;
  on (dbg_register_device dev_ram EINVAL (Some (mk_dev DBG_DEV_UART uart_getchar uart_putchar uart_start_panic)));;
  mret tt.

(** [dbg_device_init] with the serial line. *)
Definition console_init : M console unit :=
  dbg_device_init dev_ram EINVAL default_getchar default_putchar default_start_panic ram_putchar dbg_uart_init.

(** The calls through the pointers of the serial line. *)
Definition call_uart_put (h chr : Z) : M console unit :=
  if h =? uart_putchar then on_uart (dbg_uart_putchar (u_num console_uart) hw fuel chr) else fault.
Definition console_putchar (chr : Z) : M console unit := dbg_putchar default_putchar ram_putchar call_uart_put chr.
Fixpoint console_puts (l : list Z) : M console unit :=
  match l with [] => mret tt | c :: l => console_putchar c;; console_puts l end.
End init.

(** ** Lemmas *)

Lemma or_reg_ok a v w r : r !! a = Some w -> or_reg a v r = Done (tt, <[a := Z.lor w v]> r).
Proof. intros H. unfold or_reg. rewrite (bind_Done (read_reg a) _ r w r) by (unfold read_reg; by rewrite H). unfold write_reg. by rewrite H. Qed.

Lemma and_reg_ok a v w r : r !! a = Some w -> and_reg a v r = Done (tt, <[a := Z.land w v]> r).
Proof. intros H. unfold and_reg. rewrite (bind_Done (read_reg a) _ r w r) by (unfold read_reg; by rewrite H). unfold write_reg. by rewrite H. Qed.

Lemma write_reg_ok a v w r : r !! a = Some w -> write_reg a v r = Done (tt, <[a := v]> r).
Proof. intros H. unfold write_reg. by rewrite H. Qed.

Lemma uart_of_with u c : uart_of (with_uart u c) = Some u.
Proof.
  unfold uart_of, line_regs, with_uart, store_line. cbn [con_regs con_ready con_tx con_rx con_state con_written].
  rewrite lookup_insert_eq, !(lookup_insert_ne _ UART4_BASE), lookup_insert_eq by done.
  rewrite !(lookup_insert_ne _ (UART4_BASE + 4)), lookup_insert_eq, !(lookup_insert_ne _ (UART4_BASE + 12)), lookup_insert_eq by done.
  rewrite !(lookup_insert_ne _ (UART4_BASE + 16)), lookup_insert_eq by done. by destruct u as [? ? ? ? []].
Qed.

(** Registers that the driver does not use. *)
Definition not_line (a : Z) : Prop := a ∉ [UART4_BASE; UART4_BASE + 4; UART4_BASE + 12; UART4_BASE + 16; UART4_BASE + 20].
Lemma with_uart_regs u c a : not_line a -> con_regs (with_uart u c) !! a = con_regs c !! a.
Proof.
  unfold not_line. rewrite !not_elem_of_cons. intros (H1 & H2 & H3 & H4 & H5 & _). unfold with_uart, store_line. cbn [con_regs]. by rewrite !lookup_insert_ne by congruence.
Qed.

Lemma on_uart_Done {A} (m : M uart_t A) c u a u' : uart_of c = Some u -> m u = Done (a, u') -> on_uart m c = Done (a, with_uart u' c).
Proof. intros H E. unfold on_uart. by rewrite H, E. Qed.

(** The registers the set-up uses, and the lengths of the others. *)
Record line_present (dev_ram : bool) (c : console) : Prop := {
  lp_port : GpioProps.ready (con_regs c) 0;
  lp_clock : exists w, con_regs c !! RCC_AHB1ENR = Some w /\ is_u32 w;
  lp_regs : Forall (fun a => exists w, con_regs c !! a = Some w /\ is_u32 w) [RCC_APB1ENR; UART4_BASE; UART4_BASE + 4; UART4_BASE + 8; UART4_BASE + 12; UART4_BASE + 16; UART4_BASE + 20];
  lp_idle : forall w, con_regs c !! (UART4_BASE + 12) = Some w -> Z.testbit w 7 = false;
  lp_nvic : length (IP (con_nvic c)) = 82%nat /\ length (enabled (con_nvic c)) = 3%nat /\ length (pending (con_nvic c)) = 3%nat;
  lp_written : con_written c = [];
  lp_dev : length (dbg_dev (con_dbg c)) = Z.to_nat (DBG_DEV_MAX dev_ram) /\ cur_dev (con_dbg c) = 0;
}.

(** What [usart_init] leaves in the registers. *)
Record line_set (r r' : registers) : Prop := {
  ls_tx : pin_view r' 0 0 = mk_pin (Some 2) (Some 0) (Some 2) (Some 0) (Some 8);
  ls_rx : pin_view r' 0 1 = mk_pin (Some 2) (Some 0) (Some 2) (Some 0) (Some 8);
  ls_pins : forall p q, 0 <= p < 11 -> 0 <= q < 16 -> (p, q) <> (0, 0) -> (p, q) <> (0, 1) -> pin_view r' p q = pin_view r p q;
  ls_clock : exists w, r' !! RCC_AHB1ENR = Some w /\ Z.testbit w 0 = true;
  ls_apb : exists w, r' !! RCC_APB1ENR = Some w /\ Z.testbit w 19 = true;
  ls_brr : r' !! (UART4_BASE + 8) = Some 364;
  ls_cr1 : exists w w', r !! (UART4_BASE + 12) = Some w /\ r' !! (UART4_BASE + 12) = Some w' /\ Z.testbit w' 13 = true /\ Z.testbit w' 12 = false /\
    Z.testbit w' 3 = true /\ Z.testbit w' 2 = true /\ Z.testbit w' 7 = Z.testbit w 7;
  ls_cr2 : exists w, r' !! (UART4_BASE + 16) = Some w /\ field w 12 2 = 0;
  ls_other : forall a, not_line a -> a ∉ [RCC_AHB1ENR; RCC_APB1ENR; UART4_BASE + 8] -> a ∉ port_regs 0 -> r' !! a = r !! a;
}.

Ltac not_in := unfold port_regs; rewrite ?not_elem_of_cons; split_and!; first [done | apply not_elem_of_nil].

(** A register of the line is not one of a port. *)
Lemma pin_view_line r a w p q : UART4_BASE <= a < UART4_BASE + 32 -> 0 <= p < 11 -> pin_view (<[a := w]> r) p q = pin_view r p q.
Proof.
  intros Ha Hp. unfold UART4_BASE, APB1PERIPH_BASE, PERIPH_BASE in Ha. unfold pin_view, reg_field.
  rewrite !lookup_insert_ne; [done|..]; unfold GPIO_MODER, GPIO_OTYPER, GPIO_OSPEEDR, GPIO_PUPDR, GPIO_AFRL, GPIO_AFRH, GPIO_BASE, AHB1PERIPH_BASE, PERIPH_BASE; lia.
Qed.

Lemma usart_init_ok dev_ram c : line_present dev_ram c -> exists r', usart_init console_uart (con_regs c) = Done (tt, r') /\ line_set (con_regs c) r' /\
  forall a, a ∈ [UART4_BASE; UART4_BASE + 4; UART4_BASE + 20] -> r' !! a = con_regs c !! a.
Proof.
  intros [Hp (w & Hw & Hu) Hr _ _ _ _]. set (r := con_regs c) in *. rewrite !Forall_cons in Hr. destruct Hr as ((wa & Ha & Hua) & (w0 & H0 & _) & (w4 & H4 & _) & (w8 & H8 & _) & (w12 & H12 & _) & (w16 & H16 & _) & (w20 & H20 & _) & _).
  unfold usart_init. cbn [rcc_apbenr rcc_reset Gpio.tx Gpio.rx base baud console_uart].
  rewrite (bind_Done _ _ _ _ _ (or_reg_ok RCC_APB1ENR RCC_APB1RSTR_USART4RST wa r Ha)). set (r1 := <[RCC_APB1ENR := _]> r).
  destruct (gpio_config_configures (mk_cfg 0 0 GPIO_PUPDR_NONE GPIO_OSPEEDR_50M GPIO_MODER_ALT af_uart4 GPIO_OTYPER_PP) r1 w) as (r2 & w2 & E2 & Hw2 & Hu2 & _ & Hv2 & Ho2 & Hr2 & Hf2);
    [split; by cbn|done|apply ready_insert; [done|by apply lor_u32]|unfold r1; by rewrite lookup_insert_ne|done|].
  cbn [Gpio.port pin] in Hv2, Ho2, Hr2, Hf2. rewrite (bind_Done _ _ _ _ _ E2).
  destruct (gpio_config_configures (mk_cfg 0 1 GPIO_PUPDR_NONE GPIO_OSPEEDR_50M GPIO_MODER_ALT af_uart4 GPIO_OTYPER_PP) r2 w2) as (r3 & w3 & E3 & Hw3 & Hu3 & Hb3 & Hv3 & Ho3 & Hr3 & Hf3);
    [split; by cbn|done|done|done|done|].
  cbn [Gpio.port pin] in Hb3, Hv3, Ho3, Hr3, Hf3. rewrite (bind_Done _ _ _ _ _ E3).
  assert (Hf : forall a, a <> RCC_APB1ENR -> a <> RCC_AHB1ENR -> a ∉ port_regs 0 -> r3 !! a = r !! a).
  { intros a N1 N2 N3. rewrite Hf3, Hf2 by done. by apply lookup_insert_ne. }
  pose proof (Hf (Gpio.CR1 UART4_BASE) ltac:(done) ltac:(done) ltac:(not_in)) as F12. pose proof (Hf (Gpio.CR2 UART4_BASE) ltac:(done) ltac:(done) ltac:(not_in)) as F16.
  pose proof (Hf (BRR UART4_BASE) ltac:(done) ltac:(done) ltac:(not_in)) as F8.
  rewrite (bind_Done _ _ _ _ _ (or_reg_ok (Gpio.CR1 UART4_BASE) _ _ _ (eq_trans F12 H12))). set (r4 := <[_ := _]> r3).
  rewrite (bind_Done _ _ _ _ _ (and_reg_ok (Gpio.CR1 UART4_BASE) _ _ r4 (lookup_insert_eq _ _ _))). set (r5 := <[_ := _]> r4).
  assert (H5 : r5 !! Gpio.CR2 UART4_BASE = Some w16) by (unfold r5, r4; by rewrite !lookup_insert_ne, F16).
  rewrite (bind_Done _ _ _ _ _ (and_reg_ok _ _ _ _ H5)). set (r6 := <[_ := _]> r5).
  assert (H6 : r6 !! BRR UART4_BASE = Some w8) by (unfold r6, r5, r4; by rewrite !lookup_insert_ne, F8).
  rewrite (bind_Done _ _ _ _ _ (write_reg_ok _ _ _ _ H6)). set (r7 := <[_ := _]> r6).
  assert (H7 : r7 !! Gpio.CR1 UART4_BASE = r5 !! Gpio.CR1 UART4_BASE) by (unfold r7, r6; by rewrite !lookup_insert_ne).
  rewrite (or_reg_ok _ _ _ _ (eq_trans H7 (lookup_insert_eq _ _ _))). eexists. split; [reflexivity|].
  assert (Hv : forall p q, 0 <= p < 11 -> pin_view (<[Gpio.CR1 UART4_BASE := Z.lor (Z.land (Z.lor w12 USART_CR1_UE) (not32 USART_CR1_M9)) (Z.lor USART_CR1_RE USART_CR1_TE)]> r7) p q = pin_view r3 p q).
  { intros p q Hp'. unfold r7, r6, r5, r4. rewrite !pin_view_line; try done; unfold Gpio.CR1, Gpio.CR2, BRR; lia. }
  assert (Hf' : forall a, a <> Gpio.CR1 UART4_BASE -> a <> Gpio.CR2 UART4_BASE -> a <> BRR UART4_BASE -> r7 !! a = r3 !! a).
  { intros a N1 N2 N3. unfold r7, r6, r5, r4. by rewrite !lookup_insert_ne. }
  split; [split|].
  - rewrite Hv, Ho3, Hv2 by done. done.
  - rewrite Hv, Hv3 by done. done.
  - intros p q Hp' Hq N1 N2. rewrite Hv, Ho3, Ho2 by done. unfold pin_view, reg_field, r1. by rewrite !lookup_insert_ne by (unfold RCC_APB1ENR; gpio_addr).
  - exists w3. rewrite lookup_insert_ne, Hf' by done. done.
  - exists (Z.lor wa RCC_APB1RSTR_USART4RST). rewrite lookup_insert_ne, Hf', Hf3, Hf2 by (done || not_in). split; [apply lookup_insert_eq|]. by rewrite Z.lor_spec, orb_true_r.
  - rewrite lookup_insert_ne by done. exact (lookup_insert_eq r6 _ _).
  - exists w12. eexists. split; [exact H12|]. split; [apply lookup_insert_eq|]. rewrite !Z.lor_spec, !Z.land_spec, !Z.lor_spec. rewrite ?orb_true_r, ?andb_false_r. split_and!; try done.
    by rewrite ?orb_false_r, ?andb_true_r, ?orb_false_r.
  - eexists. rewrite lookup_insert_ne by done. split; [unfold r7; rewrite lookup_insert_ne by done; apply lookup_insert_eq|].
    apply Z.bits_inj'. intros k Hk. rewrite testbit_field, Z.land_spec, Z.bits_0 by lia. destruct (Z.ltb_spec k 2); [|done].
    assert (k = 0 \/ k = 1) as [-> | ->] by lia; apply andb_false_r.
  - intros a N1 N2 N3. unfold not_line in N1. rewrite !not_elem_of_cons in N1. rewrite !not_elem_of_cons in N2. destruct N1 as (A1 & A2 & A3 & A4 & A5 & _). destruct N2 as (A6 & A7 & A8 & _). by rewrite lookup_insert_ne, Hf', Hf by (done || congruence).
  - intros a Hin. rewrite !elem_of_cons in Hin. destruct_or! Hin; [subst a; rewrite lookup_insert_ne, Hf', Hf by (done || not_in); done..|by apply not_elem_of_nil in Hin].
Qed.

(** Enabling the interrupt of the receiver keeps what [usart_init] has set. *)
Lemma line_set_enable r c u w : line_set r (con_regs c) -> con_regs c !! (UART4_BASE + 12) = Some w -> DebugUart.CR1 (regs u) = Z.lor w 32 ->
  con_regs c !! (UART4_BASE + 16) = Some (DebugUart.CR2 (regs u)) -> line_set r (con_regs (with_uart u c)) /\ Z.testbit (DebugUart.CR1 (regs u)) 5 = true.
Proof.
  intros [H1 H2 H3 H4 H5 H6 H7 H8 H9] Hw Hc Hc2. split; [|rewrite Hc, Z.lor_spec; apply orb_true_r].
  assert (Hv : forall p q, 0 <= p < 11 -> pin_view (con_regs (with_uart u c)) p q = pin_view (con_regs c) p q).
  { intros p q Hp. unfold with_uart, store_line. cbn [con_regs]. by rewrite !pin_view_line by (done || lia). }
  assert (Hf : forall a, not_line a -> con_regs (with_uart u c) !! a = con_regs c !! a) by (intros a; apply with_uart_regs).
  split; rewrite ?Hv by done; try done; rewrite ?Hf by (unfold not_line; not_in); try done.
  - intros p q Hp Hq N1 N2. rewrite Hv by done. by apply H3.
  - destruct H7 as (w0 & w' & E0 & E' & T1 & T2 & T3 & T4 & T5). assert (w' = w) as -> by congruence. exists w0, (Z.lor w 32). split; [done|]. split.
    { unfold with_uart, store_line. cbn [con_regs]. rewrite !(lookup_insert_ne _ _ (UART4_BASE + 12)) by done. by rewrite lookup_insert_eq, Hc. }
    rewrite !Z.lor_spec. change (Z.testbit 32 7) with false. by rewrite T1, T2, T3, T4, T5, (orb_false_r (Z.testbit w0 7)).
  - destruct H8 as (w2 & E2 & F2). exists w2. split; [|done]. unfold with_uart, store_line. cbn [con_regs].
    rewrite !(lookup_insert_ne _ _ (UART4_BASE + 16)) by done. by rewrite lookup_insert_eq, <- Hc2.
  - intros a N1 N2 N3. rewrite Hf by done. by apply H9.
Qed.

(** The interrupt of the line: enabled and not pending. *)
Record line_irq (n : nvic) : Prop := {
  li_enabled : exists w, zlookup (enabled n) 1 = Some w /\ Z.testbit w 20 = true;
  li_pending : exists w, zlookup (pending n) 1 = Some w /\ Z.testbit w 20 = false;
}.

Lemma line_irq_ok n : length (IP n) = 82%nat -> length (enabled n) = 3%nat -> length (pending n) = 3%nat -> SCB_AIRCR n = Z.lor AIRCR_VECTKEY_MASK NVIC_PriorityGroup_4 ->
  exists n', (NVIC_SetPriority UART4_IRQn 0xf 0;; NVIC_ClearPendingIRQ UART4_IRQn;; NVIC_EnableIRQ UART4_IRQn) n = Done (tt, n') /\ line_irq n'.
Proof.
  intros Hi He Hp Ha. destruct n as [air shpr ip en pe ac]. cbn in *. destruct en as [|e0 [|e1 [|e2 [|]]]]; try done. destruct pe as [|p0 [|p1 [|p2 [|]]]]; try done.
  assert (E1 : NVIC_SetPriority UART4_IRQn 0xf 0 (mk_nvic air shpr ip [e0; e1; e2] [p0; p1; p2] ac) = Done (tt, mk_nvic air shpr (<[52%nat := 0xf0]> ip) [e0; e1; e2] [p0; p1; p2] ac)).
  { unfold NVIC_SetPriority, mbind, M_bind, gets. cbn [SCB_AIRCR]. change (UART4_IRQn <? 0) with false. cbv iota beta. unfold store_reg. cbn [IP]. rewrite Ha. by rewrite zinsert_Some by (unfold UART4_IRQn; lia). }
  rewrite (bind_Done _ _ _ _ _ E1). exists (mk_nvic air shpr (<[52%nat := 0xf0]> ip) [e0; Z.lor e1 (irq_bit UART4_IRQn); e2] [p0; Z.ldiff p1 (irq_bit UART4_IRQn); p2] ac). split; [reflexivity|]. split.
  - exists (Z.lor e1 (irq_bit UART4_IRQn)). split; [reflexivity|]. by rewrite Z.lor_spec, orb_true_r.
  - exists (Z.ldiff p1 (irq_bit UART4_IRQn)). split; [reflexivity|]. by rewrite Z.ldiff_spec, andb_false_r.
Qed.

(** The priority is the lowest, 0xf, where the comment in [irq_init] reserves 0x2 for the line. *)
Lemma line_priority_lowest n : length (IP n) = 82%nat -> SCB_AIRCR n = Z.lor AIRCR_VECTKEY_MASK NVIC_PriorityGroup_4 ->
  exists n', NVIC_SetPriority UART4_IRQn 0xf 0 n = Done (tt, n') /\ priority_of n' UART4_IRQn = Some 0xf0.
Proof.
  intros Hi Ha. destruct n as [air shpr ip en pe ac]. cbn in *. exists (mk_nvic air shpr (<[52%nat := 0xf0]> ip) en pe ac). split.
  - unfold NVIC_SetPriority, mbind, M_bind, gets. cbn [SCB_AIRCR]. change (UART4_IRQn <? 0) with false. cbv iota beta. unfold store_reg. cbn [IP]. rewrite Ha. by rewrite zinsert_Some by (unfold UART4_IRQn; lia).
  - change (zlookup (<[52%nat := 0xf0]> ip) 52 = Some 0xf0). rewrite (zlookup_nat _ 52). apply list_lookup_insert_eq. lia.
Qed.

(** ** The set-up *)

Section init.
Variable dev_ram : bool.
Variables EINVAL default_getchar default_putchar default_start_panic ram_putchar : Z.
Variables uart_getchar uart_putchar uart_start_panic : Z.
Variables tx_buffer rx_buffer : list Z.
Hypothesis Htx : Z.of_nat (length tx_buffer) = SEND_BUFSIZE.
Hypothesis Hrx : Z.of_nat (length rx_buffer) = RECV_BUFSIZE.

(** The console is set up: [r] are the registers before. *)
Record console_up (r : registers) (c : console) : Prop := {
  cu_regs : line_set r (con_regs c);
  cu_irq : line_irq (con_nvic c);
  cu_uart : exists u, uart_of c = Some u /\ transmits u [] [] false /\ Z.testbit (DebugUart.CR1 (regs u)) 5 = true /\ size (DebugUart.tx u) = SEND_BUFSIZE /\ holds (DebugUart.rx u) [];
  cu_dev : zlookup (dbg_dev (con_dbg c)) 0 = Some (mk_dev DBG_DEV_UART uart_getchar uart_putchar uart_start_panic);
  cu_devs : length (dbg_dev (con_dbg c)) = Z.to_nat (DBG_DEV_MAX dev_ram);
  cu_cur : cur_dev (con_dbg c) = 0;
}.

Lemma driver_init_ok u : written (regs u) = [] -> txe_on (regs u) = false ->
  exists u', (set_ready 1;; on_tx (queue_init tx_buffer SEND_BUFSIZE);; on_rx (queue_init rx_buffer RECV_BUFSIZE);; set_dbg_state DBG_ASYNC;;
               on_regs (usart_config_interrupt (u_num console_uart) USART_IT_RXNE 1)) u = Done (tt, u') /\ transmits u' [] [] false /\ size (DebugUart.tx u') = SEND_BUFSIZE /\ holds (DebugUart.rx u') [] /\
    DebugUart.CR1 (regs u') = Z.lor (DebugUart.CR1 (regs u)) 32 /\ DebugUart.CR2 (regs u') = DebugUart.CR2 (regs u).
Proof.
  intros Hw Ht. destruct u as [rd qt qr st [sr dr c1 c2 c3 wr]]. cbn [regs written] in Hw. subst wr. change (Z.testbit c1 7 = false) in Ht.
  destruct (queue_init_holds tx_buffer SEND_BUFSIZE qt) as (q1 & E1 & H1 & S1); [by unfold SEND_BUFSIZE|done|].
  destruct (queue_init_holds rx_buffer RECV_BUFSIZE qr) as (q2 & E2 & H2 & S2); [by unfold RECV_BUFSIZE|done|].
  injection E1 as <-. injection E2 as <-. eexists. split; [reflexivity|]. split; [split; try done|done].
  change (Z.testbit (Z.lor c1 32) 7 = false). rewrite Z.lor_spec. by rewrite Ht.
Qed.

Lemma dbg_uart_init_ok c : line_present dev_ram c -> SCB_AIRCR (con_nvic c) = Z.lor AIRCR_VECTKEY_MASK NVIC_PriorityGroup_4 ->
  exists c', dbg_uart_init dev_ram EINVAL uart_getchar uart_putchar uart_start_panic tx_buffer rx_buffer c = Done (tt, c') /\ console_up (con_regs c) c'.
Proof.
  intros H Hg. pose proof H as [_ _ Hr Hidle (Hn1 & Hn2 & Hn3) Hwr (Hd & Hc)]. destruct (usart_init_ok dev_ram c H) as (r1 & E1 & Hset & Hsame). rewrite !Forall_cons in Hr.
  destruct Hr as (_ & (sr & H0 & _) & (dr & H4 & _) & _ & _ & _ & (c3 & H20 & _) & _). pose proof (ls_cr1 _ _ Hset) as (w & w1 & Hw & Hw1 & _ & _ & _ & _ & Hw7).
  pose proof (ls_cr2 _ _ Hset) as (w2 & Hw2 & _). unfold dbg_uart_init. rewrite (bind_Done _ _ _ _ _ (on_Done (P := registers) _ c _ _ E1)). set (c1 := put_part r1 c).
  assert (Hu : uart_of c1 = Some (mk_uart (con_ready c) (con_tx c) (con_rx c) (con_state c) (mk_regs sr dr w1 w2 c3 []))).
  { unfold uart_of, line_regs, c1. cbn [con_regs put_part con_regs_part con_ready con_tx con_rx con_state con_written]. rewrite Hw1, Hw2, !Hsame, H0, H4, H20, Hwr by set_solver. done. }
  destruct (driver_init_ok _ (eq_refl : written (regs (mk_uart (con_ready c) (con_tx c) (con_rx c) (con_state c) (mk_regs sr dr w1 w2 c3 []))) = []))
    as (u' & E2 & Ht & Hs & Hrq & Hc1 & Hc2); [change (Z.testbit w1 7 = false); rewrite Hw7; by apply Hidle|].
  rewrite (bind_Done _ _ _ _ _ (on_uart_Done _ _ _ _ _ Hu E2)). set (c2 := with_uart u' c1).
  destruct (line_irq_ok (con_nvic c) Hn1 Hn2 Hn3 Hg) as (n' & E3 & Hirq). rewrite (bind_Done _ _ _ _ _ (on_Done (P := nvic) _ c2 _ _ E3)).
  set (c3' := put_part n' c2). destruct (line_set_enable (con_regs c) c1 u' w1 Hset Hw1 Hc1) as [Hls Hb]; [by rewrite Hc2|].
  destruct (dbg_dev (con_dbg c)) as [|d0 ds] eqn:Edev; [by destruct dev_ram|].
  assert (E4 : dbg_register_device dev_ram EINVAL (Some (mk_dev DBG_DEV_UART uart_getchar uart_putchar uart_start_panic)) (con_dbg c) =
    Done (0, with_devs (mk_dev DBG_DEV_UART uart_getchar uart_putchar uart_start_panic :: ds) (con_dbg c))).
  { unfold dbg_register_device. cbn [dev_id]. assert (Hm : (DBG_DEV_UART >=? DBG_DEV_MAX dev_ram) = false) by (by destruct dev_ram). rewrite Hm. unfold put_dev, mbind, M_bind. by rewrite Edev. }
  rewrite (bind_Done _ _ _ _ _ (on_Done (P := dbgstate) _ c3' _ _ E4)). eexists. split; [reflexivity|]. split; try done.
  exists u'. split; [apply (uart_of_with u' c1)|done].
Qed.

(** The devices around the set-up of the line. *)
Lemma default_dev_present c d : line_present dev_ram c -> length (dbg_dev d) = Z.to_nat (DBG_DEV_MAX dev_ram) -> cur_dev d = 0 -> line_present dev_ram (put_part d c).
Proof. intros [? ? ? ? ? ? ?] H1 H2. by split. Qed.

Lemma default_devs_ok d : length (dbg_dev d) = Z.to_nat (DBG_DEV_MAX dev_ram) ->
  exists l, default_devs dev_ram default_getchar default_putchar default_start_panic (Z.to_nat (DBG_DEV_MAX dev_ram - 1)) 0 d = Done (tt, with_devs l d) /\
    length l = Z.to_nat (DBG_DEV_MAX dev_ram).
Proof.
  intros Hl. destruct d as [l cur bi bd]. destruct dev_ram; cbn in Hl; [|by exists l].
  destruct l as [|d0 [|d1 [|]]]; try done. by eexists.
Qed.

Lemma ram_init_ok r c : console_up r c ->
  exists c', when dev_ram (on (dbg_ram_init dev_ram EINVAL ram_putchar)) c = Done (tt, c') /\ console_up r c' /\
    (dev_ram = true -> zlookup (dbg_dev (con_dbg c')) 1 = Some (mk_dev DBG_DEV_RAM NULL ram_putchar NULL)).
Proof.
  intros Hup. pose proof Hup as [? ? ? Hd Hl Hcur]. destruct dev_ram eqn:Er; cbn [when]; [|by exists c].
  destruct (con_dbg c) as [[|e0 [|e1 [|]]] cur bi bd] eqn:Ed; try done.
  exists (put_part (mk_dbg [e0; mk_dev DBG_DEV_RAM NULL ram_putchar NULL] cur 0 (replicate (Z.to_nat DBG_RAM_BUFSIZE) 0)) c).
  split; [|split; [by split; try done; rewrite Er|done]]. apply on_Done. cbn [get_part con_dbg_part]. rewrite Ed. unfold dbg_ram_init.
  by rewrite (bind_Done (modify _) _ _ tt _ eq_refl).
Qed.

Lemma console_init_ok c : line_present dev_ram c -> SCB_AIRCR (con_nvic c) = Z.lor AIRCR_VECTKEY_MASK NVIC_PriorityGroup_4 ->
  exists c', console_init dev_ram EINVAL default_getchar default_putchar default_start_panic ram_putchar uart_getchar uart_putchar uart_start_panic tx_buffer rx_buffer c = Done (tt, c') /\
    console_up (con_regs c) c' /\ (dev_ram = true -> zlookup (dbg_dev (con_dbg c')) 1 = Some (mk_dev DBG_DEV_RAM NULL ram_putchar NULL)).
Proof.
  intros H Hg. pose proof (lp_dev _ _ H) as [Hl Hc]. destruct (default_devs_ok (con_dbg c) Hl) as (l & E0 & Hl').
  unfold console_init, dbg_device_init. rewrite (bind_Done _ _ _ _ _ (on_Done (P := dbgstate) _ c _ _ E0)). set (c0 := put_part _ c).
  destruct (dbg_uart_init_ok c0) as (c1 & E1 & Hup); [by apply default_dev_present|done|]. rewrite (bind_Done _ _ _ _ _ E1). exact (ram_init_ok _ _ Hup).
Qed.
End init.

(** ** Output *)

Section output.
Variables default_putchar ram_putchar uart_putchar : Z.
Variable hw : Z -> Z.
Variable fuel : nat.
Hypothesis Hput : uart_putchar <> NULL /\ uart_putchar <> default_putchar /\ uart_putchar <> ram_putchar.

(** [sent] are the bytes given to the line, [waiting] those in the queue. *)
Definition console_shows (c : console) (sent waiting : list Z) (busy : bool) : Prop :=
  (exists u, uart_of c = Some u /\ transmits u sent waiting busy /\ size (DebugUart.tx u) = SEND_BUFSIZE) /\
  (busy = false -> waiting = []) /\ cur_dev (con_dbg c) = 0 /\ (d_putchar <$> zlookup (dbg_dev (con_dbg c)) 0) = Some uart_putchar.

Lemma console_putchar_ok c chr sent waiting busy : console_shows c sent waiting busy -> Z.of_nat (length waiting) < SEND_BUFSIZE - 2 ->
  exists c', console_putchar default_putchar ram_putchar uart_putchar hw fuel chr c = Done (tt, c') /\
    console_shows c' (if busy then sent else sent ++ [chr]) (if busy then waiting ++ [chr] else waiting) true /\
    forall a, not_line a -> con_regs c' !! a = con_regs c !! a.
Proof.
  intros ((u & Hu & HT & Hs) & Hi & Hc & Hd) Hl. destruct (zlookup (dbg_dev (con_dbg c)) 0) as [d|] eqn:Ed; [|done]. injection Hd as Hd. destruct Hput as (N1 & N2 & N3).
  destruct (async_putchar_ok (u_num console_uart) chr u sent waiting busy HT) as (u' & E & Hs' & HT'); [intros _; by rewrite Hs|done|].
  exists (with_uart u' c). split; [|split; [|intros a; apply with_uart_regs]].
  - unfold console_putchar, dbg_putchar. rewrite (bind_Done (on (gets cur_dev)) _ c 0 c) by (rewrite <- Hc; by destruct c).
    rewrite (bind_Done (on (get_dev 0)) _ c d c) by (unfold on, zoom, get_dev; cbn [get_part con_dbg_part]; rewrite Ed; by destruct c).
    rewrite Hd. unfold call_putchar, call_uart_put. rewrite (proj2 (Z.eqb_neq uart_putchar NULL) N1), (proj2 (Z.eqb_neq uart_putchar default_putchar) N2), (proj2 (Z.eqb_neq uart_putchar ram_putchar) N3), Z.eqb_refl.
    apply (on_uart_Done _ _ u); [done|]. unfold dbg_uart_putchar. rewrite (bind_Done (gets dbg_state) _ u _ _ eq_refl), (tr_state _ _ _ _ HT). exact E.
  - split; [exists u'; split; [apply uart_of_with|by rewrite Hs']|]. split; [done|]. split; [done|]. cbn [con_dbg with_uart]. rewrite Ed. cbn. by rewrite Hd.
Qed.

Lemma console_puts_ok l : forall c sent waiting busy, console_shows c sent waiting busy -> Z.of_nat (length waiting + length l) <= SEND_BUFSIZE - 2 ->
  exists c' sent' waiting', console_puts default_putchar ram_putchar uart_putchar hw fuel l c = Done (tt, c') /\
    console_shows c' sent' waiting' (busy || bool_decide (l <> [])) /\ sent' ++ waiting' = sent ++ waiting ++ l /\ (length waiting' <= length waiting + length l)%nat /\
    forall a, not_line a -> con_regs c' !! a = con_regs c !! a.
Proof.
  induction l as [|chr l IH]; intros c sent waiting busy H Hl.
  - exists c, sent, waiting. cbn [bool_decide]. rewrite bool_decide_false, orb_false_r, app_nil_r by auto. split; [done|]. split; [done|]. split; [done|]. split; [lia|done].
  - cbn [length] in Hl. destruct (console_putchar_ok c chr sent waiting busy H) as (c1 & E1 & H1 & F1); [lia|]. destruct (IH c1 _ _ _ H1) as (c2 & s2 & w2 & E2 & H2 & Heq & Hle & F2).
    { destruct busy; rewrite ?length_app; cbn; lia. }
    exists c2, s2, w2. cbn [console_puts]. rewrite (bind_Done _ _ _ _ _ E1). split; [done|]. rewrite bool_decide_true, orb_true_r by done. split; [done|].
    destruct H as (_ & Hi & _). rewrite Heq. destruct busy; [|rewrite (Hi eq_refl) in *]; rewrite <- ?app_assoc in *; cbn [app length] in *; rewrite ?length_app in Hle; cbn in Hle; (split; [done|split; [lia|]]); intros a Ha; by rewrite F2, F1.
Qed.

Lemma console_up_shows dev_ram uart_getchar uart_start_panic r c : console_up dev_ram uart_getchar uart_putchar uart_start_panic r c -> console_shows c [] [] false.
Proof. intros [_ _ (u & Hu & HT & _ & Hs & _) Hd _ Hc]. split; [by exists u|]. split; [done|]. split; [done|]. by rewrite Hd. Qed.

End output.

(** ** Properties *)

(** C30. The console: after [dbg_device_init], with the buffer in memory as a second device or
    without it, the two pins have the function of the serial line and no other pin is changed, the
    clocks are on, the line has 8 data bits, one stop bit and the divider of the baud rate, receiver
    and transmitter are on, its interrupt is enabled and not pending, and the configured devices are
    registered.  Text that is then given to [dbg_putchar], up to the capacity of the queue, is sent or
    waits, in order, and nothing else does. *)
Theorem console_starts (dev_ram : bool) (EINVAL dget dput dpanic ramput uget uput upanic : Z) (txb rxb : list Z) (hw : Z -> Z) (fuel : nat) (c : console) (text : list Z)
    (Htx : Z.of_nat (length txb) = SEND_BUFSIZE) (Hrx : Z.of_nat (length rxb) = RECV_BUFSIZE) (Hput : uput <> NULL /\ uput <> dput /\ uput <> ramput)
    (Hc : line_present dev_ram c) (Hg : SCB_AIRCR (con_nvic c) = Z.lor AIRCR_VECTKEY_MASK NVIC_PriorityGroup_4) (Ht : Z.of_nat (length text) <= SEND_BUFSIZE - 2) :
  exists c1 c2 sent waiting, console_init dev_ram EINVAL dget dput dpanic ramput uget uput upanic txb rxb c = Done (tt, c1) /\ console_up dev_ram uget uput upanic (con_regs c) c1 /\
    (dev_ram = true -> zlookup (dbg_dev (con_dbg c1)) 1 = Some (mk_dev DBG_DEV_RAM NULL ramput NULL)) /\
    console_puts dput ramput uput hw fuel text c1 = Done (tt, c2) /\ console_shows uput c2 sent waiting (bool_decide (text <> [])) /\ sent ++ waiting = text.
Proof.
  destruct (console_init_ok dev_ram EINVAL dget dput dpanic ramput uget uput upanic txb rxb Htx Hrx c Hc Hg) as (c1 & E1 & Hup & Hram).
  destruct (console_puts_ok dput ramput uput hw fuel Hput text c1 [] [] false) as (c2 & sent & waiting & E2 & H2 & Heq & _); [by apply (console_up_shows uput dev_ram uget upanic (con_regs c))|cbn [length]; lia|].
  by exists c1, c2, sent, waiting.
Qed.

(** *** An example: the registers after reset *)

Definition reset_regs : registers :=
  list_to_map ((fun a => (a, 0)) <$> (RCC_AHB1ENR :: RCC_APB1ENR :: port_regs 0 ++ (Z.add UART4_BASE <$> [0; 4; 8; 12; 16; 20]))).
Definition reset_console : console :=
  mk_console reset_regs 0 (Queue [] 0 0 0) (Queue [] 0 0 0) DBG_ASYNC []
    (mk_nvic (Z.lor AIRCR_VECTKEY_MASK NVIC_PriorityGroup_4) (replicate 12 0) (replicate 82 0) (replicate 3 0) (replicate 3 0) (replicate 3 0))
    (mk_dbg [mk_dev 0 0 0 0] 0 0 []).

Lemma reset_present : line_present false reset_console.
Proof.
  split.
  - repeat (apply Forall_cons; split; [exists 0; by vm_compute|]). by apply Forall_nil.
  - exists 0. by vm_compute.
  - repeat (apply Forall_cons; split; [exists 0; by vm_compute|]). by apply Forall_nil.
  - intros w H. vm_compute in H. by injection H as <-.
  - done.
  - done.
  - done.
Qed.

Lemma console_starts_witness :
  exists c1 c2, console_init false 22 1 2 3 4 5 6 7 (replicate 2048 0) (replicate 32 0) reset_console = Done (tt, c1) /\
    console_puts 2 4 6 (fun x => x) 1 [70; 57] c1 = Done (tt, c2) /\ exists sent waiting, console_shows 6 c2 sent waiting true /\ sent ++ waiting = [70; 57].
Proof.
  destruct (console_starts false 22 1 2 3 4 5 6 7 (replicate 2048 0) (replicate 32 0) (fun x => x) 1 reset_console [70; 57]) as (c1 & c2 & s & w & E1 & _ & _ & E2 & H & Heq).
  - by vm_compute.
  - by vm_compute.
  - done.
  - exact reset_present.
  - done.
  - by vm_compute.
  - exists c1, c2. split; [exact E1|]. split; [exact E2|]. exists s, w. split; [exact H|exact Heq].
Defined.
