(* ===== verification/Loader.v ===== *)
(** * The loader

    Composes [main] of [loader/entry.c]: the priorities of interrupts, the console, the check and
    the loading of the image, and the remapping of memory ([include/platform/stm32f4/syscfg.h]).

    The result is the address that is called.  The interrupts of the serial line, which move bytes
    from the queue to the line, are left out: [DebugUart] has the runs with interrupts.  The text
    that is printed is therefore limited to the capacity of the queue. *)

From S2P Require Import Prelude Bytes BytesProps Boot Elf ElfProps Stdio Queue Gpio GpioProps Nvic DebugUart DebugDevice Console.

(** ** Data *)

(** Memory, the peripherals, the mask of interrupts and the layers of debug output. *)
Record loader := mk_loader {
  ld_mem : bytes;
  ld_con : console;
  ld_masked : bool;
  ld_layer : Z;
}.

#[export] Instance ld_mem_part : Part bytes loader := { get_part := ld_mem; put_part m s := mk_loader m (ld_con s) (ld_masked s) (ld_layer s) }.
#[export] Instance ld_mem_laws : PartLaws bytes loader.
Proof. by split; [..|intros []|]. Qed.
#[export] Instance ld_con_part : Part console loader := { get_part := ld_con; put_part c s := mk_loader (ld_mem s) c (ld_masked s) (ld_layer s) }.
Definition set_masked (b : bool) : M loader unit := modify (fun s => mk_loader (ld_mem s) (ld_con s) b (ld_layer s)).
Definition set_layer (l : Z) : M loader unit := modify (fun s => mk_loader (ld_mem s) (ld_con s) (ld_masked s) l).

(** ** [syscfg.h] *)

Definition SYSCFG_MEMRMP : Z := APB2PERIPH_BASE + 0x3800.
Definition memory_remap_flash : M registers unit := write_reg SYSCFG_MEMRMP 0.
Definition memory_remap_sysflash : M registers unit := write_reg SYSCFG_MEMRMP 1.
Definition memory_remap_sram : M registers unit := write_reg SYSCFG_MEMRMP 3.

(** ** [entry.c] *)

(** [loading kernel ...] and [ELF check result = %d], with new lines. *)
Definition msg_loading : list Z := [108; 111; 97; 100; 105; 110; 103; 32; 107; 101; 114; 110; 101; 108; 32; 46; 46; 46; 10].
Definition msg_check : list Z := [69; 76; 70; 32; 99; 104; 101; 99; 107; 32; 114; 101; 115; 117; 108; 116; 32; 61; 32; 37; 100; 10].

Section main.
(** The parameters of the console. *)
Variable dev_ram : bool.
Variables EINVAL default_putchar ram_putchar uart_getchar uart_putchar uart_start_panic : Z.
Variables tx_buffer rx_buffer : list Z.
Variable hw : Z -> Z.
Variable fuel : nat.

(** The bytes that [__l4_vprintf] gives to [dbg_putchar], in order; it reads nothing that
    [dbg_putchar] changes. *)
Definition dbg_printf (layer : Z) (fmt : list Z) (va : list va_t) : M loader unit :=
  dbg_layer ← gets ld_layer;
  match dbg_vprintf (fun _ => []) dbg_layer layer fmt va [] with
  | Done (_, out) => on (console_puts default_putchar ram_putchar uart_putchar hw fuel out)
  | _ => fault
  end.

Definition loader_run : M loader Z :=
  set_masked true;;
  on (on (P := nvic) (S := console) irq_init);;
  set_masked false;;
  set_layer DL_BASIC;;
  on (dbg_uart_init dev_ram EINVAL uart_getchar uart_putchar uart_start_panic tx_buffer rx_buffer);;
  dbg_printf DL_BASIC msg_loading [];;
  c ← on (elf_checkFile 0x800c000);
  dbg_printf DL_BASIC msg_check [U32 (wrap32 c)];;
  kernel_entry ← elf_loadFile (dbg_printf DL_BASIC) 0x800c000;
  set_masked true;;
  on (on (P := registers) (S := console) memory_remap_sram);;
  mret kernel_entry.
End main.

(** ** Lemmas *)

Lemma irq_init_group n : length (SCB_SHPR n) = 12%nat ->
  exists n', irq_init n = Done (tt, n') /\ SCB_AIRCR n' = Z.lor AIRCR_VECTKEY_MASK NVIC_PriorityGroup_4 /\ IP n' = IP n /\ enabled n' = enabled n /\ pending n' = pending n.
Proof.
  destruct n as [aircr shpr ip en pe ac]. cbn [SCB_SHPR]. intros H. do 12 (destruct shpr as [|? shpr]; [done|]). destruct shpr; [|done].
  eexists. split; [vm_compute; reflexivity|]. by vm_compute.
Qed.

(** A register that is not the line's. *)
Lemma console_shows_write uput c a v sent waiting busy : not_line a -> console_shows uput c sent waiting busy ->
  console_shows uput (put_part (<[a := v]> (con_regs c)) c) sent waiting busy.
Proof.
  unfold not_line. rewrite !not_elem_of_cons. intros (H1 & H2 & H3 & H4 & H5 & _) ((u & Hu & H) & Hr). split; [|exact Hr]. exists u. split; [|exact H]. rewrite <- Hu.
  unfold uart_of, line_regs. cbn [con_regs put_part con_regs_part con_ready con_tx con_rx con_state con_written]. by rewrite !lookup_insert_ne by congruence.
Qed.

Section printf.
Variables default_putchar ram_putchar uart_putchar : Z.
Variable hw : Z -> Z.
Variable fuel : nat.
Hypothesis Hput : uart_putchar <> NULL /\ uart_putchar <> default_putchar /\ uart_putchar <> ram_putchar.

(** What is printed comes behind what is shown. *)
Lemma dbg_printf_ok fmt va out s sent waiting busy : l4_vprintf (fun _ => []) fmt va [] = Done (tt, out) -> ld_layer s = DL_BASIC ->
  console_shows uart_putchar (ld_con s) sent waiting busy -> Z.of_nat (length waiting + length out) <= SEND_BUFSIZE - 2 ->
  exists c' sent' waiting', dbg_printf default_putchar ram_putchar uart_putchar hw fuel DL_BASIC fmt va s = Done (tt, put_part c' s) /\
    console_shows uart_putchar c' sent' waiting' (busy || bool_decide (out <> [])) /\ sent' ++ waiting' = sent ++ waiting ++ out /\ (length waiting' <= length waiting + length out)%nat /\
    con_regs c' !! SYSCFG_MEMRMP = con_regs (ld_con s) !! SYSCFG_MEMRMP.
Proof.
  intros E Hl Hs Hle. destruct (console_puts_ok default_putchar ram_putchar uart_putchar hw fuel Hput out (ld_con s) sent waiting busy Hs Hle) as (c' & s' & w' & Ep & Hs' & Heq & Hw & Hf).
  exists c', s', w'. split; [|split; [exact Hs'|split; [exact Heq|split; [exact Hw|]]]].
  - unfold dbg_printf. rewrite (bind_Done (gets ld_layer) _ s DL_BASIC s) by (unfold gets; by rewrite Hl).
    assert (Ev : dbg_vprintf (fun _ => []) DL_BASIC DL_BASIC fmt va [] = Done (tt, out)) by exact E. rewrite Ev. by apply on_Done.
  - apply Hf. unfold not_line. not_in.
Qed.

(** What the console shows of the loader, which prints the layer [DL_BASIC] with interrupts enabled:
    the text in order, at least one byte of it sent; [v] is the register of the remapping. *)
Definition loader_shows (v : option Z) (txt : list Z) (s : loader) : Prop :=
  ld_layer s = DL_BASIC /\ ld_masked s = false /\ con_regs (ld_con s) !! SYSCFG_MEMRMP = v /\
  exists sent waiting, console_shows uart_putchar (ld_con s) sent waiting (bool_decide (txt <> [])) /\ sent ++ waiting = txt.

Lemma loader_printer_ok v ps xs out txt s : Forall piece_ok ps -> args_ok (fun _ => []) ps xs -> shows (fun _ => []) ps xs = Some out ->
  loader_shows v txt s -> (length (txt ++ out) <= Z.to_nat (SEND_BUFSIZE - 2))%nat ->
  exists s', dbg_printf default_putchar ram_putchar uart_putchar hw fuel DL_BASIC (ps ≫= format) (U32 <$> xs) s = Done (tt, s') /\
    loader_shows v (txt ++ out) s' /\ ld_mem s' = ld_mem s.
Proof.
  intros Hp Ha Ho (Hl & Hk & Hv & sent & waiting & Hs & Heq) Hle. rewrite <- Heq, !length_app in Hle. unfold SEND_BUFSIZE in Hle.
  assert (Ev : l4_vprintf (fun _ => []) (ps ≫= format) (U32 <$> xs) [] = Done (tt, out)) by (by apply (vprintf_pieces (fun _ => []) ps xs out _ [])).
  destruct (dbg_printf_ok _ _ out s sent waiting _ Ev Hl Hs) as (c' & sent' & waiting' & E & Hs' & Heq' & _ & Hm); [unfold SEND_BUFSIZE; lia|].
  exists (put_part c' s). split; [exact E|]. split; [|done]. split; [done|]. split; [done|]. split; [by rewrite <- Hv|]. exists sent', waiting'. split; [|by rewrite Heq', <- Heq, app_assoc].
  replace (bool_decide (txt ++ out <> [])) with (bool_decide (txt <> []) || bool_decide (out <> [])); [done|]. by destruct txt, out.
Qed.

#[local] Instance loader_printer v : Printer (dbg_printf default_putchar ram_putchar uart_putchar hw fuel DL_BASIC) (loader_shows v) (Z.to_nat (SEND_BUFSIZE - 2)).
Proof. split; [intros ps xs out txt s; apply loader_printer_ok|done]. Qed.

(** The loading, in the loader. *)
Lemma loader_loads v size txt s : elf_image 0x800c000 size (ld_mem s) -> loadable 0x800c000 size (ld_mem s) -> elf_magic 0x800c000 (ld_mem s) = true ->
  loader_shows v txt s -> (length (txt ++ elf_text 0x800c000 (ld_mem s)) <= Z.to_nat (SEND_BUFSIZE - 2))%nat ->
  exists s', elf_loadFile (dbg_printf default_putchar ram_putchar uart_putchar hw fuel DL_BASIC) 0x800c000 s = Done (word_at (ld_mem s) (0x800c000 + 24), s') /\
    loader_shows v (txt ++ elf_text 0x800c000 (ld_mem s)) s' /\
    forall a, ld_mem s' !! a = loaded_at 0x800c000 (ld_mem s) (Z.to_nat (phnum 0x800c000 (ld_mem s))) a.
Proof.
  intros Hi Hl Hm Hs Hle.
  destruct (elf_loadFile_loads (dbg_printf default_putchar ram_putchar uart_putchar hw fuel DL_BASIC) (loader_shows v) _ 0x800c000 size s txt) as (s' & E & Hs' & Hm'); [exact Hi|exact Hl|exact Hs|exact Hle|].
  exists s'. change (get_part s) with (ld_mem s) in *. rewrite Hm in E, Hs', Hm'. done.
Qed.
End printf.

(** ** Properties *)

(** [loading kernel ...] and [ELF check result = 0], with the ends of the lines, and what the loading
    prints of the image. *)
Definition start_text : list Z :=
  [108; 111; 97; 100; 105; 110; 103; 32; 107; 101; 114; 110; 101; 108; 32; 46; 46; 46; 13; 10] ++
  [69; 76; 70; 32; 99; 104; 101; 99; 107; 32; 114; 101; 115; 117; 108; 116; 32; 61; 32; 48; 13; 10].
Definition loader_text (m : bytes) : list Z := start_text ++ elf_text 0x800c000 m.

(** C29. The loader: with an image of the kernel in the flash memory [main] calls the entry point of
    the image; then each byte of a segment that is in the file is that of the image and all other
    memory is unchanged, so that the part of a segment behind its bytes in the file is not cleared;
    interrupts are masked and the start of the memory is mapped to the static memory; and the
    console is set up and shows the two messages of [main] and those of [elf_loadFile], in order.
    The text has to fit in the queue of the line, 2046 bytes: the interrupts of the line are not in
    the model. *)
Theorem loader_hands_over (dev_ram : bool) (EINVAL dput ramput uget uput upanic : Z) (txb rxb : list Z) (hw : Z -> Z) (fuel : nat) (s : loader) (size : Z)
    (Htx : Z.of_nat (length txb) = SEND_BUFSIZE) (Hrx : Z.of_nat (length rxb) = RECV_BUFSIZE) (Hput : uput <> NULL /\ uput <> dput /\ uput <> ramput)
    (Hc : line_present dev_ram (ld_con s)) (Hp : length (SCB_SHPR (con_nvic (ld_con s))) = 12%nat) (Hr : is_Some (con_regs (ld_con s) !! SYSCFG_MEMRMP))
    (Hi : elf_image 0x800c000 size (ld_mem s)) (Hl : loadable 0x800c000 size (ld_mem s)) (Hm : elf_magic 0x800c000 (ld_mem s) = true)
    (Ht : (length (loader_text (ld_mem s)) <= Z.to_nat (SEND_BUFSIZE - 2))%nat) :
  exists s' sent waiting, loader_run dev_ram EINVAL dput ramput uget uput upanic txb rxb hw fuel s = Done (word_at (ld_mem s) (0x800c000 + 24), s') /\
    (forall a, ld_mem s' !! a = loaded_at 0x800c000 (ld_mem s) (Z.to_nat (phnum 0x800c000 (ld_mem s))) a) /\
    console_shows uput (ld_con s') sent waiting true /\ sent ++ waiting = loader_text (ld_mem s) /\ ld_masked s' = true /\ con_regs (ld_con s') !! SYSCFG_MEMRMP = Some 3.
Proof.
  unfold loader_run. rewrite (bind_Done (set_masked true) _ s tt _ eq_refl). set (s1 := mk_loader _ _ _ _). destruct Hr as [v Hv].
  destruct (irq_init_group (con_nvic (ld_con s)) Hp) as (n' & En & Hg & H1 & H2 & H3).
  rewrite (bind_Done _ _ _ _ _ (on_Done (P := console) _ s1 _ _ (on_Done (P := nvic) _ (ld_con s) _ _ En))). set (c2 := put_part n' (ld_con s)).
  rewrite (bind_Done (set_masked false) _ _ tt _ eq_refl), (bind_Done (set_layer DL_BASIC) _ _ tt _ eq_refl). set (s2 := mk_loader _ _ _ _).
  destruct (dbg_uart_init_ok dev_ram EINVAL uget uput upanic txb rxb Htx Hrx c2) as (c3 & E3 & Hup); [destruct Hc; split; try done; cbn; by rewrite H1, H2, H3|done|].
  rewrite (bind_Done _ _ _ _ _ (on_Done (P := console) _ s2 _ _ E3)). set (s3 := put_part c3 s2).
  assert (Hs3 : loader_shows uput (Some v) [] s3).
  { split; [done|]. split; [done|]. split; [rewrite <- Hv; apply (ls_other _ _ (cu_regs _ _ _ _ _ _ Hup)); [unfold not_line; not_in|not_in|not_in]|].
    exists [], []. split; [by apply (console_up_shows uput dev_ram uget upanic (con_regs c2))|done]. }
  unfold loader_text, start_text in Ht. rewrite !length_app in Ht.
  destruct (loader_printer_ok dput ramput uput hw fuel Hput (Some v) [Text msg_loading] [] (take 20 start_text) [] s3) as (s4 & E4 & Hs4 & M4);
    [pieces|done|by vm_compute|exact Hs3|apply Nat.leb_le; by vm_compute|]. change (dbg_printf dput ramput uput hw fuel DL_BASIC msg_loading [] s3 = Done (tt, s4)) in E4. rewrite (bind_Done _ _ _ _ _ E4).
  destruct (checkFile_ok 0x800c000 size (ld_mem s) Hi) as (c & Ec & Hc0). rewrite Hm in Hc0. apply Z.eqb_eq in Hc0. subst c.
  change (ld_mem s3) with (ld_mem s) in M4. rewrite <- M4 in Ec, Hi, Hl, Hm, Ht. rewrite (on_read (Part0 := ld_mem_part) (elf_checkFile 0x800c000) _ s4 0 Ec).
  destruct (loader_printer_ok dput ramput uput hw fuel Hput (Some v) [Text [69; 76; 70; 32; 99; 104; 101; 99; 107; 32; 114; 101; 115; 117; 108; 116; 32; 61; 32]; Directive false 0 Dec; Text [10]] [0] (drop 20 start_text) (take 20 start_text) s4) as (s5 & E5 & Hs5 & M5);
    [pieces|done|by vm_compute|exact Hs4|apply Nat.leb_le; by vm_compute|]. change (dbg_printf dput ramput uput hw fuel DL_BASIC msg_check [U32 (wrap32 0)] s4 = Done (tt, s5)) in E5. rewrite (bind_Done _ _ _ _ _ E5).
  rewrite <- M5 in Hi, Hl, Hm, Ht. change (take 20 start_text ++ drop 20 start_text) with start_text in Hs5.
  destruct (loader_loads dput ramput uput hw fuel Hput (Some v) size start_text s5 Hi Hl Hm Hs5) as (s6 & E6 & Hs6 & Hm6); [unfold start_text; rewrite !length_app; lia|].
  rewrite (bind_Done _ _ _ _ _ E6), (bind_Done (set_masked true) _ _ tt _ eq_refl). rewrite <- M4, <- M5. destruct Hs6 as (_ & _ & Hv6 & sent & waiting & Hsh & Heq).
  match goal with |- exists _ _ _, (_ ≫= _) ?x = _ /\ _ => set (s7 := x) end.
  assert (E7 : on (on (P := registers) (S := console) memory_remap_sram) s7 = Done (tt, put_part (P := console) (put_part (<[SYSCFG_MEMRMP := 3]> (con_regs (ld_con s6))) (ld_con s6)) s7)).
  { apply on_Done. change (get_part s7) with (ld_con s6). apply on_Done. by apply (write_reg_ok _ _ v). }
  rewrite (bind_Done _ _ _ _ _ E7).
  eexists. exists sent, waiting. split; [reflexivity|]. split; [exact Hm6|]. split; [apply console_shows_write; [unfold not_line; not_in|exact Hsh]|].
  split; [exact Heq|split; [done|apply lookup_insert_eq]].
Qed.

(** *** An example: the image of [ElfProps] in the flash memory *)

Definition ex_flash : bytes := list_to_map (zip (seqZ 0x800c000 168) sample_image ++ zip (seqZ 2000 8) (replicate 8 9)).
Definition ex_loader : loader := mk_loader ex_flash (put_part (<[SYSCFG_MEMRMP := 0]> reset_regs) reset_console) false 0.

Lemma ex_flash_image : elf_image 0x800c000 168 ex_flash.
Proof. split; [done|done| |done|by vm_compute|by vm_compute]. apply is_bytes_check. by vm_compute. Qed.

Lemma ex_flash_fields :
  elf_magic 0x800c000 ex_flash = true /\ word_at ex_flash (0x800c000 + 24) = 2001 /\ phnum 0x800c000 ex_flash = 1 /\ seg_offset 0x800c000 ex_flash 0 = 164 /\
  seg_filesz 0x800c000 ex_flash 0 = 4 /\ seg_paddr 0x800c000 ex_flash 0 = 2000.
Proof. by vm_compute. Qed.

Lemma ex_flash_loadable : loadable 0x800c000 168 ex_flash.
Proof.
  destruct ex_flash_fields as (_ & _ & En & Eo & Ef & Ep). intros i Hi. rewrite En in Hi. assert (i = 0) as -> by lia. rewrite Eo, Ef, Ep.
  split; [lia|]. split; [lia|]. intros a Ha. destruct (is_bytes_check ex_flash 2000 8 ltac:(by vm_compute) a ltac:(lia)) as (b & Hb & _). by exists b.
Qed.

Lemma ex_loader_present : line_present false (ld_con ex_loader).
Proof.
  destruct reset_present as [H1 _ _ _ _ _ _]. split; try done.
  - by apply ready_insert.
  - exists 0. by vm_compute.
  - repeat (apply Forall_cons; split; [exists 0; by vm_compute|]). by apply Forall_nil.
  - intros w H. vm_compute in H. by injection H as <-.
Qed.

Lemma loader_hands_over_witness :
  exists s', loader_run false 22 2 4 5 6 7 (replicate 2048 0) (replicate 32 0) (fun x => x) 1 ex_loader = Done (2001, s') /\ ld_masked s' = true /\ ld_mem s' !! 2001 = Some 46.
Proof.
  destruct (loader_hands_over false 22 2 4 5 6 7 (replicate 2048 0) (replicate 32 0) (fun x => x) 1 ex_loader 168) as (s' & sent & waiting & E & Hm & _ & _ & Hk & _).
  - by vm_compute.
  - by vm_compute.
  - done.
  - exact ex_loader_present.
  - done.
  - exists 0. by vm_compute.
  - exact ex_flash_image.
  - exact ex_flash_loadable.
  - exact (proj1 ex_flash_fields).
  - apply Nat.leb_le. by vm_compute.
  - exists s'. change (ld_mem ex_loader) with ex_flash in E, Hm. rewrite (proj1 (proj2 ex_flash_fields)) in E. split; [exact E|]. split; [exact Hk|].
    clear E. rewrite Hm. by vm_compute.
Defined.
