(* ===== verification/L4test.v ===== *)
(** * The test program

    Models [user/apps/l4test]: its string functions ([string.c]), its pages and messages on the
    console ([main.c]), the creation and start of threads ([threads.c]) and the test of messages
    between two threads ([ipc.c]), without the parts that are not compiled.

    The kernel is the parameter [svc] of the system calls.  A call of [printf] is also recorded in
    a log with its arguments, which are in the memory of the caller. *)

From S2P Require Import Prelude Bits Bytes Boot ElfProps Thread UserLib UserLibProps UserCalls UserThread RootThread.

Module l4test.

(** ** [string.c] *)

(** The fuel of the loops is more than the length of a string. *)
Fixpoint strlen_loop (fuel : nat) (str len : Z) : M bytes Z :=
  match fuel with
  | O => fuel_out
  | S fuel => c ← read8 str; if truth c then strlen_loop fuel (str + 1) (s32 (len + 1)) else mret len
  end.
Definition test_strlen (fuel : nat) (str : Z) : M bytes Z := strlen_loop fuel str 0.

Fixpoint test_strcmp (fuel : nat) (str1 str2 : Z) : M bytes Z :=
  match fuel with
  | O => fuel_out
  | S fuel =>
      a ← read8 str1; b ← read8 str2;
      if truth a && truth b then
        if a <? b then mret (-1) else if a >? b then mret 1 else test_strcmp fuel (str1 + 1) (str2 + 1)
      else if truth b then mret (-1) else if truth a then mret 1 else mret 0
  end.

Definition chr_at : Z := 64.
Definition chr_slash : Z := 47.

(** [while ( *str_of && ( *str_of != '/')) str_of++;] *)
Fixpoint skip_unit (fuel : nat) (str_of : Z) : M bytes Z :=
  match fuel with
  | O => fuel_out
  | S fuel => c ← read8 str_of; if truth c && negb (c =? chr_slash) then skip_unit fuel (str_of + 1) else mret str_of
  end.

Fixpoint strcmp_of (fuel : nat) (str_of search : Z) : M bytes Z :=
  match fuel with
  | O => fuel_out
  | S fuel' =>
      a ← read8 str_of; b ← read8 search;
      if truth a && truth b then
        str_of ← (if (a =? chr_at) && (b =? chr_slash) then skip_unit fuel str_of else mret str_of);
        a ← read8 str_of;
        if negb (truth a) then mret (-1)
        else if a <? b then mret (-1) else if a >? b then mret 1 else strcmp_of fuel' (str_of + 1) (search + 1)
      else if truth b then mret (-1)
      else
        str_of ← (if a =? chr_at then skip_unit fuel str_of else mret str_of);
        a ← read8 str_of;
        if truth a then mret 1 else mret 0
  end.

(** ** Data *)

Definition PAGE_BITS : Z := 8.
Definition PAGE_SIZE : Z := Z.shiftl 1 PAGE_BITS.
Definition STACK_PAGES : Z := 1.
Definition L4_FullyAccessible : Z := 7.

(** The variables of the files. *)
Record l4vars := mk_l4vars {
  free_page : Z;
  next_no : Z;
  ipc_t1 : Z;
  ipc_t2 : Z;
  ipc_ok : bool;
  ipc_pf_block_address : Z;
  ipc_pf_abort_address : Z;
}.
Definition with_free_page (w : Z) (v : l4vars) : l4vars := mk_l4vars w (next_no v) (ipc_t1 v) (ipc_t2 v) (ipc_ok v) (ipc_pf_block_address v) (ipc_pf_abort_address v).
Definition with_next_no (w : Z) (v : l4vars) : l4vars := mk_l4vars (free_page v) w (ipc_t1 v) (ipc_t2 v) (ipc_ok v) (ipc_pf_block_address v) (ipc_pf_abort_address v).
Definition with_t1 (w : Z) (v : l4vars) : l4vars := mk_l4vars (free_page v) (next_no v) w (ipc_t2 v) (ipc_ok v) (ipc_pf_block_address v) (ipc_pf_abort_address v).
Definition with_t2 (w : Z) (v : l4vars) : l4vars := mk_l4vars (free_page v) (next_no v) (ipc_t1 v) w (ipc_ok v) (ipc_pf_block_address v) (ipc_pf_abort_address v).
Definition with_ok (b : bool) (v : l4vars) : l4vars := mk_l4vars (free_page v) (next_no v) (ipc_t1 v) (ipc_t2 v) b (ipc_pf_block_address v) (ipc_pf_abort_address v).
Definition with_block (w : Z) (v : l4vars) : l4vars := mk_l4vars (free_page v) (next_no v) (ipc_t1 v) (ipc_t2 v) (ipc_ok v) w (ipc_pf_abort_address v).
Definition with_abort (w : Z) (v : l4vars) : l4vars := mk_l4vars (free_page v) (next_no v) (ipc_t1 v) (ipc_t2 v) (ipc_ok v) (ipc_pf_block_address v) w.

(** The results of [ipc_errorcode] and [ipc_errorphase]. *)
Inductive ipc_error := ok | timeout | non_existing_partner | cancelled | message_overflow | xfer_timeout_current | xfer_timeout_partner | aborted.
Inductive ipc_phase := receive_phase | send_phase.

Definition ipc_errorcode (errcode : Z) : ipc_error :=
  match Z.land (Z.shiftr errcode 1) 7 with
  | 1 => timeout | 2 => non_existing_partner | 3 => cancelled | 4 => message_overflow
  | 5 => xfer_timeout_current | 6 => xfer_timeout_partner | 7 => aborted | _ => ok
  end.
Definition ipc_errorphase (errcode : Z) : ipc_phase := if truth (Z.land errcode 1) then receive_phase else send_phase.

(** What is printed, with the arguments. *)
Inductive text :=
| t_result (name : Z)
| t_verdict (test : bool)
| t_failed (n : Z) (code : ipc_error) (phase : ipc_phase)
| t_wrong_label (n label expected : Z)
| t_wrong_value (n i val : Z)
| t_returned_id (from local global : Z)
| t_thread_control (res code : Z)
| t_space_control (res code : Z)
| t_simple_ipc
| t_start.

Section program.
Context {T : Type} `{!Part vregs T} `{!Part utcb T} `{!Part bytes T} `{!Part l4vars T} `{!Part (list text) T} `{!Calls T}.
Variable svc : Z -> Z -> Z -> Z -> Z -> M T Z.
(** Objects and variables that are not initialised, the address of variables of the caller and of
    the texts. *)
Variable msg : L4_Msg_t.
Variables dummy id junk_id : Z.
Variables va from_addr tid_addr : Z.
Variable addr : text -> Z.

Definition var (f : l4vars -> Z) : M T Z := on (gets f).
Definition set_var (f : l4vars -> l4vars) : M T unit := on (modify f).
Definition print (t : text) : M T unit :=
  on (modify (fun l : list text => l ++ [t]));; UserCalls.printf svc msg va (addr t);; mret tt.

(** ** [main.c] *)

Definition print_result (name : Z) (test : bool) : M T unit := print (t_result name);; print (t_verdict test).

Definition safe_mem_touch (a : Z) : M T Z := copy ← on (read32 a); on (write32 a copy);; mret copy.

(** The loops over the bytes of a page and over the pages. *)
Fixpoint zero_page (k : nat) (a : Z) : M T unit :=
  match k with O => mret tt | S k => on (write8 a 0);; zero_page k (a + 1) end.
Fixpoint touch_pages (k : nat) (a : Z) : M T unit :=
  match k with
  | O => mret tt
  | S k => safe_mem_touch a;; zero_page (Z.to_nat PAGE_SIZE) a;; touch_pages k (a + PAGE_SIZE)
  end.
Definition get_pages (count touch : Z) : M T Z :=
  ret ← var free_page;
  set_var (fun v => with_free_page (free_page v +w (count *w PAGE_SIZE)) v);;
  when (negb (touch =? 0)) (touch_pages (Z.to_nat count) ret);;
  mret ret.
Definition get_new_page : M T Z := get_pages 1 0.

(** The values stored at [ip], [sp] and [stack_size]. *)
Definition get_startup_values (func : Z) : M T (Z * Z * Z) :=
  stack ← get_pages STACK_PAGES 1;
  mret (func, stack +w (STACK_PAGES * PAGE_SIZE), STACK_PAGES * PAGE_SIZE).

Definition start_thread_ip_sp (tid ip sp : Z) : M T unit :=
  m ← build (L4_MsgClear;; L4_MsgAppendWord ip;; L4_MsgAppendWord sp) msg;
  on (L4_MsgLoad m);;
  L4_Send svc tid;; mret tt.

Definition msec_sleep (msec : Z) : M T unit := L4_Sleep svc dummy (L4_TimePeriod (msec *w 1000)).

(** ** [threads.c] *)

Definition get_new_tid : M T Z :=
  n ← var next_no;
  when (n =? 0) (me ← L4_MyGlobalId; set_var (with_next_no (L4_ThreadNo me +w 1)));;
  n ← var next_no;
  set_var (with_next_no (n +w 1));;
  mret (L4_GlobalId id n 1).

Definition kill_thread (tid : Z) : M T Z := L4_ThreadControl svc tid L4_nilthread L4_nilthread L4_nilthread 0xFFFFFFFF.

(** [L4_Map] is the same function as in [root_thread.c]. *)
Definition test_start_thread (tid func : Z) : M T unit :=
  v ← get_startup_values func;
  let '(ip, sp, stack_size) := v in
  L4_Map svc msg tid (sp -w stack_size) stack_size;;
  m ← build (L4_MsgClear;; L4_MsgAppendWord ip;; L4_MsgAppendWord sp;; L4_MsgAppendWord stack_size) msg;
  on (L4_MsgLoad m);;
  L4_Send svc tid;; mret tt.

(** [kip_area] and [utcb_area] are the areas the first call computes; only [L4_SpaceControl],
    which does nothing, is given them.  [desc] and [n] are the descriptors of memory. *)
Definition test_create_thread (desc : list (Z * Z)) (n kip_area utcb_area func : Z) (new_space : bool) (cpu spacectrl : Z) : M T Z :=
  me ← L4_Myself;
  tid ← get_new_tid;
  utcb_location ← get_new_page;
  (if new_space then
     res ← L4_ThreadControl svc tid tid me L4_nilthread 0xFFFFFFFF;
     when (negb (res =? 1)) (e ← L4_ErrorCode; print (t_thread_control res e));;
     r ← L4_SpaceControl tid spacectrl kip_area utcb_area L4_nilthread 0;
     when (negb (r.1 =? 1)) (e ← L4_ErrorCode; print (t_space_control r.1 e));;
     res ← L4_ThreadControl svc tid tid me me utcb_location;
     when (negb (res =? 1)) (e ← L4_ErrorCode; print (t_thread_control res e));;
     map_user_sections svc msg desc n tid
   else
     res ← L4_ThreadControl svc tid me me me utcb_location;
     when (negb (res =? 1)) (e ← L4_ErrorCode; print (t_thread_control res e)));;
  when (negb (cpu =? -1)) (L4_Set_ProcessorNo tid cpu;; mret tt);;
  when (negb (func =? NULL)) (test_start_thread tid func);;
  mret tid.

(** ** [ipc.c] *)

(** [for (k = 1; k < L4_NumMRs(); k++) L4_LoadMR(k, 0);] *)
Fixpoint clear_mrs (j : nat) (k : Z) : M T unit :=
  match j with O => mret tt | S j => on (L4_LoadMR k 0);; clear_mrs j (k + 1) end.

Definition msg_word (m : L4_Msg_t) (i : Z) : M T Z := lift_opt (zlookup m (i + 1)).

Definition print_failed (n : Z) : M T unit := e ← L4_ErrorCode; e' ← L4_ErrorCode; print (t_failed n (ipc_errorcode e) (ipc_errorphase e')).

(** The loop over the words [i] to [n] of a message. *)
Fixpoint check_words (k : nat) (i n : Z) (m : L4_Msg_t) : M T unit :=
  match k with
  | O => mret tt
  | S k =>
      val ← msg_word m (i - 1);
      if negb (val =? i) then print (t_wrong_value n i val);; set_var (with_ok false)
      else
        b ← on (gets ipc_ok);
        if negb b then mret tt else check_words k (i + 1) n m
  end.

(** The receiver's loop over the lengths from [n] on; the result is the message object. *)
Fixpoint receive_loop (k : nat) (n : Z) (m : L4_Msg_t) : M T L4_Msg_t :=
  match k with
  | O => mret m
  | S k =>
      clear_mrs (Z.to_nat (__L4_NUM_MRS - 1)) 1;;
      t2 ← var ipc_t2;
      tag ← L4_Receive svc dummy t2;
      if negb (L4_IpcSucceeded tag) then print_failed n;; set_var (with_ok false);; mret m
      else
        m ← on (L4_MsgStore tag m);
        if negb (L4_Label tag =? 0xf00f) then print (t_wrong_label n (L4_Label tag) 0xf00f);; set_var (with_ok false);; mret m
        else
          check_words (Z.to_nat n) 1 n m;;
          b ← on (gets ipc_ok);
          if negb b then mret m else receive_loop k (n + 1) m
  end.

(** The receiver's loop with replies.  A wrong word ends only the loop over the words. *)
Fixpoint reply_loop (k : nat) (n tag : Z) (m : L4_Msg_t) : M T L4_Msg_t :=
  match k with
  | O => mret m
  | S k =>
      m ← on (L4_MsgStore tag m);
      if negb (L4_Label tag =? 0xf00d) then print (t_wrong_label n (L4_Label tag) 0xf00d);; set_var (with_ok false);; mret m
      else
        check_words (Z.to_nat n) 1 n m;;
        if n =? __L4_NUM_MRS - 1 then mret m
        else
          clear_mrs (Z.to_nat (__L4_NUM_MRS - 1)) 1;;
          t2 ← var ipc_t2;
          r ← L4_ReplyWait svc t2 tid_addr;
          if negb (L4_IpcSucceeded r.1) then print_failed n;; set_var (with_ok false);; mret m
          else reply_loop k (n + 1) r.1 m
  end.

(** The end of both threads. *)
Definition get_killed : M T unit := on (L4_Set_MsgTag 0);; p ← L4_Pager; L4_Call svc dummy p;; mret tt.

(** The last test of each thread: the identifier of the sender. *)
Definition t1_from_test (name : Z) : M T unit :=
  r ← L4_Wait svc from_addr;
  let from := default junk_id r.2 in
  set_var (with_ok true);;
  t2 ← var ipc_t2;
  l ← L4_LocalIdOf t2;
  when (negb (from =? l)) (l' ← L4_LocalIdOf t2; print (t_returned_id from l' t2);; set_var (with_ok false));;
  b ← on (gets ipc_ok); print_result name b;;
  on (L4_Set_MsgTag 0);;
  L4_Send svc t2;; mret tt.
Definition t2_from_test : M T unit :=
  on (L4_Set_MsgTag 0);;
  t1 ← var ipc_t1;
  L4_Send svc t1;;
  L4_Receive svc dummy t1;; mret tt.

(** [names] are the addresses of the names of the three tests. *)
Definition simple_ipc_t1_l (names : Z * Z * Z) : M T unit :=
  set_var (with_ok true);;
  m ← receive_loop (Z.to_nat __L4_NUM_MRS) 0 msg;
  b ← on (gets ipc_ok); print_result names.1.1 b;;
  set_var (with_ok true);;
  t2 ← var ipc_t2;
  tag ← L4_Call svc dummy t2;
  m ← reply_loop (Z.to_nat __L4_NUM_MRS) 0 tag m;
  b ← on (gets ipc_ok); print_result names.1.2 b;;
  t1_from_test names.2;;
  get_killed.

Fixpoint append_words (k : nat) (i : Z) : M L4_Msg_t unit :=
  match k with O => mret tt | S k => L4_MsgAppendWord i;; append_words k (i + 1) end.
(** The message with a label and the words 1 to [n]. *)
Definition test_message (label n : Z) : M L4_Msg_t unit := L4_MsgClear;; L4_Set_MsgLabel label;; append_words (Z.to_nat n) 1.

(** The sender's loops. *)
Fixpoint send_loop (k : nat) (n : Z) (m : L4_Msg_t) : M T L4_Msg_t :=
  match k with
  | O => mret m
  | S k =>
      m ← build (test_message 0xf00f n) m;
      on (L4_MsgLoad m);;
      t1 ← var ipc_t1;
      tag ← L4_Send svc t1;
      if negb (L4_IpcSucceeded tag) then print_failed n;; set_var (with_ok false);; mret m else send_loop k (n + 1) m
  end.
Fixpoint send_reply_loop (k : nat) (n : Z) (m : L4_Msg_t) : M T L4_Msg_t :=
  match k with
  | O => mret m
  | S k =>
      m ← build (test_message 0xf00d n) m;
      on (L4_MsgLoad m);;
      t1 ← var ipc_t1;
      tag ← (if n =? __L4_NUM_MRS - 1 then L4_Send svc t1 else r ← L4_ReplyWait svc t1 tid_addr; mret r.1);
      if negb (L4_IpcSucceeded tag) then print_failed n;; set_var (with_ok false);; mret m else send_reply_loop k (n + 1) m
  end.

Definition simple_ipc_t2_l : M T unit :=
  m ← send_loop (Z.to_nat __L4_NUM_MRS) 0 msg;
  t1 ← var ipc_t1;
  L4_Receive svc dummy t1;;
  send_reply_loop (Z.to_nat __L4_NUM_MRS) 0 m;;
  t2_from_test;;
  get_killed.

(** The loops of [setup_ipc_threads]: [tag] and [tid] are those of the last message, [n] threads
    are left. *)
Fixpoint serve_threads (fuel : nat) (rcv_same_space snd_same_space : bool) (n tag tid : Z) (m : L4_Msg_t) : M T unit :=
  match fuel with
  | O => fuel_out
  | S fuel =>
      m ← on (L4_MsgStore tag m);
      if negb (L4_UntypedWords tag =? 2) || negb (L4_TypedWords tag =? 0) || negb (L4_IpcSucceeded tag) then
        kill_thread tid;;
        if n - 1 =? 0 then mret tt
        else r ← L4_Wait svc tid_addr; serve_threads fuel rcv_same_space snd_same_space (n - 1) r.1 (default tid r.2) m
      else
        w ← msg_word m 0;
        a ← var ipc_pf_abort_address;
        b ← var ipc_pf_block_address;
        if w =? a then
          L4_ExchangeRegisters tid (Z.shiftl 3 1) 0 0 0 0 L4_nilthread;;
          set_var (with_abort 0);;
          r ← L4_Wait svc tid_addr; serve_threads fuel rcv_same_space snd_same_space n r.1 (default tid r.2) m
        else if w =? b then r ← L4_Wait svc tid_addr; serve_threads fuel rcv_same_space snd_same_space n r.1 (default tid r.2) m
        else
          m ← build L4_MsgClear m;
          w ← msg_word m 0;
          safe_mem_touch (Z.land w 0xFFFFFFFC);;
          let fp := L4_FpageAddRights (L4_FpageLog2 w PAGE_BITS) L4_FullyAccessible in
          t1 ← var ipc_t1;
          t2 ← var ipc_t2;
          m ← (if ((tid =? t1) && negb rcv_same_space) || ((tid =? t2) && negb snd_same_space) then build (L4_MsgAppendMapItem (L4_MapItem fp w)) m else mret m);
          on (L4_MsgLoad m);;
          r ← L4_ReplyWait svc tid tid_addr;
          serve_threads fuel rcv_same_space snd_same_space n r.1 (default tid r.2) m
  end.

Definition setup_ipc_threads (fuel : nat) (desc : list (Z * Z)) (n kip_area utcb_area f1 f2 : Z) (rcv_same_space snd_same_space xcpu : bool) : M T unit :=
  set_var (with_block 0);;
  t1 ← test_create_thread desc n kip_area utcb_area NULL (negb rcv_same_space) (-1) 0;
  set_var (with_t1 t1);;
  cpu ← (if xcpu then p ← L4_ProcessorNo; mret ((p +w 1) mod 2) else mret (-1));
  t2 ← test_create_thread desc n kip_area utcb_area NULL (negb snd_same_space) cpu 0;
  set_var (with_t2 t2);;
  test_start_thread t1 f1;;
  test_start_thread t2 f2;;
  r ← L4_Wait svc tid_addr;
  serve_threads fuel rcv_same_space snd_same_space 2 r.1 (default junk_id r.2) msg.

(** [simple_ipc], all that [all_ipc_tests] and [all_tests] call, and [main] with the base of the
    first page of the program. *)
Definition simple_ipc (fuel : nat) (desc : list (Z * Z)) (n kip_area utcb_area f1 f2 : Z) : M T unit :=
  print t_simple_ipc;;
  setup_ipc_threads fuel desc n kip_area utcb_area f1 f2 true true false.
Definition test_main (fuel : nat) (desc : list (Z * Z)) (n kip_area utcb_area f1 f2 base : Z) : M T unit :=
  print t_start;;
  set_var (with_free_page base);;
  simple_ipc fuel desc n kip_area utcb_area f1 f2.
End program.

End l4test.
