(* ===== verification/L4testProps.v ===== *)
(** * The test program: correctness

    The string functions of [l4test] compare strings as they say, and the test of messages prints
    success exactly when the messages arrive as they were sent, which they do. *)

From S2P Require Import Prelude Bits Bytes BytesProps Boot ElfProps Thread ThreadMap Kernel Ipc IpcProps UserLib UserLibProps UserCalls UserThread RootThread L4test.
Import l4test.

(** ** Strings *)

(** The character at a string, which is 0 at its end. *)
Definition head_char (s : list Z) : Z := match s with [] => 0 | c :: _ => c end.
Lemma cstring_head m p s : cstring m p s -> m !! p = Some (head_char s).
Proof. destruct s as [|c s]; [done|]. by intros [H _]. Qed.

Lemma truth_char c : c <> 0 -> truth c = true.
Proof. intros H. unfold truth. by rewrite (proj2 (Z.eqb_neq c 0)). Qed.

(** [test_strlen] is the length of the string. *)
Theorem strlen_counts m s : forall p fuel, cstring m p s -> (length s < fuel)%nat -> Z.of_nat (length s) < 2 ^ 31 -> test_strlen fuel p m = Done (Z.of_nat (length s), m).
Proof.
  assert (H : forall s p fuel n, cstring m p s -> (length s < fuel)%nat -> 0 <= n -> n + Z.of_nat (length s) < 2 ^ 31 -> strlen_loop fuel p n m = Done (n + Z.of_nat (length s), m)).
  { induction s0 as [|c s0 IH]; intros p [|fuel] n Hs Hf Hn Hb; cbn [length] in *; try lia; cbn [strlen_loop].
    - rewrite (bind_Done _ _ _ _ _ (read8_ok _ _ _ Hs)). cbn [truth Z.eqb negb]. by rewrite Z.add_0_r.
    - destruct Hs as (Hc & Hnz & Hs). rewrite (bind_Done _ _ _ _ _ (read8_ok _ _ _ Hc)). rewrite truth_char by done. rewrite s32_small by lia. rewrite IH by (done || lia). do 2 f_equal. lia. }
  intros p fuel Hs Hf Hb. unfold test_strlen. rewrite (H s p fuel 0) by (done || lia). done.
Qed.

(** The order of strings by their first difference. *)
Fixpoint lex (s t : list Z) : Z :=
  match s, t with
  | [], [] => 0
  | [], _ :: _ => -1
  | _ :: _, [] => 1
  | a :: s, b :: t => if a <? b then -1 else if a >? b then 1 else lex s t
  end.

(** [test_strcmp] is the lexicographic order. *)
Theorem strcmp_orders m s : forall t p q fuel, cstring m p s -> cstring m q t -> (length s < fuel)%nat -> test_strcmp fuel p q m = Done (lex s t, m).
Proof.
  induction s as [|a s IH]; intros t p q [|fuel] Hs Ht Hf; cbn [length] in Hf; try lia; cbn [test_strcmp].
  - rewrite (bind_Done _ _ _ _ _ (read8_ok _ _ _ Hs)), (bind_Done _ _ _ _ _ (read8_ok _ _ _ (cstring_head _ _ _ Ht))). destruct t as [|b t]; [done|]. destruct Ht as (_ & Hb & _). cbn [head_char]. by rewrite (truth_char b).
  - destruct Hs as (Ha & Hna & Hs). rewrite (bind_Done _ _ _ _ _ (read8_ok _ _ _ Ha)), (bind_Done _ _ _ _ _ (read8_ok _ _ _ (cstring_head _ _ _ Ht))). destruct t as [|b t].
    + cbn [head_char]. by rewrite (truth_char a).
    + destruct Ht as (_ & Hb & Ht). cbn [head_char lex]. rewrite !truth_char by done. cbn [andb]. destruct (a <? b); [done|]. destruct (a >? b); [done|]. apply IH; [done|done|lia].
Qed.

(** A path without its unit addresses: what stands between [@] and the next [/]. *)
Fixpoint strip_units (unit : bool) (s : list Z) : list Z :=
  match s with
  | [] => []
  | c :: s => if c =? chr_slash then c :: strip_units false s else if unit || (c =? chr_at) then strip_units true s else c :: strip_units false s
  end.

Lemma cstring_drop m s : forall p n, cstring m p s -> (n <= length s)%nat -> cstring m (p + Z.of_nat n) (drop n s).
Proof.
  induction s as [|c s IH]; intros p [|n] Hs Hn; cbn [length] in Hn; try lia; [by rewrite Z.add_0_r|by rewrite Z.add_0_r|].
  destruct Hs as (_ & _ & Hs). replace (p + Z.of_nat (S n)) with (p + 1 + Z.of_nat n) by lia. apply IH; [done|lia].
Qed.

(** [skip_unit] stops at the next [/] or at the end. *)
Lemma skip_unit_ok m s : forall p fuel, cstring m p s -> (length s < fuel)%nat ->
  exists n, skip_unit fuel p m = Done (p + Z.of_nat n, m) /\ (n <= length s)%nat /\ strip_units true s = strip_units false (drop n s) /\ (drop n s = [] \/ exists t, drop n s = chr_slash :: t).
Proof.
  induction s as [|c s IH]; intros p [|fuel] Hs Hf; cbn [length] in *; try lia; cbn [skip_unit].
  - rewrite (bind_Done _ _ _ _ _ (read8_ok _ _ _ Hs)). exists 0%nat. rewrite Z.add_0_r. split; [done|]. split; [lia|]. split; [done|by left].
  - destruct Hs as (Hc & Hnz & Hs). rewrite (bind_Done _ _ _ _ _ (read8_ok _ _ _ Hc)). rewrite (truth_char c) by done. cbn [andb]. destruct (Z.eqb_spec c chr_slash) as [->|Hne]; cbn [negb].
    + exists 0%nat. rewrite Z.add_0_r. split; [done|]. split; [lia|]. split; [done|]. right. by exists s.
    + destruct (IH (p + 1) fuel Hs ltac:(lia)) as (n & E & Hn & Hst & Hd). exists (S n). split; [rewrite E; do 2 f_equal; lia|]. split; [lia|]. split; [|exact Hd].
      cbn [strip_units drop]. rewrite (proj2 (Z.eqb_neq c chr_slash)) by done. exact Hst.
Qed.

(** [strcmp_of] finds that a path is the one looked for, exactly when the path without its unit
    addresses is it. *)
Theorem strcmp_of_matches m t : forall s p q fuel, cstring m p s -> cstring m q t -> chr_at ∉ t -> (length s + length t < fuel)%nat ->
  exists r, strcmp_of fuel p q m = Done (r, m) /\ (r = 0 <-> strip_units false s = t).
Proof.
  induction t as [|b t IH]; intros s p q [|fuel] Hs Ht Hat Hf; try lia; cbn [strcmp_of].
  - rewrite (bind_Done _ _ _ _ _ (read8_ok _ _ _ (cstring_head _ _ _ Hs))), (bind_Done _ _ _ _ _ (read8_ok _ _ _ Ht)). rewrite andb_false_r. cbn [truth Z.eqb negb].
    destruct s as [|a s]; cbn [head_char].
    + exists 0. split; [|done]. change (0 =? chr_at) with false. cbv iota. rewrite (bind_Done (mret p) _ m p m eq_refl), (bind_Done _ _ _ _ _ (read8_ok _ _ _ Hs)). done.
    + destruct (Z.eqb_spec a chr_at) as [->|Hne].
      * destruct (skip_unit_ok m (chr_at :: s) p (S fuel) Hs ltac:(cbn in *; lia)) as (n & E & Hn & Hst & Hd). rewrite (bind_Done _ _ _ _ _ E).
        rewrite (bind_Done _ _ _ _ _ (read8_ok _ _ _ (cstring_head _ _ _ (cstring_drop _ _ _ _ Hs Hn)))).
        change (strip_units false (chr_at :: s)) with (strip_units true (chr_at :: s)). rewrite Hst. destruct Hd as [->|(t' & ->)]; [by exists 0|by exists 1].
      * rewrite (bind_Done (mret p) _ m p m eq_refl). rewrite (bind_Done _ _ _ _ _ (read8_ok _ _ _ (cstring_head _ _ _ Hs))). cbn [head_char]. rewrite (truth_char a) by apply Hs. exists 1. split; [done|].
        cbn [strip_units orb]. rewrite (proj2 (Z.eqb_neq a chr_at)) by done. by destruct (a =? chr_slash).
  - destruct Ht as (Hb & Hnb & Ht). rewrite not_elem_of_cons in Hat. destruct Hat as [Hbat Hat]. cbn [length] in Hf.
    rewrite (bind_Done _ _ _ _ _ (read8_ok _ _ _ (cstring_head _ _ _ Hs))), (bind_Done _ _ _ _ _ (read8_ok _ _ _ Hb)). rewrite (truth_char b), andb_true_r by done. destruct s as [|a s]; cbn [head_char].
    { by exists (-1). }
    pose proof Hs as (Ha & Hna & Hs'). rewrite (truth_char a) by done. destruct (Z.eqb_spec a chr_at) as [->|Hne]; [destruct (Z.eqb_spec b chr_slash) as [->|Hbs]|]; cbn [andb].
    + destruct (skip_unit_ok m (chr_at :: s) p (S fuel) Hs ltac:(cbn in *; lia)) as (n & E & Hn & Hst & Hd). rewrite (bind_Done _ _ _ _ _ E).
      pose proof (cstring_drop _ _ _ _ Hs Hn) as Hd'. rewrite (bind_Done _ _ _ _ _ (read8_ok _ _ _ (cstring_head _ _ _ Hd'))).
      change (strip_units false (chr_at :: s)) with (strip_units true (chr_at :: s)). rewrite Hst. assert (Hl : (length (drop n (chr_at :: s)) <= length (chr_at :: s))%nat) by (rewrite length_drop; lia).
      destruct Hd as [Ed|(t' & Ed)]; rewrite Ed in *; cbn [head_char]; [by exists (-1)|].
      destruct (IH t' (p + Z.of_nat n + 1) (q + 1) fuel) as (r & Er & Hr); [apply Hd'|done|done|cbn [length] in *; lia|]. exists r. split; [exact Er|].
      rewrite Hr. change (strip_units false (chr_slash :: t')) with (chr_slash :: strip_units false t'). split; [by intros ->|congruence].
    + rewrite (bind_Done (mret p) _ m p m eq_refl), (bind_Done _ _ _ _ _ (read8_ok _ _ _ Ha)). rewrite (truth_char chr_at) by done. cbn [negb].
      assert (Hns : strip_units true s <> b :: t).
      { clear -Hbs. induction s as [|c s IH]; [done|]. cbn [strip_units orb]. destruct (Z.eqb_spec c chr_slash) as [->|]; [congruence|exact IH]. }
      destruct (chr_at <? b) eqn:E1; [by exists (-1)|]. destruct (chr_at >? b) eqn:E2; [by exists 1|]. exfalso. lia.
    + rewrite (bind_Done (mret p) _ m p m eq_refl), (bind_Done _ _ _ _ _ (read8_ok _ _ _ Ha)). rewrite (truth_char a) by done. cbn [negb].
      assert (Est : strip_units false (a :: s) = a :: strip_units false s) by (cbn [strip_units orb]; rewrite (proj2 (Z.eqb_neq a chr_at)) by done; by destruct (a =? chr_slash)).
      rewrite Est. destruct (Z.ltb_spec a b); [exists (-1); split; [done|]; split; [done|intros Eq; injection Eq; lia]|].
      rewrite Z.gtb_ltb. destruct (Z.ltb_spec b a); [exists 1; split; [done|]; split; [done|intros Eq; injection Eq; lia]|].
      assert (a = b) as -> by lia. destruct (IH s (p + 1) (q + 1) fuel) as (r & Er & Hr); [done|done|done|cbn [length] in *; lia|]. exists r. split; [exact Er|]. rewrite Hr. split; [by intros ->|congruence].
Qed.

(** ** The receiver of the test *)

(** The thread that receives, and the registers of the messages that will arrive. *)
Record tstate := mk_t {
  ts_v : vregs;
  ts_u : utcb;
  ts_vars : l4vars;
  ts_log : list text;
  ts_mem : bytes;
  ts_in : list vregs;
}.
#[export] Instance ts_v_part : Part vregs tstate := { get_part := ts_v; put_part v s := mk_t v (ts_u s) (ts_vars s) (ts_log s) (ts_mem s) (ts_in s) }.
#[export] Instance ts_u_part : Part utcb tstate := { get_part := ts_u; put_part u s := mk_t (ts_v s) u (ts_vars s) (ts_log s) (ts_mem s) (ts_in s) }.
#[export] Instance ts_vars_part : Part l4vars tstate := { get_part := ts_vars; put_part x s := mk_t (ts_v s) (ts_u s) x (ts_log s) (ts_mem s) (ts_in s) }.
#[export] Instance ts_log_part : Part (list text) tstate := { get_part := ts_log; put_part l s := mk_t (ts_v s) (ts_u s) (ts_vars s) l (ts_mem s) (ts_in s) }.
#[export] Instance ts_mem_part : Part bytes tstate := { get_part := ts_mem; put_part m s := mk_t (ts_v s) (ts_u s) (ts_vars s) (ts_log s) m (ts_in s) }.

(** A call that receives gives the thread the registers of the next message; one that only sends
    returns. *)
Definition next_message : M tstate Z := fun s =>
  match ts_in s with [] => Fault | v :: l => Done (0, mk_t v (ts_u s) (ts_vars s) (ts_log s) (ts_mem s) l) end.
Definition svc_in (num r0 r1 r2 r3 : Z) : M tstate Z := if (num =? 6) && (r0 =? L4_nilthread) then next_message else mret 0.

(** The message of the turn [n] has at least [n] words, and no more than an object can hold. *)
Definition tag_of (v : vregs) : Z := head_char (vr_words v).
Definition arrives (n : nat) (v : vregs) : Prop :=
  vr_ok v /\ is_u32 (tag_of v) /\ Z.of_nat n <= L4_UntypedWords (tag_of v) + L4_TypedWords (tag_of v) <= 15.
(** It is the one that was sent. *)
Definition expected (n : nat) (v : vregs) : bool :=
  L4_IpcSucceeded (tag_of v) && (L4_Label (tag_of v) =? 0xf00f) && bool_decide (take n (drop 1 (vr_words v)) = seqZ 1 (Z.of_nat n)).
Fixpoint all_expected (n : nat) (l : list vregs) : bool := match l with [] => true | v :: l => expected n v && all_expected (S n) l end.

Section receiver.
Variable msg : L4_Msg_t.
Variables dummy va : Z.
Variable addr : text -> Z.
Hypothesis Hmsg : length msg = 16%nat.

(** Everything but the registers and the log. *)
Definition same_thread (s s' : tstate) : Prop := vr_ok (ts_v s') /\ ts_u s' = ts_u s /\ ts_vars s' = ts_vars s /\ ts_in s' = ts_in s.

Lemma cleared_view : exists m, L4_MsgClear msg = Done (tt, m) /\ msg_view m [] [].
Proof.
  destruct msg as [|x l]; [done|]. exists (0 :: l). split; [reflexivity|]. exists 0, l. split; [done|]. split; [done|]. done.
Qed.

Lemma print_ok t s : vr_ok (ts_v s) -> exists s', print svc_in msg va addr t s = Done (tt, s') /\ same_thread s s'.
Proof.
  intros Hv. unfold print.
  assert (Elog : on (modify (fun l : list text => l ++ [t])) s = Done (tt, put_part (ts_log s ++ [t]) s)) by reflexivity. rewrite (bind_Done _ _ _ _ _ Elog). set (s1 := put_part (ts_log s ++ [t]) s).
  destruct cleared_view as (m0 & E0 & V0). destruct (L4_MsgAppendWord_ok m0 [] [] (addr t) V0) as (m1 & E1 & V1); [cbn; lia|]. destruct (L4_MsgAppendWord_ok m1 _ [] va V1) as (m2 & E2 & V2); [cbn; lia|].
  assert (Eb : build (L4_MsgClear;; L4_MsgAppendWord (addr t);; L4_MsgAppendWord va) msg s1 = Done (m2, s1)).
  { unfold build. by rewrite (bind_Done _ _ _ _ _ E0), (bind_Done _ _ _ _ _ E1), E2. }
  destruct (L4_MsgLoad_ok (ts_v s) m2 _ _ Hv V2) as (v' & El & Hv' & _). destruct (v_regs v') as [|r0 rs] eqn:Er; [by destruct Hv' as [H _]; rewrite Er in H|].
  exists (put_part v' s1). split; [|done].
  assert (Ep : UserCalls.printf svc_in msg va (addr t) s1 = Done (0, put_part v' s1)).
  { unfold UserCalls.printf. rewrite (bind_Done _ _ _ _ _ Eb), (bind_Done _ _ _ _ _ (on_Done (P := vregs) _ s1 _ _ El)). unfold L4_Send, L4_Send_Timeout, L4_Ipc.
    change (svc_in 6 (TID_TO_GLOBALID THREAD_LOG)) with (fun _ _ _ : Z => mret 0 : M tstate Z). unfold mbind, M_bind, mret, M_ret, on, zoom, get_reg. cbn [get_part ts_v_part ts_v put_part]. by rewrite Er. }
  by rewrite (bind_Done _ _ _ _ _ Ep).
Qed.

Lemma clear_mrs_ok j : forall k s, vr_ok (ts_v s) -> 0 <= k -> k + Z.of_nat j <= 16 -> exists s', clear_mrs j k s = Done (tt, s') /\ same_thread s s' /\ ts_log s' = ts_log s.
Proof.
  induction j as [|j IH]; intros k s Hv Hk Hj; [by exists s|]. cbn [clear_mrs].
  assert (E : exists v', L4_LoadMR k 0 (ts_v s) = Done (tt, v') /\ vr_ok v').
  { destruct Hv as [H8 H8']. unfold L4_LoadMR. destruct (Z.leb_spec 0 k); [|lia]. destruct (Z.ltb_spec k 8); cbn [andb].
    - unfold put_reg. rewrite zinsert_Some by lia. eexists. split; [reflexivity|]. split; cbn; [by rewrite length_insert|done].
    - destruct (Z.geb_spec k 0); [|lia]. unfold __L4_NUM_MRS. destruct (Z.ltb_spec k 16); [|lia]. cbn [andb]. unfold put_mr. rewrite zinsert_Some by lia.
      eexists. split; [reflexivity|]. split; cbn; [done|by rewrite length_insert]. }
  destruct E as (v' & E & Hv'). rewrite (bind_Done _ _ _ _ _ (on_Done (P := vregs) _ s _ _ E)). set (s1 := put_part v' s). destruct (IH (k + 1) s1) as (s' & E' & (H1 & H2 & H3 & H4) & H5); [exact Hv'|lia|lia|].
  by exists s'.
Qed.

(** The words of an object, from the [i]-th on. *)
Lemma check_words_ok m n k : forall i s, (1 <= i)%nat -> (i + k <= 16)%nat -> length m = 16%nat -> vr_ok (ts_v s) -> ipc_ok (ts_vars s) = true ->
  exists s', check_words svc_in msg va addr k (Z.of_nat i) n m s = Done (tt, s') /\ vr_ok (ts_v s') /\ ts_in s' = ts_in s /\
    ts_vars s' = with_ok (bool_decide (take k (drop i m) = seqZ (Z.of_nat i) (Z.of_nat k))) (ts_vars s).
Proof.
  assert (Hsame : forall x, ipc_ok x = true -> with_ok true x = x) by (intros []; cbn; by intros ->).
  induction k as [|k IH]; intros i s Hi Hk Hm Hv Hok; cbn [check_words].
  { exists s. split; [done|]. split; [done|]. split; [done|]. rewrite bool_decide_true by done. by rewrite Hsame. }
  destruct (m !! i) as [val|] eqn:Ei; [|apply lookup_ge_None in Ei; lia].
  rewrite (bind_Done (msg_word m (Z.of_nat i - 1)) _ s val s) by (unfold msg_word; replace (Z.of_nat i - 1 + 1) with (Z.of_nat i) by lia; by rewrite zlookup_nat, Ei).
  rewrite (drop_S _ _ _ Ei). cbn [take]. rewrite (seqZ_cons (Z.of_nat i) (Z.of_nat (S k))) by lia. replace (Z.pred (Z.of_nat (S k))) with (Z.of_nat k) by lia. replace (Z.succ (Z.of_nat i)) with (Z.of_nat (S i)) by lia.
  destruct (Z.eqb_spec val (Z.of_nat i)) as [->|Hne]; cbn [negb].
  - rewrite (bind_Done (on (gets ipc_ok)) _ s true s) by (unfold on, zoom, gets; cbn [get_part ts_vars_part]; rewrite Hok; by destruct s). cbn [negb].
    replace (Z.of_nat i + 1) with (Z.of_nat (S i)) by lia. destruct (IH (S i) s) as (s' & E & Hv' & Hin & Hx); [lia|lia|done|done|done|]. exists s'. split; [done|]. split; [done|]. split; [done|].
    rewrite Hx. f_equal. apply bool_decide_ext. split; [by intros ->|congruence].
  - destruct (print_ok (t_wrong_value n (Z.of_nat i) val) s Hv) as (s1 & E1 & Hv1 & Hu1 & Hx1 & Hin1). rewrite (bind_Done _ _ _ _ _ E1). eexists. split; [reflexivity|]. split; [done|]. split; [done|].
    cbn. rewrite Hx1, bool_decide_false by congruence. done.
Qed.

Lemma receive_ok x s v l : ts_in s = v :: l -> vr_ok v -> L4_Receive svc_in dummy x s = Done (tag_of v, mk_t v (ts_u s) (ts_vars s) (ts_log s) (ts_mem s) l).
Proof.
  intros Hin [H8 _]. destruct v as [[|r0 rs] mr br]; [done|]. unfold L4_Receive, L4_Receive_Timeout, L4_Ipc.
  change (svc_in 6 L4_nilthread) with (fun _ _ _ : Z => next_message). unfold mbind, M_bind, next_message. by rewrite Hin.
Qed.

(** The object after the message is stored. *)
Lemma stored_ok n v m : arrives n v -> length m = 16%nat ->
  exists m', L4_MsgStore (tag_of v) m v = Done (m', v) /\ length m' = 16%nat /\ take n (drop 1 m') = take n (drop 1 (vr_words v)).
Proof.
  intros (Hv & Hu & Hn & Hle) Hm. pose proof Hv as [H8 H8']. destruct v as [regs mr br]. cbn [v_regs v_mr] in *. destruct regs as [|tag rs]; [done|]. unfold tag_of, vr_words in *. cbn [v_regs v_mr app head_char] in *.
  assert (H1 : 0 <= L4_UntypedWords tag) by (apply field_range; [apply Hu|done]). assert (H2 : 0 <= L4_TypedWords tag) by (apply field_range; [apply Hu|done]).
  set (us := take (Z.to_nat (L4_UntypedWords tag)) (rs ++ mr)). set (r1 := drop (Z.to_nat (L4_UntypedWords tag)) (rs ++ mr)). set (ts := take (Z.to_nat (L4_TypedWords tag)) r1).
  set (r2 := drop (Z.to_nat (L4_TypedWords tag)) r1).
  assert (Hw : rs ++ mr = us ++ ts ++ r2) by (unfold us, ts, r2, r1; by rewrite take_drop, take_drop).
  assert (Hl : length (rs ++ mr) = 15%nat) by (rewrite length_app; cbn in H8; lia).
  destruct (L4_MsgStore_ok (mk_vregs (tag :: rs) mr br) m tag us ts r2) as (m' & E & Hview & H0); [done|done|unfold vr_words; cbn; by rewrite Hw|done|unfold us; rewrite length_take; lia|unfold ts, r1; rewrite length_take, length_drop; lia|].
  exists m'. split; [exact E|]. destruct Hview as (tag' & rest & -> & Hlm & _). split; [done|]. cbn [drop]. rewrite Hw, !(app_assoc us), !drop_0.
  rewrite (take_app_le (us ++ ts) rest), (take_app_le (us ++ ts) r2); [done|..]; unfold us, ts, r1; rewrite length_app, !length_take, length_drop; lia.
Qed.

Lemma print_failed_ok n s : vr_ok (ts_v s) -> exists s', print_failed svc_in msg va addr n s = Done (tt, s') /\ same_thread s s'.
Proof.
  intros Hv. unfold print_failed. assert (E : L4_ErrorCode s = Done (u_error_code (ts_u s), s)) by (by destruct s). rewrite (bind_Done _ _ _ _ _ E), (bind_Done _ _ _ _ _ E). by apply print_ok.
Qed.

(** The turns of the loop. *)
Lemma receive_loop_ok l : forall n m s, ts_in s = l -> (n + length l <= 16)%nat -> length m = 16%nat -> vr_ok (ts_v s) -> ipc_ok (ts_vars s) = true ->
  (forall i v, l !! i = Some v -> arrives (n + i) v) ->
  exists m' s', receive_loop svc_in msg dummy va addr (length l) (Z.of_nat n) m s = Done (m', s') /\ ipc_ok (ts_vars s') = all_expected n l.
Proof.
  induction l as [|v l IH]; intros n m s Hin Hn Hm Hv Hok Har; cbn [length receive_loop all_expected]; [by exists m, s|]. cbn [length] in Hn.
  destruct (clear_mrs_ok (Z.to_nat (__L4_NUM_MRS - 1)) 1 s Hv) as (s1 & E1 & (Hv1 & Hu1 & Hx1 & Hin1) & _); [lia|done|]. rewrite (bind_Done _ _ _ _ _ E1).
  rewrite (bind_Done (var ipc_t2) _ s1 (ipc_t2 (ts_vars s1)) s1) by (by destruct s1).
  pose proof (Har 0%nat v eq_refl) as Ha. rewrite Nat.add_0_r in Ha. pose proof Ha as (Hvv & _). rewrite Hin in Hin1. rewrite (bind_Done _ _ _ _ _ (receive_ok _ s1 v l Hin1 Hvv)). set (s2 := mk_t v _ _ _ _ l).
  unfold expected. destruct (L4_IpcSucceeded (tag_of v)); cbn [negb andb].
  2: { destruct (print_failed_ok (Z.of_nat n) s2 Hvv) as (s3 & E3 & _ & _ & Hx3 & _). rewrite (bind_Done _ _ _ _ _ E3). exists m. eexists. split; [reflexivity|]. done. }
  destruct (stored_ok n v m Ha Hm) as (m' & Em & Hlm & Hwords). rewrite (bind_Done _ _ _ _ _ (on_Done (P := vregs) _ s2 _ _ Em)). change (put_part v s2) with s2.
  destruct (L4_Label (tag_of v) =? 0xf00f); cbn [negb andb].
  2: { destruct (print_ok (t_wrong_label (Z.of_nat n) (L4_Label (tag_of v)) 0xf00f) s2 Hvv) as (s3 & E3 & _ & _ & Hx3 & _). rewrite (bind_Done _ _ _ _ _ E3). exists m'. eexists. split; [reflexivity|]. done. }
  rewrite Nat2Z.id. destruct (check_words_ok m' (Z.of_nat n) n 1 s2) as (s3 & E3 & Hv3 & Hin3 & Hx3); [lia|lia|done|done|cbn [ts_vars s2]; by rewrite Hx1|].
  change (Z.of_nat 1) with 1 in E3, Hx3. rewrite (bind_Done _ _ _ _ _ E3), Hwords in *. set (b := bool_decide _) in *.
  assert (Eo : on (gets ipc_ok) s3 = Done (ipc_ok (ts_vars s3), s3)) by (by destruct s3). rewrite Hx3 in Eo. rewrite (bind_Done _ _ _ _ _ Eo). cbn [ipc_ok with_ok].
  destruct b; cbn [negb andb]; [|exists m', s3; by rewrite Hx3]. replace (Z.of_nat n + 1) with (Z.of_nat (S n)) by lia.
  apply IH; [done|lia|done|done|by rewrite Hx3|]. intros i w Hw. replace (S n + i)%nat with (n + S i)%nat by lia. by apply Har.
Qed.
End receiver.

(** ** Sender, kernel and receiver *)

(** The tag of a message with the label of the test and [j] words. *)
Definition test_tag (j : nat) : Z := 0xf00f0000 + Z.of_nat j.
Lemma test_tag_ok j : (j < 16)%nat -> L4_UntypedWords (test_tag j) = Z.of_nat j /\ L4_TypedWords (test_tag j) = 0 /\ L4_Label (test_tag j) = 0xf00f /\ L4_IpcSucceeded (test_tag j) = true /\
  put_bits (test_tag j) 0 6 (L4_UntypedWords (test_tag j) + 1) = test_tag (S j) /\ is_u32 (test_tag j).
Proof. intros Hj. do 16 (destruct j as [|j]; [by vm_compute|]). lia. Qed.

Lemma append_test_word us x rest w : (length us < 15)%nat -> L4_MsgAppendWord w (test_tag (length us) :: us ++ x :: rest) = Done (tt, test_tag (length (us ++ [w])) :: (us ++ [w]) ++ rest).
Proof.
  intros Hl. destruct (test_tag_ok (length us)) as (_ & Ht & _ & _ & Hp & _); [lia|]. destruct (test_tag_ok (S (length us))) as (Hu & _); [lia|].
  unfold L4_MsgAppendWord. rewrite (bind_Done _ _ _ _ _ (msg_tag (test_tag (length us)) _)), Ht. cbn [truth Z.eqb negb when].
  rewrite (bind_Done (mret tt) _ _ tt _ eq_refl), (bind_Done _ _ _ _ _ (msg_tag (test_tag (length us)) _)), Hp.
  assert (E0 : msg_put 0 (test_tag (S (length us))) (test_tag (length us) :: us ++ x :: rest) = Done (tt, test_tag (S (length us)) :: us ++ x :: rest)) by reflexivity.
  rewrite (bind_Done _ _ _ _ _ E0), Hu.
  rewrite (msg_put_ok _ (S (length us)) w) by (cbn; rewrite length_app; cbn; lia). rewrite length_app, Nat.add_1_r. rewrite insert_cons_S. rewrite insert_app_r_alt, Nat.sub_diag by lia. by rewrite <- app_assoc.
Qed.

Lemma append_test_words k : forall us rest, (length us + k < 16)%nat -> (k <= length rest)%nat ->
  append_words k (Z.of_nat (S (length us))) (test_tag (length us) :: us ++ rest) =
    Done (tt, test_tag (length us + k) :: (us ++ seqZ (Z.of_nat (S (length us))) (Z.of_nat k)) ++ drop k rest).
Proof.
  induction k as [|k IH]; intros us rest Hl Hr; cbn [append_words]; [rewrite Nat.add_0_r, drop_0; change (seqZ (Z.of_nat (S (length us))) (Z.of_nat 0)) with (@nil Z); by rewrite app_nil_r|]. destruct rest as [|x rest]; [cbn in Hr; lia|].
  rewrite (bind_Done _ _ _ _ _ (append_test_word us x rest (Z.of_nat (S (length us))) ltac:(lia))). pose proof (IH (us ++ [Z.of_nat (S (length us))]) rest) as E.
  rewrite length_app in E |- *. cbn [length] in *. replace (Z.of_nat (S (length us)) + 1) with (Z.of_nat (S (length us + 1))) by lia. rewrite E by lia.
  rewrite (seqZ_cons (Z.of_nat (S (length us)))) by lia. replace (Z.pred (Z.of_nat (S k))) with (Z.of_nat k) by lia. replace (Z.succ (Z.of_nat (S (length us)))) with (Z.of_nat (S (length us + 1))) by lia.
  replace (length us + 1 + k)%nat with (length us + S k)%nat by lia. by rewrite <- !app_assoc.
Qed.

(** The message of the sender's turn [n] in any object. *)
Lemma test_message_ok n m : (n < 16)%nat -> length m = 16%nat ->
  exists m', test_message 0xf00f (Z.of_nat n) m = Done (tt, m') /\ msg_view m' (seqZ 1 (Z.of_nat n)) [] /\ m' !! 0%nat = Some (test_tag n).
Proof.
  intros Hn Hm. destruct m as [|x m]; [done|]. cbn [length] in Hm. injection Hm as Hm.
  exists (test_tag n :: seqZ 1 (Z.of_nat n) ++ drop n m). split; [|split; [|done]].
  - unfold test_message. assert (E0 : L4_MsgClear (x :: m) = Done (tt, 0 :: m)) by reflexivity. rewrite (bind_Done _ _ _ _ _ E0).
    assert (E1 : L4_Set_MsgLabel 0xf00f (0 :: m) = Done (tt, test_tag 0 :: m)) by reflexivity. rewrite (bind_Done _ _ _ _ _ E1). rewrite Nat2Z.id. exact (append_test_words n [] m ltac:(cbn; lia) ltac:(lia)).
  - destruct (test_tag_ok n Hn) as (H1 & H2 & _ & _ & _ & H3). exists (test_tag n), (drop n m). split; [done|]. split; [cbn; rewrite length_app, length_seqZ, length_drop; lia|].
    split; [done|]. rewrite length_seqZ, Nat2Z.id. done.
Qed.

(** [v] are the registers of the receiver after the kernel has transferred the message that the
    sender has built and loaded in its turn [n]. *)
Definition transferred (n : nat) (v : vregs) : Prop :=
  exists s from to recv f t uf u m m1 w s' t' u',
    length m = 16%nat /\ vr_ok w /\ test_message 0xf00f (Z.of_nat n) m = Done (tt, m1) /\ L4_MsgLoad m1 w = Done (tt, thread_vregs f uf) /\
    partners s from to f t uf u recv /\ do_ipc from to s = Done (tt, s') /\ has_message (k_thr s') to t' u' /\ v = thread_vregs t' u'.

Lemma transferred_expected n v : (n < 16)%nat -> transferred n v -> arrives n v /\ expected n v = true.
Proof.
  intros Hn (s & from & to & recv & f & t & uf & u & m & m1 & w & s' & t' & u' & Hm & Hw & Eb & El & Hp & Ei & Hh & ->).
  destruct (test_message_ok n m Hn Hm) as (m1' & Eb' & Hview & Htag). rewrite Eb in Eb'. injection Eb' as <-.
  destruct (transfer_ok s from to recv f t uf u m1 _ w Hw Hview El Hp) as (s2 & t2 & u2 & tag & Ei2 & Hh2 & Hv & Hws & Htag' & Hu & H1 & H2 & _).
  rewrite Ei in Ei2. injection Ei2 as <-. rewrite Htag in Htag'. injection Htag' as <-. destruct Hh as (Ht & Hu' & _), Hh2 as (Ht2 & Hu2 & _).
  rewrite Ht in Ht2. injection Ht2 as <-. rewrite Hu' in Hu2. injection Hu2 as <-. destruct (test_tag_ok n Hn) as (T1 & T2 & T3 & T4 & _ & T5).
  assert (Htg : tag_of (thread_vregs t' u') = test_tag n) by (unfold tag_of; by rewrite Hws). split.
  - split; [done|]. rewrite Htg, T1, T2. split; [done|lia].
  - unfold expected. rewrite Htg, T3, T4, Hws. cbn [andb Z.eqb Pos.eqb]. apply bool_decide_eq_true. cbn [drop]. rewrite drop_0, take_app_length'; [done|]. by rewrite length_seqZ, Nat2Z.id.
Qed.

(** ** Properties *)

(** The verdict of the test: over the sixteen messages that arrive, with 0 to 15 words, [ipc_ok] is
    left set exactly when every message has arrived without an error, with its label and with its
    words, whatever the object and the registers held before. *)
Theorem ipc_test_verdict (msg m : L4_Msg_t) (dummy va : Z) (addr : text -> Z) (s : tstate)
    (Hmsg : length msg = 16%nat) (Hm : length m = 16%nat) (Hv : vr_ok (ts_v s)) (Hok : ipc_ok (ts_vars s) = true) (Hin : length (ts_in s) = 16%nat)
    (Har : forall i v, ts_in s !! i = Some v -> arrives i v) :
  exists m' s', receive_loop svc_in msg dummy va addr (Z.to_nat __L4_NUM_MRS) 0 m s = Done (m', s') /\ ipc_ok (ts_vars s') = all_expected 0 (ts_in s).
Proof.
  destruct (receive_loop_ok msg dummy va addr Hmsg (ts_in s) 0 m s) as (m' & s' & E & H); try done; [by rewrite Hin|].
  rewrite Hin in E. by exists m', s'.
Qed.

Lemma all_expected_true l : forall n, (n + length l <= 16)%nat -> (forall i v, l !! i = Some v -> transferred (n + i) v) -> all_expected n l = true.
Proof.
  induction l as [|v l IH]; intros n Hn H; cbn [all_expected]; [done|]. cbn [length] in Hn. pose proof (H 0%nat v eq_refl) as H0. rewrite Nat.add_0_r in H0.
  destruct (transferred_expected n v ltac:(lia) H0) as [_ ->]. apply IH; [lia|]. intros i w Hw. replace (S n + i)%nat with (n + S i)%nat by lia. by apply H.
Qed.

(** The test of messages passes on this kernel: when the sender of the test builds and loads the
    message of each turn and the kernel transfers it, the receiver finds all sixteen messages as
    expected. *)
Theorem ipc_test_passes (msg m : L4_Msg_t) (dummy va : Z) (addr : text -> Z) (s : tstate)
    (Hmsg : length msg = 16%nat) (Hm : length m = 16%nat) (Hv : vr_ok (ts_v s)) (Hok : ipc_ok (ts_vars s) = true) (Hin : length (ts_in s) = 16%nat)
    (Htr : forall i v, ts_in s !! i = Some v -> transferred i v) :
  exists m' s', receive_loop svc_in msg dummy va addr (Z.to_nat __L4_NUM_MRS) 0 m s = Done (m', s') /\ ipc_ok (ts_vars s') = true.
Proof.
  destruct (receive_loop_ok msg dummy va addr Hmsg (ts_in s) 0 m s) as (m' & s' & E & H); try done; [by rewrite Hin|..].
  - intros i v Hi. apply transferred_expected; [apply lookup_lt_Some in Hi; lia|by apply Htr].
  - rewrite Hin in E. exists m', s'. split; [done|]. rewrite H. apply all_expected_true; [by rewrite Hin|done].
Qed.

(** *** An example: the sixteen transfers between the threads of [IpcProps] *)

Definition test_sender (regs : list Z) : tcb := mk_tcb 4194304 64 T_SEND_BLOCKED 0 0 (mk_ctx 7000 4294967293 3 regs) 0 5000 0 3000 0 0.
Definition test_utcb (mr br : list Z) : utcb := mk_utcb 4194304 0 0 0 0 0 0 0 4210688 0 0 0 mr br.
Definition test_kernel (v : vregs) : kstate :=
  set_thr (set_utcbs (<[5000 := test_utcb (v_mr v) (v_br v)]> (utcbs ex_thr)) (set_tcbs (<[2000 := test_sender (v_regs v)]> (tcbs ex_thr)) ex_thr)) ex_kernel.

Lemma test_partners v : vr_ok v -> partners (test_kernel v) 2000 3000 (test_sender (v_regs v)) ex_receiver (test_utcb (v_mr v) (v_br v)) (ex_utcb 4210688 0) 0.
Proof. intros [H8 H8']. constructor; try discriminate; try reflexivity; try (by repeat split); by eexists. Qed.

Lemma transferred_exists n : (n < 16)%nat -> exists v, transferred n v.
Proof.
  intros Hn. destruct (test_message_ok n (replicate 16 7) Hn) as (m1 & E1 & Hview & _); [done|]. pose (w := mk_vregs (replicate 8 0) (replicate 8 0) (replicate 8 0)).
  destruct (L4_MsgLoad_ok w m1 _ _ ltac:(done) Hview) as (v & E2 & Hv & _). assert (Ev : thread_vregs (test_sender (v_regs v)) (test_utcb (v_mr v) (v_br v)) = v) by (by destruct v). rewrite <- Ev in E2.
  destruct (transfer_ok (test_kernel v) 2000 3000 0 _ _ _ _ m1 _ w ltac:(done) Hview E2 (test_partners v Hv)) as (s' & t' & u' & tag & E3 & Hh & _).
  exists (thread_vregs t' u'). do 13 eexists. exists u'. split; [|split; [|split; [exact E1|split; [exact E2|split; [exact (test_partners v Hv)|split; [exact E3|split; [exact Hh|done]]]]]]]; done.
Qed.

Lemma transfers_exist k : (k <= 16)%nat -> exists l, length l = k /\ forall i v, l !! i = Some v -> transferred i v.
Proof.
  induction k as [|k IH]; intros Hk; [by exists []|]. destruct IH as (l & Hl & H); [lia|]. destruct (transferred_exists k) as (v & Hv); [lia|]. exists (l ++ [v]). rewrite length_app, Hl. split; [cbn; lia|].
  intros i w Hi. apply lookup_app_Some in Hi as [Hi|[Hge Hi]]; [by apply H|]. rewrite Hl in *. destruct (i - k)%nat as [|j] eqn:Ej; [|done]. injection Hi as <-. assert (i = k) as -> by lia. done.
Qed.

Definition ex_test (l : list vregs) : tstate :=
  mk_t (mk_vregs (replicate 8 0) (replicate 8 0) (replicate 8 0)) (ex_utcb 4210688 0) (mk_l4vars 0 0 0 0 true 0 0) [] ∅ l.

Lemma ipc_test_passes_witness :
  exists l m' s', length l = 16%nat /\
    receive_loop svc_in (replicate 16 9) 0 0 (fun _ => 0) (Z.to_nat __L4_NUM_MRS) 0 (replicate 16 5) (ex_test l) = Done (m', s') /\ ipc_ok (ts_vars s') = true.
Proof.
  destruct (transfers_exist 16 ltac:(lia)) as (l & Hl & H). exists l.
  destruct (ipc_test_passes (replicate 16 9) (replicate 16 5) 0 0 (fun _ => 0) (ex_test l)) as (m' & s' & E & Hs);
    [reflexivity|reflexivity|split; reflexivity|reflexivity|exact Hl|exact H|].
  exists m', s'. split; [exact Hl|]. split; [exact E|exact Hs].
Defined.
